(* ===== verification/_CoqProject ===== *)
-Q . S2P
Prelude.v
Arrays.v
Chains.v
LimTypes.v
AidPool.v
CfgTable.v
CfgIface.v
CfgApi.v
CfgProc.v
DphHash.v
AdmitControl.v
WepAuth.v
PreAuth.v
AuthFrame.v
AuthMachine.v
AuthDemo.v
RxReorder.v
RxPn.v
DefragList.v
RxDefrag.v
DefragStore.v
DefragJoin.v
DefragMic.v
DefragTotal.v
DefragDemo.v
TxFlow.v
TxDemo.v
PeerRefs.v
PeerDemo.v
CdsTables.v
CdsConn.v
CdsPcl.v
CdsPolicy.v
CdsSession.v
CdsDemo.v
SapAcl.v
SapNol.v
SapLeak.v
SapDfs.v
SapFsm.v
SapLink.v
SapSafe.v
SapDemo.v
SapFsmDemo.v
DfsTypes.v
DfsLine.v
DfsBin.v
DfsEvent.v
DfsInit.v
DfsCheck.v
DfsSafe.v
DfsQuiet.v
DfsTrain.v
DfsSetup.v
DfsDemo.v
