(* ===== verification/Prelude.v ===== *)
(** * A verification library for the qcacld-3.0 WLAN host driver

    The driver (src/core) sits between the Linux wireless stack and the
    firmware.  Its layers are the OS glue (hdd), the station management entity
    with its roaming and scan logic (sme), the MAC protocol engine (mac/src/pe:
    lim, sch, rrm) with its configuration store (mac/src/cfg) and station table
    (mac/src/dph), the access-point manager with radar detection (sap), the
    common services (cds), the data path (dp/txrx, dp/htt) and the firmware
    interface (wma, bmi, ol, pld).  This library models state-carrying cores of
    the protocol engine, of its configuration and station tables, of the common
    services and of the data path in both directions: code whose correctness is a matter of data
    structures, state machines and arithmetic.

    ** How the model is laid out

    - [Prelude] (this file): machine integers as [Z] with explicit wrap-around,
      arrays as lists with C's out-of-range behaviour written out ([zget],
      [zset], [zread], [zwrite]), record updates, the result type [res], shared
      tactics and lemmas.
    - [Chains]: null-terminated chains threaded through the nodes of an array;
      used by every component whose lists live in its nodes.
    - [LimTypes]: return codes, roles, session states, MAC addresses.
    - [AidPool] (mac/src/pe/lim/lim_aid_mgmt.c, lim_session_utils.c): the free
      list of association ids, threaded through a byte array.
    - [CfgTable], [CfgApi], [CfgProc] (mac/src/cfg): the 222 parameters with
      their built-in table, the store of integers and strings, and the messages
      by which the host downloads, reads and writes it.  [CfgIface] is the class
      through which other components read parameters; [CfgProc] provides its
      instance.
    - [DphHash] (mac/src/dph/dph_hash_table.c): the table of stations, an array
      indexed by association id with hash buckets threaded through it.
    - [AdmitControl] (mac/src/pe/lim/lim_admit_control.c): admission of traffic
      streams, on top of [DphHash] and [CfgIface].
    - [WepAuth] (mac/src/pe/lim/lim_security_utils.c): RC4, CRC-32 and the
      encrypted authentication frame.
    - [PreAuth] (lim_security_utils.c, lim_assoc_utils.c): the contexts of
      stations that are authenticating.
    - [AuthFrame] (lim_process_auth_frame.c and the request, timeout and
      transmission functions around it): the four authentication frames on one
      session, using [CfgApi], [DphHash], [WepAuth] and [PreAuth].
    - [AuthMachine]: the handlers of [AuthFrame] as one machine driven by
      frames, requests and timeouts; [AuthDemo]: concrete sessions.

    - [RxReorder] (dp/txrx/ol_rx_reorder.c): the reorder window of a block-ack
      agreement: slots that hold chains of buffers, storing, releasing,
      flushing, the scan for the first hole, the duplicate checks and the
      setting up and tearing down of agreements.  Delivery and the release of a
      buffer are events.
    - [RxPn] (dp/txrx/ol_rx_pn.c): the packet-number (replay) check of received
      frames, a filter over linked buffers that remembers the last number per
      traffic id; it is what [RxReorder]'s releases call.
    - [DefragList] (dp/txrx/ol_rx_defrag.c, cds/src/queue.h): the list of
      traffic ids that wait for more fragments, as a tail queue of pointers.
    - [RxDefrag] (dp/txrx/ol_rx_defrag.c, .h): fragments kept in a slot of
      [RxReorder]'s windows, checked one by one with [RxPn], freed of their
      cipher fields and joined; the Michael MIC.  The primitives on whole
      buffers are the class [Nbuf], and [NbufOk] is their contract.
    - [DefragStore], [DefragJoin], [DefragMic]: what storing a fragment, joining
      the list and checking the MIC do; [DefragTotal]: for which fragments a
      complete list is always processed; [DefragDemo]: frames at concrete inputs.
    - [TxFlow] (dp/txrx/ol_txrx_flow_control.c, ol_tx_desc.c): the pools of
      transmit descriptors mapped to flows by the firmware, their creation,
      deletion and redistribution, allocation and release of descriptors, and
      the stopping and waking of the network queues, as one machine driven by
      messages and frames; [TxDemo]: a small device.
    - [PeerRefs] (dp/txrx/ol_txrx_peer_find.c, ol_txrx.c): the peer objects of
      the data path, the hash table by address, the maps of the firmware's peer
      ids and of local ids, the list of virtual devices, and the reference
      counts that decide when a peer and its virtual device are freed.  Its
      callers are taken to detach a peer or a virtual device once; [PeerDemo]: a
      small device.

    - [CdsTables] (cds/src/cds_concurrency.c, cds/inc/cds_concurrency.h): the
      tables of the concurrency policy, row by row: preferred channels for a
      first, second and third connection, and the actions that its channel calls
      for.
    - [CdsConn] (cds_concurrency.c, cds_reg_service.c): the table of current
      connections, its operations and look-ups, channels and bands, and the
      policy's state.  What the regulatory domain, the configuration, SME and WMA
      answer is the class [CdsEnv]; [CdsEnvOk] (in [CdsPcl]) is its contract.
    - [CdsPcl]: the row that the current connections select and the channel list
      that a query gets for it.
    - [CdsPolicy]: whether a connection may come up, the session counters, and
      the hardware mode that the connections need with its commands.
    - [CdsSession]: all this as one machine, with the weights for roaming;
      [CdsDemo]: a driver with two MACs.

    - [Arrays]: bounds-checked access to arrays and loops that may leave them;
      byte-wise comparison as an order.
    - [SapAcl] (sap/src/sap_fsm.c, sap_module.c): the sorted arrays of accepted
      and denied addresses of a soft access point.
    - [SapNol]: the non-occupancy list, the channels on which a radar was seen.
    - [SapLeak]: the tables of leakage between channels, and the marking of
      candidates that leak into an unavailable channel.
    - [SapDfs]: where to go after a radar: candidates from [CdsPcl]'s lists, the
      rules, the blocks of each width and the fall-back to a narrower one.  The
      configuration and the regulatory domain are the class [SapEnv].
    - [SapFsm], [SapLink] (sap_fsm.c, sap_api_link_cntl.c): the state machine of
      up to five access points that share the timer of the availability check,
      and the requests and indications that drive it.  The automatic channel
      selection is the class [ChannelSelection].
    - [SapSafe]: what that machine guarantees; [SapDemo], [SapFsmDemo]: concrete
      lists and runs.

    - [DfsTypes], [DfsLine] (sap/dfs/inc/dfs.h; sap/dfs/src/dfs_bindetects.c,
      dfs_fcc_bin5.c): the data of the radar detection, and its circular
      buffers: the delay lines of the filters and the buffers of the detectors
      of chirps.
    - [DfsBin] (dfs_bindetects.c, dfs_staggered.c, dfs_fcc_bin5.c, dfs_misc.c):
      the checks of a filter for fixed, variable and staggered intervals, and
      the check for bursts of chirps.
    - [DfsEvent] (dfs_process_radarevent.c, dfs_init.c, dfs.c): the radar task:
      the queue of pulses, their time stamps and durations, the filters that get
      a pulse, and what happens when one of them finds a radar.
    - [DfsInit] (dfs_init.c, dfs.c, radar_filters.h, wma/src/wma_features.c): the
      radar types of the regions, and the configuration of a device for them.
    - [DfsCheck], [DfsSafe]: what the checks and one pulse can change; [DfsQuiet]:
      the task as a whole, and when it stays silent; [DfsTrain]: when it must not;
      [DfsSetup]: what a configured device is like, for any table that fits;
      [DfsDemo]: configured devices.

    A component file holds the data (records with the source's field names), one
    definition per function under the source's name, the invariant, the lemmas
    about each operation, then the theorems.

    ** Conventions

    - Integers keep their width: every operation that can leave the range is
      wrapped by [u8], [u16], [u32], [s8]...  Memory is little-endian, as on
      the supported targets; the conditional features that src/Kbuild turns on
      are on (FEATURE_WLAN_ESE, WLAN_FEATURE_11W).
    - A pointer into a pool is an index; a null pointer is [None].  A function
      whose C counterpart can access memory out of bounds, dereference a null
      pointer or fail to terminate returns an [option], and [None] stands for
      exactly these cases, unless its comment says otherwise.  Loops that are
      not structural take fuel; the initial fuel is the number of nodes of the
      pool (a chain without repetition is no longer), or is an argument with a
      stated bound, and the theorems show that it suffices.
    - One handler or operation is one step: locks are not modelled, so code that
      drops a lock in the middle of an operation is treated as if it kept it.
      Of the builds of the data path the low-latency one with the firmware's
      flow control is modelled, with the reorder timeout off.  What a stored
      fragment does is proved with and without timeouts for fragments, the
      reassembly of whole frames for the default setting, without.
    - What the environment decides (allocation and timer outcomes, the clock,
      random bytes, the content of variables read before they are written) is an
      argument.  Calls into components that are not modelled append an event to
      the state.  Logging is left out.

    ** What the theorems show

    - Refinement: the id pool implements a queue, the store a map from
      parameter ids to typed values, the station table a map from addresses to
      association ids, the pre-authentication contexts a list, on every branch
      and with the loops ending; the wait list of fragments a list that keeps
      its last element; the connection table implements a list, and the
      query for preferred channels a short specification on lists; the address
      lists of an access point implement bounded multisets and the
      non-occupancy list a map with a period.
    - Invariants and safety: no association id is handed out twice; a host
      message leaves the store well formed; the bandwidth granted never exceeds
      the budget; the authentication machine never misbehaves on frames that stay
      inside its buffers (and overruns one on any longer challenge), confirms each
      request once, and authenticates nobody who has not proved the key; no
      protected frame passes the replay check twice, and a replayed fragment
      drops its frame; released frames leave the window in order, and a slot
      never mixes the fragments of two frames; every transmit descriptor is in one place and a flow's
      queues are stopped exactly while its pool is paused; no freed peer or
      virtual device is used, none is unlinked twice, and a peer lives exactly as
      long as something refers to it; no
      sequence of allowed connections leads to a combination that the
      concurrency policy forbids; no access point is told to beacon before its
      availability check is over, and a radar moves it to a block of channels
      that pass all the rules; the radar task stays inside its arrays, loses no
      event object, and reports nothing while all filters are below their
      thresholds.
    - Liveness and termination: an expired availability check starts everybody
      who waited for it; a regular train of pulses is reported as a radar; an unmapped pool is freed by its last
      descriptor (and the case in which it never is); deregistration ends and
      gives every descriptor back; the scans of windows and tables end; the
      mutual recursion of the hardware-mode actions is two calls deep.
    - Round trips: what is downloaded or set is read back, the encrypted
      challenge decrypts to what was sent, the whole shared-key exchange
      succeeds between two modelled peers, and a frame fragmented by its sender
      is put together again.
    - Bounds and errors: limits of parameters, of buffers and of table sizes,
      with the exact conditions under which the code leaves them; which frames the
      check of the TKIP MIC drops; the radar types of every region fit the tables
      of any detector, whatever it was set up for before, which then has a filter
      for each of them; its delay lines hold the pulses of their windows.
    - Types and equivalences: the rows of the policy's tables have the shape that
      the look-ups need; the states of an access point follow a table; the
      tables of actions agree with the rule for channel switches; leaking
      candidates are marked as a look-up in the tables would.

    ** Not modelled

    The OS glue (hdd), the firmware interface (wma, bmi, ol, pld, htt) and the
    utilities are I/O and message marshalling over types of the host stack that
    are not in this repository; dot11f.c is generated code, used through its
    documented interface.  PROJECT.json lists every part with the reason. *)
From stdpp Require Export base gmap list list_numbers numbers sorting option.
From stdpp Require Export fin_maps fin_map_dom.
From Stdlib Require Export ZArith Lia ZifyBool.

#[export] Set Default Goal Selector "!".
#[global] Open Scope Z_scope.

(** ** Machine integers

    A C unsigned integer of width [w] is a [Z] in [0, 2^w); every operation of
    the source that can leave that range is written with the wrap-around made
    explicit. *)
Definition u8 (x : Z) : Z := x mod 256.
Definition u16 (x : Z) : Z := x mod 65536.
Definition u32 (x : Z) : Z := x mod 4294967296.
Definition u64 (x : Z) : Z := x mod 18446744073709551616.

(** Range predicates of the widths. *)
Definition is_u8 (x : Z) : Prop := 0 <= x < 256.
Definition is_u16 (x : Z) : Prop := 0 <= x < 65536.
Definition is_u32 (x : Z) : Prop := 0 <= x < 4294967296.
Definition is_u64 (x : Z) : Prop := 0 <= x < 18446744073709551616.

(** A C truth value. *)
Definition b2z (b : bool) : Z := if b then 1 else 0.

(** The hint database of the development: bounds of wrapped values. *)
Create HintDb qca.
Create Rewrite HintDb qca_rw.

Lemma u8_range x : is_u8 (u8 x).
Proof. unfold is_u8, u8. apply Z.mod_pos_bound; lia. Qed.
Lemma u16_range x : is_u16 (u16 x).
Proof. unfold is_u16, u16. apply Z.mod_pos_bound; lia. Qed.
Lemma u32_range x : is_u32 (u32 x).
Proof. unfold is_u32, u32. apply Z.mod_pos_bound; lia. Qed.
Lemma u64_range x : is_u64 (u64 x).
Proof. unfold is_u64, u64. apply Z.mod_pos_bound; lia. Qed.

Lemma u8_small x : is_u8 x → u8 x = x.
Proof. apply Z.mod_small. Qed.
Lemma u16_small x : is_u16 x → u16 x = x.
Proof. apply Z.mod_small. Qed.
Lemma u32_small x : is_u32 x → u32 x = x.
Proof. apply Z.mod_small. Qed.
Lemma u64_small x : is_u64 x → u64 x = x.
Proof. apply Z.mod_small. Qed.

Lemma u8_idemp x : u8 (u8 x) = u8 x.
Proof. apply u8_small, u8_range. Qed.
Lemma u16_idemp x : u16 (u16 x) = u16 x.
Proof. apply u16_small, u16_range. Qed.
Lemma u32_idemp x : u32 (u32 x) = u32 x.
Proof. apply u32_small, u32_range. Qed.

#[export] Hint Resolve u8_range u16_range u32_range u64_range : qca.
#[export] Hint Rewrite u8_idemp u16_idemp u32_idemp : qca_rw.

(** [word_lia]: linear arithmetic over wrapped integers: the wraps are turned into
    their defining division equations. *)
Ltac word_lia :=
  unfold is_u8, is_u16, is_u32, is_u64, u8, u16, u32, u64 in *;
  Z.div_mod_to_equations; lia.

(** ** Case analysis over the source's conditions *)

(** Turn boolean comparisons in the context into propositions. *)
Ltac bool_hyps :=
  repeat match goal with
  | H : (_ && _)%bool = true |- _ => apply andb_true_iff in H; destruct H
  | H : (_ || _)%bool = false |- _ => apply orb_false_iff in H; destruct H
  | H : negb _ = true |- _ => apply negb_true_iff in H
  | H : negb _ = false |- _ => apply negb_false_iff in H
  | H : (_ =? _)%Z = true |- _ => apply Z.eqb_eq in H
  | H : (_ =? _)%Z = false |- _ => apply Z.eqb_neq in H
  | H : (_ <? _)%Z = true |- _ => apply Z.ltb_lt in H
  | H : (_ <? _)%Z = false |- _ => apply Z.ltb_ge in H
  | H : (_ <=? _)%Z = true |- _ => apply Z.leb_le in H
  | H : (_ <=? _)%Z = false |- _ => apply Z.leb_gt in H
  | H : bool_decide _ = true |- _ => apply bool_decide_eq_true in H
  | H : bool_decide _ = false |- _ => apply bool_decide_eq_false in H
  end.

(** One case split on a condition of the goal. *)
Ltac split_if :=
  match goal with
  | |- context [if ?b then _ else _] =>
      lazymatch type of b with
      | bool => let E := fresh "E" in destruct b eqn:E
      | _ => let E := fresh "E" in destruct b as [E|E]
      end
  end.

(** The same on a hypothesis. *)
Ltac split_if_in H :=
  match type of H with
  | context [if ?b then _ else _] =>
      lazymatch type of b with
      | bool => let E := fresh "E" in destruct b eqn:E
      | _ => let E := fresh "E" in destruct b as [E|E]
      end
  end.

(** ** Record update

    [r <| f := v |>] is the C assignment [r.f = v].  A record type declares its
    [Eta] instance once; setters are then found by type-class resolution. *)
Class Eta (R : Type) := eta : R → R.
Class Setter {R T : Type} (proj : R → T) := set_field : (T → T) → R → R.
#[global] Arguments set_field {R T} proj {_} f r.
(** Never solve these classes by introducing a variable. *)
#[export] Hint Opaque Eta Setter : typeclass_instances.

Ltac solve_setter :=
  match goal with
  | |- @Setter ?R ?T ?proj =>
      let i := constr:(_ : Eta R) in
      let e := eval hnf in i in
      lazymatch eval pattern proj in e with
      | ?F _ => let t := eval cbv beta in (fun (f : T → T) => F (fun r => f (proj r))) in
                exact t
      end
  end.
#[export] Hint Extern 1 (Setter _) => solve_setter : typeclass_instances.

Notation "r <| f ::= g |>" := (set_field f g r)
  (at level 12, f at next level, left associativity, format "r  <| f  ::=  g |>").
Notation "r <| f := v |>" := (set_field f (fun _ => v) r)
  (at level 12, f at next level, left associativity, format "r  <| f  :=  v |>").

(** Expose record updates as record literals. *)
Ltac rsimpl := unfold set_field in *; cbn in *.

(** ** Arrays

    A C array is a list; [zget]/[zset] index it with a machine integer.  Out of
    range the C behaviour is undefined; the model reads a default and drops the
    write, and the theorems assume or prove the index in range. *)
Definition zget {A} `{Inhabited A} (l : list A) (i : Z) : A := l !!! Z.to_nat i.
Definition zset {A} (l : list A) (i : Z) (x : A) : list A := <[Z.to_nat i := x]> l.

Section arrays.
Context {A : Type} `{Inhabited A}.
Implicit Types (l : list A) (i j : Z) (x : A).

Lemma length_zset l i x : length (zset l i x) = length l.
Proof. apply length_insert. Qed.

Lemma zget_zset_eq l i x : 0 <= i < Z.of_nat (length l) → zget (zset l i x) i = x.
Proof. intros. unfold zget, zset. apply list_lookup_total_insert_eq. lia. Qed.

Lemma zget_zset_ne l i j x : 0 <= i → 0 <= j → i ≠ j → zget (zset l i x) j = zget l j.
Proof. intros. unfold zget, zset. apply list_lookup_total_insert_ne. lia. Qed.

Lemma zget_zset l i j x :
  0 <= i < Z.of_nat (length l) → 0 <= j →
  zget (zset l i x) j = if i =? j then x else zget l j.
Proof.
  intros Hi Hj. destruct (Z.eqb_spec i j) as [->|Hne].
  - by apply zget_zset_eq.
  - apply zget_zset_ne; lia.
Qed.

Lemma zget_lookup l i x :
  0 <= i → l !! Z.to_nat i = Some x → zget l i = x.
Proof. intros _ Hl. unfold zget. by apply list_lookup_total_correct. Qed.

Lemma zlookup_zget l i :
  0 <= i < Z.of_nat (length l) → l !! Z.to_nat i = Some (zget l i).
Proof.
  intros. unfold zget. destruct (l !! Z.to_nat i) as [x|] eqn:E.
  - f_equal. symmetry. by apply list_lookup_total_correct.
  - apply lookup_ge_None in E. lia.
Qed.

Lemma zget_out l i : Z.of_nat (length l) <= i → zget l i = inhabitant.
Proof.
  intros. unfold zget. rewrite list_lookup_total_alt, lookup_ge_None_2; [done|lia].
Qed.
End arrays.
Lemma zget_u8 l i : Forall is_u8 l → is_u8 (zget l i).
Proof.
  intros Hl. unfold zget. rewrite list_lookup_total_alt.
  destruct (l !! _) as [x|] eqn:E; [by apply (Forall_lookup_1 _ _ _ _ Hl E)|]. red. cbn. lia.
Qed.
#[export] Hint Resolve zget_u8 : qca.
#[export] Hint Rewrite @length_zset : qca_rw.

(** *** Blocks of an array

    [zread l off n] is [memcpy] out of the array, [zwrite l off d] into it. *)
Definition zread {A} (l : list A) (off n : Z) : list A :=
  take (Z.to_nat n) (drop (Z.to_nat off) l).
Definition zwrite {A} (l : list A) (off : Z) (d : list A) : list A :=
  list_inserts (Z.to_nat off) d l.

#[global] Arguments zget : simpl never.
#[global] Arguments zset : simpl never.
#[global] Arguments zread : simpl never.
#[global] Arguments zwrite : simpl never.

(** The block [off, off + n) lies inside the array. *)
Definition in_block {A} (l : list A) (off n : Z) : Prop :=
  0 <= off ∧ 0 <= n ∧ off + n <= Z.of_nat (length l).

Section blocks.
Context {A : Type} `{Inhabited A}.
Implicit Types (l d : list A) (i off n : Z) (x : A).

Lemma length_zwrite l off d : length (zwrite l off d) = length l.
Proof. apply length_inserts. Qed.

Lemma length_zread l off n : in_block l off n → Z.of_nat (length (zread l off n)) = n.
Proof. intros (?&?&?). unfold zread. rewrite length_take, length_drop. lia. Qed.

Lemma zwrite_nil l off : zwrite l off [] = l.
Proof. done. Qed.

Lemma zget_zwrite_out l off d i :
  0 <= off → 0 <= i → (i < off ∨ off + Z.of_nat (length d) <= i) →
  zget (zwrite l off d) i = zget l i.
Proof.
  intros ?? Hi. unfold zget, zwrite. rewrite !list_lookup_total_alt. f_equal.
  destruct Hi; [apply list_lookup_inserts_lt; lia|apply list_lookup_inserts_ge; lia].
Qed.

Lemma zget_zwrite_in l off d i :
  0 <= off <= i → i < off + Z.of_nat (length d) → off + Z.of_nat (length d) <= Z.of_nat (length l) →
  zget (zwrite l off d) i = zget d (i - off).
Proof.
  intros ???. unfold zget, zwrite. rewrite !list_lookup_total_alt.
  rewrite list_lookup_inserts by lia. do 2 f_equal. lia.
Qed.

Lemma zread_zwrite_eq l off d :
  0 <= off → off + Z.of_nat (length d) <= Z.of_nat (length l) →
  zread (zwrite l off d) off (Z.of_nat (length d)) = d.
Proof.
  intros Ho Hl. apply list_eq. intros i. unfold zread, zwrite.
  destruct (decide (i < length d)%nat) as [Hi|Hi].
  - rewrite lookup_take, lookup_drop, decide_True by lia.
    rewrite list_lookup_inserts by lia. f_equal. lia.
  - rewrite (lookup_ge_None_2 d) by lia. apply lookup_ge_None_2.
    rewrite length_take. lia.
Qed.

Lemma zwrite_0 l d : (length d <= length l)%nat → zwrite l 0 d = d ++ drop (length d) l.
Proof.
  intros Hd. apply list_eq. intros i. unfold zwrite.
  destruct (decide (i < length d)%nat).
  - rewrite list_lookup_inserts, lookup_app_l by lia. f_equal. lia.
  - rewrite list_lookup_inserts_ge, lookup_app_r, lookup_drop by lia. f_equal. lia.
Qed.

Lemma zread_0_all l n : Z.of_nat (length l) <= n → zread l 0 n = l.
Proof. intros. unfold zread. cbn. rewrite drop_0. apply take_ge. lia. Qed.

Lemma zread_app l1 l2 n :
  0 <= n → zread (l1 ++ l2) 0 (Z.of_nat (length l1) + n) = l1 ++ zread l2 0 n.
Proof.
  intros. unfold zread. cbn. rewrite !drop_0. rewrite take_app_ge by lia.
  f_equal. f_equal. lia.
Qed.

Lemma zread_zwrite_disj l off d off' n :
  0 <= off → 0 <= off' → (off' + n <= off ∨ off + Z.of_nat (length d) <= off') →
  zread (zwrite l off d) off' n = zread l off' n.
Proof.
  intros Ho Ho' Hd. apply list_eq. intros i. unfold zread, zwrite.
  rewrite !lookup_take. destruct (decide (i < Z.to_nat n)%nat) as [Hi|Hi]; [|done].
  rewrite !lookup_drop.
  destruct Hd; [apply list_lookup_inserts_lt; lia|apply list_lookup_inserts_ge; lia].
Qed.

Lemma zread_zset_out l i x off n :
  0 <= i → 0 <= off → (i < off ∨ off + n <= i) →
  zread (zset l i x) off n = zread l off n.
Proof.
  intros. apply (zread_zwrite_disj l i [x] off n); cbn; lia.
Qed.
End blocks.
#[export] Hint Rewrite @length_zwrite : qca_rw.

(** Signed 8-bit values. *)
Definition s8 (x : Z) : Z := if u8 x <? 128 then u8 x else u8 x - 256.

(** Little-endian bytes of a 32-bit word. *)
Definition le4 (w : Z) : list Z :=
  [u8 w; u8 (Z.shiftr w 8); u8 (Z.shiftr w 16); u8 (Z.shiftr w 24)].
Definition words_bytes (ws : list Z) : list Z := ws ≫= le4.
Definition of_le4 (b0 b1 b2 b3 : Z) : Z := b0 + 256 * b1 + 65536 * b2 + 16777216 * b3.

Lemma of_le4_le4 w : is_u32 w →
  of_le4 (u8 w) (u8 (Z.shiftr w 8)) (u8 (Z.shiftr w 16)) (u8 (Z.shiftr w 24)) = w.
Proof. intros. unfold of_le4. rewrite !Z.shiftr_div_pow2 by lia. cbn. word_lia. Qed.

(** [*ptr] on a little-endian host, and the big-endian reading of
    [sir_read_u32_n]. *)
Definition sir_read_u32_n (bytes : list Z) : Z :=
  u32 (Z.lor (Z.lor (Z.lor (Z.shiftl (zget bytes 0) 24) (Z.shiftl (zget bytes 1) 16))
                    (Z.shiftl (zget bytes 2) 8)) (zget bytes 3)).

(** ** Results

    A function of the source that returns a status and writes its result
    through a pointer on success only. *)
Inductive res (E A : Type) := Ok (a : A) | Err (e : E).
#[global] Arguments Ok {E A} a.
#[global] Arguments Err {E A} e.
#[export] Instance res_ret E : MRet (res E) := @Ok E.
#[export] Instance res_bind E : MBind (res E) := fun A B f r =>
  match r with Ok a => f a | Err e => Err e end.

Lemma res_bind_Ok {E A B} (r : res E A) (f : A → res E B) b :
  (r ≫= f) = Ok b ↔ ∃ a, r = Ok a ∧ f a = Ok b.
Proof. destruct r; cbn; naive_solver. Qed.
Definition is_ok {E A} (r : res E A) : bool := match r with Ok _ => true | Err _ => false end.

(** ** Counting loops

    [for (i = 0; i < n; i++) s = f(s, i)] preserves an indexed invariant. *)
Lemma foldl_seqZ_ind {T} (f : T → Z → T) (P : Z → T → Prop) s n :
  0 <= n → P 0 s → (∀ i s, 0 <= i < n → P i s → P (i + 1) (f s i)) →
  P n (foldl f s (seqZ 0 n)).
Proof.
  intros Hn H0. rewrite <- (Z2Nat.id n Hn). induction (Z.to_nat n) as [|k IH]; intros Hs; [done|].
  rewrite seqZ_S, foldl_app. cbn [foldl]. rewrite Z.add_0_l.
  replace (Z.of_nat (S k)) with (Z.of_nat k + 1) by lia.
  apply Hs; [lia|]. apply IH. intros i s' ?. apply Hs. lia.
Qed.

(** A list of literals is a list of bytes. *)
Ltac solve_bytes :=
  match goal with |- Forall _ ?l => let l' := eval vm_compute in l in change (Forall is_u8 l') end;
  repeat (constructor; [red; lia|]); constructor.
