(* ===== verification/Arrays.v ===== *)
(** Bounds-checked arrays and loops.

    Where the source indexes an array with a value that the code around it does
    not obviously keep in range, [aget] and [aset] are the access: [None] is an
    access outside the array.  [for_opt] is a counting loop whose body may fail.
    The file also holds what the sorts of the driver share: the order that a
    three-way comparison induces, and insertion into a sorted prefix. *)
From S2P Require Import Prelude.

Definition aget {A} (l : list A) (i : Z) : option A := if i <? 0 then None else l !! Z.to_nat i.
Definition aset {A} (l : list A) (i : Z) (x : A) : option (list A) :=
  if (0 <=? i) && (i <? Z.of_nat (length l)) then Some (zset l i x) else None.

Fixpoint for_opt {S} (f : S → Z → option S) (idxs : list Z) (s : S) : option S :=
  match idxs with
  | [] => Some s
  | i :: rest => s' ← f s i; for_opt f rest s'
  end.

Section arrays.
Context {A : Type}.
Implicit Types (l p r : list A) (x y : A) (i : Z).

Lemma aget_lookup l i x : 0 <= i → aget l i = Some x ↔ l !! Z.to_nat i = Some x.
Proof. intros. unfold aget. destruct (Z.ltb_spec i 0); [lia|done]. Qed.

Lemma aget_nat l (n : nat) : aget l (Z.of_nat n) = l !! n.
Proof. unfold aget. destruct (Z.ltb_spec (Z.of_nat n) 0); [lia|]. by rewrite Nat2Z.id. Qed.

Lemma aget_Some l i x : aget l i = Some x → 0 <= i < Z.of_nat (length l).
Proof.
  unfold aget. destruct (Z.ltb_spec i 0); [done|]. intros Hl%lookup_lt_Some. lia.
Qed.

Lemma aget_is_Some l i : 0 <= i < Z.of_nat (length l) → is_Some (aget l i).
Proof.
  intros. unfold aget. destruct (Z.ltb_spec i 0); [lia|]. apply lookup_lt_is_Some. lia.
Qed.

Lemma aget_zget `{Inhabited A} l i : 0 <= i < Z.of_nat (length l) → aget l i = Some (zget l i).
Proof.
  intros Hi. unfold aget. destruct (Z.ltb_spec i 0); [lia|]. by apply zlookup_zget.
Qed.

Lemma aset_zset l i x : 0 <= i < Z.of_nat (length l) → aset l i x = Some (zset l i x).
Proof. intros. unfold aset. rewrite (proj2 (Z.leb_le _ _)), (proj2 (Z.ltb_lt _ _)); [done|lia..]. Qed.

Lemma aset_Some l i x l' : aset l i x = Some l' → 0 <= i < Z.of_nat (length l) ∧ l' = zset l i x.
Proof. unfold aset. split_if; intros [= <-]. bool_hyps. split; [lia|done]. Qed.

Lemma length_aset l i x l' : aset l i x = Some l' → length l' = length l.
Proof. intros [_ ->]%aset_Some. apply length_zset. Qed.

Lemma aget_mid p x r : aget (p ++ x :: r) (Z.of_nat (length p)) = Some x.
Proof. rewrite aget_nat. by apply list_lookup_middle. Qed.

Lemma zset_mid p x r y : zset (p ++ x :: r) (Z.of_nat (length p)) y = p ++ y :: r.
Proof. unfold zset. rewrite Nat2Z.id. by rewrite insert_app_r_alt, Nat.sub_diag by lia. Qed.

Lemma aset_mid p x r y : aset (p ++ x :: r) (Z.of_nat (length p)) y = Some (p ++ y :: r).
Proof. rewrite aset_zset by (rewrite length_app; cbn; lia). by rewrite zset_mid. Qed.
Lemma aget_zset_ne l i j x : 0 <= i → 0 <= j → i ≠ j → aget (zset l i x) j = aget l j.
Proof. intros. unfold aget, zset. destruct (j <? 0); [done|]. apply list_lookup_insert_ne. lia. Qed.
Lemma aget_aset_eq l l' i x : aset l i x = Some l' → aget l' i = Some x.
Proof.
  intros [Hi ->]%aset_Some. unfold aget, zset. destruct (Z.ltb_spec i 0); [lia|]. apply list_lookup_insert_eq. lia.
Qed.
Lemma aget_aset_ne l l' i j x : aset l i x = Some l' → 0 <= j → i ≠ j → aget l' j = aget l j.
Proof. intros [Hi ->]%aset_Some Hj Hne. apply aget_zset_ne; lia. Qed.

Lemma Forall_aget (P : A → Prop) l : Forall P l ↔ ∀ i x, aget l i = Some x → P x.
Proof.
  rewrite Forall_lookup. split.
  - intros H i x. unfold aget. destruct (i <? 0); [done|]. apply H.
  - intros H i x Hi. apply (H (Z.of_nat i)). by rewrite aget_nat.
Qed.
End arrays.

Section loops.
Context {S : Type} (f : S → Z → option S).

Lemma for_opt_app idxs js s : for_opt f (idxs ++ js) s = for_opt f idxs s ≫= for_opt f js.
Proof.
  revert s. induction idxs as [|i idxs IH]; intros s; [done|]. cbn.
  destruct (f s i) as [s'|]; cbn; [apply IH|done].
Qed.

(** A loop from 0 to [n] that keeps an indexed invariant returns. *)
Lemma for_opt_ind (P : Z → S → Prop) n s :
  0 <= n → P 0 s → (∀ i s, 0 <= i < n → P i s → ∃ s', f s i = Some s' ∧ P (i + 1) s') →
  ∃ s', for_opt f (seqZ 0 n) s = Some s' ∧ P n s'.
Proof.
  intros Hn H0. rewrite <- (Z2Nat.id n Hn). induction (Z.to_nat n) as [|k IH]; intros Hs; [by exists s|].
  rewrite seqZ_S, for_opt_app, Z.add_0_l. destruct IH as (s1 & -> & H1).
  { intros i s' ?. apply Hs. lia. }
  cbn. destruct (Hs (Z.of_nat k) s1) as (s2 & -> & H2); [lia|done|].
  cbn. exists s2. split; [done|]. by replace (Z.of_nat (Datatypes.S k)) with (Z.of_nat k + 1) by lia.
Qed.
End loops.

(** A loop that updates every entry of a block. *)
Lemma for_opt_map {A} (f : list A → Z → option (list A)) (g : A → A) pre p r :
  (∀ pre e suf, f (pre ++ e :: suf) (Z.of_nat (length pre)) = Some (pre ++ g e :: suf)) →
  for_opt f (seqZ (Z.of_nat (length pre)) (Z.of_nat (length p))) (pre ++ p ++ r) = Some (pre ++ map g p ++ r).
Proof.
  intros Hf. revert pre. induction p as [|e p IH]; intros pre; [done|].
  rewrite seqZ_cons by (cbn; lia). cbn [for_opt app map]. rewrite Hf. cbn [mbind option_bind].
  specialize (IH (pre ++ [g e])).
  replace (Z.of_nat (length (pre ++ [g e]))) with (Z.succ (Z.of_nat (length pre))) in IH by (rewrite length_app; cbn; lia).
  replace (Z.pred (Z.of_nat (length (e :: p)))) with (Z.of_nat (length p)) by (cbn; lia).
  rewrite <- !app_assoc in IH. exact IH.
Qed.

(** ** The order of a comparison function

    [cmp] answers like [memcmp]: negative, zero or positive. *)
Section order.
Context {A : Type} (cmp : A → A → Z) (wf : A → Prop).

Class CmpOk : Prop := {
  cmp_eq : ∀ a b, wf a → wf b → cmp a b = 0 ↔ a = b;
  cmp_flip : ∀ a b, wf a → wf b → cmp a b < 0 ↔ 0 < cmp b a;
  cmp_trans : ∀ a b c, wf a → wf b → wf c → cmp a b < 0 → cmp b c < 0 → cmp a c < 0;
}.

(** Both are well formed and in order. *)
Definition cmp_le (a b : A) : Prop := cmp a b <= 0.

Context {Ok : CmpOk}.

Lemma cmp_le_gt a b : wf a → wf b → ¬ 0 < cmp a b ↔ cmp_le a b.
Proof. unfold cmp_le. lia. Qed.

Lemma cmp_gt_le a b : wf a → wf b → 0 < cmp a b → cmp_le b a.
Proof. intros Ha Hb Hc. unfold cmp_le. apply Z.lt_le_incl. by apply cmp_flip. Qed.

Lemma cmp_le_trans a b c : wf a → wf b → wf c → cmp_le a b → cmp_le b c → cmp_le a c.
Proof.
  unfold cmp_le. intros Ha Hb Hc Hab Hbc.
  destruct (Z.eq_dec (cmp a b) 0) as [->%cmp_eq|]; [done..|].
  destruct (Z.eq_dec (cmp b c) 0) as [E%cmp_eq|]; [subst; lia|done..|].
  apply Z.lt_le_incl. apply (cmp_trans a b c); [done..|lia|lia].
Qed.

(** Sorted with respect to [cmp]. *)
Definition cmp_sorted (l : list A) : Prop := StronglySorted cmp_le l.

Lemma cmp_sorted_lookup l i j a b :
  cmp_sorted l → (i < j)%nat → l !! i = Some a → l !! j = Some b → cmp_le a b.
Proof.
  intros Hs. revert i j. induction Hs as [|x l Hs IH Hx]; intros i j Hij; [done|].
  destruct j as [|j]; [lia|]. destruct i as [|i]; cbn.
  - intros [= ->] Hj. by apply (Forall_lookup_1 _ _ _ _ Hx Hj).
  - apply IH. lia.
Qed.

Lemma cmp_sorted_app l1 l2 :
  cmp_sorted (l1 ++ l2) ↔ cmp_sorted l1 ∧ cmp_sorted l2 ∧ ∀ a b, a ∈ l1 → b ∈ l2 → cmp_le a b.
Proof.
  unfold cmp_sorted. induction l1 as [|x l1 IH]; cbn.
  { split; [intros ?; split; [constructor|split; [done|]]|naive_solver]. intros a b Ha. by apply elem_of_nil in Ha. }
  split.
  - intros [H1 H2]%StronglySorted_inv. apply IH in H1 as (H1 & H3 & H4).
    rewrite Forall_app in H2. destruct H2 as [H2 H5]. rewrite Forall_forall in H5.
    split; [by constructor|]. split; [done|]. intros a b [->|Ha]%elem_of_cons Hb; [by apply H5|by apply H4].
  - intros (H1 & H2 & H3). apply StronglySorted_inv in H1 as [H1 H4]. constructor.
    + apply IH. split; [done|]. split; [done|]. intros a b Ha. apply H3. by right.
    + rewrite Forall_app. split; [done|]. rewrite Forall_forall. intros b Hb. apply H3; [by left|done].
Qed.
End order.
#[global] Arguments CmpOk {A} cmp wf.
#[global] Arguments cmp_le {A} cmp a b.
#[global] Arguments cmp_sorted {A} cmp l.
