(* ===== verification/Chains.v ===== *)
(** Null-terminated singly linked chains.

    The source keeps most of its dynamic state in lists threaded through a
    [next] pointer: network buffers, station hash buckets, the peer-index free
    list, the pre-authentication list, descriptor free lists, the radar
    non-occupancy list.  This file relates such a chain, given as a [next]
    function over node names, to the Rocq list of its nodes, and gives the
    lemmas the components share: determinism, framing, splitting, traversal. *)
From S2P Require Import Prelude.

Section chains.
Context {K : Type} `{EqDecision K}.
Implicit Types (nx : K → option K) (p q r : option K) (l : list K) (x y : K).

(** [lseg nx p l q]: starting from pointer [p], following [nx] visits the
    nodes [l] and then reaches pointer [q]. *)
Fixpoint lseg nx p l q : Prop :=
  match l with
  | [] => p = q
  | x :: l' => p = Some x ∧ lseg nx (nx x) l' q
  end.

(** A whole null-terminated chain. *)
Definition chain nx p l : Prop := lseg nx p l None.

(** [nx] with the [next] field of [x] assigned. *)
Definition nx_upd nx x p : K → option K := fun y => if decide (y = x) then p else nx y.

Lemma nx_upd_eq nx x p : nx_upd nx x p x = p.
Proof. unfold nx_upd. by rewrite decide_True. Qed.
Lemma nx_upd_ne nx x p y : y ≠ x → nx_upd nx x p y = nx y.
Proof. intros. unfold nx_upd. by rewrite decide_False. Qed.

Lemma lseg_nil nx p q : lseg nx p [] q ↔ p = q.
Proof. done. Qed.
Lemma lseg_cons nx p x l q : lseg nx p (x :: l) q ↔ p = Some x ∧ lseg nx (nx x) l q.
Proof. done. Qed.

Lemma lseg_app nx p l1 l2 q :
  lseg nx p (l1 ++ l2) q ↔ ∃ r, lseg nx p l1 r ∧ lseg nx r l2 q.
Proof.
  revert p. induction l1 as [|x l1 IH]; intros p; cbn.
  - split; [eauto | by intros (? & -> & ?)].
  - rewrite IH. split.
    + intros (-> & r & ? & ?). by exists r.
    + intros (r & [-> ?] & ?). by eauto.
Qed.

(** Only the [next] fields of the visited nodes matter. *)
Lemma lseg_frame nx nx' p l q :
  (∀ x, x ∈ l → nx x = nx' x) → lseg nx p l q → lseg nx' p l q.
Proof.
  revert p. induction l as [|x l IH]; intros p Hf; cbn; [done|].
  intros [-> Hl]. split; [done|]. rewrite <- Hf by set_solver.
  apply IH; set_solver.
Qed.

Lemma chain_frame nx nx' p l :
  (∀ x, x ∈ l → nx x = nx' x) → chain nx p l → chain nx' p l.
Proof. apply lseg_frame. Qed.

Lemma lseg_upd_fresh nx x v p l q :
  x ∉ l → lseg nx p l q → lseg (nx_upd nx x v) p l q.
Proof.
  intros Hx. apply lseg_frame. intros y Hy. rewrite nx_upd_ne; [done|set_solver].
Qed.

Lemma chain_det nx p l1 l2 : chain nx p l1 → chain nx p l2 → l1 = l2.
Proof.
  unfold chain. revert p l2. induction l1 as [|x l1 IH]; intros p [|y l2]; cbn.
  - done.
  - by intros -> [? _].
  - by intros [-> _].
  - intros [-> H1] [[= <-] H2]. f_equal. eauto.
Qed.

Lemma chain_nil nx l : chain nx None l ↔ l = [].
Proof.
  unfold chain. destruct l as [|x l]; cbn; [done|]. split; [by intros [? _]|done].
Qed.

Lemma chain_cons nx x l : chain nx (Some x) (x :: l) ↔ chain nx (nx x) l.
Proof. unfold chain. cbn. split; [by intros [_ ?]|done]. Qed.

Lemma chain_some nx x l :
  chain nx (Some x) l → ∃ l', l = x :: l' ∧ chain nx (nx x) l'.
Proof.
  unfold chain. destruct l as [|y l]; cbn; [done|]. intros [[= <-] ?]. eauto.
Qed.

(** A terminated chain visits no node twice. *)
Lemma chain_NoDup nx p l : chain nx p l → NoDup l.
Proof.
  remember (length l) as n eqn:Hn. revert p l Hn.
  induction (lt_wf n) as [n _ IH]; intros p l -> Hc.
  destruct l as [|x l]; [constructor|].
  destruct Hc as [-> Hc]. constructor; [|by eapply IH; [|done|]; cbn; [lia|]].
  intros (l1 & l2 & ->)%list_elem_of_split.
  apply lseg_app in Hc as (r & Hl1 & [-> Hl2]).
  assert (chain nx (nx x) (l1 ++ x :: l2)) as H1.
  { apply lseg_app. eexists. split; [done|]. by split. }
  pose proof (chain_det nx (nx x) _ l2 H1 Hl2) as E.
  apply (f_equal length) in E. rewrite length_app in E. cbn in E. lia.
Qed.

(** *** Traversal with fuel *)

(** Follow the chain and list its nodes. *)
Fixpoint walk (fuel : nat) nx p : list K :=
  match fuel, p with
  | S n, Some x => x :: walk n nx (nx x)
  | _, _ => []
  end.

Lemma walk_chain fuel nx p l : chain nx p l → (length l ≤ fuel)%nat → walk fuel nx p = l.
Proof.
  revert p l. induction fuel as [|n IH]; intros p [|x l] Hc Hf; cbn in *; try lia.
  - done.
  - by rewrite Hc.
  - destruct Hc as [-> Hc]. f_equal. apply IH; [done|lia].
Qed.

(** [for (q = p; q; q = q->next) if (P(q)) break;] *)
Fixpoint scan (fuel : nat) nx (P : K → bool) p : option K :=
  match fuel, p with
  | S n, Some x => if P x then Some x else scan n nx P (nx x)
  | _, _ => None
  end.

Lemma scan_chain fuel nx P p l :
  chain nx p l → (length l ≤ fuel)%nat → scan fuel nx P p = List.find P l.
Proof.
  revert p l. induction fuel as [|n IH]; intros p [|x l] Hc Hf; cbn in *; try lia.
  - done.
  - by rewrite Hc.
  - destruct Hc as [-> Hc]. destruct (P x); [done|]. apply IH; [done|lia].
Qed.

(** The same loop keeping the predecessor, as the unlinking loops do. *)
Fixpoint scan_prev (fuel : nat) nx (P : K → bool) (prev p : option K) : option (option K * K) :=
  match fuel, p with
  | S n, Some x => if P x then Some (prev, x) else scan_prev n nx P (Some x) (nx x)
  | _, _ => None
  end.

Definition last_or (prev : option K) l : option K := default prev (Some <$> last l).

Lemma last_or_cons prev x l : last_or prev (x :: l) = last_or (Some x) l.
Proof. unfold last_or. rewrite last_cons. by destruct (last l). Qed.

Lemma scan_prev_found fuel nx P prev p l1 x l2 :
  chain nx p (l1 ++ x :: l2) → (length (l1 ++ x :: l2) ≤ fuel)%nat →
  Forall (λ y, P y = false) l1 → P x = true →
  scan_prev fuel nx P prev p = Some (last_or prev l1, x).
Proof.
  revert fuel prev p. induction l1 as [|y l1 IH]; intros [|n] prev p Hc Hf Hl1 Hx;
    cbn in *; try lia.
  - destruct Hc as [-> _]. by rewrite Hx.
  - destruct Hc as [-> Hc]. inversion_clear Hl1 as [|?? Hy Hl]. rewrite Hy.
    rewrite last_or_cons. apply IH; [done|lia|done|done].
Qed.

Lemma scan_prev_none fuel nx P prev p l :
  chain nx p l → (length l ≤ fuel)%nat → Forall (λ y, P y = false) l →
  scan_prev fuel nx P prev p = None.
Proof.
  revert fuel prev p. induction l as [|y l IH]; intros [|n] prev p Hc Hf Hl;
    cbn in *; try lia.
  - done.
  - by rewrite Hc.
  - destruct Hc as [-> Hc]. inversion_clear Hl as [|?? Hy Hl']. rewrite Hy.
    apply IH; [done|lia|done].
Qed.

(** The general loop [for (prev = 0, q = p; q; prev = q, q = q->next) if
    (P(prev, q)) break;]: [prev] and [q] at its end, [None] when it does not end
    within the fuel. *)
Fixpoint find_node (fuel : nat) nx (P : option K → K → bool) (prev p : option K) :
    option (option K * option K) :=
  match p with
  | None => Some (prev, None)
  | Some x =>
      if P prev x then Some (prev, Some x)
      else match fuel with O => None | S n => find_node n nx P (Some x) (nx x) end
  end.

Lemma find_node_found fuel nx P Q prev p l1 x l2 :
  chain nx p (l1 ++ x :: l2) → (length (l1 ++ x :: l2) ≤ fuel)%nat →
  (∀ k1 y k2, l1 ++ x :: l2 = k1 ++ y :: k2 → P (last_or prev k1) y = Q y) →
  Forall (λ y, Q y = false) l1 → Q x = true →
  find_node fuel nx P prev p = Some (last_or prev l1, Some x).
Proof.
  revert fuel prev p. induction l1 as [|y l1 IH]; intros fuel prev p Hc Hf HP Hl1 Hx; cbn in *.
  - destruct Hc as [-> _]. destruct fuel; [lia|]. cbn.
    specialize (HP [] x l2 eq_refl). cbn in HP. by rewrite HP, Hx.
  - destruct Hc as [-> Hc]. inversion_clear Hl1 as [|?? Hy Hl]. destruct fuel; [lia|]. cbn.
    pose proof (HP [] y _ eq_refl) as HPy. cbn in HPy. rewrite HPy, Hy, last_or_cons.
    apply IH; [done|lia| |done|done]. intros k1 z k2 E.
    specialize (HP (y :: k1) z k2). rewrite last_or_cons in HP. apply HP. cbn. by rewrite E.
Qed.

Lemma find_node_none fuel nx P Q prev p l :
  chain nx p l → (length l ≤ fuel)%nat →
  (∀ k1 y k2, l = k1 ++ y :: k2 → P (last_or prev k1) y = Q y) →
  Forall (λ y, Q y = false) l →
  find_node fuel nx P prev p = Some (last_or prev l, None).
Proof.
  revert fuel prev p. induction l as [|y l IH]; intros fuel prev p Hc Hf HP Hl; cbn in *.
  - unfold chain in Hc. cbn in Hc. subst p. by destruct fuel.
  - destruct Hc as [-> Hc]. inversion_clear Hl as [|?? Hy Hl']. destruct fuel; [lia|]. cbn.
    pose proof (HP [] y _ eq_refl) as HPy. cbn in HPy. rewrite HPy, Hy, last_or_cons.
    apply IH; [done|lia| |done]. intros k1 z k2 E.
    specialize (HP (y :: k1) z k2). rewrite last_or_cons in HP. apply HP. cbn. by rewrite E.
Qed.

Lemma find_node_ext fuel nx nx' P P' prev p :
  (∀ x, nx x = nx' x) → (∀ q x, P q x = P' q x) →
  find_node fuel nx P prev p = find_node fuel nx' P' prev p.
Proof.
  intros Hn HP. revert prev p. induction fuel as [|n IH]; intros prev [x|]; cbn; try done; rewrite HP; [done|].
  by rewrite Hn, IH.
Qed.

(** The first node satisfying [P], with the nodes before it. *)
Lemma find_split (P : K → bool) l :
  (List.find P l = None ∧ Forall (λ y, P y = false) l) ∨
  ∃ l1 x l2, l = l1 ++ x :: l2 ∧ Forall (λ y, P y = false) l1 ∧ P x = true ∧
             List.find P l = Some x.
Proof.
  induction l as [|y l IH]; cbn; [by left|].
  destruct (P y) eqn:E.
  - right. by exists [], y, l.
  - destruct IH as [[-> ?]|(l1 & x & l2 & -> & ? & ? & ->)]; [left; by auto using Forall_cons_2|].
    right. exists (y :: l1), x, l2. split_and!; [done|by constructor|done|done].
Qed.

(** *** Linking and unlinking *)

Lemma lseg_lookup_next nx p l1 x l2 q :
  lseg nx p (l1 ++ x :: l2) q → lseg nx (nx x) l2 q.
Proof. intros (r & _ & [_ ?])%lseg_app. done. Qed.

Lemma lseg_snoc nx p l x : lseg nx p (l ++ [x]) (nx x) ↔ lseg nx p l (Some x).
Proof.
  rewrite lseg_app. cbn. split; [by intros (r & ? & -> & _)|by eauto].
Qed.

(** [prev->next = x->next] removes [x] from the chain. *)
Lemma chain_unlink nx p l1 y x l2 :
  chain nx p ((l1 ++ [y]) ++ x :: l2) →
  chain (nx_upd nx y (nx x)) p ((l1 ++ [y]) ++ l2).
Proof.
  intros Hc. pose proof (chain_NoDup _ _ _ Hc) as Hnd.
  apply lseg_app in Hc as (r & Hl & [-> Hx]).
  apply lseg_app in Hl as (r & Hl1 & [-> Hy]).
  apply lseg_app. exists (nx x).
  assert (y ∉ l1 ∧ y ∉ l2) as [??].
  { rewrite <- app_assoc in Hnd. apply NoDup_app in Hnd as (_ & Hd & Hnd).
    cbn in Hnd. split; [set_solver|]. inversion_clear Hnd. set_solver. }
  split; [|by apply lseg_upd_fresh].
  apply lseg_app. exists (Some y). split; [by apply lseg_upd_fresh|].
  cbn. by rewrite nx_upd_eq.
Qed.

(** [tail->next = q] appends the chain at [q]. *)
Lemma chain_append nx p l1 y l2 q v :
  lseg nx p (l1 ++ [y]) v → chain nx q l2 →
  y ∉ l1 → y ∉ l2 →
  chain (nx_upd nx y q) p ((l1 ++ [y]) ++ l2).
Proof.
  intros (r & Hl1 & [-> Hy])%lseg_app Hq ??.
  apply lseg_app. exists q. split; [|by apply lseg_upd_fresh].
  apply lseg_app. exists (Some y). split; [by apply lseg_upd_fresh|].
  cbn. by rewrite nx_upd_eq.
Qed.
End chains.

#[global] Arguments lseg : simpl never.
#[global] Arguments chain : simpl never.
#[export] Hint Resolve chain_NoDup : qca.
