(* ===== verification/LimTypes.v ===== *)
(** Types shared by the MAC-layer components: return codes
    (core/mac/inc/ani_error... as used by LIM, DPH and CFG), the PE session
    roles of core/mac/src/pe/include/lim_global.h, MAC addresses. *)
From S2P Require Import Prelude.

(** [tSirRetStatus]: the return codes the modelled functions produce. *)
Inductive tSirRetStatus :=
  | eSIR_SUCCESS
  | eSIR_FAILURE
  | eSIR_CFG_INVALID_ID
  | eSIR_CFG_INVALID_LEN
  | eSIR_MEM_ALLOC_FAILED
  | LIM_DECRYPT_ICV_FAIL.
#[export] Instance tSirRetStatus_eq_dec : EqDecision tSirRetStatus.
Proof. solve_decision. Defined.

(** [enum eLimSystemRole]. *)
Inductive tLimSystemRole :=
  | eLIM_UNKNOWN_ROLE
  | eLIM_AP_ROLE
  | eLIM_STA_IN_IBSS_ROLE
  | eLIM_STA_ROLE
  | eLIM_P2P_DEVICE_ROLE
  | eLIM_P2P_DEVICE_GO
  | eLIM_P2P_DEVICE_CLIENT
  | eLIM_NDI_ROLE.
#[export] Instance tLimSystemRole_eq_dec : EqDecision tLimSystemRole.
Proof. solve_decision. Defined.
#[export] Instance tLimSystemRole_inhabited : Inhabited tLimSystemRole :=
  populate eLIM_UNKNOWN_ROLE.

(** [enum eLimMlmStates]. *)
Inductive tLimMlmStates :=
  | eLIM_MLM_OFFLINE_STATE
  | eLIM_MLM_IDLE_STATE
  | eLIM_MLM_WT_PROBE_RESP_STATE
  | eLIM_MLM_PASSIVE_SCAN_STATE
  | eLIM_MLM_WT_JOIN_BEACON_STATE
  | eLIM_MLM_JOINED_STATE
  | eLIM_MLM_BSS_STARTED_STATE
  | eLIM_MLM_WT_AUTH_FRAME2_STATE
  | eLIM_MLM_WT_AUTH_FRAME3_STATE
  | eLIM_MLM_WT_AUTH_FRAME4_STATE
  | eLIM_MLM_AUTH_RSP_TIMEOUT_STATE
  | eLIM_MLM_AUTHENTICATED_STATE
  | eLIM_MLM_WT_ASSOC_RSP_STATE
  | eLIM_MLM_WT_REASSOC_RSP_STATE
  | eLIM_MLM_ASSOCIATED_STATE
  | eLIM_MLM_REASSOCIATED_STATE
  | eLIM_MLM_LINK_ESTABLISHED_STATE
  | eLIM_MLM_WT_ASSOC_CNF_STATE
  | eLIM_MLM_LEARN_STATE
  | eLIM_MLM_WT_ADD_BSS_RSP_STATE
  | eLIM_MLM_WT_DEL_BSS_RSP_STATE
  | eLIM_MLM_WT_ADD_BSS_RSP_ASSOC_STATE
  | eLIM_MLM_WT_ADD_BSS_RSP_REASSOC_STATE
  | eLIM_MLM_WT_ADD_BSS_RSP_PREASSOC_STATE
  | eLIM_MLM_WT_ADD_STA_RSP_STATE
  | eLIM_MLM_WT_DEL_STA_RSP_STATE
  | eLIM_MLM_WT_ASSOC_DEL_STA_RSP_STATE
  | eLIM_MLM_WT_SET_BSS_KEY_STATE
  | eLIM_MLM_WT_SET_STA_KEY_STATE
  | eLIM_MLM_WT_SET_STA_BCASTKEY_STATE
  | eLIM_MLM_WT_SET_MIMOPS_STATE
  | eLIM_MLM_WT_ADD_BSS_RSP_FT_REASSOC_STATE
  | eLIM_MLM_WT_FT_REASSOC_RSP_STATE
  | eLIM_MLM_P2P_LISTEN_STATE.
#[export] Instance tLimMlmStates_eq_dec : EqDecision tLimMlmStates.
Proof. solve_decision. Defined.

(** [enum eLimSmeStates]. *)
Inductive tLimSmeStates :=
  | eLIM_SME_OFFLINE_STATE
  | eLIM_SME_IDLE_STATE
  | eLIM_SME_SUSPEND_STATE
  | eLIM_SME_WT_SCAN_STATE
  | eLIM_SME_WT_JOIN_STATE
  | eLIM_SME_WT_AUTH_STATE
  | eLIM_SME_WT_ASSOC_STATE
  | eLIM_SME_WT_REASSOC_STATE
  | eLIM_SME_WT_REASSOC_LINK_FAIL_STATE
  | eLIM_SME_JOIN_FAILURE_STATE
  | eLIM_SME_ASSOCIATED_STATE
  | eLIM_SME_REASSOCIATED_STATE
  | eLIM_SME_LINK_EST_STATE
  | eLIM_SME_LINK_EST_WT_SCAN_STATE
  | eLIM_SME_WT_PRE_AUTH_STATE
  | eLIM_SME_WT_DISASSOC_STATE
  | eLIM_SME_WT_DEAUTH_STATE
  | eLIM_SME_WT_START_BSS_STATE
  | eLIM_SME_WT_STOP_BSS_STATE
  | eLIM_SME_NORMAL_STATE
  | eLIM_SME_CHANNEL_SCAN_STATE
  | eLIM_SME_NORMAL_CHANNEL_SCAN_STATE.
#[export] Instance tLimSmeStates_eq_dec : EqDecision tLimSmeStates.
Proof. solve_decision. Defined.

(** The [LIM_IS_*_ROLE] tests of core/mac/src/pe/include/lim_api.h. *)
Definition LIM_IS_AP_ROLE (r : tLimSystemRole) : bool := bool_decide (r = eLIM_AP_ROLE).
Definition LIM_IS_STA_ROLE (r : tLimSystemRole) : bool := bool_decide (r = eLIM_STA_ROLE).
Definition LIM_IS_IBSS_ROLE (r : tLimSystemRole) : bool := bool_decide (r = eLIM_STA_IN_IBSS_ROLE).
Definition LIM_IS_P2P_DEVICE_ROLE (r : tLimSystemRole) : bool := bool_decide (r = eLIM_P2P_DEVICE_ROLE).
Definition LIM_IS_NDI_ROLE (r : tLimSystemRole) : bool := bool_decide (r = eLIM_NDI_ROLE).

(** [tSirMacAddr]: six bytes. *)
Abbreviation mac_addr := (list Z) (only parsing).
Definition zero_mac : mac_addr := [0; 0; 0; 0; 0; 0].
Definition mac_wf (a : mac_addr) : Prop := length a = 6%nat ∧ Forall is_u8 a.

(** Evaluate the role tests on a known role. *)
Ltac eval_roles :=
  repeat match goal with
  | |- context [?f ?r] =>
      lazymatch type of (f r) with bool => idtac end;
      lazymatch f with
      | LIM_IS_AP_ROLE => idtac | LIM_IS_STA_ROLE => idtac | LIM_IS_IBSS_ROLE => idtac
      | LIM_IS_P2P_DEVICE_ROLE => idtac | LIM_IS_NDI_ROLE => idtac
      end;
      is_constructor r;
      let v := eval vm_compute in (f r) in change (f r) with v
  end.
