(* ===== verification/AidPool.v ===== *)
(** The peer-index (association id) pool of a PE session:
    core/mac/src/pe/lim/lim_aid_mgmt.c, with the station count of
    core/mac/src/pe/lim/lim_session_utils.c.

    The pool is an array of bytes [gpLimPeerIdxpool] used as a linked free
    list: entry [i] holds the index following [i], 0 terminates. *)
From S2P Require Import Prelude Chains LimTypes.

(** The fields of [tPESession] the pool uses. *)
Record tPESession := mk_session {
  valid : bool;
  limSystemRole : tLimSystemRole;
  gpLimPeerIdxpool : list Z;
  freePeerIdxHead : Z;
  freePeerIdxTail : Z;
  gLimNumOfCurrentSTAs : Z;
}.
#[export] Instance tPESession_eta : Eta tPESession := fun s =>
  mk_session (valid s) (limSystemRole s) (gpLimPeerIdxpool s) (freePeerIdxHead s)
             (freePeerIdxTail s) (gLimNumOfCurrentSTAs s).
#[export] Instance tPESession_inhabited : Inhabited tPESession :=
  populate (mk_session false inhabitant [] 0 0 0).

(** The fields of [tAniSirLim] the pool uses. *)
Record tAniSirLim := mk_lim {
  maxStation : Z;
  maxBssId : Z;
  gLimAssocStaLimit : Z;
  gpSession : list tPESession;
}.
#[export] Instance tAniSirLim_eta : Eta tAniSirLim := fun m =>
  mk_lim (maxStation m) (maxBssId m) (gLimAssocStaLimit m) (gpSession m).

Definition LIM_START_PEER_IDX : Z := 1.
Definition DPH_STA_HASH_INDEX_PEER : Z := 1.

(** [lim_init_peer_idxpool]: [maxAssocSta] is the [uint8_t] truncation of
    [maxStation]; the loop links [head .. maxAssocSta]. *)
Definition lim_init_peer_idxpool (maxStation : Z) (s : tPESession) : tPESession :=
  let maxAssocSta := u8 maxStation in
  let pool := zset (gpLimPeerIdxpool s) 0 0 in
  let head :=
    if LIM_IS_STA_ROLE (limSystemRole s) then DPH_STA_HASH_INDEX_PEER + 1
    else if LIM_IS_IBSS_ROLE (limSystemRole s) then LIM_START_PEER_IDX
    else LIM_START_PEER_IDX in
  let pool := foldl (λ p i, zset p i (u8 (i + 1))) pool (seqZ head (maxAssocSta - head)) in
  let i := Z.max head maxAssocSta in
  s <| gpLimPeerIdxpool := zset pool i 0 |>
    <| freePeerIdxHead := head |>
    <| freePeerIdxTail := i |>.

(** [pe_get_current_stas_count]: an 8-bit sum over the valid sessions. *)
Definition pe_get_current_stas_count (m : tAniSirLim) : Z :=
  foldl (λ c i, let s := zget (gpSession m) i in
                if valid s then u8 (c + gLimNumOfCurrentSTAs s) else c)
        0 (seqZ 0 (maxBssId m)).

(** [lim_assign_peer_idx] on the session at index [si]: the new state and the
    returned peer index, 0 meaning failure. *)
Definition lim_assign_peer_idx (m : tAniSirLim) (si : Z) : tAniSirLim * Z :=
  if gLimAssocStaLimit m <=? pe_get_current_stas_count m then (m, 0)
  else
    let s := zget (gpSession m) si in
    if negb (freePeerIdxHead s =? 0) then
      let peerId := freePeerIdxHead s in
      let head := zget (gpLimPeerIdxpool s) (freePeerIdxHead s) in
      let s := s <| freePeerIdxHead := head |> in
      let s := if head =? 0 then s <| freePeerIdxTail := 0 |> else s in
      let s := s <| gLimNumOfCurrentSTAs ::= λ n, u16 (n + 1) |> in
      (m <| gpSession ::= λ l, zset l si s |>, peerId)
    else (m, 0).

(** [lim_release_peer_idx] on the session itself. *)
Definition lim_release_peer_idx (peerIdx : Z) (s : tPESession) : tPESession :=
  let s := s <| gLimNumOfCurrentSTAs ::= λ n, u16 (n - 1) |> in
  let s :=
    if negb (freePeerIdxTail s =? 0) then
      s <| gpLimPeerIdxpool ::= λ p, zset p (freePeerIdxTail s) (u8 peerIdx) |>
        <| freePeerIdxTail := u8 peerIdx |>
    else
      s <| freePeerIdxTail := u8 peerIdx |> <| freePeerIdxHead := u8 peerIdx |> in
  s <| gpLimPeerIdxpool ::= λ p, zset p (u8 peerIdx) 0 |>.

(** ** The free list *)

Definition idx_ptr (z : Z) : option Z := if z =? 0 then None else Some z.
Definition pool_next (pool : list Z) (i : Z) : option Z := idx_ptr (zget pool i).

(** [pool_wf s free]: the array holds exactly the free list [free], in order. *)
Record pool_wf (s : tPESession) (free : list Z) : Prop := {
  wf_chain : chain (pool_next (gpLimPeerIdxpool s)) (idx_ptr (freePeerIdxHead s)) free;
  wf_tail : freePeerIdxTail s = default 0 (last free);
  wf_range : Forall (λ i, 0 < i < 256 ∧ i < Z.of_nat (length (gpLimPeerIdxpool s))) free;
}.

Lemma idx_ptr_0 : idx_ptr 0 = None.
Proof. done. Qed.
Lemma idx_ptr_pos i : 0 < i → idx_ptr i = Some i.
Proof. intros. unfold idx_ptr. destruct (Z.eqb_spec i 0); [lia|done]. Qed.
Lemma idx_ptr_Some i j : idx_ptr i = Some j → i = j.
Proof. unfold idx_ptr. destruct (i =? 0); congruence. Qed.

Lemma foldl_link_get pool lo n j :
  0 <= lo → 0 <= j → lo + n <= 256 → lo + n <= Z.of_nat (length pool) →
  zget (foldl (λ p i, zset p i (u8 (i + 1))) pool (seqZ lo n)) j =
  if (lo <=? j) && (j <? lo + n) then u8 (j + 1) else zget pool j.
Proof.
  intros Hlo Hj Hn Hlen. destruct (Z.le_gt_cases n 0) as [Hn0|Hn0].
  { rewrite seqZ_nil by lia. cbn. by replace ((lo <=? j) && (j <? lo + n)) with false by lia. }
  revert pool lo Hlo Hn Hlen. pattern n. apply Zlt_lower_bound_ind with (z := 0); [|lia].
  clear n Hn0. intros n IH Hn0 pool lo Hlo Hn Hlen.
  destruct (Z.eq_dec n 0) as [->|Hne].
  { rewrite seqZ_nil by lia. cbn. by replace ((lo <=? j) && (j <? lo + 0)) with false by lia. }
  rewrite seqZ_cons by lia. cbn. rewrite (IH (Z.pred n)); [|lia..|rewrite ?length_zset; lia].
  destruct (Z.eq_dec j lo) as [->|Hjl].
  - replace ((Z.succ lo <=? lo) && _) with false by lia.
    replace ((lo <=? lo) && (lo <? lo + n)) with true by lia.
    apply zget_zset_eq. lia.
  - replace ((lo <=? j) && (j <? lo + n)) with ((Z.succ lo <=? j) && (j <? Z.succ lo + Z.pred n)) by lia.
    destruct (_ && _); [done|]. apply zget_zset_ne; lia.
Qed.

Lemma foldl_link_length pool l :
  length (foldl (λ p i, zset p i (u8 (i + 1))) pool l) = length pool.
Proof.
  revert pool. induction l as [|i l IH]; intros pool; cbn; [done|].
  by rewrite IH, length_zset.
Qed.

(** An array whose entries link [lo .. hi] in order and end at [hi] is the
    chain of those indexes. *)
Lemma chain_seqZ pool lo n :
  0 < lo → 0 < n →
  (∀ j, lo <= j < lo + n - 1 → zget pool j = j + 1) → zget pool (lo + n - 1) = 0 →
  chain (pool_next pool) (Some lo) (seqZ lo n).
Proof.
  intros Hlo Hn Hl Hlast. revert lo Hlo Hl Hlast.
  pattern n. apply Zlt_lower_bound_ind with (z := 1); [|lia].
  clear n Hn. intros n IH Hn lo Hlo Hl Hlast.
  rewrite seqZ_cons by lia. apply chain_cons. unfold pool_next at 2.
  destruct (Z.eq_dec n 1) as [->|Hne].
  - replace (zget pool lo) with 0 by (rewrite <- Hlast; f_equal; lia).
    rewrite seqZ_nil by lia. by apply chain_nil.
  - rewrite Hl by lia. rewrite idx_ptr_pos by lia.
    apply IH; [lia|lia|intros j Hj; apply Hl; lia|rewrite <- Hlast; f_equal; lia].
Qed.

Definition start_idx (r : tLimSystemRole) : Z := if LIM_IS_STA_ROLE r then 2 else 1.

Lemma init_wf mx s :
  start_idx (limSystemRole s) <= u8 mx < Z.of_nat (length (gpLimPeerIdxpool s)) →
  pool_wf (lim_init_peer_idxpool mx s)
    (seqZ (start_idx (limSystemRole s)) (u8 mx - start_idx (limSystemRole s) + 1)).
Proof.
  intros Hmx. unfold lim_init_peer_idxpool.
  replace (if LIM_IS_STA_ROLE (limSystemRole s) then _ else _)
    with (start_idx (limSystemRole s))
    by (unfold start_idx; repeat split_if; done).
  assert (1 <= start_idx (limSystemRole s) <= 2) as Hst by (unfold start_idx; split_if; lia).
  generalize dependent (start_idx (limSystemRole s)). intros st Hmx Hst.
  pose proof (u8_range mx) as Hr. unfold is_u8 in Hr.
  set (mxs := u8 mx) in *. clearbody mxs. rewrite Z.max_r by lia.
  split; rsimpl.
  - rewrite idx_ptr_pos by lia. apply chain_seqZ; [lia|lia| |].
    + intros j Hj. rewrite zget_zset_ne by lia.
      rewrite foldl_link_get by (rewrite ?length_zset; lia).
      replace ((st <=? j) && _) with true by lia. rewrite u8_small; [done|red; lia].
    + replace (st + (mxs - st + 1) - 1) with mxs by lia. apply zget_zset_eq.
      rewrite foldl_link_length, length_zset. lia.
  - rewrite seqZ_app by lia. rewrite (seqZ_cons _ 1), (seqZ_nil _ (Z.pred 1)), last_snoc by lia.
    cbn. lia.
  - apply Forall_forall. intros j Hj%elem_of_seqZ.
    rewrite length_zset, foldl_link_length, length_zset. lia.
Qed.

(** Popping the head of a well-formed pool. *)
Lemma pool_wf_pop s i free :
  pool_wf s (i :: free) →
  freePeerIdxHead s = i ∧ i ≠ 0 ∧
  zget (gpLimPeerIdxpool s) i = default 0 (head free) ∧
  let hd := zget (gpLimPeerIdxpool s) i in
  let s' := s <| freePeerIdxHead := hd |> in
  let s' := if hd =? 0 then s' <| freePeerIdxTail := 0 |> else s' in
  pool_wf (s' <| gLimNumOfCurrentSTAs ::= λ n, u16 (n + 1) |>) free.
Proof.
  intros [Hc Ht Hr]. destruct Hc as [Hh Hc]. apply idx_ptr_Some in Hh.
  inversion_clear Hr as [|?? Hi Hr']. 
  assert (zget (gpLimPeerIdxpool s) i = default 0 (head free)) as Hhd.
  { unfold pool_next in Hc. destruct free as [|j free]; cbn.
    - change (idx_ptr (zget (gpLimPeerIdxpool s) i) = None) in Hc.
      unfold idx_ptr in Hc. destruct (Z.eqb_spec (zget (gpLimPeerIdxpool s) i) 0); done.
    - destruct Hc as [Hj _]. by apply idx_ptr_Some in Hj. }
  split_and!; [done|lia|done|]. cbn.
  assert (Hnext : idx_ptr (zget (gpLimPeerIdxpool s) i) = pool_next (gpLimPeerIdxpool s) i) by done.
  destruct (Z.eqb_spec (zget (gpLimPeerIdxpool s) i) 0) as [E|E]; rsimpl; split; cbn; try done.
  - destruct free as [|j free]; [done|]. inversion_clear Hr' as [|?? Hj ?].
    cbn in Hhd. lia.
  - destruct free as [|j free]; [by rewrite Hhd in E|]. by rewrite last_cons_cons in Ht.
Qed.

(** Pushing a fresh index at the tail. *)
Lemma release_wf s free i :
  pool_wf s free → 0 < i < 256 → i < Z.of_nat (length (gpLimPeerIdxpool s)) → i ∉ free →
  pool_wf (lim_release_peer_idx i s) (free ++ [i]).
Proof.
  intros [Hc Ht Hr] Hi Hlen Hfresh. unfold lim_release_peer_idx.
  rewrite (u8_small i) by (red; lia). cbn [freePeerIdxTail set_field].
  assert (Forall (λ j, 0 < j < 256 ∧ j < Z.of_nat (length (gpLimPeerIdxpool s))) (free ++ [i]))
    as Hr' by (apply Forall_app; split; [done|by apply Forall_singleton]).
  destruct free as [|t free' _] using rev_ind.
  - cbn in Ht. rsimpl. rewrite Ht. cbn. split; cbn.
    + rewrite idx_ptr_pos by lia. apply chain_cons. unfold pool_next.
      rewrite zget_zset_eq by lia. by apply chain_nil.
    + done.
    + by rewrite length_zset.
  - rewrite last_snoc in Ht. cbn in Ht.
    apply Forall_app in Hr as [_ Hrt]. rewrite Forall_singleton in Hrt.
    rsimpl. replace (freePeerIdxTail s =? 0) with false by lia. cbn. split; cbn.
    + rewrite Ht. assert (i ≠ t ∧ i ∉ free') as [Hne Hni] by set_solver.
      apply lseg_app in Hc as Hc'. destruct Hc' as (r & Hl & [-> _]).
      pose proof (chain_NoDup _ _ _ Hc) as Hnd. apply NoDup_app in Hnd as (_ & Hd & _).
      assert (t ∉ free') by set_solver.
      assert (Forall (λ x, 0 <= x) free') as Hpos.
      { eapply Forall_impl; [by apply Forall_app in Hr' as [[? _]%Forall_app _]|cbn; lia]. }
      apply lseg_app. exists (Some i). split; [apply lseg_app; exists (Some t); split|].
      * eapply lseg_frame; [|done]. intros x Hx. unfold pool_next.
        rewrite Forall_forall in Hpos. specialize (Hpos x Hx).
        rewrite !zget_zset_ne; [done|lia..| |lia|lia|]; intros ->; done.
      * split; [done|]. unfold pool_next. rewrite zget_zset_ne by lia.
        rewrite zget_zset_eq by lia. apply lseg_nil, idx_ptr_pos. lia.
      * split; [done|]. unfold pool_next. rewrite zget_zset_eq by (rewrite length_zset; lia).
        by apply lseg_nil.
    + by rewrite last_snoc.
    + by rewrite !length_zset.
Qed.

(** Assigning from a well-formed pool, below the station limit, dequeues. *)
Lemma assign_wf m si s i free :
  0 <= si < Z.of_nat (length (gpSession m)) → zget (gpSession m) si = s →
  pe_get_current_stas_count m < gLimAssocStaLimit m →
  pool_wf s (i :: free) →
  ∃ s', lim_assign_peer_idx m si = (m <| gpSession ::= λ l, zset l si s' |>, i) ∧
        pool_wf s' free ∧ gpLimPeerIdxpool s' = gpLimPeerIdxpool s ∧
        gLimNumOfCurrentSTAs s' = u16 (gLimNumOfCurrentSTAs s + 1).
Proof.
  intros Hsi Hs Hlim Hwf. destruct (pool_wf_pop s i free Hwf) as (Hh & Hi & _ & Hpop).
  unfold lim_assign_peer_idx. rewrite Hs, Hh.
  replace (gLimAssocStaLimit m <=? _) with false by lia.
  replace (i =? 0) with false by lia. cbn [negb].
  eexists. split; [done|]. split; [exact Hpop|].
  rsimpl. by destruct (zget (gpLimPeerIdxpool s) i =? 0).
Qed.

Lemma assign_empty m si :
  pool_wf (zget (gpSession m) si) [] → lim_assign_peer_idx m si = (m, 0).
Proof.
  intros [Hc _ _]. unfold chain in Hc. rewrite lseg_nil in Hc. unfold idx_ptr in Hc.
  unfold lim_assign_peer_idx. split_if; [done|].
  destruct (Z.eqb_spec (freePeerIdxHead (zget (gpSession m) si)) 0); done.
Qed.

Lemma release_pool_length i s :
  length (gpLimPeerIdxpool (lim_release_peer_idx i s)) = length (gpLimPeerIdxpool s).
Proof. unfold lim_release_peer_idx. rsimpl. split_if; cbn; by rewrite ?length_zset. Qed.

Lemma release_count i s :
  gLimNumOfCurrentSTAs (lim_release_peer_idx i s) = u16 (gLimNumOfCurrentSTAs s - 1).
Proof. unfold lim_release_peer_idx. rsimpl. by split_if. Qed.

(** ** The pool as a state machine

    [out] is the list of indexes handed out and not yet released. *)
Inductive pool_step (si : Z) : tAniSirLim * list Z → tAniSirLim * list Z → Prop :=
  | step_assign m out m' i :
      lim_assign_peer_idx m si = (m', i) → i ≠ 0 → pool_step si (m, out) (m', i :: out)
  | step_assign_fail m out m' :
      lim_assign_peer_idx m si = (m', 0) → pool_step si (m, out) (m', out)
  | step_release m out1 i out2 :
      pool_step si (m, out1 ++ i :: out2)
        (m <| gpSession ::= λ l, zset l si (lim_release_peer_idx i (zget l si)) |>, out1 ++ out2).

(** The invariant: free and allocated indexes partition the range. *)
Definition pool_inv (si lo hi : Z) (c : tAniSirLim * list Z) : Prop :=
  ∃ free,
    pool_wf (zget (gpSession c.1) si) free ∧
    free ++ c.2 ≡ₚ seqZ lo (hi - lo + 1) ∧
    0 < lo ∧ hi < 256 ∧ 0 <= si < Z.of_nat (length (gpSession c.1)) ∧
    hi < Z.of_nat (length (gpLimPeerIdxpool (zget (gpSession c.1) si))).

Lemma pool_step_inv si lo hi c c' : pool_step si c c' → pool_inv si lo hi c → pool_inv si lo hi c'.
Proof.
  intros Hs (free & Hwf & Hp & Hlo & Hhi & Hsi & Hlen). destruct Hs as [m out m' i Ha Hi|m out m' Ha|m o1 i o2]; cbn in *.
  - destruct free as [|j free]; [rewrite assign_empty in Ha by done; congruence|].
    destruct (Z.le_gt_cases (gLimAssocStaLimit m) (pe_get_current_stas_count m)) as [Hc|Hc].
    { unfold lim_assign_peer_idx in Ha. replace (_ <=? _) with true in Ha by lia. congruence. }
    destruct (assign_wf m si _ j free Hsi eq_refl Hc Hwf) as (s' & Ha' & Hwf' & Hpool & _).
    rewrite Ha' in Ha. injection Ha as <- <-. exists free. rsimpl.
    rewrite zget_zset_eq, length_zset, Hpool by done.
    split_and!; try done; try lia. rewrite <- Hp. by rewrite <- Permutation_middle.
  - assert (m' = m) as ->; [|by exists free].
    destruct free as [|j free]; [rewrite assign_empty in Ha by done; congruence|].
    destruct (Z.le_gt_cases (gLimAssocStaLimit m) (pe_get_current_stas_count m)) as [Hc|Hc].
    { unfold lim_assign_peer_idx in Ha. replace (_ <=? _) with true in Ha by lia. congruence. }
    destruct (assign_wf m si _ j free Hsi eq_refl Hc Hwf) as (s' & Ha' & _).
    destruct (pool_wf_pop _ _ _ Hwf) as (_ & Hj & _). congruence.
  - exists (free ++ [i]). rsimpl. rewrite zget_zset_eq, length_zset by done.
    assert (i ∈ seqZ lo (hi - lo + 1)) as Hin%elem_of_seqZ.
    { rewrite <- Hp. set_solver. }
    assert (i ∉ free) as Hni.
    { pose proof (NoDup_seqZ lo (hi - lo + 1)) as Hnd. rewrite <- Hp in Hnd.
      apply NoDup_app in Hnd as (_ & Hd & _). set_solver. }
    rewrite release_pool_length. split_and!; try lia.
    + apply release_wf; [done|lia|lia|done].
    + rewrite <- Hp, <- app_assoc. cbn. by rewrite Permutation_middle.
Qed.

Lemma pool_inv_reachable si lo hi c c' :
  rtc (pool_step si) c c' → pool_inv si lo hi c → pool_inv si lo hi c'.
Proof. induction 1; eauto using pool_step_inv. Qed.

Lemma pool_inv_init m si mx s0 :
  zget (gpSession m) si = lim_init_peer_idxpool mx s0 →
  0 <= si < Z.of_nat (length (gpSession m)) →
  start_idx (limSystemRole s0) <= u8 mx < Z.of_nat (length (gpLimPeerIdxpool s0)) →
  pool_inv si (start_idx (limSystemRole s0)) (u8 mx) (m, []).
Proof.
  intros Hs Hsi Hmx. exists (seqZ (start_idx (limSystemRole s0)) (u8 mx - start_idx (limSystemRole s0) + 1)).
  cbn. rewrite Hs, app_nil_r. pose proof (u8_range mx) as Hr. unfold is_u8 in Hr.
  split_and!; [by apply init_wf|done| |lia|lia|lia|].
  - unfold start_idx. split_if; lia.
  - unfold lim_init_peer_idxpool. rsimpl. rewrite length_zset, foldl_link_length, length_zset. lia.
Qed.

(** C39: along any sequence of assignments and releases from a freshly
    initialised pool, no index is handed out twice: the outstanding indexes are
    distinct and within [start .. maxStation], a further assignment never
    returns an outstanding index, and it fails only when the association limit
    is reached or every index is outstanding. *)
Theorem aid_pool_safety m si mx s0 m' out :
  zget (gpSession m) si = lim_init_peer_idxpool mx s0 →
  0 <= si < Z.of_nat (length (gpSession m)) →
  start_idx (limSystemRole s0) <= u8 mx < Z.of_nat (length (gpLimPeerIdxpool s0)) →
  rtc (pool_step si) (m, []) (m', out) →
  NoDup out ∧
  Forall (λ i, start_idx (limSystemRole s0) <= i <= u8 mx) out ∧
  (∀ m'' i, lim_assign_peer_idx m' si = (m'', i) → i ≠ 0 → i ∉ out) ∧
  (∀ m'', lim_assign_peer_idx m' si = (m'', 0) →
     gLimAssocStaLimit m' <= pe_get_current_stas_count m' ∨
     Z.of_nat (length out) = u8 mx - start_idx (limSystemRole s0) + 1).
Proof.
  intros Hs Hsi Hmx Hrtc.
  pose proof (pool_inv_reachable _ _ _ _ _ Hrtc (pool_inv_init _ _ _ _ Hs Hsi Hmx))
    as (free & Hwf & Hp & Hlo & Hhi & Hsi' & _). cbn in *.
  pose proof (NoDup_seqZ (start_idx (limSystemRole s0)) (u8 mx - start_idx (limSystemRole s0) + 1))
    as Hnd. rewrite <- Hp in Hnd. apply NoDup_app in Hnd as (_ & Hd & Hnd).
  split_and!; [done| | |].
  - apply Forall_forall. intros i Hi.
    assert (i ∈ free ++ out) as Hin by set_solver. rewrite Hp in Hin.
    apply elem_of_seqZ in Hin. lia.
  - intros m'' i Ha Hi. destruct free as [|j free].
    { rewrite assign_empty in Ha by done. congruence. }
    destruct (Z.le_gt_cases (gLimAssocStaLimit m') (pe_get_current_stas_count m')) as [Hc|Hc].
    { unfold lim_assign_peer_idx in Ha. replace (_ <=? _) with true in Ha by lia. congruence. }
    destruct (assign_wf m' si _ j free Hsi' eq_refl Hc Hwf) as (s' & Ha' & _).
    assert (i = j) as -> by congruence. set_solver.
  - intros m'' Ha.
    destruct (Z.le_gt_cases (gLimAssocStaLimit m') (pe_get_current_stas_count m')) as [Hc|Hc]; [by left|].
    right. destruct free as [|j free].
    + cbn in Hp. rewrite Hp. rewrite length_seqZ.  lia.
    + destruct (assign_wf m' si _ j free Hsi' eq_refl Hc Hwf) as (s' & Ha' & _).
      destruct (pool_wf_pop _ _ _ Hwf) as (_ & Hj & _). congruence.
Qed.

Definition demo_session : tPESession :=
  mk_session true eLIM_STA_ROLE (replicate 5 0) 0 0 0.
Definition demo_lim : tAniSirLim :=
  mk_lim 4 1 32 [lim_init_peer_idxpool 4 demo_session].

Definition demo_lim_1 : tAniSirLim := (lim_assign_peer_idx demo_lim 0).1.
Definition demo_lim_2 : tAniSirLim := (lim_assign_peer_idx demo_lim_1 0).1.
Definition demo_lim_3 : tAniSirLim :=
  demo_lim_2 <| gpSession ::= λ l, zset l 0 (lim_release_peer_idx 2 (zget l 0)) |>.

Lemma aid_pool_safety_witness :
  rtc (pool_step 0) (demo_lim, []) (demo_lim_3, [3]) ∧
  ∀ m'' i, lim_assign_peer_idx demo_lim_3 0 = (m'', i) → i ≠ 0 → i ∉ [3].
Proof.
  assert (rtc (pool_step 0) (demo_lim, []) (demo_lim_3, [3])) as Hr.
  { eapply rtc_l; [apply (step_assign 0 demo_lim [] demo_lim_1 2); [reflexivity|lia]|].
    eapply rtc_l; [apply (step_assign 0 demo_lim_1 [2] demo_lim_2 3); [reflexivity|lia]|].
    apply rtc_once, (step_release 0 demo_lim_2 [3] 2 []). }
  split; [exact Hr|].
  eapply (aid_pool_safety demo_lim 0 4 demo_session).
  - reflexivity.
  - vm_compute. split; congruence.
  - vm_compute. split; congruence.
  - exact Hr.
Defined.

(** The abstract pool: a FIFO queue of free indexes. *)
Definition queue_assign (q : list Z) : list Z * Z :=
  match q with [] => ([], 0) | i :: q' => (q', i) end.
Definition queue_release (q : list Z) (i : Z) : list Z := q ++ [i].

(** Refinement of the abstract FIFO queue: from a state whose pool
    represents the queue [q], an assignment below the station limit returns
    what the queue returns and leaves a pool representing the queue's rest,
    at the limit it fails and changes nothing, and releasing an index not in
    the queue represents the enqueue; the station count follows. *)
Theorem aid_pool_refines_fifo m si q :
  0 <= si < Z.of_nat (length (gpSession m)) →
  pool_wf (zget (gpSession m) si) q →
  (gLimAssocStaLimit m <= pe_get_current_stas_count m → lim_assign_peer_idx m si = (m, 0)) ∧
  (pe_get_current_stas_count m < gLimAssocStaLimit m →
     (lim_assign_peer_idx m si).2 = (queue_assign q).2 ∧
     pool_wf (zget (gpSession (lim_assign_peer_idx m si).1) si) (queue_assign q).1) ∧
  (∀ i, 0 < i < 256 → i < Z.of_nat (length (gpLimPeerIdxpool (zget (gpSession m) si))) → i ∉ q →
     pool_wf (lim_release_peer_idx i (zget (gpSession m) si)) (queue_release q i)).
Proof.
  intros Hsi Hwf. split_and!.
  - intros Hc. unfold lim_assign_peer_idx. by replace (_ <=? _) with true by lia.
  - intros Hc. destruct q as [|i q].
    + by rewrite assign_empty.
    + destruct (assign_wf m si _ i q Hsi eq_refl Hc Hwf) as (s' & -> & Hwf' & _).
      cbn. by rewrite zget_zset_eq.
  - intros i Hi Hl Hni. by apply release_wf.
Qed.

Lemma aid_pool_refines_fifo_witness :
  (lim_assign_peer_idx demo_lim 0).2 = 2 ∧
  pool_wf (lim_release_peer_idx 1 (zget (gpSession demo_lim) 0)) [2; 3; 4; 1].
Proof.
  assert (pool_wf (zget (gpSession demo_lim) 0) [2; 3; 4]) as Hwf.
  { apply (init_wf 4 demo_session). vm_compute. split; congruence. }
  destruct (aid_pool_refines_fifo demo_lim 0 [2; 3; 4]) as (_ & Ha & Hr).
  - vm_compute. split; congruence.
  - exact Hwf.
  - split; [apply Ha; vm_compute; reflexivity|].
    apply Hr; [lia|vm_compute; reflexivity|]. set_solver.
Defined.
