(* ===== verification/CfgTable.v ===== *)
(** The configuration parameters and their built-in table: the enumeration and
    limits of core/mac/inc/wni_cfg.h, the control flags of
    core/mac/src/cfg/cfg_def.h, and the two tables of
    core/mac/src/cfg/cfg_proc_msg.c ([cfg_static], one row per parameter, and
    [cfg_static_string], the default values of the string parameters). *)
From S2P Require Import Prelude.

(** The parameter enumeration, in the order of the header. *)
Inductive wni_cfg :=
  | WNI_CFG_STA_ID | WNI_CFG_CFP_PERIOD | WNI_CFG_CFP_MAX_DURATION
  | WNI_CFG_SSID | WNI_CFG_BEACON_INTERVAL | WNI_CFG_DTIM_PERIOD
  | WNI_CFG_WEP_KEY_LENGTH | WNI_CFG_WEP_DEFAULT_KEY_1 | WNI_CFG_WEP_DEFAULT_KEY_2
  | WNI_CFG_WEP_DEFAULT_KEY_3 | WNI_CFG_WEP_DEFAULT_KEY_4 | WNI_CFG_WEP_DEFAULT_KEYID
  | WNI_CFG_EXCLUDE_UNENCRYPTED | WNI_CFG_RTS_THRESHOLD | WNI_CFG_SHORT_RETRY_LIMIT
  | WNI_CFG_LONG_RETRY_LIMIT | WNI_CFG_FRAGMENTATION_THRESHOLD | WNI_CFG_ACTIVE_MINIMUM_CHANNEL_TIME
  | WNI_CFG_ACTIVE_MAXIMUM_CHANNEL_TIME | WNI_CFG_PASSIVE_MINIMUM_CHANNEL_TIME | WNI_CFG_PASSIVE_MAXIMUM_CHANNEL_TIME
  | WNI_CFG_JOIN_FAILURE_TIMEOUT | WNI_CFG_AUTHENTICATE_FAILURE_TIMEOUT | WNI_CFG_AUTHENTICATE_RSP_TIMEOUT
  | WNI_CFG_ASSOCIATION_FAILURE_TIMEOUT | WNI_CFG_REASSOCIATION_FAILURE_TIMEOUT | WNI_CFG_PS_ENABLE_BCN_FILTER
  | WNI_CFG_PS_ENABLE_HEART_BEAT | WNI_CFG_PS_ENABLE_RSSI_MONITOR | WNI_CFG_PS_DATA_INACTIVITY_TIMEOUT
  | WNI_CFG_RF_SETTLING_TIME_CLK | WNI_CFG_SUPPORTED_RATES_11B | WNI_CFG_SUPPORTED_RATES_11A
  | WNI_CFG_PHY_MODE | WNI_CFG_DOT11_MODE | WNI_CFG_OPERATIONAL_RATE_SET
  | WNI_CFG_EXTENDED_OPERATIONAL_RATE_SET | WNI_CFG_PROPRIETARY_OPERATIONAL_RATE_SET | WNI_CFG_LISTEN_INTERVAL
  | WNI_CFG_VALID_CHANNEL_LIST | WNI_CFG_CURRENT_CHANNEL | WNI_CFG_DEFAULT_RATE_INDEX_24GHZ
  | WNI_CFG_FIXED_RATE | WNI_CFG_APSD_ENABLED | WNI_CFG_SHARED_KEY_AUTH_ENABLE
  | WNI_CFG_OPEN_SYSTEM_AUTH_ENABLE | WNI_CFG_AUTHENTICATION_TYPE | WNI_CFG_PRIVACY_ENABLED
  | WNI_CFG_SHORT_PREAMBLE | WNI_CFG_ACCEPT_SHORT_SLOT_ASSOC_ONLY | WNI_CFG_QOS_ENABLED
  | WNI_CFG_HCF_ENABLED | WNI_CFG_RSN_ENABLED | WNI_CFG_MAX_NUM_PRE_AUTH
  | WNI_CFG_HEART_BEAT_THRESHOLD | WNI_CFG_PROBE_AFTER_HB_FAIL_TIMEOUT | WNI_CFG_MANUFACTURER_NAME
  | WNI_CFG_MODEL_NUMBER | WNI_CFG_MODEL_NAME | WNI_CFG_MANUFACTURER_PRODUCT_NAME
  | WNI_CFG_MANUFACTURER_PRODUCT_VERSION | WNI_CFG_11D_ENABLED | WNI_CFG_MAX_TX_POWER_2_4
  | WNI_CFG_MAX_TX_POWER_5 | WNI_CFG_CURRENT_TX_POWER_LEVEL | WNI_CFG_NEW_BSS_FOUND_IND
  | WNI_CFG_COUNTRY_CODE | WNI_CFG_11H_ENABLED | WNI_CFG_WT_CNF_TIMEOUT
  | WNI_CFG_LOG_LEVEL | WNI_CFG_OLBC_DETECT_TIMEOUT | WNI_CFG_PROTECTION_ENABLED
  | WNI_CFG_11G_PROTECTION_ALWAYS | WNI_CFG_FORCE_POLICY_PROTECTION | WNI_CFG_11G_SHORT_PREAMBLE_ENABLED
  | WNI_CFG_11G_SHORT_SLOT_TIME_ENABLED | WNI_CFG_11G_ONLY_POLICY | WNI_CFG_WME_ENABLED
  | WNI_CFG_ADDTS_RSP_TIMEOUT | WNI_CFG_MAX_SP_LENGTH | WNI_CFG_WSM_ENABLED
  | WNI_CFG_EDCA_PROFILE | WNI_CFG_EDCA_ANI_ACBK_LOCAL | WNI_CFG_EDCA_ANI_ACBE_LOCAL
  | WNI_CFG_EDCA_ANI_ACVI_LOCAL | WNI_CFG_EDCA_ANI_ACVO_LOCAL | WNI_CFG_EDCA_ANI_ACBK
  | WNI_CFG_EDCA_ANI_ACBE | WNI_CFG_EDCA_ANI_ACVI | WNI_CFG_EDCA_ANI_ACVO
  | WNI_CFG_EDCA_WME_ACBK_LOCAL | WNI_CFG_EDCA_WME_ACBE_LOCAL | WNI_CFG_EDCA_WME_ACVI_LOCAL
  | WNI_CFG_EDCA_WME_ACVO_LOCAL | WNI_CFG_EDCA_WME_ACBK | WNI_CFG_EDCA_WME_ACBE
  | WNI_CFG_EDCA_WME_ACVI | WNI_CFG_EDCA_WME_ACVO | WNI_CFG_LOCAL_POWER_CONSTRAINT
  | WNI_CFG_ADMIT_POLICY | WNI_CFG_ADMIT_BWFACTOR | WNI_CFG_CHANNEL_BONDING_MODE
  | WNI_CFG_DYNAMIC_THRESHOLD_ZERO | WNI_CFG_DYNAMIC_THRESHOLD_ONE | WNI_CFG_DYNAMIC_THRESHOLD_TWO
  | WNI_CFG_SCAN_CONTROL_LIST | WNI_CFG_BLOCK_ACK_ENABLED | WNI_CFG_HT_CAP_INFO
  | WNI_CFG_HT_AMPDU_PARAMS | WNI_CFG_SUPPORTED_MCS_SET | WNI_CFG_EXT_HT_CAP_INFO
  | WNI_CFG_TX_BF_CAP | WNI_CFG_AS_CAP | WNI_CFG_HT_INFO_FIELD1
  | WNI_CFG_HT_INFO_FIELD2 | WNI_CFG_HT_INFO_FIELD3 | WNI_CFG_BASIC_MCS_SET
  | WNI_CFG_CURRENT_MCS_SET | WNI_CFG_VHT_MAX_MPDU_LENGTH | WNI_CFG_VHT_SUPPORTED_CHAN_WIDTH_SET
  | WNI_CFG_VHT_LDPC_CODING_CAP | WNI_CFG_VHT_SHORT_GI_80MHZ | WNI_CFG_VHT_SHORT_GI_160_AND_80_PLUS_80MHZ
  | WNI_CFG_VHT_TXSTBC | WNI_CFG_VHT_RXSTBC | WNI_CFG_VHT_SU_BEAMFORMER_CAP
  | WNI_CFG_VHT_SU_BEAMFORMEE_CAP | WNI_CFG_VHT_CSN_BEAMFORMEE_ANT_SUPPORTED | WNI_CFG_VHT_NUM_SOUNDING_DIMENSIONS
  | WNI_CFG_VHT_MU_BEAMFORMER_CAP | WNI_CFG_VHT_MU_BEAMFORMEE_CAP | WNI_CFG_VHT_TXOP_PS
  | WNI_CFG_VHT_HTC_VHTC_CAP | WNI_CFG_VHT_AMPDU_LEN_EXPONENT | WNI_CFG_VHT_LINK_ADAPTATION_CAP
  | WNI_CFG_VHT_RX_ANT_PATTERN | WNI_CFG_VHT_TX_ANT_PATTERN | WNI_CFG_VHT_RX_MCS_MAP
  | WNI_CFG_VHT_TX_MCS_MAP | WNI_CFG_VHT_RX_HIGHEST_SUPPORTED_DATA_RATE | WNI_CFG_VHT_TX_HIGHEST_SUPPORTED_DATA_RATE
  | WNI_CFG_VHT_BASIC_MCS_SET | WNI_CFG_VHT_MU_MIMO_CAP_STA_COUNT | WNI_CFG_VHT_SS_UNDER_UTIL
  | WNI_CFG_VHT_40MHZ_UTILIZATION | WNI_CFG_VHT_80MHZ_UTILIZATION | WNI_CFG_VHT_160MHZ_UTILIZATION
  | WNI_CFG_MPDU_DENSITY | WNI_CFG_MAX_RX_AMPDU_FACTOR | WNI_CFG_MAX_PS_POLL
  | WNI_CFG_RSSI_FILTER_PERIOD | WNI_CFG_SCAN_IN_POWERSAVE | WNI_CFG_IGNORE_DTIM
  | WNI_CFG_WOWLAN_UCAST_PATTERN_FILTER_ENABLE | WNI_CFG_WOWLAN_CHANNEL_SWITCH_ENABLE | WNI_CFG_WOWLAN_DEAUTH_ENABLE
  | WNI_CFG_WOWLAN_DISASSOC_ENABLE | WNI_CFG_WOWLAN_MAX_MISSED_BEACON | WNI_CFG_WOWLAN_MAX_SLEEP_PERIOD
  | WNI_CFG_MAX_MEDIUM_TIME | WNI_CFG_IBSS_AUTO_BSSID | WNI_CFG_PROBE_RSP_BCN_ADDNIE_FLAG
  | WNI_CFG_WPS_ENABLE | WNI_CFG_WPS_STATE | WNI_CFG_WPS_VERSION
  | WNI_CFG_WPS_CFG_METHOD | WNI_CFG_WPS_UUID | WNI_CFG_WPS_PRIMARY_DEVICE_CATEGORY
  | WNI_CFG_WPS_PIMARY_DEVICE_OUI | WNI_CFG_WPS_DEVICE_SUB_CATEGORY | WNI_CFG_WPS_DEVICE_PASSWORD_ID
  | WNI_CFG_LOW_GAIN_OVERRIDE | WNI_CFG_SINGLE_TID_RC | WNI_CFG_MCAST_BCAST_FILTER_SETTING
  | WNI_CFG_DYNAMIC_PS_POLL_VALUE | WNI_CFG_PS_NULLDATA_AP_RESP_TIMEOUT | WNI_CFG_TELE_BCN_WAKEUP_EN
  | WNI_CFG_TELE_BCN_TRANS_LI | WNI_CFG_TELE_BCN_TRANS_LI_IDLE_BCNS | WNI_CFG_TELE_BCN_MAX_LI
  | WNI_CFG_TELE_BCN_MAX_LI_IDLE_BCNS | WNI_CFG_INFRA_STA_KEEP_ALIVE_PERIOD | WNI_CFG_ASSOC_STA_LIMIT
  | WNI_CFG_AP_DATA_AVAIL_POLL_PERIOD | WNI_CFG_ENABLE_LTE_COEX | WNI_CFG_AP_KEEP_ALIVE_TIMEOUT
  | WNI_CFG_GO_KEEP_ALIVE_TIMEOUT | WNI_CFG_ENABLE_MC_ADDR_LIST | WNI_CFG_ENABLE_LPWR_IMG_TRANSITION
  | WNI_CFG_ENABLE_MCC_ADAPTIVE_SCHED | WNI_CFG_DISABLE_LDPC_WITH_TXBF_AP | WNI_CFG_AP_LINK_MONITOR_TIMEOUT
  | WNI_CFG_TDLS_QOS_WMM_UAPSD_MASK | WNI_CFG_TDLS_BUF_STA_ENABLED | WNI_CFG_TDLS_PUAPSD_INACT_TIME
  | WNI_CFG_TDLS_RX_FRAME_THRESHOLD | WNI_CFG_PMF_SA_QUERY_MAX_RETRIES | WNI_CFG_PMF_SA_QUERY_RETRY_INTERVAL
  | WNI_CFG_ENABLE_ADAPT_RX_DRAIN | WNI_CFG_ANTENNA_DIVESITY | WNI_CFG_GO_LINK_MONITOR_TIMEOUT
  | WNI_CFG_RMC_ACTION_PERIOD_FREQUENCY | WNI_CFG_CURRENT_RSSI | WNI_CFG_RTT3_ENABLE
  | WNI_CFG_DEBUG_P2P_REMAIN_ON_CHANNEL | WNI_CFG_TDLS_OFF_CHANNEL_ENABLED | WNI_CFG_IBSS_ATIM_WIN_SIZE
  | WNI_CFG_DFS_MASTER_ENABLED | WNI_CFG_VHT_ENABLE_TXBF_20MHZ | WNI_CFG_TDLS_WMM_MODE_ENABLED
  | WNI_CFG_OBSS_HT40_SCAN_PASSIVE_DWELL_TIME | WNI_CFG_OBSS_HT40_SCAN_ACTIVE_DWELL_TIME | WNI_CFG_OBSS_HT40_SCAN_WIDTH_TRIGGER_INTERVAL
  | WNI_CFG_OBSS_HT40_SCAN_PASSIVE_TOTAL_PER_CHANNEL | WNI_CFG_OBSS_HT40_SCAN_ACTIVE_TOTAL_PER_CHANNEL | WNI_CFG_OBSS_HT40_WIDTH_CH_TRANSITION_DELAY
  | WNI_CFG_OBSS_HT40_SCAN_ACTIVITY_THRESHOLD | WNI_CFG_TGT_GTX_USR_CFG | WNI_CFG_MAX_HT_MCS_TX_DATA
  | WNI_CFG_DISABLE_ABG_RATE_FOR_TX_DATA | WNI_CFG_RATE_FOR_TX_MGMT | WNI_CFG_PS_WOW_DATA_INACTIVITY_TIMEOUT.

(** The integer value of an enumerator. *)
Definition wni_cfg_id (c : wni_cfg) : Z :=
  match c with
  | WNI_CFG_STA_ID => 0 | WNI_CFG_CFP_PERIOD => 1 | WNI_CFG_CFP_MAX_DURATION => 2
  | WNI_CFG_SSID => 3 | WNI_CFG_BEACON_INTERVAL => 4 | WNI_CFG_DTIM_PERIOD => 5
  | WNI_CFG_WEP_KEY_LENGTH => 6 | WNI_CFG_WEP_DEFAULT_KEY_1 => 7 | WNI_CFG_WEP_DEFAULT_KEY_2 => 8
  | WNI_CFG_WEP_DEFAULT_KEY_3 => 9 | WNI_CFG_WEP_DEFAULT_KEY_4 => 10 | WNI_CFG_WEP_DEFAULT_KEYID => 11
  | WNI_CFG_EXCLUDE_UNENCRYPTED => 12 | WNI_CFG_RTS_THRESHOLD => 13 | WNI_CFG_SHORT_RETRY_LIMIT => 14
  | WNI_CFG_LONG_RETRY_LIMIT => 15 | WNI_CFG_FRAGMENTATION_THRESHOLD => 16 | WNI_CFG_ACTIVE_MINIMUM_CHANNEL_TIME => 17
  | WNI_CFG_ACTIVE_MAXIMUM_CHANNEL_TIME => 18 | WNI_CFG_PASSIVE_MINIMUM_CHANNEL_TIME => 19 | WNI_CFG_PASSIVE_MAXIMUM_CHANNEL_TIME => 20
  | WNI_CFG_JOIN_FAILURE_TIMEOUT => 21 | WNI_CFG_AUTHENTICATE_FAILURE_TIMEOUT => 22 | WNI_CFG_AUTHENTICATE_RSP_TIMEOUT => 23
  | WNI_CFG_ASSOCIATION_FAILURE_TIMEOUT => 24 | WNI_CFG_REASSOCIATION_FAILURE_TIMEOUT => 25 | WNI_CFG_PS_ENABLE_BCN_FILTER => 26
  | WNI_CFG_PS_ENABLE_HEART_BEAT => 27 | WNI_CFG_PS_ENABLE_RSSI_MONITOR => 28 | WNI_CFG_PS_DATA_INACTIVITY_TIMEOUT => 29
  | WNI_CFG_RF_SETTLING_TIME_CLK => 30 | WNI_CFG_SUPPORTED_RATES_11B => 31 | WNI_CFG_SUPPORTED_RATES_11A => 32
  | WNI_CFG_PHY_MODE => 33 | WNI_CFG_DOT11_MODE => 34 | WNI_CFG_OPERATIONAL_RATE_SET => 35
  | WNI_CFG_EXTENDED_OPERATIONAL_RATE_SET => 36 | WNI_CFG_PROPRIETARY_OPERATIONAL_RATE_SET => 37 | WNI_CFG_LISTEN_INTERVAL => 38
  | WNI_CFG_VALID_CHANNEL_LIST => 39 | WNI_CFG_CURRENT_CHANNEL => 40 | WNI_CFG_DEFAULT_RATE_INDEX_24GHZ => 41
  | WNI_CFG_FIXED_RATE => 42 | WNI_CFG_APSD_ENABLED => 43 | WNI_CFG_SHARED_KEY_AUTH_ENABLE => 44
  | WNI_CFG_OPEN_SYSTEM_AUTH_ENABLE => 45 | WNI_CFG_AUTHENTICATION_TYPE => 46 | WNI_CFG_PRIVACY_ENABLED => 47
  | WNI_CFG_SHORT_PREAMBLE => 48 | WNI_CFG_ACCEPT_SHORT_SLOT_ASSOC_ONLY => 49 | WNI_CFG_QOS_ENABLED => 50
  | WNI_CFG_HCF_ENABLED => 51 | WNI_CFG_RSN_ENABLED => 52 | WNI_CFG_MAX_NUM_PRE_AUTH => 53
  | WNI_CFG_HEART_BEAT_THRESHOLD => 54 | WNI_CFG_PROBE_AFTER_HB_FAIL_TIMEOUT => 55 | WNI_CFG_MANUFACTURER_NAME => 56
  | WNI_CFG_MODEL_NUMBER => 57 | WNI_CFG_MODEL_NAME => 58 | WNI_CFG_MANUFACTURER_PRODUCT_NAME => 59
  | WNI_CFG_MANUFACTURER_PRODUCT_VERSION => 60 | WNI_CFG_11D_ENABLED => 61 | WNI_CFG_MAX_TX_POWER_2_4 => 62
  | WNI_CFG_MAX_TX_POWER_5 => 63 | WNI_CFG_CURRENT_TX_POWER_LEVEL => 64 | WNI_CFG_NEW_BSS_FOUND_IND => 65
  | WNI_CFG_COUNTRY_CODE => 66 | WNI_CFG_11H_ENABLED => 67 | WNI_CFG_WT_CNF_TIMEOUT => 68
  | WNI_CFG_LOG_LEVEL => 69 | WNI_CFG_OLBC_DETECT_TIMEOUT => 70 | WNI_CFG_PROTECTION_ENABLED => 71
  | WNI_CFG_11G_PROTECTION_ALWAYS => 72 | WNI_CFG_FORCE_POLICY_PROTECTION => 73 | WNI_CFG_11G_SHORT_PREAMBLE_ENABLED => 74
  | WNI_CFG_11G_SHORT_SLOT_TIME_ENABLED => 75 | WNI_CFG_11G_ONLY_POLICY => 76 | WNI_CFG_WME_ENABLED => 77
  | WNI_CFG_ADDTS_RSP_TIMEOUT => 78 | WNI_CFG_MAX_SP_LENGTH => 79 | WNI_CFG_WSM_ENABLED => 80
  | WNI_CFG_EDCA_PROFILE => 81 | WNI_CFG_EDCA_ANI_ACBK_LOCAL => 82 | WNI_CFG_EDCA_ANI_ACBE_LOCAL => 83
  | WNI_CFG_EDCA_ANI_ACVI_LOCAL => 84 | WNI_CFG_EDCA_ANI_ACVO_LOCAL => 85 | WNI_CFG_EDCA_ANI_ACBK => 86
  | WNI_CFG_EDCA_ANI_ACBE => 87 | WNI_CFG_EDCA_ANI_ACVI => 88 | WNI_CFG_EDCA_ANI_ACVO => 89
  | WNI_CFG_EDCA_WME_ACBK_LOCAL => 90 | WNI_CFG_EDCA_WME_ACBE_LOCAL => 91 | WNI_CFG_EDCA_WME_ACVI_LOCAL => 92
  | WNI_CFG_EDCA_WME_ACVO_LOCAL => 93 | WNI_CFG_EDCA_WME_ACBK => 94 | WNI_CFG_EDCA_WME_ACBE => 95
  | WNI_CFG_EDCA_WME_ACVI => 96 | WNI_CFG_EDCA_WME_ACVO => 97 | WNI_CFG_LOCAL_POWER_CONSTRAINT => 98
  | WNI_CFG_ADMIT_POLICY => 99 | WNI_CFG_ADMIT_BWFACTOR => 100 | WNI_CFG_CHANNEL_BONDING_MODE => 101
  | WNI_CFG_DYNAMIC_THRESHOLD_ZERO => 102 | WNI_CFG_DYNAMIC_THRESHOLD_ONE => 103 | WNI_CFG_DYNAMIC_THRESHOLD_TWO => 104
  | WNI_CFG_SCAN_CONTROL_LIST => 105 | WNI_CFG_BLOCK_ACK_ENABLED => 106 | WNI_CFG_HT_CAP_INFO => 107
  | WNI_CFG_HT_AMPDU_PARAMS => 108 | WNI_CFG_SUPPORTED_MCS_SET => 109 | WNI_CFG_EXT_HT_CAP_INFO => 110
  | WNI_CFG_TX_BF_CAP => 111 | WNI_CFG_AS_CAP => 112 | WNI_CFG_HT_INFO_FIELD1 => 113
  | WNI_CFG_HT_INFO_FIELD2 => 114 | WNI_CFG_HT_INFO_FIELD3 => 115 | WNI_CFG_BASIC_MCS_SET => 116
  | WNI_CFG_CURRENT_MCS_SET => 117 | WNI_CFG_VHT_MAX_MPDU_LENGTH => 118 | WNI_CFG_VHT_SUPPORTED_CHAN_WIDTH_SET => 119
  | WNI_CFG_VHT_LDPC_CODING_CAP => 120 | WNI_CFG_VHT_SHORT_GI_80MHZ => 121 | WNI_CFG_VHT_SHORT_GI_160_AND_80_PLUS_80MHZ => 122
  | WNI_CFG_VHT_TXSTBC => 123 | WNI_CFG_VHT_RXSTBC => 124 | WNI_CFG_VHT_SU_BEAMFORMER_CAP => 125
  | WNI_CFG_VHT_SU_BEAMFORMEE_CAP => 126 | WNI_CFG_VHT_CSN_BEAMFORMEE_ANT_SUPPORTED => 127 | WNI_CFG_VHT_NUM_SOUNDING_DIMENSIONS => 128
  | WNI_CFG_VHT_MU_BEAMFORMER_CAP => 129 | WNI_CFG_VHT_MU_BEAMFORMEE_CAP => 130 | WNI_CFG_VHT_TXOP_PS => 131
  | WNI_CFG_VHT_HTC_VHTC_CAP => 132 | WNI_CFG_VHT_AMPDU_LEN_EXPONENT => 133 | WNI_CFG_VHT_LINK_ADAPTATION_CAP => 134
  | WNI_CFG_VHT_RX_ANT_PATTERN => 135 | WNI_CFG_VHT_TX_ANT_PATTERN => 136 | WNI_CFG_VHT_RX_MCS_MAP => 137
  | WNI_CFG_VHT_TX_MCS_MAP => 138 | WNI_CFG_VHT_RX_HIGHEST_SUPPORTED_DATA_RATE => 139 | WNI_CFG_VHT_TX_HIGHEST_SUPPORTED_DATA_RATE => 140
  | WNI_CFG_VHT_BASIC_MCS_SET => 141 | WNI_CFG_VHT_MU_MIMO_CAP_STA_COUNT => 142 | WNI_CFG_VHT_SS_UNDER_UTIL => 143
  | WNI_CFG_VHT_40MHZ_UTILIZATION => 144 | WNI_CFG_VHT_80MHZ_UTILIZATION => 145 | WNI_CFG_VHT_160MHZ_UTILIZATION => 146
  | WNI_CFG_MPDU_DENSITY => 147 | WNI_CFG_MAX_RX_AMPDU_FACTOR => 148 | WNI_CFG_MAX_PS_POLL => 149
  | WNI_CFG_RSSI_FILTER_PERIOD => 150 | WNI_CFG_SCAN_IN_POWERSAVE => 151 | WNI_CFG_IGNORE_DTIM => 152
  | WNI_CFG_WOWLAN_UCAST_PATTERN_FILTER_ENABLE => 153 | WNI_CFG_WOWLAN_CHANNEL_SWITCH_ENABLE => 154 | WNI_CFG_WOWLAN_DEAUTH_ENABLE => 155
  | WNI_CFG_WOWLAN_DISASSOC_ENABLE => 156 | WNI_CFG_WOWLAN_MAX_MISSED_BEACON => 157 | WNI_CFG_WOWLAN_MAX_SLEEP_PERIOD => 158
  | WNI_CFG_MAX_MEDIUM_TIME => 159 | WNI_CFG_IBSS_AUTO_BSSID => 160 | WNI_CFG_PROBE_RSP_BCN_ADDNIE_FLAG => 161
  | WNI_CFG_WPS_ENABLE => 162 | WNI_CFG_WPS_STATE => 163 | WNI_CFG_WPS_VERSION => 164
  | WNI_CFG_WPS_CFG_METHOD => 165 | WNI_CFG_WPS_UUID => 166 | WNI_CFG_WPS_PRIMARY_DEVICE_CATEGORY => 167
  | WNI_CFG_WPS_PIMARY_DEVICE_OUI => 168 | WNI_CFG_WPS_DEVICE_SUB_CATEGORY => 169 | WNI_CFG_WPS_DEVICE_PASSWORD_ID => 170
  | WNI_CFG_LOW_GAIN_OVERRIDE => 171 | WNI_CFG_SINGLE_TID_RC => 172 | WNI_CFG_MCAST_BCAST_FILTER_SETTING => 173
  | WNI_CFG_DYNAMIC_PS_POLL_VALUE => 174 | WNI_CFG_PS_NULLDATA_AP_RESP_TIMEOUT => 175 | WNI_CFG_TELE_BCN_WAKEUP_EN => 176
  | WNI_CFG_TELE_BCN_TRANS_LI => 177 | WNI_CFG_TELE_BCN_TRANS_LI_IDLE_BCNS => 178 | WNI_CFG_TELE_BCN_MAX_LI => 179
  | WNI_CFG_TELE_BCN_MAX_LI_IDLE_BCNS => 180 | WNI_CFG_INFRA_STA_KEEP_ALIVE_PERIOD => 181 | WNI_CFG_ASSOC_STA_LIMIT => 182
  | WNI_CFG_AP_DATA_AVAIL_POLL_PERIOD => 183 | WNI_CFG_ENABLE_LTE_COEX => 184 | WNI_CFG_AP_KEEP_ALIVE_TIMEOUT => 185
  | WNI_CFG_GO_KEEP_ALIVE_TIMEOUT => 186 | WNI_CFG_ENABLE_MC_ADDR_LIST => 187 | WNI_CFG_ENABLE_LPWR_IMG_TRANSITION => 188
  | WNI_CFG_ENABLE_MCC_ADAPTIVE_SCHED => 189 | WNI_CFG_DISABLE_LDPC_WITH_TXBF_AP => 190 | WNI_CFG_AP_LINK_MONITOR_TIMEOUT => 191
  | WNI_CFG_TDLS_QOS_WMM_UAPSD_MASK => 192 | WNI_CFG_TDLS_BUF_STA_ENABLED => 193 | WNI_CFG_TDLS_PUAPSD_INACT_TIME => 194
  | WNI_CFG_TDLS_RX_FRAME_THRESHOLD => 195 | WNI_CFG_PMF_SA_QUERY_MAX_RETRIES => 196 | WNI_CFG_PMF_SA_QUERY_RETRY_INTERVAL => 197
  | WNI_CFG_ENABLE_ADAPT_RX_DRAIN => 198 | WNI_CFG_ANTENNA_DIVESITY => 199 | WNI_CFG_GO_LINK_MONITOR_TIMEOUT => 200
  | WNI_CFG_RMC_ACTION_PERIOD_FREQUENCY => 201 | WNI_CFG_CURRENT_RSSI => 202 | WNI_CFG_RTT3_ENABLE => 203
  | WNI_CFG_DEBUG_P2P_REMAIN_ON_CHANNEL => 204 | WNI_CFG_TDLS_OFF_CHANNEL_ENABLED => 205 | WNI_CFG_IBSS_ATIM_WIN_SIZE => 206
  | WNI_CFG_DFS_MASTER_ENABLED => 207 | WNI_CFG_VHT_ENABLE_TXBF_20MHZ => 208 | WNI_CFG_TDLS_WMM_MODE_ENABLED => 209
  | WNI_CFG_OBSS_HT40_SCAN_PASSIVE_DWELL_TIME => 210 | WNI_CFG_OBSS_HT40_SCAN_ACTIVE_DWELL_TIME => 211 | WNI_CFG_OBSS_HT40_SCAN_WIDTH_TRIGGER_INTERVAL => 212
  | WNI_CFG_OBSS_HT40_SCAN_PASSIVE_TOTAL_PER_CHANNEL => 213 | WNI_CFG_OBSS_HT40_SCAN_ACTIVE_TOTAL_PER_CHANNEL => 214 | WNI_CFG_OBSS_HT40_WIDTH_CH_TRANSITION_DELAY => 215
  | WNI_CFG_OBSS_HT40_SCAN_ACTIVITY_THRESHOLD => 216 | WNI_CFG_TGT_GTX_USR_CFG => 217 | WNI_CFG_MAX_HT_MCS_TX_DATA => 218
  | WNI_CFG_DISABLE_ABG_RATE_FOR_TX_DATA => 219 | WNI_CFG_RATE_FOR_TX_MGMT => 220 | WNI_CFG_PS_WOW_DATA_INACTIVITY_TIMEOUT => 221
  end.
Coercion wni_cfg_id : wni_cfg >-> Z.
Definition CFG_PARAM_MAX_NUM : Z := 222.

(** The [WNI_CFG_*_STAMIN] constants: lower limit. *)
Definition STAMIN (c : wni_cfg) : Z :=
  match c with
  | WNI_CFG_CFP_PERIOD => 0
  | WNI_CFG_CFP_MAX_DURATION => 0
  | WNI_CFG_BEACON_INTERVAL => 0
  | WNI_CFG_DTIM_PERIOD => 0
  | WNI_CFG_WEP_KEY_LENGTH => 5
  | WNI_CFG_WEP_DEFAULT_KEYID => 0
  | WNI_CFG_EXCLUDE_UNENCRYPTED => 0
  | WNI_CFG_RTS_THRESHOLD => 0
  | WNI_CFG_SHORT_RETRY_LIMIT => 0
  | WNI_CFG_LONG_RETRY_LIMIT => 0
  | WNI_CFG_FRAGMENTATION_THRESHOLD => 256
  | WNI_CFG_ACTIVE_MINIMUM_CHANNEL_TIME => 0
  | WNI_CFG_ACTIVE_MAXIMUM_CHANNEL_TIME => 0
  | WNI_CFG_PASSIVE_MINIMUM_CHANNEL_TIME => 0
  | WNI_CFG_PASSIVE_MAXIMUM_CHANNEL_TIME => 0
  | WNI_CFG_JOIN_FAILURE_TIMEOUT => 0
  | WNI_CFG_AUTHENTICATE_FAILURE_TIMEOUT => 0
  | WNI_CFG_AUTHENTICATE_RSP_TIMEOUT => 0
  | WNI_CFG_ASSOCIATION_FAILURE_TIMEOUT => 0
  | WNI_CFG_REASSOCIATION_FAILURE_TIMEOUT => 0
  | WNI_CFG_PS_ENABLE_BCN_FILTER => 0
  | WNI_CFG_PS_ENABLE_HEART_BEAT => 0
  | WNI_CFG_PS_ENABLE_RSSI_MONITOR => 0
  | WNI_CFG_PS_DATA_INACTIVITY_TIMEOUT => 1
  | WNI_CFG_RF_SETTLING_TIME_CLK => 0
  | WNI_CFG_PHY_MODE => 0
  | WNI_CFG_DOT11_MODE => 0
  | WNI_CFG_LISTEN_INTERVAL => 0
  | WNI_CFG_CURRENT_CHANNEL => 0
  | WNI_CFG_DEFAULT_RATE_INDEX_24GHZ => 0
  | WNI_CFG_FIXED_RATE => 0
  | WNI_CFG_APSD_ENABLED => 0
  | WNI_CFG_SHARED_KEY_AUTH_ENABLE => 0
  | WNI_CFG_OPEN_SYSTEM_AUTH_ENABLE => 0
  | WNI_CFG_AUTHENTICATION_TYPE => 0
  | WNI_CFG_PRIVACY_ENABLED => 0
  | WNI_CFG_SHORT_PREAMBLE => 0
  | WNI_CFG_ACCEPT_SHORT_SLOT_ASSOC_ONLY => 0
  | WNI_CFG_QOS_ENABLED => 0
  | WNI_CFG_HCF_ENABLED => 0
  | WNI_CFG_RSN_ENABLED => 0
  | WNI_CFG_MAX_NUM_PRE_AUTH => 0
  | WNI_CFG_HEART_BEAT_THRESHOLD => 0
  | WNI_CFG_PROBE_AFTER_HB_FAIL_TIMEOUT => 10
  | WNI_CFG_11D_ENABLED => 0
  | WNI_CFG_CURRENT_TX_POWER_LEVEL => 0
  | WNI_CFG_NEW_BSS_FOUND_IND => 0
  | WNI_CFG_11H_ENABLED => 0
  | WNI_CFG_WT_CNF_TIMEOUT => 10
  | WNI_CFG_LOG_LEVEL => 0
  | WNI_CFG_OLBC_DETECT_TIMEOUT => 1000
  | WNI_CFG_PROTECTION_ENABLED => 0
  | WNI_CFG_11G_PROTECTION_ALWAYS => 0
  | WNI_CFG_FORCE_POLICY_PROTECTION => 0
  | WNI_CFG_11G_SHORT_PREAMBLE_ENABLED => 0
  | WNI_CFG_11G_SHORT_SLOT_TIME_ENABLED => 0
  | WNI_CFG_11G_ONLY_POLICY => 0
  | WNI_CFG_WME_ENABLED => 0
  | WNI_CFG_ADDTS_RSP_TIMEOUT => 0
  | WNI_CFG_MAX_SP_LENGTH => 0
  | WNI_CFG_WSM_ENABLED => 0
  | WNI_CFG_EDCA_PROFILE => 0
  | WNI_CFG_LOCAL_POWER_CONSTRAINT => 0
  | WNI_CFG_ADMIT_POLICY => 0
  | WNI_CFG_ADMIT_BWFACTOR => 0
  | WNI_CFG_CHANNEL_BONDING_MODE => 0
  | WNI_CFG_DYNAMIC_THRESHOLD_ZERO => 0
  | WNI_CFG_DYNAMIC_THRESHOLD_ONE => 0
  | WNI_CFG_DYNAMIC_THRESHOLD_TWO => 0
  | WNI_CFG_BLOCK_ACK_ENABLED => 0
  | WNI_CFG_HT_CAP_INFO => 0
  | WNI_CFG_HT_AMPDU_PARAMS => 0
  | WNI_CFG_EXT_HT_CAP_INFO => 0
  | WNI_CFG_TX_BF_CAP => 0
  | WNI_CFG_AS_CAP => 0
  | WNI_CFG_HT_INFO_FIELD1 => 0
  | WNI_CFG_HT_INFO_FIELD2 => 0
  | WNI_CFG_HT_INFO_FIELD3 => 0
  | WNI_CFG_VHT_MAX_MPDU_LENGTH => 0
  | WNI_CFG_VHT_SUPPORTED_CHAN_WIDTH_SET => 0
  | WNI_CFG_VHT_LDPC_CODING_CAP => 0
  | WNI_CFG_VHT_SHORT_GI_80MHZ => 0
  | WNI_CFG_VHT_SHORT_GI_160_AND_80_PLUS_80MHZ => 0
  | WNI_CFG_VHT_TXSTBC => 0
  | WNI_CFG_VHT_RXSTBC => 0
  | WNI_CFG_VHT_SU_BEAMFORMER_CAP => 0
  | WNI_CFG_VHT_SU_BEAMFORMEE_CAP => 0
  | WNI_CFG_VHT_CSN_BEAMFORMEE_ANT_SUPPORTED => 0
  | WNI_CFG_VHT_NUM_SOUNDING_DIMENSIONS => 0
  | WNI_CFG_VHT_MU_BEAMFORMER_CAP => 0
  | WNI_CFG_VHT_MU_BEAMFORMEE_CAP => 0
  | WNI_CFG_VHT_TXOP_PS => 0
  | WNI_CFG_VHT_HTC_VHTC_CAP => 0
  | WNI_CFG_VHT_AMPDU_LEN_EXPONENT => 0
  | WNI_CFG_VHT_LINK_ADAPTATION_CAP => 0
  | WNI_CFG_VHT_RX_ANT_PATTERN => 0
  | WNI_CFG_VHT_TX_ANT_PATTERN => 0
  | WNI_CFG_VHT_RX_MCS_MAP => 0
  | WNI_CFG_VHT_TX_MCS_MAP => 0
  | WNI_CFG_VHT_RX_HIGHEST_SUPPORTED_DATA_RATE => 0
  | WNI_CFG_VHT_TX_HIGHEST_SUPPORTED_DATA_RATE => 0
  | WNI_CFG_VHT_BASIC_MCS_SET => 0
  | WNI_CFG_VHT_MU_MIMO_CAP_STA_COUNT => 0
  | WNI_CFG_VHT_SS_UNDER_UTIL => 0
  | WNI_CFG_VHT_40MHZ_UTILIZATION => 0
  | WNI_CFG_VHT_80MHZ_UTILIZATION => 0
  | WNI_CFG_VHT_160MHZ_UTILIZATION => 0
  | WNI_CFG_MPDU_DENSITY => 0
  | WNI_CFG_MAX_RX_AMPDU_FACTOR => 0
  | WNI_CFG_MAX_PS_POLL => 0
  | WNI_CFG_RSSI_FILTER_PERIOD => 0
  | WNI_CFG_SCAN_IN_POWERSAVE => 0
  | WNI_CFG_IGNORE_DTIM => 0
  | WNI_CFG_WOWLAN_UCAST_PATTERN_FILTER_ENABLE => 0
  | WNI_CFG_WOWLAN_CHANNEL_SWITCH_ENABLE => 0
  | WNI_CFG_WOWLAN_DEAUTH_ENABLE => 0
  | WNI_CFG_WOWLAN_DISASSOC_ENABLE => 0
  | WNI_CFG_WOWLAN_MAX_MISSED_BEACON => 0
  | WNI_CFG_WOWLAN_MAX_SLEEP_PERIOD => 0
  | WNI_CFG_MAX_MEDIUM_TIME => 0
  | WNI_CFG_IBSS_AUTO_BSSID => 0
  | WNI_CFG_PROBE_RSP_BCN_ADDNIE_FLAG => 0
  | WNI_CFG_WPS_ENABLE => 0
  | WNI_CFG_WPS_STATE => 0
  | WNI_CFG_WPS_VERSION => 0
  | WNI_CFG_WPS_CFG_METHOD => 0
  | WNI_CFG_WPS_PRIMARY_DEVICE_CATEGORY => 0
  | WNI_CFG_WPS_PIMARY_DEVICE_OUI => 0
  | WNI_CFG_WPS_DEVICE_SUB_CATEGORY => 0
  | WNI_CFG_WPS_DEVICE_PASSWORD_ID => 0
  | WNI_CFG_LOW_GAIN_OVERRIDE => 0
  | WNI_CFG_SINGLE_TID_RC => 0
  | WNI_CFG_MCAST_BCAST_FILTER_SETTING => 0
  | WNI_CFG_DYNAMIC_PS_POLL_VALUE => 0
  | WNI_CFG_PS_NULLDATA_AP_RESP_TIMEOUT => 0
  | WNI_CFG_TELE_BCN_WAKEUP_EN => 0
  | WNI_CFG_TELE_BCN_TRANS_LI => 0
  | WNI_CFG_TELE_BCN_TRANS_LI_IDLE_BCNS => 5
  | WNI_CFG_TELE_BCN_MAX_LI => 0
  | WNI_CFG_TELE_BCN_MAX_LI_IDLE_BCNS => 5
  | WNI_CFG_INFRA_STA_KEEP_ALIVE_PERIOD => 0
  | WNI_CFG_ASSOC_STA_LIMIT => 1
  | WNI_CFG_AP_DATA_AVAIL_POLL_PERIOD => 0
  | WNI_CFG_ENABLE_LTE_COEX => 0
  | WNI_CFG_AP_KEEP_ALIVE_TIMEOUT => 1
  | WNI_CFG_GO_KEEP_ALIVE_TIMEOUT => 1
  | WNI_CFG_ENABLE_MC_ADDR_LIST => 0
  | WNI_CFG_ENABLE_LPWR_IMG_TRANSITION => 0
  | WNI_CFG_ENABLE_MCC_ADAPTIVE_SCHED => 0
  | WNI_CFG_DISABLE_LDPC_WITH_TXBF_AP => 0
  | WNI_CFG_AP_LINK_MONITOR_TIMEOUT => 1
  | WNI_CFG_TDLS_QOS_WMM_UAPSD_MASK => 0
  | WNI_CFG_TDLS_BUF_STA_ENABLED => 0
  | WNI_CFG_TDLS_PUAPSD_INACT_TIME => 0
  | WNI_CFG_TDLS_RX_FRAME_THRESHOLD => 10
  | WNI_CFG_PMF_SA_QUERY_MAX_RETRIES => 0
  | WNI_CFG_PMF_SA_QUERY_RETRY_INTERVAL => 10
  | WNI_CFG_ENABLE_ADAPT_RX_DRAIN => 0
  | WNI_CFG_ANTENNA_DIVESITY => 0
  | WNI_CFG_GO_LINK_MONITOR_TIMEOUT => 3
  | WNI_CFG_RMC_ACTION_PERIOD_FREQUENCY => 100
  | WNI_CFG_CURRENT_RSSI => 0
  | WNI_CFG_RTT3_ENABLE => 0
  | WNI_CFG_DEBUG_P2P_REMAIN_ON_CHANNEL => 0
  | WNI_CFG_TDLS_OFF_CHANNEL_ENABLED => 0
  | WNI_CFG_IBSS_ATIM_WIN_SIZE => 0
  | WNI_CFG_DFS_MASTER_ENABLED => 0
  | WNI_CFG_VHT_ENABLE_TXBF_20MHZ => 0
  | WNI_CFG_TDLS_WMM_MODE_ENABLED => 0
  | WNI_CFG_OBSS_HT40_SCAN_PASSIVE_DWELL_TIME => 5
  | WNI_CFG_OBSS_HT40_SCAN_ACTIVE_DWELL_TIME => 10
  | WNI_CFG_OBSS_HT40_SCAN_WIDTH_TRIGGER_INTERVAL => 10
  | WNI_CFG_OBSS_HT40_SCAN_PASSIVE_TOTAL_PER_CHANNEL => 200
  | WNI_CFG_OBSS_HT40_SCAN_ACTIVE_TOTAL_PER_CHANNEL => 20
  | WNI_CFG_OBSS_HT40_WIDTH_CH_TRANSITION_DELAY => 5
  | WNI_CFG_OBSS_HT40_SCAN_ACTIVITY_THRESHOLD => 0
  | WNI_CFG_TGT_GTX_USR_CFG => 0
  | WNI_CFG_MAX_HT_MCS_TX_DATA => 0
  | WNI_CFG_DISABLE_ABG_RATE_FOR_TX_DATA => 0
  | WNI_CFG_RATE_FOR_TX_MGMT => 0
  | WNI_CFG_PS_WOW_DATA_INACTIVITY_TIMEOUT => 1
  | _ => 0
  end.

(** The [WNI_CFG_*_STAMAX] constants: upper limit. *)
Definition STAMAX (c : wni_cfg) : Z :=
  match c with
  | WNI_CFG_CFP_PERIOD => 255
  | WNI_CFG_CFP_MAX_DURATION => 65535
  | WNI_CFG_BEACON_INTERVAL => 65535
  | WNI_CFG_DTIM_PERIOD => 65535
  | WNI_CFG_WEP_KEY_LENGTH => 13
  | WNI_CFG_WEP_DEFAULT_KEYID => 3
  | WNI_CFG_EXCLUDE_UNENCRYPTED => 1
  | WNI_CFG_RTS_THRESHOLD => 1048576
  | WNI_CFG_SHORT_RETRY_LIMIT => 255
  | WNI_CFG_LONG_RETRY_LIMIT => 255
  | WNI_CFG_FRAGMENTATION_THRESHOLD => 8000
  | WNI_CFG_ACTIVE_MINIMUM_CHANNEL_TIME => 65535
  | WNI_CFG_ACTIVE_MAXIMUM_CHANNEL_TIME => 65535
  | WNI_CFG_PASSIVE_MINIMUM_CHANNEL_TIME => 65535
  | WNI_CFG_PASSIVE_MAXIMUM_CHANNEL_TIME => 65535
  | WNI_CFG_JOIN_FAILURE_TIMEOUT => 65535
  | WNI_CFG_AUTHENTICATE_FAILURE_TIMEOUT => 65535
  | WNI_CFG_AUTHENTICATE_RSP_TIMEOUT => 65535
  | WNI_CFG_ASSOCIATION_FAILURE_TIMEOUT => 65535
  | WNI_CFG_REASSOCIATION_FAILURE_TIMEOUT => 65535
  | WNI_CFG_PS_ENABLE_BCN_FILTER => 1
  | WNI_CFG_PS_ENABLE_HEART_BEAT => 1
  | WNI_CFG_PS_ENABLE_RSSI_MONITOR => 1
  | WNI_CFG_PS_DATA_INACTIVITY_TIMEOUT => 255
  | WNI_CFG_RF_SETTLING_TIME_CLK => 60000
  | WNI_CFG_PHY_MODE => 3
  | WNI_CFG_DOT11_MODE => 11
  | WNI_CFG_LISTEN_INTERVAL => 65535
  | WNI_CFG_CURRENT_CHANNEL => 165
  | WNI_CFG_DEFAULT_RATE_INDEX_24GHZ => 31
  | WNI_CFG_FIXED_RATE => 44
  | WNI_CFG_APSD_ENABLED => 1
  | WNI_CFG_SHARED_KEY_AUTH_ENABLE => 1
  | WNI_CFG_OPEN_SYSTEM_AUTH_ENABLE => 1
  | WNI_CFG_AUTHENTICATION_TYPE => 65535
  | WNI_CFG_PRIVACY_ENABLED => 1
  | WNI_CFG_SHORT_PREAMBLE => 1
  | WNI_CFG_ACCEPT_SHORT_SLOT_ASSOC_ONLY => 1
  | WNI_CFG_QOS_ENABLED => 1
  | WNI_CFG_HCF_ENABLED => 1
  | WNI_CFG_RSN_ENABLED => 1
  | WNI_CFG_MAX_NUM_PRE_AUTH => 256
  | WNI_CFG_HEART_BEAT_THRESHOLD => 65535
  | WNI_CFG_PROBE_AFTER_HB_FAIL_TIMEOUT => 10000
  | WNI_CFG_11D_ENABLED => 1
  | WNI_CFG_CURRENT_TX_POWER_LEVEL => 128
  | WNI_CFG_NEW_BSS_FOUND_IND => 1
  | WNI_CFG_11H_ENABLED => 1
  | WNI_CFG_WT_CNF_TIMEOUT => 3000
  | WNI_CFG_LOG_LEVEL => 7
  | WNI_CFG_OLBC_DETECT_TIMEOUT => 30000
  | WNI_CFG_PROTECTION_ENABLED => 65535
  | WNI_CFG_11G_PROTECTION_ALWAYS => 1
  | WNI_CFG_FORCE_POLICY_PROTECTION => 5
  | WNI_CFG_11G_SHORT_PREAMBLE_ENABLED => 1
  | WNI_CFG_11G_SHORT_SLOT_TIME_ENABLED => 1
  | WNI_CFG_11G_ONLY_POLICY => 1
  | WNI_CFG_WME_ENABLED => 1
  | WNI_CFG_ADDTS_RSP_TIMEOUT => 65535
  | WNI_CFG_MAX_SP_LENGTH => 3
  | WNI_CFG_WSM_ENABLED => 1
  | WNI_CFG_EDCA_PROFILE => 255
  | WNI_CFG_LOCAL_POWER_CONSTRAINT => 255
  | WNI_CFG_ADMIT_POLICY => 2
  | WNI_CFG_ADMIT_BWFACTOR => 100
  | WNI_CFG_CHANNEL_BONDING_MODE => 10
  | WNI_CFG_DYNAMIC_THRESHOLD_ZERO => 255
  | WNI_CFG_DYNAMIC_THRESHOLD_ONE => 255
  | WNI_CFG_DYNAMIC_THRESHOLD_TWO => 255
  | WNI_CFG_BLOCK_ACK_ENABLED => 3
  | WNI_CFG_HT_CAP_INFO => 65535
  | WNI_CFG_HT_AMPDU_PARAMS => 255
  | WNI_CFG_EXT_HT_CAP_INFO => 65535
  | WNI_CFG_TX_BF_CAP => 4294967295
  | WNI_CFG_AS_CAP => 255
  | WNI_CFG_HT_INFO_FIELD1 => 255
  | WNI_CFG_HT_INFO_FIELD2 => 65535
  | WNI_CFG_HT_INFO_FIELD3 => 65535
  | WNI_CFG_VHT_MAX_MPDU_LENGTH => 2
  | WNI_CFG_VHT_SUPPORTED_CHAN_WIDTH_SET => 2
  | WNI_CFG_VHT_LDPC_CODING_CAP => 1
  | WNI_CFG_VHT_SHORT_GI_80MHZ => 1
  | WNI_CFG_VHT_SHORT_GI_160_AND_80_PLUS_80MHZ => 1
  | WNI_CFG_VHT_TXSTBC => 1
  | WNI_CFG_VHT_RXSTBC => 1
  | WNI_CFG_VHT_SU_BEAMFORMER_CAP => 1
  | WNI_CFG_VHT_SU_BEAMFORMEE_CAP => 1
  | WNI_CFG_VHT_CSN_BEAMFORMEE_ANT_SUPPORTED => 4
  | WNI_CFG_VHT_NUM_SOUNDING_DIMENSIONS => 3
  | WNI_CFG_VHT_MU_BEAMFORMER_CAP => 1
  | WNI_CFG_VHT_MU_BEAMFORMEE_CAP => 1
  | WNI_CFG_VHT_TXOP_PS => 1
  | WNI_CFG_VHT_HTC_VHTC_CAP => 1
  | WNI_CFG_VHT_AMPDU_LEN_EXPONENT => 7
  | WNI_CFG_VHT_LINK_ADAPTATION_CAP => 3
  | WNI_CFG_VHT_RX_ANT_PATTERN => 1
  | WNI_CFG_VHT_TX_ANT_PATTERN => 1
  | WNI_CFG_VHT_RX_MCS_MAP => 65535
  | WNI_CFG_VHT_TX_MCS_MAP => 65535
  | WNI_CFG_VHT_RX_HIGHEST_SUPPORTED_DATA_RATE => 780
  | WNI_CFG_VHT_TX_HIGHEST_SUPPORTED_DATA_RATE => 780
  | WNI_CFG_VHT_BASIC_MCS_SET => 65535
  | WNI_CFG_VHT_MU_MIMO_CAP_STA_COUNT => 4
  | WNI_CFG_VHT_SS_UNDER_UTIL => 0
  | WNI_CFG_VHT_40MHZ_UTILIZATION => 0
  | WNI_CFG_VHT_80MHZ_UTILIZATION => 0
  | WNI_CFG_VHT_160MHZ_UTILIZATION => 0
  | WNI_CFG_MPDU_DENSITY => 7
  | WNI_CFG_MAX_RX_AMPDU_FACTOR => 3
  | WNI_CFG_MAX_PS_POLL => 255
  | WNI_CFG_RSSI_FILTER_PERIOD => 255
  | WNI_CFG_SCAN_IN_POWERSAVE => 1
  | WNI_CFG_IGNORE_DTIM => 1
  | WNI_CFG_WOWLAN_UCAST_PATTERN_FILTER_ENABLE => 1
  | WNI_CFG_WOWLAN_CHANNEL_SWITCH_ENABLE => 1
  | WNI_CFG_WOWLAN_DEAUTH_ENABLE => 1
  | WNI_CFG_WOWLAN_DISASSOC_ENABLE => 1
  | WNI_CFG_WOWLAN_MAX_MISSED_BEACON => 65535
  | WNI_CFG_WOWLAN_MAX_SLEEP_PERIOD => 65535
  | WNI_CFG_MAX_MEDIUM_TIME => 65535
  | WNI_CFG_IBSS_AUTO_BSSID => 1
  | WNI_CFG_PROBE_RSP_BCN_ADDNIE_FLAG => 1
  | WNI_CFG_WPS_ENABLE => 255
  | WNI_CFG_WPS_STATE => 255
  | WNI_CFG_WPS_VERSION => 255
  | WNI_CFG_WPS_CFG_METHOD => 4294967295
  | WNI_CFG_WPS_PRIMARY_DEVICE_CATEGORY => 65535
  | WNI_CFG_WPS_PIMARY_DEVICE_OUI => 4294967295
  | WNI_CFG_WPS_DEVICE_SUB_CATEGORY => 65535
  | WNI_CFG_WPS_DEVICE_PASSWORD_ID => 4294967295
  | WNI_CFG_LOW_GAIN_OVERRIDE => 1
  | WNI_CFG_SINGLE_TID_RC => 1
  | WNI_CFG_MCAST_BCAST_FILTER_SETTING => 3
  | WNI_CFG_DYNAMIC_PS_POLL_VALUE => 255
  | WNI_CFG_PS_NULLDATA_AP_RESP_TIMEOUT => 80
  | WNI_CFG_TELE_BCN_WAKEUP_EN => 1
  | WNI_CFG_TELE_BCN_TRANS_LI => 7
  | WNI_CFG_TELE_BCN_TRANS_LI_IDLE_BCNS => 255
  | WNI_CFG_TELE_BCN_MAX_LI => 7
  | WNI_CFG_TELE_BCN_MAX_LI_IDLE_BCNS => 255
  | WNI_CFG_INFRA_STA_KEEP_ALIVE_PERIOD => 1000
  | WNI_CFG_ASSOC_STA_LIMIT => 32
  | WNI_CFG_AP_DATA_AVAIL_POLL_PERIOD => 65535
  | WNI_CFG_ENABLE_LTE_COEX => 1
  | WNI_CFG_AP_KEEP_ALIVE_TIMEOUT => 65535
  | WNI_CFG_GO_KEEP_ALIVE_TIMEOUT => 65535
  | WNI_CFG_ENABLE_MC_ADDR_LIST => 1
  | WNI_CFG_ENABLE_LPWR_IMG_TRANSITION => 1
  | WNI_CFG_ENABLE_MCC_ADAPTIVE_SCHED => 1
  | WNI_CFG_DISABLE_LDPC_WITH_TXBF_AP => 1
  | WNI_CFG_AP_LINK_MONITOR_TIMEOUT => 255
  | WNI_CFG_TDLS_QOS_WMM_UAPSD_MASK => 15
  | WNI_CFG_TDLS_BUF_STA_ENABLED => 1
  | WNI_CFG_TDLS_PUAPSD_INACT_TIME => 10
  | WNI_CFG_TDLS_RX_FRAME_THRESHOLD => 20
  | WNI_CFG_PMF_SA_QUERY_MAX_RETRIES => 20
  | WNI_CFG_PMF_SA_QUERY_RETRY_INTERVAL => 2000
  | WNI_CFG_ENABLE_ADAPT_RX_DRAIN => 1
  | WNI_CFG_ANTENNA_DIVESITY => 3
  | WNI_CFG_GO_LINK_MONITOR_TIMEOUT => 50
  | WNI_CFG_RMC_ACTION_PERIOD_FREQUENCY => 1000
  | WNI_CFG_CURRENT_RSSI => 127
  | WNI_CFG_RTT3_ENABLE => 1
  | WNI_CFG_DEBUG_P2P_REMAIN_ON_CHANNEL => 1
  | WNI_CFG_TDLS_OFF_CHANNEL_ENABLED => 1
  | WNI_CFG_IBSS_ATIM_WIN_SIZE => 100
  | WNI_CFG_DFS_MASTER_ENABLED => 1
  | WNI_CFG_VHT_ENABLE_TXBF_20MHZ => 1
  | WNI_CFG_TDLS_WMM_MODE_ENABLED => 1
  | WNI_CFG_OBSS_HT40_SCAN_PASSIVE_DWELL_TIME => 1000
  | WNI_CFG_OBSS_HT40_SCAN_ACTIVE_DWELL_TIME => 1000
  | WNI_CFG_OBSS_HT40_SCAN_WIDTH_TRIGGER_INTERVAL => 900
  | WNI_CFG_OBSS_HT40_SCAN_PASSIVE_TOTAL_PER_CHANNEL => 10000
  | WNI_CFG_OBSS_HT40_SCAN_ACTIVE_TOTAL_PER_CHANNEL => 10000
  | WNI_CFG_OBSS_HT40_WIDTH_CH_TRANSITION_DELAY => 100
  | WNI_CFG_OBSS_HT40_SCAN_ACTIVITY_THRESHOLD => 100
  | WNI_CFG_TGT_GTX_USR_CFG => 32
  | WNI_CFG_MAX_HT_MCS_TX_DATA => 383
  | WNI_CFG_DISABLE_ABG_RATE_FOR_TX_DATA => 1
  | WNI_CFG_RATE_FOR_TX_MGMT => 255
  | WNI_CFG_PS_WOW_DATA_INACTIVITY_TIMEOUT => 255
  | _ => 0
  end.

(** The [WNI_CFG_*_STADEF] constants: default. *)
Definition STADEF (c : wni_cfg) : Z :=
  match c with
  | WNI_CFG_CFP_PERIOD => 1
  | WNI_CFG_CFP_MAX_DURATION => 30000
  | WNI_CFG_BEACON_INTERVAL => 100
  | WNI_CFG_DTIM_PERIOD => 1
  | WNI_CFG_WEP_KEY_LENGTH => 5
  | WNI_CFG_WEP_DEFAULT_KEYID => 0
  | WNI_CFG_EXCLUDE_UNENCRYPTED => 0
  | WNI_CFG_RTS_THRESHOLD => 2347
  | WNI_CFG_SHORT_RETRY_LIMIT => 6
  | WNI_CFG_LONG_RETRY_LIMIT => 6
  | WNI_CFG_FRAGMENTATION_THRESHOLD => 8000
  | WNI_CFG_ACTIVE_MINIMUM_CHANNEL_TIME => 20
  | WNI_CFG_ACTIVE_MAXIMUM_CHANNEL_TIME => 40
  | WNI_CFG_PASSIVE_MINIMUM_CHANNEL_TIME => 60
  | WNI_CFG_PASSIVE_MAXIMUM_CHANNEL_TIME => 110
  | WNI_CFG_JOIN_FAILURE_TIMEOUT => 3000
  | WNI_CFG_AUTHENTICATE_FAILURE_TIMEOUT => 1000
  | WNI_CFG_AUTHENTICATE_RSP_TIMEOUT => 1000
  | WNI_CFG_ASSOCIATION_FAILURE_TIMEOUT => 2000
  | WNI_CFG_REASSOCIATION_FAILURE_TIMEOUT => 1000
  | WNI_CFG_PS_ENABLE_BCN_FILTER => 1
  | WNI_CFG_PS_ENABLE_HEART_BEAT => 1
  | WNI_CFG_PS_ENABLE_RSSI_MONITOR => 0
  | WNI_CFG_PS_DATA_INACTIVITY_TIMEOUT => 200
  | WNI_CFG_RF_SETTLING_TIME_CLK => 1500
  | WNI_CFG_PHY_MODE => 0
  | WNI_CFG_DOT11_MODE => 0
  | WNI_CFG_LISTEN_INTERVAL => 1
  | WNI_CFG_CURRENT_CHANNEL => 1
  | WNI_CFG_DEFAULT_RATE_INDEX_24GHZ => 1
  | WNI_CFG_FIXED_RATE => 0
  | WNI_CFG_APSD_ENABLED => 0
  | WNI_CFG_SHARED_KEY_AUTH_ENABLE => 1
  | WNI_CFG_OPEN_SYSTEM_AUTH_ENABLE => 1
  | WNI_CFG_AUTHENTICATION_TYPE => 0
  | WNI_CFG_PRIVACY_ENABLED => 0
  | WNI_CFG_SHORT_PREAMBLE => 1
  | WNI_CFG_ACCEPT_SHORT_SLOT_ASSOC_ONLY => 0
  | WNI_CFG_QOS_ENABLED => 0
  | WNI_CFG_HCF_ENABLED => 0
  | WNI_CFG_RSN_ENABLED => 0
  | WNI_CFG_MAX_NUM_PRE_AUTH => 64
  | WNI_CFG_HEART_BEAT_THRESHOLD => 40
  | WNI_CFG_PROBE_AFTER_HB_FAIL_TIMEOUT => 40
  | WNI_CFG_11D_ENABLED => 1
  | WNI_CFG_CURRENT_TX_POWER_LEVEL => 27
  | WNI_CFG_NEW_BSS_FOUND_IND => 0
  | WNI_CFG_11H_ENABLED => 1
  | WNI_CFG_WT_CNF_TIMEOUT => 1000
  | WNI_CFG_LOG_LEVEL => 4
  | WNI_CFG_OLBC_DETECT_TIMEOUT => 10000
  | WNI_CFG_PROTECTION_ENABLED => 65535
  | WNI_CFG_11G_PROTECTION_ALWAYS => 0
  | WNI_CFG_FORCE_POLICY_PROTECTION => 5
  | WNI_CFG_11G_SHORT_PREAMBLE_ENABLED => 0
  | WNI_CFG_11G_SHORT_SLOT_TIME_ENABLED => 1
  | WNI_CFG_11G_ONLY_POLICY => 0
  | WNI_CFG_WME_ENABLED => 1
  | WNI_CFG_ADDTS_RSP_TIMEOUT => 1000
  | WNI_CFG_MAX_SP_LENGTH => 0
  | WNI_CFG_WSM_ENABLED => 0
  | WNI_CFG_EDCA_PROFILE => 1
  | WNI_CFG_LOCAL_POWER_CONSTRAINT => 0
  | WNI_CFG_ADMIT_POLICY => 0
  | WNI_CFG_ADMIT_BWFACTOR => 20
  | WNI_CFG_CHANNEL_BONDING_MODE => 0
  | WNI_CFG_DYNAMIC_THRESHOLD_ZERO => 2
  | WNI_CFG_DYNAMIC_THRESHOLD_ONE => 4
  | WNI_CFG_DYNAMIC_THRESHOLD_TWO => 6
  | WNI_CFG_BLOCK_ACK_ENABLED => 0
  | WNI_CFG_HT_CAP_INFO => 364
  | WNI_CFG_HT_AMPDU_PARAMS => 0
  | WNI_CFG_EXT_HT_CAP_INFO => 1024
  | WNI_CFG_TX_BF_CAP => 0
  | WNI_CFG_AS_CAP => 0
  | WNI_CFG_HT_INFO_FIELD1 => 15
  | WNI_CFG_HT_INFO_FIELD2 => 0
  | WNI_CFG_HT_INFO_FIELD3 => 0
  | WNI_CFG_VHT_MAX_MPDU_LENGTH => 0
  | WNI_CFG_VHT_SUPPORTED_CHAN_WIDTH_SET => 2
  | WNI_CFG_VHT_LDPC_CODING_CAP => 0
  | WNI_CFG_VHT_SHORT_GI_80MHZ => 1
  | WNI_CFG_VHT_SHORT_GI_160_AND_80_PLUS_80MHZ => 1
  | WNI_CFG_VHT_TXSTBC => 0
  | WNI_CFG_VHT_RXSTBC => 1
  | WNI_CFG_VHT_SU_BEAMFORMER_CAP => 0
  | WNI_CFG_VHT_SU_BEAMFORMEE_CAP => 1
  | WNI_CFG_VHT_CSN_BEAMFORMEE_ANT_SUPPORTED => 0
  | WNI_CFG_VHT_NUM_SOUNDING_DIMENSIONS => 0
  | WNI_CFG_VHT_MU_BEAMFORMER_CAP => 0
  | WNI_CFG_VHT_MU_BEAMFORMEE_CAP => 0
  | WNI_CFG_VHT_TXOP_PS => 0
  | WNI_CFG_VHT_HTC_VHTC_CAP => 0
  | WNI_CFG_VHT_AMPDU_LEN_EXPONENT => 3
  | WNI_CFG_VHT_LINK_ADAPTATION_CAP => 0
  | WNI_CFG_VHT_RX_ANT_PATTERN => 1
  | WNI_CFG_VHT_TX_ANT_PATTERN => 1
  | WNI_CFG_VHT_RX_MCS_MAP => 65534
  | WNI_CFG_VHT_TX_MCS_MAP => 65534
  | WNI_CFG_VHT_RX_HIGHEST_SUPPORTED_DATA_RATE => 780
  | WNI_CFG_VHT_TX_HIGHEST_SUPPORTED_DATA_RATE => 780
  | WNI_CFG_VHT_BASIC_MCS_SET => 65534
  | WNI_CFG_VHT_MU_MIMO_CAP_STA_COUNT => 0
  | WNI_CFG_VHT_SS_UNDER_UTIL => 0
  | WNI_CFG_VHT_40MHZ_UTILIZATION => 0
  | WNI_CFG_VHT_80MHZ_UTILIZATION => 0
  | WNI_CFG_VHT_160MHZ_UTILIZATION => 0
  | WNI_CFG_MPDU_DENSITY => 7
  | WNI_CFG_MAX_RX_AMPDU_FACTOR => 3
  | WNI_CFG_MAX_PS_POLL => 0
  | WNI_CFG_RSSI_FILTER_PERIOD => 5
  | WNI_CFG_SCAN_IN_POWERSAVE => 1
  | WNI_CFG_IGNORE_DTIM => 0
  | WNI_CFG_WOWLAN_UCAST_PATTERN_FILTER_ENABLE => 1
  | WNI_CFG_WOWLAN_CHANNEL_SWITCH_ENABLE => 1
  | WNI_CFG_WOWLAN_DEAUTH_ENABLE => 1
  | WNI_CFG_WOWLAN_DISASSOC_ENABLE => 1
  | WNI_CFG_WOWLAN_MAX_MISSED_BEACON => 40
  | WNI_CFG_WOWLAN_MAX_SLEEP_PERIOD => 65535
  | WNI_CFG_MAX_MEDIUM_TIME => 2048
  | WNI_CFG_IBSS_AUTO_BSSID => 1
  | WNI_CFG_PROBE_RSP_BCN_ADDNIE_FLAG => 0
  | WNI_CFG_WPS_ENABLE => 0
  | WNI_CFG_WPS_STATE => 1
  | WNI_CFG_WPS_VERSION => 16
  | WNI_CFG_WPS_CFG_METHOD => 8
  | WNI_CFG_WPS_PRIMARY_DEVICE_CATEGORY => 1
  | WNI_CFG_WPS_PIMARY_DEVICE_OUI => 5304836
  | WNI_CFG_WPS_DEVICE_SUB_CATEGORY => 1
  | WNI_CFG_WPS_DEVICE_PASSWORD_ID => 0
  | WNI_CFG_LOW_GAIN_OVERRIDE => 0
  | WNI_CFG_SINGLE_TID_RC => 1
  | WNI_CFG_MCAST_BCAST_FILTER_SETTING => 0
  | WNI_CFG_DYNAMIC_PS_POLL_VALUE => 0
  | WNI_CFG_PS_NULLDATA_AP_RESP_TIMEOUT => 0
  | WNI_CFG_TELE_BCN_WAKEUP_EN => 0
  | WNI_CFG_TELE_BCN_TRANS_LI => 3
  | WNI_CFG_TELE_BCN_TRANS_LI_IDLE_BCNS => 10
  | WNI_CFG_TELE_BCN_MAX_LI => 5
  | WNI_CFG_TELE_BCN_MAX_LI_IDLE_BCNS => 15
  | WNI_CFG_INFRA_STA_KEEP_ALIVE_PERIOD => 0
  | WNI_CFG_ASSOC_STA_LIMIT => 10
  | WNI_CFG_AP_DATA_AVAIL_POLL_PERIOD => 5
  | WNI_CFG_ENABLE_LTE_COEX => 0
  | WNI_CFG_AP_KEEP_ALIVE_TIMEOUT => 20
  | WNI_CFG_GO_KEEP_ALIVE_TIMEOUT => 20
  | WNI_CFG_ENABLE_MC_ADDR_LIST => 0
  | WNI_CFG_ENABLE_LPWR_IMG_TRANSITION => 0
  | WNI_CFG_ENABLE_MCC_ADAPTIVE_SCHED => 0
  | WNI_CFG_DISABLE_LDPC_WITH_TXBF_AP => 0
  | WNI_CFG_AP_LINK_MONITOR_TIMEOUT => 3
  | WNI_CFG_TDLS_QOS_WMM_UAPSD_MASK => 0
  | WNI_CFG_TDLS_BUF_STA_ENABLED => 0
  | WNI_CFG_TDLS_PUAPSD_INACT_TIME => 0
  | WNI_CFG_TDLS_RX_FRAME_THRESHOLD => 10
  | WNI_CFG_PMF_SA_QUERY_MAX_RETRIES => 5
  | WNI_CFG_PMF_SA_QUERY_RETRY_INTERVAL => 200
  | WNI_CFG_ENABLE_ADAPT_RX_DRAIN => 1
  | WNI_CFG_ANTENNA_DIVESITY => 0
  | WNI_CFG_GO_LINK_MONITOR_TIMEOUT => 10
  | WNI_CFG_RMC_ACTION_PERIOD_FREQUENCY => 300
  | WNI_CFG_CURRENT_RSSI => 0
  | WNI_CFG_RTT3_ENABLE => 1
  | WNI_CFG_DEBUG_P2P_REMAIN_ON_CHANNEL => 0
  | WNI_CFG_TDLS_OFF_CHANNEL_ENABLED => 0
  | WNI_CFG_IBSS_ATIM_WIN_SIZE => 0
  | WNI_CFG_DFS_MASTER_ENABLED => 0
  | WNI_CFG_VHT_ENABLE_TXBF_20MHZ => 0
  | WNI_CFG_TDLS_WMM_MODE_ENABLED => 0
  | WNI_CFG_OBSS_HT40_SCAN_PASSIVE_DWELL_TIME => 20
  | WNI_CFG_OBSS_HT40_SCAN_ACTIVE_DWELL_TIME => 10
  | WNI_CFG_OBSS_HT40_SCAN_WIDTH_TRIGGER_INTERVAL => 200
  | WNI_CFG_OBSS_HT40_SCAN_PASSIVE_TOTAL_PER_CHANNEL => 200
  | WNI_CFG_OBSS_HT40_SCAN_ACTIVE_TOTAL_PER_CHANNEL => 20
  | WNI_CFG_OBSS_HT40_WIDTH_CH_TRANSITION_DELAY => 5
  | WNI_CFG_OBSS_HT40_SCAN_ACTIVITY_THRESHOLD => 25
  | WNI_CFG_TGT_GTX_USR_CFG => 32
  | WNI_CFG_MAX_HT_MCS_TX_DATA => 0
  | WNI_CFG_DISABLE_ABG_RATE_FOR_TX_DATA => 0
  | WNI_CFG_RATE_FOR_TX_MGMT => 255
  | WNI_CFG_PS_WOW_DATA_INACTIVITY_TIMEOUT => 50
  | _ => 0
  end.

(** The [WNI_CFG_*_LEN] constants: maximal string length. *)
Definition LEN (c : wni_cfg) : Z :=
  match c with
  | WNI_CFG_STA_ID => 6
  | WNI_CFG_SSID => 32
  | WNI_CFG_WEP_DEFAULT_KEY_1 => 13
  | WNI_CFG_WEP_DEFAULT_KEY_2 => 13
  | WNI_CFG_WEP_DEFAULT_KEY_3 => 13
  | WNI_CFG_WEP_DEFAULT_KEY_4 => 13
  | WNI_CFG_SUPPORTED_RATES_11B => 4
  | WNI_CFG_SUPPORTED_RATES_11A => 8
  | WNI_CFG_OPERATIONAL_RATE_SET => 12
  | WNI_CFG_EXTENDED_OPERATIONAL_RATE_SET => 8
  | WNI_CFG_PROPRIETARY_OPERATIONAL_RATE_SET => 4
  | WNI_CFG_VALID_CHANNEL_LIST => 100
  | WNI_CFG_MANUFACTURER_NAME => 64
  | WNI_CFG_MODEL_NUMBER => 32
  | WNI_CFG_MODEL_NAME => 32
  | WNI_CFG_MANUFACTURER_PRODUCT_NAME => 32
  | WNI_CFG_MANUFACTURER_PRODUCT_VERSION => 32
  | WNI_CFG_MAX_TX_POWER_2_4 => 128
  | WNI_CFG_MAX_TX_POWER_5 => 128
  | WNI_CFG_COUNTRY_CODE => 3
  | WNI_CFG_EDCA_ANI_ACBK_LOCAL => 20
  | WNI_CFG_EDCA_ANI_ACBE_LOCAL => 20
  | WNI_CFG_EDCA_ANI_ACVI_LOCAL => 20
  | WNI_CFG_EDCA_ANI_ACVO_LOCAL => 20
  | WNI_CFG_EDCA_ANI_ACBK => 20
  | WNI_CFG_EDCA_ANI_ACBE => 20
  | WNI_CFG_EDCA_ANI_ACVI => 20
  | WNI_CFG_EDCA_ANI_ACVO => 20
  | WNI_CFG_EDCA_WME_ACBK_LOCAL => 20
  | WNI_CFG_EDCA_WME_ACBE_LOCAL => 20
  | WNI_CFG_EDCA_WME_ACVI_LOCAL => 20
  | WNI_CFG_EDCA_WME_ACVO_LOCAL => 20
  | WNI_CFG_EDCA_WME_ACBK => 20
  | WNI_CFG_EDCA_WME_ACBE => 20
  | WNI_CFG_EDCA_WME_ACVI => 20
  | WNI_CFG_EDCA_WME_ACVO => 20
  | WNI_CFG_SCAN_CONTROL_LIST => 128
  | WNI_CFG_SUPPORTED_MCS_SET => 16
  | WNI_CFG_BASIC_MCS_SET => 16
  | WNI_CFG_CURRENT_MCS_SET => 16
  | WNI_CFG_WPS_UUID => 16
  | _ => 0
  end.

(** Control flags of cfg_def.h. *)
Definition CFG_CTL_VALID : Z := 0x00010000.
Definition CFG_CTL_RE : Z := 0x00020000.
Definition CFG_CTL_WE : Z := 0x00040000.
Definition CFG_CTL_INT : Z := 0x00080000.
Definition CFG_CTL_SAVE : Z := 0x00100000.
Definition CFG_CTL_RESTART : Z := 0x00200000.
Definition CFG_CTL_RELOAD : Z := 0x00400000.
Definition CFG_CTL_NTF_PHY : Z := 0x00800000.
Definition CFG_CTL_NTF_MAC : Z := 0x01000000.
Definition CFG_CTL_NTF_HAL : Z := 0x04000000.
Definition CFG_CTL_NTF_SCH : Z := 0x20000000.
Definition CFG_CTL_NTF_LIM : Z := 0x40000000.
Definition CFG_CTL_NTF_MASK : Z := 0xFFE00000.
Definition CFG_CTL_NTF_HW : Z := Z.lor CFG_CTL_NTF_MAC CFG_CTL_NTF_PHY.
Definition CFG_BUF_INDX_MASK : Z := 0x00000fff.
Definition CFG_MAX_STATIC_STRING : Z := 70.
Definition CFG_MAX_STR_LEN : Z := 256.

Local Notation "x .| y" := (Z.lor x y) (at level 50, left associativity, only parsing).

(** A row of [cfg_static] (its [pStrData] field, filled at run time, belongs to
    the state of the CFG module). *)
Record cgstatic := mk_static {
  cfgId : Z;
  control : Z;
  cfgIMin : Z;
  cfgIMax : Z;
  cfgIVal : Z;
}.
#[export] Instance cgstatic_inhabited : Inhabited cgstatic := populate (mk_static 0 0 0 0 0).

(** A row of [cfg_static_string]. *)
Record cfgstatic_string := mk_string {
  str_cfgId : Z;
  maxLen : Z;
  str_length : Z;
  data : list Z;
}.
#[export] Instance cfgstatic_string_inhabited : Inhabited cfgstatic_string :=
  populate (mk_string 0 0 0 (replicate 255 0)).

(** An initialiser [{id, maxLen, length, {b1, ..., bn}}]: the rest of the 255
    data bytes is zero. *)
Definition str_row (id maxl len : Z) (bytes : list Z) : cfgstatic_string :=
  mk_string id maxl len (take 255 (bytes ++ replicate 255 0)).

(** [cfg_static], lines 37 to 183 of cfg_proc_msg.c. *)
Definition cfg_static_1 : list cgstatic := [
  mk_static WNI_CFG_STA_ID (CFG_CTL_VALID .| CFG_CTL_RE .| CFG_CTL_WE .| CFG_CTL_RELOAD .| CFG_CTL_NTF_HAL)
    0 255 1;
  mk_static WNI_CFG_CFP_PERIOD (CFG_CTL_VALID .| CFG_CTL_RE .| CFG_CTL_INT)
    (STAMIN WNI_CFG_CFP_PERIOD) (STAMAX WNI_CFG_CFP_PERIOD) (STADEF WNI_CFG_CFP_PERIOD);
  mk_static WNI_CFG_CFP_MAX_DURATION (CFG_CTL_VALID .| CFG_CTL_RE .| CFG_CTL_INT)
    (STAMIN WNI_CFG_CFP_MAX_DURATION) (STAMAX WNI_CFG_CFP_MAX_DURATION) (STADEF WNI_CFG_CFP_MAX_DURATION);
  mk_static WNI_CFG_SSID (CFG_CTL_VALID .| CFG_CTL_RE .| CFG_CTL_WE .| CFG_CTL_RESTART)
    0 255 6;
  mk_static WNI_CFG_BEACON_INTERVAL (CFG_CTL_VALID .| CFG_CTL_RE .| CFG_CTL_WE .| CFG_CTL_INT .| CFG_CTL_NTF_SCH)
    (STAMIN WNI_CFG_BEACON_INTERVAL) (STAMAX WNI_CFG_BEACON_INTERVAL) (STADEF WNI_CFG_BEACON_INTERVAL);
  mk_static WNI_CFG_DTIM_PERIOD (CFG_CTL_VALID .| CFG_CTL_RE .| CFG_CTL_INT)
    (STAMIN WNI_CFG_DTIM_PERIOD) (STAMAX WNI_CFG_DTIM_PERIOD) (STADEF WNI_CFG_DTIM_PERIOD);
  mk_static WNI_CFG_WEP_KEY_LENGTH (CFG_CTL_VALID .| CFG_CTL_RE .| CFG_CTL_WE .| CFG_CTL_INT .| CFG_CTL_RESTART)
    (STAMIN WNI_CFG_WEP_KEY_LENGTH) (STAMAX WNI_CFG_WEP_KEY_LENGTH) (STADEF WNI_CFG_WEP_KEY_LENGTH);
  mk_static WNI_CFG_WEP_DEFAULT_KEY_1 (CFG_CTL_VALID .| CFG_CTL_WE .| CFG_CTL_RESTART)
    0 65535 0;
  mk_static WNI_CFG_WEP_DEFAULT_KEY_2 (CFG_CTL_VALID .| CFG_CTL_WE .| CFG_CTL_RESTART)
    1 1 1;
  mk_static WNI_CFG_WEP_DEFAULT_KEY_3 (CFG_CTL_VALID .| CFG_CTL_WE .| CFG_CTL_RESTART)
    0 5 5;
  mk_static WNI_CFG_WEP_DEFAULT_KEY_4 (CFG_CTL_VALID .| CFG_CTL_WE .| CFG_CTL_RESTART)
    0 1 0;
  mk_static WNI_CFG_WEP_DEFAULT_KEYID (CFG_CTL_VALID .| CFG_CTL_RE .| CFG_CTL_WE .| CFG_CTL_INT .| CFG_CTL_NTF_LIM)
    (STAMIN WNI_CFG_WEP_DEFAULT_KEYID) (STAMAX WNI_CFG_WEP_DEFAULT_KEYID) (STADEF WNI_CFG_WEP_DEFAULT_KEYID);
  mk_static WNI_CFG_EXCLUDE_UNENCRYPTED (CFG_CTL_VALID .| CFG_CTL_RE .| CFG_CTL_WE .| CFG_CTL_INT .| CFG_CTL_NTF_LIM)
    (STAMIN WNI_CFG_EXCLUDE_UNENCRYPTED) (STAMAX WNI_CFG_EXCLUDE_UNENCRYPTED) (STADEF WNI_CFG_EXCLUDE_UNENCRYPTED);
  mk_static WNI_CFG_RTS_THRESHOLD (CFG_CTL_VALID .| CFG_CTL_RE .| CFG_CTL_WE .| CFG_CTL_INT .| CFG_CTL_NTF_HAL)
    (STAMIN WNI_CFG_RTS_THRESHOLD) (STAMAX WNI_CFG_RTS_THRESHOLD) (STADEF WNI_CFG_RTS_THRESHOLD);
  mk_static WNI_CFG_SHORT_RETRY_LIMIT (CFG_CTL_VALID .| CFG_CTL_RE .| CFG_CTL_WE .| CFG_CTL_INT .| CFG_CTL_NTF_HAL)
    (STAMIN WNI_CFG_SHORT_RETRY_LIMIT) (STAMAX WNI_CFG_SHORT_RETRY_LIMIT) (STADEF WNI_CFG_SHORT_RETRY_LIMIT);
  mk_static WNI_CFG_LONG_RETRY_LIMIT (CFG_CTL_VALID .| CFG_CTL_RE .| CFG_CTL_WE .| CFG_CTL_INT .| CFG_CTL_NTF_HAL)
    (STAMIN WNI_CFG_LONG_RETRY_LIMIT) (STAMAX WNI_CFG_LONG_RETRY_LIMIT) (STADEF WNI_CFG_LONG_RETRY_LIMIT);
  mk_static WNI_CFG_FRAGMENTATION_THRESHOLD (CFG_CTL_VALID .| CFG_CTL_RE .| CFG_CTL_WE .| CFG_CTL_INT .| CFG_CTL_NTF_HAL)
    (STAMIN WNI_CFG_FRAGMENTATION_THRESHOLD) (STAMAX WNI_CFG_FRAGMENTATION_THRESHOLD) (STADEF WNI_CFG_FRAGMENTATION_THRESHOLD);
  mk_static WNI_CFG_ACTIVE_MINIMUM_CHANNEL_TIME (CFG_CTL_VALID .| CFG_CTL_RE .| CFG_CTL_WE .| CFG_CTL_INT)
    (STAMIN WNI_CFG_ACTIVE_MINIMUM_CHANNEL_TIME) (STAMAX WNI_CFG_ACTIVE_MINIMUM_CHANNEL_TIME) (STADEF WNI_CFG_ACTIVE_MINIMUM_CHANNEL_TIME);
  mk_static WNI_CFG_ACTIVE_MAXIMUM_CHANNEL_TIME (CFG_CTL_VALID .| CFG_CTL_RE .| CFG_CTL_WE .| CFG_CTL_INT)
    (STAMIN WNI_CFG_ACTIVE_MAXIMUM_CHANNEL_TIME) (STAMAX WNI_CFG_ACTIVE_MAXIMUM_CHANNEL_TIME) (STADEF WNI_CFG_ACTIVE_MAXIMUM_CHANNEL_TIME);
  mk_static WNI_CFG_PASSIVE_MINIMUM_CHANNEL_TIME (CFG_CTL_VALID .| CFG_CTL_RE .| CFG_CTL_WE .| CFG_CTL_INT)
    (STAMIN WNI_CFG_PASSIVE_MINIMUM_CHANNEL_TIME) (STAMAX WNI_CFG_PASSIVE_MINIMUM_CHANNEL_TIME) (STADEF WNI_CFG_PASSIVE_MINIMUM_CHANNEL_TIME);
  mk_static WNI_CFG_PASSIVE_MAXIMUM_CHANNEL_TIME (CFG_CTL_VALID .| CFG_CTL_RE .| CFG_CTL_WE .| CFG_CTL_INT)
    (STAMIN WNI_CFG_PASSIVE_MAXIMUM_CHANNEL_TIME) (STAMAX WNI_CFG_PASSIVE_MAXIMUM_CHANNEL_TIME) (STADEF WNI_CFG_PASSIVE_MAXIMUM_CHANNEL_TIME);
  mk_static WNI_CFG_JOIN_FAILURE_TIMEOUT (CFG_CTL_VALID .| CFG_CTL_RE .| CFG_CTL_WE .| CFG_CTL_INT)
    (STAMIN WNI_CFG_JOIN_FAILURE_TIMEOUT) (STAMAX WNI_CFG_JOIN_FAILURE_TIMEOUT) (STADEF WNI_CFG_JOIN_FAILURE_TIMEOUT);
  mk_static WNI_CFG_AUTHENTICATE_FAILURE_TIMEOUT (CFG_CTL_VALID .| CFG_CTL_RE .| CFG_CTL_WE .| CFG_CTL_INT)
    (STAMIN WNI_CFG_AUTHENTICATE_FAILURE_TIMEOUT) (STAMAX WNI_CFG_AUTHENTICATE_FAILURE_TIMEOUT) (STADEF WNI_CFG_AUTHENTICATE_FAILURE_TIMEOUT);
  mk_static WNI_CFG_AUTHENTICATE_RSP_TIMEOUT (CFG_CTL_VALID .| CFG_CTL_RE .| CFG_CTL_WE .| CFG_CTL_INT)
    (STAMIN WNI_CFG_AUTHENTICATE_RSP_TIMEOUT) (STAMAX WNI_CFG_AUTHENTICATE_RSP_TIMEOUT) (STADEF WNI_CFG_AUTHENTICATE_RSP_TIMEOUT);
  mk_static WNI_CFG_ASSOCIATION_FAILURE_TIMEOUT (CFG_CTL_VALID .| CFG_CTL_RE .| CFG_CTL_WE .| CFG_CTL_INT .| CFG_CTL_NTF_LIM)
    (STAMIN WNI_CFG_ASSOCIATION_FAILURE_TIMEOUT) (STAMAX WNI_CFG_ASSOCIATION_FAILURE_TIMEOUT) (STADEF WNI_CFG_ASSOCIATION_FAILURE_TIMEOUT);
  mk_static WNI_CFG_REASSOCIATION_FAILURE_TIMEOUT (CFG_CTL_VALID .| CFG_CTL_RE .| CFG_CTL_WE .| CFG_CTL_INT)
    (STAMIN WNI_CFG_REASSOCIATION_FAILURE_TIMEOUT) (STAMAX WNI_CFG_REASSOCIATION_FAILURE_TIMEOUT) (STADEF WNI_CFG_REASSOCIATION_FAILURE_TIMEOUT);
  mk_static WNI_CFG_PS_ENABLE_BCN_FILTER (CFG_CTL_VALID .| CFG_CTL_RE .| CFG_CTL_WE .| CFG_CTL_INT .| CFG_CTL_NTF_HAL)
    (STAMIN WNI_CFG_PS_ENABLE_BCN_FILTER) (STAMAX WNI_CFG_PS_ENABLE_BCN_FILTER) (STADEF WNI_CFG_PS_ENABLE_BCN_FILTER);
  mk_static WNI_CFG_PS_ENABLE_HEART_BEAT (CFG_CTL_VALID .| CFG_CTL_RE .| CFG_CTL_WE .| CFG_CTL_INT .| CFG_CTL_NTF_HAL)
    (STAMIN WNI_CFG_PS_ENABLE_HEART_BEAT) (STAMAX WNI_CFG_PS_ENABLE_HEART_BEAT) (STADEF WNI_CFG_PS_ENABLE_HEART_BEAT);
  mk_static WNI_CFG_PS_ENABLE_RSSI_MONITOR (CFG_CTL_VALID .| CFG_CTL_RE .| CFG_CTL_WE .| CFG_CTL_INT .| CFG_CTL_NTF_HAL)
    (STAMIN WNI_CFG_PS_ENABLE_RSSI_MONITOR) (STAMAX WNI_CFG_PS_ENABLE_RSSI_MONITOR) (STADEF WNI_CFG_PS_ENABLE_RSSI_MONITOR)
].

(** [cfg_static], lines 184 to 331 of cfg_proc_msg.c. *)
Definition cfg_static_2 : list cgstatic := [
  mk_static WNI_CFG_PS_DATA_INACTIVITY_TIMEOUT (CFG_CTL_VALID .| CFG_CTL_RE .| CFG_CTL_WE .| CFG_CTL_INT .| CFG_CTL_NTF_HAL)
    (STAMIN WNI_CFG_PS_DATA_INACTIVITY_TIMEOUT) (STAMAX WNI_CFG_PS_DATA_INACTIVITY_TIMEOUT) (STADEF WNI_CFG_PS_DATA_INACTIVITY_TIMEOUT);
  mk_static WNI_CFG_RF_SETTLING_TIME_CLK (CFG_CTL_VALID .| CFG_CTL_RE .| CFG_CTL_WE .| CFG_CTL_INT .| CFG_CTL_NTF_HAL)
    (STAMIN WNI_CFG_RF_SETTLING_TIME_CLK) (STAMAX WNI_CFG_RF_SETTLING_TIME_CLK) (STADEF WNI_CFG_RF_SETTLING_TIME_CLK);
  mk_static WNI_CFG_SUPPORTED_RATES_11B (CFG_CTL_VALID .| CFG_CTL_RE)
    0 3 1;
  mk_static WNI_CFG_SUPPORTED_RATES_11A (CFG_CTL_VALID .| CFG_CTL_RE)
    0 255 15;
  mk_static WNI_CFG_PHY_MODE (CFG_CTL_VALID .| CFG_CTL_RE .| CFG_CTL_WE .| CFG_CTL_INT .| CFG_CTL_RESTART)
    (STAMIN WNI_CFG_PHY_MODE) (STAMAX WNI_CFG_PHY_MODE) (STADEF WNI_CFG_PHY_MODE);
  mk_static WNI_CFG_DOT11_MODE (CFG_CTL_VALID .| CFG_CTL_RE .| CFG_CTL_WE .| CFG_CTL_INT .| CFG_CTL_RESTART .| CFG_CTL_NTF_LIM)
    (STAMIN WNI_CFG_DOT11_MODE) (STAMAX WNI_CFG_DOT11_MODE) (STADEF WNI_CFG_DOT11_MODE);
  mk_static WNI_CFG_OPERATIONAL_RATE_SET (CFG_CTL_VALID .| CFG_CTL_RE .| CFG_CTL_WE .| CFG_CTL_RESTART)
    0 1 1;
  mk_static WNI_CFG_EXTENDED_OPERATIONAL_RATE_SET (CFG_CTL_VALID .| CFG_CTL_RE .| CFG_CTL_WE .| CFG_CTL_RESTART)
    0 65535 65534;
  mk_static WNI_CFG_PROPRIETARY_OPERATIONAL_RATE_SET (CFG_CTL_VALID .| CFG_CTL_RE .| CFG_CTL_WE .| CFG_CTL_RESTART)
    0 0 0;
  mk_static WNI_CFG_LISTEN_INTERVAL (CFG_CTL_VALID .| CFG_CTL_RE .| CFG_CTL_WE .| CFG_CTL_INT .| CFG_CTL_RESTART)
    (STAMIN WNI_CFG_LISTEN_INTERVAL) (STAMAX WNI_CFG_LISTEN_INTERVAL) (STADEF WNI_CFG_LISTEN_INTERVAL);
  mk_static WNI_CFG_VALID_CHANNEL_LIST (CFG_CTL_VALID .| CFG_CTL_RE .| CFG_CTL_WE .| CFG_CTL_RESTART .| CFG_CTL_NTF_LIM)
    0 1 1;
  mk_static WNI_CFG_CURRENT_CHANNEL (CFG_CTL_VALID .| CFG_CTL_RE .| CFG_CTL_INT)
    (STAMIN WNI_CFG_CURRENT_CHANNEL) (STAMAX WNI_CFG_CURRENT_CHANNEL) (STADEF WNI_CFG_CURRENT_CHANNEL);
  mk_static WNI_CFG_DEFAULT_RATE_INDEX_24GHZ (CFG_CTL_VALID .| CFG_CTL_RE .| CFG_CTL_WE .| CFG_CTL_INT)
    (STAMIN WNI_CFG_DEFAULT_RATE_INDEX_24GHZ) (STAMAX WNI_CFG_DEFAULT_RATE_INDEX_24GHZ) (STADEF WNI_CFG_DEFAULT_RATE_INDEX_24GHZ);
  mk_static WNI_CFG_FIXED_RATE (CFG_CTL_VALID .| CFG_CTL_RE .| CFG_CTL_WE .| CFG_CTL_INT .| CFG_CTL_NTF_HAL)
    (STAMIN WNI_CFG_FIXED_RATE) (STAMAX WNI_CFG_FIXED_RATE) (STADEF WNI_CFG_FIXED_RATE);
  mk_static WNI_CFG_APSD_ENABLED (CFG_CTL_VALID .| CFG_CTL_RE .| CFG_CTL_WE .| CFG_CTL_INT)
    (STAMIN WNI_CFG_APSD_ENABLED) (STAMAX WNI_CFG_APSD_ENABLED) (STADEF WNI_CFG_APSD_ENABLED);
  mk_static WNI_CFG_SHARED_KEY_AUTH_ENABLE (CFG_CTL_VALID .| CFG_CTL_RE .| CFG_CTL_WE .| CFG_CTL_INT)
    (STAMIN WNI_CFG_SHARED_KEY_AUTH_ENABLE) (STAMAX WNI_CFG_SHARED_KEY_AUTH_ENABLE) (STADEF WNI_CFG_SHARED_KEY_AUTH_ENABLE);
  mk_static WNI_CFG_OPEN_SYSTEM_AUTH_ENABLE (CFG_CTL_VALID .| CFG_CTL_RE .| CFG_CTL_WE .| CFG_CTL_INT)
    (STAMIN WNI_CFG_OPEN_SYSTEM_AUTH_ENABLE) (STAMAX WNI_CFG_OPEN_SYSTEM_AUTH_ENABLE) (STADEF WNI_CFG_OPEN_SYSTEM_AUTH_ENABLE);
  mk_static WNI_CFG_AUTHENTICATION_TYPE (CFG_CTL_VALID .| CFG_CTL_RE .| CFG_CTL_WE .| CFG_CTL_INT .| CFG_CTL_RESTART)
    (STAMIN WNI_CFG_AUTHENTICATION_TYPE) (STAMAX WNI_CFG_AUTHENTICATION_TYPE) (STADEF WNI_CFG_AUTHENTICATION_TYPE);
  mk_static WNI_CFG_PRIVACY_ENABLED (CFG_CTL_VALID .| CFG_CTL_RE .| CFG_CTL_WE .| CFG_CTL_INT .| CFG_CTL_RESTART)
    (STAMIN WNI_CFG_PRIVACY_ENABLED) (STAMAX WNI_CFG_PRIVACY_ENABLED) (STADEF WNI_CFG_PRIVACY_ENABLED);
  mk_static WNI_CFG_SHORT_PREAMBLE (CFG_CTL_VALID .| CFG_CTL_RE .| CFG_CTL_WE .| CFG_CTL_INT .| CFG_CTL_RESTART)
    (STAMIN WNI_CFG_SHORT_PREAMBLE) (STAMAX WNI_CFG_SHORT_PREAMBLE) (STADEF WNI_CFG_SHORT_PREAMBLE);
  mk_static WNI_CFG_ACCEPT_SHORT_SLOT_ASSOC_ONLY (CFG_CTL_VALID .| CFG_CTL_RE .| CFG_CTL_WE .| CFG_CTL_INT .| CFG_CTL_RESTART)
    (STAMIN WNI_CFG_ACCEPT_SHORT_SLOT_ASSOC_ONLY) (STAMAX WNI_CFG_ACCEPT_SHORT_SLOT_ASSOC_ONLY) (STADEF WNI_CFG_ACCEPT_SHORT_SLOT_ASSOC_ONLY);
  mk_static WNI_CFG_QOS_ENABLED (CFG_CTL_VALID .| CFG_CTL_RE .| CFG_CTL_WE .| CFG_CTL_INT .| CFG_CTL_RESTART)
    (STAMIN WNI_CFG_QOS_ENABLED) (STAMAX WNI_CFG_QOS_ENABLED) (STADEF WNI_CFG_QOS_ENABLED);
  mk_static WNI_CFG_HCF_ENABLED (CFG_CTL_VALID .| CFG_CTL_RE .| CFG_CTL_WE .| CFG_CTL_INT .| CFG_CTL_RESTART)
    (STAMIN WNI_CFG_HCF_ENABLED) (STAMAX WNI_CFG_HCF_ENABLED) (STADEF WNI_CFG_HCF_ENABLED);
  mk_static WNI_CFG_RSN_ENABLED (CFG_CTL_VALID .| CFG_CTL_RE .| CFG_CTL_WE .| CFG_CTL_INT .| CFG_CTL_RESTART)
    (STAMIN WNI_CFG_RSN_ENABLED) (STAMAX WNI_CFG_RSN_ENABLED) (STADEF WNI_CFG_RSN_ENABLED);
  mk_static WNI_CFG_MAX_NUM_PRE_AUTH (CFG_CTL_VALID .| CFG_CTL_RE .| CFG_CTL_WE .| CFG_CTL_INT .| CFG_CTL_RESTART)
    (STAMIN WNI_CFG_MAX_NUM_PRE_AUTH) (STAMAX WNI_CFG_MAX_NUM_PRE_AUTH) (STADEF WNI_CFG_MAX_NUM_PRE_AUTH);
  mk_static WNI_CFG_HEART_BEAT_THRESHOLD (CFG_CTL_VALID .| CFG_CTL_RE .| CFG_CTL_WE .| CFG_CTL_INT .| CFG_CTL_NTF_LIM)
    (STAMIN WNI_CFG_HEART_BEAT_THRESHOLD) (STAMAX WNI_CFG_HEART_BEAT_THRESHOLD) (STADEF WNI_CFG_HEART_BEAT_THRESHOLD);
  mk_static WNI_CFG_PROBE_AFTER_HB_FAIL_TIMEOUT (CFG_CTL_VALID .| CFG_CTL_RE .| CFG_CTL_WE .| CFG_CTL_INT)
    (STAMIN WNI_CFG_PROBE_AFTER_HB_FAIL_TIMEOUT) (STAMAX WNI_CFG_PROBE_AFTER_HB_FAIL_TIMEOUT) (STADEF WNI_CFG_PROBE_AFTER_HB_FAIL_TIMEOUT);
  mk_static WNI_CFG_MANUFACTURER_NAME (CFG_CTL_VALID .| CFG_CTL_RE)
    0 0 0;
  mk_static WNI_CFG_MODEL_NUMBER (CFG_CTL_VALID .| CFG_CTL_RE)
    0 0 0;
  mk_static WNI_CFG_MODEL_NAME (CFG_CTL_VALID .| CFG_CTL_RE)
    0 0 0
].

(** [cfg_static], lines 332 to 481 of cfg_proc_msg.c. *)
Definition cfg_static_3 : list cgstatic := [
  mk_static WNI_CFG_MANUFACTURER_PRODUCT_NAME (CFG_CTL_VALID .| CFG_CTL_RE)
    0 0 0;
  mk_static WNI_CFG_MANUFACTURER_PRODUCT_VERSION (CFG_CTL_VALID .| CFG_CTL_RE)
    0 0 0;
  mk_static WNI_CFG_11D_ENABLED (CFG_CTL_VALID .| CFG_CTL_RE .| CFG_CTL_WE .| CFG_CTL_INT .| CFG_CTL_RESTART)
    (STAMIN WNI_CFG_11D_ENABLED) (STAMAX WNI_CFG_11D_ENABLED) (STADEF WNI_CFG_11D_ENABLED);
  mk_static WNI_CFG_MAX_TX_POWER_2_4 (CFG_CTL_VALID .| CFG_CTL_RE .| CFG_CTL_WE)
    0 0 0;
  mk_static WNI_CFG_MAX_TX_POWER_5 (CFG_CTL_VALID .| CFG_CTL_RE .| CFG_CTL_WE)
    0 0 0;
  mk_static WNI_CFG_CURRENT_TX_POWER_LEVEL (CFG_CTL_VALID .| CFG_CTL_RE .| CFG_CTL_WE .| CFG_CTL_INT)
    (STAMIN WNI_CFG_CURRENT_TX_POWER_LEVEL) (STAMAX WNI_CFG_CURRENT_TX_POWER_LEVEL) (STADEF WNI_CFG_CURRENT_TX_POWER_LEVEL);
  mk_static WNI_CFG_NEW_BSS_FOUND_IND (CFG_CTL_VALID .| CFG_CTL_RE .| CFG_CTL_WE .| CFG_CTL_INT)
    (STAMIN WNI_CFG_NEW_BSS_FOUND_IND) (STAMAX WNI_CFG_NEW_BSS_FOUND_IND) (STADEF WNI_CFG_NEW_BSS_FOUND_IND);
  mk_static WNI_CFG_COUNTRY_CODE (CFG_CTL_VALID .| CFG_CTL_RE .| CFG_CTL_WE)
    0 0 0;
  mk_static WNI_CFG_11H_ENABLED (CFG_CTL_VALID .| CFG_CTL_RE .| CFG_CTL_WE .| CFG_CTL_INT .| CFG_CTL_RESTART)
    (STAMIN WNI_CFG_11H_ENABLED) (STAMAX WNI_CFG_11H_ENABLED) (STADEF WNI_CFG_11H_ENABLED);
  mk_static WNI_CFG_WT_CNF_TIMEOUT (CFG_CTL_VALID .| CFG_CTL_RE .| CFG_CTL_WE .| CFG_CTL_INT)
    (STAMIN WNI_CFG_WT_CNF_TIMEOUT) (STAMAX WNI_CFG_WT_CNF_TIMEOUT) (STADEF WNI_CFG_WT_CNF_TIMEOUT);
  mk_static WNI_CFG_LOG_LEVEL (CFG_CTL_VALID .| CFG_CTL_RE .| CFG_CTL_WE .| CFG_CTL_INT)
    (STAMIN WNI_CFG_LOG_LEVEL) (STAMAX WNI_CFG_LOG_LEVEL) (STADEF WNI_CFG_LOG_LEVEL);
  mk_static WNI_CFG_OLBC_DETECT_TIMEOUT (CFG_CTL_VALID .| CFG_CTL_RE .| CFG_CTL_WE .| CFG_CTL_INT)
    (STAMIN WNI_CFG_OLBC_DETECT_TIMEOUT) (STAMAX WNI_CFG_OLBC_DETECT_TIMEOUT) (STADEF WNI_CFG_OLBC_DETECT_TIMEOUT);
  mk_static WNI_CFG_PROTECTION_ENABLED (CFG_CTL_VALID .| CFG_CTL_RE .| CFG_CTL_WE .| CFG_CTL_INT .| CFG_CTL_RESTART .| CFG_CTL_NTF_LIM)
    (STAMIN WNI_CFG_PROTECTION_ENABLED) (STAMAX WNI_CFG_PROTECTION_ENABLED) (STADEF WNI_CFG_PROTECTION_ENABLED);
  mk_static WNI_CFG_11G_PROTECTION_ALWAYS (CFG_CTL_VALID .| CFG_CTL_RE .| CFG_CTL_WE .| CFG_CTL_INT .| CFG_CTL_RESTART)
    (STAMIN WNI_CFG_11G_PROTECTION_ALWAYS) (STAMAX WNI_CFG_11G_PROTECTION_ALWAYS) (STADEF WNI_CFG_11G_PROTECTION_ALWAYS);
  mk_static WNI_CFG_FORCE_POLICY_PROTECTION (CFG_CTL_VALID .| CFG_CTL_RE .| CFG_CTL_WE .| CFG_CTL_INT .| CFG_CTL_RESTART .| CFG_CTL_NTF_HAL)
    (STAMIN WNI_CFG_FORCE_POLICY_PROTECTION) (STAMAX WNI_CFG_FORCE_POLICY_PROTECTION) (STADEF WNI_CFG_FORCE_POLICY_PROTECTION);
  mk_static WNI_CFG_11G_SHORT_PREAMBLE_ENABLED (CFG_CTL_VALID .| CFG_CTL_RE .| CFG_CTL_WE .| CFG_CTL_INT .| CFG_CTL_RESTART)
    (STAMIN WNI_CFG_11G_SHORT_PREAMBLE_ENABLED) (STAMAX WNI_CFG_11G_SHORT_PREAMBLE_ENABLED) (STADEF WNI_CFG_11G_SHORT_PREAMBLE_ENABLED);
  mk_static WNI_CFG_11G_SHORT_SLOT_TIME_ENABLED (CFG_CTL_VALID .| CFG_CTL_RE .| CFG_CTL_WE .| CFG_CTL_INT .| CFG_CTL_RESTART)
    (STAMIN WNI_CFG_11G_SHORT_SLOT_TIME_ENABLED) (STAMAX WNI_CFG_11G_SHORT_SLOT_TIME_ENABLED) (STADEF WNI_CFG_11G_SHORT_SLOT_TIME_ENABLED);
  mk_static WNI_CFG_11G_ONLY_POLICY (CFG_CTL_VALID .| CFG_CTL_RE .| CFG_CTL_WE .| CFG_CTL_INT)
    (STAMIN WNI_CFG_11G_ONLY_POLICY) (STAMAX WNI_CFG_11G_ONLY_POLICY) (STADEF WNI_CFG_11G_ONLY_POLICY);
  mk_static WNI_CFG_WME_ENABLED (CFG_CTL_VALID .| CFG_CTL_RE .| CFG_CTL_WE .| CFG_CTL_INT .| CFG_CTL_RESTART)
    (STAMIN WNI_CFG_WME_ENABLED) (STAMAX WNI_CFG_WME_ENABLED) (STADEF WNI_CFG_WME_ENABLED);
  mk_static WNI_CFG_ADDTS_RSP_TIMEOUT (CFG_CTL_VALID .| CFG_CTL_RE .| CFG_CTL_WE .| CFG_CTL_INT)
    (STAMIN WNI_CFG_ADDTS_RSP_TIMEOUT) (STAMAX WNI_CFG_ADDTS_RSP_TIMEOUT) (STADEF WNI_CFG_ADDTS_RSP_TIMEOUT);
  mk_static WNI_CFG_MAX_SP_LENGTH (CFG_CTL_VALID .| CFG_CTL_RE .| CFG_CTL_WE .| CFG_CTL_INT)
    (STAMIN WNI_CFG_MAX_SP_LENGTH) (STAMAX WNI_CFG_MAX_SP_LENGTH) (STADEF WNI_CFG_MAX_SP_LENGTH);
  mk_static WNI_CFG_WSM_ENABLED (CFG_CTL_VALID .| CFG_CTL_RE .| CFG_CTL_WE .| CFG_CTL_INT)
    (STAMIN WNI_CFG_WSM_ENABLED) (STAMAX WNI_CFG_WSM_ENABLED) (STADEF WNI_CFG_WSM_ENABLED);
  mk_static WNI_CFG_EDCA_PROFILE (CFG_CTL_VALID .| CFG_CTL_RE .| CFG_CTL_WE .| CFG_CTL_INT .| CFG_CTL_NTF_SCH)
    (STAMIN WNI_CFG_EDCA_PROFILE) (STAMAX WNI_CFG_EDCA_PROFILE) (STADEF WNI_CFG_EDCA_PROFILE);
  mk_static WNI_CFG_EDCA_ANI_ACBK_LOCAL (CFG_CTL_VALID .| CFG_CTL_RE .| CFG_CTL_WE .| CFG_CTL_RESTART)
    0 0 0;
  mk_static WNI_CFG_EDCA_ANI_ACBE_LOCAL (CFG_CTL_VALID .| CFG_CTL_RE .| CFG_CTL_WE .| CFG_CTL_RESTART)
    0 0 0;
  mk_static WNI_CFG_EDCA_ANI_ACVI_LOCAL (CFG_CTL_VALID .| CFG_CTL_RE .| CFG_CTL_WE .| CFG_CTL_RESTART)
    0 0 0;
  mk_static WNI_CFG_EDCA_ANI_ACVO_LOCAL (CFG_CTL_VALID .| CFG_CTL_RE .| CFG_CTL_WE .| CFG_CTL_RESTART)
    0 0 0;
  mk_static WNI_CFG_EDCA_ANI_ACBK (CFG_CTL_VALID .| CFG_CTL_RE .| CFG_CTL_WE .| CFG_CTL_RESTART)
    0 0 0;
  mk_static WNI_CFG_EDCA_ANI_ACBE (CFG_CTL_VALID .| CFG_CTL_RE .| CFG_CTL_WE .| CFG_CTL_RESTART)
    0 0 0;
  mk_static WNI_CFG_EDCA_ANI_ACVI (CFG_CTL_VALID .| CFG_CTL_RE .| CFG_CTL_WE .| CFG_CTL_RESTART)
    0 0 0;
  mk_static WNI_CFG_EDCA_ANI_ACVO (CFG_CTL_VALID .| CFG_CTL_RE .| CFG_CTL_WE .| CFG_CTL_RESTART)
    0 0 0;
  mk_static WNI_CFG_EDCA_WME_ACBK_LOCAL (CFG_CTL_VALID .| CFG_CTL_RE .| CFG_CTL_WE .| CFG_CTL_RESTART)
    0 0 0;
  mk_static WNI_CFG_EDCA_WME_ACBE_LOCAL (CFG_CTL_VALID .| CFG_CTL_RE .| CFG_CTL_WE .| CFG_CTL_RESTART)
    0 0 0;
  mk_static WNI_CFG_EDCA_WME_ACVI_LOCAL (CFG_CTL_VALID .| CFG_CTL_RE .| CFG_CTL_WE .| CFG_CTL_RESTART)
    0 0 0;
  mk_static WNI_CFG_EDCA_WME_ACVO_LOCAL (CFG_CTL_VALID .| CFG_CTL_RE .| CFG_CTL_WE .| CFG_CTL_RESTART)
    0 0 0
].

(** [cfg_static], lines 482 to 629 of cfg_proc_msg.c. *)
Definition cfg_static_4 : list cgstatic := [
  mk_static WNI_CFG_EDCA_WME_ACBK (CFG_CTL_VALID .| CFG_CTL_RE .| CFG_CTL_WE .| CFG_CTL_RESTART)
    0 0 0;
  mk_static WNI_CFG_EDCA_WME_ACBE (CFG_CTL_VALID .| CFG_CTL_RE .| CFG_CTL_WE .| CFG_CTL_RESTART)
    0 0 0;
  mk_static WNI_CFG_EDCA_WME_ACVI (CFG_CTL_VALID .| CFG_CTL_RE .| CFG_CTL_WE .| CFG_CTL_RESTART)
    0 0 0;
  mk_static WNI_CFG_EDCA_WME_ACVO (CFG_CTL_VALID .| CFG_CTL_RE .| CFG_CTL_WE .| CFG_CTL_RESTART)
    0 0 0;
  mk_static WNI_CFG_LOCAL_POWER_CONSTRAINT (CFG_CTL_VALID .| CFG_CTL_RE .| CFG_CTL_WE .| CFG_CTL_INT .| CFG_CTL_RESTART)
    (STAMIN WNI_CFG_LOCAL_POWER_CONSTRAINT) (STAMAX WNI_CFG_LOCAL_POWER_CONSTRAINT) (STADEF WNI_CFG_LOCAL_POWER_CONSTRAINT);
  mk_static WNI_CFG_ADMIT_POLICY (CFG_CTL_VALID .| CFG_CTL_RE .| CFG_CTL_WE .| CFG_CTL_INT .| CFG_CTL_RESTART)
    (STAMIN WNI_CFG_ADMIT_POLICY) (STAMAX WNI_CFG_ADMIT_POLICY) (STADEF WNI_CFG_ADMIT_POLICY);
  mk_static WNI_CFG_ADMIT_BWFACTOR (CFG_CTL_VALID .| CFG_CTL_RE .| CFG_CTL_WE .| CFG_CTL_INT .| CFG_CTL_RESTART)
    (STAMIN WNI_CFG_ADMIT_BWFACTOR) (STAMAX WNI_CFG_ADMIT_BWFACTOR) (STADEF WNI_CFG_ADMIT_BWFACTOR);
  mk_static WNI_CFG_CHANNEL_BONDING_MODE (CFG_CTL_VALID .| CFG_CTL_RE .| CFG_CTL_WE .| CFG_CTL_INT .| CFG_CTL_RESTART .| CFG_CTL_NTF_LIM)
    (STAMIN WNI_CFG_CHANNEL_BONDING_MODE) (STAMAX WNI_CFG_CHANNEL_BONDING_MODE) (STADEF WNI_CFG_CHANNEL_BONDING_MODE);
  mk_static WNI_CFG_DYNAMIC_THRESHOLD_ZERO (CFG_CTL_VALID .| CFG_CTL_RE .| CFG_CTL_WE .| CFG_CTL_INT .| CFG_CTL_NTF_HAL)
    (STAMIN WNI_CFG_DYNAMIC_THRESHOLD_ZERO) (STAMAX WNI_CFG_DYNAMIC_THRESHOLD_ZERO) (STADEF WNI_CFG_DYNAMIC_THRESHOLD_ZERO);
  mk_static WNI_CFG_DYNAMIC_THRESHOLD_ONE (CFG_CTL_VALID .| CFG_CTL_RE .| CFG_CTL_WE .| CFG_CTL_INT .| CFG_CTL_NTF_HAL)
    (STAMIN WNI_CFG_DYNAMIC_THRESHOLD_ONE) (STAMAX WNI_CFG_DYNAMIC_THRESHOLD_ONE) (STADEF WNI_CFG_DYNAMIC_THRESHOLD_ONE);
  mk_static WNI_CFG_DYNAMIC_THRESHOLD_TWO (CFG_CTL_VALID .| CFG_CTL_RE .| CFG_CTL_WE .| CFG_CTL_INT .| CFG_CTL_NTF_HAL)
    (STAMIN WNI_CFG_DYNAMIC_THRESHOLD_TWO) (STAMAX WNI_CFG_DYNAMIC_THRESHOLD_TWO) (STADEF WNI_CFG_DYNAMIC_THRESHOLD_TWO);
  mk_static WNI_CFG_SCAN_CONTROL_LIST (CFG_CTL_VALID .| CFG_CTL_RE .| CFG_CTL_WE .| CFG_CTL_RESTART .| CFG_CTL_NTF_LIM)
    0 0 0;
  mk_static WNI_CFG_BLOCK_ACK_ENABLED (CFG_CTL_VALID .| CFG_CTL_RE .| CFG_CTL_WE .| CFG_CTL_INT .| CFG_CTL_RESTART .| CFG_CTL_NTF_LIM)
    (STAMIN WNI_CFG_BLOCK_ACK_ENABLED) (STAMAX WNI_CFG_BLOCK_ACK_ENABLED) (STADEF WNI_CFG_BLOCK_ACK_ENABLED);
  mk_static WNI_CFG_HT_CAP_INFO (CFG_CTL_VALID .| CFG_CTL_RE .| CFG_CTL_WE .| CFG_CTL_INT .| CFG_CTL_RESTART .| CFG_CTL_NTF_LIM)
    (STAMIN WNI_CFG_HT_CAP_INFO) (STAMAX WNI_CFG_HT_CAP_INFO) (STADEF WNI_CFG_HT_CAP_INFO);
  mk_static WNI_CFG_HT_AMPDU_PARAMS (CFG_CTL_VALID .| CFG_CTL_RE .| CFG_CTL_WE .| CFG_CTL_INT .| CFG_CTL_RESTART .| CFG_CTL_NTF_LIM)
    (STAMIN WNI_CFG_HT_AMPDU_PARAMS) (STAMAX WNI_CFG_HT_AMPDU_PARAMS) (STADEF WNI_CFG_HT_AMPDU_PARAMS);
  mk_static WNI_CFG_SUPPORTED_MCS_SET (CFG_CTL_VALID .| CFG_CTL_RE .| CFG_CTL_WE .| CFG_CTL_SAVE .| CFG_CTL_RESTART .| CFG_CTL_NTF_LIM)
    0 0 0;
  mk_static WNI_CFG_EXT_HT_CAP_INFO (CFG_CTL_VALID .| CFG_CTL_RE .| CFG_CTL_WE .| CFG_CTL_INT .| CFG_CTL_SAVE .| CFG_CTL_RESTART .| CFG_CTL_NTF_LIM)
    (STAMIN WNI_CFG_EXT_HT_CAP_INFO) (STAMAX WNI_CFG_EXT_HT_CAP_INFO) (STADEF WNI_CFG_EXT_HT_CAP_INFO);
  mk_static WNI_CFG_TX_BF_CAP (CFG_CTL_VALID .| CFG_CTL_RE .| CFG_CTL_INT .| CFG_CTL_RESTART .| CFG_CTL_NTF_LIM)
    (STAMIN WNI_CFG_TX_BF_CAP) 4294967295 (STADEF WNI_CFG_TX_BF_CAP);
  mk_static WNI_CFG_AS_CAP (CFG_CTL_VALID .| CFG_CTL_RE .| CFG_CTL_WE .| CFG_CTL_INT .| CFG_CTL_SAVE .| CFG_CTL_RESTART .| CFG_CTL_NTF_LIM)
    (STAMIN WNI_CFG_AS_CAP) (STAMAX WNI_CFG_AS_CAP) (STADEF WNI_CFG_AS_CAP);
  mk_static WNI_CFG_HT_INFO_FIELD1 (CFG_CTL_VALID .| CFG_CTL_RE .| CFG_CTL_WE .| CFG_CTL_INT .| CFG_CTL_RESTART .| CFG_CTL_NTF_LIM)
    (STAMIN WNI_CFG_HT_INFO_FIELD1) (STAMAX WNI_CFG_HT_INFO_FIELD1) (STADEF WNI_CFG_HT_INFO_FIELD1);
  mk_static WNI_CFG_HT_INFO_FIELD2 (CFG_CTL_VALID .| CFG_CTL_RE .| CFG_CTL_WE .| CFG_CTL_INT .| CFG_CTL_SAVE .| CFG_CTL_NTF_LIM)
    (STAMIN WNI_CFG_HT_INFO_FIELD2) (STAMAX WNI_CFG_HT_INFO_FIELD2) (STADEF WNI_CFG_HT_INFO_FIELD2);
  mk_static WNI_CFG_HT_INFO_FIELD3 (CFG_CTL_VALID .| CFG_CTL_RE .| CFG_CTL_WE .| CFG_CTL_INT .| CFG_CTL_SAVE .| CFG_CTL_NTF_LIM)
    (STAMIN WNI_CFG_HT_INFO_FIELD3) (STAMAX WNI_CFG_HT_INFO_FIELD3) (STADEF WNI_CFG_HT_INFO_FIELD3);
  mk_static WNI_CFG_BASIC_MCS_SET (CFG_CTL_VALID .| CFG_CTL_RE .| CFG_CTL_WE .| CFG_CTL_SAVE .| CFG_CTL_RESTART .| CFG_CTL_NTF_LIM)
    0 0 0;
  mk_static WNI_CFG_CURRENT_MCS_SET (CFG_CTL_VALID .| CFG_CTL_RE .| CFG_CTL_WE .| CFG_CTL_SAVE .| CFG_CTL_RESTART .| CFG_CTL_NTF_LIM)
    0 0 0;
  mk_static WNI_CFG_VHT_MAX_MPDU_LENGTH (CFG_CTL_VALID .| CFG_CTL_RE .| CFG_CTL_WE .| CFG_CTL_INT .| CFG_CTL_NTF_LIM)
    (STAMIN WNI_CFG_VHT_MAX_MPDU_LENGTH) (STAMAX WNI_CFG_VHT_MAX_MPDU_LENGTH) (STADEF WNI_CFG_VHT_MAX_MPDU_LENGTH);
  mk_static WNI_CFG_VHT_SUPPORTED_CHAN_WIDTH_SET (CFG_CTL_VALID .| CFG_CTL_RE .| CFG_CTL_WE .| CFG_CTL_INT .| CFG_CTL_NTF_LIM)
    (STAMIN WNI_CFG_VHT_SUPPORTED_CHAN_WIDTH_SET) (STAMAX WNI_CFG_VHT_SUPPORTED_CHAN_WIDTH_SET) (STADEF WNI_CFG_VHT_SUPPORTED_CHAN_WIDTH_SET);
  mk_static WNI_CFG_VHT_LDPC_CODING_CAP (CFG_CTL_VALID .| CFG_CTL_RE .| CFG_CTL_WE .| CFG_CTL_INT .| CFG_CTL_NTF_LIM)
    (STAMIN WNI_CFG_VHT_LDPC_CODING_CAP) (STAMAX WNI_CFG_VHT_LDPC_CODING_CAP) (STADEF WNI_CFG_VHT_LDPC_CODING_CAP);
  mk_static WNI_CFG_VHT_SHORT_GI_80MHZ (CFG_CTL_VALID .| CFG_CTL_RE .| CFG_CTL_WE .| CFG_CTL_INT .| CFG_CTL_NTF_LIM)
    (STAMIN WNI_CFG_VHT_SHORT_GI_80MHZ) (STAMAX WNI_CFG_VHT_SHORT_GI_80MHZ) (STADEF WNI_CFG_VHT_SHORT_GI_80MHZ)
].

(** [cfg_static], lines 630 to 779 of cfg_proc_msg.c. *)
Definition cfg_static_5 : list cgstatic := [
  mk_static WNI_CFG_VHT_SHORT_GI_160_AND_80_PLUS_80MHZ (CFG_CTL_VALID .| CFG_CTL_RE .| CFG_CTL_WE .| CFG_CTL_INT .| CFG_CTL_NTF_LIM)
    (STAMIN WNI_CFG_VHT_SHORT_GI_160_AND_80_PLUS_80MHZ) (STAMAX WNI_CFG_VHT_SHORT_GI_160_AND_80_PLUS_80MHZ) (STADEF WNI_CFG_VHT_SHORT_GI_160_AND_80_PLUS_80MHZ);
  mk_static WNI_CFG_VHT_TXSTBC (CFG_CTL_VALID .| CFG_CTL_RE .| CFG_CTL_WE .| CFG_CTL_INT .| CFG_CTL_NTF_LIM)
    (STAMIN WNI_CFG_VHT_TXSTBC) (STAMAX WNI_CFG_VHT_TXSTBC) (STADEF WNI_CFG_VHT_TXSTBC);
  mk_static WNI_CFG_VHT_RXSTBC (CFG_CTL_VALID .| CFG_CTL_RE .| CFG_CTL_WE .| CFG_CTL_INT .| CFG_CTL_NTF_LIM)
    (STAMIN WNI_CFG_VHT_RXSTBC) (STAMAX WNI_CFG_VHT_RXSTBC) (STADEF WNI_CFG_VHT_RXSTBC);
  mk_static WNI_CFG_VHT_SU_BEAMFORMER_CAP (CFG_CTL_VALID .| CFG_CTL_RE .| CFG_CTL_WE .| CFG_CTL_INT .| CFG_CTL_NTF_LIM)
    (STAMIN WNI_CFG_VHT_SU_BEAMFORMER_CAP) (STAMAX WNI_CFG_VHT_SU_BEAMFORMER_CAP) (STADEF WNI_CFG_VHT_SU_BEAMFORMER_CAP);
  mk_static WNI_CFG_VHT_SU_BEAMFORMEE_CAP (CFG_CTL_VALID .| CFG_CTL_RE .| CFG_CTL_WE .| CFG_CTL_INT .| CFG_CTL_NTF_LIM)
    (STAMIN WNI_CFG_VHT_SU_BEAMFORMEE_CAP) (STAMAX WNI_CFG_VHT_SU_BEAMFORMEE_CAP) (STADEF WNI_CFG_VHT_SU_BEAMFORMEE_CAP);
  mk_static WNI_CFG_VHT_CSN_BEAMFORMEE_ANT_SUPPORTED (CFG_CTL_VALID .| CFG_CTL_RE .| CFG_CTL_WE .| CFG_CTL_INT .| CFG_CTL_NTF_LIM)
    (STAMIN WNI_CFG_VHT_CSN_BEAMFORMEE_ANT_SUPPORTED) (STAMAX WNI_CFG_VHT_CSN_BEAMFORMEE_ANT_SUPPORTED) (STADEF WNI_CFG_VHT_CSN_BEAMFORMEE_ANT_SUPPORTED);
  mk_static WNI_CFG_VHT_NUM_SOUNDING_DIMENSIONS (CFG_CTL_VALID .| CFG_CTL_RE .| CFG_CTL_WE .| CFG_CTL_INT .| CFG_CTL_NTF_LIM)
    (STAMIN WNI_CFG_VHT_NUM_SOUNDING_DIMENSIONS) (STAMAX WNI_CFG_VHT_NUM_SOUNDING_DIMENSIONS) (STADEF WNI_CFG_VHT_NUM_SOUNDING_DIMENSIONS);
  mk_static WNI_CFG_VHT_MU_BEAMFORMER_CAP (CFG_CTL_VALID .| CFG_CTL_RE .| CFG_CTL_WE .| CFG_CTL_INT .| CFG_CTL_NTF_LIM)
    (STAMIN WNI_CFG_VHT_MU_BEAMFORMER_CAP) (STAMAX WNI_CFG_VHT_MU_BEAMFORMER_CAP) (STADEF WNI_CFG_VHT_MU_BEAMFORMER_CAP);
  mk_static WNI_CFG_VHT_MU_BEAMFORMEE_CAP (CFG_CTL_VALID .| CFG_CTL_RE .| CFG_CTL_WE .| CFG_CTL_INT .| CFG_CTL_NTF_LIM)
    (STAMIN WNI_CFG_VHT_MU_BEAMFORMEE_CAP) (STAMAX WNI_CFG_VHT_MU_BEAMFORMEE_CAP) (STADEF WNI_CFG_VHT_MU_BEAMFORMEE_CAP);
  mk_static WNI_CFG_VHT_TXOP_PS (CFG_CTL_VALID .| CFG_CTL_RE .| CFG_CTL_WE .| CFG_CTL_INT .| CFG_CTL_NTF_LIM)
    (STAMIN WNI_CFG_VHT_TXOP_PS) (STAMAX WNI_CFG_VHT_TXOP_PS) (STADEF WNI_CFG_VHT_TXOP_PS);
  mk_static WNI_CFG_VHT_HTC_VHTC_CAP (CFG_CTL_VALID .| CFG_CTL_RE .| CFG_CTL_WE .| CFG_CTL_INT .| CFG_CTL_NTF_LIM)
    (STAMIN WNI_CFG_VHT_HTC_VHTC_CAP) (STAMAX WNI_CFG_VHT_HTC_VHTC_CAP) (STADEF WNI_CFG_VHT_HTC_VHTC_CAP);
  mk_static WNI_CFG_VHT_AMPDU_LEN_EXPONENT (CFG_CTL_VALID .| CFG_CTL_RE .| CFG_CTL_WE .| CFG_CTL_INT .| CFG_CTL_NTF_LIM)
    (STAMIN WNI_CFG_VHT_AMPDU_LEN_EXPONENT) (STAMAX WNI_CFG_VHT_AMPDU_LEN_EXPONENT) (STADEF WNI_CFG_VHT_AMPDU_LEN_EXPONENT);
  mk_static WNI_CFG_VHT_LINK_ADAPTATION_CAP (CFG_CTL_VALID .| CFG_CTL_RE .| CFG_CTL_WE .| CFG_CTL_INT .| CFG_CTL_NTF_LIM)
    (STAMIN WNI_CFG_VHT_LINK_ADAPTATION_CAP) (STAMAX WNI_CFG_VHT_LINK_ADAPTATION_CAP) (STADEF WNI_CFG_VHT_LINK_ADAPTATION_CAP);
  mk_static WNI_CFG_VHT_RX_ANT_PATTERN (CFG_CTL_VALID .| CFG_CTL_RE .| CFG_CTL_WE .| CFG_CTL_INT .| CFG_CTL_NTF_LIM)
    (STAMIN WNI_CFG_VHT_RX_ANT_PATTERN) (STAMAX WNI_CFG_VHT_RX_ANT_PATTERN) (STADEF WNI_CFG_VHT_RX_ANT_PATTERN);
  mk_static WNI_CFG_VHT_TX_ANT_PATTERN (CFG_CTL_VALID .| CFG_CTL_RE .| CFG_CTL_WE .| CFG_CTL_INT .| CFG_CTL_NTF_LIM)
    (STAMIN WNI_CFG_VHT_TX_ANT_PATTERN) (STAMAX WNI_CFG_VHT_TX_ANT_PATTERN) (STADEF WNI_CFG_VHT_TX_ANT_PATTERN);
  mk_static WNI_CFG_VHT_RX_MCS_MAP (CFG_CTL_VALID .| CFG_CTL_RE .| CFG_CTL_WE .| CFG_CTL_INT .| CFG_CTL_NTF_LIM)
    (STAMIN WNI_CFG_VHT_RX_MCS_MAP) (STAMAX WNI_CFG_VHT_RX_MCS_MAP) (STADEF WNI_CFG_VHT_RX_MCS_MAP);
  mk_static WNI_CFG_VHT_TX_MCS_MAP (CFG_CTL_VALID .| CFG_CTL_RE .| CFG_CTL_WE .| CFG_CTL_INT .| CFG_CTL_NTF_LIM)
    (STAMIN WNI_CFG_VHT_TX_MCS_MAP) (STAMAX WNI_CFG_VHT_TX_MCS_MAP) (STADEF WNI_CFG_VHT_TX_MCS_MAP);
  mk_static WNI_CFG_VHT_RX_HIGHEST_SUPPORTED_DATA_RATE (CFG_CTL_VALID .| CFG_CTL_RE .| CFG_CTL_WE .| CFG_CTL_INT .| CFG_CTL_NTF_LIM)
    (STAMIN WNI_CFG_VHT_RX_HIGHEST_SUPPORTED_DATA_RATE) (STAMAX WNI_CFG_VHT_RX_HIGHEST_SUPPORTED_DATA_RATE) (STADEF WNI_CFG_VHT_RX_HIGHEST_SUPPORTED_DATA_RATE);
  mk_static WNI_CFG_VHT_TX_HIGHEST_SUPPORTED_DATA_RATE (CFG_CTL_VALID .| CFG_CTL_RE .| CFG_CTL_WE .| CFG_CTL_INT .| CFG_CTL_NTF_LIM)
    (STAMIN WNI_CFG_VHT_TX_HIGHEST_SUPPORTED_DATA_RATE) (STAMAX WNI_CFG_VHT_TX_HIGHEST_SUPPORTED_DATA_RATE) (STADEF WNI_CFG_VHT_TX_HIGHEST_SUPPORTED_DATA_RATE);
  mk_static WNI_CFG_VHT_BASIC_MCS_SET (CFG_CTL_VALID .| CFG_CTL_RE .| CFG_CTL_WE .| CFG_CTL_INT .| CFG_CTL_NTF_LIM)
    (STAMIN WNI_CFG_VHT_BASIC_MCS_SET) (STAMAX WNI_CFG_VHT_BASIC_MCS_SET) (STADEF WNI_CFG_VHT_BASIC_MCS_SET);
  mk_static WNI_CFG_VHT_MU_MIMO_CAP_STA_COUNT (CFG_CTL_VALID .| CFG_CTL_RE .| CFG_CTL_WE .| CFG_CTL_INT .| CFG_CTL_NTF_LIM)
    (STAMIN WNI_CFG_VHT_MU_MIMO_CAP_STA_COUNT) (STAMAX WNI_CFG_VHT_MU_MIMO_CAP_STA_COUNT) (STADEF WNI_CFG_VHT_MU_MIMO_CAP_STA_COUNT);
  mk_static WNI_CFG_VHT_SS_UNDER_UTIL (CFG_CTL_VALID .| CFG_CTL_RE .| CFG_CTL_WE .| CFG_CTL_INT .| CFG_CTL_NTF_LIM)
    (STAMIN WNI_CFG_VHT_SS_UNDER_UTIL) (STAMAX WNI_CFG_VHT_SS_UNDER_UTIL) (STADEF WNI_CFG_VHT_SS_UNDER_UTIL);
  mk_static WNI_CFG_VHT_40MHZ_UTILIZATION (CFG_CTL_VALID .| CFG_CTL_RE .| CFG_CTL_WE .| CFG_CTL_INT .| CFG_CTL_NTF_LIM)
    (STAMIN WNI_CFG_VHT_40MHZ_UTILIZATION) (STAMAX WNI_CFG_VHT_40MHZ_UTILIZATION) (STADEF WNI_CFG_VHT_40MHZ_UTILIZATION);
  mk_static WNI_CFG_VHT_80MHZ_UTILIZATION (CFG_CTL_VALID .| CFG_CTL_RE .| CFG_CTL_WE .| CFG_CTL_INT .| CFG_CTL_NTF_LIM)
    (STAMIN WNI_CFG_VHT_80MHZ_UTILIZATION) (STAMAX WNI_CFG_VHT_80MHZ_UTILIZATION) (STADEF WNI_CFG_VHT_80MHZ_UTILIZATION);
  mk_static WNI_CFG_VHT_160MHZ_UTILIZATION (CFG_CTL_VALID .| CFG_CTL_RE .| CFG_CTL_WE .| CFG_CTL_INT .| CFG_CTL_NTF_LIM)
    (STADEF WNI_CFG_VHT_80MHZ_UTILIZATION) (STAMAX WNI_CFG_VHT_160MHZ_UTILIZATION) (STADEF WNI_CFG_VHT_160MHZ_UTILIZATION)
].

(** [cfg_static], lines 780 to 929 of cfg_proc_msg.c. *)
Definition cfg_static_6 : list cgstatic := [
  mk_static WNI_CFG_MPDU_DENSITY (CFG_CTL_VALID .| CFG_CTL_RE .| CFG_CTL_WE .| CFG_CTL_INT .| CFG_CTL_RESTART .| CFG_CTL_NTF_LIM)
    (STAMIN WNI_CFG_MPDU_DENSITY) (STAMAX WNI_CFG_MPDU_DENSITY) (STADEF WNI_CFG_MPDU_DENSITY);
  mk_static WNI_CFG_MAX_RX_AMPDU_FACTOR (CFG_CTL_VALID .| CFG_CTL_RE .| CFG_CTL_WE .| CFG_CTL_INT .| CFG_CTL_RESTART .| CFG_CTL_NTF_LIM)
    (STAMIN WNI_CFG_MAX_RX_AMPDU_FACTOR) (STAMAX WNI_CFG_MAX_RX_AMPDU_FACTOR) (STAMAX WNI_CFG_MAX_RX_AMPDU_FACTOR);
  mk_static WNI_CFG_MAX_PS_POLL (CFG_CTL_VALID .| CFG_CTL_RE .| CFG_CTL_WE .| CFG_CTL_INT .| CFG_CTL_NTF_LIM)
    (STAMIN WNI_CFG_MAX_PS_POLL) (STAMAX WNI_CFG_MAX_PS_POLL) (STADEF WNI_CFG_MAX_PS_POLL);
  mk_static WNI_CFG_RSSI_FILTER_PERIOD (CFG_CTL_VALID .| CFG_CTL_RE .| CFG_CTL_WE .| CFG_CTL_INT .| CFG_CTL_NTF_LIM)
    (STAMIN WNI_CFG_RSSI_FILTER_PERIOD) (STAMAX WNI_CFG_RSSI_FILTER_PERIOD) (STADEF WNI_CFG_RSSI_FILTER_PERIOD);
  mk_static WNI_CFG_SCAN_IN_POWERSAVE (CFG_CTL_VALID .| CFG_CTL_RE .| CFG_CTL_WE .| CFG_CTL_INT .| CFG_CTL_NTF_LIM)
    (STAMIN WNI_CFG_SCAN_IN_POWERSAVE) (STAMAX WNI_CFG_SCAN_IN_POWERSAVE) (STADEF WNI_CFG_SCAN_IN_POWERSAVE);
  mk_static WNI_CFG_IGNORE_DTIM (CFG_CTL_VALID .| CFG_CTL_RE .| CFG_CTL_WE .| CFG_CTL_INT)
    (STAMIN WNI_CFG_IGNORE_DTIM) (STAMAX WNI_CFG_IGNORE_DTIM) (STADEF WNI_CFG_IGNORE_DTIM);
  mk_static WNI_CFG_WOWLAN_UCAST_PATTERN_FILTER_ENABLE (CFG_CTL_VALID .| CFG_CTL_RE .| CFG_CTL_WE .| CFG_CTL_INT)
    (STAMIN WNI_CFG_WOWLAN_UCAST_PATTERN_FILTER_ENABLE) (STAMAX WNI_CFG_WOWLAN_UCAST_PATTERN_FILTER_ENABLE) (STADEF WNI_CFG_WOWLAN_UCAST_PATTERN_FILTER_ENABLE);
  mk_static WNI_CFG_WOWLAN_CHANNEL_SWITCH_ENABLE (CFG_CTL_VALID .| CFG_CTL_RE .| CFG_CTL_WE .| CFG_CTL_INT)
    (STAMIN WNI_CFG_WOWLAN_CHANNEL_SWITCH_ENABLE) (STAMAX WNI_CFG_WOWLAN_CHANNEL_SWITCH_ENABLE) (STADEF WNI_CFG_WOWLAN_CHANNEL_SWITCH_ENABLE);
  mk_static WNI_CFG_WOWLAN_DEAUTH_ENABLE (CFG_CTL_VALID .| CFG_CTL_RE .| CFG_CTL_WE .| CFG_CTL_INT)
    (STAMIN WNI_CFG_WOWLAN_DEAUTH_ENABLE) (STAMAX WNI_CFG_WOWLAN_DEAUTH_ENABLE) (STADEF WNI_CFG_WOWLAN_DEAUTH_ENABLE);
  mk_static WNI_CFG_WOWLAN_DISASSOC_ENABLE (CFG_CTL_VALID .| CFG_CTL_RE .| CFG_CTL_WE .| CFG_CTL_INT)
    (STAMIN WNI_CFG_WOWLAN_DISASSOC_ENABLE) (STAMAX WNI_CFG_WOWLAN_DISASSOC_ENABLE) (STADEF WNI_CFG_WOWLAN_DISASSOC_ENABLE);
  mk_static WNI_CFG_WOWLAN_MAX_MISSED_BEACON (CFG_CTL_VALID .| CFG_CTL_RE .| CFG_CTL_WE .| CFG_CTL_INT)
    (STAMIN WNI_CFG_WOWLAN_MAX_MISSED_BEACON) (STAMAX WNI_CFG_WOWLAN_MAX_MISSED_BEACON) (STADEF WNI_CFG_WOWLAN_MAX_MISSED_BEACON);
  mk_static WNI_CFG_WOWLAN_MAX_SLEEP_PERIOD (CFG_CTL_VALID .| CFG_CTL_RE .| CFG_CTL_WE .| CFG_CTL_INT)
    (STAMIN WNI_CFG_WOWLAN_MAX_SLEEP_PERIOD) (STAMAX WNI_CFG_WOWLAN_MAX_SLEEP_PERIOD) (STADEF WNI_CFG_WOWLAN_MAX_SLEEP_PERIOD);
  mk_static WNI_CFG_MAX_MEDIUM_TIME (CFG_CTL_VALID .| CFG_CTL_RE .| CFG_CTL_WE .| CFG_CTL_INT .| CFG_CTL_NTF_HAL)
    (STAMIN WNI_CFG_MAX_MEDIUM_TIME) (STAMAX WNI_CFG_MAX_MEDIUM_TIME) (STADEF WNI_CFG_MAX_MEDIUM_TIME);
  mk_static WNI_CFG_IBSS_AUTO_BSSID (CFG_CTL_VALID .| CFG_CTL_RE .| CFG_CTL_WE .| CFG_CTL_INT)
    (STAMIN WNI_CFG_IBSS_AUTO_BSSID) (STAMAX WNI_CFG_IBSS_AUTO_BSSID) (STADEF WNI_CFG_IBSS_AUTO_BSSID);
  mk_static WNI_CFG_PROBE_RSP_BCN_ADDNIE_FLAG (CFG_CTL_VALID .| CFG_CTL_RE .| CFG_CTL_WE .| CFG_CTL_INT .| CFG_CTL_NTF_LIM)
    (STAMIN WNI_CFG_PROBE_RSP_BCN_ADDNIE_FLAG) (STAMAX WNI_CFG_PROBE_RSP_BCN_ADDNIE_FLAG) (STADEF WNI_CFG_PROBE_RSP_BCN_ADDNIE_FLAG);
  mk_static WNI_CFG_WPS_ENABLE (CFG_CTL_VALID .| CFG_CTL_RE .| CFG_CTL_WE .| CFG_CTL_INT .| CFG_CTL_NTF_LIM)
    (STAMIN WNI_CFG_WPS_ENABLE) (STAMAX WNI_CFG_WPS_ENABLE) (STADEF WNI_CFG_WPS_ENABLE);
  mk_static WNI_CFG_WPS_STATE (CFG_CTL_VALID .| CFG_CTL_RE .| CFG_CTL_WE .| CFG_CTL_INT .| CFG_CTL_NTF_LIM)
    (STAMIN WNI_CFG_WPS_STATE) (STAMAX WNI_CFG_WPS_STATE) (STADEF WNI_CFG_WPS_STATE);
  mk_static WNI_CFG_WPS_VERSION (CFG_CTL_VALID .| CFG_CTL_RE .| CFG_CTL_WE .| CFG_CTL_INT .| CFG_CTL_NTF_LIM)
    (STAMIN WNI_CFG_WPS_VERSION) (STAMAX WNI_CFG_WPS_VERSION) (STADEF WNI_CFG_WPS_VERSION);
  mk_static WNI_CFG_WPS_CFG_METHOD (CFG_CTL_VALID .| CFG_CTL_RE .| CFG_CTL_WE .| CFG_CTL_INT .| CFG_CTL_NTF_LIM)
    (STAMIN WNI_CFG_WPS_CFG_METHOD) 4294967295 (STADEF WNI_CFG_WPS_CFG_METHOD);
  mk_static WNI_CFG_WPS_UUID (CFG_CTL_VALID .| CFG_CTL_RE .| CFG_CTL_WE .| CFG_CTL_NTF_LIM)
    0 0 0;
  mk_static WNI_CFG_WPS_PRIMARY_DEVICE_CATEGORY (CFG_CTL_VALID .| CFG_CTL_RE .| CFG_CTL_WE .| CFG_CTL_INT .| CFG_CTL_NTF_LIM)
    (STAMIN WNI_CFG_WPS_PRIMARY_DEVICE_CATEGORY) (STAMAX WNI_CFG_WPS_PRIMARY_DEVICE_CATEGORY) (STADEF WNI_CFG_WPS_PRIMARY_DEVICE_CATEGORY);
  mk_static WNI_CFG_WPS_PIMARY_DEVICE_OUI (CFG_CTL_VALID .| CFG_CTL_RE .| CFG_CTL_WE .| CFG_CTL_INT .| CFG_CTL_NTF_LIM)
    (STAMIN WNI_CFG_WPS_PIMARY_DEVICE_OUI) 4294967295 (STADEF WNI_CFG_WPS_PIMARY_DEVICE_OUI);
  mk_static WNI_CFG_WPS_DEVICE_SUB_CATEGORY (CFG_CTL_VALID .| CFG_CTL_RE .| CFG_CTL_WE .| CFG_CTL_INT .| CFG_CTL_NTF_LIM)
    (STAMIN WNI_CFG_WPS_DEVICE_SUB_CATEGORY) (STAMAX WNI_CFG_WPS_DEVICE_SUB_CATEGORY) (STADEF WNI_CFG_WPS_DEVICE_SUB_CATEGORY);
  mk_static WNI_CFG_WPS_DEVICE_PASSWORD_ID (CFG_CTL_VALID .| CFG_CTL_RE .| CFG_CTL_WE .| CFG_CTL_INT .| CFG_CTL_NTF_LIM)
    (STAMIN WNI_CFG_WPS_DEVICE_PASSWORD_ID) 4294967295 (STADEF WNI_CFG_WPS_DEVICE_PASSWORD_ID);
  mk_static WNI_CFG_LOW_GAIN_OVERRIDE (CFG_CTL_VALID .| CFG_CTL_RE .| CFG_CTL_WE .| CFG_CTL_INT .| CFG_CTL_NTF_HAL)
    (STAMIN WNI_CFG_LOW_GAIN_OVERRIDE) (STAMAX WNI_CFG_LOW_GAIN_OVERRIDE) (STADEF WNI_CFG_LOW_GAIN_OVERRIDE);
  mk_static WNI_CFG_SINGLE_TID_RC (CFG_CTL_VALID .| CFG_CTL_RE .| CFG_CTL_WE .| CFG_CTL_INT)
    (STAMIN WNI_CFG_SINGLE_TID_RC) (STAMAX WNI_CFG_SINGLE_TID_RC) (STADEF WNI_CFG_SINGLE_TID_RC);
  mk_static WNI_CFG_MCAST_BCAST_FILTER_SETTING (CFG_CTL_VALID .| CFG_CTL_RE .| CFG_CTL_WE .| CFG_CTL_INT .| CFG_CTL_NTF_HAL)
    (STAMIN WNI_CFG_MCAST_BCAST_FILTER_SETTING) (STAMAX WNI_CFG_MCAST_BCAST_FILTER_SETTING) (STADEF WNI_CFG_MCAST_BCAST_FILTER_SETTING)
].

(** [cfg_static], lines 930 to 1074 of cfg_proc_msg.c. *)
Definition cfg_static_7 : list cgstatic := [
  mk_static WNI_CFG_DYNAMIC_PS_POLL_VALUE (CFG_CTL_VALID .| CFG_CTL_RE .| CFG_CTL_WE .| CFG_CTL_INT .| CFG_CTL_NTF_HAL)
    (STAMIN WNI_CFG_DYNAMIC_PS_POLL_VALUE) (STAMAX WNI_CFG_DYNAMIC_PS_POLL_VALUE) (STADEF WNI_CFG_DYNAMIC_PS_POLL_VALUE);
  mk_static WNI_CFG_PS_NULLDATA_AP_RESP_TIMEOUT (CFG_CTL_VALID .| CFG_CTL_RE .| CFG_CTL_WE .| CFG_CTL_INT .| CFG_CTL_NTF_HAL)
    (STAMIN WNI_CFG_PS_NULLDATA_AP_RESP_TIMEOUT) (STAMAX WNI_CFG_PS_NULLDATA_AP_RESP_TIMEOUT) (STADEF WNI_CFG_PS_NULLDATA_AP_RESP_TIMEOUT);
  mk_static WNI_CFG_TELE_BCN_WAKEUP_EN (CFG_CTL_VALID .| CFG_CTL_RE .| CFG_CTL_WE .| CFG_CTL_INT .| CFG_CTL_NTF_HAL)
    (STAMIN WNI_CFG_TELE_BCN_WAKEUP_EN) (STAMAX WNI_CFG_TELE_BCN_WAKEUP_EN) (STADEF WNI_CFG_TELE_BCN_WAKEUP_EN);
  mk_static WNI_CFG_TELE_BCN_TRANS_LI (CFG_CTL_VALID .| CFG_CTL_RE .| CFG_CTL_WE .| CFG_CTL_INT .| CFG_CTL_NTF_HAL)
    (STAMIN WNI_CFG_TELE_BCN_TRANS_LI) (STAMAX WNI_CFG_TELE_BCN_TRANS_LI) (STADEF WNI_CFG_TELE_BCN_TRANS_LI);
  mk_static WNI_CFG_TELE_BCN_TRANS_LI_IDLE_BCNS (CFG_CTL_VALID .| CFG_CTL_RE .| CFG_CTL_WE .| CFG_CTL_INT .| CFG_CTL_NTF_HAL)
    (STAMIN WNI_CFG_TELE_BCN_TRANS_LI_IDLE_BCNS) (STAMAX WNI_CFG_TELE_BCN_TRANS_LI_IDLE_BCNS) (STADEF WNI_CFG_TELE_BCN_TRANS_LI_IDLE_BCNS);
  mk_static WNI_CFG_TELE_BCN_MAX_LI (CFG_CTL_VALID .| CFG_CTL_RE .| CFG_CTL_WE .| CFG_CTL_INT .| CFG_CTL_NTF_HAL)
    (STAMIN WNI_CFG_TELE_BCN_MAX_LI) (STAMAX WNI_CFG_TELE_BCN_MAX_LI) (STADEF WNI_CFG_TELE_BCN_MAX_LI);
  mk_static WNI_CFG_TELE_BCN_MAX_LI_IDLE_BCNS (CFG_CTL_VALID .| CFG_CTL_RE .| CFG_CTL_WE .| CFG_CTL_INT .| CFG_CTL_NTF_HAL)
    (STAMIN WNI_CFG_TELE_BCN_MAX_LI_IDLE_BCNS) (STAMAX WNI_CFG_TELE_BCN_MAX_LI_IDLE_BCNS) (STADEF WNI_CFG_TELE_BCN_MAX_LI_IDLE_BCNS);
  mk_static WNI_CFG_INFRA_STA_KEEP_ALIVE_PERIOD (CFG_CTL_VALID .| CFG_CTL_RE .| CFG_CTL_WE .| CFG_CTL_INT .| CFG_CTL_NTF_HAL)
    (STAMIN WNI_CFG_INFRA_STA_KEEP_ALIVE_PERIOD) (STAMAX WNI_CFG_INFRA_STA_KEEP_ALIVE_PERIOD) (STADEF WNI_CFG_INFRA_STA_KEEP_ALIVE_PERIOD);
  mk_static WNI_CFG_ASSOC_STA_LIMIT (CFG_CTL_VALID .| CFG_CTL_RE .| CFG_CTL_WE .| CFG_CTL_INT .| CFG_CTL_NTF_LIM)
    (STAMIN WNI_CFG_ASSOC_STA_LIMIT) (STAMAX WNI_CFG_ASSOC_STA_LIMIT) (STADEF WNI_CFG_ASSOC_STA_LIMIT);
  mk_static WNI_CFG_AP_DATA_AVAIL_POLL_PERIOD (CFG_CTL_VALID .| CFG_CTL_RE .| CFG_CTL_WE .| CFG_CTL_INT)
    (STAMIN WNI_CFG_AP_DATA_AVAIL_POLL_PERIOD) (STAMAX WNI_CFG_AP_DATA_AVAIL_POLL_PERIOD) (STADEF WNI_CFG_AP_DATA_AVAIL_POLL_PERIOD);
  mk_static WNI_CFG_ENABLE_LTE_COEX (CFG_CTL_VALID .| CFG_CTL_RE .| CFG_CTL_WE .| CFG_CTL_INT)
    (STAMIN WNI_CFG_ENABLE_LTE_COEX) (STAMAX WNI_CFG_ENABLE_LTE_COEX) (STADEF WNI_CFG_ENABLE_LTE_COEX);
  mk_static WNI_CFG_AP_KEEP_ALIVE_TIMEOUT (CFG_CTL_VALID .| CFG_CTL_RE .| CFG_CTL_WE .| CFG_CTL_INT .| CFG_CTL_NTF_HAL)
    (STAMIN WNI_CFG_AP_KEEP_ALIVE_TIMEOUT) (STAMAX WNI_CFG_AP_KEEP_ALIVE_TIMEOUT) (STADEF WNI_CFG_AP_KEEP_ALIVE_TIMEOUT);
  mk_static WNI_CFG_GO_KEEP_ALIVE_TIMEOUT (CFG_CTL_VALID .| CFG_CTL_RE .| CFG_CTL_WE .| CFG_CTL_INT .| CFG_CTL_NTF_HAL)
    (STAMIN WNI_CFG_GO_KEEP_ALIVE_TIMEOUT) (STAMAX WNI_CFG_GO_KEEP_ALIVE_TIMEOUT) (STADEF WNI_CFG_GO_KEEP_ALIVE_TIMEOUT);
  mk_static WNI_CFG_ENABLE_MC_ADDR_LIST (CFG_CTL_VALID .| CFG_CTL_RE .| CFG_CTL_WE .| CFG_CTL_INT .| CFG_CTL_NTF_HAL)
    (STAMIN WNI_CFG_ENABLE_MC_ADDR_LIST) (STAMAX WNI_CFG_ENABLE_MC_ADDR_LIST) (STADEF WNI_CFG_ENABLE_MC_ADDR_LIST);
  mk_static WNI_CFG_ENABLE_LPWR_IMG_TRANSITION (CFG_CTL_VALID .| CFG_CTL_RE .| CFG_CTL_WE .| CFG_CTL_INT)
    (STAMIN WNI_CFG_ENABLE_LPWR_IMG_TRANSITION) (STAMAX WNI_CFG_ENABLE_LPWR_IMG_TRANSITION) (STADEF WNI_CFG_ENABLE_LPWR_IMG_TRANSITION);
  mk_static WNI_CFG_ENABLE_MCC_ADAPTIVE_SCHED (CFG_CTL_VALID .| CFG_CTL_RE .| CFG_CTL_WE .| CFG_CTL_INT)
    (STAMIN WNI_CFG_ENABLE_MCC_ADAPTIVE_SCHED) (STAMAX WNI_CFG_ENABLE_MCC_ADAPTIVE_SCHED) (STADEF WNI_CFG_ENABLE_MCC_ADAPTIVE_SCHED);
  mk_static WNI_CFG_DISABLE_LDPC_WITH_TXBF_AP (CFG_CTL_VALID .| CFG_CTL_RE .| CFG_CTL_WE .| CFG_CTL_INT)
    (STAMIN WNI_CFG_DISABLE_LDPC_WITH_TXBF_AP) (STAMAX WNI_CFG_DISABLE_LDPC_WITH_TXBF_AP) (STADEF WNI_CFG_DISABLE_LDPC_WITH_TXBF_AP);
  mk_static WNI_CFG_AP_LINK_MONITOR_TIMEOUT (CFG_CTL_VALID .| CFG_CTL_RE .| CFG_CTL_WE .| CFG_CTL_INT .| CFG_CTL_NTF_HAL)
    (STAMIN WNI_CFG_AP_LINK_MONITOR_TIMEOUT) (STAMAX WNI_CFG_AP_LINK_MONITOR_TIMEOUT) (STADEF WNI_CFG_AP_LINK_MONITOR_TIMEOUT);
  mk_static WNI_CFG_TDLS_QOS_WMM_UAPSD_MASK (CFG_CTL_VALID .| CFG_CTL_RE .| CFG_CTL_WE .| CFG_CTL_INT .| CFG_CTL_NTF_LIM)
    (STAMIN WNI_CFG_TDLS_QOS_WMM_UAPSD_MASK) (STAMAX WNI_CFG_TDLS_QOS_WMM_UAPSD_MASK) (STADEF WNI_CFG_TDLS_QOS_WMM_UAPSD_MASK);
  mk_static WNI_CFG_TDLS_BUF_STA_ENABLED (CFG_CTL_VALID .| CFG_CTL_RE .| CFG_CTL_WE .| CFG_CTL_INT .| CFG_CTL_NTF_LIM)
    (STAMIN WNI_CFG_TDLS_BUF_STA_ENABLED) (STAMAX WNI_CFG_TDLS_BUF_STA_ENABLED) (STADEF WNI_CFG_TDLS_BUF_STA_ENABLED);
  mk_static WNI_CFG_TDLS_PUAPSD_INACT_TIME (CFG_CTL_VALID .| CFG_CTL_RE .| CFG_CTL_WE .| CFG_CTL_INT .| CFG_CTL_NTF_LIM)
    (STAMIN WNI_CFG_TDLS_PUAPSD_INACT_TIME) (STAMAX WNI_CFG_TDLS_PUAPSD_INACT_TIME) (STADEF WNI_CFG_TDLS_PUAPSD_INACT_TIME);
  mk_static WNI_CFG_TDLS_RX_FRAME_THRESHOLD (CFG_CTL_VALID .| CFG_CTL_RE .| CFG_CTL_WE .| CFG_CTL_INT .| CFG_CTL_NTF_LIM)
    (STAMIN WNI_CFG_TDLS_RX_FRAME_THRESHOLD) (STAMAX WNI_CFG_TDLS_RX_FRAME_THRESHOLD) (STADEF WNI_CFG_TDLS_RX_FRAME_THRESHOLD);
  mk_static WNI_CFG_PMF_SA_QUERY_MAX_RETRIES (CFG_CTL_VALID .| CFG_CTL_RE .| CFG_CTL_WE .| CFG_CTL_INT .| CFG_CTL_RESTART)
    (STAMIN WNI_CFG_PMF_SA_QUERY_MAX_RETRIES) (STAMAX WNI_CFG_PMF_SA_QUERY_MAX_RETRIES) (STADEF WNI_CFG_PMF_SA_QUERY_MAX_RETRIES);
  mk_static WNI_CFG_PMF_SA_QUERY_RETRY_INTERVAL (CFG_CTL_VALID .| CFG_CTL_RE .| CFG_CTL_WE .| CFG_CTL_INT .| CFG_CTL_RESTART)
    (STAMIN WNI_CFG_PMF_SA_QUERY_RETRY_INTERVAL) (STAMAX WNI_CFG_PMF_SA_QUERY_RETRY_INTERVAL) (STADEF WNI_CFG_PMF_SA_QUERY_RETRY_INTERVAL);
  mk_static WNI_CFG_ENABLE_ADAPT_RX_DRAIN (CFG_CTL_VALID .| CFG_CTL_RE .| CFG_CTL_WE .| CFG_CTL_INT .| CFG_CTL_NTF_HAL)
    (STAMIN WNI_CFG_ENABLE_ADAPT_RX_DRAIN) (STAMAX WNI_CFG_ENABLE_ADAPT_RX_DRAIN) (STADEF WNI_CFG_ENABLE_ADAPT_RX_DRAIN)
].

(** [cfg_static], lines 1075 to 1202 of cfg_proc_msg.c. *)
Definition cfg_static_8 : list cgstatic := [
  mk_static WNI_CFG_ANTENNA_DIVESITY (CFG_CTL_VALID .| CFG_CTL_RE .| CFG_CTL_WE .| CFG_CTL_INT .| CFG_CTL_NTF_HAL)
    (STAMIN WNI_CFG_ANTENNA_DIVESITY) (STAMAX WNI_CFG_ANTENNA_DIVESITY) (STADEF WNI_CFG_ANTENNA_DIVESITY);
  mk_static WNI_CFG_GO_LINK_MONITOR_TIMEOUT (CFG_CTL_VALID .| CFG_CTL_RE .| CFG_CTL_WE .| CFG_CTL_INT .| CFG_CTL_NTF_HAL)
    (STAMIN WNI_CFG_GO_LINK_MONITOR_TIMEOUT) (STAMAX WNI_CFG_GO_LINK_MONITOR_TIMEOUT) (STADEF WNI_CFG_GO_LINK_MONITOR_TIMEOUT);
  mk_static WNI_CFG_RMC_ACTION_PERIOD_FREQUENCY (CFG_CTL_VALID .| CFG_CTL_RE .| CFG_CTL_WE .| CFG_CTL_INT .| CFG_CTL_NTF_HAL)
    (STAMIN WNI_CFG_RMC_ACTION_PERIOD_FREQUENCY) (STAMAX WNI_CFG_RMC_ACTION_PERIOD_FREQUENCY) (STADEF WNI_CFG_RMC_ACTION_PERIOD_FREQUENCY);
  mk_static WNI_CFG_CURRENT_RSSI (CFG_CTL_VALID .| CFG_CTL_RE .| CFG_CTL_WE .| CFG_CTL_INT)
    (STAMIN WNI_CFG_CURRENT_RSSI) (STAMAX WNI_CFG_CURRENT_RSSI) (STADEF WNI_CFG_CURRENT_RSSI);
  mk_static WNI_CFG_RTT3_ENABLE (CFG_CTL_VALID .| CFG_CTL_RE .| CFG_CTL_WE .| CFG_CTL_INT)
    (STAMIN WNI_CFG_RTT3_ENABLE) (STAMAX WNI_CFG_RTT3_ENABLE) (STADEF WNI_CFG_RTT3_ENABLE);
  mk_static WNI_CFG_DEBUG_P2P_REMAIN_ON_CHANNEL (CFG_CTL_VALID .| CFG_CTL_RE .| CFG_CTL_WE .| CFG_CTL_INT)
    (STAMIN WNI_CFG_DEBUG_P2P_REMAIN_ON_CHANNEL) (STAMAX WNI_CFG_DEBUG_P2P_REMAIN_ON_CHANNEL) (STADEF WNI_CFG_DEBUG_P2P_REMAIN_ON_CHANNEL);
  mk_static WNI_CFG_TDLS_OFF_CHANNEL_ENABLED (CFG_CTL_VALID .| CFG_CTL_RE .| CFG_CTL_WE .| CFG_CTL_INT .| CFG_CTL_NTF_LIM)
    (STAMIN WNI_CFG_TDLS_OFF_CHANNEL_ENABLED) (STAMAX WNI_CFG_TDLS_OFF_CHANNEL_ENABLED) (STADEF WNI_CFG_TDLS_OFF_CHANNEL_ENABLED);
  mk_static WNI_CFG_IBSS_ATIM_WIN_SIZE (CFG_CTL_VALID .| CFG_CTL_RE .| CFG_CTL_WE .| CFG_CTL_INT)
    (STAMIN WNI_CFG_IBSS_ATIM_WIN_SIZE) (STAMAX WNI_CFG_IBSS_ATIM_WIN_SIZE) (STADEF WNI_CFG_IBSS_ATIM_WIN_SIZE);
  mk_static WNI_CFG_DFS_MASTER_ENABLED (CFG_CTL_VALID .| CFG_CTL_RE .| CFG_CTL_WE .| CFG_CTL_INT)
    (STAMIN WNI_CFG_DFS_MASTER_ENABLED) (STAMAX WNI_CFG_DFS_MASTER_ENABLED) (STADEF WNI_CFG_DFS_MASTER_ENABLED);
  mk_static WNI_CFG_VHT_ENABLE_TXBF_20MHZ (CFG_CTL_VALID .| CFG_CTL_RE .| CFG_CTL_WE .| CFG_CTL_INT)
    (STAMIN WNI_CFG_VHT_ENABLE_TXBF_20MHZ) (STAMAX WNI_CFG_VHT_ENABLE_TXBF_20MHZ) (STADEF WNI_CFG_VHT_ENABLE_TXBF_20MHZ);
  mk_static WNI_CFG_TDLS_WMM_MODE_ENABLED (CFG_CTL_VALID .| CFG_CTL_RE .| CFG_CTL_WE .| CFG_CTL_INT .| CFG_CTL_NTF_LIM)
    (STAMIN WNI_CFG_TDLS_WMM_MODE_ENABLED) (STAMAX WNI_CFG_TDLS_WMM_MODE_ENABLED) (STADEF WNI_CFG_TDLS_WMM_MODE_ENABLED);
  mk_static WNI_CFG_OBSS_HT40_SCAN_PASSIVE_DWELL_TIME (CFG_CTL_VALID .| CFG_CTL_RE .| CFG_CTL_WE .| CFG_CTL_INT .| CFG_CTL_NTF_LIM)
    (STAMIN WNI_CFG_OBSS_HT40_SCAN_PASSIVE_DWELL_TIME) (STAMAX WNI_CFG_OBSS_HT40_SCAN_PASSIVE_DWELL_TIME) (STADEF WNI_CFG_OBSS_HT40_SCAN_PASSIVE_DWELL_TIME);
  mk_static WNI_CFG_OBSS_HT40_SCAN_ACTIVE_DWELL_TIME (CFG_CTL_VALID .| CFG_CTL_RE .| CFG_CTL_WE .| CFG_CTL_INT .| CFG_CTL_NTF_LIM)
    (STAMIN WNI_CFG_OBSS_HT40_SCAN_ACTIVE_DWELL_TIME) (STAMAX WNI_CFG_OBSS_HT40_SCAN_ACTIVE_DWELL_TIME) (STADEF WNI_CFG_OBSS_HT40_SCAN_ACTIVE_DWELL_TIME);
  mk_static WNI_CFG_OBSS_HT40_SCAN_WIDTH_TRIGGER_INTERVAL (CFG_CTL_VALID .| CFG_CTL_RE .| CFG_CTL_WE .| CFG_CTL_INT .| CFG_CTL_NTF_LIM)
    (STAMIN WNI_CFG_OBSS_HT40_SCAN_WIDTH_TRIGGER_INTERVAL) (STAMAX WNI_CFG_OBSS_HT40_SCAN_WIDTH_TRIGGER_INTERVAL) (STADEF WNI_CFG_OBSS_HT40_SCAN_WIDTH_TRIGGER_INTERVAL);
  mk_static WNI_CFG_OBSS_HT40_SCAN_PASSIVE_TOTAL_PER_CHANNEL (CFG_CTL_VALID .| CFG_CTL_RE .| CFG_CTL_WE .| CFG_CTL_INT .| CFG_CTL_NTF_LIM)
    (STAMIN WNI_CFG_OBSS_HT40_SCAN_PASSIVE_TOTAL_PER_CHANNEL) (STAMAX WNI_CFG_OBSS_HT40_SCAN_PASSIVE_TOTAL_PER_CHANNEL) (STADEF WNI_CFG_OBSS_HT40_SCAN_PASSIVE_TOTAL_PER_CHANNEL);
  mk_static WNI_CFG_OBSS_HT40_SCAN_ACTIVE_TOTAL_PER_CHANNEL (CFG_CTL_VALID .| CFG_CTL_RE .| CFG_CTL_WE .| CFG_CTL_INT .| CFG_CTL_NTF_LIM)
    (STAMIN WNI_CFG_OBSS_HT40_SCAN_ACTIVE_TOTAL_PER_CHANNEL) (STAMAX WNI_CFG_OBSS_HT40_SCAN_ACTIVE_TOTAL_PER_CHANNEL) (STADEF WNI_CFG_OBSS_HT40_SCAN_ACTIVE_TOTAL_PER_CHANNEL);
  mk_static WNI_CFG_OBSS_HT40_WIDTH_CH_TRANSITION_DELAY (CFG_CTL_VALID .| CFG_CTL_RE .| CFG_CTL_WE .| CFG_CTL_INT .| CFG_CTL_NTF_LIM)
    (STAMIN WNI_CFG_OBSS_HT40_WIDTH_CH_TRANSITION_DELAY) (STAMAX WNI_CFG_OBSS_HT40_WIDTH_CH_TRANSITION_DELAY) (STADEF WNI_CFG_OBSS_HT40_WIDTH_CH_TRANSITION_DELAY);
  mk_static WNI_CFG_OBSS_HT40_SCAN_ACTIVITY_THRESHOLD (CFG_CTL_VALID .| CFG_CTL_RE .| CFG_CTL_WE .| CFG_CTL_INT .| CFG_CTL_NTF_LIM)
    (STAMIN WNI_CFG_OBSS_HT40_SCAN_ACTIVITY_THRESHOLD) (STAMAX WNI_CFG_OBSS_HT40_SCAN_ACTIVITY_THRESHOLD) (STADEF WNI_CFG_OBSS_HT40_SCAN_ACTIVITY_THRESHOLD);
  mk_static WNI_CFG_TGT_GTX_USR_CFG (CFG_CTL_VALID .| CFG_CTL_RE .| CFG_CTL_WE .| CFG_CTL_INT)
    (STAMIN WNI_CFG_TGT_GTX_USR_CFG) (STAMAX WNI_CFG_TGT_GTX_USR_CFG) (STADEF WNI_CFG_TGT_GTX_USR_CFG);
  mk_static WNI_CFG_MAX_HT_MCS_TX_DATA (CFG_CTL_VALID .| CFG_CTL_RE .| CFG_CTL_WE .| CFG_CTL_INT)
    (STAMIN WNI_CFG_MAX_HT_MCS_TX_DATA) (STAMAX WNI_CFG_MAX_HT_MCS_TX_DATA) (STADEF WNI_CFG_MAX_HT_MCS_TX_DATA);
  mk_static WNI_CFG_DISABLE_ABG_RATE_FOR_TX_DATA (CFG_CTL_VALID .| CFG_CTL_RE .| CFG_CTL_WE .| CFG_CTL_INT)
    (STAMIN WNI_CFG_DISABLE_ABG_RATE_FOR_TX_DATA) (STAMAX WNI_CFG_DISABLE_ABG_RATE_FOR_TX_DATA) (STADEF WNI_CFG_DISABLE_ABG_RATE_FOR_TX_DATA);
  mk_static WNI_CFG_RATE_FOR_TX_MGMT (CFG_CTL_VALID .| CFG_CTL_RE .| CFG_CTL_WE .| CFG_CTL_INT)
    (STAMIN WNI_CFG_RATE_FOR_TX_MGMT) (STAMAX WNI_CFG_RATE_FOR_TX_MGMT) (STADEF WNI_CFG_RATE_FOR_TX_MGMT);
  mk_static WNI_CFG_PS_WOW_DATA_INACTIVITY_TIMEOUT (CFG_CTL_VALID .| CFG_CTL_RE .| CFG_CTL_WE .| CFG_CTL_INT .| CFG_CTL_NTF_HAL)
    (STAMIN WNI_CFG_PS_WOW_DATA_INACTIVITY_TIMEOUT) (STAMAX WNI_CFG_PS_WOW_DATA_INACTIVITY_TIMEOUT) (STADEF WNI_CFG_PS_WOW_DATA_INACTIVITY_TIMEOUT)
].

Definition cfg_static : list cgstatic :=
  cfg_static_1 ++ cfg_static_2 ++ cfg_static_3 ++ cfg_static_4 ++ cfg_static_5 ++ cfg_static_6 ++ cfg_static_7 ++ cfg_static_8.

(** [cfg_static_string], lines 1206 to 1353. *)
Definition cfg_static_string_1 : list cfgstatic_string := [
  str_row WNI_CFG_STA_ID (LEN WNI_CFG_STA_ID) 6
    [0x22; 0x22; 0x44; 0x44; 0x33; 0x33];
  str_row WNI_CFG_SSID (LEN WNI_CFG_SSID) 10
    [1; 2; 3; 4; 5; 6; 7; 8; 9; 0];
  str_row WNI_CFG_WEP_DEFAULT_KEY_1 (LEN WNI_CFG_WEP_DEFAULT_KEY_1) 0
    [0];
  str_row WNI_CFG_WEP_DEFAULT_KEY_2 (LEN WNI_CFG_WEP_DEFAULT_KEY_2) 0
    [0];
  str_row WNI_CFG_WEP_DEFAULT_KEY_3 (LEN WNI_CFG_WEP_DEFAULT_KEY_3) 0
    [0];
  str_row WNI_CFG_WEP_DEFAULT_KEY_4 (LEN WNI_CFG_WEP_DEFAULT_KEY_4) 0
    [0];
  str_row WNI_CFG_SUPPORTED_RATES_11B (LEN WNI_CFG_SUPPORTED_RATES_11B) 4
    [2; 4; 11; 22];
  str_row WNI_CFG_SUPPORTED_RATES_11A (LEN WNI_CFG_SUPPORTED_RATES_11A) 8
    [12; 18; 24; 36; 48; 72; 96; 108];
  str_row WNI_CFG_OPERATIONAL_RATE_SET (LEN WNI_CFG_OPERATIONAL_RATE_SET) 0
    [0];
  str_row WNI_CFG_EXTENDED_OPERATIONAL_RATE_SET (LEN WNI_CFG_EXTENDED_OPERATIONAL_RATE_SET) 0
    [0];
  str_row WNI_CFG_PROPRIETARY_OPERATIONAL_RATE_SET (LEN WNI_CFG_PROPRIETARY_OPERATIONAL_RATE_SET) 4
    [1; 3; 5; 7];
  str_row WNI_CFG_VALID_CHANNEL_LIST (LEN WNI_CFG_VALID_CHANNEL_LIST) 55
    [36; 40; 44; 48; 52; 56; 60; 64; 1; 6; 11; 34;
     38; 42; 46; 2; 3; 4; 5; 7; 8; 9; 10; 12;
     13; 14; 100; 104; 108; 112; 116; 120; 124; 128; 132; 136;
     140; 149; 151; 153; 155; 157; 159; 161; 50; 54; 58; 62;
     240; 242; 244; 246; 248; 250; 252];
  str_row WNI_CFG_MANUFACTURER_NAME (LEN WNI_CFG_MANUFACTURER_NAME) 8
    [0x51; 0x75; 0x61; 0x6c; 0x63; 0x6f; 0x6d; 0x6d];
  str_row WNI_CFG_MODEL_NUMBER (LEN WNI_CFG_MODEL_NUMBER) 6
    [0x4d; 0x4e; 0x31; 0x32; 0x33; 0x34];
  str_row WNI_CFG_MODEL_NAME (LEN WNI_CFG_MODEL_NAME) 7
    [0x57; 0x46; 0x52; 0x34; 0x30; 0x33; 0x31];
  str_row WNI_CFG_MANUFACTURER_PRODUCT_NAME (LEN WNI_CFG_MANUFACTURER_PRODUCT_NAME) 6
    [0x31; 0x31; 0x6e; 0x2d; 0x41; 0x50];
  str_row WNI_CFG_MANUFACTURER_PRODUCT_VERSION (LEN WNI_CFG_MANUFACTURER_PRODUCT_VERSION) 6
    [0x53; 0x4e; 0x31; 0x32; 0x33; 0x34];
  str_row WNI_CFG_MAX_TX_POWER_2_4 (LEN WNI_CFG_MAX_TX_POWER_2_4) 3
    [0x1; 0xe; 0x14];
  str_row WNI_CFG_MAX_TX_POWER_5 (LEN WNI_CFG_MAX_TX_POWER_5) 3
    [0x24; 0x7e; 0x14];
  str_row WNI_CFG_COUNTRY_CODE (LEN WNI_CFG_COUNTRY_CODE) 0
    [0];
  str_row WNI_CFG_EDCA_ANI_ACBK_LOCAL (LEN WNI_CFG_EDCA_ANI_ACBK_LOCAL) 17
    [0x0; 0x7; 0x0; 0xf; 0x3; 0xff; 0x0; 0x0; 0x1f; 0x3; 0xff; 0x0;
     0x0; 0xf; 0x3; 0xff; 0x0];
  str_row WNI_CFG_EDCA_ANI_ACBE_LOCAL (LEN WNI_CFG_EDCA_ANI_ACBE_LOCAL) 17
    [0x0; 0x2; 0x0; 0xf; 0x3; 0xff; 0x64; 0x0; 0x1f; 0x3; 0xff; 0x64;
     0x0; 0xf; 0x3; 0xff; 0x64];
  str_row WNI_CFG_EDCA_ANI_ACVI_LOCAL (LEN WNI_CFG_EDCA_ANI_ACVI_LOCAL) 17
    [0x0; 0x2; 0x0; 0x7; 0x0; 0xf; 0xc8; 0x0; 0xf; 0x0; 0x1f; 0xbc;
     0x0; 0x7; 0x0; 0xf; 0xc8];
  str_row WNI_CFG_EDCA_ANI_ACVO_LOCAL (LEN WNI_CFG_EDCA_ANI_ACVO_LOCAL) 17
    [0x0; 0x2; 0x0; 0x3; 0x0; 0x7; 0x64; 0x0; 0x7; 0x0; 0xf; 0x66;
     0x0; 0x3; 0x0; 0x7; 0x64];
  str_row WNI_CFG_EDCA_ANI_ACBK (LEN WNI_CFG_EDCA_ANI_ACBK) 17
    [0x0; 0x7; 0x0; 0xf; 0x3; 0xff; 0x0; 0x0; 0x1f; 0x3; 0xff; 0x0;
     0x0; 0xf; 0x3; 0xff; 0x0];
  str_row WNI_CFG_EDCA_ANI_ACBE (LEN WNI_CFG_EDCA_ANI_ACBE) 17
    [0x0; 0x2; 0x0; 0xf; 0x3; 0xff; 0x64; 0x0; 0x1f; 0x3; 0xff; 0x64;
     0x0; 0xf; 0x3; 0xff; 0x64];
  str_row WNI_CFG_EDCA_ANI_ACVI (LEN WNI_CFG_EDCA_ANI_ACVI) 17
    [0x0; 0x2; 0x0; 0x7; 0x0; 0xf; 0xc8; 0x0; 0xf; 0x0; 0x1f; 0xbc;
     0x0; 0x7; 0x0; 0xf; 0xc8];
  str_row WNI_CFG_EDCA_ANI_ACVO (LEN WNI_CFG_EDCA_ANI_ACVO) 17
    [0x0; 0x2; 0x0; 0x3; 0x0; 0x7; 0x64; 0x0; 0x7; 0x0; 0xf; 0x66;
     0x0; 0x3; 0x0; 0x7; 0x64];
  str_row WNI_CFG_EDCA_WME_ACBK_LOCAL (LEN WNI_CFG_EDCA_WME_ACBK_LOCAL) 17
    [0x0; 0x7; 0x0; 0xf; 0x3; 0xff; 0x0; 0x0; 0x1f; 0x3; 0xff; 0x0;
     0x0; 0xf; 0x3; 0xff; 0x0];
  str_row WNI_CFG_EDCA_WME_ACBE_LOCAL (LEN WNI_CFG_EDCA_WME_ACBE_LOCAL) 17
    [0x0; 0x3; 0x0; 0xf; 0x0; 0x3f; 0x0; 0x0; 0x1f; 0x3; 0xff; 0x0;
     0x0; 0xf; 0x0; 0x3f; 0x0];
  str_row WNI_CFG_EDCA_WME_ACVI_LOCAL (LEN WNI_CFG_EDCA_WME_ACVI_LOCAL) 17
    [0x0; 0x1; 0x0; 0x7; 0x0; 0xf; 0x5e; 0x0; 0x7; 0x0; 0xf; 0xbc;
     0x0; 0x7; 0x0; 0xf; 0x5e];
  str_row WNI_CFG_EDCA_WME_ACVO_LOCAL (LEN WNI_CFG_EDCA_WME_ACVO_LOCAL) 17
    [0x0; 0x1; 0x0; 0x3; 0x0; 0x7; 0x2f; 0x0; 0x3; 0x0; 0x7; 0x66;
     0x0; 0x3; 0x0; 0x7; 0x2f];
  str_row WNI_CFG_EDCA_WME_ACBK (LEN WNI_CFG_EDCA_WME_ACBK) 17
    [0x0; 0x7; 0x0; 0xf; 0x3; 0xff; 0x0; 0x0; 0xf; 0x3; 0xff; 0x0;
     0x0; 0xf; 0x3; 0xff; 0x0]
].

(** [cfg_static_string], lines 1354 to 1399. *)
Definition cfg_static_string_2 : list cfgstatic_string := [
  str_row WNI_CFG_EDCA_WME_ACBE (LEN WNI_CFG_EDCA_WME_ACBE) 17
    [0x0; 0x3; 0x0; 0xf; 0x3; 0xff; 0x0; 0x0; 0xf; 0x3; 0xff; 0x0;
     0x0; 0xf; 0x3; 0xff; 0x0];
  str_row WNI_CFG_EDCA_WME_ACVI (LEN WNI_CFG_EDCA_WME_ACVI) 17
    [0x0; 0x2; 0x0; 0x7; 0x0; 0xf; 0x5e; 0x0; 0x7; 0x0; 0xf; 0xbc;
     0x0; 0x7; 0x0; 0xf; 0x5e];
  str_row WNI_CFG_EDCA_WME_ACVO (LEN WNI_CFG_EDCA_WME_ACVO) 17
    [0x0; 0x2; 0x0; 0x3; 0x0; 0x7; 0x2f; 0x0; 0x3; 0x0; 0x7; 0x66;
     0x0; 0x3; 0x0; 0x7; 0x2f];
  str_row WNI_CFG_SCAN_CONTROL_LIST (LEN WNI_CFG_SCAN_CONTROL_LIST) 114
    [0x1; 0x1; 0x2; 0x1; 0x3; 0x1; 0x4; 0x1; 0x5; 0x1; 0x6; 0x1;
     0x7; 0x1; 0x8; 0x1; 0x9; 0x1; 0xa; 0x1; 0xb; 0x1; 0xc; 0x1;
     0xd; 0x1; 0xe; 0x1; 0x22; 0x1; 0x24; 0x1; 0x26; 0x1; 0x28; 0x1;
     0x2a; 0x1; 0x2c; 0x1; 0x2e; 0x1; 0x30; 0x1; 0x32; 0x1; 0x34; 0x0;
     0x36; 0x0; 0x38; 0x0; 0x3a; 0x0; 0x3c; 0x0; 0x3e; 0x0; 0x40; 0x0;
     0x64; 0x0; 0x68; 0x0; 0x6c; 0x0; 0x70; 0x0; 0x74; 0x0; 0x78; 0x0;
     0x7c; 0x0; 0x80; 0x0; 0x84; 0x0; 0x88; 0x0; 0x8c; 0x0; 0x90; 0x0;
     0x95; 0x1; 0x97; 0x1; 0x99; 0x1; 0x9b; 0x1; 0x9d; 0x1; 0x9f; 0x1;
     0xa1; 0x1; 0xa5; 0x1; 0xf0; 0x1; 0xf2; 0x1; 0xf4; 0x1; 0xf6; 0x1;
     0xf8; 0x1; 0xfa; 0x1; 0xfc; 0x1];
  str_row WNI_CFG_SUPPORTED_MCS_SET (LEN WNI_CFG_SUPPORTED_MCS_SET) 16
    [0xff; 0x0; 0x0; 0x0; 0x0; 0x0; 0x0; 0x0; 0x0; 0x0; 0x0; 0x0;
     0x0; 0x0; 0x0; 0x0];
  str_row WNI_CFG_BASIC_MCS_SET (LEN WNI_CFG_BASIC_MCS_SET) 16
    [0x0; 0x0; 0x0; 0x0; 0x0; 0x0; 0x0; 0x0; 0x0; 0x0; 0x0; 0x0;
     0x0; 0x0; 0x0; 0x0];
  str_row WNI_CFG_CURRENT_MCS_SET (LEN WNI_CFG_CURRENT_MCS_SET) 16
    [0x0; 0x0; 0x0; 0x0; 0x0; 0x0; 0x0; 0x0; 0x0; 0x0; 0x0; 0x0;
     0x0; 0x0; 0x0; 0x0];
  str_row WNI_CFG_WPS_UUID (LEN WNI_CFG_WPS_UUID) 6
    [0xa; 0xb; 0xc; 0xd; 0xe; 0xf]
].

(** The array has [CFG_MAX_STATIC_STRING] slots; those without an initialiser
    are zero. *)
Definition cfg_static_string : list cfgstatic_string :=
  cfg_static_string_1 ++ cfg_static_string_2 ++
  replicate 29 (mk_string 0 0 0 (replicate 255 0)).

(** The rows are in the order of the enumeration. *)
Lemma cfg_static_ids : cfgId <$> cfg_static = seqZ 0 CFG_PARAM_MAX_NUM.
Proof. vm_compute. reflexivity. Qed.
Lemma cfg_static_string_length : length cfg_static_string = Z.to_nat CFG_MAX_STATIC_STRING.
Proof. vm_compute. reflexivity. Qed.
