(* ===== verification/CfgIface.v ===== *)
(** What the configuration store promises to the components that read it.

    The DPH table, admission control and the security code read integer
    parameters through [wlan_cfg_get_int]; their theorems are proved against
    this interface.  [CfgProc] provides the implementation. *)
From S2P Require Import Prelude LimTypes CfgTable.

(** The row of an enumerator, and whether it is an integer parameter. *)
Definition row (p : wni_cfg) : cgstatic := zget cfg_static p.
Definition int_param (p : wni_cfg) : bool := negb (Z.land (control (row p)) CFG_CTL_INT =? 0).

Class CfgReader (C : Type) := {
  (** [wlan_cfg_get_int]. *)
  cfg_read : C → wni_cfg → res tSirRetStatus Z;
  (** The state in which the store has been filled. *)
  cfg_ok : C → Prop;
  (** An integer parameter can be read, and is within the limits of the table. *)
  cfg_read_ok c p : cfg_ok c → int_param p = true →
    ∃ v, cfg_read c p = Ok v ∧ cfgIMin (row p) <= v <= cfgIMax (row p);
}.
