(* ===== verification/CfgApi.v ===== *)
(** The configuration store: core/mac/src/cfg/cfg_api.c.

    Every parameter has a 32-bit control word whose low bits index either the
    integer buffers (value, minimum, maximum) or a slot of the string buffer
    laid out as [maxLen, curLen, bytes].  The store is filled from the tables
    of [CfgTable] (see [CfgProc]) and then read and written through the
    functions below. *)
From S2P Require Import Prelude LimTypes CfgTable.

(** [tCfgStatusTypes]. *)
Inductive tCfgStatusTypes := CFG_INCOMPLETE | CFG_SUCCESS | CFG_FAILURE.
#[export] Instance tCfgStatusTypes_eq_dec : EqDecision tCfgStatusTypes.
Proof. solve_decision. Defined.

(** [tAniSirCfg].  The static storage behind [gCfgEntry] outlives the pointer:
    [g_cfg_entry] is the array [__g_cfg_entry] and [gCfgEntry] tells whether
    the pointer is set.  The string and integer buffers, carved by [cfg_init]
    out of one allocation, are separate arrays here; [gSBuffer] and
    [gParamList] are the static scratch buffers. *)
Record tAniSirCfg := mk_cfg {
  gCfgStatus : tCfgStatusTypes;
  gCfgEntry : bool;
  g_cfg_entry : list Z;
  gCfgSBuf : list Z;
  gCfgIBuf : list Z;
  gCfgIBufMin : list Z;
  gCfgIBufMax : list Z;
  gCfgMaxIBufSize : Z;
  gCfgMaxSBufSize : Z;
  gSBuffer : list Z;
  gParamList : list Z;
}.
#[export] Instance tAniSirCfg_eta : Eta tAniSirCfg := fun c =>
  mk_cfg (gCfgStatus c) (gCfgEntry c) (g_cfg_entry c) (gCfgSBuf c) (gCfgIBuf c)
         (gCfgIBufMin c) (gCfgIBufMax c) (gCfgMaxIBufSize c) (gCfgMaxSBufSize c)
         (gSBuffer c) (gParamList c).

(** The messages the module sends: to a MAC module on a parameter update, to
    the host in answer to a request, to WMA when the download is over. *)
Inductive cfg_msg :=
  | sch_post_message (cfgId : Z)
  | lim_post_msg_api (cfgId : Z)
  | wma_post_ctrl_msg (cfgId : Z)
  | host_msg (msgType msgLen : Z) (params : list Z) (bytes : list Z)
  | download_complete_ind.

(** The part of [tAniSirGlobal] the module uses.  [pStrData] is the pointer
    column of [cfg_static]; [allocs] gives the outcome of the successive
    allocations of message buffers (all succeed once it is exhausted). *)
Record tAniSirGlobal := mk_mac {
  cfg : tAniSirCfg;
  pStrData : list (option Z);
  gLogEvtLevel : list Z;
  gLogDbgLevel : list Z;
  rrm_enabled : Z;
  allocs : list bool;
  outbox : list cfg_msg;
}.
#[export] Instance tAniSirGlobal_eta : Eta tAniSirGlobal := fun m =>
  mk_mac (cfg m) (pStrData m) (gLogEvtLevel m) (gLogDbgLevel m) (rrm_enabled m)
         (allocs m) (outbox m).

Definition has_flag (control flag : Z) : bool := negb (Z.land control flag =? 0).

Definition cfg_need_restart (m : tAniSirGlobal) (cfgId : Z) : Z :=
  if negb (gCfgEntry (cfg m)) then 0
  else b2z (has_flag (zget (g_cfg_entry (cfg m)) cfgId) CFG_CTL_RESTART).

Definition cfg_need_reload (m : tAniSirGlobal) (cfgId : Z) : Z :=
  if negb (gCfgEntry (cfg m)) then 0
  else b2z (has_flag (zget (g_cfg_entry (cfg m)) cfgId) CFG_CTL_RELOAD).

(** [cfg_get_strindex]: the first string row with this id. *)
Definition cfg_get_strindex (m : tAniSirGlobal) (id : Z) : tAniSirGlobal :=
  let i := (fst <$> list_find (λ r, str_cfgId r = id) cfg_static_string) : option nat in
  m <| pStrData ::= λ p, zset p id (Z.of_nat <$> i) |>.

(** The string row a [pStrData] pointer designates. *)
Definition pStrCfg (m : tAniSirGlobal) (id : Z) : option cfgstatic_string :=
  i ← zget (pStrData m) id; Some (zget cfg_static_string i).

Definition PAGE_SIZE : Z := 4096.

(** The first two loops of [cfg_init]. *)
Definition cfg_init_strindex (m : tAniSirGlobal) : tAniSirGlobal :=
  foldl (λ m i, if negb (has_flag (control (zget cfg_static i)) CFG_CTL_INT)
                then cfg_get_strindex m i
                else m <| pStrData ::= λ p, zset p i None |>)
        m (seqZ 0 CFG_PARAM_MAX_NUM).

Definition cfg_init_counts (m : tAniSirGlobal) : Z * Z :=
  foldl (λ '(max_i, max_s) i,
           if has_flag (control (zget cfg_static i)) CFG_CTL_INT then (u32 (max_i + 1), max_s)
           else match pStrCfg m i with
                | None => (max_i, max_s)
                | Some r => (max_i, u32 (max_s + maxLen r + 2))
                end)
        (0, 0) (seqZ 0 CFG_PARAM_MAX_NUM).

(** [cfg_init]; [mem] is what the allocation returns: [None], or the initial
    bytes of the block. *)
Definition cfg_init (mem : option (Z → Z)) (m : tAniSirGlobal) : tAniSirGlobal * tSirRetStatus :=
  let m := m <| cfg ::= λ c, c <| gCfgEntry := true |> |> in
  let m := cfg_init_strindex m in
  let '(max_i, max_s) := cfg_init_counts m in
  let m := m <| cfg ::= λ c, c <| gCfgMaxIBufSize := u16 max_i |>
                               <| gCfgMaxSBufSize := u16 max_s |> |> in
  let combined_buff_size := u16 (max_s + 3 * 4 * max_i) in
  if 4 * PAGE_SIZE <? combined_buff_size then (m, eSIR_MEM_ALLOC_FAILED)
  else match mem with
  | None => (m <| cfg ::= λ c, c <| gCfgSBuf := [] |> |>, eSIR_MEM_ALLOC_FAILED)
  | Some b =>
      let word off := of_le4 (b off) (b (off + 1)) (b (off + 2)) (b (off + 3)) in
      let words off := (λ k, word (off + 4 * k)) <$> seqZ 0 max_i in
      (m <| cfg ::= λ c, c <| gCfgSBuf := b <$> seqZ 0 max_s |>
                           <| gCfgIBuf := words max_s |>
                           <| gCfgIBufMin := words (max_s + 4 * max_i) |>
                           <| gCfgIBufMax := words (max_s + 8 * max_i) |> |>,
       eSIR_SUCCESS)
  end.

Definition cfg_de_init (m : tAniSirGlobal) : tAniSirGlobal :=
  m <| cfg ::= λ c, c <| gCfgIBufMin := [] |> <| gCfgIBufMax := [] |> <| gCfgIBuf := [] |>
                      <| gCfgSBuf := [] |> <| gCfgEntry := false |> |>.

(** [cfg_check_valid]: the buffer index of a valid parameter. *)
Definition cfg_check_valid (m : tAniSirGlobal) (cfgId : Z) : res tSirRetStatus Z :=
  if CFG_PARAM_MAX_NUM <=? cfgId then Err eSIR_CFG_INVALID_ID
  else if negb (gCfgEntry (cfg m)) then Err eSIR_CFG_INVALID_ID
  else
    let control := zget (g_cfg_entry (cfg m)) cfgId in
    if Z.land control CFG_CTL_VALID =? 0 then Err eSIR_CFG_INVALID_ID
    else
      let index := Z.land control CFG_BUF_INDX_MASK in
      if gCfgMaxSBufSize (cfg m) <=? index then Err eSIR_CFG_INVALID_ID
      else Ok index.

(** [notify]: one message per module the mask selects. *)
Definition notify (m : tAniSirGlobal) (cfgId ntfMask : Z) : tAniSirGlobal :=
  let post f msg m := if has_flag ntfMask f then m <| outbox ::= λ o, o ++ [msg] |> else m in
  let m := post CFG_CTL_NTF_SCH (sch_post_message cfgId) m in
  let m := post CFG_CTL_NTF_LIM (lim_post_msg_api cfgId) m in
  post CFG_CTL_NTF_HAL (wma_post_ctrl_msg cfgId) m.

Definition cfg_set_int (m : tAniSirGlobal) (cfgId value : Z) : tAniSirGlobal * tSirRetStatus :=
  match cfg_check_valid m cfgId with
  | Err e => (m, e)
  | Ok index =>
      if (value <? zget (gCfgIBufMin (cfg m)) index) || (zget (gCfgIBufMax (cfg m)) index <? value)
      then (m, eSIR_CFG_INVALID_ID)
      else
        let m := m <| cfg ::= λ c, c <| gCfgIBuf ::= λ b, zset b index value |> |> in
        let mask := Z.land (zget (g_cfg_entry (cfg m)) cfgId) CFG_CTL_NTF_MASK in
        (if has_flag mask CFG_CTL_NTF_MASK then notify m cfgId mask else m, eSIR_SUCCESS)
  end.

Definition wlan_cfg_get_int (m : tAniSirGlobal) (cfgId : Z) : res tSirRetStatus Z :=
  index ← cfg_check_valid m cfgId; Ok (zget (gCfgIBuf (cfg m)) index).

(** [cfg_set_str_notify]: [pStr] is the memory at the source pointer. *)
Definition cfg_set_str_notify (m : tAniSirGlobal) (cfgId : Z) (pStr : list Z) (length : Z)
    (notifyMod : bool) : tAniSirGlobal * tSirRetStatus :=
  match cfg_check_valid m cfgId with
  | Err e => (m, e)
  | Ok index =>
      let paramLen := zget (gCfgSBuf (cfg m)) index in
      let control := zget (g_cfg_entry (cfg m)) cfgId in
      if paramLen <? length then (m, eSIR_CFG_INVALID_LEN)
      else
        let m := m <| cfg ::= λ c, c <| gCfgSBuf ::= λ b,
                   zwrite b (index + 1) (u8 length :: zread pStr 0 length) |> |> in
        let mask := Z.land control CFG_CTL_NTF_MASK in
        (if notifyMod && has_flag mask CFG_CTL_NTF_MASK then notify m cfgId mask else m,
         eSIR_SUCCESS)
  end.

Definition cfg_set_str (m : tAniSirGlobal) (cfgId : Z) (pStr : list Z) (length : Z) :
    tAniSirGlobal * tSirRetStatus :=
  cfg_set_str_notify m cfgId pStr length true.

(** [wlan_cfg_get_str]: [pLength] is the size of the caller's buffer; the result
    is the bytes copied, their number being the length returned. *)
Definition wlan_cfg_get_str (m : tAniSirGlobal) (cfgId pLength : Z) : res tSirRetStatus (list Z) :=
  index ← cfg_check_valid m cfgId;
  let cur := zget (gCfgSBuf (cfg m)) (index + 1) in
  if pLength <? cur then Err eSIR_CFG_INVALID_LEN
  else Ok (zread (gCfgSBuf (cfg m)) (index + 2) cur).

Definition wlan_cfg_get_str_max_len (m : tAniSirGlobal) (cfgId : Z) : res tSirRetStatus Z :=
  index ← cfg_check_valid m cfgId; Ok (zget (gCfgSBuf (cfg m)) index).

Definition wlan_cfg_get_str_len (m : tAniSirGlobal) (cfgId : Z) : res tSirRetStatus Z :=
  index ← cfg_check_valid m cfgId; Ok (zget (gCfgSBuf (cfg m)) (index + 1)).

Definition cfg_cleanup (m : tAniSirGlobal) : tAniSirGlobal :=
  m <| cfg ::= λ c, c <| gCfgStatus := CFG_INCOMPLETE |> |>.

(** ** Regulatory power *)

Definition SIR_11A_CHANNEL_BEGIN : Z := 34.
Definition SIR_11A_CHANNEL_END : Z := 165.
Definition WMA_MAX_TXPOWER_INVALID : Z := 127.
Definition sizeof_tSirMacChanInfo : Z := 3.

(** The scan of the country triples: [count] is an 8-bit cursor, the bound
    [cfgLength - 3] is unsigned.  [None] when the fuel runs out. *)
Fixpoint scan_triples (fuel : nat) (info : list Z) (cfgLength channel count maxTxPwr : Z) : option Z :=
  match fuel with
  | O => None
  | S n =>
      if count <=? u32 (cfgLength - sizeof_tSirMacChanInfo) then
        let firstChannel := zget info count in
        let maxChannels := zget info (u8 (count + 1)) in
        let maxTxPwr := s8 (zget info (u8 (count + 2))) in
        let count := u8 (count + 3) in
        if (firstChannel <=? channel) && (channel <? firstChannel + maxChannels) then Some maxTxPwr
        else scan_triples n info cfgLength channel count maxTxPwr
      else Some maxTxPwr
  end.

(** [cfg_get_dot11d_transmit_power]; [alloc] is the outcome of the allocation of
    the copy.  256 rounds exhaust the 8-bit cursor. *)
Definition cfg_get_dot11d_transmit_power (m : tAniSirGlobal) (cfgId cfgLength channel : Z)
    (alloc : bool) : option Z :=
  if cfgLength <? sizeof_tSirMacChanInfo then Some WMA_MAX_TXPOWER_INVALID
  else if negb alloc then Some WMA_MAX_TXPOWER_INVALID
  else match wlan_cfg_get_str m cfgId cfgLength with
  | Err _ => Some WMA_MAX_TXPOWER_INVALID
  | Ok info => scan_triples 256 info (Z.of_nat (length info)) channel 0 WMA_MAX_TXPOWER_INVALID
  end.

Definition cfg_get_regulatory_max_transmit_power (m : tAniSirGlobal) (channel : Z)
    (alloc : bool) : option Z :=
  if (SIR_11A_CHANNEL_BEGIN <=? channel) && (channel <=? SIR_11A_CHANNEL_END)
  then cfg_get_dot11d_transmit_power m WNI_CFG_MAX_TX_POWER_5 (LEN WNI_CFG_MAX_TX_POWER_5) channel alloc
  else cfg_get_dot11d_transmit_power m WNI_CFG_MAX_TX_POWER_2_4 (LEN WNI_CFG_MAX_TX_POWER_2_4) channel alloc.

(** ** Capability information *)

(** The fields of [tPESession] that enter the capability field. *)
Record capSession := mk_cap_session {
  capRole : tLimSystemRole;
  privacy : Z;
  dot11mode : Z;
  shortSlotTimeSupported : Z;
  lim11hEnable : bool;
}.

(** Bit positions of [tSirMacCapabilityInfo]. *)
Definition CAP_ess : Z := 0.
Definition CAP_ibss : Z := 1.
Definition CAP_privacy : Z := 4.
Definition CAP_shortPreamble : Z := 5.
Definition CAP_pbcc : Z := 6.
Definition CAP_channelAgility : Z := 7.
Definition CAP_spectrumMgt : Z := 8.
Definition CAP_qos : Z := 9.
Definition CAP_shortSlotTime : Z := 10.
Definition CAP_apsd : Z := 11.
Definition CAP_rrm : Z := 12.
Definition CAP_delayedBA : Z := 14.
Definition CAP_immediateBA : Z := 15.

(** Assignment to a 1-bit field. *)
Definition set_bit (cap bit v : Z) : Z :=
  Z.lor (Z.ldiff cap (Z.shiftl 1 bit)) (Z.shiftl (v mod 2) bit).

Definition WNI_CFG_DOT11_MODE_11B : Z := 2.

(** [cfg_get_capability_info]: the capability field written so far and the
    status. *)
Definition cfg_get_capability_info (m : tAniSirGlobal) (s : capSession) : Z * tSirRetStatus :=
  let r := capRole s in
  let read id cap (k : Z → Z * tSirRetStatus) :=
    match wlan_cfg_get_int m id with Ok v => k v | Err _ => (cap, eSIR_FAILURE) end in
  let cap := 0 in
  let cap :=
    if LIM_IS_IBSS_ROLE r then set_bit cap CAP_ibss 1
    else if LIM_IS_AP_ROLE r || LIM_IS_STA_ROLE r then set_bit cap CAP_ess 1
    else if LIM_IS_P2P_DEVICE_ROLE r || LIM_IS_NDI_ROLE r
    then set_bit (set_bit cap CAP_ess 0) CAP_ibss 0
    else cap in
  let privacy_val (k : Z → Z * tSirRetStatus) :=
    if LIM_IS_AP_ROLE r then k (privacy s) else read WNI_CFG_PRIVACY_ENABLED cap k in
  privacy_val (λ val,
  let cap := if negb (val =? 0) then set_bit cap CAP_privacy 1 else cap in
  read WNI_CFG_SHORT_PREAMBLE cap (λ val,
  let cap := if negb (val =? 0) then set_bit cap CAP_shortPreamble 1 else cap in
  let cap := set_bit cap CAP_pbcc 0 in
  let cap := set_bit cap CAP_channelAgility 0 in
  if dot11mode s =? WNI_CFG_DOT11_MODE_11B then (cap, eSIR_SUCCESS)
  else
  let slot (k : Z → Z * tSirRetStatus) :=
    if LIM_IS_AP_ROLE r then k (set_bit cap CAP_shortSlotTime (shortSlotTimeSupported s))
    else read WNI_CFG_11G_SHORT_SLOT_TIME_ENABLED cap (λ val,
           k (if negb (val =? 0) then set_bit cap CAP_shortSlotTime (shortSlotTimeSupported s)
              else cap)) in
  slot (λ cap,
  let spectrum (k : Z → Z * tSirRetStatus) :=
    if negb (LIM_IS_IBSS_ROLE r) && lim11hEnable s then
      read WNI_CFG_11H_ENABLED cap (λ val,
        k (if negb (val =? 0) then set_bit cap CAP_spectrumMgt 1 else cap))
    else k cap in
  spectrum (λ cap,
  read WNI_CFG_QOS_ENABLED cap (λ val,
  let cap := if negb (val =? 0) then set_bit cap CAP_qos 1 else cap in
  read WNI_CFG_APSD_ENABLED cap (λ val,
  let cap := if negb (val =? 0) then set_bit cap CAP_apsd 1 else cap in
  let cap := set_bit cap CAP_rrm (rrm_enabled m) in
  read WNI_CFG_BLOCK_ACK_ENABLED cap (λ val,
  let cap := set_bit cap CAP_delayedBA (Z.land (Z.shiftr val 0) 1) in
  let cap := set_bit cap CAP_immediateBA (Z.land (Z.shiftr val 1) 1) in
  (cap, eSIR_SUCCESS)))))))).

(** ** Vendor elements *)

Definition SIR_MAC_EID_VENDOR : Z := 221.

(** [cfg_get_vendor_ie_ptr_from_oui]: the offset in the buffer of the element
    found.  [ie] is the memory from the buffer's address on; [memcmp] may look
    past [ie_len].  [None] is the null pointer. *)
Fixpoint vendor_ie_loop (fuel : nat) (oui : list Z) (oui_size : Z) (ie : list Z) (ptr left : Z) :
    option Z :=
  match fuel with
  | O => None
  | S n =>
      if 2 <=? left then
        let elem_id := zget ie ptr in
        let elem_len := zget ie (ptr + 1) in
        let left := left - 2 in
        if left <? elem_len then None
        else if (SIR_MAC_EID_VENDOR =? elem_id) &&
                bool_decide (zread ie (ptr + 2) oui_size = zread oui 0 oui_size)
        then Some ptr
        else vendor_ie_loop n oui oui_size ie (ptr + elem_len + 2) (left - elem_len)
      else None
  end.

(** Each round consumes two bytes or more, so [ie_len] rounds are enough. *)
Definition cfg_get_vendor_ie_ptr_from_oui (oui : list Z) (oui_size : Z) (ie : list Z) (ie_len : Z) :
    option Z :=
  vendor_ie_loop (S (Z.to_nat ie_len)) oui oui_size ie 0 ie_len.

(** ** Well-formed stores *)

Definition ctl (c : tAniSirCfg) (id : Z) : Z := zget (g_cfg_entry c) id.
Definition idx (c : tAniSirCfg) (id : Z) : Z := Z.land (ctl c id) CFG_BUF_INDX_MASK.
Definition valid_id (c : tAniSirCfg) (id : Z) : bool :=
  (0 <=? id) && (id <? CFG_PARAM_MAX_NUM) && has_flag (ctl c id) CFG_CTL_VALID.
Definition is_int (c : tAniSirCfg) (id : Z) : bool :=
  valid_id c id && has_flag (ctl c id) CFG_CTL_INT.
Definition is_str (c : tAniSirCfg) (id : Z) : bool :=
  valid_id c id && negb (has_flag (ctl c id) CFG_CTL_INT).

(** The string slot of [id]: offsets of the slot and of its end. *)
Definition slot_end (c : tAniSirCfg) (id : Z) : Z := idx c id + 2 + zget (gCfgSBuf c) (idx c id).

(** The invariant: integer parameters own distinct cells holding a value in
    range; string parameters own disjoint slots inside the buffer whose current
    length is within the maximal one. *)
Record cfg_wf (c : tAniSirCfg) : Prop := {
  wf_ptr : gCfgEntry c = true;
  wf_min_len : length (gCfgIBufMin c) = length (gCfgIBuf c);
  wf_max_len : length (gCfgIBufMax c) = length (gCfgIBuf c);
  wf_int id : is_int c id = true →
    0 <= idx c id < Z.of_nat (length (gCfgIBuf c)) ∧ idx c id < gCfgMaxSBufSize c ∧
    zget (gCfgIBufMin c) (idx c id) <= zget (gCfgIBuf c) (idx c id) <= zget (gCfgIBufMax c) (idx c id);
  wf_int_inj id id' : is_int c id = true → is_int c id' = true → idx c id = idx c id' → id = id';
  wf_str id : is_str c id = true →
    0 <= idx c id < gCfgMaxSBufSize c ∧ slot_end c id <= Z.of_nat (length (gCfgSBuf c)) ∧
    0 <= zget (gCfgSBuf c) (idx c id + 1) <= zget (gCfgSBuf c) (idx c id) ∧
    zget (gCfgSBuf c) (idx c id) < 256;
  wf_str_disj id id' : is_str c id = true → is_str c id' = true → id ≠ id' →
    slot_end c id <= idx c id' ∨ slot_end c id' <= idx c id;
}.

(** The abstract store: what a client of the module may think it holds. *)
Inductive param :=
  | PInt (control value min max : Z)
  | PStr (control max : Z) (bytes : list Z).

Definition param_of (c : tAniSirCfg) (id : Z) : option param :=
  if is_int c id then
    Some (PInt (ctl c id) (zget (gCfgIBuf c) (idx c id)) (zget (gCfgIBufMin c) (idx c id))
               (zget (gCfgIBufMax c) (idx c id)))
  else if is_str c id then
    Some (PStr (ctl c id) (zget (gCfgSBuf c) (idx c id))
               (zread (gCfgSBuf c) (idx c id + 2) (zget (gCfgSBuf c) (idx c id + 1))))
  else None.

Definition represents (c : tAniSirCfg) (st : gmap Z param) : Prop :=
  cfg_wf c ∧ ∀ id, st !! id = param_of c id.

(** *** Basic facts *)

Lemma is_int_valid c id : is_int c id = true → valid_id c id = true.
Proof. unfold is_int. intros; by bool_hyps. Qed.
Lemma is_str_valid c id : is_str c id = true → valid_id c id = true.
Proof. unfold is_str. intros; by bool_hyps. Qed.
Lemma is_int_not_str c id : is_int c id = true → is_str c id = false.
Proof. unfold is_int, is_str. destruct (valid_id c id), (has_flag _ _); done. Qed.
Lemma is_str_not_int c id : is_str c id = true → is_int c id = false.
Proof. unfold is_int, is_str. destruct (valid_id c id), (has_flag _ _); done. Qed.
Lemma is_int_or_str c id : valid_id c id = true → is_int c id = true ∨ is_str c id = true.
Proof. unfold is_int, is_str. intros ->. destruct (has_flag _ _); auto. Qed.

Lemma check_valid_ok m id :
  cfg_wf (cfg m) → valid_id (cfg m) id = true → cfg_check_valid m id = Ok (idx (cfg m) id).
Proof.
  intros Hwf Hv. assert (idx (cfg m) id < gCfgMaxSBufSize (cfg m)) as Hi.
  { destruct (is_int_or_str _ _ Hv) as [H|H].
    - by apply (wf_int _ Hwf) in H as (_ & ? & _).
    - apply (wf_str _ Hwf) in H as (? & _). lia. }
  unfold cfg_check_valid, valid_id, has_flag, idx, ctl in *. bool_hyps.
  rewrite (wf_ptr _ Hwf). cbn [negb].
  replace (CFG_PARAM_MAX_NUM <=? id) with false by lia.
  replace (_ =? 0) with false by lia.
  by replace (gCfgMaxSBufSize (cfg m) <=? _) with false by lia.
Qed.

Lemma check_valid_err m id :
  0 <= id → valid_id (cfg m) id = false → cfg_check_valid m id = Err eSIR_CFG_INVALID_ID.
Proof.
  intros Hid Hv. unfold cfg_check_valid. unfold valid_id, has_flag, ctl in Hv.
  split_if; [done|]. split_if; [done|]. split_if; [done|]. lia.
Qed.

(** A successful check answers with the parameter's own index. *)
Lemma check_valid_inv m id i :
  cfg_check_valid m id = Ok i → 0 <= id → valid_id (cfg m) id = true ∧ i = idx (cfg m) id.
Proof.
  unfold cfg_check_valid, valid_id, has_flag, idx, ctl. intros H Hid.
  repeat split_if_in H; try done. injection H as <-. split; [lia|done].
Qed.

Lemma cfg_notify m id mask : cfg (notify m id mask) = cfg m.
Proof. unfold notify. repeat split_if; done. Qed.

Lemma cfg_set_int_cfg m id v i :
  cfg_check_valid m id = Ok i →
  zget (gCfgIBufMin (cfg m)) i <= v <= zget (gCfgIBufMax (cfg m)) i →
  (cfg_set_int m id v).2 = eSIR_SUCCESS ∧
  cfg (cfg_set_int m id v).1 = cfg m <| gCfgIBuf ::= λ b, zset b i v |>.
Proof.
  intros Hc Hv. unfold cfg_set_int. rewrite Hc.
  replace (_ || _) with false by lia. cbn [fst snd].
  split; [done|]. split_if; by rewrite ?cfg_notify.
Qed.

Lemma cfg_set_int_range m id v i :
  cfg_check_valid m id = Ok i →
  ¬ (zget (gCfgIBufMin (cfg m)) i <= v <= zget (gCfgIBufMax (cfg m)) i) →
  cfg_set_int m id v = (m, eSIR_CFG_INVALID_ID).
Proof.
  intros Hc Hv. unfold cfg_set_int. rewrite Hc. by replace (_ || _) with true by lia.
Qed.

Lemma cfg_set_str_cfg m id s n nm i :
  cfg_check_valid m id = Ok i → n <= zget (gCfgSBuf (cfg m)) i →
  (cfg_set_str_notify m id s n nm).2 = eSIR_SUCCESS ∧
  cfg (cfg_set_str_notify m id s n nm).1 =
    cfg m <| gCfgSBuf ::= λ b, zwrite b (i + 1) (u8 n :: zread s 0 n) |>.
Proof.
  intros Hc Hn. unfold cfg_set_str_notify. rewrite Hc.
  replace (_ <? n) with false by lia. cbn [fst snd].
  split; [done|]. split_if; by rewrite ?cfg_notify.
Qed.

Lemma cfg_set_str_len m id s n nm i :
  cfg_check_valid m id = Ok i → zget (gCfgSBuf (cfg m)) i < n →
  cfg_set_str_notify m id s n nm = (m, eSIR_CFG_INVALID_LEN).
Proof. intros Hc Hn. unfold cfg_set_str_notify. rewrite Hc. by replace (_ <? n) with true by lia. Qed.

(** *** The two writes keep the invariant *)

Lemma wf_write_int c id v :
  cfg_wf c → is_int c id = true →
  zget (gCfgIBufMin c) (idx c id) <= v <= zget (gCfgIBufMax c) (idx c id) →
  cfg_wf (c <| gCfgIBuf ::= λ b, zset b (idx c id) v |>).
Proof.
  intros Hwf Hi Hv. pose proof (wf_int _ Hwf id Hi) as (Hr & _ & _).
  destruct Hwf as [Hp Hmin Hmax Hint Hinj Hstr Hdisj].
  split; unfold is_int, is_str, valid_id, slot_end, idx, ctl in *; rsimpl; auto;
    rewrite ?length_zset; auto.
  intros id' Hi'. destruct (Hint id' Hi') as (Hr' & ? & ?).
  split_and!; try lia; rewrite zget_zset by lia; split_if; bool_hyps; try lia.
  all: rewrite <- E; lia.
Qed.

Lemma param_write_int c id v id' :
  cfg_wf c → is_int c id = true →
  param_of (c <| gCfgIBuf ::= λ b, zset b (idx c id) v |>) id' =
  if decide (id' = id)
  then Some (PInt (ctl c id) v (zget (gCfgIBufMin c) (idx c id)) (zget (gCfgIBufMax c) (idx c id)))
  else param_of c id'.
Proof.
  intros Hwf Hi. pose proof (wf_int _ Hwf id Hi) as (Hr & _ & _).
  destruct (decide (id' = id)) as [->|Hne]; unfold param_of; rsimpl.
  - change (is_int _ id) with (is_int c id). rewrite Hi.
    change (idx _ id) with (idx c id). by rewrite zget_zset_eq.
  - change (is_int _ id') with (is_int c id'). change (is_str _ id') with (is_str c id').
    destruct (is_int c id') eqn:Hi'; [|done].
    pose proof (wf_int _ Hwf id' Hi') as (Hr' & _ & _).
    change (idx _ id') with (idx c id'). change (ctl _ id') with (ctl c id').
    rewrite zget_zset_ne; [done|lia..|].
    intros E. apply Hne. symmetry. by apply (wf_int_inj _ Hwf).
Qed.

(** Reading a slot after a write to it or to another slot. *)
Lemma slot_write_other c id id' d :
  cfg_wf c → is_str c id = true → is_str c id' = true → id' ≠ id →
  Z.of_nat (length d) <= zget (gCfgSBuf c) (idx c id) + 1 →
  let b := zwrite (gCfgSBuf c) (idx c id + 1) d in
  zget b (idx c id') = zget (gCfgSBuf c) (idx c id') ∧
  zget b (idx c id' + 1) = zget (gCfgSBuf c) (idx c id' + 1) ∧
  zread b (idx c id' + 2) (zget (gCfgSBuf c) (idx c id' + 1)) =
    zread (gCfgSBuf c) (idx c id' + 2) (zget (gCfgSBuf c) (idx c id' + 1)).
Proof.
  intros Hwf Hs Hs' Hne Hd. pose proof (wf_str _ Hwf id Hs). pose proof (wf_str _ Hwf id' Hs').
  destruct (wf_str_disj _ Hwf id id' Hs Hs') as [Hd'|Hd']; [done|..]; unfold slot_end in *; cbn;
    (split_and!; [apply zget_zwrite_out; lia..|apply zread_zwrite_disj; lia]).
Qed.

Lemma slot_write_same c id n d :
  cfg_wf c → is_str c id = true → 0 <= n <= zget (gCfgSBuf c) (idx c id) →
  Z.of_nat (length d) = n →
  let b := zwrite (gCfgSBuf c) (idx c id + 1) (u8 n :: d) in
  zget b (idx c id) = zget (gCfgSBuf c) (idx c id) ∧
  zget b (idx c id + 1) = n ∧ zread b (idx c id + 2) n = d.
Proof.
  intros Hwf Hs Hn Hd b. subst b. pose proof (wf_str _ Hwf id Hs) as (Hi & He & Hc & Hm). unfold slot_end in He.
  set (b0 := gCfgSBuf c) in *. set (i := idx c id) in *.
  assert (zwrite b0 (i + 1) (u8 n :: d) = zset (zwrite b0 (i + 2) d) (i + 1) (u8 n)) as E.
  { unfold zwrite, zset. cbn. f_equal. f_equal. lia. }
  cbv zeta. rewrite E. split_and!.
  - rewrite zget_zset_ne by lia. apply zget_zwrite_out; lia.
  - rewrite zget_zset_eq by (rewrite length_zwrite; lia). apply u8_small. red. lia.
  - rewrite zread_zset_out by lia. subst n. apply zread_zwrite_eq; lia.
Qed.

Lemma wf_write_str c id n d :
  cfg_wf c → is_str c id = true → 0 <= n <= zget (gCfgSBuf c) (idx c id) →
  Z.of_nat (length d) = n →
  cfg_wf (c <| gCfgSBuf ::= λ b, zwrite b (idx c id + 1) (u8 n :: d) |>).
Proof.
  intros Hwf Hs Hn Hd.
  pose proof (slot_write_same c id n d Hwf Hs Hn Hd) as (S1 & S2 & _). cbn in S1, S2.
  assert (∀ id', is_str c id' = true →
    zget (zwrite (gCfgSBuf c) (idx c id + 1) (u8 n :: d)) (idx c id') = zget (gCfgSBuf c) (idx c id'))
    as Hmax.
  { intros id' Hs'. destruct (decide (id' = id)) as [->|Hne]; [done|].
    apply (slot_write_other c id id' (u8 n :: d)); try done. cbn. lia. }
  assert (∀ id', is_str c id' = true →
    0 <= zget (zwrite (gCfgSBuf c) (idx c id + 1) (u8 n :: d)) (idx c id' + 1)
      <= zget (gCfgSBuf c) (idx c id')) as Hcur.
  { intros id' Hs'. destruct (decide (id' = id)) as [->|Hne]; [lia|].
    destruct (slot_write_other c id id' (u8 n :: d)) as (_ & S3 & _); [done..|cbn; lia|].
    cbn in S3. rewrite S3. by apply (wf_str _ Hwf) in Hs' as (_ & _ & ? & _). }
  destruct Hwf as [Hp Hmin Hmx Hint Hinj Hstr Hdisj].
  split; try done; unfold slot_end in *; rsimpl.
  - intros id' Hs'. change (is_str c id' = true) in Hs'.
    specialize (Hstr id' Hs') as (H1 & H2 & H3 & H4). specialize (Hcur id' Hs').
    change (idx _ id') with (idx c id'). rewrite Hmax, length_zwrite by done.
    split_and!; lia.
  - intros id1 id2 Hs1 Hs2 Hne.
    change (is_str c id1 = true) in Hs1. change (is_str c id2 = true) in Hs2.
    change (idx _ id1) with (idx c id1). change (idx _ id2) with (idx c id2).
    rewrite !Hmax by done. by apply Hdisj.
Qed.

Lemma param_write_str c id n d id' :
  cfg_wf c → is_str c id = true → 0 <= n <= zget (gCfgSBuf c) (idx c id) →
  Z.of_nat (length d) = n →
  param_of (c <| gCfgSBuf ::= λ b, zwrite b (idx c id + 1) (u8 n :: d) |>) id' =
  if decide (id' = id) then Some (PStr (ctl c id) (zget (gCfgSBuf c) (idx c id)) d)
  else param_of c id'.
Proof.
  intros Hwf Hs Hn Hd. unfold param_of. rsimpl.
  change (is_int _ id') with (is_int c id'). change (is_str _ id') with (is_str c id').
  change (idx _ id') with (idx c id'). change (ctl _ id') with (ctl c id').
  destruct (decide (id' = id)) as [->|Hne].
  - pose proof (slot_write_same c id n d Hwf Hs Hn Hd) as (S1 & S2 & S3). cbn in S1, S2, S3.
    by rewrite (is_str_not_int _ _ Hs), Hs, S1, S2, S3.
  - destruct (is_int c id'); [done|]. destruct (is_str c id') eqn:Hs'; [|done].
    pose proof (slot_write_other c id id' (u8 n :: d) Hwf Hs Hs' Hne) as (S1 & S2 & S3); [cbn; lia|].
    cbn in S1, S2, S3. by rewrite S1, S2, S3.
Qed.

(** ** The abstract store *)

Definition a_get_int (st : gmap Z param) (id : Z) : res tSirRetStatus Z :=
  match st !! id with Some (PInt _ v _ _) => Ok v | _ => Err eSIR_CFG_INVALID_ID end.

Definition a_set_int (st : gmap Z param) (id v : Z) : gmap Z param * tSirRetStatus :=
  match st !! id with
  | Some (PInt c _ mn mx) =>
      if (mn <=? v) && (v <=? mx) then (<[id := PInt c v mn mx]> st, eSIR_SUCCESS)
      else (st, eSIR_CFG_INVALID_ID)
  | _ => (st, eSIR_CFG_INVALID_ID)
  end.

Definition a_get_str (st : gmap Z param) (id room : Z) : res tSirRetStatus (list Z) :=
  match st !! id with
  | Some (PStr _ _ s) => if room <? Z.of_nat (length s) then Err eSIR_CFG_INVALID_LEN else Ok s
  | _ => Err eSIR_CFG_INVALID_ID
  end.

Definition a_set_str (st : gmap Z param) (id : Z) (s : list Z) : gmap Z param * tSirRetStatus :=
  match st !! id with
  | Some (PStr c mx _) =>
      if mx <? Z.of_nat (length s) then (st, eSIR_CFG_INVALID_LEN)
      else (<[id := PStr c mx s]> st, eSIR_SUCCESS)
  | _ => (st, eSIR_CFG_INVALID_ID)
  end.

Definition a_str_len (st : gmap Z param) (id : Z) : res tSirRetStatus Z :=
  match st !! id with Some (PStr _ _ s) => Ok (Z.of_nat (length s)) | _ => Err eSIR_CFG_INVALID_ID end.
Definition a_str_max_len (st : gmap Z param) (id : Z) : res tSirRetStatus Z :=
  match st !! id with Some (PStr _ mx _) => Ok mx | _ => Err eSIR_CFG_INVALID_ID end.

(** The three cases of a parameter id. *)
Lemma param_cases c id : 0 <= id →
  (param_of c id = None ∧ valid_id c id = false) ∨
  (is_int c id = true ∧ param_of c id =
     Some (PInt (ctl c id) (zget (gCfgIBuf c) (idx c id)) (zget (gCfgIBufMin c) (idx c id))
                (zget (gCfgIBufMax c) (idx c id)))) ∨
  (is_str c id = true ∧ param_of c id =
     Some (PStr (ctl c id) (zget (gCfgSBuf c) (idx c id))
               (zread (gCfgSBuf c) (idx c id + 2) (zget (gCfgSBuf c) (idx c id + 1))))).
Proof.
  intros Hid. unfold param_of. destruct (valid_id c id) eqn:Hv.
  - right. destruct (is_int_or_str c id Hv) as [H|H]; [left; by rewrite H|right].
    by rewrite (is_str_not_int _ _ H), H.
  - left. unfold is_int, is_str. by rewrite Hv.
Qed.

Lemma str_cur_len c id :
  cfg_wf c → is_str c id = true →
  Z.of_nat (length (zread (gCfgSBuf c) (idx c id + 2) (zget (gCfgSBuf c) (idx c id + 1)))) =
  zget (gCfgSBuf c) (idx c id + 1).
Proof.
  intros Hwf Hs. apply (wf_str _ Hwf) in Hs as (? & ? & ? & ?). unfold slot_end in *.
  apply length_zread. red. lia.
Qed.

Lemma refine_set_int m st id v :
  represents (cfg m) st → 0 <= id → (∀ c mx s, st !! id ≠ Some (PStr c mx s)) →
  (cfg_set_int m id v).2 = (a_set_int st id v).2 ∧
  represents (cfg (cfg_set_int m id v).1) (a_set_int st id v).1.
Proof.
  intros [Hwf Hst] Hid Hk. unfold a_set_int. rewrite Hst in Hk |- *.
  destruct (param_cases (cfg m) id Hid) as [[E Hv]|[[Hi E]|[_ E]]]; rewrite E in Hk |- *.
  - unfold cfg_set_int. by rewrite check_valid_err.
  - pose proof (check_valid_ok m id Hwf (is_int_valid _ _ Hi)) as Hc.
    split_if.
    + destruct (cfg_set_int_cfg m id v _ Hc) as [-> ->]; [lia|]. split; [done|].
      split; [apply wf_write_int; [done..|lia]|]. intros id'. rewrite param_write_int by done.
      cbn [fst]. destruct (decide (id' = id)) as [->|]; [by rewrite lookup_insert_eq|].
      by rewrite lookup_insert_ne.
    + rewrite (cfg_set_int_range m id v _ Hc) by lia. by split.
  - by edestruct Hk.
Qed.

Lemma refine_set_str m st id s n nm :
  represents (cfg m) st → 0 <= id → 0 <= n <= Z.of_nat (length s) →
  (∀ c v mn mx, st !! id ≠ Some (PInt c v mn mx)) →
  (cfg_set_str_notify m id s n nm).2 = (a_set_str st id (zread s 0 n)).2 ∧
  represents (cfg (cfg_set_str_notify m id s n nm).1) (a_set_str st id (zread s 0 n)).1.
Proof.
  intros [Hwf Hst] Hid Hn Hk. unfold a_set_str. rewrite Hst in Hk |- *.
  assert (Z.of_nat (length (zread s 0 n)) = n) as Hl by (apply length_zread; red; lia).
  destruct (param_cases (cfg m) id Hid) as [[E Hv]|[[_ E]|[Hs E]]]; rewrite E in Hk |- *.
  - unfold cfg_set_str_notify. by rewrite check_valid_err.
  - by edestruct Hk.
  - pose proof (check_valid_ok m id Hwf (is_str_valid _ _ Hs)) as Hc. rewrite Hl.
    split_if; bool_hyps.
    + rewrite (cfg_set_str_len m id s n nm _ Hc) by lia. by split.
    + destruct (cfg_set_str_cfg m id s n nm _ Hc) as [-> ->]; [lia|]. split; [done|].
      split; [apply wf_write_str; [done..|lia|done]|]. intros id'. rewrite param_write_str by (done || lia).
      cbn [fst]. destruct (decide (id' = id)) as [->|]; [by rewrite lookup_insert_eq|].
      by rewrite lookup_insert_ne.
Qed.

Lemma refine_get_int m st id :
  represents (cfg m) st → 0 <= id → (∀ c mx s, st !! id ≠ Some (PStr c mx s)) →
  wlan_cfg_get_int m id = a_get_int st id.
Proof.
  intros [Hwf Hst] Hid Hk. unfold a_get_int, wlan_cfg_get_int. rewrite Hst in Hk |- *.
  destruct (param_cases (cfg m) id Hid) as [[E Hv]|[[Hi E]|[_ E]]]; rewrite E in Hk |- *.
  - by rewrite check_valid_err.
  - by rewrite (check_valid_ok m id Hwf (is_int_valid _ _ Hi)).
  - by edestruct Hk.
Qed.

Lemma refine_str_reads m st id :
  represents (cfg m) st → 0 <= id → (∀ c v mn mx, st !! id ≠ Some (PInt c v mn mx)) →
  (∀ room, wlan_cfg_get_str m id room = a_get_str st id room) ∧
  wlan_cfg_get_str_len m id = a_str_len st id ∧
  wlan_cfg_get_str_max_len m id = a_str_max_len st id.
Proof.
  intros [Hwf Hst] Hid Hk.
  unfold a_get_str, a_str_len, a_str_max_len, wlan_cfg_get_str, wlan_cfg_get_str_len,
    wlan_cfg_get_str_max_len. rewrite Hst in Hk |- *.
  destruct (param_cases (cfg m) id Hid) as [[E Hv]|[[_ E]|[Hs E]]]; rewrite E in Hk |- *.
  - by rewrite check_valid_err.
  - by edestruct Hk.
  - rewrite (check_valid_ok m id Hwf (is_str_valid _ _ Hs)).
    cbn -[zget zread]. by rewrite str_cur_len.
Qed.

(** C13: the module implements an abstract map from parameter ids to typed
    values.  On a store representing [st], reading or writing an integer
    parameter (or an id that names none) and reading or writing a string
    parameter give the status and the value the abstract operation gives, on
    every branch (unknown id, value out of range, string too long, buffer too
    small), and lead to a store representing the abstract result: in
    particular a write changes no other parameter, whatever buffer it lives in. *)
Theorem cfg_refines_store m st id :
  represents (cfg m) st → 0 <= id →
  ((∀ c mx s, st !! id ≠ Some (PStr c mx s)) →
     wlan_cfg_get_int m id = a_get_int st id ∧
     ∀ v, (cfg_set_int m id v).2 = (a_set_int st id v).2 ∧
          represents (cfg (cfg_set_int m id v).1) (a_set_int st id v).1) ∧
  ((∀ c v mn mx, st !! id ≠ Some (PInt c v mn mx)) →
     (∀ room, wlan_cfg_get_str m id room = a_get_str st id room) ∧
     wlan_cfg_get_str_len m id = a_str_len st id ∧
     wlan_cfg_get_str_max_len m id = a_str_max_len st id ∧
     ∀ s n nm, 0 <= n <= Z.of_nat (length s) →
       (cfg_set_str_notify m id s n nm).2 = (a_set_str st id (zread s 0 n)).2 ∧
       represents (cfg (cfg_set_str_notify m id s n nm).1) (a_set_str st id (zread s 0 n)).1).
Proof.
  intros Hr Hid. split; intros Hk.
  - split; [by apply refine_get_int|]. intros v. by apply refine_set_int.
  - destruct (refine_str_reads m st id Hr Hid Hk) as (? & ? & ?).
    split_and!; try done. intros. by apply refine_set_str.
Qed.

(** A small store for concrete runs: one integer and two strings. *)
Definition demo_cfg : tAniSirCfg :=
  mk_cfg CFG_SUCCESS true
    ([Z.lor CFG_CTL_VALID (Z.lor CFG_CTL_INT (Z.lor CFG_CTL_WE CFG_CTL_NTF_LIM));
      Z.lor CFG_CTL_VALID CFG_CTL_RE; Z.lor CFG_CTL_VALID 5] ++ replicate 219 0)
    [3; 2; 7; 8; 0; 2; 1; 9; 0] [10] [5] [20] 1 9 (replicate 256 0) (replicate 55 0).
Definition demo_mac : tAniSirGlobal := mk_mac demo_cfg (replicate 222 None) [] [] 0 [] [].
Definition demo_store : gmap Z param :=
  {[ 0 := PInt 0x400d0000 10 5 20; 1 := PStr 0x30000 3 [7; 8]; 2 := PStr 0x10005 2 [9] ]}.

Lemma demo_out_of_range id :
  ¬ (0 <= id < 3) → valid_id demo_cfg id = false.
Proof.
  intros Hid. unfold valid_id, has_flag, ctl.
  destruct (0 <=? id) eqn:E1, (id <? CFG_PARAM_MAX_NUM) eqn:E2; try done. cbn [andb].
  bool_hyps. unfold CFG_PARAM_MAX_NUM in *.
  assert (zget (g_cfg_entry demo_cfg) id = 0) as ->; [|done].
  unfold zget. cbn [g_cfg_entry demo_cfg]. rewrite lookup_total_app_r by (cbn; lia).
  apply list_lookup_total_correct, lookup_replicate. cbn [length]. lia.
Qed.

Lemma demo_valid id : valid_id demo_cfg id = true → id = 0 ∨ id = 1 ∨ id = 2.
Proof.
  intros Hv. destruct (decide (0 <= id < 3)); [lia|]. by rewrite demo_out_of_range in Hv.
Qed.

Lemma demo_represents : represents demo_cfg demo_store.
Proof.
  split; [split|].
  - done.
  - done.
  - done.
  - intros id Hi. destruct (demo_valid id (is_int_valid _ _ Hi)) as [->|[->| ->]]; [|done..].
    vm_compute. repeat split; congruence.
  - intros id id' Hi Hi' _.
    destruct (demo_valid id (is_int_valid _ _ Hi)) as [->|[->| ->]],
      (demo_valid id' (is_int_valid _ _ Hi')) as [->|[->| ->]]; done.
  - intros id Hs. destruct (demo_valid id (is_str_valid _ _ Hs)) as [->|[->| ->]]; [done|..];
      vm_compute; repeat split; congruence.
  - intros id id' Hi Hi' Hne.
    destruct (demo_valid id (is_str_valid _ _ Hi)) as [->|[->| ->]],
      (demo_valid id' (is_str_valid _ _ Hi')) as [->|[->| ->]]; try done;
      vm_compute; (by left; congruence) || (by right; congruence).
  - intros id. destruct (decide (0 <= id < 3)) as [Hd|Hd].
    + assert (id = 0 ∨ id = 1 ∨ id = 2) as [->|[->| ->]] by lia; by vm_compute.
    + unfold param_of, is_int, is_str. rewrite demo_out_of_range by done. cbn [andb].
      unfold demo_store. by rewrite !lookup_insert_ne, lookup_singleton_ne by lia.
Qed.

Lemma cfg_refines_store_witness :
  (cfg_set_int demo_mac 0 12).2 = eSIR_SUCCESS ∧
  (cfg_set_int demo_mac 0 21).2 = eSIR_CFG_INVALID_ID ∧
  wlan_cfg_get_str demo_mac 1 4 = Ok [7; 8] ∧
  represents (cfg (cfg_set_str_notify demo_mac 2 [4; 5; 6] 2 true).1)
    (<[2 := PStr 0x10005 2 [4; 5]]> demo_store).
Proof.
  pose proof demo_represents as Hr.
  destruct (cfg_refines_store demo_mac demo_store 0 Hr ltac:(lia)) as [[_ Hi] _]; [done|].
  destruct (cfg_refines_store demo_mac demo_store 1 Hr ltac:(lia)) as [_ [Hg _]]; [done|].
  destruct (cfg_refines_store demo_mac demo_store 2 Hr ltac:(lia)) as [_ (_ & _ & _ & Hs)]; [done|].
  split_and!.
  - by destruct (Hi 12) as [-> _].
  - by destruct (Hi 21) as [-> _].
  - by rewrite Hg.
  - destruct (Hs [4; 5; 6] 2 true) as [_ Hs']; [cbn; lia|]. exact Hs'.
Defined.

(** ** Vendor elements: the element list behind the bytes *)

(** An element: its id and body. *)
Definition element : Type := Z * list Z.
Definition encode_ie (e : element) : list Z := e.1 :: Z.of_nat (length e.2) :: e.2.
Definition encode_ies (es : list element) : list Z := es ≫= encode_ie.

Definition oui_match (oui : list Z) (oui_size : Z) (e : element) : bool :=
  (e.1 =? SIR_MAC_EID_VENDOR) && bool_decide (zread e.2 0 oui_size = zread oui 0 oui_size).

(** Offset of the first matching element. *)
Fixpoint first_vendor (oui : list Z) (oui_size : Z) (es : list element) : option Z :=
  match es with
  | [] => None
  | e :: es' =>
      if oui_match oui oui_size e then Some 0
      else (λ o, Z.of_nat (length (encode_ie e)) + o) <$> first_vendor oui oui_size es'
  end.

Lemma encode_ies_cons e es : encode_ies (e :: es) = encode_ie e ++ encode_ies es.
Proof. done. Qed.

Lemma zget_app_r {A} `{Inhabited A} (l k : list A) i :
  0 <= i → zget (l ++ k) (Z.of_nat (length l) + i) = zget k i.
Proof.
  intros. unfold zget. rewrite lookup_total_app_r by lia. f_equal. lia.
Qed.

Lemma zread_app_r {A} (l k : list A) i n :
  0 <= i → zread (l ++ k) (Z.of_nat (length l) + i) n = zread k i n.
Proof.
  intros. unfold zread. f_equal. rewrite skipn_app, (drop_ge l) by lia.
  cbn. f_equal. lia.
Qed.

Lemma zget_middle {A} `{Inhabited A} (l k : list A) x : zget (l ++ x :: k) (Z.of_nat (length l)) = x.
Proof. unfold zget. rewrite Nat2Z.id. by apply list_lookup_total_middle. Qed.

Lemma zread_prefix {A} (l k : list A) n :
  n <= Z.of_nat (length l) → zread (l ++ k) 0 n = zread l 0 n.
Proof. intros. unfold zread. cbn. rewrite !drop_0. apply take_app_le. lia. Qed.

Lemma vendor_ie_loop_elements fuel oui n pre es trail :
  (∀ e, e ∈ es → e.1 = SIR_MAC_EID_VENDOR → n <= Z.of_nat (length e.2)) →
  (length (encode_ies es) < fuel)%nat →
  vendor_ie_loop fuel oui n (pre ++ encode_ies es ++ trail) (Z.of_nat (length pre))
    (Z.of_nat (length (encode_ies es))) =
  (λ o, Z.of_nat (length pre) + o) <$> first_vendor oui n es.
Proof.
  revert pre es. induction fuel as [|fuel IH]; intros pre es Hn Hf; [lia|].
  destruct es as [|[i b] es]; [done|]. cbn [vendor_ie_loop first_vendor].
  rewrite encode_ies_cons in *. unfold encode_ie in *. cbn [fst snd] in *.
  rewrite !length_app in *. cbn [length] in *.
  replace (2 <=? _) with true by lia.
  rewrite <- !app_assoc. cbn [app]. rewrite zget_middle, zget_app_r by lia.
  change (zget _ 1) with (Z.of_nat (length b)).
  replace (_ <? Z.of_nat (length b)) with false by lia.
  rewrite zread_app_r by lia.
  change (zread _ 2 n) with (zread (b ++ encode_ies es ++ trail) 0 n).
  assert (((SIR_MAC_EID_VENDOR =? i) &&
    bool_decide (zread (b ++ encode_ies es ++ trail) 0 n = zread oui 0 n)) = oui_match oui n (i, b)) as ->.
  { unfold oui_match. cbn [fst snd]. rewrite (Z.eqb_sym _ i).
    destruct (Z.eqb_spec i SIR_MAC_EID_VENDOR); [|done].
    rewrite zread_prefix; [done|]. apply (Hn (i, b)); [set_solver|done]. }
  destruct (oui_match oui n (i, b)); [cbn; f_equal; lia|].
  specialize (IH (pre ++ i :: Z.of_nat (length b) :: b) es).
  rewrite length_app in IH. cbn [length] in IH.
  rewrite <- app_assoc in IH. cbn [app] in IH.
  replace (Z.of_nat (length pre) + Z.of_nat (length b) + 2)
    with (Z.of_nat (length pre + S (S (length b)))) by lia.
  replace (_ - 2 - _) with (Z.of_nat (length (encode_ies es))) by lia.
  rewrite IH; [|intros e He; apply Hn; set_solver|lia].
  destruct (first_vendor oui n es); cbn; [|done]. f_equal. lia.
Qed.

Lemma vendor_ie_loop_sound fuel oui n ie ptr left p :
  vendor_ie_loop fuel oui n ie ptr left = Some p →
  Forall is_u8 ie → 0 <= ptr →
  ptr <= p ∧ p + 2 + zget ie (p + 1) <= ptr + left ∧
  zget ie p = SIR_MAC_EID_VENDOR ∧ zread ie (p + 2) n = zread oui 0 n.
Proof.
  revert ptr left. induction fuel as [|fuel IH]; intros ptr left Hl Hb Hp; [done|].
  cbn [vendor_ie_loop] in Hl. repeat split_if_in Hl; try done.
  - injection Hl as <-. bool_hyps. split_and!; [lia..|done|done].
  - bool_hyps. pose proof (zget_u8 ie (ptr + 1) Hb) as [? _].
    apply IH in Hl as (? & ? & ? & ?); [|done|lia]. split_and!; [lia..|done|done].
Qed.

(** The search for a vendor element.  On a buffer made of complete
    elements, vendor ones at least as long as the pattern, it returns the
    offset of the first vendor element whose body starts with the pattern, and
    the null pointer when there is none.  On any buffer whatever, a returned
    pointer designates a vendor element that lies wholly inside the buffer and
    matches. *)
Theorem vendor_ie_search oui n :
  (∀ es trail,
     (∀ e, e ∈ es → e.1 = SIR_MAC_EID_VENDOR → n <= Z.of_nat (length e.2)) →
     cfg_get_vendor_ie_ptr_from_oui oui n (encode_ies es ++ trail)
       (Z.of_nat (length (encode_ies es))) = first_vendor oui n es) ∧
  (∀ ie ie_len p, Forall is_u8 ie →
     cfg_get_vendor_ie_ptr_from_oui oui n ie ie_len = Some p →
     0 <= p ∧ p + 2 + zget ie (p + 1) <= ie_len ∧
     zget ie p = SIR_MAC_EID_VENDOR ∧ zread ie (p + 2) n = zread oui 0 n).
Proof.
  split.
  - intros es trail Hn. unfold cfg_get_vendor_ie_ptr_from_oui.
    pose proof (vendor_ie_loop_elements (S (length (encode_ies es))) oui n [] es trail Hn) as H.
    cbn [app length] in H. change (Z.of_nat 0) with 0 in H. rewrite Nat2Z.id. rewrite H by lia. by destruct (first_vendor oui n es).
  - intros ie ie_len p Hb Hs. unfold cfg_get_vendor_ie_ptr_from_oui in Hs.
    apply vendor_ie_loop_sound in Hs as (? & ? & ? & ?); [|done|lia]. by rewrite Z.add_0_l in *.
Qed.

Lemma vendor_ie_search_witness :
  cfg_get_vendor_ie_ptr_from_oui [0; 80; 242] 3
    [0; 1; 65; 221; 4; 0; 80; 242; 1; 7; 0] 11 = Some 3.
Proof.
  destruct (vendor_ie_search [0; 80; 242] 3) as [H _].
  apply (H [(0, [65]); (221, [0; 80; 242; 1]); (7, [])] []).
  intros e He. rewrite !elem_of_cons in He. unfold SIR_MAC_EID_VENDOR.
  destruct He as [->|[->|[->|He%not_elem_of_nil]]]; cbn; try lia; done.
Defined.

(** ** The capability field *)

Lemma set_bit_spec cap b v i :
  0 <= b → 0 <= i → Z.testbit (set_bit cap b v) i = if i =? b then Z.odd v else Z.testbit cap i.
Proof.
  intros Hb Hi. unfold set_bit.
  rewrite Z.lor_spec, Z.ldiff_spec, !Z.shiftl_spec by done.
  rewrite Zmod_odd. destruct (Z.eqb_spec i b) as [->|Hne].
  - rewrite Z.sub_diag. cbn. by destruct (Z.odd v), (Z.testbit cap b).
  - destruct (Z.ltb_spec i b).
    + rewrite !(Z.testbit_neg_r _ (i - b)) by lia. cbn. by rewrite andb_true_r, orb_false_r.
    + rewrite (Z.bits_above_log2 1) by (cbn; lia). cbn [negb].
      rewrite andb_true_r. destruct (Z.odd v); [rewrite (Z.bits_above_log2 1) by (cbn; lia)|];
        rewrite ?Z.bits_0, orb_false_r; done.
Qed.

(** What each bit means, given the values [v] of the configuration. *)
Definition cap_spec (m : tAniSirGlobal) (s : capSession) (v : wni_cfg → Z) (bit : Z) : bool :=
  let r := capRole s in
  let set x := negb (x =? 0) in
  let full := negb (dot11mode s =? WNI_CFG_DOT11_MODE_11B) in
  if bit =? CAP_ess then LIM_IS_AP_ROLE r || LIM_IS_STA_ROLE r
  else if bit =? CAP_ibss then LIM_IS_IBSS_ROLE r
  else if bit =? CAP_privacy then
    set (if LIM_IS_AP_ROLE r then privacy s else v WNI_CFG_PRIVACY_ENABLED)
  else if bit =? CAP_shortPreamble then set (v WNI_CFG_SHORT_PREAMBLE)
  else if bit =? CAP_spectrumMgt then
    full && negb (LIM_IS_IBSS_ROLE r) && lim11hEnable s && set (v WNI_CFG_11H_ENABLED)
  else if bit =? CAP_qos then full && set (v WNI_CFG_QOS_ENABLED)
  else if bit =? CAP_shortSlotTime then
    full && (LIM_IS_AP_ROLE r || set (v WNI_CFG_11G_SHORT_SLOT_TIME_ENABLED)) &&
    Z.odd (shortSlotTimeSupported s)
  else if bit =? CAP_apsd then full && set (v WNI_CFG_APSD_ENABLED)
  else if bit =? CAP_rrm then full && Z.odd (rrm_enabled m)
  else if bit =? CAP_delayedBA then full && Z.testbit (v WNI_CFG_BLOCK_ACK_ENABLED) 0
  else if bit =? CAP_immediateBA then full && Z.testbit (v WNI_CFG_BLOCK_ACK_ENABLED) 1
  else false.

Definition cap_params : list wni_cfg :=
  [WNI_CFG_PRIVACY_ENABLED; WNI_CFG_SHORT_PREAMBLE; WNI_CFG_11G_SHORT_SLOT_TIME_ENABLED;
   WNI_CFG_11H_ENABLED; WNI_CFG_QOS_ENABLED; WNI_CFG_APSD_ENABLED; WNI_CFG_BLOCK_ACK_ENABLED].

(** A conditional assignment of 1 to a bit. *)
Lemma cond_set_bit_spec (c : bool) cap b v i :
  0 <= b → 0 <= i →
  Z.testbit (if c then set_bit cap b v else cap) i =
  if (i =? b) && c then Z.odd v else Z.testbit cap i.
Proof.
  intros. destruct c; [rewrite set_bit_spec, andb_true_r by done; done|by rewrite andb_false_r].
Qed.

Lemma odd_land1 x : Z.odd (Z.land x 1) = Z.testbit x 0.
Proof. by rewrite <- Z.bit0_odd, Z.land_spec, andb_true_r. Qed.

(** The role bits. *)
Lemma role_bits_spec r bit :
  0 <= bit →
  Z.testbit (if LIM_IS_IBSS_ROLE r then set_bit 0 CAP_ibss 1
    else if LIM_IS_AP_ROLE r || LIM_IS_STA_ROLE r then set_bit 0 CAP_ess 1
    else if LIM_IS_P2P_DEVICE_ROLE r || LIM_IS_NDI_ROLE r
    then set_bit (set_bit 0 CAP_ess 0) CAP_ibss 0 else 0) bit =
  if bit =? CAP_ess then LIM_IS_AP_ROLE r || LIM_IS_STA_ROLE r
  else if bit =? CAP_ibss then LIM_IS_IBSS_ROLE r else false.
Proof.
  intros Hb. unfold CAP_ess, CAP_ibss.
  destruct r; eval_roles; cbn [orb];
    repeat rewrite ?set_bit_spec, ?Z.bits_0 by lia;
    destruct (Z.eqb_spec bit 0), (Z.eqb_spec bit 1); try done; lia.
Qed.

(** Compare two descriptions of the bits of a 16-bit field. *)
Ltac bit_cases bit :=
  assert (bit = 0 ∨ bit = 1 ∨ bit = 2 ∨ bit = 3 ∨ bit = 4 ∨ bit = 5 ∨ bit = 6 ∨ bit = 7 ∨
    bit = 8 ∨ bit = 9 ∨ bit = 10 ∨ bit = 11 ∨ bit = 12 ∨ bit = 13 ∨ bit = 14 ∨ bit = 15 ∨
    16 <= bit) as Hcases by lia;
  repeat (destruct Hcases as [->|Hcases];
    [repeat match goal with |- context [Z.eqb ?a (Zpos ?b)] => change (Z.eqb a (Zpos b)) with false
                          | |- context [Z.eqb ?a ?a] => rewrite (Z.eqb_refl a) end;
     cbn [negb andb orb];
     repeat match goal with |- context [?x =? 0] =>
       lazymatch x with Z0 => fail | Zpos _ => fail | _ => destruct (x =? 0) end end;
     reflexivity|]);
  repeat match goal with |- context [bit =? ?b] => replace (bit =? b) with false by lia end;
  reflexivity.

(** When the parameters it consults can be read, [cfg_get_capability_info]
    succeeds, and every bit of the field it returns is the one the role, the
    session and the configuration prescribe; in 11b mode only the role, privacy
    and preamble bits can be set; the reserved bits are clear. *)
Theorem capability_bits m s v :
  Forall (λ p : wni_cfg, wlan_cfg_get_int m p = Ok (v p)) cap_params →
  (cfg_get_capability_info m s).2 = eSIR_SUCCESS ∧
  ∀ bit, 0 <= bit → Z.testbit (cfg_get_capability_info m s).1 bit = cap_spec m s v bit.
Proof.
  intros Hv. unfold cap_params in Hv. rewrite !Forall_cons in Hv.
  destruct Hv as (H1 & H2 & H3 & H4 & H5 & H6 & H7 & _).
  pose proof (role_bits_spec (capRole s)) as Hrole.
  unfold cfg_get_capability_info, cap_spec.
  rewrite !H1, !H2, !H3, !H4, !H5, !H6, !H7.
  cbv zeta in *.
  match type of Hrole with ∀ b, _ → Z.testbit ?c b = _ => set (cap0 := c) in * end.
  clearbody cap0.
  unfold CAP_ess, CAP_ibss, CAP_privacy, CAP_shortPreamble, CAP_pbcc, CAP_channelAgility,
    CAP_spectrumMgt, CAP_qos, CAP_shortSlotTime, CAP_apsd, CAP_rrm, CAP_delayedBA,
    CAP_immediateBA in *.
  revert Hrole. generalize (LIM_IS_AP_ROLE (capRole s)) (LIM_IS_STA_ROLE (capRole s))
    (LIM_IS_IBSS_ROLE (capRole s)). intros ap sta ibss Hrole.
  destruct (dot11mode s =? WNI_CFG_DOT11_MODE_11B).
  - destruct ap; (split; [done|]); intros bit Hbit; cbn [fst];
      rewrite ?set_bit_spec, ?cond_set_bit_spec, ?Hrole by (done || lia);
      bit_cases bit.
  - destruct ap, ibss, (lim11hEnable s); cbn [negb andb]; (split; [done|]); intros bit Hbit; cbn [fst];
      repeat rewrite ?set_bit_spec, ?cond_set_bit_spec by (done || lia);
      rewrite ?odd_land1, ?Z.shiftr_spec, ?Hrole by (done || lia);
      bit_cases bit.
Qed.

(** The seven parameters in cells 0 to 6, with the values [vals]. *)
Definition demo_cap_mac (vals : list Z) : tAniSirGlobal :=
  demo_mac <| cfg ::= λ c,
    c <| g_cfg_entry :=
           foldl (λ e '(k, p), zset e (wni_cfg_id p) (Z.lor 0x90000 k)) (replicate 222 0)
                 (zip (seqZ 0 7) cap_params) |>
      <| gCfgIBuf := vals |> |>.

Lemma capability_bits_witness :
  cfg_get_capability_info (demo_cap_mac [1; 1; 1; 0; 1; 0; 2])
    (mk_cap_session eLIM_STA_ROLE 0 4 1 true) = (0x8631, eSIR_SUCCESS) ∧
  Z.testbit 0x8631 CAP_immediateBA = true.
Proof.
  split; [reflexivity|].
  destruct (capability_bits (demo_cap_mac [1; 1; 1; 0; 1; 0; 2])
    (mk_cap_session eLIM_STA_ROLE 0 4 1 true)
    (λ p, match p with
          | WNI_CFG_PRIVACY_ENABLED | WNI_CFG_SHORT_PREAMBLE | WNI_CFG_11G_SHORT_SLOT_TIME_ENABLED
          | WNI_CFG_QOS_ENABLED => 1
          | WNI_CFG_BLOCK_ACK_ENABLED => 2
          | _ => 0 end)) as [_ Hb].
  - repeat constructor.
  - exact (Hb CAP_immediateBA ltac:(unfold CAP_immediateBA; lia)).
Defined.

(** ** The country triples *)

Definition triple : Type := Z * Z * Z.
Definition encode_triple (t : triple) : list Z := let '(f, n, p) := t in [f; n; p].
Definition encode_triples (ts : list triple) : list Z := ts ≫= encode_triple.
Definition covers (channel : Z) (t : triple) : bool :=
  let '(f, n, _) := t in (f <=? channel) && (channel <? f + n).

(** The power of the first triple covering the channel, else of the last one. *)
Fixpoint power_of (channel : Z) (ts : list triple) (dflt : Z) : Z :=
  match ts with
  | [] => dflt
  | (f, n, p) :: ts' => if covers channel (f, n, p) then s8 p else power_of channel ts' (s8 p)
  end.

Lemma length_encode_triples ts : length (encode_triples ts) = (3 * length ts)%nat.
Proof. induction ts as [|[[f n] p] ts IH]; [done|].
  change (encode_triples _) with (f :: n :: p :: encode_triples ts). cbn [length]. lia.
Qed.

Lemma scan_triples_spec fuel ts pre rest channel dflt :
  (length ts < fuel)%nat → (length rest < 3)%nat → (3 <= length pre + 3 * length ts)%nat →
  (length pre + 3 * length ts + length rest <= 255)%nat →
  scan_triples fuel (pre ++ encode_triples ts ++ rest)
    (Z.of_nat (length pre + 3 * length ts + length rest)) channel (Z.of_nat (length pre)) dflt =
  Some (power_of channel ts dflt).
Proof.
  revert pre ts dflt. induction fuel as [|fuel IH]; intros pre ts dflt Hf Hr Hne Hl; [lia|].
  cbn [scan_triples]. unfold sizeof_tSirMacChanInfo. rewrite u32_small by (red; lia).
  destruct ts as [|[[f n] p] ts]; cbn [length power_of] in *.
  { by replace (_ <=? _) with false by lia. }
  replace (_ <=? _) with true by lia.
  rewrite !u8_small by (red; lia). change (encode_triples ((f, n, p) :: ts)) with (f :: n :: p :: encode_triples ts). cbn [app].
  rewrite zget_middle, !zget_app_r by lia.
  unfold covers. change (zget (_ :: _) 1) with n. change (zget (_ :: _) 2) with p.
  split_if; [done|].
  specialize (IH (pre ++ [f; n; p]) ts (s8 p)).
  rewrite length_app, <- app_assoc in IH. cbn [app length] in IH.
  replace (Z.of_nat (length pre) + 3) with (Z.of_nat (length pre + 3)) by lia.
  replace (length pre + 3 * S (length ts) + length rest)%nat
    with (length pre + 3 + 3 * length ts + length rest)%nat by lia.
  apply IH; lia.
Qed.

(** The regulatory power of a channel, when the stored country string is
    made of [(first channel, number of channels, power)] triples: the scan
    terminates and returns the power of the first triple covering the channel
    - and, when no triple covers it, that of the last triple; the band of the
    channel selects the parameter. *)
Theorem regulatory_power m ts rest channel :
  let id := if (SIR_11A_CHANNEL_BEGIN <=? channel) && (channel <=? SIR_11A_CHANNEL_END)
            then WNI_CFG_MAX_TX_POWER_5 else WNI_CFG_MAX_TX_POWER_2_4 in
  wlan_cfg_get_str m id (LEN id) = Ok (encode_triples ts ++ rest) →
  (0 < length ts)%nat → (length rest < 3)%nat →
  (length (encode_triples ts ++ rest) <= 255)%nat →
  cfg_get_regulatory_max_transmit_power m channel true =
    Some (power_of channel ts WMA_MAX_TXPOWER_INVALID).
Proof.
  cbv zeta. intros Hs Ht Hr Hl. unfold cfg_get_regulatory_max_transmit_power.
  rewrite length_app, length_encode_triples in Hl.
  pose proof (scan_triples_spec 256 ts [] rest channel WMA_MAX_TXPOWER_INVALID) as Hscan.
  cbn [length app Nat.add] in Hscan.
  destruct ((SIR_11A_CHANNEL_BEGIN <=? channel) && (channel <=? SIR_11A_CHANNEL_END));
    unfold cfg_get_dot11d_transmit_power; rewrite Hs;
    change (_ <? sizeof_tSirMacChanInfo) with false; cbn [negb];
    rewrite length_app, length_encode_triples; apply Hscan; lia.
Qed.

(** The 5 GHz parameter as a string slot [36..64 at 20, 100..140 at 30]. *)
Definition demo_power_mac : tAniSirGlobal :=
  demo_mac <| cfg ::= λ c,
    c <| g_cfg_entry ::= λ e, zset e WNI_CFG_MAX_TX_POWER_5 0x30000 |>
      <| gCfgSBuf := [128; 6; 36; 29; 20; 100; 41; 30] |> |>.

Lemma regulatory_power_witness :
  cfg_get_regulatory_max_transmit_power demo_power_mac 104 true = Some 30 ∧
  cfg_get_regulatory_max_transmit_power demo_power_mac 80 true = Some 30.
Proof.
  split.
  - apply (regulatory_power demo_power_mac [(36, 29, 20); (100, 41, 30)] [] 104);
      [reflexivity|cbn; lia..].
  - apply (regulatory_power demo_power_mac [(36, 29, 20); (100, 41, 30)] [] 80);
      [reflexivity|cbn; lia..].
Defined.
