(* ===== verification/CfgProc.v ===== *)
(** The host side of the configuration store: core/mac/src/cfg/cfg_proc_msg.c
    and core/mac/src/cfg/cfg_send_msg.c.

    [process_cfg_download_req] fills the store from the built-in tables;
    [cfg_process_mb_msg] dispatches the host's download, get and set messages.
    A message body is the list of 32-bit words at the parameter pointer.  The
    handlers return [None] when the code would read past the message or write
    past its scratch buffer. *)
From S2P Require Import Prelude LimTypes CfgTable CfgIface CfgApi.

(** Message constants of core/mac/inc/wni_api.h. *)
Definition WNI_CFG_MB_HDR_LEN : Z := 4.
Definition WNI_CFG_DNLD_CNF : Z := 0x1202.
Definition WNI_CFG_GET_RSP : Z := 0x1203.
Definition WNI_CFG_SET_CNF : Z := 0x1204.
Definition WNI_CFG_DNLD_CNF_RES : Z := 0.
Definition WNI_CFG_DNLD_CNF_NUM : Z := 1.
Definition WNI_CFG_DNLD_CNF_LEN : Z := WNI_CFG_MB_HDR_LEN + Z.shiftl WNI_CFG_DNLD_CNF_NUM 2.
Definition WNI_CFG_GET_RSP_RES : Z := 0.
Definition WNI_CFG_GET_RSP_PID : Z := 1.
Definition WNI_CFG_GET_RSP_PLEN : Z := 2.
Definition WNI_CFG_GET_RSP_NUM : Z := 3.
Definition WNI_CFG_GET_RSP_PARTIAL_LEN : Z := WNI_CFG_MB_HDR_LEN + Z.shiftl WNI_CFG_GET_RSP_NUM 2.
Definition WNI_CFG_SET_CNF_RES : Z := 0.
Definition WNI_CFG_SET_CNF_PID : Z := 1.
Definition WNI_CFG_SET_CNF_NUM : Z := 2.
Definition WNI_CFG_SET_CNF_LEN : Z := WNI_CFG_MB_HDR_LEN + Z.shiftl WNI_CFG_SET_CNF_NUM 2.

Definition WNI_CFG_SUCCESS : Z := 1.
Definition WNI_CFG_NOT_READY : Z := 2.
Definition WNI_CFG_INVALID_PID : Z := 3.
Definition WNI_CFG_INVALID_LEN : Z := 4.
Definition WNI_CFG_RO_PARAM : Z := 5.
Definition WNI_CFG_WO_PARAM : Z := 6.
Definition WNI_CFG_OTHER_ERROR : Z := 8.
Definition WNI_CFG_NEED_RESTART : Z := 9.
Definition WNI_CFG_NEED_RELOAD : Z := 10.

Definition CFG_STA_MAGIC_DWORD : Z := 0xbeefbeef.
Definition sizeof_tCfgBinHdr : Z := 16.

Definition set_param (m : tAniSirGlobal) (i v : Z) : tAniSirGlobal :=
  m <| cfg ::= λ c, c <| gParamList ::= λ l, zset l i v |> |>.

(** [cfg_send_host_msg]: [pData] is the memory behind the data pointer, [None]
    for a null pointer; whole words of it are copied. *)
Definition cfg_send_host_msg (m : tAniSirGlobal) (msgType msgLen paramNum : Z)
    (dataLen : Z) (pData : option (list Z)) : tAniSirGlobal :=
  if (0 <? dataLen) && bool_decide (pData = None) then m
  else
    let ok := default true (head (allocs m)) in
    let m := m <| allocs ::= tail |> in
    if negb ok then m
    else if (msgType =? WNI_CFG_GET_RSP) || (msgType =? WNI_CFG_DNLD_CNF) ||
            (msgType =? WNI_CFG_SET_CNF)
    then m <| outbox ::= λ o, o ++
           [host_msg msgType (u16 msgLen) (zread (gParamList (cfg m)) 0 paramNum)
              (zread (default [] pData) 0 (4 * Z.shiftr dataLen 2))] |>
    else m.

(** [check_param]: the failure code, or [None] when the parameter exists and
    has the flag. *)
Definition check_param (m : tAniSirGlobal) (cfgId flag failedResult : Z) : option Z :=
  if CFG_PARAM_MAX_NUM <=? cfgId then Some WNI_CFG_INVALID_PID
  else if negb (has_flag (zget (g_cfg_entry (cfg m)) cfgId) CFG_CTL_VALID) then Some WNI_CFG_INVALID_PID
  else if negb (has_flag (zget (g_cfg_entry (cfg m)) cfgId) flag) then Some failedResult
  else None.

(** [get_str_value] into [gSBuffer]: [None] when it runs out of the source or
    of the scratch buffer. *)
Definition get_str_value (m : tAniSirGlobal) (pBuf : list Z) (len : Z) : option tAniSirGlobal :=
  if (Z.of_nat (length pBuf) <? len) || (Z.of_nat (length (gSBuffer (cfg m))) <? len) then None
  else Some (m <| cfg ::= λ c, c <| gSBuffer ::= λ b, zwrite b 0 (zread pBuf 0 len) |> |>).

(** One round of the loop of [proc_get_req].  [sizeof_ptr] is
    [sizeof(pMac->cfg.gSBuffer)], the size of a pointer. *)
Definition proc_get_one (sizeof_ptr : Z) (m : tAniSirGlobal) (cfgId : Z) : tAniSirGlobal :=
  let '(m, result, valueLen, pValue) :=
    match check_param m cfgId CFG_CTL_RE WNI_CFG_WO_PARAM with
    | None =>
        if has_flag (zget (g_cfg_entry (cfg m)) cfgId) CFG_CTL_INT then
          match wlan_cfg_get_int m cfgId with
          | Ok v => (m, WNI_CFG_SUCCESS, 4, Some (le4 v))
          | Err _ => (m, WNI_CFG_OTHER_ERROR, 4, Some (replicate 4 0))
          end
        else
          match wlan_cfg_get_str m cfgId sizeof_ptr with
          | Ok s =>
              let m := m <| cfg ::= λ c, c <| gSBuffer ::= λ b, zwrite b 0 s |> |> in
              (m, WNI_CFG_SUCCESS, Z.of_nat (length s), Some (gSBuffer (cfg m)))
          | Err _ => (m, WNI_CFG_OTHER_ERROR, sizeof_ptr, Some (gSBuffer (cfg m)))
          end
    | Some _ => (m, WNI_CFG_INVALID_LEN, 0, None)
    end in
  let m := set_param m WNI_CFG_GET_RSP_RES result in
  let m := set_param m WNI_CFG_GET_RSP_PID cfgId in
  let m := set_param m WNI_CFG_GET_RSP_PLEN valueLen in
  let valueLen := Z.shiftl (Z.shiftr (valueLen + 3) 2) 2 in
  cfg_send_host_msg m WNI_CFG_GET_RSP (WNI_CFG_GET_RSP_PARTIAL_LEN + valueLen)
    WNI_CFG_GET_RSP_NUM valueLen pValue.

Fixpoint proc_get_loop (sizeof_ptr : Z) (m : tAniSirGlobal) (len : Z) (pParam : list Z) :
    option tAniSirGlobal :=
  if len <? 4 then Some m
  else match pParam with
  | [] => None
  | w :: p => proc_get_loop sizeof_ptr (proc_get_one sizeof_ptr m (u16 w)) (u16 (len - 4)) p
  end.

Definition proc_get_req (sizeof_ptr : Z) (m : tAniSirGlobal) (len : Z) (pParam : list Z) :
    option tAniSirGlobal :=
  if bool_decide (gCfgStatus (cfg m) = CFG_INCOMPLETE) then
    w ← head pParam;
    let cfgId := u16 (sir_read_u32_n (le4 w)) in
    let m := set_param m WNI_CFG_GET_RSP_RES WNI_CFG_NOT_READY in
    let m := set_param m WNI_CFG_GET_RSP_PID cfgId in
    let m := set_param m WNI_CFG_GET_RSP_PLEN 0 in
    Some (cfg_send_host_msg m WNI_CFG_GET_RSP WNI_CFG_GET_RSP_PARTIAL_LEN WNI_CFG_GET_RSP_NUM 0 None)
  else proc_get_loop sizeof_ptr m len pParam.

(** The result code of a successful set. *)
Definition set_result (m : tAniSirGlobal) (cfgId : Z) : Z :=
  if negb (cfg_need_restart m cfgId =? 0) then WNI_CFG_NEED_RESTART
  else if negb (cfg_need_reload m cfgId =? 0) then WNI_CFG_NEED_RELOAD
  else WNI_CFG_SUCCESS.

Definition status_result (m : tAniSirGlobal) (st : tSirRetStatus) (cfgId : Z) : Z :=
  if bool_decide (st = eSIR_SUCCESS) then set_result m cfgId else WNI_CFG_OTHER_ERROR.

(** The value of [(((valueLen + 3) >> 2) << 2)] stored in a [uint16_t]. *)
Definition roundup4 (valueLen : Z) : Z := u16 (Z.shiftl (Z.shiftr (valueLen + 3) 2) 2).

(** One TLV of [proc_set_req_internal]: the state and the result code;
    [pParam] is the message from the value on, [len] the bytes left. *)
Definition proc_set_one (m : tAniSirGlobal) (cfgId valueLen len : Z) (pParam : list Z) :
    option (tAniSirGlobal * Z) :=
  match check_param m cfgId CFG_CTL_WE WNI_CFG_RO_PARAM with
  | Some _ => Some (m, WNI_CFG_INVALID_LEN)
  | None =>
      if has_flag (zget (g_cfg_entry (cfg m)) cfgId) CFG_CTL_INT then
        if negb (valueLen =? 4) then Some (m, WNI_CFG_INVALID_LEN)
        else
          value ← head pParam;
          let '(m, st) := cfg_set_int m cfgId value in
          Some (m, status_result m st cfgId)
      else if len <? roundup4 valueLen then Some (m, WNI_CFG_INVALID_LEN)
      else
        m ← get_str_value m (words_bytes pParam) valueLen;
        let '(m, st) := cfg_set_str m cfgId (gSBuffer (cfg m)) valueLen in
        Some (m, status_result m st cfgId)
  end.

Definition send_set_cnf (fRsp : bool) (m : tAniSirGlobal) (cfgId result : Z) : tAniSirGlobal :=
  let m := set_param m WNI_CFG_SET_CNF_RES result in
  let m := set_param m WNI_CFG_SET_CNF_PID cfgId in
  if fRsp then cfg_send_host_msg m WNI_CFG_SET_CNF WNI_CFG_SET_CNF_LEN WNI_CFG_SET_CNF_NUM 0 None
  else m.

(** The loop over the TLVs; every round consumes two words or more. *)
Fixpoint proc_set_loop (fuel : nat) (fRsp : bool) (m : tAniSirGlobal) (len : Z) (pParam : list Z) :
    option tAniSirGlobal :=
  if len <? 8 then Some m
  else match fuel, pParam with
  | S n, w1 :: w2 :: p =>
      let cfgId := u16 w1 in
      let valueLen := u16 w2 in
      let len := len - 8 in
      '(m, result) ← proc_set_one m cfgId valueLen len p;
      let m := send_set_cnf fRsp m cfgId result in
      if len <? roundup4 valueLen then proc_set_loop n fRsp m 0 p
      else proc_set_loop n fRsp m (len - roundup4 valueLen)
             (drop (Z.to_nat (Z.shiftr (roundup4 valueLen) 2)) p)
  | _, _ => None
  end.

Definition proc_set_req_internal (m : tAniSirGlobal) (len : Z) (pParam : list Z) (fRsp : bool) :
    option tAniSirGlobal :=
  if bool_decide (gCfgStatus (cfg m) = CFG_INCOMPLETE) then
    w ← head pParam;
    Some (send_set_cnf fRsp m (u16 (sir_read_u32_n (le4 w))) WNI_CFG_NOT_READY)
  else proc_set_loop (length pParam) fRsp m len pParam.

Definition proc_set_req (m : tAniSirGlobal) (len : Z) (pParam : list Z) : option tAniSirGlobal :=
  proc_set_req_internal m len pParam true.
Definition proc_set_req_no_rsp (m : tAniSirGlobal) (len : Z) (pParam : list Z) :
    option tAniSirGlobal :=
  proc_set_req_internal m len pParam false.

(** ** Loading the store *)

(** The descending loop, common to both downloads, that writes the maximal
    length of every string slot from the distance to the next slot. *)
Definition fill_max_len (m : tAniSirGlobal) : tAniSirGlobal :=
  (foldl (λ '(m, bufEnd) i,
     let control := zget (g_cfg_entry (cfg m)) i in
     if has_flag control CFG_CTL_INT then (m, bufEnd)
     else if negb (has_flag control CFG_CTL_VALID) then (m, bufEnd)
     else
       let bufStart := Z.land control CFG_BUF_INDX_MASK in
       (m <| cfg ::= λ c, c <| gCfgSBuf ::= λ b, zset b bufStart (u8 (bufEnd - bufStart - 2)) |> |>,
        bufStart))
   (m, gCfgMaxSBufSize (cfg m)) (reverse (seqZ 0 CFG_PARAM_MAX_NUM))).1.

(** The log levels; [stack] is the value of the local variable when the
    parameter cannot be read. *)
Definition set_log_levels (stack : Z) (m : tAniSirGlobal) : tAniSirGlobal :=
  let lvl := match wlan_cfg_get_int m WNI_CFG_LOG_LEVEL with Ok v => v | Err _ => stack end in
  m <| gLogEvtLevel ::= map (λ _, lvl) |> <| gLogDbgLevel ::= map (λ _, lvl) |>.

(** First loop of [process_cfg_download_req]: assign the buffer indexes. *)
Definition assign_indexes (m : tAniSirGlobal) : tAniSirGlobal :=
  (foldl (λ '(m, iCount, sCount) i,
     let r := zget cfg_static i in
     let put index m := m <| cfg ::= λ c, c <| g_cfg_entry ::= λ e,
                          zset e i (Z.lor (control r) index) |> |> in
     if has_flag (control r) CFG_CTL_VALID then
       if negb (has_flag (control r) CFG_CTL_INT) then
         match pStrCfg m i with
         | None => (m, iCount, sCount)
         | Some s => (put (Z.land sCount CFG_BUF_INDX_MASK) m, iCount, u32 (sCount + maxLen s + 1 + 1))
         end
       else (put (Z.land iCount CFG_BUF_INDX_MASK) m, u32 (iCount + 1), sCount)
     else (put 0 m, iCount, sCount))
   (m, 0, 0) (seqZ 0 CFG_PARAM_MAX_NUM)).1.1.

(** Third loop: the default values. *)
Definition load_default (m : tAniSirGlobal) (i : Z) : tAniSirGlobal :=
  let r := zget cfg_static i in
  let control := zget (g_cfg_entry (cfg m)) i in
  let index := Z.land control CFG_BUF_INDX_MASK in
  if has_flag control CFG_CTL_INT then
    m <| cfg ::= λ c, c <| gCfgIBufMin ::= λ b, zset b index (cfgIMin r) |>
                        <| gCfgIBufMax ::= λ b, zset b index (cfgIMax r) |>
                        <| gCfgIBuf ::= λ b, zset b index (cfgIVal r) |> |>
  else if negb (has_flag control CFG_CTL_VALID) then m
  else if gCfgMaxSBufSize (cfg m) <=? index then m
  else match pStrCfg m i with
  | None => m
  | Some s =>
      let maxSavedLen := zget (gCfgSBuf (cfg m)) index in
      let len := str_length s in
      if maxSavedLen <? len then m
      else m <| cfg ::= λ c, c <| gCfgSBuf ::= λ b,
             zwrite b index (maxLen s :: len :: zread (data s) 0 len) |> |>
  end.

Definition process_cfg_download_req (stack : Z) (m : tAniSirGlobal) : tAniSirGlobal :=
  let m := assign_indexes m in
  let m := fill_max_len m in
  let m := foldl load_default m (seqZ 0 CFG_PARAM_MAX_NUM) in
  let m := set_log_levels stack m in
  let m := m <| cfg ::= λ c, c <| gCfgStatus := CFG_SUCCESS |> |> in
  set_param m WNI_CFG_DNLD_CNF_RES WNI_CFG_SUCCESS.

(** The bytes of a word in the order the download message stores them. *)
Definition be4 (w : Z) : list Z :=
  [u8 (Z.shiftr w 24); u8 (Z.shiftr w 16); u8 (Z.shiftr w 8); u8 w].

(** The string defaults of a download message: [strSize] bytes of
    [(id << 16 | len), value words]. *)
Fixpoint dnld_strings (fuel : nat) (m : tAniSirGlobal) (strSize : Z) (pSrc : list Z) :
    option (tAniSirGlobal * Z) :=
  if strSize =? 0 then Some (m, WNI_CFG_SUCCESS)
  else if strSize <? 4 then Some (m, WNI_CFG_INVALID_LEN)
  else match fuel, pSrc with
  | S n, w :: p =>
      let paramId := Z.shiftr w 16 in
      let paramLen := Z.land w 0xff in
      let strSize := strSize - 4 in
      let paramLenCeil4 := Z.shiftr (paramLen + 3) 2 in
      if strSize <? Z.shiftl paramLenCeil4 2 then Some (m, WNI_CFG_INVALID_LEN)
      else if Z.of_nat (length p) <? paramLenCeil4 then None
      else
        let pStr := zread p 0 paramLenCeil4 ≫= be4 in
        let '(m, st) := cfg_set_str m (u16 paramId) pStr paramLen in
        if negb (bool_decide (st = eSIR_SUCCESS)) then Some (m, WNI_CFG_INVALID_LEN)
        else dnld_strings n m (strSize - 4 * paramLenCeil4) (drop (Z.to_nat paramLenCeil4) p)
  | _, _ => None
  end.

(** The body of [proc_dnld_rsp] up to its [end] label: the state and [retVal]. *)
Definition proc_dnld_body (stack : Z) (m : tAniSirGlobal) (len : Z) (pParam : list Z) :
    option (tAniSirGlobal * Z) :=
  magic ← head pParam;
  if negb (magic =? CFG_STA_MAGIC_DWORD) then Some (m, WNI_CFG_INVALID_LEN)
  else
    let p := drop 1 pParam in
    let len := u16 (len - 4) in
    controlSize ← p !! 1%nat;
    iBufSize ← p !! 2%nat;
    sBufSize ← p !! 3%nat;
    let pSrc := drop 4 p in
    let n := gCfgMaxIBufSize (cfg m) in
    let expLen := u32 (Z.shiftl (CFG_PARAM_MAX_NUM + 3 * n) 2 + sBufSize + sizeof_tCfgBinHdr) in
    if negb (len =? expLen) then Some (m, WNI_CFG_INVALID_LEN)
    else if negb (controlSize =? CFG_PARAM_MAX_NUM) then Some (m, WNI_CFG_INVALID_LEN)
    else if negb (iBufSize =? n) then Some (m, WNI_CFG_INVALID_LEN)
    else if Z.of_nat (length pSrc) <? CFG_PARAM_MAX_NUM + 3 * n then None
    else
      let at_ k := CFG_PARAM_MAX_NUM + k * n in
      let m := m <| cfg ::= λ c,
        c <| g_cfg_entry ::= λ e, zwrite e 0 (zread pSrc 0 CFG_PARAM_MAX_NUM) |>
          <| gCfgIBuf ::= λ b, zwrite b 0 (zread pSrc (at_ 0) n) |>
          <| gCfgIBufMin ::= λ b, zwrite b 0 (zread pSrc (at_ 1) n) |>
          <| gCfgIBufMax ::= λ b, zwrite b 0 (zread pSrc (at_ 2) n) |> |> in
      let m := fill_max_len m in
      '(m, retVal) ← dnld_strings (length pSrc) m sBufSize (drop (Z.to_nat (at_ 3)) pSrc);
      if negb (retVal =? WNI_CFG_SUCCESS) then Some (m, retVal)
      else
        let m := set_log_levels stack m in
        Some (m <| cfg ::= λ c, c <| gCfgStatus := CFG_SUCCESS |> |>, WNI_CFG_SUCCESS).

Definition proc_dnld_rsp (stack : Z) (m : tAniSirGlobal) (len : Z) (pParam : list Z) :
    option tAniSirGlobal :=
  '(m, retVal) ← proc_dnld_body stack m len pParam;
  let m := if negb (retVal =? WNI_CFG_SUCCESS)
           then m <| cfg ::= λ c, c <| gCfgStatus := CFG_FAILURE |> |> else m in
  let m := set_param m WNI_CFG_DNLD_CNF_RES retVal in
  let m := cfg_send_host_msg m WNI_CFG_DNLD_CNF WNI_CFG_DNLD_CNF_LEN WNI_CFG_DNLD_CNF_NUM 0 None in
  Some (m <| outbox ::= λ o, o ++ [download_complete_ind] |>).

(** [cfg_process_mb_msg]: dispatch on the low bits of the message type. *)
Definition cfg_process_mb_msg (sizeof_ptr stack : Z) (m : tAniSirGlobal)
    (type msgLen : Z) (body : list Z) : option tAniSirGlobal :=
  let len := u16 (msgLen - WNI_CFG_MB_HDR_LEN) in
  match Z.to_nat (Z.land type 0x7f) with
  | 0%nat => proc_dnld_rsp stack m len body
  | 1%nat => proc_get_req sizeof_ptr m len body
  | 2%nat => proc_set_req m len body
  | 3%nat => proc_set_req_no_rsp m len body
  | _ => Some m
  end.

(** ** The store after the built-in download *)

(** A decision procedure for [cfg_wf]. *)
Definition int_ids (c : tAniSirCfg) : list Z := List.filter (is_int c) (seqZ 0 CFG_PARAM_MAX_NUM).
Definition str_ids (c : tAniSirCfg) : list Z := List.filter (is_str c) (seqZ 0 CFG_PARAM_MAX_NUM).

Definition cfg_wf_b (c : tAniSirCfg) : bool :=
  let lenI := Z.of_nat (length (gCfgIBuf c)) in
  let lenS := Z.of_nat (length (gCfgSBuf c)) in
  let ints := int_ids c in
  let strs := str_ids c in
  gCfgEntry c && (Z.of_nat (length (gCfgIBufMin c)) =? lenI) &&
  (Z.of_nat (length (gCfgIBufMax c)) =? lenI) &&
  forallb (λ id, let i := idx c id in
    (0 <=? i) && (i <? lenI) && (i <? gCfgMaxSBufSize c) &&
    (zget (gCfgIBufMin c) i <=? zget (gCfgIBuf c) i) &&
    (zget (gCfgIBuf c) i <=? zget (gCfgIBufMax c) i)) ints &&
  forallb (λ id, forallb (λ id', (id =? id') || negb (idx c id =? idx c id')) ints) ints &&
  forallb (λ id, let i := idx c id in
    (0 <=? i) && (i <? gCfgMaxSBufSize c) && (slot_end c id <=? lenS) &&
    (0 <=? zget (gCfgSBuf c) (i + 1)) && (zget (gCfgSBuf c) (i + 1) <=? zget (gCfgSBuf c) i) &&
    (zget (gCfgSBuf c) i <? 256)) strs &&
  forallb (λ id, forallb (λ id', (id =? id') || (slot_end c id <=? idx c id') ||
                                 (slot_end c id' <=? idx c id)) strs) strs.

Lemma filter_ids (P : Z → bool) id :
  0 <= id < CFG_PARAM_MAX_NUM → P id = true → In id (List.filter P (seqZ 0 CFG_PARAM_MAX_NUM)).
Proof.
  intros Hid HP. apply filter_In. split; [|done]. apply list_elem_of_In, elem_of_seqZ. lia.
Qed.

Lemma valid_id_range c id : valid_id c id = true → 0 <= id < CFG_PARAM_MAX_NUM.
Proof. unfold valid_id. intros. bool_hyps. lia. Qed.

Lemma int_ids_in c id : is_int c id = true → In id (int_ids c).
Proof. intros H. apply filter_ids; [|done]. eauto using valid_id_range, is_int_valid. Qed.
Lemma str_ids_in c id : is_str c id = true → In id (str_ids c).
Proof. intros H. apply filter_ids; [|done]. eauto using valid_id_range, is_str_valid. Qed.

Lemma cfg_wf_b_sound c : cfg_wf_b c = true → cfg_wf c.
Proof.
  unfold cfg_wf_b. cbv zeta. intros H. bool_hyps.
  repeat match goal with H : forallb _ _ = true |- _ => rewrite forallb_forall in H end.
  split; try done; try lia.
  - intros id Hi%int_ids_in.
    match goal with H : ∀ x, In x (int_ids c) → (0 <=? idx c x) && _ && _ && _ && _ = true |- _ =>
      specialize (H id Hi) end. bool_hyps. lia.
  - intros id id' Hi%int_ids_in Hi'%int_ids_in E.
    match goal with H : ∀ x, In x (int_ids c) → forallb _ _ = true |- _ => specialize (H id Hi) end.
    rewrite forallb_forall in *.
    match goal with H : ∀ x, In x (int_ids c) → _ || _ = true |- _ => specialize (H id' Hi') end.
    lia.
  - intros id Hi%str_ids_in.
    match goal with H : ∀ x, In x (str_ids c) → (0 <=? idx c x) && _ && _ && _ && _ && _ = true |- _ =>
      specialize (H id Hi) end. bool_hyps. lia.
  - intros id id' Hi%str_ids_in Hi'%str_ids_in E.
    match goal with H : ∀ x, In x (str_ids c) → forallb _ _ = true |- _ => specialize (H id Hi) end.
    rewrite forallb_forall in *.
    match goal with H : ∀ x, In x (str_ids c) → _ || _ || _ = true |- _ => specialize (H id' Hi') end.
    lia.
Qed.

(** The module's memory when the driver is loaded: the static arrays are zero. *)
Definition mac_boot (logs : list Z) (rrm : Z) : tAniSirGlobal :=
  mk_mac (mk_cfg CFG_INCOMPLETE false (replicate 222 0) [] [] [] [] 0 0
                 (replicate 256 0) (replicate 55 0))
         (replicate 222 None) logs logs rrm [] [].

(** The store after [cfg_init], whose allocation returned a block with the
    bytes [b], and [process_cfg_download_req]. *)
Definition downloaded (b : Z → Z) (stack : Z) (logs : list Z) (rrm : Z) : tAniSirGlobal :=
  process_cfg_download_req stack (cfg_init (Some b) (mac_boot logs rrm)).1.

(** The default of parameter [i] according to the tables. *)
Definition table_param (i : Z) : option param :=
  let r := zget cfg_static i in
  let before := (λ j, zget cfg_static j) <$> seqZ 0 i in
  let ints := Z.of_nat (length (List.filter (λ r, has_flag (control r) CFG_CTL_INT) before)) in
  let str_of r := List.find (λ s, str_cfgId s =? cfgId r) cfg_static_string in
  let bytes := foldr (λ r n, match str_of r with Some s => maxLen s + 2 + n | None => n end) 0
                 (List.filter (λ r, negb (has_flag (control r) CFG_CTL_INT)) before) in
  if has_flag (control r) CFG_CTL_INT
  then Some (PInt (Z.lor (control r) ints) (cfgIVal r) (cfgIMin r) (cfgIMax r))
  else (λ s, PStr (Z.lor (control r) bytes) (maxLen s) (zread (data s) 0 (str_length s))) <$> str_of r.

Definition param_eqb (p q : option param) : bool :=
  match p, q with
  | Some (PInt c v mn mx), Some (PInt c' v' mn' mx') =>
      (c =? c') && (v =? v') && (mn =? mn') && (mx =? mx')
  | Some (PStr c mx s), Some (PStr c' mx' s') => (c =? c') && (mx =? mx') && bool_decide (s = s')
  | None, None => true
  | _, _ => false
  end.

Lemma param_eqb_sound p q : param_eqb p q = true → p = q.
Proof.
  destruct p as [[]|], q as [[]|]; cbn; intros; try done; bool_hyps; by subst.
Qed.

Lemma downloaded_check b stack logs rrm :
  let c := cfg (downloaded b stack logs rrm) in
  cfg_wf_b c && forallb (λ i, param_eqb (param_of c i) (table_param i)) (seqZ 0 CFG_PARAM_MAX_NUM)
  = true.
Proof. vm_compute. reflexivity. Qed.

(** Whatever the allocator's block contained, [cfg_init] succeeds and the
    built-in download leaves a well-formed, ready store holding exactly the
    table: every integer parameter has its own cell with the table's default and
    limits (the default within the limits), every string parameter its own slot
    with the table's capacity and default bytes, no slots overlap, and ids
    beyond the table name nothing.  When the allocation fails [cfg_init] says so. *)
Theorem download_builds_store b stack logs rrm :
  (cfg_init (Some b) (mac_boot logs rrm)).2 = eSIR_SUCCESS ∧
  (cfg_init None (mac_boot logs rrm)).2 = eSIR_MEM_ALLOC_FAILED ∧
  gCfgStatus (cfg (downloaded b stack logs rrm)) = CFG_SUCCESS ∧
  cfg_wf (cfg (downloaded b stack logs rrm)) ∧
  ∀ id, param_of (cfg (downloaded b stack logs rrm)) id =
        if (0 <=? id) && (id <? CFG_PARAM_MAX_NUM) then table_param id else None.
Proof.
  pose proof (downloaded_check b stack logs rrm) as H. cbv zeta in H.
  apply andb_true_iff in H as [Hwf Hp]. rewrite forallb_forall in Hp.
  split; [vm_compute; reflexivity|]. split; [vm_compute; reflexivity|].
  split; [vm_compute; reflexivity|]. split; [exact (cfg_wf_b_sound _ Hwf)|].
  clear Hwf. intros id. destruct (_ && _) eqn:E; bool_hyps.
  - apply param_eqb_sound, Hp, list_elem_of_In, elem_of_seqZ. lia.
  - destruct (valid_id (cfg (downloaded b stack logs rrm)) id) eqn:Hv.
    + apply valid_id_range in Hv. lia.
    + unfold param_of, is_int, is_str. by rewrite Hv.
Qed.

(** ** Host messages *)

(** What the typed view of the store depends on. *)
Definition core (c : tAniSirCfg) : tAniSirCfg :=
  c <| gParamList := [] |> <| gSBuffer := [] |> <| gCfgStatus := CFG_INCOMPLETE |>.

Lemma param_of_core c id : param_of (core c) id = param_of c id.
Proof. done. Qed.
Lemma cfg_wf_core c : cfg_wf (core c) ↔ cfg_wf c.
Proof. split; intros [H1 H2 H3 H4 H5 H6 H7]; by split. Qed.
Lemma param_core_eq c c' id : core c = core c' → param_of c id = param_of c' id.
Proof. intros E. by rewrite <- param_of_core, E. Qed.
Lemma wf_core_eq c c' : core c = core c' → cfg_wf c → cfg_wf c'.
Proof. rewrite <- !(cfg_wf_core c), <- !(cfg_wf_core c'). by intros ->. Qed.
Lemma represents_core c c' st : core c = core c' → represents c st → represents c' st.
Proof.
  intros E [Hwf Hst]. split; [by eapply wf_core_eq|].
  intros id. rewrite Hst. by apply param_core_eq.
Qed.

Lemma set_param_core m i v : core (cfg (set_param m i v)) = core (cfg m).
Proof. done. Qed.
Lemma send_host_cfg m t l n d p : cfg (cfg_send_host_msg m t l n d p) = cfg m.
Proof. unfold cfg_send_host_msg. by repeat split_if. Qed.
Lemma send_set_cnf_core r m id v : core (cfg (send_set_cnf r m id v)) = core (cfg m).
Proof. unfold send_set_cnf. by split_if; rewrite ?send_host_cfg. Qed.
Lemma get_str_value_core m b n m' : get_str_value m b n = Some m' → core (cfg m') = core (cfg m).
Proof. unfold get_str_value. split_if; [done|]. by intros [= <-]. Qed.

(** A get request changes nothing of the store. *)
Lemma proc_get_one_core sp m id : core (cfg (proc_get_one sp m id)) = core (cfg m).
Proof.
  unfold proc_get_one. repeat case_match; simplify_eq; by rewrite send_host_cfg.
Qed.
Lemma proc_get_req_core sp m len p m' :
  proc_get_req sp m len p = Some m' → core (cfg m') = core (cfg m).
Proof.
  unfold proc_get_req. split_if.
  - destruct p as [|w p]; [done|]. intros [= <-]. by rewrite send_host_cfg.
  - clear E. revert m len. induction p as [|w p IH]; intros m len; cbn; split_if; try done.
    + by intros [= ->].
    + by intros [= ->].
    + intros ->%IH. apply proc_get_one_core.
Qed.

(** [preserved c c']: the same layout and permissions, and only parameters the
    host may write have changed. *)
Definition writable (c : tAniSirCfg) (id : Z) : bool :=
  valid_id c id && has_flag (ctl c id) CFG_CTL_WE.
Record preserved (c c' : tAniSirCfg) : Prop := {
  pres_wf : cfg_wf c';
  pres_ctl : g_cfg_entry c' = g_cfg_entry c;
  pres_ro id : writable c id = false → param_of c' id = param_of c id;
}.

Lemma preserved_core c c' : cfg_wf c → core c' = core c → preserved c c'.
Proof.
  intros Hwf E. split; [by eapply wf_core_eq| |].
  - by apply (f_equal g_cfg_entry) in E.
  - intros id _. by apply param_core_eq.
Qed.

Lemma preserved_trans c1 c2 c3 : preserved c1 c2 → preserved c2 c3 → preserved c1 c3.
Proof.
  intros [W1 C1 R1] [W2 C2 R2]. split; [done|congruence|].
  intros id H. rewrite R2; [by apply R1|]. revert H. unfold writable, valid_id, ctl. by rewrite C1.
Qed.

Lemma check_param_writable m id r :
  0 <= id → check_param m id CFG_CTL_WE r = None ↔ writable (cfg m) id = true.
Proof.
  intros Hid. unfold check_param, writable, valid_id, ctl.
  replace (0 <=? id) with true by lia. destruct (Z.leb_spec CFG_PARAM_MAX_NUM id) as [H|H].
  - replace (id <? CFG_PARAM_MAX_NUM) with false by lia. done.
  - replace (id <? CFG_PARAM_MAX_NUM) with true by lia. cbn [andb].
    destruct (has_flag _ CFG_CTL_VALID), (has_flag _ CFG_CTL_WE); done.
Qed.

(** The host's view of one accepted TLV, as a single store operation. *)
Definition store_set (m : tAniSirGlobal) (id : Z) (bytes : list Z) : tAniSirGlobal * tSirRetStatus :=
  if is_int (cfg m) id then
    cfg_set_int m id (of_le4 (zget bytes 0) (zget bytes 1) (zget bytes 2) (zget bytes 3))
  else cfg_set_str m id bytes (Z.of_nat (length bytes)).

Lemma preserved_set_int m id v :
  cfg_wf (cfg m) → writable (cfg m) id = true → is_int (cfg m) id = true →
  preserved (cfg m) (cfg (cfg_set_int m id v).1).
Proof.
  intros Hwf Hw Hi. pose proof (check_valid_ok m id Hwf (is_int_valid _ _ Hi)) as Hc.
  destruct (decide (zget (gCfgIBufMin (cfg m)) (idx (cfg m) id) <= v
                    <= zget (gCfgIBufMax (cfg m)) (idx (cfg m) id))) as [Hr|Hr].
  - destruct (cfg_set_int_cfg m id v _ Hc Hr) as [_ ->].
    split; [by apply wf_write_int|done|]. intros id' Hw'.
    rewrite param_write_int by done. rewrite decide_False; [done|]. intros ->. congruence.
  - rewrite (cfg_set_int_range m id v _ Hc Hr). by apply preserved_core.
Qed.

Lemma preserved_set_str m id s n nm :
  cfg_wf (cfg m) → writable (cfg m) id = true → is_str (cfg m) id = true →
  0 <= n <= Z.of_nat (length s) →
  preserved (cfg m) (cfg (cfg_set_str_notify m id s n nm).1).
Proof.
  intros Hwf Hw Hs Hn. pose proof (check_valid_ok m id Hwf (is_str_valid _ _ Hs)) as Hc.
  destruct (decide (n <= zget (gCfgSBuf (cfg m)) (idx (cfg m) id))) as [Hr|Hr].
  - destruct (cfg_set_str_cfg m id s n nm _ Hc Hr) as [_ ->].
    assert (Z.of_nat (length (zread s 0 n)) = n) as Hl by (apply length_zread; red; lia).
    split; [apply wf_write_str; [done..|lia|done]|done|]. intros id' Hw'.
    rewrite param_write_str by (done || lia). rewrite decide_False; [done|]. intros ->. congruence.
  - rewrite (cfg_set_str_len m id s n nm _ Hc) by lia. by apply preserved_core.
Qed.

Lemma proc_set_one_preserved m id vl len p m' r :
  cfg_wf (cfg m) → 0 <= id → 0 <= vl → proc_set_one m id vl len p = Some (m', r) →
  preserved (cfg m) (cfg m').
Proof.
  intros Hwf Hid Hvl. unfold proc_set_one.
  destruct (check_param m id CFG_CTL_WE WNI_CFG_RO_PARAM) eqn:Hc.
  { intros [= <- _]. by apply preserved_core. }
  apply check_param_writable in Hc as Hw; [|done].
  assert (valid_id (cfg m) id = true) as Hv by (unfold writable in Hw; by bool_hyps).
  change (zget (g_cfg_entry (cfg m)) id) with (ctl (cfg m) id).
  destruct (has_flag (ctl (cfg m) id) CFG_CTL_INT) eqn:Hi.
  - assert (is_int (cfg m) id = true) as Hint by (unfold is_int; by rewrite Hv, Hi).
    split_if; [intros [= <- _]; by apply preserved_core|].
    destruct p as [|v p]; [done|]. cbn.
    pose proof (preserved_set_int m id v Hwf Hw Hint) as Hp.
    destruct (cfg_set_int m id v) as [m1 st]. by intros [= <- _].
  - assert (is_str (cfg m) id = true) as Hstr by (unfold is_str; by rewrite Hv, Hi).
    split_if; [intros [= <- _]; by apply preserved_core|].
    destruct (get_str_value m (words_bytes p) vl) as [m1|] eqn:Hg; [|done]. cbn.
    apply get_str_value_core in Hg as Hcore.
    assert (0 <= vl <= Z.of_nat (length (gSBuffer (cfg m1)))) as Hl.
    { unfold get_str_value in Hg. split_if_in Hg; [done|]. injection Hg as <-. bool_hyps.
      cbn. rewrite length_zwrite. lia. }
    assert (preserved (cfg m) (cfg m1)) as Hp1 by by apply preserved_core.
    intros Es. eapply preserved_trans; [exact Hp1|].
    assert (cfg m' = cfg (cfg_set_str m1 id (gSBuffer (cfg m1)) vl).1) as ->
      by (destruct (cfg_set_str m1 id (gSBuffer (cfg m1)) vl); by injection Es as <- _).
    apply preserved_set_str; [apply Hp1| | |done].
    + revert Hw. unfold writable, valid_id, ctl. by rewrite (pres_ctl _ _ Hp1).
    + revert Hstr. unfold is_str, valid_id, ctl. by rewrite (pres_ctl _ _ Hp1).
Qed.

Lemma proc_set_loop_preserved fuel rsp m len p m' :
  cfg_wf (cfg m) → proc_set_loop fuel rsp m len p = Some m' → preserved (cfg m) (cfg m').
Proof.
  revert m len p. induction fuel as [|fuel IH]; intros m len p Hwf; cbn [proc_set_loop]; split_if;
    try done; try (intros [= <-]; by apply preserved_core).
  destruct p as [|w1 [|w2 p]]; try done.
  destruct (proc_set_one m (u16 w1) (u16 w2) (len - 8) p) as [[m1 r]|] eqn:H1; [|done].
  cbn -[roundup4]. pose proof (u16_range w1) as [? _]. pose proof (u16_range w2) as [? _].
  apply proc_set_one_preserved in H1; [|done..].
  assert (preserved (cfg m) (cfg (send_set_cnf rsp m1 (u16 w1) r))) as H2.
  { eapply preserved_trans; [exact H1|]. apply preserved_core; [apply H1|apply send_set_cnf_core]. }
  split_if; intros H3%IH; try apply H2; by eapply preserved_trans.
Qed.

(** No get or set message from the host, well-formed or not, breaks the
    store or touches what the host may not write: whenever the handler runs to
    its end, the store is still well-formed, its layout and permissions are
    unchanged, and every parameter without the host-write flag has its old
    value. *)
Theorem host_messages_safe sp stack m type msgLen body m' :
  cfg_wf (cfg m) → Z.land type 0x7f ≠ 0 →
  cfg_process_mb_msg sp stack m type msgLen body = Some m' →
  cfg_wf (cfg m') ∧ g_cfg_entry (cfg m') = g_cfg_entry (cfg m) ∧
  ∀ id, writable (cfg m) id = false → param_of (cfg m') id = param_of (cfg m) id.
Proof.
  intros Hwf Ht Hm.
  assert (preserved (cfg m) (cfg m')) as [? ? ?]; [|done].
  assert (∀ rsp len, proc_set_req_internal m len body rsp = Some m' → preserved (cfg m) (cfg m'))
    as Hset.
  { intros rsp len. unfold proc_set_req_internal. split_if.
    - destruct body as [|w body]; [done|]. intros [= <-].
      apply preserved_core; [done|apply send_set_cnf_core].
    - by apply proc_set_loop_preserved. }
  unfold cfg_process_mb_msg in Hm.
  destruct (Z.to_nat (Z.land type 0x7f)) as [|[|[|[|n]]]] eqn:E.
  - assert (0 <= Z.land type 0x7f) by (apply Z.land_nonneg; lia). lia.
  - apply preserved_core; [done|]. by eapply proc_get_req_core.
  - by eapply Hset.
  - by eapply Hset.
  - injection Hm as <-. by apply preserved_core.
Qed.

(** The demonstration store of [CfgApi], ready for the host. *)
Definition demo_body : list Z := [0; 4; 12; 1; 2; 0x0909; 7; 4; 1].

Lemma host_messages_safe_witness :
  is_Some (cfg_process_mb_msg 8 0 demo_mac 2 40 demo_body) ∧
  ∀ m', cfg_process_mb_msg 8 0 demo_mac 2 40 demo_body = Some m' →
        param_of (cfg m') 1 = Some (PStr 0x30000 3 [7; 8]).
Proof.
  split; [vm_compute; eauto|]. intros m' Hm.
  destruct (host_messages_safe 8 0 demo_mac 2 40 demo_body m') as (_ & _ & Hp).
  - apply demo_represents.
  - vm_compute. congruence.
  - exact Hm.
  - rewrite Hp by reflexivity. reflexivity.
Defined.

(** ** A well-formed set message *)

(** A request: parameter id and value bytes; its TLV pads the value to words. *)
Definition request : Type := Z * list Z.
Fixpoint pack4 (bs : list Z) : list Z :=
  match bs with
  | [] => []
  | [a] => [of_le4 a 0 0 0]
  | [a; b] => [of_le4 a b 0 0]
  | [a; b; c] => [of_le4 a b c 0]
  | a :: b :: c :: d :: bs' => of_le4 a b c d :: pack4 bs'
  end.
Definition encode_req (r : request) : list Z := r.1 :: Z.of_nat (length r.2) :: pack4 r.2.
Definition encode_reqs (rs : list request) : list Z := rs ≫= encode_req.

(** Induction by groups of four bytes. *)
Lemma four_ind (P : list Z → Prop) :
  P [] → (∀ a, P [a]) → (∀ a b, P [a; b]) → (∀ a b c, P [a; b; c]) →
  (∀ a b c d l, P l → P (a :: b :: c :: d :: l)) → ∀ l, P l.
Proof.
  intros H0 H1 H2 H3 H4. fix IH 1. intros [|a [|b [|c [|d l]]]].
  - exact H0.
  - exact (H1 a).
  - exact (H2 a b).
  - exact (H3 a b c).
  - apply H4, IH.
Qed.

Lemma of_le4_bytes a b c d :
  is_u8 a → is_u8 b → is_u8 c → is_u8 d → le4 (of_le4 a b c d) = [a; b; c; d].
Proof.
  intros. unfold le4, of_le4. rewrite !Z.shiftr_div_pow2 by lia. cbn. repeat f_equal; word_lia.
Qed.

Lemma length_pack4 bs : Z.of_nat (length (pack4 bs)) = (Z.of_nat (length bs) + 3) / 4.
Proof.
  induction bs as [| | | |a b c d bs IH] using four_ind; try done.
  cbn [pack4 length]. rewrite !Nat2Z.inj_succ, IH. word_lia.
Qed.

Lemma pack4_bytes bs rest :
  Forall is_u8 bs → zread (words_bytes (pack4 bs ++ rest)) 0 (Z.of_nat (length bs)) = bs.
Proof.
  assert (is_u8 0) as H0 by (red; lia).
  unfold zread. rewrite Nat2Z.id. change (Z.to_nat 0) with 0%nat. rewrite drop_0.
  induction bs as [|a|a b|a b c|a b c d bs IH] using four_ind; intros Hb; [done|..];
    rewrite ?Forall_cons in Hb; destruct_and?; cbn [pack4 app];
    unfold words_bytes in *; cbn [mbind list_bind]; rewrite of_le4_bytes by done;
    cbn [app take length]; try done.
  by rewrite IH.
Qed.

Lemma words_bytes_length ws : length (words_bytes ws) = (4 * length ws)%nat.
Proof.
  induction ws as [|w ws IH]; [done|].
  change (words_bytes (w :: ws)) with (le4 w ++ words_bytes ws).
  rewrite length_app, IH. cbn. lia.
Qed.

Lemma roundup4_pack bs :
  Z.of_nat (length bs) <= 65532 → roundup4 (Z.of_nat (length bs)) = 4 * Z.of_nat (length (pack4 bs)).
Proof.
  intros. rewrite length_pack4. unfold roundup4.
  rewrite Z.shiftl_mul_pow2, Z.shiftr_div_pow2 by lia. change (2 ^ 2) with 4.
  rewrite u16_small; word_lia.
Qed.

(** The abstract host request. *)
Definition a_result (ctl : Z) (st : tSirRetStatus) : Z :=
  if negb (bool_decide (st = eSIR_SUCCESS)) then WNI_CFG_OTHER_ERROR
  else if has_flag ctl CFG_CTL_RESTART then WNI_CFG_NEED_RESTART
  else if has_flag ctl CFG_CTL_RELOAD then WNI_CFG_NEED_RELOAD
  else WNI_CFG_SUCCESS.

Definition a_host_set (st : gmap Z param) (r : request) : gmap Z param * Z :=
  let '(id, bs) := r in
  match st !! id with
  | Some (PInt c _ _ _) =>
      if negb (has_flag c CFG_CTL_WE) then (st, WNI_CFG_INVALID_LEN)
      else match bs with
      | [b0; b1; b2; b3] =>
          let '(st', s) := a_set_int st id (of_le4 b0 b1 b2 b3) in (st', a_result c s)
      | _ => (st, WNI_CFG_INVALID_LEN)
      end
  | Some (PStr c _ _) =>
      if negb (has_flag c CFG_CTL_WE) then (st, WNI_CFG_INVALID_LEN)
      else let '(st', s) := a_set_str st id bs in (st', a_result c s)
  | None => (st, WNI_CFG_INVALID_LEN)
  end.

Fixpoint a_host_sets (st : gmap Z param) (rs : list request) : gmap Z param * list (Z * Z) :=
  match rs with
  | [] => (st, [])
  | r :: rs' =>
      let '(st1, v) := a_host_set st r in
      let '(st2, vs) := a_host_sets st1 rs' in (st2, (r.1, v) :: vs)
  end.

(** The confirmations in the outbox, as [(parameter, result)]. *)
Definition is_cnf (msg : cfg_msg) : option (Z * Z) :=
  match msg with
  | host_msg t _ [res; pid] _ => if t =? WNI_CFG_SET_CNF then Some (pid, res) else None
  | _ => None
  end.
Definition confirmations (m : tAniSirGlobal) : list (Z * Z) := omap is_cnf (outbox m).

(** The state in which the handlers run: the store, the scratch buffers. *)
Record ready (m : tAniSirGlobal) (st : gmap Z param) : Prop := {
  ready_rep : represents (cfg m) st;
  ready_buf : length (gSBuffer (cfg m)) = 256%nat;
  ready_par : (2 <= length (gParamList (cfg m)))%nat;
  ready_alloc : allocs m = [];
}.

Lemma notify_quiet m id mask :
  confirmations (notify m id mask) = confirmations m ∧ allocs (notify m id mask) = allocs m.
Proof.
  unfold notify, confirmations. repeat split_if; cbn; rewrite ?omap_app; cbn;
    by rewrite ?app_nil_r.
Qed.

(** Setting a parameter leaves the scratch state and the confirmations alone. *)
Definition quiet (m m' : tAniSirGlobal) : Prop :=
  confirmations m' = confirmations m ∧ allocs m' = allocs m ∧
  gSBuffer (cfg m') = gSBuffer (cfg m) ∧ gParamList (cfg m') = gParamList (cfg m).

Lemma set_int_quiet m id v : quiet m (cfg_set_int m id v).1.
Proof.
  unfold cfg_set_int, quiet. repeat case_match; try done; cbn [fst].
  rewrite cfg_notify. match goal with |- context [notify ?m ?i ?k] =>
    destruct (notify_quiet m i k) as [-> ->] end. done.
Qed.
Lemma set_str_quiet m id s n nm : quiet m (cfg_set_str_notify m id s n nm).1.
Proof.
  unfold cfg_set_str_notify, quiet. repeat case_match; try done; cbn [fst].
  rewrite cfg_notify. match goal with |- context [notify ?m ?i ?k] =>
    destruct (notify_quiet m i k) as [-> ->] end. done.
Qed.

Lemma ready_quiet m m' st st' :
  ready m st → quiet m m' → represents (cfg m') st' → ready m' st'.
Proof. intros [? Hb Hp Ha] (? & E1 & E2 & E3) ?. split; [done|..]; congruence. Qed.

Lemma send_set_cnf_ready m st rsp id v :
  ready m st →
  ready (send_set_cnf rsp m id v) st ∧
  confirmations (send_set_cnf rsp m id v) =
    confirmations m ++ (if rsp then [(id, v)] else []).
Proof.
  intros [Hr Hb Hp Ha]. split.
  - split.
    + eapply represents_core; [|done]. symmetry. apply send_set_cnf_core.
    + unfold send_set_cnf. destruct rsp; rewrite ?send_host_cfg; exact Hb.
    + unfold send_set_cnf. destruct rsp; rewrite ?send_host_cfg; cbn; by rewrite !length_zset.
    + unfold send_set_cnf, cfg_send_host_msg. destruct rsp; cbn; rewrite Ha; cbn; by rewrite ?Ha.
  - unfold send_set_cnf, cfg_send_host_msg, confirmations. destruct rsp; cbn; [|by rewrite app_nil_r].
    rewrite Ha. cbn. rewrite omap_app. f_equal. cbn.
    destruct (gParamList (cfg m)) as [|x [|y l]]; cbn in Hp; try lia. done.
Qed.

Lemma status_result_eq m id s :
  gCfgEntry (cfg m) = true → status_result m s id = a_result (ctl (cfg m) id) s.
Proof.
  intros Hp. unfold status_result, a_result, set_result, cfg_need_restart, cfg_need_reload.
  rewrite Hp. cbn [negb]. unfold ctl.
  destruct (bool_decide (s = eSIR_SUCCESS)); [|done]. cbn [negb].
  destruct (has_flag _ CFG_CTL_RESTART); [done|]. by destruct (has_flag _ CFG_CTL_RELOAD).
Qed.

(** Well-formedness of a store fixes its control words. *)
Lemma set_keeps_ctl m id v s n nm :
  g_cfg_entry (cfg (cfg_set_int m id v).1) = g_cfg_entry (cfg m) ∧
  g_cfg_entry (cfg (cfg_set_str_notify m id s n nm).1) = g_cfg_entry (cfg m).
Proof.
  unfold cfg_set_int, cfg_set_str_notify. split; repeat case_match; cbn [fst];
    by rewrite ?cfg_notify.
Qed.

(** The check and the store agree on what the host may write. *)
Lemma check_param_store m st id r :
  represents (cfg m) st → 0 <= id →
  check_param m id CFG_CTL_WE r = None ↔
  ∃ c, has_flag c CFG_CTL_WE = true ∧ c = ctl (cfg m) id ∧
    ((has_flag c CFG_CTL_INT = true ∧ ∃ v mn mx, st !! id = Some (PInt c v mn mx)) ∨
     (has_flag c CFG_CTL_INT = false ∧ ∃ mx s, st !! id = Some (PStr c mx s))).
Proof.
  intros [Hwf Hst] Hid. rewrite check_param_writable by done. unfold writable. rewrite Hst.
  destruct (param_cases (cfg m) id Hid) as [[E Hv]|[[Hi E]|[Hs E]]]; rewrite E.
  - rewrite Hv. naive_solver.
  - pose proof (is_int_valid _ _ Hi) as Hv. unfold is_int in Hi. rewrite Hv in Hi |- *.
    cbn [andb] in *. naive_solver.
  - pose proof (is_str_valid _ _ Hs) as Hv. unfold is_str in Hs. rewrite Hv in Hs |- *.
    cbn [andb] in *. bool_hyps. naive_solver.
Qed.

Lemma a_host_set_denied st id bs m :
  represents (cfg m) st → 0 <= id → check_param m id CFG_CTL_WE WNI_CFG_RO_PARAM ≠ None →
  a_host_set st (id, bs) = (st, WNI_CFG_INVALID_LEN).
Proof.
  intros Hr Hid Hc. unfold a_host_set.
  assert (writable (cfg m) id = false) as Hw.
  { destruct (writable (cfg m) id) eqn:Hw; [|done]. by rewrite <- check_param_writable in Hw. }
  unfold writable in Hw. rewrite (proj2 Hr).
  destruct (param_cases (cfg m) id Hid) as [[E Hv]|[[Hi E]|[Hs E]]]; rewrite E; [done|..].
  - rewrite (is_int_valid _ _ Hi) in Hw. cbn in Hw. by rewrite Hw.
  - rewrite (is_str_valid _ _ Hs) in Hw. cbn in Hw. by rewrite Hw.
Qed.

Lemma proc_set_int_refines m st id bs rest len c v mn mx :
  ready m st → 0 <= id → st !! id = Some (PInt c v mn mx) → c = ctl (cfg m) id →
  has_flag c CFG_CTL_WE = true → has_flag c CFG_CTL_INT = true →
  check_param m id CFG_CTL_WE WNI_CFG_RO_PARAM = None →
  ∃ m', proc_set_one m id (Z.of_nat (length bs)) len (pack4 bs ++ rest) =
          Some (m', (a_host_set st (id, bs)).2) ∧
        ready m' (a_host_set st (id, bs)).1 ∧ confirmations m' = confirmations m.
Proof.
  intros Hrd Hid Hst Hctl Hwe Hint Hc. unfold proc_set_one, a_host_set. rewrite Hc, Hst, Hwe.
  change (zget (g_cfg_entry (cfg m)) id) with (ctl (cfg m) id). rewrite <- Hctl, Hint.
  cbn [negb].
  destruct bs as [|b0 [|b1 [|b2 [|b3 [|b4 bs]]]]];
    try (replace (_ =? 4) with false by (cbn; lia); cbn [negb]; by eauto).
  cbn [length Z.of_nat Pos.of_succ_nat Pos.succ Z.eqb Pos.eqb negb pack4 app head mbind option_bind].
  set (w := of_le4 b0 b1 b2 b3).
  destruct (refine_set_int m st id w (ready_rep _ _ Hrd) Hid) as [Es Er]; [by rewrite Hst|].
  pose proof (set_int_quiet m id w) as Hq.
  destruct (set_keeps_ctl m id w [] 0 true) as [Hk _].
  destruct (cfg_set_int m id w) as [m1 s1], (a_set_int st id w) as [st1 s1']. cbn [fst snd] in *.
  subst s1'. exists m1. split_and!; [|by eapply ready_quiet|apply Hq].
  rewrite status_result_eq by apply (wf_ptr _ (proj1 Er)).
  unfold ctl in *. by rewrite Hk, <- Hctl.
Qed.

Lemma proc_set_str_refines m st id bs rest len c mx s :
  ready m st → 0 <= id → st !! id = Some (PStr c mx s) → c = ctl (cfg m) id →
  has_flag c CFG_CTL_WE = true → has_flag c CFG_CTL_INT = false →
  check_param m id CFG_CTL_WE WNI_CFG_RO_PARAM = None →
  Forall is_u8 bs → (length bs <= 256)%nat → 4 * Z.of_nat (length (pack4 bs)) <= len →
  ∃ m', proc_set_one m id (Z.of_nat (length bs)) len (pack4 bs ++ rest) =
          Some (m', (a_host_set st (id, bs)).2) ∧
        ready m' (a_host_set st (id, bs)).1 ∧ confirmations m' = confirmations m.
Proof.
  intros Hrd Hid Hst Hctl Hwe Hint Hc Hb Hn Hlen. unfold proc_set_one, a_host_set.
  rewrite Hc, Hst, Hwe.
  change (zget (g_cfg_entry (cfg m)) id) with (ctl (cfg m) id). rewrite <- Hctl, Hint.
  cbn [negb]. rewrite roundup4_pack by lia. replace (len <? _) with false by lia.
  unfold get_str_value. rewrite (ready_buf _ _ Hrd), words_bytes_length, length_app.
  pose proof (length_pack4 bs) as Hp.
  replace (_ || _) with false by word_lia. rewrite pack4_bytes by done.
  cbn [mbind option_bind].
  set (m1 := m <| cfg ::= _ |>).
  assert (ready m1 st) as Hrd1.
  { split; [|cbn; by rewrite length_zwrite, (ready_buf _ _ Hrd)|apply Hrd|apply Hrd].
    eapply represents_core; [|apply Hrd]. done. }
  assert (zread (gSBuffer (cfg m1)) 0 (Z.of_nat (length bs)) = bs) as Hbs.
  { apply zread_zwrite_eq; [lia|]. rewrite (ready_buf _ _ Hrd). lia. }
  destruct (refine_set_str m1 st id (gSBuffer (cfg m1)) (Z.of_nat (length bs)) true) as [Es Er];
    [apply Hrd1|done|rewrite (ready_buf _ _ Hrd1); lia|by rewrite Hst|].
  rewrite Hbs in Es, Er. unfold cfg_set_str.
  pose proof (set_str_quiet m1 id (gSBuffer (cfg m1)) (Z.of_nat (length bs)) true) as Hq.
  destruct (set_keeps_ctl m1 id 0 (gSBuffer (cfg m1)) (Z.of_nat (length bs)) true) as [_ Hk].
  destruct (cfg_set_str_notify m1 id _ _ true) as [m2 s2], (a_set_str st id bs) as [st2 s2'].
  cbn [fst snd] in *. subst s2'. exists m2. split_and!; [|by eapply ready_quiet|].
  - rewrite status_result_eq by apply (wf_ptr _ (proj1 Er)).
    unfold ctl in *. by rewrite Hk, Hctl.
  - destruct Hq as [-> _]. done.
Qed.

Lemma proc_set_one_refines m st id bs rest len :
  ready m st → 0 <= id → Forall is_u8 bs → (length bs <= 256)%nat →
  4 * Z.of_nat (length (pack4 bs)) <= len →
  ∃ m', proc_set_one m id (Z.of_nat (length bs)) len (pack4 bs ++ rest) =
          Some (m', (a_host_set st (id, bs)).2) ∧
        ready m' (a_host_set st (id, bs)).1 ∧ confirmations m' = confirmations m.
Proof.
  intros Hrd Hid Hb Hn Hlen.
  destruct (check_param m id CFG_CTL_WE WNI_CFG_RO_PARAM) as [e|] eqn:Hc.
  - rewrite (a_host_set_denied st id bs m (ready_rep _ _ Hrd) Hid) by congruence.
    unfold proc_set_one. rewrite Hc. eauto.
  - apply (check_param_store m st id _ (ready_rep _ _ Hrd) Hid) in Hc as H.
    destruct H as (c & Hwe & Hctl & [(Hi & v & mn & mx & Hst)|(Hi & mx & s & Hst)]).
    + by eapply proc_set_int_refines.
    + by eapply proc_set_str_refines.
Qed.

Lemma proc_set_loop_refines rs fuel rsp m st :
  ready m st →
  Forall (λ r : request, is_u16 r.1 ∧ Forall is_u8 r.2 ∧ (length r.2 <= 256)%nat) rs →
  (length (encode_reqs rs) <= fuel)%nat →
  ∃ m', proc_set_loop fuel rsp m (4 * Z.of_nat (length (encode_reqs rs))) (encode_reqs rs) = Some m' ∧
    ready m' (a_host_sets st rs).1 ∧
    confirmations m' = confirmations m ++ (if rsp then (a_host_sets st rs).2 else []).
Proof.
  revert m st fuel. induction rs as [|[id bs] rs IH]; intros m st fuel Hrd Hrs Hf.
  { exists m. destruct fuel, rsp; cbn; by rewrite app_nil_r. }
  apply Forall_cons in Hrs as [(Hid & Hb & Hn) Hrs]. cbn [fst snd] in Hid, Hb, Hn.
  assert (encode_reqs (@cons request (id, bs) rs) = id :: Z.of_nat (length bs) :: pack4 bs ++ encode_reqs rs)
    as Henc by done. rewrite Henc in Hf |- *. cbn [length] in *. rewrite length_app in *.
  destruct fuel as [|fuel]; [lia|]. cbn [proc_set_loop].
  replace (_ <? 8) with false by lia.
  assert (u16 id = id) as -> by (by apply u16_small).
  assert (u16 (Z.of_nat (length bs)) = Z.of_nat (length bs)) as -> by (apply u16_small; red; lia).
  destruct (proc_set_one_refines m st id bs (encode_reqs rs)
    (4 * Z.of_nat (S (S (length (pack4 bs) + length (encode_reqs rs)))) - 8))
    as (m1 & -> & Hrd1 & Hc1); [done|apply Hid|done|done|lia|].
  cbn [mbind option_bind a_host_sets].
  destruct (a_host_set st (id, bs)) as [st1 v]. cbn [fst snd] in *.
  destruct (send_set_cnf_ready m1 st1 rsp id v Hrd1) as [Hrd2 Hc2].
  rewrite roundup4_pack by lia. replace (_ <? _) with false by lia.
  replace (_ - 8 - _) with (4 * Z.of_nat (length (encode_reqs rs))) by lia.
  replace (drop _ _) with (encode_reqs rs).
  2: { rewrite Z.shiftr_div_pow2 by lia. change (2 ^ 2) with 4.
       replace (Z.to_nat _) with (length (pack4 bs)) by word_lia. by rewrite drop_app_length. }
  destruct (IH (send_set_cnf rsp m1 id v) st1 fuel Hrd2 Hrs ltac:(lia)) as (m' & -> & Hrd' & Hc').
  destruct (a_host_sets st1 rs) as [st2 vs]. exists m'. split_and!; [done..|].
  rewrite Hc', Hc2, Hc1, <- app_assoc. by destruct rsp.
Qed.

(** A set message made of complete requests, none with a value longer than
    the scratch buffer, is processed to its end, and refines the abstract
    sequence of host writes: each request is applied to the store in order or
    refused (unknown parameter, no write permission, wrong length, out of
    range) without changing it, and when the host asked for responses exactly
    one confirmation per request is sent, in order, with its result code. *)
Theorem host_set_refines m st rs rsp :
  ready m st → gCfgStatus (cfg m) ≠ CFG_INCOMPLETE →
  Forall (λ r : request, is_u16 r.1 ∧ Forall is_u8 r.2 ∧ (length r.2 <= 256)%nat) rs →
  ∃ m', proc_set_req_internal m (4 * Z.of_nat (length (encode_reqs rs))) (encode_reqs rs) rsp
          = Some m' ∧
    represents (cfg m') (a_host_sets st rs).1 ∧
    confirmations m' = confirmations m ++ (if rsp then (a_host_sets st rs).2 else []).
Proof.
  intros Hrd Hs Hrs. unfold proc_set_req_internal. rewrite bool_decide_eq_false_2 by done.
  destruct (proc_set_loop_refines rs (length (encode_reqs rs)) rsp m st Hrd Hrs) as (m' & ? & ? & ?);
    [done|]. exists m'. split_and!; [done| |done]. by apply ready_rep.
Qed.

Lemma host_set_refines_witness :
  ∃ m', proc_set_req demo_mac 36 (encode_reqs [(0, [12; 0; 0; 0]); (1, [9]); (0, [99; 0; 0; 0])]) = Some m' ∧
    represents (cfg m') (<[0 := PInt 0x400d0000 12 5 20]> demo_store) ∧
    confirmations m' = [(0, WNI_CFG_SUCCESS); (1, WNI_CFG_INVALID_LEN); (0, WNI_CFG_OTHER_ERROR)].
Proof.
  apply (host_set_refines demo_mac demo_store
    [(0, [12; 0; 0; 0]); (1, [9]); (0, [99; 0; 0; 0])] true).
  - split; [exact demo_represents|reflexivity|cbn; lia|reflexivity].
  - discriminate.
  - repeat constructor; cbn; try lia; try discriminate.
Defined.

(** A value longer than the 256-byte scratch buffer is copied before any check
    of its length: the handler writes past the buffer. *)
Lemma long_value_overflows m id n len p :
  check_param m id CFG_CTL_WE WNI_CFG_RO_PARAM = None →
  has_flag (ctl (cfg m) id) CFG_CTL_INT = false →
  length (gSBuffer (cfg m)) = 256%nat → 256 < n → roundup4 n <= len →
  proc_set_one m id n len p = None.
Proof.
  intros Hc Hi Hb Hn Hl. unfold proc_set_one. rewrite Hc. unfold ctl in Hi. rewrite Hi.
  replace (len <? _) with false by lia. unfold get_str_value. rewrite Hb.
  by replace (_ || _) with true by lia.
Qed.

(** ** The implementation of the reader interface *)

(** Every integer row of the table is present, with the table's limits. *)
Definition cfg_filled (m : tAniSirGlobal) : Prop :=
  cfg_wf (cfg m) ∧
  ∀ p : wni_cfg, int_param p = true →
    ∃ c v, param_of (cfg m) p = Some (PInt c v (cfgIMin (row p)) (cfgIMax (row p))).

Lemma wni_cfg_range (p : wni_cfg) : 0 <= p < CFG_PARAM_MAX_NUM.
Proof. destruct p; vm_compute; split; congruence. Qed.

Lemma cfg_filled_read m (p : wni_cfg) :
  cfg_filled m → int_param p = true →
  ∃ v, wlan_cfg_get_int m p = Ok v ∧ cfgIMin (row p) <= v <= cfgIMax (row p).
Proof.
  intros [Hwf Hp] Hi. destruct (Hp p Hi) as (c & v & E).
  destruct (param_cases (cfg m) p) as [[E' _]|[[Hint E']|[_ E']]];
    [pose proof (wni_cfg_range p); lia|congruence| |congruence].
  rewrite E in E'. injection E' as -> -> Hmn Hmx.
  exists (zget (gCfgIBuf (cfg m)) (idx (cfg m) p)). unfold wlan_cfg_get_int.
  rewrite (check_valid_ok m p Hwf (is_int_valid _ _ Hint)). split; [done|].
  rewrite Hmn, Hmx. by apply (wf_int _ Hwf).
Qed.

#[export] Instance cfg_reader : CfgReader tAniSirGlobal := {
  cfg_read m p := wlan_cfg_get_int m p;
  cfg_ok := cfg_filled;
  cfg_read_ok := cfg_filled_read;
}.

(** The built-in download establishes it, and host writes keep it. *)
Lemma downloaded_filled b stack logs rrm : cfg_filled (downloaded b stack logs rrm).
Proof.
  pose proof (downloaded_check b stack logs rrm) as H. cbv zeta in H.
  apply andb_true_iff in H as [Hwf Hp]. rewrite forallb_forall in Hp.
  split; [exact (cfg_wf_b_sound _ Hwf)|]. clear Hwf.
  intros p Hi. pose proof (wni_cfg_range p) as Hr.
  specialize (Hp p). rewrite (param_eqb_sound _ _ (Hp ltac:(apply list_elem_of_In, elem_of_seqZ; lia))).
  unfold table_param. fold (row p). unfold int_param in Hi. unfold has_flag at 1. rewrite Hi. eauto.
Qed.

Lemma param_write_limits m id v p c x mn mx :
  cfg_wf (cfg m) → is_int (cfg m) id = true →
  param_of (cfg m) p = Some (PInt c x mn mx) →
  ∃ c' x', param_of (cfg m <| gCfgIBuf ::= λ b, zset b (idx (cfg m) id) v |>) p =
           Some (PInt c' x' mn mx).
Proof.
  intros Hwf Hi E. rewrite param_write_int by done. destruct (decide (p = id)) as [->|]; [|eauto].
  unfold param_of in E. rewrite Hi in E. injection E as _ _ <- <-. eauto.
Qed.

Lemma cfg_set_int_filled m id v : 0 <= id → cfg_filled m → cfg_filled (cfg_set_int m id v).1 ∨
  is_str (cfg m) id = true.
Proof.
  intros Hid [Hwf Hp]. destruct (param_cases (cfg m) id Hid) as [[_ Hv]|[[Hi E]|[Hs _]]]; [| |by right].
  - left. unfold cfg_set_int. rewrite check_valid_err by done. by split.
  - left. pose proof (check_valid_ok m id Hwf (is_int_valid _ _ Hi)) as Hc.
    destruct (decide (zget (gCfgIBufMin (cfg m)) (idx (cfg m) id) <= v
                      <= zget (gCfgIBufMax (cfg m)) (idx (cfg m) id))) as [Hr|Hr].
    + destruct (cfg_set_int_cfg m id v _ Hc Hr) as [_ Ec]. split; rewrite Ec.
      * by apply wf_write_int.
      * intros p Hpi. destruct (Hp p Hpi) as (c & x & Ep). by eapply param_write_limits.
    + rewrite (cfg_set_int_range m id v _ Hc Hr). by split.
Qed.
