(* ===== verification/DphHash.v ===== *)
(** The station table of a PE session: core/mac/src/dph/dph_hash_table.c.

    Stations live in an array indexed by association id and are linked, by
    hash of their MAC address, into buckets through the [next] field of the
    nodes.  A pointer to a node is its index in the array. *)
From S2P Require Import Prelude Chains LimTypes CfgTable CfgIface.

(** [tDphHashNode]: the fields the table itself reads or writes by name, and
    those admission control and authentication consult; [others] stands for the
    remaining bytes, which [dph_init_sta_state] clears together with them. *)
Record tDphHashNode := mk_node {
  valid : Z;
  added : Z;
  encPolicy : Z;
  fragSize : Z;
  assocId : Z;
  staIndex : Z;
  staAddr : list Z;
  is_disassoc_deauth_in_progress : Z;
  last_assoc_received_time : Z;
  sta_deletion_in_progress : bool;
  wmeEnabled : Z;
  lleEnabled : Z;
  rmfEnabled : Z;
  staAuthType : Z;                  (* mlmStaContext.authType *)
  others : Z;
  next : option Z;
}.
#[export] Instance tDphHashNode_eta : Eta tDphHashNode := fun n =>
  mk_node (valid n) (added n) (encPolicy n) (fragSize n) (assocId n) (staIndex n) (staAddr n)
    (is_disassoc_deauth_in_progress n) (last_assoc_received_time n)
    (sta_deletion_in_progress n) (wmeEnabled n) (lleEnabled n)
    (rmfEnabled n) (staAuthType n) (others n) (next n).
Definition node_zero (nx : option Z) : tDphHashNode :=
  mk_node 0 0 0 0 0 0 zero_mac 0 0 false 0 0 0 0 0 nx.
#[export] Instance tDphHashNode_inhabited : Inhabited tDphHashNode := populate (node_zero None).

(** [dphHashTableClass]; [pHashTable] is [None] for a null pointer. *)
Record dphHashTableClass := mk_dph {
  pHashTable : option (list (option Z));
  pDphNodeArray : list tDphHashNode;
  size : Z;
}.
#[export] Instance dphHashTableClass_eta : Eta dphHashTableClass := fun t =>
  mk_dph (pHashTable t) (pDphNodeArray t) (size t).

Definition STA_INVALID_IDX : Z := 0xFF.
Definition ENC_POLICY_NULL : Z := 0.

Definition bucket (t : dphHashTableClass) (b : Z) : option Z :=
  zget (default [] (pHashTable t)) b.
Definition node (t : dphHashTableClass) (i : Z) : tDphHashNode := zget (pDphNodeArray t) i.
Definition set_bucket (t : dphHashTableClass) (b : Z) (p : option Z) : dphHashTableClass :=
  t <| pHashTable ::= fmap (λ h, zset h b p) |>.
Definition set_node (t : dphHashTableClass) (i : Z) (n : tDphHashNode) : dphHashTableClass :=
  t <| pDphNodeArray ::= λ a, zset a i n |>.
Definition node_next (t : dphHashTableClass) (i : Z) : option Z := next (node t i).

Definition dph_compare_mac_addr (a b : list Z) : bool :=
  (zget a 0 =? zget b 0) && (zget a 1 =? zget b 1) && (zget a 2 =? zget b 2) &&
  (zget a 3 =? zget b 3) && (zget a 4 =? zget b 4) && (zget a 5 =? zget b 5).

Definition dph_hash_table_class_init (t : dphHashTableClass) : dphHashTableClass :=
  let t := foldl (λ t i, set_bucket t i None) t (seqZ 0 (size t)) in
  foldl (λ t i, set_node t i (node t i <| valid := 0 |> <| added := 0 |> <| assocId := i |>))
        t (seqZ 0 (size t)).

Definition hash_function (addr : list Z) (numSta : Z) : Z :=
  foldl (λ sum i, u16 (sum + zget addr i)) 0 (seqZ 0 6) mod numSta.

(** [dph_lookup_hash_entry]: the node found and the association id written
    through [pAssocId]; the outer [None] is a loop that does not end. *)
Definition dph_lookup_hash_entry (t : dphHashTableClass) (addr : list Z) :
    option (option (Z * Z)) :=
  let index := hash_function addr (size t) in
  if bool_decide (pHashTable t = None) then Some None
  else
    '(_, ptr) ← find_node (length (pDphNodeArray t)) (node_next t)
                  (λ _ i, dph_compare_mac_addr addr (staAddr (node t i))) None (bucket t index);
    Some (match ptr with Some i => Some (i, assocId (node t i)) | None => None end).

Definition dph_get_hash_entry (t : dphHashTableClass) (peerIdx : Z) : option Z :=
  if peerIdx <? size t then
    if negb (added (node t peerIdx) =? 0) then Some peerIdx else None
  else None.

(** [get_node]: the index is truncated to [uint8_t]. *)
Definition get_node (assocId : Z) : Z := u8 assocId.

(** [dph_lookup_assoc_id]: the cursor is a [uint8_t]; [None] when the loop does
    not end. *)
Fixpoint lookup_assoc_loop (fuel : nat) (t : dphHashTableClass) (staIdx i : Z) :
    option (option Z) :=
  if i <? size t then
    if negb (added (node t i) =? 0) && (staIndex (node t i) =? staIdx) then Some (Some i)
    else match fuel with O => None | S n => lookup_assoc_loop n t staIdx (u8 (i + 1)) end
  else Some (if i =? size t then None else Some i).
Definition dph_lookup_assoc_id (t : dphHashTableClass) (staIdx : Z) : option (option Z) :=
  lookup_assoc_loop 256 t staIdx 0.

Section table.
Context {C : Type} `{CfgReader C}.

(** [dph_init_sta_state]: the new table and the node returned. *)
Definition dph_init_sta_state (c : C) (t : dphHashTableClass) (addr : list Z) (aid : Z)
    (validStaIdx : bool) : dphHashTableClass * option Z :=
  if size t <=? aid then (t, None)
  else
    let p := get_node aid in
    let staIdx := staIndex (node t p) in
    let n := node_zero (next (node t p)) in
    let n := n <| assocId := aid |> in
    let n := n <| staIndex := if validStaIdx then staIdx else STA_INVALID_IDX |> in
    let n := n <| staAddr := addr |> in
    let n := match cfg_read c WNI_CFG_FRAGMENTATION_THRESHOLD with
             | Ok val => n <| fragSize := u16 val |> | Err _ => n end in
    let n := n <| added := 1 |> <| encPolicy := ENC_POLICY_NULL |>
               <| is_disassoc_deauth_in_progress := 0 |> <| last_assoc_received_time := 0 |>
               <| sta_deletion_in_progress := false |> <| valid := 1 |> in
    (set_node t p n, Some p).

(** [dph_add_hash_entry]: the new table and the node, [None] for NULL; the outer
    [None] is a loop that does not end. *)
Definition dph_add_hash_entry (c : C) (t : dphHashTableClass) (addr : list Z) (aid : Z) :
    option (dphHashTableClass * option Z) :=
  let index := hash_function addr (size t) in
  if size t <=? aid then Some (t, None)
  else if negb (added (node t aid) =? 0) then Some (t, None)
  else
    '(_, ptr) ← find_node (length (pDphNodeArray t)) (node_next t)
                  (λ _ i, bool_decide (node_next t i = Some i) ||
                          dph_compare_mac_addr addr (staAddr (node t i)) ||
                          (assocId (node t i) =? aid))
                  None (bucket t index);
    match ptr with
    | Some _ => Some (t, None)
    | None =>
        match dph_init_sta_state c t addr aid false with
        | (t, None) => Some (t, None)
        | (t, Some _) =>
            let t := set_node t aid (node t aid <| next := bucket t index |>) in
            let t := set_bucket t index (Some aid) in
            Some (t, bucket t index)
        end
    end.

(** [dph_delete_hash_entry]. *)
Definition dph_delete_hash_entry (t : dphHashTableClass) (addr : list Z) (aid : Z) :
    option (dphHashTableClass * tSirRetStatus) :=
  let index := hash_function addr (size t) in
  if size t <=? aid then Some (t, eSIR_FAILURE)
  else if added (node t aid) =? 0 then Some (t, eSIR_FAILURE)
  else
    '(prev, ptr) ← find_node (length (pDphNodeArray t)) (node_next t)
                     (λ prev i, dph_compare_mac_addr addr (staAddr (node t i)) ||
                                bool_decide (prev = Some i))
                     None (bucket t index);
    match ptr with
    | None => Some (t, eSIR_FAILURE)
    | Some p =>
        if negb (dph_compare_mac_addr addr (staAddr (node t p))) then Some (t, eSIR_FAILURE)
        else
          let t := set_node t p (node t p <| valid := 0 |> <| staAddr := zero_mac |>) in
          let t := match prev with
                   | None => set_bucket t index (next (node t p))
                   | Some q => set_node t q (node t q <| next := next (node t p) |>)
                   end in
          let t := set_node t p
            (node t p <| added := 0 |> <| is_disassoc_deauth_in_progress := 0 |>
                      <| last_assoc_received_time := 0 |> <| sta_deletion_in_progress := false |>
                      <| next := None |>) in
          Some (t, eSIR_SUCCESS)
    end.
End table.

(** ** Addresses, nodes and buckets *)

Lemma compare_mac_spec a b :
  mac_wf a → mac_wf b → dph_compare_mac_addr a b = bool_decide (a = b).
Proof.
  intros [Ha _] [Hb _].
  destruct a as [|a0 [|a1 [|a2 [|a3 [|a4 [|a5 [|]]]]]]]; try done.
  destruct b as [|b0 [|b1 [|b2 [|b3 [|b4 [|b5 [|]]]]]]]; try done.
  change (dph_compare_mac_addr _ _) with
    ((a0 =? b0) && (a1 =? b1) && (a2 =? b2) && (a3 =? b3) && (a4 =? b4) && (a5 =? b5)).
  apply eq_true_iff_eq. rewrite bool_decide_eq_true, !andb_true_iff, !Z.eqb_eq.
  split; [intros (((((->&->)&->)&->)&->)&->)|intros [= -> -> -> -> -> ->]]; done.
Qed.

Lemma hash_range addr n : 0 < n → 0 <= hash_function addr n < n.
Proof. intros. unfold hash_function. apply Z.mod_pos_bound. lia. Qed.

Lemma node_set_node t i j n :
  0 <= i < Z.of_nat (length (pDphNodeArray t)) → 0 <= j →
  node (set_node t i n) j = if i =? j then n else node t j.
Proof. intros. unfold node, set_node. rsimpl. by apply zget_zset. Qed.

Lemma set_node_twice t i n n' : set_node (set_node t i n) i n' = set_node t i n'.
Proof. unfold set_node, zset. rsimpl. by rewrite list_insert_insert_eq. Qed.

Lemma bucket_set_bucket t b p b' h :
  pHashTable t = Some h → 0 <= b < Z.of_nat (length h) → 0 <= b' →
  bucket (set_bucket t b p) b' = if b =? b' then p else bucket t b'.
Proof. intros Hh ??. unfold bucket, set_bucket. rsimpl. rewrite Hh. cbn. by apply zget_zset. Qed.

(** ** The invariant

    [L b] lists the stations of bucket [b]: exactly the added nodes whose
    address hashes there. *)
Definition in_table (t : dphHashTableClass) (i : Z) : Prop :=
  0 <= i < size t ∧ added (node t i) ≠ 0.

Record dph_wf (t : dphHashTableClass) (L : Z → list Z) : Prop := {
  dw_size : 0 < size t <= 256;
  dw_nodes : Z.of_nat (length (pDphNodeArray t)) = size t;
  dw_table : ∃ h, pHashTable t = Some h ∧ Z.of_nat (length h) = size t;
  dw_chain b : 0 <= b < size t → chain (node_next t) (bucket t b) (L b);
  dw_in b i : 0 <= b < size t →
    (i ∈ L b ↔ in_table t i ∧ hash_function (staAddr (node t i)) (size t) = b);
  dw_node i : in_table t i → assocId (node t i) = i ∧ mac_wf (staAddr (node t i));
  dw_inj i j : in_table t i → in_table t j → staAddr (node t i) = staAddr (node t j) → i = j;
}.

(** The table represents a finite map from addresses to association ids. *)
Definition dph_rep (t : dphHashTableClass) (st : gmap (list Z) Z) : Prop :=
  (∃ L, dph_wf t L) ∧
  ∀ a i, st !! a = Some i ↔ in_table t i ∧ staAddr (node t i) = a.

Lemma bounded_NoDup_length (l : list Z) n :
  NoDup l → (∀ i, i ∈ l → 0 <= i < n) → Z.of_nat (length l) <= Z.max 0 n.
Proof.
  intros Hnd Hr. assert (l ⊆+ seqZ 0 n) as Hs.
  { apply NoDup_submseteq; [done|]. intros i Hi. apply elem_of_seqZ. specialize (Hr i Hi). lia. }
  apply submseteq_length in Hs. rewrite length_seqZ in Hs. lia.
Qed.

Lemma bucket_length t L b :
  dph_wf t L → 0 <= b < size t → (length (L b) <= length (pDphNodeArray t))%nat.
Proof.
  intros Hwf Hb. pose proof (bounded_NoDup_length (L b) (size t)) as H.
  pose proof (dw_size _ _ Hwf). rewrite <- (dw_nodes _ _ Hwf) in H. enough (Z.of_nat (length (L b)) <= Z.max 0 (Z.of_nat (length (pDphNodeArray t)))) by lia.
  apply H; [eapply chain_NoDup; by apply (dw_chain _ _ Hwf)|].
  intros i Hi. rewrite (dw_nodes _ _ Hwf). apply (dw_in _ _ Hwf) in Hi as [[? _] _]; done.
Qed.

(** The search of a bucket, whatever redundant stop conditions the loop has. *)
Lemma bucket_search t L a P :
  dph_wf t L → mac_wf a →
  let b := hash_function a (size t) in
  (∀ k1 i k2, L b = k1 ++ i :: k2 → P (last_or None k1) i = bool_decide (a = staAddr (node t i))) →
  (∃ l1 i l2, L b = l1 ++ i :: l2 ∧ staAddr (node t i) = a ∧ in_table t i ∧
     find_node (length (pDphNodeArray t)) (node_next t) P None (bucket t b)
       = Some (last_or None l1, Some i)) ∨
  ((∀ i, in_table t i → staAddr (node t i) ≠ a) ∧
   find_node (length (pDphNodeArray t)) (node_next t) P None (bucket t b)
       = Some (last_or None (L b), None)).
Proof.
  intros Hwf Ha b HP. assert (0 <= b < size t) as Hb by (apply hash_range, (dw_size _ _ Hwf)).
  pose proof (dw_chain _ _ Hwf b Hb) as Hc. pose proof (bucket_length _ _ b Hwf Hb) as Hl.
  destruct (find_split (λ i, bool_decide (a = staAddr (node t i))) (L b))
    as [[_ Hn]|(l1 & i & l2 & E & Hl1 & Hi & _)].
  - right. split; [|by apply (find_node_none _ _ _ (λ i, bool_decide (a = staAddr (node t i))))].
    intros i Hi E. rewrite Forall_forall in Hn.
    assert (i ∈ L b) as Hin by (apply (dw_in _ _ Hwf); [done|]; by subst).
    specialize (Hn i Hin). by rewrite bool_decide_eq_false in Hn.
  - left. exists l1, i, l2. rewrite bool_decide_eq_true in Hi.
    assert (i ∈ L b) as Hin by (rewrite E; set_solver).
    apply (dw_in _ _ Hwf) in Hin as [? _]; [|done]. split_and!; [done|done|done|].
    rewrite E in Hc, Hl, HP. by eapply (find_node_found _ _ _ (λ i, bool_decide (a = staAddr (node t i))));
      [done..|cbn; rewrite bool_decide_eq_true].
Qed.

(** On a well-formed chain no node is its own successor or predecessor. *)
Lemma chain_no_self t L b i :
  dph_wf t L → 0 <= b < size t → i ∈ L b → node_next t i ≠ Some i.
Proof.
  intros Hwf Hb Hi E. pose proof (dw_chain _ _ Hwf b Hb) as Hc.
  pose proof (chain_NoDup _ _ _ Hc) as Hnd.
  apply list_elem_of_split in Hi as (l1 & l2 & El). rewrite El in Hc, Hnd.
  apply lseg_lookup_next in Hc. rewrite E in Hc. apply chain_some in Hc as (l' & -> & _).
  apply NoDup_app in Hnd as (_ & _ & Hnd). inversion_clear Hnd. set_solver.
Qed.

Lemma last_or_in {K} (k : list K) x : last_or None k = Some x → x ∈ k.
Proof.
  unfold last_or. destruct k as [|y k' _] using rev_ind; [done|].
  rewrite last_snoc. cbn. intros [= ->]. set_solver.
Qed.

(** Linking a fresh node at the head of its bucket. *)
Lemma wf_insert t L aid N :
  dph_wf t L → 0 <= aid < size t → added (node t aid) = 0 →
  let b := hash_function (staAddr N) (size t) in
  next N = bucket t b → added N ≠ 0 → assocId N = aid → mac_wf (staAddr N) →
  (∀ i, in_table t i → staAddr (node t i) ≠ staAddr N) →
  dph_wf (set_bucket (set_node t aid N) b (Some aid))
    (λ b', if decide (b' = b) then aid :: L b' else L b').
Proof.
  intros Hwf Haid Hfree b Hnext Hadd HidN HmacN Hnew.
  destruct (dw_table _ _ Hwf) as (h & Hh & Hhl).
  pose proof (dw_nodes _ _ Hwf) as Hnl. pose proof (dw_size _ _ Hwf) as Hsz.
  assert (0 <= b < size t) as Hb by (apply hash_range; lia).
  set (t' := set_bucket (set_node t aid N) b (Some aid)).
  assert (∀ i, 0 <= i → node t' i = if aid =? i then N else node t i) as Hnode.
  { intros i Hi. apply (node_set_node t aid i N); lia. }
  assert (∀ b', 0 <= b' → bucket t' b' = if b =? b' then Some aid else bucket t b') as Hbk.
  { intros b' Hb'. apply (bucket_set_bucket (set_node t aid N) b (Some aid) b' h); [done|lia|done]. }
  assert (∀ i, in_table t' i ↔ i = aid ∨ in_table t i) as Hin.
  { intros i. unfold in_table. change (size t') with (size t). split.
    - intros [Hi Ha]. rewrite Hnode in Ha by lia. destruct (Z.eqb_spec aid i); [by left|by right].
    - intros [->|[Hi Ha]].
      + split; [done|]. rewrite Hnode, Z.eqb_refl by lia. done.
      + split; [done|]. rewrite Hnode by lia. by destruct (Z.eqb_spec aid i). }
  assert (∀ i, in_table t i → aid ≠ i) as Hne by (intros i [_ Hi] ->; done).
  split; try done.
  - cbn. by rewrite length_zset.
  - exists (zset h b (Some aid)). cbn. by rewrite Hh, length_zset.
  - intros b' Hb'. change (size t') with (size t) in Hb'. rewrite Hbk by lia.
    assert (chain (node_next t') (bucket t b') (L b')) as Hold.
    { eapply chain_frame; [|by apply (dw_chain _ _ Hwf)]. intros i Hi.
      apply (dw_in _ _ Hwf) in Hi as [Hi _]; [|done]. pose proof (Hne i Hi). destruct Hi as [? _].
      unfold node_next. rewrite Hnode by lia. by destruct (Z.eqb_spec aid i). }
    destruct (decide (b' = b)) as [->|Hbne].
    + rewrite Z.eqb_refl. apply chain_cons.
      unfold node_next at 2. by rewrite Hnode, Z.eqb_refl, Hnext by lia.
    + by destruct (Z.eqb_spec b b').
  - intros b' i Hb'. change (size t') with (size t) in *. rewrite Hin.
    assert (0 <= aid) by lia.
    destruct (decide (b' = b)) as [->|Hbne].
    + rewrite elem_of_cons, (dw_in _ _ Hwf) by done. split.
      * intros [->|[Hi Hh']].
        -- rewrite Hnode, Z.eqb_refl by lia. split; [by left|done].
        -- pose proof (Hne i Hi). rewrite Hnode by (destruct Hi; lia).
           destruct (Z.eqb_spec aid i); [done|]. split; [by right|done].
      * intros [[->|Hi] Hh']; [by left|right].
        pose proof (Hne i Hi). rewrite Hnode in Hh' by (destruct Hi; lia).
        by destruct (Z.eqb_spec aid i).
    + rewrite (dw_in _ _ Hwf) by done. split.
      * intros [Hi Hh']. pose proof (Hne i Hi). rewrite Hnode by (destruct Hi; lia).
        destruct (Z.eqb_spec aid i); [done|]. split; [by right|done].
      * intros [[->|Hi] Hh'].
        -- rewrite Hnode, Z.eqb_refl in Hh' by lia. subst b'. done.
        -- pose proof (Hne i Hi). rewrite Hnode in Hh' by (destruct Hi; lia).
           by destruct (Z.eqb_spec aid i).
  - intros i [->|Hi]%Hin.
    + rewrite Hnode, Z.eqb_refl by lia. done.
    + pose proof (Hne i Hi). rewrite Hnode by (destruct Hi; lia).
      destruct (Z.eqb_spec aid i); [done|]. by apply (dw_node _ _ Hwf).
  - intros i j Hi%Hin Hj%Hin.
    assert (∀ k, k = aid ∨ in_table t k → staAddr (node t' k) = if aid =? k then staAddr N else staAddr (node t k)) as Hst.
    { intros k Hk. rewrite Hnode by (destruct Hk as [->|[? _]]; lia). by destruct (aid =? k). }
    rewrite !Hst by done. destruct (Z.eqb_spec aid i), (Z.eqb_spec aid j); subst; try done.
    + intros E. destruct Hj as [->|Hj]; [done|]. by apply Hnew in Hj.
    + intros E. destruct Hi as [->|Hi]; [done|]. by apply Hnew in Hi.
    + destruct Hi as [->|Hi], Hj as [->|Hj]; try done. by apply (dw_inj _ _ Hwf).
Qed.

(** Unlinking a node: the state [t'] left by the two assignments of
    [dph_delete_hash_entry]. *)
Record unlinked (t t' : dphHashTableClass) (b : Z) (l1 : list Z) (p : Z) : Prop := {
  ul_size : size t' = size t;
  ul_len : length (pDphNodeArray t') = length (pDphNodeArray t);
  ul_table : ∃ h, pHashTable t' = Some h ∧ Z.of_nat (length h) = size t;
  ul_node i : 0 <= i → i ≠ p →
    node t' i = if decide (last_or None l1 = Some i)
                then node t i <| next := next (node t p) |> else node t i;
  ul_added : added (node t' p) = 0;
  ul_bucket b' : 0 <= b' →
    bucket t' b' = if decide (b' = b ∧ l1 = []) then next (node t p) else bucket t b';
}.

Lemma unlinked_node_addr t t' b l1 p i :
  unlinked t t' b l1 p → 0 <= i → i ≠ p →
  staAddr (node t' i) = staAddr (node t i) ∧ assocId (node t' i) = assocId (node t i) ∧
  added (node t' i) = added (node t i).
Proof. intros Hu Hi Hne. rewrite (ul_node _ _ _ _ _ Hu) by done. by split_if. Qed.

Lemma unlinked_in t t' L b l1 p i :
  dph_wf t L → unlinked t t' b l1 p → in_table t' i ↔ in_table t i ∧ i ≠ p.
Proof.
  intros Hwf Hu. unfold in_table. rewrite (ul_size _ _ _ _ _ Hu). split.
  - intros [Hi Ha]. destruct (decide (i = p)) as [->|Hne].
    + by rewrite (ul_added _ _ _ _ _ Hu) in Ha.
    + destruct (unlinked_node_addr _ _ _ _ _ i Hu) as (_ & _ & E); [lia|done|]. by rewrite E in Ha.
  - intros [[Hi Ha] Hne]. split; [done|].
    destruct (unlinked_node_addr _ _ _ _ _ i Hu) as (_ & _ & E); [lia|done|]. by rewrite E.
Qed.

Lemma wf_remove t L t' b l1 p l2 :
  dph_wf t L → 0 <= b < size t → L b = l1 ++ p :: l2 → unlinked t t' b l1 p →
  dph_wf t' (λ b', if decide (b' = b) then l1 ++ l2 else L b').
Proof.
  intros Hwf Hb HL Hu.
  pose proof (dw_chain _ _ Hwf b Hb) as Hc. rewrite HL in Hc.
  pose proof (chain_NoDup _ _ _ Hc) as Hnd.
  assert (∀ i, i ∈ L b ↔ i ∈ l1 ++ l2 ∨ i = p) as HLb.
  { intros i. rewrite HL. set_solver. }
  assert (p ∉ l1 ++ l2) as Hp.
  { apply NoDup_app in Hnd as (_ & Hd & Hnd). inversion_clear Hnd. set_solver. }
  assert (in_table t p) as Hpt by (apply (dw_in _ _ Hwf b p Hb), HLb; by right).
  assert (∀ b' i, 0 <= b' < size t → i ∈ L b' → 0 <= i) as Hpos.
  { intros b' i Hb' Hi. apply (dw_in _ _ Hwf) in Hi as [[? _] _]; [lia|done]. }
  split.
  - rewrite (ul_size _ _ _ _ _ Hu). apply (dw_size _ _ Hwf).
  - rewrite (ul_len _ _ _ _ _ Hu), (ul_size _ _ _ _ _ Hu). apply (dw_nodes _ _ Hwf).
  - rewrite (ul_size _ _ _ _ _ Hu). apply (ul_table _ _ _ _ _ Hu).
  - intros b' Hb'. rewrite (ul_size _ _ _ _ _ Hu) in Hb'. rewrite (ul_bucket _ _ _ _ _ Hu) by lia.
    destruct (decide (b' = b)) as [->|Hne].
    + destruct l1 as [|y l1 _] using rev_ind.
      * rewrite decide_True by done. cbn [app] in *.
        assert (bucket t b = Some p) as Ebk by by destruct Hc. rewrite Ebk in Hc.
        apply chain_cons in Hc. eapply chain_frame; [|exact Hc]. intros i Hi.
        unfold node_next. rewrite (ul_node _ _ _ _ _ Hu); [done| |set_solver].
        apply (Hpos b); [done|]. rewrite HL. set_solver.
      * rewrite decide_False by (intros [_ E]; by apply app_eq_nil in E as [_ ?]).
        eapply chain_frame; [|apply (chain_unlink _ _ _ _ _ _ Hc)].
        intros i Hi. change (node_next t' i) with (next (node t' i)).
        rewrite (ul_node _ _ _ _ _ Hu); [|apply (Hpos b); [done|]; rewrite HL; set_solver|set_solver].
        assert (last_or None (l1 ++ [y]) = Some y) as -> by (unfold last_or; by rewrite last_snoc).
        unfold nx_upd. destruct (decide (i = y)) as [->|Hiy].
        -- by rewrite decide_True.
        -- by rewrite decide_False by congruence.
    + rewrite decide_False by naive_solver.
      eapply chain_frame; [|by apply (dw_chain _ _ Hwf)]. intros i Hi.
      assert (i ∉ L b) as Hib.
      { intros Hib. apply (dw_in _ _ Hwf) in Hi as [_ E1], Hib as [_ E2]; congruence. }
      rewrite HLb in Hib. unfold node_next.
      rewrite (ul_node _ _ _ _ _ Hu); [|by apply (Hpos b')|naive_solver].
      rewrite decide_False; [done|]. intros E. apply last_or_in in E. set_solver.
  - intros b' i Hb'. rewrite (ul_size _ _ _ _ _ Hu) in *. rewrite (unlinked_in _ _ L _ _ _ _ Hwf Hu).
    assert (∀ i, in_table t i ∧ i ≠ p → staAddr (node t' i) = staAddr (node t i)) as Hst.
    { intros k [[? _] ?]. apply (unlinked_node_addr _ _ _ _ _ _ Hu); [lia|done]. }
    destruct (decide (b' = b)) as [->|Hne].
    + pose proof (HLb i) as Hi. rewrite (dw_in _ _ Hwf) in Hi by done. split.
      * intros Hin. assert (i ≠ p) by set_solver. destruct Hi as [_ Hi]. destruct Hi as [? Hh]; [by left|].
        by rewrite Hst.
      * intros [Hit Hh]. rewrite Hst in Hh by done. destruct Hit as [Hit ?].
        destruct Hi as [Hi _]. by destruct Hi.
    + rewrite (dw_in _ _ Hwf) by done. split.
      * intros [Hit Hh]. assert (i ≠ p) as Hip.
        { intros ->. apply Hne. rewrite <- Hh. apply (dw_in _ _ Hwf b p Hb), HLb. by right. }
        by rewrite Hst.
      * intros [Hit Hh]. rewrite Hst in Hh by done. by destruct Hit.
  - intros i [Hi Hne]%(unlinked_in _ _ L _ _ _ _ Hwf Hu). destruct Hi as [Hr Ha].
    destruct (unlinked_node_addr _ _ _ _ _ i Hu) as (-> & -> & _); [lia|done|].
    by apply (dw_node _ _ Hwf).
  - intros i j [Hi Hni]%(unlinked_in _ _ L _ _ _ _ Hwf Hu) [Hj Hnj]%(unlinked_in _ _ L _ _ _ _ Hwf Hu).
    destruct (unlinked_node_addr _ _ _ _ _ i Hu) as (-> & _ & _); [destruct Hi; lia|done|].
    destruct (unlinked_node_addr _ _ _ _ _ j Hu) as (-> & _ & _); [destruct Hj; lia|done|].
    by apply (dw_inj _ _ Hwf).
Qed.

(** *** Lookups *)

Lemma lookup_refines t st a :
  dph_rep t st → mac_wf a →
  dph_lookup_hash_entry t a = Some ((λ i, (i, i)) <$> st !! a).
Proof.
  intros [[L Hwf] Hst] Ha. unfold dph_lookup_hash_entry.
  destruct (dw_table _ _ Hwf) as (h & Hh & _). rewrite Hh. cbn [bool_decide decide_rel].
  rewrite bool_decide_eq_false_2 by done.
  destruct (bucket_search t L a (λ _ i, dph_compare_mac_addr a (staAddr (node t i))) Hwf Ha)
    as [(l1 & i & l2 & E & Hi & Hin & ->)|[Hn ->]].
  { intros k1 i k2 E. apply compare_mac_spec; [done|]. apply (dw_node _ _ Hwf).
    apply (dw_in _ _ Hwf (hash_function a (size t)) i);
      [apply hash_range, (dw_size _ _ Hwf)|rewrite E; set_solver]. }
  - cbn. assert (st !! a = Some i) as -> by (by apply Hst). cbn.
    by rewrite (proj1 (dw_node _ _ Hwf i Hin)).
  - cbn. assert (st !! a = None) as ->; [|done].
    destruct (st !! a) as [i|] eqn:E; [|done]. apply Hst in E as [? E]. by apply Hn in E.
Qed.

Lemma get_entry_refines t st i :
  dph_rep t st → 0 <= i → dph_get_hash_entry t i = Some i ↔ ∃ a, st !! a = Some i.
Proof.
  intros [_ Hst] Hi. unfold dph_get_hash_entry. split.
  - repeat split_if; try done. intros _. exists (staAddr (node t i)). apply Hst.
    split; [|done]. split; lia.
  - intros (a & [[Hr Ha] _]%Hst). replace (i <? size t) with true by lia.
    by replace (added (node t i) =? 0) with false by lia.
Qed.

Section proofs.
Context {C : Type} `{CfgReader C}.

(** The node [dph_init_sta_state] writes. *)
Definition fresh_node (c : C) (aid : Z) (a : list Z) (nx : option Z) : tDphHashNode :=
  mk_node 1 1 ENC_POLICY_NULL
    (match cfg_read c WNI_CFG_FRAGMENTATION_THRESHOLD with Ok v => u16 v | Err _ => 0 end)
    aid STA_INVALID_IDX a 0 0 false 0 0 0 0 0 nx.

Lemma init_sta_state_fresh c t a aid :
  0 <= aid < size t → size t <= 256 →
  dph_init_sta_state c t a aid false = (set_node t aid (fresh_node c aid a (node_next t aid)), Some aid).
Proof.
  intros Hr Hs. unfold dph_init_sta_state, get_node. replace (size t <=? aid) with false by lia.
  rewrite u8_small by (red; lia). unfold fresh_node.
  destruct (cfg_read c WNI_CFG_FRAGMENTATION_THRESHOLD); reflexivity.
Qed.

(** What an addition must do to the map. *)
Definition a_add (t : dphHashTableClass) (st : gmap (list Z) Z) (a : list Z) (aid : Z) :
    gmap (list Z) Z * option Z :=
  if (size t <=? aid) || negb (added (node t aid) =? 0) || bool_decide (is_Some (st !! a))
  then (st, None) else (<[a := aid]> st, Some aid).

Lemma add_refines c t st a aid :
  dph_rep t st → mac_wf a → 0 <= aid →
  ∃ t', dph_add_hash_entry c t a aid = Some (t', (a_add t st a aid).2) ∧
    dph_rep t' (a_add t st a aid).1 ∧ size t' = size t ∧
    ((a_add t st a aid).2 = Some aid →
       node t' aid = fresh_node c aid a (bucket t (hash_function a (size t))) ∧
       ∀ i, 0 <= i → i ≠ aid → node t' i = node t i).
Proof.
  intros [[L Hwf] Hst] Ha Hid. unfold dph_add_hash_entry, a_add.
  destruct (Z.leb_spec (size t) aid) as [Hge|Hlt].
  { exists t. split; [done|]. split; [by split; [exists L|]|by split]. }
  destruct (added (node t aid) =? 0) eqn:Hadd; cbn [negb orb].
  2: { exists t. split; [done|]. split; [by split; [exists L|]|by split]. }
  bool_hyps. pose proof (dw_size _ _ Hwf) as Hsz.
  set (b := hash_function a (size t)).
  assert (0 <= b < size t) as Hb by (apply hash_range; lia).
  destruct (bucket_search t L a (λ _ i, bool_decide (node_next t i = Some i) ||
      dph_compare_mac_addr a (staAddr (node t i)) || (assocId (node t i) =? aid)) Hwf Ha)
    as [(l1 & i & l2 & E & Hi & Hin & E2)|[Hn E2]].
  { intros k1 i k2 E. assert (i ∈ L b) as HiL by (unfold b; rewrite E; set_solver).
    rewrite bool_decide_eq_false_2 by (by eapply chain_no_self).
    apply (dw_in _ _ Hwf) in HiL as [Hin _]; [|done].
    destruct (dw_node _ _ Hwf i Hin) as [-> Hm]. rewrite compare_mac_spec by done.
    replace (i =? aid) with false; [by rewrite orb_false_r|].
    destruct Hin as [_ Hin]. symmetry. apply Z.eqb_neq. by intros ->. }
  - fold b in E2. rewrite E2. cbn. rewrite bool_decide_eq_true_2 by (exists i; by apply Hst).
    exists t. split; [done|]. split; [by split; [exists L|]|by split].
  - fold b in E2. rewrite E2. cbn [mbind option_bind].
    assert (st !! a = None) as Hnone.
    { destruct (st !! a) as [i|] eqn:E; [|done]. apply Hst in E as [? E]. by apply Hn in E. }
    rewrite bool_decide_eq_false_2 by (rewrite Hnone; by intros [? ?]).
    rewrite init_sta_state_fresh by lia.
    pose proof (dw_nodes _ _ Hwf) as Hnl.
    assert (node (set_node t aid (fresh_node c aid a (node_next t aid))) aid
            = fresh_node c aid a (node_next t aid)) as -> by (rewrite node_set_node, Z.eqb_refl by lia; done).
    rewrite set_node_twice.
    change (bucket (set_node t aid _) b) with (bucket t b).
    change (fresh_node c aid a (node_next t aid) <| next := bucket t b |>)
      with (fresh_node c aid a (bucket t b)).
    set (N := fresh_node c aid a (bucket t b)).
    destruct (dw_table _ _ Hwf) as (h & Hh & Hhl).
    rewrite (bucket_set_bucket _ b (Some aid) b h), Z.eqb_refl by (done || lia).
    eexists. split; [done|].
    assert (∀ i, 0 <= i → node (set_bucket (set_node t aid N) b (Some aid)) i
                        = if aid =? i then N else node t i) as Hnode.
    { intros i Hi. apply (node_set_node t aid i N); lia. }
    split; [split|split; [done|]].
    + eexists. apply (wf_insert t L aid N Hwf); (done || lia).
    + intros a' i. cbn [fst]. unfold in_table. change (size _) with (size t).
      destruct (decide (a' = a)) as [->|Hne].
      * rewrite lookup_insert_eq. split.
        -- intros [= <-]. rewrite Hnode, Z.eqb_refl by lia. done.
        -- intros [[Hi Hia] Hs]. rewrite Hnode in Hia, Hs by lia.
           destruct (Z.eqb_spec aid i); [congruence|]. by apply Hn in Hs.
      * rewrite lookup_insert_ne, Hst by done. unfold in_table. split.
        -- intros [[Hi Hia] Hs]. rewrite Hnode by lia. by destruct (Z.eqb_spec aid i); [subst|].
        -- intros [[Hi Hia] Hs]. rewrite Hnode in Hia, Hs by lia.
           destruct (Z.eqb_spec aid i); [by subst|]. done.
    + intros _. split; [by rewrite Hnode, Z.eqb_refl by lia|].
      intros i Hi Hne. rewrite Hnode by done. by destruct (Z.eqb_spec aid i).
Qed.
End proofs.

(** *** Deletion *)

Definition a_delete (t : dphHashTableClass) (st : gmap (list Z) Z) (a : list Z) (aid : Z) :
    gmap (list Z) Z * tSirRetStatus :=
  if (size t <=? aid) || (added (node t aid) =? 0) || bool_decide (st !! a = None)
  then (st, eSIR_FAILURE) else (delete a st, eSIR_SUCCESS).

(** The three assignments of the deletion unlink the node. *)
Lemma delete_unlinked t L a l1 p l2 :
  dph_wf t L → in_table t p →
  let b := hash_function a (size t) in
  L b = l1 ++ p :: l2 → 0 <= b < size t →
  let t1 := set_node t p (node t p <| valid := 0 |> <| staAddr := zero_mac |>) in
  let t2 := match last_or None l1 with
            | None => set_bucket t1 b (next (node t1 p))
            | Some q => set_node t1 q (node t1 q <| next := next (node t1 p) |>)
            end in
  unlinked t (set_node t2 p
    (node t2 p <| added := 0 |> <| is_disassoc_deauth_in_progress := 0 |>
               <| last_assoc_received_time := 0 |> <| sta_deletion_in_progress := false |>
               <| next := None |>)) b l1 p.
Proof.
  intros Hwf Hp b HL Hb t1 t2.
  destruct (dw_table _ _ Hwf) as (h & Hh & Hhl). pose proof (dw_nodes _ _ Hwf) as Hnl.
  assert (0 <= p < Z.of_nat (length (pDphNodeArray t))) as Hpr by (destruct Hp; lia).
  pose proof (dw_chain _ _ Hwf b Hb) as Hc. rewrite HL in Hc.
  pose proof (chain_NoDup _ _ _ Hc) as Hnd.
  assert (next (node t1 p) = next (node t p)) as Hnx.
  { unfold t1. by rewrite node_set_node, Z.eqb_refl by lia. }
  assert (∀ i, 0 <= i → i ≠ p → node t1 i = node t i) as Hn1.
  { intros i Hi Hne. unfold t1. rewrite node_set_node by lia. by destruct (Z.eqb_spec p i). }
  assert (∀ q, last_or None l1 = Some q → q ≠ p ∧ 0 <= q < Z.of_nat (length (pDphNodeArray t))) as Hq.
  { intros q E%last_or_in. apply NoDup_app in Hnd as (_ & Hd & _). split; [set_solver|].
    assert (q ∈ L b) as Hin by (rewrite HL; set_solver).
    apply (dw_in _ _ Hwf) in Hin as [[? _] _]; [lia|done]. }
  assert (last_or None l1 = None → l1 = []) as Hnil.
  { unfold last_or. destruct l1 as [|x k _] using rev_ind; [done|]. by rewrite last_snoc. }
  assert (length (pDphNodeArray t2) = length (pDphNodeArray t)) as Hl2.
  { unfold t2, t1. destruct (last_or None l1); cbn; by rewrite !length_zset. }
  split.
  - unfold t2, t1. by destruct (last_or None l1).
  - cbn. by rewrite length_zset.
  - unfold t2, t1. destruct (last_or None l1); cbn; rewrite Hh; cbn; eexists; split; try done.
    by rewrite length_zset.
  - intros i Hi Hne. rewrite node_set_node by lia. replace (p =? i) with false by lia.
    unfold t2. destruct (last_or None l1) as [q|] eqn:E.
    + destruct (Hq q eq_refl) as [Hqp Hqr]. rewrite node_set_node by (cbn; rewrite ?length_zset; lia).
      rewrite Hnx. destruct (decide (Some q = Some i)) as [[= <-]|Hqi].
      * rewrite Z.eqb_refl. by rewrite Hn1.
      * destruct (Z.eqb_spec q i) as [->|]; [done|]. by apply Hn1.
    + change (node (set_bucket t1 b _) i) with (node t1 i). rewrite decide_False by done. by apply Hn1.
  - by rewrite node_set_node, Z.eqb_refl by lia.
  - intros b' Hb'. change (bucket (set_node t2 p _) b') with (bucket t2 b').
    unfold t2. destruct (last_or None l1) as [q|] eqn:E.
    + rewrite decide_False by (intros [_ ->]; done). done.
    + rewrite (bucket_set_bucket t1 b _ b' h) by (done || lia). rewrite Hnx.
      rewrite (Hnil eq_refl). destruct (Z.eqb_spec b b') as [->|Hne].
      * by rewrite decide_True.
      * rewrite decide_False by naive_solver. done.
Qed.

Lemma delete_refines t st a aid :
  dph_rep t st → mac_wf a → 0 <= aid →
  ∃ t', dph_delete_hash_entry t a aid = Some (t', (a_delete t st a aid).2) ∧
    dph_rep t' (a_delete t st a aid).1 ∧ size t' = size t.
Proof.
  intros [[L Hwf] Hst] Ha Hid. unfold dph_delete_hash_entry, a_delete.
  destruct (Z.leb_spec (size t) aid) as [Hge|Hlt].
  { exists t. split; [done|]. split; [by split; [exists L|]|done]. }
  destruct (added (node t aid) =? 0) eqn:Hadd; cbn [negb orb].
  { exists t. split; [done|]. split; [by split; [exists L|]|done]. }
  pose proof (dw_size _ _ Hwf) as Hsz. set (b := hash_function a (size t)).
  assert (0 <= b < size t) as Hb by (apply hash_range; lia).
  destruct (bucket_search t L a (λ prev i, dph_compare_mac_addr a (staAddr (node t i)) ||
      bool_decide (prev = Some i)) Hwf Ha) as [(l1 & p & l2 & E & Hi & Hin & E2)|[Hn E2]].
  { intros k1 i k2 E. assert (i ∈ L b) as HiL by (unfold b; rewrite E; set_solver).
    pose proof (dw_chain _ _ Hwf b Hb) as Hc. fold b in E. rewrite E in Hc. apply chain_NoDup in Hc.
    rewrite (bool_decide_eq_false_2 (last_or None k1 = Some i)).
    2: { intros El%last_or_in. apply NoDup_app in Hc as (_ & Hd & _). set_solver. }
    rewrite orb_false_r. apply compare_mac_spec; [done|]. apply (dw_node _ _ Hwf).
    by apply (dw_in _ _ Hwf b i). }
  - fold b in E, E2. rewrite E2. cbn [mbind option_bind].
    destruct (dw_node _ _ Hwf p Hin) as [_ Hmp].
    rewrite compare_mac_spec, Hi, bool_decide_eq_true_2 by (rewrite ?Hi; done). cbn [negb].
    assert (st !! a = Some p) as Hap by by apply Hst.
    rewrite bool_decide_eq_false_2 by congruence.
    pose proof (delete_unlinked t L a l1 p l2 Hwf Hin E Hb) as Hu. cbv zeta in Hu. fold b in Hu.
    eexists. split; [reflexivity|]. split; [split|].
    + eexists. by eapply (wf_remove t L _ b l1 p l2).
    + intros a' i. rewrite (unlinked_in _ _ L _ _ _ _ Hwf Hu). cbn [fst].
      destruct (decide (a' = a)) as [->|Hne].
      * rewrite lookup_delete_eq. split; [done|]. intros [[Hit Hne] Hs].
        destruct (unlinked_node_addr _ _ _ _ _ i Hu) as (Es & _ & _); [destruct Hit; lia|done|].
        rewrite Es in Hs. exfalso. apply Hne, (dw_inj _ _ Hwf); [done..|congruence].
      * rewrite lookup_delete_ne, Hst by done. split.
        -- intros [Hit Hs]. assert (i ≠ p) as Hip by congruence.
           destruct (unlinked_node_addr _ _ _ _ _ i Hu) as (Es & _ & _); [destruct Hit; lia|done|].
           by rewrite Es.
        -- intros [[Hit Hne'] Hs].
           destruct (unlinked_node_addr _ _ _ _ _ i Hu) as (Es & _ & _); [destruct Hit; lia|done|].
           by rewrite <- Es.
    + apply Hu.
  - fold b in E2. rewrite E2. cbn.
    rewrite bool_decide_eq_true_2.
    + exists t. split; [done|]. split; [by split; [exists L|]|done].
    + destruct (st !! a) as [i|] eqn:E; [|done]. apply Hst in E as [? E]. by apply Hn in E.
Qed.

(** *** Initialisation *)

Lemma class_init_state t h :
  pHashTable t = Some h → Z.of_nat (length h) = size t →
  Z.of_nat (length (pDphNodeArray t)) = size t → 0 <= size t →
  let t' := dph_hash_table_class_init t in
  size t' = size t ∧ Z.of_nat (length (pDphNodeArray t')) = size t ∧
  (∃ h', pHashTable t' = Some h' ∧ Z.of_nat (length h') = size t) ∧
  (∀ b, 0 <= b < size t → bucket t' b = None) ∧
  (∀ i, 0 <= i < size t → node t' i = node t i <| valid := 0 |> <| added := 0 |> <| assocId := i |>).
Proof.
  intros Hh Hhl Hnl Hs. unfold dph_hash_table_class_init.
  pose proof (foldl_seqZ_ind (λ t i, set_bucket t i None)
    (λ k u, size u = size t ∧ pDphNodeArray u = pDphNodeArray t ∧
      (∃ h', pHashTable u = Some h' ∧ Z.of_nat (length h') = size t) ∧
      ∀ b, 0 <= b < k → bucket u b = None) t (size t) Hs) as H1.
  destruct H1 as (S1 & N1 & (h1 & Hh1 & Hl1) & B1).
  { split_and!; [done|done|by exists h|intros; lia]. }
  { intros i u Hi (Su & Nu & (hu & Hhu & Hlu) & Bu). split_and!; [done|done| |].
    - exists (zset hu i None). unfold set_bucket. rsimpl. by rewrite Hhu, length_zset.
    - intros b Hb. rewrite (bucket_set_bucket u i None b hu) by (done || lia).
      destruct (Z.eqb_spec i b); [done|]. apply Bu. lia. }
  set (u := foldl _ t _) in *. rewrite S1.
  pose proof (foldl_seqZ_ind
    (λ t i, set_node t i (node t i <| valid := 0 |> <| added := 0 |> <| assocId := i |>))
    (λ k v, size v = size t ∧ Z.of_nat (length (pDphNodeArray v)) = size t ∧
       pHashTable v = pHashTable u ∧
       ∀ i, 0 <= i < size t → node v i =
         if i <? k then node t i <| valid := 0 |> <| added := 0 |> <| assocId := i |> else node t i)
    u (size t) Hs) as H2.
  destruct H2 as (S2 & N2 & P2 & V2).
  { split_and!; [done|by rewrite N1|done|]. intros i Hi. replace (i <? 0) with false by lia.
    unfold node. by rewrite N1. }
  { intros i v Hi (Sv & Nv & Pv & Vv). split_and!; [done| |done|].
    - unfold set_node. rsimpl. by rewrite length_zset.
    - intros j Hj. rewrite node_set_node by lia. destruct (Z.eqb_spec i j) as [->|Hne].
      + replace (j <? j + 1) with true by lia. rewrite Vv by lia.
        by replace (j <? j) with false by lia.
      + rewrite Vv by lia. by replace (j <? i + 1) with (j <? i) by lia. }
  split_and!; [done|done| | |].
  - exists h1. by rewrite P2.
  - intros b Hb. unfold bucket. rewrite P2. by apply B1.
  - intros i Hi. rewrite V2 by done. by replace (i <? size t) with true by lia.
Qed.

Lemma class_init_rep t h :
  pHashTable t = Some h → Z.of_nat (length h) = size t →
  Z.of_nat (length (pDphNodeArray t)) = size t → 0 < size t <= 256 →
  dph_rep (dph_hash_table_class_init t) ∅.
Proof.
  intros Hh Hhl Hnl Hs.
  destruct (class_init_state t h Hh Hhl Hnl) as (S & N & T & B & V); [lia|].
  assert (∀ i, ¬ in_table (dph_hash_table_class_init t) i) as Hno.
  { intros i [Hi Ha]. rewrite S in Hi. by rewrite V in Ha. }
  split.
  - exists (λ _, []). split; rewrite ?S; [done|done|done|..].
    + intros b Hb. rewrite B by done. by apply chain_nil.
    + intros b i Hb. split; [by intros ?%not_elem_of_nil|]. by intros [?%Hno _].
    + by intros i ?%Hno.
    + by intros i j ?%Hno.
  - intros a i. rewrite lookup_empty. split; [done|]. by intros [?%Hno _].
Qed.

(** *** The scan by station index *)

Lemma lookup_assoc_loop_spec fuel t staIdx i :
  0 <= i <= size t → size t <= 255 → size t - i <= Z.of_nat fuel →
  ∃ r, lookup_assoc_loop fuel t staIdx i = Some r ∧
    match r with
    | Some k => i <= k < size t ∧ added (node t k) ≠ 0 ∧ staIndex (node t k) = staIdx ∧
                ∀ j, i <= j < k → ¬ (added (node t j) ≠ 0 ∧ staIndex (node t j) = staIdx)
    | None => ∀ j, i <= j < size t → ¬ (added (node t j) ≠ 0 ∧ staIndex (node t j) = staIdx)
    end.
Proof.
  revert i. induction fuel as [|fuel IH]; intros i Hi Hs Hf; cbn [lookup_assoc_loop].
  all: destruct (Z.ltb_spec i (size t)); [|exists None; replace (i =? size t) with true by lia;
    split; [done|intros j ?; lia]].
  - lia.
  - destruct (_ && _) eqn:E; bool_hyps.
    + exists (Some i). split_and!; [done|lia|done|lia|lia|intros j ?; lia].
    + rewrite u8_small by (red; lia).
      destruct (IH (i + 1)) as (r & -> & Hr); [lia..|]. exists r. split; [done|].
      assert (¬ (added (node t i) ≠ 0 ∧ staIndex (node t i) = staIdx)) as Hni.
      { intros [? ?]. apply andb_false_iff in E as [E|E]; bool_hyps; lia. }
      destruct r as [k|].
      * destruct Hr as (? & ? & ? & Hr). split_and!; [lia..|done|done|].
        intros j Hj. destruct (decide (j = i)) as [->|]; [done|]. apply Hr. lia.
      * intros j Hj. destruct (decide (j = i)) as [->|]; [done|]. apply Hr. lia.
Qed.

Lemma lookup_assoc_loop_diverges fuel t staIdx i :
  256 <= size t → 0 <= i < 256 →
  (∀ j, 0 <= j < 256 → ¬ (added (node t j) ≠ 0 ∧ staIndex (node t j) = staIdx)) →
  lookup_assoc_loop fuel t staIdx i = None.
Proof.
  intros Hs Hi Hno. revert i Hi. induction fuel as [|fuel IH]; intros i Hi; cbn [lookup_assoc_loop];
    replace (i <? size t) with true by lia.
  all: replace (negb _ && _) with false by (specialize (Hno i Hi); lia).
  - done.
  - apply IH, u8_range.
Qed.

(** ** Properties *)

Section properties.
Context {C : Type} `{CfgReader C}.

(** C15: the station table implements a finite map from MAC addresses to
    association ids.  From a table representing [st]: every loop over a bucket
    ends; a lookup returns the map's binding (the node of the id it writes);
    an addition fails, changing nothing, exactly when the id is out of range or
    taken or the address is already present, and otherwise binds the address;
    a deletion fails, changing nothing, when the id is out of range or free or
    the address is absent, and otherwise unbinds the address.  A freshly
    initialised table represents the empty map. *)
Theorem dph_refines_map (c : C) t st a aid :
  dph_rep t st → mac_wf a → 0 <= aid →
  dph_lookup_hash_entry t a = Some ((λ i, (i, i)) <$> st !! a) ∧
  (dph_get_hash_entry t aid = Some aid ↔ ∃ a, st !! a = Some aid) ∧
  (∃ t', dph_add_hash_entry c t a aid = Some (t', (a_add t st a aid).2) ∧
         dph_rep t' (a_add t st a aid).1) ∧
  (∃ t', dph_delete_hash_entry t a aid = Some (t', (a_delete t st a aid).2) ∧
         dph_rep t' (a_delete t st a aid).1) ∧
  (∀ h, pHashTable t = Some h → Z.of_nat (length h) = size t →
        dph_rep (dph_hash_table_class_init t) ∅).
Proof.
  intros Hr Ha Hid. pose proof Hr as [[L Hwf] _]. split_and!.
  - by apply lookup_refines.
  - by apply (get_entry_refines t st).
  - destruct (add_refines c t st a aid Hr Ha Hid) as (t' & ? & ? & _). by exists t'.
  - destruct (delete_refines t st a aid Hr Ha Hid) as (t' & ? & ? & _). by exists t'.
  - intros h Hh Hl. eapply class_init_rep; [done..| |]; apply (dw_nodes _ _ Hwf) || apply (dw_size _ _ Hwf).
Qed.

(** A station just added starts from a clean node: whatever the slot held
    before, every field is reset, the station index is invalid, the
    fragmentation size is the configured threshold, not truncated, and no other
    station's node is touched. *)
Theorem dph_add_fresh_state (c : C) t st a aid t' :
  cfg_ok c → dph_rep t st → mac_wf a → 0 <= aid →
  dph_add_hash_entry c t a aid = Some (t', Some aid) →
  ∃ val, cfg_read c WNI_CFG_FRAGMENTATION_THRESHOLD = Ok val ∧
    (∃ nx, node t' aid = mk_node 1 1 ENC_POLICY_NULL val aid STA_INVALID_IDX a 0 0 false 0 0 0 0 0 nx) ∧
    ∀ i, 0 <= i → i ≠ aid → node t' i = node t i.
Proof.
  intros Hc Hr Ha Hid Hadd.
  destruct (cfg_read_ok c WNI_CFG_FRAGMENTATION_THRESHOLD Hc) as (val & Hval & Hrange); [reflexivity|].
  exists val. split; [done|].
  destruct (add_refines c t st a aid Hr Ha Hid) as (t'' & Hadd' & _ & _ & Hn).
  rewrite Hadd in Hadd'. injection Hadd' as <- Hres. destruct (Hn (eq_sym Hres)) as [-> Ho].
  split; [|done]. unfold fresh_node. rewrite Hval. eexists.
  rewrite u16_small; [reflexivity|]. revert Hrange.
  change (cfgIMin (row WNI_CFG_FRAGMENTATION_THRESHOLD)) with 256.
  change (cfgIMax (row WNI_CFG_FRAGMENTATION_THRESHOLD)) with 8000. unfold is_u16. lia.
Qed.
End properties.

(** The search by station index returns, in a table of at most 255 entries,
    the smallest association id in use with that station index, or NULL when
    there is none; in a larger table the 8-bit cursor wraps around and the
    search for an absent index never ends, however long it runs. *)
Theorem dph_lookup_assoc_id_spec t staIdx :
  0 <= size t →
  (size t <= 255 → ∃ r, dph_lookup_assoc_id t staIdx = Some r ∧
     match r with
     | Some k => 0 <= k < size t ∧ added (node t k) ≠ 0 ∧ staIndex (node t k) = staIdx ∧
                 ∀ j, 0 <= j < k → ¬ (added (node t j) ≠ 0 ∧ staIndex (node t j) = staIdx)
     | None => ∀ j, 0 <= j < size t → ¬ (added (node t j) ≠ 0 ∧ staIndex (node t j) = staIdx)
     end) ∧
  (256 <= size t →
     (∀ j, 0 <= j < 256 → ¬ (added (node t j) ≠ 0 ∧ staIndex (node t j) = staIdx)) →
     ∀ fuel, lookup_assoc_loop fuel t staIdx 0 = None).
Proof.
  intros Hs. split.
  - intros Hl. apply lookup_assoc_loop_spec; lia.
  - intros Hl Hno fuel. by apply lookup_assoc_loop_diverges.
Qed.

(** *** A concrete table *)

Definition demo_table : dphHashTableClass :=
  dph_hash_table_class_init
    (mk_dph (Some (replicate 5 None)) (replicate 5 (node_zero None)) 5).
Definition demo_addr : list Z := [0; 17; 34; 51; 68; 85].

Lemma demo_table_rep : dph_rep demo_table ∅.
Proof. by eapply (class_init_rep _ (replicate 5 None)). Qed.

Lemma demo_addr_wf : mac_wf demo_addr.
Proof. split; [done|]. repeat constructor; cbn; lia. Qed.

(** A reader whose parameters all have their table defaults. *)
Definition default_reader : CfgReader unit.
Proof.
  refine {| cfg_read _ p := Ok (cfgIVal (row p)); cfg_ok _ := True |}.
  intros _ p _ Hp. exists (cfgIVal (row p)). split; [done|].
  destruct p; vm_compute in Hp |- *; try discriminate Hp; split; congruence.
Defined.

Lemma dph_refines_map_witness :
  ∃ t', dph_add_hash_entry (H := default_reader) tt demo_table demo_addr 3 = Some (t', Some 3) ∧
        dph_rep t' {[ demo_addr := 3 ]}.
Proof.
  exact (proj1 (proj2 (proj2 (dph_refines_map (H := default_reader) tt demo_table ∅ demo_addr 3
    demo_table_rep demo_addr_wf ltac:(lia))))).
Defined.

Lemma dph_add_fresh_state_witness :
  ∃ t', dph_add_hash_entry (H := default_reader) tt demo_table demo_addr 3 = Some (t', Some 3) ∧
        ∀ i, 0 <= i → i ≠ 3 → node t' i = node demo_table i.
Proof.
  destruct (dph_add_hash_entry (H := default_reader) tt demo_table demo_addr 3) as [[t' r]|] eqn:E;
    [|vm_compute in E; discriminate E].
  assert (r = Some 3) as -> by (vm_compute in E; by injection E).
  exists t'. split; [done|].
  destruct (dph_add_fresh_state (H := default_reader) tt demo_table ∅ demo_addr 3 t') as (_ & _ & _ & Ho);
    [exact I|exact demo_table_rep|exact demo_addr_wf|lia|exact E|exact Ho].
Defined.

Lemma dph_lookup_assoc_id_spec_witness :
  dph_lookup_assoc_id (set_node demo_table 2 (node_zero None <| added := 1 |> <| staIndex := 7 |>)) 7
    = Some (Some 2) ∧
  lookup_assoc_loop 1000 (demo_table <| size := 300 |>) 7 0 = None.
Proof.
  split; [reflexivity|].
  apply (dph_lookup_assoc_id_spec (demo_table <| size := 300 |>) 7); [vm_compute; congruence..|].
  intros j Hj [Ha _]. apply Ha. clear Ha.
  destruct (decide (j < 5)) as [Hj5|Hj5].
  - assert (j = 0 ∨ j = 1 ∨ j = 2 ∨ j = 3 ∨ j = 4) as [->|[->|[->|[->| ->]]]] by lia; reflexivity.
  - unfold node. rewrite zget_out; [done|]. change (5 <= j). lia.
Defined.
