(* ===== verification/AdmitControl.v ===== *)
(** Admission control of traffic streams: core/mac/src/pe/lim/lim_admit_control.c.

    The access point keeps a table of fifteen traffic specifications, admits a
    new one according to a policy (all, none, or a bandwidth budget) and drops
    those of a station that leaves.  Stations are looked up in the table of
    [DphHash]; the policy is read through the interface of [CfgIface]. *)
From S2P Require Import Prelude Chains LimTypes CfgTable CfgIface DphHash.

(** [tSirMacTSInfo], bit fields as numbers. *)
Record tSirMacTSInfo := mk_tsinfo {
  trafficType : Z; tsid : Z; direction : Z; accessPolicy : Z; aggregation : Z; psb : Z;
  userPrio : Z; ackPolicy : Z; reserved : Z; burstSizeDefn : Z; schedule : Z; rsvd : Z;
}.
#[export] Instance tSirMacTSInfo_eq_dec : EqDecision tSirMacTSInfo.
Proof. solve_decision. Defined.

(** [tSirMacTspecIE]. *)
Record tSirMacTspecIE := mk_tspec {
  ie_type : Z; ie_length : Z; tsinfo : tSirMacTSInfo;
  nomMsduSz : Z; maxMsduSz : Z; minSvcInterval : Z; maxSvcInterval : Z; inactInterval : Z;
  suspendInterval : Z; svcStartTime : Z; minDataRate : Z; meanDataRate : Z; peakDataRate : Z;
  maxBurstSz : Z; delayBound : Z; minPhyRate : Z; surplusBw : Z; mediumTime : Z;
}.
#[export] Instance tSirMacTspecIE_eq_dec : EqDecision tSirMacTspecIE.
Proof. solve_decision. Defined.

Definition tsinfo_zero : tSirMacTSInfo := mk_tsinfo 0 0 0 0 0 0 0 0 0 0 0 0.
Definition tspec_zero : tSirMacTspecIE := mk_tspec 0 0 tsinfo_zero 0 0 0 0 0 0 0 0 0 0 0 0 0 0 0.

(** [tLimTspecInfo] without its classifier fields, which this file never uses. *)
Record tLimTspecInfo := mk_info {
  inuse : Z;
  idx : Z;
  info_staAddr : list Z;
  info_assocId : Z;
  tspec : tSirMacTspecIE;
}.
#[export] Instance tLimTspecInfo_eta : Eta tLimTspecInfo := fun i =>
  mk_info (inuse i) (idx i) (info_staAddr i) (info_assocId i) (tspec i).
Definition info_zero : tLimTspecInfo := mk_info 0 0 zero_mac 0 tspec_zero.
#[export] Instance tLimTspecInfo_inhabited : Inhabited tLimTspecInfo := populate info_zero.

(** The part of [tAniSirLim] used here, and of the session. *)
Record limState := mk_lim_state {
  tspecInfo : list tLimTspecInfo;
  policy_type : Z;
  bw_factor : Z;
  maxStation : Z;
  gLimProcessDefdMsgs : bool;
}.
#[export] Instance limState_eta : Eta limState := fun s =>
  mk_lim_state (tspecInfo s) (policy_type s) (bw_factor s) (maxStation s) (gLimProcessDefdMsgs s).

Record acSession := mk_ac_session {
  gLimPhyMode : Z;
  dphHashTable : dphHashTableClass;
}.

(** [tSirMacScheduleIE] as filled here. *)
Record tSirMacScheduleIE := mk_sched {
  sch_svcStartTime : Z; sch_svcInterval : Z; sch_maxSvcDuration : Z; sch_specInterval : Z;
  sch_direction : Z; sch_tsid : Z; sch_aggregation : Z;
}.

Definition LIM_NUM_TSPEC_MAX : Z := 15.
Definition LIM_TOTAL_BW_11A : Z := 54000000.
Definition LIM_MIN_BW_11A : Z := 6000000.
Definition LIM_TOTAL_BW_11B : Z := 11000000.
Definition LIM_MIN_BW_11B : Z := 1000000.
Definition LIM_TOTAL_BW_11G : Z := LIM_TOTAL_BW_11A.
Definition LIM_MIN_BW_11G : Z := LIM_MIN_BW_11B.
Definition LIM_CONVERT_SIZE_BITS (numBytes : Z) : Z := numBytes * 8.
Definition LIM_CONVERT_RATE_MBPS (rate : Z) : Z := rate / 1000000.
Definition SIR_MAC_ACCESSPOLICY_EDCA : Z := 1.
Definition WNI_CFG_PHY_MODE_11A : Z := 0.
Definition WNI_CFG_PHY_MODE_11B : Z := 1.
Definition WNI_CFG_ADMIT_POLICY_ADMIT_ALL : Z := 0.
Definition WNI_CFG_ADMIT_POLICY_REJECT_ALL : Z := 1.
Definition WNI_CFG_ADMIT_POLICY_BW_FACTOR : Z := 2.

(** [lim_calculate_svc_int]: the status and the interval written; [None] is the
    division by zero of a rate below 1 Mb/s. *)
Definition lim_calculate_svc_int (p : tSirMacTspecIE) : option (tSirRetStatus * Z) :=
  if negb (minSvcInterval p =? 0) || negb (maxSvcInterval p =? 0) then
    Some (eSIR_SUCCESS, if negb (maxSvcInterval p =? 0) then maxSvcInterval p else minSvcInterval p)
  else
    let msduSz := if negb (nomMsduSz p =? 0) then Some (Z.land (nomMsduSz p) 0x7fff)
                  else if negb (maxMsduSz p =? 0) then Some (maxMsduSz p) else None in
    let dataRate := if negb (meanDataRate p =? 0) then Some (meanDataRate p)
                    else if negb (peakDataRate p =? 0) then Some (peakDataRate p)
                    else if negb (minDataRate p =? 0) then Some (minDataRate p) else None in
    match msduSz, dataRate with
    | None, _ | _, None => Some (eSIR_FAILURE, 0)
    | Some sz, Some rate =>
        if LIM_CONVERT_RATE_MBPS rate =? 0 then None
        else Some (eSIR_FAILURE, u32 (LIM_CONVERT_SIZE_BITS sz) / LIM_CONVERT_RATE_MBPS rate)
    end.

(** [lim_get_available_bw]: the maximal and minimal bandwidth. *)
Definition lim_get_available_bw (phyMode factor : Z) : Z * Z :=
  let '(mx, mn) :=
    if phyMode =? WNI_CFG_PHY_MODE_11B then (LIM_TOTAL_BW_11B, LIM_MIN_BW_11B)
    else if phyMode =? WNI_CFG_PHY_MODE_11A then (LIM_TOTAL_BW_11A, LIM_MIN_BW_11A)
    else (LIM_TOTAL_BW_11G, LIM_MIN_BW_11G) in
  (u32 (mx * factor), mn).

Definition lim_validate_tspec_edca (p : tSirMacTspecIE) (s : acSession) : tSirRetStatus :=
  let max_phy_rate := (lim_get_available_bw (gLimPhyMode s) 1).1 in
  if (nomMsduSz p =? 0) || (meanDataRate p =? 0) || (surplusBw p =? 0) || (minPhyRate p =? 0) ||
     (max_phy_rate <? minPhyRate p)
  then eSIR_FAILURE else eSIR_SUCCESS.

Definition lim_validate_tspec (p : tSirMacTspecIE) (s : acSession) : tSirRetStatus :=
  if accessPolicy (tsinfo p) =? SIR_MAC_ACCESSPOLICY_EDCA then lim_validate_tspec_edca p s
  else eSIR_FAILURE.

(** [lim_compute_mean_bw_used]. *)
Definition lim_compute_mean_bw_used (l : list tLimTspecInfo) (s : acSession) : Z :=
  foldl (λ bw i,
    let t := zget l i in
    if negb (inuse t =? 0) then
      match dph_get_hash_entry (dphHashTable s) (info_assocId t) with
      | None => bw
      | Some _ => u32 (bw + meanDataRate (tspec t))
      end
    else bw) 0 (seqZ 0 LIM_NUM_TSPEC_MAX).

Definition lim_admit_policy_oversubscription (m : limState) (p : tSirMacTspecIE) (s : acSession) :
    tSirRetStatus :=
  let usedbw := lim_compute_mean_bw_used (tspecInfo m) s in
  let totalbw := (lim_get_available_bw (gLimPhyMode s) (bw_factor m)).1 in
  if totalbw <? usedbw then eSIR_FAILURE
  else if u32 (totalbw - usedbw) <? meanDataRate p then eSIR_FAILURE
  else eSIR_SUCCESS.

Definition lim_admit_policy (m : limState) (p : tSirMacTspecIE) (s : acSession) : tSirRetStatus :=
  if policy_type m =? WNI_CFG_ADMIT_POLICY_ADMIT_ALL then eSIR_SUCCESS
  else if policy_type m =? WNI_CFG_ADMIT_POLICY_BW_FACTOR then lim_admit_policy_oversubscription m p s
  else if policy_type m =? WNI_CFG_ADMIT_POLICY_REJECT_ALL then eSIR_FAILURE
  else eSIR_SUCCESS.

Definition set_info (m : limState) (i : Z) (t : tLimTspecInfo) : limState :=
  m <| tspecInfo ::= λ l, zset l i t |>.

(** [lim_tspec_delete] of the entry at an index. *)
Definition lim_tspec_delete (m : limState) (i : Z) : limState :=
  set_info m i (zget (tspecInfo m) i <| inuse := 0 |>).

(** The searches return the index of the first matching entry in use. *)
Definition find_info (P : tLimTspecInfo → bool) (l : list tLimTspecInfo) : option Z :=
  List.find (λ i, P (zget l i)) (seqZ 0 LIM_NUM_TSPEC_MAX).
Definition in_use (t : tLimTspecInfo) : bool := negb (inuse t =? 0).

Definition lim_tspec_find_by_sta_addr (addr : list Z) (p : tSirMacTspecIE)
    (l : list tLimTspecInfo) : option Z :=
  find_info (λ t, in_use t && bool_decide (addr = info_staAddr t) && bool_decide (p = tspec t)) l.

Definition lim_tspec_find_by_assoc_id (assocId : Z) (p : tSirMacTspecIE)
    (l : list tLimTspecInfo) : option Z :=
  find_info (λ t, in_use t && (assocId =? info_assocId t) && bool_decide (p = tspec t)) l.

Definition ts_match (assocId : Z) (ts : tSirMacTSInfo) (t : tLimTspecInfo) : bool :=
  in_use t && (assocId =? info_assocId t) && (direction ts =? direction (tsinfo (tspec t))) &&
  (tsid ts =? tsid (tsinfo (tspec t))).
Definition lim_find_tspec (assocId : Z) (ts : tSirMacTSInfo) (l : list tLimTspecInfo) : option Z :=
  find_info (ts_match assocId ts) l.

(** [lim_tspec_add]: the entry written.  When an entry with the same stream is
    found, [pTspecList] still points to the first entry of the table. *)
Definition lim_tspec_add (m : limState) (addr : list Z) (assocId : Z) (p : tSirMacTspecIE)
    (interval : Z) : limState * option Z :=
  if maxStation m <=? assocId then (m, None)
  else
    let slot :=
      match lim_find_tspec assocId (tsinfo p) (tspecInfo m) with
      | Some _ => Some (m, 0)
      | None =>
          match find_info (λ t, negb (in_use t)) (tspecInfo m) with
          | None => None
          | Some c => Some (set_info m c (zget (tspecInfo m) c <| idx := c |>), c)
          end
      end in
    match slot with
    | None => (m, None)
    | Some (m, i) =>
        (set_info m i (zget (tspecInfo m) i <| tspec := p |> <| info_assocId := assocId |>
                         <| info_staAddr := addr |> <| inuse := 1 |>), Some i)
    end.

Definition lim_validate_access_policy (policy assocId : Z) (s : acSession) : tSirRetStatus :=
  match dph_get_hash_entry (dphHashTable s) assocId with
  | None => eSIR_FAILURE
  | Some k =>
      let sta := node (dphHashTable s) k in
      if valid sta =? 0 then eSIR_FAILURE
      else if policy =? SIR_MAC_ACCESSPOLICY_EDCA then
        if negb (wmeEnabled sta =? 0) || negb (lleEnabled sta =? 0) then eSIR_SUCCESS else eSIR_FAILURE
      else eSIR_FAILURE
  end.

(** The schedule element filled in for an admitted stream. *)
Definition fill_schedule (p : tSirMacTspecIE) (svcInterval : Z) : tSirMacScheduleIE :=
  mk_sched (svcStartTime p) svcInterval (u16 svcInterval) 0x1000
    (direction (tsinfo p)) (tsid (tsinfo p)) 0.

(** [lim_admit_control_add_ts]: the state, the status, the schedule element when
    one was requested and filled, and the table index written; [None] is the
    division by zero of [lim_calculate_svc_int]. *)
Definition lim_admit_control_add_ts (m : limState) (addr : list Z) (p : tSirMacTspecIE)
    (assocId : Z) (alloc want_sch : bool) (s : acSession) :
    option (limState * tSirRetStatus * option tSirMacScheduleIE * option Z) :=
  let dup := if alloc then lim_tspec_find_by_assoc_id assocId p (tspecInfo m)
             else lim_tspec_find_by_sta_addr addr p (tspecInfo m) in
  match dup with
  | Some _ => Some (m, eSIR_FAILURE, None, None)
  | None =>
      if negb (bool_decide (lim_validate_tspec p s = eSIR_SUCCESS))
      then Some (m, eSIR_FAILURE, None, None)
      else
        '(st, svcInterval) ← lim_calculate_svc_int p;
        if negb (bool_decide (st = eSIR_SUCCESS)) then Some (m, eSIR_FAILURE, None, None)
        else if negb (bool_decide (lim_admit_policy m p s = eSIR_SUCCESS))
        then Some (m, eSIR_FAILURE, None, None)
        else
          let sch := if want_sch then Some (fill_schedule p svcInterval) else None in
          if negb alloc then Some (m, eSIR_SUCCESS, sch, None)
          else if negb (bool_decide
                 (lim_validate_access_policy (accessPolicy (tsinfo p)) assocId s = eSIR_SUCCESS))
          then Some (m, eSIR_FAILURE, sch, None)
          else match lim_tspec_add m addr assocId p svcInterval with
               | (m, None) => Some (m, eSIR_FAILURE, sch, None)
               | (m, Some i) => Some (m, eSIR_SUCCESS, sch, Some (idx (zget (tspecInfo m) i)))
               end
  end.

(** [lim_admit_control_delete_ts]: the state, the status and the table index
    written through [ptspecIdx]. *)
Definition lim_admit_control_delete_ts (m : limState) (assocId : Z) (ts : tSirMacTSInfo) :
    limState * tSirRetStatus * option Z :=
  match lim_find_tspec assocId ts (tspecInfo m) with
  | Some i => (lim_tspec_delete m i, eSIR_SUCCESS, Some (idx (zget (tspecInfo m) i)))
  | None => (m, eSIR_FAILURE, None)
  end.

Definition lim_admit_control_delete_sta (m : limState) (assocId : Z) : limState * tSirRetStatus :=
  (foldl (λ m i, if assocId =? info_assocId (zget (tspecInfo m) i) then lim_tspec_delete m i else m)
         m (seqZ 0 LIM_NUM_TSPEC_MAX), eSIR_SUCCESS).

Definition lim_admit_control_init (m : limState) : limState * tSirRetStatus :=
  (m <| tspecInfo := replicate (Z.to_nat LIM_NUM_TSPEC_MAX) info_zero |>, eSIR_SUCCESS).

(** [lim_update_admit_policy]. *)
Definition lim_update_admit_policy {C} `{CfgReader C} (c : C) (m : limState) :
    limState * tSirRetStatus :=
  match cfg_read c WNI_CFG_ADMIT_POLICY with
  | Err _ => (m, eSIR_FAILURE)
  | Ok val =>
      let m := m <| policy_type := u8 val |> in
      match cfg_read c WNI_CFG_ADMIT_BWFACTOR with
      | Err _ => (m, eSIR_FAILURE)
      | Ok val => (m <| bw_factor := u8 val |>, eSIR_SUCCESS)
      end
  end.

(** *** Messages to and from the hardware layer *)

(** [tAddTsParams]. *)
Record tAddTsParams := mk_add_ts {
  at_staIdx : Z; at_tspecIdx : Z; at_tspec : tSirMacTspecIE; at_status_ok : bool;
  at_sessionId : Z; at_sme_session_id : Z; at_tsm_interval : Z; at_setRICparams : bool;
}.

(** The session fields these messages carry. *)
Record tsSession := mk_ts_session {
  smeSessionId : Z; transactionId : Z; bssId : list Z; is11Rconnection : bool; ts_ac : acSession;
}.

Inductive lim_action :=
  | WMA_ADD_TS_REQ (p : tAddTsParams)
  | WMA_DEL_TS_REQ (staIdx tspecIdx : Z) (bss : list Z) (sme_session prio : Z) (ric : bool)
  | lim_send_sme_addts_rsp (success : bool) (p : tSirMacTspecIE) (sme_session transaction : Z)
  | lim_send_delts_req_action_frame (peer : list Z) (p : tSirMacTspecIE).

(** [lim_send_hal_msg_add_ts]; [session] is what the session id designates,
    [malloc_ok] and [post_ok] the outcomes of the allocation and of the post,
    [roam_offload] the roaming configuration. *)
Definition lim_send_hal_msg_add_ts (m : limState) (session : option tsSession)
    (malloc_ok post_ok roam_offload : bool) (staIdx tspecIdx : Z) (p : tSirMacTspecIE)
    (sessionId tsm_interval : Z) : limState * tSirRetStatus * list lim_action :=
  match session with
  | None => (m, eSIR_FAILURE, [])
  | Some s =>
      if negb malloc_ok then (m, eSIR_MEM_ALLOC_FAILED, [])
      else
        let params := mk_add_ts staIdx tspecIdx p true sessionId (smeSessionId s) tsm_interval
                        (roam_offload && is11Rconnection s) in
        let m := m <| gLimProcessDefdMsgs := false |> in
        if negb post_ok then (m <| gLimProcessDefdMsgs := true |>, eSIR_FAILURE, [])
        else (m, eSIR_SUCCESS, [WMA_ADD_TS_REQ params])
  end.

(** [lim_send_hal_msg_del_ts]; [wme] is [delts.wmeTspecPresent]. *)
Definition lim_send_hal_msg_del_ts (session : option tsSession)
    (malloc_ok post_ok roam_offload : bool) (staIdx tspecIdx : Z) (wme : bool)
    (p : tSirMacTspecIE) (ts : tSirMacTSInfo) (bss : list Z) : tSirRetStatus * list lim_action :=
  if negb malloc_ok then (eSIR_MEM_ALLOC_FAILED, [])
  else match session with
  | None => (eSIR_FAILURE, [])
  | Some s =>
      let prio := if wme then userPrio (tsinfo p) else userPrio ts in
      if negb post_ok then (eSIR_FAILURE, [])
      else (eSIR_SUCCESS, [WMA_DEL_TS_REQ staIdx tspecIdx bss (smeSessionId s) prio
                             (roam_offload && is11Rconnection s)])
  end.

(** [lim_process_hal_add_ts_rsp]: [reqSession] and [reqTransaction] are the ids of
    [gLimAddtsReq]; [None] when the search by station index does not end. *)
Definition lim_process_hal_add_ts_rsp (m : limState) (body : option tAddTsParams)
    (session : option tsSession) (reqSession reqTransaction : Z) :
    option (limState * list lim_action) :=
  let m := m <| gLimProcessDefdMsgs := true |> in
  match body with
  | None => Some (m, [])
  | Some rsp =>
      match session with
      | None => Some (m, [lim_send_sme_addts_rsp false (at_tspec rsp) reqSession reqTransaction])
      | Some s =>
          if at_status_ok rsp then
            Some (m, [lim_send_sme_addts_rsp true (at_tspec rsp) (smeSessionId s) (transactionId s)])
          else
            pSta ← dph_lookup_assoc_id (dphHashTable (ts_ac s)) (at_staIdx rsp);
            let m := match pSta with
                     | Some assocId =>
                         (lim_admit_control_delete_ts m assocId (tsinfo (at_tspec rsp))).1.1
                     | None => m
                     end in
            Some (m, [lim_send_delts_req_action_frame (bssId s) (at_tspec rsp);
                      lim_send_sme_addts_rsp false (at_tspec rsp) (smeSessionId s) (transactionId s)])
      end
  end.

(** ** The table *)

Lemma find_info_spec P l :
  match find_info P l with
  | Some i => 0 <= i < LIM_NUM_TSPEC_MAX ∧ P (zget l i) = true ∧
              ∀ j, 0 <= j < i → P (zget l j) = false
  | None => ∀ j, 0 <= j < LIM_NUM_TSPEC_MAX → P (zget l j) = false
  end.
Proof.
  unfold find_info.
  destruct (find_split (λ i, P (zget l i)) (seqZ 0 LIM_NUM_TSPEC_MAX))
    as [[-> Hn]|(l1 & i & l2 & E & Hl1 & Hi & ->)].
  - intros j Hj. rewrite Forall_forall in Hn. apply Hn, elem_of_seqZ. lia.
  - assert (i ∈ seqZ 0 LIM_NUM_TSPEC_MAX) as Hin by (rewrite E; set_solver).
    apply elem_of_seqZ in Hin. split_and!; [lia..|done|].
    intros j Hj. rewrite Forall_forall in Hl1. apply Hl1.
    assert (seqZ 0 LIM_NUM_TSPEC_MAX !! length l1 = Some i) as Hl
      by (rewrite E; by apply list_lookup_middle).
    apply lookup_seqZ in Hl as [Hl _].
    assert (seqZ 0 LIM_NUM_TSPEC_MAX !! Z.to_nat j = Some j) as Hj'
      by (apply lookup_seqZ; lia).
    rewrite E, lookup_app_l in Hj' by lia. by eapply list_elem_of_lookup_2.
Qed.

Definition table_ok (m : limState) : Prop := Z.of_nat (length (tspecInfo m)) = LIM_NUM_TSPEC_MAX.

Lemma zget_set_info m i t j :
  table_ok m → 0 <= i < LIM_NUM_TSPEC_MAX → 0 <= j →
  zget (tspecInfo (set_info m i t)) j = if i =? j then t else zget (tspecInfo m) j.
Proof. intros Hm Hi Hj. apply zget_zset; [|done]. unfold table_ok in Hm. lia. Qed.
Lemma table_ok_set m i t : table_ok m → table_ok (set_info m i t).
Proof. unfold table_ok, set_info. rsimpl. by rewrite length_zset. Qed.

(** ** Bandwidth *)

(** The bandwidth an entry counts for. *)
Definition entry_bw (s : acSession) (t : tLimTspecInfo) : Z :=
  if in_use t && bool_decide (is_Some (dph_get_hash_entry (dphHashTable s) (info_assocId t)))
  then meanDataRate (tspec t) else 0.
(** The exact sum over the table. *)
Definition used_bw (s : acSession) (m : limState) : Z :=
  foldr Z.add 0 (entry_bw s <$> tspecInfo m).

Definition rates_ok (m : limState) : Prop :=
  Forall (λ t, 0 <= meanDataRate (tspec t)) (tspecInfo m).

Lemma entry_bw_nonneg s t : 0 <= meanDataRate (tspec t) → 0 <= entry_bw s t.
Proof. intros. unfold entry_bw. by split_if. Qed.

Lemma used_bw_nonneg s m : rates_ok m → 0 <= used_bw s m.
Proof.
  unfold rates_ok, used_bw. induction 1; cbn; [done|].
  pose proof (entry_bw_nonneg s _ H). lia.
Qed.

(** The 32-bit sum of the code is the exact sum when that fits. *)
Lemma foldl_add_mod (f : Z → Z) l a :
  foldl (λ b i, u32 (b + f i)) (u32 a) l = u32 (a + foldr Z.add 0 (f <$> l)).
Proof.
  revert a. induction l as [|i l IH]; intros a; cbn; [by rewrite Z.add_0_r|].
  replace (u32 (u32 a + f i)) with (u32 (a + f i)) by word_lia.
  rewrite IH. f_equal. lia.
Qed.

Lemma fmap_seqZ_zget {A} `{Inhabited A} (l : list A) :
  zget l <$> seqZ 0 (Z.of_nat (length l)) = l.
Proof.
  apply list_eq. intros i. rewrite list_lookup_fmap.
  destruct (decide (i < length l)%nat) as [Hi|Hi].
  - rewrite (proj2 (lookup_seqZ 0 (Z.of_nat (length l)) i (Z.of_nat i))) by lia. cbn.
    unfold zget. rewrite Nat2Z.id. destruct (lookup_lt_is_Some_2 l i Hi) as [x Hx].
    rewrite Hx. f_equal. by apply list_lookup_total_correct.
  - rewrite (lookup_seqZ_ge 0 (Z.of_nat (length l)) i) by lia. cbn.
    symmetry. apply lookup_ge_None. lia.
Qed.

Lemma compute_mean_bw_sum s m :
  table_ok m → lim_compute_mean_bw_used (tspecInfo m) s = u32 (used_bw s m).
Proof.
  intros Hm. unfold lim_compute_mean_bw_used.
  assert (∀ l a, 0 <= a < 4294967296 →
    foldl (λ bw i, let t := zget (tspecInfo m) i in
      if negb (inuse t =? 0) then
        match dph_get_hash_entry (dphHashTable s) (info_assocId t) with
        | None => bw | Some _ => u32 (bw + meanDataRate (tspec t)) end
      else bw) a l =
    foldl (λ b i, u32 (b + entry_bw s (zget (tspecInfo m) i))) a l) as E.
  { induction l as [|i l IH]; intros a Ha; cbn; [done|].
    rewrite IH; [|repeat case_match; try done; apply u32_range].
    f_equal. unfold entry_bw, in_use.
    destruct (inuse _ =? 0); cbn; [by rewrite Z.add_0_r, u32_small|].
    destruct (dph_get_hash_entry _ _).
    - by rewrite bool_decide_eq_true_2.
    - rewrite bool_decide_eq_false_2 by (by intros [? ?]). by rewrite Z.add_0_r, u32_small. }
  rewrite E by lia. change 0 with (u32 0) at 1. rewrite foldl_add_mod. f_equal.
  unfold used_bw. rewrite Z.add_0_l. f_equal.
  transitivity (entry_bw s <$> (zget (tspecInfo m) <$> seqZ 0 LIM_NUM_TSPEC_MAX)).
  - by rewrite <- list_fmap_compose.
  - unfold table_ok in Hm. by rewrite <- Hm, fmap_seqZ_zget.
Qed.

(** Replacing one entry changes the sum by the difference. *)
Lemma sum_insert {A} `{Inhabited A} (f : A → Z) (l : list A) k x :
  (k < length l)%nat →
  foldr Z.add 0 (f <$> <[k := x]> l) = foldr Z.add 0 (f <$> l) - f (l !!! k) + f x.
Proof.
  revert k. induction l as [|y l IH]; intros [|k] Hk; cbn [length] in Hk; try lia.
  - rewrite !fmap_cons. cbn. lia.
  - change (<[S k := x]> (y :: l)) with (y :: <[k := x]> l). rewrite !fmap_cons. cbn [foldr].
    rewrite IH by lia. change ((y :: l) !!! S k) with (l !!! k). lia.
Qed.

Lemma used_bw_set s m i t :
  table_ok m → 0 <= i < LIM_NUM_TSPEC_MAX →
  used_bw s (set_info m i t) = used_bw s m - entry_bw s (zget (tspecInfo m) i) + entry_bw s t.
Proof. intros Hm Hi. apply sum_insert. unfold table_ok in Hm. lia. Qed.

(** *** The outcome of an addition *)

(** The table after writing a specification in entry [i]. *)
Definition written (m : limState) (i : Z) (addr : list Z) (assocId : Z) (p : tSirMacTspecIE)
    (k : Z) : limState :=
  set_info m i (mk_info 1 k addr assocId p).

Lemma set_info_twice m i t t' : set_info (set_info m i t) i t' = set_info m i t'.
Proof. unfold set_info, zset. rsimpl. by rewrite list_insert_insert_eq. Qed.

(** [lim_tspec_add] overwrites entry 0 when the stream is already present, and
    otherwise takes the first free entry. *)
Lemma tspec_add_spec m addr assocId p interval m' i :
  table_ok m → lim_tspec_add m addr assocId p interval = (m', Some i) →
  0 <= i < LIM_NUM_TSPEC_MAX ∧ assocId < maxStation m ∧
  ((lim_find_tspec assocId (tsinfo p) (tspecInfo m) ≠ None ∧ i = 0 ∧
    m' = written m 0 addr assocId p (idx (zget (tspecInfo m) 0))) ∨
   (lim_find_tspec assocId (tsinfo p) (tspecInfo m) = None ∧
    in_use (zget (tspecInfo m) i) = false ∧
    (∀ j, 0 <= j < i → in_use (zget (tspecInfo m) j) = true) ∧
    m' = written m i addr assocId p i)).
Proof.
  intros Hm. unfold lim_tspec_add. split_if; [done|]. bool_hyps.
  destruct (lim_find_tspec assocId (tsinfo p) (tspecInfo m)) as [k|].
  - intros [= <- <-]. unfold LIM_NUM_TSPEC_MAX. split_and!; [lia..|]. left. split_and!; done.
  - pose proof (find_info_spec (λ t, negb (in_use t)) (tspecInfo m)) as Hf.
    destruct (find_info (λ t, negb (in_use t)) (tspecInfo m)) as [c|]; [|done].
    destruct Hf as (Hc & Hfree & Hless). intros [= <- <-].
    split_and!; [lia..|]. right. split; [done|]. split; [by bool_hyps|]. split.
    { intros j Hj. specialize (Hless j Hj). by bool_hyps. }
    unfold written. unfold table_ok in Hm. rewrite zget_zset_eq by lia. apply set_info_twice.
Qed.

(** A successful [lim_admit_control_add_ts] with allocation. *)
Lemma add_ts_success m addr p assocId sch s m' osch oi :
  lim_admit_control_add_ts m addr p assocId true sch s = Some (m', eSIR_SUCCESS, osch, oi) →
  (minSvcInterval p ≠ 0 ∨ maxSvcInterval p ≠ 0) ∧
  lim_validate_tspec p s = eSIR_SUCCESS ∧ lim_admit_policy m p s = eSIR_SUCCESS ∧
  lim_validate_access_policy (accessPolicy (tsinfo p)) assocId s = eSIR_SUCCESS ∧
  lim_tspec_find_by_assoc_id assocId p (tspecInfo m) = None ∧
  ∃ i interval, lim_tspec_add m addr assocId p interval = (m', Some i) ∧
    oi = Some (idx (zget (tspecInfo m') i)).
Proof.
  unfold lim_admit_control_add_ts. destruct (lim_tspec_find_by_assoc_id _ _ _) eqn:Ed; [done|].
  destruct (bool_decide (lim_validate_tspec p s = eSIR_SUCCESS)) eqn:Ev; [|done]. cbn [negb].
  destruct (lim_calculate_svc_int p) as [[st iv]|] eqn:Ei; [|done]. cbn [mbind option_bind].
  destruct (bool_decide (st = eSIR_SUCCESS)) eqn:Es; [|done]. cbn [negb].
  destruct (bool_decide (lim_admit_policy m p s = eSIR_SUCCESS)) eqn:Ep; [|done]. cbn [negb].
  destruct (bool_decide (lim_validate_access_policy _ _ _ = eSIR_SUCCESS)) eqn:Ea; [|done]. cbn [negb].
  destruct (lim_tspec_add m addr assocId p iv) as [m1 [i|]] eqn:Eadd; [|done].
  intros [= <- <- <-]. bool_hyps. split_and!; try done; [|by exists i, iv].
  unfold lim_calculate_svc_int in Ei. split_if_in Ei; [lia|].
  subst st. by repeat case_match; simplify_eq.
Qed.

(** A failed or rejected addition leaves the table alone. *)
Lemma add_ts_failure m addr p assocId alloc sch s m' st osch oi :
  lim_admit_control_add_ts m addr p assocId alloc sch s = Some (m', st, osch, oi) →
  st ≠ eSIR_SUCCESS ∨ alloc = false → m' = m.
Proof.
  unfold lim_admit_control_add_ts.
  destruct (if alloc then _ else _); [by intros [= <- <- <- <-]|].
  split_if; [by intros [= <- <- <- <-]|].
  destruct (lim_calculate_svc_int p) as [[st0 iv]|]; [|done]. cbn [mbind option_bind].
  do 2 (split_if; [by intros [= <- <- <- <-]|]).
  destruct alloc; cbn [negb]; [|by intros [= <- <- <- <-]].
  split_if; [by intros [= <- <- <- <-]|].
  unfold lim_tspec_add. repeat case_match; intros; simplify_eq; try done; naive_solver.
Qed.

(** *** Deletions *)

Lemma tspec_delete_entry m i j :
  table_ok m → 0 <= i < LIM_NUM_TSPEC_MAX → 0 <= j →
  zget (tspecInfo (lim_tspec_delete m i)) j =
  if i =? j then zget (tspecInfo m) i <| inuse := 0 |> else zget (tspecInfo m) j.
Proof. intros. by apply zget_set_info. Qed.

Lemma delete_sta_entries m a :
  table_ok m →
  table_ok (lim_admit_control_delete_sta m a).1 ∧
  policy_type (lim_admit_control_delete_sta m a).1 = policy_type m ∧
  bw_factor (lim_admit_control_delete_sta m a).1 = bw_factor m ∧
  ∀ j, 0 <= j < LIM_NUM_TSPEC_MAX →
    zget (tspecInfo (lim_admit_control_delete_sta m a).1) j =
    if a =? info_assocId (zget (tspecInfo m) j) then zget (tspecInfo m) j <| inuse := 0 |>
    else zget (tspecInfo m) j.
Proof.
  intros Hm. unfold lim_admit_control_delete_sta. cbn [fst].
  set (f := λ m i, _).
  assert (table_ok (foldl f m (seqZ 0 LIM_NUM_TSPEC_MAX)) ∧
    policy_type (foldl f m (seqZ 0 LIM_NUM_TSPEC_MAX)) = policy_type m ∧
    bw_factor (foldl f m (seqZ 0 LIM_NUM_TSPEC_MAX)) = bw_factor m ∧
    ∀ j, 0 <= j < LIM_NUM_TSPEC_MAX →
      zget (tspecInfo (foldl f m (seqZ 0 LIM_NUM_TSPEC_MAX))) j =
      if (j <? LIM_NUM_TSPEC_MAX) && (a =? info_assocId (zget (tspecInfo m) j))
      then zget (tspecInfo m) j <| inuse := 0 |> else zget (tspecInfo m) j) as (H1 & H2 & H3 & H4).
  { apply (foldl_seqZ_ind f (λ k u, table_ok u ∧ policy_type u = policy_type m ∧
      bw_factor u = bw_factor m ∧ ∀ j, 0 <= j < LIM_NUM_TSPEC_MAX → zget (tspecInfo u) j =
        if (j <? k) && (a =? info_assocId (zget (tspecInfo m) j))
        then zget (tspecInfo m) j <| inuse := 0 |> else zget (tspecInfo m) j)).
    - done.
    - split_and!; try done. intros j Hj. by replace (j <? 0) with false by lia.
    - intros i u Hi (T & P & B & E). unfold f.
      assert (zget (tspecInfo u) i = zget (tspecInfo m) i) as Ei.
      { rewrite E by done. by replace (i <? i) with false by lia. }
      rewrite Ei. destruct (a =? info_assocId (zget (tspecInfo m) i)) eqn:Ea.
      + split_and!; [by apply table_ok_set|done|done|].
        intros j Hj. rewrite tspec_delete_entry by (done || lia). rewrite Ei.
        destruct (Z.eqb_spec i j) as [->|Hne].
        * replace (j <? j + 1) with true by lia. by rewrite Ea.
        * rewrite E by done. by replace (j <? i + 1) with (j <? i) by lia.
      + split_and!; try done. intros j Hj. rewrite E by done.
        destruct (Z.eqb_spec i j) as [->|Hne].
        * rewrite Ea. by rewrite !andb_false_r.
        * by replace (j <? i + 1) with (j <? i) by lia. }
  split_and!; try done. intros j Hj. rewrite H4 by done.
  by replace (j <? LIM_NUM_TSPEC_MAX) with true by lia.
Qed.

(** ** Admission as a transition system *)

Inductive ac_step (s : acSession) : limState → limState → Prop :=
  | step_add m addr p assocId alloc sch m' st osch oi :
      is_u32 (meanDataRate p) →
      lim_admit_control_add_ts m addr p assocId alloc sch s = Some (m', st, osch, oi) →
      ac_step s m m'
  | step_del_ts m assocId ts : ac_step s m (lim_admit_control_delete_ts m assocId ts).1.1
  | step_del_sta m assocId : ac_step s m (lim_admit_control_delete_sta m assocId).1.

(** The bandwidth budget. *)
Definition budget (s : acSession) (m : limState) : Z :=
  (lim_get_available_bw (gLimPhyMode s) (bw_factor m)).1.

Record ac_inv (s : acSession) (factor : Z) (m : limState) : Prop := {
  inv_table : table_ok m;
  inv_rates : rates_ok m;
  inv_policy : policy_type m = WNI_CFG_ADMIT_POLICY_BW_FACTOR;
  inv_factor : bw_factor m = factor;
  inv_budget : used_bw s m <= budget s m;
}.

Lemma budget_range s m : is_u32 (budget s m).
Proof. unfold budget, lim_get_available_bw. repeat split_if; apply u32_range. Qed.

Lemma rates_ok_entry m i : rates_ok m → 0 <= meanDataRate (tspec (zget (tspecInfo m) i)).
Proof.
  intros Hr. unfold zget. rewrite list_lookup_total_alt.
  destruct (tspecInfo m !! Z.to_nat i) as [t|] eqn:E; [by apply (Forall_lookup_1 _ _ _ _ Hr E)|done].
Qed.

Lemma rates_ok_set m i t : rates_ok m → 0 <= meanDataRate (tspec t) → rates_ok (set_info m i t).
Proof. intros. unfold rates_ok, set_info. rsimpl. by apply Forall_insert. Qed.

(** Clearing an entry keeps the invariant. *)
Lemma ac_inv_clear s f m i :
  ac_inv s f m → 0 <= i < LIM_NUM_TSPEC_MAX → ac_inv s f (lim_tspec_delete m i).
Proof.
  intros [Ht Hr Hp Hf Hb] Hi. unfold lim_tspec_delete. split; try done.
  - by apply table_ok_set.
  - apply rates_ok_set; [done|]. by apply rates_ok_entry.
  - rewrite used_bw_set by done. change (budget s (set_info m i _)) with (budget s m).
    pose proof (entry_bw_nonneg s _ (rates_ok_entry m i Hr)).
    unfold entry_bw at 2. cbn. lia.
Qed.

(** The policy leaves room for the new stream. *)
Lemma oversubscription_room s m p :
  table_ok m → rates_ok m → used_bw s m <= budget s m →
  lim_admit_policy_oversubscription m p s = eSIR_SUCCESS →
  used_bw s m + meanDataRate p <= budget s m.
Proof.
  intros Ht Hr Hb. unfold lim_admit_policy_oversubscription. rewrite compute_mean_bw_sum by done.
  fold (budget s m). pose proof (budget_range s m) as [? ?]. pose proof (used_bw_nonneg s m Hr).
  rewrite u32_small by (red; lia). split_if; [done|].
  rewrite u32_small by (red; lia). split_if; [done|]. intros _. bool_hyps. lia.
Qed.

Lemma entry_bw_le s p k addr a :
  0 <= meanDataRate p → entry_bw s (mk_info 1 k addr a p) <= meanDataRate p.
Proof. intros. unfold entry_bw. by split_if. Qed.

Lemma ac_step_inv s f m m' : ac_step s m m' → ac_inv s f m → ac_inv s f m'.
Proof.
  intros Hs Hinv. destruct Hs as [m addr p a alloc sch m' st osch oi [Hp _] Hadd|m a ts|m a].
  - destruct (decide (st = eSIR_SUCCESS ∧ alloc = true)) as [[-> ->]|Hn].
    2: { assert (m' = m) as ->; [|done]. eapply add_ts_failure; [done|].
         destruct alloc; [left; naive_solver|by right]. }
    apply add_ts_success in Hadd as (_ & _ & Hpol & _ & _ & i & iv & Hadd & _).
    destruct Hinv as [Ht Hr Hpt Hf Hb].
    unfold lim_admit_policy in Hpol. rewrite Hpt in Hpol. cbn in Hpol.
    pose proof (oversubscription_room s m p Ht Hr Hb Hpol) as Hroom.
    destruct (tspec_add_spec _ _ _ _ _ _ _ Ht Hadd) as (Hi & _ & Hcase).
    assert (∃ j k, 0 <= j < LIM_NUM_TSPEC_MAX ∧ m' = written m j addr a p k) as (j & k & Hj & ->).
    { destruct Hcase as [(_ & -> & ->)|(_ & _ & _ & ->)]; eexists _, _; by split. }
    split; try done.
    + by apply table_ok_set.
    + by apply rates_ok_set.
    + unfold written. rewrite used_bw_set by done.
      change (budget s (set_info m j _)) with (budget s m).
      pose proof (entry_bw_nonneg s _ (rates_ok_entry m j Hr)).
      pose proof (entry_bw_le s p k addr a Hp). lia.
  - unfold lim_admit_control_delete_ts.
    pose proof (find_info_spec (ts_match a ts) (tspecInfo m)) as Hfi.
    unfold lim_find_tspec. destruct (find_info _ _) as [i|]; [|done]. cbn [fst].
    apply ac_inv_clear; [done|]. apply Hfi.
  - unfold lim_admit_control_delete_sta. cbn [fst].
    apply (foldl_seqZ_ind _ (λ _ u, ac_inv s f u)); [done|done|].
    intros i u Hi Hu. split_if; [|done]. by apply ac_inv_clear.
Qed.

(** C38: under the bandwidth policy the budget is never exceeded: starting from
    an initialised table, along any sequence of admissions, stream deletions
    and station deletions, the mean rates of the streams of known stations sum
    up to at most the available bandwidth of the code (no 32-bit overflow hides
    an excess).  That bandwidth is the PHY rate times the configured factor for
    factors up to 79; from 80 on the 54 Mb/s product wraps around. *)
Theorem bandwidth_budget s m0 m factor :
  policy_type m0 = WNI_CFG_ADMIT_POLICY_BW_FACTOR → bw_factor m0 = factor →
  rtc (ac_step s) (lim_admit_control_init m0).1 m →
  used_bw s m <= budget s m ∧
  (0 <= factor <= 79 → budget s m =
     (if gLimPhyMode s =? WNI_CFG_PHY_MODE_11B then LIM_TOTAL_BW_11B else LIM_TOTAL_BW_11A) * factor) ∧
  (80 <= factor < 159 → gLimPhyMode s ≠ WNI_CFG_PHY_MODE_11B →
     budget s m = LIM_TOTAL_BW_11A * factor - 4294967296).
Proof.
  intros Hpol Hfac Hr.
  assert (ac_inv s factor (lim_admit_control_init m0).1) as H0.
  { split; try done.
    - unfold rates_ok. cbn. repeat constructor; done.
    - assert (used_bw s (lim_admit_control_init m0).1 = 0) as -> by done.
      apply budget_range. }
  assert (ac_inv s factor m) as Hinv.
  { revert H0. clear Hpol Hfac. induction Hr; eauto using ac_step_inv. }
  split; [apply Hinv|]. unfold budget, lim_get_available_bw. rewrite (inv_factor _ _ _ Hinv).
  unfold WNI_CFG_PHY_MODE_11B, WNI_CFG_PHY_MODE_11A, LIM_TOTAL_BW_11G, LIM_TOTAL_BW_11A, LIM_TOTAL_BW_11B.
  split.
  - intros. destruct (gLimPhyMode s =? 1); [cbn; word_lia|].
    destruct (gLimPhyMode s =? 0); cbn; word_lia.
  - intros. replace (gLimPhyMode s =? 1) with false by lia.
    destruct (gLimPhyMode s =? 0); cbn; word_lia.
Qed.

(** What an allocated admission means, and that it is undone by deleting the
    stream.  When [lim_admit_control_add_ts] admits a stream the station did
    not have: the specification gave a service interval (one whose interval
    must be computed is never admitted), it is valid EDCA, within the policy and
    from a known station; the first free entry holds it, its index is returned,
    the search by stream finds it, and deleting the stream reports that index
    and restores every entry in use. *)
Theorem add_ts_delete_ts m addr p a sch s m' osch oi :
  table_ok m → lim_find_tspec a (tsinfo p) (tspecInfo m) = None →
  lim_admit_control_add_ts m addr p a true sch s = Some (m', eSIR_SUCCESS, osch, oi) →
  (minSvcInterval p ≠ 0 ∨ maxSvcInterval p ≠ 0) ∧
  lim_validate_tspec p s = eSIR_SUCCESS ∧ lim_admit_policy m p s = eSIR_SUCCESS ∧
  lim_validate_access_policy (accessPolicy (tsinfo p)) a s = eSIR_SUCCESS ∧
  ∃ i, oi = Some i ∧ zget (tspecInfo m') i = mk_info 1 i addr a p ∧
    lim_find_tspec a (tsinfo p) (tspecInfo m') = Some i ∧
    ∃ m'', lim_admit_control_delete_ts m' a (tsinfo p) = (m'', eSIR_SUCCESS, Some i) ∧
      in_use (zget (tspecInfo m'') i) = false ∧ in_use (zget (tspecInfo m) i) = false ∧
      ∀ j, 0 <= j → j ≠ i → zget (tspecInfo m'') j = zget (tspecInfo m) j.
Proof.
  intros Ht Hnew Hadd.
  apply add_ts_success in Hadd as (Hi & Hv & Hp & Ha & _ & i & iv & Hadd & ->).
  split_and!; try done.
  destruct (tspec_add_spec _ _ _ _ _ _ _ Ht Hadd) as (Hir & _ & [(Hf & _)|(_ & Hfree & Hless & ->)]);
    [done|].
  assert (zget (tspecInfo (written m i addr a p i)) i = mk_info 1 i addr a p) as Ei.
  { unfold written. rewrite zget_set_info, Z.eqb_refl by (done || lia). done. }
  assert (∀ j, 0 <= j → j ≠ i →
    zget (tspecInfo (written m i addr a p i)) j = zget (tspecInfo m) j) as Eo.
  { intros j Hj Hne. unfold written. rewrite zget_set_info by (done || lia).
    by destruct (Z.eqb_spec i j). }
  exists i. rewrite Ei. split; [done|]. split; [done|].
  assert (lim_find_tspec a (tsinfo p) (tspecInfo (written m i addr a p i)) = Some i) as Hfind.
  { unfold lim_find_tspec in *.
    pose proof (find_info_spec (ts_match a (tsinfo p)) (tspecInfo m)) as Hold. rewrite Hnew in Hold.
    pose proof (find_info_spec (ts_match a (tsinfo p)) (tspecInfo (written m i addr a p i))) as Hnw.
    assert (ts_match a (tsinfo p) (mk_info 1 i addr a p) = true) as Hm.
    { unfold ts_match, in_use. cbn. by rewrite !Z.eqb_refl. }
    destruct (find_info (ts_match a (tsinfo p)) (tspecInfo (written m i addr a p i))) as [k|].
    - destruct Hnw as (Hk & Hmk & _). f_equal. destruct (decide (k = i)) as [|Hne]; [done|].
      rewrite Eo in Hmk by (done || lia). by rewrite Hold in Hmk.
    - rewrite <- Ei in Hm. by rewrite Hnw in Hm. }
  split; [done|]. unfold lim_admit_control_delete_ts. rewrite Hfind, Ei.
  eexists. split; [reflexivity|]. split_and!; [|done|].
  - rewrite tspec_delete_entry, Z.eqb_refl by (by apply table_ok_set || lia). by rewrite Ei.
  - intros j Hj Hne. rewrite tspec_delete_entry by (by apply table_ok_set || lia).
    destruct (Z.eqb_spec i j); [done|]. by apply Eo.
Qed.

Definition is_addts_rsp (x : lim_action) : bool :=
  match x with lim_send_sme_addts_rsp _ _ _ _ => true | _ => false end.

(** When a station leaves, none of its streams stays in use, and the entries
    of the other stations are untouched; the reply to a stream request always
    reopens the deferred message queue, answers the requester exactly once, and
    after a failure of the hardware layer leaves the table as
    [lim_admit_control_delete_ts] does. *)
Theorem station_and_failure_cleanup m a :
  table_ok m →
  (∀ j, 0 <= j < LIM_NUM_TSPEC_MAX →
     let t := zget (tspecInfo (lim_admit_control_delete_sta m a).1) j in
     (info_assocId t = a → in_use t = false) ∧
     (info_assocId (zget (tspecInfo m) j) ≠ a → t = zget (tspecInfo m) j)) ∧
  (∀ rsp ses rs rt m' acts,
     lim_process_hal_add_ts_rsp m (Some rsp) ses rs rt = Some (m', acts) →
     gLimProcessDefdMsgs m' = true ∧
     length (List.filter is_addts_rsp acts) = 1%nat ∧
     (tspecInfo m' = tspecInfo m ∨
      ∃ id, tspecInfo m' = tspecInfo (lim_admit_control_delete_ts m id (tsinfo (at_tspec rsp))).1.1 ∧
            at_status_ok rsp = false)).
Proof.
  intros Ht. split.
  - intros j Hj. destruct (delete_sta_entries m a Ht) as (_ & _ & _ & E). cbv zeta. rewrite E by done.
    split; intros Ha.
    + destruct (a =? info_assocId (zget (tspecInfo m) j)) eqn:Ea; [done|]. lia.
    + by replace (a =? _) with false by lia.
  - intros rsp ses rs rt m' acts. unfold lim_process_hal_add_ts_rsp.
    destruct ses as [ses|]; [|by intros [= <- <-]; split_and!; [..|left]].
    destruct (at_status_ok rsp) eqn:Eok; [by intros [= <- <-]; split_and!; [..|left]|].
    destruct (dph_lookup_assoc_id _ _) as [pSta|]; [|done]. cbn [mbind option_bind].
    intros [= <- <-]. destruct pSta as [id|]; [|by split_and!; [..|left]].
    split_and!; [|done|].
    + unfold lim_admit_control_delete_ts. by destruct (lim_find_tspec _ _ _).
    + right. exists id. split; [|done].
      unfold lim_admit_control_delete_ts. cbn. by destruct (lim_find_tspec _ _ _).
Qed.

(** *** A concrete access point: one known station, 11a, factor 1 *)

Definition demo_ac_dph : dphHashTableClass :=
  set_node demo_table 3 (node_zero None <| added := 1 |> <| DphHash.valid := 1 |> <| wmeEnabled := 1 |>).
Definition demo_ac_session : acSession := mk_ac_session 0 demo_ac_dph.
Definition demo_lim0 : limState := mk_lim_state [] WNI_CFG_ADMIT_POLICY_BW_FACTOR 1 8 true.
Definition demo_stream (id rate : Z) : tSirMacTspecIE :=
  mk_tspec 61 55 (mk_tsinfo 0 id 1 1 0 0 0 0 0 0 0 0) 1500 0 20 20 0 0 0 0 rate 0 0 0 6000000 1 0.
Definition demo_lim1 : limState := (lim_admit_control_init demo_lim0).1.
Definition demo_lim2 : limState :=
  written demo_lim1 0 demo_addr 3 (demo_stream 2 30000000) 0.

Lemma bandwidth_budget_witness :
  used_bw demo_ac_session demo_lim2 = 30000000 ∧
  used_bw demo_ac_session demo_lim2 <= budget demo_ac_session demo_lim2 ∧
  lim_admit_policy demo_lim2 (demo_stream 3 24000001) demo_ac_session = eSIR_FAILURE.
Proof.
  split; [reflexivity|]. split; [|reflexivity].
  apply (bandwidth_budget demo_ac_session demo_lim0 demo_lim2 1); [reflexivity|reflexivity|].
  apply rtc_once. eapply (step_add _ _ demo_addr (demo_stream 2 30000000) 3 true false).
  - vm_compute. split; congruence.
  - reflexivity.
Defined.

Lemma add_ts_delete_ts_witness :
  ∃ m'', lim_admit_control_delete_ts demo_lim2 3 (tsinfo (demo_stream 2 30000000))
           = (m'', eSIR_SUCCESS, Some 0) ∧ in_use (zget (tspecInfo m'') 0) = false.
Proof.
  destruct (add_ts_delete_ts demo_lim1 demo_addr (demo_stream 2 30000000) 3 false demo_ac_session
    demo_lim2 None (Some 0)) as (_ & _ & _ & _ & i & [= <-] & _ & _ & m'' & Hd & Hu & _);
    [reflexivity..|].
  exists m''. by split.
Defined.

Lemma station_and_failure_cleanup_witness :
  in_use (zget (tspecInfo demo_lim2) 0) = true ∧
  in_use (zget (tspecInfo (lim_admit_control_delete_sta demo_lim2 3).1) 0) = false.
Proof.
  split; [reflexivity|].
  apply (station_and_failure_cleanup demo_lim2 3); [reflexivity|unfold LIM_NUM_TSPEC_MAX; lia|reflexivity].
Defined.
