(* ===== verification/WepAuth.v ===== *)
(** Shared-key authentication frames: the WEP part of
    core/mac/src/pe/lim/lim_security_utils.c and .h.

    The challenge body is followed by its CRC-32, encrypted with RC4 under the
    IV and the key, and prefixed by the IV and the key id. *)
From S2P Require Import Prelude LimTypes.

Definition LIM_SEED_LENGTH : Z := 16.
Definition SIR_MAC_WEP_IV_LENGTH : Z := 4.
Definition SIR_MAC_WEP_ICV_LENGTH : Z := 4.
Definition SIR_MAC_KEY_LENGTH : Z := 13.
Definition SIR_MAC_AUTH_CHALLENGE_LENGTH : Z := 128.
(** [sizeof(tSirMacAuthFrameBody)]: three 16-bit fields, two bytes, the challenge. *)
Definition sizeof_tSirMacAuthFrameBody : Z := 6 + 2 + SIR_MAC_AUTH_CHALLENGE_LENGTH.
Definition LIM_ENCR_AUTH_BODY_LEN : Z :=
  sizeof_tSirMacAuthFrameBody + SIR_MAC_WEP_IV_LENGTH + SIR_MAC_WEP_ICV_LENGTH.

(** ** CRC-32 *)

Definition PTAPS : Z := 0xedb88320.

(** One round of [lim_crc_update]. *)
Definition crc_round (z : Z) : Z :=
  let fb := Z.land z 1 in
  let z := Z.shiftr z 1 in
  if negb (fb =? 0) then Z.lxor z PTAPS else z.

Definition lim_crc_update (crc x : Z) : Z := Nat.iter 8 crc_round (Z.lxor crc x).

(** [lim_compute_crc32]: the four bytes written; [len] is a [uint8_t]. *)
Definition lim_compute_crc32 (pSrc : list Z) (len : Z) : list Z :=
  let crc := foldl lim_crc_update 0xFFFFFFFF (zread pSrc 0 (u8 len)) in
  let crc := Z.lxor crc 0xFFFFFFFF in
  (λ i, u8 (Z.shiftr crc (8 * i))) <$> seqZ 0 SIR_MAC_WEP_IV_LENGTH.

(** ** RC4 *)

Definition swap (s : list Z) (i j : Z) : list Z :=
  let temp := zget s i in zset (zset s i (zget s j)) j temp.

(** The key schedule: [j] and [k] run along; seed bytes beyond the 16th are
    skipped. *)
Definition rc4_mix (seed : list Z) (keyLength : Z) (st : list Z * Z * Z) (i : Z) : list Z * Z * Z :=
  let '(s, j, k) := st in
  let j := if k <? LIM_SEED_LENGTH then u8 (j + zget s i + zget seed k) else j in
  let s := swap s i j in
  let k := u16 (k + 1) in
  (s, j, if keyLength <=? k then 0 else k).

Definition rc4_schedule (seed : list Z) (keyLength : Z) : list Z :=
  (foldl (rc4_mix seed keyLength) (seqZ 0 256, 0, 0) (seqZ 0 256)).1.1.

(** The generator loop: [n] bytes, the source byte 0 for a null source. *)
Fixpoint rc4_loop (n : nat) (s : list Z) (i j : Z) (pSrc : option (list Z)) : list Z :=
  match n with
  | O => []
  | S n =>
      let i := u8 (i + 1) in
      let temp1 := zget s i in
      let j := u8 (j + temp1) in
      let temp2 := zget s j in
      let s := zset (zset s i temp2) j temp1 in
      let temp1 := zget s (u8 (temp1 + temp2)) in
      let temp2 := match pSrc with Some src => zget src 0 | None => 0 end in
      Z.lxor temp1 temp2 :: rc4_loop n s i j (tail <$> pSrc)
  end.

(** [lim_rc4]: the bytes written to the destination; the length is truncated to
    [uint8_t]. *)
Definition lim_rc4 (pSrc : option (list Z)) (seed : list Z) (keyLength frameLen : Z) : list Z :=
  rc4_loop (Z.to_nat (u8 frameLen)) (rc4_schedule seed keyLength) 0 0 pSrc.

(** ** The frame *)

(** The copy of the key into [seed[16]] is inside the array for keys of at most
    13 bytes; a longer one overflows it ([None]). *)
Definition key_fits (keyLength : Z) : bool := keyLength <=? LIM_SEED_LENGTH - 3.

(** [lim_encrypt_auth_frame]: [stack] is the initial content of the local array
    [seed], whose first three bytes are never written.  The results are the
    plain text with its ICV and the encrypted body. *)
Definition lim_encrypt_auth_frame (stack : list Z) (keyId : Z) (pKey pPlainText : list Z)
    (keyLength : Z) : option (list Z * list Z) :=
  if negb (key_fits keyLength) then None else
  let seed := zwrite stack 3 (zread pKey 0 keyLength) in
  let keyLength := u32 (keyLength + 3) in
  let icv := lim_compute_crc32 pPlainText sizeof_tSirMacAuthFrameBody in
  let pPlainText := zwrite pPlainText sizeof_tSirMacAuthFrameBody icv in
  let body := lim_rc4 (Some pPlainText) seed keyLength
                (LIM_ENCR_AUTH_BODY_LEN - SIR_MAC_WEP_IV_LENGTH) in
  Some (pPlainText,
        [zget seed 0; zget seed 1; zget seed 2; u8 (Z.shiftl keyId 6)] ++ body).

(** The comparison of the received ICV with the computed one; [None] when it
    reads outside the plain buffer. *)
Fixpoint icv_compare (n : nat) (i : Z) (icv pPlainBody : list Z) (frameLen : Z) : option bool :=
  match n with
  | O => Some true
  | S n =>
      let pos := frameLen - SIR_MAC_WEP_ICV_LENGTH + i in
      if (pos <? 0) || (Z.of_nat (length pPlainBody) <=? pos) then None
      else if zget icv i =? zget pPlainBody pos
           then icv_compare n (i + 1) icv pPlainBody frameLen else Some false
  end.

(** [lim_decrypt_auth_frame]: the status and the plain buffer. *)
Definition lim_decrypt_auth_frame (stack pKey pEncrBody pPlainBody : list Z)
    (keyLength frameLen : Z) : option (tSirRetStatus * list Z) :=
  if negb (key_fits keyLength) then None else
  let seed := zwrite stack 0 (zread pEncrBody 0 (SIR_MAC_WEP_IV_LENGTH - 1)) in
  let seed := zwrite seed 3 (zread pKey 0 keyLength) in
  let keyLength := u32 (keyLength + 3) in
  if Z.of_nat (length pPlainBody) <? u8 frameLen then None else
  let pPlainBody := zwrite pPlainBody 0
    (lim_rc4 (Some (drop (Z.to_nat SIR_MAC_WEP_IV_LENGTH) pEncrBody)) seed keyLength frameLen) in
  let icv := lim_compute_crc32 pPlainBody (u8 (frameLen - SIR_MAC_WEP_ICV_LENGTH)) in
  match icv_compare (Z.to_nat SIR_MAC_WEP_ICV_LENGTH) 0 icv pPlainBody frameLen with
  | None => None
  | Some same => Some (if same then eSIR_SUCCESS else LIM_DECRYPT_ICV_FAIL, pPlainBody)
  end.

Example crc32_check :
  lim_compute_crc32 [49; 50; 51; 52; 53; 54; 55; 56; 57] 9 = [0x26; 0x39; 0xf4; 0xcb].
Proof. vm_compute. reflexivity. Qed.

Example rc4_check :
  lim_rc4 (Some [80; 108; 97; 105; 110; 116; 101; 120; 116])
    ([75; 101; 121] ++ replicate 13 0) 3 9 = [0xbb; 0xf3; 0x16; 0xe8; 0xd9; 0x40; 0xaf; 0x0a; 0xd3].
Proof. vm_compute. reflexivity. Qed.

(** ** Exclusive or on words *)

Lemma lxor_range n a b : 0 <= n → 0 <= a < 2 ^ n → 0 <= b < 2 ^ n → 0 <= Z.lxor a b < 2 ^ n.
Proof.
  intros Hn Ha Hb.
  assert (Z.lxor a b = Z.lxor a b mod 2 ^ n) as ->; [|apply Z.mod_pos_bound; lia].
  apply Z.bits_inj'. intros i Hi. destruct (Z.lt_ge_cases i n).
  - by rewrite Z.mod_pow2_bits_low by lia.
  - rewrite Z.mod_pow2_bits_high by lia.
    rewrite Z.lxor_spec, <- (Z.mod_small a (2 ^ n)), <- (Z.mod_small b (2 ^ n)) by lia.
    by rewrite !Z.mod_pow2_bits_high by lia.
Qed.

Lemma lxor_u8 a b : is_u8 a → is_u8 b → is_u8 (Z.lxor a b).
Proof. apply (lxor_range 8); lia. Qed.
Lemma lxor_u32 a b : is_u32 a → is_u32 b → is_u32 (Z.lxor a b).
Proof. apply (lxor_range 32); lia. Qed.
Lemma lxor_cancel_r a b c : Z.lxor a c = Z.lxor b c → a = b.
Proof.
  intros E. apply (f_equal (λ z, Z.lxor z c)) in E.
  by rewrite !Z.lxor_assoc, Z.lxor_nilpotent, !Z.lxor_0_r in E.
Qed.
Lemma lxor_cancel_l a b c : Z.lxor c a = Z.lxor c b → a = b.
Proof. rewrite !(Z.lxor_comm c). apply lxor_cancel_r. Qed.
Lemma lxor_twice k x : Z.lxor k (Z.lxor k x) = x.
Proof. by rewrite <- Z.lxor_assoc, Z.lxor_nilpotent, Z.lxor_0_l. Qed.
#[local] Hint Resolve lxor_u8 lxor_u32 : qca.

(** ** The CRC step is a bijection of 32-bit words *)

Lemma crc_round_odd z : crc_round z = if Z.odd z then Z.lxor (Z.div2 z) PTAPS else Z.div2 z.
Proof.
  unfold crc_round. rewrite <- Z.div2_spec. change 1 with (Z.ones 1). rewrite Z.land_ones by lia.
  rewrite Zmod_odd. by destruct (Z.odd z).
Qed.

Lemma crc_round_u32 z : is_u32 z → is_u32 (crc_round z).
Proof.
  intros [Hz1 Hz2]. rewrite crc_round_odd. pose proof (Z.div2_odd z) as E.
  assert (is_u32 (Z.div2 z)) by (red; destruct (Z.odd z); cbn in E; lia).
  split_if; [|done]. apply lxor_u32; [done|]. red. unfold PTAPS. lia.
Qed.

(** The top bit of the result tells whether the word was odd. *)
Lemma crc_round_top z : is_u32 z → Z.testbit (crc_round z) 31 = Z.odd z.
Proof.
  intros [Hz1 Hz2]. rewrite crc_round_odd. pose proof (Z.div2_odd z) as E.
  assert (Z.testbit (Z.div2 z) 31 = false) as Hd.
  { rewrite <- (Z.mod_small (Z.div2 z) (2 ^ 31)).
    - by rewrite Z.mod_pow2_bits_high by lia.
    - destruct (Z.odd z); cbn in E |- *; lia. }
  destruct (Z.odd z); [rewrite Z.lxor_spec|]; by rewrite Hd.
Qed.

Lemma crc_round_inj z z' : is_u32 z → is_u32 z' → crc_round z = crc_round z' → z = z'.
Proof.
  intros Hz Hz' E. assert (Z.odd z = Z.odd z') as Eo
    by (rewrite <- (crc_round_top z), <- (crc_round_top z') by done; by rewrite E).
  rewrite !crc_round_odd, Eo in E.
  rewrite (Z.div2_odd z), (Z.div2_odd z'), Eo. f_equal. f_equal.
  destruct (Z.odd z'); [by apply lxor_cancel_r in E|done].
Qed.

Lemma crc_iter_u32 n z : is_u32 z → is_u32 (Nat.iter n crc_round z).
Proof. intros Hz. induction n as [|n IH]; cbn; [done|by apply crc_round_u32]. Qed.

Lemma crc_iter_inj n z z' :
  is_u32 z → is_u32 z' → Nat.iter n crc_round z = Nat.iter n crc_round z' → z = z'.
Proof.
  intros Hz Hz'. induction n as [|n IH]; cbn; [done|]. intros E. apply IH.
  apply crc_round_inj in E; [done|by apply crc_iter_u32..].
Qed.

Lemma lxor_byte_u32 crc x : is_u32 crc → is_u8 x → is_u32 (Z.lxor crc x).
Proof. intros Hc Hx. apply lxor_u32; [done|unfold is_u8, is_u32 in *; lia]. Qed.

Lemma crc_update_u32 crc x : is_u32 crc → is_u8 x → is_u32 (lim_crc_update crc x).
Proof. intros. by apply crc_iter_u32, lxor_byte_u32. Qed.

Lemma crc_update_inj crc x crc' x' :
  is_u32 crc → is_u8 x → is_u32 crc' → is_u8 x' →
  lim_crc_update crc x = lim_crc_update crc' x' → Z.lxor crc x = Z.lxor crc' x'.
Proof. intros ???? E. apply crc_iter_inj in E; [done|by apply lxor_byte_u32..]. Qed.

Definition crc_fold (crc : Z) (l : list Z) : Z := foldl lim_crc_update crc l.

Lemma crc_fold_u32 crc l : is_u32 crc → Forall is_u8 l → is_u32 (crc_fold crc l).
Proof.
  intros Hc Hl. revert crc Hc. induction Hl as [|x l Hx Hl IH]; intros crc Hc; cbn; [done|].
  by apply IH, crc_update_u32.
Qed.

Lemma crc_fold_inj crc crc' l :
  is_u32 crc → is_u32 crc' → Forall is_u8 l → crc_fold crc l = crc_fold crc' l → crc = crc'.
Proof.
  intros Hc Hc' Hl. revert crc crc' Hc Hc'. induction Hl as [|x l Hx Hl IH]; intros crc crc' Hc Hc' E.
  - done.
  - apply IH in E; [|by apply crc_update_u32..].
    apply crc_update_inj in E; [|done..]. by apply lxor_cancel_r in E.
Qed.

(** Messages that differ in one byte have different sums. *)
Lemma crc_fold_byte crc l1 x x' l2 :
  is_u32 crc → Forall is_u8 l1 → Forall is_u8 l2 → is_u8 x → is_u8 x' →
  crc_fold crc (l1 ++ x :: l2) = crc_fold crc (l1 ++ x' :: l2) → x = x'.
Proof.
  intros Hc H1 H2 Hx Hx'. unfold crc_fold. rewrite !foldl_app. cbn. intros E.
  pose proof (crc_fold_u32 crc l1 Hc H1). 
  apply crc_fold_inj in E; [|by apply crc_update_u32..|done].
  apply crc_update_inj in E; [|done..]. by apply lxor_cancel_l in E.
Qed.

(** The four bytes determine the sum. *)
Lemma word_bytes_inj w w' :
  is_u32 w → is_u32 w' →
  ((λ i, u8 (Z.shiftr w (8 * i))) <$> seqZ 0 4) = ((λ i, u8 (Z.shiftr w' (8 * i))) <$> seqZ 0 4) →
  w = w'.
Proof.
  intros Hw Hw'. change (seqZ 0 4) with [0; 1; 2; 3]. cbn. rewrite !Z.shiftr_div_pow2 by lia. cbn.
  intros [= ????]. word_lia.
Qed.

Lemma crc32_cong p q n : zread p 0 (u8 n) = zread q 0 (u8 n) → lim_compute_crc32 p n = lim_compute_crc32 q n.
Proof. intros E. unfold lim_compute_crc32. by rewrite E. Qed.

(** Writing another byte inside the summed block changes the sum. *)
Lemma crc32_zset p n i x :
  Forall is_u8 p → is_u8 x → 0 <= i < n → n < 256 → n <= Z.of_nat (length p) →
  lim_compute_crc32 (zset p i x) n = lim_compute_crc32 p n → x = zget p i.
Proof.
  intros Hp Hx Hi Hn Hlen E. unfold lim_compute_crc32 in E. rewrite u8_small in E by (red; lia).
  set (l := zread p 0 n) in *.
  assert (Forall is_u8 l) as Hl by (apply Forall_take, Forall_drop, Hp).
  assert (l !! Z.to_nat i = Some (zget p i)) as Hli.
  { unfold l, zread. cbn. rewrite drop_0, lookup_take, decide_True by lia. apply zlookup_zget. lia. }
  assert (zread (zset p i x) 0 n = <[Z.to_nat i := x]> l) as Hz.
  { unfold l, zread, zset. cbn. rewrite !drop_0. apply take_insert_lt. lia. }
  assert (is_u8 (zget p i)) as Hg by by apply zget_u8.
  rewrite Hz in E. apply word_bytes_inj in E.
  - apply lxor_cancel_r in E.
    rewrite <- (take_drop_middle l _ _ Hli) in E at 2.
    rewrite insert_take_drop in E by by eapply lookup_lt_Some.
    eapply crc_fold_byte; [..|exact E]; try done; [by apply Forall_take|by apply Forall_drop].
  - apply lxor_u32; [|red; lia]. apply crc_fold_u32; [red; lia|by apply Forall_insert].
  - apply lxor_u32; [|red; lia]. apply crc_fold_u32; [red; lia|done].
Qed.

Lemma crc32_bytes p n : length (lim_compute_crc32 p n) = 4%nat ∧ Forall is_u8 (lim_compute_crc32 p n).
Proof.
  split; [done|]. unfold lim_compute_crc32. apply Forall_fmap, Forall_forall. intros i _. apply u8_range.
Qed.

(** ** RC4 as a keystream *)

Definition rc4_state (s : list Z) : Prop := length s = 256%nat ∧ Forall is_u8 s.

Lemma zset_state s i x : rc4_state s → is_u8 x → rc4_state (zset s i x).
Proof.
  intros [Hl Hs] Hx. split; [by rewrite length_zset|].
  by apply Forall_insert.
Qed.

Lemma swap_state s i j : rc4_state s → rc4_state (swap s i j).
Proof.
  intros Hs. unfold swap. destruct Hs as [Hl Hs].
  apply zset_state; [apply zset_state; [done|]|]; by apply zget_u8.
Qed.

Lemma rc4_schedule_state seed keyLength : rc4_state (rc4_schedule seed keyLength).
Proof.
  unfold rc4_schedule.
  apply (foldl_seqZ_ind _ (λ _ st, rc4_state st.1.1)); [lia| |].
  - split; [done|]. cbn [fst]. apply Forall_forall. intros x Hx%elem_of_seqZ. red. lia.
  - intros i [[s j] k] _ Hs. cbn in *. by apply swap_state.
Qed.

(** The stream is that of an all-zero message. *)
Definition keystream (seed : list Z) (keyLength : Z) (n : nat) : list Z :=
  rc4_loop n (rc4_schedule seed keyLength) 0 0 None.

Lemma length_rc4_loop n s i j src : length (rc4_loop n s i j src) = n.
Proof. revert s i j src. induction n as [|n IH]; intros; cbn; [done|by rewrite IH]. Qed.

Lemma rc4_loop_u8 n s i j : rc4_state s → Forall is_u8 (rc4_loop n s i j None).
Proof.
  revert s i j. induction n as [|n IH]; intros s i j Hs; cbn; [done|].
  assert (rc4_state (swap s (u8 (i + 1)) (u8 (j + zget s (u8 (i + 1)))))) as Hw
    by by apply swap_state.
  constructor; [|by apply IH]. rewrite Z.lxor_0_r. apply zget_u8, Hw.
Qed.

Lemma rc4_loop_xor n s i j src :
  (n <= length src)%nat →
  rc4_loop n s i j (Some src) = zip_with Z.lxor (rc4_loop n s i j None) (take n src).
Proof.
  revert s i j src. induction n as [|n IH]; intros s i j [|x src] Hn; cbn in Hn |- *; try lia; [done..|].
  rewrite Z.lxor_0_r. f_equal. apply IH. lia.
Qed.

(** Only the first [keyLength] bytes of the seed matter. *)
Lemma rc4_schedule_seed seed seed' keyLength :
  0 < keyLength <= LIM_SEED_LENGTH →
  (∀ k, 0 <= k < keyLength → zget seed k = zget seed' k) →
  rc4_schedule seed keyLength = rc4_schedule seed' keyLength.
Proof.
  intros Hk Hs.
  assert (∀ l (st : list Z * Z * Z), 0 <= st.2 < keyLength →
    foldl (rc4_mix seed keyLength) st l = foldl (rc4_mix seed' keyLength) st l) as H.
  { induction l as [|i l IH]; intros [[s j] k] Hst; cbn in Hst |- *; [done|].
    rewrite Hs by done. apply IH. cbn. unfold LIM_SEED_LENGTH in *.
    rewrite u16_small by (red; lia). split_if; bool_hyps; lia. }
  unfold rc4_schedule. rewrite H; [exact eq_refl|]. cbn [snd]. lia.
Qed.

Lemma zip_lxor_twice (k l : list Z) :
  (length l <= length k)%nat → zip_with Z.lxor k (zip_with Z.lxor k l) = l.
Proof.
  revert l. induction k as [|x k IH]; intros [|y l] Hl; cbn in *; try lia; [done..|].
  rewrite lxor_twice, IH by lia. done.
Qed.

(** ** The sealed message *)

(** The last four bytes of the 140-byte message are the CRC of the others. *)
Definition sealed (p : list Z) (n : Z) : Prop :=
  drop (Z.to_nat (n - 4)) p = lim_compute_crc32 p (n - 4).
#[global] Instance sealed_dec p n : Decision (sealed p n).
Proof. unfold sealed. apply _. Defined.

Lemma sealed_tamper p n i x :
  Forall is_u8 p → is_u8 x → 4 <= n < 256 → length p = Z.to_nat n → 0 <= i < n → x ≠ zget p i →
  sealed p n → ¬ sealed (zset p i x) n.
Proof.
  intros Hp Hx Hn Hl Hi Hne Hs Hs'. unfold sealed in *.
  destruct (Z.lt_ge_cases i (n - 4)) as [Hlt|Hge].
  - apply Hne, (crc32_zset p (n - 4)); try done; [lia..|].
    rewrite <- Hs, <- Hs'. unfold zset. apply drop_insert_lt. lia.
  - apply Hne. rewrite (crc32_cong _ p) in Hs'.
    2:{ apply (zread_zset_out p i x); [lia..|]. rewrite u8_small by (red; lia). lia. }
    rewrite <- Hs in Hs'. unfold zset in Hs'. rewrite drop_insert_ge in Hs' by lia.
    apply (f_equal (λ l, l !! (Z.to_nat i - Z.to_nat (n - 4))%nat)) in Hs'.
    rewrite list_lookup_insert_eq, lookup_drop in Hs' by (rewrite length_drop; lia).
    replace (Z.to_nat (n - 4) + _)%nat with (Z.to_nat i) in Hs' by lia.
    rewrite zlookup_zget in Hs' by lia. by simplify_eq.
Qed.

(** The first bytes of the plain buffer are the message. *)
Lemma zread_written (buf p : list Z) n :
  0 <= n <= Z.of_nat (length p) → (length p <= length buf)%nat →
  zread (zwrite buf 0 p) 0 n = zread p 0 n.
Proof.
  intros Hn Hb. pose proof (zread_zwrite_eq buf 0 p ltac:(lia) ltac:(lia)) as E.
  unfold zread in *. cbn in *. rewrite !drop_0 in *.
  rewrite <- E at 2. rewrite take_take. f_equal. lia.
Qed.

(** The ICV loop compares four positions. *)
Lemma icv_compare_spec c b0 b1 b2 b3 buf n :
  4 <= n <= Z.of_nat (length buf) → length c = 4%nat →
  zget buf (n - 4 + 0) = b0 → zget buf (n - 4 + 1) = b1 → zget buf (n - 4 + 2) = b2 →
  zget buf (n - 4 + 3) = b3 →
  icv_compare 4 0 c buf n = Some (bool_decide ([b0; b1; b2; b3] = c)).
Proof.
  intros Hn Hc H0 H1 H2 H3. destruct c as [|c0 [|c1 [|c2 [|c3 []]]]]; try done.
  cbn [icv_compare]. unfold SIR_MAC_WEP_ICV_LENGTH. cbn [Z.add].
  change (0 + 1) with 1. change (1 + 1) with 2. change (2 + 1) with 3.
  rewrite !(proj2 (Z.ltb_ge _ _)), !(proj2 (Z.leb_gt _ _)) by lia.
  rewrite H0, H1, H2, H3. cbn [orb].
  change (zget [c0; c1; c2; c3] 0) with c0. change (zget [c0; c1; c2; c3] 1) with c1.
  change (zget [c0; c1; c2; c3] 2) with c2. change (zget [c0; c1; c2; c3] 3) with c3.
  repeat split_if; bool_hyps; f_equal; symmetry;
    (apply bool_decide_eq_true; congruence) || (apply bool_decide_eq_false; congruence).
Qed.

Lemma icv_compare_sealed p buf n :
  4 <= n < 256 → length p = Z.to_nat n → (length p <= length buf)%nat →
  icv_compare 4 0 (lim_compute_crc32 (zwrite buf 0 p) (u8 (n - 4))) (zwrite buf 0 p) n
  = Some (bool_decide (sealed p n)).
Proof.
  intros Hn Hl Hb.
  rewrite (crc32_cong _ p) by (apply zread_written; [rewrite u8_idemp, u8_small by (red; lia)|]; lia).
  rewrite u8_small by (red; lia).
  transitivity (Some (@bool_decide (drop (Z.to_nat (n - 4)) p = lim_compute_crc32 p (n - 4))
    (list_eq_dec _ _))); [|f_equal; by apply bool_decide_ext].
  destruct (crc32_bytes p (n - 4)) as [Hc _]. revert Hc.
  generalize (lim_compute_crc32 p (n - 4)). intros c Hc.
  assert (∀ i, 0 <= i < 4 → zget (zwrite buf 0 p) (n - 4 + i) = zget (drop (Z.to_nat (n - 4)) p) i) as Hg.
  { intros i Hi. rewrite zget_zwrite_in by lia. unfold zget. rewrite !list_lookup_total_alt, lookup_drop.
    do 2 f_equal. lia. }
  assert (length (drop (Z.to_nat (n - 4)) p) = 4%nat) as Hd by (rewrite length_drop; lia).
  destruct (drop _ p) as [|b0 [|b1 [|b2 [|b3 []]]]]; try done.
  apply icv_compare_spec; [rewrite length_zwrite; lia|done|by rewrite Hg..].
Qed.

(** ** The two ends *)

Definition wep_seed (iv key : list Z) (kl : Z) (stack : list Z) : list Z :=
  zwrite (zwrite stack 0 (zread iv 0 (SIR_MAC_WEP_IV_LENGTH - 1))) 3 (zread key 0 kl).

(** The message under the keystream of the IV and the key. *)
Definition unwrap (iv key body : list Z) (kl n : Z) (stack : list Z) : list Z :=
  zip_with Z.lxor (keystream (wep_seed iv key kl stack) (kl + 3) (Z.to_nat n)) (take (Z.to_nat n) body).

Lemma lim_rc4_xor src seed kl n :
  0 <= n < 256 → n <= Z.of_nat (length src) →
  lim_rc4 (Some src) seed kl n = zip_with Z.lxor (keystream seed kl (Z.to_nat n)) (take (Z.to_nat n) src).
Proof.
  intros Hn Hs. unfold lim_rc4. rewrite u8_small by (red; lia). apply rc4_loop_xor. lia.
Qed.

Lemma length_unwrap iv key body kl n stack :
  0 <= n <= Z.of_nat (length body) → length (unwrap iv key body kl n stack) = Z.to_nat n.
Proof.
  intros Hn. unfold unwrap, keystream. rewrite length_zip_with, length_rc4_loop, length_take. lia.
Qed.

Lemma decrypt_spec stack key body buf kl n :
  0 <= kl <= 13 → 4 <= n < 256 → n <= Z.of_nat (length buf) → n + 4 <= Z.of_nat (length body) →
  let p := unwrap body key (drop 4 body) kl n stack in
  lim_decrypt_auth_frame stack key body buf kl n =
  Some (if decide (sealed p n) then eSIR_SUCCESS else LIM_DECRYPT_ICV_FAIL, zwrite buf 0 p).
Proof.
  intros Hkl Hn Hb Hl p. unfold lim_decrypt_auth_frame, key_fits.
  rewrite (proj2 (Z.leb_le _ _)) by (unfold LIM_SEED_LENGTH; lia). cbn [negb].
  rewrite (u8_small n), (u32_small (kl + 3)) by (red; lia).
  rewrite (proj2 (Z.ltb_ge _ _)) by lia. cbn [andb].
  change (Z.to_nat SIR_MAC_WEP_IV_LENGTH) with 4%nat.
  rewrite lim_rc4_xor by (rewrite ?length_drop; lia).
  change (Z.to_nat SIR_MAC_WEP_ICV_LENGTH) with 4%nat. change SIR_MAC_WEP_ICV_LENGTH with 4.
  fold (wep_seed body key kl stack) (unwrap body key (drop 4 body) kl n stack) p.
  assert (length p = Z.to_nat n) as Hp by (apply length_unwrap; rewrite length_drop; lia).
  rewrite icv_compare_sealed by lia.
  destruct (decide (sealed p n)); [by rewrite bool_decide_eq_true_2|by rewrite bool_decide_eq_false_2].
Qed.

(** ** Sealing and opening *)

Lemma wep_seed_agree stack stack' body key kl k :
  length stack = 16%nat → length stack' = 16%nat → (3 <= length body)%nat →
  (∀ i, 0 <= i < 3 → zget body i = zget (zwrite stack 3 (zread key 0 kl)) i) →
  0 <= kl <= 13 → kl <= Z.of_nat (length key) → 0 <= k < kl + 3 →
  zget (zwrite stack 3 (zread key 0 kl)) k = zget (wep_seed body key kl stack') k.
Proof.
  intros Hs Hs' Hb Hiv Hkl Hkey Hk. unfold wep_seed.
  assert (Z.of_nat (length (zread key 0 kl)) = kl) as Hlk by (apply length_zread; red; lia).
  assert (Z.of_nat (length (zread body 0 (SIR_MAC_WEP_IV_LENGTH - 1))) = 3) as Hlb
    by (apply length_zread; red; unfold SIR_MAC_WEP_IV_LENGTH; lia).
  destruct (Z.lt_ge_cases k 3).
  - rewrite <- Hiv by lia.
    rewrite (zget_zwrite_out (zwrite stack' _ _)) by lia.
    rewrite zget_zwrite_in by lia. unfold zget, zread, SIR_MAC_WEP_IV_LENGTH.
    rewrite !list_lookup_total_alt, lookup_take, decide_True, lookup_drop by lia.
    do 2 f_equal. lia.
  - rewrite !zget_zwrite_in by (rewrite ?length_zwrite; lia). done.
Qed.

(** The sealed message: the plain body and its ICV. *)
Definition wep_message (plain : list Z) : list Z :=
  take 136 plain ++ lim_compute_crc32 plain sizeof_tSirMacAuthFrameBody.

Lemma wep_message_sealed plain :
  (136 <= length plain)%nat → length (wep_message plain) = 140%nat ∧ sealed (wep_message plain) 140.
Proof.
  intros Hp. unfold wep_message. split.
  - destruct (crc32_bytes plain sizeof_tSirMacAuthFrameBody) as [Hc _].
    rewrite length_app, length_take, Hc. lia.
  - unfold sealed. change (Z.to_nat (140 - 4)) with 136%nat.
    rewrite (drop_app_length' (take 136 plain)) by (rewrite length_take; lia).
    change sizeof_tSirMacAuthFrameBody with 136. change (140 - 4) with 136.
    apply crc32_cong. change (u8 136) with 136.
    unfold zread. change (Z.to_nat 136) with 136%nat. change (Z.to_nat 0) with 0%nat. rewrite !drop_0.
    rewrite take_app_le by (rewrite length_take; lia). rewrite take_take. f_equal.
Qed.

Lemma wep_message_u8 plain : Forall is_u8 plain → Forall is_u8 (wep_message plain).
Proof. intros Hp. apply Forall_app. split; [by apply Forall_take|apply crc32_bytes]. Qed.

Lemma encrypt_spec stack keyId key plain kl :
  0 <= kl <= 13 → (140 <= length plain)%nat →
  let seed := zwrite stack 3 (zread key 0 kl) in
  ∃ plain1,
    lim_encrypt_auth_frame stack keyId key plain kl =
    Some (plain1, [zget seed 0; zget seed 1; zget seed 2; u8 (Z.shiftl keyId 6)]
                  ++ zip_with Z.lxor (keystream seed (kl + 3) 140) (wep_message plain)).
Proof.
  intros Hkl Hp seed. eexists. unfold lim_encrypt_auth_frame, key_fits.
  rewrite (proj2 (Z.leb_le _ _)) by (unfold LIM_SEED_LENGTH; lia). cbn [negb].
  rewrite (u32_small (kl + 3)) by (red; lia).
  change (LIM_ENCR_AUTH_BODY_LEN - SIR_MAC_WEP_IV_LENGTH) with 140.
  rewrite lim_rc4_xor by (rewrite ?length_zwrite; lia). fold seed. do 4 f_equal.
  change (Z.to_nat 140) with 140%nat. unfold wep_message. f_equal.
  change (Z.to_nat sizeof_tSirMacAuthFrameBody) with 136%nat.
  apply list_eq. intros i. unfold zwrite.
  destruct (crc32_bytes plain sizeof_tSirMacAuthFrameBody) as [Hc _].
  change (Z.to_nat sizeof_tSirMacAuthFrameBody) with 136%nat.
  destruct (decide (i < 136)%nat); [|destruct (decide (i < 140)%nat)].
  - rewrite lookup_take, decide_True by lia. rewrite list_lookup_inserts_lt by lia.
    rewrite lookup_app_l by (rewrite length_take; lia). by rewrite lookup_take, decide_True by lia.
  - rewrite lookup_take, decide_True by lia. rewrite list_lookup_inserts by lia.
    rewrite lookup_app_r by (rewrite length_take; lia). f_equal. rewrite length_take. lia.
  - rewrite !lookup_ge_None_2; [done|rewrite length_app, length_take, Hc; lia|].
    rewrite length_take. lia.
Qed.

Lemma unwrap_encrypted (stack stack' key plain : list Z) kl iv3 :
  length stack = 16%nat → length stack' = 16%nat → 0 <= kl <= 13 → kl <= Z.of_nat (length key) →
  (140 <= length plain)%nat →
  let seed := zwrite stack 3 (zread key 0 kl) in
  let ks := keystream seed (kl + 3) 140 in
  let iv := [zget seed 0; zget seed 1; zget seed 2; iv3] in
  ∀ body ct : list Z, take 3 body = take 3 iv → length ct = 140%nat →
  unwrap body key ct kl 140 stack' = zip_with Z.lxor ks ct.
Proof.
  intros Hs Hs' Hkl Hk Hp seed ks iv body ct Hb Hct. unfold unwrap.
  change (Z.to_nat 140) with 140%nat. rewrite take_ge by lia. unfold ks, keystream.
  rewrite (rc4_schedule_seed seed (wep_seed body key kl stack')); [exact eq_refl|unfold LIM_SEED_LENGTH; lia|].
  assert (3 <= length body)%nat as Hlb.
  { apply (f_equal length) in Hb. rewrite length_take in Hb.
    change (length (take 3 iv)) with 3%nat in Hb. lia. }
  intros k Hk'. apply wep_seed_agree; try done. intros i Hi.
  assert (body !! Z.to_nat i = iv !! Z.to_nat i) as Hi'.
  { rewrite <- (lookup_take_lt body 3 (Z.to_nat i)), <- (lookup_take_lt iv 3 (Z.to_nat i)) by lia.
    by rewrite Hb. }
  unfold zget at 1. rewrite list_lookup_total_alt, Hi'.
  destruct (decide (i = 0)) as [->|]; [done|]. destruct (decide (i = 1)) as [->|]; [done|].
  replace i with 2 by lia. done.
Qed.

#[local] Opaque rc4_schedule rc4_loop lim_compute_crc32.

Lemma zip_lxor_u8 (k l : list Z) : Forall is_u8 k → Forall is_u8 l → Forall is_u8 (zip_with Z.lxor k l).
Proof.
  intros Hk. revert l. induction Hk as [|x k Hx Hk IH]; intros l Hl; [done|].
  destruct Hl as [|y l Hy Hl]; cbn; [done|]. constructor; [by apply lxor_u8|by apply IH].
Qed.

Lemma zget_zip (k l : list Z) i :
  0 <= i < Z.of_nat (length k) → length k = length l →
  zget (zip_with Z.lxor k l) i = Z.lxor (zget k i) (zget l i).
Proof.
  intros Hi Hl. apply zget_lookup; [lia|].
  by rewrite lookup_zip_with, !zlookup_zget by lia.
Qed.

(** A byte changed under the keystream is a byte changed in the message. *)
Lemma zip_zset (k l : list Z) i b :
  0 <= i < Z.of_nat (length k) → length k = length l →
  zip_with Z.lxor k (zset (zip_with Z.lxor k l) i b) = zset l i (Z.lxor (zget k i) b).
Proof.
  intros Hi Hl. unfold zset.
  rewrite <- (list_insert_id k (Z.to_nat i) (zget k i)) at 1 by (apply zlookup_zget; lia).
  rewrite <- insert_zip_with, zip_lxor_twice by lia. done.
Qed.

Section wep_frames.
Context (stack stack' key plain buf : list Z) (keyId kl : Z).
Context (Hstack : length stack = 16%nat) (Hstack' : length stack' = 16%nat).
Context (Hkl : 0 <= kl <= 13) (Hkey : kl <= Z.of_nat (length key)).
Context (Hplain : (140 <= length plain)%nat) (Hbuf : (140 <= length buf)%nat).

(** What the receiver makes of a body whose IV is the sender's. *)
Lemma decrypt_with_iv body :
  let seed := zwrite stack 3 (zread key 0 kl) in
  take 3 body = [zget seed 0; zget seed 1; zget seed 2] → length body = 144%nat →
  let p := zip_with Z.lxor (keystream seed (kl + 3) 140) (drop 4 body) in
  lim_decrypt_auth_frame stack' key body buf kl 140 =
  Some (if decide (sealed p 140) then eSIR_SUCCESS else LIM_DECRYPT_ICV_FAIL, zwrite buf 0 p).
Proof.
  intros seed Hb Hl p. rewrite decrypt_spec by lia.
  rewrite (unwrap_encrypted stack stack' key plain kl 0); [done..|rewrite length_drop; lia].
Qed.

(** What the receiver gets: the sealed message, at the start of its buffer. *)
Lemma encrypt_decrypt :
  ∃ plain1 encr,
    lim_encrypt_auth_frame stack keyId key plain kl = Some (plain1, encr) ∧
    length encr = 144%nat ∧ zget encr 3 = u8 (Z.shiftl keyId 6) ∧
    lim_decrypt_auth_frame stack' key encr buf kl 140 = Some (eSIR_SUCCESS, zwrite buf 0 (wep_message plain)).
Proof.
  destruct (encrypt_spec stack keyId key plain kl Hkl Hplain) as [plain1 He].
  destruct (wep_message_sealed plain ltac:(lia)) as [Hm Hs].
  set (ks := keystream _ _ _) in He.
  assert (length ks = 140%nat) as Hks by apply length_rc4_loop.
  do 2 eexists. split; [exact He|]. split; [|split; [done|]].
  - rewrite length_app, length_zip_with, Hks, Hm. done.
  - rewrite decrypt_with_iv; [|done|by rewrite length_app, length_zip_with, Hks, Hm].
    fold ks. rewrite drop_app_length' by done. rewrite zip_lxor_twice by lia.
    by rewrite decide_True.
Qed.

(** The key matters through its first [kl] bytes. *)
Lemma decrypt_key_ext st key1 key2 body b n :
  zread key1 0 kl = zread key2 0 kl →
  lim_decrypt_auth_frame st key1 body b kl n = lim_decrypt_auth_frame st key2 body b kl n.
Proof. intros E. unfold lim_decrypt_auth_frame. by rewrite E. Qed.

Lemma zread_message b n :
  0 <= n <= 136 → (140 <= length b)%nat → zread (zwrite b 0 (wep_message plain)) 0 n = zread plain 0 n.
Proof.
  intros Hn Hb. destruct (wep_message_sealed plain ltac:(lia)) as [Hm _]. rewrite zread_written by lia.
  unfold zread, wep_message. cbn [Z.to_nat]. rewrite !drop_0.
  rewrite take_app_le by (rewrite length_take; lia). rewrite take_take. f_equal. lia.
Qed.

(** C40: the challenge round trip.  A frame body encrypted by
    [lim_encrypt_auth_frame] is decrypted by [lim_decrypt_auth_frame] under the
    same key with status [eSIR_SUCCESS] and gives back the 136 bytes of the
    authentication body, for every WEP key length, every content of the
    uninitialised bytes of the sender's [seed] (they become the IV) and of the
    receiver's. *)
Theorem shared_key_roundtrip :
  ∃ plain1 encr out,
    lim_encrypt_auth_frame stack keyId key plain kl = Some (plain1, encr) ∧
    Z.of_nat (length encr) = LIM_ENCR_AUTH_BODY_LEN ∧
    lim_decrypt_auth_frame stack' key encr buf kl (LIM_ENCR_AUTH_BODY_LEN - SIR_MAC_WEP_IV_LENGTH) =
      Some (eSIR_SUCCESS, out) ∧
    zread out 0 sizeof_tSirMacAuthFrameBody = zread plain 0 sizeof_tSirMacAuthFrameBody.
Proof.
  destruct encrypt_decrypt as (plain1 & encr & He & Hlen & _ & Hd).
  exists plain1, encr, (zwrite buf 0 (wep_message plain)). split_and!; [done| |done|].
  - by rewrite Hlen.
  - apply zread_message; [|done]. change sizeof_tSirMacAuthFrameBody with 136. lia.
Qed.

(** Tampering is detected.  Whichever single byte of the encrypted message
    or of its encrypted ICV is replaced by another value, [lim_decrypt_auth_frame]
    answers [LIM_DECRYPT_ICV_FAIL]. *)
Theorem shared_key_tamper plain1 encr pos b :
  lim_encrypt_auth_frame stack keyId key plain kl = Some (plain1, encr) → Forall is_u8 plain →
  SIR_MAC_WEP_IV_LENGTH <= pos < LIM_ENCR_AUTH_BODY_LEN → is_u8 b → b ≠ zget encr pos →
  lim_decrypt_auth_frame stack' key (zset encr pos b) buf kl
    (LIM_ENCR_AUTH_BODY_LEN - SIR_MAC_WEP_IV_LENGTH) ≫= (λ r, Some r.1) = Some LIM_DECRYPT_ICV_FAIL.
Proof.
  intros He Hu Hpos Hb Hne.
  destruct (encrypt_spec stack keyId key plain kl Hkl Hplain) as [plain2 He2].
  rewrite He in He2. set (seed := zwrite stack 3 (zread key 0 kl)) in He2.
  set (ks := keystream _ _ _) in He2. injection He2 as _ Henc.
  set (iv := [zget seed 0; zget seed 1; zget seed 2; u8 (Z.shiftl keyId 6)]).
  change (encr = iv ++ zip_with Z.lxor ks (wep_message plain)) in Henc.
  destruct (wep_message_sealed plain ltac:(lia)) as [Hm Hs].
  assert (length ks = 140%nat) as Hks by apply length_rc4_loop.
  assert (Forall is_u8 ks) as Hku by (apply rc4_loop_u8, rc4_schedule_state).
  change (LIM_ENCR_AUTH_BODY_LEN - SIR_MAC_WEP_IV_LENGTH) with 140.
  unfold SIR_MAC_WEP_IV_LENGTH in Hpos. change LIM_ENCR_AUTH_BODY_LEN with 144 in Hpos.
  assert (zset encr pos b = iv ++ zset (zip_with Z.lxor ks (wep_message plain)) (pos - 4) b) as Hz.
  { rewrite Henc. unfold zset. rewrite insert_app_r_alt by (cbn; lia). do 2 f_equal. cbn. lia. }
  assert (zget encr pos = zget (zip_with Z.lxor ks (wep_message plain)) (pos - 4)) as Hg.
  { rewrite Henc. unfold zget. rewrite !list_lookup_total_alt, lookup_app_r by (cbn; lia).
    do 2 f_equal. cbn. lia. }
  rewrite zget_zip in Hg by lia. rewrite Hz.
  rewrite decrypt_with_iv; [|done|rewrite length_app, length_zset, length_zip_with, Hks, Hm; done].
  fold seed ks. rewrite drop_app_length' by done. rewrite zip_zset by lia.
  rewrite decide_False; [done|].
  apply sealed_tamper; [by apply wep_message_u8| |lia|rewrite Hm; exact eq_refl|lia| |exact Hs].
  - apply lxor_u8; [by apply zget_u8|done].
  - intros E. apply Hne. rewrite Hg, <- E. symmetry. apply lxor_twice.
Qed.
End wep_frames.

Lemma shared_key_roundtrip_witness :
  ∃ plain1 encr out,
    lim_encrypt_auth_frame (replicate 16 7) 1 [1; 2; 3; 4; 5] (replicate 256 65) 5 = Some (plain1, encr) ∧
    Z.of_nat (length encr) = LIM_ENCR_AUTH_BODY_LEN ∧
    lim_decrypt_auth_frame (replicate 16 0) [1; 2; 3; 4; 5] encr (replicate 256 0) 5
      (LIM_ENCR_AUTH_BODY_LEN - SIR_MAC_WEP_IV_LENGTH) = Some (eSIR_SUCCESS, out) ∧
    zread out 0 sizeof_tSirMacAuthFrameBody = zread (replicate 256 65) 0 sizeof_tSirMacAuthFrameBody.
Proof.
  apply (shared_key_roundtrip (replicate 16 7) (replicate 16 0) [1; 2; 3; 4; 5] (replicate 256 65)
           (replicate 256 0) 1 5); [reflexivity..|lia|cbn; lia| |]; rewrite length_replicate; lia.
Defined.

Lemma shared_key_tamper_witness :
  ∃ plain1 encr, lim_encrypt_auth_frame (replicate 16 7) 1 [1; 2; 3; 4; 5] (replicate 256 65) 5
                   = Some (plain1, encr) ∧
    lim_decrypt_auth_frame (replicate 16 0) [1; 2; 3; 4; 5] (zset encr 20 (Z.lxor (zget encr 20) 1))
      (replicate 256 0) 5 (LIM_ENCR_AUTH_BODY_LEN - SIR_MAC_WEP_IV_LENGTH)
      ≫= (λ r, Some r.1) = Some LIM_DECRYPT_ICV_FAIL.
Proof.
  do 2 eexists. split; [reflexivity|].
  eapply (shared_key_tamper (replicate 16 7) (replicate 16 0) [1; 2; 3; 4; 5] (replicate 256 65)
           (replicate 256 0) 1 5); [reflexivity..|lia|cbn; lia|rewrite length_replicate; lia
           |rewrite length_replicate; lia|reflexivity| | | |].
  - apply Forall_replicate. red. lia.
  - vm_compute. by split.
  - vm_compute. by split.
  - vm_compute. done.
Defined.

(** *** The length of the received frame *)

Lemma icv_compare_some k i icv buf n :
  0 <= n - 4 + i → n - 4 + i + Z.of_nat k <= Z.of_nat (length buf) →
  is_Some (icv_compare k i icv buf n).
Proof.
  revert i. induction k as [|k IH]; intros i H0 H1; cbn; [by eexists|]. unfold SIR_MAC_WEP_ICV_LENGTH.
  rewrite (proj2 (Z.ltb_ge _ _)), (proj2 (Z.leb_gt _ _)) by lia. cbn.
  split_if; [apply IH; lia|by eexists].
Qed.

Lemma decrypt_some stack key encr buf kl n :
  Z.of_nat (length buf) = 256 → kl <= SIR_MAC_KEY_LENGTH → 140 <= n <= 256 →
  is_Some (lim_decrypt_auth_frame stack key encr buf kl n).
Proof.
  intros Hb Hkl Hn. unfold lim_decrypt_auth_frame, key_fits. unfold SIR_MAC_KEY_LENGTH in Hkl.
  rewrite (proj2 (Z.leb_le _ _)) by (unfold LIM_SEED_LENGTH; lia). cbn [negb].
  pose proof (u8_range n) as [_ Hu]. rewrite (proj2 (Z.ltb_ge _ (u8 n))) by (rewrite Hb; lia).
  set (p := zwrite buf 0 _). set (icv := lim_compute_crc32 _ _).
  assert (Z.of_nat (length p) = 256) as Hp by (unfold p; by rewrite length_zwrite).
  destruct (icv_compare_some (Z.to_nat SIR_MAC_WEP_ICV_LENGTH) 0 icv p n) as [same ->];
    unfold SIR_MAC_WEP_ICV_LENGTH; [lia..|by eexists].
Qed.

(** The bounds of the receiver.  [lim_process_auth_frame] checks only a lower
    bound of the frame length and decrypts into [plainbody], 256 bytes on its
    stack.  Up to 256 bytes after the IV every access is inside that buffer;
    from 260 bytes on, the ICV comparison reads beyond its end whatever the
    frame holds. *)
Theorem decrypt_frame_bounds stack key encr buf kl frameLen :
  Z.of_nat (length buf) = 256 → kl <= SIR_MAC_KEY_LENGTH →
  LIM_ENCR_AUTH_BODY_LEN - SIR_MAC_WEP_IV_LENGTH <= frameLen < 65536 →
  (frameLen <= 256 → is_Some (lim_decrypt_auth_frame stack key encr buf kl frameLen)) ∧
  (260 <= frameLen → lim_decrypt_auth_frame stack key encr buf kl frameLen = None).
Proof.
  intros Hb Hkl Hn. change (LIM_ENCR_AUTH_BODY_LEN - SIR_MAC_WEP_IV_LENGTH) with 140 in Hn.
  split; intros Hle; [apply decrypt_some; [done..|lia]|].
  unfold SIR_MAC_KEY_LENGTH in Hkl. unfold lim_decrypt_auth_frame, key_fits.
  rewrite (proj2 (Z.leb_le _ _)) by (unfold LIM_SEED_LENGTH; lia). cbn [negb].
  pose proof (u8_range frameLen) as [_ Hu]. rewrite (proj2 (Z.ltb_ge _ (u8 frameLen))) by (rewrite Hb; lia).
  change (Z.to_nat SIR_MAC_WEP_ICV_LENGTH) with 4%nat.
  set (p := zwrite buf 0 _). set (icv := lim_compute_crc32 _ _).
  assert (Z.of_nat (length p) = 256) as Hp by (unfold p; by rewrite length_zwrite).
  cbn [icv_compare]. unfold SIR_MAC_WEP_ICV_LENGTH.
  rewrite (proj2 (Z.ltb_ge _ 0)), (proj2 (Z.leb_le (Z.of_nat (length p)) _)) by lia. done.
Qed.

Lemma decrypt_frame_bounds_witness :
  is_Some (lim_decrypt_auth_frame [] [1; 2; 3; 4; 5] [] (replicate 256 0) 5 256) ∧
  lim_decrypt_auth_frame [] [1; 2; 3; 4; 5] [] (replicate 256 0) 5 1500 = None.
Proof.
  split.
  - apply (decrypt_frame_bounds [] [1; 2; 3; 4; 5] [] (replicate 256 0) 5 256); [reflexivity|by vm_compute| |lia].
    change (LIM_ENCR_AUTH_BODY_LEN - SIR_MAC_WEP_IV_LENGTH) with 140. lia.
  - apply (decrypt_frame_bounds [] [1; 2; 3; 4; 5] [] (replicate 256 0) 5 1500); [reflexivity|by vm_compute| |lia].
    change (LIM_ENCR_AUTH_BODY_LEN - SIR_MAC_WEP_IV_LENGTH) with 140. lia.
Defined.
