(* ===== verification/PreAuth.v ===== *)
(** The pre-authentication contexts: the list of
    core/mac/src/pe/lim/lim_security_utils.c and the table of nodes of
    core/mac/src/pe/lim/lim_assoc_utils.c.

    The nodes live in [gLimPreAuthTimerTable]; those in use are threaded on
    [pLimPreAuthList] through their [next] fields and carry [fFree = 0].  A
    pointer to a node is its index in the table. *)
From S2P Require Import Prelude Chains LimTypes.

Definition eSIR_OPEN_SYSTEM : Z := 0.
Definition eSIR_SHARED_KEY : Z := 1.
Definition eSIR_FT_AUTH : Z := 2.
(** With [FEATURE_WLAN_ESE], as in the build files. *)
Definition eSIR_LEAP_AUTH : Z := 0x80.
Definition eSIR_AUTO_SWITCH : Z := 0x81.
Definition LIM_OPENAUTH_TIMEOUT : Z := 500.

(** [tLimPreAuthNode]; the timer is represented by whether it is active. *)
Record tLimPreAuthNode := mk_pnode {
  next : option Z;
  peerMacAddr : list Z;
  authType : Z;
  mlmState : tLimMlmStates;
  authNodeIdx : Z;
  challengeText : list Z;
  fTimerStarted : Z;
  fSeen : Z;
  fFree : Z;
  timer_active : bool;
  seq_num : Z;
  timestamp : Z;
}.
#[export] Instance tLimPreAuthNode_eta : Eta tLimPreAuthNode := fun n =>
  mk_pnode (next n) (peerMacAddr n) (authType n) (mlmState n) (authNodeIdx n) (challengeText n)
    (fTimerStarted n) (fSeen n) (fFree n) (timer_active n) (seq_num n) (timestamp n).
(** A node as [qdf_mem_malloc] leaves it. *)
Definition pnode_zero : tLimPreAuthNode :=
  mk_pnode None zero_mac 0 eLIM_MLM_OFFLINE_STATE 0 (replicate 128 0) 0 0 0 false 0 0.
#[export] Instance tLimPreAuthNode_inhabited : Inhabited tLimPreAuthNode := populate pnode_zero.

(** The pre-authentication part of the LIM context. *)
Record preAuth := mk_pre {
  pTable : list tLimPreAuthNode;       (* gLimPreAuthTimerTable *)
  pLimPreAuthList : option Z;
  gLimNumPreAuthContexts : Z;
}.
#[export] Instance preAuth_eta : Eta preAuth := fun s =>
  mk_pre (pTable s) (pLimPreAuthList s) (gLimNumPreAuthContexts s).

Definition numEntry (s : preAuth) : Z := Z.of_nat (length (pTable s)).
Definition pnode (s : preAuth) (i : Z) : tLimPreAuthNode := zget (pTable s) i.
Definition set_pnode (s : preAuth) (i : Z) (n : tLimPreAuthNode) : preAuth :=
  s <| pTable ::= λ t, zset t i n |>.
Definition pnode_next (s : preAuth) (i : Z) : option Z := next (pnode s i).
Definition peer_is (s : preAuth) (mac : list Z) (i : Z) : bool :=
  bool_decide (mac = peerMacAddr (pnode s i)).

(** ** The table *)

(** The table allocated for [n] nodes ([lim_timer_utils.c]). *)
Definition preauth_alloc (n : nat) : preAuth := mk_pre (replicate n pnode_zero) None 0.

(** [lim_init_pre_auth_timer_table]: [create i] tells whether the timer of node
    [i] could be created; the first failure ends the loop. *)
Fixpoint init_table_loop (n : nat) (create : Z → bool) (s : preAuth) (i : Z) : preAuth :=
  match n with
  | O => s
  | S n =>
      if negb (create i) then s
      else init_table_loop n create
             (set_pnode s i (pnode s i <| timer_active := false |> <| authNodeIdx := u8 i |>
                                       <| fFree := 1 |>)) (i + 1)
  end.
Definition lim_init_pre_auth_timer_table (cfg_ok : bool) (create : Z → bool) (s : preAuth) : preAuth :=
  if cfg_ok then init_table_loop (Z.to_nat (numEntry s)) create s 0 else s.

(** [lim_acquire_free_pre_auth_node]. *)
Definition lim_acquire_free_pre_auth_node (s : preAuth) : preAuth * option Z :=
  match List.find (λ i, fFree (pnode s i) =? 1) (seqZ 0 (numEntry s)) with
  | Some i => (set_pnode s i (pnode s i <| fFree := 0 |>), Some i)
  | None => (s, None)
  end.

Definition lim_get_pre_auth_node_from_index (s : preAuth) (authNodeIdx : Z) : option Z :=
  if numEntry s <=? authNodeIdx then None else Some authNodeIdx.

(** ** The list *)

Definition lim_init_pre_auth_list (s : preAuth) : preAuth := s <| pLimPreAuthList := None |>.

(** [lim_search_pre_auth_list]; the outer [None] is a loop that does not end. *)
Definition lim_search_pre_auth_list (s : preAuth) (mac : list Z) : option (option Z) :=
  '(_, p) ← find_node (length (pTable s)) (pnode_next s) (λ _ i, peer_is s mac i) None
              (pLimPreAuthList s);
  Some p.

Definition lim_add_pre_auth_node (s : preAuth) (i : Z) : preAuth :=
  let s := s <| gLimNumPreAuthContexts ::= λ n, u32 (n + 1) |> in
  let s := set_pnode s i (pnode s i <| next := pLimPreAuthList s |>) in
  s <| pLimPreAuthList := Some i |>.

Definition lim_release_pre_auth_node (s : preAuth) (i : Z) : preAuth :=
  let s := set_pnode s i (pnode s i <| fFree := 1 |> <| timer_active := false |>) in
  s <| gLimNumPreAuthContexts ::= λ n, u32 (n - 1) |>.

Definition lim_delete_pre_auth_node (s : preAuth) (mac : list Z) : option preAuth :=
  match pLimPreAuthList s with
  | None => Some s
  | Some h =>
      if peer_is s mac h then
        Some (lim_release_pre_auth_node (s <| pLimPreAuthList := next (pnode s h) |>) h)
      else
        '(prev, p) ← find_node (length (pTable s)) (pnode_next s) (λ _ i, peer_is s mac i) (Some h)
                       (next (pnode s h));
        match p, prev with
        | Some i, Some q =>
            Some (lim_release_pre_auth_node
                    (set_pnode s q (pnode s q <| next := next (pnode s i) |>)) i)
        | _, _ => Some s                       (* peer not found: logged *)
        end
  end.

Fixpoint delete_list_loop (fuel : nat) (s : preAuth) (cur : option Z) : option preAuth :=
  match cur with
  | None => Some (s <| pLimPreAuthList := None |>)
  | Some i =>
      match fuel with
      | O => None
      | S n => let nx := next (pnode s i) in
               delete_list_loop n (lim_release_pre_auth_node s i) nx
      end
  end.
Definition lim_delete_pre_auth_list (s : preAuth) : option preAuth :=
  delete_list_loop (length (pTable s)) s (pLimPreAuthList s).

(** The test of [lim_delete_open_auth_pre_auth_node]; [ticks] are the successive
    readings of the system clock and [k] the number of readings made so far. *)
Definition open_auth_expired (ticks : nat → Z) (k : nat) (n : tLimPreAuthNode) : bool * nat :=
  if bool_decide (mlmState n = eLIM_MLM_AUTHENTICATED_STATE) && (authType n =? eSIR_OPEN_SYSTEM) then
    if u64 (LIM_OPENAUTH_TIMEOUT + timestamp n) <? ticks k then (true, S k)
    else (ticks (S k) <? timestamp n, S (S k))
  else (false, k).

Fixpoint delete_open_loop (fuel : nat) (ticks : nat → Z) (k : nat) (s : preAuth)
    (prev cur : option Z) (freed : bool) : option (preAuth * nat * bool) :=
  match cur with
  | None => Some (s, k, freed)
  | Some i =>
      match fuel with
      | O => None
      | S n =>
          let '(expired, k) := open_auth_expired ticks k (pnode s i) in
          if expired then
            if bool_decide (pLimPreAuthList s = Some i) then
              let nx := next (pnode s i) in
              delete_open_loop n ticks k
                (lim_release_pre_auth_node (s <| pLimPreAuthList := nx |>) i) nx nx true
            else
              match prev with
              | None => None                               (* null pointer dereference *)
              | Some q =>
                  let nx := next (pnode s i) in
                  delete_open_loop n ticks k
                    (lim_release_pre_auth_node (set_pnode s q (pnode s q <| next := nx |>)) i)
                    prev nx true
              end
          else delete_open_loop n ticks k s (Some i) (next (pnode s i)) freed
      end
  end.
Definition lim_delete_open_auth_pre_auth_node (ticks : nat → Z) (k : nat) (s : preAuth) :
    option (preAuth * nat * bool) :=
  delete_open_loop (length (pTable s)) ticks k s (pLimPreAuthList s) (pLimPreAuthList s) false.

(** ** Well-formed contexts *)

Lemma numEntry_set s i n : numEntry (set_pnode s i n) = numEntry s.
Proof. unfold numEntry. cbn. by rewrite length_zset. Qed.
Lemma pnode_set s i j n :
  0 <= i < numEntry s → 0 <= j → pnode (set_pnode s i n) j = if i =? j then n else pnode s j.
Proof. intros. unfold pnode. cbn. by apply zget_zset. Qed.
Lemma numEntry_release s p : numEntry (lim_release_pre_auth_node s p) = numEntry s.
Proof. exact (numEntry_set s p _). Qed.
Lemma pnode_release s p i :
  0 <= p < numEntry s → 0 <= i →
  pnode (lim_release_pre_auth_node s p) i =
  if p =? i then pnode s p <| fFree := 1 |> <| timer_active := false |> else pnode s i.
Proof. apply pnode_set. Qed.

(** The contexts in use are those on the list, every other node is free, and the
    counter counts them. *)
Record pre_wf (s : preAuth) (ids : list Z) : Prop := {
  pw_chain : chain (pnode_next s) (pLimPreAuthList s) ids;
  pw_range : ∀ i, i ∈ ids → 0 <= i < numEntry s;
  pw_free : ∀ i, 0 <= i < numEntry s → fFree (pnode s i) = if decide (i ∈ ids) then 0 else 1;
  pw_count : gLimNumPreAuthContexts s = Z.of_nat (length ids);
  pw_small : numEntry s < 4294967296;
}.

(** What the list means: the nodes on it, without their links. *)
Definition body (n : tLimPreAuthNode) : tLimPreAuthNode := n <| next := None |>.
Definition entries (s : preAuth) (ids : list Z) : list tLimPreAuthNode := (λ i, body (pnode s i)) <$> ids.
Definition pre_rep (s : preAuth) (l : list tLimPreAuthNode) : Prop :=
  ∃ ids, pre_wf s ids ∧ l = entries s ids.

Lemma wf_bound s ids : pre_wf s ids → (length ids <= length (pTable s))%nat.
Proof.
  intros Hwf. pose proof (chain_NoDup _ _ _ (pw_chain _ _ Hwf)) as Hnd.
  assert (Forall (λ i, i ∈ seqZ 0 (numEntry s)) ids) as Hall.
  { apply Forall_forall. intros i Hi. apply elem_of_seqZ. apply (pw_range _ _ Hwf) in Hi. lia. }
  assert (ids ⊆+ seqZ 0 (numEntry s)) as Hsub.
  { apply NoDup_submseteq; [done|]. intros i Hi. rewrite Forall_forall in Hall. by apply Hall. }
  apply submseteq_length in Hsub. rewrite length_seqZ in Hsub. unfold numEntry in Hsub. lia.
Qed.

Lemma wf_search s ids mac :
  pre_wf s ids → lim_search_pre_auth_list s mac = Some (List.find (peer_is s mac) ids).
Proof.
  intros Hwf. unfold lim_search_pre_auth_list. pose proof (wf_bound s ids Hwf).
  destruct (find_split (peer_is s mac) ids) as [[-> Hn]|(l1 & x & l2 & -> & Hl1 & Hx & ->)].
  - erewrite (find_node_none _ _ _ (peer_is s mac)); [done|by apply Hwf|done|done|done].
  - erewrite (find_node_found _ _ _ (peer_is s mac)); [done|by apply Hwf|done|done|done|done].
Qed.

(** Releasing a node taken off the list. *)
Lemma wf_release s s' l1 p l2 :
  pre_wf s (l1 ++ p :: l2) → numEntry s' = numEntry s →
  gLimNumPreAuthContexts s' = gLimNumPreAuthContexts s →
  (∀ i, 0 <= i → body (pnode s' i) = body (pnode s i)) →
  chain (pnode_next s') (pLimPreAuthList s') (l1 ++ l2) →
  pre_wf (lim_release_pre_auth_node s' p) (l1 ++ l2) ∧
  entries (lim_release_pre_auth_node s' p) (l1 ++ l2) = entries s (l1 ++ l2).
Proof.
  intros Hwf Hn Hc Hb Hch. pose proof (chain_NoDup _ _ _ (pw_chain _ _ Hwf)) as Hnd.
  assert (0 <= p < numEntry s) as Hp by (apply (pw_range _ _ Hwf); set_solver).
  assert (p ∉ l1 ++ l2) as Hpn.
  { intros Hin. apply NoDup_app in Hnd as (_ & Hd & Hnd). apply NoDup_cons in Hnd as [??].
    apply elem_of_app in Hin as [Hin|Hin]; [|done]. apply (Hd p Hin). set_solver. }
  assert (0 <= p < numEntry s') as Hp' by lia.
  pose proof (λ i, pnode_release s' p i Hp') as Hr.
  assert (∀ i, i ∈ l1 ++ l2 → i ≠ p ∧ 0 <= i < numEntry s) as Hin.
  { intros i Hi. split; [intros ->; done|]. apply (pw_range _ _ Hwf). set_solver. }
  split.
  - split.
    + eapply chain_frame; [|exact Hch]. intros i Hi. apply Hin in Hi as [Hne Hi].
      unfold pnode_next. rewrite Hr by lia. by destruct (Z.eqb_spec p i); [congruence|].
    + intros i Hi. apply Hin in Hi as [_ Hi]. rewrite numEntry_release. lia.
    + intros i Hi. rewrite numEntry_release, Hn in Hi.
      rewrite Hr by lia. destruct (Z.eqb_spec p i) as [->|Hne].
      * by rewrite decide_False.
      * change (fFree (pnode s' i)) with (fFree (body (pnode s' i))). rewrite Hb by lia.
        change (fFree (body (pnode s i))) with (fFree (pnode s i)). rewrite (pw_free _ _ Hwf) by done.
        apply decide_ext. rewrite !elem_of_app, elem_of_cons. naive_solver.
    + change (u32 (gLimNumPreAuthContexts s' - 1) = Z.of_nat (length (l1 ++ l2))).
      rewrite Hc, (pw_count _ _ Hwf). pose proof (wf_bound _ _ Hwf) as Hlen.
      pose proof (pw_small _ _ Hwf). unfold numEntry in *. rewrite length_app, length_cons in Hlen |- *. rewrite length_app.
      rewrite u32_small by (red; lia). lia.
    + rewrite numEntry_release, Hn. apply Hwf.
  - apply list_fmap_ext. intros ? i Hi%list_elem_of_lookup_2. apply Hin in Hi as [Hne Hi].
    rewrite Hr by lia. destruct (Z.eqb_spec p i); [congruence|]. apply Hb. lia.
Qed.

(** Taking a node off: at the head, or behind [q]. *)
Lemma wf_pop s p l2 :
  pre_wf s (p :: l2) →
  let s' := lim_release_pre_auth_node (s <| pLimPreAuthList := next (pnode s p) |>) p in
  pre_wf s' l2 ∧ entries s' l2 = entries s l2.
Proof.
  intros Hwf s'. apply (wf_release s (s <| pLimPreAuthList := next (pnode s p) |>) [] p l2); try done.
  pose proof (pw_chain _ _ Hwf) as Hc. by apply lseg_cons in Hc as [_ ?].
Qed.

Lemma wf_unlink s l1 q p l2 :
  pre_wf s ((l1 ++ [q]) ++ p :: l2) →
  let s' := lim_release_pre_auth_node (set_pnode s q (pnode s q <| next := next (pnode s p) |>)) p in
  pre_wf s' ((l1 ++ [q]) ++ l2) ∧ entries s' ((l1 ++ [q]) ++ l2) = entries s ((l1 ++ [q]) ++ l2).
Proof.
  intros Hwf s'. assert (0 <= q < numEntry s) as Hq by (apply (pw_range _ _ Hwf); set_solver).
  apply (wf_release s _ _ _ _ Hwf).
  - by rewrite numEntry_set.
  - done.
  - intros i Hi. rewrite pnode_set by done. by destruct (Z.eqb_spec q i) as [->|].
  - cbn [pLimPreAuthList set_pnode]. eapply chain_frame; [|exact (chain_unlink _ _ _ _ _ _ (pw_chain _ _ Hwf))].
    intros i Hi. unfold nx_upd, pnode_next.
    assert (0 <= i) by (assert (0 <= i < numEntry s); [apply (pw_range _ _ Hwf); set_solver|lia]).
    rewrite pnode_set by done. destruct (Z.eqb_spec q i) as [->|Hne].
    + by rewrite decide_True.
    + by rewrite decide_False.
Qed.

(** ** Deletion by address *)

Fixpoint a_delete (mac : list Z) (l : list tLimPreAuthNode) : list tLimPreAuthNode :=
  match l with
  | [] => []
  | e :: l => if bool_decide (mac = peerMacAddr e) then l else e :: a_delete mac l
  end.

Lemma a_delete_absent s mac ids :
  Forall (λ i, peer_is s mac i = false) ids → a_delete mac (entries s ids) = entries s ids.
Proof.
  induction 1 as [|i ids Hi _ IH]; [done|]. unfold peer_is in Hi. cbn. rewrite Hi. f_equal. exact IH.
Qed.
Lemma a_delete_split s mac l1 p l2 :
  Forall (λ i, peer_is s mac i = false) l1 → peer_is s mac p = true →
  a_delete mac (entries s (l1 ++ p :: l2)) = entries s (l1 ++ l2).
Proof.
  intros Hl Hp. unfold peer_is in *. induction Hl as [|i l1 Hi _ IH]; cbn.
  - by rewrite Hp.
  - rewrite Hi. f_equal. exact IH.
Qed.

Lemma wf_delete s ids mac :
  pre_wf s ids →
  ∃ s' ids', lim_delete_pre_auth_node s mac = Some s' ∧ pre_wf s' ids' ∧
    entries s' ids' = a_delete mac (entries s ids) ∧ numEntry s' = numEntry s ∧
    (∀ i, i ∈ ids' ↔ i ∈ ids ∧ List.find (peer_is s mac) ids ≠ Some i) ∧
    (∀ i, 0 <= i → challengeText (pnode s' i) = challengeText (pnode s i)).
Proof.
  intros Hwf. pose proof (wf_bound s ids Hwf) as Hlen. pose proof (pw_chain _ _ Hwf) as Hc.
  pose proof (chain_NoDup _ _ _ Hc) as Hnd.
  unfold lim_delete_pre_auth_node.
  destruct (find_split (peer_is s mac) ids) as [[E Hn]|(l1 & p & l2 & -> & Hl1 & Hp & E)].
  - exists s, ids. rewrite a_delete_absent by done. rewrite E. split_and!; try done; [|naive_solver].
    destruct ids as [|h ids]; [by rewrite Hc|]. apply lseg_cons in Hc as [-> Hc].
    inversion_clear Hn as [|?? Hh Hn']. rewrite Hh.
    rewrite (find_node_none _ _ _ (peer_is s mac) _ _ ids); [|done|cbn in Hlen; lia|done|done].
    done.
  - rewrite a_delete_split by done. rewrite E.
    assert (0 <= p < numEntry s) as Hpr by (apply (pw_range _ _ Hwf); set_solver).
    assert (∀ i, i ∈ l1 ++ l2 ↔ i ∈ l1 ++ p :: l2 ∧ Some p ≠ Some i) as Hin.
    { intros i. apply NoDup_app in Hnd as (_ & Hd & Hnd2). apply NoDup_cons in Hnd2 as [??].
      rewrite !elem_of_app, elem_of_cons. specialize (Hd i). rewrite elem_of_cons in Hd. naive_solver. }
    destruct l1 as [|h l1] using rev_ind; [|clear IHl1].
    + apply lseg_cons in Hc as [-> _]. rewrite Hp.
      destruct (wf_pop s p l2 Hwf) as [Hwf' He]. eexists _, l2. split_and!; [done|done|done| |done|].
      * by rewrite numEntry_release.
      * intros i Hi. rewrite pnode_release by done. by destruct (Z.eqb_spec p i) as [->|].
    + assert (0 <= h < numEntry s) as Hh by (apply (pw_range _ _ Hwf); set_solver).
      destruct (l1 ++ [h]) as [|y k] eqn:EL; [by destruct l1|].
      apply lseg_cons in Hc as [-> Hc]. inversion_clear Hl1 as [|?? Hy Hk]. rewrite Hy.
      rewrite (find_node_found _ _ _ (peer_is s mac) (Some y) _ k p l2);
        [|done|cbn in Hlen |- *; lia|done|done|done].
      assert (last_or (Some y) k = Some h) as ->
        by (rewrite <- (last_or_cons None y k), <- EL; unfold last_or; by rewrite last_snoc).
      rewrite <- EL in Hwf, Hin |- *. destruct (wf_unlink s l1 h p l2 Hwf) as [Hwf' He].
      eexists _, ((l1 ++ [h]) ++ l2). split_and!; [done|done|done| |done|].
      * by rewrite numEntry_release, numEntry_set.
      * intros i Hi. rewrite pnode_release by (rewrite ?numEntry_set; done). rewrite !pnode_set by (done || lia).
        destruct (Z.eqb_spec p i), (Z.eqb_spec h i), (Z.eqb_spec h p); subst; done || congruence.
Qed.

(** ** Deletion of the whole list *)

Lemma delete_list_loop_spec fuel s p ids :
  (length ids <= fuel)%nat → pre_wf (s <| pLimPreAuthList := p |>) ids →
  ∃ s', delete_list_loop fuel s p = Some s' ∧ pre_wf s' [] ∧ numEntry s' = numEntry s.
Proof.
  revert fuel s p. induction ids as [|i ids IH]; intros fuel s p Hf Hwf.
  - pose proof (pw_chain _ _ Hwf) as Hc. unfold chain, lseg in Hc. cbn in Hc. subst p.
    exists (s <| pLimPreAuthList := None |>). split_and!; [by destruct fuel|done|done].
  - destruct fuel; cbn in Hf; [lia|]. pose proof (pw_chain _ _ Hwf) as Hc.
    apply lseg_cons in Hc as [Hp _]. cbn in Hp. subst p. cbn [delete_list_loop].
    destruct (wf_pop _ _ _ Hwf) as [Hwf' _].
    destruct (IH fuel (lim_release_pre_auth_node s i) (next (pnode s i))) as (s' & He & Hw & Hn); [lia|exact Hwf'|].
    exists s'. by rewrite He, Hn, numEntry_release.
Qed.

Lemma wf_delete_list s ids :
  pre_wf s ids → ∃ s', lim_delete_pre_auth_list s = Some s' ∧ pre_wf s' [] ∧ numEntry s' = numEntry s.
Proof.
  intros Hwf. apply delete_list_loop_spec with ids; [by apply wf_bound|]. by destruct s.
Qed.

(** ** Deletion of the expired open-system contexts *)

Fixpoint a_expire (ticks : nat → Z) (k : nat) (l : list tLimPreAuthNode) :
    list tLimPreAuthNode * nat * bool :=
  match l with
  | [] => ([], k, false)
  | e :: l =>
      let '(x, k) := open_auth_expired ticks k e in
      let '(l', k, f) := a_expire ticks k l in
      (if x then l' else e :: l', k, x || f)
  end.

Lemma a_expire_length ticks k l :
  let '(l', _, f) := a_expire ticks k l in
  (length l' <= length l)%nat ∧ (f = true → (length l' < length l)%nat) ∧ (f = false → l' = l).
Proof.
  revert k. induction l as [|e l IH]; intros k; cbn; [done|].
  destruct (open_auth_expired ticks k e) as [x k1]. specialize (IH k1).
  destruct (a_expire ticks k1 l) as [[l' k2] f]. destruct IH as (H1 & H2 & H3).
  destruct x, f; cbn; repeat split; intros; try done; try lia; try (specialize (H2 eq_refl); lia).
  by rewrite H3.
Qed.

Lemma entries_app s l1 l2 : entries s (l1 ++ l2) = entries s l1 ++ entries s l2.
Proof. apply fmap_app. Qed.

Lemma head_of_chain nx p (ids : list Z) : chain nx p ids → p = head ids.
Proof. destruct ids; intros Hc; [exact Hc|]. by apply lseg_cons in Hc as [? _]. Qed.

Lemma delete_open_loop_spec fuel ticks k s prev freed kept rest :
  pre_wf s (kept ++ rest) → (kept ≠ [] → prev = last kept) → (length rest <= fuel)%nat →
  let '(l', k', f) := a_expire ticks k (entries s rest) in
  ∃ s' ids', delete_open_loop fuel ticks k s prev (head rest) freed = Some (s', k', freed || f) ∧
    pre_wf s' (kept ++ ids') ∧ entries s' (kept ++ ids') = entries s kept ++ l' ∧
    numEntry s' = numEntry s ∧
    (∀ i, 0 <= i → challengeText (pnode s' i) = challengeText (pnode s i)).
Proof.
  revert fuel k s prev freed kept. induction rest as [|i rest IH]; intros fuel k s prev freed kept Hwf Hprev Hf.
  - cbn. exists s, []. rewrite orb_false_r. split_and!; try done; [by destruct fuel|].
    by rewrite entries_app.
  - destruct fuel as [|fuel]; cbn in Hf; [lia|].
    change (entries s (i :: rest)) with (body (pnode s i) :: entries s rest).
    cbn [a_expire delete_open_loop head].
    change (open_auth_expired ticks k (body (pnode s i))) with (open_auth_expired ticks k (pnode s i)).
    destruct (open_auth_expired ticks k (pnode s i)) as [x k1].
    assert (next (pnode s i) = head rest) as Hnx.
    { pose proof (pw_chain _ _ Hwf) as Hc. apply lseg_lookup_next in Hc. by apply head_of_chain in Hc. }
    assert (0 <= i < numEntry s) as Hi by (apply (pw_range _ _ Hwf); set_solver).
    pose proof (chain_NoDup _ _ _ (pw_chain _ _ Hwf)) as Hnd.
    pose proof (head_of_chain _ _ _ (pw_chain _ _ Hwf)) as Hhd.
    destruct x.
    + destruct kept as [|q kept] using rev_ind; [|clear IHkept].
      * rewrite Hhd, bool_decide_eq_true_2 by done. rewrite Hnx. cbn in Hwf.
        destruct (wf_pop _ _ _ Hwf) as [Hwf' He]. rewrite Hnx in Hwf', He.
        specialize (IH fuel k1 _ (head rest) true [] Hwf' ltac:(done) ltac:(lia)). rewrite He in IH.
        destruct (a_expire ticks k1 (entries s rest)) as [[l' k2] f].
        destruct IH as (s' & ids' & IH1 & IH2 & IH3 & IH4 & IH5). exists s', ids'.
        cbn. rewrite orb_true_r. split_and!; [exact IH1|done|done|by rewrite IH4, numEntry_release|].
        intros j Hj. rewrite IH5, pnode_release by done. by destruct (Z.eqb_spec i j) as [->|].
      * rewrite (Hprev ltac:(by destruct kept)), last_snoc. rewrite bool_decide_eq_false_2.
        2:{ rewrite Hhd. intros Eh. apply NoDup_app in Hnd as (_ & Hd & _).
            destruct kept as [|y kept]; cbn in Eh; injection Eh as ->; apply (Hd i); set_solver. }
        destruct (wf_unlink _ _ _ _ _ Hwf) as [Hwf' He]. rewrite Hnx in Hwf', He |- *.
        assert (0 <= q < numEntry s) as Hq by (apply (pw_range _ _ Hwf); set_solver).
        specialize (IH fuel k1 _ (last (kept ++ [q])) true (kept ++ [q]) Hwf' ltac:(done) ltac:(lia)).
        rewrite last_snoc in IH.
        rewrite !(entries_app _ (kept ++ [q]) rest) in He.
        apply app_inj_1 in He as [He1 He2]; [|by unfold entries; rewrite !length_fmap].
        rewrite He2 in IH.
        destruct (a_expire ticks k1 (entries s rest)) as [[l' k2] f].
        destruct IH as (s' & ids' & IH1 & IH2 & IH3 & IH4 & IH5). exists s', ids'.
        rewrite orb_true_r. split_and!; [exact IH1|done| |by rewrite IH4, numEntry_release, numEntry_set|].
        -- rewrite IH3. f_equal. exact He1.
        -- intros j Hj. rewrite IH5, pnode_release by (rewrite ?numEntry_set; done).
           rewrite !pnode_set by (done || lia).
           destruct (Z.eqb_spec i j), (Z.eqb_spec q j), (Z.eqb_spec q i); subst; done || congruence.
    + specialize (IH fuel k1 s (Some i) freed (kept ++ [i])). rewrite <- app_assoc in IH. cbn in IH.
      specialize (IH Hwf). rewrite last_snoc in IH. specialize (IH ltac:(done) ltac:(lia)). rewrite Hnx.
      destruct (a_expire ticks k1 (entries s rest)) as [[l' k2] f].
      destruct IH as (s' & ids' & IH1 & IH2 & IH3 & IH4 & IH5). exists s', (i :: ids').
      rewrite <- app_assoc in IH2, IH3. split_and!; [exact IH1|done| |done|done].
      rewrite (entries_app s kept [i]), <- app_assoc in IH3. exact IH3.
Qed.

Lemma wf_delete_open ticks k s ids :
  pre_wf s ids →
  let '(l', k', f) := a_expire ticks k (entries s ids) in
  ∃ s' ids', lim_delete_open_auth_pre_auth_node ticks k s = Some (s', k', f) ∧
    pre_wf s' ids' ∧ entries s' ids' = l' ∧ numEntry s' = numEntry s ∧
    (∀ i, 0 <= i → challengeText (pnode s' i) = challengeText (pnode s i)).
Proof.
  intros Hwf. pose proof (delete_open_loop_spec (length (pTable s)) ticks k s (pLimPreAuthList s) false [] ids
    Hwf ltac:(done) (wf_bound _ _ Hwf)) as H.
  unfold lim_delete_open_auth_pre_auth_node.
  rewrite <- (head_of_chain _ _ _ (pw_chain _ _ Hwf)) in H. exact H.
Qed.

(** ** Acquiring and adding *)

Lemma wf_not_full s ids i :
  pre_wf s ids → 0 <= i < numEntry s → i ∉ ids → Z.of_nat (length ids) < numEntry s.
Proof.
  intros Hwf Hi Hni. pose proof (chain_NoDup _ _ _ (pw_chain _ _ Hwf)) as Hnd.
  assert (i :: ids ⊆+ seqZ 0 (numEntry s)) as Hsub.
  { apply NoDup_submseteq; [by constructor|]. intros j Hj. apply elem_of_seqZ.
    apply elem_of_cons in Hj as [->|Hj]; [lia|]. apply (pw_range _ _ Hwf) in Hj. lia. }
  apply submseteq_length in Hsub. rewrite length_seqZ in Hsub. cbn in Hsub. lia.
Qed.

Lemma wf_acquire_none s ids :
  pre_wf s ids → (lim_acquire_free_pre_auth_node s).2 = None ↔ Z.of_nat (length ids) = numEntry s.
Proof.
  intros Hwf. unfold lim_acquire_free_pre_auth_node.
  pose proof (chain_NoDup _ _ _ (pw_chain _ _ Hwf)) as Hnd.
  destruct (find_split (λ i, fFree (pnode s i) =? 1) (seqZ 0 (numEntry s)))
    as [[-> Hn]|(l1 & i & l2 & E & _ & Hi & ->)]; cbn.
  - split; [intros _|done]. pose proof (wf_bound _ _ Hwf).
    assert (seqZ 0 (numEntry s) ⊆+ ids) as Hsub.
    { apply NoDup_submseteq; [apply NoDup_seqZ|]. intros i Hi. rewrite Forall_forall in Hn.
      pose proof (Hn i Hi) as Hf. apply elem_of_seqZ in Hi. rewrite (pw_free _ _ Hwf) in Hf by lia.
      by destruct (decide (i ∈ ids)). }
    apply submseteq_length in Hsub. rewrite length_seqZ in Hsub. unfold numEntry in *. lia.
  - split; [done|]. intros Hl. exfalso.
    assert (i ∈ seqZ 0 (numEntry s)) as Hin by (rewrite E; set_solver). apply elem_of_seqZ in Hin.
    rewrite (pw_free _ _ Hwf) in Hi by lia. destruct (decide (i ∈ ids)) as [|Hni]; [done|].
    pose proof (wf_not_full s ids i Hwf ltac:(lia) Hni). lia.
Qed.

Lemma wf_acquire_add s ids fill s1 i :
  pre_wf s ids → (∀ n, fFree (fill n) = fFree n) → lim_acquire_free_pre_auth_node s = (s1, Some i) →
  let s' := lim_add_pre_auth_node (set_pnode s1 i (fill (pnode s1 i))) i in
  0 <= i < numEntry s ∧ i ∉ ids ∧ pre_wf s' (i :: ids) ∧
  pnode s1 i = pnode s i <| fFree := 0 |> ∧
  pnode s' i = fill (pnode s1 i) <| next := pLimPreAuthList s |> ∧
  entries s' (i :: ids) = body (fill (pnode s1 i)) :: entries s ids ∧ numEntry s' = numEntry s ∧
  (∀ j, 0 <= j → i ≠ j → pnode s' j = pnode s j).
Proof.
  intros Hwf Hfill. unfold lim_acquire_free_pre_auth_node.
  destruct (find_split (λ i, fFree (pnode s i) =? 1) (seqZ 0 (numEntry s)))
    as [[-> _]|(l1 & j & l2 & E & _ & Hj & ->)]; [done|]. intros [= <- <-].
  assert (j ∈ seqZ 0 (numEntry s)) as Hin by (rewrite E; set_solver). apply elem_of_seqZ in Hin.
  assert (0 <= j < numEntry s) as Hjr by lia.
  rewrite (pw_free _ _ Hwf) in Hj by lia. destruct (decide (j ∈ ids)) as [|Hni]; [done|].
  set (s1 := set_pnode s j (pnode s j <| fFree := 0 |>)).
  assert (pnode s1 j = pnode s j <| fFree := 0 |>) as Hp1
    by (unfold s1; by rewrite pnode_set, Z.eqb_refl by lia).
  set (F := fill (pnode s1 j)).
  set (s' := lim_add_pre_auth_node _ _).
  assert (∀ i, 0 <= i → pnode s' i = if j =? i then F <| next := pLimPreAuthList s |> else pnode s i) as Hnode.
  { intros i Hi. unfold s', lim_add_pre_auth_node.
    set (s2 := set_pnode s1 j F <| gLimNumPreAuthContexts ::= _ |>).
    change (pnode (set_pnode s2 j (pnode s2 j <| next := pLimPreAuthList s |>)) i =
            if j =? i then F <| next := pLimPreAuthList s |> else pnode s i).
    assert (numEntry s2 = numEntry s) as Hn2 by (unfold s2, s1; exact (eq_trans (numEntry_set _ _ _) (numEntry_set _ _ _))).
    rewrite pnode_set by (rewrite ?Hn2; lia).
    change (pnode s2) with (pnode (set_pnode s1 j F)). unfold s1.
    rewrite !pnode_set by (rewrite ?numEntry_set; lia). rewrite Z.eqb_refl. by destruct (j =? i). }
  assert (numEntry s' = numEntry s) as Hn'.
  { unfold s', lim_add_pre_auth_node, numEntry, s1. cbn. by rewrite !length_zset. }
  assert (∀ i, i ∈ ids → j ≠ i ∧ 0 <= i) as Hold.
  { intros i Hi. split; [by intros ->|]. apply (pw_range _ _ Hwf) in Hi. lia. }
  pose proof (Hnode j ltac:(lia)) as Hnj. rewrite Z.eqb_refl in Hnj.
  split_and!; [lia|lia|done| |done|done| |done|].
  - split.
    + change (pLimPreAuthList s') with (Some j). apply chain_cons. unfold pnode_next at 2. rewrite Hnj. cbn [next set_field].
      eapply chain_frame; [|apply Hwf]. intros i Hi. apply Hold in Hi as [? ?]. unfold pnode_next.
      rewrite Hnode by done. by destruct (Z.eqb_spec j i).
    + intros i [->|Hi]%elem_of_cons; [lia|]. rewrite Hn'. by apply Hwf.
    + intros i Hi. rewrite Hn' in Hi. rewrite Hnode by lia. destruct (Z.eqb_spec j i) as [->|Hne].
      * rewrite decide_True by set_solver. cbn. unfold F. by rewrite Hfill, Hp1.
      * rewrite (pw_free _ _ Hwf) by done. apply decide_ext. set_solver.
    + change (u32 (gLimNumPreAuthContexts s + 1) = Z.of_nat (length (j :: ids))).
      rewrite (pw_count _ _ Hwf), length_cons. pose proof (wf_bound _ _ Hwf).
      pose proof (pw_small _ _ Hwf). unfold numEntry in *.
      pose proof (wf_not_full s ids j Hwf Hjr Hni) as Hlt. unfold numEntry in Hlt.
      rewrite u32_small by (red; lia). lia.
    + rewrite Hn'. apply Hwf.
  - unfold entries. cbn [fmap list_fmap]. rewrite Hnj. f_equal.
    apply list_fmap_ext. intros ? i Hi%list_elem_of_lookup_2. apply Hold in Hi as [??].
    rewrite Hnode by done. by destruct (Z.eqb_spec j i).
  - intros i Hi Hne. rewrite Hnode by done. by destruct (Z.eqb_spec j i).
Qed.

(** ** Initialisation *)

Lemma init_table_loop_spec n create s i :
  0 <= i → i + Z.of_nat n <= numEntry s → (∀ j, i <= j < i + Z.of_nat n → create j = true) →
  let s' := init_table_loop n create s i in
  numEntry s' = numEntry s ∧ pLimPreAuthList s' = pLimPreAuthList s ∧
  gLimNumPreAuthContexts s' = gLimNumPreAuthContexts s ∧
  ∀ j, 0 <= j → fFree (pnode s' j) = if decide (i <= j < i + Z.of_nat n) then 1 else fFree (pnode s j).
Proof.
  revert s i. induction n as [|n IH]; intros s i Hi Hn Hc.
  - cbn. split_and!; try done. intros j Hj. rewrite decide_False by lia. done.
  - cbn [init_table_loop]. rewrite Hc by lia. cbn [negb].
    set (s1 := set_pnode s i _).
    assert (numEntry s1 = numEntry s) as Hn1 by apply numEntry_set.
    destruct (IH s1 (i + 1)) as (H1 & H2 & H3 & H4); [lia|lia|intros; apply Hc; lia|].
    split_and!; [lia|done|done|]. intros j Hj. rewrite H4 by done. unfold s1.
    rewrite pnode_set by lia. repeat case_decide; try lia; destruct (Z.eqb_spec i j); subst; try lia; done.
Qed.

Lemma init_preauth_wf n create :
  Z.of_nat n < 4294967296 → (∀ j, 0 <= j < Z.of_nat n → create j = true) →
  pre_wf (lim_init_pre_auth_timer_table true create (preauth_alloc n)) [].
Proof.
  intros Hn Hc. unfold lim_init_pre_auth_timer_table.
  assert (numEntry (preauth_alloc n) = Z.of_nat n) as Hne by (unfold numEntry; cbn; by rewrite length_replicate).
  rewrite Hne, Nat2Z.id.
  destruct (init_table_loop_spec n create (preauth_alloc n) 0) as (H1 & H2 & H3 & H4); [lia|lia|intros; apply Hc; lia|].
  split.
  - by rewrite H2.
  - intros i Hi. by apply elem_of_nil in Hi.
  - intros i Hi. rewrite H1, Hne in Hi. rewrite H4, decide_True by lia.
    rewrite decide_False; [done|apply not_elem_of_nil].
  - by rewrite H3.
  - by rewrite H1, Hne.
Qed.

(** ** The contexts as an abstract list *)

(** C27: the pre-authentication contexts behave as a list of contexts, newest
    first, over a pool of nodes: after initialisation the list is empty;
    searching finds the first context of an address; deleting an address removes
    its first context and nothing else; the clean-ups remove all contexts and the
    expired open-system ones; acquiring fails only when all nodes of the pool are
    listed, and otherwise the new context comes first.  Every operation
    terminates, and frees or uses exactly the nodes concerned: none is lost. *)
Theorem preauth_refines_list s l mac ticks k (fill : tLimPreAuthNode → tLimPreAuthNode) :
  pre_rep s l → (∀ n, fFree (fill n) = fFree n) →
  (∃ r, lim_search_pre_auth_list s mac = Some r ∧
        (λ i, body (pnode s i)) <$> r = List.find (λ e, bool_decide (mac = peerMacAddr e)) l) ∧
  (∃ s', lim_delete_pre_auth_node s mac = Some s' ∧ pre_rep s' (a_delete mac l) ∧ numEntry s' = numEntry s) ∧
  (∃ s', lim_delete_pre_auth_list s = Some s' ∧ pre_rep s' [] ∧ numEntry s' = numEntry s) ∧
  (∃ s', lim_delete_open_auth_pre_auth_node ticks k s =
           Some (s', (a_expire ticks k l).1.2, (a_expire ticks k l).2) ∧
         pre_rep s' (a_expire ticks k l).1.1 ∧ numEntry s' = numEntry s) ∧
  match lim_acquire_free_pre_auth_node s with
  | (s', None) => s' = s ∧ Z.of_nat (length l) = numEntry s
  | (s1, Some i) =>
      Z.of_nat (length l) < numEntry s ∧
      pre_rep (lim_add_pre_auth_node (set_pnode s1 i (fill (pnode s1 i))) i) (body (fill (pnode s1 i)) :: l)
  end.
Proof.
  intros (ids & Hwf & ->) Hfill. split_and!.
  - eexists. split; [by apply wf_search|]. clear. induction ids as [|i ids IH]; cbn; [done|].
    unfold peer_is at 1. cbn. by destruct (bool_decide _).
  - destruct (wf_delete s ids mac Hwf) as (s' & ids' & H1 & H2 & H3 & H4 & _).
    exists s'. split_and!; [done|by exists ids'|done].
  - destruct (wf_delete_list s ids Hwf) as (s' & H1 & H2 & H3).
    exists s'. split_and!; [done|by exists []|done].
  - pose proof (wf_delete_open ticks k s ids Hwf) as H.
    destruct (a_expire ticks k (entries s ids)) as [[l' k'] f].
    destruct H as (s' & ids' & H1 & H2 & H3 & H4 & _). exists s'. split_and!; [done|by exists ids'|done].
  - pose proof (wf_acquire_none s ids Hwf) as Hnone. 
    assert (length (entries s ids) = length ids) as Hlen by apply length_fmap.
    destruct (lim_acquire_free_pre_auth_node s) as [s1 [i|]] eqn:E.
    + destruct (wf_acquire_add s ids fill s1 i Hwf Hfill E) as (Hi & Hni & Hw & _ & _ & He & _).
      split; [rewrite Hlen; by eapply wf_not_full|]. by exists (i :: ids).
    + split; [|rewrite Hlen; by apply Hnone]. unfold lim_acquire_free_pre_auth_node in E.
      by destruct (List.find _ _); simplify_eq.
Qed.

Definition demo_pre : preAuth := lim_init_pre_auth_timer_table true (λ _, true) (preauth_alloc 4).
Definition demo_fill (n : tLimPreAuthNode) : tLimPreAuthNode :=
  n <| peerMacAddr := [0; 17; 34; 51; 68; 85] |> <| mlmState := eLIM_MLM_AUTHENTICATED_STATE |>.

Lemma preauth_refines_list_witness :
  pre_rep demo_pre [] ∧
  match lim_acquire_free_pre_auth_node demo_pre with
  | (s', None) => s' = demo_pre ∧ Z.of_nat (length (@nil tLimPreAuthNode)) = numEntry demo_pre
  | (s1, Some i) =>
      Z.of_nat (length (@nil tLimPreAuthNode)) < numEntry demo_pre ∧
      pre_rep (lim_add_pre_auth_node (set_pnode s1 i (demo_fill (pnode s1 i))) i)
        [body (demo_fill (pnode s1 i))]
  end.
Proof.
  assert (pre_rep demo_pre []) as Hr.
  { exists []. split; [|done]. apply init_preauth_wf; [cbn; lia|done]. }
  split; [exact Hr|].
  apply (preauth_refines_list demo_pre [] zero_mac (λ _, 0) 0%nat demo_fill); [exact Hr|done].
Defined.
