(* ===== verification/AuthFrame.v ===== *)
(** Authentication of peers: core/mac/src/pe/lim/lim_process_auth_frame.c, with
    the request, timeout and transmission functions it works with
    (lim_process_mlm_req_messages.c, lim_send_management_frames.c,
    lim_security_utils.c, parser_api.c).

    One PE session is modelled.  Calls into other components are recorded as
    events; what the environment decides (clock readings, random bytes, the
    outcome of timer and packet calls, the initial content of local variables
    the code reads uninitialised) is the argument [authEnv].  [None] is a
    memory-safety violation or a loop that does not end. *)
From S2P Require Import Prelude Chains LimTypes CfgTable CfgApi DphHash WepAuth PreAuth.

(** ** Frames *)

Definition SIR_MAC_AUTH_FRAME_1 : Z := 1.
Definition SIR_MAC_AUTH_FRAME_2 : Z := 2.
Definition SIR_MAC_AUTH_FRAME_3 : Z := 3.
Definition SIR_MAC_AUTH_FRAME_4 : Z := 4.
Definition SIR_MAC_AUTH_CHALLENGE_OFFSET : Z := 6.
Definition SIR_MAC_CHALLENGE_TEXT_EID : Z := 16.
Definition SIR_MDIE_ELEMENT_ID : Z := 54.
Definition SIR_MDIE_SIZE : Z := 3.
Definition MAX_FTIE_SIZE : Z := 384.
Definition LIM_WEP_IN_FC : Z := 1.
Definition LIM_NO_WEP_IN_FC : Z := 0.
Definition eSIR_MAC_SUCCESS_STATUS : Z := 0.
Definition eSIR_MAC_UNSPEC_FAILURE_STATUS : Z := 1.
Definition eSIR_MAC_WME_INVALID_PARAMS_STATUS : Z := 1.
Definition eSIR_MAC_AUTH_ALGO_NOT_SUPPORTED_STATUS : Z := 13.
Definition eSIR_MAC_AUTH_FRAME_OUT_OF_SEQ_STATUS : Z := 14.
Definition eSIR_MAC_CHALLENGE_FAILURE_STATUS : Z := 15.
Definition eSIR_MAC_AUTH_RSP_TIMEOUT_STATUS : Z := 16.
Definition eSIR_MAC_UNSPEC_FAILURE_REASON : Z := 1.
Definition eSIR_MAC_MIC_FAILURE_REASON : Z := 14.
Definition DPH_STA_HASH_INDEX_PEER : Z := 1.

(** [tSirMacAuthFrameBody]. *)
Record tSirMacAuthFrameBody := mk_auth_body {
  authAlgoNumber : Z;
  authTransactionSeqNumber : Z;
  authStatusCode : Z;
  eid : Z;                           (* type *)
  eid_length : Z;                    (* length *)
  challenge : list Z;                (* challengeText *)
}.
#[export] Instance tSirMacAuthFrameBody_eta : Eta tSirMacAuthFrameBody := fun f =>
  mk_auth_body (authAlgoNumber f) (authTransactionSeqNumber f) (authStatusCode f) (eid f)
    (eid_length f) (challenge f).

Definition le2 (w : Z) : list Z := [u8 w; u8 (Z.shiftr w 8)].

(** The packed structure in memory (little-endian fields). *)
Definition body_bytes (f : tSirMacAuthFrameBody) : list Z :=
  le2 (authAlgoNumber f) ++ le2 (authTransactionSeqNumber f) ++ le2 (authStatusCode f) ++
  [eid f; eid_length f] ++ challenge f.

(** The part of [tSirMacMgmtHdr] that is read. *)
Record tSirMacMgmtHdr := mk_hdr {
  sa : list Z;
  retry : Z;
  wep : Z;
  seqNumHi : Z;
  seqNumLo : Z;
}.
Definition hdr_seq (h : tSirMacMgmtHdr) : Z := Z.lor (Z.shiftl (seqNumHi h) 4) (seqNumLo h).

Definition lim_is_group_addr (mac : list Z) : bool := Z.land (zget mac 0) 1 =? 1.

(** ** State *)

(** [tSirResultCodes]: the codes the modelled functions produce. *)
Inductive tSirResultCodes :=
  | eSIR_SME_SUCCESS
  | eSIR_SME_INVALID_PARAMETERS
  | eSIR_SME_AUTH_REFUSED
  | eSIR_SME_INVALID_WEP_DEFAULT_KEY
  | eSIR_SME_AUTH_TIMEOUT_RESULT_CODE
  | eSIR_SME_MAX_NUM_OF_PRE_AUTH_REACHED.

Inductive auth_tx_ack_status :=
  | LIM_AUTH_ACK_NOT_RCD
  | LIM_AUTH_ACK_RCD_SUCCESS
  | LIM_AUTH_ACK_RCD_FAILURE.

Record tLimMlmAuthReq := mk_auth_req {
  reqPeer : list Z;
  reqAuthType : Z;
  reqSessionId : Z;
}.

(** [tSirFTPreAuthReq]; the description is represented by its [mdie]. *)
Record tSirFTPreAuthReq := mk_ft_req {
  preAuthbssId : list Z;
  ft_ies_length : Z;
  ft_ies : list Z;
  pbssDescription : option (list Z);
}.

(** What the modelled functions ask of the rest of the driver. *)
Inductive auth_event :=
  | TxAuth (peer : list Z) (wep_bit : Z) (body : list Z)
  | TxDeauth (peer : list Z) (reason : Z)
  | TriggerStaDeletion (sta : Z)
  | DisassocAckTimeout
  | DeauthAckTimeout
  | StopTimers                       (* retry and failure timers changed *)
  | StartTimers (session : Z)        (* failure and retry timers activated *)
  | AuthCnf (peer : list Z) (type : Z) (result : tSirResultCodes) (status session : Z).

(** The fields of [tPESession] involved. *)
Record tPESession := mk_session {
  peSessionId : Z;
  limSystemRole : tLimSystemRole;
  bssId : list Z;
  limMlmState : tLimMlmStates;
  limPrevMlmState : tLimMlmStates;
  limSmeState : tLimSmeStates;
  limCurrentAuthType : Z;
  sessAuthType : Z;                  (* authType *)
  sessPrivacy : Z;                   (* privacy *)
  WEPKeyMaterial : list (Z * list Z);        (* keyLength and key of key[0] *)
  bTkipCntrMeasActive : bool;
  is_p2p_client : bool;              (* pePersona == QDF_P2P_CLIENT_MODE *)
  defaultAuthFailureTimeout : Z;
  dphHashTable : dphHashTableClass;
  pFTPreAuthReq : option tSirFTPreAuthReq;
  saved_auth_rsp : list Z;
  saved_auth_rsp_length : Z;
}.
#[export] Instance tPESession_eta : Eta tPESession := fun s =>
  mk_session (peSessionId s) (limSystemRole s) (bssId s) (limMlmState s) (limPrevMlmState s)
    (limSmeState s) (limCurrentAuthType s) (sessAuthType s) (sessPrivacy s) (WEPKeyMaterial s)
    (bTkipCntrMeasActive s) (is_p2p_client s) (defaultAuthFailureTimeout s) (dphHashTable s)
    (pFTPreAuthReq s) (saved_auth_rsp s) (saved_auth_rsp_length s).

(** The LIM context: configuration, pre-authentication contexts, pending
    requests, the addresses of the SME sessions, the session; [reads] counts the
    readings of the clock. *)
Record authCtx := mk_ctx {
  mac : tAniSirGlobal;
  pre : preAuth;
  gpLimMlmAuthReq : option tLimMlmAuthReq;
  pMlmDisassocReq : option (list Z);
  pMlmDeauthReq : option (list Z);
  gLimPreAuthChannelNumber : Z;
  auth_ack : auth_tx_ack_status;     (* auth_ack_status *)
  sme_sessions : list (option (list Z));
  sess : tPESession;
  reads : nat;
  events : list auth_event;
}.
#[export] Instance authCtx_eta : Eta authCtx := fun c =>
  mk_ctx (mac c) (pre c) (gpLimMlmAuthReq c) (pMlmDisassocReq c) (pMlmDeauthReq c)
    (gLimPreAuthChannelNumber c) (auth_ack c) (sme_sessions c) (sess c) (reads c) (events c).

Record authEnv := mk_env {
  ticks : nat → Z;                   (* qdf_mc_timer_get_system_ticks *)
  rand : option (list Z);            (* cds_rand_get_bytes *)
  change_context_ok : bool;          (* tx_timer_change_context *)
  activate_ok : bool;                (* tx_timer_activate of the failure timer *)
  alloc_ok : bool;                   (* cds_packet_alloc *)
  tx_ok : bool;                      (* wma_tx_frameWithTxComplete *)
  sizeof_ptr : Z;                    (* sizeof(uint8_t * ) *)
  (* uninitialised local variables *)
  val_stack : Z;
  frame_stack : tSirMacAuthFrameBody;        (* auth_frame *)
  challenge_stack : list Z;                  (* challenge_txt_arr[128] *)
  key_stack : list Z;                        (* defaultkey[13] *)
  seed_stack : list Z;                       (* seed[16] *)
  plain_stack : list Z;                      (* plainbody[256] *)
}.

Definition emit (c : authCtx) (ev : auth_event) : authCtx := c <| events ::= λ l, l ++ [ev] |>.
Definition role (c : authCtx) : tLimSystemRole := limSystemRole (sess c).
Definition upd_sess (c : authCtx) (f : tPESession → tPESession) : authCtx := c <| sess ::= f |>.
Definition upd_pnode (c : authCtx) (i : Z) (f : tLimPreAuthNode → tLimPreAuthNode) : authCtx :=
  c <| pre ::= λ s, set_pnode s i (f (pnode s i)) |>.

(** [wlan_cfg_get_int] into a variable that keeps its old value on failure. *)
Definition cfg_int_or (c : authCtx) (id : Z) (old : Z) : Z :=
  match wlan_cfg_get_int (mac c) id with Ok v => v | Err _ => old end.

Section handlers.
(** The generated parser [dot11f_unpack_authentication] (dot11f.c): algorithm,
    transaction number, status and the challenge text when present; [None] when
    the frame is rejected. *)
Context (dot11f_unpack_authentication : list Z → option (Z * Z * Z * option (list Z))).
Context (e : authEnv).
Implicit Types (c : authCtx) (h : tSirMacMgmtHdr) (rx f : tSirMacAuthFrameBody).

(** [sir_convert_auth_frame2_struct]: the challenge is copied into 128 bytes
    whatever its length ([None] when it overflows them); [Some None] is
    [eSIR_FAILURE]. *)
Definition sir_convert_auth_frame2_struct (frame : list Z) : option (option tSirMacAuthFrameBody) :=
  match dot11f_unpack_authentication frame with
  | None => Some None
  | Some (algo, no, status, text) =>
      let auth := mk_auth_body algo no status 0 0 (replicate 128 0) in
      match text with
      | None => Some (Some auth)
      | Some t =>
          let num_text := Z.of_nat (length t) in
          if SIR_MAC_AUTH_CHALLENGE_LENGTH <? num_text then None
          else Some (Some (auth <| eid := SIR_MAC_CHALLENGE_TEXT_EID |> <| eid_length := num_text |>
                                <| challenge ::= λ b, zwrite b 0 t |>))
      end
  end.

Definition is_auth_valid c f : bool :=
  let seq := authTransactionSeqNumber f in
  let odd_frame := (seq =? SIR_MAC_AUTH_FRAME_1) || (seq =? SIR_MAC_AUTH_FRAME_3) in
  let even_frame := (seq =? SIR_MAC_AUTH_FRAME_2) || (seq =? SIR_MAC_AUTH_FRAME_4) in
  let late_frame := (seq =? SIR_MAC_AUTH_FRAME_3) || (seq =? SIR_MAC_AUTH_FRAME_4) in
  negb (odd_frame && LIM_IS_STA_ROLE (role c)) &&
  negb (even_frame && LIM_IS_AP_ROLE (role c)) &&
  negb (late_frame && negb (eid f =? SIR_MAC_CHALLENGE_TEXT_EID) &&
        negb (authAlgoNumber f =? eSIR_SHARED_KEY)).

(** The body [lim_send_auth_mgmt_frame] puts on the air for an unencrypted
    frame; [None] when it sends nothing. *)
Definition auth_mgmt_body c f : option (list Z) :=
  let seq := authTransactionSeqNumber f in
  let ft := (seq =? SIR_MAC_AUTH_FRAME_1) && (authAlgoNumber f =? eSIR_FT_AUTH) in
  let body_len :=
    if (seq =? SIR_MAC_AUTH_FRAME_1) || (seq =? SIR_MAC_AUTH_FRAME_3) || (seq =? SIR_MAC_AUTH_FRAME_4)
    then Some SIR_MAC_AUTH_CHALLENGE_OFFSET
    else if seq =? SIR_MAC_AUTH_FRAME_2 then
      if (authAlgoNumber f =? eSIR_OPEN_SYSTEM) ||
         ((authAlgoNumber f =? eSIR_SHARED_KEY) && negb (authStatusCode f =? eSIR_MAC_SUCCESS_STATUS))
      then Some SIR_MAC_AUTH_CHALLENGE_OFFSET else Some sizeof_tSirMacAuthFrameBody
    else None in
  let ft_tail :=
    if ft then
      match pFTPreAuthReq (sess c) with
      | Some r =>
          if negb (ft_ies_length r =? 0) then zread (ft_ies r) 0 (ft_ies_length r)
          else match pbssDescription r with
               | Some mdie => [SIR_MDIE_ELEMENT_ID; SIR_MDIE_SIZE] ++ zread mdie 0 SIR_MDIE_SIZE
               | None => replicate 5 0
               end
      | None => replicate 5 0
      end
    else [] in
  match body_len with
  | Some n => Some (zread (body_bytes f) 0 n ++ ft_tail)
  | None => None
  end.

(** [lim_send_auth_mgmt_frame]; [encrypted] is the memory at [auth_frame] for a
    frame sent with the WEP bit. *)
Definition lim_send_auth_mgmt_frame c (frame : tSirMacAuthFrameBody + list Z) (peer : list Z) : authCtx :=
  let '(wep_bit, body) :=
    match frame with
    | inr encrypted => (LIM_WEP_IN_FC, Some (zread encrypted 0 LIM_ENCR_AUTH_BODY_LEN))
    | inl f => (LIM_NO_WEP_IN_FC, auth_mgmt_body c f)
    end in
  match body with
  | None => c
  | Some b =>
      if negb (alloc_ok e) then c
      else
        let c := c <| auth_ack := LIM_AUTH_ACK_NOT_RCD |> in
        let c := emit c (TxAuth peer wep_bit b) in
        if tx_ok e then c else c <| auth_ack := LIM_AUTH_ACK_RCD_FAILURE |>
  end.

(** The three assignments to [auth_frame] that precede a reply. *)
Definition auth_frame algo seq status : tSirMacAuthFrameBody :=
  frame_stack e <| authAlgoNumber := algo |> <| authTransactionSeqNumber := seq |>
                <| authStatusCode := status |>.
Definition reply c h algo seq status : authCtx :=
  lim_send_auth_mgmt_frame c (inl (auth_frame algo seq status)) (sa h).
(** The reply of the next frame of the received sequence. *)
Definition reply_next c h rx status : authCtx :=
  reply c h (authAlgoNumber rx) (u16 (authTransactionSeqNumber rx + 1)) status.
Definition reply_frame4 c h status : authCtx := reply c h eSIR_SHARED_KEY SIR_MAC_AUTH_FRAME_4 status.

Definition lim_is_auth_algo_supported c (authType : Z) : bool :=
  let s := sess c in
  if authType =? eSIR_OPEN_SYSTEM then
    if LIM_IS_AP_ROLE (role c) then
      (sessAuthType s =? eSIR_OPEN_SYSTEM) || (sessAuthType s =? eSIR_AUTO_SWITCH)
    else match wlan_cfg_get_int (mac c) WNI_CFG_OPEN_SYSTEM_AUTH_ENABLE with
         | Err _ => false | Ok algoEnable => 0 <? algoEnable end
  else if LIM_IS_AP_ROLE (role c) then
    ((sessAuthType s =? eSIR_SHARED_KEY) || (sessAuthType s =? eSIR_AUTO_SWITCH)) &&
    negb (sessPrivacy s =? 0)
  else match wlan_cfg_get_int (mac c) WNI_CFG_SHARED_KEY_AUTH_ENABLE with
       | Err _ => false
       | Ok algoEnable =>
           match wlan_cfg_get_int (mac c) WNI_CFG_PRIVACY_ENABLED with
           | Err _ => false
           | Ok privacyOptImp => negb (algoEnable =? 0) && negb (privacyOptImp =? 0)
           end
       end.

(** [lim_deactivate_and_change_per_sta_id_timer] for [eLIM_AUTH_RSP_TIMER]. *)
Definition deactivate_auth_rsp_timer c (staId : Z) : authCtx :=
  match lim_get_pre_auth_node_from_index (pre c) staId with
  | None => c
  | Some i => upd_pnode c i (λ n, n <| timer_active := false |>)
  end.

(** [lim_restore_from_auth_state]; a null [gpLimMlmAuthReq] is dereferenced. *)
Definition lim_restore_from_auth_state c (resultCode : tSirResultCodes) (protStatusCode : Z) : option authCtx :=
  match gpLimMlmAuthReq c with
  | None => None
  | Some req =>
      let cnf := AuthCnf (reqPeer req) (reqAuthType req) resultCode protStatusCode (peSessionId (sess c)) in
      let c := c <| gpLimMlmAuthReq := None |> in
      let c := upd_sess c (λ s, s <| limMlmState := limPrevMlmState s |>) in
      let c := c <| auth_ack := LIM_AUTH_ACK_RCD_SUCCESS |> in
      let c := emit c StopTimers in
      let c := if bool_decide (limSmeState (sess c) = eLIM_SME_WT_PRE_AUTH_STATE)
               then c <| gLimPreAuthChannelNumber := 0 |> else c in
      Some (emit c cnf)
  end.

Definition lim_get_session_by_macaddr c (self_mac : list Z) : bool :=
  existsb (λ s, bool_decide (s = Some self_mac)) (sme_sessions c).

(** The reading of the clock for a new context. *)
Definition read_clock c : Z * authCtx := (ticks e (reads c), c <| reads ::= S |>).

(** ** Frame 1 *)

Definition lim_process_auth_open_system_algo c h rx : authCtx :=
  match lim_acquire_free_pre_auth_node (pre c) with
  | (_, None) => c
  | (p, Some i) =>
      let c := c <| pre := p |> in
      let '(now, c) := read_clock c in
      let c := upd_pnode c i (λ n,
        n <| peerMacAddr := sa h |> <| mlmState := eLIM_MLM_AUTHENTICATED_STATE |>
          <| PreAuth.authType := authAlgoNumber rx |> <| fSeen := 0 |> <| fTimerStarted := 0 |>
          <| seq_num := hdr_seq h |> <| timestamp := now |>) in
      let c := c <| pre ::= λ p, lim_add_pre_auth_node p i |> in
      reply_next c h rx eSIR_MAC_SUCCESS_STATUS
  end.

(** [challenge_txt_arr] is a pointer parameter: [sizeof] of it copies only the
    size of a pointer into the challenge of the context. *)
Definition lim_process_auth_shared_system_algo c h rx : option authCtx :=
  let val := if LIM_IS_AP_ROLE (role c) then sessPrivacy (sess c)
             else cfg_int_or c WNI_CFG_PRIVACY_ENABLED (val_stack e) in
  if u8 val =? 0 then Some (reply_next c h rx eSIR_MAC_AUTH_ALGO_NOT_SUPPORTED_STATUS)
  else
    match lim_acquire_free_pre_auth_node (pre c) with
    | (_, None) => Some c
    | (p, Some i) =>
        let c := c <| pre := p |> in
        let '(now, c) := read_clock c in
        let c := upd_pnode c i (λ n,
          n <| peerMacAddr := sa h |> <| mlmState := eLIM_MLM_WT_AUTH_FRAME3_STATE |>
            <| PreAuth.authType := authAlgoNumber rx |> <| fSeen := 0 |> <| fTimerStarted := 0 |>
            <| seq_num := hdr_seq h |> <| timestamp := now |>) in
        let c := c <| pre ::= λ p, lim_add_pre_auth_node p i |> in
        if negb (change_context_ok e) then
          let c := reply_next c h rx eSIR_MAC_UNSPEC_FAILURE_STATUS in
          p ← lim_delete_pre_auth_node (pre c) (sa h); Some (c <| pre := p |>)
        else
          let challenge_txt_arr := match rand e with Some r => r | None => challenge_stack e end in
          let c := upd_pnode c i (λ n,
            n <| timer_active := true |> <| fTimerStarted := 1 |>
              <| challengeText ::= λ b, zwrite b 0 (zread challenge_txt_arr 0 (sizeof_ptr e)) |>) in
          let f := auth_frame (authAlgoNumber rx) (u16 (authTransactionSeqNumber rx + 1))
                     eSIR_MAC_SUCCESS_STATUS
                     <| eid := SIR_MAC_CHALLENGE_TEXT_EID |>
                     <| eid_length := SIR_MAC_AUTH_CHALLENGE_LENGTH |>
                     <| challenge := zread (challengeText (pnode (pre c) i)) 0 SIR_MAC_AUTH_CHALLENGE_LENGTH |> in
          Some (lim_send_auth_mgmt_frame c (inl f) (sa h))
    end.

(** The station the table holds for an address, found by association id. *)
Definition station_by_aid (t : dphHashTableClass) (a : list Z) : option Z :=
  List.find (λ i, bool_decide (dph_get_hash_entry t i = Some i) && negb (valid (node t i) =? 0) &&
                  bool_decide (staAddr (node t i) = a)) (seqZ 0 (size t)).

Definition deauth_and_delete c (peer : list Z) (sta : Z) : authCtx :=
  emit (emit c (TxDeauth peer eSIR_MAC_UNSPEC_FAILURE_REASON)) (TriggerStaDeletion sta).

(** The first part of [lim_process_auth_frame_type1]: a station already in the
    table.  The flag tells that the frame has been dealt with. *)
Definition type1_known_station c h : option (authCtx * bool) :=
  let t := dphHashTable (sess c) in
  found ← dph_lookup_hash_entry t (sa h);
  match found with
  | None => Some (c, false)
  | Some (sta, associd) =>
      let disassoc := bool_decide (pMlmDisassocReq c = Some (sa h)) in
      let c := if disassoc then emit c DisassocAckTimeout else c in
      let deauth := bool_decide (pMlmDeauthReq c = Some (sa h)) in
      let c := if deauth then emit c DeauthAckTimeout else c in
      if negb (disassoc || deauth) && (rmfEnabled (node t sta) =? 0)
      then Some (deauth_and_delete c (sa h) sta, true) else Some (c, false)
  end.

(** The second part: a context that exists for the peer. *)
Definition type1_known_context c h (curr_seq_num : Z) : option (authCtx * bool) :=
  found ← lim_search_pre_auth_list (pre c) (sa h);
  match found with
  | None => Some (c, false)
  | Some i =>
      if negb ((retry h =? 0) || negb (seq_num (pnode (pre c) i) =? curr_seq_num)) then Some (c, true)
      else
        let c := if negb (fTimerStarted (pnode (pre c) i) =? 0)
                 then deactivate_auth_rsp_timer c (authNodeIdx (pnode (pre c) i)) else c in
        p ← lim_delete_pre_auth_node (pre c) (sa h);
        let c := c <| pre := p |> in
        match station_by_aid (dphHashTable (sess c)) (sa h) with
        | Some sta =>
            if rmfEnabled (node (dphHashTable (sess c)) sta) =? 0
            then Some (deauth_and_delete c (peerMacAddr (pnode (pre c) i)) sta, true)
            else Some (c, false)
        | None => Some (c, false)
        end
  end.

(** The third part: room for a new context, and the algorithm. *)
Definition type1_new_context c h rx : option authCtx :=
  let maxnum_preauth := cfg_int_or c WNI_CFG_MAX_NUM_PRE_AUTH (val_stack e) in
  '(c, full) ←
    (if gLimNumPreAuthContexts (pre c) =? maxnum_preauth then
       match lim_delete_open_auth_pre_auth_node (ticks e) (reads c) (pre c) with
       | Some (p, k, freed) => Some (c <| pre := p |> <| reads := k |>, negb freed)
       | None => None
       end
     else Some (c, false));
  if full : bool then Some (reply_next c h rx eSIR_MAC_UNSPEC_FAILURE_STATUS)
  else if lim_is_auth_algo_supported c (authAlgoNumber rx) then
    if lim_get_session_by_macaddr c (sa h)
    then Some (reply_next c h rx eSIR_MAC_WME_INVALID_PARAMS_STATUS)
    else if authAlgoNumber rx =? eSIR_OPEN_SYSTEM then Some (lim_process_auth_open_system_algo c h rx)
    else if authAlgoNumber rx =? eSIR_SHARED_KEY then lim_process_auth_shared_system_algo c h rx
    else Some (reply_next c h rx eSIR_MAC_AUTH_ALGO_NOT_SUPPORTED_STATUS)
  else Some (reply_next c h rx eSIR_MAC_AUTH_ALGO_NOT_SUPPORTED_STATUS).

Definition lim_process_auth_frame_type1 c h rx (curr_seq_num : Z) : option authCtx :=
  '(c, over) ← type1_known_station c h;
  if over : bool then Some c else
  '(c, over) ← type1_known_context c h curr_seq_num;
  if over : bool then Some c else type1_new_context c h rx.

(** ** Frame 2 *)

(** A context of the station side: acquired for the requested peer. *)
Definition add_requested_context c h (req : tLimMlmAuthReq) : authCtx * bool :=
  match lim_acquire_free_pre_auth_node (pre c) with
  | (_, None) => (c, false)
  | (p, Some i) =>
      let c := c <| pre := p |> in
      let '(now, c) := read_clock c in
      let c := upd_pnode c i (λ n,
        n <| peerMacAddr := reqPeer req |> <| fTimerStarted := 0 |>
          <| PreAuth.authType := reqAuthType req |> <| seq_num := hdr_seq h |> <| timestamp := now |>) in
      (c <| pre ::= λ p, lim_add_pre_auth_node p i |>, true)
  end.

(** The default key of an id: the session's on an access point (copied into 13
    bytes), the configuration's otherwise.  The status, the key buffer and its
    length. *)
Definition default_key c (key_id : Z) : option (res unit (list Z * Z)) :=
  if LIM_IS_AP_ROLE (role c) then
    let '(keyLength, key) := zget (WEPKeyMaterial (sess c)) key_id in
    if SIR_MAC_KEY_LENGTH <? keyLength then None
    else Some (Ok (zwrite (key_stack e) 0 (zread key 0 keyLength), keyLength))
  else
    match wlan_cfg_get_str (mac c) (WNI_CFG_WEP_DEFAULT_KEY_1 + key_id) SIR_MAC_KEY_LENGTH with
    | Err _ => Some (Err tt)
    | Ok key => Some (Ok (zwrite (key_stack e) 0 key, Z.of_nat (length key)))
    end.

(** The body encrypted for frame 3. *)
Definition frame3_body rx : tSirMacAuthFrameBody :=
  mk_auth_body (authAlgoNumber rx) (u16 (authTransactionSeqNumber rx + 1)) eSIR_MAC_SUCCESS_STATUS
    SIR_MAC_CHALLENGE_TEXT_EID SIR_MAC_AUTH_CHALLENGE_LENGTH
    (zread (challenge rx) 0 SIR_MAC_AUTH_CHALLENGE_LENGTH).

(** The answer to a challenge. *)
Definition type2_shared_key c h rx : option authCtx :=
  let val := if LIM_IS_AP_ROLE (role c) then sessPrivacy (sess c)
             else cfg_int_or c WNI_CFG_PRIVACY_ENABLED (val_stack e) in
  if u8 val =? 0 then Some (reply_next c h rx eSIR_MAC_AUTH_ALGO_NOT_SUPPORTED_STATUS)
  else if negb (eid rx =? SIR_MAC_CHALLENGE_TEXT_EID) then Some c
  else
    let key_id := u8 (cfg_int_or c WNI_CFG_WEP_DEFAULT_KEYID val) in
    key ← default_key c key_id;
    match key with
    | Err _ =>
        lim_restore_from_auth_state (reply_next c h rx eSIR_MAC_CHALLENGE_FAILURE_STATUS)
          eSIR_SME_INVALID_WEP_DEFAULT_KEY eSIR_MAC_UNSPEC_FAILURE_REASON
    | Ok (defaultkey, len) =>
        let key_length := if LIM_IS_AP_ROLE (role c) then SIR_MAC_KEY_LENGTH else len in
        let plainbody := zwrite (plain_stack e) 0 (body_bytes (frame3_body rx)) in
        '(_, encr_auth_frame) ← lim_encrypt_auth_frame (seed_stack e) key_id defaultkey plainbody key_length;
        let c := upd_sess c (λ s, s <| limMlmState := eLIM_MLM_WT_AUTH_FRAME4_STATE |>) in
        Some (lim_send_auth_mgmt_frame c (inr encr_auth_frame) (sa h))
    end.

Definition lim_process_auth_frame_type2 c h rx (body_ptr : list Z) (frame_len : Z) : option authCtx :=
  let s := sess c in
  if negb (bool_decide (limMlmState s = eLIM_MLM_WT_AUTH_FRAME2_STATE)) then
    let reassoc :=
      LIM_IS_STA_ROLE (role c) && bool_decide (limSmeState s = eLIM_SME_WT_REASSOC_STATE) &&
      (authStatusCode rx =? eSIR_MAC_SUCCESS_STATUS) &&
      match pFTPreAuthReq s with Some r => bool_decide (preAuthbssId r = sa h) | None => false end in
    if reassoc then
      if frame_len <? MAX_FTIE_SIZE then
        Some (upd_sess c (λ s, s <| saved_auth_rsp ::= λ b, zwrite b 0 (zread body_ptr 0 frame_len) |>
                                 <| saved_auth_rsp_length := frame_len |>))
      else Some (upd_sess c (λ s, s <| saved_auth_rsp_length := 0 |>))
    else Some c
  else
    match gpLimMlmAuthReq c with
    | None => None
    | Some req =>
        if negb (bool_decide (sa h = reqPeer req)) then Some c
        else
          let rx := if (authStatusCode rx =? eSIR_MAC_AUTH_ALGO_NOT_SUPPORTED_STATUS) &&
                       negb (authAlgoNumber rx =? reqAuthType req)
                    then rx <| authAlgoNumber := u16 (reqAuthType req) |> else rx in
          if negb (authAlgoNumber rx =? reqAuthType req) then Some c
          else if negb (authStatusCode rx =? eSIR_MAC_SUCCESS_STATUS) then
            lim_restore_from_auth_state c eSIR_SME_AUTH_REFUSED (authStatusCode rx)
          else if authAlgoNumber rx =? eSIR_OPEN_SYSTEM then
            let c := upd_sess c (λ s, s <| limCurrentAuthType := eSIR_OPEN_SYSTEM |>) in
            match add_requested_context c h req with
            | (c, false) => Some c
            | (c, true) => lim_restore_from_auth_state c eSIR_SME_SUCCESS (authStatusCode rx)
            end
          else type2_shared_key c h rx
    end.

(** ** Frame 3 *)

Definition lim_process_auth_frame_type3 c h rx : option authCtx :=
  if negb (authAlgoNumber rx =? eSIR_SHARED_KEY) then
    Some (reply_frame4 c h eSIR_MAC_AUTH_FRAME_OUT_OF_SEQ_STATUS)
  else if LIM_IS_AP_ROLE (role c) || LIM_IS_IBSS_ROLE (role c) then
    if wep h =? 0 then Some (reply_frame4 c h eSIR_MAC_CHALLENGE_FAILURE_STATUS)
    else
      found ← lim_search_pre_auth_list (pre c) (sa h);
      match found with
      | None => Some (reply_frame4 c h eSIR_MAC_AUTH_FRAME_OUT_OF_SEQ_STATUS)
      | Some i =>
          let n := pnode (pre c) i in
          if bool_decide (PreAuth.mlmState n = eLIM_MLM_AUTH_RSP_TIMEOUT_STATE) then
            let c := reply_frame4 c h eSIR_MAC_AUTH_RSP_TIMEOUT_STATUS in
            p ← lim_delete_pre_auth_node (pre c) (sa h); Some (c <| pre := p |>)
          else if negb (authStatusCode rx =? eSIR_MAC_SUCCESS_STATUS) then Some c
          else if bool_decide (zread (challenge rx) 0 SIR_MAC_AUTH_CHALLENGE_LENGTH =
                               zread (challengeText n) 0 SIR_MAC_AUTH_CHALLENGE_LENGTH) then
            let c := deactivate_auth_rsp_timer c (authNodeIdx n) in
            let c := upd_pnode c i (λ n,
              n <| fTimerStarted := 0 |> <| mlmState := eLIM_MLM_AUTHENTICATED_STATE |>) in
            Some (reply_frame4 c h eSIR_MAC_SUCCESS_STATUS)
          else Some (reply c h (authAlgoNumber rx) SIR_MAC_AUTH_FRAME_4 eSIR_MAC_CHALLENGE_FAILURE_STATUS)
      end
  else Some c.

(** ** Frame 4 *)

Definition lim_process_auth_frame_type4 c h rx : option authCtx :=
  if negb (bool_decide (limMlmState (sess c) = eLIM_MLM_WT_AUTH_FRAME4_STATE)) then Some c
  else if negb (authAlgoNumber rx =? eSIR_SHARED_KEY) then Some c
  else
    match gpLimMlmAuthReq c with
    | None => None
    | Some req =>
        if negb (bool_decide (sa h = reqPeer req)) then Some c
        else if negb (authAlgoNumber rx =? reqAuthType req) then Some c
        else if authStatusCode rx =? eSIR_MAC_SUCCESS_STATUS then
          let c := upd_sess c (λ s, s <| limCurrentAuthType := eSIR_SHARED_KEY |>) in
          match add_requested_context c h req with
          | (c, false) => Some c
          | (c, true) => lim_restore_from_auth_state c eSIR_SME_SUCCESS (authStatusCode rx)
          end
        else lim_restore_from_auth_state c eSIR_SME_AUTH_REFUSED (authStatusCode rx)
    end.

(** ** Reception *)

(** The part of [lim_process_auth_frame] for frames with the WEP bit: the plain
    body to parse, or [None] when the frame has been dealt with. *)
Definition wep_body c h (body_ptr : list Z) (frame_len : Z) : option (authCtx * option (list Z)) :=
  if bTkipCntrMeasActive (sess c) && LIM_IS_AP_ROLE (role c) then
    Some (emit c (TxDeauth (sa h) eSIR_MAC_MIC_FAILURE_REASON), None)
  else
    let key_id := Z.shiftr (zget body_ptr 3) 6 in
    if LIM_IS_STA_ROLE (role c) then
      Some (reply_frame4 c h eSIR_MAC_CHALLENGE_FAILURE_STATUS, None)
    else if frame_len <? LIM_ENCR_AUTH_BODY_LEN then Some (c, None)
    else
      let val := if LIM_IS_AP_ROLE (role c) then sessPrivacy (sess c)
                 else cfg_int_or c WNI_CFG_PRIVACY_ENABLED (val_stack e) in
      if u8 val =? 0 then Some (reply_frame4 c h eSIR_MAC_CHALLENGE_FAILURE_STATUS, None)
      else
        found ← lim_search_pre_auth_list (pre c) (sa h);
        match found with
        | None => Some (reply_frame4 c h eSIR_MAC_AUTH_FRAME_OUT_OF_SEQ_STATUS, None)
        | Some i =>
            let n := pnode (pre c) i in
            let c := deactivate_auth_rsp_timer c (authNodeIdx n) in
            if negb (bool_decide (PreAuth.mlmState n = eLIM_MLM_WT_AUTH_FRAME3_STATE)) &&
               negb (bool_decide (PreAuth.mlmState n = eLIM_MLM_AUTH_RSP_TIMEOUT_STATE))
            then Some (reply_frame4 c h eSIR_MAC_AUTH_FRAME_OUT_OF_SEQ_STATUS, None)
            else
              key ← default_key c key_id;
              match key with
              | Err _ => Some (reply_frame4 c h eSIR_MAC_CHALLENGE_FAILURE_STATUS, None)
              | Ok (defaultkey, key_length) =>
                  '(result, plainbody) ←
                    lim_decrypt_auth_frame (seed_stack e) defaultkey body_ptr (plain_stack e) key_length
                      (u16 (frame_len - SIR_MAC_WEP_IV_LENGTH));
                  if bool_decide (result = LIM_DECRYPT_ICV_FAIL) then
                    p ← lim_delete_pre_auth_node (pre c) (sa h);
                    Some (reply_frame4 (c <| pre := p |>) h eSIR_MAC_CHALLENGE_FAILURE_STATUS, None)
                  else Some (c, Some (zread plainbody 0 (frame_len - 8)))
              end
        end.

(** Dispatch on the transaction number, after the workaround for access points
    that answer with another number. *)
Definition dispatch c h rx (body_ptr : list Z) (frame_len curr_seq_num : Z) : option authCtx :=
  let seq := authTransactionSeqNumber rx in
  let rx := if bool_decide (limMlmState (sess c) = eLIM_MLM_WT_AUTH_FRAME4_STATE) &&
               negb (seq =? SIR_MAC_AUTH_FRAME_1) && negb (seq =? SIR_MAC_AUTH_FRAME_2) &&
               negb (seq =? SIR_MAC_AUTH_FRAME_3)
            then rx <| authTransactionSeqNumber := SIR_MAC_AUTH_FRAME_4 |> else rx in
  let seq := authTransactionSeqNumber rx in
  if seq =? SIR_MAC_AUTH_FRAME_1 then lim_process_auth_frame_type1 c h rx curr_seq_num
  else if seq =? SIR_MAC_AUTH_FRAME_2 then lim_process_auth_frame_type2 c h rx body_ptr frame_len
  else if seq =? SIR_MAC_AUTH_FRAME_3 then lim_process_auth_frame_type3 c h rx
  else if seq =? SIR_MAC_AUTH_FRAME_4 then lim_process_auth_frame_type4 c h rx
  else Some c.

Definition lim_process_auth_frame c h (body_ptr : list Z) (frame_len : Z) : option authCtx :=
  if frame_len =? 0 then Some c
  else if lim_is_group_addr (sa h) then Some c
  else
    let curr_seq_num := hdr_seq h in
    let c := if is_p2p_client (sess c) && negb (defaultAuthFailureTimeout (sess c) =? 0)
             then c <| mac := (cfg_set_int (mac c) WNI_CFG_AUTHENTICATE_FAILURE_TIMEOUT
                                 (defaultAuthFailureTimeout (sess c))).1 |>
             else c in
    '(c, plain) ← (if negb (wep h =? 0) then wep_body c h body_ptr frame_len
                   else Some (c, Some (zread body_ptr 0 frame_len)));
    match plain with
    | None => Some c
    | Some frame =>
        parsed ← sir_convert_auth_frame2_struct frame;
        match parsed with
        | None => Some c
        | Some rx => if is_auth_valid c rx then dispatch c h rx body_ptr frame_len curr_seq_num else Some c
        end
    end.

(** ** Requests and timeouts *)

Definition lim_is_auth_req_expected c (req : tLimMlmAuthReq) : bool :=
  let st := limMlmState (sess c) in
  ((LIM_IS_STA_ROLE (role c) &&
    (bool_decide (st = eLIM_MLM_JOINED_STATE) || bool_decide (st = eLIM_MLM_LINK_ESTABLISHED_STATE))) ||
   (LIM_IS_IBSS_ROLE (role c) && bool_decide (st = eLIM_MLM_BSS_STARTED_STATE))) &&
  negb (lim_is_group_addr (reqPeer req)) && lim_is_auth_algo_supported c (reqAuthType req).

(** [lim_is_preauth_ctx_exists]: the context found is not handed back. *)
Definition lim_is_preauth_ctx_exists c (req : tLimMlmAuthReq) : option bool :=
  let t := dphHashTable (sess c) in
  let stads := dph_get_hash_entry t DPH_STA_HASH_INDEX_PEER in
  found ← lim_search_pre_auth_list (pre c) (reqPeer req);
  Some ((LIM_IS_STA_ROLE (role c) && bool_decide (limMlmState (sess c) = eLIM_MLM_LINK_ESTABLISHED_STATE) &&
         match stads with Some i => reqAuthType req =? staAuthType (node t i) | None => false end &&
         bool_decide (reqPeer req = bssId (sess c))) ||
        match found with Some i => PreAuth.authType (pnode (pre c) i) =? reqAuthType req | None => false end).

Definition lim_process_auth_failure_timeout c : option authCtx :=
  match limMlmState (sess c) with
  | eLIM_MLM_WT_AUTH_FRAME2_STATE | eLIM_MLM_WT_AUTH_FRAME4_STATE =>
      let c := if is_p2p_client (sess c) && negb (defaultAuthFailureTimeout (sess c) =? 0)
               then c <| mac := (cfg_set_int (mac c) WNI_CFG_AUTHENTICATE_FAILURE_TIMEOUT
                                   (defaultAuthFailureTimeout (sess c))).1 |>
               else c in
      lim_restore_from_auth_state c eSIR_SME_AUTH_TIMEOUT_RESULT_CODE eSIR_MAC_UNSPEC_FAILURE_REASON
  | _ => Some c
  end.

(** The confirmation of a request that is not started; its status is never set. *)
Definition auth_req_end c (req : tLimMlmAuthReq) (resultCode : tSirResultCodes) : option authCtx :=
  Some (emit (c <| gpLimMlmAuthReq := None |>)
          (AuthCnf (reqPeer req) (reqAuthType req) resultCode (u16 (val_stack e)) (reqSessionId req))).

Definition lim_process_mlm_auth_req c (req : tLimMlmAuthReq) : option authCtx :=
  let c := c <| gpLimMlmAuthReq := Some req |> in
  if negb (reqSessionId req =? peSessionId (sess c)) then Some c
  else if negb (lim_is_auth_req_expected c req) then auth_req_end c req eSIR_SME_INVALID_PARAMETERS
  else
    exists_ctx ← lim_is_preauth_ctx_exists c req;
    if exists_ctx : bool then auth_req_end c req eSIR_SME_SUCCESS
    else if gLimNumPreAuthContexts (pre c) =? cfg_int_or c WNI_CFG_MAX_NUM_PRE_AUTH (val_stack e)
    then auth_req_end c req eSIR_SME_MAX_NUM_OF_PRE_AUTH_REACHED
    else
      let c := upd_sess c (λ s, s <| limPrevMlmState := limMlmState s |>
                                  <| limMlmState := eLIM_MLM_WT_AUTH_FRAME2_STATE |>) in
      let c := c <| auth_ack := LIM_AUTH_ACK_NOT_RCD |> in
      let c := lim_send_auth_mgmt_frame c
                 (inl (auth_frame (u8 (reqAuthType req)) SIR_MAC_AUTH_FRAME_1 0)) (reqPeer req) in
      let c := emit c StopTimers in
      if activate_ok e then Some (emit c (StartTimers (reqSessionId req)))
      else lim_process_auth_failure_timeout c.

(** [lim_process_auth_rsp_timeout]: the session is looked up by the address of
    the peer. *)
Definition lim_process_auth_rsp_timeout c (auth_idx : Z) : option authCtx :=
  match lim_get_pre_auth_node_from_index (pre c) auth_idx with
  | None => Some c
  | Some i =>
      if negb (bool_decide (peerMacAddr (pnode (pre c) i) = bssId (sess c))) then Some c
      else if LIM_IS_AP_ROLE (role c) || LIM_IS_IBSS_ROLE (role c) then
        if negb (bool_decide (PreAuth.mlmState (pnode (pre c) i) = eLIM_MLM_WT_AUTH_FRAME3_STATE)) then Some c
        else
          let c := upd_pnode c i (λ n, n <| mlmState := eLIM_MLM_AUTH_RSP_TIMEOUT_STATE |>
                                         <| fTimerStarted := 0 |>) in
          let c := deactivate_auth_rsp_timer c (authNodeIdx (pnode (pre c) i)) in
          p ← lim_delete_pre_auth_node (pre c) (peerMacAddr (pnode (pre c) i));
          Some (c <| pre := p |>)
      else Some c
  end.

(** ** The contexts under the handlers

    [keeps P c c']: the contexts stay well formed over the same pool, and if all
    those listed satisfy [P] they still do. *)
Definition keeps (P : tLimPreAuthNode → Prop) c c' : Prop :=
  ∀ l, pre_rep (pre c) l → Forall P l →
    ∃ l', pre_rep (pre c') l' ∧ Forall P l' ∧ numEntry (pre c') = numEntry (pre c).

(** Timers and challenges do not matter to [P]. *)
Definition timerless (P : tLimPreAuthNode → Prop) : Prop :=
  ∀ n b t ch, P n → P (n <| timer_active := b |> <| fTimerStarted := t |> <| challengeText := ch |>).

Lemma keeps_refl P c : keeps P c c.
Proof. intros l Hl HP. by exists l. Qed.
Lemma keeps_same_pre P c c1 c2 : pre c2 = pre c1 → keeps P c c1 → keeps P c c2.
Proof. intros E H l Hl HP. rewrite E. exact (H l Hl HP). Qed.
Lemma keeps_trans P c1 c2 c3 : keeps P c1 c2 → keeps P c2 c3 → keeps P c1 c3.
Proof.
  intros H1 H2 l Hl HP. destruct (H1 l Hl HP) as (l1 & Hl1 & HP1 & E1).
  destruct (H2 l1 Hl1 HP1) as (l2 & Hl2 & HP2 & E2). exists l2. by rewrite E2.
Qed.

Lemma send_pre c frame peer : pre (lim_send_auth_mgmt_frame c frame peer) = pre c.
Proof.
  unfold lim_send_auth_mgmt_frame. destruct frame as [f|b].
  - destruct (auth_mgmt_body c f); [|done]. by destruct (alloc_ok e), (tx_ok e).
  - by destruct (alloc_ok e), (tx_ok e).
Qed.

Lemma keeps_send P c c' frame peer : keeps P c c' → keeps P c (lim_send_auth_mgmt_frame c' frame peer).
Proof. apply keeps_same_pre, send_pre. Qed.

Lemma keeps_reply P c c' h algo seq status : keeps P c c' → keeps P c (reply c' h algo seq status).
Proof. apply keeps_send. Qed.
Lemma keeps_reply_next P c c' h rx status : keeps P c c' → keeps P c (reply_next c' h rx status).
Proof. apply keeps_send. Qed.
Lemma keeps_reply_frame4 P c c' h status : keeps P c c' → keeps P c (reply_frame4 c' h status).
Proof. apply keeps_send. Qed.

Lemma keeps_delete P c c' a p :
  keeps P c c' → lim_delete_pre_auth_node (pre c') a = Some p → keeps P c (c' <| pre := p |>).
Proof.
  intros H Hd l Hl HP. destruct (H l Hl HP) as (l1 & (ids & Hwf & ->) & HP1 & E1).
  destruct (wf_delete _ _ a Hwf) as (s' & ids' & H1 & H2 & H3 & H4 & _). rewrite Hd in H1. injection H1 as <-.
  exists (entries p ids'). cbn [pre]. split; [by exists ids'|]. split; [|exact (eq_trans H4 E1)]. rewrite H3.
  clear -HP1. induction HP1 as [|n l Hn Hl IH]; cbn; [done|].
  case_bool_decide; [done|by constructor].
Qed.

(** Changing the fields of one node other than its link and mark. *)
Lemma wf_update s ids i g :
  pre_wf s ids → (∀ n, next (g n) = next n) → (∀ n, fFree (g n) = fFree n) →
  let s' := set_pnode s i (g (pnode s i)) in
  pre_wf s' ids ∧ numEntry s' = numEntry s ∧
  ∀ j, j ∈ ids → pnode s' j = if Z.max 0 i =? j then g (pnode s j) else pnode s j.
Proof.
  intros Hwf Hn Hf s'. set (k := Z.max 0 i).
  assert (s' = set_pnode s k (g (pnode s k))) as ->.
  { unfold s', set_pnode, pnode, zset, zget, k. by replace (Z.to_nat (Z.max 0 i)) with (Z.to_nat i) by lia. }
  destruct (Z.lt_ge_cases k (numEntry s)) as [Hk|Hk].
  - assert (∀ j, 0 <= j → pnode (set_pnode s k (g (pnode s k))) j = if k =? j then g (pnode s j) else pnode s j) as Hp.
    { intros j Hj. rewrite pnode_set by lia. by destruct (Z.eqb_spec k j) as [->|]. }
    assert (∀ j, j ∈ ids → 0 <= j) as Hr by (intros j Hj; apply (pw_range _ _ Hwf) in Hj; lia).
    split; [split|split; [apply numEntry_set|by auto]].
    + eapply chain_frame; [|apply Hwf]. intros j Hj. unfold pnode_next. rewrite Hp by auto.
      destruct (k =? j); by rewrite ?Hn.
    + rewrite numEntry_set. apply Hwf.
    + rewrite numEntry_set. intros j Hj. rewrite Hp by lia. rewrite <- (pw_free _ _ Hwf) by done.
      destruct (k =? j); by rewrite ?Hf.
    + apply Hwf.
    + rewrite numEntry_set. apply Hwf.
  - assert (set_pnode s k (g (pnode s k)) = s) as ->.
    { destruct s. unfold set_pnode, set_field. cbn. unfold zset, numEntry in *. cbn in *.
      rewrite list_insert_ge by lia. done. }
    split; [done|]. split; [done|]. intros j Hj. apply (pw_range _ _ Hwf) in Hj.
    destruct (Z.eqb_spec k j); [lia|done].
Qed.

Lemma keeps_update_at P c c' i g :
  keeps P c c' → (∀ n, next (g n) = next n) → (∀ n, fFree (g n) = fFree n) →
  (∀ n, body (g n) = g (body n)) →
  (P (body (pnode (pre c') (Z.max 0 i))) → P (g (body (pnode (pre c') (Z.max 0 i))))) →
  keeps P c (upd_pnode c' i g).
Proof.
  intros H Hn Hf Hb HPf l Hl HP. destruct (H l Hl HP) as (l1 & (ids & Hwf & ->) & HP1 & E1).
  destruct (wf_update (pre c') ids i g Hwf Hn Hf) as (Hwf' & E2 & Hp).
  exists (entries (pre (upd_pnode c' i g)) ids). split; [by exists ids|]. split; [|exact (eq_trans E2 E1)].
  apply Forall_fmap, Forall_forall. intros j Hj. apply (proj1 (Forall_fmap _ _ _)) in HP1.
  rewrite Forall_forall in HP1. specialize (HP1 j Hj). cbn in HP1 |- *.
  rewrite Hp by done. destruct (Z.eqb_spec (Z.max 0 i) j) as [<-|]; [|done]. rewrite Hb. by apply HPf.
Qed.

Lemma keeps_update P c c' i g :
  keeps P c c' → (∀ n, next (g n) = next n) → (∀ n, fFree (g n) = fFree n) →
  (∀ n, body (g n) = g (body n)) → (∀ n, P n → P (g n)) → keeps P c (upd_pnode c' i g).
Proof. intros. apply keeps_update_at; auto. Qed.

Lemma keeps_timer P c c' k : timerless P → keeps P c c' → keeps P c (deactivate_auth_rsp_timer c' k).
Proof.
  intros HT H. unfold deactivate_auth_rsp_timer. destruct (lim_get_pre_auth_node_from_index _ _) as [i|]; [|done].
  apply keeps_update; try done. intros n HPn. exact (HT n false (fTimerStarted n) (challengeText n) HPn).
Qed.

(** A new context, filled by [fill], satisfies [P]. *)
Lemma keeps_add P c c' p i fill c2 :
  keeps P c c' → lim_acquire_free_pre_auth_node (pre c') = (p, Some i) →
  (∀ n, fFree (fill n) = fFree n) → (∀ n, P (body (fill n))) →
  pre c2 = lim_add_pre_auth_node (set_pnode p i (fill (pnode p i))) i → keeps P c c2.
Proof.
  intros H Ha Hf HPf E l Hl HP. destruct (H l Hl HP) as (l1 & (ids & Hwf & ->) & HP1 & E1).
  destruct (wf_acquire_add (pre c') ids fill p i Hwf Hf Ha) as (_ & _ & Hw & _ & _ & He & Hn & _).
  rewrite E. exists (entries (lim_add_pre_auth_node (set_pnode p i (fill (pnode p i))) i) (i :: ids)).
  split; [by exists (i :: ids)|]. split; [|lia]. rewrite He. constructor; [apply HPf|done].
Qed.

Lemma keeps_expire P c c' p k freed :
  keeps P c c' → lim_delete_open_auth_pre_auth_node (ticks e) (reads c') (pre c') = Some (p, k, freed) →
  keeps P c (c' <| pre := p |> <| reads := k |>).
Proof.
  intros H Hd l Hl HP. destruct (H l Hl HP) as (l1 & (ids & Hwf & ->) & HP1 & E1).
  pose proof (wf_delete_open (ticks e) (reads c') _ _ Hwf) as Ho. generalize dependent (entries (pre c') ids).
  intros l1 HP1 Ho. destruct (a_expire (ticks e) (reads c') l1) as [[l' k'] f] eqn:Ea.
  destruct Ho as (s' & ids' & H1 & H2 & H3 & H4 & _). rewrite Hd in H1. injection H1 as <- <- <-.
  exists l'. cbn [pre]. split; [by exists ids'|]. split; [|exact (eq_trans H4 E1)].
  clear -HP1 Ea. revert Ea. generalize (reads c'). revert l' k freed. induction HP1 as [|n l Hn Hl IH]; intros l' k f r; cbn.
  - by intros [= <- <- <-].
  - destruct (open_auth_expired _ _ _) as [x k1]. destruct (a_expire (ticks e) k1 l) as [[l2 k2] f2] eqn:E.
    intros [= <- <- <-]. apply IH in E. by destruct x; [|constructor].
Qed.

Lemma keeps_restore P c c' r st c2 :
  keeps P c c' → lim_restore_from_auth_state c' r st = Some c2 → keeps P c c2.
Proof.
  intros H. unfold lim_restore_from_auth_state. destruct (gpLimMlmAuthReq c'); [|done].
  destruct (bool_decide _); intros [= <-]; exact H.
Qed.

(** What the handlers do not touch. *)
Definition same_session c c' : Prop := sess c' = sess c ∧ mac c' = mac c.
Lemma same_session_supported c c' a :
  same_session c c' → lim_is_auth_algo_supported c' a = lim_is_auth_algo_supported c a.
Proof. intros [E1 E2]. unfold lim_is_auth_algo_supported, role. by rewrite E1, E2. Qed.

Lemma send_session c frame peer : same_session c (lim_send_auth_mgmt_frame c frame peer).
Proof.
  unfold lim_send_auth_mgmt_frame. destruct frame as [f|b].
  - destruct (auth_mgmt_body c f); [|done]. by destruct (alloc_ok e), (tx_ok e).
  - by destruct (alloc_ok e), (tx_ok e).
Qed.

(** The fields of a context while it is acquired and linked. *)
Lemma keeps_open_algo P c c' h rx :
  keeps P c c' → (∀ n, peerMacAddr n = sa h → P n) →
  keeps P c (lim_process_auth_open_system_algo c' h rx).
Proof.
  intros H HP. unfold lim_process_auth_open_system_algo.
  destruct (lim_acquire_free_pre_auth_node (pre c')) as [p [i|]] eqn:Ea; [|done].
  cbn [read_clock]. apply keeps_reply_next. eapply (keeps_add P c c' p i); [done|exact Ea| | |reflexivity]; [done|].
  intros n. by apply HP.
Qed.

Lemma keeps_shared_algo P c c' h rx c2 :
  timerless P → keeps P c c' →
  (∀ n, peerMacAddr n = sa h → PreAuth.mlmState n = eLIM_MLM_WT_AUTH_FRAME3_STATE → P n) →
  lim_process_auth_shared_system_algo c' h rx = Some c2 → keeps P c c2.
Proof.
  intros HT H HP. unfold lim_process_auth_shared_system_algo.
  destruct (u8 _ =? 0); [intros [= <-]; by apply keeps_reply_next|].
  destruct (lim_acquire_free_pre_auth_node (pre c')) as [p [i|]] eqn:Ea; [|by intros [= <-]].
  cbn [read_clock].
  match goal with |- context [upd_pnode ?c0 i ?fill <| pre ::= _ |>] =>
    set (c3 := upd_pnode c0 i fill <| pre ::= λ p0, lim_add_pre_auth_node p0 i |>);
    assert (keeps P c c3) as H3
      by (eapply (keeps_add P c c' p i fill); [done|exact Ea|done|intros n; by apply HP|reflexivity]) end.
  destruct (change_context_ok e); cbn [negb].
  - intros [= <-]. apply keeps_send. apply keeps_update; try done.
    intros n Hn. exact (HT n true 1 _ Hn).
  - destruct (lim_delete_pre_auth_node _ _) as [p2|] eqn:Ed; cbn; [|done]. intros [= <-].
    eapply keeps_delete; [|exact Ed]. by apply keeps_reply_next.
Qed.

Lemma known_station_keeps P c c' h over :
  type1_known_station c h = Some (c', over) → keeps P c c' ∧ same_session c c'.
Proof.
  unfold type1_known_station. destruct (dph_lookup_hash_entry _ _) as [[[sta aid]|]|]; cbn; [|intros [= <- <-]|done].
  - destruct (bool_decide (pMlmDisassocReq c = Some (sa h))); cbn;
      destruct (bool_decide (_ = Some (sa h))); cbn; try destruct (_ =? 0); intros [= <- <-];
      (split; [apply keeps_same_pre with c; [done|apply keeps_refl]|done]).
  - split; [apply keeps_refl|done].
Qed.

Lemma known_context_keeps P c c' h seq over :
  timerless P → type1_known_context c h seq = Some (c', over) → keeps P c c' ∧ same_session c c'.
Proof.
  intros HT. unfold type1_known_context.
  destruct (lim_search_pre_auth_list _ _) as [[i|]|]; cbn; [|intros [= <- <-]; split; [apply keeps_refl|done]|done].
  destruct (negb _); [intros [= <- <-]; split; [apply keeps_refl|done]|].
  set (c1 := if negb (fTimerStarted _ =? 0) then _ else _).
  assert (keeps P c c1 ∧ same_session c c1) as [H1 S1].
  { unfold c1. destruct (negb _); [|split; [apply keeps_refl|done]].
    split; [apply keeps_timer; [done|apply keeps_refl]|].
    unfold deactivate_auth_rsp_timer. by destruct (lim_get_pre_auth_node_from_index _ _). }
  destruct (lim_delete_pre_auth_node (pre c1) (sa h)) as [p|] eqn:Ed; cbn; [|done].
  pose proof (keeps_delete P c c1 _ _ H1 Ed) as H2.
  clearbody c1.
  destruct (station_by_aid _ _) as [sta|]; [destruct (_ =? 0)|]; intros [= <- <-]; (split; [exact H2|exact S1]).
Qed.

Lemma new_context_keeps P c0 c c' h rx :
  timerless P → keeps P c0 c →
  (∀ n, peerMacAddr n = sa h → PreAuth.mlmState n = eLIM_MLM_WT_AUTH_FRAME3_STATE → P n) →
  (authAlgoNumber rx = eSIR_OPEN_SYSTEM → lim_is_auth_algo_supported c eSIR_OPEN_SYSTEM = true →
   ∀ n, peerMacAddr n = sa h → P n) →
  type1_new_context c h rx = Some c' → keeps P c0 c'.
Proof.
  intros HT H HP HPo. unfold type1_new_context.
  assert (∀ c1, keeps P c0 c1 → same_session c c1 →
    (if lim_is_auth_algo_supported c1 (authAlgoNumber rx) then
       if lim_get_session_by_macaddr c1 (sa h)
       then Some (reply_next c1 h rx eSIR_MAC_WME_INVALID_PARAMS_STATUS)
       else if authAlgoNumber rx =? eSIR_OPEN_SYSTEM then Some (lim_process_auth_open_system_algo c1 h rx)
       else if authAlgoNumber rx =? eSIR_SHARED_KEY then lim_process_auth_shared_system_algo c1 h rx
       else Some (reply_next c1 h rx eSIR_MAC_AUTH_ALGO_NOT_SUPPORTED_STATUS)
     else Some (reply_next c1 h rx eSIR_MAC_AUTH_ALGO_NOT_SUPPORTED_STATUS)) = Some c' → keeps P c0 c') as Hk.
  { intros c1 H1 S1. rewrite (same_session_supported c c1 _ S1).
    destruct (lim_is_auth_algo_supported c (authAlgoNumber rx)) eqn:Es; [|intros [= <-]; by apply keeps_reply_next].
    destruct (lim_get_session_by_macaddr _ _); [intros [= <-]; by apply keeps_reply_next|].
    destruct (Z.eqb_spec (authAlgoNumber rx) eSIR_OPEN_SYSTEM) as [Eo|_].
    - intros [= <-]. apply keeps_open_algo; [done|]. apply HPo; [done|by rewrite <- Eo].
    - destruct (_ =? eSIR_SHARED_KEY); [by apply keeps_shared_algo|intros [= <-]; by apply keeps_reply_next]. }
  destruct (gLimNumPreAuthContexts (pre c) =? _); cbn [mbind option_bind]; [|by apply Hk].
  destruct (lim_delete_open_auth_pre_auth_node _ _ _) as [[[p k] freed]|] eqn:Ed; cbn; [|done].
  pose proof (keeps_expire P c0 c p k freed H Ed) as H1.
  destruct freed; cbn; [by apply Hk|]. intros [= <-]. by apply keeps_reply_next.
Qed.

Lemma type1_keeps P c c' h rx seq :
  timerless P →
  (∀ n, peerMacAddr n = sa h → PreAuth.mlmState n = eLIM_MLM_WT_AUTH_FRAME3_STATE → P n) →
  (authAlgoNumber rx = eSIR_OPEN_SYSTEM → lim_is_auth_algo_supported c eSIR_OPEN_SYSTEM = true →
   ∀ n, peerMacAddr n = sa h → P n) →
  lim_process_auth_frame_type1 c h rx seq = Some c' → keeps P c c'.
Proof.
  intros HT HP HPo. unfold lim_process_auth_frame_type1.
  destruct (type1_known_station c h) as [[c1 o1]|] eqn:E1; cbn; [|done].
  apply (known_station_keeps P) in E1 as [K1 S1]. destruct o1; [by intros [= <-]|].
  destruct (type1_known_context c1 h seq) as [[c2 o2]|] eqn:E2; cbn; [|done].
  apply (known_context_keeps P) in E2 as [K2 S2]; [|done]. pose proof (keeps_trans _ _ _ _ K1 K2) as K.
  destruct o2; [by intros [= <-]|]. apply new_context_keeps; try done.
  intros Eo Es. apply HPo; [done|]. rewrite <- Es. symmetry. apply same_session_supported.
  destruct S1 as [E1 E2], S2 as [E3 E4]. split; congruence.
Qed.

Lemma add_requested_keeps P c c' h req :
  keeps P c c' → (∀ n, peerMacAddr n = reqPeer req → P n) → keeps P c (add_requested_context c' h req).1.
Proof.
  intros H HP. unfold add_requested_context.
  destruct (lim_acquire_free_pre_auth_node (pre c')) as [p [i|]] eqn:Ea; [|done].
  cbn [read_clock fst]. eapply (keeps_add P c c' p i); [done|exact Ea| | |reflexivity]; [done|].
  intros n. by apply HP.
Qed.

Lemma add_requested_restore P c c' h req st c2 :
  keeps P c c' → (∀ n, peerMacAddr n = reqPeer req → P n) →
  match add_requested_context c' h req with
  | (c, false) => Some c
  | (c, true) => lim_restore_from_auth_state c eSIR_SME_SUCCESS st
  end = Some c2 → keeps P c c2.
Proof.
  intros H HP. pose proof (add_requested_keeps P c c' h req H HP) as H1.
  destruct (add_requested_context c' h req) as [c1 []]; cbn in H1; [|by intros [= <-]].
  by apply keeps_restore.
Qed.

Lemma type2_shared_keeps P c h rx c' : type2_shared_key c h rx = Some c' → keeps P c c'.
Proof.
  unfold type2_shared_key. destruct (u8 _ =? 0); [intros [= <-]; apply keeps_reply_next, keeps_refl|].
  destruct (negb _); [intros [= <-]; apply keeps_refl|].
  destruct (default_key _ _) as [[[k len]|]|]; cbn [mbind option_bind]; [| |done].
  - destruct (lim_encrypt_auth_frame _ _ _ _ _) as [[pl en]|]; cbn [mbind option_bind]; [|done]. intros [= <-].
    apply keeps_send, keeps_same_pre with c; [done|apply keeps_refl].
  - apply keeps_restore, keeps_reply_next, keeps_refl.
Qed.

Lemma type2_keeps P c h rx body len c' :
  (LIM_IS_AP_ROLE (role c) = false → ∀ req, gpLimMlmAuthReq c = Some req → sa h = reqPeer req →
   ∀ n, peerMacAddr n = sa h → P n) → LIM_IS_AP_ROLE (role c) = false →
  lim_process_auth_frame_type2 c h rx body len = Some c' → keeps P c c'.
Proof.
  intros HP Hr. unfold lim_process_auth_frame_type2. destruct (negb _).
  - repeat case_match; intros [= <-]; apply keeps_same_pre with c; try done; apply keeps_refl.
  - destruct (gpLimMlmAuthReq c) as [req|] eqn:Er; [|done].
    destruct (negb _) eqn:En; [intros [= <-]; apply keeps_refl|]. bool_hyps.
    match goal with |- context [negb (authAlgoNumber ?r =? reqAuthType req)] => generalize r; intros rx' end.
    destruct (negb (authAlgoNumber rx' =? _)); [intros [= <-]; apply keeps_refl|].
    destruct (negb (authStatusCode rx' =? _)); [by apply keeps_restore, keeps_refl|].
    destruct (authAlgoNumber rx' =? eSIR_OPEN_SYSTEM); [|apply type2_shared_keeps].
    apply add_requested_restore; [apply keeps_same_pre with c; [done|apply keeps_refl]|].
    intros n Hn. apply (HP Hr req); congruence.
Qed.

Lemma type4_keeps P c h rx c' :
  (limMlmState (sess c) = eLIM_MLM_WT_AUTH_FRAME4_STATE → ∀ n, peerMacAddr n = sa h → P n) →
  lim_process_auth_frame_type4 c h rx = Some c' → keeps P c c'.
Proof.
  intros HP. unfold lim_process_auth_frame_type4.
  destruct (bool_decide _) eqn:Es; cbn [negb]; [|intros [= <-]; apply keeps_refl]. bool_hyps.
  destruct (negb _); [intros [= <-]; apply keeps_refl|].
  destruct (gpLimMlmAuthReq c) as [req|] eqn:Er; [|done].
  destruct (negb _) eqn:En; [intros [= <-]; apply keeps_refl|]. bool_hyps.
  destruct (negb _); [intros [= <-]; apply keeps_refl|].
  destruct (_ =? _); [|by apply keeps_restore, keeps_refl].
  apply add_requested_restore; [apply keeps_same_pre with c; [done|apply keeps_refl]|].
  intros n Hn. apply HP; congruence.
Qed.

Lemma field_update {T} (π : tLimPreAuthNode → T) s k j g :
  (∀ n, π (g n) = π n) → π (pnode (set_pnode s k (g (pnode s k))) j) = π (pnode s j).
Proof.
  intros Hg. unfold pnode, set_pnode, zget. cbn [pTable set_field]. unfold zset.
  destruct (decide (Z.to_nat k = Z.to_nat j)) as [E|Hne].
  - rewrite E. destruct (decide (Z.to_nat j < length (pTable s))%nat).
    + rewrite list_lookup_total_insert_eq by done. apply Hg.
    + rewrite list_insert_ge by lia. done.
  - by rewrite list_lookup_total_insert_ne.
Qed.

Lemma field_timer {T} (π : tLimPreAuthNode → T) c k j :
  (∀ n b, π (n <| timer_active := b |>) = π n) →
  π (pnode (pre (deactivate_auth_rsp_timer c k)) j) = π (pnode (pre c) j).
Proof.
  intros Hg. unfold deactivate_auth_rsp_timer. destruct (lim_get_pre_auth_node_from_index _ _) as [i|]; [|done].
  apply (field_update π (pre c) i j (λ n, n <| timer_active := false |>)). intros n. apply Hg.
Qed.

Lemma search_found s ids a i :
  pre_wf s ids → lim_search_pre_auth_list s a = Some (Some i) →
  i ∈ ids ∧ 0 <= i < numEntry s ∧ peerMacAddr (pnode s i) = a.
Proof.
  intros Hwf. rewrite (wf_search s ids a Hwf). intros [= Hf].
  apply find_some in Hf as [Hi Hp]. apply list_elem_of_In in Hi. unfold peer_is in Hp. bool_hyps.
  split; [done|]. split; [by apply (pw_range _ _ Hwf)|done].
Qed.

(** Frame 3 answers the challenge of the context of its sender. *)
Definition challenge_answered c h rx : Prop :=
  LIM_IS_AP_ROLE (role c) || LIM_IS_IBSS_ROLE (role c) = true ∧ wep h ≠ 0 ∧
  authAlgoNumber rx = eSIR_SHARED_KEY ∧ authStatusCode rx = eSIR_MAC_SUCCESS_STATUS ∧
  ∃ i, lim_search_pre_auth_list (pre c) (sa h) = Some (Some i) ∧
    PreAuth.mlmState (pnode (pre c) i) ≠ eLIM_MLM_AUTH_RSP_TIMEOUT_STATE ∧
    zread (challenge rx) 0 SIR_MAC_AUTH_CHALLENGE_LENGTH =
    zread (challengeText (pnode (pre c) i)) 0 SIR_MAC_AUTH_CHALLENGE_LENGTH.

Lemma type3_keeps P c h rx c' :
  timerless P → (challenge_answered c h rx → ∀ n, peerMacAddr n = sa h → P n) →
  lim_process_auth_frame_type3 c h rx = Some c' → keeps P c c'.
Proof.
  intros HT HP. unfold lim_process_auth_frame_type3.
  destruct (Z.eqb_spec (authAlgoNumber rx) eSIR_SHARED_KEY) as [Ea|_]; cbn [negb];
    [|intros [= <-]; apply keeps_reply_frame4, keeps_refl].
  destruct (_ || _) eqn:Er; [|intros [= <-]; apply keeps_refl].
  destruct (Z.eqb_spec (wep h) 0) as [_|Ew]; [intros [= <-]; apply keeps_reply_frame4, keeps_refl|].
  destruct (lim_search_pre_auth_list _ _) as [[i|]|] eqn:Es; cbn [mbind option_bind];
    [|intros [= <-]; apply keeps_reply_frame4, keeps_refl|done].
  destruct (bool_decide (PreAuth.mlmState _ = _)) eqn:Et.
  { destruct (lim_delete_pre_auth_node _ _) as [p|] eqn:Ed; cbn [mbind option_bind]; [|done]. intros [= <-].
    eapply keeps_delete; [apply keeps_reply_frame4, keeps_refl|exact Ed]. }
  destruct (Z.eqb_spec (authStatusCode rx) eSIR_MAC_SUCCESS_STATUS) as [Est|_]; cbn [negb];
    [|intros [= <-]; apply keeps_refl].
  bool_hyps. destruct (bool_decide _) eqn:Ec; [|intros [= <-]; apply keeps_reply, keeps_refl]. bool_hyps.
  intros [= <-]. apply keeps_reply_frame4. intros l Hl HPl.
  destruct Hl as (ids & Hwf & ->). destruct (search_found _ _ _ _ Hwf Es) as (_ & Hi & Hpeer).
  revert HPl. set (l := entries (pre c) ids). assert (pre_rep (pre c) l) as Hl by by exists ids.
  clearbody l. revert l Hl. change (keeps P c (upd_pnode (deactivate_auth_rsp_timer c (authNodeIdx (pnode (pre c) i))) i
    (λ n, n <| fTimerStarted := 0 |> <| mlmState := eLIM_MLM_AUTHENTICATED_STATE |>))).
  apply keeps_update_at; try done; [apply keeps_timer; [done|apply keeps_refl]|].
  intros _. apply HP; [by repeat split; [..|exists i]|]. cbn.
  rewrite Z.max_r by lia. by rewrite (field_timer peerMacAddr).
Qed.

Lemma wep_body_keeps P c h body len c' plain :
  timerless P → wep_body c h body len = Some (c', plain) → keeps P c c' ∧ (plain ≠ None → same_session c c').
Proof.
  intros HT. unfold wep_body. destruct (_ && _).
  { intros [= <- <-]. split; [apply keeps_same_pre with c; [done|apply keeps_refl]|done]. }
  destruct (LIM_IS_STA_ROLE _); [intros [= <- <-]; split; [apply keeps_reply_frame4, keeps_refl|done]|].
  destruct (len <? _); [intros [= <- <-]; split; [apply keeps_refl|done]|].
  destruct (u8 _ =? 0); [intros [= <- <-]; split; [apply keeps_reply_frame4, keeps_refl|done]|].
  destruct (lim_search_pre_auth_list _ _) as [[i|]|]; cbn [mbind option_bind];
    [|intros [= <- <-]; split; [apply keeps_reply_frame4, keeps_refl|done]|done].
  set (c1 := deactivate_auth_rsp_timer c _).
  assert (keeps P c c1) as H1 by (apply keeps_timer; [done|apply keeps_refl]).
  assert (same_session c c1) as S1
    by (unfold c1, deactivate_auth_rsp_timer; by destruct (lim_get_pre_auth_node_from_index _ _)).
  destruct (_ && _); [intros [= <- <-]; split; [by apply keeps_reply_frame4|done]|].
  destruct (default_key _ _) as [[[k kl]|]|]; cbn [mbind option_bind];
    [|intros [= <- <-]; split; [by apply keeps_reply_frame4|done]|done].
  destruct (lim_decrypt_auth_frame _ _ _ _ _ _) as [[r pl]|]; cbn [mbind option_bind]; [|done].
  destruct (bool_decide _); [|by intros [= <- <-]].
  destruct (lim_delete_pre_auth_node _ _) as [p|] eqn:Ed; cbn [mbind option_bind]; [|done]. intros [= <- <-].
  split; [|done]. apply keeps_reply_frame4. by eapply keeps_delete.
Qed.

Lemma dispatch_keeps P c h rx body len seq c' :
  timerless P → is_auth_valid c rx = true →
  (∀ n, peerMacAddr n = sa h → PreAuth.mlmState n = eLIM_MLM_WT_AUTH_FRAME3_STATE → P n) →
  (lim_is_auth_algo_supported c eSIR_OPEN_SYSTEM = true → ∀ n, peerMacAddr n = sa h → P n) →
  (LIM_IS_AP_ROLE (role c) = false → ∀ n, peerMacAddr n = sa h → P n) →
  (limMlmState (sess c) = eLIM_MLM_WT_AUTH_FRAME4_STATE → ∀ n, peerMacAddr n = sa h → P n) →
  (authTransactionSeqNumber rx = SIR_MAC_AUTH_FRAME_3 → challenge_answered c h rx →
   ∀ n, peerMacAddr n = sa h → P n) →
  dispatch c h rx body len seq = Some c' → keeps P c c'.
Proof.
  intros HT Hv H3 Ho Hr H4 Hc. unfold dispatch.
  destruct (_ && _ && _ && _) eqn:Eo.
  - bool_hyps. cbn. apply type4_keeps. exact H4.
  - clear Eo. destruct (Z.eqb_spec (authTransactionSeqNumber rx) SIR_MAC_AUTH_FRAME_1) as [E1|_].
    { apply type1_keeps; auto. }
    destruct (Z.eqb_spec (authTransactionSeqNumber rx) SIR_MAC_AUTH_FRAME_2) as [E2|_].
    { assert (LIM_IS_AP_ROLE (role c) = false) as Hrole.
      { unfold is_auth_valid in Hv. rewrite E2 in Hv. cbn in Hv. by destruct (LIM_IS_AP_ROLE (role c)), (LIM_IS_STA_ROLE (role c)). }
      apply type2_keeps; auto. }
    destruct (Z.eqb_spec (authTransactionSeqNumber rx) SIR_MAC_AUTH_FRAME_3) as [E3|_].
    { apply type3_keeps; auto. }
    destruct (_ =? SIR_MAC_AUTH_FRAME_4); [by apply type4_keeps|]. intros [= <-]. apply keeps_refl.
Qed.

(** A frame with the WEP bit that is processed further. *)
Lemma wep_body_plain c h body len c' frame :
  wep_body c h body len = Some (c', Some frame) →
  ∃ i key kl result plain,
    lim_search_pre_auth_list (pre c) (sa h) = Some (Some i) ∧
    (PreAuth.mlmState (pnode (pre c) i) = eLIM_MLM_WT_AUTH_FRAME3_STATE ∨
     PreAuth.mlmState (pnode (pre c) i) = eLIM_MLM_AUTH_RSP_TIMEOUT_STATE) ∧
    default_key c (Z.shiftr (zget body 3) 6) = Some (Ok (key, kl)) ∧
    lim_decrypt_auth_frame (seed_stack e) key body (plain_stack e) kl
      (u16 (len - SIR_MAC_WEP_IV_LENGTH)) = Some (result, plain) ∧ result ≠ LIM_DECRYPT_ICV_FAIL ∧
    frame = zread plain 0 (len - 8) ∧
    c' = deactivate_auth_rsp_timer c (authNodeIdx (pnode (pre c) i)).
Proof.
  unfold wep_body. destruct (_ && _); [done|]. destruct (LIM_IS_STA_ROLE _); [done|].
  destruct (len <? _); [done|]. destruct (u8 _ =? 0); [done|].
  destruct (lim_search_pre_auth_list _ _) as [[i|]|]; cbn [mbind option_bind]; [|done|done].
  destruct (_ && _) eqn:Est; [done|].
  assert (default_key (deactivate_auth_rsp_timer c (authNodeIdx (pnode (pre c) i))) (Z.shiftr (zget body 3) 6)
          = default_key c (Z.shiftr (zget body 3) 6)) as ->
    by (unfold deactivate_auth_rsp_timer; by destruct (lim_get_pre_auth_node_from_index _ _)).
  destruct (default_key _ _) as [[[k kl]|]|]; cbn [mbind option_bind]; [|done|done].
  destruct (lim_decrypt_auth_frame _ _ _ _ _ _) as [[r pl]|] eqn:Ed; cbn [mbind option_bind]; [|done].
  destruct (bool_decide (r = LIM_DECRYPT_ICV_FAIL)) eqn:Er.
  { destruct (lim_delete_pre_auth_node _ _); cbn; intros ?; discriminate. }
  bool_hyps. intros [= <- <-]. exists i, k, kl, r, pl. split_and!; try done.
  apply andb_false_iff in Est as [Est|Est]; bool_hyps; auto.
Qed.

(** An address with an authenticated context. *)
Definition authenticated c (a : list Z) : Prop :=
  ∃ l n, pre_rep (pre c) l ∧ n ∈ l ∧ peerMacAddr n = a ∧ PreAuth.mlmState n = eLIM_MLM_AUTHENTICATED_STATE.

(** A received frame that proves the possession of the key: it decrypts, with a
    correct ICV, under the key its key id names, and returns the challenge kept
    for its sender. *)
Definition proves_key c h (body : list Z) (len : Z) : Prop :=
  ∃ i key kl result plain rx,
    wep h ≠ 0 ∧
    lim_search_pre_auth_list (pre c) (sa h) = Some (Some i) ∧
    PreAuth.mlmState (pnode (pre c) i) = eLIM_MLM_WT_AUTH_FRAME3_STATE ∧
    default_key c (Z.shiftr (zget body 3) 6) = Some (Ok (key, kl)) ∧
    lim_decrypt_auth_frame (seed_stack e) key body (plain_stack e) kl
      (u16 (len - SIR_MAC_WEP_IV_LENGTH)) = Some (result, plain) ∧ result ≠ LIM_DECRYPT_ICV_FAIL ∧
    sir_convert_auth_frame2_struct (zread plain 0 (len - 8)) = Some (Some rx) ∧
    authAlgoNumber rx = eSIR_SHARED_KEY ∧ authTransactionSeqNumber rx = SIR_MAC_AUTH_FRAME_3 ∧
    authStatusCode rx = eSIR_MAC_SUCCESS_STATUS ∧
    zread (challenge rx) 0 SIR_MAC_AUTH_CHALLENGE_LENGTH =
    zread (challengeText (pnode (pre c) i)) 0 SIR_MAC_AUTH_CHALLENGE_LENGTH.

Lemma challenge_proves c h body len c1 frame rx l :
  pre_rep (pre c) l → wep_body c h body len = Some (c1, Some frame) →
  sir_convert_auth_frame2_struct frame = Some (Some rx) →
  authTransactionSeqNumber rx = SIR_MAC_AUTH_FRAME_3 → challenge_answered c1 h rx → proves_key c h body len.
Proof.
  intros (ids & Hwf & _) Hw Hp Hseq (_ & Hwep & Halgo & Hst & j & Hs & Hnt & Hch).
  apply wep_body_plain in Hw as (i & key & kl & r & pl & Hsi & Hst3 & Hk & Hd & Hr & -> & ->).
  assert (j = i) as ->.
  { rewrite (wf_search _ _ _ Hwf) in Hsi. unfold deactivate_auth_rsp_timer in Hs.
    destruct (lim_get_pre_auth_node_from_index _ _) as [k|]; [|rewrite (wf_search _ _ _ Hwf) in Hs; congruence].
    destruct (wf_update (pre c) ids k (λ n, n <| timer_active := false |>) Hwf) as (Hwf' & _ & _); [done..|].
    change (lim_search_pre_auth_list (set_pnode (pre c) k (pnode (pre c) k <| timer_active := false |>)) (sa h)
            = Some (Some j)) in Hs.
    rewrite (wf_search (set_pnode (pre c) k (pnode (pre c) k <| timer_active := false |>)) ids (sa h) Hwf') in Hs.
    assert (∀ x, peer_is (set_pnode (pre c) k (pnode (pre c) k <| timer_active := false |>)) (sa h) x
                 = peer_is (pre c) (sa h) x) as Hpe.
    { intros x. unfold peer_is.
      by rewrite (field_update peerMacAddr (pre c) k x (λ n, n <| timer_active := false |>)). }
    assert (List.find (peer_is (pre c) (sa h)) ids = Some j) as E; [|congruence].
    injection Hs as Hs. rewrite <- Hs. clear -Hpe. induction ids as [|x ids IH]; cbn; [done|].
    rewrite <- Hpe. cbn. by destruct (peer_is _ _ x). }
  rewrite (field_timer PreAuth.mlmState) in Hnt by done. rewrite (field_timer challengeText) in Hch by done.
  exists i, key, kl, r, pl, rx. split_and!; try done. by destruct Hst3.
Qed.

(** A property holds of the contexts after a frame if it holds of any context,
    or, on an access point without open-system authentication, if it holds of
    contexts waiting for frame 3 and of those whose peer has proved the key. *)
Definition guarded (P : tLimPreAuthNode → Prop) c h body len : Prop :=
  (∀ n, P n) ∨
  LIM_IS_AP_ROLE (role c) = true ∧ lim_is_auth_algo_supported c eSIR_OPEN_SYSTEM = false ∧
  limMlmState (sess c) ≠ eLIM_MLM_WT_AUTH_FRAME4_STATE ∧
  (∀ n, peerMacAddr n = sa h → PreAuth.mlmState n = eLIM_MLM_WT_AUTH_FRAME3_STATE → P n) ∧
  (proves_key c h body len → ∀ n, peerMacAddr n = sa h → P n).

Lemma received_keeps P c h body len seq c1 rx c' frame :
  timerless P → guarded P c h body len →
  (if negb (wep h =? 0) then wep_body c h body len else Some (c, Some (zread body 0 len))) = Some (c1, Some frame) →
  sir_convert_auth_frame2_struct frame = Some (Some rx) → is_auth_valid c1 rx = true →
  dispatch c1 h rx body len seq = Some c' → keeps P c c'.
Proof.
  intros HT Hg Hw Hp Hv Hd l Hl HPl.
  assert (same_session c c1 ∧ keeps P c c1) as [S1 K1].
  { destruct (negb _); [|injection Hw as <- <-; split; [done|apply keeps_refl]].
    apply (wep_body_keeps P) in Hw as [Hk Hs]; [|done]. split; [by apply Hs|done]. }
  assert (keeps P c1 c') as K2; [|exact (keeps_trans P c c1 c' K1 K2 l Hl HPl)].
  pose proof S1 as [Es Em]. destruct Hg as [Hall|(Hr & Ho & H4 & H3 & Hpk)].
  - eapply dispatch_keeps; [exact HT|exact Hv|auto..|exact Hd].
  - eapply dispatch_keeps; [exact HT|exact Hv|done| | | | |exact Hd].
    + by rewrite (same_session_supported c c1 _ S1), Ho.
    + unfold role in *. by rewrite Es, Hr.
    + by rewrite Es.
    + intros Hseq Hc. apply Hpk.
      assert (wep h ≠ 0) as Hne by apply Hc. rewrite (proj2 (Z.eqb_neq _ _)) in Hw by done.
      by eapply challenge_proves.
Qed.

Lemma frame_keeps P c h body len c' :
  timerless P → guarded P c h body len → lim_process_auth_frame c h body len = Some c' → keeps P c c'.
Proof.
  intros HT Hg. unfold lim_process_auth_frame.
  destruct (len =? 0); [intros [= <-]; apply keeps_refl|].
  destruct (lim_is_group_addr _); [intros [= <-]; apply keeps_refl|].
  set (c0 := if is_p2p_client (sess c) && _ then _ else c).
  assert (guarded P c0 h body len ∧ keeps P c c0) as [Hg0 K0].
  { unfold c0. destruct (_ && _); [|split; [done|apply keeps_refl]].
    split; [|apply keeps_same_pre with c; [done|apply keeps_refl]].
    destruct Hg as [Hall|(Hr & Ho & H4 & H3 & Hpk)]; [by left|]. right. split_and!; try done.
    - unfold lim_is_auth_algo_supported, role in *. cbn. by rewrite Hr in *.
    - intros Hp. apply Hpk. destruct Hp as (i & key & kl & r & pl & rx & H). exists i, key, kl, r, pl, rx.
      unfold default_key, role in *. cbn in *. by rewrite Hr in *. }
  clearbody c0. clear Hg. rename Hg0 into Hg.
  destruct (if negb (wep h =? 0) then _ else _) as [[c1 plain]|] eqn:Ew; cbn [mbind option_bind]; [|done].
  assert (keeps P c0 c1) as K1.
  { destruct (negb _); [|injection Ew as <- _; apply keeps_refl]. by apply (wep_body_keeps P) in Ew as [? _]. }
  pose proof (keeps_trans _ _ _ _ K0 K1) as K01.
  destruct plain as [frame|]; [|by intros [= <-]].
  destruct (sir_convert_auth_frame2_struct frame) as [[rx|]|] eqn:Ep; cbn [mbind option_bind]; [|by intros [= <-]|done].
  destruct (is_auth_valid c1 rx) eqn:Ev; [|by intros [= <-]].
  intros Hd. eapply keeps_trans; [exact K0|]. by eapply received_keeps.
Qed.

(** C14: no authentication without the key.  On an access point that only admits
    shared-key authentication, whatever frame arrives, an address can become
    authenticated only if the frame came from that address, with the WEP bit,
    decrypted with a correct ICV under the key its key id names, and carried in
    frame 3 exactly the challenge kept for that address, whose context was
    waiting for it. *)
Theorem shared_key_requires_proof c h body len c' l a :
  LIM_IS_AP_ROLE (role c) = true → sessAuthType (sess c) = eSIR_SHARED_KEY →
  limMlmState (sess c) ≠ eLIM_MLM_WT_AUTH_FRAME4_STATE →
  pre_rep (pre c) l → lim_process_auth_frame c h body len = Some c' →
  authenticated c' a → authenticated c a ∨ (sa h = a ∧ proves_key c h body len).
Proof.
  intros Hr Hs H4 Hl Hf (l' & n & Hl' & Hn & Ha & Hst).
  set (P := λ n : tLimPreAuthNode, PreAuth.mlmState n = eLIM_MLM_AUTHENTICATED_STATE →
    authenticated c (peerMacAddr n) ∨ (sa h = peerMacAddr n ∧ proves_key c h body len)).
  assert (keeps P c c') as HK.
  { apply (frame_keeps P c h body len); [by intros m b t ch Hm| |done]. right. split_and!; try done.
    - unfold lim_is_auth_algo_supported. cbn. by rewrite Hr, Hs.
    - intros m Hm Hst3 HA. congruence.
    - intros Hp m Hm _. right. by rewrite Hm. }
  destruct (HK l Hl) as (l2 & Hl2 & HP2 & _).
  { apply Forall_forall. intros m Hm Hma. left. by exists l, m. }
  assert (l2 = l') as ->.
  { destruct Hl2 as (i1 & W1 & ->), Hl' as (i2 & W2 & ->).
    by rewrite (chain_det _ _ _ _ (pw_chain _ _ W1) (pw_chain _ _ W2)). }
  rewrite Forall_forall in HP2. rewrite <- Ha. by apply HP2.
Qed.

Lemma mlm_auth_req_pre c req c' : lim_process_mlm_auth_req c req = Some c' → pre c' = pre c.
Proof.
  unfold lim_process_mlm_auth_req. destruct (negb _); [by intros [= <-]|].
  destruct (negb _); [by intros [= <-]|].
  destruct (lim_is_preauth_ctx_exists _ _) as [b|]; cbn [mbind option_bind]; [|done].
  destruct b; [by intros [= <-]|]. destruct (_ =? _); [by intros [= <-]|].
  set (c1 := lim_send_auth_mgmt_frame _ _ _). assert (pre c1 = pre c) as E1 by (unfold c1; by rewrite send_pre). clearbody c1.
  destruct (activate_ok e); [by intros [= <-]|].
  unfold lim_process_auth_failure_timeout. intros H.
  assert (∀ c2 r st, pre c2 = pre c → lim_restore_from_auth_state c2 r st = Some c' → pre c' = pre c) as Hre.
  { intros c2 r st E2. unfold lim_restore_from_auth_state. destruct (gpLimMlmAuthReq c2); [|done].
    destruct (bool_decide _); by intros [= <-]. }
  destruct (limMlmState _); try (by injection H as <-); (eapply Hre; [|exact H]); by destruct (_ && _).
Qed.

Lemma failure_timeout_keeps P c c' : lim_process_auth_failure_timeout c = Some c' → keeps P c c'.
Proof.
  unfold lim_process_auth_failure_timeout.
  destruct (limMlmState _); try (intros [= <-]; apply keeps_refl);
    (apply keeps_restore; destruct (_ && _); [apply keeps_same_pre with c; [done|]|]; apply keeps_refl).
Qed.

Lemma rsp_timeout_keeps P c idx c' :
  timerless P → (∀ n, PreAuth.mlmState n ≠ eLIM_MLM_AUTHENTICATED_STATE → P n) →
  lim_process_auth_rsp_timeout c idx = Some c' → keeps P c c'.
Proof.
  intros HT HP. unfold lim_process_auth_rsp_timeout.
  destruct (lim_get_pre_auth_node_from_index _ _) as [i|]; [|intros [= <-]; apply keeps_refl].
  destruct (negb _); [intros [= <-]; apply keeps_refl|].
  destruct (_ || _); [|intros [= <-]; apply keeps_refl].
  destruct (negb _); [intros [= <-]; apply keeps_refl|].
  set (c1 := upd_pnode c i _).
  assert (keeps P c c1) as K1 by (apply keeps_update; try done; [apply keeps_refl|intros n _; by apply HP]).
  set (c2 := deactivate_auth_rsp_timer c1 _).
  assert (keeps P c c2) as K2 by by apply keeps_timer.
  destruct (lim_delete_pre_auth_node _ _) as [p|] eqn:Ed; cbn [mbind option_bind]; [|done].
  intros [= <-]. by eapply keeps_delete.
Qed.

(** ** What goes on the air *)

Lemma length_body_bytes f : length (body_bytes f) = (8 + length (challenge f))%nat.
Proof. done. Qed.

(** A frame 2 that is neither an open-system nor a refused shared-key one carries
    the whole structure. *)
Lemma send_full_frame2 c f peer :
  alloc_ok e = true → authTransactionSeqNumber f = SIR_MAC_AUTH_FRAME_2 →
  authAlgoNumber f ≠ eSIR_OPEN_SYSTEM →
  (authAlgoNumber f = eSIR_SHARED_KEY → authStatusCode f = eSIR_MAC_SUCCESS_STATUS) →
  length (challenge f) = 128%nat →
  events (lim_send_auth_mgmt_frame c (inl f) peer) =
  events c ++ [TxAuth peer LIM_NO_WEP_IN_FC (body_bytes f)].
Proof.
  intros Ha Hs Ho Hk Hl. unfold lim_send_auth_mgmt_frame, auth_mgmt_body. rewrite Hs, Ha. cbn [Z.eqb orb andb].
  change (SIR_MAC_AUTH_FRAME_2 =? SIR_MAC_AUTH_FRAME_1) with false.
  change (SIR_MAC_AUTH_FRAME_2 =? SIR_MAC_AUTH_FRAME_3) with false.
  change (SIR_MAC_AUTH_FRAME_2 =? SIR_MAC_AUTH_FRAME_4) with false.
  rewrite Z.eqb_refl. cbn [orb andb negb].
  rewrite (proj2 (Z.eqb_neq _ _) Ho). cbn [orb].
  destruct (Z.eqb_spec (authAlgoNumber f) eSIR_SHARED_KEY) as [E|_]; [rewrite (Hk E), Z.eqb_refl|];
    cbn [negb andb]; rewrite app_nil_r, zread_0_all by
      (rewrite length_body_bytes, Hl; done);
    by destruct (tx_ok e).
Qed.

(** The strength of the challenge.  The challenge an access point stores and
    sends holds only [sizeof(uint8_t * )] bytes of the random text that was
    drawn for it; the rest is what the context node held before (zeros for a
    node used for the first time). *)
Theorem challenge_is_pointer_sized c h rx p i ids stale txt :
  pre_wf (pre c) ids →
  LIM_IS_AP_ROLE (role c) = true → u8 (sessPrivacy (sess c)) ≠ 0 →
  authAlgoNumber rx = eSIR_SHARED_KEY → authTransactionSeqNumber rx = SIR_MAC_AUTH_FRAME_1 →
  lim_acquire_free_pre_auth_node (pre c) = (p, Some i) →
  change_context_ok e = true → alloc_ok e = true → rand e = Some txt →
  challengeText (pnode (pre c) i) = stale → length stale = 128%nat → length txt = 128%nat →
  0 <= sizeof_ptr e <= 128 →
  let k := Z.to_nat (sizeof_ptr e) in
  ∃ c', lim_process_auth_shared_system_algo c h rx = Some c' ∧
    challengeText (pnode (pre c') i) = take k txt ++ drop k stale ∧
    events c' = events c ++
      [TxAuth (sa h) LIM_NO_WEP_IN_FC
         (le2 eSIR_SHARED_KEY ++ le2 SIR_MAC_AUTH_FRAME_2 ++ le2 eSIR_MAC_SUCCESS_STATUS ++
          [SIR_MAC_CHALLENGE_TEXT_EID; SIR_MAC_AUTH_CHALLENGE_LENGTH] ++ take k txt ++ drop k stale)].
Proof.
  intros Hwf Hr Hpr Ha Hs Hq Hcc Hal Hrand Hst Hls Hlt Hk k.
  unfold lim_process_auth_shared_system_algo. rewrite Hr, (proj2 (Z.eqb_neq _ _) Hpr), Hq, Hcc, Hrand.
  cbn [read_clock negb].
  match goal with |- context [upd_pnode ?c0 i ?fill <| pre ::= _ |>] =>
    set (c3 := upd_pnode c0 i fill <| pre ::= λ p0, lim_add_pre_auth_node p0 i |>);
    destruct (wf_acquire_add (pre c) ids fill p i Hwf) as (Hi & _ & _ & Hp1 & Hp & _ & Hn & _); [done|done|] end.
  assert (numEntry (pre c3) = numEntry (pre c)) as Hn3 by exact Hn.
  assert (challengeText (pnode (pre c3) i) = stale) as Hs3.
  { transitivity (challengeText (pnode p i)); [exact (f_equal challengeText Hp)|]. rewrite Hp1. exact Hst. }
  clear Hp Hn. set (g := λ n : tLimPreAuthNode, _ <| challengeText ::= _ |>).
  assert (challengeText (pnode (pre (upd_pnode c3 i g)) i) = take k txt ++ drop k stale) as Hch.
  { change (pre (upd_pnode c3 i g)) with (set_pnode (pre c3) i (g (pnode (pre c3) i))).
    rewrite pnode_set, Z.eqb_refl by lia.
    change (zwrite (challengeText (pnode (pre c3) i)) 0 (zread txt 0 (sizeof_ptr e)) = take k txt ++ drop k stale).
    rewrite Hs3. unfold zread. cbn [Z.to_nat]. rewrite drop_0. fold k.
    rewrite zwrite_0 by (rewrite length_take; lia). do 2 f_equal. rewrite length_take. lia. }
  rewrite Hch, zread_0_all by (rewrite length_app, length_take, length_drop; unfold SIR_MAC_AUTH_CHALLENGE_LENGTH; lia).
  eexists. split; [reflexivity|]. rewrite send_pre. split; [exact Hch|].
  rewrite send_full_frame2; [|done|by cbn; rewrite Hs|by cbn; rewrite Ha|done|].
  - unfold body_bytes. cbn [authAlgoNumber authTransactionSeqNumber authStatusCode eid eid_length challenge set_field].
    cbn. rewrite Ha, Hs. done.
  - cbn. rewrite length_app, length_take, length_drop. lia.
Qed.

(** The answer to an unsupported algorithm.  A first frame asking for an
    algorithm other than open-system and shared-key is refused with status 13,
    but the refusal carries 130 bytes of the uninitialised local variable
    [auth_frame] of [lim_process_auth_frame]. *)
Theorem unsupported_algo_reply c h rx seq :
  dph_lookup_hash_entry (dphHashTable (sess c)) (sa h) = Some None →
  lim_search_pre_auth_list (pre c) (sa h) = Some None →
  gLimNumPreAuthContexts (pre c) ≠ cfg_int_or c WNI_CFG_MAX_NUM_PRE_AUTH (val_stack e) →
  lim_get_session_by_macaddr c (sa h) = false →
  authTransactionSeqNumber rx = SIR_MAC_AUTH_FRAME_1 →
  authAlgoNumber rx ≠ eSIR_OPEN_SYSTEM → authAlgoNumber rx ≠ eSIR_SHARED_KEY →
  alloc_ok e = true → length (challenge (frame_stack e)) = 128%nat →
  ∃ c', lim_process_auth_frame_type1 c h rx seq = Some c' ∧ pre c' = pre c ∧
    events c' = events c ++
      [TxAuth (sa h) LIM_NO_WEP_IN_FC
         (le2 (authAlgoNumber rx) ++ le2 SIR_MAC_AUTH_FRAME_2 ++ le2 eSIR_MAC_AUTH_ALGO_NOT_SUPPORTED_STATUS ++
          [eid (frame_stack e); eid_length (frame_stack e)] ++ challenge (frame_stack e))].
Proof.
  intros Hd Hse Hm Hss Hs Ho Hk Hal Hl.
  exists (reply_next c h rx eSIR_MAC_AUTH_ALGO_NOT_SUPPORTED_STATUS). split; [|split].
  - unfold lim_process_auth_frame_type1, type1_known_station. rewrite Hd. cbn [mbind option_bind].
    unfold type1_known_context. rewrite Hse. cbn [mbind option_bind].
    unfold type1_new_context. rewrite (proj2 (Z.eqb_neq _ _) Hm). cbn [mbind option_bind].
    rewrite Hss, (proj2 (Z.eqb_neq _ _) Ho), (proj2 (Z.eqb_neq _ _) Hk).
    by destruct (lim_is_auth_algo_supported c (authAlgoNumber rx)).
  - apply send_pre.
  - unfold reply_next, reply. rewrite send_full_frame2; [|done|by cbn; rewrite Hs|done|done|done].
    unfold body_bytes. cbn. rewrite Hs. done.
Qed.
End handlers.

#[global] Arguments lim_send_auth_mgmt_frame : simpl never.

(** ** The whole shared-key exchange *)

(** The generated parser on the two frame shapes of the exchange: fixed fields
    alone, and fixed fields with a challenge element of 128 bytes. *)
Definition parser_ok (unpack : list Z → option (Z * Z * Z * option (list Z))) : Prop :=
  ∀ algo seq st ch, is_u16 algo → is_u16 seq → is_u16 st → length ch = 128%nat →
    unpack (le2 algo ++ le2 seq ++ le2 st) = Some (algo, seq, st, None) ∧
    unpack (le2 algo ++ le2 seq ++ le2 st ++ [SIR_MAC_CHALLENGE_TEXT_EID; SIR_MAC_AUTH_CHALLENGE_LENGTH] ++ ch)
      = Some (algo, seq, st, Some ch).

(** The frames of the exchange. *)
Definition challenge_frame (ch : list Z) : list Z :=
  le2 eSIR_SHARED_KEY ++ le2 SIR_MAC_AUTH_FRAME_2 ++ le2 eSIR_MAC_SUCCESS_STATUS ++
  [SIR_MAC_CHALLENGE_TEXT_EID; SIR_MAC_AUTH_CHALLENGE_LENGTH] ++ ch.
Definition success_frame : list Z :=
  le2 eSIR_SHARED_KEY ++ le2 SIR_MAC_AUTH_FRAME_4 ++ le2 eSIR_MAC_SUCCESS_STATUS.
Definition response_body (ch : list Z) : tSirMacAuthFrameBody :=
  mk_auth_body eSIR_SHARED_KEY SIR_MAC_AUTH_FRAME_3 eSIR_MAC_SUCCESS_STATUS
    SIR_MAC_CHALLENGE_TEXT_EID SIR_MAC_AUTH_CHALLENGE_LENGTH ch.

Section handshake.
Context (unpack : list Z → option (Z * Z * Z * option (list Z))) (Hparser : parser_ok unpack).

Lemma convert_challenge ch :
  length ch = 128%nat →
  sir_convert_auth_frame2_struct unpack (challenge_frame ch) =
    Some (Some (mk_auth_body eSIR_SHARED_KEY SIR_MAC_AUTH_FRAME_2 eSIR_MAC_SUCCESS_STATUS
                  SIR_MAC_CHALLENGE_TEXT_EID SIR_MAC_AUTH_CHALLENGE_LENGTH ch)) ∧
  sir_convert_auth_frame2_struct unpack (body_bytes (response_body ch)) = Some (Some (response_body ch)) ∧
  sir_convert_auth_frame2_struct unpack success_frame =
    Some (Some (mk_auth_body eSIR_SHARED_KEY SIR_MAC_AUTH_FRAME_4 eSIR_MAC_SUCCESS_STATUS 0 0 (replicate 128 0))).
Proof.
  intros Hl.
  assert (zwrite (replicate 128 0) 0 ch = ch) as Hz.
  { rewrite zwrite_0 by (rewrite length_replicate; lia). rewrite Hl, drop_ge by (rewrite length_replicate; lia).
    apply app_nil_r. }
  assert (∀ seq, 0 <= seq < 5 →
    unpack (le2 eSIR_SHARED_KEY ++ le2 seq ++ le2 eSIR_MAC_SUCCESS_STATUS) =
      Some (eSIR_SHARED_KEY, seq, eSIR_MAC_SUCCESS_STATUS, None) ∧
    unpack (le2 eSIR_SHARED_KEY ++ le2 seq ++ le2 eSIR_MAC_SUCCESS_STATUS ++
            [SIR_MAC_CHALLENGE_TEXT_EID; SIR_MAC_AUTH_CHALLENGE_LENGTH] ++ ch) =
      Some (eSIR_SHARED_KEY, seq, eSIR_MAC_SUCCESS_STATUS, Some ch)) as Hp.
  { intros seq Hs. apply Hparser; [vm_compute; by split|red; lia|vm_compute; by split|done]. }
  unfold sir_convert_auth_frame2_struct. split_and!.
  - unfold challenge_frame. rewrite (proj2 (Hp SIR_MAC_AUTH_FRAME_2 ltac:(unfold SIR_MAC_AUTH_FRAME_2; lia))).
    rewrite Hl. unfold set_field. cbn -[replicate]. by rewrite Hz.
  - change (body_bytes (response_body ch)) with
      (le2 eSIR_SHARED_KEY ++ le2 SIR_MAC_AUTH_FRAME_3 ++ le2 eSIR_MAC_SUCCESS_STATUS ++
       [SIR_MAC_CHALLENGE_TEXT_EID; SIR_MAC_AUTH_CHALLENGE_LENGTH] ++ ch).
    rewrite (proj2 (Hp SIR_MAC_AUTH_FRAME_3 ltac:(unfold SIR_MAC_AUTH_FRAME_3; lia))).
    rewrite Hl. unfold set_field. cbn -[replicate]. by rewrite Hz.
  - unfold success_frame. by rewrite (proj1 (Hp SIR_MAC_AUTH_FRAME_4 ltac:(unfold SIR_MAC_AUTH_FRAME_4; lia))).
Qed.

(** A station waiting for frame 2, with a key. *)
Record station_ready (e : authEnv) (c : authCtx) (ap key : list Z) (kid : Z) (req : tLimMlmAuthReq) : Prop := {
  sr_role : limSystemRole (sess c) = eLIM_STA_ROLE;
  sr_p2p : is_p2p_client (sess c) = false;
  sr_state : limMlmState (sess c) = eLIM_MLM_WT_AUTH_FRAME2_STATE;
  sr_req : gpLimMlmAuthReq c = Some req;
  sr_peer : reqPeer req = ap;
  sr_type : reqAuthType req = eSIR_SHARED_KEY;
  sr_privacy : wlan_cfg_get_int (mac c) WNI_CFG_PRIVACY_ENABLED = Ok 1;
  sr_keyid : wlan_cfg_get_int (mac c) WNI_CFG_WEP_DEFAULT_KEYID = Ok kid;
  sr_key : wlan_cfg_get_str (mac c) (WNI_CFG_WEP_DEFAULT_KEY_1 + kid) SIR_MAC_KEY_LENGTH = Ok key;
  sr_alloc : alloc_ok e = true;
  sr_key_stack : length (key_stack e) = 13%nat;
  sr_seed : length (seed_stack e) = 16%nat;
  sr_plain : length (plain_stack e) = 256%nat;
}.

(** An access point with the same key, waiting for the response of [sta]. *)
Record ap_waiting (e : authEnv) (c : authCtx) (sta key ch : list Z) (kid i : Z) : Prop := {
  aw_role : limSystemRole (sess c) = eLIM_AP_ROLE;
  aw_p2p : is_p2p_client (sess c) = false;
  aw_tkip : bTkipCntrMeasActive (sess c) = false;
  aw_state : limMlmState (sess c) ≠ eLIM_MLM_WT_AUTH_FRAME4_STATE;
  aw_privacy : u8 (sessPrivacy (sess c)) ≠ 0;
  aw_key : ∃ k, zget (WEPKeyMaterial (sess c)) kid = (Z.of_nat (length key), k) ∧
                zread k 0 (Z.of_nat (length key)) = key;
  aw_found : lim_search_pre_auth_list (pre c) sta = Some (Some i);
  aw_range : 0 <= i < numEntry (pre c);
  aw_wait : PreAuth.mlmState (pnode (pre c) i) = eLIM_MLM_WT_AUTH_FRAME3_STATE;
  aw_challenge : challengeText (pnode (pre c) i) = ch;
  aw_alloc : alloc_ok e = true;
  aw_key_stack : length (key_stack e) = 13%nat;
  aw_seed : length (seed_stack e) = 16%nat;
  aw_plain : length (plain_stack e) = 256%nat;
}.

Lemma length_challenge_frame ch : length ch = 128%nat → length (challenge_frame ch) = 136%nat.
Proof. intros Hl. unfold challenge_frame. rewrite !length_app, Hl. done. Qed.

(** The receiver up to the dispatch, for a frame in the clear. *)
Lemma receive_clear e c h frame rx :
  wep h = 0 → lim_is_group_addr (sa h) = false → is_p2p_client (sess c) = false → frame ≠ [] →
  sir_convert_auth_frame2_struct unpack frame = Some (Some rx) → is_auth_valid c rx = true →
  lim_process_auth_frame unpack e c h frame (Z.of_nat (length frame)) =
  dispatch e c h rx frame (Z.of_nat (length frame)) (hdr_seq h).
Proof.
  intros Hw Hg Hp Hn Hc Hv. unfold lim_process_auth_frame.
  destruct (Z.eqb_spec (Z.of_nat (length frame)) 0) as [E|_]; [destruct frame; cbn in E; [done|lia]|].
  rewrite Hg, Hp, Hw. cbn [andb negb Z.eqb mbind option_bind].
  rewrite zread_0_all by lia. rewrite Hc. cbn [mbind option_bind]. by rewrite Hv.
Qed.

(** The station answers the challenge. *)
Lemma station_answers e c ap key kid req h ch :
  station_ready e c ap key kid req → 0 <= kid < 4 → (length key <= 13)%nat → length ch = 128%nat →
  sa h = ap → wep h = 0 → lim_is_group_addr ap = false →
  let kbuf := zwrite (key_stack e) 0 key in
  let plain := zwrite (plain_stack e) 0 (body_bytes (response_body ch)) in
  ∀ plain1 encr,
    lim_encrypt_auth_frame (seed_stack e) kid kbuf plain (Z.of_nat (length key)) = Some (plain1, encr) →
    lim_process_auth_frame unpack e c h (challenge_frame ch) 136 =
      Some (lim_send_auth_mgmt_frame e (upd_sess c (λ s, s <| limMlmState := eLIM_MLM_WT_AUTH_FRAME4_STATE |>))
              (inr encr) ap).
Proof.
  intros [] Hkid Hkl Hch Hsa Hw Hg kbuf plain plain1 encr He.
  destruct (convert_challenge ch Hch) as (Hc & _ & _).
  assert (is_auth_valid c (mk_auth_body eSIR_SHARED_KEY SIR_MAC_AUTH_FRAME_2 eSIR_MAC_SUCCESS_STATUS
    SIR_MAC_CHALLENGE_TEXT_EID SIR_MAC_AUTH_CHALLENGE_LENGTH ch) = true) as Hv
    by (unfold is_auth_valid, role; by rewrite sr_role0).
  assert (Z.of_nat (length (challenge_frame ch)) = 136) as Hlen by (by rewrite length_challenge_frame).
  pose proof (receive_clear e c h (challenge_frame ch) _ Hw ltac:(by rewrite Hsa) sr_p2p0 ltac:(done) Hc Hv) as Hr.
  rewrite Hlen in Hr. rewrite Hr. unfold dispatch. rewrite sr_state0.
  change (bool_decide (eLIM_MLM_WT_AUTH_FRAME2_STATE = eLIM_MLM_WT_AUTH_FRAME4_STATE)) with false. cbn [andb].
  cbn [authTransactionSeqNumber]. change (SIR_MAC_AUTH_FRAME_2 =? SIR_MAC_AUTH_FRAME_1) with false.
  rewrite Z.eqb_refl. unfold lim_process_auth_frame_type2. rewrite sr_state0.
  rewrite bool_decide_eq_true_2 by done. cbn [negb]. rewrite sr_req0, sr_peer0, Hsa.
  rewrite bool_decide_eq_true_2 by done. cbn [negb authStatusCode].
  change (eSIR_MAC_SUCCESS_STATUS =? eSIR_MAC_AUTH_ALGO_NOT_SUPPORTED_STATUS) with false. cbn [andb].
  rewrite sr_type0. cbn [authAlgoNumber authStatusCode]. rewrite !Z.eqb_refl. cbn [negb].
  change (eSIR_SHARED_KEY =? eSIR_OPEN_SYSTEM) with false.
  unfold type2_shared_key, cfg_int_or, role. rewrite sr_role0, sr_privacy0, sr_keyid0.
  change (LIM_IS_AP_ROLE eLIM_STA_ROLE) with false. cbn [eid]. rewrite Z.eqb_refl.
  change (u8 1 =? 0) with false. cbn [negb]. rewrite u8_small by (red; lia).
  unfold default_key, role. rewrite sr_role0, sr_key0.
  change (LIM_IS_AP_ROLE eLIM_STA_ROLE) with false. cbn [mbind option_bind].

  assert (frame3_body (mk_auth_body eSIR_SHARED_KEY SIR_MAC_AUTH_FRAME_2 eSIR_MAC_SUCCESS_STATUS
    SIR_MAC_CHALLENGE_TEXT_EID SIR_MAC_AUTH_CHALLENGE_LENGTH ch) = response_body ch) as ->.
  { unfold frame3_body, response_body. cbn [authAlgoNumber authTransactionSeqNumber challenge].
    rewrite zread_0_all by (unfold SIR_MAC_AUTH_CHALLENGE_LENGTH; lia). done. }
  fold kbuf plain. rewrite He. cbn [mbind option_bind]. by rewrite Hsa.
Qed.

Lemma search_timer c k a :
  lim_search_pre_auth_list (pre (deactivate_auth_rsp_timer c k)) a = lim_search_pre_auth_list (pre c) a.
Proof.
  unfold lim_search_pre_auth_list.
  assert (length (pTable (pre (deactivate_auth_rsp_timer c k))) = length (pTable (pre c)) ∧
          pLimPreAuthList (pre (deactivate_auth_rsp_timer c k)) = pLimPreAuthList (pre c)) as [-> ->].
  { unfold deactivate_auth_rsp_timer. destruct (lim_get_pre_auth_node_from_index _ _); [|done].
    cbn. by rewrite length_zset. }
  erewrite find_node_ext; [reflexivity| |].
  - intros x. unfold pnode_next. by apply (field_timer next).
  - intros q x. unfold peer_is. by rewrite (field_timer peerMacAddr).
Qed.

Lemma pnode_upd c i g :
  0 <= i < numEntry (pre c) → pnode (pre (upd_pnode c i g)) i = g (pnode (pre c) i).
Proof. intros Hi. change (pnode (set_pnode (pre c) i (g (pnode (pre c) i))) i = g (pnode (pre c) i)).
  by rewrite pnode_set, Z.eqb_refl by lia. Qed.

Lemma numEntry_timer c k : numEntry (pre (deactivate_auth_rsp_timer c k)) = numEntry (pre c).
Proof.
  unfold deactivate_auth_rsp_timer. destruct (lim_get_pre_auth_node_from_index _ _); [|done].
  apply numEntry_set.
Qed.
Lemma timer_frame c k :
  sess (deactivate_auth_rsp_timer c k) = sess c ∧ mac (deactivate_auth_rsp_timer c k) = mac c ∧
  events (deactivate_auth_rsp_timer c k) = events c.
Proof. unfold deactivate_auth_rsp_timer. by destruct (lim_get_pre_auth_node_from_index _ _). Qed.

(** The access point recognises the response. *)
Lemma ap_accepts e c sta key ch kid i h encr :
  ap_waiting e c sta key ch kid i → (length key <= 13)%nat → length ch = 128%nat →
  sa h = sta → wep h ≠ 0 → lim_is_group_addr sta = false →
  Z.shiftr (zget encr 3) 6 = kid →
  (∃ k out, zwrite (key_stack e) 0 key = k ∧
    lim_decrypt_auth_frame (seed_stack e) k encr (plain_stack e) (Z.of_nat (length key)) 140 =
      Some (eSIR_SUCCESS, out) ∧ zread out 0 136 = body_bytes (response_body ch)) →
  ∃ c1, lim_process_auth_frame unpack e c h encr 144 = Some (reply_frame4 e c1 h eSIR_MAC_SUCCESS_STATUS) ∧
    PreAuth.mlmState (pnode (pre c1) i) = eLIM_MLM_AUTHENTICATED_STATE ∧
    peerMacAddr (pnode (pre c1) i) = peerMacAddr (pnode (pre c) i) ∧
    sess c1 = sess c ∧ mac c1 = mac c ∧ events c1 = events c.
Proof.
  intros [] Hkl Hch Hsa Hw Hg Hkid (k & out & Hk & Hd & Hout).
  destruct (convert_challenge ch Hch) as (_ & Hc & _).
  unfold lim_process_auth_frame. change (144 =? 0) with false. cbv iota.
  rewrite Hsa, Hg, aw_p2p0. cbn [andb]. rewrite (proj2 (Z.eqb_neq _ _) Hw). cbn [negb].
  set (c1 := deactivate_auth_rsp_timer c (authNodeIdx (pnode (pre c) i))).
  assert (wep_body e c h encr 144 = Some (c1, Some (body_bytes (response_body ch)))) as ->.
  { unfold wep_body, role. rewrite aw_tkip0, aw_role0. cbn [andb].
    change (LIM_IS_STA_ROLE eLIM_AP_ROLE) with false. change (LIM_IS_AP_ROLE eLIM_AP_ROLE) with true.
    change (144 <? LIM_ENCR_AUTH_BODY_LEN) with false. cbv iota.
    rewrite (proj2 (Z.eqb_neq _ _) aw_privacy0), Hsa, aw_found0. cbn [mbind option_bind]. fold c1.
    rewrite (bool_decide_eq_true_2 (PreAuth.mlmState (pnode (pre c) i) = _)) by done. cbn [negb andb].
    rewrite Hkid. unfold default_key, role. destruct (timer_frame c (authNodeIdx (pnode (pre c) i))) as (Es & _ & _).
    fold c1 in Es. rewrite Es, aw_role0. change (LIM_IS_AP_ROLE eLIM_AP_ROLE) with true. cbv iota.
    destruct aw_key0 as (kk & -> & Hkk). rewrite (proj2 (Z.ltb_ge _ _)) by (unfold SIR_MAC_KEY_LENGTH; lia).
    cbn [mbind option_bind]. rewrite Hkk, Hk. change (u16 (144 - SIR_MAC_WEP_IV_LENGTH)) with 140.
    rewrite Hd. cbn [mbind option_bind]. rewrite bool_decide_eq_false_2 by done.
    change (144 - 8) with 136. by rewrite Hout. }
  cbn [mbind option_bind]. rewrite Hc. cbn [mbind option_bind].
  destruct (timer_frame c (authNodeIdx (pnode (pre c) i))) as (Es & Em & Ee). fold c1 in Es, Em, Ee.
  assert (is_auth_valid c1 (response_body ch) = true) as ->
    by (unfold is_auth_valid, role; by rewrite Es, aw_role0).
  unfold dispatch. rewrite Es, (bool_decide_eq_false_2 (limMlmState (sess c) = _)) by done. cbn [andb].
  change (authTransactionSeqNumber (response_body ch)) with SIR_MAC_AUTH_FRAME_3.
  change (SIR_MAC_AUTH_FRAME_3 =? SIR_MAC_AUTH_FRAME_1) with false.
  change (SIR_MAC_AUTH_FRAME_3 =? SIR_MAC_AUTH_FRAME_2) with false. rewrite Z.eqb_refl. cbv iota.
  unfold lim_process_auth_frame_type3, role. rewrite Es, aw_role0.
  change (authAlgoNumber (response_body ch)) with eSIR_SHARED_KEY. rewrite Z.eqb_refl. cbn [negb].
  change (LIM_IS_AP_ROLE eLIM_AP_ROLE) with true. cbn [orb]. rewrite (proj2 (Z.eqb_neq _ _) Hw).
  unfold c1. rewrite search_timer, Hsa, aw_found0. cbn [mbind option_bind]. fold c1.
  assert (PreAuth.mlmState (pnode (pre c1) i) = eLIM_MLM_WT_AUTH_FRAME3_STATE) as Est1
    by (unfold c1; by rewrite (field_timer PreAuth.mlmState)).
  assert (challengeText (pnode (pre c1) i) = ch) as Ech1
    by (unfold c1; by rewrite (field_timer challengeText)).
  rewrite (bool_decide_eq_false_2 (PreAuth.mlmState _ = _)) by (rewrite Est1; done).
  change (authStatusCode (response_body ch)) with eSIR_MAC_SUCCESS_STATUS. rewrite Z.eqb_refl. cbn [negb].
  change (challenge (response_body ch)) with ch. rewrite Ech1, bool_decide_eq_true_2 by done.
  set (c2 := deactivate_auth_rsp_timer c1 (authNodeIdx (pnode (pre c1) i))).
  eexists. split; [reflexivity|].
  assert (0 <= i < numEntry (pre c2)) as Hi2 by (unfold c2, c1; by rewrite !numEntry_timer).
  rewrite pnode_upd by done. split; [done|]. cbn.
  destruct (timer_frame c1 (authNodeIdx (pnode (pre c1) i))) as (Es2 & Em2 & Ee2). fold c2 in Es2, Em2, Ee2.
  split; [|split_and!; congruence]. unfold c2, c1. by rewrite !(field_timer peerMacAddr).
Qed.

Lemma send_encrypted e c (encr : list Z) peer :
  alloc_ok e = true → length encr = 144%nat →
  let c' := lim_send_auth_mgmt_frame e c (inr encr) peer in
  events c' = events c ++ [TxAuth peer LIM_WEP_IN_FC encr] ∧ pre c' = pre c ∧ sess c' = sess c ∧
  gpLimMlmAuthReq c' = gpLimMlmAuthReq c.
Proof.
  intros Ha Hl. unfold lim_send_auth_mgmt_frame. rewrite Ha.
  rewrite zread_0_all by (change LIM_ENCR_AUTH_BODY_LEN with 144; lia). cbn [negb]. by destruct (tx_ok e).
Qed.

Lemma send_success e c h :
  alloc_ok e = true →
  events (reply_frame4 e c h eSIR_MAC_SUCCESS_STATUS) = events c ++ [TxAuth (sa h) LIM_NO_WEP_IN_FC success_frame].
Proof.
  intros Ha. unfold reply_frame4, reply, lim_send_auth_mgmt_frame. rewrite Ha.
  change (auth_mgmt_body c (auth_frame e eSIR_SHARED_KEY SIR_MAC_AUTH_FRAME_4 eSIR_MAC_SUCCESS_STATUS))
    with (Some (success_frame ++ [])). cbn [negb]. rewrite app_nil_r. by destruct (tx_ok e).
Qed.

(** The station takes the success. *)
Lemma station_accepts e c h req p j (ch : list Z) :
  limSystemRole (sess c) = eLIM_STA_ROLE → is_p2p_client (sess c) = false →
  limMlmState (sess c) = eLIM_MLM_WT_AUTH_FRAME4_STATE → gpLimMlmAuthReq c = Some req →
  reqAuthType req = eSIR_SHARED_KEY → sa h = reqPeer req → wep h = 0 → lim_is_group_addr (sa h) = false →
  lim_acquire_free_pre_auth_node (pre c) = (p, Some j) → length ch = 128%nat →
  ∃ c', lim_process_auth_frame unpack e c h success_frame 6 = Some c' ∧
    events c' = events c ++ [StopTimers; AuthCnf (reqPeer req) eSIR_SHARED_KEY eSIR_SME_SUCCESS
                                           eSIR_MAC_SUCCESS_STATUS (peSessionId (sess c))] ∧
    limMlmState (sess c') = limPrevMlmState (sess c) ∧ limCurrentAuthType (sess c') = eSIR_SHARED_KEY ∧
    gpLimMlmAuthReq c' = None.
Proof.
  intros Hr Hp Hs Hq Ht Hsa Hw Hg Ha Hch. destruct (convert_challenge ch Hch) as (_ & _ & Hc).
  set (rx := mk_auth_body _ _ _ _ _ _) in Hc.
  assert (is_auth_valid c rx = true) as Hv by (unfold is_auth_valid, role; by rewrite Hr).
  pose proof (receive_clear e c h success_frame rx Hw Hg Hp ltac:(done) Hc Hv) as Hrec.
  change (Z.of_nat (length success_frame)) with 6 in Hrec. rewrite Hrec. clear Hrec.
  unfold dispatch. rewrite Hs, bool_decide_eq_true_2 by done.
  change (authTransactionSeqNumber rx) with SIR_MAC_AUTH_FRAME_4.
  change (SIR_MAC_AUTH_FRAME_4 =? SIR_MAC_AUTH_FRAME_1) with false.
  change (SIR_MAC_AUTH_FRAME_4 =? SIR_MAC_AUTH_FRAME_2) with false.
  change (SIR_MAC_AUTH_FRAME_4 =? SIR_MAC_AUTH_FRAME_3) with false. cbn [negb andb].
  change (rx <| authTransactionSeqNumber := SIR_MAC_AUTH_FRAME_4 |>) with rx. change (authTransactionSeqNumber rx) with SIR_MAC_AUTH_FRAME_4.
  change (SIR_MAC_AUTH_FRAME_4 =? SIR_MAC_AUTH_FRAME_1) with false.
  change (SIR_MAC_AUTH_FRAME_4 =? SIR_MAC_AUTH_FRAME_2) with false.
  change (SIR_MAC_AUTH_FRAME_4 =? SIR_MAC_AUTH_FRAME_3) with false. rewrite Z.eqb_refl. cbv iota.
  unfold lim_process_auth_frame_type4. rewrite Hs, bool_decide_eq_true_2 by done. cbn [negb].
  change (authAlgoNumber rx) with eSIR_SHARED_KEY. rewrite Hq, Hsa, bool_decide_eq_true_2, Ht by done.
  change (eSIR_SHARED_KEY =? eSIR_SHARED_KEY) with true. cbn [negb].
  change (authStatusCode rx) with eSIR_MAC_SUCCESS_STATUS. rewrite Z.eqb_refl.
  unfold add_requested_context. cbn [pre upd_sess set_field]. rewrite Ha. cbn [read_clock].
  unfold lim_restore_from_auth_state.
  match goal with |- context [gpLimMlmAuthReq ?c1] => change (gpLimMlmAuthReq c1) with (gpLimMlmAuthReq c) end.
  rewrite Hq. eexists. split; [reflexivity|].
  match goal with |- context [bool_decide ?P] => destruct (bool_decide P) end.
  - split_and!; [|done..]. cbn. rewrite <- app_assoc, Ht. reflexivity.
  - split_and!; [|done..]. cbn. rewrite <- app_assoc, Ht. reflexivity.
Qed.

(** The three exchanged frames, and what the two sides end in. *)
Record exchange (eS eS' eA : authEnv) (cS cA cS1 cA1 cS2 : authCtx) (h2 h3 h4 : tSirMacMgmtHdr)
    (ap sta key ch encr : list Z) (i : Z) : Prop := {
  ex_answer : lim_process_auth_frame unpack eS cS h2 (challenge_frame ch) 136 = Some cS1;
  ex_answer_tx : events cS1 = events cS ++ [TxAuth ap LIM_WEP_IN_FC encr];
  ex_accept : lim_process_auth_frame unpack eA cA h3 encr (Z.of_nat (length encr)) = Some cA1;
  ex_accept_tx : events cA1 = events cA ++ [TxAuth sta LIM_NO_WEP_IN_FC success_frame];
  ex_authenticated : PreAuth.mlmState (pnode (pre cA1) i) = eLIM_MLM_AUTHENTICATED_STATE;
  ex_end : lim_process_auth_frame unpack eS' cS1 h4 success_frame (Z.of_nat (length success_frame)) = Some cS2;
  ex_end_cnf : events cS2 = events cS1 ++
    [StopTimers; AuthCnf ap eSIR_SHARED_KEY eSIR_SME_SUCCESS eSIR_MAC_SUCCESS_STATUS (peSessionId (sess cS))];
  ex_state : limMlmState (sess cS2) = limPrevMlmState (sess cS);
  ex_type : limCurrentAuthType (sess cS2) = eSIR_SHARED_KEY;
  ex_done : gpLimMlmAuthReq cS2 = None;
}.

Lemma shift_kid kid : 0 <= kid < 4 → Z.shiftr (u8 (Z.shiftl kid 6)) 6 = kid.
Proof. intros H. assert (kid = 0 ∨ kid = 1 ∨ kid = 2 ∨ kid = 3) as [->|[->|[->| ->]]] by lia; done. Qed.

(** C30: the shared-key exchange succeeds.  A station that waits for frame 2 and
    an access point that waits for frame 3 of the station, with the same
    default key (up to 13 bytes) under the same key id: the station answers the
    challenge with one encrypted frame, the access point decrypts it, recognises
    the challenge, marks the context authenticated and answers with success,
    and the station confirms success to the upper layer, with its state before
    the exchange restored and no request pending.  Frame 4 is six bytes long, without
    a challenge text: the check of frames lets it pass, although its comment asks
    for one.  The uninitialised buffers and the clocks of the two sides are
    arbitrary. *)
Theorem shared_key_handshake eS eS' eA cS cA ap sta key ch kid req i h2 h3 h4 p j :
  station_ready eS cS ap key kid req → ap_waiting eA cA sta key ch kid i →
  0 <= kid < 4 → (length key <= 13)%nat → length ch = 128%nat →
  sa h2 = ap → wep h2 = 0 → sa h3 = sta → wep h3 ≠ 0 → sa h4 = ap → wep h4 = 0 →
  lim_is_group_addr ap = false → lim_is_group_addr sta = false →
  lim_acquire_free_pre_auth_node (pre cS) = (p, Some j) →
  ∃ cS1 cA1 cS2 encr, exchange eS eS' eA cS cA cS1 cA1 cS2 h2 h3 h4 ap sta key ch encr i.
Proof.
  intros HS HA Hkid Hkl Hch Hs2 Hw2 Hs3 Hw3 Hs4 Hw4 Hap Hsta Hroom.
  pose proof HS as []. pose proof HA as [].
  set (keyS := zwrite (key_stack eS) 0 key). set (plain := zwrite (plain_stack eS) 0 (body_bytes (response_body ch))).
  assert (length (body_bytes (response_body ch)) = 136%nat) as Hbl by (by rewrite length_body_bytes; cbn; rewrite Hch).
  assert (∀ st, length st = 13%nat → zread (zwrite st 0 key) 0 (Z.of_nat (length key)) = key) as Hkread.
  { intros st Hst. by rewrite zread_written, zread_0_all by lia. }
  destruct (encrypt_decrypt (seed_stack eS) (seed_stack eA) keyS plain (plain_stack eA) kid (Z.of_nat (length key)))
    as (plain1 & encr & He & Hel & Hid & Hd);
    [done|done|lia|unfold keyS; rewrite length_zwrite; lia|unfold plain; rewrite length_zwrite; lia|lia|].
  pose proof (station_answers eS cS ap key kid req h2 ch HS Hkid Hkl Hch Hs2 Hw2 Hap plain1 encr He) as Hstep1.
  set (cw := upd_sess cS _) in Hstep1.
  destruct (send_encrypted eS cw encr ap sr_alloc0 Hel) as (Hev1 & Hpre1 & Hsess1 & Hreq1).
  set (cS1 := lim_send_auth_mgmt_frame eS cw (inr encr) ap) in *.
  destruct (ap_accepts eA cA sta key ch kid i h3 encr HA Hkl Hch Hs3 Hw3 Hsta) as (cA1 & Hstep2 & Hauth & _ & _ & _ & HevA).
  { by rewrite Hid, shift_kid. }
  { exists (zwrite (key_stack eA) 0 key). eexists. split; [done|]. split.
    - rewrite (decrypt_key_ext _ _ _ keyS); [exact Hd|]. unfold keyS. by rewrite !Hkread.
    - rewrite (zread_message (seed_stack eS) (seed_stack eA) key plain (plain_stack eA))
        by (done || (unfold plain; rewrite ?length_zwrite; lia)).
      unfold plain. rewrite zread_written by lia. apply zread_0_all. lia. }
  destruct (station_accepts eS' cS1 h4 req p j ch) as (cS2 & Hstep3 & Hev3 & Hst & Hty & Hq);
    [by rewrite Hsess1|by rewrite Hsess1|by rewrite Hsess1|by rewrite Hreq1|done|by rewrite Hs4|done|by rewrite Hs4| |done|].
  { by rewrite Hpre1. }
  exists cS1, (reply_frame4 eA cA1 h3 eSIR_MAC_SUCCESS_STATUS), cS2, encr. split.
  - exact Hstep1.
  - exact Hev1.
  - by rewrite Hel.
  - rewrite send_success by done. by rewrite HevA, Hs3.
  - unfold reply_frame4, reply. rewrite send_pre. exact Hauth.
  - exact Hstep3.
  - rewrite Hev3, sr_peer0, Hsess1. done.
  - rewrite Hst, Hsess1. done.
  - done.
  - done.
Qed.
End handshake.
