(* ===== verification/AuthMachine.v ===== *)
(** The machine the authentication handlers form: any sequence of received
    frames, requests of the upper layer, failure timeouts and response timeouts
    on one session.  No handler touches memory it should not or loops, the pool
    of contexts stays well formed, and every accepted request gets exactly one
    confirmation. *)
From S2P Require Import Prelude Chains LimTypes CfgTable CfgApi DphHash WepAuth PreAuth AuthFrame.

(** A request is waiting for a frame of the peer. *)
Definition waiting (st : tLimMlmStates) : bool :=
  match st with
  | eLIM_MLM_WT_AUTH_FRAME2_STATE | eLIM_MLM_WT_AUTH_FRAME4_STATE => true
  | _ => false
  end.

(** The state, when it is not a waiting one. *)
Definition settled (st : tLimMlmStates) : option tLimMlmStates := if waiting st then None else Some st.

Definition is_cnf (ev : auth_event) : bool :=
  match ev with AuthCnf _ _ _ _ _ => true | _ => false end.
Definition confirmations (c : authCtx) : list auth_event := List.filter is_cnf (events c).

(** What the handlers leave alone while a request is pending or none is. *)
Definition fixed (c : authCtx) :=
  (limSystemRole (sess c), dphHashTable (sess c), WEPKeyMaterial (sess c), limPrevMlmState (sess c),
   peSessionId (sess c)).
Definition quiet (c : authCtx) :=
  (fixed c, settled (limMlmState (sess c)), gpLimMlmAuthReq c, confirmations c).

(** The pending request is confirmed, once, and the state before it restored. *)
Definition confirmed (c c' : authCtx) : Prop :=
  waiting (limMlmState (sess c)) = true ∧ fixed c' = fixed c ∧ gpLimMlmAuthReq c' = None ∧
  limMlmState (sess c') = limPrevMlmState (sess c) ∧
  ∃ req result status, gpLimMlmAuthReq c = Some req ∧
    confirmations c' = confirmations c ++
      [AuthCnf (reqPeer req) (reqAuthType req) result status (peSessionId (sess c))].

(** A handler that returns without confirming, or that may confirm. *)
Definition stays (c : authCtx) (r : option authCtx) : Prop := ∃ c', r = Some c' ∧ quiet c' = quiet c.
Definition ends (c : authCtx) (r : option authCtx) : Prop :=
  ∃ c', r = Some c' ∧ (quiet c' = quiet c ∨ confirmed c c').

Definition any_context (n : tLimPreAuthNode) : Prop := True.
Definition well (c : authCtx) : Prop := ∃ l, pre_rep (pre c) l.

(** The invariant of the session. *)
Record auth_good (c : authCtx) : Prop := {
  ag_pre : well c;
  ag_dph : ∃ st, dph_rep (dphHashTable (sess c)) st;
  ag_keys : LIM_IS_AP_ROLE (role c) = true → ∀ k, 0 <= k < 4 → (zget (WEPKeyMaterial (sess c)) k).1 <= SIR_MAC_KEY_LENGTH;
  ag_prev : waiting (limPrevMlmState (sess c)) = false;
  ag_req : waiting (limMlmState (sess c)) = true → ∃ req, gpLimMlmAuthReq c = Some req;
}.

(** ** Contexts *)

Lemma well_keeps c c' : keeps any_context c c' → well c → well c'.
Proof.
  intros H [l Hl]. destruct (H l Hl) as (l' & Hl' & _); [by apply Forall_forall|]. by exists l'.
Qed.
Lemma any_timerless : timerless any_context.
Proof. done. Qed.

Lemma search_well c a : well c → ∃ r, lim_search_pre_auth_list (pre c) a = Some r.
Proof. intros (l & ids & Hwf & _). eexists. by apply wf_search. Qed.
Lemma delete_well c a : well c → ∃ p, lim_delete_pre_auth_node (pre c) a = Some p.
Proof. intros (l & ids & Hwf & _). destruct (wf_delete _ _ a Hwf) as (p & _ & H & _). by exists p. Qed.
Lemma expire_well c ticks k :
  well c → ∃ r, lim_delete_open_auth_pre_auth_node ticks k (pre c) = Some r.
Proof.
  intros (l & ids & Hwf & _). pose proof (wf_delete_open ticks k _ _ Hwf) as H.
  destruct (a_expire _ _ _) as [[l' k'] f]. destruct H as (p & _ & H & _). eexists. exact H.
Qed.

(** ** Steps that stay *)

Lemma settled_waiting s1 s2 : settled s1 = settled s2 → waiting s1 = waiting s2.
Proof. by destruct s1, s2. Qed.
Lemma settled_eq s1 s2 : settled s1 = settled s2 → waiting s2 = false → s1 = s2.
Proof. by destruct s1, s2. Qed.
Lemma quiet_waiting c c' : quiet c' = quiet c → waiting (limMlmState (sess c')) = waiting (limMlmState (sess c)).
Proof. unfold quiet. intros [= _ _ _ _ _ E _ _]. by apply settled_waiting. Qed.

Lemma stays_refl c : stays c (Some c).
Proof. by exists c. Qed.
Lemma stays_quiet c c' : quiet c' = quiet c → stays c (Some c').
Proof. intros H. by exists c'. Qed.
Lemma stays_ends c r : stays c r → ends c r.
Proof. intros (c' & H & Hq). exists c'. by split; [|left]. Qed.

Lemma confirmed_quiet_l c1 c2 c3 : quiet c2 = quiet c1 → confirmed c2 c3 → confirmed c1 c3.
Proof.
  intros Hq (Hw & Hf & Hn & Hs & req & r & st & Hr & Hc).
  pose proof (quiet_waiting _ _ Hq). unfold quiet in Hq. injection Hq as E1 E2 E3 E4 E5 E6 E7 E8.
  split_and!; try congruence.
  - rewrite Hf. unfold fixed. congruence.
  - exists req, r, st. split; congruence.
Qed.
Lemma confirmed_quiet_r c1 c2 c3 :
  waiting (limPrevMlmState (sess c1)) = false → confirmed c1 c2 → quiet c3 = quiet c2 → confirmed c1 c3.
Proof.
  intros Hp (Hw & Hf & Hn & Hs & req & r & st & Hr & Hc) Hq.
  unfold quiet in Hq. injection Hq as E1 E2 E3 E4 E5 E6 E7 E8. unfold fixed in *.
  assert (limMlmState (sess c3) = limMlmState (sess c2)) as Es by (apply settled_eq; [exact E6|by rewrite Hs]).
  injection Hf as F1 F2 F3 F4 F5.
  split; [done|]. split; [unfold fixed; congruence|]. split; [congruence|]. split; [congruence|].
  exists req, r, st. split; congruence.
Qed.
Lemma ends_quiet_l c1 c2 r : quiet c2 = quiet c1 → ends c2 r → ends c1 r.
Proof.
  intros Hq (c' & -> & [H|H]); exists c'; (split; [done|]); [left; congruence|right].
  by eapply confirmed_quiet_l.
Qed.
Lemma stays_quiet_l c1 c2 r : quiet c2 = quiet c1 → stays c2 r → stays c1 r.
Proof. intros Hq (c' & -> & H). exists c'. by rewrite H. Qed.

Lemma quiet_emit c ev : is_cnf ev = false → quiet (emit c ev) = quiet c.
Proof.
  intros H. unfold quiet, confirmations, emit. cbn. rewrite List.filter_app. cbn. rewrite H.
  by rewrite app_nil_r.
Qed.
Lemma quiet_send e c frame peer : quiet (lim_send_auth_mgmt_frame e c frame peer) = quiet c.
Proof.
  unfold lim_send_auth_mgmt_frame. destruct frame as [f|b].
  - destruct (auth_mgmt_body c f) as [b|]; [|done]. destruct (alloc_ok e); cbn [negb]; [|done].
    set (c1 := c <| auth_ack := _ |>). change (quiet c) with (quiet c1).
    rewrite <- (quiet_emit c1 (TxAuth peer LIM_NO_WEP_IN_FC b)) by done. by destruct (tx_ok e).
  - destruct (alloc_ok e); cbn [negb]; [|done].
    set (c1 := c <| auth_ack := _ |>). change (quiet c) with (quiet c1).
    match goal with |- context [emit c1 ?ev] => rewrite <- (quiet_emit c1 ev) by done end. by destruct (tx_ok e).
Qed.
Lemma quiet_send_of e c c' frame peer : quiet c' = quiet c → quiet (lim_send_auth_mgmt_frame e c' frame peer) = quiet c.
Proof. intros <-. apply quiet_send. Qed.
Lemma quiet_reply e c c' h a s st : quiet c' = quiet c → quiet (reply e c' h a s st) = quiet c.
Proof. apply quiet_send_of. Qed.
Lemma quiet_reply_next e c c' h rx st : quiet c' = quiet c → quiet (reply_next e c' h rx st) = quiet c.
Proof. apply quiet_send_of. Qed.
Lemma quiet_reply_frame4 e c c' h st : quiet c' = quiet c → quiet (reply_frame4 e c' h st) = quiet c.
Proof. apply quiet_send_of. Qed.
Lemma quiet_timer c c' k : quiet c' = quiet c → quiet (deactivate_auth_rsp_timer c' k) = quiet c.
Proof. intros <-. unfold deactivate_auth_rsp_timer. by destruct (lim_get_pre_auth_node_from_index _ _). Qed.
Create HintDb auth.
#[export] Hint Resolve stays_refl stays_quiet quiet_reply quiet_reply_next quiet_reply_frame4 quiet_timer : auth.

Section machine.
Context (unpack : list Z → option (Z * Z * Z * option (list Z))).
Implicit Types (e : authEnv) (c : authCtx) (h : tSirMacMgmtHdr) (rx : tSirMacAuthFrameBody).

(** *** Frame 1 *)

Lemma open_algo_quiet e c h rx : quiet (lim_process_auth_open_system_algo e c h rx) = quiet c.
Proof.
  unfold lim_process_auth_open_system_algo. destruct (lim_acquire_free_pre_auth_node (pre c)) as [p [i|]]; [|done].
  cbn [read_clock]. by apply quiet_reply_next.
Qed.

Lemma shared_algo_stays e c h rx : well c → stays c (lim_process_auth_shared_system_algo e c h rx).
Proof.
  intros Hwell. unfold lim_process_auth_shared_system_algo. destruct (u8 _ =? 0); [by auto with auth|].
  destruct (lim_acquire_free_pre_auth_node (pre c)) as [p [i|]] eqn:Ea; [|by auto with auth].
  cbn [read_clock].
  match goal with |- context [upd_pnode ?c0 i ?fill <| pre ::= _ |>] =>
    set (c3 := upd_pnode c0 i fill <| pre ::= λ p0, lim_add_pre_auth_node p0 i |>);
    assert (keeps any_context c c3) as H3
      by (eapply (keeps_add any_context c c p i fill); [apply keeps_refl|exact Ea|done|done|reflexivity]) end.
  assert (quiet c3 = quiet c) as Hq by done. clearbody c3.
  destruct (change_context_ok e); cbn [negb].
  - apply stays_quiet, quiet_send_of. exact Hq.
  - destruct (delete_well (reply_next e c3 h rx eSIR_MAC_UNSPEC_FAILURE_STATUS) (sa h)) as [p2 Hp2].
    { apply (well_keeps c); [|done]. by apply keeps_reply_next. }
    rewrite Hp2. cbn [mbind option_bind]. apply stays_quiet.
    exact (quiet_reply_next e c c3 h rx eSIR_MAC_UNSPEC_FAILURE_STATUS Hq).
Qed.

Lemma known_station_stays c h :
  (∃ st, dph_rep (dphHashTable (sess c)) st) → mac_wf (sa h) →
  ∃ c' over, type1_known_station c h = Some (c', over) ∧ quiet c' = quiet c.
Proof.
  intros [st Hst] Hm. unfold type1_known_station. rewrite (lookup_refines _ st) by done. cbn [mbind option_bind].
  destruct (st !! sa h) as [sta|]; cbn; [|by do 2 eexists].
  set (c1 := if bool_decide (_ = _) then emit c DisassocAckTimeout else c).
  assert (quiet c1 = quiet c) as H1 by (unfold c1; case_bool_decide; by rewrite ?quiet_emit).
  set (c2 := if bool_decide (pMlmDeauthReq c1 = _) then emit c1 DeauthAckTimeout else c1).
  assert (quiet c2 = quiet c) as H2 by (unfold c2; case_bool_decide; by rewrite ?quiet_emit).
  clearbody c1 c2. destruct (_ && _); do 2 eexists; (split; [reflexivity|]); [|done].
  unfold deauth_and_delete. by rewrite !quiet_emit.
Qed.

Lemma known_context_stays c h seq :
  well c → ∃ c' over, type1_known_context c h seq = Some (c', over) ∧ quiet c' = quiet c.
Proof.
  intros Hwell. unfold type1_known_context. destruct (search_well c (sa h) Hwell) as [r ->]. cbn [mbind option_bind].
  destruct r as [i|]; [|by do 2 eexists]. destruct (negb _); [by do 2 eexists|].
  set (c1 := if negb (fTimerStarted _ =? 0) then _ else _).
  assert (keeps any_context c c1 ∧ quiet c1 = quiet c) as [K1 Q1].
  { unfold c1. destruct (negb _); [|split; [apply keeps_refl|done]].
    split; [apply keeps_timer; [done|apply keeps_refl]|by apply quiet_timer]. }
  clearbody c1. destruct (delete_well c1 (sa h)) as [p ->]; [by apply (well_keeps c)|]. cbn [mbind option_bind].
  destruct (station_by_aid _ _) as [sta|]; [|by do 2 eexists].
  destruct (_ =? 0); do 2 eexists; (split; [reflexivity|]); [|done].
  unfold deauth_and_delete. rewrite !quiet_emit by done. exact Q1.
Qed.

Lemma new_context_stays e c h rx : well c → stays c (type1_new_context e c h rx).
Proof.
  intros Hwell. unfold type1_new_context.
  assert (∃ c1 full, (if gLimNumPreAuthContexts (pre c) =? cfg_int_or c WNI_CFG_MAX_NUM_PRE_AUTH (val_stack e) then
       match lim_delete_open_auth_pre_auth_node (ticks e) (reads c) (pre c) with
       | Some (p, k, freed) => Some (c <| pre := p |> <| reads := k |>, negb freed)
       | None => None
       end
     else Some (c, false)) = Some (c1, full) ∧ quiet c1 = quiet c ∧ well c1) as (c1 & full & -> & Q1 & W1).
  { destruct (_ =? _); [|by exists c, false].
    destruct (expire_well c (ticks e) (reads c) Hwell) as [[[p k] freed] E]. rewrite E.
    do 2 eexists. split; [reflexivity|]. split; [done|]. apply (well_keeps c); [|done].
    eapply keeps_expire; [apply keeps_refl|exact E]. }
  cbn [mbind option_bind]. destruct full; [by auto with auth|].
  destruct (lim_is_auth_algo_supported _ _); [|by auto with auth].
  destruct (lim_get_session_by_macaddr _ _); [by auto with auth|].
  destruct (_ =? eSIR_OPEN_SYSTEM); [apply stays_quiet; by rewrite open_algo_quiet|].
  destruct (_ =? eSIR_SHARED_KEY); [|by auto with auth].
  eapply stays_quiet_l; [exact Q1|by apply shared_algo_stays].
Qed.

Lemma type1_stays e c h rx seq :
  well c → (∃ st, dph_rep (dphHashTable (sess c)) st) → mac_wf (sa h) →
  stays c (lim_process_auth_frame_type1 e c h rx seq).
Proof.
  intros Hwell Hd Hm. unfold lim_process_auth_frame_type1.
  destruct (known_station_stays c h Hd Hm) as (c1 & o1 & E1 & Q1). rewrite E1. cbn [mbind option_bind].
  destruct o1; [by apply stays_quiet|].
  apply (known_station_keeps any_context) in E1 as [K1 _]. pose proof (well_keeps _ _ K1 Hwell) as W1.
  destruct (known_context_stays c1 h seq W1) as (c2 & o2 & E2 & Q2). rewrite E2. cbn [mbind option_bind].
  apply (known_context_keeps any_context) in E2 as [K2 _]; [|done]. pose proof (well_keeps _ _ K2 W1) as W2.
  destruct o2; [apply stays_quiet; congruence|].
  eapply stays_quiet_l; [|by apply new_context_stays]. congruence.
Qed.

(** *** The end of a request *)

Lemma restore_ends c c' req r st :
  quiet c' = quiet c → gpLimMlmAuthReq c = Some req → waiting (limMlmState (sess c)) = true →
  ends c (lim_restore_from_auth_state c' r st).
Proof.
  intros Hq Hr Hw. pose proof Hq as Hq0. unfold quiet in Hq. injection Hq as E1 E2 E3 E4 E5 E6 E7 E8.
  unfold lim_restore_from_auth_state. rewrite E7, Hr.
  eexists. split; [reflexivity|]. right.
  match goal with |- context [bool_decide ?P] => destruct (bool_decide P) end.
  all: split_and!; [done|unfold fixed; cbn; congruence|done|exact E4|].
  all: exists req, r, st; split; [done|]; unfold confirmations in *; cbn;
    rewrite !List.filter_app; cbn; rewrite E8, app_nil_r, E5; reflexivity.
Qed.

Lemma add_requested_quiet e c h req c' b :
  add_requested_context e c h req = (c', b) → quiet c' = quiet c.
Proof.
  unfold add_requested_context. destruct (lim_acquire_free_pre_auth_node (pre c)) as [p [i|]]; [|by intros [= <- _]].
  cbn [read_clock]. by intros [= <- _].
Qed.

Lemma add_requested_ends e c c' h req r st :
  quiet c' = quiet c → gpLimMlmAuthReq c = Some req → waiting (limMlmState (sess c)) = true →
  ends c (match add_requested_context e c' h r with
          | (c, false) => Some c
          | (c, true) => lim_restore_from_auth_state c eSIR_SME_SUCCESS st
          end).
Proof.
  intros Hq Hr Hw. destruct (add_requested_context e c' h r) as [c1 b] eqn:E.
  apply add_requested_quiet in E. destruct b; [|by apply stays_ends, stays_quiet; rewrite E].
  apply (restore_ends c c1 req); [congruence|done..].
Qed.

Lemma default_key_fits e c k :
  (LIM_IS_AP_ROLE (role c) = true → (zget (WEPKeyMaterial (sess c)) k).1 <= SIR_MAC_KEY_LENGTH) →
  ∃ r, default_key e c k = Some r ∧ ∀ key len, r = Ok (key, len) → len <= SIR_MAC_KEY_LENGTH.
Proof.
  intros Hk. unfold default_key. destruct (LIM_IS_AP_ROLE (role c)).
  - specialize (Hk eq_refl). destruct (zget (WEPKeyMaterial (sess c)) k) as [len key]. cbn in Hk.
    rewrite (proj2 (Z.ltb_ge _ _)) by done. eexists. split; [done|]. by intros ?? [= _ <-].
  - unfold wlan_cfg_get_str. destruct (cfg_check_valid _ _) as [index|]; cbn [mbind res_bind].
    + destruct (Z.ltb_spec SIR_MAC_KEY_LENGTH (zget (gCfgSBuf (cfg (mac c))) (index + 1))) as [_|Hle];
        eexists; (split; [done|]); [done|].
      intros ?? [= _ <-]. unfold zread. rewrite length_take. unfold SIR_MAC_KEY_LENGTH in *. lia.
    + eexists. split; [done|]. done.
Qed.

Lemma encrypt_some stack k key plain kl :
  kl <= SIR_MAC_KEY_LENGTH → ∃ r, lim_encrypt_auth_frame stack k key plain kl = Some r.
Proof.
  intros H. unfold lim_encrypt_auth_frame, key_fits. unfold SIR_MAC_KEY_LENGTH in H.
  rewrite (proj2 (Z.leb_le _ _)) by (unfold LIM_SEED_LENGTH; lia). by eexists.
Qed.

Lemma type2_shared_ends e c h rx req :
  LIM_IS_AP_ROLE (role c) = false →
  gpLimMlmAuthReq c = Some req → waiting (limMlmState (sess c)) = true → ends c (type2_shared_key e c h rx).
Proof.
  intros Hrole Hr Hw. unfold type2_shared_key.
  destruct (u8 _ =? 0); [apply stays_ends; by auto with auth|].
  destruct (negb _); [apply stays_ends; by auto with auth|].
  match goal with |- context [default_key e c ?k] =>
    destruct (default_key_fits e c k ltac:(by rewrite Hrole)) as (r & -> & Hfit) end.
  cbn [mbind option_bind]. destruct r as [[key len]|].
  - rewrite Hrole. match goal with |- context [lim_encrypt_auth_frame ?a ?b ?c ?d ?f] =>
      destruct (encrypt_some a b c d f) as [[pl encr] ->]; [by eapply Hfit|] end.
    cbn [mbind option_bind]. apply stays_ends, stays_quiet, quiet_send_of. unfold quiet, settled. cbn. by rewrite Hw.
  - eapply restore_ends; [by apply quiet_reply_next|done..].
Qed.

Lemma type2_ends e c h rx body len :
  LIM_IS_AP_ROLE (role c) = false → (waiting (limMlmState (sess c)) = true → ∃ req, gpLimMlmAuthReq c = Some req) →
  ends c (lim_process_auth_frame_type2 e c h rx body len).
Proof.
  intros Hrole Hreq. unfold lim_process_auth_frame_type2. destruct (negb _) eqn:En.
  - apply stays_ends. repeat case_match; by apply stays_quiet.
  - bool_hyps. destruct Hreq as [req Hr]; [by rewrite En|]. rewrite Hr.
    assert (waiting (limMlmState (sess c)) = true) as Hw by by rewrite En.
    destruct (negb _); [apply stays_ends; by auto with auth|].
    match goal with |- context [negb (authAlgoNumber ?r =? reqAuthType req)] => generalize r; intros rx' end.
    destruct (negb (authAlgoNumber rx' =? _)); [apply stays_ends; by auto with auth|].
    destruct (negb (authStatusCode rx' =? _)); [by eapply restore_ends|].
    destruct (authAlgoNumber rx' =? eSIR_OPEN_SYSTEM); [|by eapply type2_shared_ends].
    by eapply add_requested_ends.
Qed.

Lemma type3_stays e c h rx : well c → stays c (lim_process_auth_frame_type3 e c h rx).
Proof.
  intros Hwell. unfold lim_process_auth_frame_type3. destruct (negb _); [by auto with auth|].
  destruct (_ || _); [|by auto with auth]. destruct (_ =? 0); [by auto with auth|].
  destruct (search_well c (sa h) Hwell) as [r ->]. cbn [mbind option_bind].
  destruct r as [i|]; [|by auto with auth]. destruct (bool_decide (PreAuth.mlmState _ = _)).
  { destruct (delete_well (reply_frame4 e c h eSIR_MAC_AUTH_RSP_TIMEOUT_STATUS) (sa h)) as [p ->].
    { apply (well_keeps c); [|done]. apply keeps_reply_frame4, keeps_refl. }
    cbn [mbind option_bind]. apply stays_quiet. exact (quiet_reply_frame4 e c c h _ eq_refl). }
  destruct (negb _); [by auto with auth|]. destruct (bool_decide _); [|by auto with auth].
  apply stays_quiet, quiet_reply_frame4. exact (quiet_timer c c _ eq_refl).
Qed.

Lemma type4_ends e c h rx :
  (waiting (limMlmState (sess c)) = true → ∃ req, gpLimMlmAuthReq c = Some req) →
  ends c (lim_process_auth_frame_type4 e c h rx).
Proof.
  intros Hreq. unfold lim_process_auth_frame_type4.
  destruct (bool_decide _) eqn:Es; cbn [negb]; [|apply stays_ends; by auto with auth]. bool_hyps.
  destruct (negb _); [apply stays_ends; by auto with auth|].
  destruct Hreq as [req Hr]; [by rewrite Es|]. rewrite Hr.
  assert (waiting (limMlmState (sess c)) = true) as Hw by by rewrite Es.
  destruct (negb _); [apply stays_ends; by auto with auth|].
  destruct (negb _); [apply stays_ends; by auto with auth|].
  destruct (_ =? _); [|by eapply restore_ends]. by eapply add_requested_ends.
Qed.

Lemma dispatch_ends e c h rx body len seq :
  auth_good c → mac_wf (sa h) → is_auth_valid c rx = true → ends c (dispatch e c h rx body len seq).
Proof.
  intros [] Hm Hv. unfold dispatch. destruct (_ && _ && _ && _).
  { cbn. by apply type4_ends. }
  destruct (_ =? _); [apply stays_ends; by apply type1_stays|].
  destruct (Z.eqb_spec (authTransactionSeqNumber rx) SIR_MAC_AUTH_FRAME_2) as [E2|_].
  { apply type2_ends; [|done]. unfold is_auth_valid in Hv. rewrite E2 in Hv.
    by destruct (LIM_IS_AP_ROLE (role c)), (LIM_IS_STA_ROLE (role c)). }
  destruct (_ =? _); [apply stays_ends; by apply type3_stays|].
  destruct (_ =? _); [by apply type4_ends|]. apply stays_ends; by auto with auth.
Qed.

(** *** Frames with the WEP bit *)

Lemma key_id_range b : is_u8 b → 0 <= Z.shiftr b 6 < 4.
Proof. intros [H1 H2]. rewrite Z.shiftr_div_pow2 by lia. change (2 ^ 6) with 64. Z.to_euclidean_division_equations. lia. Qed.

Lemma wep_body_stays e c h body len :
  auth_good c → length (plain_stack e) = 256%nat → Forall is_u8 body → len <= 260 →
  ∃ c' plain, wep_body e c h body len = Some (c', plain) ∧ quiet c' = quiet c.
Proof.
  intros [] Hp Hb Hlen. unfold wep_body.
  destruct (_ && _); [do 2 eexists; split; [reflexivity|by apply quiet_emit]|].
  destruct (LIM_IS_STA_ROLE _); [do 2 eexists; split; [reflexivity|by apply quiet_reply_frame4]|].
  destruct (Z.ltb_spec len LIM_ENCR_AUTH_BODY_LEN) as [_|Hge]; [by do 2 eexists|].
  change LIM_ENCR_AUTH_BODY_LEN with 144 in Hge.
  destruct (u8 _ =? 0); [do 2 eexists; split; [reflexivity|by apply quiet_reply_frame4]|].
  destruct (search_well c (sa h) ag_pre0) as [r ->]. cbn [mbind option_bind].
  destruct r as [i|]; [|do 2 eexists; split; [reflexivity|by apply quiet_reply_frame4]].
  set (c1 := deactivate_auth_rsp_timer c _).
  assert (quiet c1 = quiet c) as Q1 by by apply quiet_timer.
  assert (same_session c c1) as [S1 _]
    by (unfold c1, deactivate_auth_rsp_timer; by destruct (lim_get_pre_auth_node_from_index _ _)).
  assert (well c1) as W1 by (apply (well_keeps c); [apply keeps_timer; [done|apply keeps_refl]|done]). clearbody c1.
  destruct (_ && _); [do 2 eexists; split; [reflexivity|by apply quiet_reply_frame4]|].
  destruct (default_key_fits e c1 (Z.shiftr (zget body 3) 6)) as (r & -> & Hfit).
  { intros Hr. rewrite S1. apply ag_keys0; [unfold role in *; congruence|]. apply key_id_range.
    by apply zget_u8. }
  cbn [mbind option_bind]. destruct r as [[key kl]|]; [|do 2 eexists; split; [reflexivity|by apply quiet_reply_frame4]].
  change SIR_MAC_WEP_IV_LENGTH with 4. rewrite u16_small by (red; lia).
  destruct (decrypt_some (seed_stack e) key body (plain_stack e) kl (len - 4)) as [[res pl] ->];
    [by rewrite Hp|by eapply Hfit|lia|]. cbn [mbind option_bind].
  destruct (bool_decide _); [|by do 2 eexists].
  destruct (delete_well c1 (sa h) W1) as [p ->]. cbn [mbind option_bind].
  do 2 eexists; split; [reflexivity|]. apply quiet_reply_frame4. exact Q1.
Qed.

(** *** The invariant is kept *)

Lemma good_stays c c' : auth_good c → well c' → quiet c' = quiet c → auth_good c'.
Proof.
  intros [] Hw Hq. pose proof (quiet_waiting _ _ Hq) as Ew. unfold quiet, fixed in Hq. injection Hq as E1 E2 E3 E4 E5 E6 E7 E8.
  split; unfold role in *; rewrite ?E1, ?E2, ?E3, ?E4, ?Ew, ?E7; done.
Qed.
Lemma good_confirmed c c' : auth_good c → well c' → confirmed c c' → auth_good c'.
Proof.
  intros [] Hw (Hwait & Hf & Hn & Hs & _). unfold fixed in Hf. injection Hf as E1 E2 E3 E4 E5.
  split; unfold role in *; rewrite ?E1, ?E2, ?E3, ?E4, ?Hs; try done. congruence.
Qed.

(** The challenge that the parser finds in a body has a place in the 128 bytes of
    [challengeText]; the parser itself admits up to 253. *)
Definition text_fits (f : list Z) : Prop :=
  ∀ a s st t, unpack f = Some (a, s, st, Some t) → Z.of_nat (length t) <= SIR_MAC_AUTH_CHALLENGE_LENGTH.

Lemma convert_some f : text_fits f → ∃ r, sir_convert_auth_frame2_struct unpack f = Some r.
Proof.
  intros Hf. unfold sir_convert_auth_frame2_struct. destruct (unpack f) as [[[[a s] st] [t|]]|] eqn:E; [|by eexists..].
  apply Hf in E. rewrite (proj2 (Z.ltb_ge _ _)) by done. by eexists.
Qed.

(** The context in which [lim_process_auth_frame] looks at the body, and the body
    that it gives to the parser. *)
Definition frame_context c : authCtx :=
  if is_p2p_client (sess c) && negb (defaultAuthFailureTimeout (sess c) =? 0)
  then c <| mac := (cfg_set_int (mac c) WNI_CFG_AUTHENTICATE_FAILURE_TIMEOUT (defaultAuthFailureTimeout (sess c))).1 |>
  else c.
Definition plain_body e c h (body : list Z) (len : Z) : option (authCtx * option (list Z)) :=
  if negb (wep h =? 0) then wep_body e (frame_context c) h body len
  else Some (frame_context c, Some (zread body 0 len)).

(** The frame stays inside the buffers of the handler: an encrypted body inside
    the 256 bytes of [plainbody], the challenge inside [challengeText]. *)
Definition frame_fits e c h (body : list Z) (len : Z) : Prop :=
  (wep h ≠ 0 → len <= 260) ∧ ∀ c1 f, plain_body e c h body len = Some (c1, Some f) → text_fits f.

Lemma frame_unfold e c h body len :
  len ≠ 0 → lim_is_group_addr (sa h) = false →
  lim_process_auth_frame unpack e c h body len =
    '(c, plain) ← plain_body e c h body len;
    match plain with
    | None => Some c
    | Some frame =>
        parsed ← sir_convert_auth_frame2_struct unpack frame;
        match parsed with
        | None => Some c
        | Some rx => if is_auth_valid c rx then dispatch e c h rx body len (hdr_seq h) else Some c
        end
    end.
Proof. intros Hl Hg. unfold lim_process_auth_frame. by rewrite (proj2 (Z.eqb_neq _ _) Hl), Hg. Qed.

Lemma frame_ends e c h body len :
  auth_good c → length (plain_stack e) = 256%nat → mac_wf (sa h) → Forall is_u8 body →
  frame_fits e c h body len → ends c (lim_process_auth_frame unpack e c h body len).
Proof.
  intros Hg Hp Hm Hb [Hlen Hfits].
  destruct (decide (len = 0)) as [->|Hl]; [apply stays_ends; by auto with auth|].
  destruct (lim_is_group_addr (sa h)) eqn:Eg.
  { unfold lim_process_auth_frame. rewrite Eg, (proj2 (Z.eqb_neq _ _) Hl). apply stays_ends; by auto with auth. }
  rewrite frame_unfold by done.
  assert (quiet (frame_context c) = quiet c ∧ auth_good (frame_context c)) as [Q0 G0].
  { unfold frame_context. destruct (_ && _); [|done]. split; [done|]. apply (good_stays c); [done|exact (ag_pre c Hg)|done]. }
  assert (∃ c1 plain, plain_body e c h body len = Some (c1, plain) ∧ quiet c1 = quiet c ∧ auth_good c1) as (c1 & plain & E1 & Q1 & G1).
  { unfold plain_body. destruct (Z.eqb_spec (wep h) 0) as [_|Hw]; cbn [negb]; [by do 2 eexists|].
    destruct (wep_body_stays e (frame_context c) h body len G0 Hp Hb (Hlen Hw)) as (c1 & plain & E & Q1). rewrite E.
    do 2 eexists. split; [reflexivity|]. split; [congruence|]. apply (good_stays (frame_context c)); [done| |done].
    apply (wep_body_keeps e any_context) in E as [K _]; [|done]. apply (well_keeps (frame_context c)); [done|apply G0]. }
  rewrite E1. cbn [mbind option_bind]. destruct plain as [f|]; [|by apply stays_ends, stays_quiet].
  destruct (convert_some f (Hfits c1 f E1)) as [r ->]. cbn [mbind option_bind].
  destruct r as [rx|]; [|by apply stays_ends, stays_quiet].
  destruct (is_auth_valid c1 rx) eqn:Ev; [|by apply stays_ends, stays_quiet].
  apply (ends_quiet_l c c1); [done|]. by apply dispatch_ends.
Qed.

Lemma failure_timeout_confirms c :
  auth_good c →
  ∃ c', lim_process_auth_failure_timeout c = Some c' ∧
    if waiting (limMlmState (sess c)) then confirmed c c' else c' = c.
Proof.
  intros Hg. unfold lim_process_auth_failure_timeout.
  destruct (limMlmState (sess c)) eqn:Es; cbn [waiting]; try (by eexists).
  all: destruct (ag_req c Hg) as [req Hr]; [by rewrite Es|].
  all: match goal with |- context [lim_restore_from_auth_state ?c1 ?r ?st] => set (c2 := c1);
    assert (quiet c2 = quiet c) as Q2 by (unfold c2; by destruct (_ && _));
    destruct (restore_ends c c2 req r st Q2 Hr) as (c' & E & H); [by rewrite Es|] end.
  all: exists c'; split; [exact E|]; destruct H as [H|H]; [|exact H]; exfalso.
  all: unfold lim_restore_from_auth_state in E; injection H as _ _ _ _ _ _ H7 _; injection Q2 as _ _ _ _ _ _ Q7 _.
  all: rewrite Q7, Hr in E; injection E as <-; rewrite Hr in H7; clear -H7;
    match type of H7 with context [bool_decide ?P] => destruct (bool_decide P) end; done.
Qed.

Lemma rsp_timeout_stays c idx : well c → stays c (lim_process_auth_rsp_timeout c idx).
Proof.
  intros Hwell. unfold lim_process_auth_rsp_timeout.
  destruct (lim_get_pre_auth_node_from_index _ _) as [i|]; [|by auto with auth].
  destruct (negb _); [by auto with auth|]. destruct (_ || _); [|by auto with auth].
  destruct (negb _); [by auto with auth|].
  set (c1 := upd_pnode c i _).
  assert (keeps any_context c c1) as K1 by (apply keeps_update; try done; apply keeps_refl).
  set (c2 := deactivate_auth_rsp_timer c1 _).
  assert (keeps any_context c c2) as K2 by by apply keeps_timer.
  destruct (delete_well c2 (peerMacAddr (pnode (pre c2) i))) as [p ->]; [by apply (well_keeps c)|].
  cbn [mbind option_bind]. apply stays_quiet. by apply (quiet_timer c c1).
Qed.

(** *** Requests *)

(** A request is either confirmed at once, or pending. *)
Definition taken (c c' : authCtx) (req : tLimMlmAuthReq) : Prop :=
  (gpLimMlmAuthReq c' = None ∧ waiting (limMlmState (sess c')) = false ∧
   ∃ result status, confirmations c' = confirmations c ++
     [AuthCnf (reqPeer req) (reqAuthType req) result status (reqSessionId req)]) ∨
  (gpLimMlmAuthReq c' = Some req ∧ waiting (limMlmState (sess c')) = true ∧
   limPrevMlmState (sess c') = limMlmState (sess c) ∧ peSessionId (sess c') = peSessionId (sess c) ∧
   confirmations c' = confirmations c).

Lemma auth_req_end_cnf e c c' req r :
  auth_good c → waiting (limMlmState (sess c)) = false → reqSessionId req = peSessionId (sess c) →
  c' = c <| gpLimMlmAuthReq := Some req |> →
  ∃ c2, auth_req_end e c' req r = Some c2 ∧ auth_good c2 ∧ taken c c2 req.
Proof.
  intros [] Hw Hs ->. eexists. split; [reflexivity|]. split.
  - split; try done. cbn. congruence.
  - left. split; [done|]. split; [done|]. exists r, (u16 (val_stack e)). unfold confirmations. cbn.
    by rewrite List.filter_app.
Qed.

Lemma request_taken e c req :
  auth_good c → waiting (limMlmState (sess c)) = false → reqSessionId req = peSessionId (sess c) →
  ∃ c', lim_process_mlm_auth_req e c req = Some c' ∧ auth_good c' ∧ taken c c' req.
Proof.
  intros Hg Hw Hs. pose proof (ag_pre c Hg) as Hwell. unfold lim_process_mlm_auth_req.
  set (c0 := c <| gpLimMlmAuthReq := Some req |>). change (peSessionId (sess c0)) with (peSessionId (sess c)).
  rewrite (proj2 (Z.eqb_eq _ _) Hs). cbn [negb].
  destruct (lim_is_auth_req_expected c0 req) eqn:Eexp; cbn [negb]; [|by apply (auth_req_end_cnf e c)].
  assert (∃ b, lim_is_preauth_ctx_exists c0 req = Some b) as [b ->].
  { unfold lim_is_preauth_ctx_exists. change (pre c0) with (pre c).
    destruct (search_well c (reqPeer req) Hwell) as [r ->]. cbn [mbind option_bind]. by eexists. }
  cbn [mbind option_bind]. destruct b; [by apply (auth_req_end_cnf e c)|].
  destruct (_ =? _); [by apply (auth_req_end_cnf e c)|].
  set (cw := upd_sess c0 _ <| auth_ack := _ |>).
  assert (auth_good cw) as Gw by (destruct Hg; split; try done; intros _; by exists req).
  set (c1 := lim_send_auth_mgmt_frame e cw _ _).
  assert (quiet c1 = quiet cw) as Q1 by apply quiet_send.
  assert (auth_good c1) as G1.
  { apply (good_stays cw); [done| |done]. apply (well_keeps cw); [|apply Gw]. apply keeps_send, keeps_refl. }
  assert (quiet (emit c1 StopTimers) = quiet cw) as Q2 by (by rewrite quiet_emit).
  assert (auth_good (emit c1 StopTimers)) as G2 by (apply (good_stays c1); [done|exact (ag_pre _ G1)|congruence]).
  destruct (activate_ok e).
  - eexists. split; [reflexivity|]. set (c2 := emit (emit c1 StopTimers) _).
    assert (quiet c2 = quiet cw) as Q by (unfold c2; by rewrite quiet_emit).
    split; [apply (good_stays cw); [done|exact (ag_pre _ G1)|done]|]. right.
    pose proof (quiet_waiting _ _ Q) as E6. injection Q as _ _ _ E4 E5 _ E7 E8. split; [exact E7|]. split; [exact E6|]. split; [exact E4|]. split; [exact E5|exact E8].
  - destruct (failure_timeout_confirms _ G2) as (c3 & E3 & H).
    pose proof (quiet_waiting _ _ Q2) as E6. injection Q2 as _ _ _ E4 E5 _ E7 E8. rewrite (E6 : waiting (limMlmState (sess (emit c1 StopTimers))) = true) in H.
    exists c3. split; [exact E3|].
    apply (failure_timeout_keeps any_context) in E3.
    split; [apply (good_confirmed (emit c1 StopTimers)); [done|by apply (well_keeps _ _ E3), G2|done]|].
    left. destruct H as (_ & _ & Hn & Hst & req' & r & st & Hr & Hc). split; [done|].
    rewrite Hst. split; [by rewrite (E4 : limPrevMlmState (sess (emit c1 StopTimers)) = limMlmState (sess c))|]. exists r, st.
    rewrite (E7 : gpLimMlmAuthReq (emit c1 StopTimers) = Some req) in Hr. injection Hr as <-.
    rewrite Hc, (E8 : confirmations (emit c1 StopTimers) = confirmations c), Hs.
    by rewrite (E5 : peSessionId (sess (emit c1 StopTimers)) = peSessionId (sess c)).
Qed.

(** ** The machine *)

Inductive auth_input :=
  | Frame (e : authEnv) (h : tSirMacMgmtHdr) (body : list Z) (len : Z)
  | Request (e : authEnv) (req : tLimMlmAuthReq)
  | FailureTimeout
  | ResponseTimeout (auth_idx : Z).

Definition auth_step c (i : auth_input) : option authCtx :=
  match i with
  | Frame e h body len => lim_process_auth_frame unpack e c h body len
  | Request e req => lim_process_mlm_auth_req e c req
  | FailureTimeout => lim_process_auth_failure_timeout c
  | ResponseTimeout idx => lim_process_auth_rsp_timeout c idx
  end.

Fixpoint auth_run c (ins : list auth_input) : option authCtx :=
  match ins with
  | [] => Some c
  | i :: ins => c' ← auth_step c i; auth_run c' ins
  end.

(** The inputs covered.  The rest of the driver guarantees that bytes are bytes,
    [plainbody] has 256 bytes, and the upper layer does not request while a
    request is pending; nobody guarantees that frames fit. *)
Definition admissible c (i : auth_input) : Prop :=
  match i with
  | Frame e h body len =>
      length (plain_stack e) = 256%nat ∧ mac_wf (sa h) ∧ Forall is_u8 body ∧ frame_fits e c h body len
  | Request e req => waiting (limMlmState (sess c)) = false ∧ reqSessionId req = peSessionId (sess c)
  | _ => True
  end.

Fixpoint admissible_run c (ins : list auth_input) : Prop :=
  match ins with
  | [] => True
  | i :: ins => admissible c i ∧ ∀ c', auth_step c i = Some c' → admissible_run c' ins
  end.

Definition is_request (i : auth_input) : bool := match i with Request _ _ => true | _ => false end.

Lemma step_keeps c i c' : auth_step c i = Some c' → keeps any_context c c'.
Proof.
  destruct i as [e h body len|e req| |idx]; cbn; intros H.
  - eapply frame_keeps; [done| |exact H]. by left.
  - apply mlm_auth_req_pre in H. apply keeps_same_pre with c; [done|apply keeps_refl].
  - by apply failure_timeout_keeps.
  - by eapply rsp_timeout_keeps.
Qed.

Lemma step_ends c i : auth_good c → admissible c i → is_request i = false → ends c (auth_step c i).
Proof.
  intros Hg Ha. destruct i as [e h body len|e req| |idx]; [| |intros _|intros _]; cbn [auth_step is_request].
  - intros _. destruct Ha as (H1 & H2 & H3 & H4). by apply frame_ends.
  - done.
  - destruct (failure_timeout_confirms c Hg) as (c' & -> & H). exists c'. split; [done|].
    destruct (waiting _); [by right|left; by rewrite H].
  - apply stays_ends, rsp_timeout_stays, Hg.
Qed.

Lemma step_good c i : auth_good c → admissible c i → ∃ c', auth_step c i = Some c' ∧ auth_good c'.
Proof.
  intros Hg Ha. destruct (is_request i) eqn:Ei.
  - destruct i; try done. destruct Ha as [Hw Hs]. destruct (request_taken e c req Hg Hw Hs) as (c' & H1 & H2 & _).
    by exists c'.
  - destruct (step_ends c i Hg Ha Ei) as (c' & E & H). exists c'. split; [done|].
    pose proof (well_keeps _ _ (step_keeps _ _ _ E) (ag_pre _ Hg)) as Hw.
    destruct H; [by apply (good_stays c)|by apply (good_confirmed c)].
Qed.

Lemma run_ends c ins :
  auth_good c → admissible_run c ins → Forall (λ i, is_request i = false) ins →
  ∃ c', auth_run c ins = Some c' ∧
    ((quiet c' = quiet c ∧ (waiting (limMlmState (sess c)) = true → FailureTimeout ∉ ins)) ∨ confirmed c c').
Proof.
  revert c. induction ins as [|i ins IH]; intros c Hg Ha Hr.
  - exists c. split; [done|]. left. split; [done|]. intros _. apply not_elem_of_nil.
  - destruct Ha as [Ha Hrest]. inversion_clear Hr as [|?? Hi Hr']. cbn [auth_run].
    destruct (step_ends c i Hg Ha Hi) as (c1 & E & H). destruct (step_good c i Hg Ha) as (c1' & E' & G1).
    rewrite E in E'. injection E' as <-. rewrite E. cbn [mbind option_bind].
    destruct (IH c1 G1 (Hrest c1 E) Hr') as (c' & E2 & H2). exists c'. split; [done|].
    destruct H as [Hq|Hc].
    + destruct H2 as [[Hq2 Hn]|Hc2]; [|right; by eapply confirmed_quiet_l].
      left. split; [congruence|]. intros Hw. rewrite (quiet_waiting _ _ Hq) in Hn.
      apply not_elem_of_cons. split; [|by apply Hn]. intros <-.
      destruct (failure_timeout_confirms c Hg) as (c2 & E3 & H3). cbn in E. rewrite E in E3. injection E3 as <-.
      rewrite Hw in H3. destruct H3 as (_ & _ & Hgp & _ & req & _ & _ & Hreq & _).
      injection Hq as _ _ _ _ _ _ E7 _. congruence.
    + right. pose proof (ag_prev _ Hg) as Hp. destruct H2 as [[Hq2 _]|Hc2]; [by eapply confirmed_quiet_r|].
      destruct Hc as (_ & _ & _ & Hs & _), Hc2 as (Hw2 & _). rewrite Hs, Hp in Hw2. done.
Qed.


(** C29: a request is confirmed exactly once.  Whatever frames (inside the
    handler's buffers, as above) and response timeouts come between a request and
    its failure timeout, and after it, the upper layer receives one confirmation for the request, none is left
    pending, and the session does not wait any more. *)
Theorem request_confirmed_once c e req ins :
  auth_good c → admissible_run c (Request e req :: ins) →
  Forall (λ i, is_request i = false) ins → FailureTimeout ∈ ins →
  ∃ c', auth_run c (Request e req :: ins) = Some c' ∧
    gpLimMlmAuthReq c' = None ∧ waiting (limMlmState (sess c')) = false ∧
    ∃ result status, confirmations c' = confirmations c ++
      [AuthCnf (reqPeer req) (reqAuthType req) result status (reqSessionId req)].
Proof.
  intros Hg [[Hw Hs] Hrest] Hr Hin. cbn [auth_run].
  destruct (request_taken e c req Hg Hw Hs) as (c1 & E & G1 & H1). cbn [auth_step]. rewrite E. cbn [mbind option_bind].
  destruct (run_ends c1 ins G1 (Hrest c1 E) Hr) as (c' & E' & H'). exists c'. split; [done|].
  destruct H1 as [(Hn & Hw1 & r & st & Hc)|(Hp & Hw1 & Hprev & Hsid & Hc)].
  - destruct H' as [[Hq _]|(Hw2 & _)]; [|congruence].
    pose proof (quiet_waiting _ _ Hq) as Ew. injection Hq as _ _ _ _ _ _ E7 E8.
    split; [congruence|]. split; [congruence|]. exists r, st. congruence.
  - destruct H' as [[_ Hno]|(_ & _ & Hn & Hst & req' & r & st & Hreq & Hc')].
    { by destruct (Hno Hw1). }
    split; [done|]. split; [by rewrite Hst, Hprev|]. exists r, st. rewrite Hc', Hc.
    rewrite Hp in Hreq. injection Hreq as <-. by rewrite Hsid, Hs.
Qed.
End machine.
