(* ===== verification/AuthDemo.v ===== *)
(** Concrete sessions and frames on which the theorems of [AuthFrame] and
    [AuthMachine] are applied: a station and an access point with a common
    5-byte default key, and a stand-in for the generated parser. *)
From S2P Require Import Prelude Chains LimTypes CfgTable CfgApi DphHash WepAuth PreAuth AuthFrame AuthMachine.

(** A parser of the two frame shapes: fixed fields, with or without a challenge
    of at most 253 bytes, as the generated parser has it. *)
Definition demo_unpack (f : list Z) : option (Z * Z * Z * option (list Z)) :=
  match f with
  | a0 :: a1 :: s0 :: s1 :: t0 :: t1 :: rest =>
      let word lo hi := lo + 256 * hi in
      match rest with
      | [] => Some (word a0 a1, word s0 s1, word t0 t1, None)
      | eid :: n :: ch =>
          if (eid =? SIR_MAC_CHALLENGE_TEXT_EID) && (n <=? 253) && (Z.of_nat (length ch) =? n) then Some (word a0 a1, word s0 s1, word t0 t1, Some ch) else None
      | _ => None
      end
  | _ => None
  end.

Lemma word_le2 w : is_u16 w → u8 w + 256 * u8 (Z.shiftr w 8) = w.
Proof.
  intros [H1 H2]. rewrite Z.shiftr_div_pow2 by lia. change (2 ^ 8) with 256. unfold u8.
  rewrite (Z.mod_small (w / 256)) by (split; [apply Z.div_pos; lia|apply Z.div_lt_upper_bound; lia]).
  rewrite Z.add_comm. symmetry. apply Z.div_mod. lia.
Qed.

Lemma demo_parser_ok : parser_ok demo_unpack.
Proof.
  intros algo seq st ch Ha Hs Ht Hl. unfold demo_unpack, le2. cbn. rewrite Hl. cbn [Nat.eqb].
  by rewrite !word_le2.
Qed.

(** A configuration with the shared key enabled, key id 0 and a 5-byte key. *)
Definition auth_cfg : tAniSirCfg :=
  let intp i := Z.lor CFG_CTL_VALID (Z.lor CFG_CTL_INT i) in
  mk_cfg CFG_SUCCESS true
    (zset (zset (zset (zset (replicate 222 0)
       WNI_CFG_PRIVACY_ENABLED (intp 0)) WNI_CFG_WEP_DEFAULT_KEYID (intp 1))
       WNI_CFG_SHARED_KEY_AUTH_ENABLE (intp 0)) WNI_CFG_WEP_DEFAULT_KEY_1 CFG_CTL_VALID)
    ([13; 5; 1; 2; 3; 4; 5] ++ replicate 8 0) [1; 0] [0; 0] [1; 3] 2 15 (replicate 256 0) (replicate 55 0).
Definition auth_mac : tAniSirGlobal := mk_mac auth_cfg (replicate 222 None) [] [] 0 [] [].

Definition sta_addr : list Z := [0; 17; 34; 51; 68; 85].
Definition ap_addr : list Z := [2; 1; 1; 1; 1; 1].
Definition demo_key : list Z := [1; 2; 3; 4; 5].
Definition demo_challenge : list Z := replicate 128 90.
Definition demo_frame : tSirMacAuthFrameBody := mk_auth_body 0 0 0 0 0 (replicate 128 0).
Definition demo_env : authEnv :=
  mk_env (λ n, Z.of_nat n) (Some demo_challenge) true true true true 8 0 demo_frame
    (replicate 128 0) (replicate 13 9) (replicate 16 7) (replicate 256 0).

Definition demo_sess (r : tLimSystemRole) (st : tLimMlmStates) : tPESession :=
  mk_session 1 r ap_addr st eLIM_MLM_JOINED_STATE eLIM_SME_WT_AUTH_STATE 0 eSIR_SHARED_KEY 1
    [(5, demo_key ++ replicate 8 0); (0, []); (0, []); (0, [])] false false 0 demo_table None [] 0.

Definition demo_req : tLimMlmAuthReq := mk_auth_req ap_addr eSIR_SHARED_KEY 1.
Definition demo_ctx (s : tPESession) (p : preAuth) (req : option tLimMlmAuthReq) : authCtx :=
  mk_ctx auth_mac p req None None 0 LIM_AUTH_ACK_NOT_RCD [] s 0 [].

(** The station waiting for frame 2, and the access point waiting for frame 3. *)
Definition sta_waiting : authCtx :=
  demo_ctx (demo_sess eLIM_STA_ROLE eLIM_MLM_WT_AUTH_FRAME2_STATE) demo_pre (Some demo_req).
Definition waiting_fill (n : tLimPreAuthNode) : tLimPreAuthNode :=
  n <| peerMacAddr := sta_addr |> <| mlmState := eLIM_MLM_WT_AUTH_FRAME3_STATE |>
    <| challengeText := demo_challenge |>.
Definition waiting_pre : preAuth :=
  let s1 := (lim_acquire_free_pre_auth_node demo_pre).1 in
  lim_add_pre_auth_node (set_pnode s1 0 (waiting_fill (pnode s1 0))) 0.
Definition ap_session : authCtx :=
  demo_ctx (demo_sess eLIM_AP_ROLE eLIM_MLM_BSS_STARTED_STATE) waiting_pre None.

Definition hdr_from (a : list Z) (w : Z) : tSirMacMgmtHdr := mk_hdr a 0 w 0 1.

Lemma demo_pre_wf : pre_wf demo_pre [].
Proof. apply init_preauth_wf; [cbn; lia|done]. Qed.
Lemma demo_well s req : well (demo_ctx s demo_pre req).
Proof. exists [], []. split; [apply demo_pre_wf|done]. Qed.

Lemma station_demo_ready : station_ready demo_env sta_waiting ap_addr demo_key 0 demo_req.
Proof. split; vm_compute; reflexivity. Qed.
Lemma ap_demo_waiting : ap_waiting demo_env ap_session sta_addr demo_key demo_challenge 0 0.
Proof.
  split; try (vm_compute; congruence).
  - eexists. split; vm_compute; reflexivity.
  - by vm_compute.
Qed.

Lemma shared_key_handshake_witness :
  ∃ cS1 cA1 cS2 encr,
    exchange demo_unpack demo_env demo_env demo_env sta_waiting ap_session cS1 cA1 cS2
      (hdr_from ap_addr 0) (hdr_from sta_addr 1) (hdr_from ap_addr 0) ap_addr sta_addr demo_key demo_challenge encr 0.
Proof.
  eapply (shared_key_handshake demo_unpack demo_parser_ok demo_env demo_env demo_env sta_waiting ap_session
            ap_addr sta_addr demo_key demo_challenge 0 demo_req 0);
    [exact station_demo_ready|exact ap_demo_waiting|lia|cbn; lia|reflexivity|reflexivity|reflexivity|reflexivity
    |done|reflexivity|reflexivity|vm_compute; reflexivity|vm_compute; reflexivity|].
  vm_compute. reflexivity.
Defined.

(** The frame 3 of the handshake above, received by the access point. *)
Definition demo_response : list Z :=
  match lim_encrypt_auth_frame (replicate 16 7) 0 (zwrite (replicate 13 9) 0 demo_key)
          (zwrite (replicate 256 0) 0 (body_bytes (response_body demo_challenge))) 5 with
  | Some (_, encr) => encr
  | None => []
  end.
Definition ap_after : authCtx :=
  default ap_session (lim_process_auth_frame demo_unpack demo_env ap_session (hdr_from sta_addr 1) demo_response 144).

Lemma waiting_wf : pre_wf waiting_pre [0].
Proof.
  destruct (wf_acquire_add demo_pre [] waiting_fill (lim_acquire_free_pre_auth_node demo_pre).1 0 demo_pre_wf)
    as (_ & _ & H & _); [done|vm_compute; reflexivity|exact H].
Qed.

(** The address of the station becomes authenticated: the frame proves the key. *)
Lemma shared_key_requires_proof_witness :
  authenticated ap_after sta_addr ∧
  (authenticated ap_session sta_addr ∨
   (sa (hdr_from sta_addr 1) = sta_addr ∧
    proves_key demo_unpack demo_env ap_session (hdr_from sta_addr 1) demo_response 144)).
Proof.
  assert (authenticated ap_after sta_addr) as Ha.
  { eexists (entries (pre ap_after) [0]), _. split; [exists [0]; split; [|reflexivity]|].
    - split; [by vm_compute|..].
      + intros i Hi. apply list_elem_of_singleton in Hi as ->. by vm_compute.
      + intros i Hi. assert (numEntry (pre ap_after) = 4) as E by (vm_compute; reflexivity). rewrite E in Hi.
        assert (i = 0 ∨ i = 1 ∨ i = 2 ∨ i = 3) as [->|[->|[->| ->]]] by lia; vm_compute; reflexivity.
      + vm_compute. reflexivity.
      + vm_compute. reflexivity.
    - split; [apply list_elem_of_singleton; reflexivity|]. split; vm_compute; reflexivity. }
  split; [exact Ha|].
  eapply (shared_key_requires_proof demo_unpack demo_env ap_session (hdr_from sta_addr 1) demo_response 144 ap_after);
    [vm_compute; reflexivity|reflexivity|by vm_compute|exists [0]; split; [exact waiting_wf|reflexivity]
    |vm_compute; reflexivity|exact Ha].
Defined.

(** A challenge: the frame carries 8 random bytes and 120 zeros. *)
Definition ap_fresh : authCtx := demo_ctx (demo_sess eLIM_AP_ROLE eLIM_MLM_BSS_STARTED_STATE) demo_pre None.
Definition rx_frame1 (algo : Z) : tSirMacAuthFrameBody := mk_auth_body algo SIR_MAC_AUTH_FRAME_1 0 0 0 (replicate 128 0).

Lemma challenge_is_pointer_sized_witness :
  ∃ c', lim_process_auth_shared_system_algo demo_env ap_fresh (hdr_from sta_addr 0) (rx_frame1 eSIR_SHARED_KEY) = Some c' ∧
    challengeText (pnode (pre c') 0) = take 8 demo_challenge ++ drop 8 (replicate 128 0).
Proof.
  destruct (challenge_is_pointer_sized demo_env ap_fresh (hdr_from sta_addr 0) (rx_frame1 eSIR_SHARED_KEY)
     (lim_acquire_free_pre_auth_node demo_pre).1 0 [] (replicate 128 0) demo_challenge)
    as (c' & H1 & H2 & _); [exact demo_pre_wf|by vm_compute|by vm_compute|reflexivity|reflexivity|vm_compute; reflexivity
    |reflexivity|reflexivity|reflexivity|vm_compute; reflexivity|reflexivity|reflexivity|cbn; lia|].
  exists c'. split; [exact H1|exact H2].
Defined.

Definition leak_env : authEnv := mk_env (λ n, Z.of_nat n) (Some demo_challenge) true true true true 8 4
  (mk_auth_body 0 0 0 77 77 (replicate 128 77)) (replicate 128 0) (replicate 13 9) (replicate 16 7) (replicate 256 0).

Lemma unsupported_algo_reply_witness :
  ∃ c', lim_process_auth_frame_type1 leak_env ap_fresh (hdr_from sta_addr 0) (rx_frame1 7) 1 = Some c' ∧
    events c' = [TxAuth sta_addr LIM_NO_WEP_IN_FC
      (le2 7 ++ le2 SIR_MAC_AUTH_FRAME_2 ++ le2 eSIR_MAC_AUTH_ALGO_NOT_SUPPORTED_STATUS ++ replicate 130 77)].
Proof.
  destruct (unsupported_algo_reply leak_env ap_fresh (hdr_from sta_addr 0) (rx_frame1 7) 1)
    as (c' & H1 & _ & H2); [vm_compute; reflexivity|vm_compute; reflexivity|by vm_compute|reflexivity|reflexivity
    |done|done|reflexivity|reflexivity|].
  exists c'. split; [exact H1|exact H2].
Defined.

(** A station that is asked to authenticate, receives noise, and times out. *)
Definition sta_idle : authCtx := demo_ctx (demo_sess eLIM_STA_ROLE eLIM_MLM_JOINED_STATE) demo_pre None.
Definition noise : list Z := [1; 2; 3; 4; 5; 6; 7].
Definition demo_inputs : list auth_input :=
  [Frame leak_env (hdr_from ap_addr 0) noise 7; ResponseTimeout 2; FailureTimeout;
   Frame leak_env (hdr_from ap_addr 0) success_frame 6].

Lemma idle_good : auth_good sta_idle.
Proof. split; [apply demo_well|exists ∅; exact demo_table_rep|done|done|done]. Qed.

Lemma frame_admissible c (f : list Z) n :
  Forall is_u8 f → demo_unpack (zread f 0 n) = None ∨ (∃ x, demo_unpack (zread f 0 n) = Some (x, None)) →
  admissible demo_unpack c (Frame leak_env (hdr_from ap_addr 0) f n).
Proof.
  intros Hf Hu. split; [reflexivity|]. split; [split; [reflexivity|solve_bytes]|]. split; [done|]. split; [done|].
  intros c1 g [= <- <-] a x st t E. destruct Hu as [Hu|[y Hu]]; rewrite Hu in E; by simplify_eq.
Qed.
Lemma demo_admissible c : admissible_run demo_unpack c demo_inputs.
Proof.
  split; [apply frame_admissible; [solve_bytes|left; reflexivity]|]. intros c1 _.
  split; [done|]. intros c2 _. split; [done|]. intros c3 _.
  split; [apply frame_admissible; [solve_bytes|right; eexists; reflexivity]|]. by intros c4 _.
Qed.
Lemma demo_run_admissible : admissible_run demo_unpack sta_idle (Request leak_env demo_req :: demo_inputs).
Proof. split; [done|]. intros c _. apply demo_admissible. Qed.



Lemma request_confirmed_once_witness :
  ∃ c', auth_run demo_unpack sta_idle (Request leak_env demo_req :: demo_inputs) = Some c' ∧
    gpLimMlmAuthReq c' = None ∧ waiting (limMlmState (sess c')) = false ∧
    ∃ result status, confirmations c' = [AuthCnf ap_addr eSIR_SHARED_KEY result status 1].
Proof.
  apply (request_confirmed_once demo_unpack sta_idle leak_env demo_req demo_inputs
           idle_good demo_run_admissible); [repeat constructor|].
  do 2 right. left.
Defined.

(** What happens in that run: the request is refused by the timeout. *)
Example demo_run_result :
  confirmations <$> auth_run demo_unpack sta_idle (Request leak_env demo_req :: demo_inputs) =
    Some [AuthCnf ap_addr eSIR_SHARED_KEY eSIR_SME_AUTH_TIMEOUT_RESULT_CODE eSIR_MAC_UNSPEC_FAILURE_REASON 1].
Proof. vm_compute. reflexivity. Qed.
