(* ===== verification/RxReorder.v ===== *)
(** The receive reorder windows of a peer: core/dp/txrx/ol_rx_reorder.c, with
    the fragment flush of core/dp/txrx/ol_rx_defrag.c.

    For every traffic id a peer has a window of slots; a slot holds a chain of
    network buffers through the buffers' [next] fields.  The firmware tells
    which slots to fill, release or flush.  A buffer is named by a number; what
    the hardware descriptor of a buffer says is the argument [desc], the next
    stage of the receive path (peer->rx_opt_proc) is [rx_opt_proc].  [None] is a
    null-pointer access, a table read out of bounds or a loop that does not end.

    The reorder timeout of USB builds (QCA_SUPPORT_OL_RX_REORDER_TIMEOUT) is
    off, as in the other builds. *)
From S2P Require Import Prelude Chains.

Definition IEEE80211_SEQ_MAX : Z := 4096.
Definition OL_TXRX_NUM_EXT_TIDS : Z := 19.
Definition OL_RX_MCAST_TID : Z := 18.

(** ** Data *)

(** What the descriptor of a received buffer says. *)
Record rx_desc := mk_desc {
  seq_num : Z;
  desc_tid : Z;
  desc_retry : bool;
  is_mcast : bool;
  is_encrypted : bool;
  is_frag : bool;
  completes_mpdu : bool;
  desc_pn : Z * Z;                   (* pn128[0], pn128[1] *)
}.

Record ol_rx_reorder_array_elem_t := mk_elem { head : option Z; tail : option Z }.
#[export] Instance elem_eta : Eta ol_rx_reorder_array_elem_t := fun e => mk_elem (head e) (tail e).
#[export] Instance elem_inhabited : Inhabited ol_rx_reorder_array_elem_t := populate (mk_elem None None).

(** Where [array] points: to the element [base] of the structure itself, to an
    allocated array, or nowhere when the allocation failed. *)
Inductive rx_array :=
  | ArrBase
  | ArrAlloc (elems : list ol_rx_reorder_array_elem_t)
  | ArrNull.

Record ol_rx_reorder_t := mk_reorder {
  win_sz : Z;
  win_sz_mask : Z;
  num_mpdus : Z;
  array : rx_array;
  base : ol_rx_reorder_array_elem_t;
  reorder_tid : Z;                   (* tid *)
  defrag_timeout_ms : Z;
}.
#[export] Instance reorder_eta : Eta ol_rx_reorder_t := fun r =>
  mk_reorder (win_sz r) (win_sz_mask r) (num_mpdus r) (array r) (base r) (reorder_tid r) (defrag_timeout_ms r).
#[export] Instance reorder_inhabited : Inhabited ol_rx_reorder_t :=
  populate (mk_reorder 1 0 0 ArrBase (mk_elem None None) 0 0).

Inductive rx_event :=
  | FrameFree (nbuf : Z)             (* htt_rx_desc_frame_free *)
  | ArrayFree (tid : Z)              (* qdf_mem_free of the allocated array *)
  | WaitlistRemove (tid : Z)         (* ol_rx_defrag_waitlist_remove *)
  | RxErr (tid : Z) (mpdu : Z)       (* ol_rx_err, OL_RX_ERR_PN *)
  | AddbaComplete (tid failed : Z)   (* ol_ctrl_rx_addba_complete *)
  | Deliver (tid : Z) (list : option Z)     (* ol_rx_deliver *)
  | InOrderDeliver (tid : Z) (list : option Z) (* ol_rx_in_order_deliver *)
  | FwdCheck (tid : Z) (list : option Z)    (* ol_rx_fwd_check *)
  | DescFree (nbuf : Z)              (* htt_rx_msdu_desc_free *)
  | NbufFree (nbuf : Z)              (* qdf_nbuf_free *)
  | DefragErr (tid : Z) (msdu : Z).  (* ol_rx_err, OL_RX_DEFRAG_ERR *)

(** The buffers' links and the fields of the peer. *)
Record rxState := mk_rx {
  nb_next : Z → option Z;
  tids_rx_reorder : list ol_rx_reorder_t;
  tids_last_seq : list Z;
  tids_next_rel_idx : list Z;
  tids_mcast_last_seq : list Z;
  tids_last_pn : list (Z * Z);
  tids_last_pn_valid : list Z;
  fw_pn_check : Z;
  rx_events : list rx_event;
}.
#[export] Instance rxState_eta : Eta rxState := fun s =>
  mk_rx (nb_next s) (tids_rx_reorder s) (tids_last_seq s) (tids_next_rel_idx s) (tids_mcast_last_seq s)
    (tids_last_pn s) (tids_last_pn_valid s) (fw_pn_check s) (rx_events s).

Definition qdf_nbuf_next (s : rxState) (m : Z) : option Z := nb_next s m.
(** [qdf_nbuf_set_next] of a pointer that may be null. *)
Definition qdf_nbuf_set_next (s : rxState) (m : option Z) (v : option Z) : option rxState :=
  x ← m; Some (s <| nb_next ::= λ nx, nx_upd nx x v |>).
Definition rx_emit (s : rxState) (ev : rx_event) : rxState := s <| rx_events ::= λ l, l ++ [ev] |>.

Definition reorder (s : rxState) (tid : Z) : ol_rx_reorder_t := zget (tids_rx_reorder s) tid.
Definition mask_of (s : rxState) (tid : Z) : Z := win_sz_mask (reorder s tid).
Definition upd_reorder (s : rxState) (tid : Z) (f : ol_rx_reorder_t → ol_rx_reorder_t) : rxState :=
  s <| tids_rx_reorder ::= λ l, zset l tid (f (zget l tid)) |>.

(** [&peer->tids_rx_reorder[tid].array[idx]], read and assigned. *)
Definition get_elem (s : rxState) (tid idx : Z) : option ol_rx_reorder_array_elem_t :=
  let r := reorder s tid in
  match array r with
  | ArrBase => if idx =? 0 then Some (base r) else None
  | ArrAlloc a => if (0 <=? idx) && (idx <? Z.of_nat (length a)) then Some (zget a idx) else None
  | ArrNull => None
  end.
Definition set_elem (s : rxState) (tid idx : Z) (e : ol_rx_reorder_array_elem_t) : rxState :=
  upd_reorder s tid (λ r,
    match array r with
    | ArrBase => r <| base := e |>
    | ArrAlloc a => r <| array := ArrAlloc (zset a idx e) |>
    | ArrNull => r
    end).
Definition no_elem : ol_rx_reorder_array_elem_t := mk_elem None None.

(** [OL_RX_REORDER_IDX_WRAP]. *)
Definition idx_wrap (idx mask : Z) : Z := Z.land idx mask.

Definition g_log2ceil : list Z :=
  [1; 1; 2; 4; 4] ++ replicate 4 8 ++ replicate 8 16 ++ replicate 16 32 ++ replicate 32 64.

Definition ol_rx_reorder_init (r : ol_rx_reorder_t) (tid : Z) : ol_rx_reorder_t :=
  r <| win_sz := 1 |> <| win_sz_mask := 0 |> <| array := ArrBase |> <| base := no_elem |>
    <| reorder_tid := tid |> <| defrag_timeout_ms := 0 |>.

(** ** Duplicate detection *)

Inductive htt_rx_status := htt_rx_status_ok | htt_rx_status_err_replay.
#[export] Instance htt_rx_status_eq_dec : EqDecision htt_rx_status.
Proof. solve_decision. Defined.

Definition ol_rx_reorder_seq_num_check (s : rxState) (tid seq : Z) : htt_rx_status :=
  let last := zget (tids_last_seq s) tid in
  if last =? IEEE80211_SEQ_MAX then htt_rx_status_ok
  else
    let seq_num_delta := Z.land (u32 (seq - 1 - last)) (IEEE80211_SEQ_MAX - 1) in
    if Z.shiftr IEEE80211_SEQ_MAX 1 <? seq_num_delta then htt_rx_status_err_replay else htt_rx_status_ok.

Definition ol_rx_seq_num_check (s : rxState) (tid : Z) (d : rx_desc) : rxState * htt_rx_status :=
  if OL_RX_MCAST_TID =? tid then
    let pkt_tid := desc_tid d in
    if OL_TXRX_NUM_EXT_TIDS <=? pkt_tid then (s, htt_rx_status_ok)
    else if desc_retry d && (seq_num d =? zget (tids_mcast_last_seq s) pkt_tid)
    then (s, htt_rx_status_err_replay)
    else (s <| tids_mcast_last_seq ::= λ l, zset l pkt_tid (seq_num d) |>, htt_rx_status_ok)
  else (s, ol_rx_reorder_seq_num_check s tid (seq_num d)).

Section window.
Context (desc : Z → rx_desc).
Context (rx_opt_proc : rxState → Z → Z → option rxState).
Implicit Types (s : rxState) (e : ol_rx_reorder_array_elem_t).

(** ** Window operations *)

Definition ol_rx_reorder_store s (tid idx : Z) (head_msdu tail_msdu : option Z) : option rxState :=
  let idx := Z.land idx (mask_of s tid) in
  e ← get_elem s tid idx;
  '(s, e) ← match head e with
            | Some _ => s ← qdf_nbuf_set_next s (tail e) head_msdu; Some (s, e)
            | None => Some (s, e <| head := head_msdu |>)
            end;
  Some (set_elem s tid idx (e <| tail := tail_msdu |>)).

(** The loop of [ol_rx_reorder_release] behind the first slot. *)
Fixpoint release_loop (fuel : nat) s (tid idx idx_end : Z) (tail_msdu : option Z) :
    option (rxState * option Z) :=
  if idx =? idx_end then Some (s, tail_msdu)
  else match fuel with
  | O => None
  | S n =>
      e ← get_elem s tid idx;
      '(s, tail_msdu) ←
        match head e with
        | Some _ =>
            s ← match tail_msdu with Some _ => qdf_nbuf_set_next s tail_msdu (head e) | None => Some s end;
            Some (s, tail e)
        | None => Some (s, tail_msdu)
        end;
      let s := set_elem s tid idx no_elem in
      release_loop n s tid (idx_wrap (idx + 1) (mask_of s tid)) idx_end tail_msdu
  end.

(** What release and flush do with the collected chain first. *)
Definition end_chain s (tid h : Z) (tail_msdu : option Z) : option rxState :=
  let s := s <| tids_last_seq ::= λ l, zset l tid (seq_num (desc h)) |> in
  qdf_nbuf_set_next s tail_msdu None.

Definition ol_rx_reorder_release s (tid idx_start idx_end : Z) : option rxState :=
  let s := s <| tids_next_rel_idx ::= λ l, zset l tid (u16 idx_end) |> in
  let mask := mask_of s tid in
  let idx_start := Z.land idx_start mask in
  let idx_end := Z.land idx_end mask in
  e ← get_elem s tid idx_start;
  let s := set_elem s tid idx_start no_elem in
  '(s, tail_msdu) ← release_loop (S (Z.to_nat mask)) s tid (idx_wrap (idx_start + 1) mask) idx_end (tail e);
  match head e with
  | Some h => s ← end_chain s tid h tail_msdu; rx_opt_proc s tid h
  | None => Some s
  end.

Inductive htt_rx_flush_action := htt_rx_flush_release | htt_rx_flush_discard.

(** The loop of [ol_rx_reorder_flush]. *)
Fixpoint flush_loop (fuel : nat) s (tid idx_start idx_end : Z) (head_msdu tail_msdu : option Z) :
    option (rxState * option Z * option Z) :=
  match fuel with
  | O => None
  | S n =>
      e ← get_elem s tid idx_start;
      '(s, head_msdu, tail_msdu) ←
        match head e, head_msdu with
        | None, _ => Some (s, head_msdu, tail_msdu)
        | Some _, None => Some (set_elem s tid idx_start no_elem, head e, tail e)
        | Some _, Some _ =>
            s ← qdf_nbuf_set_next s tail_msdu (head e);
            Some (set_elem s tid idx_start no_elem, head_msdu, tail e)
        end;
      let idx_start := idx_wrap (idx_start + 1) (mask_of s tid) in
      if idx_start =? idx_end then Some (s, head_msdu, tail_msdu)
      else flush_loop n s tid idx_start idx_end head_msdu tail_msdu
  end.

(** Freeing a chain ([ol_rx_frames_free], and the loop of [ol_rx_reorder_flush]);
    the fuel bounds its length. *)
Fixpoint ol_rx_frames_free (fuel : nat) s (frames : option Z) : option rxState :=
  match frames with
  | None => Some s
  | Some m =>
      match fuel with
      | O => None
      | S n => let next := qdf_nbuf_next s m in ol_rx_frames_free n (rx_emit s (FrameFree m)) next
      end
  end.

Definition ol_rx_reorder_flush (fuel : nat) s (tid idx_start idx_end : Z) (action : htt_rx_flush_action) :
    option rxState :=
  let mask := mask_of s tid in
  let '(s, idx_end) :=
    if idx_end =? 0xffff
    then (s <| tids_next_rel_idx ::= λ l, zset l tid 0 |>, idx_start)
    else (s <| tids_next_rel_idx ::= λ l, zset l tid (u16 idx_end) |>, idx_end) in
  let idx_start := Z.land idx_start mask in
  let idx_end := Z.land idx_end mask in
  '(s, head_msdu, tail_msdu) ← flush_loop (S (Z.to_nat mask)) s tid idx_start idx_end None None;
  let s := rx_emit s (WaitlistRemove tid) in
  match head_msdu with
  | None => Some s
  | Some h =>
      s ← end_chain s tid h tail_msdu;
      match action with
      | htt_rx_flush_release => rx_opt_proc s tid h
      | htt_rx_flush_discard => ol_rx_frames_free fuel s (Some h)
      end
  end.

(** [ol_rx_reorder_first_hole]: the slots are scanned from 1, wrapping to 0. *)
Fixpoint skip_slots (fuel : nat) s (tid tmp_idx : Z) (present : bool) : option Z :=
  if tmp_idx =? 0 then Some tmp_idx
  else
    e ← get_elem s tid tmp_idx;
    if Bool.eqb (bool_decide (head e = None)) present then Some tmp_idx
    else match fuel with
         | O => None
         | S n => skip_slots n s tid (idx_wrap (tmp_idx + 1) (mask_of s tid)) present
         end.
Definition ol_rx_reorder_first_hole s (tid : Z) : option Z :=
  let mask := mask_of s tid in
  tmp_idx ← skip_slots (Z.to_nat mask) s tid (idx_wrap 1 mask) false;
  skip_slots (Z.to_nat mask) s tid tmp_idx true.

Fixpoint cleanup_loop (n : nat) (fuel : nat) s (tid : Z) : option rxState :=
  match n with
  | O => Some s
  | S n =>
      s ← ol_rx_reorder_flush fuel s tid 0 0 htt_rx_flush_discard;
      cleanup_loop n fuel s (tid + 1)
  end.
Definition ol_rx_reorder_peer_cleanup (fuel : nat) s : option rxState :=
  cleanup_loop (Z.to_nat OL_TXRX_NUM_EXT_TIDS) fuel s 0.

(** [ol_rx_reorder_flush_frag]. *)
Definition ol_rx_reorder_flush_frag (fuel : nat) s (tid seq : Z) : option rxState :=
  let seq := Z.land seq (mask_of s tid) in
  e ← get_elem s tid seq;
  match head e with
  | Some h => s ← ol_rx_frames_free fuel s (Some h); Some (set_elem s tid seq no_elem)
  | None => Some s
  end.

(** ** Messages of the firmware

    [found] tells whether [ol_txrx_peer_find_by_id] finds the peer. *)

(** [ol_rx_addba_handler]; [mem] is what the allocation returns.  Window sizes
    above 64 read [g_log2ceil] out of bounds. *)
Definition ol_rx_addba_handler (found host_addba : bool) (mem : option (nat → list ol_rx_reorder_array_elem_t))
    s (tid win failed : Z) : option rxState :=
  if negb found then Some s
  else
    let s := if host_addba then rx_emit s (AddbaComplete tid failed) else s in
    if negb (failed =? 0) then Some s
    else
      let s := s <| tids_last_seq ::= λ l, zset l tid IEEE80211_SEQ_MAX |> in
      if Z.of_nat (length g_log2ceil) <=? win then None
      else
        let round_pwr2_win_sz := zget g_log2ceil win in
        let arr := match mem with
                   | Some f => ArrAlloc (f (Z.to_nat round_pwr2_win_sz))
                   | None => ArrNull
                   end in
        let s := upd_reorder s tid (λ r,
                   r <| win_sz := win |> <| array := arr |>
                     <| win_sz_mask := u8 (round_pwr2_win_sz - 1) |> <| num_mpdus := 0 |>) in
        Some (s <| tids_next_rel_idx ::= λ l, zset l tid 0 |>).

Definition ol_rx_delba_handler (found : bool) s (tid : Z) : rxState :=
  if negb found then s
  else
    let s := s <| tids_next_rel_idx ::= λ l, zset l tid 0xffff |> in
    let s := match array (reorder s tid) with ArrBase => s | _ => rx_emit s (ArrayFree tid) end in
    upd_reorder s tid (λ r, ol_rx_reorder_init r tid).

Definition ol_rx_flush_handler (fuel : nat) (found : bool) s (tid idx_start idx_end : Z)
    (action : htt_rx_flush_action) : option rxState :=
  if negb found then Some s
  else
    let idx := Z.land idx_start (mask_of s tid) in
    e ← get_elem s tid idx;
    match head e with
    | Some h =>
        if is_frag (desc h) then ol_rx_reorder_flush_frag fuel s tid idx_start
        else ol_rx_reorder_flush fuel s tid idx_start idx_end action
    | None => ol_rx_reorder_flush fuel s tid idx_start idx_end action
    end.

(** Freeing the buffers of one slot, up to its tail. *)
Fixpoint free_mpdu (fuel : nat) s (msdu : option Z) (mpdu_tail : option Z) : option rxState :=
  m ← msdu;
  match fuel with
  | O => None
  | S n =>
      let next_msdu := qdf_nbuf_next s m in
      let s := rx_emit s (FrameFree m) in
      if bool_decide (Some m = mpdu_tail) then Some s else free_mpdu n s next_msdu mpdu_tail
  end.

(** The loop of [ol_rx_pn_ind_handler]; [pn_ie] is the part of the list of
    failed slots not matched yet. *)
Fixpoint pn_ind_loop (n fuel : nat) s (tid seq seq_num_end : Z) (pn_ie : list Z)
    (head_msdu tail_msdu : option Z) : option (rxState * option Z * option Z) :=
  match n with
  | O => None
  | S n =>
      e ← get_elem s tid seq;
      '(s, pn_ie, head_msdu, tail_msdu) ←
        match head e with
        | None => Some (s, pn_ie, head_msdu, tail_msdu)
        | Some h =>
            '(s, pn_ie, head_msdu, tail_msdu) ←
              match pn_ie with
              | p :: pn_ie' =>
                  if seq =? p then
                    s ← free_mpdu fuel (rx_emit s (RxErr tid h)) (Some h) (tail e);
                    Some (s, pn_ie', head_msdu, tail_msdu)
                  else
                    match head_msdu with
                    | None => Some (s, pn_ie, head e, tail e)
                    | Some _ => s ← qdf_nbuf_set_next s tail_msdu (head e); Some (s, pn_ie, head_msdu, tail e)
                    end
              | [] =>
                  match head_msdu with
                  | None => Some (s, pn_ie, head e, tail e)
                  | Some _ => s ← qdf_nbuf_set_next s tail_msdu (head e); Some (s, pn_ie, head_msdu, tail e)
                  end
              end;
            Some (set_elem s tid seq no_elem, pn_ie, head_msdu, tail_msdu)
        end;
      let seq := Z.land (seq + 1) (mask_of s tid) in
      if seq =? seq_num_end then Some (s, head_msdu, tail_msdu)
      else pn_ind_loop n fuel s tid seq seq_num_end pn_ie head_msdu tail_msdu
  end.

Definition ol_rx_pn_ind_handler (fuel : nat) (found : bool) s (tid seq_num_start seq_num_end : Z)
    (pn_ie : list Z) : option rxState :=
  if negb found then Some s
  else
    let s := s <| fw_pn_check := 1 |> in
    let mask := mask_of s tid in
    let start := Z.land seq_num_start mask in
    '(s, head_msdu, tail_msdu) ←
      pn_ind_loop (S (Z.to_nat mask)) fuel s tid start (Z.land seq_num_end mask) pn_ie None None;
    match head_msdu with
    | Some h => s ← qdf_nbuf_set_next s tail_msdu None; rx_opt_proc s tid h
    | None => Some s
    end.
End window.

(** ** Index arithmetic of the windows *)

Definition pow2_mask (mask : Z) : Prop := ∃ k, 0 <= k <= 6 ∧ mask = Z.ones k.

Lemma wrap_mod mask i : pow2_mask mask → 0 <= mask ∧ idx_wrap i mask = i mod (mask + 1).
Proof.
  intros (k & Hk & ->). unfold idx_wrap. rewrite Z.land_ones by lia.
  rewrite Z.ones_equiv. assert (0 < 2 ^ k) by (apply Z.pow_pos_nonneg; lia). split; [lia|]. f_equal. lia.
Qed.
Lemma wrap_range mask i : pow2_mask mask → 0 <= idx_wrap i mask <= mask.
Proof.
  intros H. destruct (wrap_mod mask i H) as [? ->]. pose proof (Z.mod_pos_bound i (mask + 1)). lia.
Qed.

(** The slots visited from [i], [n] of them. *)
Fixpoint cyc (n : nat) (mask i : Z) : list Z :=
  match n with
  | O => []
  | S n => i :: cyc n mask (idx_wrap (i + 1) mask)
  end.
(** The number of slots from [a] up to, not including, [b]; all of them when
    they are equal. *)
Definition span (mask a b : Z) : nat := S (Z.to_nat ((b - a - 1) mod (mask + 1))).
(** The slots from [a] to [b]. *)
Definition slots (mask a b : Z) : list Z := cyc (span mask a b) mask a.

Lemma length_cyc n mask i : length (cyc n mask i) = n.
Proof. revert i. induction n as [|n IH]; intros i; cbn; [done|]. by rewrite IH. Qed.

Section masks.
Context (mask : Z) (Hmask : pow2_mask mask).

Lemma cyc_range n i j : 0 <= i <= mask → j ∈ cyc n mask i → 0 <= j <= mask.
Proof.
  revert i. induction n as [|n IH]; intros i Hi; cbn; [by intros ?%not_elem_of_nil|].
  intros [->|Hj]%elem_of_cons; [done|]. apply (IH (idx_wrap (i + 1) mask)); [by apply wrap_range|done].
Qed.

Lemma cyc_mod n i j : 0 <= i <= mask → j ∈ cyc n mask i → ∃ k, 0 <= k < Z.of_nat n ∧ j = (i + k) mod (mask + 1).
Proof.
  revert i. induction n as [|n IH]; intros i Hi; cbn; [by intros ?%not_elem_of_nil|].
  destruct (wrap_mod mask (i + 1) Hmask) as [Hm Ew].
  intros [->|Hj]%elem_of_cons; [exists 0; split; [lia|]; rewrite Z.mod_small; lia|].
  destruct (IH _ (wrap_range mask (i + 1) Hmask) Hj) as (k & Hk & ->). exists (k + 1). split; [lia|].
  rewrite Ew, Z.add_mod_idemp_l by lia. f_equal. lia.
Qed.

Lemma cyc_NoDup n i : 0 <= i <= mask → Z.of_nat n <= mask + 1 → NoDup (cyc n mask i).
Proof.
  revert i. induction n as [|n IH]; intros i Hi Hn; cbn; [constructor|]. constructor.
  - intros Hj. destruct (cyc_mod n _ i (wrap_range mask (i + 1) Hmask) Hj) as (k & Hk & E).
    destruct (wrap_mod mask (i + 1) Hmask) as [Hm Ew]. rewrite Ew, Z.add_mod_idemp_l in E by lia.
    assert (i = i mod (mask + 1)) as Ei by (rewrite Z.mod_small; lia).
    rewrite Ei in E at 1. 
    assert ((i + 1 + k - i) mod (mask + 1) = 0) as E0.
    { rewrite Zminus_mod, <- E, <- Ei, Z.sub_diag. apply Z.mod_0_l. lia. }
    replace (i + 1 + k - i) with (k + 1) in E0 by lia. rewrite Z.mod_small in E0 by lia. lia.
  - apply IH; [by apply wrap_range|lia].
Qed.

Lemma span_bound a b : Z.of_nat (span mask a b) <= mask + 1.
Proof.
  destruct (wrap_mod mask 0 Hmask) as [Hm _]. unfold span.
  pose proof (Z.mod_pos_bound (b - a - 1) (mask + 1)). lia.
Qed.

(** The first slot, and the rest from its successor. *)
Lemma slots_first a b : 0 <= a <= mask →
  slots mask a b = a :: cyc (Z.to_nat ((b - a - 1) mod (mask + 1))) mask (idx_wrap (a + 1) mask).
Proof. done. Qed.

Lemma span_step a b :
  0 <= a <= mask → 0 <= b <= mask → idx_wrap (a + 1) mask ≠ b →
  Z.to_nat ((b - a - 1) mod (mask + 1)) = span mask (idx_wrap (a + 1) mask) b.
Proof.
  intros Ha Hb Hne. destruct (wrap_mod mask (a + 1) Hmask) as [Hm Ew]. unfold span. rewrite Ew in *.
  rewrite <- (Zminus_mod_idemp_l (b - (a + 1) mod (mask + 1))), <- (Zminus_mod_idemp_r b), Zmod_mod.
  rewrite !Zminus_mod_idemp_r, Zminus_mod_idemp_l.
  set (d := (b - a - 1) mod (mask + 1)).
  assert (d ≠ 0) as Hd.
  { intros E. apply Hne. unfold d in E.
    assert (b mod (mask + 1) = (a + 1) mod (mask + 1)) as E1.
    { replace b with ((b - a - 1) + (a + 1)) by lia. rewrite <- Z.add_mod_idemp_l, E by lia. done. }
    rewrite (Z.mod_small b) in E1 by lia. done. }
  assert ((b - (a + 1) - 1) mod (mask + 1) = d - 1) as ->.
  { replace (b - (a + 1) - 1) with ((b - a - 1) - 1) by lia. rewrite <- Zminus_mod_idemp_l. fold d.
    pose proof (Z.mod_pos_bound (b - a - 1) (mask + 1)). rewrite Z.mod_small; lia. }
  pose proof (Z.mod_pos_bound (b - a - 1) (mask + 1)). lia.
Qed.

Lemma span_last a b :
  0 <= a <= mask → 0 <= b <= mask → idx_wrap (a + 1) mask = b → Z.to_nat ((b - a - 1) mod (mask + 1)) = 0%nat.
Proof.
  intros Ha Hb <-. destruct (wrap_mod mask (a + 1) Hmask) as [Hm ->].
  replace (((a + 1) mod (mask + 1) - a - 1)) with ((a + 1) mod (mask + 1) - (a + 1)) by lia.
  rewrite Zminus_mod_idemp_l, Z.sub_diag, Z.mod_0_l by lia. done.
Qed.
End masks.

(** ** Windows as lists of chains *)

Implicit Types (s : rxState) (e : ol_rx_reorder_array_elem_t).

(** The buffers of [l] are linked one to the next. *)
Definition linked (nx : Z → option Z) (l : list Z) : Prop := ∃ q, lseg nx (hd_error l) l q.
(** A slot holds the buffers [l]. *)
Definition holds (nx : Z → option Z) e (l : list Z) : Prop :=
  head e = hd_error l ∧ tail e = last l ∧ linked nx l.

Lemma linked_nil nx : linked nx [].
Proof. by exists None. Qed.
Lemma linked_frame nx nx' l : (∀ x, x ∈ l → nx x = nx' x) → linked nx l → linked nx' l.
Proof. intros Hf [q Hq]. exists q. by eapply lseg_frame. Qed.
Lemma linked_upd nx t v l : t ∉ l → linked nx l → linked (nx_upd nx t v) l.
Proof. intros Ht [q Hq]. exists q. by apply lseg_upd_fresh. Qed.
Lemma holds_frame nx nx' e l : (∀ x, x ∈ l → nx x = nx' x) → holds nx e l → holds nx' e l.
Proof. intros Hf (?&?&?). split_and!; [done..|]. by eapply linked_frame. Qed.

(** [next] of the last buffer of the first chain assigned to the second. *)
Lemma linked_app nx l1 t l2 :
  linked nx l1 → linked nx l2 → last l1 = Some t → NoDup (l1 ++ l2) →
  linked (nx_upd nx t (hd_error l2)) (l1 ++ l2).
Proof.
  intros [q1 H1] [q2 H2] Hl Hnd. apply last_Some in Hl as [l1' ->].
  apply NoDup_app in Hnd as (Hnd1 & Hd & _). apply NoDup_app in Hnd1 as (_ & Hd1 & _).
  apply lseg_app in H1 as (r & H1 & -> & _). exists q2.
  assert (hd_error ((l1' ++ [t]) ++ l2) = hd_error (l1' ++ [t])) as -> by by destruct l1'.
  apply lseg_app. exists (hd_error l2). split; [|apply lseg_upd_fresh; [|done]; apply Hd, elem_of_app; right; by apply list_elem_of_singleton].
  apply lseg_app. exists (Some t). split; [apply lseg_upd_fresh; [|done]; intros Ht; by apply (Hd1 t Ht), list_elem_of_singleton|].
  split; [done|]. exact (nx_upd_eq _ _ _).
Qed.

(** The chain is terminated at its last buffer. *)
Lemma linked_end nx l t :
  linked nx l → last l = Some t → NoDup l → chain (nx_upd nx t None) (hd_error l) l.
Proof.
  intros Hl Ht Hnd. pose proof (linked_app nx l t [] Hl (linked_nil nx) Ht) as H. rewrite app_nil_r in H.
  destruct (H Hnd) as [q Hq]. apply last_Some in Ht as [l' ->].
  apply lseg_app in Hq as (r & Hr & E & _). apply lseg_app. exists r. split; [exact Hr|].
  split; [exact E|]. exact (nx_upd_eq _ _ _).
Qed.

(** The parts of the state the windows do not share. *)
Definition rest s := (tids_last_seq s, tids_next_rel_idx s, tids_mcast_last_seq s, tids_last_pn s,
                      tids_last_pn_valid s, fw_pn_check s, rx_events s).

(** Window [tid] holds the chains [W], slot by slot. *)
Record win_rep s (tid : Z) (W : list (list Z)) : Prop := {
  wr_tid : 0 <= tid < Z.of_nat (length (tids_rx_reorder s));
  wr_mask : pow2_mask (mask_of s tid);
  wr_len : Z.of_nat (length W) = mask_of s tid + 1;
  wr_array : match array (reorder s tid) with
             | ArrBase => mask_of s tid = 0
             | ArrAlloc a => Z.of_nat (length a) = mask_of s tid + 1
             | ArrNull => False
             end;
  wr_slots : ∀ i, 0 <= i <= mask_of s tid → ∃ e, get_elem s tid i = Some e ∧ holds (nb_next s) e (zget W i);
  wr_nodup : NoDup (concat W);
}.

(** Only window [tid] and the links of the buffers [own] have changed. *)
Definition touches (tid : Z) (own : list Z) s s' : Prop :=
  mask_of s' tid = mask_of s tid ∧ (∀ t, 0 <= t → t ≠ tid → reorder s' t = reorder s t) ∧
  (∀ x, x ∉ own → nb_next s' x = nb_next s x).

Lemma touches_refl tid own s : touches tid own s s.
Proof. done. Qed.
Lemma touches_trans tid own own' s1 s2 s3 :
  touches tid own s1 s2 → touches tid own' s2 s3 → (∀ x, x ∈ own' → x ∈ own) → touches tid own s1 s3.
Proof.
  intros (E1 & F1 & G1) (E2 & F2 & G2) Hsub. split_and!; [congruence| |].
  - intros t Ht Hne. by rewrite F2, F1.
  - intros x Hx. rewrite G2, G1; [done..|]. intros Hin. by apply Hx, Hsub.
Qed.

(** *** Slots *)

Lemma upd_reorder_eq s tid f :
  0 <= tid < Z.of_nat (length (tids_rx_reorder s)) → reorder (upd_reorder s tid f) tid = f (reorder s tid).
Proof. intros H. unfold reorder, upd_reorder. cbn. by apply zget_zset_eq. Qed.
Lemma upd_reorder_ne s tid f t :
  0 <= tid → 0 <= t → t ≠ tid → reorder (upd_reorder s tid f) t = reorder s t.
Proof. intros H Ht Hne. unfold reorder, upd_reorder. cbn. apply zget_zset_ne; [done..|congruence]. Qed.

Lemma set_elem_mask s tid i e :
  0 <= tid < Z.of_nat (length (tids_rx_reorder s)) → mask_of (set_elem s tid i e) tid = mask_of s tid.
Proof. intros H. unfold mask_of, set_elem. rewrite upd_reorder_eq by done. by destruct (array (reorder s tid)). Qed.

Lemma get_set_elem s tid i e j W :
  win_rep s tid W → 0 <= i <= mask_of s tid → 0 <= j <= mask_of s tid →
  get_elem (set_elem s tid i e) tid j = if i =? j then Some e else get_elem s tid j.
Proof.
  intros [] Hi Hj. unfold get_elem, set_elem. rewrite upd_reorder_eq by done.
  destruct (array (reorder s tid)) as [|a|] eqn:Ea; [| |done].
  - cbn. rewrite Ea. assert (i = 0 ∧ j = 0) as [-> ->] by lia. done.
  - cbn [array set_field]. cbn. rewrite length_zset, !(proj2 (Z.leb_le 0 j)), (proj2 (Z.ltb_lt j _)) by lia.
    cbn. rewrite zget_zset by lia. by destruct (i =? j).
Qed.

(** A slot is assigned. *)
Lemma win_set s tid W i e l :
  win_rep s tid W → 0 <= i <= mask_of s tid → holds (nb_next s) e l → NoDup (concat (zset W i l)) →
  win_rep (set_elem s tid i e) tid (zset W i l).
Proof.
  intros Hw Hi He Hnd. pose proof Hw as []. split.
  - unfold set_elem, upd_reorder. cbn. by rewrite length_zset.
  - by rewrite set_elem_mask.
  - by rewrite length_zset, set_elem_mask.
  - rewrite set_elem_mask by done. unfold set_elem. rewrite upd_reorder_eq by done.
    destruct (array (reorder s tid)) as [|a|] eqn:Ea; cbn; rewrite ?Ea, ?length_zset; done.
  - rewrite set_elem_mask by done. intros j Hj. rewrite (get_set_elem s tid i e j W) by done.
    rewrite zget_zset by lia. destruct (i =? j); [by exists e|by apply wr_slots0].
  - done.
Qed.

Lemma set_touches s tid W i e own : win_rep s tid W → touches tid own s (set_elem s tid i e).
Proof.
  intros []. split_and!; [by apply set_elem_mask| |done].
  intros t Ht Hne. apply upd_reorder_ne; [lia|done..].
Qed.

Lemma elem_of_window (W : list (list Z)) i x : x ∈ zget W i → x ∈ concat W.
Proof.
  unfold zget. intros Hx. rewrite list_lookup_total_alt in Hx. destruct (W !! Z.to_nat i) as [l|] eqn:E.
  - apply list_elem_of_In, in_concat. exists l. split; [by apply list_elem_of_In, list_elem_of_lookup_2 with (Z.to_nat i)|by apply list_elem_of_In].
  - by apply not_elem_of_nil in Hx.
Qed.

(** Links outside the window. *)
Lemma win_link s tid W t v :
  win_rep s tid W → t ∉ concat W → win_rep (s <| nb_next ::= λ nx, nx_upd nx t v |>) tid W.
Proof.
  intros [] Ht. split; try done. intros i Hi. destruct (wr_slots0 i Hi) as (e & He & Hh).
  exists e. split; [exact He|]. eapply holds_frame; [|exact Hh]. intros x Hx.
  cbn. rewrite nx_upd_ne; [done|]. intros ->. by apply Ht, (elem_of_window W i).
Qed.

(** Splitting a window at a slot. *)
Lemma concat_split (W : list (list Z)) i l :
  0 <= i < Z.of_nat (length W) →
  ∃ W1 W2, W = W1 ++ zget W i :: W2 ∧ zset W i l = W1 ++ l :: W2.
Proof.
  intros Hi. exists (take (Z.to_nat i) W), (drop (S (Z.to_nat i)) W). split.
  - symmetry. apply take_drop_middle. by apply zlookup_zget.
  - unfold zset. rewrite insert_take_drop by lia. done.
Qed.
Lemma concat_zset (W : list (list Z)) i l :
  0 <= i < Z.of_nat (length W) → ∃ R, concat W ≡ₚ zget W i ++ R ∧ concat (zset W i l) ≡ₚ l ++ R.
Proof.
  intros Hi. destruct (concat_split W i l Hi) as (W1 & W2 & E1 & E2). exists (concat W1 ++ concat W2).
  rewrite E2. split; [rewrite E1 at 1|]; rewrite concat_app; cbn; by rewrite Permutation_app_swap_app.
Qed.

(** *** Collecting slots *)

Definition pick (W : list (list Z)) (idxs : list Z) : list Z := concat ((λ i, zget W i) <$> idxs).
Definition clear (W : list (list Z)) (idxs : list Z) : list (list Z) := foldl (λ W i, zset W i []) W idxs.

Lemma zset_nil_id (W : list (list Z)) i : 0 <= i < Z.of_nat (length W) → zget W i = [] → zset W i [] = W.
Proof. intros Hi E. unfold zset. apply list_insert_id. rewrite <- E. by apply zlookup_zget. Qed.

Lemma pick_zset W i idxs :
  0 <= i → (∀ j, j ∈ idxs → 0 <= j) → i ∉ idxs → pick (zset W i []) idxs = pick W idxs.
Proof.
  intros Hi Hr Hn. unfold pick. f_equal. apply list_fmap_ext. intros ? j Hj%list_elem_of_lookup_2.
  apply zget_zset_ne; [done|by apply Hr|congruence].
Qed.

(** What has been collected: [acc] is linked, and disjoint from the window. *)
Record collecting s (tid : Z) (W : list (list Z)) (acc : list Z) : Prop := {
  co_rep : win_rep s tid W;
  co_linked : linked (nb_next s) acc;
  co_nodup : NoDup (acc ++ concat W);
}.

Definition link_next s (t : Z) (v : option Z) : rxState := s <| nb_next ::= λ nx, nx_upd nx t v |>.
(** The state after slot [i], read as [e], has been appended and emptied. *)
Definition pulled s (tid i : Z) (acc : list Z) e : rxState :=
  set_elem (match head e, last acc with Some _, Some t => link_next s t (head e) | _, _ => s end) tid i no_elem.

Lemma collecting_start s tid W : win_rep s tid W → collecting s tid W [].
Proof. intros H. split; [done|apply linked_nil|apply H]. Qed.

Lemma collecting_pull s tid W acc i :
  collecting s tid W acc → 0 <= i <= mask_of s tid →
  ∃ e, get_elem s tid i = Some e ∧ holds (nb_next s) e (zget W i) ∧
    collecting (pulled s tid i acc e) tid (zset W i []) (acc ++ zget W i) ∧
    touches tid (acc ++ concat W) s (pulled s tid i acc e) ∧ rest (pulled s tid i acc e) = rest s.
Proof.
  intros [Hw Hl Hnd] Hi. destruct (wr_slots _ _ _ Hw i Hi) as (e & He & Hh). exists e. split; [done|]. split; [done|].
  pose proof Hh as (Ehd & Etl & Hlk). pose proof (wr_len _ _ _ Hw) as Hlen.
  destruct (concat_zset W i [] ltac:(lia)) as (R & P1 & P2).
  assert (NoDup (acc ++ zget W i ++ R)) as Hnd' by by rewrite <- P1.
  assert (NoDup ((acc ++ zget W i) ++ concat (zset W i []))) as Hnd2 by (rewrite P2, <- app_assoc; exact Hnd').
  assert (NoDup (concat (zset W i []))) as Hnd3 by (apply NoDup_app in Hnd2; tauto).
  assert (NoDup (acc ++ zget W i)) as Hnd4 by (rewrite app_assoc in Hnd'; apply NoDup_app in Hnd'; tauto).
  unfold pulled. destruct (head e) as [h|] eqn:Eh; [destruct (last acc) as [t|] eqn:Et|].
  - assert (t ∈ acc) as Hta by by by apply last_Some_elem_of.
    assert (t ∉ concat W) as Htw by (apply NoDup_app in Hnd as (_ & Hd & _); by apply Hd).
    pose proof (win_link s tid W t (Some h) Hw Htw) as Hw1.
    assert (holds (nb_next (link_next s t (Some h))) no_elem []) as Hno by (split_and!; [done..|apply linked_nil]).
    split_and!; [split| |].
    + by apply win_set.
    + cbn. rewrite Ehd. by apply linked_app.
    + done.
    + apply (touches_trans tid (acc ++ concat W) [] _ (link_next s t (Some h))); [| |by intros ? ?%not_elem_of_nil].
      * split_and!; [done..|]. intros x Hx. cbn. apply nx_upd_ne. intros ->. apply Hx, elem_of_app. by left.
      * by eapply set_touches.
    + done.
  - assert (acc = []) as -> by (by apply last_None). split_and!; [split| |].
    + apply win_set; [done..| |done]. split_and!; [done..|apply linked_nil].
    + exact Hlk.
    + done.
    + by eapply set_touches.
    + done.
  - assert (zget W i = []) as Ez by by destruct (zget W i). split_and!; [split| |].
    + apply win_set; [done..| |done]. split_and!; [done..|apply linked_nil].
    + rewrite Ez, app_nil_r. exact Hl.
    + done.
    + by eapply set_touches.
    + done.
Qed.

(** An empty slot changes nothing. *)
Lemma collecting_skip s tid W acc i :
  collecting s tid W acc → 0 <= i <= mask_of s tid → zget W i = [] →
  collecting s tid (zset W i []) (acc ++ zget W i).
Proof.
  intros [Hw Hl Hnd] Hi Ez. pose proof (wr_len _ _ _ Hw). rewrite zset_nil_id, Ez, app_nil_r by (done || lia). done.
Qed.

Lemma pick_cons W i idxs : pick W (i :: idxs) = zget W i ++ pick W idxs.
Proof. done. Qed.

Lemma pick_clear W idxs :
  (∀ i, i ∈ idxs → 0 <= i < Z.of_nat (length W)) → NoDup idxs → concat W ≡ₚ pick W idxs ++ concat (clear W idxs).
Proof.
  revert W. induction idxs as [|i idxs IH]; intros W Hr Hnd; [done|]. apply NoDup_cons in Hnd as [Hn Hnd].
  destruct (concat_zset W i [] ltac:(apply Hr; constructor)) as (R & P1 & P2). cbn in P2.
  rewrite pick_cons. cbn [clear foldl]. rewrite P1, <- P2, <- app_assoc. apply Permutation_app_head.
  rewrite <- (pick_zset W i idxs); [|apply Hr; constructor|intros j Hj; apply Hr; by constructor|done].
  apply IH; [|done]. intros j Hj. rewrite length_zset. apply Hr. by constructor.
Qed.

(** What a pull leaves is a part of what was there. *)
Lemma pulled_own (W : list (list Z)) (acc : list Z) i x :
  0 <= i < Z.of_nat (length W) → x ∈ (acc ++ zget W i) ++ concat (zset W i []) → x ∈ acc ++ concat W.
Proof.
  intros Hi. destruct (concat_zset W i [] Hi) as (R & P1 & P2). rewrite !elem_of_app, P1, P2. cbn [app]. set_solver.
Qed.

(** *** The loop of release *)

Lemma release_loop_spec fuel s tid W acc i b :
  collecting s tid W acc → 0 <= i <= mask_of s tid → 0 <= b <= mask_of s tid →
  let idxs := if i =? b then [] else slots (mask_of s tid) i b in
  (length idxs <= fuel)%nat →
  ∃ s', release_loop fuel s tid i b (last acc) = Some (s', last (acc ++ pick W idxs)) ∧
    collecting s' tid (clear W idxs) (acc ++ pick W idxs) ∧ touches tid (acc ++ concat W) s s' ∧ rest s' = rest s.
Proof.
  revert s W acc i. induction fuel as [|fuel IH]; intros s W acc i Hc Hi Hb idxs Hf.
  - unfold idxs in *. cbn [release_loop]. destruct (Z.eqb_spec i b) as [->|Hne]; [|cbn in Hf; lia].
    exists s. cbn. rewrite app_nil_r. done.
  - unfold idxs in *. cbn [release_loop]. destruct (Z.eqb_spec i b) as [->|Hne].
    { exists s. cbn. rewrite app_nil_r. done. }
    destruct (collecting_pull s tid W acc i Hc Hi) as (e & He & (Ehd & Etl & _) & Hc1 & Ht1 & Hr1). rewrite He. cbn [mbind option_bind].
    pose proof (co_rep _ _ _ _ Hc) as Hw. pose proof (wr_mask _ _ _ Hw) as Hm. pose proof (wr_len _ _ _ Hw) as Hlen.
    set (s1 := pulled s tid i acc e) in *.
    assert ((match head e with
             | Some _ => s' ← match last acc with Some _ => qdf_nbuf_set_next s (last acc) (head e) | None => Some s end; Some (s', tail e)
             | None => Some (s, last acc)
             end) = Some (match head e, last acc with Some _, Some t => link_next s t (head e) | _, _ => s end,
                          last (acc ++ zget W i))) as ->.
    { rewrite Etl, Ehd, last_app. destruct (zget W i) as [|x l]; cbn [hd_error]; [done|].
      destruct (last acc); cbn [mbind option_bind qdf_nbuf_set_next]; by destruct (last (x :: l)) eqn:E; [|apply last_None in E]. }
    cbn [mbind option_bind]. fold (pulled s tid i acc e). fold s1.
    destruct Ht1 as (Em & Ht1 & Ht1'). rewrite Em in *.
    set (i' := idx_wrap (i + 1) (mask_of s tid)) in *.
    assert (0 <= i' <= mask_of s tid) as Hi' by by apply wrap_range.
    rewrite (slots_first _ i b Hi) in *. fold i' in Hf |- *. 
    assert (cyc (Z.to_nat ((b - i - 1) mod (mask_of s tid + 1))) (mask_of s tid) i' =
            if i' =? b then [] else slots (mask_of s tid) i' b) as Ecyc.
    { destruct (Z.eqb_spec i' b) as [E|Hne'].
      - by rewrite (span_last _ Hm i b Hi Hb E).
      - unfold slots. by rewrite (span_step _ Hm i b Hi Hb Hne'). }
    assert (NoDup (slots (mask_of s tid) i b)) as Hnd by (apply cyc_NoDup; [done..|by apply span_bound]).
    rewrite (slots_first _ i b Hi) in Hnd. fold i' in Hnd. rewrite Ecyc in Hnd, Hf |- *. apply NoDup_cons in Hnd as [Hnin _].
    rewrite pick_cons. cbn [length] in Hf.
    specialize (IH s1 (zset W i []) (acc ++ zget W i) i' Hc1). rewrite Em in IH.
    destruct (IH Hi' Hb ltac:(lia)) as (s' & E' & Hc' & Ht' & Hr').
    exists s'. set (js := if i' =? b then [] else slots (mask_of s tid) i' b) in *.
    assert (pick (zset W i []) js = pick W js) as Ep.
    { apply pick_zset; [lia| |done]. intros j Hj. unfold js in Hj.
      destruct (i' =? b); [by apply not_elem_of_nil in Hj|]. apply (cyc_range _ Hm _ i' j) in Hj; lia. }
    rewrite Ep in E', Hc'.
    rewrite <- !app_assoc in E', Hc'. split_and!; [exact E'|exact Hc'| |congruence].
    eapply touches_trans; [split_and!; [exact Em|exact Ht1|exact Ht1']|exact Ht'|].
    intros x. apply pulled_own. lia.
Qed.

(** *** Release *)

Lemma win_ext s s' tid W :
  tids_rx_reorder s' = tids_rx_reorder s → nb_next s' = nb_next s → win_rep s tid W → win_rep s' tid W.
Proof.
  destruct s, s'. cbn. intros -> -> [H1 H2 H3 H4 H5 H6].
  split; [exact H1|exact H2|exact H3|exact H4|exact H5|exact H6].
Qed.

Definition slots_of s (tid a b : Z) : list Z :=
  slots (mask_of s tid) (idx_wrap a (mask_of s tid)) (idx_wrap b (mask_of s tid)).

Section delivery.
Context (desc : Z → rx_desc).
Context (rx_opt_proc : rxState → Z → Z → option rxState).

Lemma collecting_end s tid W acc h :
  collecting s tid W acc → hd_error acc = Some h →
  ∃ s', end_chain desc s tid h (last acc) = Some s' ∧ win_rep s' tid W ∧ chain (nb_next s') (Some h) acc ∧
    tids_rx_reorder s' = tids_rx_reorder s ∧ (∀ x, x ∉ acc → nb_next s' x = nb_next s x) ∧
    rest s' = rest (s <| tids_last_seq ::= λ l, zset l tid (seq_num (desc h)) |>).
Proof.
  intros [Hw Hl Hnd] Hh. destruct (last acc) as [t|] eqn:Et; [|apply last_None in Et as ->; done].
  eexists. split; [reflexivity|]. split_and!.
  - apply (win_ext (link_next s t None)); [done..|]. apply win_link; [done|].
    apply NoDup_app in Hnd as (_ & Hd & _). apply Hd. by apply last_Some_elem_of.
  - rewrite <- Hh. apply linked_end; [done..|]. apply NoDup_app in Hnd. tauto.
  - done.
  - intros x Hx. cbn. apply nx_upd_ne. intros ->. apply Hx. by apply last_Some_elem_of.
  - done.
Qed.

Lemma release_collect s tid W a b :
  win_rep s tid W →
  let s0 := s <| tids_next_rel_idx ::= λ l, zset l tid (u16 b) |> in
  let idxs := slots_of s tid a b in
  ∃ s1, collecting s1 tid (clear W idxs) (pick W idxs) ∧ touches tid (concat W) s s1 ∧ rest s1 = rest s0 ∧
    ol_rx_reorder_release desc rx_opt_proc s tid a b =
      match hd_error (zget W (idx_wrap a (mask_of s tid))) with
      | Some h => s2 ← end_chain desc s1 tid h (last (pick W idxs)); rx_opt_proc s2 tid h
      | None => Some s1
      end.
Proof.
  intros Hw s0 idxs. unfold ol_rx_reorder_release. fold s0.
  assert (win_rep s0 tid W) as Hw0 by by apply (win_ext s).
  change (mask_of s0 tid) with (mask_of s tid).
  pose proof (wr_mask _ _ _ Hw) as Hm. pose proof (wr_len _ _ _ Hw) as Hlen.
  set (i := Z.land a (mask_of s tid)). set (j := Z.land b (mask_of s tid)).
  assert (0 <= i <= mask_of s tid) as Hi by by apply (wrap_range _ a).
  assert (0 <= j <= mask_of s tid) as Hj by by apply (wrap_range _ b).
  destruct (collecting_pull s0 tid W [] i (collecting_start _ _ _ Hw0) Hi) as (e & He & (Ehd & Etl & _) & Hc & Ht & Hr).
  rewrite He. cbn [mbind option_bind].
  assert (pulled s0 tid i [] e = set_elem s0 tid i no_elem) as Ep by (unfold pulled; by destruct (head e)).
  rewrite Ep in Hc, Ht, Hr. cbn [app] in Hc, Ht. set (s0' := set_elem s0 tid i no_elem) in *.
  destruct Ht as (Em & Ht1 & Ht2). change (mask_of s0 tid) with (mask_of s tid) in Em.
  set (i' := idx_wrap (i + 1) (mask_of s tid)).
  assert (0 <= i' <= mask_of s tid) as Hi' by by apply wrap_range.
  assert (idxs = i :: (if i' =? j then [] else slots (mask_of s tid) i' j)) as Eidx.
  { unfold idxs, slots_of. change (idx_wrap a _) with i. change (idx_wrap b _) with j. rewrite (slots_first _ i j Hi).
    f_equal. fold i'. destruct (Z.eqb_spec i' j) as [E|Hne].
    - by rewrite (span_last _ Hm i j Hi Hj E).
    - unfold slots. by rewrite (span_step _ Hm i j Hi Hj Hne). }
  set (js := if i' =? j then [] else slots (mask_of s tid) i' j) in *.
  assert (NoDup idxs) as Hnd by (apply cyc_NoDup; [done..|by apply span_bound]).
  rewrite Eidx in Hnd. apply NoDup_cons in Hnd as [Hnin _].
  assert (∀ k, k ∈ js → 0 <= k <= mask_of s tid) as Hjs.
  { intros k Hk. unfold js in Hk. destruct (i' =? j); [by apply not_elem_of_nil in Hk|]. by apply (cyc_range _ Hm _ i' k) in Hk. }
  pose proof (release_loop_spec (S (Z.to_nat (mask_of s tid))) s0' tid (zset W i []) (zget W i) i' j Hc) as HL.
  rewrite Em in HL. fold js in HL.
  destruct (HL Hi' Hj) as (s1 & E1 & Hc1 & Ht' & Hr1).
  { unfold js. destruct (i' =? j); [cbn; lia|]. unfold slots. rewrite (length_cyc (span (mask_of s tid) i' j)).
    pose proof (span_bound _ Hm i' j). lia. }
  assert (pick (zset W i []) js = pick W js) as Epick.
  { apply pick_zset; [lia| |done]. intros k Hk. apply Hjs in Hk. lia. }
  rewrite Etl, E1. cbn [mbind option_bind]. rewrite Epick in *. exists s1.
  assert (pick W idxs = zget W i ++ pick W js) as Epick' by by rewrite Eidx.
  assert (clear W idxs = clear (zset W i []) js) as Eclr by by rewrite Eidx.
  rewrite Epick', Eclr. split_and!; [exact Hc1| |congruence|].
  - apply (touches_trans tid (concat W) (zget W i ++ concat (zset W i [])) s s0' s1); [split_and!; [exact Em|exact Ht1|exact Ht2]|exact Ht'|].
    intros x Hx. apply (pulled_own W [] i x) in Hx; [done|lia].
  - by rewrite Ehd.
Qed.

Lemma release_spec s tid W a b :
  win_rep s tid W →
  let idxs := slots_of s tid a b in
  let s0 := s <| tids_next_rel_idx ::= λ l, zset l tid (u16 b) |> in
  match zget W (idx_wrap a (mask_of s tid)) with
  | h :: _ =>
      ∃ s2, ol_rx_reorder_release desc rx_opt_proc s tid a b = rx_opt_proc s2 tid h ∧
        chain (nb_next s2) (Some h) (pick W idxs) ∧ win_rep s2 tid (clear W idxs) ∧
        rest s2 = rest (s0 <| tids_last_seq ::= λ l, zset l tid (seq_num (desc h)) |>)
  | [] => ∃ s2, ol_rx_reorder_release desc rx_opt_proc s tid a b = Some s2 ∧ win_rep s2 tid (clear W idxs) ∧
            rest s2 = rest s0
  end.
Proof.
  intros Hw idxs s0. destruct (release_collect s tid W a b Hw) as (s1 & Hc & _ & Hr & E). fold idxs s0 in Hc, E, Hr.
  destruct (zget W (idx_wrap a (mask_of s tid))) as [|h l] eqn:Ez; cbn [hd_error] in E.
  - exists s1. split_and!; [done|apply Hc|done].
  - assert (hd_error (pick W idxs) = Some h) as Hp.
    { unfold idxs, slots_of. rewrite slots_first by (by apply wrap_range, wr_mask with W). by rewrite pick_cons, Ez. }
    destruct (collecting_end s1 tid _ _ h Hc Hp) as (s2 & E2 & Hw2 & Hch & _ & _ & Hr2).
    rewrite E2 in E. cbn [mbind option_bind] in E. exists s2. split_and!; [done..|].
    unfold rest in *. cbn in *. congruence.
Qed.

(** C9: release delivers in window order.  Releasing the slots from [a] up to
    [b] (all of them when they name the same slot) hands the next stage one
    null-terminated chain of all the buffers of those slots, slot by slot and
    in the order of arrival within a slot, records the sequence number of the
    first, and leaves exactly those slots empty; but when the first of the
    slots is empty, the buffers of the others are dropped from the window
    without being delivered or freed. *)
Theorem release_in_order s tid W a b :
  win_rep s tid W →
  let idxs := slots_of s tid a b in
  (zget W (idx_wrap a (mask_of s tid)) ≠ [] →
   ∃ s2 h, ol_rx_reorder_release desc rx_opt_proc s tid a b = rx_opt_proc s2 tid h ∧
     chain (nb_next s2) (Some h) (pick W idxs) ∧ win_rep s2 tid (clear W idxs) ∧
     tids_last_seq s2 = zset (tids_last_seq s) tid (seq_num (desc h)) ∧
     tids_next_rel_idx s2 = zset (tids_next_rel_idx s) tid (u16 b) ∧ rx_events s2 = rx_events s) ∧
  (zget W (idx_wrap a (mask_of s tid)) = [] →
   ∃ s2, ol_rx_reorder_release desc rx_opt_proc s tid a b = Some s2 ∧ win_rep s2 tid (clear W idxs) ∧
     rx_events s2 = rx_events s ∧ tids_last_seq s2 = tids_last_seq s).
Proof.
  intros Hw idxs. pose proof (release_spec s tid W a b Hw) as H. cbv zeta in H. fold idxs in H.
  destruct (zget W _) as [|h l].
  - destruct H as (s2 & E & Hw2 & Hr). unfold rest in Hr. cbn in Hr. injection Hr as Q1 Q2 Q3 Q4 Q5 Q6 Q7.
    split; [done|]. intros _. exists s2. by split_and!.
  - destruct H as (s2 & E & Hch & Hw2 & Hr). unfold rest in Hr. cbn in Hr. injection Hr as Q1 Q2 Q3 Q4 Q5 Q6 Q7.
    split; [|done]. intros _. exists s2, h. by split_and!.
Qed.

(** *** Flush *)

Lemma flush_loop_spec fuel s tid W acc i b :
  collecting s tid W acc → 0 <= i <= mask_of s tid → 0 <= b <= mask_of s tid →
  let idxs := slots (mask_of s tid) i b in
  (length idxs <= fuel)%nat →
  ∃ s', flush_loop fuel s tid i b (hd_error acc) (last acc) =
          Some (s', hd_error (acc ++ pick W idxs), last (acc ++ pick W idxs)) ∧
    collecting s' tid (clear W idxs) (acc ++ pick W idxs) ∧ touches tid (acc ++ concat W) s s' ∧ rest s' = rest s.
Proof.
  revert s W acc i. induction fuel as [|fuel IH]; intros s W acc i Hc Hi Hb idxs Hf; [cbn in Hf; lia|].
  pose proof (co_rep _ _ _ _ Hc) as Hw. pose proof (wr_mask _ _ _ Hw) as Hm. pose proof (wr_len _ _ _ Hw) as Hlen.
  unfold idxs in *. cbn [flush_loop].
  assert (∃ e s1, get_elem s tid i = Some e ∧
    (match head e, hd_error acc with
     | None, _ => Some (s, hd_error acc, last acc)
     | Some _, None => Some (set_elem s tid i no_elem, head e, tail e)
     | Some _, Some _ => s' ← qdf_nbuf_set_next s (last acc) (head e);
                         Some (set_elem s' tid i no_elem, hd_error acc, tail e)
     end) = Some (s1, hd_error (acc ++ zget W i), last (acc ++ zget W i)) ∧
    collecting s1 tid (zset W i []) (acc ++ zget W i) ∧ touches tid (acc ++ concat W) s s1 ∧ rest s1 = rest s)
    as (e & s1 & He & E1 & Hc1 & Ht1 & Hr1).
  { destruct (collecting_pull s tid W acc i Hc Hi) as (e & He & (Ehd & Etl & _) & Hc1 & Ht1 & Hr1).
    destruct (zget W i) as [|x l] eqn:Ez.
    - exists e, s. rewrite Ehd. cbn [hd_error]. rewrite app_nil_r. pose proof (collecting_skip s tid W acc i Hc Hi Ez) as Hk.
      rewrite Ez, app_nil_r in Hk. done.
    - exists e, (pulled s tid i acc e). rewrite Etl. split; [done|]. split; [|done]. unfold pulled. rewrite Ehd. cbn [hd_error].
      destruct acc as [|y acc]; [done|]. rewrite last_app.
      destruct (last (y :: acc)) as [t|] eqn:Et; [|by apply last_None in Et].
      destruct (last (x :: l)) eqn:El; [|by apply last_None in El]. reflexivity. }
  rewrite He. cbn [mbind option_bind]. rewrite E1. cbn [mbind option_bind].
  destruct Ht1 as (Em & Ht1 & Ht1'). rewrite Em in *.
  set (i' := idx_wrap (i + 1) (mask_of s tid)) in *.
  assert (0 <= i' <= mask_of s tid) as Hi' by by apply wrap_range.
  assert (NoDup (slots (mask_of s tid) i b)) as Hnd by (apply cyc_NoDup; [done..|by apply span_bound]).
  rewrite (slots_first _ i b Hi) in *. fold i' in Hf, Hnd |- *. rewrite pick_cons.
  destruct (Z.eqb_spec i' b) as [E|Hne].
  - rewrite (span_last _ Hm i b Hi Hb E). cbn [cyc]. exists s1. unfold pick. cbn [fmap list_fmap concat]. rewrite app_nil_r.
    split_and!; [reflexivity|exact Hc1|done|done].
  - rewrite (span_step _ Hm i b Hi Hb Hne) in Hf, Hnd |- *. fold i' in Hf, Hnd |- *.
    change (cyc (span (mask_of s tid) i' b) (mask_of s tid) i') with (slots (mask_of s tid) i' b) in *.
    apply NoDup_cons in Hnd as [Hnin _]. cbn [length] in Hf.
    specialize (IH s1 (zset W i []) (acc ++ zget W i) i' Hc1). rewrite Em in IH.
    destruct (IH Hi' Hb ltac:(lia)) as (s' & E' & Hc' & Ht' & Hr'). exists s'.
    assert (pick (zset W i []) (slots (mask_of s tid) i' b) = pick W (slots (mask_of s tid) i' b)) as Ep.
    { apply pick_zset; [lia| |done]. intros j Hj. apply (cyc_range _ Hm _ i' j) in Hj; lia. }
    rewrite Ep, <- !app_assoc in E'. rewrite Ep, <- !app_assoc in Hc'. split_and!; [exact E'|exact Hc'| |congruence].
    eapply touches_trans; [split_and!; [exact Em|exact Ht1|exact Ht1']|exact Ht'|].
    intros x. apply pulled_own. lia.
Qed.

Lemma frames_free_chain fuel s p l :
  chain (nb_next s) p l → (length l <= fuel)%nat →
  ol_rx_frames_free fuel s p = Some (s <| rx_events ::= λ ev, ev ++ (FrameFree <$> l) |>).
Proof.
  revert s p l. induction fuel as [|fuel IH]; intros s p l Hc Hf.
  - destruct l; [|cbn in Hf; lia]. unfold chain in Hc. apply lseg_nil in Hc as ->. cbn. destruct s. unfold set_field. cbn. by rewrite app_nil_r.
  - destruct p as [m|]; [|apply chain_nil in Hc as ->; cbn; destruct s; unfold set_field; cbn; by rewrite app_nil_r].
    apply chain_some in Hc as (l' & -> & Hc). cbn [ol_rx_frames_free]. rewrite (IH (rx_emit s (FrameFree m)) _ l'); [|exact Hc|cbn in Hf; lia].
    unfold rx_emit, set_field. destruct s. cbn. by rewrite <- app_assoc.
Qed.

(** Flush.  Flushing the slots from [a] to [b], or the whole window when
    [b] is 0xffff, takes all the buffers of those slots, empty slots or not, as
    one chain in window order: on release they go to the next stage, on discard
    each of them is freed once; none is lost or left behind.  The fuel of the
    freeing loop is enough when it covers the buffers of the window. *)
Theorem flush_in_order fuel s tid W a b action :
  win_rep s tid W → (length (concat W) <= fuel)%nat →
  let idxs := slots_of s tid a (if b =? 0xffff then a else b) in
  concat W ≡ₚ pick W idxs ++ concat (clear W idxs) ∧
  match pick W idxs with
  | [] => ∃ s2, ol_rx_reorder_flush desc rx_opt_proc fuel s tid a b action = Some s2 ∧ win_rep s2 tid (clear W idxs) ∧
            rx_events s2 = rx_events s ++ [WaitlistRemove tid] ∧ tids_last_seq s2 = tids_last_seq s
  | h :: _ =>
      ∃ s2, chain (nb_next s2) (Some h) (pick W idxs) ∧ win_rep s2 tid (clear W idxs) ∧
        tids_last_seq s2 = zset (tids_last_seq s) tid (seq_num (desc h)) ∧
        rx_events s2 = rx_events s ++ [WaitlistRemove tid] ∧
        ol_rx_reorder_flush desc rx_opt_proc fuel s tid a b action =
          match action with
          | htt_rx_flush_release => rx_opt_proc s2 tid h
          | htt_rx_flush_discard => Some (s2 <| rx_events ::= λ ev, ev ++ (FrameFree <$> pick W idxs) |>)
          end
  end.
Proof.
  intros Hw Hfuel idxs. pose proof (wr_mask _ _ _ Hw) as Hm. pose proof (wr_len _ _ _ Hw) as Hlen.
  assert (∀ k, k ∈ idxs → 0 <= k < Z.of_nat (length W)) as Hk.
  { intros k Hk. apply (cyc_range _ Hm) in Hk; [lia|by apply wrap_range]. }
  assert (NoDup idxs) as Hnd by (apply cyc_NoDup; [done|by apply wrap_range|by apply span_bound]).
  pose proof (pick_clear W idxs Hk Hnd) as HP. split; [exact HP|].
  unfold ol_rx_reorder_flush.
  set (s0 := if b =? 0xffff then _ else _).
  assert (∃ x, s0 = (s <| tids_next_rel_idx ::= λ l, zset l tid x |>, if b =? 0xffff then a else b)) as (x & E0)
    by (unfold s0; destruct (b =? 0xffff); by eexists).
  rewrite E0. clear E0 s0. set (s0 := s <| tids_next_rel_idx ::= _ |>).
  assert (win_rep s0 tid W) as Hw0 by by apply (win_ext s).
  pose proof (flush_loop_spec (S (Z.to_nat (mask_of s tid))) s0 tid W [] (idx_wrap a (mask_of s tid))
     (idx_wrap (if b =? 0xffff then a else b) (mask_of s tid)) (collecting_start _ _ _ Hw0)) as HL.
  change (mask_of s0 tid) with (mask_of s tid) in HL. fold (slots_of s tid a (if b =? 0xffff then a else b)) in HL. fold idxs in HL.
  destruct HL as (s1 & E1 & Hc & _ & Hr); [by apply wrap_range|by apply wrap_range| |].
  { unfold idxs, slots_of, slots. rewrite length_cyc.
    pose proof (span_bound _ Hm (idx_wrap a (mask_of s tid)) (idx_wrap (if b =? 0xffff then a else b) (mask_of s tid))). lia. }
  cbn [hd_error app last] in E1, Hc. unfold idx_wrap in E1. rewrite E1. cbn [mbind option_bind].
  unfold rest in Hr. injection Hr as R1 R2 R3 R4 R5 R6 R7.
  assert (collecting (rx_emit s1 (WaitlistRemove tid)) tid (clear W idxs) (pick W idxs)) as Hc1
    by (destruct Hc; split; [by apply (win_ext s1)|done..]).
  destruct (pick W idxs) as [|h l] eqn:Ep; cbn [hd_error].
  - eexists. split; [reflexivity|]. split; [apply Hc1|]. split; cbn; congruence.
  - destruct (collecting_end _ tid _ _ h Hc1 eq_refl) as (s2 & E2 & Hw2 & Hch & _ & _ & Hr2).
    rewrite E2. cbn [mbind option_bind]. unfold rest in Hr2. cbn in Hr2. injection Hr2 as Q1 Q2 Q3 Q4 Q5 Q6 Q7.
    exists s2. split; [done|]. split; [done|]. split; [congruence|]. split; [congruence|].
    destruct action; [done|]. apply frames_free_chain; [done|].
    apply (f_equal length) in Ep as El. apply Permutation_length in HP. rewrite length_app in HP. lia.
Qed.
End delivery.

(** *** Store *)

Lemma linked_app_l nx l1 l2 : linked nx (l1 ++ l2) → linked nx l1.
Proof.
  intros [q H]. destruct l1 as [|x l1]; [apply linked_nil|]. apply lseg_app in H as (r & H & _). by exists r.
Qed.

(** The last buffer of a slot is linked to the buffers of a chain outside the
    window. *)
Lemma win_link_last s tid W i t l :
  win_rep s tid W → linked (nb_next s) l → NoDup (l ++ concat W) → 0 <= i <= mask_of s tid →
  last (zget W i) = Some t →
  win_rep (link_next s t (hd_error l)) tid W ∧ linked (nb_next (link_next s t (hd_error l))) (zget W i ++ l).
Proof.
  intros Hw Hl Hnd Hi Et. pose proof Hw as []. destruct (concat_zset W i [] ltac:(lia)) as (R & P1 & P2). cbn in P2.
  rewrite P1 in Hnd. rewrite Permutation_app_swap_app in Hnd.
  assert (NoDup (zget W i ++ l)) as Hnd1 by (rewrite app_assoc in Hnd; apply NoDup_app in Hnd; tauto).
  assert (linked (nb_next (link_next s t (hd_error l))) (zget W i ++ l)) as Hlk.
  { apply linked_app; [|done..]. destruct (wr_slots0 i Hi) as (e & _ & _ & _ & H). exact H. }
  split; [|exact Hlk]. split; try done. intros j Hj. destruct (wr_slots0 j Hj) as (e & He & Hh & Ht & Hk).
  exists e. split; [exact He|]. split_and!; [done..|]. destruct (decide (i = j)) as [->|Hne]; [by eapply linked_app_l|].
  apply linked_upd; [|done]. intros Hin. apply NoDup_app in Hnd as (_ & Hd & _). apply (Hd t).
  - by apply last_Some_elem_of.
  - rewrite elem_of_app, <- P2. right. apply (elem_of_window _ j). by rewrite zget_zset_ne by (lia || done).
Qed.

(** Store.  Storing a chain of buffers for a slot (an MPDU, or one more
    MSDU of it) appends it to the buffers of that slot, first empty or not,
    and changes no other slot, no other window and no buffer outside the
    window. *)
Theorem store_appends s tid W idx l h t :
  win_rep s tid W → linked (nb_next s) l → hd_error l = Some h → last l = Some t → NoDup (l ++ concat W) →
  let i := idx_wrap idx (mask_of s tid) in
  ∃ s', ol_rx_reorder_store s tid idx (Some h) (Some t) = Some s' ∧
    win_rep s' tid (zset W i (zget W i ++ l)) ∧ touches tid (concat W) s s' ∧ rest s' = rest s.
Proof.
  intros Hw Hl Hh Ht Hnd i. pose proof Hw as []. pose proof (wrap_range _ idx wr_mask0) as Hi. fold i in Hi.
  destruct (concat_zset W i (zget W i ++ l) ltac:(lia)) as (R & P1 & P2).
  assert (NoDup (concat (zset W i (zget W i ++ l)))) as Hnd'.
  { rewrite P2, <- app_assoc, Permutation_app_swap_app, <- P1. exact Hnd. }
  unfold ol_rx_reorder_store. change (Z.land idx (mask_of s tid)) with i.
  destruct (wr_slots0 i Hi) as (e & He & Ehd & Etl & Hk). rewrite He. cbn [mbind option_bind]. rewrite Ehd, Etl.
  destruct (zget W i) as [|x l1] eqn:Ez; cbn [hd_error].
  - eexists. split; [reflexivity|]. split; [|split; [by apply (set_touches s tid W)|done]].
    apply win_set; [done..| |done]. by split_and!.
  - destruct (last (x :: l1)) as [t1|] eqn:El; [|by apply last_None in El].
    rewrite <- Ez, <- Hh in *. destruct (win_link_last s tid W i t1 l Hw Hl Hnd Hi El) as [Hw1 Hlk].
    cbn [qdf_nbuf_set_next mbind option_bind]. eexists. split; [reflexivity|]. split; [|split; [|done]].
    + apply win_set; [exact Hw1|done| |done]. split_and!; [|by rewrite last_app, Ht|exact Hlk].
      cbn. by rewrite Ehd, Ez.
    + eapply touches_trans; [|apply (set_touches _ tid W); exact Hw1|done]. split_and!; [done..|]. intros y Hy.
      cbn. apply nx_upd_ne. intros ->. apply Hy, (elem_of_window W i). by apply last_Some_elem_of.
Qed.

(** *** Block-ack agreements *)

(** The table rounds up to a power of two. *)
Lemma g_log2ceil_pow2 win : 0 <= win <= 64 → zget g_log2ceil win = 2 ^ Z.log2_up win ∧ Z.log2_up win <= 6.
Proof.
  intros H.
  assert (Forall (λ w, zget g_log2ceil w = 2 ^ Z.log2_up w ∧ Z.log2_up w <= 6) (seqZ 0 65)) as HF
    by (apply (bool_decide_unpack _); vm_compute; exact I).
  rewrite Forall_forall in HF. apply HF, elem_of_seqZ. lia.
Qed.

Lemma round_pwr2 win (sz := zget g_log2ceil win) : 0 <= win <= 64 →
  win <= sz ∧ 1 <= sz <= 64 ∧ pow2_mask (sz - 1) ∧ u8 (sz - 1) = sz - 1.
Proof.
  intros H. destruct (g_log2ceil_pow2 win H) as [E Hk]. subst sz. rewrite E.
  pose proof (Z.log2_up_nonneg win) as H0. pose proof (Z.pow_le_mono_r 2 _ _ ltac:(lia) Hk) as Hle.
  change (2 ^ 6) with 64 in Hle. assert (1 <= 2 ^ Z.log2_up win) by (apply (Z.pow_le_mono_r 2 0); lia).
  assert (win <= 2 ^ Z.log2_up win).
  { destruct (Z.le_gt_cases win 1); [lia|]. by apply Z.log2_up_spec. }
  split_and!; [lia..| |apply Z.mod_small; lia].
  exists (Z.log2_up win). rewrite Z.ones_equiv. lia.
Qed.

Lemma concat_replicate_nil {A} n : concat (replicate n (@nil A)) = [].
Proof. by induction n. Qed.

(** Block-ack agreements.  A successful ADDBA of at most 64 slots gives the
    traffic id an empty window of a power of two of slots, at least as many as
    agreed and at most 64, that accepts any sequence number first; one that
    failed, or is for an unknown peer, changes no window, and one of more than
    64 slots reads the rounding table out of bounds. *)
Theorem addba_window found host_addba s tid win failed :
  0 <= tid < Z.of_nat (length (tids_rx_reorder s)) → 0 <= win → length (tids_last_seq s) = length (tids_rx_reorder s) →
  let res := ol_rx_addba_handler found host_addba (Some (λ n, replicate n no_elem)) s tid win failed in
  if negb found || negb (failed =? 0) then ∃ s', res = Some s' ∧ tids_rx_reorder s' = tids_rx_reorder s
  else if 64 <? win then res = None
  else ∃ s' n, res = Some s' ∧ win <= Z.of_nat n <= 64 ∧ win_rep s' tid (replicate n []) ∧
         ∀ seq, ol_rx_reorder_seq_num_check s' tid seq = htt_rx_status_ok.
Proof.
  intros Htid Hwin Hlen res. unfold res, ol_rx_addba_handler.
  destruct found; [|by exists s]. cbn [negb orb]. set (s0 := if host_addba then _ else s).
  assert (tids_rx_reorder s0 = tids_rx_reorder s ∧ tids_last_seq s0 = tids_last_seq s) as [E0 E1] by by destruct host_addba.
  destruct (failed =? 0); cbn [negb orb]; [|by exists s0].
  change (Z.of_nat (length g_log2ceil)) with 65. destruct (Z.ltb_spec 64 win) as [Hgt|Hle].
  { by rewrite (proj2 (Z.leb_le 65 win)) by lia. }
  rewrite (proj2 (Z.leb_gt 65 win)) by lia. destruct (round_pwr2 win ltac:(lia)) as (H1 & H2 & H3 & H4).
  set (sz := zget g_log2ceil win) in *. eexists _, (Z.to_nat sz). split; [reflexivity|]. split; [lia|]. split.
  - apply (win_ext (upd_reorder (s0 <| tids_last_seq ::= λ l, zset l tid IEEE80211_SEQ_MAX |>) tid (λ r,
                   r <| win_sz := win |> <| array := ArrAlloc (replicate (Z.to_nat sz) no_elem) |>
                     <| win_sz_mask := u8 (sz - 1) |> <| num_mpdus := 0 |>))); [done..|].
    split; unfold mask_of, get_elem; rewrite ?upd_reorder_eq by (cbn; rewrite E0; done); cbn.
    + by rewrite length_zset, E0.
    + by rewrite H4.
    + rewrite length_replicate, H4. lia.
    + rewrite length_replicate, H4. lia.
    + intros i Hi. rewrite H4 in Hi. rewrite length_replicate, (proj2 (Z.leb_le 0 i)), (proj2 (Z.ltb_lt i _)) by lia.
      cbn. eexists. split; [reflexivity|]. unfold zget. rewrite !lookup_total_replicate_2 by lia.
      split_and!; [done..|apply linked_nil].
    + rewrite concat_replicate_nil. constructor.
  - intros q. unfold ol_rx_reorder_seq_num_check. cbn. rewrite E1, zget_zset_eq by lia. done.
Qed.

(** *** The first hole *)

(** [ol_rx_reorder_first_hole] skips the empty slots, then the filled ones. *)
Lemma skip_slots_spec fuel s tid W i present :
  win_rep s tid W → 0 <= i <= mask_of s tid → (mask_of s tid - i < Z.of_nat fuel) →
  ∃ k, skip_slots fuel s tid i present = Some k ∧ (k = 0 ∨ i <= k <= mask_of s tid) ∧
    (i ≠ 0 → ∀ j, i <= j <= mask_of s tid → (k = 0 ∨ j < k) → bool_decide (zget W j = []) = negb present) ∧
    (k ≠ 0 → bool_decide (zget W k = []) = present).
Proof.
  intros Hw Hi Hf. pose proof Hw as []. revert i Hi Hf. induction fuel as [|fuel IH]; intros i Hi Hf; [lia|].
  cbn [skip_slots]. destruct (Z.eqb_spec i 0) as [->|Hi0].
  { exists 0. split_and!; [done|by left|done..]. }
  destruct (wr_slots0 i Hi) as (e & He & Ehd & _). rewrite He. cbn [mbind option_bind].
  assert (bool_decide (head e = None) = bool_decide (zget W i = [])) as -> by (rewrite Ehd; by destruct (zget W i)).
  destruct (Bool.eqb _ present) eqn:E.
  - apply eqb_prop in E. exists i. split_and!; [done|lia|lia|done].
  - apply Bool.eqb_false_iff in E. assert (bool_decide (zget W i = []) = negb present) as Ei by by destruct (bool_decide _), present.
    destruct (wrap_mod _ (i + 1) wr_mask0) as [_ Ew].
    destruct (decide (i = mask_of s tid)) as [Em|Hne].
    + rewrite Em, Z.mod_same in Ew by lia. rewrite Em, Ew. exists 0.
      assert (skip_slots fuel s tid 0 present = Some 0) as -> by by destruct fuel.
      split_and!; [done|by left| |done]. intros _ j Hj _. assert (j = i) as -> by lia. done.
    + rewrite Z.mod_small in Ew by lia. rewrite Ew. destruct (IH (i + 1)) as (k & Ek & Hk & Hb & Ha); [lia..|].
      exists k. split_and!; [done|destruct Hk; [by left|right; lia]| |done].
      intros _ j Hj Hjk. destruct (decide (j = i)) as [->|]; [done|]. apply Hb; [lia|lia|done].
Qed.

(** The first hole.  For the timeout of a window with more than one slot,
    the scan from slot 1 ends, and names the end of the first run of filled
    slots behind the first run of empty ones: the slots before [m] are empty,
    those from [m] to the result are filled, and the result is an empty slot or
    0, the end of the window. *)
Theorem first_hole_run s tid W :
  win_rep s tid W →
  ∃ m k, ol_rx_reorder_first_hole s tid = Some k ∧ 0 <= m <= mask_of s tid ∧ 0 <= k <= mask_of s tid ∧
    let last_slot x := if x =? 0 then mask_of s tid else x - 1 in
    (∀ j, 1 <= j <= last_slot m → zget W j = []) ∧
    (m ≠ 0 → ∀ j, m <= j <= last_slot k → zget W j ≠ []) ∧
    (m = 0 → k = 0) ∧ (k ≠ 0 → zget W k = []).
Proof.
  intros Hw. pose proof Hw as []. destruct (wrap_mod _ 1 wr_mask0) as [Hm Ew].
  unfold ol_rx_reorder_first_hole. destruct (decide (mask_of s tid = 0)) as [E0|Hm0].
  { rewrite E0 in *. exists 0, 0. split; [done|]. split_and!; [lia..| | |done|done]; intros; cbn in *; lia. }
  assert (idx_wrap 1 (mask_of s tid) = 1) as -> by (rewrite Ew; apply Z.mod_small; lia).
  destruct (skip_slots_spec (Z.to_nat (mask_of s tid)) s tid W 1 false Hw ltac:(lia) ltac:(lia)) as (m & Em & Hmr & Hmb & Hma).
  rewrite Em. cbn [mbind option_bind].
  assert (∃ k, skip_slots (Z.to_nat (mask_of s tid)) s tid m true = Some k ∧ (k = 0 ∨ m <= k <= mask_of s tid) ∧
    (m ≠ 0 → ∀ j, m <= j <= mask_of s tid → (k = 0 ∨ j < k) → bool_decide (zget W j = []) = negb true) ∧
    (k ≠ 0 → bool_decide (zget W k = []) = true) ∧ (m = 0 → k = 0)) as (k & Ek & Hkr & Hkb & Hka & Hk0).
  { destruct (decide (m = 0)) as [->|Hn].
    - exists 0. split_and!; [by destruct (Z.to_nat _)|by left|done..].
    - destruct (skip_slots_spec (Z.to_nat (mask_of s tid)) s tid W m true Hw ltac:(lia) ltac:(lia)) as (k & ?&?&?&?).
      exists k. by split_and!. }
  exists m, k. split; [exact Ek|]. split_and!; [lia..| | |exact Hk0|].
  - intros j Hj. assert (bool_decide (zget W j = []) = true); [|by eapply bool_decide_eq_true_1].
    destruct (Z.eqb_spec m 0); apply Hmb; lia.
  - intros Hn j Hj. eapply bool_decide_eq_false_1. destruct (Z.eqb_spec k 0); apply Hkb; lia.
  - intros Hk. eapply bool_decide_eq_true_1. by apply Hka.
Qed.

(** ** The duplicate window *)

(** Duplicate detection.  For a unicast traffic id whose last released
    sequence number is known, a frame passes exactly when its number is ahead
    of that number by 1 to 2049 modulo 4096; so the number just released is
    always rejected, and the check changes nothing. *)
Theorem seq_num_window s tid d :
  tid ≠ OL_RX_MCAST_TID → 0 <= zget (tids_last_seq s) tid < 4096 → 0 <= seq_num d < 4096 →
  ol_rx_seq_num_check s tid d =
    (s, if decide (1 <= (seq_num d - zget (tids_last_seq s) tid) mod 4096 <= 2049)
        then htt_rx_status_ok else htt_rx_status_err_replay).
Proof.
  intros Htid Hl Hs. unfold ol_rx_seq_num_check, ol_rx_reorder_seq_num_check, IEEE80211_SEQ_MAX.
  rewrite (proj2 (Z.eqb_neq _ _)) by congruence. f_equal. set (last := zget _ _) in *. set (q := seq_num d) in *.
  rewrite (proj2 (Z.eqb_neq last 4096)) by lia. change (4096 - 1) with (Z.ones 12). rewrite Z.land_ones by lia.
  change (Z.shiftr 4096 1) with 2048. change (2 ^ 12) with 4096.
  assert (u32 (q - 1 - last) mod 4096 = (q - last - 1) mod 4096) as ->.
  { unfold u32. rewrite Z.mod_mod_divide by by exists (2 ^ 20). f_equal. lia. }
  assert (((q - last - 1) mod 4096) = if decide (q = last) then 4095 else (q - last) mod 4096 - 1) as ->.
  { destruct (decide (q = last)) as [->|Hne].
    - replace (last - last - 1) with (-1) by lia. done.
    - destruct (Z.le_gt_cases q last).
      + rewrite <- (Z.mod_add (q - last) 1), <- (Z.mod_add (q - last - 1) 1) by lia. rewrite !Z.mod_small by lia. lia.
      + rewrite !Z.mod_small by lia. lia. }
  destruct (decide (q = last)) as [->|Hne].
  - rewrite Z.sub_diag. done.
  - assert ((q - last) mod 4096 ≠ 0).
    { intros E. apply Z.mod_divide in E as [c Hc]; [|lia]. lia. }
    pose proof (Z.mod_pos_bound (q - last) 4096 ltac:(lia)).
    destruct (decide _) as [Hd|Hd], (Z.ltb_spec 2048 ((q - last) mod 4096 - 1)); [lia|done|done|lia].
Qed.

(** Multicast duplicates.  On the multicast traffic id a frame is rejected
    exactly when it is a retry with the number last seen for its own traffic
    id; an accepted frame is the one remembered, per traffic id, and a traffic
    id out of range is accepted without a trace. *)
Theorem mcast_duplicates s d :
  0 <= desc_tid d → length (tids_mcast_last_seq s) = Z.to_nat OL_TXRX_NUM_EXT_TIDS →
  let '(s', st) := ol_rx_seq_num_check s OL_RX_MCAST_TID d in
  let known := bool_decide (desc_tid d < OL_TXRX_NUM_EXT_TIDS) in
  (st = htt_rx_status_err_replay ↔ known = true ∧ desc_retry d = true ∧ seq_num d = zget (tids_mcast_last_seq s) (desc_tid d)) ∧
  (st = htt_rx_status_err_replay ∨ known = false → s' = s) ∧
  (st = htt_rx_status_ok → known = true →
     ∀ d', desc_tid d' = desc_tid d → desc_retry d' = true → seq_num d' = seq_num d →
       (ol_rx_seq_num_check s' OL_RX_MCAST_TID d').2 = htt_rx_status_err_replay).
Proof.
  intros H0 Hlen. unfold ol_rx_seq_num_check. rewrite Z.eqb_refl.
  destruct (Z.leb_spec OL_TXRX_NUM_EXT_TIDS (desc_tid d)) as [Hb|Hb].
  { rewrite bool_decide_eq_false_2 by lia. naive_solver. }
  rewrite bool_decide_eq_true_2 by lia. destruct (desc_retry d) eqn:Er, (Z.eqb_spec (seq_num d) (zget (tids_mcast_last_seq s) (desc_tid d))) as [E|Hne]; cbn [andb].
  1: split_and!; done.
  all: split; [naive_solver|split; [by intros [[=]|[=]]|]].
  all: intros _ _ d' Ed Er' Es; rewrite Ed, Er', (proj2 (Z.leb_gt _ _)) by done; cbn;
    rewrite zget_zset_eq by (rewrite Hlen; lia); by rewrite Es, Z.eqb_refl.
Qed.

(** ** A window at work

    Traffic id 3 has four slots: slot 0 holds buffers 10 and 11, slot 1 buffer
    12, slot 2 none and slot 3 buffer 13. *)
Definition demo_desc (m : Z) : rx_desc := mk_desc (100 + m) 3 false false false false true (m, 0).
Definition demo_proc (s : rxState) (tid h : Z) : option rxState := Some (rx_emit s (Deliver tid (Some h))).
Definition demo_array : list ol_rx_reorder_array_elem_t :=
  [mk_elem (Some 10) (Some 11); mk_elem (Some 12) (Some 12); no_elem; mk_elem (Some 13) (Some 13)].
Definition demo_window : list (list Z) := [[10; 11]; [12]; []; [13]].
Definition demo_peer (r : ol_rx_reorder_t) (nx : Z → option Z) : rxState :=
  mk_rx nx (zset (replicate 19 (ol_rx_reorder_init inhabitant 0)) 3 r)
    (replicate 19 4096) (replicate 19 0xffff) (replicate 19 4096) (replicate 19 (0, 0)) (replicate 19 0) 0 [].
Definition demo_rx : rxState :=
  demo_peer (mk_reorder 3 3 0 (ArrAlloc demo_array) no_elem 3 0) (λ x, if x =? 10 then Some 11 else None).

Lemma demo_rep : win_rep demo_rx 3 demo_window.
Proof.
  split; [by vm_compute|by exists 2|by vm_compute|by vm_compute| |].
  - intros i Hi. change (mask_of demo_rx 3) with 3 in Hi.
    assert (i = 0 ∨ i = 1 ∨ i = 2 ∨ i = 3) as [-> | [-> | [-> | ->]]] by lia;
      (eexists; split; [reflexivity|split_and!; [reflexivity..|]]).
    + by exists None.
    + by exists None.
    + apply linked_nil.
    + by exists None.
  - apply (bool_decide_unpack _). by vm_compute.
Qed.

(** From slot 3 around to slot 2 the buffers come out in order. *)
Lemma release_in_order_witness :
  win_rep demo_rx 3 demo_window ∧
  ∃ s2 h, ol_rx_reorder_release demo_desc demo_proc demo_rx 3 3 2 = demo_proc s2 3 h ∧
    chain (nb_next s2) (Some h) [13; 10; 11; 12].
Proof.
  split; [apply demo_rep|].
  destruct (release_in_order demo_desc demo_proc demo_rx 3 demo_window 3 2 demo_rep) as [H _].
  destruct (H ltac:(by vm_compute)) as (s2 & h & E & Hc & _). exists s2, h. split; [exact E|exact Hc].
Defined.

(** The whole window is freed on discard. *)
Lemma flush_in_order_witness :
  ∃ s2, ol_rx_reorder_flush demo_desc demo_proc 4 demo_rx 3 0 0xffff htt_rx_flush_discard =
        Some (s2 <| rx_events ::= λ ev, ev ++ (FrameFree <$> [10; 11; 12; 13]) |>) ∧ win_rep s2 3 [[]; []; []; []].
Proof.
  destruct (flush_in_order demo_desc demo_proc 4 demo_rx 3 demo_window 0 0xffff htt_rx_flush_discard demo_rep
    ltac:(vm_compute; lia)) as [_ (s2 & _ & Hw & _ & _ & E)]. exists s2. split; [exact E|exact Hw].
Defined.

(** One more buffer arrives for slot 3, named by sequence number 7. *)
Lemma store_appends_witness :
  ∃ s2, ol_rx_reorder_store demo_rx 3 7 (Some 14) (Some 14) = Some s2 ∧ win_rep s2 3 [[10; 11]; [12]; []; [13; 14]].
Proof.
  destruct (store_appends demo_rx 3 demo_window 7 [14] 14 14 demo_rep) as (s2 & E & Hw & _);
    [by exists None|done..|apply (bool_decide_unpack _); by vm_compute|].
  exists s2. split; [exact E|exact Hw].
Defined.

Lemma addba_window_witness :
  (∃ s' n, ol_rx_addba_handler true true (Some (λ n, replicate n no_elem)) demo_rx 5 33 0 = Some s' ∧
     33 <= Z.of_nat n <= 64 ∧ win_rep s' 5 (replicate n []) ∧
     ∀ seq, ol_rx_reorder_seq_num_check s' 5 seq = htt_rx_status_ok) ∧
  ol_rx_addba_handler true true (Some (λ n, replicate n no_elem)) demo_rx 5 65 0 = None.
Proof.
  split.
  - exact (addba_window true true demo_rx 5 33 0 ltac:(by vm_compute) ltac:(lia) eq_refl).
  - exact (addba_window true true demo_rx 5 65 0 ltac:(by vm_compute) ltac:(lia) eq_refl).
Defined.

Lemma first_hole_run_witness : ol_rx_reorder_first_hole demo_rx 3 = Some 2.
Proof.
  destruct (first_hole_run demo_rx 3 demo_window demo_rep) as (m & k & E & _). rewrite E. rewrite <- E. reflexivity.
Defined.

Definition demo_seq (last : Z) : rxState := demo_rx <| tids_last_seq := zset (replicate 19 4096) 3 last |>.
Definition demo_frame (tid seq : Z) (retry : bool) : rx_desc := mk_desc seq tid retry false false false true (0, 0).

(** Around the wrap of the 12-bit number: 5 follows 4090, and 4090 does not
    follow itself. *)
Lemma seq_num_window_witness :
  ol_rx_seq_num_check (demo_seq 4090) 3 (demo_frame 3 5 false) = (demo_seq 4090, htt_rx_status_ok) ∧
  ol_rx_seq_num_check (demo_seq 4090) 3 (demo_frame 3 4090 false) = (demo_seq 4090, htt_rx_status_err_replay).
Proof.
  split; [exact (seq_num_window (demo_seq 4090) 3 (demo_frame 3 5 false) ltac:(done) ltac:(by vm_compute) ltac:(by vm_compute))|].
  exact (seq_num_window (demo_seq 4090) 3 (demo_frame 3 4090 false) ltac:(done) ltac:(by vm_compute) ltac:(by vm_compute)).
Defined.

Lemma mcast_duplicates_witness :
  (ol_rx_seq_num_check (ol_rx_seq_num_check demo_rx OL_RX_MCAST_TID (demo_frame 2 77 false)).1 OL_RX_MCAST_TID
     (demo_frame 2 77 true)).2 = htt_rx_status_err_replay.
Proof.
  pose proof (mcast_duplicates demo_rx (demo_frame 2 77 false) ltac:(by vm_compute) eq_refl) as (_ & _ & H).
  exact (H eq_refl eq_refl (demo_frame 2 77 true) eq_refl eq_refl eq_refl).
Defined.
