(* ===== verification/RxPn.v ===== *)
(** The packet-number (replay) check of received frames:
    core/dp/txrx/ol_rx_pn.c, with [ol_rx_mpdu_list_next] of ol_txrx_internal.h,
    the table of comparisons ol_txrx.c sets up and the security indication and
    peer initialisation of ol_rx.c.

    The check is one of the stages a reorder window releases frames to
    (peer->rx_opt_proc), so it works on the state of RxReorder.v.  What the
    descriptor of a buffer says is the argument [desc]; the log messages are
    left out. *)
From Stdlib Require Import Sorted.
From S2P Require Import Prelude Chains RxReorder.

(** The security types and the operating modes the source names. *)
Inductive htt_sec_type :=
  | htt_sec_type_none | htt_sec_type_wep40 | htt_sec_type_wep104 | htt_sec_type_wep128
  | htt_sec_type_tkip | htt_sec_type_tkip_nomic | htt_sec_type_aes_ccmp | htt_sec_type_wapi.
#[export] Instance htt_sec_type_eq_dec : EqDecision htt_sec_type.
Proof. solve_decision. Defined.
Inductive wlan_op_mode :=
  | wlan_op_mode_ap | wlan_op_mode_ibss | wlan_op_mode_sta | wlan_op_mode_monitor
  | wlan_op_mode_ocb | wlan_op_mode_ndi.
#[export] Instance wlan_op_mode_eq_dec : EqDecision wlan_op_mode.
Proof. solve_decision. Defined.

(** A packet number is the pair of its 64-bit words (pn128[0], pn128[1]); the
    shorter numbers of the union are the low bits of the first. *)
Definition ol_rx_pn_cmp24 (new_pn old_pn : Z * Z) (is_unicast : bool) (opmode : wlan_op_mode) : bool :=
  Z.land new_pn.1 0xffffff <=? Z.land old_pn.1 0xffffff.
Definition ol_rx_pn_cmp48 (new_pn old_pn : Z * Z) (is_unicast : bool) (opmode : wlan_op_mode) : bool :=
  Z.land new_pn.1 0xffffffffffff <=? Z.land old_pn.1 0xffffffffffff.
Definition ol_rx_pn_wapi_cmp (new_pn old_pn : Z * Z) (is_unicast : bool) (opmode : wlan_op_mode) : bool :=
  let pn_is_replay :=
    if new_pn.2 =? old_pn.2 then new_pn.1 <=? old_pn.1 else new_pn.2 <? old_pn.2 in
  if is_unicast then
    if decide (opmode = wlan_op_mode_ap) then pn_is_replay || negb (Z.land new_pn.1 1 =? 0)
    else pn_is_replay || negb (Z.land new_pn.1 1 =? 1)
  else pn_is_replay.

(** pdev->rx_pn, as [ol_txrx_pdev_attach] fills it. *)
Definition rx_pn_cmp : Type := Z * Z → Z * Z → bool → wlan_op_mode → bool.
Definition rx_pn (t : htt_sec_type) : Z * option rx_pn_cmp :=
  match t with
  | htt_sec_type_tkip | htt_sec_type_tkip_nomic | htt_sec_type_aes_ccmp => (48, Some ol_rx_pn_cmp48)
  | htt_sec_type_wapi => (128, Some ol_rx_pn_wapi_cmp)
  | _ => (0, None)
  end.

(** peer->security. *)
Record rx_security := mk_security { sec_mcast : htt_sec_type; sec_ucast : htt_sec_type }.

Section pn_check.
Context (desc : Z → rx_desc) (sec : rx_security) (opmode : wlan_op_mode).
Implicit Types (s : rxState).

(** The last MSDU of the first MPDU, and the first one behind it. *)
Fixpoint ol_rx_mpdu_list_next (fuel : nat) s (mpdu_list : option Z) : option (Z * option Z) :=
  msdu ← mpdu_list;
  if completes_mpdu (desc msdu) then Some (msdu, qdf_nbuf_next s msdu)
  else match fuel with
       | O => None
       | S n => ol_rx_mpdu_list_next n s (qdf_nbuf_next s msdu)
       end.

(** [ADD_MPDU_TO_LIST]: the new head and tail of the output list. *)
Definition add_mpdu_to_list s (head tail : option Z) (mpdu mpdu_tail : Z) :
    option (rxState * option Z * option Z) :=
  match head with
  | None => Some (s, Some mpdu, Some mpdu_tail)
  | Some _ => s ← qdf_nbuf_set_next s tail (Some mpdu); Some (s, head, Some mpdu_tail)
  end.

(** One MPDU of the list in [ol_rx_pn_check_base]: frame by frame, [valid] is
    the local last_pn_valid. *)
Definition pn_check_mpdu (fuel : nat) s (tid : Z) (is_ucast : bool) (cmp : option rx_pn_cmp) (valid : bool)
    (head tail : option Z) (mpdu mpdu_tail : Z) : option (rxState * bool * option Z * option Z) :=
  if negb (is_encrypted (desc mpdu)) then
    '(s, head, tail) ← add_mpdu_to_list s head tail mpdu mpdu_tail;
    Some (s, valid, head, tail)
  else
    let new_pn := desc_pn (desc mpdu) in
    '(s, pn_is_replay) ←
      (if valid then cmp ← cmp; Some (s, cmp new_pn (zget (tids_last_pn s) tid) is_ucast opmode)
       else Some (s <| tids_last_pn_valid ::= λ l, zset l tid 1 |>, false));
    if pn_is_replay : bool then
      s ← free_mpdu fuel (rx_emit s (RxErr tid mpdu)) (Some mpdu) (Some mpdu_tail);
      Some (s, true, head, tail)
    else
      '(s, head, tail) ← add_mpdu_to_list s head tail mpdu mpdu_tail;
      Some (s <| tids_last_pn ::= λ l, zset l tid new_pn |>, true, head, tail).

(** The loop over the MPDUs; the fuel bounds the length of the list. *)
Fixpoint pn_check_loop (fuel : nat) s (tid : Z) (is_ucast : bool) (cmp : option rx_pn_cmp) (valid : bool)
    (mpdu head tail : option Z) : option (rxState * option Z * option Z) :=
  match mpdu with
  | None => Some (s, head, tail)
  | Some m =>
      match fuel with
      | O => None
      | S n =>
          '(mpdu_tail, next_mpdu) ← ol_rx_mpdu_list_next n s (Some m);
          '(s, valid, head, tail) ← pn_check_mpdu fuel s tid is_ucast cmp valid head tail m mpdu_tail;
          pn_check_loop n s tid is_ucast cmp valid next_mpdu head tail
      end
  end.

Definition ol_rx_pn_check_base (fuel : nat) s (tid msdu_list : Z) : option (rxState * option Z) :=
  if negb (fw_pn_check s =? 0) || bool_decide (opmode = wlan_op_mode_ibss) then Some (s, Some msdu_list)
  else
    let is_ucast := negb (is_mcast (desc msdu_list)) in
    let '(pn_len, cmp) := rx_pn (if is_ucast then sec_ucast sec else sec_mcast sec) in
    if pn_len =? 0 then Some (s, Some msdu_list)
    else
      '(s, head, tail) ←
        pn_check_loop fuel s tid is_ucast cmp (negb (zget (tids_last_pn_valid s) tid =? 0))
          (Some msdu_list) None None;
      s ← match tail with Some _ => qdf_nbuf_set_next s tail None | None => Some s end;
      Some (s, head).

(** The two forms the peer's rx_opt_proc takes; what they call next is recorded
    as an event. *)
Definition ol_rx_pn_check (fuel : nat) s (tid msdu_list : Z) : option rxState :=
  '(s, l) ← ol_rx_pn_check_base fuel s tid msdu_list; Some (rx_emit s (FwdCheck tid l)).
Definition ol_rx_pn_check_only (fuel : nat) s (tid msdu_list : Z) : option rxState :=
  '(s, l) ← ol_rx_pn_check_base fuel s tid msdu_list; Some (rx_emit s (Deliver tid l)).
End pn_check.

(** ** Security indications and new peers *)

(** [ol_rx_sec_ind_handler]; [found] tells whether the peer is found, and
    [le_pn] is the packet number of the message, [rx_pn], in the order
    qdf_cpu_to_le64 puts it in. *)
Definition ol_rx_sec_ind_handler (found : bool) (sec : rx_security) (s : rxState) (sec_type : htt_sec_type)
    (is_unicast : bool) (le_pn : Z * Z) : rx_security * rxState :=
  if negb found then (sec, s)
  else
    let sec := if is_unicast then mk_security (sec_mcast sec) sec_type else mk_security sec_type (sec_ucast sec) in
    if decide (sec_type = htt_sec_type_wapi) then
      if negb is_unicast || negb (zget (tids_last_pn_valid s) 0 =? 0) then
        (sec, s <| tids_last_pn_valid := replicate (Z.to_nat OL_TXRX_NUM_EXT_TIDS) 1 |>
                <| tids_last_pn := replicate (Z.to_nat OL_TXRX_NUM_EXT_TIDS) le_pn |>)
      else (sec, s)
    else (sec, s <| tids_last_pn_valid := replicate (Z.to_nat OL_TXRX_NUM_EXT_TIDS) 0 |>).

(** [ol_rx_peer_init], of a peer whose memory is [s]. *)
Definition ol_rx_peer_init (s : rxState) : rx_security * rxState :=
  (mk_security htt_sec_type_none htt_sec_type_none,
   s <| tids_rx_reorder := imap (λ tid r, ol_rx_reorder_init r (Z.of_nat tid)) (tids_rx_reorder s) |>
     <| tids_last_seq := replicate (Z.to_nat OL_TXRX_NUM_EXT_TIDS) IEEE80211_SEQ_MAX |>
     <| fw_pn_check := 0 |>).

(** ** The reference filter

    MPDUs are lists of buffers; the check takes them one by one with the pair of
    whether a packet number is known and which, and keeps or drops each. *)
Section filter.
Context (desc : Z → rx_desc) (sec : rx_security) (opmode : wlan_op_mode).
Implicit Types (s : rxState).

(** Only the last buffer of an MPDU completes it. *)
Definition is_mpdu (g : list Z) : Prop :=
  ∃ g' t, g = g' ++ [t] ∧ completes_mpdu (desc t) = true ∧ Forall (λ m, completes_mpdu (desc m) = false) g'.

Definition mpdu_pn (g : list Z) : Z * Z := desc_pn (desc (hd 0 g)).
Definition mpdu_encrypted (g : list Z) : bool := is_encrypted (desc (hd 0 g)).

Definition pn_accept (cmp : rx_pn_cmp) (is_ucast : bool) (st : bool * (Z * Z)) (g : list Z) : bool :=
  negb (mpdu_encrypted g && st.1 && cmp (mpdu_pn g) st.2 is_ucast opmode).
Definition pn_next (cmp : rx_pn_cmp) (is_ucast : bool) (st : bool * (Z * Z)) (g : list Z) : bool * (Z * Z) :=
  if mpdu_encrypted g && pn_accept cmp is_ucast st g then (true, mpdu_pn g) else st.
(** The MPDUs kept, those dropped, and what is known in the end. *)
Fixpoint pn_filter (cmp : rx_pn_cmp) (is_ucast : bool) (st : bool * (Z * Z)) (gs : list (list Z)) :
    list (list Z) * list (list Z) * (bool * (Z * Z)) :=
  match gs with
  | [] => ([], [], st)
  | g :: gs =>
      let '(kept, dropped, st') := pn_filter cmp is_ucast (pn_next cmp is_ucast st g) gs in
      if pn_accept cmp is_ucast st g then (g :: kept, dropped, st') else (kept, g :: dropped, st')
  end.

(** What the state says about a traffic id. *)
Definition pn_state s (tid : Z) : bool * (Z * Z) :=
  (negb (zget (tids_last_pn_valid s) tid =? 0), zget (tids_last_pn s) tid).
Definition pn_sized s : Prop :=
  length (tids_last_pn s) = Z.to_nat OL_TXRX_NUM_EXT_TIDS ∧ length (tids_last_pn_valid s) = Z.to_nat OL_TXRX_NUM_EXT_TIDS.
(** The control software is told of a dropped MPDU, and its buffers are freed. *)
Definition drop_events (tid : Z) (g : list Z) : list rx_event := RxErr tid (hd 0 g) :: (FrameFree <$> g).

(** *** The list primitives *)

Lemma mpdu_shape g : is_mpdu g → ∃ h t, hd_error g = Some h ∧ hd 0 g = h ∧ last g = Some t ∧ h ∈ g ∧ t ∈ g.
Proof.
  intros (g' & t & -> & _). exists (hd 0 (g' ++ [t])), t.
  split_and!; [by destruct g'|done|by rewrite last_snoc| |apply elem_of_app; right; by apply list_elem_of_singleton].
  destruct g'; cbn; [by apply list_elem_of_singleton|constructor].
Qed.

Lemma mpdu_list_next_spec fuel s g p q :
  is_mpdu g → lseg (nb_next s) p g q → (length g <= S fuel)%nat →
  ∃ t, last g = Some t ∧ ol_rx_mpdu_list_next desc fuel s p = Some (t, q).
Proof.
  intros (g' & t & -> & Ht & Hg) Hl Hf. exists t. rewrite last_snoc. split; [done|].
  revert fuel p Hl Hf. induction g' as [|m g' IH]; intros fuel p Hl Hf.
  - apply lseg_cons in Hl as [-> Hl]. apply lseg_nil in Hl. destruct fuel; cbn; rewrite Ht; unfold qdf_nbuf_next; by rewrite Hl.
  - apply lseg_cons in Hl as [-> Hl]. apply Forall_cons in Hg as [Hm Hg]. rewrite length_app in Hf. cbn in Hf.
    destruct fuel as [|fuel]; [lia|]. cbn. rewrite Hm. apply IH; [done|done|]. rewrite length_app. cbn. lia.
Qed.

Lemma free_mpdu_spec fuel s g h t q :
  lseg (nb_next s) (Some h) g q → last g = Some t → NoDup g → (length g <= fuel)%nat →
  free_mpdu fuel s (Some h) (Some t) = Some (s <| rx_events ::= λ ev, ev ++ (FrameFree <$> g) |>).
Proof.
  revert fuel s h. induction g as [|m g IH]; intros fuel s h Hl Ht Hnd Hf; [done|].
  apply lseg_cons in Hl as [[= <-] Hl]. destruct fuel as [|fuel]; [cbn in Hf; lia|]. cbn [free_mpdu mbind option_bind].
  destruct g as [|m' g].
  - injection Ht as <-. rewrite bool_decide_eq_true_2 by done. done.
  - apply NoDup_cons in Hnd as [Hm Hnd]. rewrite last_cons_cons in Ht.
    rewrite bool_decide_eq_false_2 by (intros [= ->]; apply Hm; by apply last_Some_elem_of).
    pose proof Hl as Hl'. apply lseg_cons in Hl' as [Ep _]. unfold qdf_nbuf_next. rewrite Ep in *.
    rewrite IH; [|exact Hl|exact Ht|exact Hnd|cbn in *; lia].
    destruct s. unfold rx_emit, set_field. cbn. by rewrite <- app_assoc.
Qed.

(** *** One MPDU *)

(** What the check leaves alone. *)
Definition pn_frame (tid : Z) (own : list Z) s s' : Prop :=
  (∀ x, x ∉ own → nb_next s' x = nb_next s x) ∧ (∀ t, 0 <= t → t ≠ tid → pn_state s' t = pn_state s t) ∧
  tids_rx_reorder s' = tids_rx_reorder s ∧ tids_last_seq s' = tids_last_seq s ∧ fw_pn_check s' = fw_pn_check s.

Lemma pn_frame_trans tid own own' s1 s2 s3 :
  pn_frame tid own s1 s2 → pn_frame tid own' s2 s3 → (∀ x, x ∈ own' → x ∈ own) → pn_frame tid own s1 s3.
Proof.
  intros (A1&B1&C1&D1&E1) (A2&B2&C2&D2&E2) Hsub. split_and!; [| |congruence..].
  - intros x Hx. rewrite A2, A1; [done..|]. intros Hi. by apply Hx, Hsub.
  - intros t Ht Hn. by rewrite B2, B1.
Qed.

(** An MPDU joins the output list. *)
Lemma add_mpdu_spec s acc g h t :
  linked (nb_next s) acc → linked (nb_next s) g → hd_error g = Some h → last g = Some t → NoDup (acc ++ g) →
  ∃ s', add_mpdu_to_list s (hd_error acc) (last acc) h t = Some (s', hd_error (acc ++ g), last (acc ++ g)) ∧
    linked (nb_next s') (acc ++ g) ∧ (∀ x, x ∉ acc → nb_next s' x = nb_next s x) ∧
    s' = s <| nb_next := nb_next s' |>.
Proof.
  intros Ha Hg Hh Ht Hnd. destruct acc as [|a acc]; cbn [hd_error app].
  - exists s. cbn [last]. rewrite Hh, Ht. split_and!; [done..|by destruct s].
  - destruct (last (a :: acc)) as [z|] eqn:El; [|by apply last_None in El].
    change (a :: acc ++ g) with ((a :: acc) ++ g). rewrite (last_app (a :: acc)), Ht.
    cbn [add_mpdu_to_list qdf_nbuf_set_next mbind option_bind]. eexists. split; [reflexivity|]. split_and!; [| |done].
    + cbn. rewrite <- Hh. exact (linked_app _ (a :: acc) _ _ Ha Hg El Hnd).
    + intros x Hx. cbn. apply nx_upd_ne. intros ->. apply Hx. by apply last_Some_elem_of.
Qed.

Lemma pn_check_mpdu_spec fuel s tid u cmp acc g h t q :
  0 <= tid < OL_TXRX_NUM_EXT_TIDS → pn_sized s → linked (nb_next s) acc → lseg (nb_next s) (Some h) g q →
  is_mpdu g → hd_error g = Some h → last g = Some t → NoDup (acc ++ g) → (length g <= fuel)%nat →
  let st := pn_state s tid in
  let acc' := if pn_accept cmp u st g then acc ++ g else acc in
  ∃ s', pn_check_mpdu desc opmode fuel s tid u (Some cmp) st.1 (hd_error acc) (last acc) h t =
          Some (s', (pn_next cmp u st g).1, hd_error acc', last acc') ∧
    linked (nb_next s') acc' ∧ pn_state s' tid = pn_next cmp u st g ∧ pn_sized s' ∧ pn_frame tid acc s s' ∧
    rx_events s' = rx_events s ++ if pn_accept cmp u st g then [] else drop_events tid g.
Proof.
  intros Htid [Hs1 Hs2] Ha Hg Hm Hh Ht Hnd Hf st acc'.
  assert (linked (nb_next s) g) as Hgl by (exists q; by rewrite Hh).
  assert (hd 0 g = h) as Ehd by (destruct g; [done|by injection Hh]).
  assert (NoDup g) as Hndg by (apply NoDup_app in Hnd; tauto).
  assert (Z.to_nat tid < Z.to_nat OL_TXRX_NUM_EXT_TIDS)%nat as Hn by lia.
  unfold acc', pn_check_mpdu, pn_next, pn_accept, mpdu_encrypted, mpdu_pn. rewrite Ehd.
  destruct (is_encrypted (desc h)); cbn [negb andb].
  - destruct st as [valid old] eqn:Est. cbn [fst snd].
    pose proof (f_equal fst Est : negb (zget (tids_last_pn_valid s) tid =? 0) = valid) as Ev.
    pose proof (f_equal snd Est : zget (tids_last_pn s) tid = old) as Eo.
    destruct valid; cbn [andb mbind option_bind negb].
    + rewrite Eo. destruct (cmp _ old u opmode); cbn [negb andb].
      * rewrite (free_mpdu_spec fuel (rx_emit s (RxErr tid h)) g h t q Hg Ht Hndg Hf). eexists. split; [reflexivity|]. cbn.
        split; [done|]. split; [exact Est|]. split; [done|]. split; [done|]. unfold drop_events. by rewrite Ehd, <- app_assoc.
      * destruct (add_mpdu_spec s acc g h t Ha Hgl Hh Ht Hnd) as (s' & E & Hl & Hfr & Es).
        rewrite E. cbn [mbind option_bind]. eexists. split; [reflexivity|]. rewrite app_nil_r. rewrite Es. cbn.
        split; [done|]. split; [unfold pn_state; cbn; rewrite Ev, zget_zset_eq by lia; done|].
        split; [by split; cbn; rewrite ?length_zset|]. split; [|done]. split_and!; [done| |done..].
        intros t' Ht' Hne. unfold pn_state. cbn. by rewrite zget_zset_ne by (lia || done).
    + set (s1 := s <| tids_last_pn_valid ::= _ |>).
      destruct (add_mpdu_spec s1 acc g h t Ha Hgl Hh Ht Hnd) as (s' & E & Hl & Hfr & Es).
      rewrite E. cbn [mbind option_bind]. eexists. split; [reflexivity|]. rewrite app_nil_r. rewrite Es. cbn.
      split; [done|]. split; [unfold pn_state; cbn; rewrite !zget_zset_eq by lia; done|].
      split; [by split; cbn; rewrite ?length_zset|]. split; [|done]. split_and!; [done| |done..].
      intros t' Ht' Hne. unfold pn_state. cbn. by rewrite !zget_zset_ne by (lia || done).
  - destruct (add_mpdu_spec s acc g h t Ha Hgl Hh Ht Hnd) as (s' & E & Hl & Hfr & Es).
    rewrite E. cbn [mbind option_bind]. exists s'. split; [reflexivity|]. rewrite app_nil_r.
    rewrite Es. split; [done|]. split; [done|]. split; [done|]. split; [|done]. by split_and!.
Qed.

(** *** The whole list *)

Lemma pn_check_loop_spec fuel s tid u cmp gs acc p :
  0 <= tid < OL_TXRX_NUM_EXT_TIDS → pn_sized s → linked (nb_next s) acc → chain (nb_next s) p (concat gs) →
  Forall is_mpdu gs → NoDup (acc ++ concat gs) → (length (concat gs) <= fuel)%nat →
  let '(kept, dropped, st') := pn_filter cmp u (pn_state s tid) gs in
  ∃ s', pn_check_loop desc opmode fuel s tid u (Some cmp) (pn_state s tid).1 p (hd_error acc) (last acc) =
          Some (s', hd_error (acc ++ concat kept), last (acc ++ concat kept)) ∧
    linked (nb_next s') (acc ++ concat kept) ∧ pn_state s' tid = st' ∧ pn_sized s' ∧
    pn_frame tid (acc ++ concat gs) s s' ∧ rx_events s' = rx_events s ++ concat (drop_events tid <$> dropped).
Proof.
  intros Htid. revert fuel s acc p. induction gs as [|g gs IH]; intros fuel s acc p Hs Ha Hc Hm Hnd Hf.
  - cbn [concat] in *. unfold chain in Hc. apply lseg_nil in Hc as ->. cbn [pn_filter]. exists s. cbn [concat fmap list_fmap]. rewrite !app_nil_r.
    split_and!; [by destruct fuel|done..].
  - apply Forall_cons in Hm as [Hg Hm]. destruct (mpdu_shape g Hg) as (h & t & Hh & Ehd & Ht & Hhg & Htg).
    cbn [concat] in Hc, Hnd, Hf. unfold chain in Hc. apply lseg_app in Hc as (q & Hlg & Hc).
    assert (p = Some h) as -> by (destruct g; [done|]; injection Hh as ->; by apply lseg_cons in Hlg as [-> _]).
    rewrite length_app in Hf. assert (1 <= length g)%nat as Hg1 by (destruct g; [done|cbn; lia]).
    destruct fuel as [|fuel]; [lia|]. cbn [pn_check_loop].
    destruct (mpdu_list_next_spec fuel s g (Some h) q Hg Hlg ltac:(lia)) as (t' & Ht' & En).
    rewrite Ht in Ht'. injection Ht' as <-. rewrite En. cbn [mbind option_bind].
    assert (NoDup (acc ++ g)) as Hnd1 by (rewrite app_assoc in Hnd; apply NoDup_app in Hnd; tauto).
    destruct (pn_check_mpdu_spec (S fuel) s tid u cmp acc g h t q Htid Hs Ha Hlg Hg Hh Ht Hnd1 ltac:(lia))
      as (s1 & E1 & Hl1 & Hst1 & Hs1 & Hf1 & Ev1).
    rewrite E1. cbn [mbind option_bind]. cbn [pn_filter]. rewrite <- Hst1.
    set (acc' := if pn_accept cmp u (pn_state s tid) g then acc ++ g else acc) in *.
    assert (∀ x, x ∈ acc' → x ∈ acc ++ g) as Hsub by (unfold acc'; destruct (pn_accept _ _ _ _); set_solver).
    assert (NoDup (acc' ++ concat gs)) as Hnd2.
    { unfold acc'. destruct (pn_accept _ _ _ _); [by rewrite <- app_assoc|].
      rewrite Permutation_app_swap_app in Hnd. apply NoDup_app in Hnd. tauto. }
    assert (chain (nb_next s1) q (concat gs)) as Hc1.
    { eapply lseg_frame; [|exact Hc]. intros x Hx. symmetry. apply Hf1. intros Hxa.
      apply NoDup_app in Hnd as (_ & Hd & _). apply (Hd x Hxa). set_solver. }
    specialize (IH fuel s1 acc' q Hs1 Hl1 Hc1 Hm Hnd2 ltac:(lia)).
    destruct (pn_filter cmp u (pn_state s1 tid) gs) as [[kept dropped] st'].
    destruct IH as (s' & E' & Hl' & Hst' & Hs' & Hf' & Ev'). rewrite E'.
    assert (∀ x, x ∈ acc' ++ concat gs → x ∈ acc ++ concat (g :: gs)) as Hsub' by (cbn [concat]; set_solver).
    assert (pn_frame tid (acc ++ concat (g :: gs)) s s1) as Hf1'.
    { destruct Hf1 as (F1 & F2). split; [|exact F2]. intros x Hx. apply F1. set_solver. }
    pose proof (pn_frame_trans _ _ _ _ _ _ Hf1' Hf' Hsub') as Hf2. unfold acc' in *.
    destruct (pn_accept cmp u (pn_state s tid) g); exists s'; rewrite Ev', Ev1.
    + cbn [concat]. rewrite app_nil_r. rewrite <- app_assoc in Hl' |- *. by split_and!.
    + cbn [concat fmap list_fmap]. rewrite <- app_assoc. by split_and!.
Qed.

(** Every MPDU is kept or dropped. *)
Lemma pn_filter_perm cmp u st gs :
  let '(kept, dropped, _) := pn_filter cmp u st gs in concat gs ≡ₚ concat kept ++ concat dropped.
Proof.
  revert st. induction gs as [|g gs IH]; intros st; [cbn; reflexivity|]. cbn [pn_filter].
  specialize (IH (pn_next cmp u st g)). destruct (pn_filter _ _ _ gs) as [[kept dropped] st'].
  destruct (pn_accept cmp u st g); cbn [concat]; rewrite IH; [by rewrite app_assoc|by rewrite Permutation_app_swap_app].
Qed.

Lemma check_base_spec fuel s tid u ty len cmp gs h :
  u = negb (is_mcast (desc h)) → ty = (if u then sec_ucast sec else sec_mcast sec) → rx_pn ty = (len, Some cmp) →
  opmode ≠ wlan_op_mode_ibss → fw_pn_check s = 0 →
  0 <= tid < OL_TXRX_NUM_EXT_TIDS → pn_sized s → chain (nb_next s) (Some h) (concat gs) → Forall is_mpdu gs →
  NoDup (concat gs) → (length (concat gs) <= fuel)%nat →
  let '(kept, dropped, st') := pn_filter cmp u (pn_state s tid) gs in
  ∃ s', ol_rx_pn_check_base desc sec opmode fuel s tid h = Some (s', hd_error (concat kept)) ∧
    chain (nb_next s') (hd_error (concat kept)) (concat kept) ∧ pn_state s' tid = st' ∧ pn_sized s' ∧
    pn_frame tid (concat gs) s s' ∧ rx_events s' = rx_events s ++ concat (drop_events tid <$> dropped).
Proof.
  intros -> -> Et Ho Hfw Htid Hs Hc Hm Hnd Hf. unfold ol_rx_pn_check_base. set (u := negb _) in *.
  rewrite Hfw, (bool_decide_eq_false_2 (opmode = _) Ho), Et. cbn [Z.eqb negb orb].
  assert ((len =? 0) = false) as -> by (destruct (if u then _ else _); cbn in Et; by simplify_eq).
  pose proof (pn_check_loop_spec fuel s tid u cmp gs [] (Some h) Htid Hs (linked_nil _) Hc Hm Hnd Hf) as HL.
  pose proof (pn_filter_perm cmp u (pn_state s tid) gs) as HP.
  destruct (pn_filter cmp u (pn_state s tid) gs) as [[kept dropped] st']. cbn [hd_error last app] in HL.
  destruct HL as (s1 & E & Hl & Hst & Hs1 & Hf1 & Ev).
  change (negb (zget (tids_last_pn_valid s) tid =? 0)) with (pn_state s tid).1. rewrite E. cbn [mbind option_bind].
  destruct (last (concat kept)) as [t|] eqn:El.
  - cbn [qdf_nbuf_set_next mbind option_bind]. eexists. split; [reflexivity|]. split_and!; [|done..| |done].
    + apply linked_end; [done..|]. rewrite HP in Hnd. apply NoDup_app in Hnd. tauto.
    + destruct Hf1 as (F1 & F2). split; [|exact F2]. intros x Hx. cbn.
      rewrite nx_upd_ne; [by apply F1|]. intros ->. apply Hx. rewrite HP, elem_of_app. left. by apply last_Some_elem_of.
  - apply last_None in El. rewrite El in *. exists s1. by split_and!.
Qed.

(** Replay filtering.  For a list of MPDUs linked in memory, the check
    hands on exactly the MPDUs the reference filter keeps, whole and in order,
    as a null-terminated list; every MPDU dropped is reported and each of its
    buffers freed once; the traffic id remembers the packet number of the last
    encrypted MPDU kept, and no other traffic id, window or buffer is touched.
    Where the check does not apply (the firmware checks, an IBSS, a security
    type without a packet number) the list passes unchanged. *)
Theorem pn_check_filters fuel s tid gs h :
  0 <= tid < OL_TXRX_NUM_EXT_TIDS → pn_sized s → chain (nb_next s) (Some h) (concat gs) → Forall is_mpdu gs →
  NoDup (concat gs) → (length (concat gs) <= fuel)%nat →
  let u := negb (is_mcast (desc h)) in
  match (if (fw_pn_check s =? 0) && bool_decide (opmode ≠ wlan_op_mode_ibss)
         then (rx_pn (if u then sec_ucast sec else sec_mcast sec)).2 else None) with
  | None => ol_rx_pn_check_base desc sec opmode fuel s tid h = Some (s, Some h)
  | Some cmp =>
      let '(kept, dropped, st') := pn_filter cmp u (pn_state s tid) gs in
      ∃ s', ol_rx_pn_check_base desc sec opmode fuel s tid h = Some (s', hd_error (concat kept)) ∧
        chain (nb_next s') (hd_error (concat kept)) (concat kept) ∧ pn_state s' tid = st' ∧ pn_sized s' ∧
        pn_frame tid (concat gs) s s' ∧ rx_events s' = rx_events s ++ concat (drop_events tid <$> dropped)
  end.
Proof.
  intros Htid Hs Hc Hm Hnd Hf u.
  destruct (Z.eqb_spec (fw_pn_check s) 0) as [Hfw|Hfw]; cbn [andb];
    [|unfold ol_rx_pn_check_base; by rewrite (proj2 (Z.eqb_neq _ _) Hfw)].
  destruct (decide (opmode = wlan_op_mode_ibss)) as [Ho|Ho].
  { rewrite (bool_decide_eq_false_2 (opmode ≠ _)) by (intros H; exact (H Ho)). unfold ol_rx_pn_check_base.
    by rewrite (bool_decide_eq_true_2 (opmode = _) Ho), orb_true_r. }
  rewrite (bool_decide_eq_true_2 (opmode ≠ _) Ho). destruct (rx_pn _) as [len cmp] eqn:Et. cbn [snd].
  destruct cmp as [cmp|]; [by eapply check_base_spec|]. unfold ol_rx_pn_check_base.
  rewrite Hfw, (bool_decide_eq_false_2 (opmode = _) Ho). fold u. rewrite Et. cbn [Z.eqb negb orb].
  by assert ((len =? 0) = true) as -> by (destruct (if u then _ else _); cbn in Et; by simplify_eq).
Qed.

(** ** No replay *)

(** The number a security type compares. *)
Definition pn_rank (t : htt_sec_type) (pn : Z * Z) : Z :=
  if decide (t = htt_sec_type_wapi) then pn.2 * 2 ^ 64 + pn.1 else Z.land pn.1 0xffffffffffff.
Definition pn_words (pn : Z * Z) : Prop := 0 <= pn.1 < 2 ^ 64 ∧ 0 <= pn.2 < 2 ^ 64.

Lemma cmp_rank t len cmp new old u :
  rx_pn t = (len, Some cmp) → pn_words new → pn_words old → cmp new old u opmode = false →
  pn_rank t old < pn_rank t new.
Proof.
  intros Et [N1 N2] [O1 O2]. unfold pn_rank.
  destruct t; cbn in Et; simplify_eq;
    try (rewrite decide_False by done; unfold ol_rx_pn_cmp48; intros H%Z.leb_gt; exact H).
  rewrite decide_True by done. unfold ol_rx_pn_wapi_cmp.
  assert ((if new.2 =? old.2 then new.1 <=? old.1 else new.2 <? old.2) = false →
    old.2 * 2 ^ 64 + old.1 < new.2 * 2 ^ 64 + new.1) as HL.
  { destruct (Z.eqb_spec new.2 old.2) as [E|E]; [intros ?%Z.leb_gt; lia|intros ?%Z.ltb_ge; lia]. }
  destruct u; [|exact HL]. destruct (decide _); intros [H _]%orb_false_iff; by apply HL.
Qed.

(** The ranks of the encrypted MPDUs of a list. *)
Definition pn_ranks (t : htt_sec_type) (gs : list (list Z)) : list Z :=
  (λ g, pn_rank t (mpdu_pn g)) <$> filter (λ g, mpdu_encrypted g = true) gs.
Definition known_rank (t : htt_sec_type) (st : bool * (Z * Z)) : list Z := if st.1 then [pn_rank t st.2] else [].

Lemma pn_filter_app cmp u st gs1 gs2 :
  let '(k1, d1, st1) := pn_filter cmp u st gs1 in
  let '(k2, d2, st2) := pn_filter cmp u st1 gs2 in
  pn_filter cmp u st (gs1 ++ gs2) = (k1 ++ k2, d1 ++ d2, st2).
Proof.
  revert st. induction gs1 as [|g gs1 IH]; intros st; cbn [pn_filter app].
  - by destruct (pn_filter cmp u st gs2) as [[k2 d2] st2].
  - specialize (IH (pn_next cmp u st g)). destruct (pn_filter _ _ _ gs1) as [[k1 d1] st1].
    destruct (pn_accept cmp u st g), (pn_filter cmp u st1 gs2) as [[k2 d2] st2]; by rewrite IH.
Qed.

Lemma pn_filter_sorted t len cmp u st gs :
  rx_pn t = (len, Some cmp) → (∀ m, pn_words (desc_pn (desc m))) → (st.1 = true → pn_words st.2) →
  let '(kept, _, _) := pn_filter cmp u st gs in
  StronglySorted Z.lt (known_rank t st ++ pn_ranks t kept).
Proof.
  intros Et Hw. revert st. induction gs as [|g gs IH]; intros st Hst; cbn [pn_filter].
  { unfold known_rank. cbn. destruct (st.1); repeat constructor. }
  specialize (IH (pn_next cmp u st g)). destruct (pn_filter _ _ _ gs) as [[kept dropped] st'].
  assert (pn_accept cmp u st g = false → pn_next cmp u st g = st) as Hdrop
    by (intros E; unfold pn_next; rewrite E; by destruct (mpdu_encrypted g)).
  assert (mpdu_encrypted g = false → pn_next cmp u st g = st) as Hplain by (intros E; unfold pn_next; by rewrite E).
  destruct (pn_accept cmp u st g) eqn:Ea; [|by rewrite Hdrop in IH; [apply IH|]].
  unfold pn_ranks. rewrite filter_cons. destruct (mpdu_encrypted g) eqn:Ee.
  - rewrite decide_True by done. unfold pn_next in IH. rewrite Ee, Ea in IH. cbn in IH. specialize (IH (λ _, Hw _)).
    destruct st as [[] old]; [|exact IH]. cbn. constructor; [exact IH|].
    assert (pn_rank t old < pn_rank t (mpdu_pn g)) as Hlt.
    { eapply (cmp_rank t len cmp); [done|apply Hw|by apply Hst|]. unfold pn_accept in Ea. rewrite Ee in Ea. cbn in Ea.
      by apply negb_true_iff in Ea. }
    apply StronglySorted_inv in IH as [_ IH]. constructor; [done|]. eapply Forall_impl; [exact IH|]. cbn. lia.
  - rewrite decide_False by done. rewrite Hplain in IH by done. by apply IH.
Qed.

(** A sequence of checks of one traffic id. *)
Fixpoint pn_run (fuel : nat) s (tid : Z) (lists : list Z) : option (rxState * list (option Z)) :=
  match lists with
  | [] => Some (s, [])
  | h :: lists =>
      '(s, out) ← ol_rx_pn_check_base desc sec opmode fuel s tid h;
      '(s, outs) ← pn_run fuel s tid lists;
      Some (s, out :: outs)
  end.

(** A list of MPDUs in memory that starts with [h], all unicast or not. *)
Definition pn_list (nx : Z → option Z) (u : bool) (h : Z) (gs : list (list Z)) : Prop :=
  chain nx (Some h) (concat gs) ∧ Forall is_mpdu gs ∧ is_mcast (desc h) = negb u.
Definition flat (lists : list (list (list Z))) : list Z := concat (concat lists).

Lemma pn_lists_frame nx nx' u hs lls :
  (∀ x, x ∈ flat lls → nx x = nx' x) → Forall2 (pn_list nx u) hs lls → Forall2 (pn_list nx' u) hs lls.
Proof.
  intros Hf HF. induction HF as [|h gs hs lls (Hc & Hm & Hu) HF IH]; [constructor|].
  unfold flat in *. cbn [concat] in Hf. rewrite concat_app in Hf. constructor.
  - split_and!; [|done..]. eapply lseg_frame; [|exact Hc]. intros x Hx. apply Hf. set_solver.
  - apply IH. intros x Hx. apply Hf. set_solver.
Qed.

Lemma pn_run_spec fuel s tid (u : bool) ty len cmp hs lls :
  ty = (if u then sec_ucast sec else sec_mcast sec) → rx_pn ty = (len, Some cmp) → opmode ≠ wlan_op_mode_ibss →
  0 <= tid < OL_TXRX_NUM_EXT_TIDS → pn_sized s → fw_pn_check s = 0 →
  Forall2 (pn_list (nb_next s) u) hs lls → NoDup (flat lls) → (length (flat lls) <= fuel)%nat →
  let '(kept, _, st') := pn_filter cmp u (pn_state s tid) (concat lls) in
  ∃ s' outs kepts, pn_run fuel s tid hs = Some (s', outs) ∧ concat kepts = kept ∧ pn_state s' tid = st' ∧
    Forall2 (λ out ks, chain (nb_next s') out (concat ks)) outs kepts ∧
    Forall2 (λ ks gs, ∀ x, x ∈ concat ks → x ∈ concat gs) kepts lls ∧ (∀ x, x ∉ flat lls → nb_next s' x = nb_next s x).
Proof.
  intros -> Et Ho Htid. revert s lls. induction hs as [|h hs IH]; intros s lls Hs Hfw HF Hnd Hf.
  { apply Forall2_nil_inv_l in HF as ->. cbn. exists s, [], []. by split_and!. }
  apply Forall2_cons_inv_l in HF as (gs & lls' & (Hc & Hm & Hu) & HF & ->). unfold flat in *. cbn [concat] in *.
  rewrite concat_app in Hnd, Hf. pose proof Hnd as (Hnd1 & Hd & Hnd2)%NoDup_app. rewrite length_app in Hf.
  assert (u = negb (is_mcast (desc h))) as Eu by by rewrite Hu, negb_involutive.
  pose proof (check_base_spec fuel s tid u _ len cmp gs h Eu eq_refl Et Ho Hfw Htid Hs Hc Hm Hnd1 ltac:(lia)) as H1.
  pose proof (pn_filter_app cmp u (pn_state s tid) gs (concat lls')) as Happ.
  pose proof (pn_filter_perm cmp u (pn_state s tid) gs) as HP.
  destruct (pn_filter cmp u (pn_state s tid) gs) as [[k1 d1] st1].
  destruct H1 as (s1 & E1 & Hc1 & Hst1 & Hs1 & (Hfr & _ & _ & _ & Hfw1) & _).
  assert (Forall2 (pn_list (nb_next s1) u) hs lls') as HF1.
  { eapply pn_lists_frame; [|exact HF]. intros x Hx. symmetry. apply Hfr. intros Hx'. by apply (Hd x). }
  specialize (IH s1 lls' Hs1 ltac:(congruence) HF1 Hnd2 ltac:(lia)). rewrite Hst1 in IH.
  destruct (pn_filter cmp u st1 (concat lls')) as [[k2 d2] st2]. rewrite Happ.
  destruct IH as (s' & outs & kepts & E2 & Ek & Hst2 & Hch & Hsub & Hfr2).
  exists s', (hd_error (concat k1) :: outs), (k1 :: kepts). cbn [pn_run]. rewrite E1. cbn [mbind option_bind]. rewrite E2.
  split_and!; [done|by cbn; rewrite Ek|done| | |].
  - constructor; [|done]. eapply lseg_frame; [|exact Hc1]. intros x Hx. symmetry. apply Hfr2. intros Hx'.
    apply (Hd x); [rewrite HP; set_solver|done].
  - constructor; [|done]. intros x Hx. rewrite HP. set_solver.
  - intros x Hx. rewrite concat_app, elem_of_app in Hx. rewrite Hfr2, Hfr; tauto.
Qed.

Lemma pn_filter_last ty cmp u st gs :
  let '(kept, _, st') := pn_filter cmp u st gs in
  hd_error (known_rank ty st') = last (known_rank ty st ++ pn_ranks ty kept).
Proof.
  revert st. induction gs as [|g gs IH]; intros st; cbn [pn_filter].
  { cbn. rewrite app_nil_r. unfold known_rank. by destruct (st.1). }
  specialize (IH (pn_next cmp u st g)). destruct (pn_filter _ _ _ gs) as [[kept dropped] st'].
  unfold pn_next in IH. destruct (pn_accept cmp u st g) eqn:Ea; [|by rewrite andb_false_r in IH].
  unfold pn_ranks. rewrite filter_cons. rewrite IH. clear IH. destruct (mpdu_encrypted g) eqn:Ee; cbn [andb].
  - rewrite decide_True by done. unfold known_rank at 1. cbn [fst snd fmap list_fmap].
    rewrite (last_app (known_rank ty st)). cbn [app]. destruct (last _) as [r|] eqn:El; [done|by apply last_None in El].
  - by rewrite decide_False by done.
Qed.

(** C1: no replay.  Over any sequence of checks of one traffic id, in station
    or AP mode and with a security type that has packet numbers, every check
    hands on a null-terminated list of MPDUs of its input, and the packet
    numbers of all the encrypted MPDUs handed on increase strictly, starting
    above the number known before, so none is handed on twice; the number known
    in the end is the last of them. *)
Theorem no_replay fuel s tid (u : bool) ty len cmp hs lls :
  ty = (if u then sec_ucast sec else sec_mcast sec) → rx_pn ty = (len, Some cmp) → opmode ≠ wlan_op_mode_ibss →
  0 <= tid < OL_TXRX_NUM_EXT_TIDS → pn_sized s → fw_pn_check s = 0 →
  Forall2 (pn_list (nb_next s) u) hs lls → NoDup (flat lls) → (length (flat lls) <= fuel)%nat →
  (∀ m, pn_words (desc_pn (desc m))) → ((pn_state s tid).1 = true → pn_words (pn_state s tid).2) →
  ∃ s' outs kepts, pn_run fuel s tid hs = Some (s', outs) ∧
    Forall2 (λ out ks, chain (nb_next s') out (concat ks)) outs kepts ∧
    Forall2 (λ ks gs, ∀ x, x ∈ concat ks → x ∈ concat gs) kepts lls ∧
    StronglySorted Z.lt (known_rank ty (pn_state s tid) ++ pn_ranks ty (concat kepts)) ∧
    hd_error (known_rank ty (pn_state s' tid)) = last (known_rank ty (pn_state s tid) ++ pn_ranks ty (concat kepts)).
Proof.
  intros Ety Et Ho Htid Hs Hfw HF Hnd Hf Hw Hst.
  pose proof (pn_run_spec fuel s tid u ty len cmp hs lls Ety Et Ho Htid Hs Hfw HF Hnd Hf) as HR.
  pose proof (pn_filter_sorted ty len cmp u (pn_state s tid) (concat lls) Et Hw Hst) as HS.
  pose proof (pn_filter_last ty cmp u (pn_state s tid) (concat lls)) as HL.
  destruct (pn_filter cmp u (pn_state s tid) (concat lls)) as [[kept dropped] st'].
  destruct HR as (s' & outs & kepts & E & Ek & Est & Hch & Hsub & _). exists s', outs, kepts. rewrite Ek, Est. by split_and!.
Qed.

(** ** Release into the check *)

Lemma win_frame s s' tid W :
  tids_rx_reorder s' = tids_rx_reorder s → (∀ x, x ∈ concat W → nb_next s' x = nb_next s x) →
  win_rep s tid W → win_rep s' tid W.
Proof.
  destruct s, s'. cbn. intros -> Hn [H1 H2 H3 H4 H5 H6]. split; [exact H1|exact H2|exact H3|exact H4| |exact H6].
  intros i Hi. destruct (H5 i Hi) as (e & He & Hh). exists e. split; [exact He|].
  eapply holds_frame; [|exact Hh]. intros x Hx. symmetry. apply Hn. by apply (elem_of_window W i).
Qed.

(** Receive order and replay together.  When the next stage of a window is
    the check, a release hands the forwarding stage exactly the MPDUs of the
    released slots that the reference filter keeps, in window order and as a
    null-terminated list, frees the others, and leaves the other slots of the
    window as they were. *)
Theorem release_then_check fuel s tid W a b gs ty len cmp :
  win_rep s tid W → zget W (idx_wrap a (mask_of s tid)) ≠ [] →
  let idxs := slots_of s tid a b in
  concat gs = pick W idxs → Forall is_mpdu gs →
  let u := negb (is_mcast (desc (hd 0 (concat gs)))) in
  ty = (if u then sec_ucast sec else sec_mcast sec) → rx_pn ty = (len, Some cmp) →
  opmode ≠ wlan_op_mode_ibss → fw_pn_check s = 0 → tid < OL_TXRX_NUM_EXT_TIDS → pn_sized s → (length (concat gs) <= fuel)%nat →
  let '(kept, dropped, st') := pn_filter cmp u (pn_state s tid) gs in
  ∃ s', ol_rx_reorder_release desc (ol_rx_pn_check desc sec opmode fuel) s tid a b = Some s' ∧
    chain (nb_next s') (hd_error (concat kept)) (concat kept) ∧ win_rep s' tid (clear W idxs) ∧ pn_state s' tid = st' ∧
    rx_events s' = rx_events s ++ concat (drop_events tid <$> dropped) ++ [FwdCheck tid (hd_error (concat kept))].
Proof.
  intros Hw Hz idxs Egs Hm u Ety Et Ho Hfw Htid Hs Hf.
  pose proof (release_spec desc (ol_rx_pn_check desc sec opmode fuel) s tid W a b Hw) as H. cbv zeta in H. fold idxs in H.
  assert (∀ k, k ∈ idxs → 0 <= k < Z.of_nat (length W)) as Hk.
  { intros k Hk. pose proof (wr_len _ _ _ Hw). apply (cyc_range _ (wr_mask _ _ _ Hw)) in Hk; [lia|]. by eapply wrap_range, wr_mask. }
  assert (NoDup idxs) as Hndi.
  { apply cyc_NoDup; [by eapply wr_mask|by eapply wrap_range, wr_mask|by eapply span_bound, wr_mask]. }
  pose proof (pick_clear W idxs Hk Hndi) as HP. pose proof (wr_nodup _ _ _ Hw) as Hnd. rewrite HP in Hnd.
  apply NoDup_app in Hnd as (Hnd & Hd & _).
  assert (hd_error (pick W idxs) = hd_error (zget W (idx_wrap a (mask_of s tid)))) as Eh.
  { unfold idxs, slots_of. rewrite slots_first by (by eapply wrap_range, wr_mask). rewrite pick_cons. by destruct (zget W _). }
  destruct (zget W _) as [|h l]; [done|]. destruct H as (s2 & E & Hch & Hw2 & Hr).
  assert (hd 0 (concat gs) = h) as Ehd by (rewrite Egs; by destruct (pick W idxs); simplify_eq/=).
  subst u. rewrite Ehd in *. unfold rest in Hr. cbn in Hr. injection Hr as Q1 Q2 Q3 Q4 Q5 Q6 Q7.
  assert (pn_state s2 tid = pn_state s tid) as Est by (unfold pn_state; by rewrite Q4, Q5).
  assert (pn_sized s2) as Hs2 by (unfold pn_sized; by rewrite Q4, Q5).
  rewrite <- Egs in Hch, Hnd.
  pose proof (check_base_spec fuel s2 tid _ ty len cmp gs h eq_refl Ety Et Ho ltac:(congruence)
    (conj (proj1 (wr_tid _ _ _ Hw)) Htid) Hs2 Hch Hm Hnd Hf) as HC. rewrite Est in HC.
  destruct (pn_filter _ _ _ gs) as [[kept dropped] st'].
  destruct HC as (s3 & E3 & Hc3 & Hst3 & _ & (F1 & _ & F3 & _) & Ev3). rewrite E. unfold ol_rx_pn_check. rewrite E3.
  cbn [mbind option_bind]. eexists. split; [reflexivity|]. split_and!; [exact Hc3| |exact Hst3|].
  - apply (win_frame s2); [exact F3| |exact Hw2]. intros x Hx. apply F1. rewrite Egs. intros Hp. by apply (Hd x).
  - cbn. by rewrite Ev3, Q7, app_assoc.
Qed.
End filter.

(** ** A replayed frame

    In the window of RxReorder.v, the frame of slot 1 repeats the packet number
    of the frame of slot 0. *)
Definition pn_desc (m : Z) : rx_desc :=
  mk_desc (100 + m) 3 false false true false (negb (m =? 10)) (if m =? 13 then 5 else 7, 0).
Definition ccmp_peer : rx_security := mk_security htt_sec_type_aes_ccmp htt_sec_type_aes_ccmp.

Lemma pn_desc_mpdu : Forall (is_mpdu pn_desc) [[13]; [10; 11]; [12]].
Proof.
  repeat constructor.
  - by exists [], 13.
  - exists [10], 11. by repeat constructor.
  - by exists [], 12.
Qed.
Lemma pn_desc_words m : pn_words (desc_pn (pn_desc m)).
Proof. unfold pn_desc, pn_words. cbn. destruct (m =? 13); cbn; lia. Qed.

(** The three frames in one list. *)
Definition demo_list : rxState :=
  demo_rx <| nb_next := λ x, if x =? 13 then Some 10 else if x =? 10 then Some 11 else if x =? 11 then Some 12 else None |>.

Lemma pn_check_filters_witness :
  ∃ s', ol_rx_pn_check_base pn_desc ccmp_peer wlan_op_mode_sta 4 demo_list 3 13 = Some (s', Some 13) ∧
    chain (nb_next s') (Some 13) [13; 10; 11] ∧ rx_events s' = [RxErr 3 12; FrameFree 12].
Proof.
  destruct (pn_check_filters pn_desc ccmp_peer wlan_op_mode_sta 4 demo_list 3 [[13]; [10; 11]; [12]] 13
    ltac:(by vm_compute) (conj eq_refl eq_refl) ltac:(by vm_compute) pn_desc_mpdu
    ltac:(apply (bool_decide_unpack _); by vm_compute) ltac:(cbn; lia)) as (s' & E & Hc & _ & _ & _ & Ev).
  exists s'. split; [exact E|]. split; [exact Hc|exact Ev].
Defined.

(** The same three frames checked one call after the other. *)
Lemma no_replay_witness :
  ∃ s' outs kepts, pn_run pn_desc ccmp_peer wlan_op_mode_sta 4 demo_rx 3 [13; 10; 12] = Some (s', outs) ∧
    StronglySorted Z.lt (pn_ranks pn_desc htt_sec_type_aes_ccmp (concat kepts)).
Proof.
  destruct (no_replay pn_desc ccmp_peer wlan_op_mode_sta 4 demo_rx 3 true htt_sec_type_aes_ccmp 48 ol_rx_pn_cmp48
    [13; 10; 12] [[[13]]; [[10; 11]]; [[12]]] eq_refl eq_refl ltac:(done) ltac:(by vm_compute) (conj eq_refl eq_refl) eq_refl)
    as (s' & outs & kepts & E & _ & _ & Hs & _).
  - pose proof pn_desc_mpdu as HF. rewrite !Forall_cons in HF. destruct HF as (H1 & H2 & H3 & _).
    constructor; [|constructor; [|constructor; [|constructor]]];
      (split; [by vm_compute|split; [by apply Forall_singleton|done]]).
  - apply (bool_decide_unpack _). by vm_compute.
  - cbn. lia.
  - apply pn_desc_words.
  - by vm_compute.
  - exists s', outs, kepts. split; [exact E|exact Hs].
Defined.

Lemma release_then_check_witness :
  ∃ s', ol_rx_reorder_release pn_desc (ol_rx_pn_check pn_desc ccmp_peer wlan_op_mode_sta 4) demo_rx 3 3 2 = Some s' ∧
    chain (nb_next s') (Some 13) [13; 10; 11] ∧ win_rep s' 3 [[]; []; []; []] ∧
    rx_events s' = [RxErr 3 12; FrameFree 12; FwdCheck 3 (Some 13)].
Proof.
  destruct (release_then_check pn_desc ccmp_peer wlan_op_mode_sta 4 demo_rx 3 demo_window 3 2 [[13]; [10; 11]; [12]]
    htt_sec_type_aes_ccmp 48 ol_rx_pn_cmp48 demo_rep ltac:(by vm_compute) eq_refl pn_desc_mpdu eq_refl eq_refl ltac:(done)
    eq_refl ltac:(by vm_compute) (conj eq_refl eq_refl) ltac:(cbn; lia)) as (s' & E & Hc & Hw & _ & Ev).
  exists s'. split; [exact E|]. split; [exact Hc|]. split; [exact Hw|exact Ev].
Defined.
