(* ===== verification/DefragList.v ===== *)
(** The list of traffic ids that wait for more fragments: the wait list of
    core/dp/txrx/ol_rx_defrag.c (ol_rx_defrag_waitlist_add, _remove, _flush), a
    tail queue of core/cds/src/queue.h.

    The queue is modelled at the level of its pointers: an element knows its
    successor and the address of the pointer that leads to it.  [None] is an
    access through a null pointer, or the end of the fuel of the flush. *)
From S2P Require Import Prelude.

(** An element is the reorder structure of a peer and a traffic id. *)
Definition wl_key : Set := Z * Z.
#[export] Instance wl_key_eq_dec : EqDecision wl_key := prod_eq_dec.
#[export] Instance wl_key_countable : Countable wl_key := prod_countable.

(** ** Tail queues *)

(** A pointer to an element is stored in the head or in an element's tqe_next. *)
Inductive tq_slot := Tqh_first | Tqe_next (k : wl_key).
#[export] Instance tq_slot_eq_dec : EqDecision tq_slot.
Proof. solve_decision. Defined.

(** A field that is absent from a map is null. *)
Record tailq := mk_tailq {
  tqh_first : option wl_key;
  tqh_last : option tq_slot;
  tqe_next : gmap wl_key wl_key;
  tqe_prev : gmap wl_key tq_slot;
}.
#[export] Instance tailq_eta : Eta tailq := fun q =>
  mk_tailq (tqh_first q) (tqh_last q) (tqe_next q) (tqe_prev q).

Definition upd_opt {A} (m : gmap wl_key A) (k : wl_key) (v : option A) : gmap wl_key A := partial_alter (λ _, v) k m.

Definition tq_read (q : tailq) (sl : tq_slot) : option wl_key :=
  match sl with Tqh_first => tqh_first q | Tqe_next k => tqe_next q !! k end.
Definition tq_write (q : tailq) (sl : tq_slot) (v : option wl_key) : tailq :=
  match sl with
  | Tqh_first => q <| tqh_first := v |>
  | Tqe_next k => q <| tqe_next ::= λ m, upd_opt m k v |>
  end.

(** The queue is created with its elements' fields null. *)
Definition TAILQ_INIT : tailq := mk_tailq None (Some Tqh_first) ∅ ∅.

Definition TAILQ_INSERT_TAIL (q : tailq) (k : wl_key) : option tailq :=
  let q := q <| tqe_next ::= delete k |> in
  let q := q <| tqe_prev ::= λ m, upd_opt m k (tqh_last q) |> in
  sl ← tqh_last q;
  let q := tq_write q sl (Some k) in
  Some (q <| tqh_last := Some (Tqe_next k) |>).

(** TRASHIT clears both fields. *)
Definition TAILQ_REMOVE (q : tailq) (k : wl_key) : option tailq :=
  let q :=
    match tqe_next q !! k with
    | Some n => q <| tqe_prev ::= λ m, upd_opt m n (tqe_prev q !! k) |>
    | None => q <| tqh_last := tqe_prev q !! k |>
    end in
  sl ← tqe_prev q !! k;
  let q := tq_write q sl (tqe_next q !! k) in
  Some (q <| tqe_next ::= delete k |> <| tqe_prev ::= delete k |>).

(** ** The wait list *)

Definition ol_rx_defrag_waitlist_add (q : tailq) (k : wl_key) : option tailq := TAILQ_INSERT_TAIL q k.

(** Membership is judged by the successor: the second branch of the code, with
    the same condition as the first, is never taken. *)
Definition ol_rx_defrag_waitlist_remove (q : tailq) (k : wl_key) : option tailq :=
  match tqe_next q !! k with
  | Some _ =>
      q ← TAILQ_REMOVE q k;
      Some (q <| tqe_next ::= delete k |> <| tqe_prev ::= delete k |>)
  | None => Some q
  end.

(** The loop from [k]; the result has the elements whose fragments are flushed.
    TAILQ_FOREACH_SAFE reads the successor before the body. *)
Fixpoint flush_from (fuel : nat) (deadline : wl_key → Z) (now_ms : Z) (q : tailq) (k : option wl_key)
    : option (tailq * list wl_key) :=
  match k with
  | None => Some (q, [])
  | Some k =>
      match fuel with
      | O => None
      | S n =>
          let tmp := tqe_next q !! k in
          if now_ms <? deadline k then Some (q, [])
          else
            q ← ol_rx_defrag_waitlist_remove q k;
            '(q, ks) ← flush_from n deadline now_ms q tmp;
            Some (q, k :: ks)
      end
  end.

Definition ol_rx_defrag_waitlist_flush (fuel : nat) (deadline : wl_key → Z) (now_ms : Z) (q : tailq)
    : option (tailq * list wl_key) := flush_from fuel deadline now_ms q (tqh_first q).

(** ** The list that a queue holds *)

(** The elements [l] from the pointer at [sl] to the one at [sl']. *)
Fixpoint dseg (q : tailq) (sl : tq_slot) (l : list wl_key) (sl' : tq_slot) : Prop :=
  match l with
  | [] => sl = sl'
  | k :: l' => tq_read q sl = Some k ∧ tqe_prev q !! k = Some sl ∧ dseg q (Tqe_next k) l' sl'
  end.

Record queue (q : tailq) (l : list wl_key) : Prop := {
  q_dup : NoDup l;
  q_out : ∀ k, k ∉ l → tqe_next q !! k = None;
  q_seg : ∃ sl, dseg q Tqh_first l sl ∧ tq_read q sl = None ∧ tqh_last q = Some sl;
}.

(** Removal as the code does it: the last element stays. *)
Definition spec_remove (l : list wl_key) (k : wl_key) : list wl_key :=
  if bool_decide (last l = Some k) then l else filter (λ x, x ≠ k) l.

(** The elements up to the first whose time has not come. *)
Fixpoint expired (deadline : wl_key → Z) (now_ms : Z) (l : list wl_key) : list wl_key :=
  match l with
  | [] => []
  | k :: l' => if now_ms <? deadline k then [] else k :: expired deadline now_ms l'
  end.

Inductive wl_op :=
  | Wl_add (k : wl_key)
  | Wl_remove (k : wl_key)
  | Wl_flush (deadline : wl_key → Z) (now_ms : Z).

Definition wl_exec (fuel : nat) (q : tailq) (o : wl_op) : option (tailq * list wl_key) :=
  match o with
  | Wl_add k => q ← ol_rx_defrag_waitlist_add q k; Some (q, [])
  | Wl_remove k => q ← ol_rx_defrag_waitlist_remove q k; Some (q, [])
  | Wl_flush d now => ol_rx_defrag_waitlist_flush fuel d now q
  end.

Fixpoint wl_run (fuel : nat) (q : tailq) (ops : list wl_op) : option (tailq * list (list wl_key)) :=
  match ops with
  | [] => Some (q, [])
  | o :: ops' =>
      '(q, out) ← wl_exec fuel q o;
      '(q, outs) ← wl_run fuel q ops';
      Some (q, out :: outs)
  end.

Definition wl_spec (l : list wl_key) (o : wl_op) : list wl_key * list wl_key :=
  match o with
  | Wl_add k => (l ++ [k], [])
  | Wl_remove k => (spec_remove l k, [])
  | Wl_flush d now => let ex := expired d now l in (foldl spec_remove l ex, ex)
  end.

Fixpoint wl_spec_run (l : list wl_key) (ops : list wl_op) : list wl_key * list (list wl_key) :=
  match ops with
  | [] => (l, [])
  | o :: ops' =>
      let '(l, out) := wl_spec l o in
      let '(l, outs) := wl_spec_run l ops' in (l, out :: outs)
  end.

(** An element is added only when it is not in the list. *)
Fixpoint wl_legal (l : list wl_key) (ops : list wl_op) : Prop :=
  match ops with
  | [] => True
  | o :: ops' => (match o with Wl_add k => k ∉ l | _ => True end) ∧ wl_legal (fst (wl_spec l o)) ops'
  end.

(** ** Lemmas *)
Section tail_queues.
Implicit Types q : tailq.
Implicit Types l : list wl_key.

Lemma upd_opt_eq {A} (m : gmap wl_key A) k v : upd_opt m k v !! k = v.
Proof. apply lookup_partial_alter_eq. Qed.
Lemma upd_opt_ne {A} (m : gmap wl_key A) k k' v : k ≠ k' → upd_opt m k v !! k' = m !! k'.
Proof. apply lookup_partial_alter_ne. Qed.

Lemma tq_read_write q sl v : tq_read (tq_write q sl v) sl = v.
Proof. destruct sl as [|k]; cbn; [done|]. apply upd_opt_eq. Qed.
Lemma tq_read_write_ne q sl sl' v : sl ≠ sl' → tq_read (tq_write q sl v) sl' = tq_read q sl'.
Proof. destruct sl as [|k], sl' as [|k']; cbn; try done. intros Hn. apply upd_opt_ne. congruence. Qed.
Lemma tq_write_prev q sl v : tqe_prev (tq_write q sl v) = tqe_prev q.
Proof. by destruct sl. Qed.
Lemma tq_write_last q sl v : tqh_last (tq_write q sl v) = tqh_last q.
Proof. by destruct sl. Qed.
Lemma tq_write_next_ne q sl v k : sl ≠ Tqe_next k → tqe_next (tq_write q sl v) !! k = tqe_next q !! k.
Proof. apply (tq_read_write_ne q sl (Tqe_next k)). Qed.

(** The pointers that a segment reads. *)
Fixpoint reads (sl : tq_slot) l : list tq_slot :=
  match l with
  | [] => []
  | k :: l' => sl :: reads (Tqe_next k) l'
  end.

Lemma dseg_frame q q' sl l sl' :
  (∀ s, s ∈ reads sl l → tq_read q' s = tq_read q s) → (∀ k, k ∈ l → tqe_prev q' !! k = tqe_prev q !! k) →
  dseg q sl l sl' → dseg q' sl l sl'.
Proof.
  revert sl. induction l as [|k l IH]; intros sl Hr Hp; [done|]. cbn. intros (H1 & H2 & H3).
  rewrite Hr by (by left). rewrite Hp by (by left). split; [done|]. split; [done|].
  apply IH; [intros s Hs; apply Hr; by right|intros k' Hk; apply Hp; by right|done].
Qed.

Lemma dseg_app q sl l1 l2 sl' : dseg q sl (l1 ++ l2) sl' ↔ ∃ s, dseg q sl l1 s ∧ dseg q s l2 sl'.
Proof.
  revert sl. induction l1 as [|k l1 IH]; intros sl; cbn.
  - split; [by eauto|by intros (s & -> & ?)].
  - rewrite IH. naive_solver.
Qed.

Lemma reads_in s sl l : s ∈ reads sl l → s = sl ∨ ∃ k, k ∈ l ∧ s = Tqe_next k.
Proof.
  revert sl. induction l as [|k l IH]; intros sl H; cbn in H; [by apply not_elem_of_nil in H|].
  apply elem_of_cons in H as [->|H]; [by left|]. right.
  destruct (IH _ H) as [->|(k' & Hk & ->)]; [exists k; split; [by left|done]|exists k'; split; [by right|done]].
Qed.

Lemma dseg_end q sl l sl' : dseg q sl l sl' → (l = [] ∧ sl' = sl) ∨ ∃ k, last l = Some k ∧ sl' = Tqe_next k.
Proof.
  revert sl. induction l as [|k l IH]; intros sl; cbn; [by left|]. intros (_ & _ & H). right.
  destruct (IH _ H) as [[-> ->]|(k' & Hl & ->)]; [by exists k|]. exists k'. split; [|done]. by destruct l.
Qed.

(** The pointer at the end of a segment is none of those that it reads. *)
Lemma end_unread q l sl sl' :
  NoDup l → (∀ k, sl = Tqe_next k → k ∉ l) → dseg q sl l sl' → sl' ∉ reads sl l.
Proof.
  revert sl. induction l as [|k l IH]; intros sl Hd Hs H; [by apply not_elem_of_nil|]. cbn in *.
  apply NoDup_cons in Hd as [Hk Hd]. destruct H as (_ & _ & H). apply not_elem_of_cons. split.
  - intros ->. destruct (dseg_end _ _ _ _ H) as [[-> He]|(k' & Hl & He)].
    + apply (Hs k He). by left.
    + apply (Hs k' He). right. by apply last_Some_elem_of.
  - apply IH; [done| |done]. by intros k' [= <-].
Qed.

Lemma last_read q l k : queue q l → last l = Some k → tqe_next q !! k = None.
Proof.
  intros [_ _ (sl & H & Hn & _)] Hl. destruct (dseg_end _ _ _ _ H) as [[-> _]|(k' & Hk & ->)]; [done|].
  rewrite Hk in Hl. by injection Hl as <-.
Qed.

Lemma init_queue : queue TAILQ_INIT [].
Proof. split; [constructor|done|]. by exists Tqh_first. Qed.

Lemma insert_tail_queue q l k :
  queue q l → k ∉ l → ∃ q', TAILQ_INSERT_TAIL q k = Some q' ∧ queue q' (l ++ [k]).
Proof.
  intros [Hd Ho (sl & Hs & Hn & Hl)] Hk. unfold TAILQ_INSERT_TAIL. cbn. rewrite Hl. cbn.
  assert (sl ≠ Tqe_next k) as Hsk.
  { intros ->. destruct (dseg_end _ _ _ _ Hs) as [[_ ?]|(k' & Hk' & [= <-])]; [done|]. apply Hk. by apply last_Some_elem_of. }
  eexists. split; [done|]. set (q1 := q <| tqe_next ::= delete k |> <| tqe_prev ::= _ |>).
  assert (∀ k', k' ≠ k → tqe_next q1 !! k' = tqe_next q !! k') as Hq1 by (intros; by apply lookup_delete_ne).
  assert (tqe_next q1 !! k = None) as Hq1k by apply lookup_delete_eq.
  split.
  - apply NoDup_app. split_and!; [done| |apply NoDup_singleton]. intros x Hx ->%list_elem_of_singleton. done.
  - intros x [Hx Hxk]%not_elem_of_app. apply not_elem_of_cons in Hxk as [Hxk _]. cbn -[tq_write].
    rewrite tq_write_next_ne; [by rewrite Hq1, Ho|]. intros ->.
    destruct (dseg_end _ _ _ _ Hs) as [[_ ?]|(k' & Hk' & [= <-])]; [done|]. apply Hx. by apply last_Some_elem_of.
  - exists (Tqe_next k). split; [|split; [|done]].
    2: { cbn -[tq_write]. rewrite tq_write_next_ne by done. done. }
    apply dseg_app. exists sl. split.
    + eapply dseg_frame; [| |exact Hs].
      * intros s Hsr. assert (s ≠ sl) as Hne. { intros ->. by eapply end_unread; [exact Hd| |exact Hs|exact Hsr]. }
        transitivity (tq_read q1 s); [by apply tq_read_write_ne|]. destruct s as [|k']; [done|]. apply Hq1. intros ->.
        destruct (reads_in _ _ _ Hsr) as [?|(k' & Hk' & [= <-])]; done.
      * intros x Hx. cbn -[tq_write]. rewrite tq_write_prev. apply upd_opt_ne. set_solver.
    + cbn -[tq_write]. split_and!; [apply tq_read_write| |done]. rewrite tq_write_prev. apply upd_opt_eq.
Qed.
End tail_queues.

(** ** The wait list is a list whose last element stays *)
Section waitlist.
Implicit Types q : tailq.
Implicit Types l : list wl_key.

Lemma cleared_twice q k :
  q <| tqe_next ::= delete k |> <| tqe_prev ::= delete k |> <| tqe_next ::= delete k |> <| tqe_prev ::= delete k |> =
  q <| tqe_next ::= delete k |> <| tqe_prev ::= delete k |>.
Proof. destruct q. rsimpl. by rewrite !delete_delete_eq. Qed.

Lemma remove_middle q l1 k n l2 :
  queue q (l1 ++ k :: n :: l2) →
  ∃ q', ol_rx_defrag_waitlist_remove q k = Some q' ∧ queue q' (l1 ++ n :: l2) ∧
    ∀ x, x ≠ k → x ∉ l1 → tqe_next q' !! x = tqe_next q !! x.
Proof.
  intros [Hd Ho (sl & Hs & Hn & Hl)].
  apply dseg_app in Hs as (s & Hs1 & Hk & Hpk & Hs2). cbn in Hs2. destruct Hs2 as (Hnk & Hpn & Hs2).
  apply NoDup_app in Hd as (Hd1 & Hx & Hd2). apply NoDup_cons in Hd2 as [Hkn Hd2].
  apply NoDup_cons in Hd2 as [Hnl Hd2]. apply not_elem_of_cons in Hkn as [Hkn Hkl].
  assert (k ∉ l1) as Hk1 by (intros H; apply (Hx k H); by left).
  assert (n ∉ l1) as Hn1 by (intros H; apply (Hx n H); right; by left).
  assert (s = Tqh_first ∨ ∃ x, x ∈ l1 ∧ s = Tqe_next x) as Hsc.
  { destruct (dseg_end _ _ _ _ Hs1) as [[_ ->]|(x & Hx1 & ->)]; [by left|right; exists x].
    split; [by apply last_Some_elem_of|done]. }
  unfold ol_rx_defrag_waitlist_remove, TAILQ_REMOVE. rewrite Hnk. cbn [tqe_prev set_field].
  set (q1 := q <| tqe_prev ::= _ |>).
  assert (∀ x, x ≠ n → tqe_prev q1 !! x = tqe_prev q !! x) as Hq1 by (intros; by apply upd_opt_ne).
  assert (tqe_prev q1 !! n = Some s) as Hq1n by (rewrite <- Hpk; apply upd_opt_eq).
  rewrite Hq1, Hpk by congruence. cbn [mbind option_bind].
  change (tqe_next q1 !! k) with (tqe_next q !! k). rewrite Hnk.
  rewrite cleared_twice. eexists. split; [done|]. set (q2 := tq_write q1 s (Some n)).
  assert (∀ x, tqe_prev q2 !! x = tqe_prev q1 !! x) as Hp2 by (intros x; unfold q2; by rewrite tq_write_prev).
  assert (∀ sl', sl' ≠ s → tq_read q2 sl' = tq_read q sl') as Hr2.
  { intros sl' Hne. unfold q2. by rewrite tq_read_write_ne. }
  set (q' := q2 <| tqe_next ::= delete k |> <| tqe_prev ::= delete k |>).
  assert (∀ sl', sl' ≠ s → sl' ≠ Tqe_next k → tq_read q' sl' = tq_read q sl') as Hr.
  { intros sl' H1 H2. rewrite <- Hr2 by done. destruct sl' as [|x]; [done|]. apply lookup_delete_ne. congruence. }
  assert (∀ x, x ≠ k → tqe_prev q' !! x = tqe_prev q1 !! x) as Hp.
  { intros x Hxk. rewrite <- Hp2. by apply lookup_delete_ne. }
  split; [split|].
  - apply NoDup_app. split_and!; [done| |by apply NoDup_cons]. intros x H1 H2. apply (Hx x H1). by right.
  - intros x H. apply not_elem_of_app in H as [H1 H2]. destruct (decide (x = k)) as [->|Hxk]; [apply lookup_delete_eq|].
    change (tq_read q' (Tqe_next x) = None). rewrite Hr; [apply Ho; rewrite not_elem_of_app, not_elem_of_cons; done| |congruence].
    intros <-. destruct Hsc as [?|(y & Hy & [= ->])]; done.
  - exists sl. split; [|split].
    + apply dseg_app. exists s. split; [|cbn -[tq_read]; split_and!].
      * eapply dseg_frame; [| |exact Hs1].
        -- intros s' Hs'. apply Hr.
           ++ intros ->. by eapply end_unread; [exact Hd1| |exact Hs1|exact Hs'].
           ++ intros ->. destruct (reads_in _ _ _ Hs') as [?|(y & Hy & [= <-])]; done.
        -- intros x H1. rewrite Hp, Hq1; [done| |]; intros ->; done.
      * assert (tq_read q2 s = Some n) as <- by apply tq_read_write. destruct s as [|x]; [done|].
        apply lookup_delete_ne. intros <-. destruct Hsc as [?|(y & Hy & [= ->])]; done.
      * rewrite Hp by congruence. done.
      * eapply dseg_frame; [| |exact Hs2].
        -- intros s' Hs'. apply Hr.
           ++ intros ->. destruct (reads_in _ _ _ Hs') as [->|(y & Hy & ->)].
              ** destruct Hsc as [?|(z & Hz & [= ->])]; done.
              ** destruct Hsc as [?|(z & Hz & [= ->])]; [done|]. apply (Hx z Hz). right. by right.
           ++ intros ->. destruct (reads_in _ _ _ Hs') as [[= ->]|(y & Hy & [= <-])]; done.
        -- intros x H1. rewrite Hp, Hq1; [done| |]; intros ->; done.
    + assert (∃ x, x ∈ n :: l2 ∧ sl = Tqe_next x) as (x & Hxl & ->).
      { destruct (dseg_end _ _ _ _ Hs2) as [[-> ->]|(x & Hx1 & ->)]; [exists n|exists x]; (split; [|done]); [by left|].
        right. by apply last_Some_elem_of. }
      rewrite Hr; [done| |]; [|intros [= ->]; apply elem_of_cons in Hxl as [->|]; done].
      intros <-. destruct Hsc as [?|(z & Hz & [= ->])]; [done|]. apply (Hx z Hz). by right.
    + transitivity (tqh_last q2); [done|]. unfold q2. rewrite tq_write_last. done.
  - intros x Hxk Hx1. change (tq_read q' (Tqe_next x) = tq_read q (Tqe_next x)). apply Hr; [|congruence].
    intros <-. destruct Hsc as [?|(y & Hy & [= ->])]; done.
Qed.

Lemma filter_out l k : k ∉ l → filter (λ x, x ≠ k) l = l.
Proof.
  induction l as [|x l IH]; intros Hk; [done|]. apply not_elem_of_cons in Hk as [Hx Hk].
  rewrite filter_cons_True by congruence. by rewrite IH.
Qed.

Lemma filter_shorter l k : (length (filter (λ x, x ≠ k) l) <= length l)%nat.
Proof. induction l as [|x l IH]; [done|]. rewrite filter_cons. destruct (decide _); cbn; lia. Qed.

Lemma remove_queue q l k :
  queue q l → ∃ q', ol_rx_defrag_waitlist_remove q k = Some q' ∧ queue q' (spec_remove l k).
Proof.
  intros Hq. unfold spec_remove. case_bool_decide as Hl.
  { exists q. unfold ol_rx_defrag_waitlist_remove. by rewrite (last_read q l k Hq Hl). }
  destruct (decide (k ∈ l)) as [Hk|Hk].
  2: { exists q. unfold ol_rx_defrag_waitlist_remove. rewrite (q_out _ _ Hq k Hk), filter_out; done. }
  apply list_elem_of_split in Hk as (l1 & [|n l2] & ->); [by rewrite last_snoc in Hl|].
  destruct (remove_middle q l1 k n l2 Hq) as (q' & Hr & Hq' & _). exists q'. split; [done|].
  rewrite filter_app, filter_cons_False by (intros H; by apply H).
  pose proof (q_dup _ _ Hq) as Hd. apply NoDup_app in Hd as (_ & Hx & Hd). apply NoDup_cons in Hd as [Hkn _].
  rewrite !filter_out; [done|done|]. intros H. apply (Hx k H). by left.
Qed.

(** The flush from an element on: those before it are not looked at. *)
Lemma flush_spec fuel d now q l :
  queue q l → (length l <= fuel)%nat →
  ∃ q', flush_from fuel d now q (hd_error l) = Some (q', expired d now l) ∧
    queue q' (foldl spec_remove l (expired d now l)).
Proof.
  revert fuel q. induction l as [|k l IH]; intros fuel q Hq Hf; [by destruct fuel; exists q|].
  destruct fuel as [|fuel]; [cbn in Hf; lia|]. cbn [hd_error flush_from expired].
  destruct (now <? d k); [by exists q|]. destruct l as [|n l].
  - pose proof (last_read q [k] k Hq eq_refl) as Hn. unfold ol_rx_defrag_waitlist_remove. rewrite Hn.
    exists q. destruct fuel; cbn; (split; [done|]); unfold spec_remove; by rewrite bool_decide_eq_true_2.
  - destruct (remove_middle q [] k n l Hq) as (q1 & Hr & Hq1 & _). rewrite Hr. cbn [mbind option_bind].
    assert (tqe_next q !! k = Some n) as ->.
    { destruct Hq as [_ _ (sl & (_ & _ & H & _) & _)]. exact H. }
    destruct (IH fuel q1 Hq1 ltac:(cbn in *; lia)) as (q' & Hfl & Hq'). cbn [hd_error] in Hfl. rewrite Hfl. cbn.
    exists q'. split; [done|]. cbn [foldl]. replace (spec_remove (k :: n :: l) k) with (n :: l); [done|].
    pose proof (q_dup _ _ Hq) as Hd. apply NoDup_cons in Hd as [Hk Hd]. unfold spec_remove. rewrite bool_decide_eq_false_2.
    + rewrite filter_cons_False by (intros H; by apply H). by rewrite filter_out.
    + intros Hl. apply Hk. apply last_Some_elem_of. exact Hl.
Qed.

Lemma first_read q l : queue q l → tqh_first q = hd_error l.
Proof. intros [_ _ (sl & H & Hn & _)]. destruct l as [|k l]; cbn in H; [by subst sl|apply H]. Qed.

Lemma exec_queue fuel q l o :
  queue q l → (length l <= fuel)%nat → (match o with Wl_add k => k ∉ l | _ => True end) →
  ∃ q', wl_exec fuel q o = Some (q', snd (wl_spec l o)) ∧ queue q' (fst (wl_spec l o)).
Proof.
  intros Hq Hf Hleg. destruct o as [k|k|d now]; cbn [wl_exec wl_spec fst snd].
  - destruct (insert_tail_queue q l k Hq Hleg) as (q' & Hi & Hq'). exists q'. unfold ol_rx_defrag_waitlist_add. by rewrite Hi.
  - destruct (remove_queue q l k Hq) as (q' & Hr & Hq'). exists q'. by rewrite Hr.
  - unfold ol_rx_defrag_waitlist_flush. rewrite (first_read q l Hq). by apply flush_spec.
Qed.

Lemma spec_length l o : (length (fst (wl_spec l o)) <= S (length l))%nat.
Proof.
  assert (∀ l k, (length (spec_remove l k) <= length l)%nat) as Hr.
  { intros l' k. unfold spec_remove. case_bool_decide; [done|apply filter_shorter]. }
  destruct o as [k|k|d now]; cbn; [rewrite length_app; cbn; lia|specialize (Hr l k); lia|].
  generalize (expired d now l) as ex. intros ex. revert l. induction ex as [|k ex IH]; intros l; cbn; [lia|].
  specialize (IH (spec_remove l k)). specialize (Hr l k). lia.
Qed.

(** The wait list of fragments implements a list from which every element
    can be removed but the last, in any run of insertions of elements that are
    not in it, removals and flushes: a removal of the last element does nothing, and a
    flush of the expired elements, which always ends, flushes their fragments but leaves the
    last element of the list in it. *)
Theorem waitlist_keeps_last fuel q l ops :
  queue q l → wl_legal l ops → (length l + length ops <= fuel)%nat →
  ∃ q', wl_run fuel q ops = Some (q', snd (wl_spec_run l ops)) ∧ queue q' (fst (wl_spec_run l ops)).
Proof.
  revert q l. induction ops as [|o ops IH]; intros q l Hq Hleg Hf; [by exists q|]. cbn [length wl_legal] in *.
  destruct Hleg as [Ho Hops]. destruct (exec_queue fuel q l o Hq ltac:(lia) Ho) as (q1 & He & Hq1). cbn [wl_run wl_spec_run].
  rewrite He. cbn [mbind option_bind]. pose proof (spec_length l o) as Hlen.
  destruct (wl_spec l o) as [l1 out]. cbn [fst snd] in *.
  destruct (IH q1 l1 Hq1 Hops ltac:(lia)) as (q' & Hr & Hq'). exists q'. rewrite Hr. cbn.
  by destruct (wl_spec_run l1 ops).
Qed.

(** Removal and addition never read a null pointer. *)
Lemma readd_some q l k :
  queue q l → ∃ q1 q2, ol_rx_defrag_waitlist_remove q k = Some q1 ∧ ol_rx_defrag_waitlist_add q1 k = Some q2.
Proof.
  intros Hq. destruct (remove_queue q l k Hq) as (q1 & E1 & Hq1). exists q1.
  destruct Hq1 as [_ _ (sl & _ & _ & Hl)]. unfold ol_rx_defrag_waitlist_add, TAILQ_INSERT_TAIL. rewrite E1. cbn. rewrite Hl. cbn. by eexists.
Qed.

(** An element that is already the last one is linked to itself when it is added again. *)
Lemma readd_cycle q l k :
  queue q (l ++ [k]) →
  ∃ q1 q2, ol_rx_defrag_waitlist_remove q k = Some q1 ∧ ol_rx_defrag_waitlist_add q1 k = Some q2 ∧
    tqe_next q2 !! k = Some k ∧ ∀ l', ¬ queue q2 (l' ++ [k]).
Proof.
  intros Hq. assert (last (l ++ [k]) = Some k) as Hl by apply last_snoc. pose proof (last_read q _ k Hq Hl) as Hn.
  unfold ol_rx_defrag_waitlist_remove. rewrite Hn. exists q.
  destruct Hq as [_ _ (sl & Hs & _ & Hlast)]. destruct (dseg_end _ _ _ _ Hs) as [[? _]|(k' & Hk & ->)]; [by destruct l|].
  rewrite Hl in Hk. injection Hk as <-. unfold ol_rx_defrag_waitlist_add, TAILQ_INSERT_TAIL. cbn. rewrite Hlast. cbn.
  eexists. split; [done|]. split; [done|]. cbn. split; [apply upd_opt_eq|].
  intros l' Hq2. assert (last (l' ++ [k]) = Some k) as Hl2 by apply last_snoc. pose proof (last_read _ _ k Hq2 Hl2) as H.
  cbn in H. by rewrite upd_opt_eq in H.
Qed.
End waitlist.
