(* ===== verification/RxDefrag.v ===== *)
(** Reassembly of received fragments: core/dp/txrx/ol_rx_defrag.c with its
    header, in the low-latency build.

    The fragments of a frame wait in the first slot of the traffic id's reorder
    window (RxReorder.v), linked through the buffers' next fields, until all are there; then each
    is checked for replay (RxPn.v), freed of its checksum and cipher fields,
    and the payloads are joined behind the first header.  The bytes of a buffer
    are a list; reads beyond its end are [None], as are null pointers and loops that
    do not end.  The operations on whole buffers and on memory that are not
    part of the repository are the class [Nbuf]. *)
From S2P Require Import Prelude Chains RxReorder RxPn DefragList.

(** ** What the code uses of its platform *)
Class Nbuf := {
  qdf_nbuf_pull_head : list Z → Z → list Z;
  qdf_nbuf_trim_tail : list Z → Z → list Z;
  qdf_nbuf_cat : list Z → list Z → option (list Z);      (* [None]: no memory *)
  qdf_mem_cmp : list Z → list Z → Z;
  (* struct llc_snap_hdr_t and struct ethernet_hdr_t: sizes and offsets *)
  sizeof_llc_snap_hdr : Z; llc_ethertype : Z;
  sizeof_ethernet_hdr : Z; eth_dest_addr : Z; eth_src_addr : Z; eth_ethertype : Z;
}.

(** The documented behaviour, within the buffers. *)
Class NbufOk {N : Nbuf} : Prop := {
  pull_head_drop d n : 0 <= n <= Z.of_nat (length d) → qdf_nbuf_pull_head d n = drop (Z.to_nat n) d;
  trim_tail_take d n : 0 <= n <= Z.of_nat (length d) → qdf_nbuf_trim_tail d n = take (length d - Z.to_nat n) d;
  cat_app a b c : qdf_nbuf_cat a b = Some c → c = a ++ b;
  mem_cmp_eq a b : qdf_mem_cmp a b = 0 ↔ a = b;
}.

(** ** Frames *)
Definition IEEE80211_ADDR_LEN : Z := 6.
Definition DEFRAG_IEEE80211_FCS_LEN : Z := 4.
Definition IEEE80211_SEQ_FRAG_MASK : Z := 0xf.
Definition IEEE80211_SEQ_SEQ_SHIFT : Z := 4.
Definition IEEE80211_FC0_TYPE_MASK : Z := 0x0c.
Definition IEEE80211_FC0_TYPE_DATA : Z := 0x08.
Definition IEEE80211_FC0_SUBTYPE_QOS : Z := 0x80.
Definition IEEE80211_FC1_DIR_MASK : Z := 0x03.
Definition IEEE80211_FC1_DIR_NODS : Z := 0.
Definition IEEE80211_FC1_DIR_TODS : Z := 1.
Definition IEEE80211_FC1_DIR_FROMDS : Z := 2.
Definition IEEE80211_FC1_DIR_DSTODS : Z := 3.
Definition IEEE80211_FC1_MORE_FRAG : Z := 0x04.
Definition IEEE80211_FC1_ORDER : Z := 0x80.
Definition IEEE80211_QOS_TID : Z := 0x0f.
Definition IEEE80211_WEP_IVLEN : Z := 3.
Definition IEEE80211_WEP_KIDLEN : Z := 1.
Definition IEEE80211_WEP_EXTIVLEN : Z := 4.
Definition IEEE80211_WEP_CRCLEN : Z := 4.
Definition IEEE80211_WEP_MICLEN : Z := 8.
Definition IEEE80211_WEP_EXTIV : Z := 0x20.

(** sizeof(struct ieee80211_frame), and the offsets of its fields. *)
Definition sizeof_ieee80211_frame : Z := 24.
Definition i_fc (h : list Z) (k : Z) : Z := zget h k.
Definition i_addr1 (h : list Z) : list Z := zread h 4 6.
Definition i_addr2 (h : list Z) : list Z := zread h 10 6.
Definition i_addr3 (h : list Z) : list Z := zread h 16 6.
Definition i_addr4 (h : list Z) : list Z := zread h 24 6.
Definition i_seq (h : list Z) : Z := zget h 22 + 256 * zget h 23.
Definition i_qos0 (h : list Z) : Z := zget h 24.

Definition frag_no (h : list Z) : Z := Z.land (i_seq h) IEEE80211_SEQ_FRAG_MASK.
Definition seq_of (h : list Z) : Z := Z.shiftr (i_seq h) IEEE80211_SEQ_SEQ_SHIFT.
Definition more_frag (h : list Z) : bool := negb (Z.land (i_fc h 1) IEEE80211_FC1_MORE_FRAG =? 0).

Definition DEFRAG_IEEE80211_QOS_HAS_SEQ (h : list Z) : bool :=
  Z.land (i_fc h 0) (Z.lor IEEE80211_FC0_TYPE_MASK IEEE80211_FC0_SUBTYPE_QOS) =?
  Z.lor IEEE80211_FC0_TYPE_DATA IEEE80211_FC0_SUBTYPE_QOS.

Definition ol_rx_frag_hdrsize (h : list Z) : Z :=
  let size := sizeof_ieee80211_frame in
  let size := if Z.land (i_fc h 1) IEEE80211_FC1_DIR_MASK =? IEEE80211_FC1_DIR_DSTODS then size + IEEE80211_ADDR_LEN else size in
  if DEFRAG_IEEE80211_QOS_HAS_SEQ h then
    if negb (Z.land (i_fc h 1) IEEE80211_FC1_ORDER =? 0) then size + 2 + 4 else size + 2
  else size.

(** The lengths of a cipher's header, trailer and MIC. *)
Record ol_rx_defrag_cipher := mk_cipher { ic_header : Z; ic_trailer : Z; ic_miclen : Z }.
Definition f_ccmp : ol_rx_defrag_cipher :=
  mk_cipher (IEEE80211_WEP_IVLEN + IEEE80211_WEP_KIDLEN + IEEE80211_WEP_EXTIVLEN) IEEE80211_WEP_MICLEN 0.
Definition f_tkip : ol_rx_defrag_cipher :=
  mk_cipher (IEEE80211_WEP_IVLEN + IEEE80211_WEP_KIDLEN + IEEE80211_WEP_EXTIVLEN) IEEE80211_WEP_CRCLEN IEEE80211_WEP_MICLEN.
Definition f_wep : ol_rx_defrag_cipher :=
  mk_cipher (IEEE80211_WEP_IVLEN + IEEE80211_WEP_KIDLEN) IEEE80211_WEP_CRCLEN 0.

(** ** The Michael MIC *)
Definition get_le32_split (b0 b1 b2 b3 : Z) : Z :=
  u32 (Z.lor (Z.lor (Z.lor b0 (Z.shiftl b1 8)) (Z.shiftl b2 16)) (Z.shiftl b3 24)).
Definition get_le32 (p : list Z) : Z := get_le32_split (zget p 0) (zget p 1) (zget p 2) (zget p 3).
Definition put_le32 (v : Z) : list Z :=
  [Z.land v 0xff; Z.land (Z.shiftr v 8) 0xff; Z.land (Z.shiftr v 16) 0xff; Z.land (Z.shiftr v 24) 0xff].
Definition rotl (val bits : Z) : Z := u32 (Z.lor (Z.shiftl val bits) (Z.shiftr val (32 - bits))).
Definition rotr (val bits : Z) : Z := u32 (Z.lor (Z.shiftr val bits) (Z.shiftl val (32 - bits))).
Definition xswap (val : Z) : Z :=
  u32 (Z.lor (Z.shiftl (Z.land val 0x00ff00ff) 8) (Z.shiftr (Z.land val 0xff00ff00) 8)).

Definition michael_block (lr : Z * Z) : Z * Z :=
  let '(l, r) := lr in
  let r := Z.lxor r (rotl l 17) in
  let l := u32 (l + r) in
  let r := Z.lxor r (xswap l) in
  let l := u32 (l + r) in
  let r := Z.lxor r (rotl l 3) in
  let l := u32 (l + r) in
  let r := Z.lxor r (rotr l 2) in
  let l := u32 (l + r) in
  (l, r).

(** One word into the state. *)
Definition mic_word (lr : Z * Z) (w : Z) : Z * Z := michael_block (Z.lxor (fst lr) w, snd lr).

(** ** State *)

(** The peer and the links of the buffers; the bytes of the buffers; the wait list of the device. *)
Record fragState := mk_frag {
  fr_rx : rxState;
  fr_data : gmap Z (list Z);
  fr_wait : tailq;
}.
#[export] Instance fragState_eta : Eta fragState := fun s => mk_frag (fr_rx s) (fr_data s) (fr_wait s).

Definition frag_next (s : fragState) (m : Z) : option Z := qdf_nbuf_next (fr_rx s) m.
Definition frag_set_next (s : fragState) (m : Z) (v : option Z) : fragState :=
  s <| fr_rx ::= λ r, r <| nb_next ::= λ nx, nx_upd nx m v |> |>.
Definition frag_emit (s : fragState) (ev : rx_event) : fragState := s <| fr_rx ::= λ r, rx_emit r ev |>.
Definition set_data (s : fragState) (m : Z) (d : list Z) : fragState := s <| fr_data ::= insert m d |>.

(** The header of a buffer that has one. *)
Definition ol_rx_frag_get_mac_hdr (s : fragState) (m : Z) : option (list Z) :=
  d ← fr_data s !! m;
  if Z.of_nat (length d) <? sizeof_ieee80211_frame then None else Some d.

(** ** Storing fragments *)
Section defrag.
Context `{Nbuf}.
Context (desc : Z → rx_desc) (sec : rx_security) (opmode : wlan_op_mode).
(** The key of the Michael MIC, for unicast or multicast frames; the settings
    vdev->safemode, ol_cfg_is_full_reorder_offload, ol_cfg_frame_type and
    pdev->rx.flags.defrag_timeout_check, pdev->rx.defrag.timeout_ms; and the
    name of the peer in the wait list. *)
Context (michael_key : bool → list Z).
Context (safemode full_reorder_offload frame_8023 defrag_timeout_check : bool) (timeout_ms : Z) (me : Z).
Implicit Types s : fragState.

(** The loop that looks for the place of a fragment: the first element whose
    number is at least [fragno], what follows it, and that number. *)
Fixpoint find_place (fuel : nat) s (fragno : Z) (cur : option Z) : option (Z * option Z * Z) :=
  match fuel with
  | O => None
  | S n =>
      c ← cur;
      cmac_hdr ← ol_rx_frag_get_mac_hdr s c;
      let cur_fragno := frag_no cmac_hdr in
      let cur := frag_next s c in
      if cur_fragno <? fragno then find_place n s fragno cur else Some (c, cur, cur_fragno)
  end.

(** The loop that compares the numbers behind the head with 1, 2, ... *)
Fixpoint all_present (fuel : nat) s (next : option Z) (count : Z) : option bool :=
  match fuel with
  | O => None
  | S n =>
      m ← next;
      next_hdr ← ol_rx_frag_get_mac_hdr s m;
      let count := u8 (count + 1) in
      if negb (frag_no next_hdr =? count) then Some false
      else match frag_next s m with
           | None => Some true
           | next => all_present n s next count
           end
  end.

(** The new head and tail, and what [all_frag_present] points to, 0 before. *)
Definition ol_rx_fraglist_insert (fuel : nat) s (head_addr tail_addr : option Z) (frag : Z)
    : option (fragState * option Z * option Z * bool) :=
  mac_hdr ← ol_rx_frag_get_mac_hdr s frag;
  let fragno := frag_no mac_hdr in
  match head_addr with
  | None => Some (frag_set_next s frag None, Some frag, Some frag, false)
  | Some hd =>
      tl ← tail_addr;
      lmac_hdr ← ol_rx_frag_get_mac_hdr s tl;
      '(s, tl, dup) ←
        (if frag_no lmac_hdr <? fragno then
           Some (frag_set_next (frag_set_next s tl (Some frag)) frag None, frag, false)
         else
           '(prev, cur, cur_fragno) ← find_place fuel s fragno (Some hd);
           if fragno =? cur_fragno then Some (frag_emit s (FrameFree frag), tl, true)
           else Some (frag_set_next (frag_set_next s prev (Some frag)) frag cur, tl, false));
      if dup : bool then Some (s, Some hd, Some tl, false)
      else
        lmac_hdr ← ol_rx_frag_get_mac_hdr s tl;
        all ← (if more_frag lmac_hdr then Some false else all_present fuel s (frag_next s hd) 0);
        Some (s, Some hd, Some tl, all)
  end.

(** *** Cipher fields *)

(** A header of [hdrlen] bytes moved up by [n] bytes. *)
Definition move_hdr (d : list Z) (n hdrlen : Z) : option (list Z) :=
  if n + hdrlen <=? Z.of_nat (length d) then Some (zwrite d n (zread d 0 hdrlen)) else None.

(** Is the extended-IV flag set behind the header? *)
Definition has_extiv (d : list Z) (hdrlen : Z) : option bool :=
  if hdrlen + IEEE80211_WEP_IVLEN <? Z.of_nat (length d)
  then Some (negb (Z.land (zget d (hdrlen + IEEE80211_WEP_IVLEN)) IEEE80211_WEP_EXTIV =? 0)) else None.

Definition ol_rx_frag_tkip_decap (d : list Z) (hdrlen : Z) : option (list Z * bool) :=
  extiv ← has_extiv d hdrlen;
  if negb extiv then Some (d, false)
  else
    d ← move_hdr d (ic_header f_tkip) hdrlen;
    Some (qdf_nbuf_trim_tail (qdf_nbuf_pull_head d (ic_header f_tkip)) (ic_trailer f_tkip), true).

Definition ol_rx_frag_wep_decap (d : list Z) (hdrlen : Z) : option (list Z * bool) :=
  d ← move_hdr d (ic_header f_wep) hdrlen;
  Some (qdf_nbuf_trim_tail (qdf_nbuf_pull_head d (ic_header f_wep)) (ic_trailer f_wep), true).

Definition ol_rx_frag_ccmp_demic (d : list Z) (hdrlen : Z) : option (list Z * bool) :=
  extiv ← has_extiv d hdrlen;
  if negb extiv then Some (d, false) else Some (qdf_nbuf_trim_tail d (ic_trailer f_ccmp), true).

Definition ol_rx_frag_ccmp_decap (d : list Z) (hdrlen : Z) : option (list Z * bool) :=
  extiv ← has_extiv d hdrlen;
  if negb extiv then Some (d, false)
  else
    d ← move_hdr d (ic_header f_ccmp) hdrlen;
    Some (qdf_nbuf_pull_head d (ic_header f_ccmp), true).

(** The body of the loop of [ol_rx_defrag] for each kind of key. *)
Definition decap_of (t : htt_sec_type) (hdrlen : Z) : option (list Z → option (list Z * bool)) :=
  match t with
  | htt_sec_type_tkip | htt_sec_type_tkip_nomic => Some (λ d, ol_rx_frag_tkip_decap d hdrlen)
  | htt_sec_type_aes_ccmp =>
      Some (λ d, '(d, ok) ← ol_rx_frag_ccmp_demic d hdrlen;
                 if ok : bool then ol_rx_frag_ccmp_decap d hdrlen else Some (d, false))
  | htt_sec_type_wep40 | htt_sec_type_wep104 | htt_sec_type_wep128 => Some (λ d, ol_rx_frag_wep_decap d hdrlen)
  | _ => None
  end.

Fixpoint decap_loop (fuel : nat) (f : list Z → option (list Z * bool)) s (cur : option Z) : option (fragState * bool) :=
  match cur with
  | None => Some (s, true)
  | Some c =>
      match fuel with
      | O => None
      | S n =>
          let tmp_next := frag_next s c in
          d ← fr_data s !! c;
          '(d, ok) ← f d;
          let s := set_data s c d in
          if ok : bool then decap_loop n f s tmp_next else Some (s, false)
      end
  end.

(** *** The MIC *)

Definition ol_rx_defrag_michdr (wh : list Z) : option (list Z) :=
  let dir := Z.land (i_fc wh 1) IEEE80211_FC1_DIR_MASK in
  addrs ← (if dir =? IEEE80211_FC1_DIR_NODS then Some (i_addr1 wh ++ i_addr2 wh)
           else if dir =? IEEE80211_FC1_DIR_TODS then Some (i_addr3 wh ++ i_addr2 wh)
           else if dir =? IEEE80211_FC1_DIR_FROMDS then Some (i_addr1 wh ++ i_addr3 wh)
           else if Z.of_nat (length wh) <? 30 then None else Some (i_addr3 wh ++ i_addr4 wh));
  tid ← (if negb (Z.land (i_fc wh 0) IEEE80211_FC0_SUBTYPE_QOS =? 0)
         then if Z.of_nat (length wh) <? 25 then None else Some (Z.land (i_qos0 wh) IEEE80211_QOS_TID)
         else Some 0);
  Some (addrs ++ [tid; 0; 0; 0]).

(** [n] words of the buffer from [data] on. *)
Fixpoint mic_words (n : nat) (lr : Z * Z) (data : list Z) : (Z * Z) * list Z :=
  match n with
  | O => (lr, data)
  | S n => mic_words n (mic_word lr (get_le32 data)) (drop 4 data)
  end.

(** The loop over the buffers: [data] are the bytes of [wbuf] from the pointer on, and the
    result what the last block is made of; [inl] is OL_RX_DEFRAG_ERR. *)
Fixpoint mic_loop (fuel : nat) s (lr : Z * Z) (wbuf : Z) (data : list Z) (space data_len : Z)
    : option (unit + (Z * Z) * list Z * Z) :=
  match fuel with
  | O => None
  | S n =>
      let space := if data_len <? space then data_len else space in
      let words := space / 4 in
      let '(lr, data) := mic_words (Z.to_nat words) lr data in
      let space := space - 4 * words in
      let data_len := data_len - 4 * words in
      if data_len <? 4 then Some (inr (lr, data, data_len))
      else match frag_next s wbuf with
           | None => Some (inl ())
           | Some wbuf =>
               d ← fr_data s !! wbuf;
               let len := Z.of_nat (length d) in
               if negb (space =? 0) then
                 if len <? 4 - space then Some (inl ())
                 else
                   let w := get_le32 (zread data 0 space ++ zread d 0 (4 - space)) in
                   mic_loop n s (mic_word lr w) wbuf (drop (Z.to_nat (4 - space)) d) (len - (4 - space)) (data_len - 4)
               else mic_loop n s lr wbuf d len data_len
           end
  end.

Definition mic_last (data : list Z) (data_len : Z) : Z :=
  if data_len =? 0 then get_le32_split 0x5a 0 0 0
  else if data_len =? 1 then get_le32_split (zget data 0) 0x5a 0 0
  else if data_len =? 2 then get_le32_split (zget data 0) (zget data 1) 0x5a 0
  else get_le32_split (zget data 0) (zget data 1) (zget data 2) 0x5a.

Definition ol_rx_defrag_mic (fuel : nat) s (key : list Z) (wbuf off data_len : Z) : option (unit + list Z) :=
  d ← fr_data s !! wbuf;
  if (Z.of_nat (length d) <? off) || (Z.of_nat (length d) <? sizeof_ieee80211_frame) then None
  else
    hdr ← ol_rx_defrag_michdr d;
    let lr := (get_le32 key, get_le32 (drop 4 key)) in
    let '(lr, _) := mic_words 4 lr hdr in
    r ← mic_loop fuel s lr wbuf (drop (Z.to_nat off) d) (u32 (Z.of_nat (length d) - off)) data_len;
    match r with
    | inl () => Some (inl ())
    | inr (lr, data, data_len) =>
        if Z.of_nat (length data) <? data_len then None
        else
          let '(l, r) := michael_block (mic_word lr (mic_last data data_len)) in
          Some (inr (put_le32 l ++ put_le32 r))
    end.

(** The new bytes of the buffer, and whether the frame is accepted. *)
Definition ol_rx_frag_tkip_demic (fuel : nat) s (key : list Z) (msdu hdrlen : Z) : option (fragState * bool) :=
  d ← fr_data s !! msdu;
  let pktlen := Z.of_nat (length d) in
  mic ← ol_rx_defrag_mic fuel s key msdu hdrlen (u16 (pktlen - (hdrlen + ic_miclen f_tkip)));
  match mic with
  | inl () => Some (s, false)
  | inr mic =>
      if pktlen <? ic_miclen f_tkip then None
      else
        let mic0 := zread d (pktlen - ic_miclen f_tkip) (ic_miclen f_tkip) in
        if qdf_mem_cmp mic mic0 =? 0 then Some (s, false)
        else Some (set_data s msdu (qdf_nbuf_trim_tail d (ic_miclen f_tkip)), true)
  end.

(** ** Joining the fragments *)

(** [ol_rx_defrag_concat]; the source buffer is released with success. *)
Definition ol_rx_defrag_concat s (dst src : Z) : option (fragState * bool) :=
  d ← fr_data s !! dst;
  e ← fr_data s !! src;
  match qdf_nbuf_cat d e with
  | Some c => Some ((set_data s dst c) <| fr_data ::= delete src |>, true)
  | None => Some (s, false)
  end.

(** [ol_rx_frames_free] on this state. *)
Definition frames_free (fuel : nat) s (frames : option Z) : option fragState :=
  r ← ol_rx_frames_free fuel (fr_rx s) frames; Some (s <| fr_rx := r |>).

(** The loop; with [false] everything is freed. *)
Fixpoint recombine_loop (fuel : nat) s (rx_nbuf : Z) (msdu : option Z) (hdrsize : Z) : option (fragState * bool) :=
  match msdu with
  | None => Some (s, true)
  | Some m =>
      match fuel with
      | O => None
      | S n =>
          let s := frag_emit s (DescFree m) in
          let tmp := frag_next s m in
          let s := frag_set_next s m None in
          d ← fr_data s !! m;
          let s := set_data s m (qdf_nbuf_pull_head d hdrsize) in
          '(s, ok) ← ol_rx_defrag_concat s rx_nbuf m;
          if ok : bool then recombine_loop n s rx_nbuf tmp hdrsize
          else
            s ← frames_free fuel s tmp;
            Some (frag_emit (frag_emit s (FrameFree rx_nbuf)) (NbufFree m), false)
      end
  end.

(** The more-fragments flag and the fragment number are cleared; i_seq is a
    little-endian halfword. *)
Definition clear_frag (d : list Z) : list Z :=
  let d := zset d 1 (Z.land (zget d 1) (255 - IEEE80211_FC1_MORE_FRAG)) in
  zset d 22 (Z.land (zget d 22) (255 - IEEE80211_SEQ_FRAG_MASK)).

Definition ol_rx_defrag_decap_recombine (fuel : nat) s (frag_list hdrsize : Z) : option (fragState * option Z) :=
  let msdu := frag_next s frag_list in
  let s := frag_set_next s frag_list None in
  '(s, ok) ← recombine_loop fuel s frag_list msdu hdrsize;
  if negb ok then Some (s, None)
  else
    wh ← ol_rx_frag_get_mac_hdr s frag_list;
    Some (set_data s frag_list (clear_frag wh), Some frag_list).

Definition sizeof_ieee80211_qoscntl : Z := 2.
Definition sizeof_ieee80211_htc : Z := 4.

Definition ol_rx_defrag_qos_decap (d : list Z) (hdrlen : Z) : option (list Z) :=
  if DEFRAG_IEEE80211_QOS_HAS_SEQ d then
    let qoslen := sizeof_ieee80211_qoscntl in
    let qoslen := if negb (Z.land (i_fc d 1) IEEE80211_FC1_ORDER =? 0) then qoslen + sizeof_ieee80211_htc else qoslen in
    let hdrlen := u16 (hdrlen - qoslen) in
    d ← move_hdr d qoslen hdrlen;
    let d := qdf_nbuf_pull_head d qoslen in
    Some (zset d 0 (Z.land (zget d 0) (255 - IEEE80211_FC0_SUBTYPE_QOS)))
  else Some d.

Definition ol_rx_defrag_nwifi_to_8023 (msdu : list Z) : option (list Z) :=
  let hdrsize := sizeof_ieee80211_frame in
  if Z.of_nat (length msdu) <? hdrsize + sizeof_llc_snap_hdr then None
  else
    let wh := zread msdu 0 hdrsize in
    let llchdr := zread msdu hdrsize sizeof_llc_snap_hdr in
    let eth := qdf_nbuf_pull_head msdu (hdrsize + sizeof_llc_snap_hdr - sizeof_ethernet_hdr) in
    let dir := Z.land (i_fc wh 1) IEEE80211_FC1_DIR_MASK in
    let addrs dest src := zwrite (zwrite eth eth_dest_addr dest) eth_src_addr src in
    let eth :=
      if dir =? IEEE80211_FC1_DIR_NODS then addrs (i_addr1 wh) (i_addr2 wh)
      else if dir =? IEEE80211_FC1_DIR_TODS then addrs (i_addr3 wh) (i_addr2 wh)
      else if dir =? IEEE80211_FC1_DIR_FROMDS then addrs (i_addr1 wh) (i_addr3 wh)
      else eth in
    Some (zwrite eth eth_ethertype (zread llchdr llc_ethertype 2)).

(** ** [ol_rx_defrag] *)

(** The replay check of each fragment, alone, and the removal of its checksum. *)
Fixpoint defrag_pn_loop (fuel : nat) s (tid frag_list : Z) (prev cur : option Z) : option (fragState * bool) :=
  match cur with
  | None => Some (s, true)
  | Some c =>
      match fuel with
      | O => None
      | S n =>
          let tmp_next := frag_next s c in
          let s := frag_set_next s c None in
          '(r, l) ← ol_rx_pn_check_base desc sec opmode fuel (fr_rx s) tid c;
          let s := s <| fr_rx := r |> in
          match l with
          | None =>
              s ← match prev with
                  | Some p => frames_free fuel (frag_set_next s p None) (Some frag_list)
                  | None => Some s
                  end;
              s ← frames_free fuel s tmp_next;
              Some (s, false)
          | Some _ =>
              d ← fr_data s !! c;
              let s := set_data s c (qdf_nbuf_trim_tail d DEFRAG_IEEE80211_FCS_LEN) in
              defrag_pn_loop n (frag_set_next s c tmp_next) tid frag_list (Some c) tmp_next
          end
      end
  end.

(** What follows the removal of the cipher fields. *)
Definition defrag_finish (fuel : nat) s (tid frag_list hdr_space : Z) (tkip_demic : option (list Z)) : option fragState :=
  '(s, msdu) ← ol_rx_defrag_decap_recombine fuel s frag_list hdr_space;
  match msdu with
  | None => Some s
  | Some msdu =>
      '(s, ok) ← match tkip_demic with
                 | Some key => ol_rx_frag_tkip_demic fuel s key msdu hdr_space
                 | None => Some (s, true)
                 end;
      if negb ok then Some (frag_emit (frag_emit s (FrameFree msdu)) (DefragErr tid msdu))
      else
        wh ← ol_rx_frag_get_mac_hdr s msdu;
        d ← (if DEFRAG_IEEE80211_QOS_HAS_SEQ wh then ol_rx_defrag_qos_decap wh hdr_space else Some wh);
        d ← (if frame_8023 then ol_rx_defrag_nwifi_to_8023 d else Some d);
        Some (frag_emit (set_data s msdu d) (FwdCheck tid (Some msdu)))
  end.

Definition ol_rx_defrag (fuel : nat) s (tid : Z) (frag_list : Z) : option fragState :=
  if safemode then
    Some (frag_emit s (if full_reorder_offload then InOrderDeliver tid (Some frag_list) else Deliver tid (Some frag_list)))
  else
    '(s, ok) ← defrag_pn_loop fuel s tid frag_list None (Some frag_list);
    if negb ok then Some s
    else
      wh ← ol_rx_frag_get_mac_hdr s frag_list;
      let hdr_space := ol_rx_frag_hdrsize wh in
      let mcast := is_mcast (desc frag_list) in
      let sec_type := if mcast then sec_mcast sec else sec_ucast sec in
      '(s, ok) ← match decap_of sec_type hdr_space with
                 | Some f => decap_loop fuel f s (Some frag_list)
                 | None => Some (s, true)
                 end;
      if negb ok then frames_free fuel s (Some frag_list)
      else
        let tkip_demic := if decide (sec_type = htt_sec_type_tkip) then Some (michael_key (negb mcast)) else None in
        defrag_finish fuel s tid frag_list hdr_space tkip_demic.

(** ** The handler *)

Definition set_frag_elem s (tid idx : Z) (e : ol_rx_reorder_array_elem_t) : fragState :=
  s <| fr_rx ::= λ r, set_elem r tid idx e |>.

Definition DEFRAG_IEEE80211_ADDR_EQ (a b : list Z) : bool := qdf_mem_cmp a b =? 0.

(** A list of another frame is dropped. *)
Definition drop_other (fuel : nat) s (tid seq : Z) (mac_hdr : list Z) (e : ol_rx_reorder_array_elem_t)
    : option (fragState * ol_rx_reorder_array_elem_t) :=
  match head e with
  | None => Some (s, e)
  | Some hd =>
      fmac_hdr ← ol_rx_frag_get_mac_hdr s hd;
      if negb (seq_of mac_hdr =? seq_of fmac_hdr) ||
         negb (DEFRAG_IEEE80211_ADDR_EQ (i_addr1 mac_hdr) (i_addr1 fmac_hdr)) ||
         negb (DEFRAG_IEEE80211_ADDR_EQ (i_addr2 mac_hdr) (i_addr2 fmac_hdr)) then
        s ← frames_free fuel s (Some hd);
        Some (set_frag_elem s tid seq no_elem, no_elem)
      else Some (s, e)
  end.

(** [now_ms] is the time at the call. *)
Definition ol_rx_reorder_store_frag (fuel : nat) (now_ms : Z) s (tid seq_num : Z) (frag : Z) : option fragState :=
  let seq := Z.land seq_num (mask_of (fr_rx s) tid) in
  e ← get_elem (fr_rx s) tid seq;
  mac_hdr ← ol_rx_frag_get_mac_hdr s frag;
  if negb (more_frag mac_hdr) && (frag_no mac_hdr =? 0) && bool_decide (head e = None) then
    '(s, hd, tl, _) ← ol_rx_fraglist_insert fuel s (head e) (tail e) frag;
    let s := set_frag_elem s tid seq (mk_elem hd tl) in
    let s := frag_set_next s frag None in
    hd ← hd;
    s ← ol_rx_defrag fuel s tid hd;
    Some (set_frag_elem s tid seq no_elem)
  else
    '(s, e) ← drop_other fuel s tid seq mac_hdr e;
    '(s, hd, tl, all_frag_present) ← ol_rx_fraglist_insert fuel s (head e) (tail e) frag;
    let s := set_frag_elem s tid seq (mk_elem hd tl) in
    s ← (if defrag_timeout_check
         then q ← ol_rx_defrag_waitlist_remove (fr_wait s) (me, tid); Some (s <| fr_wait := q |>)
         else Some s);
    if all_frag_present : bool then
      hd ← hd;
      s ← ol_rx_defrag fuel s tid hd;
      let s := set_frag_elem s tid seq no_elem in
      Some (s <| fr_rx ::= λ r, upd_reorder r tid (λ ro, ro <| defrag_timeout_ms := 0 |>)
                               <| tids_last_seq ::= λ l, zset l tid seq_num |> |>)
    else if defrag_timeout_check then
      let s := s <| fr_rx ::= λ r, upd_reorder r tid (λ ro, ro <| defrag_timeout_ms := u32 (now_ms + timeout_ms) |>) |> in
      q ← ol_rx_defrag_waitlist_add (fr_wait s) (me, tid);
      Some (s <| fr_wait := q |>)
    else Some s.

(** What HTT reads from an indication of a fragment: the sequence number to
    flush from, if any, and the buffer it carries with the sequence number of its descriptor. *)
Record frag_ind := mk_frag_ind { ind_flush : option Z; ind_head_msdu : Z; ind_seq_num : Z }.

(** [found] tells whether the peer is found.  Statistics, packet logs and the
    replenishment of the HTT buffers are left out. *)
Definition ol_rx_frag_indication_handler (fuel : nat) (found : bool) (now_ms : Z) s (tid : Z) (msg : frag_ind)
    : option fragState :=
  s ← match ind_flush msg with
      | Some seq_num_start =>
          if negb full_reorder_offload && found
          then r ← ol_rx_reorder_flush_frag fuel (fr_rx s) tid seq_num_start; Some (s <| fr_rx := r |>)
          else Some s
      | None => Some s
      end;
  if found then ol_rx_reorder_store_frag fuel now_ms s tid (ind_seq_num msg) (ind_head_msdu msg)
  else Some (frag_emit s (FrameFree (ind_head_msdu msg))).

(** What [ol_rx_defrag_waitlist_flush] does to the wait list and this peer;
    [others] are the times of the elements of other peers. *)
Fixpoint flush_frags (fuel : nat) s (ks : list wl_key) : option fragState :=
  match ks with
  | [] => Some s
  | k :: ks =>
      s ← (if fst k =? me
           then r ← ol_rx_reorder_flush_frag fuel (fr_rx s) (snd k) 0; Some (s <| fr_rx := r |>)
           else Some s);
      flush_frags fuel s ks
  end.
Definition waitlist_flush (fuel : nat) (others : wl_key → Z) (now_ms : Z) s : option fragState :=
  let deadline k := if fst k =? me then defrag_timeout_ms (reorder (fr_rx s) (snd k)) else others k in
  '(q, ks) ← ol_rx_defrag_waitlist_flush fuel deadline now_ms (fr_wait s);
  flush_frags fuel (s <| fr_wait := q |>) ks.
End defrag.
