(* ===== verification/DefragStore.v ===== *)
(** The fragments of a frame in their slot: how [ol_rx_fraglist_insert] and
    [ol_rx_reorder_store_frag] of RxDefrag.v change a slot, against lists. *)
From S2P Require Import Prelude Chains RxReorder RxPn DefragList RxDefrag.

(** ** Buffers with a header *)

(** The bytes of a buffer. *)
Definition bytes (s : fragState) (m : Z) : list Z := default [] (fr_data s !! m).
Definition framed (s : fragState) (m : Z) : Prop := ol_rx_frag_get_mac_hdr s m = Some (bytes s m).
Definition no_of (s : fragState) (m : Z) : Z := frag_no (bytes s m).
Definition links (s : fragState) : Z → option Z := nb_next (fr_rx s).

(** Two buffers carry fragments of the same frame. *)
Definition frame_id (d : list Z) : Z * list Z * list Z := (seq_of d, i_addr1 d, i_addr2 d).
Definition one_frame (s : fragState) (l : list Z) : Prop := ∀ x y, x ∈ l → y ∈ l → frame_id (bytes s x) = frame_id (bytes s y).

(** ** Insertion into a list

    The list is that of the links; the pointer to the tail need not be its last
    element. *)
Section spec.
Context (no : Z → Z) (more : Z → bool).
Implicit Types l : list Z.

Fixpoint upto (t : Z) l : list Z :=
  match l with
  | [] => []
  | x :: l' => if decide (x = t) then [x] else x :: upto t l'
  end.

(** Behind the first element whose number is not smaller. *)
Fixpoint place (f : Z) l : list Z :=
  match l with
  | [] => []
  | x :: l' => if no x <? no f then x :: place f l' else if no x =? no f then l else x :: f :: l'
  end.

Definition spec_insert (l : list Z) (t f : Z) : list Z * Z :=
  if no t <? no f then (upto t l ++ [f], f) else (place f l, t).

(** The numbers behind the head are 1, 2, ... *)
Definition spec_complete (l : list Z) (t : Z) : bool :=
  negb (more t) && bool_decide (no <$> drop 1 l = seqZ 1 (Z.of_nat (length (drop 1 l)))).
End spec.

(** ** Lemmas *)
Section fraglist.
Implicit Types (s : fragState) (l : list Z).

Lemma frag_no_range d : 0 <= frag_no d < 16.
Proof.
  unfold frag_no, IEEE80211_SEQ_FRAG_MASK. change 0xf with (Z.ones 4). rewrite Z.land_ones by lia. apply Z.mod_pos_bound. lia.
Qed.

Lemma links_set s m v x : links (frag_set_next s m v) x = nx_upd (links s) m v x.
Proof. done. Qed.
Lemma bytes_set_next s m v x : bytes (frag_set_next s m v) x = bytes s x.
Proof. done. Qed.

Lemma framed_some s m d : ol_rx_frag_get_mac_hdr s m = Some d → bytes s m = d ∧ framed s m.
Proof.
  intros E. assert (bytes s m = d) as Hd; [|split; [done|unfold framed; by rewrite Hd]].
  unfold ol_rx_frag_get_mac_hdr in E. unfold bytes. destruct (fr_data s !! m); cbn in *; [|done]. by case_match; simplify_eq.
Qed.

Lemma find_place_spec fuel s f cur l :
  chain (links s) cur l → Forall (framed s) l → Exists (λ x, f <= no_of s x) l → (length l <= fuel)%nat →
  ∃ l1 c l2, l = l1 ++ c :: l2 ∧ Forall (λ x, no_of s x < f) l1 ∧ f <= no_of s c ∧
    find_place fuel s f cur = Some (c, hd_error l2, no_of s c).
Proof.
  revert fuel cur. induction l as [|x l IH]; intros fuel cur Hc Hfr He Hf; [by apply Exists_nil in He|].
  destruct Hc as [-> Hc]. apply Forall_cons in Hfr as [Hx Hfr]. destruct fuel as [|fuel]; [cbn in Hf; lia|].
  cbn [find_place mbind option_bind]. rewrite Hx. cbn [mbind option_bind]. fold (no_of s x).
  assert (frag_next s x = hd_error l) as En.
  { change (frag_next s x) with (links s x). destruct l; unfold chain in Hc; cbn in Hc; [done|apply Hc]. }
  destruct (Z.ltb_spec (no_of s x) f) as [Hlt|Hge].
  - apply Exists_cons in He as [He|He]; [lia|]. destruct (IH fuel (frag_next s x) Hc Hfr He ltac:(cbn in Hf; lia)) as (l1 & c & l2 & -> & H1 & H2 & H3).
    exists (x :: l1), c, l2. split_and!; [done|by constructor|done|done].
  - exists [], x, l. rewrite En. split_and!; [done|constructor|done|done].
Qed.

Lemma all_present_spec fuel s next l count :
  chain (links s) next l → l ≠ [] → Forall (framed s) l → 0 <= count <= 15 → (length l <= fuel)%nat →
  all_present fuel s next count = Some (bool_decide (no_of s <$> l = seqZ (count + 1) (Z.of_nat (length l)))).
Proof.
  revert next fuel count. induction l as [|x l IH]; intros next fuel count Hc Hne Hfr Hct Hf; [done|].
  destruct Hc as [-> Hc]. apply Forall_cons in Hfr as [Hx Hfr]. destruct fuel as [|fuel]; [cbn in Hf; lia|].
  cbn [all_present mbind option_bind]. rewrite Hx. cbn [mbind option_bind]. fold (no_of s x).
  rewrite u8_small by (red; lia). rewrite (seqZ_cons (count + 1)) by (cbn; lia).
  replace (Z.pred (Z.of_nat (length (x :: l)))) with (Z.of_nat (length l)) by (cbn; lia).
  destruct (Z.eqb_spec (no_of s x) (count + 1)) as [Hxe|Hxe]; cbn [negb].
  2: { rewrite bool_decide_eq_false_2; [done|]. cbn. congruence. }
  pose proof (frag_no_range (bytes s x)) as Hr. fold (no_of s x) in Hr. change (frag_next s x) with (links s x).
  destruct l as [|y l].
  - unfold chain in Hc; cbn in Hc. rewrite Hc. cbn. rewrite bool_decide_eq_true_2; [done|]. by rewrite Hxe.
  - pose proof Hc as Hc'. destruct Hc' as [En _]. rewrite En in Hc |- *.
    rewrite (IH (Some y) fuel (count + 1) Hc ltac:(done) Hfr ltac:(lia) ltac:(cbn in *; lia)). f_equal. apply bool_decide_ext.
    cbn [fmap list_fmap]. rewrite Hxe. split; [by intros ->|by intros [= ]].
Qed.

(** A buffer linked behind [c], with the chain [l3] behind it. *)
Lemma chain_insert (nx : Z → option Z) p l1 c l2 f q l3 :
  chain nx p (l1 ++ c :: l2) → f ∉ l1 ++ c :: l2 → chain nx q l3 → l3 ⊆ l2 →
  chain (nx_upd (nx_upd nx c (Some f)) f q) p (l1 ++ c :: f :: l3).
Proof.
  intros Hc Hf Hq Hsub. pose proof (chain_NoDup _ _ _ Hc) as Hnd. apply NoDup_app in Hnd as (_ & Hx & Hnd).
  apply NoDup_cons in Hnd as [Hcl _]. apply lseg_app in Hc as (r & H1 & -> & _).
  assert (f ≠ c ∧ f ∉ l1 ∧ f ∉ l2) as (Hfc & Hf1 & Hf2) by set_solver.
  assert (c ∉ l1) as Hc1 by (intros Hi; apply (Hx c Hi); by left).
  apply lseg_app. exists (Some c). split; [|split; [done|split]].
  - apply lseg_upd_fresh; [done|]. by apply lseg_upd_fresh.
  - by rewrite nx_upd_ne, nx_upd_eq by done.
  - rewrite nx_upd_eq. apply lseg_upd_fresh; [set_solver|]. apply lseg_upd_fresh; [set_solver|exact Hq].
Qed.

Lemma upto_split t l1 l2 : t ∉ l1 → upto t (l1 ++ t :: l2) = l1 ++ [t].
Proof.
  induction l1 as [|x l1 IH]; intros Ht; cbn; [by rewrite decide_True|].
  rewrite decide_False by set_solver. f_equal. apply IH. set_solver.
Qed.

Lemma place_split (no : Z → Z) f l1 c l2 :
  Forall (λ x, no x < no f) l1 → no f <= no c →
  place no f (l1 ++ c :: l2) = l1 ++ if no f =? no c then c :: l2 else c :: f :: l2.
Proof.
  induction l1 as [|x l1 IH]; intros Hl Hc; cbn.
  - rewrite (proj2 (Z.ltb_ge _ _) Hc), (Z.eqb_sym (no c)). done.
  - apply Forall_cons in Hl as [Hx Hl]. rewrite (proj2 (Z.ltb_lt _ _) Hx). f_equal. by apply IH.
Qed.

(** The state after the insertion: the links of the list and of [f]. *)
Definition relinked s s' (own : list Z) (evs : list rx_event) : Prop :=
  s' = s <| fr_rx ::= λ r, r <| nb_next := links s' |> <| rx_events ::= λ ev, ev ++ evs |> |> ∧
  (∀ x, x ∉ own → links s' x = links s x).

Lemma relinked_bytes s s' own evs x : relinked s s' own evs → bytes s' x = bytes s x.
Proof. intros [-> _]. done. Qed.

Lemma no_events s s' own :
  s' = s <| fr_rx ::= λ r, r <| nb_next := links s' |> |> → (∀ x, x ∉ own → links s' x = links s x) → relinked s s' own [].
Proof. intros E Hl. split; [|done]. rewrite E at 1. destruct s as [[] ? ?]. unfold set_field. cbn. by rewrite app_nil_r. Qed.

(** The part of the function behind the insertion. *)
Definition judged (fuel : nat) s (hd tl : Z) : option bool :=
  lmac_hdr ← ol_rx_frag_get_mac_hdr s tl;
  if more_frag lmac_hdr then Some false else all_present fuel s (frag_next s hd) 0.

Lemma judged_bind {B} fuel s hd tl (K : bool → option B) :
  (lmac_hdr ← ol_rx_frag_get_mac_hdr s tl;
   all ← (if more_frag lmac_hdr then Some false else all_present fuel s (frag_next s hd) 0); K all) =
  (all ← judged fuel s hd tl; K all).
Proof. unfold judged. by destruct (ol_rx_frag_get_mac_hdr s tl). Qed.

Lemma judged_spec fuel s h l t :
  chain (links s) (Some h) (h :: l) → l ≠ [] → Forall (framed s) (t :: l) → (length l <= fuel)%nat →
  judged fuel s h t = Some (spec_complete (no_of s) (λ m, more_frag (bytes s m)) (h :: l) t).
Proof.
  intros [_ Hc] Hne [Ht Hfr]%Forall_cons Hf. unfold judged, spec_complete. rewrite Ht. cbn [mbind option_bind drop].
  destruct (more_frag (bytes s t)); [done|]. cbn [negb andb]. by apply all_present_spec.
Qed.

Lemma insert_first fuel s tl f :
  framed s f → ol_rx_fraglist_insert fuel s None tl f = Some (frag_set_next s f None, Some f, Some f, false).
Proof. intros Hf. unfold ol_rx_fraglist_insert. by rewrite Hf. Qed.

(** ... after an insertion. *)
Lemma judged_insert fuel s s' h l1 c f l2 l3 t :
  chain (links s') (Some h) (l1 ++ c :: f :: l3) → fr_data s' = fr_data s → Forall (framed s) (f :: l1 ++ c :: l2) →
  t ∈ f :: l1 ++ c :: l2 → l3 ⊆ l2 → (length l3 <= length l2)%nat → (length (l1 ++ c :: l2) < fuel)%nat →
  judged fuel s' h t = Some (spec_complete (no_of s) (λ m, more_frag (bytes s m)) (l1 ++ c :: f :: l3) t).
Proof.
  intros Hc Hd Hfr Ht Hsub Hlen Hf.
  assert (∀ x, framed s x → framed s' x) as Hfs.
  { intros x. unfold framed, bytes, ol_rx_frag_get_mac_hdr. by rewrite Hd. }
  assert (∃ r, l1 ++ c :: f :: l3 = h :: r ∧ r ≠ [] ∧ r ⊆ f :: l1 ++ c :: l2 ∧ (length r < fuel)%nat) as (r & Er & Hr & Hrs & Hrl).
  { rewrite length_app in Hf. destruct l1 as [|y l1].
    - destruct Hc as [[= ->] _]. eexists. split; [reflexivity|]. split; [done|]. split; [set_solver|cbn in *; lia].
    - destruct Hc as [[= ->] _]. eexists. split; [reflexivity|]. split; [by destruct l1|]. split; [set_solver|rewrite !length_app; cbn in *; lia]. }
  assert (Forall (framed s') (t :: r)) as Hfr'.
  { rewrite Forall_forall in Hfr |- *. intros y [->|Hy]%elem_of_cons; apply Hfs, Hfr; [done|by apply Hrs]. }
  rewrite Er in *. rewrite (judged_spec fuel s' h r t Hc Hr Hfr') by lia.
  unfold no_of, bytes. by rewrite Hd.
Qed.

(** The list of fragments refines a Rocq list with a tail.  A fragment with
    a number above the tail's is put behind the tail, and whatever was linked behind
    the tail is lost; any other is put behind the first element with a number
    not smaller, the tail staying where it is, or freed when that number is its
    own.  The frame is taken for complete when the tail is a last fragment and
    the numbers behind the head are 1, 2, and so on; the loops end within the
    length of the list. *)
Lemma fraglist_spec fuel s l t f :
  chain (links s) (hd_error l) l → t ∈ l → f ∉ l → Forall (framed s) (f :: l) → (length l < fuel)%nat →
  let '(l', t') := spec_insert (no_of s) l t f in
  ∃ s', ol_rx_fraglist_insert fuel s (hd_error l) (Some t) f =
      Some (s', hd_error l', Some t',
            bool_decide (f ∈ l') && spec_complete (no_of s) (λ m, more_frag (bytes s m)) l' t') ∧
    chain (links s') (hd_error l') l' ∧ t' ∈ l' ∧ l' ⊆ f :: l ∧
    relinked s s' (f :: l) (if bool_decide (f ∈ l') then [] else [FrameFree f]).
Proof.
  intros Hc Ht Hf Hall Hfu. pose proof Hall as [Hff Hfr]%Forall_cons.
  assert (framed s t) as Hft by (rewrite Forall_forall in Hfr; by apply Hfr).
  destruct (hd_error l) as [h|] eqn:Eh; [|destruct l; [by apply not_elem_of_nil in Ht|done]].
  unfold spec_insert, ol_rx_fraglist_insert. rewrite Hff. cbn [mbind option_bind]. rewrite Hft. cbn [mbind option_bind]. fold (no_of s t) (no_of s f).
  assert (∀ l1 c f' l3, l = l1 ++ c :: l3 → hd_error (l1 ++ c :: f') = Some h) as Ehd.
  { intros [|y l1] c f' l3 ->; by cbn in *. }
  destruct (Z.ltb_spec (no_of s t) (no_of s f)) as [Hlt|Hge]; cbn [mbind option_bind].
  - apply list_elem_of_split in Ht as (l1 & l2 & El). pose proof (chain_NoDup _ _ _ Hc) as Hnd. rewrite El in Hnd.
    apply NoDup_app in Hnd as (_ & Hx & _). rewrite El, upto_split by (intros Hi; apply (Hx t Hi); by left). rewrite <- El.
    rewrite <- app_assoc. cbn [app]. rewrite (Ehd _ _ _ _ El). set (s' := frag_set_next _ _ _).
    assert (chain (links s') (Some h) (l1 ++ [t; f])) as Hc'.
    { rewrite El in Hc, Hf. apply (chain_insert _ _ l1 t l2 f None []); [done|done|done|set_solver]. }
    rewrite El in Hall, Hfu. pose proof (judged_insert fuel s s' h l1 t f l2 [] f Hc' eq_refl Hall ltac:(by left) ltac:(set_solver) ltac:(cbn; lia) Hfu) as HJ.
    assert (f ∈ l1 ++ [t; f]) as Hin by set_solver. rewrite (bool_decide_eq_true_2 _ Hin). exists s'.
    rewrite (judged_bind fuel s' h f (λ all, Some (s', Some h, Some f, all))), HJ.
    split_and!; [done|done|set_solver|set_solver|]. apply no_events; [done|].
    intros x Hx'. unfold s'. rewrite links_set, nx_upd_ne, links_set, nx_upd_ne; [done| |]; intros ->; apply Hx'; set_solver.
  - destruct (find_place_spec fuel s (no_of s f) (Some h) l Hc Hfr ltac:(apply Exists_exists; by exists t) ltac:(lia))
      as (l1 & c & l2 & El & H1 & H2 & ->). cbn [mbind option_bind]. rewrite El, place_split by done. rewrite <- El.
    destruct (Z.eqb_spec (no_of s f) (no_of s c)) as [He|Hn]; cbn [mbind option_bind].
    + rewrite <- El. rewrite (bool_decide_eq_false_2 _ Hf), Eh. eexists. split; [reflexivity|]. split; [exact Hc|]. split; [exact Ht|]. split; [set_solver|]. by split.
    + rewrite (Ehd _ _ _ _ El). set (s' := frag_set_next _ _ _).
      assert (chain (links s') (Some h) (l1 ++ c :: f :: l2)) as Hc'.
      { rewrite El in Hc, Hf. apply (chain_insert _ _ l1 c l2 f (hd_error l2) l2); [done|done| |done].
        apply lseg_app in Hc as (r & _ & _ & Hc2). destruct l2; unfold chain in *; cbn in *; [done|]. by split; [|apply Hc2]. }
      rewrite El in Hall, Hfu, Ht. pose proof (judged_insert fuel s s' h l1 c f l2 l2 t Hc' eq_refl Hall ltac:(by right) ltac:(done) ltac:(lia) Hfu) as HJ.
      assert (f ∈ l1 ++ c :: f :: l2) as Hin by set_solver. rewrite (bool_decide_eq_true_2 _ Hin). exists s'.
      rewrite (judged_bind fuel s' h t (λ all, Some (s', Some h, Some t, all))), HJ.
      split_and!; [done|done|set_solver|set_solver|]. apply no_events; [done|].
      intros x Hx'. unfold s'. rewrite links_set, nx_upd_ne, links_set, nx_upd_ne; [done| |]; intros ->; apply Hx'; set_solver.
Qed.
End fraglist.

(** ** Storing a fragment *)
Section slots.
Implicit Types (s : fragState) (l : list Z).

(** Everything but the slot, the links of [own] and the events is as before. *)
Record only_slot (tid idx : Z) (own : list Z) (evs : list rx_event) s s' : Prop := {
  os_links : ∀ x, x ∉ own → links s' x = links s x;
  os_data : fr_data s' = fr_data s;
  os_wait : fr_wait s' = fr_wait s;
  os_events : rx_events (fr_rx s') = rx_events (fr_rx s) ++ evs;
  os_pn : tids_last_pn (fr_rx s') = tids_last_pn (fr_rx s) ∧
          tids_last_pn_valid (fr_rx s') = tids_last_pn_valid (fr_rx s) ∧
          fw_pn_check (fr_rx s') = fw_pn_check (fr_rx s);
  os_seq : tids_last_seq (fr_rx s') = tids_last_seq (fr_rx s);
  os_len : length (tids_rx_reorder (fr_rx s')) = length (tids_rx_reorder (fr_rx s));
  os_mask : mask_of (fr_rx s') tid = mask_of (fr_rx s) tid;
  os_slots : ∀ t i, 0 <= t → 0 <= i → (t ≠ tid ∨ i ≠ idx) → get_elem (fr_rx s') t i = get_elem (fr_rx s) t i;
}.

Lemma only_slot_trans tid idx own own' e1 e2 s1 s2 s3 :
  only_slot tid idx own e1 s1 s2 → only_slot tid idx own' e2 s2 s3 → own' ⊆ own → only_slot tid idx own (e1 ++ e2) s1 s3.
Proof.
  intros [] [] Hsub. split; try congruence.
  - intros x Hx. rewrite os_links1, os_links0; set_solver.
  - by rewrite os_events1, os_events0, app_assoc.
  - destruct os_pn0 as (?&?&?), os_pn1 as (?&?&?). split_and!; congruence.
  - intros t i Ht Hi Hne. by rewrite os_slots1, os_slots0.
Qed.

Lemma relinked_only_slot tid idx own evs s s' : relinked s s' own evs → only_slot tid idx own evs s s'.
Proof. intros [E Hl]. split; try done; by rewrite E. Qed.

Lemma set_slot s tid idx e0 e :
  0 <= tid < Z.of_nat (length (tids_rx_reorder (fr_rx s))) → get_elem (fr_rx s) tid idx = Some e0 →
  get_elem (fr_rx (set_frag_elem s tid idx e)) tid idx = Some e ∧ only_slot tid idx [] [] s (set_frag_elem s tid idx e).
Proof.
  intros Ht He. assert (reorder (fr_rx (set_frag_elem s tid idx e)) tid =
    match array (reorder (fr_rx s) tid) with
    | ArrBase => reorder (fr_rx s) tid <| base := e |>
    | ArrAlloc a => reorder (fr_rx s) tid <| array := ArrAlloc (zset a idx e) |>
    | ArrNull => reorder (fr_rx s) tid
    end) as Er by (apply upd_reorder_eq; done).
  unfold get_elem in He |- *. rewrite Er. destruct (array (reorder (fr_rx s) tid)) as [|a|] eqn:Ea; [| |done].
  - case_match eqn:Hi0; [|done]. cbn [array base set_field reorder_eta]. rewrite Ea. cbn [base set_field]. try rewrite Hi0. split; [done|]. split; try done.
    + cbn. by rewrite app_nil_r.
    + apply length_zset.
    + unfold mask_of. by rewrite Er.
    + intros t i Ht0 Hi Hne. unfold get_elem. destruct (decide (t = tid)) as [->|Hn].
      * rewrite Er, Ea. cbn. rewrite Ea. assert (i ≠ idx) by naive_solver. apply Z.eqb_eq in Hi0. subst idx.
        by rewrite (proj2 (Z.eqb_neq i 0)) by lia.
      * change (reorder (fr_rx (set_frag_elem s tid idx e)) t) with (reorder (set_elem (fr_rx s) tid idx e) t).
        unfold set_elem. by rewrite upd_reorder_ne by lia.
  - cbn [array set_field]. rewrite length_zset. case_match; [|done]. rewrite zget_zset_eq by lia. split; [done|]. split; try done.
    + cbn. by rewrite app_nil_r.
    + apply length_zset.
    + unfold mask_of. by rewrite Er.
    + intros t i Ht0 Hi Hne. unfold get_elem. destruct (decide (t = tid)) as [->|Hn].
      * rewrite Er, Ea. cbn [array set_field]. rewrite length_zset. case_match; [|done]. f_equal. apply zget_zset_ne; naive_solver lia.
      * change (reorder (fr_rx (set_frag_elem s tid idx e)) t) with (reorder (set_elem (fr_rx s) tid idx e) t).
        unfold set_elem. by rewrite upd_reorder_ne by lia.
Qed.

Lemma frames_free_spec fuel s p l :
  chain (links s) p l → (length l <= fuel)%nat →
  frames_free fuel s p = Some (s <| fr_rx ::= λ r, r <| rx_events ::= λ ev, ev ++ (FrameFree <$> l) |> |>).
Proof. intros Hc Hf. unfold frames_free. by rewrite (frames_free_chain fuel (fr_rx s) p l Hc Hf). Qed.

Lemma emit_only_slot tid idx s evs :
  only_slot tid idx [] evs s (s <| fr_rx ::= λ r, r <| rx_events ::= λ ev, ev ++ evs |> |>).
Proof. by split. Qed.
End slots.

Lemma link_only_slot tid idx (s : fragState) m v : only_slot tid idx [m] [] s (frag_set_next s m v).
Proof.
  split; try done; [|cbn; by rewrite app_nil_r]. intros x Hx. apply nx_upd_ne. set_solver.
Qed.

Section store.
Context `{NbufOk}.
Implicit Types (s : fragState) (l : list Z).

(** The list of another frame is given up. *)
Definition kept_list s (f : Z) l : list Z :=
  match l with
  | [] => []
  | h :: _ => if decide (frame_id (bytes s f) = frame_id (bytes s h)) then l else []
  end.
(** The slot, list and tail, after the fragment [f]. *)
Definition slot_after s l (t f : Z) : list Z * Z :=
  match kept_list s f l with
  | [] => ([f], f)
  | l0 => spec_insert (no_of s) l0 t f
  end.
Definition frame_whole s l (f : Z) (after : list Z * Z) : bool :=
  match l, kept_list s f l with
  | [], _ => negb (more_frag (bytes s f)) && (no_of s f =? 0)
  | _, [] => false
  | _, _ => bool_decide (f ∈ after.1) && spec_complete (no_of s) (λ m, more_frag (bytes s m)) after.1 after.2
  end.
Definition store_events s l (f : Z) (l' : list Z) : list rx_event :=
  (if bool_decide (kept_list s f l = l) then [] else FrameFree <$> l) ++ (if bool_decide (f ∈ l') then [] else [FrameFree f]).
(** What follows a call of [ol_rx_defrag]; [single] is an unfragmented frame. *)
Definition emptied (tid idx seq_num : Z) (single : bool) s : fragState :=
  let s := set_frag_elem s tid idx no_elem in
  if single then s
  else s <| fr_rx ::= λ r, upd_reorder r tid (λ ro, ro <| defrag_timeout_ms := 0 |>)
                             <| tids_last_seq ::= λ l, zset l tid seq_num |> |>.

Lemma same_id s f h :
  negb (seq_of (bytes s f) =? seq_of (bytes s h)) ||
  negb (DEFRAG_IEEE80211_ADDR_EQ (i_addr1 (bytes s f)) (i_addr1 (bytes s h))) ||
  negb (DEFRAG_IEEE80211_ADDR_EQ (i_addr2 (bytes s f)) (i_addr2 (bytes s h))) =
  negb (bool_decide (frame_id (bytes s f) = frame_id (bytes s h))).
Proof.
  unfold DEFRAG_IEEE80211_ADDR_EQ, frame_id. rewrite <- !negb_andb. f_equal.
  apply eq_bool_prop_intro. rewrite bool_decide_spec, !andb_True, !Is_true_true, !Z.eqb_eq, !mem_cmp_eq. naive_solver congruence.
Qed.

Lemma drop_other_spec fuel s tid idx e l f :
  0 <= tid < Z.of_nat (length (tids_rx_reorder (fr_rx s))) → get_elem (fr_rx s) tid idx = Some e →
  head e = hd_error l → chain (links s) (hd_error l) l → Forall (framed s) l → (length l <= fuel)%nat →
  ∃ s1 e1, drop_other fuel s tid idx (bytes s f) e = Some (s1, e1) ∧
    head e1 = hd_error (kept_list s f l) ∧ (kept_list s f l ≠ [] → tail e1 = tail e) ∧ get_elem (fr_rx s1) tid idx = Some e1 ∧
    only_slot tid idx [] (if bool_decide (kept_list s f l = l) then [] else FrameFree <$> l) s s1.
Proof.
  intros Ht He Hh Hc Hfr Hf. unfold drop_other. rewrite Hh. destruct l as [|h l]; cbn [hd_error].
  - exists s, e. split_and!; [done|done|done|done|]. cbn [kept_list]. rewrite bool_decide_eq_true_2 by done.
    split; try done. by rewrite app_nil_r.
  - apply Forall_cons in Hfr as [Hfh _]. rewrite Hfh. cbn [mbind option_bind]. rewrite same_id. cbn [kept_list].
    destruct (decide _) as [Hs|Hn]; [rewrite bool_decide_eq_true_2 by done|rewrite bool_decide_eq_false_2 by done]; cbn [negb].
    + exists s, e. split_and!; [done..|]. rewrite bool_decide_eq_true_2 by done. split; try done. by rewrite app_nil_r.
    + rewrite (frames_free_spec fuel s (Some h) (h :: l) Hc Hf). cbn [mbind option_bind]. set (s1 := s <| fr_rx ::= _ |>).
      destruct (set_slot s1 tid idx e no_elem Ht He) as [Hg Ho]. eexists _, _. split; [reflexivity|]. rewrite bool_decide_eq_false_2 by done.
      split_and!; [done..|]. rewrite <- (app_nil_r (FrameFree <$> _)). eapply only_slot_trans; [apply emit_only_slot|exact Ho|done].
Qed.

(** The insertion that [ol_rx_reorder_store_frag] makes into the list that is left. *)
Lemma insert_kept fuel s s1 l t f e1 :
  head e1 = hd_error (kept_list s f l) → (kept_list s f l ≠ [] → tail e1 = Some t) → (l ≠ [] → t ∈ l) →
  chain (links s) (hd_error l) l → (∀ x, links s1 x = links s x) → fr_data s1 = fr_data s →
  f ∉ l → Forall (framed s) (f :: l) → (length l < fuel)%nat →
  let '(l', t') := slot_after s l t f in
  ∃ s2 c, ol_rx_fraglist_insert fuel s1 (head e1) (tail e1) f = Some (s2, hd_error l', Some t', c) ∧
    (l ≠ [] → c = frame_whole s l f (l', t')) ∧ chain (links s2) (hd_error l') l' ∧ t' ∈ l' ∧ l' ⊆ f :: kept_list s f l ∧
    relinked s1 s2 (f :: l) (if bool_decide (f ∈ l') then [] else [FrameFree f]).
Proof.
  intros Hh Ht Htl Hc Hl Hd Hf Hfr Hfu.
  assert (∀ x, framed s x → framed s1 x) as Hfs by (intros x; unfold framed, bytes, ol_rx_frag_get_mac_hdr; by rewrite Hd).
  assert (bytes s1 = bytes s) as Hb by (unfold bytes; by rewrite Hd).
  assert (kept_list s f l = [] ∨ kept_list s f l = l) as Hk by (unfold kept_list; destruct l; [by left|case_decide; auto]).
  unfold slot_after, frame_whole. destruct (kept_list s f l) as [|h k] eqn:Ek.
  - rewrite Hh. cbn [hd_error]. apply Forall_cons in Hfr as [Hff _]. rewrite insert_first by auto.
    eexists _, _. split; [reflexivity|]. split; [intros Hne; destruct l; [done|by rewrite Ek]|]. assert (f ∈ [f]) as Hin by set_solver.
    rewrite (bool_decide_eq_true_2 _ Hin). split_and!; [|done|set_solver|apply no_events; [done|]].
    + split; [done|]. apply nx_upd_eq.
    + intros x Hx. apply nx_upd_ne. set_solver.
  - destruct Hk as [|Hk]; [done|]. assert (l ≠ []) as Hne by (rewrite <- Hk; done).
    rewrite Hk in *. rewrite Hh, Ht by done. assert (chain (links s1) (hd_error l) l) as Hc1 by (eapply chain_frame; [|exact Hc]; done).
    pose proof (fraglist_spec fuel s1 l t f Hc1 (Htl Hne) Hf) as HF. unfold no_of in HF |- *. rewrite Hb in HF.
    destruct (spec_insert _ l t f) as [l' t']. destruct HF as (s2 & E & Hc2 & Ht2 & Hs2 & Hr2); [|lia|].
    { eapply Forall_impl; [exact Hfr|exact Hfs]. }
    eexists _, _. split; [exact E|]. split; [|by split_and!]. intros _. destruct l; [done|]. rewrite Ek. done.
Qed.

(** The slot of a traffic id: a list of fragments of one frame, and a pointer
    into it. *)
Record slot_inv s (tid idx : Z) l (t : Z) : Prop := {
  si_tid : 0 <= tid < Z.of_nat (length (tids_rx_reorder (fr_rx s)));
  si_elem : ∃ e, get_elem (fr_rx s) tid idx = Some e ∧ head e = hd_error l ∧ (l ≠ [] → tail e = Some t ∧ t ∈ l);
  si_chain : chain (links s) (hd_error l) l;
  si_framed : Forall (framed s) l;
  si_one : one_frame s l;
}.

Lemma slot_inv_empty s tid idx e t :
  0 <= tid < Z.of_nat (length (tids_rx_reorder (fr_rx s))) → get_elem (fr_rx s) tid idx = Some e → head e = None → slot_inv s tid idx [] t.
Proof.
  intros Ht He Hh. split; [done| |done|constructor|intros x y Hx; by apply not_elem_of_nil in Hx]. exists e. by split_and!.
Qed.

(** The timeouts, if they are kept: the traffic id is taken off the wait list when
    a fragment joins its slot, and put at its end when the frame is not complete. *)
Definition waits (b : bool) (q : tailq) s : fragState := if b then s <| fr_wait := q |> else s.
Definition timed (tid at_ms : Z) (q : tailq) s : fragState :=
  s <| fr_rx ::= λ r, upd_reorder r tid (λ ro, ro <| defrag_timeout_ms := at_ms |>) |> <| fr_wait := q |>.

(** What storing a fragment does up to the call of [ol_rx_defrag]. *)
Lemma store_spec desc sec opmode key safemode full frame_8023 check timeout_ms me fuel now s tid seq_num l t f q1 q2 :
  let idx := Z.land seq_num (mask_of (fr_rx s) tid) in
  (check = true → ol_rx_defrag_waitlist_remove (fr_wait s) (me, tid) = Some q1 ∧ ol_rx_defrag_waitlist_add q1 (me, tid) = Some q2) →
  slot_inv s tid idx l t → f ∉ l → framed s f → (length l < fuel)%nat →
  let '(l', t') := slot_after s l t f in
  ∃ s1, slot_inv s1 tid idx l' t' ∧ t' ∈ l' ∧ only_slot tid idx (f :: l) (store_events s l f l') s s1 ∧
    ol_rx_reorder_store_frag desc sec opmode key safemode full frame_8023 check timeout_ms me fuel now s tid seq_num f =
      if frame_whole s l f (l', t')
      then s2 ← ol_rx_defrag desc sec opmode key safemode full frame_8023 fuel (waits (check && negb (bool_decide (l = []))) q1 s1)
                  tid (hd 0 l');
           Some (emptied tid idx seq_num (bool_decide (l = [])) s2)
      else Some (if check then timed tid (u32 (now + timeout_ms)) q2 s1 else s1).
Proof.
  intros idx Hq [Ht (e & He & Hh & Htl) Hc Hfr' Hone] Hf Hff Hfu. assert (Forall (framed s) (f :: l)) as Hfr by by constructor.
  assert (kept_list s f l ⊆ l) as Hks by (unfold kept_list; destruct l; [done|case_decide; set_solver]).
  assert (one_frame s (f :: kept_list s f l)) as Hone'.
  { unfold kept_list. destruct l as [|h l]; [intros x y ->%list_elem_of_singleton ->%list_elem_of_singleton; done|].
    case_decide as Hid; [|intros x y ->%list_elem_of_singleton ->%list_elem_of_singleton; done].
    assert (∀ x, x ∈ f :: h :: l → frame_id (bytes s x) = frame_id (bytes s h)) as Hall
      by (intros x [->|Hx]%elem_of_cons; [done|apply Hone; [done|by left]]).
    intros x y Hx Hy. by rewrite (Hall x Hx), (Hall y Hy). }
  destruct (drop_other_spec fuel s tid idx e l f Ht He Hh Hc Hfr' ltac:(lia)) as (s1 & e1 & Ed & Hh1 & Ht1 & He1 & Ho1).
  pose proof (insert_kept fuel s s1 l t f e1 Hh1) as HI. specialize (HI ltac:(intros Hk; rewrite Ht1 by done; apply Htl; intros ->; done)
    ltac:(intros Hl; by apply Htl) Hc).
  specialize (HI (λ x, os_links _ _ _ _ _ _ Ho1 x (not_elem_of_nil x)) (os_data _ _ _ _ _ _ Ho1) Hf Hfr Hfu).
  pose proof Ho1 as [_ _ _ _ _ _ Hlen1 _ _].
  unfold store_events. destruct (slot_after s l t f) as [l' t'] eqn:Ea. destruct HI as (s2 & c & Ei & Hcw & Hc2 & Ht2 & Hs2 & Hr2).
  pose proof (relinked_only_slot tid idx _ _ _ _ Hr2) as Ho2.
  assert (get_elem (fr_rx s2) tid idx = Some e1) as He2.
  { destruct Hr2 as [-> _]. exact He1. }
  destruct (set_slot s2 tid idx e1 (mk_elem (hd_error l') (Some t')) ltac:(rewrite (os_len _ _ _ _ _ _ Ho2), Hlen1; exact Ht) He2) as [Hg3 Ho3].
  set (s3 := set_frag_elem s2 tid idx _) in *.
  assert (only_slot tid idx (f :: l) (store_events s l f l') s s3) as Ho.
  { unfold store_events. rewrite <- (app_nil_r (_ ++ _)). eapply only_slot_trans; [|exact Ho3|set_solver].
    eapply (only_slot_trans _ _ (f :: l) (f :: l)); [|exact Ho2|done]. destruct Ho1. split; try done. intros x _. apply os_links0, not_elem_of_nil. }
  assert (∃ h, hd_error l' = Some h ∧ hd 0 l' = h) as (h & Eh & Eh').
  { destruct l' as [|h l']; [by apply not_elem_of_nil in Ht2|by exists h]. }
  assert (one_frame s l') as Hone2 by (intros x y Hx Hy; apply Hone'; by apply Hs2).
  assert (∀ s4, get_elem (fr_rx s4) tid idx = Some (mk_elem (hd_error l') (Some t')) → chain (links s4) (hd_error l') l' →
    only_slot tid idx (f :: l) (store_events s l f l') s s4 → slot_inv s4 tid idx l' t') as HSI.
  { intros s4 Hg4 Hc4 [_ Hd4 _ _ _ _ Hl4 _ _]. assert (bytes s4 = bytes s) as Hb4 by (unfold bytes; by rewrite Hd4).
    split; [by rewrite Hl4|eexists; by split_and!|done| |unfold one_frame; by rewrite Hb4].
    rewrite Forall_forall in Hfr |- *. intros x Hx. unfold framed, ol_rx_frag_get_mac_hdr. rewrite Hb4, Hd4. apply Hfr.
    specialize (Hs2 x Hx). apply elem_of_cons in Hs2 as [->|Hxk]; [by left|right; by apply Hks]. }
  assert (∀ s4, fr_wait s4 = fr_wait s →
    (if check then q ← ol_rx_defrag_waitlist_remove (fr_wait s4) (me, tid); Some (s4 <| fr_wait := q |>) else Some s4) =
    Some (waits check q1 s4)) as Ewait.
  { intros s4 Hw. destruct check; [|done]. by rewrite Hw, (proj1 (Hq eq_refl)). }
  assert (∀ s4, (if check
      then q ← ol_rx_defrag_waitlist_add (fr_wait (waits check q1 s4
               <| fr_rx ::= λ r, upd_reorder r tid (λ ro, ro <| defrag_timeout_ms := u32 (now + timeout_ms) |>) |>)) (me, tid);
           Some (waits check q1 s4 <| fr_rx ::= λ r, upd_reorder r tid (λ ro, ro <| defrag_timeout_ms := u32 (now + timeout_ms) |>) |>
                   <| fr_wait := q |>)
      else Some (waits check q1 s4)) = Some (if check then timed tid (u32 (now + timeout_ms)) q2 s4 else s4)) as Etimed.
  { intros s4. destruct check; [|done]. cbn [waits fr_wait set_field fragState_eta]. by rewrite (proj2 (Hq eq_refl)). }
  unfold ol_rx_reorder_store_frag. fold idx. rewrite He. cbn [mbind option_bind]. rewrite Hff. cbn [mbind option_bind]. rewrite Hh, Ed. cbn [mbind option_bind]. rewrite Ei.
  destruct l as [|y l].
  - unfold drop_other in Ed. rewrite Hh in Ed. cbn in Ed. injection Ed as <- <-. injection Ea as <- <-.
    rewrite Hh in Ei. cbn [hd_error] in Ei |- *. rewrite insert_first in Ei |- * by done. injection Ei as <- <-.
    unfold frame_whole, no_of. rewrite (bool_decide_eq_true_2 (None = None)), andb_true_r by done.
    destruct (negb _ && _); cbn [mbind option_bind].
    + rewrite (bool_decide_eq_true_2 ([] = [])), andb_false_r by done. exists (frag_set_next s3 f None).
      assert (only_slot tid idx [f] (store_events s [] f [f]) s (frag_set_next s3 f None)) as Ho4.
      { rewrite <- (app_nil_r (store_events _ _ _ _)). eapply only_slot_trans; [exact Ho|apply link_only_slot|done]. }
      split_and!; [|done|exact Ho4|done]. apply HSI; [exact Hg3| |exact Ho4]. split; [done|]. apply nx_upd_eq.
    + exists s3. split_and!; [by apply HSI|done|exact Ho|]. rewrite Ewait by exact (os_wait _ _ _ _ _ _ Ho). cbn [mbind option_bind]. apply Etimed.
  - rewrite (bool_decide_eq_false_2 (hd_error (y :: l) = None)) by done. rewrite andb_false_r. cbn [mbind option_bind].
    rewrite <- Hcw by done. exists s3. split; [by apply HSI|]. do 2 (split; [done|]). rewrite Ewait by exact (os_wait _ _ _ _ _ _ Ho).
    cbn [mbind option_bind]. destruct c; [|apply Etimed]. rewrite Eh. cbn [mbind option_bind].
    rewrite Eh', (bool_decide_eq_false_2 (y :: l = [])) by done. cbn [negb]. unfold s3. by rewrite andb_true_r, Eh.
Qed.
End store.

(** ** The windows are left alone by [ol_rx_defrag] *)
Section windows_kept.
Context `{Nbuf}.
Implicit Types (s : fragState) (r : rxState).

Definition same_windows s s' : Prop := tids_rx_reorder (fr_rx s') = tids_rx_reorder (fr_rx s).
#[local] Instance same_windows_refl : Reflexive same_windows.
Proof. done. Qed.
#[local] Instance same_windows_trans : Transitive same_windows.
Proof. intros s1 s2 s3 H12 H23. unfold same_windows in *. congruence. Qed.

(** The next bind or case of a computation that returned. *)
Local Ltac step_in E :=
  match type of E with
  | _ ≫= _ = Some _ => let x := fresh "x" in let E1 := fresh "E" in apply bind_Some in E as (x & E1 & E); cbn beta iota in E
  | (let '(_, _) := ?p in _) = Some _ => destruct p
  | (if ?b then _ else _) = Some _ => destruct b
  | (match ?o with Some _ => _ | None => _ end) = Some _ => destruct o
  | Some _ = Some _ => injection E as <-
  | None = Some _ => discriminate E
  end.

Lemma frames_free_windows fuel r p r' : ol_rx_frames_free fuel r p = Some r' → tids_rx_reorder r' = tids_rx_reorder r.
Proof.
  revert r p. induction fuel as [|fuel IH]; intros r [m|] E; cbn in E; simplify_eq; try done. by rewrite (IH _ _ E).
Qed.
Lemma free_mpdu_windows fuel r p q r' : free_mpdu fuel r p q = Some r' → tids_rx_reorder r' = tids_rx_reorder r.
Proof.
  revert r p. induction fuel as [|fuel IH]; intros r p E; cbn in E; [by destruct p|].
  destruct p as [m|]; [|by cbn in E; simplify_eq]. cbn in E. destruct (bool_decide _); [by simplify_eq|]. by rewrite (IH _ _ E).
Qed.
Lemma frames_free_same fuel s p s' : frames_free fuel s p = Some s' → same_windows s s'.
Proof. unfold frames_free. intros E. repeat step_in E. by eapply frames_free_windows. Qed.

Context (desc : Z → rx_desc) (sec : rx_security) (opmode : wlan_op_mode).

Lemma add_mpdu_windows r h t m mt r' h' t' : add_mpdu_to_list r h t m mt = Some (r', h', t') → tids_rx_reorder r' = tids_rx_reorder r.
Proof. unfold add_mpdu_to_list, qdf_nbuf_set_next. intros E. by destruct h; simplify_option_eq. Qed.

Lemma pn_check_mpdu_windows fuel r tid u cmp valid h t m mt r' v' h' t' :
  pn_check_mpdu desc opmode fuel r tid u cmp valid h t m mt = Some (r', v', h', t') → tids_rx_reorder r' = tids_rx_reorder r.
Proof.
  unfold pn_check_mpdu. intros E. destruct (negb _).
  { step_in E. destruct x as [[r1 h1] t1]. simplify_eq. by eapply add_mpdu_windows. }
  step_in E. destruct x as [r0 rep]. assert (tids_rx_reorder r0 = tids_rx_reorder r) as <-.
  { destruct valid; [|by simplify_eq]. step_in E0. by simplify_eq. }
  destruct rep; step_in E.
  - simplify_eq. by eapply free_mpdu_windows in E1.
  - destruct x as [[r1 h1] t1]. simplify_eq. by apply add_mpdu_windows in E1.
Qed.

Lemma pn_check_windows fuel r tid m r' o :
  ol_rx_pn_check_base desc sec opmode fuel r tid m = Some (r', o) → tids_rx_reorder r' = tids_rx_reorder r.
Proof.
  assert (∀ fuel r u cmp valid p h t r' h' t', pn_check_loop desc opmode fuel r tid u cmp valid p h t = Some (r', h', t') →
    tids_rx_reorder r' = tids_rx_reorder r) as HL.
  { clear. induction fuel as [|fuel IH]; intros r u cmp valid p h t r' h' t' E; cbn in E; (destruct p; [|by simplify_eq]); [done|].
    step_in E. destruct x as [mt nx]. step_in E. destruct x as [[[r1 v1] h1] t1].
    rewrite (IH _ _ _ _ _ _ _ _ _ _ E). by eapply pn_check_mpdu_windows. }
  unfold ol_rx_pn_check_base. intros E. destruct (_ || _); [by simplify_eq|]. destruct (rx_pn _) as [len cmp].
  destruct (len =? 0); [by simplify_eq|]. step_in E. destruct x as [[r1 h] t]. step_in E. simplify_eq.
  rewrite <- (HL _ _ _ _ _ _ _ _ _ _ _ E0). destruct t; [|by simplify_eq]. cbn in E1. by simplify_eq.
Qed.

Lemma pn_loop_same fuel s tid fl prev p s' ok :
  defrag_pn_loop desc sec opmode fuel s tid fl prev p = Some (s', ok) → same_windows s s'.
Proof.
  revert s prev p. induction fuel as [|fuel IH]; intros s prev p E; cbn [defrag_pn_loop] in E; (destruct p as [c|]; [|by simplify_eq]); [done|].
  step_in E. destruct x as [r o]. apply pn_check_windows in E0. destruct o as [c'|].
  - step_in E. etransitivity; [|by eapply IH]. exact E0.
  - step_in E. step_in E. simplify_eq. apply frames_free_same in E2. etransitivity; [|exact E2].
    destruct prev as [q|]; [apply frames_free_same in E1; etransitivity; [|exact E1]|simplify_eq]; exact E0.
Qed.

Lemma decap_loop_same fuel f s p s' ok : decap_loop fuel f s p = Some (s', ok) → same_windows s s'.
Proof.
  revert s p. induction fuel as [|fuel IH]; intros s p E; cbn in E; (destruct p as [c|]; [|by simplify_eq]); [done|].
  step_in E. step_in E. destruct x0 as [d ok']. destruct ok'; [|by simplify_eq]. etransitivity; [|by eapply IH]. done.
Qed.

Lemma recombine_same fuel s b p hs s' ok : recombine_loop fuel s b p hs = Some (s', ok) → same_windows s s'.
Proof.
  revert s p. induction fuel as [|fuel IH]; intros s p E; cbn [recombine_loop] in E; (destruct p as [m|]; [|by simplify_eq]); [done|].
  step_in E. step_in E. destruct x0 as [s1 ok']. assert (same_windows s s1) as H1.
  { unfold ol_rx_defrag_concat in E1. step_in E1. step_in E1. by destruct (qdf_nbuf_cat _ _); simplify_eq. }
  etransitivity; [exact H1|]. destruct ok'; [by eapply IH|]. step_in E. simplify_eq. etransitivity; [by eapply frames_free_same|done].
Qed.

Lemma tkip_demic_same fuel s key m hl s' ok : ol_rx_frag_tkip_demic fuel s key m hl = Some (s', ok) → same_windows s s'.
Proof.
  unfold ol_rx_frag_tkip_demic. intros E. step_in E. step_in E. destruct x0 as [[]|mic]; [by simplify_eq|].
  destruct (_ <? _); [done|]. by destruct (_ =? 0); simplify_eq.
Qed.

Lemma finish_same frame_8023 fuel s tid h hl k s' : defrag_finish frame_8023 fuel s tid h hl k = Some s' → same_windows s s'.
Proof.
  unfold defrag_finish. intros E. step_in E. destruct x as [s1 o]. assert (same_windows s s1) as H1.
  { unfold ol_rx_defrag_decap_recombine in E0. step_in E0. destruct x as [s2 ok]. apply recombine_same in E1. etransitivity; [exact E1|].
    destruct ok; cbn in E0; [step_in E0; by simplify_eq|by simplify_eq]. }
  etransitivity; [exact H1|]. destruct o as [m|]; [|by simplify_eq]. step_in E. destruct x as [s2 ok]. assert (same_windows s1 s2) as H2.
  { destruct k; [by eapply tkip_demic_same|by simplify_eq]. }
  etransitivity; [exact H2|]. destruct ok; cbn [negb] in E; [|by simplify_eq]. step_in E. step_in E. step_in E. by simplify_eq.
Qed.

Lemma defrag_same key safemode full frame_8023 fuel s tid fl s' :
  ol_rx_defrag desc sec opmode key safemode full frame_8023 fuel s tid fl = Some s' → same_windows s s'.
Proof.
  unfold ol_rx_defrag. intros E. destruct safemode; [by simplify_eq|]. step_in E. destruct x as [s1 ok]. apply pn_loop_same in E0.
  etransitivity; [exact E0|]. destruct ok; cbn [negb] in E; [|by simplify_eq]. step_in E. step_in E. destruct x0 as [s2 ok].
  assert (same_windows s1 s2) as H2 by (destruct (decap_of _ _); [by eapply decap_loop_same|by simplify_eq]).
  etransitivity; [exact H2|]. destruct ok; cbn [negb] in E; [by eapply finish_same|by eapply frames_free_same].
Qed.
End windows_kept.

Section invariant.
Context `{NbufOk}.
Implicit Types (s : fragState) (l : list Z).

Lemma emptied_slot s tid idx seq_num single e t :
  0 <= tid < Z.of_nat (length (tids_rx_reorder (fr_rx s))) → get_elem (fr_rx s) tid idx = Some e →
  slot_inv (emptied tid idx seq_num single s) tid idx [] t.
Proof.
  intros Ht He. destruct (set_slot s tid idx e no_elem Ht He) as [Hg Ho]. set (s1 := set_frag_elem s tid idx no_elem) in *.
  pose proof (os_len _ _ _ _ _ _ Ho) as Hlen. apply (slot_inv_empty _ _ _ no_elem); [| |done].
  - unfold emptied. fold s1. destruct single; [by rewrite Hlen|]. 
    change (0 <= tid < Z.of_nat (length (zset (tids_rx_reorder (fr_rx s1)) tid
      (zget (tids_rx_reorder (fr_rx s1)) tid <|defrag_timeout_ms := 0|>)))). by rewrite length_zset, Hlen.
  - unfold emptied. fold s1. destruct single; [exact Hg|]. rewrite <- Hg. unfold get_elem. cbn [fr_rx set_field fragState_eta].
    assert (reorder (upd_reorder (fr_rx s1) tid (λ ro, ro <|defrag_timeout_ms := 0|>) <|tids_last_seq ::= λ l, zset l tid seq_num|>) tid =
            reorder (fr_rx s1) tid <|defrag_timeout_ms := 0|>) as ->; [|done].
    apply upd_reorder_eq. by rewrite Hlen.
Qed.

Lemma timed_slot tid at_ms q s idx l t : slot_inv s tid idx l t → slot_inv (timed tid at_ms q s) tid idx l t.
Proof.
  intros [Ht (e & He & Hh & Hl) Hc Hfr Ho]. split; [|  |done|done|done].
  { change (0 <= tid < Z.of_nat (length (zset (tids_rx_reorder (fr_rx s)) tid (reorder (fr_rx s) tid <| defrag_timeout_ms := at_ms |>)))).
    by rewrite length_zset. }
  exists e. split_and!; [|done..]. rewrite <- He. unfold get_elem. cbn [timed fr_rx set_field fragState_eta].
  by rewrite upd_reorder_eq by done.
Qed.

(** One fragment more. *)
Lemma slot_after_length s l t f : (length (slot_after s l t f).1 <= S (length l))%nat.
Proof.
  assert (∀ l, (length (upto t l) <= length l)%nat) as Hu by (induction l0; cbn; [done|case_decide; cbn; lia]).
  assert (∀ l, (length (place (no_of s) f l) <= S (length l))%nat) as Hp.
  { induction l0 as [|x l0 IH]; cbn; [lia|]. repeat case_match; cbn; lia. }
  assert (length (kept_list s f l) <= length l)%nat as Hk by (unfold kept_list; destruct l; [done|case_decide; cbn; lia]).
  unfold slot_after. destruct (kept_list s f l) as [|h k]; [cbn; lia|]. unfold spec_insert.
  destruct (_ <? _); cbn [fst]; [rewrite length_app; specialize (Hu (h :: k)); cbn in *; lia|specialize (Hp (h :: k)); lia].
Qed.
End invariant.
