(* ===== verification/DefragJoin.v ===== *)
(** Reassembly: what [ol_rx_defrag] of RxDefrag.v makes of the fragments of a
    frame, from the transmitter's point of view, and the Michael MIC. *)
From S2P Require Import Prelude Chains RxReorder RxPn DefragList RxDefrag DefragStore.

(** ** What a transmitter sends *)

(** The header of fragment [i] of a frame with header [hdr]. *)
Definition frag_hdr (hdr : list Z) (i : Z) (more : bool) : list Z :=
  zset (zset hdr 1 (Z.lor (zget hdr 1) (if more then IEEE80211_FC1_MORE_FRAG else 0))) 22 (Z.lor (zget hdr 22) i).

(** The header of an unfragmented data frame. *)
Record plain_hdr (hdr : list Z) : Prop := {
  ph_len : Z.of_nat (length hdr) = ol_rx_frag_hdrsize hdr;
  ph_fc1 : is_u8 (zget hdr 1) ∧ Z.land (zget hdr 1) IEEE80211_FC1_MORE_FRAG = 0;
  ph_seq : is_u8 (zget hdr 22) ∧ Z.land (zget hdr 22) IEEE80211_SEQ_FRAG_MASK = 0;
}.

(** The lengths of the cipher's header and trailer for each kind of key. *)
Definition cipher_fields (t : htt_sec_type) : Z * Z :=
  match t with
  | htt_sec_type_tkip | htt_sec_type_tkip_nomic => (ic_header f_tkip, ic_trailer f_tkip)
  | htt_sec_type_aes_ccmp => (ic_header f_ccmp, ic_trailer f_ccmp)
  | htt_sec_type_wep40 | htt_sec_type_wep104 | htt_sec_type_wep128 => (ic_header f_wep, ic_trailer f_wep)
  | _ => (0, 0)
  end.
Definition needs_extiv (t : htt_sec_type) : bool :=
  match t with htt_sec_type_tkip | htt_sec_type_tkip_nomic | htt_sec_type_aes_ccmp => true | _ => false end.

(** The cipher's header, trailer and the frame's checksum around a payload. *)
Record fragment := mk_fragment { fg_iv : list Z; fg_payload : list Z; fg_trailer : list Z; fg_fcs : list Z }.
Definition frag_ok (t : htt_sec_type) (g : fragment) : Prop :=
  Z.of_nat (length (fg_iv g)) = (cipher_fields t).1 ∧ Z.of_nat (length (fg_trailer g)) = (cipher_fields t).2 ∧
  Z.of_nat (length (fg_fcs g)) = DEFRAG_IEEE80211_FCS_LEN ∧
  (needs_extiv t = true → Z.land (zget (fg_iv g) IEEE80211_WEP_IVLEN) IEEE80211_WEP_EXTIV ≠ 0).
(** Without, and with the checksum. *)
Definition frag_body (h : list Z) (g : fragment) : list Z := h ++ fg_iv g ++ fg_payload g ++ fg_trailer g.
Definition frag_bytes (h : list Z) (g : fragment) : list Z := frag_body h g ++ fg_fcs g.

(** The frame that the receive path expects: without the QoS field. *)
Definition without_qos (hdr body : list Z) : list Z :=
  if DEFRAG_IEEE80211_QOS_HAS_SEQ hdr then
    let qoslen := if negb (Z.land (zget hdr 1) IEEE80211_FC1_ORDER =? 0) then 6%nat else 2%nat in
    let h := take (length hdr - qoslen) hdr in
    zset h 0 (Z.land (zget h 0) (255 - IEEE80211_FC0_SUBTYPE_QOS)) ++ body
  else hdr ++ body.

(** ** Headers *)
Section headers.
Implicit Types (hdr d : list Z).

Lemma u8_forall (P : Z → bool) : forallb P (seqZ 0 256) = true → ∀ x, is_u8 x → P x = true.
Proof. intros H x Hx. rewrite forallb_forall in H. apply H, list_elem_of_In, elem_of_seqZ. red in Hx. lia. Qed.
Lemma u8_forall2 (n : Z) (P : Z → Z → bool) :
  forallb (λ x, forallb (P x) (seqZ 0 n)) (seqZ 0 256) = true → ∀ x i, is_u8 x → 0 <= i < n → P x i = true.
Proof.
  intros H x i Hx Hi. apply (u8_forall _ H) in Hx. rewrite forallb_forall in Hx. apply Hx, list_elem_of_In, elem_of_seqZ. lia.
Qed.

Lemma more_bits x b : is_u8 x → Z.land x 4 = 0 →
  let y := Z.lor x (if b : bool then 4 else 0) in
  is_u8 y ∧ negb (Z.land y 4 =? 0) = b ∧ Z.land y 3 = Z.land x 3 ∧ Z.land y 128 = Z.land x 128 ∧ Z.land y (255 - 4) = x.
Proof.
  intros Hx Hl. pose proof (u8_forall (λ x, negb (Z.land x 4 =? 0) || forallb (λ b : bool,
    let y := Z.lor x (if b then 4 else 0) in (0 <=? y) && (y <? 256) && Bool.eqb (negb (Z.land y 4 =? 0)) b &&
    (Z.land y 3 =? Z.land x 3) && (Z.land y 128 =? Z.land x 128) && (Z.land y (255 - 4) =? x)) [false; true])
    ltac:(vm_compute; reflexivity) x Hx) as H.
  cbn beta in H. rewrite Hl in H. cbn [Z.eqb negb orb] in H. rewrite forallb_forall in H.
  specialize (H b ltac:(destruct b; cbn; auto)). repeat (rewrite andb_true_iff in H; destruct H as [H ?]). unfold is_u8.
  rewrite Z.leb_le, ?Z.ltb_lt, ?Z.eqb_eq, eqb_true_iff in *. by split_and!.
Qed.

Lemma seq_bits x y i : is_u8 x → 0 <= i < 16 → Z.land x 15 = 0 →
  is_u8 (Z.lor x i) ∧ Z.land (Z.lor x i + 256 * y) 15 = i ∧ Z.shiftr (Z.lor x i + 256 * y) 4 = Z.shiftr (x + 256 * y) 4 ∧
  Z.land (Z.lor x i) (255 - 15) = x.
Proof.
  intros Hx Hi Hl. pose proof (u8_forall2 16 (λ x i, negb (Z.land x 15 =? 0) ||
    (0 <=? Z.lor x i) && (Z.lor x i <? 256) && (Z.lor x i =? x + i) && (Z.land (Z.lor x i) (255 - 15) =? x))
    ltac:(vm_compute; reflexivity) x i Hx Hi) as H.
  cbn beta in H. rewrite Hl in H. cbn [Z.eqb negb orb] in H. repeat (rewrite andb_true_iff in H; destruct H as [H ?]).
  rewrite Z.leb_le, ?Z.ltb_lt, ?Z.eqb_eq in *. change 15 with (Z.ones 4) in Hl |- *. rewrite Z.land_ones in Hl |- * by lia.
  rewrite !Z.shiftr_div_pow2 by lia. change (2 ^ 4) with 16 in *. unfold is_u8. split_and!; [lia|lia| | |done].
  - replace (Z.lor x i) with (x + i) by lia. Z.div_mod_to_equations; lia.
  - replace (Z.lor x i) with (x + i) by lia. Z.div_mod_to_equations; lia.
Qed.
End headers.

Section frag_headers.
Implicit Types (hdr d : list Z).

Lemma zget_app_l (l1 l2 : list Z) i : 0 <= i < Z.of_nat (length l1) → zget (l1 ++ l2) i = zget l1 i.
Proof. intros Hi. unfold zget. rewrite !list_lookup_total_alt, lookup_app_l by lia. done. Qed.
Lemma zset_app_l (l1 l2 : list Z) i x : 0 <= i < Z.of_nat (length l1) → zset (l1 ++ l2) i x = zset l1 i x ++ l2.
Proof. intros Hi. unfold zset. by rewrite insert_app_l by lia. Qed.
Lemma zread_app_l (l1 l2 : list Z) off n : 0 <= off → 0 <= n → off + n <= Z.of_nat (length l1) → zread (l1 ++ l2) off n = zread l1 off n.
Proof. intros Ho Hn Hl. unfold zread. rewrite drop_app_le, take_app_le by (rewrite ?length_drop; lia). done. Qed.
Lemma zset_zset (l : list Z) i x y : zset (zset l i x) i y = zset l i y.
Proof. unfold zset. apply list_insert_insert_eq. Qed.
Lemma zset_comm (l : list Z) i j x y : 0 <= i → 0 <= j → i ≠ j → zset (zset l i x) j y = zset (zset l j y) i x.
Proof. intros Hi Hj Hn. unfold zset. apply list_insert_insert_ne. lia. Qed.
Lemma zset_id (l : list Z) i : zset l i (zget l i) = l.
Proof.
  unfold zset, zget. destruct (l !! Z.to_nat i) as [x|] eqn:E.
  - rewrite (list_lookup_total_correct _ _ _ E). by apply list_insert_id.
  - apply list_insert_ge. by apply lookup_ge_None.
Qed.

Lemma hdrsize_min d : 24 <= ol_rx_frag_hdrsize d.
Proof. unfold ol_rx_frag_hdrsize. change sizeof_ieee80211_frame with 24. change IEEE80211_ADDR_LEN with 6. repeat case_match; lia. Qed.

(** Only two bytes of the header of a fragment differ from the frame's. *)
Lemma frag_hdr_get hdr i more j :
  (24 <= length hdr)%nat → 0 <= j →
  zget (frag_hdr hdr i more) j =
    if j =? 22 then Z.lor (zget hdr 22) i
    else if j =? 1 then Z.lor (zget hdr 1) (if more then IEEE80211_FC1_MORE_FRAG else 0) else zget hdr j.
Proof.
  intros Hl Hj. unfold frag_hdr. destruct (Z.eqb_spec j 22) as [->|H22].
  { apply zget_zset_eq. rewrite length_zset. lia. }
  rewrite zget_zset_ne by lia. destruct (Z.eqb_spec j 1) as [->|H1]; [apply zget_zset_eq; lia|apply zget_zset_ne; lia].
Qed.
Lemma frag_hdr_read hdr i more off n :
  2 <= off → off + n <= 22 → zread (frag_hdr hdr i more) off n = zread hdr off n.
Proof. intros Ho Hn. unfold frag_hdr. rewrite !zread_zset_out by lia. done. Qed.
Lemma length_frag_hdr hdr i more : length (frag_hdr hdr i more) = length hdr.
Proof. unfold frag_hdr. by rewrite !length_zset. Qed.

(** What the receive path reads from a fragment. *)
Lemma frag_hdr_facts hdr i more rest :
  plain_hdr hdr → 0 <= i < 16 → let d := frag_hdr hdr i more ++ rest in
  frag_no d = i ∧ more_frag d = more ∧ ol_rx_frag_hdrsize d = Z.of_nat (length hdr) ∧ frame_id d = frame_id hdr ∧
  clear_frag d = hdr ++ rest ∧ (24 <= length d)%nat.
Proof.
  intros [Hlen [H1 H1m] [H22 H22m]] Hi d. pose proof (hdrsize_min hdr) as Hmin.
  assert (24 <= length hdr)%nat as Hl by lia.
  destruct (more_bits (zget hdr 1) more H1 H1m) as (_ & Hmore & Hb3 & Hb128 & Hclr1).
  destruct (seq_bits (zget hdr 22) (zget hdr 23) i H22 Hi H22m) as (_ & Hno & Hseq & Hclr22).
  assert (∀ j, 0 <= j < 24 → zget d j = zget (frag_hdr hdr i more) j) as Hd.
  { intros j Hj. apply zget_app_l. rewrite length_frag_hdr. lia. }
  assert (i_seq d = Z.lor (zget hdr 22) i + 256 * zget hdr 23) as Es by (unfold i_seq; rewrite !Hd, !frag_hdr_get by lia; done).
  assert (i_fc d 1 = Z.lor (zget hdr 1) (if more then 4 else 0)) as E1 by (unfold i_fc; rewrite !Hd, !frag_hdr_get by lia; done).
  assert (i_fc d 0 = i_fc hdr 0) as E0 by (unfold i_fc; rewrite !Hd, !frag_hdr_get by lia; done).
  split_and!.
  - unfold frag_no. by rewrite Es.
  - unfold more_frag. by rewrite E1.
  - rewrite Hlen. unfold ol_rx_frag_hdrsize, DEFRAG_IEEE80211_QOS_HAS_SEQ. rewrite E0, E1.
    unfold IEEE80211_FC1_DIR_MASK, IEEE80211_FC1_ORDER in *. change 0x80 with 128. rewrite Hb3, Hb128. done.
  - unfold frame_id, seq_of. rewrite Es. unfold IEEE80211_SEQ_SEQ_SHIFT. rewrite Hseq.
    unfold i_addr1, i_addr2, d. rewrite !zread_app_l, !frag_hdr_read by (rewrite ?length_frag_hdr; lia). done.
  - assert (Z.land (zget d 1) (255 - IEEE80211_FC1_MORE_FRAG) = zget hdr 1) as C1 by (rewrite Hd, frag_hdr_get by lia; exact Hclr1).
    assert (Z.land (zget d 22) (255 - IEEE80211_SEQ_FRAG_MASK) = zget hdr 22) as C22 by (rewrite Hd, frag_hdr_get by lia; exact Hclr22).
    unfold clear_frag. rewrite C1, zget_zset_ne, C22 by lia. unfold d, frag_hdr.
    rewrite !zset_app_l by (rewrite ?length_zset; lia). f_equal.
    rewrite (zset_comm _ 22 1) by lia. by rewrite !zset_zset, !zset_id.
  - unfold d. rewrite length_app, length_frag_hdr. lia.
Qed.
End frag_headers.

(** ** Each fragment on its own *)
Section decap.
Context `{NbufOk}.
Implicit Types (h iv p tr d : list Z).

Lemma drop_inserts_at n h d : (n + length h <= length d)%nat → drop n (list_inserts n h d) = h ++ drop (n + length h) d.
Proof.
  intros Hl. rewrite <- (take_drop n d) at 1. replace n with (length (take n d) + 0)%nat at 2 by (rewrite length_take; lia).
  rewrite list_inserts_app_r. rewrite drop_app_length' by (rewrite length_take; lia).
  change (list_inserts 0 h (drop n d)) with (zwrite (drop n d) 0 h). rewrite zwrite_0 by (rewrite length_drop; lia).
  by rewrite drop_drop.
Qed.

(** The header moved over the cipher's, which is cut off. *)
Lemma move_pull h iv rest hl n :
  hl = Z.of_nat (length h) → n = Z.of_nat (length iv) →
  ∃ d, move_hdr (h ++ iv ++ rest) n hl = Some d ∧ qdf_nbuf_pull_head d n = h ++ rest ∧ length d = length (h ++ iv ++ rest).
Proof.
  intros -> ->. unfold move_hdr. rewrite (proj2 (Z.leb_le _ _)) by (rewrite !length_app; lia).
  eexists. split; [reflexivity|]. split; [|by rewrite length_zwrite].
  assert (zread (h ++ iv ++ rest) 0 (Z.of_nat (length h)) = h) as ->.
  { rewrite zread_app_l by lia. apply zread_0_all. lia. }
  rewrite pull_head_drop by (rewrite length_zwrite, !length_app; lia). unfold zwrite. rewrite Nat2Z.id.
  rewrite drop_inserts_at by (rewrite !length_app; lia). f_equal.
  rewrite Nat.add_comm, <- drop_drop, drop_app_length, drop_app_length. done.
Qed.

Lemma has_extiv_spec h iv rest :
  Z.of_nat (length iv) = 8 → has_extiv (h ++ iv ++ rest) (Z.of_nat (length h)) =
  Some (negb (Z.land (zget iv IEEE80211_WEP_IVLEN) IEEE80211_WEP_EXTIV =? 0)).
Proof.
  intros Hl. unfold has_extiv. change IEEE80211_WEP_IVLEN with 3. rewrite (proj2 (Z.ltb_lt _ _)) by (rewrite !length_app; lia).
  do 3 f_equal. unfold zget. rewrite !list_lookup_total_alt, lookup_app_r by lia. rewrite lookup_app_l by lia. do 2 f_equal. f_equal. lia.
Qed.

Lemma trim_app d tr n : n = Z.of_nat (length tr) → qdf_nbuf_trim_tail (d ++ tr) n = d.
Proof.
  intros ->. rewrite trim_tail_take by (rewrite length_app; lia). rewrite Nat2Z.id. apply take_app_length'. rewrite length_app. lia.
Qed.

(** The body of the loop for any kind of key. *)
Definition decap (t : htt_sec_type) (hl : Z) d : option (list Z * bool) :=
  match decap_of t hl with Some f => f d | None => Some (d, true) end.

Lemma decap_spec t h g hl :
  hl = Z.of_nat (length h) → frag_ok t g → decap t hl (frag_body h g) = Some (h ++ fg_payload g, true).
Proof.
  intros -> (Hiv & Htr & _ & Hx). destruct g as [iv p tr fcs]. cbn [fg_iv fg_payload fg_trailer] in *. unfold frag_body, decap. cbn [fg_iv fg_payload fg_trailer].
  assert (needs_extiv t = true → Z.of_nat (length iv) = 8 → ∀ rest, has_extiv (h ++ iv ++ rest) (Z.of_nat (length h)) = Some true) as He.
  { intros Ht H8 rest. rewrite has_extiv_spec by done. specialize (Hx Ht). by rewrite (proj2 (Z.eqb_neq _ _)). }
  assert (∀ n rest, n = Z.of_nat (length iv) → ∃ d, move_hdr (h ++ iv ++ rest) n (Z.of_nat (length h)) = Some d ∧ qdf_nbuf_pull_head d n = h ++ rest) as Hm.
  { intros n rest Hn. destruct (move_pull h iv rest _ n eq_refl Hn) as (d & ? & ? & _). by exists d. }
  destruct t; cbn [decap_of cipher_fields fst snd] in *.
  1,8: by (destruct iv, tr; [|done..]; cbn; rewrite app_nil_r).
  1-3: unfold ol_rx_frag_wep_decap; destruct (Hm _ (p ++ tr) (eq_sym Hiv)) as (d & -> & E); cbn [mbind option_bind];
    by rewrite E, app_assoc, trim_app.
  1-2: unfold ol_rx_frag_tkip_decap; rewrite He by done; cbn [mbind option_bind negb];
    destruct (Hm _ (p ++ tr) (eq_sym Hiv)) as (d & -> & E); cbn [mbind option_bind]; by rewrite E, app_assoc, trim_app.
  unfold ol_rx_frag_ccmp_demic. rewrite He by done. cbn [mbind option_bind negb].
  rewrite (app_assoc iv), (app_assoc h), trim_app by done.
  unfold ol_rx_frag_ccmp_decap. rewrite <- (app_nil_r p), He by done. cbn [mbind option_bind negb].
  destruct (Hm _ (p ++ []) (eq_sym Hiv)) as (d & -> & E). cbn [mbind option_bind]. by rewrite E.
Qed.
End decap.

(** ** The loops of [ol_rx_defrag] *)
Section loops.
Context `{NbufOk}.
Implicit Types (s : fragState) (l : list Z).

(** Only the bytes of the buffers [l] have changed, to [g]. *)
Definition rewritten l (g : Z → option (list Z)) s s' : Prop :=
  fr_rx s' = fr_rx s ∧ fr_wait s' = fr_wait s ∧ (∀ m, m ∈ l → fr_data s' !! m = g m) ∧
  (∀ m, m ∉ l → fr_data s' !! m = fr_data s !! m).

Lemma set_data_same s m d : fr_data s !! m = Some d → rewritten [m] (λ _, Some d) s s.
Proof. intros Hd. split_and!; [done|done|by intros x ->%list_elem_of_singleton|done]. Qed.

Lemma decap_loop_spec fuel t hl f s l p (g : Z → list Z) :
  decap_of t hl = Some f → chain (links s) p l →
  (∀ m, m ∈ l → ∃ d, fr_data s !! m = Some d ∧ decap t hl d = Some (g m, true)) → (length l <= fuel)%nat →
  ∃ s', decap_loop fuel f s p = Some (s', true) ∧ rewritten l (λ m, Some (g m)) s s'.
Proof.
  intros Hf. revert fuel s p. induction l as [|m l IH]; intros fuel s p Hc Hd Hfu.
  - unfold chain in Hc. apply lseg_nil in Hc as ->. exists s. split; [by destruct fuel|]. split_and!; [done|done|set_solver|done].
  - pose proof (chain_NoDup _ _ _ Hc) as [Hm _]%NoDup_cons. destruct Hc as [-> Hc].
    destruct fuel as [|fuel]; [cbn in Hfu; lia|]. destruct (Hd m ltac:(by left)) as (d & Ed & Eg). unfold decap in Eg. rewrite Hf in Eg.
    cbn [decap_loop]. rewrite Ed. cbn [mbind option_bind]. rewrite Eg. cbn [mbind option_bind]. set (s1 := set_data s m (g m)).
    assert (∀ x, x ≠ m → fr_data s1 !! x = fr_data s !! x) as H1 by (intros x Hx; by apply lookup_insert_ne).
    destruct (IH fuel s1 (frag_next s m) Hc) as (s' & E & Hr1 & Hr2 & Hr3 & Hr4); [|cbn in Hfu; lia|].
    { intros x Hx. rewrite H1 by (intros ->; done). apply Hd. by right. }
    exists s'. split; [exact E|]. split_and!; [done|done| |].
    + intros x [->|Hx]%elem_of_cons; [|by apply Hr3]. rewrite Hr4 by done. apply lookup_insert_eq.
    + intros x [Hxm Hxl]%not_elem_of_cons. by rewrite Hr4, H1.
Qed.

(** Whatever the kind of key. *)
Lemma decap_list_spec fuel t hl s l p (g : Z → list Z) :
  chain (links s) p l → (∀ m, m ∈ l → ∃ d, fr_data s !! m = Some d ∧ decap t hl d = Some (g m, true)) → (length l <= fuel)%nat →
  ∃ s', match decap_of t hl with Some f => decap_loop fuel f s p | None => Some (s, true) end = Some (s', true) ∧
    rewritten l (λ m, Some (g m)) s s'.
Proof.
  intros Hc Hd Hfu. destruct (decap_of t hl) as [f|] eqn:Ef; [by eapply decap_loop_spec|].
  exists s. split; [done|]. split_and!; [done|done| |done].
  intros m Hm. destruct (Hd m Hm) as (d & Ed & Eg). unfold decap in Eg. rewrite Ef in Eg. by simplify_eq.
Qed.

(** The state but for buffers, links and events. *)
Definition same_peer s s' : Prop :=
  fr_rx s' = fr_rx s <| nb_next := links s' |> <| rx_events := rx_events (fr_rx s') |> ∧ fr_wait s' = fr_wait s.

Lemma recombine_loop_spec fuel s b l p hs a (pay : Z → list Z) :
  (∀ x y, qdf_nbuf_cat x y ≠ None) → chain (links s) p l → b ∉ l → fr_data s !! b = Some a →
  (∀ m, m ∈ l → ∃ h, fr_data s !! m = Some (h ++ pay m) ∧ Z.of_nat (length h) = hs) → (length l <= fuel)%nat →
  ∃ s', recombine_loop fuel s b p hs = Some (s', true) ∧ same_peer s s' ∧
    rx_events (fr_rx s') = rx_events (fr_rx s) ++ (DescFree <$> l) ∧ fr_data s' !! b = Some (a ++ concat (pay <$> l)) ∧
    (∀ x, x ∉ l → links s' x = links s x) ∧ (∀ x, x ∉ b :: l → fr_data s' !! x = fr_data s !! x).
Proof.
  intros Hcat. revert fuel s p a. induction l as [|m l IH]; intros fuel s p a Hc Hb Ha Hd Hfu.
  - unfold chain in Hc. apply lseg_nil in Hc as ->. exists s. split; [by destruct fuel|]. cbn. rewrite !app_nil_r.
    split_and!; [split; [by destruct s as [[]]|done]|done..].
  - pose proof (chain_NoDup _ _ _ Hc) as [Hm _]%NoDup_cons. destruct Hc as [-> Hc]. apply not_elem_of_cons in Hb as [Hbm Hb].
    destruct fuel as [|fuel]; [cbn in Hfu; lia|]. destruct (Hd m ltac:(by left)) as (h & Em & Eh).
    cbn [recombine_loop]. set (s1 := frag_set_next (frag_emit s (DescFree m)) m None).
    change (fr_data s1) with (fr_data s). rewrite Em. cbn [mbind option_bind].
    rewrite pull_head_drop by (rewrite length_app; lia). rewrite <- Eh, Nat2Z.id, drop_app_length. unfold ol_rx_defrag_concat.
    assert (fr_data (set_data s1 m (pay m)) = <[m := pay m]> (fr_data s)) as Es by done.
    rewrite Es, (lookup_insert_ne _ m b), Ha by congruence. cbn [mbind option_bind].
    rewrite lookup_insert_eq. cbn [mbind option_bind]. destruct (qdf_nbuf_cat a (pay m)) as [c|] eqn:Ec; [|by apply Hcat in Ec].
    apply cat_app in Ec as ->. cbn [mbind option_bind]. set (s2 := set_data _ _ _ <| fr_data ::= _ |>).
    assert (fr_data s2 !! b = Some (a ++ pay m)) as Hb2.
    { unfold s2, set_data. cbn. rewrite lookup_delete_ne by congruence. apply lookup_insert_eq. }
    assert (∀ x, x ≠ m → x ≠ b → fr_data s2 !! x = fr_data s !! x) as Hx2.
    { intros x H1 H2. unfold s2, set_data. cbn. rewrite lookup_delete_ne, !lookup_insert_ne by congruence. done. }
    destruct (IH fuel s2 (frag_next s m) (a ++ pay m)) as (s' & E & [Hp1 Hp2] & Hev & Hb' & Hl & Hx'); [|done|done| |cbn in Hfu; lia|].
    { eapply chain_frame; [|exact Hc]. intros x Hx. symmetry. apply nx_upd_ne. intros ->. done. }
    { intros x Hx. rewrite Hx2; [apply Hd; by right|intros ->; done|intros ->; done]. }
    exists s'. change (frag_next (frag_emit s (DescFree m)) m) with (frag_next s m). rewrite Eh in *. split; [exact E|]. split_and!.
    + split; [|done]. rewrite Hp1 at 1. by destruct s as [[]].
    + rewrite Hev. cbn. by rewrite <- app_assoc.
    + rewrite Hb'. cbn [fmap list_fmap concat]. by rewrite app_assoc.
    + intros x [Hxm Hxl]%not_elem_of_cons. rewrite Hl by done. by apply nx_upd_ne.
    + intros x Hx. rewrite Hx'; [apply Hx2|]; set_solver.
Qed.
End loops.

(** ** The replay check, fragment by fragment *)
Section replay.
Context `{NbufOk}.
Context (desc : Z → rx_desc) (sec : rx_security) (opmode : wlan_op_mode).
Implicit Types (s : fragState) (r : rxState) (l : list Z).

(** The comparison in use for multicast or unicast frames, if any. *)
Definition pn_mode (mc : bool) r : option rx_pn_cmp :=
  if negb (fw_pn_check r =? 0) || bool_decide (opmode = wlan_op_mode_ibss) then None
  else let '(pn_len, cmp) := rx_pn (if mc then sec_mcast sec else sec_ucast sec) in if pn_len =? 0 then None else cmp.

Definition one_ok (mode : option rx_pn_cmp) (mc : bool) (st : bool * (Z * Z)) (c : Z) : bool :=
  match mode with Some cmp => pn_accept desc opmode cmp (negb mc) st [c] | None => true end.
Definition one_next (mode : option rx_pn_cmp) (mc : bool) (st : bool * (Z * Z)) (c : Z) : bool * (Z * Z) :=
  match mode with Some cmp => pn_next desc opmode cmp (negb mc) st [c] | None => st end.

(** The fragments in front of the first replay, and those from it on. *)
Fixpoint pn_split (mode : option rx_pn_cmp) (mc : bool) (st : bool * (Z * Z)) l : list Z * list Z :=
  match l with
  | [] => ([], [])
  | c :: l' =>
      if one_ok mode mc st c
      then let '(l1, l2) := pn_split mode mc (one_next mode mc st c) l' in (c :: l1, l2)
      else ([], l)
  end.

Lemma pn_split_app mode mc st l : let '(l1, l2) := pn_split mode mc st l in l = l1 ++ l2.
Proof.
  revert st. induction l as [|c l IH]; intros st; [done|]. cbn [pn_split]. destruct (one_ok mode mc st c); [|done].
  specialize (IH (one_next mode mc st c)). destruct (pn_split mode mc _ l). by rewrite IH.
Qed.

Lemma check_one fuel r tid c (mc := is_mcast (desc c)) :
  nb_next r c = None → completes_mpdu (desc c) = true → 0 <= tid < OL_TXRX_NUM_EXT_TIDS → pn_sized r → (0 < fuel)%nat →
  ∃ r', ol_rx_pn_check_base desc sec opmode fuel r tid c =
      Some (r', if one_ok (pn_mode mc r) mc (pn_state r tid) c then Some c else None) ∧
    (∀ x, x ≠ c → nb_next r' x = nb_next r x) ∧ fw_pn_check r' = fw_pn_check r ∧ pn_sized r' ∧
    pn_state r' tid = one_next (pn_mode mc r) mc (pn_state r tid) c ∧
    tids_rx_reorder r' = tids_rx_reorder r ∧ tids_last_seq r' = tids_last_seq r ∧
    rx_events r' = rx_events r ++ if one_ok (pn_mode mc r) mc (pn_state r tid) c then [] else drop_events tid [c].
Proof.
  intros Hn Hm Ht Hs Hf. unfold pn_mode. destruct (negb (fw_pn_check r =? 0) || _) eqn:Eoff.
  { exists r. unfold ol_rx_pn_check_base. rewrite Eoff. cbn. rewrite app_nil_r. by split_and!. }
  destruct (rx_pn _) as [len cmp] eqn:Er. assert (rx_pn (if negb mc then sec_ucast sec else sec_mcast sec) = (len, cmp)) as Er' by (by destruct mc).
  destruct (len =? 0) eqn:El.
  { exists r. unfold ol_rx_pn_check_base. fold mc. rewrite Eoff, Er', El. cbn. rewrite app_nil_r. by split_and!. }
  destruct cmp as [cmp|]; [|by destruct (if mc then _ else _); cbn in Er; simplify_eq].
  apply orb_false_iff in Eoff as [Hfw%negb_false_iff%Z.eqb_eq Ho%bool_decide_eq_false].
  pose proof (check_base_spec desc sec opmode fuel r tid (negb mc) _ len cmp [[c]] c eq_refl eq_refl Er' Ho Hfw Ht Hs) as HC.
  cbn [concat app pn_filter one_ok one_next] in HC |- *.
  assert (chain (nb_next r) (Some c) [c]) as Hc by (split; [done|exact Hn]). specialize (HC Hc).
  specialize (HC ltac:(constructor; [exists [], c; split_and!; [done|done|constructor]|constructor]) (NoDup_singleton c) ltac:(cbn; lia)).
  destruct (pn_accept desc opmode cmp (negb mc) (pn_state r tid) [c]) eqn:Ea; cbn [concat app hd_error fmap list_fmap] in HC;
    destruct HC as (r' & E & _ & Hst & Hs' & (F1 & F2 & F3 & F4 & F5) & Ev); exists r'; rewrite Ev, E, ?app_nil_r; split_and!; try done.
  all: intros x Hx; apply F1; set_solver.
Qed.

Lemma relink s m r' x :
  (∀ y, y ≠ m → nb_next r' y = links s y) → nx_upd (nb_next r') m (links s m) x = links s x.
Proof. intros Hl. destruct (decide (x = m)) as [->|Hx]; [by rewrite nx_upd_eq|by rewrite nx_upd_ne, Hl]. Qed.

(** The fragments in front of a replay are cut off and freed. *)
Lemma free_checked fuel s c acc l r' :
  chain (links s) (hd_error (acc ++ c :: l)) (acc ++ c :: l) → (∀ y, y ≠ c → nb_next r' y = links s y) → (length acc <= fuel)%nat →
  let s0 := frag_set_next s c None <|fr_rx := r'|> in
  ∃ s2, match last acc with
        | Some p => frames_free fuel (frag_set_next s0 p None) (Some (hd 0 (acc ++ c :: l)))
        | None => Some s0 end = Some s2 ∧
    (∀ x, x ∈ l → links s2 x = links s x) ∧ fr_wait s2 = fr_wait s ∧ tids_rx_reorder (fr_rx s2) = tids_rx_reorder r' ∧
    tids_last_seq (fr_rx s2) = tids_last_seq r' ∧ rx_events (fr_rx s2) = rx_events r' ++ (FrameFree <$> acc).
Proof.
  intros Hc Fl Hf s0. pose proof (chain_NoDup _ _ _ Hc) as Hnd. apply NoDup_app in Hnd as (Hna & Hx & [Hcl _]%NoDup_cons).
  apply lseg_app in Hc as (q & Hacc & -> & _). destruct (last acc) as [p|] eqn:Ep.
  - assert (p ∈ acc) as Hp by by apply last_Some_elem_of. rewrite (frames_free_spec fuel _ _ acc).
    + eexists. split; [reflexivity|]. split_and!; try done. intros x Hxl. change (nx_upd (nb_next r') p None x = links s x).
      assert (x ≠ p) by (intros ->; apply (Hx p Hp); by right). assert (x ≠ c) by (intros ->; done). by rewrite nx_upd_ne, Fl.
    + assert (hd_error acc = Some (hd 0 (acc ++ c :: l))) as <- by (by destruct acc).
      apply linked_end; [|done|done]. exists (Some c). destruct acc as [|a acc]; [done|].
      eapply lseg_frame; [|exact Hacc]. intros x Hxa. symmetry. apply Fl. intros ->. apply (Hx c Hxa). by left.
    + done.
  - apply last_None in Ep as ->. eexists. split; [reflexivity|]. split_and!; try done; [|by rewrite app_nil_r].
    intros x Hxl. apply Fl. intros ->. done.
Qed.

(** The loop, when the fragments [acc] have been checked: either all the others are
    accepted and lose their checksums, or those before and behind the first
    replay are freed with it. *)
Lemma pn_loop_spec fuel s tid acc l mc :
  0 <= tid < OL_TXRX_NUM_EXT_TIDS → pn_sized (fr_rx s) → chain (links s) (hd_error (acc ++ l)) (acc ++ l) →
  (∀ m, m ∈ l → is_mcast (desc m) = mc ∧ completes_mpdu (desc m) = true ∧ is_Some (fr_data s !! m)) →
  (length acc + 2 * length l <= fuel)%nat →
  let '(l1, l2) := pn_split (pn_mode mc (fr_rx s)) mc (pn_state (fr_rx s) tid) l in
  ∃ s', defrag_pn_loop desc sec opmode fuel s tid (hd 0 (acc ++ l)) (last acc) (hd_error l) = Some (s', bool_decide (l2 = [])) ∧
    fr_wait s' = fr_wait s ∧ tids_rx_reorder (fr_rx s') = tids_rx_reorder (fr_rx s) ∧
    tids_last_seq (fr_rx s') = tids_last_seq (fr_rx s) ∧
    match l2 with
    | [] => (∀ x, links s' x = links s x) ∧ rx_events (fr_rx s') = rx_events (fr_rx s) ∧
            rewritten l (λ m, (λ d, qdf_nbuf_trim_tail d DEFRAG_IEEE80211_FCS_LEN) <$> fr_data s !! m) (s <| fr_rx := fr_rx s' |>) s'
    | c :: l3 => rx_events (fr_rx s') = rx_events (fr_rx s) ++ drop_events tid [c] ++ (FrameFree <$> acc ++ l1 ++ l3)
    end.
Proof.
  intros Ht. revert fuel s acc. induction l as [|c l IH]; intros fuel s acc Hs Hc Hd Hf; cbn [pn_split].
  - exists s. rewrite bool_decide_eq_true_2 by done. split_and!; try done; [by destruct fuel|].
    split_and!; [by destruct s|done|set_solver|done].
  - destruct fuel as [|fuel]; [cbn in Hf; lia|]. destruct (Hd c ltac:(by left)) as (Hmc & Hcm & d & Ed).
    pose proof (chain_NoDup _ _ _ Hc) as Hnd. pose proof Hc as Hc0. apply lseg_app in Hc0 as (q & Hacc & -> & Hl).
    apply NoDup_app in Hnd as (Hna & Hx & [Hcl Hnl]%NoDup_cons).
    cbn [defrag_pn_loop hd_error]. set (r0 := fr_rx (frag_set_next s c None)).
    assert (nb_next r0 c = None) as Hn by apply nx_upd_eq.
    destruct (check_one (S fuel) r0 tid c Hn Hcm Ht Hs ltac:(lia)) as (r' & E & F1 & F2 & F3 & F4 & F5 & F6 & Ev).
    rewrite Hmc in *. change (pn_mode mc r0) with (pn_mode mc (fr_rx s)) in *. change (pn_state r0 tid) with (pn_state (fr_rx s) tid) in *.
    rewrite E. cbn [mbind option_bind]. change (fr_data (frag_set_next s c None <|fr_rx := r'|>)) with (fr_data s).
    assert (∀ y, y ≠ c → nb_next r' y = links s y) as Fl by (intros y Hy; rewrite F1 by done; by apply nx_upd_ne).
    destruct (one_ok _ mc _ c) eqn:Eok.
    + rewrite Ed. cbn [mbind option_bind]. set (s1 := frag_set_next (set_data _ c _) c (frag_next s c)).
      assert (∀ x, links s1 x = links s x) as Hl1 by (intros x; by apply relink).
      assert (∀ x, x ≠ c → fr_data s1 !! x = fr_data s !! x) as Hd1 by (intros x Hxc; apply lookup_insert_ne; congruence).
      assert ((acc ++ [c]) ++ l = acc ++ c :: l) as Eapp by by rewrite <- app_assoc.
      specialize (IH fuel s1 (acc ++ [c]) F3). rewrite Eapp in IH.
      assert (chain (links s1) (hd_error (acc ++ c :: l)) (acc ++ c :: l)) as Hc1 by (eapply chain_frame; [|exact Hc]; done).
      specialize (IH Hc1). change (pn_state (fr_rx s1) tid) with (pn_state r' tid) in IH. rewrite F4 in IH.
      assert (pn_mode mc (fr_rx s1) = pn_mode mc (fr_rx s)) as Em by (unfold pn_mode; change (fw_pn_check (fr_rx s1)) with (fw_pn_check r'); by rewrite F2).
      rewrite Em in IH. rewrite last_snoc in IH.
      assert (frag_next s c = hd_error l) as -> by (change (frag_next s c) with (links s c); destruct l; [exact Hl|apply Hl]).
      destruct (pn_split _ mc _ l) as [l1 l2]. destruct IH as (s' & El & W & R & Q & IH).
      { intros m Hm. rewrite Hd1 by (intros ->; done). apply Hd. by right. }
      { rewrite length_app. cbn in *. lia. }
      exists s'. rewrite W, R, Q. split_and!; [exact El|done|exact F5|exact F6|].
      change (rx_events (fr_rx s1)) with (rx_events r') in IH. rewrite Ev, app_nil_r in IH.
      destruct l2 as [|c2 l3].
      * destruct IH as (IH1 & IH2 & I1 & I2 & I3 & I4). split_and!; [intros x; by rewrite IH1|done|].
        split_and!; [done|done| |].
        -- intros m [->|Hm]%elem_of_cons; [|by rewrite I3, Hd1 by (done || intros ->; done)].
           rewrite I4 by done. unfold s1. cbn. rewrite Ed. apply lookup_insert_eq.
        -- intros m [Hmc' Hml]%not_elem_of_cons. rewrite I4 by done. cbn. by apply Hd1.
      * rewrite IH. change (rx_events r0) with (rx_events (fr_rx s)). by rewrite <- !app_assoc.
    + destruct (free_checked (S fuel) s c acc l r' Hc Fl ltac:(cbn in Hf; lia)) as (s2 & E2 & L2 & W2 & R2 & Q2 & V2).
      rewrite E2. cbn [mbind option_bind]. rewrite (frames_free_spec (S fuel) s2 _ l); [|eapply chain_frame; [|exact Hl]; intros x Hxl; symmetry; by apply L2|cbn in Hf; lia].
      cbn [mbind option_bind]. eexists. split; [reflexivity|]. cbn. rewrite W2, R2, Q2, V2, Ev, F5, F6. split_and!; try done.
      rewrite <- !app_assoc, fmap_app. done.
Qed.
End replay.

(** ** The whole frame *)
Section frames.
Context `{NbufOk}.
Context (desc : Z → rx_desc) (sec : rx_security) (opmode : wlan_op_mode).
Implicit Types (s : fragState) (l : list Z).

Lemma hdrsize_max d : ol_rx_frag_hdrsize d <= 36.
Proof. unfold ol_rx_frag_hdrsize. change sizeof_ieee80211_frame with 24. change IEEE80211_ADDR_LEN with 6. repeat case_match; lia. Qed.

Lemma qos_has_seq_app hdr body : (24 <= length hdr)%nat → DEFRAG_IEEE80211_QOS_HAS_SEQ (hdr ++ body) = DEFRAG_IEEE80211_QOS_HAS_SEQ hdr.
Proof. intros Hl. unfold DEFRAG_IEEE80211_QOS_HAS_SEQ, i_fc. by rewrite zget_app_l by lia. Qed.

Lemma qos_decap_spec hdr body :
  plain_hdr hdr → ol_rx_defrag_qos_decap (hdr ++ body) (Z.of_nat (length hdr)) = Some (without_qos hdr body).
Proof.
  intros [Hlen _ _]. pose proof (hdrsize_min hdr) as Hmin. pose proof (hdrsize_max hdr) as Hmax.
  unfold ol_rx_defrag_qos_decap, without_qos. rewrite qos_has_seq_app by lia.
  destruct (DEFRAG_IEEE80211_QOS_HAS_SEQ hdr); [|done]. unfold i_fc. rewrite zget_app_l by lia.
  set (b := negb (Z.land (zget hdr 1) _ =? 0)). set (n := if b then 6%nat else 2%nat).
  assert ((if b then sizeof_ieee80211_qoscntl + sizeof_ieee80211_htc else sizeof_ieee80211_qoscntl) = Z.of_nat n) as -> by by destruct b.
  assert (n <= 6)%nat as Hn by (unfold n; destruct b; lia). rewrite u16_small by (red; lia).
  set (h := take (length hdr - n) hdr).
  assert (length h = length hdr - n)%nat as Hh by (unfold h; rewrite length_take; lia).
  destruct (move_pull h (drop (length hdr - n) hdr) body (Z.of_nat (length hdr) - Z.of_nat n) (Z.of_nat n)) as (d & E & Ep & _);
    [lia|rewrite length_drop; lia|].
  rewrite app_assoc in E. unfold h in E at 1. rewrite take_drop in E. rewrite E. cbn [mbind option_bind].
  rewrite Ep, zget_app_l, zset_app_l by lia. done.
Qed.

Lemma get_hdr s m d : fr_data s !! m = Some d → (24 <= length d)%nat → ol_rx_frag_get_mac_hdr s m = Some d.
Proof.
  intros Hd Hl. unfold ol_rx_frag_get_mac_hdr. rewrite Hd. cbn [mbind option_bind].
  rewrite (proj2 (Z.ltb_ge _ _)); [done|]. change sizeof_ieee80211_frame with 24. lia.
Qed.

(** Buffer [m] holds a fragment of the frame with header [hdr]. *)
Definition holds_fragment (hdr : list Z) (t : htt_sec_type) s (m : Z) (g : fragment) (i : Z) (more : bool) : Prop :=
  fr_data s !! m = Some (frag_bytes (frag_hdr hdr i more) g) ∧ 0 <= i < 16 ∧ frag_ok t g.

Lemma defrag_finish_spec fuel s tid h l hdr g0 i more (pay : Z → list Z) :
  (∀ x y, qdf_nbuf_cat x y ≠ None) → plain_hdr hdr → 0 <= i < 16 → chain (links s) (Some h) (h :: l) →
  fr_data s !! h = Some (frag_hdr hdr i more ++ g0) →
  (∀ m, m ∈ l → ∃ k, fr_data s !! m = Some (k ++ pay m) ∧ length k = length hdr) → (length l <= fuel)%nat →
  ∃ s', defrag_finish false fuel s tid h (Z.of_nat (length hdr)) None = Some s' ∧ same_peer s s' ∧
    fr_data s' !! h = Some (without_qos hdr (g0 ++ concat (pay <$> l))) ∧
    rx_events (fr_rx s') = rx_events (fr_rx s) ++ (DescFree <$> l) ++ [FwdCheck tid (Some h)] ∧
    (∀ x, x ∉ h :: l → links s' x = links s x ∧ fr_data s' !! x = fr_data s !! x).
Proof.
  intros Hcat Hp Hi Hc Hh Hd Hf. pose proof (chain_NoDup _ _ _ Hc) as [Hhl _]%NoDup_cons. destruct Hc as [_ Hc].
  pose proof (ph_len _ Hp) as Hlen. pose proof (hdrsize_min hdr) as Hmin.
  unfold defrag_finish, ol_rx_defrag_decap_recombine. set (s0 := frag_set_next s h None).
  assert (∀ x, x ∈ l → links s x = links s0 x) as Hl0 by (intros x Hx; symmetry; apply nx_upd_ne; intros ->; done).
  destruct (recombine_loop_spec fuel s0 h l (frag_next s h) (Z.of_nat (length hdr)) (frag_hdr hdr i more ++ g0) pay Hcat) as
    (s1 & E & [Hr Hw] & Hev & Hb & Hl & Hx); [eapply chain_frame; [exact Hl0|exact Hc]|done|exact Hh| |done|].
  { intros m Hm. destruct (Hd m Hm) as (k & Ek & Hk). exists k. split; [exact Ek|]. by rewrite Hk. }
  rewrite E. cbn [mbind option_bind negb]. rewrite <- app_assoc in Hb.
  destruct (frag_hdr_facts hdr i more (g0 ++ concat (pay <$> l)) Hp Hi) as (_ & _ & _ & _ & Hclr & Hln).
  rewrite (get_hdr s1 h _ Hb Hln). cbn [mbind option_bind negb]. rewrite Hclr. set (body := g0 ++ _) in *.
  rewrite (get_hdr (set_data s1 h (hdr ++ body)) h (hdr ++ body)); [|apply lookup_insert_eq|rewrite length_app; lia].
  cbn [mbind option_bind negb].
  assert ((if DEFRAG_IEEE80211_QOS_HAS_SEQ (hdr ++ body) then ol_rx_defrag_qos_decap (hdr ++ body) (Z.of_nat (length hdr))
           else Some (hdr ++ body)) = Some (without_qos hdr body)) as Eq.
  { rewrite <- (qos_decap_spec hdr body Hp). unfold ol_rx_defrag_qos_decap. by destruct (DEFRAG_IEEE80211_QOS_HAS_SEQ _). }
  rewrite Eq. cbn [mbind option_bind]. eexists. split; [reflexivity|]. split_and!.
  - split; [|exact Hw]. cbn. rewrite Hr. by destruct s as [[]].
  - cbn. rewrite !lookup_insert_eq. done.
  - cbn. rewrite Hev. by rewrite <- app_assoc.
  - intros x Hx'. split.
    + cbn. change (links s1 x = links s x). rewrite Hl by set_solver. apply nx_upd_ne. set_solver.
    + cbn. rewrite !lookup_insert_ne by set_solver. by rewrite Hx.
Qed.

Lemma defrag_spec key full fuel s tid h l hdr (g : Z → fragment) (mc := is_mcast (desc h))
    (ty := if mc then sec_mcast sec else sec_ucast sec) :
  (∀ x y, qdf_nbuf_cat x y ≠ None) → plain_hdr hdr → ty ≠ htt_sec_type_tkip →
  0 <= tid < OL_TXRX_NUM_EXT_TIDS → pn_sized (fr_rx s) → chain (links s) (Some h) (h :: l) →
  (∀ m, m ∈ h :: l → is_mcast (desc m) = mc ∧ completes_mpdu (desc m) = true ∧ ∃ i more, holds_fragment hdr ty s m (g m) i more) →
  (pn_split desc opmode (pn_mode sec opmode mc (fr_rx s)) mc (pn_state (fr_rx s) tid) (h :: l)).2 = [] →
  (2 * length (h :: l) <= fuel)%nat →
  ∃ s', ol_rx_defrag desc sec opmode key false full false fuel s tid h = Some s' ∧
    fr_data s' !! h = Some (without_qos hdr (concat ((λ m, fg_payload (g m)) <$> h :: l))) ∧
    rx_events (fr_rx s') = rx_events (fr_rx s) ++ (DescFree <$> l) ++ [FwdCheck tid (Some h)] ∧
    fr_wait s' = fr_wait s ∧ tids_rx_reorder (fr_rx s') = tids_rx_reorder (fr_rx s) ∧
    (∀ x, x ∉ h :: l → links s' x = links s x ∧ fr_data s' !! x = fr_data s !! x).
Proof.
  intros Hcat Hp Hty Ht Hs Hc Hg Hpn Hf. pose proof (ph_len _ Hp) as Hlen. pose proof (hdrsize_min hdr) as Hmin.
  unfold ol_rx_defrag.
  pose proof (pn_loop_spec desc sec opmode fuel s tid [] (h :: l) mc Ht Hs Hc) as HP. cbn [app last hd hd_error] in HP.
  destruct (pn_split _ _ _ _ _ _) as [l1 l2]. cbn [snd] in Hpn. subst l2.
  destruct HP as (s1 & E1 & W1 & R1 & Q1 & L1 & V1 & _ & _ & D1 & D1'); [|cbn in *; lia|].
  { intros m Hm. destruct (Hg m Hm) as (? & ? & i & more & Ed & _). split_and!; [done..|by eexists]. }
  rewrite E1. rewrite bool_decide_eq_true_2 by done. cbn [mbind option_bind negb].
  assert (∀ m, m ∈ h :: l → ∃ i more, 0 <= i < 16 ∧ frag_ok ty (g m) ∧ fr_data s1 !! m = Some (frag_body (frag_hdr hdr i more) (g m))) as Hg1.
  { intros m Hm. destruct (Hg m Hm) as (_ & _ & i & more & Ed & Hi & Hok). exists i, more. split_and!; [lia|lia|done|].
    rewrite D1, Ed by done. cbn. unfold frag_bytes. rewrite trim_app; [done|]. by destruct Hok as (_ & _ & -> & _). }
  destruct (Hg1 h ltac:(by left)) as (i & more & Hi & _ & Eh).
  destruct (frag_hdr_facts hdr i more (fg_iv (g h) ++ fg_payload (g h) ++ fg_trailer (g h)) Hp Hi) as (_ & _ & Hsz & _ & _ & Hln).
  rewrite (get_hdr s1 h _ Eh Hln). cbn [mbind option_bind]. change (ol_rx_frag_hdrsize (frag_body (frag_hdr hdr i more) (g h)) = Z.of_nat (length hdr)) in Hsz. rewrite Hsz. fold mc. fold ty.
  set (g1 := λ m, take (length hdr) (bytes s1 m) ++ fg_payload (g m)).
  assert (∀ m i more, fr_data s1 !! m = Some (frag_body (frag_hdr hdr i more) (g m)) → g1 m = frag_hdr hdr i more ++ fg_payload (g m)) as Eg1.
  { intros m i' more' Em. unfold g1, bytes. rewrite Em. cbn. unfold frag_body. rewrite take_app_length' by by rewrite length_frag_hdr. done. }
  assert (chain (links s1) (Some h) (h :: l)) as Hc1 by (eapply chain_frame; [|exact Hc]; done).
  destruct (decap_list_spec fuel ty (Z.of_nat (length hdr)) s1 (h :: l) (Some h) g1 Hc1) as (s2 & -> & R2 & W2 & D2 & D2'); [|cbn in *; lia|].
  { intros m Hm. destruct (Hg1 m Hm) as (i' & more' & Hi' & Hok & Em). eexists. split; [exact Em|].
    rewrite (Eg1 m i' more' Em). apply decap_spec; [by rewrite length_frag_hdr|done]. }
  cbn [mbind option_bind negb]. rewrite decide_False by done.
  destruct (defrag_finish_spec fuel s2 tid h l hdr (fg_payload (g h)) i more (λ m, fg_payload (g m)) Hcat Hp Hi) as
    (s3 & E3 & [R3 W3] & D3 & V3 & O3); [|by rewrite D2, (Eg1 h i more Eh) by (by left)| |cbn in *; lia|].
  { unfold links. rewrite R2. exact Hc1. }
  { intros m Hm. destruct (Hg1 m ltac:(by right)) as (i' & more' & _ & _ & Em). exists (frag_hdr hdr i' more').
    rewrite D2 by (by right). rewrite (Eg1 m i' more' Em). by rewrite length_frag_hdr. }
  exists s3. rewrite E3. split_and!; [done|exact D3|by rewrite V3, R2, V1|by rewrite W3, W2|by rewrite R3, R2|].
  intros x Hx. destruct (O3 x Hx) as [O3l O3d]. rewrite O3l, O3d. unfold links. rewrite R2. rewrite D2', D1' by done. split; [apply L1|done].
Qed.
End frames.

(** ** Arrival in order *)
Section arrival.
Context `{NbufOk}.
Context (desc : Z → rx_desc) (sec : rx_security) (opmode : wlan_op_mode).
Context (key : bool → list Z) (full : bool) (timeout_ms me now : Z).
Implicit Types (s : fragState) (l : list Z).

(** One buffer after the other, no timeouts kept, 802.11 frames. *)
Fixpoint receive (fuel : nat) s (tid seq_num : Z) (ms : list Z) : option fragState :=
  match ms with
  | [] => Some s
  | m :: ms =>
      s ← ol_rx_reorder_store_frag desc sec opmode key false full false false timeout_ms me fuel now s tid seq_num m;
      receive fuel s tid seq_num ms
  end.

(** The buffers [ms] hold the fragments of the frame, in order. *)
Definition fragments_of (hdr : list Z) (t : htt_sec_type) (g : Z → fragment) s (ms : list Z) : Prop :=
  ∀ i m, ms !! i = Some m → holds_fragment hdr t s m (g m) (Z.of_nat i) (bool_decide (S i < length ms)%nat).

Lemma fragment_facts hdr t s m g i more :
  plain_hdr hdr → holds_fragment hdr t s m g i more →
  framed s m ∧ no_of s m = i ∧ more_frag (bytes s m) = more ∧ frame_id (bytes s m) = frame_id hdr.
Proof.
  intros Hp (Hd & Hi & _). unfold frag_bytes, frag_body in Hd. rewrite <- app_assoc in Hd.
  destruct (frag_hdr_facts hdr i more ((fg_iv g ++ fg_payload g ++ fg_trailer g) ++ fg_fcs g) Hp Hi) as (Hno & Hm & _ & Hid & _ & Hl).
  assert (bytes s m = frag_hdr hdr i more ++ (fg_iv g ++ fg_payload g ++ fg_trailer g) ++ fg_fcs g) as Eb by (unfold bytes; by rewrite Hd).
  unfold framed, no_of. rewrite Eb. split_and!; [by apply get_hdr|done..].
Qed.

(** The list and the verdict after the next fragment. *)
Lemma in_order_step hdr t g s a m b :
  plain_hdr hdr → fragments_of hdr t g s (a ++ m :: b) → NoDup (a ++ m :: b) →
  slot_after s a (default 0 (last a)) m = (a ++ [m], m) ∧ frame_whole s a m (a ++ [m], m) = bool_decide (b = []).
Proof.
  intros Hp Hg Hnd.
  assert (∀ i x, (a ++ m :: b) !! i = Some x → framed s x ∧ no_of s x = Z.of_nat i ∧
    more_frag (bytes s x) = bool_decide (S i < length (a ++ m :: b))%nat ∧ frame_id (bytes s x) = frame_id hdr) as HF.
  { intros i x Hx. eapply fragment_facts; [done|]. by apply Hg. }
  destruct (HF (length a) m) as (_ & Hno & Hmore & Hid); [by apply list_lookup_middle|].
  assert (more_frag (bytes s m) = negb (bool_decide (b = []))) as Hmore'.
  { rewrite Hmore, length_app. destruct b; cbn; [apply bool_decide_eq_false_2; lia|apply bool_decide_eq_true_2; lia]. }
  unfold slot_after, frame_whole. destruct a as [|h a]; cbn [kept_list app].
  { split; [done|]. rewrite Hmore', Hno, negb_involutive. apply andb_true_r. }
  destruct (HF 0%nat h eq_refl) as (_ & _ & _ & Hidh). rewrite decide_True by congruence.
  destruct (last (h :: a)) as [t'|] eqn:El; [|by apply last_None in El]. unfold default, id, from_option.
  pose proof El as El'. rewrite last_lookup in El'. cbn [length Nat.pred] in El'.
  destruct (HF (length a) t') as (_ & Hnot & _); [change (h :: a ++ m :: b) with ((h :: a) ++ m :: b); rewrite lookup_app_l; [done|cbn; lia]|].
  unfold spec_insert. rewrite Hno, Hnot. rewrite (proj2 (Z.ltb_lt _ _)) by (cbn; lia).
  apply last_Some in El as [a' Ea]. change (h :: a ++ m :: b) with ((h :: a) ++ m :: b) in Hnd, HF.
  change (h :: a ++ [m]) with ((h :: a) ++ [m]). rewrite Ea in *.
  rewrite upto_split.
  2: { apply NoDup_app in Hnd as [Hnd _]. apply NoDup_app in Hnd as (_ & Hnd & _). intros Hi. apply (Hnd t' Hi). by left. }
  split; [done|]. cbn [fst snd]. rewrite bool_decide_eq_true_2 by set_solver. cbn [andb]. unfold spec_complete. rewrite Hmore', negb_involutive.
  set (l' := (a' ++ [t']) ++ [m]) in *. assert (no_of s <$> drop 1 l' = seqZ 1 (Z.of_nat (length (drop 1 l')))) as Eseq.
  2: { rewrite (bool_decide_eq_true_2 _ Eseq). apply andb_true_r. }
  apply list_eq. intros i. rewrite list_lookup_fmap, lookup_drop.
  destruct (decide (1 + i < length l')%nat) as [Hi|Hi].
  - rewrite lookup_seqZ_lt by (rewrite length_drop; lia).
    destruct (lookup_lt_is_Some_2 _ _ Hi) as [x Ex]. rewrite Ex. cbn. f_equal.
    destruct (HF (1 + i)%nat x) as (_ & -> & _); [|lia].
    change (m :: b) with ([m] ++ b). rewrite app_assoc. fold l'. by apply lookup_app_l_Some.
  - rewrite lookup_ge_None_2 by lia. cbn. symmetry. apply lookup_seqZ_ge. rewrite length_drop. lia.
Qed.

(** The slot of the traffic id holds the list [a], its tail the last element. *)
Definition slot_holds s (tid idx : Z) (a : list Z) : Prop := slot_inv s tid idx a (default 0 (last a)).

Lemma emptied_same s tid idx seq_num single :
  fr_data (emptied tid idx seq_num single s) = fr_data s ∧ rx_events (fr_rx (emptied tid idx seq_num single s)) = rx_events (fr_rx s).
Proof. by destruct single. Qed.

(** One more fragment in order. *)
Lemma store_in_order fuel s tid seq_num hdr ty g a m b :
  let idx := Z.land seq_num (mask_of (fr_rx s) tid) in
  plain_hdr hdr → slot_holds s tid idx a → NoDup (a ++ m :: b) → fragments_of hdr ty g s (a ++ m :: b) → (length a < fuel)%nat →
  ∃ s1, slot_holds s1 tid idx (a ++ [m]) ∧ only_slot tid idx (m :: a) [] s s1 ∧
    ol_rx_reorder_store_frag desc sec opmode key false full false false timeout_ms me fuel now s tid seq_num m =
      if bool_decide (b = [])
      then s2 ← ol_rx_defrag desc sec opmode key false full false fuel s1 tid (hd 0 (a ++ [m]));
           Some (emptied tid idx seq_num (bool_decide (a = [])) s2)
      else Some s1.
Proof.
  intros idx Hp Hsl Hnd Hg Hf.
  assert (∀ x, x ∈ a ++ m :: b → framed s x ∧ frame_id (bytes s x) = frame_id hdr) as HF.
  { intros x [i Hi]%list_elem_of_lookup. destruct (fragment_facts hdr ty s x _ _ _ Hp (Hg i x Hi)) as (? & _ & _ & ?). done. }
  assert (m ∈ a ++ m :: b) as Hm by (apply elem_of_app; right; by left).
  destruct (in_order_step hdr ty g s a m b Hp Hg Hnd) as [Ea Ew]. apply NoDup_app in Hnd as (_ & Hx & _).
  assert (m ∉ a) as Hma by (intros Hma; apply (Hx m Hma); by left). destruct (HF m Hm) as [Hfm Hidm].
  pose proof (store_spec desc sec opmode key false full false false timeout_ms me fuel now s tid seq_num a (default 0 (last a)) m (fr_wait s) (fr_wait s)
    ltac:(done) Hsl Hma Hfm Hf) as HS.
  rewrite Ea, Ew in HS. destruct HS as (s1 & Hi1 & _ & Ho & E).
  assert (store_events s a m (a ++ [m]) = []) as Ev.
  { unfold store_events. rewrite (bool_decide_eq_true_2 (m ∈ a ++ [m])) by (apply elem_of_app; right; by left).
    assert (kept_list s m a = a) as ->; [|by rewrite bool_decide_eq_true_2].
    unfold kept_list. destruct a as [|y a]; [done|]. rewrite decide_True; [done|].
    rewrite Hidm. by destruct (HF y ltac:(by left)) as [_ ->]. }
  rewrite Ev in Ho. exists s1. split_and!; [|exact Ho|exact E]. unfold slot_holds. by rewrite last_snoc.
Qed.

Lemma receive_spec fuel s tid seq_num hdr g a b h :
  let idx := Z.land seq_num (mask_of (fr_rx s) tid) in
  let mc := is_mcast (desc h) in
  let ty := if mc then sec_mcast sec else sec_ucast sec in
  (∀ x y, qdf_nbuf_cat x y ≠ None) → plain_hdr hdr → ty ≠ htt_sec_type_tkip → 0 <= tid < OL_TXRX_NUM_EXT_TIDS →
  pn_sized (fr_rx s) → slot_holds s tid idx a →
  b ≠ [] → hd_error (a ++ b) = Some h → NoDup (a ++ b) → fragments_of hdr ty g s (a ++ b) →
  (∀ m, m ∈ a ++ b → is_mcast (desc m) = mc ∧ completes_mpdu (desc m) = true) →
  (pn_split desc opmode (pn_mode sec opmode mc (fr_rx s)) mc (pn_state (fr_rx s) tid) (a ++ b)).2 = [] →
  (2 * length (a ++ b) <= fuel)%nat →
  ∃ s', receive fuel s tid seq_num b = Some s' ∧
    fr_data s' !! h = Some (without_qos hdr (concat ((λ m, fg_payload (g m)) <$> a ++ b))) ∧
    rx_events (fr_rx s') = rx_events (fr_rx s) ++ (DescFree <$> drop 1 (a ++ b)) ++ [FwdCheck tid (Some h)] ∧
    slot_holds s' tid idx [].
Proof.
  intros idx mc ty Hcat Hp Hty Ht. revert s idx a. induction b as [|m b IH]; intros s idx a Hs Hsl Hb Hh Hnd Hg Hm Hpn Hf; [done|].
  destruct (store_in_order fuel s tid seq_num hdr ty g a m b Hp Hsl Hnd Hg) as (s1 & Hsl1 & Ho & E).
  { rewrite length_app in Hf. cbn in Hf. lia. }
  fold idx in Hsl1, Ho, E. cbn [receive]. rewrite E. clear E.
  pose proof Ho as [_ Hd1 _ Hev1 (Hp1 & Hp2 & Hp3) _ Hl1 Hmk1 _]. rewrite app_nil_r in Hev1.
  assert (pn_state (fr_rx s1) tid = pn_state (fr_rx s) tid) as Hst by (unfold pn_state; by rewrite Hp1, Hp2).
  assert (pn_mode sec opmode mc (fr_rx s1) = pn_mode sec opmode mc (fr_rx s)) as Hmo by (unfold pn_mode; by rewrite Hp3).
  assert (pn_sized (fr_rx s1)) as Hs1 by (unfold pn_sized; rewrite Hp1, Hp2; exact Hs).
  assert (fragments_of hdr ty g s1 (a ++ m :: b)) as Hg1' by (intros i x Hi; unfold holds_fragment; rewrite Hd1; by apply Hg).
  destruct b as [|m2 b].
  - rewrite bool_decide_eq_true_2 by done. pose proof Hsl1 as [Htl1 (e1 & He1 & _) Hc1 _ _].
    assert (∃ l, a ++ [m] = h :: l) as [l El] by (destruct (a ++ [m]) as [|z l]; [done|]; injection Hh as ->; by exists l).
    rewrite El in *. cbn [hd hd_error] in *.
    destruct (defrag_spec desc sec opmode key full fuel s1 tid h l hdr g Hcat Hp Hty Ht Hs1 Hc1) as (s2 & -> & D2 & V2 & _ & R2 & _).
    { intros x Hx'. destruct (Hm x Hx') as [? ?]. split_and!; [done..|]. apply list_elem_of_lookup in Hx' as [i Hi].
      eexists _, _. by apply Hg1'. }
    { fold mc. rewrite Hst, Hmo. exact Hpn. }
    { lia. }
    cbn [mbind option_bind receive]. eexists. split; [reflexivity|].
    match goal with |- context [emptied _ _ _ ?b _] => destruct (emptied_same s2 tid idx seq_num b) as [-> ->] end.
    split_and!; [exact D2|by rewrite V2, Hev1|].
    eapply emptied_slot; [rewrite R2; exact Htl1|]. rewrite <- He1. unfold get_elem, reorder. by rewrite R2.
  - rewrite bool_decide_eq_false_2 by done. cbn [mbind option_bind].
    assert ((a ++ [m]) ++ m2 :: b = a ++ m :: m2 :: b) as Eapp by by rewrite <- app_assoc.
    specialize (IH s1 (a ++ [m])). rewrite Hmk1, Eapp, Hst, Hmo in IH. fold idx in IH. rewrite Hev1 in IH. by apply IH.
Qed.
End arrival.

(** ** Theorems *)
Section theorems.
Context `{NbufOk}.
Context (desc : Z → rx_desc) (sec : rx_security) (opmode : wlan_op_mode).
Context (key : bool → list Z) (full : bool) (timeout_ms me now : Z).
Implicit Types (s : fragState) (l : list Z).

(** C10: fragmentation round trip.  When the fragments of a frame, at most
    sixteen, arrive in order in a free slot and none of them is a replay, the frame is handed
    on once, with the header of the first fragment as that of an unfragmented frame
    (its QoS field taken out) and the payloads joined in order; the
    descriptors of the other buffers are freed and the slot is free again.
    This holds for every kind of key but TKIP with the MIC, and for open
    frames; memory for the joined buffer is available.  The fuel is twice the number of fragments. *)
Theorem fragments_reassembled fuel s tid seq_num hdr g ms h (mc := is_mcast (desc h))
    (ty := if mc then sec_mcast sec else sec_ucast sec) :
  let idx := Z.land seq_num (mask_of (fr_rx s) tid) in
  (∀ x y, qdf_nbuf_cat x y ≠ None) → plain_hdr hdr → ty ≠ htt_sec_type_tkip → 0 <= tid < OL_TXRX_NUM_EXT_TIDS →
  pn_sized (fr_rx s) → slot_holds s tid idx [] →
  hd_error ms = Some h → NoDup ms → fragments_of hdr ty g s ms →
  (∀ m, m ∈ ms → is_mcast (desc m) = mc ∧ completes_mpdu (desc m) = true) →
  (pn_split desc opmode (pn_mode sec opmode mc (fr_rx s)) mc (pn_state (fr_rx s) tid) ms).2 = [] →
  (2 * length ms <= fuel)%nat →
  ∃ s', receive desc sec opmode key full timeout_ms me now fuel s tid seq_num ms = Some s' ∧
    fr_data s' !! h = Some (without_qos hdr (concat ((λ m, fg_payload (g m)) <$> ms))) ∧
    rx_events (fr_rx s') = rx_events (fr_rx s) ++ (DescFree <$> drop 1 ms) ++ [FwdCheck tid (Some h)] ∧
    slot_holds s' tid idx [].
Proof.
  intros idx Hcat Hp Hty Ht Hs Hsl Hh Hnd Hg Hm Hpn Hf.
  apply (receive_spec desc sec opmode key full timeout_ms me now fuel s tid seq_num hdr g [] ms h); try done. by intros ->.
Qed.

(** C34: replays.  When one of the fragments of a complete list is a replay,
    nothing is handed on: the first replay is reported, and every buffer of the
    list is freed exactly once, whatever the key. *)
Theorem replay_drops_frame frame_8023 fuel s tid l mc h l1 c l3 :
  0 <= tid < OL_TXRX_NUM_EXT_TIDS → pn_sized (fr_rx s) → chain (links s) (Some h) l →
  (∀ m, m ∈ l → is_mcast (desc m) = mc ∧ completes_mpdu (desc m) = true ∧ is_Some (fr_data s !! m)) →
  (2 * length l <= fuel)%nat →
  pn_split desc opmode (pn_mode sec opmode mc (fr_rx s)) mc (pn_state (fr_rx s) tid) l = (l1, c :: l3) →
  l = l1 ++ c :: l3 ∧
  ∃ s', ol_rx_defrag desc sec opmode key false full frame_8023 fuel s tid h = Some s' ∧
    rx_events (fr_rx s') = rx_events (fr_rx s) ++ RxErr tid c :: (FrameFree <$> c :: l1 ++ l3) ∧
    tids_rx_reorder (fr_rx s') = tids_rx_reorder (fr_rx s) ∧ fr_wait s' = fr_wait s.
Proof.
  intros Ht Hs Hc Hm Hf Hsp. destruct (chain_some _ _ _ Hc) as (l0 & -> & _).
  pose proof (pn_loop_spec desc sec opmode fuel s tid [] (h :: l0) mc Ht Hs Hc Hm ltac:(cbn in *; lia)) as HP.
  pose proof (pn_split_app desc opmode (pn_mode sec opmode mc (fr_rx s)) mc (pn_state (fr_rx s) tid) (h :: l0)) as Happ.
  rewrite Hsp in HP, Happ. destruct HP as (s' & E & W & R & _ & V). split; [done|].
  exists s'. unfold ol_rx_defrag. cbn [app last hd hd_error] in E. rewrite E, bool_decide_eq_false_2 by done. cbn [mbind option_bind negb].
  split_and!; [done|rewrite V; done|done|done].
Qed.
End theorems.
