(* ===== verification/DefragMic.v ===== *)
(** The Michael MIC of TKIP: [ol_rx_defrag_mic] of RxDefrag.v equals the MIC of
    the padded message, and [ol_rx_frag_tkip_demic] takes it with the wrong sign. *)
From S2P Require Import Prelude Chains RxReorder RxPn DefragList RxDefrag DefragStore.

(** ** The MIC of a message

    The message is padded by 0x5a and four to seven zeros to whole words. *)
Fixpoint le_words (l : list Z) : list Z :=
  match l with
  | b0 :: b1 :: b2 :: b3 :: l' => get_le32_split b0 b1 b2 b3 :: le_words l'
  | _ => []
  end.
Definition michael_pad (msg : list Z) : list Z := msg ++ 0x5a :: replicate (4 + (3 - length msg mod 4)) 0.
Definition michael (key msg : list Z) : list Z :=
  let '(l, r) := foldl mic_word (get_le32 key, get_le32 (drop 4 key)) (le_words (michael_pad msg)) in
  put_le32 l ++ put_le32 r.

Section mic.
Implicit Types (l d key : list Z) (lr : Z * Z).

Lemma le_words_app n l1 l2 : length l1 = (4 * n)%nat → le_words (l1 ++ l2) = le_words l1 ++ le_words l2.
Proof.
  revert l1. induction n as [|n IH]; intros l1 Hl.
  - apply nil_length_inv in Hl as ->. done.
  - destruct l1 as [|b0 [|b1 [|b2 [|b3 l1]]]]; cbn in Hl; try lia. cbn [app le_words]. f_equal. apply IH. lia.
Qed.

Lemma mic_words_foldl n lr d :
  (4 * n <= length d)%nat → mic_words n lr d = (foldl mic_word lr (le_words (take (4 * n) d)), drop (4 * n) d).
Proof.
  revert lr d. induction n as [|n IH]; intros lr d Hl; [done|].
  destruct d as [|b0 [|b1 [|b2 [|b3 d]]]]; cbn [length] in Hl; try lia.
  replace (4 * S n)%nat with (S (S (S (S (4 * n))))) by lia. cbn [mic_words firstn skipn take drop le_words foldl]. rewrite (IH _ d) by lia. done.
Qed.

Lemma block_is_word lr : michael_block lr = mic_word lr 0.
Proof. destruct lr as [l r]. unfold mic_word. cbn [fst snd]. by rewrite Z.lxor_0_r. Qed.

(** The padded message word by word: the whole words, the last block and a zero. *)
Lemma pad_words msg :
  let q := (length msg / 4)%nat in
  le_words (michael_pad msg) =
    le_words (take (4 * q) msg) ++ [mic_last (drop (4 * q) msg) (Z.of_nat (length msg - 4 * q)); 0].
Proof.
  intros q. pose proof (Nat.div_mod_eq (length msg) 4) as Hd. fold q in Hd. pose proof (Nat.mod_upper_bound (length msg) 4 ltac:(lia)) as Hm.
  unfold michael_pad. rewrite <- (take_drop (4 * q) msg) at 1. rewrite <- app_assoc.
  rewrite (le_words_app q) by (rewrite length_take; lia). f_equal.
  assert (length (drop (4 * q) msg) = (length msg mod 4)%nat) as Hl by (rewrite length_drop; lia).
  replace (length msg - 4 * q)%nat with (length msg mod 4)%nat by lia. set (t := drop (4 * q) msg) in *.
  destruct t as [|b0 [|b1 [|b2 [|b3 t]]]]; cbn [length] in Hl; rewrite <- Hl in *; try lia; reflexivity.
Qed.

Lemma mic_last_app l l2 n : Z.of_nat (length l) = n → mic_last (l ++ l2) n = mic_last l n.
Proof.
  intros <-. unfold mic_last. destruct l as [|b0 [|b1 [|b2 [|b3 l]]]]; cbn [length app].
  1-4: reflexivity.
  rewrite !(proj2 (Z.eqb_neq _ _)) by lia. reflexivity.
Qed.

Lemma michdr_length d hdr : (24 <= length d)%nat → ol_rx_defrag_michdr d = Some hdr → length hdr = 16%nat.
Proof.
  intros Hl. unfold ol_rx_defrag_michdr, i_addr1, i_addr2, i_addr3, i_addr4. intros E.
  assert (∀ off, 0 <= off → off + 6 <= Z.of_nat (length d) → length (zread d off 6) = 6%nat) as Hz.
  { intros off Ho Hb. pose proof (length_zread d off 6) as H. specialize (H ltac:(unfold in_block; lia)). lia. }
  repeat case_match; cbn in E; simplify_eq; rewrite !length_app, !Hz by lia; done.
Qed.

(** The code's MIC over one buffer. *)
Lemma defrag_mic_spec fuel s key m d hdr off n :
  fr_data s !! m = Some d → (24 <= length d)%nat → Z.of_nat (length d) < 2 ^ 32 → ol_rx_defrag_michdr d = Some hdr →
  0 <= off → 0 <= n → off + n <= Z.of_nat (length d) →
  ol_rx_defrag_mic (S fuel) s key m off n = Some (inr (michael key (hdr ++ zread d off n))).
Proof.
  intros Hd Hl H32 Hh Ho Hn Hb. pose proof (michdr_length d hdr Hl Hh) as Hhl.
  unfold ol_rx_defrag_mic. rewrite Hd. cbn [mbind option_bind].
  rewrite (proj2 (Z.ltb_ge _ off)), (proj2 (Z.ltb_ge _ sizeof_ieee80211_frame)) by (change sizeof_ieee80211_frame with 24; lia).
  cbn [orb]. rewrite Hh. cbn [mbind option_bind]. rewrite mic_words_foldl by lia. rewrite take_ge by lia.
  cbn [mic_loop]. rewrite u32_small by (red; lia).
  set (msg := zread d off n). assert (length msg = Z.to_nat n) as Hml.
  { pose proof (length_zread d off n) as H. specialize (H ltac:(unfold in_block; lia)). fold msg in H. lia. }
  set (sp := if n <? _ then n else _). assert (sp = n) as Hsp by (unfold sp; destruct (Z.ltb_spec n (Z.of_nat (length d) - off)); lia).
  rewrite Hsp. set (q := (length msg / 4)%nat). pose proof (Nat.div_mod_eq (length msg) 4) as Hq. fold q in Hq.
  pose proof (Nat.mod_upper_bound (length msg) 4 ltac:(lia)) as Hm.
  assert (n / 4 = Z.of_nat q) as -> by (unfold q; rewrite Hml; rewrite Nat2Z.inj_div, Z2Nat.id; lia). rewrite Nat2Z.id.
  set (data := drop (Z.to_nat off) d). assert (data = msg ++ drop (Z.to_nat n) data) as Hdm by (symmetry; apply take_drop).
  assert (Z.to_nat n <= length data)%nat as Hdl by (unfold data; rewrite length_drop; lia).
  rewrite mic_words_foldl by lia. rewrite (proj2 (Z.ltb_lt _ 4)) by lia. cbn [mbind option_bind].
  rewrite (proj2 (Z.ltb_ge _ _)) by (rewrite length_drop; lia).
  rewrite Hdm at 1 2. rewrite take_app_le, drop_app_le by lia. rewrite mic_last_app by (rewrite length_drop; lia).
  rewrite block_is_word. unfold michael.
  assert (le_words (michael_pad (hdr ++ msg)) = le_words hdr ++ le_words (michael_pad msg)) as ->.
  { unfold michael_pad. rewrite <- app_assoc, (le_words_app 4) by lia. do 3 f_equal. rewrite length_app, Hhl. do 2 f_equal.
    rewrite Nat.Div0.add_mod. change (16 mod 4)%nat with 0%nat. cbn [Nat.add]. by rewrite Nat.Div0.mod_mod. }
  rewrite pad_words. fold q. rewrite !foldl_app. cbn [foldl].
  replace (n - 4 * Z.of_nat q) with (Z.of_nat (length msg - 4 * q)) by lia. done.
Qed.

(** C33: TKIP.  The MIC that the code computes over a frame in one buffer is the Michael MIC
    of the pseudo header and the padded body; but the frame is dropped when the MIC at its end is that MIC, and
    accepted, without its last eight bytes, when it is not. *)
Theorem tkip_mic_inverted `{NbufOk} fuel s key m d hdr hdrlen :
  fr_data s !! m = Some d → ol_rx_defrag_michdr d = Some hdr →
  24 <= hdrlen → hdrlen + 8 <= Z.of_nat (length d) < 65536 →
  let body := zread d hdrlen (Z.of_nat (length d) - hdrlen - 8) in
  let mic := zread d (Z.of_nat (length d) - 8) 8 in
  ol_rx_frag_tkip_demic (S fuel) s key m hdrlen =
    Some (if decide (mic = michael key (hdr ++ body)) then (s, false) else (set_data s m (take (length d - 8) d), true)).
Proof.
  intros Hd Hh H24 Hl body mic. unfold ol_rx_frag_tkip_demic. rewrite Hd. cbn [mbind option_bind].
  change (ic_miclen f_tkip) with 8. rewrite u16_small by (red; lia).
  rewrite (defrag_mic_spec fuel s key m d hdr) by (done || lia). cbn [mbind option_bind].
  rewrite (proj2 (Z.ltb_ge _ 8)) by lia.
  replace (Z.of_nat (length d) - (hdrlen + 8)) with (Z.of_nat (length d) - hdrlen - 8) by lia. fold body. fold mic.
  destruct (Z.eqb_spec (qdf_mem_cmp (michael key (hdr ++ body)) mic) 0) as [E|E].
  - apply mem_cmp_eq in E. by rewrite decide_True.
  - rewrite decide_False by (intros Em; apply E; by apply mem_cmp_eq). rewrite trim_tail_take by lia. done.
Qed.
End mic.
