(* ===== verification/DefragTotal.v ===== *)
(** [ol_rx_defrag] of RxDefrag.v always answers for fragments that are long
    enough for their fields, and what this means for a slot.  The code itself
    does not compare the lengths of fragments with what it removes from them. *)
From S2P Require Import Prelude Chains RxReorder RxPn DefragList RxDefrag DefragStore DefragJoin DefragMic.

(** ** The cipher fields *)
Section decap.
Context `{NbufOk}.
Implicit Types (d : list Z).

Lemma move_hdr_some d n hl : n + hl <= Z.of_nat (length d) → ∃ d', move_hdr d n hl = Some d' ∧ length d' = length d.
Proof. intros Hl. unfold move_hdr. rewrite (proj2 (Z.leb_le _ _)) by done. eexists. split; [done|apply length_zwrite]. Qed.
Lemma length_pull d n : 0 <= n <= Z.of_nat (length d) → Z.of_nat (length (qdf_nbuf_pull_head d n)) = Z.of_nat (length d) - n.
Proof. intros Hn. rewrite pull_head_drop, length_drop by done. lia. Qed.
Lemma length_trim d n : 0 <= n <= Z.of_nat (length d) → Z.of_nat (length (qdf_nbuf_trim_tail d n)) = Z.of_nat (length d) - n.
Proof. intros Hn. rewrite trim_tail_take, length_take by done. lia. Qed.
Lemma has_extiv_some d hl : hl + 3 < Z.of_nat (length d) → is_Some (has_extiv d hl).
Proof. intros Hl. unfold has_extiv. change IEEE80211_WEP_IVLEN with 3. by rewrite (proj2 (Z.ltb_lt _ _)). Qed.

Lemma cipher_fields_nonneg ty : 0 <= (cipher_fields ty).1 ∧ 0 <= (cipher_fields ty).2.
Proof. by destruct ty. Qed.

Lemma decap_total ty hl d :
  0 <= hl → hl + (cipher_fields ty).1 + (cipher_fields ty).2 <= Z.of_nat (length d) →
  ∃ d' ok, decap ty hl d = Some (d', ok) ∧
    (ok = true → Z.of_nat (length d') = Z.of_nat (length d) - (cipher_fields ty).1 - (cipher_fields ty).2).
Proof.
  intros Hh Hl. unfold decap.
  assert (Htk : hl + 12 <= Z.of_nat (length d) → ∃ d' ok, ol_rx_frag_tkip_decap d hl = Some (d', ok) ∧ (ok = true → Z.of_nat (length d') = Z.of_nat (length d) - 8 - 4)).
  { intros Ht. unfold ol_rx_frag_tkip_decap. destruct (has_extiv_some d hl ltac:(lia)) as [b ->]. cbn [mbind option_bind].
    destruct b; cbn [negb]; [|by do 2 eexists]. change (ic_header f_tkip) with 8. change (ic_trailer f_tkip) with 4.
    destruct (move_hdr_some d 8 hl ltac:(lia)) as (d1 & -> & E1). cbn [mbind option_bind]. do 2 eexists. split; [done|]. intros _.
    rewrite length_trim; rewrite length_pull; lia. }
  assert (Hwe : hl + 8 <= Z.of_nat (length d) → ∃ d' ok, ol_rx_frag_wep_decap d hl = Some (d', ok) ∧ (ok = true → Z.of_nat (length d') = Z.of_nat (length d) - 4 - 4)).
  { intros Ht. unfold ol_rx_frag_wep_decap. change (ic_header f_wep) with 4. change (ic_trailer f_wep) with 4.
    destruct (move_hdr_some d 4 hl ltac:(lia)) as (d1 & -> & E1). cbn [mbind option_bind]. do 2 eexists. split; [done|]. intros _.
    rewrite length_trim; rewrite length_pull; lia. }
  destruct ty; cbn [decap_of cipher_fields fst snd] in *; change (ic_header f_tkip) with 8 in *; change (ic_trailer f_tkip) with 4 in *;
    change (ic_header f_wep) with 4 in *; change (ic_trailer f_wep) with 4 in *; change (ic_header f_ccmp) with 8 in *; change (ic_trailer f_ccmp) with 8 in *.
  1,8: by do 2 eexists; split; [done|]; lia.
  1-3: by apply Hwe; lia.
  1-2: by apply Htk; lia.
  unfold ol_rx_frag_ccmp_demic. destruct (has_extiv_some d hl ltac:(lia)) as [b ->]. cbn [mbind option_bind].
  destruct b; cbn [negb]; [|by do 2 eexists]. change (ic_trailer f_ccmp) with 8. cbn [mbind option_bind]. set (d1 := qdf_nbuf_trim_tail d 8).
  assert (E1 : Z.of_nat (length d1) = Z.of_nat (length d) - 8) by (apply length_trim; lia).
  unfold ol_rx_frag_ccmp_decap. destruct (has_extiv_some d1 hl ltac:(lia)) as [b ->]. cbn [mbind option_bind].
  destruct b; cbn [negb]; [|by do 2 eexists]. change (ic_header f_ccmp) with 8.
  destruct (move_hdr_some d1 8 hl ltac:(lia)) as (d2 & -> & E2). cbn [mbind option_bind]. do 2 eexists. split; [done|]. intros _.
  rewrite length_pull; lia.
Qed.
End decap.

(** ** The loops *)
Section loops.
Context `{NbufOk}.
Implicit Types (s : fragState) (l : list Z).

Definition len s m : Z := Z.of_nat (length (bytes s m)).

Lemma has_bytes s m : is_Some (fr_data s !! m) → fr_data s !! m = Some (bytes s m).
Proof. intros [d Hd]. unfold bytes. by rewrite Hd. Qed.

Lemma bytes_set_data s m d : bytes (set_data s m d) m = d.
Proof. unfold bytes, set_data. cbn. by rewrite lookup_insert_eq. Qed.

Lemma decap_loop_total fuel ty hl f s l p :
  decap_of ty hl = Some f → 0 <= hl → chain (links s) p l → (length l <= fuel)%nat →
  (∀ m, m ∈ l → is_Some (fr_data s !! m) ∧ hl + (cipher_fields ty).1 + (cipher_fields ty).2 <= len s m) →
  ∃ s' ok, decap_loop fuel f s p = Some (s', ok) ∧ fr_rx s' = fr_rx s ∧ (∀ m, m ∉ l → fr_data s' !! m = fr_data s !! m) ∧
    (ok = true → ∀ m, m ∈ l → is_Some (fr_data s' !! m) ∧ len s' m = len s m - (cipher_fields ty).1 - (cipher_fields ty).2).
Proof.
  intros Hf Hh. revert fuel s p. induction l as [|m l IH]; intros fuel s p Hc Hfu Hd.
  - unfold chain in Hc. apply lseg_nil in Hc as ->. exists s, true. split; [by destruct fuel|]. split_and!; [done|done|set_solver].
  - pose proof (chain_NoDup _ _ _ Hc) as [Hm _]%NoDup_cons. destruct Hc as [-> Hc]. destruct fuel as [|fuel]; [cbn in Hfu; lia|].
    destruct (Hd m ltac:(by left)) as [Hb Hlen]. apply has_bytes in Hb as Eb.
    destruct (decap_total ty hl (bytes s m) Hh Hlen) as (d & ok & Ed & Hok). unfold decap in Ed. rewrite Hf in Ed.
    cbn [decap_loop]. rewrite Eb. cbn [mbind option_bind]. rewrite Ed. cbn [mbind option_bind]. set (s1 := set_data s m d).
    assert (H1 : ∀ x, x ≠ m → fr_data s1 !! x = fr_data s !! x) by (intros x Hx; by apply lookup_insert_ne).
    assert (Hm1 : fr_data s1 !! m = Some d) by apply lookup_insert_eq.
    destruct ok; [|exists s1, false; split_and!; try done; intros x [Hx _]%not_elem_of_cons; by apply H1].
    assert (Hl1 : ∀ x, x ∈ l → len s1 x = len s x) by (intros x Hx; unfold len, bytes; rewrite H1; [done|by intros ->]).
    destruct (IH fuel s1 (frag_next s m) Hc ltac:(cbn in Hfu; lia)) as (s' & ok & E & Hr & Ho & Hok').
    { intros x Hx. rewrite H1, Hl1 by (done || by intros ->). apply Hd. by right. }
    exists s', ok. split; [exact E|]. split_and!; [done| |].
    + intros x [Hxm Hxl]%not_elem_of_cons. by rewrite Ho, H1.
    + intros -> x [->|Hx]%elem_of_cons; [|rewrite <- Hl1 by done; by apply Hok'].
      unfold len, bytes. rewrite Ho, Hm1 by done. cbn [default]. split; [done|]. by apply Hok.
Qed.

Lemma recombine_total fuel s b l p hs :
  chain (links s) p l → b ∉ l → is_Some (fr_data s !! b) → (∀ m, m ∈ l → is_Some (fr_data s !! m)) → (length l <= fuel)%nat →
  ∃ s' ok, recombine_loop fuel s b p hs = Some (s', ok) ∧ links s' b = links s b ∧
    (ok = true → is_Some (fr_data s' !! b) ∧ len s b <= len s' b).
Proof.
  revert fuel s p. induction l as [|m l IH]; intros fuel s p Hc Hb Ha Hd Hfu.
  - unfold chain in Hc. apply lseg_nil in Hc as ->. exists s, true. split; [by destruct fuel|]. split; [done|]. by split.
  - pose proof (chain_NoDup _ _ _ Hc) as [Hm _]%NoDup_cons. destruct Hc as [-> Hc]. apply not_elem_of_cons in Hb as [Hbm Hb].
    destruct fuel as [|fuel]; [cbn in Hfu; lia|]. apply has_bytes in Ha as Ea. destruct (Hd m ltac:(by left)) as [e Ee].
    cbn [recombine_loop]. set (s1 := frag_set_next (frag_emit s (DescFree m)) m None).
    change (fr_data s1) with (fr_data s). rewrite Ee. cbn [mbind option_bind]. set (e' := qdf_nbuf_pull_head e hs).
    unfold ol_rx_defrag_concat. assert (Es : fr_data (set_data s1 m e') = <[m := e']> (fr_data s)) by done.
    rewrite Es, (lookup_insert_ne _ m b), Ea by congruence. cbn [mbind option_bind]. rewrite lookup_insert_eq. cbn [mbind option_bind].
    change (frag_next (frag_emit s (DescFree m)) m) with (frag_next s m).
    assert (Hb1 : nx_upd (links s) m None b = links s b) by by apply nx_upd_ne.
    destruct (qdf_nbuf_cat (bytes s b) e') as [c|] eqn:Ec; cbn [mbind option_bind].
    + apply cat_app in Ec as ->. set (s2 := set_data _ _ _ <| fr_data ::= _ |>).
      assert (Hb2 : fr_data s2 !! b = Some (bytes s b ++ e')).
      { unfold s2, set_data. cbn. rewrite lookup_delete_ne by congruence. apply lookup_insert_eq. }
      assert (Hx2 : ∀ x, x ≠ m → x ≠ b → fr_data s2 !! x = fr_data s !! x).
      { intros x H1 H2. unfold s2, set_data. cbn. rewrite lookup_delete_ne, !lookup_insert_ne by congruence. done. }
      destruct (IH fuel s2 (frag_next s m)) as (s' & ok & E & Hl & Hok); [|done|by rewrite Hb2| |cbn in Hfu; lia|].
      { eapply chain_frame; [|exact Hc]. intros x Hx. symmetry. apply nx_upd_ne. intros ->. done. }
      { intros x Hx. rewrite Hx2; [apply Hd; by right|by intros ->|by intros ->]. }
      exists s', ok. split; [exact E|]. split; [by rewrite Hl|]. intros Hk. destruct (Hok Hk) as [Hs Hle]. split; [done|].
      assert (Eb : bytes s2 b = bytes s b ++ e') by (unfold bytes at 1; by rewrite Hb2).
      unfold len in *. rewrite Eb, length_app in Hle. lia.
    + match goal with |- context [frames_free (S fuel) ?x _] => set (s2 := x) end.
      rewrite (frames_free_spec (S fuel) s2 (frag_next s m) l); [|eapply chain_frame; [|exact Hc]|cbn in Hfu; lia].
      * cbn [mbind option_bind]. do 2 eexists. split; [done|]. by split.
      * intros x Hx. symmetry. apply nx_upd_ne. by intros ->.
Qed.
End loops.

(** ** The whole call *)
Section total.
Context `{NbufOk}.
Context (desc : Z → rx_desc) (sec : rx_security) (opmode : wlan_op_mode) (key : bool → list Z) (full frame_8023 : bool).
Context (llc_size : 0 <= sizeof_llc_snap_hdr).
Implicit Types (s : fragState) (l : list Z).

Lemma michdr_some d : (30 <= length d)%nat → is_Some (ol_rx_defrag_michdr d).
Proof.
  intros Hl. unfold ol_rx_defrag_michdr. rewrite (proj2 (Z.ltb_ge _ 30)), (proj2 (Z.ltb_ge _ 25)) by lia.
  repeat (match goal with |- context [if ?b then _ else _] => destruct b end); by eexists.
Qed.

Lemma length_mic_words n lr d : length (snd (mic_words n lr d)) = (length d - 4 * n)%nat.
Proof. revert lr d. induction n as [|n IH]; intros lr d; cbn [mic_words snd]; [lia|]. rewrite IH, length_drop. lia. Qed.

(** The MIC of a frame in one buffer is computed, or an error returned, whatever its length. *)
Lemma mic_total fuel s k m off n :
  links s m = None → fr_data s !! m = Some (bytes s m) → 30 <= len s m → 0 <= off → 0 <= n → off + n <= len s m →
  is_Some (ol_rx_defrag_mic (S fuel) s k m off n).
Proof.
  unfold len. intros Hl Hd H30 Ho Hn Hb. set (d := bytes s m) in *. unfold ol_rx_defrag_mic. rewrite Hd. cbn [mbind option_bind].
  rewrite (proj2 (Z.ltb_ge _ off)), (proj2 (Z.ltb_ge _ sizeof_ieee80211_frame)) by (change sizeof_ieee80211_frame with 24; lia). cbn [orb].
  destruct (michdr_some d ltac:(lia)) as [hdr ->]. cbn [mbind option_bind]. destruct (mic_words 4 _ hdr) as [lr _].
  cbn [mic_loop]. set (sp := if n <? _ then _ else _).
  assert (Hsp : 0 <= sp <= n) by (unfold sp; pose proof (u32_range (Z.of_nat (length d) - off)) as Hr; unfold is_u32 in Hr; case_match; lia).
  clearbody sp. set (q := sp / 4). assert (Hq : 0 <= 4 * q <= sp) by (unfold q; Z.to_euclidean_division_equations; lia).
  pose proof (length_mic_words (Z.to_nat q) lr (drop (Z.to_nat off) d)) as Hml. rewrite length_drop in Hml.
  destruct (mic_words (Z.to_nat q) lr _) as [lr' data]. cbn [snd] in Hml.
  destruct (n - 4 * q <? 4); cbn [mbind option_bind].
  - rewrite (proj2 (Z.ltb_ge _ _)) by lia. destruct (michael_block _). by eexists.
  - unfold frag_next, qdf_nbuf_next. change (nb_next (fr_rx s) m) with (links s m). rewrite Hl. by eexists.
Qed.

Lemma demic_total fuel s k m hl :
  links s m = None → is_Some (fr_data s !! m) → 24 <= hl → hl + 8 <= len s m →
  ∃ s' ok, ol_rx_frag_tkip_demic (S fuel) s k m hl = Some (s', ok) ∧
    (ok = true → is_Some (fr_data s' !! m) ∧ len s' m = len s m - 8).
Proof.
  intros Hl Hd%has_bytes H24 Hlen. unfold ol_rx_frag_tkip_demic. rewrite Hd. cbn [mbind option_bind]. change (ic_miclen f_tkip) with 8.
  fold (len s m). pose proof (u16_range (len s m - (hl + 8))) as Hr. unfold is_u16 in Hr.
  assert (Hle : u16 (len s m - (hl + 8)) <= len s m - (hl + 8)) by (apply Z.mod_le; lia).
  destruct (mic_total fuel s k m hl (u16 (len s m - (hl + 8)))) as [r ->]; [done|done|lia..|]. cbn [mbind option_bind].
  destruct r as [[]|mic]; [by exists s, false|]. rewrite (proj2 (Z.ltb_ge _ 8)) by lia. destruct (_ =? 0); [by exists s, false|].
  eexists _, true. split; [done|]. intros _. split; [cbn; by rewrite lookup_insert_eq|]. unfold len in *.
  rewrite bytes_set_data. apply length_trim. lia.
Qed.

Lemma get_hdr_len s m : is_Some (fr_data s !! m) → 24 <= len s m → ol_rx_frag_get_mac_hdr s m = Some (bytes s m).
Proof. intros Hd%has_bytes Hl. apply get_hdr; [done|]. unfold len in Hl. lia. Qed.

(** The QoS field is taken out, the header replaced. *)
Lemma qos_total d hl :
  24 <= hl <= 36 → hl <= Z.of_nat (length d) →
  ∃ d', ol_rx_defrag_qos_decap d hl = Some d' ∧ Z.of_nat (length d) - 6 <= Z.of_nat (length d').
Proof.
  intros Hh Hl. unfold ol_rx_defrag_qos_decap. destruct (DEFRAG_IEEE80211_QOS_HAS_SEQ d); [|exists d; split; [done|lia]].
  change sizeof_ieee80211_qoscntl with 2. change (2 + sizeof_ieee80211_htc) with 6. set (q := if negb _ then 6 else 2).
  assert (Hq : q = 2 ∨ q = 6) by (unfold q; case_match; auto). clearbody q. rewrite u16_small by (red; lia).
  destruct (move_hdr_some d q (hl - q) ltac:(lia)) as (d1 & -> & E1). cbn [mbind option_bind]. eexists. split; [done|].
  rewrite length_zset, length_pull; lia.
Qed.
Lemma nwifi_some d : 24 + sizeof_llc_snap_hdr <= Z.of_nat (length d) → is_Some (ol_rx_defrag_nwifi_to_8023 d).
Proof.
  intros Hl. unfold ol_rx_defrag_nwifi_to_8023. change sizeof_ieee80211_frame with 24. rewrite (proj2 (Z.ltb_ge _ _)) by done. by eexists.
Qed.

(** What the first fragment carries at least: a MIC, an LLC header, and six bytes
    that make up for the QoS field. *)
Definition head_payload : Z := 14 + sizeof_llc_snap_hdr.

Lemma finish_total fuel s tid h l hl k :
  chain (links s) (Some h) (h :: l) → (length l <= S fuel)%nat → 24 <= hl <= 36 →
  (∀ m, m ∈ h :: l → is_Some (fr_data s !! m)) → hl + head_payload <= len s h →
  is_Some (defrag_finish frame_8023 (S fuel) s tid h hl k).
Proof.
  unfold head_payload. intros Hc Hf Hh Hd Hlen. unfold defrag_finish, ol_rx_defrag_decap_recombine.
  pose proof (chain_NoDup _ _ _ Hc) as [Hm _]%NoDup_cons. destruct Hc as [_ Hc]. set (s0 := frag_set_next s h None).
  destruct (recombine_total (S fuel) s0 h l (frag_next s h) hl) as (s1 & ok & E & Hl1 & Hok);
    [eapply chain_frame; [|exact Hc]; intros x Hx; symmetry; apply nx_upd_ne; by intros ->|done|apply Hd; by left
    |intros m Hx; apply Hd; by right|done|].
  rewrite E. cbn [mbind option_bind]. destruct ok; cbn [negb mbind option_bind]; [|by eexists].
  destruct (Hok eq_refl) as [Hs1 Hle]. change (len s0 h) with (len s h) in Hle. rewrite get_hdr_len by (done || lia).
  cbn [mbind option_bind]. set (s2 := set_data s1 h _).
  assert (Hs2 : is_Some (fr_data s2 !! h) ∧ len s2 h = len s1 h).
  { split; [unfold s2; cbn; by rewrite lookup_insert_eq|]. unfold len, s2. rewrite bytes_set_data. unfold clear_frag. by rewrite !length_zset. }
  destruct Hs2 as [Hs2 Hlen2].
  assert (Hk : ∃ s3 ok, match k with Some key => ol_rx_frag_tkip_demic (S fuel) s2 key h hl | None => Some (s2, true) end = Some (s3, ok) ∧
    (ok = true → is_Some (fr_data s3 !! h) ∧ len s2 h - 8 <= len s3 h)).
  { destruct k as [k|]; [|exists s2, true; split; [done|]; split; [done|lia]].
    destruct (demic_total fuel s2 k h hl) as (s3 & ok & E3 & H3); [|done|lia..|].
    { change (links s2 h) with (links s1 h). rewrite Hl1. apply nx_upd_eq. }
    exists s3, ok. split; [done|]. intros Hk. destruct (H3 Hk) as [? ->]. split; [done|lia]. }
  destruct Hk as (s3 & ok & -> & Hok3). cbn [mbind option_bind]. destruct ok; cbn [negb]; [|by eexists].
  destruct (Hok3 eq_refl) as [Hs3 Hle3]. rewrite get_hdr_len by (done || lia). cbn [mbind option_bind].
  unfold len in *. assert (Hq : ∃ d, (if DEFRAG_IEEE80211_QOS_HAS_SEQ (bytes s3 h) then ol_rx_defrag_qos_decap (bytes s3 h) hl else Some (bytes s3 h))
    = Some d ∧ Z.of_nat (length (bytes s3 h)) - 6 <= Z.of_nat (length d)).
  { destruct (DEFRAG_IEEE80211_QOS_HAS_SEQ _); [apply qos_total; lia|]. eexists. split; [done|lia]. }
  destruct Hq as (d & -> & Hd6). cbn [mbind option_bind]. destruct frame_8023; [|by eexists].
  destruct (nwifi_some d ltac:(lia)) as [d' ->]. by eexists.
Qed.

Lemma hdrsize_take d n : (2 <= n)%nat → (n <= length d)%nat → ol_rx_frag_hdrsize (take n d) = ol_rx_frag_hdrsize d.
Proof.
  intros H2 Hn. assert (Hz : ∀ j, 0 <= j < 2 → zget (take n d) j = zget d j).
  { intros j Hj. rewrite <- (take_drop n d) at 2. rewrite zget_app_l; [done|]. rewrite length_take. lia. }
  unfold ol_rx_frag_hdrsize, DEFRAG_IEEE80211_QOS_HAS_SEQ, i_fc. by rewrite !Hz by lia.
Qed.

(** The fragments [l] of a frame, the first of them [h], are of one kind, and long enough:
    all have room for the header, the cipher fields and the checksum, and the
    first one for [head_payload] bytes more. *)
Record assemblable s (tid h : Z) l : Prop := {
  as_tid : 0 <= tid < OL_TXRX_NUM_EXT_TIDS;
  as_pn : pn_sized (fr_rx s);
  as_kind : ∀ m, m ∈ l → is_mcast (desc m) = is_mcast (desc h) ∧ completes_mpdu (desc m) = true;
  as_room : let ty := if is_mcast (desc h) then sec_mcast sec else sec_ucast sec in
    let fields := ol_rx_frag_hdrsize (bytes s h) + (cipher_fields ty).1 + (cipher_fields ty).2 + DEFRAG_IEEE80211_FCS_LEN in
    fields + head_payload <= len s h ∧ ∀ m, m ∈ l → fields <= len s m;
}.

Lemma defrag_total safemode fuel s tid h l :
  chain (links s) (Some h) (h :: l) → (∀ m, m ∈ h :: l → is_Some (fr_data s !! m)) → assemblable s tid h (h :: l) →
  (2 * length (h :: l) <= fuel)%nat →
  is_Some (ol_rx_defrag desc sec opmode key safemode full frame_8023 fuel s tid h).
Proof.
  unfold head_payload. intros Hc Hd [Ht Hs Hk [Hrh Hr]] Hf. unfold ol_rx_defrag. destruct safemode; [by eexists|].
  set (ty := if is_mcast (desc h) then sec_mcast sec else sec_ucast sec) in *. set (hl := ol_rx_frag_hdrsize (bytes s h)) in *.
  change DEFRAG_IEEE80211_FCS_LEN with 4 in *. unfold head_payload in Hrh. pose proof (cipher_fields_nonneg ty) as [Hiv Htr].
  pose proof (hdrsize_min (bytes s h)) as H24. pose proof (hdrsize_max (bytes s h)) as H36. fold hl in H24, H36.
  pose proof (pn_loop_spec desc sec opmode fuel s tid [] (h :: l) (is_mcast (desc h)) Ht Hs Hc) as HP. cbn [app length hd hd_error last Nat.add] in HP.
  assert (Hm : ∀ m, m ∈ h :: l → is_mcast (desc m) = is_mcast (desc h) ∧ completes_mpdu (desc m) = true ∧ is_Some (fr_data s !! m)).
  { intros m Hm. destruct (Hk m Hm). split_and!; [done..|by apply Hd]. }
  specialize (HP Hm Hf). clear Hm. destruct (pn_split _ _ _ _ _ _) as [l1 l2]. destruct HP as (s1 & -> & _ & _ & _ & HP).
  cbn [mbind option_bind]. destruct l2; [rewrite bool_decide_eq_true_2 by done|rewrite bool_decide_eq_false_2 by done; by eexists].
  cbn [negb]. destruct HP as (Hl1 & _ & _ & _ & Hg & _).
  assert (H1 : ∀ m, m ∈ h :: l → bytes s1 m = take (length (bytes s m) - 4) (bytes s m) ∧ is_Some (fr_data s1 !! m) ∧ len s1 m = len s m - 4).
  { intros m Hm. specialize (Hr m Hm). destruct (Hd m Hm) as [d Ed]. unfold len, bytes in *. rewrite (Hg m Hm), Ed in *. cbn in *.
    rewrite trim_tail_take, length_take by (change DEFRAG_IEEE80211_FCS_LEN with 4; lia). split_and!; [done|by eexists|]. change (Z.to_nat DEFRAG_IEEE80211_FCS_LEN) with 4%nat. lia. }
  destruct (H1 h ltac:(by left)) as (Eh & Hh1 & Hlen1). rewrite get_hdr_len by (done || lia). cbn [mbind option_bind].
  assert (Ehl : ol_rx_frag_hdrsize (bytes s1 h) = hl) by (rewrite Eh; apply hdrsize_take; unfold len in *; lia).
  rewrite Ehl. fold ty.
  assert (Hc1 : chain (links s1) (Some h) (h :: l)) by (eapply chain_frame; [|exact Hc]; done).
  assert (Hdc : ∃ s2 ok, match decap_of ty hl with Some f => decap_loop fuel f s1 (Some h) | None => Some (s1, true) end = Some (s2, ok) ∧
    fr_rx s2 = fr_rx s1 ∧ (ok = true → (∀ m, m ∈ h :: l → is_Some (fr_data s2 !! m)) ∧ hl + head_payload <= len s2 h)).
  { unfold head_payload. destruct (decap_of ty hl) as [f|] eqn:Ef.
    - destruct (decap_loop_total fuel ty hl f s1 (h :: l) (Some h) Ef) as (s2 & ok & E2 & Hrx & _ & Hok); [lia|done|cbn in *; lia| |].
      { intros m Hm. destruct (H1 m Hm) as (_ & ? & ->). split; [done|]. specialize (Hr m Hm). lia. }
      exists s2, ok. split_and!; [done..|]. intros Hb. split; [intros m Hm; by apply Hok|].
      destruct (Hok Hb h ltac:(by left)) as [_ ->]. lia.
    - exists s1, true. split_and!; [done..|]. intros _. split; [intros m Hm; by apply H1|lia]. }
  destruct Hdc as (s2 & ok & -> & Hrx2 & Hok2). cbn [mbind option_bind].
  assert (Hc2 : chain (links s2) (Some h) (h :: l)) by (unfold links; rewrite Hrx2; exact Hc1).
  destruct ok; cbn [negb].
  - destruct (Hok2 eq_refl) as [Hd2 Hlen2]. destruct fuel as [|fuel]; [cbn in Hf; lia|].
    apply (finish_total fuel s2 tid h l); [done|cbn in *; lia|lia|done|done].
  - rewrite (frames_free_spec fuel s2 (Some h) (h :: l)) by (done || cbn in *; lia). by eexists.
Qed.

(** C17: fragments of different frames never share a slot.  If the fragments
    in a slot have one sequence number and one pair of addresses, they do
    after any fragment, whatever the call does with the frame: a list of another
    frame is freed first, then the fragment joins the list behind the tail or
    behind the first fragment with a number not smaller, and the slot is empty
    when the list was complete (the tail a last fragment and the numbers
    behind the head 1, 2, ...) or the fragment was a whole frame and the slot
    empty.  The call always answers, with or without timeouts for fragments
    ([check], for which the wait list is a queue): it only removes from a complete
    list what its fragments, if they are long enough for their fields, have. *)
Theorem slot_never_mixes safemode check timeout_ms me fuel now s tid seq_num l t f :
  let idx := Z.land seq_num (mask_of (fr_rx s) tid) in
  slot_inv s tid idx l t → f ∉ l → framed s f → (2 * S (length l) <= fuel)%nat →
  (check = true → ∃ wl, queue (fr_wait s) wl) →
  let '(l', t') := slot_after s l t f in
  (frame_whole s l f (l', t') = true → assemblable s tid (hd 0 l') l') →
  let out := if frame_whole s l f (l', t') then [] else l' in
  ∃ s', ol_rx_reorder_store_frag desc sec opmode key safemode full frame_8023 check timeout_ms me fuel now s tid seq_num f = Some s' ∧
    slot_inv s' tid idx out t' ∧ one_frame s l' ∧
    (frame_whole s l f (l', t') = false → fr_data s' = fr_data s ∧ rx_events (fr_rx s') = rx_events (fr_rx s) ++ store_events s l f l').
Proof.
  intros idx Hi Hf Hff Hfu Hw.
  assert (Hq : ∃ q1 q2, check = true → ol_rx_defrag_waitlist_remove (fr_wait s) (me, tid) = Some q1 ∧ ol_rx_defrag_waitlist_add q1 (me, tid) = Some q2).
  { destruct check; [|by exists (fr_wait s), (fr_wait s)]. destruct (Hw eq_refl) as [wl Hwl]. destruct (readd_some _ wl (me, tid) Hwl) as (q1 & q2 & ? & ?). by exists q1, q2. }
  destruct Hq as (q1 & q2 & Hq).
  pose proof (store_spec desc sec opmode key safemode full frame_8023 check timeout_ms me fuel now s tid seq_num l t f q1 q2 Hq Hi Hf Hff ltac:(lia)) as HS.
  pose proof (slot_after_length s l t f) as Hlen. destruct (slot_after s l t f) as [l' t']. cbn [fst] in Hlen. intros Has.
  destruct HS as (s1 & Hi1 & Ht1 & [_ Hd _ Hev (Hp1 & Hp2 & _) _ _ _ _] & ->). fold idx in Hi1.
  assert (Hb1 : bytes s1 = bytes s) by (unfold bytes; by rewrite Hd).
  assert (one_frame s l') as Hone by (pose proof (si_one _ _ _ _ _ Hi1) as Ho; unfold one_frame in *; by rewrite Hb1 in Ho).
  destruct (frame_whole s l f (l', t')).
  - set (s1' := waits _ q1 s1). destruct l' as [|h l']; [by apply not_elem_of_nil in Ht1|]. cbn [hd] in *. specialize (Has eq_refl).
    assert (Hs1 : fr_rx s1' = fr_rx s1 ∧ fr_data s1' = fr_data s) by (unfold s1', waits; rewrite <- Hd; by destruct (check && _)).
    destruct Hs1 as [Hrx1 Hd1]. pose proof Hi1 as [Hti (e1 & He1 & _) Hch Hfr _].
    destruct (defrag_total safemode fuel s1' tid h l') as [s2 E2].
    + unfold links. rewrite Hrx1. exact Hch.
    + intros m Hm. rewrite Forall_forall in Hfr. specialize (Hfr m Hm). unfold framed, ol_rx_frag_get_mac_hdr in Hfr. rewrite Hd in Hfr. rewrite Hd1.
      by destruct (fr_data s !! m).
    + destruct Has as [A1 A2 A3 A4]. split; [done| |done|unfold len, bytes in *; by rewrite Hd1]. unfold pn_sized. by rewrite Hrx1, Hp1, Hp2.
    + cbn [length] in *. lia.
    + rewrite E2. cbn [mbind option_bind]. eexists. split; [reflexivity|]. apply defrag_same in E2. unfold same_windows in E2. rewrite Hrx1 in E2.
      split_and!; [|done|done]. apply (emptied_slot _ _ _ _ _ e1); [by rewrite E2|]. rewrite <- He1. unfold get_elem, reorder. by rewrite E2.
  - eexists. split; [reflexivity|]. split_and!; [|done|intros _; by destruct check]. destruct check; [by apply timed_slot|done].
Qed.
End total.
