(* ===== verification/DefragDemo.v ===== *)
(** Reassembly at concrete inputs: three CCMP fragments of a QoS frame, a
    replay, a TKIP frame, the wait list; and the behaviours that the theorems exclude. *)
From S2P Require Import Prelude Chains RxReorder RxPn DefragList RxDefrag DefragStore DefragJoin DefragMic DefragTotal.

(** ** A platform *)
#[local] Instance demo_nbuf : Nbuf := {|
  qdf_nbuf_pull_head d n := drop (Z.to_nat n) d;
  qdf_nbuf_trim_tail d n := take (length d - Z.to_nat n) d;
  qdf_nbuf_cat a b := Some (a ++ b);
  qdf_mem_cmp a b := if decide (a = b) then 0 else 1;
  sizeof_llc_snap_hdr := 8; llc_ethertype := 6;
  sizeof_ethernet_hdr := 14; eth_dest_addr := 0; eth_src_addr := 6; eth_ethertype := 12;
|}.
#[local] Instance demo_nbuf_ok : NbufOk.
Proof.
  split; [done|done|by intros a b c [= <-]|]. intros a b. cbn. by case_decide.
Qed.

(** ** A frame in three fragments *)

(** A QoS data frame to the access point, sequence number 0x123. *)
Definition demo_hdr : list Z :=
  [0x88; 1; 0; 0] ++ replicate 6 10 ++ replicate 6 11 ++ replicate 6 12 ++ [0x30; 0x12] ++ [5; 0].
Definition demo_frag (payload : list Z) : fragment :=
  mk_fragment [1; 2; 3; 0x20; 5; 6; 7; 8] payload (replicate 8 77) (replicate 4 99).
Definition demo_payload (m : Z) : list Z := if m =? 12 then [104] else [2 * m; 2 * m + 1].
Definition demo_g (m : Z) : fragment := demo_frag (demo_payload m).
Definition demo_fdesc (m : Z) : rx_desc := mk_desc m 3 false false true true true (m, 0).
Definition demo_sec : rx_security := mk_security htt_sec_type_aes_ccmp htt_sec_type_aes_ccmp.
Definition demo_mkey (unicast : bool) : list Z := [1; 2; 3; 4; 5; 6; 7; 8].

(** Packet number [last] was the last one of every traffic id. *)
Definition demo_frx (last : Z) : rxState :=
  mk_rx (λ _, None) (imap (λ i _, ol_rx_reorder_init inhabitant (Z.of_nat i)) (replicate 19 ())) (replicate 19 IEEE80211_SEQ_MAX)
    (replicate 19 0) (replicate 19 0) (replicate 19 (last, 0)) (replicate 19 1) 0 [].
Definition demo_data : gmap Z (list Z) :=
  list_to_map ((λ m, (m, frag_bytes (frag_hdr demo_hdr (m - 10) (m <? 12)) (demo_g m))) <$> [10; 11; 12]).
Definition demo_frag_state (last : Z) : fragState := mk_frag (demo_frx last) demo_data TAILQ_INIT.
Definition demo_receive (last : Z) : list Z → option fragState :=
  receive demo_fdesc demo_sec wlan_op_mode_sta demo_mkey false 0 1 0 6 (demo_frag_state last) 3 0x123.

Lemma demo_plain : plain_hdr demo_hdr.
Proof. split; [done|by split|by split]. Qed.
Lemma demo_slot last : slot_holds (demo_frag_state last) 3 0 [].
Proof. apply (slot_inv_empty _ _ _ no_elem); [done|reflexivity|done]. Qed.
Lemma demo_fragments last : fragments_of demo_hdr htt_sec_type_aes_ccmp demo_g (demo_frag_state last) [10; 11; 12].
Proof.
  intros i m Hi. destruct i as [|[|[|i]]]; cbn in Hi; simplify_eq; (split; [vm_compute; reflexivity|]; split; [done|]; by split_and!).
Qed.

Lemma fragments_reassembled_witness :
  ∃ s', demo_receive 5 [10; 11; 12] = Some s' ∧
    fr_data s' !! 10 = Some ([8; 1; 0; 0] ++ replicate 6 10 ++ replicate 6 11 ++ replicate 6 12 ++ [0x30; 0x12] ++ [20; 21; 22; 23; 104]) ∧
    rx_events (fr_rx s') = [DescFree 11; DescFree 12; FwdCheck 3 (Some 10)] ∧ slot_holds s' 3 0 [].
Proof.
  destruct (fragments_reassembled demo_fdesc demo_sec wlan_op_mode_sta demo_mkey false 0 1 0 6 (demo_frag_state 5) 3 0x123 demo_hdr demo_g
    [10; 11; 12] 10) as (s' & E & D & V & S).
  - by intros x y.
  - apply demo_plain.
  - done.
  - done.
  - done.
  - apply demo_slot.
  - done.
  - apply (bool_decide_unpack (NoDup [10; 11; 12])). vm_compute. done.
  - apply demo_fragments.
  - intros m Hm. repeat (apply elem_of_cons in Hm as [->|Hm]; [done|]). by apply not_elem_of_nil in Hm.
  - vm_compute. reflexivity.
  - cbn. lia.
  - exists s'. split; [exact E|]. split; [rewrite D; by vm_compute|]. split; [rewrite V; by vm_compute|exact S].
Defined.

(** ** A replay: the second fragment has a number that is not new *)
Definition demo_linked : fragState :=
  demo_frag_state 5 <| fr_rx ::= λ r, r <| nb_next := λ m, if m =? 10 then Some 11 else if m =? 11 then Some 12 else None |> |>.
Definition demo_rdesc (m : Z) : rx_desc := mk_desc m 3 false false true true true (if m =? 11 then 10 else m, 0).

Lemma replay_drops_frame_witness :
  [10; 11; 12] = [10] ++ 11 :: [12] ∧
  ∃ s', ol_rx_defrag demo_rdesc demo_sec wlan_op_mode_sta demo_mkey false false false 6 demo_linked 3 10 = Some s' ∧
    rx_events (fr_rx s') = [RxErr 3 11; FrameFree 11; FrameFree 10; FrameFree 12] ∧
    tids_rx_reorder (fr_rx s') = tids_rx_reorder (fr_rx demo_linked) ∧ fr_wait s' = fr_wait demo_linked.
Proof.
  apply (replay_drops_frame demo_rdesc demo_sec wlan_op_mode_sta demo_mkey false false 6 demo_linked 3 [10; 11; 12] false 10 [10] 11 [12]).
  - done.
  - done.
  - done.
  - intros m Hm. split_and!; [done|done|]. repeat (apply elem_of_cons in Hm as [->|Hm]; [vm_compute; by eexists|]). by apply not_elem_of_nil in Hm.
  - cbn. lia.
  - vm_compute. reflexivity.
Defined.

(** ** Another frame's fragment displaces a list *)
Definition demo_waiting : fragState :=
  default (demo_frag_state 5) (demo_receive 5 [10; 11])
  <| fr_data ::= insert 20 (frag_bytes (zset demo_hdr 23 0x77) (demo_frag [1; 2; 3])) |>.

Lemma demo_idx : Z.land 0x773 (mask_of (fr_rx demo_waiting) 3) = 0.
Proof. by vm_compute. Qed.
Lemma demo_waiting_inv : slot_inv demo_waiting 3 (Z.land 0x773 (mask_of (fr_rx demo_waiting) 3)) [10; 11] 11.
Proof.
  rewrite demo_idx. assert (∀ x, x ∈ [10; 11] → x = 10 ∨ x = 11) as H by set_solver. split.
  - by vm_compute.
  - eexists. split; [vm_compute; reflexivity|]. split; [done|]. intros _. split; [done|]. right. by left.
  - by vm_compute.
  - rewrite Forall_forall. intros x [->| ->]%H; by vm_compute.
  - intros x y [->| ->]%H [->| ->]%H; by vm_compute.
Qed.
Lemma demo_waiting_after :
  slot_after demo_waiting [10; 11] 11 20 = ([20], 20) ∧ frame_whole demo_waiting [10; 11] 20 ([20], 20) = false.
Proof. split; by vm_compute. Qed.

(** The first of two fragments waits; the second one completes the frame. *)
Definition demo_pair : gmap Z (list Z) :=
  list_to_map [(40, frag_bytes (frag_hdr demo_hdr 0 true) (demo_frag (replicate 30 7))); (41, frag_bytes (frag_hdr demo_hdr 1 false) (demo_frag [1; 2]))].
Definition demo_half : fragState :=
  default (demo_frag_state 5)
    (receive demo_fdesc demo_sec wlan_op_mode_sta demo_mkey false 0 1 0 6 (mk_frag (demo_frx 5) demo_pair TAILQ_INIT) 3 0x123 [40]).

Lemma demo_half_idx : Z.land 0x123 (mask_of (fr_rx demo_half) 3) = 0.
Proof. by vm_compute. Qed.
Lemma demo_half_inv : slot_inv demo_half 3 (Z.land 0x123 (mask_of (fr_rx demo_half) 3)) [40] 40.
Proof.
  rewrite demo_half_idx. assert (∀ x, x ∈ [40] → x = 40) as H by set_solver. split.
  - by vm_compute.
  - eexists. split; [vm_compute; reflexivity|]. split; [done|]. intros _. split; [done|]. by left.
  - by vm_compute.
  - rewrite Forall_forall. intros x ->%H. by vm_compute.
  - intros x y ->%H ->%H. by vm_compute.
Qed.
Lemma demo_half_after : slot_after demo_half [40] 40 41 = ([40; 41], 41) ∧ frame_whole demo_half [40] 41 ([40; 41], 41) = true.
Proof. split; by vm_compute. Qed.
Lemma demo_pair_fits : assemblable demo_fdesc demo_sec demo_half 3 40 [40; 41].
Proof.
  assert (∀ m, m ∈ [40; 41] → m = 40 ∨ m = 41) as Hm by set_solver. split.
  - done.
  - by vm_compute.
  - intros m [->| ->]%Hm; done.
  - split; [vm_compute; congruence|]. intros m [->| ->]%Hm; vm_compute; congruence.
Qed.

Lemma demo_llc : 0 <= sizeof_llc_snap_hdr.
Proof. done. Qed.

(** Buffer 20 is a whole frame: it is stored, as the only one of the slot.  Buffer
    41 completes the frame of buffer 40, with timeouts kept. *)
Lemma slot_never_mixes_witness :
  (∃ s', ol_rx_reorder_store_frag demo_fdesc demo_sec wlan_op_mode_sta demo_mkey false false true false 0 1 6 0 demo_waiting 3 0x773 20 = Some s' ∧
    slot_inv s' 3 0 [20] 20 ∧ rx_events (fr_rx s') = [FrameFree 10; FrameFree 11]) ∧
  (∃ s', ol_rx_reorder_store_frag demo_fdesc demo_sec wlan_op_mode_sta demo_mkey false false true true 0 1 6 0 demo_half 3 0x123 41 = Some s' ∧
    slot_inv s' 3 0 [] 41).
Proof.
  split.
  - pose proof (slot_never_mixes demo_fdesc demo_sec wlan_op_mode_sta demo_mkey false true demo_llc false false 0 1 6 0 demo_waiting 3 0x773
      [10; 11] 11 20 demo_waiting_inv) as HT.
    rewrite demo_idx in HT. destruct demo_waiting_after as [E1 E2]. rewrite E1, E2 in HT.
    destruct HT as (s' & E & H1 & _ & H2).
    + apply (bool_decide_unpack (20 ∉ [10; 11])). by vm_compute.
    + by vm_compute.
    + cbn. lia.
    + done.
    + done.
    + exists s'. split; [exact E|]. split; [exact H1|]. destruct (H2 eq_refl) as [_ H3]. rewrite H3. by vm_compute.
  - pose proof (slot_never_mixes demo_fdesc demo_sec wlan_op_mode_sta demo_mkey false true demo_llc false true 0 1 6 0 demo_half 3 0x123
      [40] 40 41 demo_half_inv) as HT.
    rewrite demo_half_idx in HT. destruct demo_half_after as [E1 E2]. rewrite E1, E2 in HT.
    destruct HT as (s' & E & H1 & _ & _).
    + apply (bool_decide_unpack (41 ∉ [40])). by vm_compute.
    + by vm_compute.
    + cbn. lia.
    + intros _. exists []. apply init_queue.
    + intros _. exact demo_pair_fits.
    + exists s'. split; [exact E|exact H1].
Defined.

(** ** TKIP: the right MIC is refused, a wrong one accepted *)
Definition demo_michdr : list Z := replicate 6 12 ++ replicate 6 11 ++ [5; 0; 0; 0].
Definition demo_fbody : list Z := [200; 201; 202; 203; 204].
Definition demo_tkip (mic : list Z) : fragState :=
  demo_frag_state 5 <| fr_data ::= insert 30 (demo_hdr ++ demo_fbody ++ mic) |>.
Definition demo_mic : list Z := michael (demo_mkey true) (demo_michdr ++ demo_fbody).

Lemma tkip_mic_inverted_witness :
  ol_rx_frag_tkip_demic 1 (demo_tkip demo_mic) (demo_mkey true) 30 26 = Some (demo_tkip demo_mic, false) ∧
  ol_rx_frag_tkip_demic 1 (demo_tkip (replicate 8 0)) (demo_mkey true) 30 26 =
    Some (set_data (demo_tkip (replicate 8 0)) 30 (demo_hdr ++ demo_fbody), true).
Proof.
  split.
  - rewrite (tkip_mic_inverted 0 (demo_tkip demo_mic) (demo_mkey true) 30 (demo_hdr ++ demo_fbody ++ demo_mic) demo_michdr 26);
      [by vm_compute|by vm_compute|by vm_compute|lia|vm_compute; split; [congruence|reflexivity]].
  - rewrite (tkip_mic_inverted 0 (demo_tkip (replicate 8 0)) (demo_mkey true) 30 (demo_hdr ++ demo_fbody ++ replicate 8 0) demo_michdr 26);
      [by vm_compute|by vm_compute|by vm_compute|lia|vm_compute; split; [congruence|reflexivity]].
Defined.

(** ** The wait list *)
Lemma waitlist_keeps_last_witness :
  ∃ q', wl_run 10 TAILQ_INIT [Wl_add (1, 0); Wl_add (2, 3); Wl_remove (1, 0); Wl_remove (2, 3); Wl_flush (λ _, 5) 10] =
      Some (q', [[]; []; []; []; [(2, 3)]]) ∧ queue q' [(2, 3)].
Proof.
  assert (wl_spec_run [] [Wl_add (1, 0); Wl_add (2, 3); Wl_remove (1, 0); Wl_remove (2, 3); Wl_flush (λ _, 5) 10] =
    ([(2, 3)], [[]; []; []; []; [(2, 3)]])) as E by by vm_compute.
  pose proof (waitlist_keeps_last 10 TAILQ_INIT [] [Wl_add (1, 0); Wl_add (2, 3); Wl_remove (1, 0); Wl_remove (2, 3); Wl_flush (λ _, 5) 10]
    init_queue) as H. rewrite E in H. apply H.
  - split; [apply not_elem_of_nil|]. split; [|done].
    apply (bool_decide_unpack ((2, 3) ∉ [(1, 0)])). by vm_compute.
  - cbn. lia.
Defined.

(** A second insertion of the element that could not be removed, and the wait
    list of other peers is damaged: the last step reads through a null pointer. *)
Lemma waitlist_crash :
  wl_run 10 TAILQ_INIT [Wl_add (1, 0); Wl_remove (1, 0); Wl_add (1, 0); Wl_flush (λ _, 5) 10; Wl_add (2, 0); Wl_remove (1, 0)] = None.
Proof. by vm_compute. Qed.

(** ** Fragments out of order *)

(** The first fragment behind the second: it is linked behind it, and lost with the third. *)
Lemma out_of_order_lost :
  ∃ s', demo_receive 5 [11; 10; 12] = Some s' ∧ rx_events (fr_rx s') = [] ∧
    get_elem (fr_rx s') 3 0 = Some (mk_elem (Some 11) (Some 12)) ∧ links s' 11 = Some 12 ∧ links s' 12 = None.
Proof. eexists. split; [vm_compute; reflexivity|]. by vm_compute. Qed.

(** On an open link the last fragment and the one before it, without the first, are
    handed on as a whole frame, the last payload first; the replay check catches them on others. *)
Lemma missing_first_delivered :
  ∃ s', receive demo_fdesc (mk_security htt_sec_type_none htt_sec_type_none) wlan_op_mode_sta demo_mkey false 0 1 0 6
      (demo_frag_state 5) 3 0x123 [12; 11] = Some s' ∧ rx_events (fr_rx s') = [DescFree 11; FwdCheck 3 (Some 12)].
Proof. eexists. split; [vm_compute; reflexivity|]. by vm_compute. Qed.
Lemma missing_first_dropped :
  ∃ s', demo_receive 5 [12; 11] = Some s' ∧ rx_events (fr_rx s') = [RxErr 3 11; FrameFree 11; FrameFree 12].
Proof. eexists. split; [vm_compute; reflexivity|]. by vm_compute. Qed.
