(* ===== verification/TxFlow.v ===== *)
(** The pools of transmit descriptors of the flow control by the firmware:
    core/dp/txrx/ol_txrx_flow_control.c, with the allocation and release of
    descriptors of ol_tx_desc.c / ol_tx_desc.h (builds with
    QCA_LL_TX_FLOW_CONTROL_V2 and QCA_LL_TX_FLOW_GLOBAL_MGMT_POOL).

    The transmit descriptors are divided between a global pool and the flow
    pools the firmware announces for its flows (virtual devices); the network
    queues of a flow are stopped when its pool runs low and woken when it has
    recovered.  A free descriptor is linked in its pool through the [next] field
    it is overlaid with.  Pools are allocated and freed, so they live in a
    memory [pools]: a pointer without an entry is a freed pool, and [None] is a
    use of one or a null-pointer access.  The pool list is the TAILQ of the
    source as a list of pointers.

    Every operation runs here as one step: the locks it takes and drops on the
    way, the statistics of the log and [ol_tx_dump_flow_pool_info] are left
    out.  [qdf_mem_malloc] is the argument [mem]: the pointer it returns. *)
From S2P Require Import Prelude Chains.

Definition INVALID_FLOW_ID : Z := 0xFF.
Definition MAX_INVALID_BIN : Z := 3.
Definition TX_FLOW_MGMT_POOL_ID : Z := 0xEF.
Definition TX_FLOW_MGMT_POOL_SIZE : Z := 32.
Definition OL_TXRX_INVALID_VDEV_ID : Z := u8 (-1).

(** A field of a descriptor assigned. *)
Definition fn_upd {A} (f : Z → A) (x : Z) (v : A) : Z → A := λ y, if decide (y = x) then v else f y.

(** ** Data *)

Inductive flow_pool_status :=
  | FLOW_POOL_ACTIVE_UNPAUSED | FLOW_POOL_ACTIVE_PAUSED | FLOW_POOL_INVALID | FLOW_POOL_INACTIVE.
#[export] Instance flow_pool_status_eq_dec : EqDecision flow_pool_status.
Proof. solve_decision. Defined.

Record ol_tx_flow_pool_t := mk_pool {
  flow_pool_id : Z;
  flow_pool_size : Z;
  avail_desc : Z;
  deficient_desc : Z;
  status : flow_pool_status;
  member_flow_id : Z;
  stop_th : Z;
  start_th : Z;
  freelist : option Z;
  pkt_drop_no_desc : Z;
  ref_cnt : Z;
}.
#[export] Instance flow_pool_eta : Eta ol_tx_flow_pool_t := fun p =>
  mk_pool (flow_pool_id p) (flow_pool_size p) (avail_desc p) (deficient_desc p) (status p) (member_flow_id p)
    (stop_th p) (start_th p) (freelist p) (pkt_drop_no_desc p) (ref_cnt p).

Inductive tx_event :=
  | StopQueues (vdev_id : Z)           (* pause_cb, WLAN_STOP_ALL_NETIF_QUEUE *)
  | WakeQueues (vdev_id : Z)           (* pause_cb, WLAN_WAKE_ALL_NETIF_QUEUE *)
  | InvalidBins.                       (* ASSERT(0): too many invalid pools *)

(** The descriptors, the transmit part of the device and its virtual devices. *)
Record txState := mk_tx {
  d_next : Z → option Z;               (* ol_tx_desc_list_elem_t.next *)
  d_pool : Z → option Z;               (* ol_tx_desc_t.pool *)
  d_vdev_id : Z → Z;                   (* ol_tx_desc_t.vdev_id *)
  d_ref_cnt : Z → Z;                   (* ol_tx_desc_t.ref_cnt *)
  num_free : Z;
  tx_freelist : option Z;              (* pdev->tx_desc.freelist *)
  num_invalid_bin : Z;
  flow_pool_list : list Z;
  pools : gmap Z ol_tx_flow_pool_t;
  vdevs : gmap Z (option Z);           (* vdev->pool of the attached vdevs *)
  mgmt_pool : option Z;
  is_mgmt_over_wmi_enabled : bool;
  pool_map_count : Z;
  pool_unmap_count : Z;
  pkt_drop_no_pool : Z;
  tx_flow_stop_queue_th : Z;
  tx_flow_start_queue_offset : Z;
  tx_events : list tx_event;
}.
#[export] Instance txState_eta : Eta txState := fun s =>
  mk_tx (d_next s) (d_pool s) (d_vdev_id s) (d_ref_cnt s) (num_free s) (tx_freelist s) (num_invalid_bin s) (flow_pool_list s)
    (pools s) (vdevs s) (mgmt_pool s) (is_mgmt_over_wmi_enabled s) (pool_map_count s) (pool_unmap_count s)
    (pkt_drop_no_pool s) (tx_flow_stop_queue_th s) (tx_flow_start_queue_offset s) (tx_events s).

Implicit Types (s : txState) (P : ol_tx_flow_pool_t).

Definition set_pool s (p : Z) P : txState := s <| pools ::= <[p := P]> |>.
(** A write through a pool pointer. *)
Definition upd_pool s (p : Z) (f : ol_tx_flow_pool_t → ol_tx_flow_pool_t) : option txState :=
  P ← pools s !! p; Some (set_pool s p (f P)).
Definition link_desc s (d : Z) (v : option Z) : txState := s <| d_next ::= λ nx, nx_upd nx d v |>.
Definition tx_emit s (ev : tx_event) : txState := s <| tx_events ::= λ l, l ++ [ev] |>.

(** ** Free lists *)

Definition ol_tx_get_desc_global_pool s : option (txState * Z) :=
  d ← tx_freelist s;
  Some (s <| tx_freelist := d_next s d |> <| num_free ::= λ n, u16 (n - 1) |>, d).
Definition ol_tx_put_desc_global_pool s (d : Z) : txState :=
  link_desc s d (tx_freelist s) <| tx_freelist := Some d |> <| num_free ::= λ n, u16 (n + 1) |>.

Definition ol_tx_get_desc_flow_pool s (p : Z) : option (txState * Z) :=
  P ← pools s !! p;
  d ← freelist P;
  Some (set_pool s p (P <| freelist := d_next s d |> <| avail_desc ::= λ n, u16 (n - 1) |>), d).
Definition ol_tx_put_desc_flow_pool s (p d : Z) : option txState :=
  let s := s <| d_pool ::= λ f, fn_upd f d (Some p) |> in
  P ← pools s !! p;
  Some (set_pool (link_desc s d (freelist P)) p
          (P <| freelist := Some d |> <| avail_desc ::= λ n, u16 (n + 1) |>)).

(** ** Moving descriptors between pools *)

(** The first loop of [ol_tx_move_desc_n]. *)
Fixpoint take_descs (n : nat) s (src : Z) (temp_list : option Z) : option (txState * option Z) :=
  match n with
  | O => Some (s, temp_list)
  | S n =>
      '(s, d) ← ol_tx_get_desc_flow_pool s src;
      take_descs n (link_desc s d temp_list) src (Some d)
  end.
(** Its second loop; [count] is the number moved. *)
Fixpoint give_descs (n : nat) s (dst : Z) (temp_list : option Z) (count : Z) : option (txState * option Z * Z) :=
  match n with
  | O => Some (s, temp_list, count)
  | S n =>
      P ← pools s !! dst;
      if deficient_desc P =? 0 then Some (s, temp_list, count)
      else
        let s := set_pool s dst (P <| deficient_desc ::= λ k, u16 (k - 1) |>) in
        d ← temp_list;
        let temp_list := d_next s d in
        s ← ol_tx_put_desc_flow_pool s dst d;
        give_descs n s dst temp_list (u16 (count + 1))
  end.
(** Its last loop: what is left goes back. *)
Fixpoint return_descs (fuel : nat) s (src : Z) (temp_list : option Z) : option txState :=
  match temp_list with
  | None => Some s
  | Some d =>
      match fuel with
      | O => None
      | S n =>
          let temp_list := d_next s d in
          s ← ol_tx_put_desc_flow_pool s src d;
          return_descs n s src temp_list
      end
  end.
Definition ol_tx_move_desc_n s (src dst desc_move_count : Z) : option (txState * Z) :=
  '(s, temp_list) ← take_descs (Z.to_nat desc_move_count) s src None;
  '(s, temp_list, count) ← give_descs (Z.to_nat desc_move_count) s dst temp_list 0;
  s ← return_descs (Z.to_nat desc_move_count) s src temp_list;
  Some (s, count).

(** One pool of the list in [ol_tx_distribute_descs_to_deficient_pools]. *)
Definition distribute_one s (src dst desc_count : Z) : option (txState * Z) :=
  P ← pools s !! dst;
  if deficient_desc P =? 0 then Some (s, desc_count)
  else
    let desc_move_count := if desc_count <? deficient_desc P then desc_count else deficient_desc P in
    '(s, moved) ← ol_tx_move_desc_n s src dst desc_move_count;
    let desc_count := u16 (desc_count - moved) in
    P ← pools s !! dst;
    if bool_decide (status P = FLOW_POOL_ACTIVE_PAUSED) && (start_th P <? avail_desc P) then
      Some (set_pool (tx_emit s (WakeQueues (member_flow_id P))) dst (P <| status := FLOW_POOL_ACTIVE_UNPAUSED |>),
            desc_count)
    else Some (s, desc_count).
Fixpoint distribute_loop s (src : Z) (dsts : list Z) (desc_count : Z) : option txState :=
  match dsts with
  | [] => Some s
  | dst :: dsts =>
      '(s, desc_count) ← distribute_one s src dst desc_count;
      if desc_count =? 0 then Some s else distribute_loop s src dsts desc_count
  end.
Definition ol_tx_distribute_descs_to_deficient_pools s (src : Z) : option txState :=
  P ← pools s !! src;
  distribute_loop s src (flow_pool_list s) (avail_desc P).

(** ** Creating, deleting and referencing pools *)

(** The loop of [ol_tx_create_flow_pool] over the global pool. *)
Fixpoint take_global (n : nat) s (pool : Z) (temp_list : option Z) : option (txState * option Z) :=
  match n with
  | O => Some (s, temp_list)
  | S n =>
      '(s, d) ← ol_tx_get_desc_global_pool s;
      let s := s <| d_pool ::= λ f, fn_upd f d (Some pool) |> in
      take_global n (link_desc s d temp_list) pool (Some d)
  end.

Definition ol_tx_create_flow_pool s (mem : option Z) (id size : Z) : option (txState * option Z) :=
  let stop_threshold := u32 (tx_flow_stop_queue_th s) in
  let start_threshold := u32 (stop_threshold + tx_flow_start_queue_offset s) in
  match mem with
  | None => Some (s, None)
  | Some p =>
      let P := mk_pool id size 0 0 FLOW_POOL_ACTIVE_UNPAUSED 0
                 (u16 (u32 (stop_threshold * size) / 100)) (u16 (u32 (start_threshold * size) / 100)) None 0 1 in
      let n := if size <=? num_free s then size else num_free s in
      '(s, temp_list) ← take_global (Z.to_nat n) s p None;
      let s := set_pool s p (P <| freelist := temp_list |> <| avail_desc := n |> <| deficient_desc := u16 (size - n) |>) in
      Some (s <| flow_pool_list ::= λ l, l ++ [p] |>, Some p)
  end.

Definition ol_tx_inc_pool_ref s (pool : option Z) : option txState :=
  match pool with
  | None => Some s
  | Some p => upd_pool s p (λ P, P <| ref_cnt ::= Z.succ |>)
  end.

(** The last loop of [ol_tx_delete_flow_pool]. *)
Fixpoint put_global (n : nat) s (temp_list : option Z) : option txState :=
  match n with
  | O => Some s
  | S n => d ← temp_list; let temp_list := d_next s d in put_global n (ol_tx_put_desc_global_pool s d) temp_list
  end.

Definition ol_tx_delete_flow_pool s (p : Z) (force : bool) : option txState :=
  P ← pools s !! p;
  let temp_list := freelist P in
  let size := avail_desc P in
  s ← (if (avail_desc P =? flow_pool_size P) || force then Some (s <| pools ::= delete p |>)
       else
         let s := set_pool s p (P <| status := FLOW_POOL_INVALID |> <| freelist := None |> <| avail_desc := 0 |>
                                  <| flow_pool_size := u16 (flow_pool_size P - size) |>
                                  <| flow_pool_id := INVALID_FLOW_ID |>) in
         s ← ol_tx_inc_pool_ref s (Some p);
         let s := s <| num_invalid_bin ::= λ n, u8 (n + 1) |> in
         let s := if MAX_INVALID_BIN <? num_invalid_bin s then tx_emit s InvalidBins else s in
         Some (s <| flow_pool_list ::= λ l, l ++ [p] |>));
  put_global (Z.to_nat size) s temp_list.

Definition ol_tx_dec_pool_ref s (pool : option Z) (force : bool) : option txState :=
  match pool with
  | None => Some s
  | Some p =>
      P ← pools s !! p;
      let s := set_pool s p (P <| ref_cnt ::= Z.pred |>) in
      if Z.pred (ref_cnt P) =? 0 then
        ol_tx_delete_flow_pool (s <| flow_pool_list ::= filter (.≠ p) |>) p force
      else Some s
  end.

Definition ol_tx_free_invalid_flow_pool s (p : Z) : option txState :=
  P ← pools s !! p;
  if negb (bool_decide (status P = FLOW_POOL_INVALID)) then Some s
  else
    s ← ol_tx_distribute_descs_to_deficient_pools s p;
    s ← upd_pool s p (λ P, P <| flow_pool_size := avail_desc P |>);
    ol_tx_dec_pool_ref (s <| num_invalid_bin ::= λ n, u8 (n - 1) |>) (Some p) false.

(** ** Messages of the firmware *)

Definition ol_tx_get_flow_pool s (id : Z) : option Z :=
  List.find (λ p, match pools s !! p with Some P => flow_pool_id P =? id | None => false end) (flow_pool_list s).

Definition ol_tx_flow_pool_vdev_map s (p vdev_id : Z) : option txState :=
  match vdevs s !! vdev_id with
  | None => Some s
  | Some _ => upd_pool (s <| vdevs ::= <[vdev_id := Some p]> |>) p (λ P, P <| member_flow_id := vdev_id |>)
  end.
Definition ol_tx_flow_pool_vdev_unmap s (p vdev_id : Z) : option txState :=
  match vdevs s !! vdev_id with
  | None => Some s
  | Some _ => upd_pool (s <| vdevs ::= <[vdev_id := None]> |>) p (λ P, P <| member_flow_id := INVALID_FLOW_ID |>)
  end.

(** [flow_type] is whether the type is FLOW_TYPE_VDEV. *)
Definition ol_tx_flow_pool_map_handler s (mem : option Z) (flow_id : Z) (type_vdev : bool) (id size : Z) : option txState :=
  let s := s <| pool_map_count ::= λ n, u16 (n + 1) |> in
  '(s, pool, pool_create) ← match ol_tx_get_flow_pool s id with
                            | Some p => Some (s, Some p, false)
                            | None => '(s, pool) ← ol_tx_create_flow_pool s mem id size; Some (s, pool, true)
                            end;
  match pool with
  | None => Some s
  | Some p =>
      if type_vdev : bool then
        s ← ol_tx_flow_pool_vdev_map s p flow_id;
        Some (tx_emit s (WakeQueues flow_id))
      else if pool_create : bool then ol_tx_dec_pool_ref s (Some p) false else Some s
  end.

Definition ol_tx_flow_pool_unmap_handler s (flow_id : Z) (type_vdev : bool) (id : Z) : option txState :=
  let s := s <| pool_unmap_count ::= λ n, u16 (n + 1) |> in
  match ol_tx_get_flow_pool s id with
  | None => Some s
  | Some p =>
      if type_vdev : bool then
        s ← ol_tx_flow_pool_vdev_unmap s p flow_id;
        ol_tx_dec_pool_ref s (Some p) false
      else Some s
  end.

(** ** Registration *)

Definition ol_tx_register_flow_control s (mem : option Z) : option txState :=
  let s := s <| flow_pool_list := [] |> in
  if is_mgmt_over_wmi_enabled s then Some s
  else '(s, pool) ← ol_tx_create_flow_pool s mem TX_FLOW_MGMT_POOL_ID TX_FLOW_MGMT_POOL_SIZE;
       Some (s <| mgmt_pool := pool |>).

(** The loop of [ol_tx_deregister_flow_control]; the fuel bounds the sum of the
    reference counts. *)
Fixpoint deregister_loop (fuel : nat) s : option txState :=
  match flow_pool_list s with
  | [] => Some s
  | p :: _ =>
      match fuel with
      | O => None
      | S n => s ← ol_tx_dec_pool_ref s (Some p) true; deregister_loop n s
      end
  end.
Definition ol_tx_deregister_flow_control (fuel : nat) s : option txState :=
  s ← (if is_mgmt_over_wmi_enabled s then Some s else ol_tx_dec_pool_ref s (mgmt_pool s) false);
  deregister_loop fuel s.

(** ** Descriptors of frames *)

(** [ol_tx_desc_alloc]; the vdev is named by its id. *)
Definition ol_tx_desc_alloc s (vdev_id : Z) (pool : option Z) : option (txState * option Z) :=
  match pool with
  | None => Some (s <| pkt_drop_no_pool ::= λ n, u16 (n + 1) |>, None)
  | Some p =>
      P ← pools s !! p;
      if avail_desc P =? 0 then Some (set_pool s p (P <| pkt_drop_no_desc ::= λ n, u16 (n + 1) |>), None)
      else
        '(s, d) ← ol_tx_get_desc_flow_pool s p;
        P ← pools s !! p;
        let s := if avail_desc P <? stop_th P
                 then tx_emit (set_pool s p (P <| status := FLOW_POOL_ACTIVE_PAUSED |>)) (StopQueues vdev_id)
                 else s in
        Some (s <| d_vdev_id ::= λ f, fn_upd f d vdev_id |> <| d_ref_cnt ::= λ f, fn_upd f d (f d + 1) |>, Some d)
  end.
Definition ol_tx_desc_alloc_wrapper s (vdev_id : Z) (mgmt_frame : bool) : option (txState * option Z) :=
  if mgmt_frame then ol_tx_desc_alloc s vdev_id (mgmt_pool s)
  else v ← vdevs s !! vdev_id; ol_tx_desc_alloc s vdev_id v.

Definition ol_tx_desc_free s (d : Z) : option txState :=
  p ← d_pool s d;
  let s := s <| d_vdev_id ::= λ f, fn_upd f d OL_TXRX_INVALID_VDEV_ID |> in
  s ← ol_tx_put_desc_flow_pool s p d;
  P ← pools s !! p;
  match status P with
  | FLOW_POOL_ACTIVE_PAUSED =>
      if start_th P <? avail_desc P then
        Some (set_pool (tx_emit s (WakeQueues (member_flow_id P))) p (P <| status := FLOW_POOL_ACTIVE_UNPAUSED |>))
      else Some s
  | FLOW_POOL_INVALID =>
      if avail_desc P =? flow_pool_size P then ol_tx_free_invalid_flow_pool s p else Some s
  | FLOW_POOL_ACTIVE_UNPAUSED | FLOW_POOL_INACTIVE => Some s
  end.

(** ** Where the descriptors are

    [G] are the descriptors of the global pool, [F p] those of pool [p], [T]
    those on their way between pools and [I] those of frames in flight. *)
Record linked s (D G : list Z) (F : Z → list Z) (T I : list Z) : Prop := {
  lk_perm : G ++ (flow_pool_list s ≫= F) ++ T ++ I ≡ₚ D;
  lk_nodup : NoDup D;
  lk_size : Z.of_nat (length D) < 65536;
  lk_global : chain (d_next s) (tx_freelist s) G;
  lk_free : num_free s = Z.of_nat (length G);
  lk_list : NoDup (flow_pool_list s);
  lk_dom : ∀ p, p ∈ flow_pool_list s ↔ is_Some (pools s !! p);
  lk_pool : ∀ p P, pools s !! p = Some P →
    chain (d_next s) (freelist P) (F p) ∧ avail_desc P = Z.of_nat (length (F p));
  lk_owner : ∀ p P d, pools s !! p = Some P → d ∈ F p → d_pool s d = Some p;
}.

Lemma fn_upd_eq {A} (f : Z → A) x v : fn_upd f x v x = v.
Proof. unfold fn_upd. by rewrite decide_True. Qed.
Lemma fn_upd_ne {A} (f : Z → A) x v y : y ≠ x → fn_upd f x v y = f y.
Proof. intros. unfold fn_upd. by rewrite decide_False. Qed.

Lemma perm_NoDup {A} (l1 l2 : list A) : l1 ≡ₚ l2 → NoDup l1 → NoDup l2.
Proof. by intros ->. Qed.

(** The descriptors of one pool and of the others. *)
Lemma pooled_split (F : Z → list Z) (l : list Z) p :
  NoDup l → p ∈ l →
  ∃ R, l ≫= F ≡ₚ F p ++ R ∧ (∀ x, l ≫= fn_upd F p x ≡ₚ x ++ R) ∧ ∀ q x, q ∈ l → q ≠ p → x ∈ F q → x ∈ R.
Proof.
  intros Hnd Hp. apply elem_of_Permutation in Hp as [l' E]. exists (l' ≫= F). rewrite E in Hnd.
  apply NoDup_cons in Hnd as [Hp _]. split; [by rewrite E|]. split; [intros x; rewrite E|].
  2: { intros q x Hq Hne Hx. apply list_elem_of_bind. exists q. split; [done|]. rewrite E in Hq. by apply elem_of_cons in Hq as [->|]. }
  cbn. rewrite fn_upd_eq.
  apply Permutation_app_head. clear E. induction l' as [|q l' IH]; [done|].
  apply not_elem_of_cons in Hp as [Hq Hp]. cbn. rewrite fn_upd_ne by congruence. by apply Permutation_app_head, IH.
Qed.
Lemma pooled_ext (F F' : Z → list Z) (l : list Z) : (∀ p, p ∈ l → F p = F' p) → l ≫= F = l ≫= F'.
Proof.
  intros H. induction l as [|q l IH]; [done|]. cbn. rewrite H by constructor. f_equal. apply IH. intros p Hp. apply H. by constructor.
Qed.

Lemma linked_perm s D G F T T' I I' : T ++ I ≡ₚ T' ++ I' → linked s D G F T I → linked s D G F T' I'.
Proof. intros E []. split; [|done..]. by rewrite <- E. Qed.
Lemma linked_NoDup s D G F T I : linked s D G F T I → NoDup (G ++ (flow_pool_list s ≫= F) ++ T ++ I).
Proof. intros []. by rewrite lk_perm0. Qed.
Lemma linked_T s D G F T I : linked s D G F T I → NoDup (T ++ I).
Proof. intros H. apply linked_NoDup in H. rewrite !NoDup_app in H. rewrite NoDup_app. tauto. Qed.
(** A descriptor on its way is in no pool. *)
Lemma linked_loose s D G F T I d :
  linked s D G F T I → d ∈ T → d ∉ G ∧ ∀ p P, pools s !! p = Some P → d ∉ F p.
Proof.
  intros H Hd. pose proof (linked_NoDup _ _ _ _ _ _ H) as Hnd. apply NoDup_app in Hnd as (_ & H1 & Hnd).
  apply NoDup_app in Hnd as (_ & H2 & _). split.
  - intros Hg. apply (H1 d Hg). rewrite !elem_of_app. tauto.
  - intros p P HP Hp. apply (H2 d); [|rewrite elem_of_app; tauto]. apply list_elem_of_bind. exists p. split; [done|].
    apply (lk_dom _ _ _ _ _ _ H). by exists P.
Qed.

(** Writing the link of a descriptor on its way disturbs no pool. *)
Lemma linked_link s D G F T I d v : linked s D G F T I → d ∈ T → linked (link_desc s d v) D G F T I.
Proof.
  intros H Hd. destruct (linked_loose _ _ _ _ _ _ _ H Hd) as [H1 H2]. destruct H. split; try done.
  - by apply lseg_upd_fresh.
  - intros p P HP. destruct (lk_pool0 p P HP) as [Hc Ha]. split; [|done]. cbn. apply lseg_upd_fresh; [|done]. by eapply H2.
Qed.

(** The fields the links do not depend on. *)
Lemma linked_ext s s' D G F T I :
  (d_next s', tx_freelist s', num_free s', flow_pool_list s', pools s', d_pool s') =
  (d_next s, tx_freelist s, num_free s, flow_pool_list s, pools s, d_pool s) →
  linked s D G F T I → linked s' D G F T I.
Proof. destruct s, s'. cbn. intros [= -> -> -> -> -> ->] []. by split. Qed.

(** A pool record changed in other fields. *)
Lemma linked_pool s D G F T I p P P' :
  pools s !! p = Some P → freelist P' = freelist P → avail_desc P' = avail_desc P →
  linked s D G F T I → linked (set_pool s p P') D G F T I.
Proof.
  intros HP Hf Ha []. split; try done.
  - intros q. cbn. rewrite lk_dom0, lookup_insert_is_Some. destruct (decide (p = q)) as [->|]; [|naive_solver]. naive_solver.
  - intros q Q. cbn. rewrite lookup_insert_Some. intros [[<- <-]|[Hne HQ]]; [|by apply lk_pool0].
    rewrite Hf, Ha. by apply lk_pool0.
  - intros q Q d. cbn. rewrite lookup_insert_Some. intros [[<- <-]|[Hne HQ]]; [by eapply lk_owner0|by eapply lk_owner0].
Qed.

Lemma linked_length s D G F T I : linked s D G F T I →
  (length G + length (flow_pool_list s ≫= F) + length T + length I = length D)%nat.
Proof. intros []. rewrite <- lk_perm0, !length_app. lia. Qed.
Lemma pool_length s D G F T I p P : linked s D G F T I → pools s !! p = Some P →
  (length G + length (F p) + length T + length I <= length D)%nat.
Proof.
  intros H HP. rewrite <- (linked_length _ _ _ _ _ _ H).
  destruct (pooled_split F (flow_pool_list s) p) as (R & E & _); [apply H|by apply H; exists P|].
  rewrite E, length_app. lia.
Qed.

(** *** One descriptor *)

(** Descriptors go between pool [p] and the temporary list; only their links
    are written. *)
Lemma linked_transfer s s' D G F T T' I p P P' l' :
  linked s D G F T I → pools s !! p = Some P →
  flow_pool_list s' = flow_pool_list s → pools s' = <[p := P']> (pools s) →
  tx_freelist s' = tx_freelist s → num_free s' = num_free s →
  (∀ x, x ∉ T → x ∉ T' → d_next s' x = d_next s x ∧ d_pool s' x = d_pool s x) →
  (∀ x, x ∈ l' → d_pool s' x = Some p) → chain (d_next s') (freelist P') l' → avail_desc P' = Z.of_nat (length l') → F p ++ T ≡ₚ l' ++ T' →
  linked s' D G (fn_upd F p l') T' I.
Proof.
  intros H HP El Ep Eg En Hx How Hc Ha Hperm. pose proof (linked_NoDup _ _ _ _ _ _ H) as Hnd. destruct H.
  assert (p ∈ flow_pool_list s) as Hp by (apply lk_dom0; by exists P).
  destruct (pooled_split F _ p lk_list0 Hp) as (R & E1 & E2 & E3).
  assert (G ++ R ++ T ++ I ++ F p ≡ₚ D) as EP by (rewrite <- lk_perm0, E1; solve_Permutation).
  assert (NoDup (G ++ R ++ F p ++ T ++ I)) as Hnd' by (rewrite E1 in Hnd; revert Hnd; apply perm_NoDup; solve_Permutation).
  assert (∀ x, x ∈ G ++ R → x ∉ T ∧ x ∉ T') as Hout.
  { rewrite app_assoc in Hnd'. apply NoDup_app in Hnd' as (_ & Hd & _). intros x Hxx. specialize (Hd x Hxx).
    assert (x ∉ l' ++ T') by (rewrite <- Hperm; set_solver). set_solver. }
  assert (∀ q Q x, q ≠ p → pools s !! q = Some Q → x ∈ F q → d_next s' x = d_next s x ∧ d_pool s' x = d_pool s x) as Hq.
  { intros q Q x Hne HQ Hxq. destruct (Hout x); [|by apply Hx]. rewrite elem_of_app. right.
    apply (E3 q); [apply lk_dom0; by exists Q|done..]. }
  split; try done.
  - rewrite El, E2, <- EP. rewrite (Permutation_app_comm R), !app_assoc, <- (app_assoc _ l').
    transitivity (((G ++ (l' ++ T')) ++ R) ++ I); [solve_Permutation|]. rewrite <- Hperm. solve_Permutation.
  - rewrite Eg. eapply chain_frame; [|done]. intros x Hxg. symmetry. destruct (Hout x); [set_solver|]. by apply Hx.
  - by rewrite En.
  - by rewrite El.
  - intros q. rewrite El, Ep, lk_dom0, lookup_insert_is_Some. destruct (decide (p = q)) as [->|]; naive_solver.
  - intros q Q. rewrite Ep, lookup_insert_Some. intros [[<- <-]|[Hne HQ]]; [by rewrite fn_upd_eq|].
    rewrite fn_upd_ne by done. destruct (lk_pool0 q Q HQ) as [Hcq Haq]. split; [|done].
    eapply chain_frame; [|done]. intros x Hxq. symmetry. by eapply Hq.
  - intros q Q d. rewrite Ep, lookup_insert_Some. intros [[<- <-]|[Hne HQ]]; [rewrite fn_upd_eq; apply How|].
    rewrite fn_upd_ne by done. intros Hd. rewrite (proj2 (Hq q Q d (not_eq_sym Hne) HQ Hd)). by eapply lk_owner0.
Qed.

(** The same between the global pool and the temporary list. *)
Lemma linked_global s s' D G G' F T T' I :
  linked s D G F T I → flow_pool_list s' = flow_pool_list s → pools s' = pools s →
  (∀ x, x ∉ T → x ∉ T' → d_next s' x = d_next s x ∧ d_pool s' x = d_pool s x) →
  chain (d_next s') (tx_freelist s') G' → num_free s' = Z.of_nat (length G') → G ++ T ≡ₚ G' ++ T' →
  linked s' D G' F T' I.
Proof.
  intros H El Ep Hx Hc Hn Hperm. pose proof (linked_NoDup _ _ _ _ _ _ H) as Hnd. destruct H.
  assert (NoDup ((flow_pool_list s ≫= F) ++ (G ++ T) ++ I)) as Hnd' by (revert Hnd; apply perm_NoDup; solve_Permutation).
  assert (∀ q Q x, pools s !! q = Some Q → x ∈ F q → d_next s' x = d_next s x ∧ d_pool s' x = d_pool s x) as Hq.
  { intros q Q x HQ Hxq.
    assert (x ∈ flow_pool_list s ≫= F) as Hb by (apply list_elem_of_bind; exists q; split; [done|]; apply lk_dom0; by exists Q).
    apply NoDup_app in Hnd' as (_ & Hd & _). specialize (Hd x Hb). rewrite Hperm in Hd.
    assert (x ∉ G ++ T) as Hgt by (rewrite Hperm; set_solver). apply Hx; set_solver. }
  split; try done.
  - rewrite El, <- lk_perm0. transitivity ((G' ++ T') ++ (flow_pool_list s ≫= F) ++ I); [solve_Permutation|].
    rewrite <- Hperm. solve_Permutation.
  - by rewrite El.
  - intros q. by rewrite El, Ep.
  - intros q Q. rewrite Ep. intros HQ. destruct (lk_pool0 q Q HQ) as [Hcq Haq]. split; [|done].
    eapply chain_frame; [|done]. intros x Hxq. symmetry. by eapply Hq.
  - intros q Q d. rewrite Ep. intros HQ Hd. rewrite (proj2 (Hq q Q d HQ Hd)). by eapply lk_owner0.
Qed.

Lemma linked_small s D G F T I : linked s D G F T I → Z.of_nat (length G) < 65536.
Proof. intros H. pose proof (linked_length _ _ _ _ _ _ H). destruct H. lia. Qed.

(** A free descriptor of a pool is taken to the temporary list. *)
Lemma get_flow_spec s D G F T I p P d l temp :
  linked s D G F T I → pools s !! p = Some P → F p = d :: l → chain (d_next s) temp T →
  let P' := P <| freelist := d_next s d |> <| avail_desc := avail_desc P - 1 |> in
  ol_tx_get_desc_flow_pool s p = Some (set_pool s p P', d) ∧
  (let s' := link_desc (set_pool s p P') d temp in
   linked s' D G (fn_upd F p l) (d :: T) I ∧ chain (d_next s') (Some d) (d :: T)).
Proof.
  intros H HP EF HT P'. pose proof (pool_length _ _ _ _ _ _ p P H HP) as HL. rewrite EF in HL. cbn in HL.
  pose proof (linked_T _ _ _ _ _ _ H) as HndT. pose proof (linked_NoDup _ _ _ _ _ _ H) as Hnd.
  pose proof H as []. destruct (lk_pool0 p P HP) as [Hc Ha]. rewrite EF in Hc, Ha. cbn [length] in Ha.
  apply lseg_cons in Hc as [Ef Hc]. split.
  - unfold ol_tx_get_desc_flow_pool. rewrite HP. cbn [mbind option_bind]. rewrite Ef. cbn [mbind option_bind].
    assert (u16 (avail_desc P - 1) = avail_desc P - 1) as Eu by (apply u16_small; unfold is_u16; lia).
    unfold P', set_field. cbn. by rewrite Eu.
  - assert (d ∉ T ∧ d ∉ l) as [HdT Hdl].
    { assert (p ∈ flow_pool_list s) as Hp by (apply lk_dom0; by exists P).
      destruct (pooled_split F _ p lk_list0 Hp) as (R & E1 & _). rewrite E1, EF in Hnd.
      apply NoDup_app in Hnd as (_ & _ & Hnd). rewrite <- !app_assoc in Hnd. cbn in Hnd. apply NoDup_cons in Hnd as [Hnin _]. set_solver. }
    split.
    + eapply (linked_transfer s _ D G F T (d :: T) I p P P' l); try done.
      * intros x _ Hx. split; [|done]. cbn. apply nx_upd_ne. set_solver.
      * intros x Hx. cbn. apply (lk_owner0 p P); [done|]. rewrite EF. by constructor.
      * cbn. by apply lseg_upd_fresh.
      * cbn. rewrite Ha. lia.
      * rewrite EF. solve_Permutation.
    + split; [done|]. cbn. rewrite (nx_upd_eq (d_next s) d temp). by apply lseg_upd_fresh.
Qed.

(** A descriptor on its way goes to a pool. *)
Lemma put_flow_spec s D G F T I p P d :
  linked s D G F (d :: T) I → pools s !! p = Some P →
  let P' := P <| freelist := Some d |> <| avail_desc := avail_desc P + 1 |> in
  ∃ s', ol_tx_put_desc_flow_pool s p d = Some s' ∧
    s' = set_pool (link_desc (s <| d_pool ::= λ f, fn_upd f d (Some p) |>) d (freelist P)) p P' ∧
    linked s' D G (fn_upd F p (d :: F p)) T I.
Proof.
  intros H HP P'. pose proof (pool_length _ _ _ _ _ _ p P H HP) as HL. cbn in HL.
  destruct (linked_loose _ _ _ _ _ _ d H ltac:(constructor)) as [_ Hdp]. specialize (Hdp p P HP).
  pose proof H as []. destruct (lk_pool0 p P HP) as [Hc Ha].
  eexists. split; [|split; [reflexivity|]].
  - assert (u16 (avail_desc P + 1) = avail_desc P + 1) as Eu by (apply u16_small; unfold is_u16; lia).
    unfold ol_tx_put_desc_flow_pool, P', set_field. cbn. rewrite HP. cbn. by rewrite Eu.
  - eapply (linked_transfer s _ D G F (d :: T) T I p P P' (d :: F p)); try done.
    + intros x Hx _. cbn. split; [apply nx_upd_ne; set_solver|]. apply fn_upd_ne. set_solver.
    + intros x. cbn. rewrite elem_of_cons. unfold fn_upd. intros [->|Hx]; [by rewrite decide_True|].
      destruct (decide (x = d)); [done|by apply (lk_owner0 p P)].
    + cbn. split; [done|]. rewrite (nx_upd_eq (d_next s)). by apply lseg_upd_fresh.
    + cbn. rewrite Ha. lia.
    + solve_Permutation.
Qed.

Lemma linked_F s D G F F' T I : (∀ p, F p = F' p) → linked s D G F T I → linked s D G F' T I.
Proof.
  intros HF []. split; try done.
  - by rewrite <- (pooled_ext F F') by done.
  - intros p P HP. rewrite <- HF. by apply lk_pool0.
  - intros p P d. rewrite <- HF. apply lk_owner0.
Qed.
Lemma fn_upd_twice {A} (F : Z → A) p a b q : fn_upd (fn_upd F p a) p b q = fn_upd F p b q.
Proof. unfold fn_upd. by destruct (decide (q = p)). Qed.
Lemma fn_upd_id {A} (F : Z → A) p q : fn_upd F p (F p) q = F q.
Proof. unfold fn_upd. by destruct (decide (q = p)) as [->|]. Qed.

(** What moving descriptors leaves alone. *)
Definition other s := (flow_pool_list s, vdevs s, mgmt_pool s, is_mgmt_over_wmi_enabled s, num_invalid_bin s,
                       tx_flow_stop_queue_th s, tx_flow_start_queue_offset s, tx_events s).
(** Pool [P'] is [P] with another free list. *)
Definition refilled P P' : Prop := P' = P <| freelist := freelist P' |> <| avail_desc := avail_desc P' |>.
Lemma refilled_trans P P' P'' : refilled P P' → refilled P' P'' → refilled P P''.
Proof. unfold refilled. intros E1 E2. rewrite E2, E1. by destruct P. Qed.

(** *** The loops *)

Lemma take_descs_spec n s D G F T I p P l1 l2 temp :
  linked s D G F T I → pools s !! p = Some P → F p = l1 ++ l2 → length l1 = n → chain (d_next s) temp T →
  ∃ s' temp' P', take_descs n s p temp = Some (s', temp') ∧ linked s' D G (fn_upd F p l2) (rev l1 ++ T) I ∧
    chain (d_next s') temp' (rev l1 ++ T) ∧ pools s' = <[p := P']> (pools s) ∧ refilled P P' ∧
    avail_desc P' = Z.of_nat (length l2) ∧ d_pool s' = d_pool s ∧ other s' = other s.
Proof.
  revert s F T P l1 temp. induction n as [|n IH]; intros s F T P l1 temp H HP EF Hn HT.
  - destruct l1; [|done]. cbn in EF. exists s, temp, P. split; [done|]. split.
    { eapply linked_F; [|exact H]. intros q. rewrite <- EF. by rewrite fn_upd_id. }
    split; [done|]. split; [by rewrite insert_id|]. split; [by destruct P|].
    split; [by rewrite <- EF; apply (lk_pool _ _ _ _ _ _ H)|done].
  - destruct l1 as [|d l1]; [done|]. cbn in EF, Hn. injection Hn as Hn.
    destruct (get_flow_spec s D G F T I p P d (l1 ++ l2) temp H HP EF HT) as [E [H1 HT1]].
    set (s1 := link_desc _ d temp) in H1, HT1. cbn [take_descs]. rewrite E. cbn [mbind option_bind]. fold s1.
    destruct (IH s1 _ (d :: T) (P <| freelist := d_next s d |> <| avail_desc := avail_desc P - 1 |>) l1 (Some d) H1)
      as (s' & temp' & P' & E' & H' & HT' & Ep & Hr & Ha & Ed & Eo);
      [cbn; apply lookup_insert_eq|apply fn_upd_eq|done|done|].
    exists s', temp', P'. split; [done|]. cbn [rev]. rewrite <- app_assoc. cbn [app]. split.
    { eapply linked_F; [|exact H']. intros q. apply fn_upd_twice. }
    split; [done|]. split; [rewrite Ep; cbn; apply insert_insert_eq|]. split; [|by rewrite Ed, Eo].
    eapply refilled_trans; [|exact Hr]. by destruct P.
Qed.

Lemma give_descs_spec n s D G F I p P l1 l2 temp count :
  linked s D G F (l1 ++ l2) I → pools s !! p = Some P → length l1 = n → chain (d_next s) temp (l1 ++ l2) →
  Z.of_nat n <= deficient_desc P < 65536 → 0 <= count → count + Z.of_nat n < 65536 →
  ∃ s' temp' P', give_descs n s p temp count = Some (s', temp', count + Z.of_nat n) ∧
    linked s' D G (fn_upd F p (rev l1 ++ F p)) l2 I ∧ chain (d_next s') temp' l2 ∧ pools s' = <[p := P']> (pools s) ∧
    refilled (P <| deficient_desc := deficient_desc P - Z.of_nat n |>) P' ∧
    avail_desc P' = avail_desc P + Z.of_nat n ∧
    (∀ x, d_pool s' x = if decide (x ∈ l1) then Some p else d_pool s x) ∧ other s' = other s.
Proof.
  revert s F P l1 temp count. induction n as [|n IH]; intros s F P l1 temp count H HP Hn HT Hd Hc0 Hc.
  - destruct l1; [|done]. exists s, temp, P. cbn. rewrite Z.add_0_r, Z.sub_0_r, Z.add_0_r.
    split; [done|]. split; [eapply linked_F; [|exact H]; intros q; by rewrite fn_upd_id|]. split; [done|].
    split; [by rewrite insert_id|]. split; [by destruct P|]. split; [done|]. split; [|done].
    intros x. by rewrite decide_False by apply not_elem_of_nil.
  - destruct l1 as [|d l1]; [done|]. injection Hn as Hn. cbn [app] in HT, H. pose proof HT as HT0.
    destruct temp as [d'|]; [|by apply chain_nil in HT]. apply lseg_cons in HT0 as [[= ->] HT0].
    cbn [give_descs]. rewrite HP. cbn [mbind option_bind]. rewrite (proj2 (Z.eqb_neq _ _)) by lia.
    set (P1 := P <| deficient_desc ::= _ |>). set (s1 := set_pool s p P1).
    assert (linked s1 D G F (d :: l1 ++ l2) I) as H1 by (by apply (linked_pool s _ _ _ _ _ p P)).
    assert (pools s1 !! p = Some P1) as HP1 by apply lookup_insert_eq.
    destruct (put_flow_spec s1 D G F (l1 ++ l2) I p P1 d H1 HP1) as (s2 & E2 & Es2 & H2). rewrite E2. cbn [mbind option_bind].
    assert (d ∉ l1 ++ l2) as Hdn by (pose proof (linked_T _ _ _ _ _ _ H) as Hnd; cbn in Hnd; apply NoDup_cons in Hnd as [Hnin _]; set_solver).
    set (P2 := P1 <| freelist := Some d |> <| avail_desc := avail_desc P1 + 1 |>) in *.
    assert (deficient_desc P2 = deficient_desc P - 1) as Ed2 by (cbn; apply u16_small; unfold is_u16; lia).
    assert (u16 (count + 1) = count + 1) as -> by (apply u16_small; unfold is_u16; lia).
    destruct (IH s2 _ P2 l1 (d_next s1 d) (count + 1) H2) as (s' & temp' & P' & E' & H' & HT' & Ep & Hr & Ha & Edp & Eo).
    + rewrite Es2. apply lookup_insert_eq.
    + done.
    + rewrite Es2. cbn. by apply lseg_upd_fresh.
    + rewrite Ed2. lia.
    + lia.
    + lia.
    + exists s', temp', P'. split; [rewrite E'; do 2 f_equal; lia|]. split.
      { eapply linked_F; [|exact H']. intros q. rewrite fn_upd_twice. cbn [rev]. rewrite <- app_assoc. cbn [app]. by rewrite fn_upd_eq. }
      split; [done|]. split; [rewrite Ep, Es2; cbn; by rewrite !insert_insert_eq|].
      split.
      { eapply refilled_trans; [|exact Hr]. rewrite Ed2. unfold refilled, P2, P1. clear.
        replace (deficient_desc P - Z.of_nat (S n)) with (deficient_desc P - 1 - Z.of_nat n) by lia. by destruct P. }
      split; [rewrite Ha; cbn; lia|]. split; [|rewrite Eo, Es2; done].
      intros x. rewrite Edp, Es2. cbn. unfold fn_upd. destruct (decide (x ∈ l1)) as [Hx|Hx].
      * rewrite decide_True by (by constructor). done.
      * destruct (decide (x = d)) as [->|Hxd]; [by rewrite decide_True by constructor|].
        rewrite decide_False; [done|]. rewrite elem_of_cons. tauto.
Qed.

Lemma take_global_spec n s D G1 G2 F T I p temp :
  linked s D (G1 ++ G2) F T I → length G1 = n → chain (d_next s) temp T →
  ∃ s' temp', take_global n s p temp = Some (s', temp') ∧ linked s' D G2 F (rev G1 ++ T) I ∧
    chain (d_next s') temp' (rev G1 ++ T) ∧ pools s' = pools s ∧ other s' = other s ∧
    (∀ x, d_pool s' x = if decide (x ∈ G1) then Some p else d_pool s x).
Proof.
  revert s G1 T temp. induction n as [|n IH]; intros s G1 T temp H Hn HT.
  - destruct G1; [|done]. exists s, temp. do 5 (split; [done|]). intros x. by rewrite decide_False by apply not_elem_of_nil.
  - destruct G1 as [|d G1]; [done|]. injection Hn as Hn. cbn [app] in H. pose proof (linked_small _ _ _ _ _ _ H) as Hs.
    pose proof (linked_NoDup _ _ _ _ _ _ H) as Hnd. cbn in Hnd. apply NoDup_cons in Hnd as [Hdn _].
    pose proof (lk_global _ _ _ _ _ _ H) as Hg. pose proof (lk_free _ _ _ _ _ _ H) as Hf. cbn [length] in Hs, Hf.
    apply lseg_cons in Hg as [Eg Hg]. cbn [take_global]. unfold ol_tx_get_desc_global_pool. rewrite Eg. cbn [mbind option_bind].
    set (s1 := link_desc _ d temp).
    assert (linked s1 D (G1 ++ G2) F (d :: T) I) as H1.
    { eapply (linked_global s s1); [exact H|done..| | | |solve_Permutation].
      - intros x _ Hx. cbn. split; [apply nx_upd_ne|apply fn_upd_ne]; set_solver.
      - cbn. apply lseg_upd_fresh; [set_solver|done].
      - cbn. rewrite Hf, length_app. rewrite u16_small; [|unfold is_u16]; rewrite length_app in *; lia. }
    assert (chain (d_next s1) (Some d) (d :: T)) as HT1.
    { split; [done|]. cbn. rewrite (nx_upd_eq (d_next s)). apply lseg_upd_fresh; [set_solver|done]. }
    destruct (IH s1 G1 (d :: T) (Some d) H1 Hn HT1) as (s' & temp' & E' & H' & HT' & Ep & Eo & Ed).
    exists s', temp'. split; [exact E'|]. cbn [rev]. rewrite <- app_assoc. do 4 (split; [done|]).
    intros x. rewrite Ed. cbn. unfold fn_upd. destruct (decide (x ∈ G1)) as [Hx|Hx].
    + by rewrite decide_True by (by constructor).
    + destruct (decide (x = d)) as [->|Hxd]; [by rewrite decide_True by constructor|].
      rewrite decide_False; [done|]. rewrite elem_of_cons. tauto.
Qed.

Lemma put_global_spec n s D G F T I temp :
  linked s D G F T I → length T = n → chain (d_next s) temp T →
  ∃ s', put_global n s temp = Some s' ∧ linked s' D (rev T ++ G) F [] I ∧ pools s' = pools s ∧ other s' = other s ∧
    d_pool s' = d_pool s.
Proof.
  revert s G T temp. induction n as [|n IH]; intros s G T temp H Hn HT.
  - destruct T; [|done]. by exists s.
  - destruct T as [|d T]; [done|]. injection Hn as Hn. destruct temp as [d'|]; [|by apply chain_nil in HT].
    apply lseg_cons in HT as [[= ->] HT]. cbn [put_global mbind option_bind].
    pose proof (linked_length _ _ _ _ _ _ H) as HL. pose proof (lk_size _ _ _ _ _ _ H) as Hsz. pose proof (lk_free _ _ _ _ _ _ H) as Hf.
    pose proof (linked_T _ _ _ _ _ _ H) as Hnd. cbn in Hnd. apply NoDup_cons in Hnd as [Hdn _]. cbn in HL.
    destruct (linked_loose _ _ _ _ _ _ d H ltac:(constructor)) as [HdG _].
    set (s1 := ol_tx_put_desc_global_pool s d).
    assert (linked s1 D (d :: G) F T I) as H1.
    { eapply (linked_global s s1); [exact H|done..| | | |solve_Permutation].
      - intros x Hx _. split; [|done]. cbn. apply nx_upd_ne. set_solver.
      - cbn. split; [done|]. rewrite (nx_upd_eq (d_next s)). apply lseg_upd_fresh; [done|apply H].
      - cbn. rewrite Hf, u16_small; [|unfold is_u16]; lia. }
    destruct (IH s1 (d :: G) T (d_next s d) H1 Hn) as (s' & E' & H' & Ep & Eo & Ed).
    { cbn. apply lseg_upd_fresh; [set_solver|done]. }
    exists s'. split; [exact E'|]. cbn [rev]. rewrite <- app_assoc. by split_and!.
Qed.

(** *** Moving between two pools *)

Lemma move_desc_n_spec n s D G F I src dst P Q l1 l2 :
  linked s D G F [] I → src ≠ dst → pools s !! src = Some P → pools s !! dst = Some Q →
  F src = l1 ++ l2 → length l1 = n → Z.of_nat n <= deficient_desc Q < 65536 →
  ∃ s' P' Q' F', ol_tx_move_desc_n s src dst (Z.of_nat n) = Some (s', Z.of_nat n) ∧ linked s' D G F' [] I ∧
    pools s' = <[dst := Q']> (<[src := P']> (pools s)) ∧ refilled P P' ∧ avail_desc P' = Z.of_nat (length l2) ∧
    refilled (Q <| deficient_desc := deficient_desc Q - Z.of_nat n |>) Q' ∧ avail_desc Q' = avail_desc Q + Z.of_nat n ∧
    (∀ x, d_pool s' x = if decide (x ∈ rev l1) then Some dst else d_pool s x) ∧ other s' = other s ∧
    F' src = l2 ∧ F' dst = l1 ++ F dst ∧ (∀ p, p ≠ src → p ≠ dst → F' p = F p).
Proof.
  intros H Hne HP HQ EF Hn Hd.
  destruct (take_descs_spec n s D G F [] I src P l1 l2 None H HP EF Hn eq_refl)
    as (s1 & t1 & P' & E1 & H1 & HT1 & Ep1 & Hr1 & Ha1 & Ed1 & Eo1).
  rewrite app_nil_r in H1, HT1.
  assert (pools s1 !! dst = Some Q) as HQ1 by (by rewrite Ep1, lookup_insert_ne).
  destruct (give_descs_spec n s1 D G (fn_upd F src l2) I dst Q (rev l1) [] t1 0)
    as (s2 & t2 & Q' & E2 & H2 & HT2 & Ep2 & Hr2 & Ha2 & Ed2 & Eo2);
    rewrite ?app_nil_r, ?length_rev; try done; try lia.
  unfold ol_tx_move_desc_n. rewrite Nat2Z.id, E1. cbn [mbind option_bind]. rewrite E2. cbn [mbind option_bind].
  unfold chain in HT2. apply lseg_nil in HT2 as ->. exists s2, P', Q', (fn_upd (fn_upd F src l2) dst (l1 ++ F dst)).
  assert (return_descs n s2 src None = Some s2) as -> by by destruct n. cbn [mbind option_bind].
  split; [do 2 f_equal; lia|]. split.
  { eapply linked_F; [|exact H2]. intros q. by rewrite rev_involutive, (fn_upd_ne F) by done. }
  split; [by rewrite Ep2, Ep1|]. split; [done|]. split; [done|]. split; [done|]. split; [done|].
  split; [by rewrite <- Ed1|]. split; [by rewrite Eo2, Eo1|].
  split; [by rewrite fn_upd_ne, fn_upd_eq|]. split; [by rewrite fn_upd_eq|]. intros p H3 H4. by rewrite !fn_upd_ne.
Qed.

(** ** Accounting *)

(** The descriptors of pool [p] in flight. *)
Definition used s (I : list Z) (p : Z) : Z := Z.of_nat (length (filter (λ d, d_pool s d = Some p) I)).

Record pool_ok s (I : list Z) (p : Z) P : Prop := {
  po_sum : avail_desc P + used s I p + deficient_desc P = flow_pool_size P;
  po_def : 0 <= deficient_desc P;
  po_size : flow_pool_size P < 65536;
  po_status : status P ≠ FLOW_POOL_INACTIVE;
  po_ref : ref_cnt P = 1;
  po_paused : status P = FLOW_POOL_ACTIVE_PAUSED → avail_desc P <= start_th P;
  po_th : stop_th P <= start_th P;
  po_invalid : status P = FLOW_POOL_INVALID → flow_pool_id P = INVALID_FLOW_ID;
}.

(** [P'] is the same pool as [P] to the rest of the driver. *)
Definition same_pool P P' : Prop :=
  flow_pool_id P' = flow_pool_id P ∧ member_flow_id P' = member_flow_id P ∧ flow_pool_size P' = flow_pool_size P ∧
  ref_cnt P' = ref_cnt P ∧ (status P' = FLOW_POOL_INVALID ↔ status P = FLOW_POOL_INVALID) ∧
  deficient_desc P' <= deficient_desc P.
Lemma same_pool_refl P : same_pool P P.
Proof. by split_and!. Qed.
Lemma same_pool_trans P P' P'' : same_pool P P' → same_pool P' P'' → same_pool P P''.
Proof. intros (A1 & A2 & A3 & A4 & A5 & A6) (B1 & B2 & B3 & B4 & B5 & B6). split_and!; try congruence; [tauto..|lia]. Qed.
#[local] Hint Resolve same_pool_refl : core.

Lemma used_ext s s' I p : (∀ x, x ∈ I → d_pool s' x = d_pool s x) → used s' I p = used s I p.
Proof.
  intros H. unfold used. f_equal. induction I as [|d I IH]; [done|]. rewrite !filter_cons, H by constructor.
  destruct (decide _); cbn; rewrite IH by (intros x Hx; apply H; by constructor); done.
Qed.
Lemma pool_ok_ext s s' I p P : (∀ x, x ∈ I → d_pool s' x = d_pool s x) → pool_ok s I p P → pool_ok s' I p P.
Proof. intros H []. split; try done. by rewrite (used_ext s). Qed.
Lemma used_nonneg s I p : 0 <= used s I p.
Proof. unfold used. lia. Qed.
Lemma used_0 s I p : used s I p = 0 → ∀ d, d ∈ I → d_pool s d ≠ Some p.
Proof.
  unfold used. intros H d Hd E. assert (d ∈ filter (λ d, d_pool s d = Some p) I) as Hf by by apply list_elem_of_filter.
  destruct (filter _ I); [by apply not_elem_of_nil in Hf|done].
Qed.

(** *** The network queues *)

(** The queues of a vdev after these calls of the callback. *)
Definition queue_stopped (v : Z) (evs : list tx_event) : bool :=
  foldl (λ b ev, match ev with
                 | StopQueues w => if w =? v then true else b
                 | WakeQueues w => if w =? v then false else b
                 | InvalidBins => b
                 end) false evs.
Lemma queue_stopped_snoc v evs ev :
  queue_stopped v (evs ++ [ev]) = match ev with
                                  | StopQueues w => if w =? v then true else queue_stopped v evs
                                  | WakeQueues w => if w =? v then false else queue_stopped v evs
                                  | InvalidBins => queue_stopped v evs
                                  end.
Proof. unfold queue_stopped. by rewrite foldl_app. Qed.

(** A flow's queues are stopped exactly while its pool is paused. *)
Record queues s : Prop := {
  qu_paused : ∀ p P, pools s !! p = Some P → status P = FLOW_POOL_ACTIVE_PAUSED → vdevs s !! member_flow_id P = Some (Some p);
  qu_member : ∀ v p P, vdevs s !! v = Some (Some p) → pools s !! p = Some P → member_flow_id P = v;
  qu_stopped : ∀ v p P, vdevs s !! v = Some (Some p) → pools s !! p = Some P →
    (status P = FLOW_POOL_ACTIVE_PAUSED ↔ queue_stopped v (tx_events s) = true);
}.

Lemma queues_ext s s' :
  vdevs s' = vdevs s → (∀ v, queue_stopped v (tx_events s') = queue_stopped v (tx_events s)) →
  (∀ p P', pools s' !! p = Some P' →
    (∃ P, pools s !! p = Some P ∧ member_flow_id P' = member_flow_id P ∧
          (status P' = FLOW_POOL_ACTIVE_PAUSED ↔ status P = FLOW_POOL_ACTIVE_PAUSED)) ∨
    status P' ≠ FLOW_POOL_ACTIVE_PAUSED ∧ ∀ v, vdevs s !! v ≠ Some (Some p)) →
  queues s → queues s'.
Proof.
  intros Ev Es Hp []. split; rewrite ?Ev.
  - intros p P' HP' Hst. destruct (Hp p P' HP') as [(P & HP & -> & Hiff)|[Hn _]]; [apply qu_paused0; [done|by apply Hiff]|done].
  - intros v p P' E HP'. destruct (Hp p P' HP') as [(P & HP & -> & Hiff)|[_ Hn]]; [by eapply qu_member0|by destruct (Hn v)].
  - intros v p P' E HP'. rewrite Es. destruct (Hp p P' HP') as [(P & HP & _ & ->)|[_ Hn]]; [by eapply qu_stopped0|by destruct (Hn v)].
Qed.

Lemma queues_refill s s' p P P' :
  vdevs s' = vdevs s → tx_events s' = tx_events s → pools s !! p = Some P → pools s' = <[p := P']> (pools s) →
  member_flow_id P' = member_flow_id P → status P' = status P → queues s → queues s'.
Proof.
  intros Ev Es HP Ep Hm Hst. apply queues_ext; [done|by rewrite Es|]. intros q Q HQ. left. rewrite Ep, lookup_insert_Some in HQ.
  destruct HQ as [[<- <-]|[_ HQ]]; [exists P; by rewrite Hst|by exists Q].
Qed.

(** Pool [p] of the flow [v] is paused or goes on, with its queues. *)
Lemma queues_switch s s' p P P' v ev (b : bool) :
  vdevs s' = vdevs s → tx_events s' = tx_events s ++ [ev] → ev = (if b then StopQueues v else WakeQueues v) →
  pools s !! p = Some P → vdevs s !! v = Some (Some p) → pools s' = <[p := P']> (pools s) →
  member_flow_id P' = member_flow_id P → (status P' = FLOW_POOL_ACTIVE_PAUSED ↔ b = true) → queues s → queues s'.
Proof.
  intros Ev Es Hev HP Hv Ep Hm Hb []. pose proof (qu_member0 v p P Hv HP) as Hmem.
  assert (∀ w, queue_stopped w (tx_events s') = if v =? w then b else queue_stopped w (tx_events s)) as Hq
    by (intros w; rewrite Es, queue_stopped_snoc, Hev; by destruct b).
  split; rewrite ?Ev, ?Ep.
  - intros q Q. rewrite lookup_insert_Some. intros [[<- <-]|[Hne HQ]]; [by rewrite Hm, Hmem|by apply qu_paused0].
  - intros w q Q E. rewrite lookup_insert_Some. intros [[<- <-]|[Hne HQ]]; [rewrite Hm; by eapply qu_member0|by eapply qu_member0].
  - intros w q Q E. rewrite lookup_insert_Some, Hq. intros [[<- <-]|[Hne HQ]].
    + rewrite Hb, (proj2 (Z.eqb_eq v w)); [done|]. rewrite <- Hmem. by apply (qu_member0 w p).
    + rewrite (proj2 (Z.eqb_neq v w)) by (intros ->; congruence). by eapply qu_stopped0.
Qed.

(** What redistributing the descriptors of pool [src] keeps. *)
Record spread s s' (I : list Z) (src : Z) : Prop := {
  sp_list : flow_pool_list s' = flow_pool_list s;
  sp_other : (vdevs s', mgmt_pool s', is_mgmt_over_wmi_enabled s', num_invalid_bin s', tx_flow_stop_queue_th s',
              tx_flow_start_queue_offset s') =
             (vdevs s, mgmt_pool s, is_mgmt_over_wmi_enabled s, num_invalid_bin s, tx_flow_stop_queue_th s,
              tx_flow_start_queue_offset s);
  sp_flight : ∀ x, x ∈ I → d_pool s' x = d_pool s x;
  sp_src : ∀ P, pools s !! src = Some P → ∃ P', pools s' !! src = Some P' ∧ refilled P P';
  sp_pools : ∀ p P, pools s !! p = Some P → ∃ P', pools s' !! p = Some P' ∧ same_pool P P';
  sp_old : ∀ p, is_Some (pools s' !! p) → is_Some (pools s !! p);
  sp_queues : queues s → queues s';
}.
Lemma spread_refl s I src : spread s s I src.
Proof. split; try done; intros; eexists; split; [done| |done|done]. by destruct P. Qed.
Lemma spread_trans s1 s2 s3 I src : spread s1 s2 I src → spread s2 s3 I src → spread s1 s3 I src.
Proof.
  intros [] []. split; [congruence|congruence| | | |naive_solver|naive_solver].
  - intros x Hx. by rewrite sp_flight1, sp_flight0.
  - intros P HP. destruct (sp_src0 P HP) as (P' & HP' & Hr). destruct (sp_src1 P' HP') as (P'' & HP'' & Hr').
    exists P''. split; [done|]. by eapply refilled_trans.
  - intros p P HP. destruct (sp_pools0 p P HP) as (P' & HP' & Hr). destruct (sp_pools1 p P' HP') as (P'' & HP'' & Hr').
    exists P''. split; [done|]. by eapply same_pool_trans.
Qed.

Lemma eta_status P : P <| status := status P |> = P.
Proof. by destruct P. Qed.
Lemma refilled_fields P P' : refilled P P' →
  same_pool P P' ∧ deficient_desc P' = deficient_desc P ∧ status P' = status P ∧ stop_th P' = stop_th P ∧ start_th P' = start_th P.
Proof. intros ->. by split_and!. Qed.

Lemma distribute_one_spec s D G F I src dst P c :
  linked s D G F [] I → (∀ p Q, p ≠ src → pools s !! p = Some Q → pool_ok s I p Q) →
  pools s !! src = Some P → deficient_desc P = 0 → avail_desc P = c → is_Some (pools s !! dst) →
  ∃ s' F' P', distribute_one s src dst c = Some (s', avail_desc P') ∧ linked s' D G F' [] I ∧ spread s s' I src ∧
    (∀ p Q, p ≠ src → pools s' !! p = Some Q → pool_ok s' I p Q) ∧ pools s' !! src = Some P' ∧ refilled P P'.
Proof.
  intros H Hok HP Hd0 Hc [Q HQ]. unfold distribute_one. rewrite HQ. cbn [mbind option_bind].
  destruct (decide (dst = src)) as [->|Hne].
  { rewrite HP in HQ. injection HQ as <-. rewrite Hd0. exists s, F, P. rewrite Hc. split_and!; try done; [apply spread_refl|by destruct P]. }
  pose proof (Hok dst Q Hne HQ) as HokQ. pose proof HokQ as []. pose proof (used_nonneg s I dst).
  destruct (Z.eqb_spec (deficient_desc Q) 0) as [E0|E0].
  { exists s, F, P. rewrite Hc. split_and!; try done; [apply spread_refl|by destruct P]. }
  set (k := if c <? deficient_desc Q then c else deficient_desc Q).
  destruct (lk_pool _ _ _ _ _ _ H src P HP) as [_ Ha]. destruct (lk_pool _ _ _ _ _ _ H dst Q HQ) as [_ HaQ].
  pose proof (pool_length _ _ _ _ _ _ _ _ H HP) as HLs. pose proof (lk_size _ _ _ _ _ _ H) as Hsz.
  assert (0 <= k <= c ∧ k <= deficient_desc Q) as [Hk Hkd] by (unfold k; destruct (Z.ltb_spec c (deficient_desc Q)); lia).
  destruct (move_desc_n_spec (Z.to_nat k) s D G F I src dst P Q (take (Z.to_nat k) (F src)) (drop (Z.to_nat k) (F src)))
    as (s1 & P' & Q' & F' & E1 & H1 & Ep1 & Hr1 & Ha1 & Hr2 & Ha2 & Hdp & Eo & _);
    [done|congruence|done|done|by rewrite take_drop|rewrite length_take; lia|lia|].
  rewrite Z2Nat.id in * by lia. rewrite E1. cbn [mbind option_bind].
  assert (pools s1 !! dst = Some Q') as HQ1 by (rewrite Ep1; apply lookup_insert_eq).
  assert (pools s1 !! src = Some P') as HP1 by (by rewrite Ep1, lookup_insert_ne, lookup_insert_eq).
  rewrite HQ1. cbn [mbind option_bind]. rewrite length_drop in Ha1.
  assert (u16 (c - k) = avail_desc P') as -> by (rewrite u16_small; [|unfold is_u16]; lia).
  assert (∀ x, x ∈ I → d_pool s1 x = d_pool s x) as Hfl.
  { intros x Hx. rewrite Hdp, decide_False; [done|]. rewrite list_elem_of_In, <- in_rev, <- list_elem_of_In. intros Hx'.
    pose proof (linked_NoDup _ _ _ _ _ _ H) as Hnd. apply NoDup_app in Hnd as (_ & _ & Hnd). cbn in Hnd.
    apply NoDup_app in Hnd as (_ & Hd & _). apply (Hd x); [|done]. apply list_elem_of_bind. exists src.
    split; [|apply H; by exists P]. by apply elem_of_take in Hx' as (i & Hi%list_elem_of_lookup_2 & _). }
  destruct (refilled_fields _ _ Hr1) as (Hs1 & Hd1 & Hst1 & _). destruct (refilled_fields _ _ Hr2) as (Hs2 & Hd2 & Hst2 & Hth2 & Hth3).
  cbn in Hd2, Hst2, Hth2, Hth3. assert (same_pool Q Q') as HsQ by (eapply same_pool_trans; [|exact Hs2]; split_and!; cbn; try done; lia).
  assert (∀ s2 Q2, pools s2 = <[dst := Q2]> (pools s1) → flow_pool_list s2 = flow_pool_list s1 →
    (vdevs s2, mgmt_pool s2, is_mgmt_over_wmi_enabled s2, num_invalid_bin s2, tx_flow_stop_queue_th s2,
     tx_flow_start_queue_offset s2) =
    (vdevs s1, mgmt_pool s1, is_mgmt_over_wmi_enabled s1, num_invalid_bin s1, tx_flow_stop_queue_th s1,
     tx_flow_start_queue_offset s1) → d_pool s2 = d_pool s1 →
    linked s2 D G F' [] I → same_pool Q Q2 → pool_ok s I dst Q2 →
    (queues s1 → queues s2) →
    linked s2 D G F' [] I ∧ spread s s2 I src ∧ (∀ p R, p ≠ src → pools s2 !! p = Some R → pool_ok s2 I p R) ∧
    pools s2 !! src = Some P') as Hfin.
  { intros s2 Q2 Ep2 El2 Eo2 Edp2 H2 HsQ2 HokQ2 Hqu. unfold other in Eo. injection Eo as O1 O2 O3 O4 O5 O6 O7 O8.
    injection Eo2 as V1 V2 V3 V4 V5 V6. rewrite Ep1, insert_insert_eq in Ep2.
    assert (∀ x, x ∈ I → d_pool s2 x = d_pool s x) as Hfl2 by (intros x Hx; rewrite Edp2; by apply Hfl).
    split; [done|]. split; [|split].
    - split; [congruence|congruence|done| | | |].
      + intros P0 HP0. rewrite HP in HP0. injection HP0 as <-. exists P'. by rewrite Ep2, lookup_insert_ne, lookup_insert_eq.
      + intros p P0 HP0. rewrite Ep2. destruct (decide (p = dst)) as [->|Hpd].
        * rewrite lookup_insert_eq. exists Q2. split; [done|]. rewrite HQ in HP0. by injection HP0 as <-.
        * rewrite lookup_insert_ne by congruence. destruct (decide (p = src)) as [->|Hps].
          -- rewrite lookup_insert_eq. exists P'. split; [done|]. rewrite HP in HP0. by injection HP0 as <-.
          -- rewrite lookup_insert_ne by congruence. by exists P0.
      + intros p. rewrite Ep2, !lookup_insert_is_Some. intros [<-|[_ [<-|[_ Hp]]]]; [by exists Q|by exists P|done].
      + intros Hqs. apply Hqu. revert Hqs. apply queues_ext; [done|by rewrite O8|]. intros p R HR0. left. revert HR0. rewrite Ep1,
        !lookup_insert_Some. intros [[<- <-]|[_ [[<- <-]|[_ HR]]]]; 
        [exists Q; rewrite Hst2; split_and!; [done|apply HsQ|done..]|exists P; rewrite Hst1; split_and!; [done|apply Hs1|done..]|by exists R].
    - intros p R Hps. rewrite Ep2, lookup_insert_Some. intros [[<- <-]|[Hpd HR]]; [by apply (pool_ok_ext s)|].
      rewrite lookup_insert_ne in HR by congruence. apply (pool_ok_ext s); [done|by apply Hok].
    - by rewrite Ep2, lookup_insert_ne, lookup_insert_eq by congruence. }
  assert (∀ st, (st = status Q' ∨ st = FLOW_POOL_ACTIVE_UNPAUSED) → st ≠ FLOW_POOL_INACTIVE →
    (st = FLOW_POOL_ACTIVE_PAUSED → avail_desc Q' <= start_th Q') → (st = FLOW_POOL_INVALID → status Q = FLOW_POOL_INVALID) →
    pool_ok s I dst (Q' <| status := st |>)) as Hok2.
  { destruct HsQ as (S1 & S2 & S3 & S4 & S5 & S6). intros st _ N1 N2 N3. split; cbn; rewrite ?S1, ?S3, ?S4, ?Hd2, ?Hth2, ?Hth3; try done; try lia.
    - rewrite Hth3 in N2. done.
    - intros E. apply po_invalid0. by apply N3. }
  destruct (bool_decide (status Q' = FLOW_POOL_ACTIVE_PAUSED) && (start_th Q' <? avail_desc Q')) eqn:Ew.
  - apply andb_true_iff in Ew as [Ew1 Ew2]. apply bool_decide_eq_true_1 in Ew1.
    eexists _, F', P'. split; [reflexivity|].
    destruct (Hfin (set_pool (tx_emit s1 (WakeQueues (member_flow_id Q'))) dst (Q' <| status := FLOW_POOL_ACTIVE_UNPAUSED |>))
      (Q' <| status := FLOW_POOL_ACTIVE_UNPAUSED |>)) as (A1 & A2 & A3 & A4); try done.
    + apply (linked_pool (tx_emit s1 (WakeQueues (member_flow_id Q'))) _ _ _ _ _ _ Q'); [done..|]. by apply (linked_ext s1).
    + destruct HsQ as (S1 & S2 & S3 & S4 & S5 & S6). split_and!; try done. cbn. split; [done|]. intros E. apply S5 in E. congruence.
    + apply Hok2; [by right|done..].
    + intros Hqs. eapply (queues_switch s1 _ dst Q' (Q' <| status := FLOW_POOL_ACTIVE_UNPAUSED |>) (member_flow_id Q') (WakeQueues (member_flow_id Q')) false);
        try done. by apply (qu_paused s1).
  - eexists _, F', P'. split; [reflexivity|].
    destruct (Hfin s1 Q') as (A1 & A2 & A3 & A4); [by rewrite insert_id|done..| |done|by split_and!].
    rewrite <- (eta_status Q'). apply Hok2; [by left|congruence| |].
    + intros E. rewrite bool_decide_eq_true_2 in Ew by done. cbn in Ew. by apply Z.ltb_ge in Ew.
    + intros E. by apply HsQ.
Qed.

Lemma distribute_loop_spec s D G F I src P dsts :
  linked s D G F [] I → (∀ p Q, p ≠ src → pools s !! p = Some Q → pool_ok s I p Q) →
  pools s !! src = Some P → deficient_desc P = 0 → (∀ p, p ∈ dsts → is_Some (pools s !! p)) →
  ∃ s' F' P', distribute_loop s src dsts (avail_desc P) = Some s' ∧ linked s' D G F' [] I ∧ spread s s' I src ∧
    (∀ p Q, p ≠ src → pools s' !! p = Some Q → pool_ok s' I p Q) ∧ pools s' !! src = Some P' ∧ refilled P P'.
Proof.
  revert s F P. induction dsts as [|dst dsts IH]; intros s F P H Hok HP Hd Hl.
  { exists s, F, P. split_and!; try done; [apply spread_refl|by destruct P]. }
  destruct (distribute_one_spec s D G F I src dst P _ H Hok HP Hd eq_refl) as (s1 & F1 & P1 & E1 & H1 & Hsp1 & Hok1 & HP1 & Hr1);
    [apply Hl; constructor|]. cbn [distribute_loop]. rewrite E1. cbn [mbind option_bind].
  destruct (Z.eqb_spec (avail_desc P1) 0); [by exists s1, F1, P1|].
  destruct (refilled_fields _ _ Hr1) as (_ & Hd1 & _).
  destruct (IH s1 F1 P1 H1 Hok1 HP1) as (s2 & F2 & P2 & E2 & H2 & Hsp2 & Hok2 & HP2 & Hr2).
  - congruence.
  - intros p Hp. destruct (Hl p) as [Q HQ]; [by constructor|]. destruct (sp_pools _ _ _ _ Hsp1 p Q HQ) as (Q' & HQ' & _). by exists Q'.
  - exists s2, F2, P2. split_and!; try done; [by eapply spread_trans|by eapply refilled_trans].
Qed.

(** *** Dropping the reference of a pool *)

Lemma filter_ne_perm (l : list Z) p : NoDup l → p ∈ l → l ≡ₚ p :: filter (.≠ p) l.
Proof.
  intros Hnd Hp. apply elem_of_Permutation in Hp as [l' E]. rewrite E in Hnd. apply NoDup_cons in Hnd as [Hp _].
  assert (filter (.≠ p) l ≡ₚ l') as ->; [|done]. rewrite E, filter_cons_False by naive_solver.
  assert (filter (.≠ p) l' = l') as ->; [|done]. clear E. induction l' as [|q l' IH]; [done|].
  apply not_elem_of_cons in Hp as [Hq Hp]. rewrite filter_cons_True by congruence. f_equal. by apply IH.
Qed.

Definition invalid_pool P : ol_tx_flow_pool_t :=
  P <| status := FLOW_POOL_INVALID |> <| freelist := None |> <| avail_desc := 0 |>
    <| flow_pool_size := flow_pool_size P - avail_desc P |> <| flow_pool_id := INVALID_FLOW_ID |>.
Lemma invalid_pool_eq P sz : ref_cnt P = 1 → sz = flow_pool_size P - avail_desc P →
  P <| ref_cnt ::= Z.pred |> <| status := FLOW_POOL_INVALID |> <| freelist := None |> <| avail_desc := 0 |>
    <| flow_pool_size := sz |> <| flow_pool_id := INVALID_FLOW_ID |> <| ref_cnt ::= Z.succ |> = invalid_pool P.
Proof. destruct P as [????????? ? r]. cbn. intros -> ->. reflexivity. Qed.
(** Configuration and users of the pools. *)
Definition users s := (vdevs s, mgmt_pool s, is_mgmt_over_wmi_enabled s, tx_flow_stop_queue_th s, tx_flow_start_queue_offset s).

(** The pool leaves the list and its free descriptors are on their way. *)
Lemma linked_unlist s s' D G F I p P :
  linked s D G F [] I → pools s !! p = Some P →
  d_next s' = d_next s → d_pool s' = d_pool s → tx_freelist s' = tx_freelist s → num_free s' = num_free s →
  (flow_pool_list s' = filter (.≠ p) (flow_pool_list s) ∧ pools s' = delete p (pools s) ∨
   ∃ P', flow_pool_list s' = filter (.≠ p) (flow_pool_list s) ++ [p] ∧ pools s' = <[p := P']> (pools s) ∧
         freelist P' = None ∧ avail_desc P' = 0) →
  linked s' D G (fn_upd F p []) (F p) I ∧ chain (d_next s') (freelist P) (F p).
Proof.
  intros H HP En Ed Eg Ef Hcase. destruct H. assert (p ∈ flow_pool_list s) as Hp by (apply lk_dom0; by exists P).
  destruct (pooled_split F _ p lk_list0 Hp) as (R & E1 & E2 & _). specialize (E2 []). cbn [app] in E2.
  pose proof (filter_ne_perm _ p lk_list0 Hp) as Efl.
  assert (filter (.≠ p) (flow_pool_list s) ≫= fn_upd F p [] ≡ₚ R) as Er.
  { rewrite <- E2. rewrite Efl at 2. cbn. by rewrite fn_upd_eq. }
  assert (flow_pool_list s' ≫= fn_upd F p [] ≡ₚ R) as El.
  { destruct Hcase as [(-> & _)|(P' & -> & _)]; [done|]. rewrite bind_app, Er. cbn. rewrite fn_upd_eq. by rewrite app_nil_r. }
  assert (NoDup (filter (.≠ p) (flow_pool_list s))) as Hndf by by apply NoDup_filter.
  split; [|rewrite En; by apply lk_pool0]. split; rewrite ?En, ?Eg, ?Ef; try done.
  - rewrite El, <- lk_perm0, E1. solve_Permutation.
  - destruct Hcase as [(-> & _)|(P' & -> & _)]; [done|]. apply NoDup_app. split; [done|]. split; [|apply NoDup_singleton].
    intros q [Hq _]%list_elem_of_filter Hq2%list_elem_of_singleton. done.
  - intros q. destruct Hcase as [(-> & ->)|(P' & -> & -> & _)].
    + rewrite list_elem_of_filter, lk_dom0, lookup_delete_is_Some. naive_solver.
    + rewrite elem_of_app, list_elem_of_filter, lk_dom0, list_elem_of_singleton, lookup_insert_is_Some.
      destruct (decide (q = p)); naive_solver.
  - intros q Q. destruct Hcase as [(_ & ->)|(P' & _ & -> & E3 & E4)].
    + rewrite lookup_delete_Some. intros [Hne HQ]. rewrite fn_upd_ne by done. by apply lk_pool0.
    + rewrite lookup_insert_Some. intros [[<- <-]|[Hne HQ]]; [rewrite fn_upd_eq, E3, E4; done|].
      rewrite fn_upd_ne by done. by apply lk_pool0.
  - intros q Q d HQ. rewrite Ed. destruct (decide (q = p)) as [->|Hne]; [rewrite fn_upd_eq; by intros ?%not_elem_of_nil|].
    rewrite fn_upd_ne by done. apply (lk_owner0 q Q). destruct Hcase as [(_ & E)|(P' & _ & E & _)]; rewrite E in HQ.
    + by apply lookup_delete_Some in HQ as [_ HQ].
    + by rewrite lookup_insert_ne in HQ.
Qed.

Lemma dec_pool_ref_spec s D G F I p P force :
  linked s D G F [] I → pools s !! p = Some P → ref_cnt P = 1 → avail_desc P <= flow_pool_size P < 65536 →
  ∃ s', ol_tx_dec_pool_ref s (Some p) force = Some s' ∧
    (if (avail_desc P =? flow_pool_size P) || force
     then flow_pool_list s' = filter (.≠ p) (flow_pool_list s) ∧ pools s' = delete p (pools s)
     else flow_pool_list s' = filter (.≠ p) (flow_pool_list s) ++ [p] ∧ pools s' = <[p := invalid_pool P]> (pools s)) ∧
    linked s' D (rev (F p) ++ G) (fn_upd F p []) [] I ∧ d_pool s' = d_pool s ∧ users s' = users s ∧
    ∀ v, queue_stopped v (tx_events s') = queue_stopped v (tx_events s).
Proof.
  intros H HP Hr Hsz. destruct (lk_pool _ _ _ _ _ _ H p P HP) as [_ Ha].
  unfold ol_tx_dec_pool_ref. rewrite HP. cbn [mbind option_bind]. rewrite Hr. cbn [Z.pred Z.eqb Z.add].
  set (P0 := P <| ref_cnt ::= Z.pred |>). set (s0 := set_pool s p P0 <| flow_pool_list ::= filter (.≠ p) |>).
  unfold ol_tx_delete_flow_pool. assert (pools s0 !! p = Some P0) as -> by apply lookup_insert_eq. cbn [mbind option_bind].
  change (avail_desc P0) with (avail_desc P). change (flow_pool_size P0) with (flow_pool_size P). change (freelist P0) with (freelist P).
  rewrite Ha, Nat2Z.id. rewrite Ha in Hsz.
  destruct ((Z.of_nat (length (F p)) =? flow_pool_size P) || force).
  - cbn [mbind option_bind]. set (s1 := s0 <| pools ::= delete p |>).
    destruct (linked_unlist s s1 D G F I p P H HP) as [H1 HT1]; [done..| |].
    { left. split; [done|]. cbn. apply delete_insert_eq. }
    destruct (put_global_spec _ s1 _ _ _ (F p) _ (freelist P) H1 eq_refl HT1) as (s2 & E2 & H2 & Ep & Eo & Ed).
    unfold other in Eo. injection Eo as O1 O2 O3 O4 O5 O6 O7 O8.
    exists s2. split; [exact E2|]. split; [split; [by rewrite O1|rewrite Ep; cbn; apply delete_insert_eq]|].
    split; [done|]. split; [by rewrite Ed|]. split; [unfold users; by rewrite O2, O3, O4, O6, O7|]. intros v. by rewrite O8.
  - set (s1 := set_pool s0 p _). cbn [ol_tx_inc_pool_ref]. unfold upd_pool.
    assert (pools s1 !! p = Some (P0 <| status := FLOW_POOL_INVALID |> <| freelist := None |> <| avail_desc := 0 |>
       <| flow_pool_size := u16 (flow_pool_size P - Z.of_nat (length (F p))) |> <| flow_pool_id := INVALID_FLOW_ID |>)) as ->
      by apply lookup_insert_eq.
    cbn [mbind option_bind]. set (P1 := (_ : ol_tx_flow_pool_t) <| ref_cnt ::= Z.succ |>). set (s2 := set_pool s1 p P1).
    assert (P1 = invalid_pool P) as EP1.
    { apply invalid_pool_eq; [done|]. rewrite Ha. apply u16_small. unfold is_u16. lia. }
    set (s3 := s2 <| num_invalid_bin ::= λ n, u8 (n + 1) |>).
    set (s4 := if MAX_INVALID_BIN <? num_invalid_bin s3 then tx_emit s3 InvalidBins else s3).
    assert (s4 = s3 <| tx_events := tx_events s4 |>) as Es4 by (unfold s4; by destruct (MAX_INVALID_BIN <? num_invalid_bin s3)).
    set (s5 := s4 <| flow_pool_list ::= λ l, l ++ [p] |>).
    destruct (linked_unlist s s5 D G F I p P H HP) as [H1 HT1]; [by unfold s5; rewrite Es4..| |].
    { right. exists P1. unfold s5. rewrite Es4. split; [done|]. split; [|by rewrite EP1]. cbn. by rewrite !insert_insert_eq. }
    destruct (put_global_spec _ s5 _ _ _ (F p) _ (freelist P) H1 eq_refl HT1) as (s6 & E6 & H6 & Ep & Eo & Ed).
    unfold other in Eo. injection Eo as O1 O2 O3 O4 O5 O6 O7 O8. unfold s5 in *. rewrite Es4 in *.
    exists s6. split; [exact E6|]. split; [split; [by rewrite O1|rewrite Ep; cbn; by rewrite !insert_insert_eq, EP1]|].
    split; [done|]. split; [by rewrite Ed|]. split; [unfold users; by rewrite O2, O3, O4, O6, O7|]. intros v. rewrite O8.
    unfold s4. destruct (MAX_INVALID_BIN <? num_invalid_bin s3); [apply (queue_stopped_snoc v _ InvalidBins)|done].
Qed.

(** ** The invariant between operations *)

(** [I] are the descriptors in flight of the [D] of the device. *)
Record tx_inv s (D I : list Z) : Prop := {
  ti_linked : ∃ G F, linked s D G F [] I;
  ti_pools : ∀ p P, pools s !! p = Some P → pool_ok s I p P;
  ti_flight : ∀ d, d ∈ I → ∃ p, is_Some (pools s !! p) ∧ d_pool s d = Some p;
  ti_vdevs : ∀ v p, vdevs s !! v = Some (Some p) → mgmt_pool s ≠ Some p ∧
    ∃ P, pools s !! p = Some P ∧ status P ≠ FLOW_POOL_INVALID ∧ member_flow_id P = v;
  ti_mgmt : ∀ p, mgmt_pool s = Some p → ∃ P, pools s !! p = Some P ∧ status P ≠ FLOW_POOL_INVALID;
  ti_cfg : 0 <= tx_flow_stop_queue_th s ∧ 0 <= tx_flow_start_queue_offset s ∧
    tx_flow_stop_queue_th s + tx_flow_start_queue_offset s <= 100;
}.

(** The parts of the invariant about the users of the pools survive what keeps
    the pools. *)
Lemma users_kept s s' p0 :
  users s' = users s →
  (∀ p P, p0 ≠ Some p → pools s !! p = Some P → ∃ P', pools s' !! p = Some P' ∧ same_pool P P') →
  (∀ p, p0 = Some p → (∀ v, vdevs s !! v ≠ Some (Some p)) ∧ mgmt_pool s ≠ Some p) →
  (∀ v p, vdevs s !! v = Some (Some p) → mgmt_pool s ≠ Some p ∧
    ∃ P, pools s !! p = Some P ∧ status P ≠ FLOW_POOL_INVALID ∧ member_flow_id P = v) →
  (∀ p, mgmt_pool s = Some p → ∃ P, pools s !! p = Some P ∧ status P ≠ FLOW_POOL_INVALID) →
  (∀ v p, vdevs s' !! v = Some (Some p) → mgmt_pool s' ≠ Some p ∧
    ∃ P, pools s' !! p = Some P ∧ status P ≠ FLOW_POOL_INVALID ∧ member_flow_id P = v) ∧
  (∀ p, mgmt_pool s' = Some p → ∃ P, pools s' !! p = Some P ∧ status P ≠ FLOW_POOL_INVALID).
Proof.
  unfold users. intros [= E1 E2 E3 E4 E5] Hp H0 Hvd Hmg. rewrite E1, E2. split.
  - intros v p E. destruct (Hvd v p E) as [Hne (P & HP & Hst & Hmem)]. split; [done|].
    destruct (Hp p P) as (P' & HP' & S1 & S2 & S3 & S4 & S5 & S6); [by intros E0; apply (proj1 (H0 p E0) v)|done|].
    exists P'. split; [done|]. rewrite S2. split; [|done]. intros E'. by apply Hst, S5.
  - intros p E. destruct (Hmg p E) as (P & HP & Hst).
    destruct (Hp p P) as (P' & HP' & S1 & S2 & S3 & S4 & S5 & S6); [by intros E0; apply (proj2 (H0 p E0))|done|].
    exists P'. split; [done|]. intros E'. by apply Hst, S5.
Qed.

Lemma tx_inv_ext s s' D I :
  (d_next s', tx_freelist s', num_free s', flow_pool_list s', pools s', d_pool s') =
  (d_next s, tx_freelist s, num_free s, flow_pool_list s, pools s, d_pool s) → users s' = users s →
  tx_inv s D I → tx_inv s' D I.
Proof.
  destruct s, s'. unfold users. cbn. intros [= -> -> -> -> -> ->] [= -> -> -> -> ->] [(G & F & H) H2 H3 H4 H5 H6].
  split; [exists G, F; by destruct H; split| |exact H3|exact H4|exact H5|exact H6].
  intros p P HP. eapply pool_ok_ext; [|by apply H2]. done.
Qed.

Lemma pool_ok_used s s' I I' p P : used s' I' p = used s I p → pool_ok s I p P → pool_ok s' I' p P.
Proof. intros E []. split; [by rewrite E|done..]. Qed.

(** One pool changes, with the descriptors in flight. *)
Lemma tx_inv_pool s s' D I I' p P P' :
  tx_inv s D I → pools s !! p = Some P → pools s' = <[p := P']> (pools s) → users s' = users s → same_pool P P' →
  (∃ G F, linked s' D G F [] I') → pool_ok s' I' p P' →
  (∀ q, q ≠ p → used s' I' q = used s I q) →
  (∀ d, d ∈ I' → d_pool s' d = Some p ∨ d ∈ I ∧ d_pool s' d = d_pool s d) →
  tx_inv s' D I'.
Proof.
  intros [] HP Ep Eu Hs Hl Hok Hu Hfl.
  assert (∀ q Q, pools s !! q = Some Q → ∃ Q', pools s' !! q = Some Q' ∧ same_pool Q Q') as Hkeep.
  { intros q Q HQ. rewrite Ep. destruct (decide (q = p)) as [->|Hne].
    - rewrite lookup_insert_eq. exists P'. split; [done|]. rewrite HP in HQ. by injection HQ as <-.
    - rewrite lookup_insert_ne by done. by exists Q. }
  destruct (users_kept s s' None Eu) as [Hv Hm]; [by intros q Q _; apply Hkeep|done|done|done|].
  split; [done| | |done|done|].
  - intros q Q. rewrite Ep, lookup_insert_Some. intros [[<- <-]|[Hne HQ]]; [done|].
    apply (pool_ok_used s s' I); [by apply Hu|by apply ti_pools0].
  - intros d Hd. destruct (Hfl d Hd) as [E|[HdI E]].
    + exists p. rewrite Ep, lookup_insert_eq. done.
    + destruct (ti_flight0 d HdI) as (q & [Q HQ] & Eq). exists q. rewrite E. split; [|done].
      destruct (Hkeep q Q HQ) as (Q' & -> & _). done.
  - unfold users in Eu. injection Eu as U1 U2 U3 U4 U5. by rewrite U4, U5.
Qed.

(** *** Allocation *)

Lemma used_cons s I d q : used s (d :: I) q = (if decide (d_pool s d = Some q) then 1 else 0) + used s I q.
Proof. unfold used. rewrite filter_cons. destruct (decide _); cbn; lia. Qed.

Lemma stop_pool_ok s I p P (b : bool) :
  (b = true → avail_desc P < stop_th P) → (status P ≠ FLOW_POOL_INVALID) → pool_ok s I p P →
  pool_ok s I p (if b then P <| status := FLOW_POOL_ACTIVE_PAUSED |> else P).
Proof. intros Hb Hi Hok. destruct b; [|done]. specialize (Hb eq_refl). destruct Hok.
  split; [exact po_sum0|exact po_def0|exact po_size0|done|exact po_ref0|intros _; cbn; lia|exact po_th0|done].
Qed.

Lemma alloc_inv s D I v pool :
  tx_inv s D I → (∀ p, pool = Some p → ∃ P, pools s !! p = Some P ∧ status P ≠ FLOW_POOL_INVALID) →
  ∃ s' od, ol_tx_desc_alloc s v pool = Some (s', od) ∧ users s' = users s ∧
    (∀ q, pool ≠ Some q → pools s' !! q = pools s !! q) ∧ d_pool s' = d_pool s ∧
    (vdevs s !! v = Some pool → queues s → queues s') ∧
    match od with
    | None => tx_inv s' D I
    | Some d => d ∉ I ∧ d ∈ D ∧ d_pool s d = pool ∧ tx_inv s' D (d :: I)
    end.
Proof.
  intros Hinv Hpool. pose proof Hinv as []. destruct ti_linked0 as (G & F & H). unfold ol_tx_desc_alloc.
  destruct pool as [p|].
  2: { eexists _, None. split; [reflexivity|]. do 3 (split; [done|]). split; [|by apply (tx_inv_ext s)].
       intros _. apply queues_ext; [done..|]. intros q Q HQ. left. by exists Q. }
  destruct (Hpool p eq_refl) as (P & HP & Hst). rewrite HP. cbn [mbind option_bind].
  destruct (lk_pool _ _ _ _ _ _ H p P HP) as [Hc Ha]. pose proof (ti_pools0 p P HP) as HokP.
  destruct (Z.eqb_spec (avail_desc P) 0) as [E0|E0].
  - set (s' := set_pool s p _). exists s', None. split; [reflexivity|]. split; [done|].
    split; [intros q Hq; apply lookup_insert_ne; congruence|]. split; [done|].
    split; [intros _; by eapply (queues_refill s s' p P)|].
    eapply (tx_inv_pool s s' D I I p P); [done..| | |done|by right].
    + exists G, F. by apply (linked_pool s _ _ _ _ _ p P).
    + apply (pool_ok_used s s' I); [done|]. by destruct HokP; split.
  - destruct (F p) as [|d l] eqn:EF; [cbn in Ha; lia|].
    destruct (get_flow_spec s D G F [] I p P d l None H HP EF eq_refl) as [Eg _]. rewrite Eg. cbn [mbind option_bind].
    set (P1 := P <| freelist := d_next s d |> <| avail_desc := avail_desc P - 1 |>).
    assert (pools (set_pool s p P1) !! p = Some P1) as -> by apply lookup_insert_eq. cbn [mbind option_bind].
    set (b := avail_desc P1 <? stop_th P1). set (P2 := if b then P1 <| status := FLOW_POOL_ACTIVE_PAUSED |> else P1).
    set (s1 := if b then tx_emit (set_pool (set_pool s p P1) p (P1 <| status := FLOW_POOL_ACTIVE_PAUSED |>)) (StopQueues v)
               else set_pool s p P1).
    assert (pools s1 = <[p := P2]> (pools s)) as Ep by (unfold s1, P2; destruct b; cbn; by rewrite ?insert_insert_eq).
    set (s' := s1 <| d_vdev_id ::= λ f, fn_upd f d v |> <| d_ref_cnt ::= λ f, fn_upd f d (f d + 1) |>).
    assert (s1 = s <| pools := pools s1 |> <| tx_events := tx_events s1 |>) as Es1 by (unfold s1; destruct b; by destruct s).
    assert (pools s' = <[p := P2]> (pools s)) as Ep' by done.
    assert (d_pool s d = Some p) as Ed by (apply (lk_owner _ _ _ _ _ _ H p P); [done|rewrite EF; constructor]).
    assert (d_pool s' = d_pool s) as Edp by (unfold s'; cbn; by rewrite Es1).
    assert (freelist P2 = d_next s d ∧ avail_desc P2 = avail_desc P - 1 ∧ same_pool P P2) as (Ef2 & Ea2 & Hs2).
    { unfold P2. destruct b; do 2 (split; [done|]); [|by split_and!]. by split_and!. }
    apply lseg_cons in Hc as [_ Hc]. cbn [length] in Ha.
    assert (linked s' D G (fn_upd F p l) [d] I) as H1.
    { eapply (linked_transfer s s' D G F [] [d] I p P P2 l);
        [exact H|exact HP|unfold s'; cbn; by rewrite Es1|exact Ep'|unfold s'; cbn; by rewrite Es1|unfold s'; cbn; by rewrite Es1| | | | |].
      - intros x _ _. unfold s'. cbn. by rewrite Es1.
      - intros x Hx. rewrite Edp. apply (lk_owner _ _ _ _ _ _ H p P); [done|]. rewrite EF. by constructor.
      - rewrite Ef2. unfold s'. cbn. by rewrite Es1.
      - rewrite Ea2, Ha. lia.
      - rewrite EF. solve_Permutation. }
    pose proof (linked_NoDup _ _ _ _ _ _ H1) as Hnd. apply NoDup_app in Hnd as (_ & _ & Hnd). apply NoDup_app in Hnd as (_ & _ & Hnd).
    apply NoDup_cons in Hnd as [HdI _].
    exists s', (Some d). split; [reflexivity|]. split; [unfold users, s'; cbn; by rewrite Es1|].
    split; [intros q Hq; rewrite Ep'; apply lookup_insert_ne; congruence|]. split; [done|]. split; [|split; [done|split]].
    { intros Hv. assert (vdevs s' = vdevs s) as Ev by (unfold s'; cbn; by rewrite Es1). unfold s', s1, P2 in *. clear - Ev Hv HP Ep'.
      destruct b; [by apply (queues_switch _ _ p P (P1 <| status := FLOW_POOL_ACTIVE_PAUSED |>) v (StopQueues v) true)|].
      by apply (queues_refill _ _ p P P1). }
    { rewrite <- (lk_perm _ _ _ _ _ _ H1). set_solver. }
    split; [done|].
    eapply (tx_inv_pool s s' D I (d :: I) p P P2);
      [done|done|done|by unfold users, s'; cbn; rewrite Es1|done| | | |].
    + exists G, (fn_upd F p l). by eapply linked_perm; [|exact H1].
    + apply stop_pool_ok; [intros Eb; by apply Z.ltb_lt in Eb|exact Hst|].
      destruct HokP. split; [|done..| |done|done]; [|intros E; specialize (po_paused0 E); cbn; lia]. rewrite used_cons, Edp, decide_True by done.
      assert (used s' I p = used s I p) as -> by (apply used_ext; intros; by rewrite Edp). cbn. lia.
    + intros q Hq. rewrite used_cons, Edp, Ed, decide_False by congruence. apply used_ext. intros. by rewrite Edp.
    + intros x [->|Hx]%elem_of_cons; [left; by rewrite Edp|right; by rewrite Edp].
Qed.

(** *** Release *)

(** A pool without descriptors in flight goes, and the others keep theirs. *)
Lemma tx_inv_drop s s' D I p P :
  tx_inv s D I → pools s !! p = Some P → status P = FLOW_POOL_INVALID ∨ (∀ v, vdevs s' !! v ≠ Some (Some p)) ∧ mgmt_pool s ≠ Some p →
  used s I p = 0 → (∃ G F, linked s' D G F [] I) → pools s' !! p = None →
  (∀ q Q, q ≠ p → pools s !! q = Some Q → ∃ Q', pools s' !! q = Some Q' ∧ same_pool Q Q') →
  (∀ q Q, pools s' !! q = Some Q → pool_ok s' I q Q) → (∀ x, x ∈ I → d_pool s' x = d_pool s x) →
  (mgmt_pool s', tx_flow_stop_queue_th s', tx_flow_start_queue_offset s') =
  (mgmt_pool s, tx_flow_stop_queue_th s, tx_flow_start_queue_offset s) →
  (∀ v q, vdevs s' !! v = Some (Some q) → vdevs s !! v = Some (Some q)) → tx_inv s' D I.
Proof.
  intros [] HP Hfree Hu Hl Hgone Hkeep Hok Hd [= U1 U2 U3] Hv.
  assert (mgmt_pool s ≠ Some p) as Hm.
  { destruct Hfree as [Hst|[_ Hm]]; [|done]. intros E. destruct (ti_mgmt0 p E) as (P' & HP' & Hst'). congruence. }
  split; [done|done| | | |by rewrite U2, U3].
  - intros d HdI. destruct (ti_flight0 d HdI) as (q & [Q HQ] & Eq). exists q. rewrite Hd by done. split; [|done].
    destruct (Hkeep q Q) as (Q' & -> & _); [|done|done]. intros ->. by apply (used_0 s I p Hu d HdI).
  - intros v q E. pose proof (Hv v q E) as E0. destruct (ti_vdevs0 v q E0) as (Hmq & Q & HQ & HstQ & Hmem). rewrite U1.
    split; [done|]. destruct (Hkeep q Q) as (Q' & HQ' & S1 & S2 & S3 & S4 & S5 & S6); [|done|].
    + intros ->. destruct Hfree as [Hst|[Hn _]]; [congruence|by apply (Hn v)].
    + exists Q'. by rewrite S2, S5.
  - intros q. rewrite U1. intros E. destruct (ti_mgmt0 q E) as (Q & HQ & HstQ).
    destruct (Hkeep q Q) as (Q' & HQ' & S1 & S2 & S3 & S4 & S5 & S6); [congruence|done|]. exists Q'. by rewrite S5.
Qed.

Lemma free_invalid_inv s D I p P :
  tx_inv s D I → pools s !! p = Some P → status P = FLOW_POOL_INVALID → avail_desc P = flow_pool_size P →
  ∃ s', ol_tx_free_invalid_flow_pool s p = Some s' ∧ tx_inv s' D I ∧ users s' = users s ∧
    (∀ x, x ∈ I → d_pool s' x = d_pool s x) ∧ pools s' !! p = None ∧
    (∀ q Q, q ≠ p → pools s !! q = Some Q → ∃ Q', pools s' !! q = Some Q' ∧ same_pool Q Q') ∧ (queues s → queues s').
Proof.
  intros Hinv HP Hst Hav. pose proof Hinv as []. destruct ti_linked0 as (G & F & H).
  destruct (ti_pools0 p P HP). pose proof (used_nonneg s I p) as Hu0. assert (used s I p = 0 ∧ deficient_desc P = 0) as [Hu Hd0] by lia.
  unfold ol_tx_free_invalid_flow_pool. rewrite HP. cbn [mbind option_bind]. rewrite bool_decide_eq_true_2 by done. cbn [negb].
  unfold ol_tx_distribute_descs_to_deficient_pools. rewrite HP. cbn [mbind option_bind].
  destruct (distribute_loop_spec s D G F I p P (flow_pool_list s) H) as (s1 & F1 & P1 & E1 & H1 & Hsp & Hok1 & HP1 & Hr1);
    [by intros q Q _; apply ti_pools0|done|done|intros q; apply H|].
  rewrite E1. cbn [mbind option_bind]. unfold upd_pool. rewrite HP1. cbn [mbind option_bind].
  set (P2 := P1 <| flow_pool_size := avail_desc P1 |>). set (s2 := set_pool s1 p P2).
  set (s3 := s2 <| num_invalid_bin ::= λ n, u8 (n - 1) |>).
  destruct (refilled_fields _ _ Hr1) as ((S1 & S2 & S3 & S4 & S5 & S6) & _).
  assert (linked s3 D G F1 [] I) as H3 by (apply (linked_ext s2); [done|]; by apply (linked_pool s1 _ _ _ _ _ p P1)).
  assert (pools s3 !! p = Some P2) as HP3 by apply lookup_insert_eq.
  pose proof (pool_length _ _ _ _ _ _ p P2 H3 HP3) as HL. destruct (lk_pool _ _ _ _ _ _ H3 p P2 HP3) as [_ Ha3].
  pose proof (lk_size _ _ _ _ _ _ H3) as HD. cbn in Ha3.
  destruct (dec_pool_ref_spec s3 D G F1 I p P2 false H3 HP3) as (s4 & E4 & Hcase & H4 & Ed4 & Eu4 & Eq4); [cbn; congruence|cbn; lia|].
  rewrite E4. cbn in Hcase. rewrite Z.eqb_refl in Hcase. cbn [orb] in Hcase. destruct Hcase as [El4 Ep4].
  rewrite delete_insert_eq in Ep4.
  destruct Hsp. injection sp_other0 as O1 O2 O3 O4 O5 O6.
  assert (users s4 = users s) as Eu by (rewrite Eu4; unfold users; cbn; congruence).
  assert (∀ x, x ∈ I → d_pool s4 x = d_pool s x) as Hd4 by (intros x Hx; rewrite Ed4; by apply sp_flight0).
  assert (pools s4 !! p = None) as Hgone by (rewrite Ep4; apply lookup_delete_eq).
  assert (∀ q Q, q ≠ p → pools s !! q = Some Q → ∃ Q', pools s4 !! q = Some Q' ∧ same_pool Q Q') as Hkeep
    by (intros q Q Hq HQ; rewrite Ep4, lookup_delete_ne by done; by apply sp_pools0).
  assert (queues s → queues s4) as Hqu.
  { intros Hqs. specialize (sp_queues0 Hqs). revert sp_queues0. apply queues_ext; [unfold users in Eu4; by injection Eu4|done|].
    intros q Q. rewrite Ep4, lookup_delete_Some. intros [_ HQ]. left. by exists Q. }
  exists s4. split; [done|]. split; [|by split_and!].
  unfold users in Eu. injection Eu as U1 U2 U3 U4 U5.
  eapply (tx_inv_drop s s4 D I p P); [done|done|by left|done|by eexists _, _|done|done| |done|by rewrite U2, U4, U5|by rewrite U1].
  intros q Q. rewrite Ep4, lookup_delete_Some. intros [Hq HQ].
  apply (pool_ok_used s1 s4 I); [|by apply Hok1]. apply used_ext. intros x _. by rewrite Ed4.
Qed.

Lemma tail_perm (I : list Z) d I' : I ≡ₚ d :: I' → NoDup I → d ∉ I' ∧ ∀ x, x ∈ I' → x ∈ I.
Proof. intros E Hnd. rewrite E in Hnd. apply NoDup_cons in Hnd as [Hd _]. split; [done|]. intros x Hx. rewrite E. by constructor. Qed.

Lemma used_perm s I I' p : I ≡ₚ I' → used s I p = used s I' p.
Proof. intros E. unfold used. f_equal. by rewrite E. Qed.

(** Freeing a descriptor of pool [p] with state [P]: what happens to the pool. *)
Definition freed_pool P : ol_tx_flow_pool_t :=
  let P' := P <| avail_desc := avail_desc P + 1 |> in
  if bool_decide (status P = FLOW_POOL_ACTIVE_PAUSED) && (start_th P <? avail_desc P + 1)
  then P' <| status := FLOW_POOL_ACTIVE_UNPAUSED |> else P'.

Lemma free_inv s D I I' d :
  tx_inv s D I → I ≡ₚ d :: I' →
  ∃ p P s', d_pool s d = Some p ∧ pools s !! p = Some P ∧ ol_tx_desc_free s d = Some s' ∧ tx_inv s' D I' ∧ users s' = users s ∧
    (∀ x, x ∈ I' → d_pool s' x = d_pool s x) ∧
    (∀ q Q, q ≠ p → pools s !! q = Some Q → ∃ Q', pools s' !! q = Some Q' ∧ same_pool Q Q') ∧
    (if bool_decide (status P = FLOW_POOL_INVALID) && (avail_desc P + 1 =? flow_pool_size P)
     then pools s' !! p = None ∧ (queues s → queues s')
     else (∃ fl, pools s' = <[p := freed_pool P <| freelist := fl |>]> (pools s)) ∧
       tx_events s' = tx_events s ++ if bool_decide (status P = FLOW_POOL_ACTIVE_PAUSED) && (start_th P <? avail_desc P + 1)
                                     then [WakeQueues (member_flow_id P)] else []).
Proof.
  intros Hinv EI. pose proof Hinv as []. destruct ti_linked0 as (G & F & H).
  assert (NoDup I) as HndI by apply (linked_T _ _ _ _ _ _ H). destruct (tail_perm I d I' EI HndI) as [HdI' Hsub].
  assert (d ∈ I) as Hd by (rewrite EI; constructor).
  destruct (ti_flight0 d Hd) as (p & [P HP] & Edp). exists p, P. pose proof (ti_pools0 p P HP) as HokP.
  set (s0 := s <| d_vdev_id ::= λ f, fn_upd f d OL_TXRX_INVALID_VDEV_ID |>).
  assert (linked s0 D G F [d] I') as H0 by (apply (linked_ext s); [done|]; eapply linked_perm; [|exact H]; by rewrite EI).
  destruct (put_flow_spec s0 D G F [] I' p P d H0 HP) as (s1 & E1 & Es1 & H1).
  set (P1 := P <| freelist := Some d |> <| avail_desc := avail_desc P + 1 |>) in *.
  assert (pools s1 = <[p := P1]> (pools s)) as Ep1 by by rewrite Es1.
  assert (users s1 = users s) as Eu1 by by rewrite Es1.
  assert (∀ x, x ∈ I → d_pool s1 x = d_pool s x) as Hdp.
  { intros x _. rewrite Es1. cbn. unfold fn_upd. destruct (decide (x = d)) as [->|]; [by rewrite Edp|done]. }
  assert (∀ q, used s1 I' q = (if decide (q = p) then -1 else 0) + used s I q) as Hused.
  { intros q. rewrite (used_perm s I (d :: I') q EI), used_cons, Edp.
    assert (used s1 I' q = used s I' q) as -> by (apply used_ext; intros x Hx; by apply Hdp, Hsub).
    destruct (decide (q = p)) as [->|Hne]; [rewrite decide_True by done|rewrite decide_False by congruence]; lia. }
  assert (∀ s2 P2, pools s2 = <[p := P2]> (pools s) → users s2 = users s → d_pool s2 = d_pool s1 → same_pool P P2 →
    linked s2 D G (fn_upd F p (d :: F p)) [] I' → pool_ok s1 I' p P2 → tx_inv s2 D I') as Hfin.
  { intros s2 P2 Ep2 Eu2 Ed2 Hs2 H2 Hok2. eapply (tx_inv_pool s s2 D I I' p P P2); [done|done|done|done|done|by eexists _, _| | |].
    - apply (pool_ok_used s1 s2 I'); [|done]. apply used_ext. intros x _. by rewrite Ed2.
    - intros q Hq. assert (used s2 I' q = used s1 I' q) as -> by (apply used_ext; intros x _; by rewrite Ed2).
      rewrite Hused, decide_False by done. lia.
    - intros x Hx. right. split; [by apply Hsub|]. rewrite Ed2. by apply Hdp, Hsub. }
  assert (∀ st, st ≠ FLOW_POOL_INACTIVE → (st = FLOW_POOL_ACTIVE_PAUSED → avail_desc P + 1 <= start_th P) →
    (st = FLOW_POOL_INVALID → status P = FLOW_POOL_INVALID) → pool_ok s1 I' p (P1 <| status := st |>)) as Hok.
  { intros st N1 N2 N3. destruct HokP. split; [|exact po_def0|exact po_size0|exact N1|exact po_ref0|exact N2|exact po_th0|].
    - rewrite Hused, decide_True by done. cbn. lia.
    - intros E. by apply po_invalid0, N3. }
  assert (∀ b, status P = b → pool_ok s1 I' p (P1 <| status := b |>) → pool_ok s1 I' p P1) as Heta
    by (intros b <-; change (status P) with (status P1); by rewrite eta_status).
  assert (∀ x, x ∈ I' → d_pool s1 x = d_pool s x) as Hdp1 by (intros x Hx; by apply Hdp, Hsub).
  assert (∀ P2 q Q, q ≠ p → pools s !! q = Some Q → ∃ Q', (<[p := P2]> (pools s)) !! q = Some Q' ∧ same_pool Q Q') as Hk1
    by (intros P2 q Q Hq HQ; exists Q; by rewrite lookup_insert_ne by done).
  unfold ol_tx_desc_free. rewrite Edp. cbn [mbind option_bind]. fold s0. rewrite E1. cbn [mbind option_bind].
  assert (pools s1 !! p = Some P1) as HP1 by (rewrite Ep1; apply lookup_insert_eq). rewrite HP1. cbn [mbind option_bind].
  change (status P1) with (status P). change (start_th P1) with (start_th P).
  change (avail_desc P1) with (avail_desc P + 1). change (flow_pool_size P1) with (flow_pool_size P).
  change (member_flow_id P1) with (member_flow_id P). unfold freed_pool.
  assert (∀ fl, P <| avail_desc := avail_desc P + 1 |> <| freelist := fl |> = P1 <| freelist := fl |>) as Efl by by destruct P.
  assert (P1 = P <| avail_desc := avail_desc P + 1 |> <| freelist := Some d |>) as EP1 by by destruct P.
  destruct (status P) eqn:Est; cbn [andb bool_decide].
  - exists s1. do 3 (split; [done|]). split; [eapply Hfin; [done..|by split_and!|done|]; apply (Heta _ eq_refl), Hok; done|].
    split; [done|]. split; [done|]. split; [rewrite Ep1; apply Hk1|]. rewrite !bool_decide_eq_false_2 by done. cbn [andb]. split; [exists (Some d); by rewrite <- EP1|].
    rewrite Es1. cbn. by rewrite app_nil_r.
  - rewrite (bool_decide_eq_false_2 (_ = FLOW_POOL_INVALID)), (bool_decide_eq_true_2 (_ = FLOW_POOL_ACTIVE_PAUSED)) by done. cbn [andb].
    destruct (Z.ltb_spec (start_th P) (avail_desc P + 1)) as [Hlt|Hge].
    + set (P2 := P1 <| status := FLOW_POOL_ACTIVE_UNPAUSED |>). set (s2 := set_pool _ p P2). exists s2. do 3 (split; [done|]).
      split; [eapply (Hfin s2 P2); [cbn; by rewrite Ep1, insert_insert_eq|done|done| | |by apply Hok]|].
      * split_and!; try done. split; [done|]. by rewrite Est.
      * apply (linked_pool (tx_emit s1 (WakeQueues (member_flow_id P))) _ _ _ _ _ p P1); [done..|]. by apply (linked_ext s1).
      * split; [done|]. split; [done|]. assert (pools s2 = <[p := P2]> (pools s)) as Ep2 by (cbn; by rewrite Ep1, insert_insert_eq).
        split; [rewrite Ep2; apply Hk1|]. split; [exists (Some d); cbn; rewrite Ep1, insert_insert_eq; f_equal; by destruct P|].
        unfold s2. cbn. by rewrite Es1.
    + exists s1. do 3 (split; [done|]). split; [eapply Hfin; [done..|by split_and!|done|]; apply (Heta _ eq_refl), Hok; done|].
      split; [done|]. split; [done|]. split; [rewrite Ep1; apply Hk1|].
      split; [exists (Some d); by rewrite <- EP1|]. rewrite Es1. cbn. by rewrite app_nil_r.
  - rewrite (bool_decide_eq_true_2 (_ = FLOW_POOL_INVALID)), (bool_decide_eq_false_2 (_ = FLOW_POOL_ACTIVE_PAUSED)) by done. cbn [andb].
    assert (tx_inv s1 D I') as Hinv1 by (eapply Hfin; [done..|by split_and!|done|]; apply (Heta _ eq_refl), Hok; done).
    destruct (Z.eqb_spec (avail_desc P + 1) (flow_pool_size P)) as [E|E].
    + destruct (free_invalid_inv s1 D I' p P1 Hinv1 HP1 Est E) as (s2 & E2 & Hinv2 & Eu2 & Hd2 & Hgone & Hk2 & Hq2). exists s2.
      do 3 (split; [done|]). split; [done|]. split; [congruence|]. split; [intros x Hx; by rewrite Hd2, Hdp1|].
      split; [intros q Q Hq HQ; apply (Hk2 q Q Hq); by rewrite Ep1, lookup_insert_ne|]. split; [done|]. intros Hqs. apply Hq2.
      revert Hqs. apply queues_ext; [by rewrite Es1|by rewrite Es1|]. intros q Q HQ1. left. rewrite Ep1, lookup_insert_Some in HQ1.
      destruct HQ1 as [[<- <-]|[_ HQ]]; [by exists P|by exists Q].
    + exists s1. do 3 (split; [done|]). split; [done|]. split; [done|]. split; [done|]. split; [rewrite Ep1; apply Hk1|]. split; [exists (Some d); by rewrite <- EP1|].
      rewrite Es1. cbn. by rewrite app_nil_r.
  - by destruct (po_status _ _ _ _ HokP).
Qed.

Lemma freed_queues s s' p P fl :
  pools s !! p = Some P → vdevs s' = vdevs s → pools s' = <[p := freed_pool P <| freelist := fl |>]> (pools s) →
  tx_events s' = tx_events s ++ (if bool_decide (status P = FLOW_POOL_ACTIVE_PAUSED) && (start_th P <? avail_desc P + 1)
                                 then [WakeQueues (member_flow_id P)] else []) → queues s → queues s'.
Proof.
  unfold freed_pool. intros HP Ev Ep Es Hqs. destruct (bool_decide _ && _) eqn:E.
  - apply andb_true_iff in E as [Est%bool_decide_eq_true_1 _]. pose proof (qu_paused s Hqs p P HP Est) as Hm.
    by apply (queues_switch s s' p P _ (member_flow_id P) (WakeQueues (member_flow_id P)) false Ev Es eq_refl HP Hm Ep).
  - rewrite app_nil_r in Es. by apply (queues_refill s s' p P _ Ev Es HP Ep).
Qed.

(** *** New pools *)

Lemma linked_new s s' D G F T I p P temp :
  linked s D G F T I → pools s !! p = None → chain (d_next s) temp T → (∀ x, x ∈ T → d_pool s x = Some p) →
  (d_next s', tx_freelist s', num_free s', d_pool s') = (d_next s, tx_freelist s, num_free s, d_pool s) →
  flow_pool_list s' = flow_pool_list s ++ [p] → pools s' = <[p := P]> (pools s) →
  freelist P = temp → avail_desc P = Z.of_nat (length T) → linked s' D G (fn_upd F p T) [] I.
Proof.
  intros H Hp HT How E El Ep Ef Ha. injection E as E1 E2 E3 E4. destruct H.
  assert (p ∉ flow_pool_list s) as Hpl by (intros Hin; apply lk_dom0 in Hin as [? ?]; congruence).
  split; rewrite ?E1, ?E2, ?E3, ?E4, ?El, ?Ep; try done.
  - rewrite bind_app. cbn. rewrite fn_upd_eq, app_nil_r, (pooled_ext (fn_upd F p T) F), <- lk_perm0.
    + solve_Permutation.
    + intros q Hq. apply fn_upd_ne. by intros ->.
  - apply NoDup_app. split; [done|]. split; [|apply NoDup_singleton]. intros q Hq ->%list_elem_of_singleton. done.
  - intros q. rewrite elem_of_app, list_elem_of_singleton, lk_dom0, lookup_insert_is_Some. destruct (decide (q = p)); naive_solver.
  - intros q Q. rewrite lookup_insert_Some. intros [[<- <-]|[Hne HQ]]; [by rewrite fn_upd_eq, Ef|].
    rewrite fn_upd_ne by done. by apply lk_pool0.
  - intros q Q d. rewrite lookup_insert_Some. intros [[<- <-]|[Hne HQ]]; [rewrite fn_upd_eq; apply How|].
    rewrite fn_upd_ne by done. by eapply lk_owner0.
Qed.

(** The thresholds are percentages of the size of the pool. *)
Definition new_pool s (id size n : Z) (fl : option Z) : ol_tx_flow_pool_t :=
  mk_pool id size n (size - n) FLOW_POOL_ACTIVE_UNPAUSED 0 (tx_flow_stop_queue_th s * size / 100)
    ((tx_flow_stop_queue_th s + tx_flow_start_queue_offset s) * size / 100) fl 0 1.

Lemma threshold th size : 0 <= th <= 100 → 0 <= size < 65536 → u16 (u32 (th * size) / 100) = th * size / 100.
Proof.
  intros H1 H2. assert (0 <= th * size <= 100 * size) by nia. rewrite u32_small by (unfold is_u32; lia).
  apply u16_small. unfold is_u16. split; [apply Z.div_pos; lia|]. apply Z.div_lt_upper_bound; lia.
Qed.

Lemma create_inv s D I p id size :
  tx_inv s D I → pools s !! p = None → 0 <= size < 65536 →
  ∃ s' fl, ol_tx_create_flow_pool s (Some p) id size = Some (s', Some p) ∧ tx_inv s' D I ∧ users s' = users s ∧
    pools s' = <[p := new_pool s id size (Z.min size (num_free s)) fl]> (pools s) ∧
    (∀ x, x ∈ I → d_pool s' x = d_pool s x) ∧ tx_events s' = tx_events s.
Proof.
  intros Hinv Hp Hsz. pose proof Hinv as []. destruct ti_linked0 as (G & F & H). destruct ti_cfg0 as (C1 & C2 & C3).
  pose proof (lk_free _ _ _ _ _ _ H) as Hn. unfold ol_tx_create_flow_pool.
  set (n := if size <=? num_free s then size else num_free s).
  assert (n = Z.min size (num_free s)) as En by (unfold n; destruct (Z.leb_spec size (num_free s)); lia).
  assert (0 <= n <= Z.of_nat (length G)) as Hn' by lia.
  destruct (take_global_spec (Z.to_nat n) s D (take (Z.to_nat n) G) (drop (Z.to_nat n) G) F [] I p None)
    as (s1 & temp & E1 & H1 & HT1 & Ep1 & Eo1 & Ed1); [by rewrite take_drop|rewrite length_take; lia|done|].
  rewrite E1. cbn [mbind option_bind]. rewrite app_nil_r in H1, HT1.
  set (st := u32 (tx_flow_stop_queue_th s)). assert (st = tx_flow_stop_queue_th s) as Est by (apply u32_small; unfold is_u32; lia).
  assert (u32 (st + tx_flow_start_queue_offset s) = tx_flow_stop_queue_th s + tx_flow_start_queue_offset s) as Esa
    by (rewrite Est; apply u32_small; unfold is_u32; lia).
  rewrite Esa, Est, !threshold by lia. rewrite (u16_small (size - n)) by (unfold is_u16; lia).
  eexists _, temp. split; [reflexivity|]. rewrite <- En. set (s' := _ <| flow_pool_list ::= λ l, l ++ [p] |>).
  assert (pools s' = <[p := new_pool s id size n temp]> (pools s)) as Ep' by (cbn; by rewrite Ep1).
  unfold other in Eo1. injection Eo1 as O1 O2 O3 O4 O5 O6 O7 O8.
  assert (users s' = users s) as Eu by (unfold users; cbn; congruence).
  assert (∀ x, x ∈ I → d_pool s' x = d_pool s x) as Hd.
  { intros x Hx. cbn. rewrite Ed1, decide_False; [done|]. intros Hg. pose proof (linked_NoDup _ _ _ _ _ _ H) as Hnd.
    apply NoDup_app in Hnd as (_ & Hdis & _). apply (Hdis x).
    - by apply elem_of_take in Hg as (i & Hi%list_elem_of_lookup_2 & _).
    - rewrite !elem_of_app. tauto. }
  split; [|done]. destruct (users_kept s s' None Eu) as [Hv Hm]; [|done|done|done|].
  { intros q Q _ HQ. exists Q. rewrite Ep', lookup_insert_ne by congruence. done. }
  split; [| | |done|done|cbn; rewrite O6, O7; lia].
  - exists (drop (Z.to_nat n) G), (fn_upd F p (rev (take (Z.to_nat n) G))).
    eapply (linked_new s1 s'); [exact H1|by rewrite Ep1|exact HT1| |done|done|by rewrite Ep', Ep1|done|].
    + intros x Hx. rewrite Ed1, decide_True; [done|]. by rewrite list_elem_of_In, in_rev, <- list_elem_of_In.
    + cbn. rewrite length_rev, length_take. lia.
  - intros q Q. rewrite Ep', lookup_insert_Some. intros [[<- <-]|[Hne HQ]].
    + assert (used s' I p = 0) as Hu.
      { rewrite (used_ext s s' I p) by done. unfold used. destruct (filter _ I) as [|d l] eqn:Ef; [done|]. exfalso.
        assert (d ∈ filter (λ d, d_pool s d = Some p) I) as Hf by (rewrite Ef; constructor).
        apply list_elem_of_filter in Hf as [Hf HdI]. destruct (ti_flight0 d HdI) as (q & [Q HQ] & Eq). congruence. }
      split; cbn; try done; try lia. apply Z.div_le_mono; nia.
    + apply (pool_ok_used s s' I); [by apply used_ext|by apply ti_pools0].
  - intros d HdI. destruct (ti_flight0 d HdI) as (q & [Q HQ] & Eq). exists q. rewrite Hd by done. split; [|done].
    rewrite Ep', lookup_insert_ne by congruence. by exists Q.
Qed.

(** *** A pool is let go *)

Lemma dec_pool_inv s D I p P :
  tx_inv s D I → pools s !! p = Some P → (∀ v, vdevs s !! v ≠ Some (Some p)) → mgmt_pool s ≠ Some p →
  ∃ s', ol_tx_dec_pool_ref s (Some p) false = Some s' ∧ tx_inv s' D I ∧ users s' = users s ∧ d_pool s' = d_pool s ∧
    (∀ v, queue_stopped v (tx_events s') = queue_stopped v (tx_events s)) ∧
    pools s' = if avail_desc P =? flow_pool_size P then delete p (pools s) else <[p := invalid_pool P]> (pools s).
Proof.
  intros Hinv HP Hv Hm. pose proof Hinv as []. destruct ti_linked0 as (G & F & H). destruct (ti_pools0 p P HP).
  pose proof (used_nonneg s I p). destruct (lk_pool _ _ _ _ _ _ H p P HP) as [_ Ha].
  destruct (dec_pool_ref_spec s D G F I p P false H HP po_ref0 ltac:(lia)) as (s1 & E1 & Hcase & H1 & Ed & Eu & Hev).
  exists s1. split; [done|]. rewrite orb_false_r in Hcase.
  assert (∀ q, used s1 I q = used s I q) as Hu by (intros q; apply used_ext; intros x _; by rewrite Ed).
  pose proof Eu as Eu'. unfold users in Eu'. injection Eu' as U1 U2 U3 U4 U5.
  destruct (Z.eqb_spec (avail_desc P) (flow_pool_size P)) as [E|E]; destruct Hcase as [El Ep].
  - split; [|done]. eapply (tx_inv_drop s s1 D I p P); [done|done|by right; rewrite U1|lia|by eexists _, _| | | | |by rewrite U2, U4, U5|by rewrite U1].
    + rewrite Ep. apply lookup_delete_eq.
    + intros q Q Hq HQ. exists Q. rewrite Ep, lookup_delete_ne by done. done.
    + intros q Q. rewrite Ep, lookup_delete_Some. intros [Hq HQ]. apply (pool_ok_used s s1 I); [done|by apply ti_pools0].
    + intros x _. by rewrite Ed.
  - split; [|done]. destruct (users_kept s s1 (Some p) Eu) as [Hv' Hm'].
    { intros q Q Hq HQ. exists Q. rewrite Ep, lookup_insert_ne by congruence. done. }
    { by intros q [= <-]. }
    { done. }
    { done. }
    split; [by eexists _, _| | |done|done|by rewrite U4, U5].
    + intros q Q. rewrite Ep, lookup_insert_Some. intros [[<- <-]|[Hne HQ]]; [|apply (pool_ok_used s s1 I); [done|by apply ti_pools0]].
      split; cbn; try done; try lia. rewrite Hu. lia.
    + intros d HdI. destruct (ti_flight0 d HdI) as (q & [Q HQ] & Eq). exists q. rewrite Ed. split; [|done].
      rewrite Ep, lookup_insert_is_Some. destruct (decide (p = q)); [by left|right; split; [done|by exists Q]].
Qed.

(** ** The machine

    Messages of the firmware and frames of the stack, in any order; the second
    component of a state are the descriptors in flight. *)
Inductive tx_op :=
  | OpMap (mem : option Z) (flow_id : Z) (type_vdev : bool) (id size : Z)
  | OpUnmap (flow_id : Z) (type_vdev : bool) (id : Z)
  | OpAlloc (vdev_id : Z) (mgmt_frame : bool)
  | OpFree (d : Z).

Definition exec (st : txState * list Z) (op : tx_op) : option (txState * list Z) :=
  let '(s, J) := st in
  match op with
  | OpMap mem flow vd id size => s ← ol_tx_flow_pool_map_handler s mem flow vd id size; Some (s, J)
  | OpUnmap flow vd id => s ← ol_tx_flow_pool_unmap_handler s flow vd id; Some (s, J)
  | OpAlloc v m => '(s, d) ← ol_tx_desc_alloc_wrapper s v m; Some (s, from_option (.:: J) J d)
  | OpFree d => s ← ol_tx_desc_free s d; Some (s, filter (.≠ d) J)
  end.
Fixpoint run (st : txState * list Z) (ops : list tx_op) : option (txState * list Z) :=
  match ops with
  | [] => Some st
  | op :: ops => st ← exec st op; run st ops
  end.

Lemma run_app st ops1 ops2 : run st (ops1 ++ ops2) = (st ← run st ops1; run st ops2).
Proof. revert st. induction ops1 as [|op ops1 IH]; intros st; [done|]. cbn. destruct (exec st op); [apply IH|done]. Qed.

(** What the rest of the driver and the firmware keep to: new pools come from
    fresh memory; a pool serves one flow, which unmaps it; frames are sent on
    attached vdevs, and a descriptor is freed once. *)
Definition legal (st : txState * list Z) (op : tx_op) : Prop :=
  let '(s, J) := st in
  match op with
  | OpMap mem flow vd id size =>
      ol_tx_get_flow_pool s id = None ∧ (∀ p, mem = Some p → pools s !! p = None) ∧ 0 <= size < 65536
  | OpUnmap flow vd id =>
      id ≠ INVALID_FLOW_ID ∧
      ∀ p, ol_tx_get_flow_pool s id = Some p → mgmt_pool s ≠ Some p ∧ ∀ v, vdevs s !! v = Some (Some p) → v = flow
  | OpAlloc v m => m = true ∨ is_Some (vdevs s !! v)
  | OpFree d => d ∈ J
  end.
(** A flow has one pool at a time, and no frame takes the management pool. *)
Definition orderly (st : txState * list Z) (op : tx_op) : Prop :=
  let '(s, J) := st in
  match op with
  | OpMap mem flow vd id size => vd = true → ∀ p, vdevs s !! flow ≠ Some (Some p)
  | OpUnmap flow vd id => vd = true → ∀ p q, ol_tx_get_flow_pool s id = Some p → vdevs s !! flow = Some (Some q) → q = p
  | OpAlloc v m => m = false
  | OpFree d => True
  end.
(** [ok] holds at every operation of a run. *)
Fixpoint along (ok : txState * list Z → tx_op → Prop) (st : txState * list Z) (ops : list tx_op) : Prop :=
  match ops with
  | [] => True
  | op :: ops => ok st op ∧ ∀ st', exec st op = Some st' → along ok st' ops
  end.
Definition legal_run := along legal.

(** What becomes of an invalid pool. *)
Definition fate s (I : list Z) s' (I' : list Z) (q : Z) P : Prop :=
  pools s' !! q = None ∧ 0 < used s I q ∨
  ∃ P', pools s' !! q = Some P' ∧ same_pool P P' ∧ used s' I' q <= used s I q ∧
    (deficient_desc P = 0 → 0 < used s I q → 0 < used s' I' q).
Definition fates s I s' I' : Prop :=
  ∀ q P, pools s !! q = Some P → status P = FLOW_POOL_INVALID → fate s I s' I' q P.

Lemma fates_keep s I s' I' :
  (∀ q P, pools s !! q = Some P → status P = FLOW_POOL_INVALID →
    (∃ P', pools s' !! q = Some P' ∧ same_pool P P') ∧ used s' I' q = used s I q) → fates s I s' I'.
Proof. intros H q P HP Hst. destruct (H q P HP Hst) as [(P' & HP' & Hs) Hu]. right. exists P'. by rewrite Hu. Qed.

Lemma get_flow_pool_found s id p : ol_tx_get_flow_pool s id = Some p →
  p ∈ flow_pool_list s ∧ ∃ P, pools s !! p = Some P ∧ flow_pool_id P = id.
Proof.
  unfold ol_tx_get_flow_pool. intros H. apply find_some in H as [Hin H]. split; [by apply list_elem_of_In|].
  destruct (pools s !! p) as [P|]; [|done]. exists P. split; [done|]. by apply Z.eqb_eq.
Qed.

Lemma get_flow_pool_ext s s' id : flow_pool_list s' = flow_pool_list s → pools s' = pools s →
  ol_tx_get_flow_pool s' id = ol_tx_get_flow_pool s id.
Proof. unfold ol_tx_get_flow_pool. by intros -> ->. Qed.

(** A flow takes a pool, or leaves it: only the vdev and the member change. *)
Lemma tx_inv_member s s' D I p P m vs :
  tx_inv s D I → pools s !! p = Some P →
  s' = s <| vdevs := vs |> <| pools := <[p := P <| member_flow_id := m |>]> (pools s) |> →
  (∀ v q, vs !! v = Some (Some q) → q ≠ p ∧ vdevs s !! v = Some (Some q) ∨
     q = p ∧ mgmt_pool s ≠ Some p ∧ status P ≠ FLOW_POOL_INVALID ∧ v = m) → tx_inv s' D I.
Proof.
  intros [(G & F & H) H2 H3 H4 H5 H6] HP -> Hvs. set (s' := s <| vdevs := vs |> <| pools := _ |>).
  split; [| | | | |exact H6].
  - exists G, F. apply (linked_ext (set_pool s p (P <| member_flow_id := m |>))); [done|]. by apply (linked_pool s _ _ _ _ _ p P).
  - intros q Q. cbn. rewrite lookup_insert_Some. intros [[<- <-]|[Hne HQ]].
    + apply (pool_ok_used s s' I); [done|]. by destruct (H2 p P HP); split.
    + apply (pool_ok_used s s' I); [done|]. by apply H2.
  - intros d Hd. destruct (H3 d Hd) as (q & [Q HQ] & E). exists q. split; [|done]. cbn. rewrite lookup_insert_is_Some.
    destruct (decide (p = q)); [by left|right; split; [done|by exists Q]].
  - intros v q. cbn. intros E. destruct (Hvs v q E) as [[Hq E']|(-> & Hm & Hst & ->)].
    + destruct (H4 v q E') as (Hmq & Q & HQ & Hs). split; [done|]. exists Q. by rewrite lookup_insert_ne.
    + split; [done|]. rewrite lookup_insert_eq. by eexists.
  - intros q. cbn. intros E. destruct (H5 q E) as (Q & HQ & Hst). destruct (decide (p = q)) as [->|Hne].
    + rewrite lookup_insert_eq. eexists. split; [done|]. rewrite HP in HQ. by injection HQ as ->.
    + rewrite lookup_insert_ne by done. by exists Q.
Qed.

(** A flow without a pool: what its queues did does not matter. *)
Lemma queues_emit s v ev : ev = WakeQueues v → (∀ p, vdevs s !! v ≠ Some (Some p)) → queues s → queues (tx_emit s ev).
Proof.
  intros -> Hv []. split; try done. intros w p P E HP. change (tx_events (tx_emit s _)) with (tx_events s ++ [WakeQueues v]). rewrite queue_stopped_snoc, (proj2 (Z.eqb_neq v w)).
  - by eapply qu_stopped0.
  - intros ->. by apply (Hv p).
Qed.
(** It gets a pool. *)
Lemma queues_attach s s' p P v :
  (∀ q, vdevs s !! v ≠ Some (Some q)) → (∀ w, vdevs s !! w ≠ Some (Some p)) → pools s !! p = Some P →
  status P ≠ FLOW_POOL_ACTIVE_PAUSED → tx_events s' = tx_events s ++ [WakeQueues v] → vdevs s' = <[v := Some p]> (vdevs s) →
  pools s' = <[p := P <| member_flow_id := v |>]> (pools s) → queues s → queues s'.
Proof.
  intros Hv Hp HP Hst Es Ev Ep Hqs. apply (queues_emit s v _ eq_refl Hv) in Hqs as [].
  change (vdevs (tx_emit s _)) with (vdevs s) in *. change (pools (tx_emit s _)) with (pools s) in *.
  change (tx_events (tx_emit s _)) with (tx_events s ++ [WakeQueues v]) in qu_stopped0. rewrite <- Es in qu_stopped0.
  split; rewrite ?Ev, ?Ep.
  - intros q Q. rewrite lookup_insert_Some. intros [[<- <-]|[Hne HQ]]; [done|]. intros HstQ.
    rewrite lookup_insert_ne; [by apply qu_paused0|]. intros E. apply (Hv q). rewrite E. by apply qu_paused0.
  - intros w q Q. rewrite !lookup_insert_Some. intros [[<- [= <-]]|[Hw E]] [[E1 <-]|[Hq HQ]]; try done; [|by eapply qu_member0].
    subst q. by destruct (Hp w).
  - intros w q Q. rewrite !lookup_insert_Some. intros [[<- [= <-]]|[Hw E]] [[E1 <-]|[Hq HQ]]; try done.
    + split; [done|]. intros E. rewrite Es, queue_stopped_snoc, Z.eqb_refl in E. done.
    + subst q. by destruct (Hp w).
    + by eapply qu_stopped0.
Qed.
(** It loses its pool [p]. *)
Lemma queues_detach s s' p v :
  vdevs s' = vdevs s ∨ vdevs s' = <[v := None]> (vdevs s) → (∀ q, vdevs s !! v = Some (Some q) → q = p) →
  (∀ w, vdevs s' !! w ≠ Some (Some p)) → (∀ w, queue_stopped w (tx_events s') = queue_stopped w (tx_events s)) →
  (∀ q Q, pools s' !! q = Some Q → q ≠ p ∧ pools s !! q = Some Q ∨ status Q ≠ FLOW_POOL_ACTIVE_PAUSED ∧ q = p) →
  queues s → queues s'.
Proof.
  intros Hvd Hv Hp Es Ep [].
  assert (∀ w q, q ≠ p → vdevs s' !! w = Some (Some q) ↔ vdevs s !! w = Some (Some q)) as Hkeep.
  { intros w q Hq. destruct Hvd as [-> | ->]; [done|]. rewrite lookup_insert_Some. split; [naive_solver|]. intros E. right.
    split; [|done]. intros ->. by apply Hq, Hv. }
  split.
  - intros q Q HQ Hst. destruct (Ep q Q HQ) as [[Hq HQ0]|[Hn _]]; [|done]. apply Hkeep; [done|]. by apply qu_paused0.
  - intros w q Q E HQ. destruct (Ep q Q HQ) as [[Hq HQ0]|[_ ->]]; [|by destruct (Hp w)]. apply (qu_member0 w q); [by apply Hkeep|done].
  - intros w q Q E HQ. rewrite Es. destruct (Ep q Q HQ) as [[Hq HQ0]|[_ ->]]; [|by destruct (Hp w)].
    apply (qu_stopped0 w q); [by apply Hkeep|done].
Qed.

Lemma map_inv s D I mem flow vd id size :
  tx_inv s D I → legal (s, I) (OpMap mem flow vd id size) →
  ∃ s', ol_tx_flow_pool_map_handler s mem flow vd id size = Some s' ∧ tx_inv s' D I ∧ fates s I s' I ∧
    (orderly (s, I) (OpMap mem flow vd id size) → queues s → queues s').
Proof.
  intros Hinv (Hget & Hmem & Hsz). unfold ol_tx_flow_pool_map_handler. set (s0 := s <| pool_map_count ::= _ |>).
  assert (tx_inv s0 D I) as Hinv0 by by apply (tx_inv_ext s).
  rewrite (get_flow_pool_ext s s0) by done. rewrite Hget. cbn [mbind option_bind].
  destruct mem as [p|].
  2: { cbn. exists s0. split; [done|]. split; [done|]. split; [apply fates_keep; intros q P HP _; split; [by exists P|done]|].
       intros _. apply queues_ext; [done..|]. intros q Q HQ. left. by exists Q. }
  specialize (Hmem p eq_refl).
  destruct (create_inv s0 D I p id size Hinv0 Hmem Hsz) as (s1 & fl & E1 & Hinv1 & Eu1 & Ep1 & Ed1 & Ee1). rewrite E1. cbn [mbind option_bind].
  set (P := new_pool _ _ _ _ _) in Ep1. assert (pools s1 !! p = Some P) as HP by (rewrite Ep1; apply lookup_insert_eq).
  unfold users in Eu1. injection Eu1 as U1 U2 U3 U4 U5.
  assert (∀ v, vdevs s1 !! v ≠ Some (Some p)) as Hv.
  { rewrite U1. intros v E. destruct (ti_vdevs _ _ _ Hinv v p E) as (_ & P' & HP' & _). change (pools s0) with (pools s) in *. congruence. }
  assert (mgmt_pool s1 ≠ Some p) as Hm.
  { rewrite U2. intros E. destruct (ti_mgmt _ _ _ Hinv p E) as (P' & HP' & _). congruence. }
  assert (∀ q Q, pools s !! q = Some Q → q ≠ p) as Hnp by (intros q Q HQ ->; congruence).
  assert (∀ s2, (∀ q, q ≠ p → pools s2 !! q = pools s1 !! q) → d_pool s2 = d_pool s1 → fates s I s2 I) as Hfate.
  { intros s2 Hp2 Hd2. apply fates_keep. intros q Q HQ _. specialize (Hnp q Q HQ). split.
    - exists Q. rewrite Hp2, Ep1, lookup_insert_ne by congruence. done.
    - apply used_ext. intros x Hx. rewrite Hd2. by apply Ed1. }
  assert (queues s → queues s1) as Hq1.
  { apply queues_ext; [done|by rewrite Ee1|]. intros q Q HQ. rewrite Ep1, lookup_insert_Some in HQ.
    destruct HQ as [[<- <-]|[_ HQ]]; [right; split; [done|]; intros v; rewrite <- U1; apply Hv|left; by exists Q]. }
  destruct vd.
  - unfold ol_tx_flow_pool_vdev_map. destruct (vdevs s1 !! flow) as [v|] eqn:Ev.
    + unfold upd_pool. change (pools (s1 <| vdevs ::= _ |>)) with (pools s1). rewrite HP. cbn [mbind option_bind].
      eexists. split; [reflexivity|]. set (s2 := set_pool _ p _). split.
      * apply (tx_inv_ext s2); [done..|]. apply (tx_inv_member s1 s2 D I p P flow (<[flow := Some p]> (vdevs s1))); [done..|].
        intros w q. rewrite lookup_insert_Some. intros [[<- [= <-]]|[Hne E]]; [by right|left].
        split; [intros ->; by apply (Hv w)|done].
      * split; [apply Hfate; [|done]; intros q Hq; cbn; by apply lookup_insert_ne|]. intros Hord Hqs.
        eapply (queues_attach s1 _ p P flow); [rewrite U1; by apply Hord|done|done|done|done|done|done|by apply Hq1].
    + cbn. eexists. split; [reflexivity|]. split; [by apply (tx_inv_ext s1)|]. split; [by apply Hfate|].
      intros _ Hqs. apply (queues_emit s1 flow); [done|congruence|by apply Hq1].
  - destruct (dec_pool_inv s1 D I p P Hinv1 HP Hv Hm) as (s2 & E2 & Hinv2 & Eu2 & Ed2 & Ev2 & Ep2). exists s2.
    split; [done|]. split; [done|]. split.
    { apply Hfate; [|done]. intros q Hq. rewrite Ep2. destruct (_ =? _); [by apply lookup_delete_ne|by apply lookup_insert_ne]. }
    intros _ Hqs. apply Hq1 in Hqs. unfold users in Eu2. injection Eu2 as V1 _. revert Hqs. apply queues_ext; [done|done|].
    intros q Q. rewrite Ep2. destruct (_ =? _).
    + rewrite lookup_delete_Some. intros [_ HQ]. left. by exists Q.
    + rewrite lookup_insert_Some. intros [[<- <-]|[_ HQ]]; [by right|left; by exists Q].
Qed.

Lemma vdev_unmap_inv s D I p P flow :
  tx_inv s D I → pools s !! p = Some P → (∀ v, vdevs s !! v = Some (Some p) → v = flow) →
  ∃ s1 m, ol_tx_flow_pool_vdev_unmap s p flow = Some s1 ∧ tx_inv s1 D I ∧
    pools s1 = <[p := P <| member_flow_id := m |>]> (pools s) ∧ mgmt_pool s1 = mgmt_pool s ∧ d_pool s1 = d_pool s ∧
    (∀ v, vdevs s1 !! v ≠ Some (Some p)) ∧ tx_events s1 = tx_events s ∧
    (vdevs s1 = vdevs s ∨ vdevs s1 = <[flow := None]> (vdevs s)).
Proof.
  intros Hinv HP Hv. unfold ol_tx_flow_pool_vdev_unmap. destruct (vdevs s !! flow) as [o|] eqn:Ev.
  - unfold upd_pool. change (pools (s <| vdevs ::= _ |>)) with (pools s). rewrite HP. cbn [mbind option_bind].
    eexists _, INVALID_FLOW_ID. split; [reflexivity|]. split.
    { eapply (tx_inv_member s _ D I p P INVALID_FLOW_ID (<[flow := None]> (vdevs s))); [done..|].
      intros w q. rewrite lookup_insert_Some. intros [[_ [=]]|[Hne E]]. left. split; [|done]. intros ->. by apply Hne, eq_sym, Hv. }
    do 3 (split; [done|]). split; [|split; [done|by right]].
    intros w. cbn. rewrite lookup_insert_Some. intros [[_ [=]]|[Hne E]]. by apply Hne, eq_sym, Hv.
  - exists s, (member_flow_id P). assert (P <| member_flow_id := member_flow_id P |> = P) as -> by by destruct P.
    do 2 (split; [done|]). split; [by rewrite insert_id|]. do 2 (split; [done|]). split; [|split; [done|by left]].
    intros w E. pose proof (Hv w E) as ->. congruence.
Qed.

Lemma unmap_inv s D I flow vd id :
  tx_inv s D I → legal (s, I) (OpUnmap flow vd id) →
  ∃ s', ol_tx_flow_pool_unmap_handler s flow vd id = Some s' ∧ tx_inv s' D I ∧ fates s I s' I ∧
    d_pool s' = d_pool s ∧ (orderly (s, I) (OpUnmap flow vd id) → queues s → queues s') ∧
    ∀ p P, ol_tx_get_flow_pool s id = Some p → pools s !! p = Some P → vd = true →
      if avail_desc P =? flow_pool_size P then pools s' !! p = None
      else ∃ m, pools s' !! p = Some (invalid_pool (P <| member_flow_id := m |>)).
Proof.
  intros Hinv (Hid & Hget). unfold ol_tx_flow_pool_unmap_handler. set (s0 := s <| pool_unmap_count ::= _ |>).
  assert (tx_inv s0 D I) as Hinv0 by by apply (tx_inv_ext s).
  rewrite (get_flow_pool_ext s s0) by done.
  assert (∀ s2, (∀ q P, pools s !! q = Some P → status P = FLOW_POOL_INVALID → pools s2 !! q = Some P) → d_pool s2 = d_pool s →
    fates s I s2 I) as Hfate.
  { intros s2 Hp2 Hd2. apply fates_keep. intros q Q HQ Hst. split; [exists Q; by rewrite (Hp2 q Q)|].
    apply used_ext. intros x _. by rewrite Hd2. }
  assert (queues s → queues s0) as Hq0.
  { apply queues_ext; [done..|]. intros q Q HQ. left. by exists Q. }
  destruct (ol_tx_get_flow_pool s id) as [p|] eqn:Eg;
    [|exists s0; split; [done|]; split; [done|]; split; [by apply Hfate|]; by split].
  destruct (get_flow_pool_found s id p Eg) as (Hin & P & HP & Eid). destruct (Hget p eq_refl) as [Hm Hv].
  destruct vd; [|exists s0; split; [done|]; split; [done|]; split; [by apply Hfate|]; by split].
  destruct (vdev_unmap_inv s0 D I p P flow Hinv0 HP Hv) as (s1 & m & E1 & Hinv1 & Ep1 & Em1 & Ed1 & Hv1 & Ee1 & Evd1).
  rewrite E1. cbn [mbind option_bind].
  destruct (dec_pool_inv s1 D I p (P <| member_flow_id := m |>) Hinv1) as (s2 & E2 & Hinv2 & Eu2 & Ed2 & Ee2 & Ep2);
    [by rewrite Ep1, lookup_insert_eq|done|by rewrite Em1|].
  exists s2. split; [done|]. split; [done|]. cbn [avail_desc flow_pool_size set_field] in Ep2.
  change (avail_desc (P <| member_flow_id := m |>)) with (avail_desc P) in Ep2.
  change (flow_pool_size (P <| member_flow_id := m |>)) with (flow_pool_size P) in Ep2. split; [|split; [by rewrite Ed2, Ed1|split]].
  - apply Hfate; [|by rewrite Ed2, Ed1]. intros q Q HQ Hst.
    assert (q ≠ p) as Hne.
    { intros ->. rewrite HP in HQ. injection HQ as ->. apply Hid. rewrite <- Eid. by apply (ti_pools _ _ _ Hinv p Q HP). }
    rewrite Ep2. destruct (avail_desc P =? flow_pool_size P); [rewrite lookup_delete_ne|rewrite lookup_insert_ne];
      [|congruence| |congruence]; by rewrite Ep1, lookup_insert_ne.
  - intros Hord Hqs. unfold users in Eu2. injection Eu2 as V1 _. apply (queues_detach s s2 p flow).
    + by rewrite V1.
    + intros q. by apply (Hord eq_refl p q).
    + by rewrite V1.
    + intros w. by rewrite Ee2, Ee1.
    + intros q Q. rewrite Ep2, Ep1. destruct (avail_desc P =? flow_pool_size P).
      * rewrite delete_insert_eq, lookup_delete_Some. intros [Hq HQ]. by left.
      * rewrite insert_insert_eq, lookup_insert_Some. intros [[<- <-]|[Hq HQ]]; [by right|by left].
    + done.
  - intros q Q [= <-] HQ _. rewrite HP in HQ. injection HQ as <-. rewrite Ep2.
    destruct (avail_desc P =? flow_pool_size P); [apply lookup_delete_eq|]. exists m. by rewrite lookup_insert_eq.
Qed.

(** *** One step *)

Lemma step_inv s D I op :
  tx_inv s D I → legal (s, I) op → ∃ s' I', exec (s, I) op = Some (s', I') ∧ tx_inv s' D I' ∧ fates s I s' I' ∧
    (orderly (s, I) op → queues s → queues s').
Proof.
  intros Hinv Hl. destruct op as [mem flow vd id size|flow vd id|v m|d]; cbn [exec].
  - destruct (map_inv s D I mem flow vd id size Hinv Hl) as (s' & -> & H1 & H2 & H3). by exists s', I.
  - destruct (unmap_inv s D I flow vd id Hinv Hl) as (s' & -> & H1 & H2 & _ & H3 & _). by exists s', I.
  - cbn in Hl. assert (∃ pool, ol_tx_desc_alloc_wrapper s v m = ol_tx_desc_alloc s v pool ∧
      (∀ p, pool = Some p → ∃ P, pools s !! p = Some P ∧ status P ≠ FLOW_POOL_INVALID) ∧
      (m = false → vdevs s !! v = Some pool)) as (pool & -> & Hp & Hvp).
    { unfold ol_tx_desc_alloc_wrapper. destruct m.
      - exists (mgmt_pool s). split; [done|]. split; [apply (ti_mgmt _ _ _ Hinv)|done].
      - destruct Hl as [[=]|[pool Hv]]. exists pool. rewrite Hv. split; [done|]. split; [|done]. intros p ->.
        destruct (ti_vdevs _ _ _ Hinv v p Hv) as (_ & P & HP & Hst & _). by exists P. }
    destruct (alloc_inv s D I v pool Hinv Hp) as (s' & od & -> & _ & Hk & Hd & Hqu & H). cbn [mbind option_bind].
    exists s', (from_option (.:: I) I od). split; [done|]. split; [by destruct od; destruct_and?|].
    split; [|intros Hm Hqs; by apply Hqu; [apply Hvp|]]. apply fates_keep. intros q Q HQ Hst.
    assert (pool ≠ Some q) as Hq by (intros ->; destruct (Hp q eq_refl) as (P & HP & HstP); congruence).
    split; [exists Q; by rewrite Hk|]. destruct od as [d|]; cbn [from_option].
    + destruct H as (_ & _ & Edp & _). rewrite used_cons, Hd, Edp, decide_False by done. apply used_ext. intros. by rewrite Hd.
    + apply used_ext. intros. by rewrite Hd.
  - cbn in Hl. assert (NoDup I) as Hnd by (destruct (ti_linked _ _ _ Hinv) as (G & F & H); by apply (linked_T _ _ _ _ _ _ H)).
    pose proof (filter_ne_perm I d Hnd Hl) as EI.
    destruct (free_inv s D I (filter (.≠ d) I) d Hinv EI) as (p & P & s' & Edp & HP & E & Hinv' & Eu & Hd & Hk & Hcase).
    rewrite E. cbn [mbind option_bind]. exists s', (filter (.≠ d) I). split; [done|]. split; [done|].
    assert (queues s → queues s') as Hqu.
    { destruct (_ && _) in Hcase; [apply Hcase|]. destruct Hcase as [[fl Ep] Ee]. unfold users in Eu. injection Eu as V1 _.
      by apply (freed_queues s s' p P fl). }
    split; [|done].
    assert (∀ q, used s I q = (if decide (d_pool s d = Some q) then 1 else 0) + used s' (filter (.≠ d) I) q) as Hu.
    { intros q. rewrite (used_perm s I _ q EI), used_cons. f_equal. apply eq_sym, used_ext. done. }
    intros q Q HQ Hst. destruct (decide (q = p)) as [->|Hne].
    + rewrite HP in HQ. injection HQ as <-. rewrite Hst, bool_decide_eq_true_2 in Hcase by done. cbn [andb] in Hcase.
      specialize (Hu p). rewrite decide_True in Hu by done. pose proof (used_nonneg s' (filter (.≠ d) I) p).
      destruct (Z.eqb_spec (avail_desc P + 1) (flow_pool_size P)) as [Ea|Ea]; [left; split; [apply Hcase|lia]|right].
      rewrite bool_decide_eq_false_2 in Hcase by congruence. cbn [andb] in Hcase. destruct Hcase as [[fl Ep] _].
      assert (freed_pool P = P <| avail_desc := avail_desc P + 1 |>) as Ef
        by (unfold freed_pool; rewrite Hst, bool_decide_eq_false_2 by congruence; done).
      rewrite Ef in Ep. eexists. split; [rewrite Ep; apply lookup_insert_eq|]. split; [by split_and!|]. split; [lia|].
      intros Hd0 _. pose proof (po_sum _ _ _ _ (ti_pools _ _ _ Hinv p P HP)). lia.
    + destruct (Hk q Q Hne HQ) as (Q' & HQ' & Hs). right. exists Q'. specialize (Hu q).
      rewrite decide_False in Hu by congruence. split_and!; try done; lia.
Qed.

Lemma run_inv s D I ops :
  tx_inv s D I → legal_run (s, I) ops → ∃ s' I', run (s, I) ops = Some (s', I') ∧ tx_inv s' D I' ∧
    (along orderly (s, I) ops → queues s → queues s').
Proof.
  revert s I. induction ops as [|op ops IH]; intros s I Hinv Hl; [by exists s, I|]. destruct Hl as [Hop Hl].
  destruct (step_inv s D I op Hinv Hop) as (s1 & I1 & E1 & Hinv1 & _ & Hq1). cbn [run]. rewrite E1. cbn [mbind option_bind].
  destruct (IH s1 I1 Hinv1 (Hl _ E1)) as (s' & I' & E' & Hinv' & Hq'). exists s', I'. split; [done|]. split; [done|].
  intros [Ho Hos] Hq. by apply Hq'; [apply Hos|apply Hq1].
Qed.

(** C11: the pools under any sequence of messages and frames.  From a state
    with the invariant, no sequence of map and unmap messages, allocations and
    releases makes the driver use a freed pool or a null pointer, and the
    invariant holds again: every descriptor of the device is in exactly one of
    the global pool, a flow pool and the frames in flight; every counter is the
    length of its list; for each pool the descriptors available, in flight and
    missing add up to its size; a descriptor in flight belongs to a pool that
    exists; a flow's pool is not an invalid one; and a pool whose queues are
    stopped has no more free descriptors than its start threshold. *)
Theorem tx_pools_safe s D I ops :
  tx_inv s D I → legal_run (s, I) ops → ∃ s' I', run (s, I) ops = Some (s', I') ∧ tx_inv s' D I'.
Proof. intros Hinv Hl. destruct (run_inv s D I ops Hinv Hl) as (s' & I' & E & Hinv' & _). by exists s', I'. Qed.

(** C12: the queues of the network stack.  While each flow has one pool at a time
    and no management frame takes its descriptor from a pool, after any
    sequence of messages, allocations and releases the queues of a flow that has
    a pool are stopped exactly when the pool is in the paused state, whichever
    path last changed it: an allocation below the stop threshold, a release, a
    mapping or the distribution of another pool's descriptors.  A flow whose
    queues are stopped has at most its start threshold of free descriptors, so
    no flow with more than that is left stopped. *)
Theorem queues_follow_pools s D I ops :
  tx_inv s D I → queues s → legal_run (s, I) ops → along orderly (s, I) ops →
  ∃ s' I', run (s, I) ops = Some (s', I') ∧ ∀ v p P, vdevs s' !! v = Some (Some p) → pools s' !! p = Some P →
    (queue_stopped v (tx_events s') = true ↔ status P = FLOW_POOL_ACTIVE_PAUSED) ∧
    (queue_stopped v (tx_events s') = true → avail_desc P <= start_th P).
Proof.
  intros Hinv Hq Hl Ho. destruct (run_inv s D I ops Hinv Hl) as (s' & I' & E & Hinv' & Hq'). exists s', I'. split; [done|].
  intros v p P Hv HP. pose proof (qu_stopped s' (Hq' Ho Hq) v p P Hv HP) as Hiff. split; [by rewrite Hiff|].
  intros Hst. apply (po_paused _ _ _ _ (ti_pools _ _ _ Hinv' p P HP)). by apply Hiff.
Qed.

(** *** The fate of an unmapped pool *)

(** The pool [q] is freed in the course of a run. *)
Definition freed_in (st : txState * list Z) (ops : list tx_op) (q : Z) : Prop :=
  ∃ ops1 ops2 s1 I1, ops = ops1 ++ ops2 ∧ run st ops1 = Some (s1, I1) ∧ pools s1 !! q = None.

Lemma freed_in_cons st op ops st1 q : exec st op = Some st1 → freed_in st1 ops q → freed_in st (op :: ops) q.
Proof.
  intros E (ops1 & ops2 & s1 & I1 & -> & Hr & Hq). exists (op :: ops1), ops2, s1, I1. split; [done|]. split; [|done].
  cbn [run]. by rewrite E.
Qed.

Lemma run_fate s D I ops s' I' q P :
  tx_inv s D I → legal_run (s, I) ops → run (s, I) ops = Some (s', I') →
  pools s !! q = Some P → status P = FLOW_POOL_INVALID →
  (deficient_desc P = 0 → 0 < used s I q → freed_in (s, I) ops q ∨ 0 < used s' I' q) ∧
  (used s I q = 0 → ∃ P', pools s' !! q = Some P' ∧ status P' = FLOW_POOL_INVALID ∧ used s' I' q = 0).
Proof.
  revert s I P. induction ops as [|op ops IH]; intros s I P Hinv Hl Hrun HP Hst.
  { injection Hrun as <- <-. split; [intros _ Hu; by right|intros Hu; by exists P]. }
  destruct Hl as [Hop Hl]. destruct (step_inv s D I op Hinv Hop) as (s1 & I1 & E1 & Hinv1 & Hf & _).
  cbn [run] in Hrun. rewrite E1 in Hrun. cbn in Hrun. specialize (Hl _ E1).
  destruct (Hf q P HP Hst) as [[Hgone Hu]|(P1 & HP1 & (S1 & S2 & S3 & S4 & S5 & S6) & Hle & Hpos)].
  - split; [intros _ _; left|lia]. exists [op], ops, s1, I1. split; [done|]. cbn [run]. by rewrite E1.
  - pose proof (used_nonneg s1 I1 q).
    destruct (IH s1 I1 P1 Hinv1 Hl Hrun HP1 (proj2 S5 Hst)) as [IH1 IH2].
    assert (0 <= deficient_desc P1) by apply (po_def _ _ _ _ (ti_pools _ _ _ Hinv1 q P1 HP1)).
    split; [intros Hd Hu|intros Hu; apply IH2; lia].
    destruct IH1 as [Hfr|Hu']; [lia|by apply Hpos|left; by eapply freed_in_cons|by right].
Qed.

(** C32: what becomes of a pool that is unmapped, under any further messages and
    frames.  A pool that has its full number of descriptors is freed by the
    unmapping itself or in the release of a descriptor of it: at the end of any
    run it has been freed or some descriptor of it is still in flight.  But a
    pool that is unmapped while it lacks descriptors (it was created when the
    global pool had too few) and none of its descriptors is in flight is never
    freed: no release reaches it, so it stays in the list as an invalid pool
    and keeps what other pools give it. *)
Theorem unmapped_pool_fate s D I flow id ops s' I' p P :
  tx_inv s D I → legal_run (s, I) (OpUnmap flow true id :: ops) →
  run (s, I) (OpUnmap flow true id :: ops) = Some (s', I') →
  ol_tx_get_flow_pool s id = Some p → pools s !! p = Some P →
  (deficient_desc P = 0 → freed_in (s, I) (OpUnmap flow true id :: ops) p ∨ 0 < used s' I' p) ∧
  (0 < deficient_desc P → used s I p = 0 →
   ∃ P', pools s' !! p = Some P' ∧ status P' = FLOW_POOL_INVALID ∧ used s' I' p = 0).
Proof.
  intros Hinv [Hop Hl] Hrun Hget HP. destruct (unmap_inv s D I flow true id Hinv Hop) as (s1 & E1 & Hinv1 & _ & Ed & _ & Hp).
  specialize (Hp p P Hget HP eq_refl). destruct (ti_pools _ _ _ Hinv p P HP).
  assert (exec (s, I) (OpUnmap flow true id) = Some (s1, I)) as Ex by (cbn [exec]; by rewrite E1).
  cbn [run] in Hrun. rewrite Ex in Hrun. cbn in Hrun. specialize (Hl _ Ex).
  assert (used s1 I p = used s I p) as Hu by (apply used_ext; intros; by rewrite Ed).
  destruct (Z.eqb_spec (avail_desc P) (flow_pool_size P)) as [E|E].
  - split; [|pose proof (used_nonneg s I p); lia]. intros _. left. exists [OpUnmap flow true id], ops, s1, I.
    split; [done|]. cbn [run]. by rewrite Ex.
  - destruct Hp as [m HP1]. destruct (run_fate s1 D I ops s' I' p _ Hinv1 Hl Hrun HP1 eq_refl) as [H1 H2].
    rewrite Hu in H1, H2. change (deficient_desc (invalid_pool _)) with (deficient_desc P) in H1.
    split; [intros Hd|intros _ Hu0; by apply H2]. destruct H1 as [Hfr|H1]; [done|pose proof (used_nonneg s I p); lia| |by right].
    left. by eapply freed_in_cons.
Qed.

(** ** From registration to deregistration *)

(** The descriptors [D] of the device are in the global pool, before
    [ol_tx_register_flow_control]. *)
Record tx_fresh s (D : list Z) : Prop := {
  fr_nodup : NoDup D;
  fr_size : Z.of_nat (length D) < 65536;
  fr_global : chain (d_next s) (tx_freelist s) D;
  fr_free : num_free s = Z.of_nat (length D);
  fr_pools : pools s = ∅;
  fr_vdevs : ∀ v p, vdevs s !! v ≠ Some (Some p);
  fr_mgmt : mgmt_pool s = None;
  fr_cfg : 0 <= tx_flow_stop_queue_th s ∧ 0 <= tx_flow_start_queue_offset s ∧
    tx_flow_stop_queue_th s + tx_flow_start_queue_offset s <= 100;
}.

Lemma fresh_inv s D : tx_fresh s D → tx_inv (s <| flow_pool_list := [] |>) D [].
Proof.
  intros []. split.
  - exists D, (λ _, []). split; try done.
    + cbn. by rewrite app_nil_r.
    + constructor.
    + intros p. cbn. rewrite fr_pools0, lookup_empty. split; [by intros ?%not_elem_of_nil|by intros [? ?]].
    + intros p P. cbn. by rewrite fr_pools0, lookup_empty.
    + intros p P d. cbn. by rewrite fr_pools0, lookup_empty.
  - intros p P. cbn. by rewrite fr_pools0, lookup_empty.
  - by intros d ?%not_elem_of_nil.
  - intros v p E. by destruct (fr_vdevs0 v p).
  - intros p. cbn. by rewrite fr_mgmt0.
  - done.
Qed.

Lemma register_inv s D mem : tx_fresh s D → ∃ s', ol_tx_register_flow_control s mem = Some s' ∧ tx_inv s' D [].
Proof.
  intros Hf. pose proof (fresh_inv s D Hf) as Hinv. unfold ol_tx_register_flow_control.
  set (s0 := s <| flow_pool_list := [] |>) in *. change (is_mgmt_over_wmi_enabled s0) with (is_mgmt_over_wmi_enabled s).
  destruct (is_mgmt_over_wmi_enabled s); [by exists s0|]. destruct mem as [p|].
  2: { eexists. split; [reflexivity|]. apply (tx_inv_ext s0); [done| |done]. destruct Hf. unfold users. cbn. by rewrite fr_mgmt0. }
  destruct (create_inv s0 D [] p TX_FLOW_MGMT_POOL_ID TX_FLOW_MGMT_POOL_SIZE Hinv)
    as (s1 & fl & E1 & [] & Eu & Ep & _); [cbn; rewrite (fr_pools s D Hf); apply lookup_empty|done|].
  rewrite E1. cbn [mbind option_bind]. eexists. split; [reflexivity|]. unfold users in Eu. injection Eu as U1 U2 U3 U4 U5.
  destruct ti_linked0 as (G & F & H). split; [exists G, F; by apply (linked_ext s1)| |by intros d ?%not_elem_of_nil| | |done].
  - intros q Q HQ. apply (pool_ok_ext s1); [done|by apply ti_pools0].
  - intros v q. cbn. rewrite U1. intros E. by destruct (fr_vdevs s D Hf v q).
  - intros q. cbn. intros [= <-]. rewrite Ep, lookup_insert_eq. by eexists.
Qed.

(** What the forced deletion of pools relies on. *)
Definition pools_fit s : Prop := ∀ p P, pools s !! p = Some P → ref_cnt P = 1 ∧ avail_desc P <= flow_pool_size P < 65536.

Lemma deregister_loop_spec fuel s D G F I :
  linked s D G F [] I → pools_fit s → (length (flow_pool_list s) <= fuel)%nat →
  ∃ s' G', deregister_loop fuel s = Some s' ∧ linked s' D G' F [] I ∧ flow_pool_list s' = [].
Proof.
  revert s G F. induction fuel as [|fuel IH]; intros s G F H Hfit Hfuel.
  { exists s, G. cbn [deregister_loop]. by destruct (flow_pool_list s) eqn:El; [|cbn in Hfuel; lia]. }
  cbn [deregister_loop]. destruct (flow_pool_list s) as [|p l] eqn:El; [by exists s, G|].
  destruct (proj1 (lk_dom _ _ _ _ _ _ H p)) as [P HP]; [rewrite El; constructor|]. destruct (Hfit p P HP) as [Hr Hav].
  destruct (dec_pool_ref_spec s D G F I p P true H HP Hr Hav) as (s1 & E1 & Hcase & H1 & _). rewrite orb_true_r in Hcase.
  destruct Hcase as [El1 Ep1]. rewrite E1. cbn [mbind option_bind].
  assert (flow_pool_list s1 = l) as El2.
  { pose proof (lk_list _ _ _ _ _ _ H) as Hnd. rewrite El in Hnd. apply NoDup_cons in Hnd as [Hp _].
    rewrite El1, El, filter_cons_False by naive_solver. clear - Hp. induction l as [|q l IH]; [done|].
    apply not_elem_of_cons in Hp as [Hq Hp]. rewrite filter_cons_True by congruence. f_equal. by apply IH. }
  destruct (IH s1 _ _ H1) as (s' & G' & E' & H' & El').
  - intros q Q. rewrite Ep1, lookup_delete_Some. intros [_ HQ]. by apply (Hfit q).
  - rewrite El2. cbn in Hfuel. lia.
  - exists s', G'. split; [done|]. split; [|done]. destruct H'. rewrite El' in *. split; rewrite ?El'; try done.
    + intros q Q HQ. exfalso. apply (not_elem_of_nil q), lk_dom0. by exists Q.
    + intros q Q d HQ. exfalso. apply (not_elem_of_nil q), lk_dom0. by exists Q.
Qed.

Lemma deregister_spec s D I fuel :
  tx_inv s D I → (length (flow_pool_list s) <= fuel)%nat →
  ∃ s' G F, ol_tx_deregister_flow_control fuel s = Some s' ∧ linked s' D G F [] I ∧ flow_pool_list s' = [].
Proof.
  intros Hinv Hfuel. pose proof Hinv as []. destruct ti_linked0 as (G & F & H).
  assert (pools_fit s) as Hfit.
  { intros p P HP. destruct (ti_pools0 p P HP). pose proof (used_nonneg s I p). by split; [|lia]. }
  unfold ol_tx_deregister_flow_control.
  assert (∃ s1 G1 F1, (if is_mgmt_over_wmi_enabled s then Some s else ol_tx_dec_pool_ref s (mgmt_pool s) false) = Some s1 ∧
    linked s1 D G1 F1 [] I ∧ pools_fit s1 ∧ (length (flow_pool_list s1) <= fuel)%nat) as (s1 & G1 & F1 & -> & H1 & Hfit1 & Hf1).
  { destruct (is_mgmt_over_wmi_enabled s); [by exists s, G, F|]. destruct (mgmt_pool s) as [p|] eqn:Em; [|by exists s, G, F].
    destruct (ti_mgmt0 p eq_refl) as (P & HP & _). destruct (Hfit p P HP) as [Hr Hav].
    destruct (dec_pool_ref_spec s D G F I p P false H HP Hr Hav) as (s1 & E1 & Hcase & H1 & _).
    eexists s1, _, _. split; [done|]. split; [done|].
    assert (p ∈ flow_pool_list s) as Hp by (apply (lk_dom _ _ _ _ _ _ H); by exists P).
    pose proof (filter_ne_perm _ p (lk_list _ _ _ _ _ _ H) Hp) as El. apply Permutation_length in El. cbn in El.
    destruct (_ || _); destruct Hcase as [El1 Ep1]; rewrite El1, ?length_app; unfold pools_fit; rewrite Ep1; (split; [|cbn; lia]).
    - intros q Q. rewrite lookup_delete_Some. intros [_ HQ]. by apply (Hfit q).
    - intros q Q. rewrite lookup_insert_Some. intros [[<- <-]|[_ HQ]]; [|by apply (Hfit q)].
      destruct (lk_pool _ _ _ _ _ _ H p P HP). cbn. lia. }
  cbn [mbind option_bind]. destruct (deregister_loop_spec fuel s1 D G1 F1 I H1 Hfit1 Hf1) as (s2 & G2 & E2 & H2 & El2).
  by exists s2, G2, F1.
Qed.

(** The flow control from its registration to its deregistration.  With all
    descriptors in the global pool it registers; after any legal sequence of
    messages and frames the deregistration ends, after at most one round per
    pool of the list, with every pool freed, the list empty and every
    descriptor that is not in flight back in the global pool, once, whatever
    state the pools were in. *)
Theorem flow_control_lifetime s D mem ops :
  tx_fresh s D →
  ∃ s1, ol_tx_register_flow_control s mem = Some s1 ∧
    (legal_run (s1, []) ops → ∃ s2 I, run (s1, []) ops = Some (s2, I) ∧
      ∀ fuel, (length (flow_pool_list s2) <= fuel)%nat → ∃ s3 G, ol_tx_deregister_flow_control fuel s2 = Some s3 ∧
        flow_pool_list s3 = [] ∧ pools s3 = ∅ ∧ chain (d_next s3) (tx_freelist s3) G ∧ num_free s3 = Z.of_nat (length G) ∧
        G ++ I ≡ₚ D).
Proof.
  intros Hf. destruct (register_inv s D mem Hf) as (s1 & E1 & Hinv1). exists s1. split; [done|]. intros Hl.
  destruct (run_inv s1 D [] ops Hinv1 Hl) as (s2 & I & E2 & Hinv2 & _). exists s2, I. split; [done|]. intros fuel Hfuel.
  destruct (deregister_spec s2 D I fuel Hinv2 Hfuel) as (s3 & G & F & E3 & [] & El). exists s3, G. rewrite El in *.
  do 2 (split; [done|]). split; [|by split_and!]. apply map_empty. intros p. destruct (pools s3 !! p) as [P|] eqn:HP; [|done].
  exfalso. apply (not_elem_of_nil p), lk_dom0. by exists P.
Qed.
