(* ===== verification/TxDemo.v ===== *)
(** The flow control pools on a small device: forty-five descriptors, a
    management pool of thirty-two, and virtual devices 1 and 2.  Whether a run
    keeps to [legal] and [orderly] is decided by computation. *)
From S2P Require Import Prelude Chains TxFlow.

(** ** Deciding that a run is legal *)

#[export] Instance legal_dec st op : Decision (legal st op).
Proof.
  destruct st as [s J], op as [mem flow vd id size|flow vd id|v m|d]; cbn [legal].
  - apply and_dec; [apply _|]. apply and_dec; [|apply _].
    destruct mem as [p|]; [|by left]. destruct (decide (pools s !! p = None)); [left; congruence|right; naive_solver].
  - apply and_dec; [apply _|]. destruct (ol_tx_get_flow_pool s id) as [p|]; [|by left].
    destruct (decide (mgmt_pool s ≠ Some p)) as [H|H]; [|right; naive_solver].
    destruct (decide (map_Forall (λ v o, o = Some p → v = flow) (vdevs s))) as [H2|H2].
    + left. intros q [= <-]. split; [done|]. intros v E. by apply (H2 v _ E).
    + right. intros Hall. apply H2. intros v o E ->. by apply (Hall p).
  - apply _.
  - apply _.
Defined.

#[export] Instance orderly_dec st op : Decision (orderly st op).
Proof.
  destruct st as [s J], op as [mem flow vd id size|flow vd id|v m|d]; cbn [orderly]; [| |apply _|by left].
  - destruct vd; [|by left]. destruct (vdevs s !! flow) as [[p|]|]; [right; naive_solver|left; congruence|left; congruence].
  - destruct vd; [|by left]. destruct (ol_tx_get_flow_pool s id) as [p|]; [|by left].
    destruct (vdevs s !! flow) as [[q|]|]; [|left; congruence|left; congruence].
    destruct (decide (q = p)) as [->|Hne]; [left; congruence|right; naive_solver].
Defined.

#[export] Instance along_dec ok `{∀ st op, Decision (ok st op)} st ops : Decision (along ok st ops).
Proof.
  revert st. induction ops as [|op ops IH]; intros st; cbn [along]; [by left|]. apply and_dec; [apply _|].
  destruct (exec st op) as [st'|]; [|by left]. destruct (IH st'); [left; congruence|right; naive_solver].
Defined.

(** ** The device *)

Definition demo_descs : list Z := seqZ 1 45.
Definition demo_boot (over_wmi : bool) : txState :=
  mk_tx (λ d, if d <? 45 then Some (d + 1) else None) (λ _, None) (λ _, 0) (λ _, 0) 45 (Some 1) 0 [] ∅
    {[1 := None; 2 := None]} None over_wmi 0 0 0 40 20 [].

Lemma demo_fresh w : tx_fresh (demo_boot w) demo_descs.
Proof.
  split; try done.
  - apply NoDup_seqZ.
  - intros v p E. cbn in E. rewrite lookup_insert_Some in E. destruct E as [[_ [=]]|[_ E]].
    apply lookup_singleton_Some in E as [_ [=]].
Qed.

(** The device after its registration; the management pool is at 100. *)
Definition demo_start : txState := default (demo_boot false) (ol_tx_register_flow_control (demo_boot false) (Some 100)).
Lemma demo_inv : tx_inv demo_start demo_descs [].
Proof. destruct (register_inv (demo_boot false) demo_descs (Some 100) (demo_fresh false)) as (s' & E & H). unfold demo_start. by rewrite E. Qed.
Lemma demo_queues : queues demo_start.
Proof.
  assert (∀ v p, vdevs demo_start !! v ≠ Some (Some p)) as Hv by apply (demo_fresh false).
  split; [|intros v p P E; by destruct (Hv v p)..]. intros p P HP Hst. exfalso.
  assert (map_Forall (λ _ P, status P ≠ FLOW_POOL_ACTIVE_PAUSED) (pools demo_start)) as Hall
    by (apply (bool_decide_unpack _); vm_compute; exact I).
  by apply (Hall p P).
Qed.

(** ** Runs *)

(** Flow 1 gets a full pool, flow 2 one that lacks three descriptors. *)
Definition demo_maps : list tx_op := [OpMap (Some 200) 1 true 7 10; OpMap (Some 201) 2 true 8 6].
(** Seven frames of flow 1 and three of flow 2 stop both; flow 1 is unmapped and
    its descriptors come back. *)
Definition demo_frames : list tx_op := replicate 7 (OpAlloc 1 false) ++ replicate 3 (OpAlloc 2 false).
Definition demo_release : list tx_op := OpUnmap 1 true 7 :: map OpFree (seqZ 36 7).
Definition demo_run : list tx_op := (demo_maps ++ demo_frames) ++ demo_release.

Definition demo_state (ops : list tx_op) : txState * list Z := default (demo_start, []) (run (demo_start, []) ops).

Ltac decided := apply (bool_decide_unpack _); vm_compute; exact I.

(** From a state with the invariant a legal run leads to one. *)
Lemma demo_state_inv ops : legal_run (demo_start, []) ops → tx_inv (demo_state ops).1 demo_descs (demo_state ops).2.
Proof.
  intros Hl. destruct (run_inv demo_start demo_descs [] ops demo_inv Hl) as (s' & J & E & H & _). unfold demo_state. by rewrite E.
Qed.

Lemma demo_state_app ops1 ops2 :
  is_Some (run (demo_start, []) (ops1 ++ ops2)) →
  run ((demo_state ops1).1, (demo_state ops1).2) ops2 = Some ((demo_state (ops1 ++ ops2)).1, (demo_state (ops1 ++ ops2)).2).
Proof.
  rewrite run_app. intros [st' E]. rewrite <- !surjective_pairing. unfold demo_state. rewrite run_app.
  destruct (run (demo_start, []) ops1) as [st|]; [|done]. cbn in *. by rewrite E.
Qed.

(** ** Witnesses *)

(** The run of the demonstration, and what it ends in: pool 200 is gone, and
    three of its descriptors have gone to pool 201. *)
Lemma tx_pools_safe_witness :
  (∃ s' J, run (demo_start, []) demo_run = Some (s', J) ∧ tx_inv s' demo_descs J) ∧
  pools (demo_state demo_run).1 !! 200 = None ∧ avail_desc <$> pools (demo_state demo_run).1 !! 201 = Some 3.
Proof.
  split; [|by vm_compute]. apply (tx_pools_safe demo_start demo_descs [] demo_run); [apply demo_inv|]. unfold legal_run. decided.
Defined.

Lemma queues_follow_pools_witness :
  (∃ s' J, run (demo_start, []) demo_run = Some (s', J) ∧
     ∀ v p P, vdevs s' !! v = Some (Some p) → pools s' !! p = Some P →
       (queue_stopped v (tx_events s') = true ↔ status P = FLOW_POOL_ACTIVE_PAUSED) ∧
       (queue_stopped v (tx_events s') = true → avail_desc P <= start_th P)) ∧
  queue_stopped 1 (tx_events (demo_state (demo_maps ++ demo_frames)).1) = true ∧
  queue_stopped 2 (tx_events (demo_state demo_run).1) = true ∧
  queue_stopped 2 (tx_events (demo_state (demo_run ++ [OpFree 43])).1) = false.
Proof.
  split; [|by vm_compute]. apply (queues_follow_pools demo_start demo_descs [] demo_run);
    [apply demo_inv|apply demo_queues|unfold legal_run; decided|decided].
Defined.

(** Pool 200 is unmapped with seven descriptors in flight and is gone when they
    are back; pool 201 is unmapped with none in flight and is never freed. *)
Lemma unmapped_pool_fate_witness :
  freed_in (demo_state (demo_maps ++ demo_frames)) demo_release 200 ∧
  ∃ P, pools (demo_state (demo_maps ++ OpUnmap 2 true 8 :: replicate 4 (OpAlloc 1 false))).1 !! 201 = Some P ∧ status P = FLOW_POOL_INVALID.
Proof.
  split.
  - destruct (unmapped_pool_fate (demo_state (demo_maps ++ demo_frames)).1 demo_descs (demo_state (demo_maps ++ demo_frames)).2
      1 7 (map OpFree (seqZ 36 7)) (demo_state demo_run).1 (demo_state demo_run).2 200
      (default (mk_pool 0 0 0 0 FLOW_POOL_INACTIVE 0 0 0 None 0 0) (pools (demo_state (demo_maps ++ demo_frames)).1 !! 200)))
      as [H _]; [apply demo_state_inv; unfold legal_run; decided|unfold legal_run; decided|apply demo_state_app; decided|by vm_compute|by vm_compute|].
    destruct H as [H|H]; [by vm_compute|by rewrite (surjective_pairing (demo_state _))|].
    exfalso. revert H. by vm_compute.
  - destruct (unmapped_pool_fate (demo_state demo_maps).1 demo_descs (demo_state demo_maps).2 2 8 (replicate 4 (OpAlloc 1 false))
      (demo_state (demo_maps ++ OpUnmap 2 true 8 :: replicate 4 (OpAlloc 1 false))).1
      (demo_state (demo_maps ++ OpUnmap 2 true 8 :: replicate 4 (OpAlloc 1 false))).2 201
      (default (mk_pool 0 0 0 0 FLOW_POOL_INACTIVE 0 0 0 None 0 0) (pools (demo_state demo_maps).1 !! 201)))
      as [_ H]; [apply demo_state_inv; unfold legal_run; decided|unfold legal_run; decided|apply demo_state_app; decided|by vm_compute|by vm_compute|].
    destruct H as (P & HP & Hst & _); [by vm_compute|by vm_compute|]. exists P. split; [exact HP|exact Hst].
Defined.

Lemma flow_control_lifetime_witness :
  ∃ s2 J, run (demo_start, []) demo_run = Some (s2, J) ∧
    ∃ s3 G, ol_tx_deregister_flow_control 5 s2 = Some s3 ∧ pools s3 = ∅ ∧ G ++ J ≡ₚ demo_descs.
Proof.
  destruct (flow_control_lifetime (demo_boot false) demo_descs (Some 100) demo_run (demo_fresh false)) as (s1 & E1 & H).
  assert (s1 = demo_start) as -> by (unfold demo_start; by rewrite E1).
  destruct H as (s2 & J & E2 & H); [unfold legal_run; decided|]. exists s2, J. split; [done|].
  assert ((demo_state demo_run).1 = s2) as E3 by (unfold demo_state; by rewrite E2).
  destruct (H 5%nat) as (s3 & G & E & _ & Hp & _ & _ & HG); [rewrite <- E3; vm_compute; lia|]. exists s3, G. split; [exact E|split; [exact Hp|exact HG]].
Defined.

(** ** What the code does not mean to do *)

(** The queues of a flow stopped for a management frame stay stopped: the
    management pool belongs to flow 0, which is woken instead. *)
Example mgmt_stop_wakes_flow_0 :
  let frames := replicate 21 (OpAlloc 1 true) ++ map OpFree (seqZ 12 21) in
  legal_run (demo_start, []) (demo_maps ++ frames) ∧
  let s := (demo_state (demo_maps ++ frames)).1 in
  tx_events s = [WakeQueues 1; WakeQueues 2; StopQueues 1; WakeQueues 0] ∧ queue_stopped 1 (tx_events s) = true ∧
  avail_desc <$> pools s !! 100 = Some 32 ∧ status <$> pools s !! 200 = Some FLOW_POOL_ACTIVE_UNPAUSED.
Proof. cbv zeta. split; [unfold legal_run; decided|by vm_compute]. Qed.

(** A second flow mapped to a pool takes no reference to it: unmapping the first
    frees the pool, and the next frame of the second flow goes through a pointer
    to freed memory. *)
Example second_flow_dangles :
  run (demo_start, []) [OpMap (Some 200) 1 true 7 10; OpMap None 2 true 7 10; OpUnmap 1 true 7; OpAlloc 2 false] = None ∧
  ∃ s J, run (demo_start, []) [OpMap (Some 200) 1 true 7 10; OpMap None 2 true 7 10; OpUnmap 1 true 7] = Some (s, J) ∧
    vdevs s !! 2 = Some (Some 200) ∧ pools s !! 200 = None.
Proof.
  split; [by vm_compute|]. eexists _, _. split; [by vm_compute|]. by vm_compute.
Qed.
