(* ===== verification/PeerRefs.v ===== *)
(** The peer objects of the data path and the references to them:
    core/dp/txrx/ol_txrx_peer_find.c and the attaching, detaching and
    reference counting of peers of ol_txrx.c (low-latency builds, with
    QCA_SUPPORT_TXRX_LOCAL_PEER_ID).

    A peer is reachable through a hash table by MAC address, a map from the
    firmware's peer ids, a map from local ids, its virtual device's list and
    last real peer.  It lives as long as its reference count is positive.
    Peers and virtual devices live in memories [peers] and [vdevs]: a pointer
    without an entry has been freed, and [None] is a use of one, an access
    outside an array, the removal of an element from a queue that it is not in
    or a second freeing of a vdev's pause timer and locks.  TAILQs are lists of
    pointers.  A vdev that is detached while it has peers has left the device's
    list but exists until its last peer goes; [ol_txrx_vdev_detach] does not
    look for that state, so that a caller must not detach a vdev again.

    The transmit and reorder queues of a peer and its cached frames are other components;
    what the code does to them, logging and the locks are left out, and so is
    the monitor mode. *)
From S2P Require Import Prelude.

Definition MAX_NUM_PEER_ID_PER_PEER : Z := 16.
Definition OL_TXRX_NUM_LOCAL_PEER_IDS : Z := 2 + 32.
Definition OL_TXRX_INVALID_LOCAL_PEER_ID : Z := 0xffff.
Definition HTT_INVALID_PEER_ID : Z := 0xffff.
Definition EACCES : Z := 13.
Definition EINVAL : Z := 22.

(** Constants of headers that are not in the repository. *)
Class PeerConsts := {
  HTT_INVALID_PEER : Z;
  OL_TXRX_PEER_STATE_INVALID : Z;
  OL_TXRX_PEER_STATE_DISC : Z;
}.

(** ** Data *)

Record ol_txrx_peer_t := mk_peer {
  vdev : option Z;
  ref_cnt : Z;
  delete_in_progress : Z;
  state : Z;                           (* enum ol_txrx_peer_state *)
  peer_ids : list Z;
  local_id : Z;
  mac_addr : list Z;
  fw_create_pending : Z;
  valid : bool;
  bss_peer : bool;
  peer_unmap_timer : bool;             (* whether it runs *)
}.
#[export] Instance peer_eta : Eta ol_txrx_peer_t := fun p =>
  mk_peer (vdev p) (ref_cnt p) (delete_in_progress p) (state p) (peer_ids p) (local_id p) (mac_addr p)
    (fw_create_pending p) (valid p) (bss_peer p) (peer_unmap_timer p).

Record ol_txrx_vdev_t := mk_vdev {
  v_mac_addr : list Z;
  opmode_sta : bool;                   (* opmode == wlan_op_mode_sta *)
  peer_list : list Z;
  last_real_peer : option Z;
  delete_pending : bool;
  wait_on_peer_id : Z;
  ll_pause : bool;                     (* whether its timer and its locks exist *)
}.
#[export] Instance vdev_eta : Eta ol_txrx_vdev_t := fun v =>
  mk_vdev (v_mac_addr v) (opmode_sta v) (peer_list v) (last_real_peer v) (delete_pending v) (wait_on_peer_id v) (ll_pause v).

Record ol_txrx_peer_id_map := mk_map { id_peer : option Z; peer_id_ref_cnt : Z; del_peer_id_ref_cnt : Z }.
#[export] Instance map_eta : Eta ol_txrx_peer_id_map := fun m =>
  mk_map (id_peer m) (peer_id_ref_cnt m) (del_peer_id_ref_cnt m).

Inductive peer_event :=
  | WaitDone (v : Z)                   (* qdf_event_set(&vdev->wait_delete_comp) *)
  | VdevDeleted (v : Z)                (* the vdev is freed, vdev_delete_cb *)
  | PeerFreed (p : Z)
  | Asserted.                          (* qdf_assert(0) *)

Record pdevState := mk_pdev {
  peers : gmap Z ol_txrx_peer_t;
  vdevs : gmap Z ol_txrx_vdev_t;
  bins : list (list Z);                (* peer_hash.bins *)
  mask : Z;
  idx_bits : Z;
  peer_id_to_obj_map : list ol_txrx_peer_id_map;
  local_pool : list Z;                 (* local_peer_ids.pool *)
  local_freelist : Z;
  local_map : list (option Z);
  max_peer_id : Z;                     (* ol_cfg_max_peer_id *)
  vdev_list : list Z;
  peer_events : list peer_event;
}.
#[export] Instance pdev_eta : Eta pdevState := fun s =>
  mk_pdev (peers s) (vdevs s) (bins s) (mask s) (idx_bits s) (peer_id_to_obj_map s) (local_pool s) (local_freelist s)
    (local_map s) (max_peer_id s) (vdev_list s) (peer_events s).

Implicit Types (s : pdevState) (P : ol_txrx_peer_t) (V : ol_txrx_vdev_t).

(** Writes through pointers. *)
Definition put_peer s p P : pdevState := s <| peers ::= <[p := P]> |>.
Definition put_vdev s v V : pdevState := s <| vdevs ::= <[v := V]> |>.
Definition upd_peer s p (f : ol_txrx_peer_t → ol_txrx_peer_t) : option pdevState := P ← peers s !! p; Some (put_peer s p (f P)).
Definition upd_vdev s v (f : ol_txrx_vdev_t → ol_txrx_vdev_t) : option pdevState := V ← vdevs s !! v; Some (put_vdev s v (f V)).
Definition emit s ev : pdevState := s <| peer_events ::= λ l, l ++ [ev] |>.
Definition peer_id_entry s (id : Z) : option ol_txrx_peer_id_map := peer_id_to_obj_map s !! Z.to_nat id.
Definition put_entry s (id : Z) e : pdevState := s <| peer_id_to_obj_map ::= <[Z.to_nat id := e]> |>.

(** ** The hash table of MAC addresses *)

Definition bytes_ab (a : list Z) : Z := zget a 0 + 256 * zget a 1.
Definition bytes_cd (a : list Z) : Z := zget a 2 + 256 * zget a 3.
Definition bytes_ef (a : list Z) : Z := zget a 4 + 256 * zget a 5.
Definition bytes_abcd (a : list Z) : Z := of_le4 (zget a 0) (zget a 1) (zget a 2) (zget a 3).

(** Whether the addresses differ. *)
Definition ol_txrx_peer_find_mac_addr_cmp (a1 a2 : list Z) : bool :=
  negb ((bytes_abcd a1 =? bytes_abcd a2) && (bytes_ef a1 =? bytes_ef a2)).

(** The loop shifts [tmp] until it is zero. *)
Fixpoint log2_loop (fuel : nat) (tmp log2 : Z) : option Z :=
  if tmp =? 0 then Some log2
  else match fuel with O => None | S n => log2_loop n (Z.shiftr tmp 1) (log2 + 1) end.
Definition ol_txrx_log2_ceil (value : Z) : option Z :=
  if value =? 0 then Some 0
  else log2 ← log2_loop 32 value (-1); Some (if u32 (Z.shiftl 1 log2) =? value then log2 else log2 + 1).

Definition ol_txrx_peer_find_hash_index s (a : list Z) : Z :=
  let index := Z.lxor (Z.lxor (bytes_ab a) (bytes_cd a)) (bytes_ef a) in
  let index := Z.lxor index (Z.shiftr index (idx_bits s)) in
  Z.land index (mask s).

Definition hash_bin s (a : list Z) : option (list Z) := bins s !! Z.to_nat (ol_txrx_peer_find_hash_index s a).
Definition put_bin s (a : list Z) (l : list Z) : pdevState :=
  s <| bins ::= <[Z.to_nat (ol_txrx_peer_find_hash_index s a) := l]> |>.

(** [mem] is whether the allocation succeeds. *)
Definition ol_txrx_peer_find_hash_attach s (mem : bool) : option (pdevState * Z) :=
  let hash_elems := Z.shiftr ((max_peer_id s + 1) * 2) 0 in
  log2 ← ol_txrx_log2_ceil hash_elems;
  let hash_elems := Z.shiftl 1 log2 in
  let s := s <| mask := hash_elems - 1 |> <| idx_bits := log2 |> in
  if mem then Some (s <| bins := replicate (Z.to_nat hash_elems) [] |>, 0) else Some (s, 1).
Definition ol_txrx_peer_find_map_attach s (mem : bool) : pdevState * Z :=
  if mem then (s <| peer_id_to_obj_map := replicate (Z.to_nat (max_peer_id s + 1)) (mk_map None 0 0) |>, 0) else (s, 1).
Definition ol_txrx_peer_find_map_detach s : pdevState := s <| peer_id_to_obj_map := [] |>.
Definition ol_txrx_peer_find_hash_detach s : pdevState := s <| bins := [] |>.
Definition ol_txrx_peer_find_attach s (mem_map mem_hash : bool) : option (pdevState * Z) :=
  let '(s, r) := ol_txrx_peer_find_map_attach s mem_map in
  if negb (r =? 0) then Some (s, 1)
  else '(s, r) ← ol_txrx_peer_find_hash_attach s mem_hash;
       if negb (r =? 0) then Some (ol_txrx_peer_find_map_detach s, 1) else Some (s, 0).
Definition ol_txrx_peer_find_detach s : pdevState := ol_txrx_peer_find_hash_detach (ol_txrx_peer_find_map_detach s).

Definition ol_txrx_peer_find_hash_add s (p : Z) : option pdevState :=
  P ← peers s !! p; l ← hash_bin s (mac_addr P); Some (put_bin s (mac_addr P) (l ++ [p])).
Definition ol_txrx_peer_find_hash_remove s (p : Z) : option pdevState :=
  P ← peers s !! p; l ← hash_bin s (mac_addr P); Some (put_bin s (mac_addr P) (filter (.≠ p) l)).

(** The first peer of a list with [f]. *)
Fixpoint find_in s (f : ol_txrx_peer_t → bool) (l : list Z) : option (option Z) :=
  match l with
  | [] => Some None
  | p :: l => P ← peers s !! p; if f P then Some (Some p) else find_in s f l
  end.
Definition change_ref_cnt s (p change : Z) : option pdevState := upd_peer s p (λ P, P <| ref_cnt ::= λ n, n + change |>).
Definition find_inc_ref s (mac : list Z) (f : ol_txrx_peer_t → bool) : option (pdevState * option Z) :=
  l ← hash_bin s mac;
  r ← find_in s f l;
  match r with
  | None => Some (s, None)
  | Some p => s ← change_ref_cnt s p 1; Some (s, Some p)
  end.
Definition ol_txrx_peer_find_hash_find_inc_ref s (mac : list Z) (check_valid : bool) : option (pdevState * option Z) :=
  find_inc_ref s mac (λ P, negb (ol_txrx_peer_find_mac_addr_cmp mac (mac_addr P)) && (negb check_valid || valid P)).
Definition ol_txrx_peer_vdev_find_hash s (v : Z) (mac : list Z) (check_valid : bool) : option (pdevState * option Z) :=
  find_inc_ref s mac (λ P, negb (ol_txrx_peer_find_mac_addr_cmp mac (mac_addr P)) && (negb check_valid || valid P) &&
                           bool_decide (vdev P = Some v)).

(** ** Local ids *)

Definition ol_txrx_local_peer_id_pool_init s : pdevState :=
  s <| local_freelist := 0 |>
    <| local_pool := seqZ 1 OL_TXRX_NUM_LOCAL_PEER_IDS ++ [OL_TXRX_NUM_LOCAL_PEER_IDS] |>
    <| local_map := replicate (Z.to_nat OL_TXRX_NUM_LOCAL_PEER_IDS) None |>.
Definition ol_txrx_local_peer_id_alloc s (p : Z) : option pdevState :=
  let i := local_freelist s in
  x ← local_pool s !! Z.to_nat i;
  if x =? i then upd_peer s p (λ P, P <| local_id := OL_TXRX_INVALID_LOCAL_PEER_ID |>)
  else
    s ← upd_peer s p (λ P, P <| local_id := i |>);
    _ ← local_map s !! Z.to_nat i;
    Some (s <| local_freelist := x |> <| local_map ::= <[Z.to_nat i := Some p]> |>).
Definition ol_txrx_local_peer_id_free s (p : Z) : option pdevState :=
  P ← peers s !! p;
  let i := local_id P in
  if (i =? OL_TXRX_INVALID_LOCAL_PEER_ID) || (OL_TXRX_NUM_LOCAL_PEER_IDS <=? i) then Some s
  else
    Some (s <| local_pool ::= <[Z.to_nat i := local_freelist s]> |> <| local_freelist := u8 i |>
            <| local_map ::= <[Z.to_nat i := None]> |>).
Definition ol_txrx_peer_find_by_local_id s (id : Z) : option (option Z) :=
  if (id =? OL_TXRX_INVALID_LOCAL_PEER_ID) || (OL_TXRX_NUM_LOCAL_PEER_IDS <=? id) then Some None
  else local_map s !! Z.to_nat id.

(** ** References *)

(** [ol_txrx_peer_clear_map_peer]. *)
Definition ol_txrx_peer_clear_map_peer s (p : Z) : pdevState :=
  s <| peer_id_to_obj_map ::= fmap (λ e, if bool_decide (id_peer e = Some p) then e <| id_peer := None |> else e) |>.

(** The branch of [ol_txrx_peer_unref_delete] that deletes the peer. *)
Definition delete_peer s (p v peer_id : Z) : option pdevState :=
  s ← ol_txrx_peer_find_hash_remove s p;
  s ← upd_vdev s v (λ V, V <| peer_list ::= filter (.≠ p) |>);
  s ← upd_peer s p (λ P, P <| delete_in_progress := 0 |>);
  V ← vdevs s !! v;
  let s := if peer_id =? wait_on_peer_id V
           then put_vdev (emit s (WaitDone v)) v (V <| wait_on_peer_id := OL_TXRX_INVALID_LOCAL_PEER_ID |>) else s in
  s ← upd_peer s p (λ P, P <| peer_unmap_timer := false |>);
  let s := if bool_decide (peer_list V = []) && delete_pending V
           then emit (s <| vdevs ::= delete v |>) (VdevDeleted v) else s in
  let s := ol_txrx_peer_clear_map_peer s p in
  Some (emit (s <| peers ::= delete p |>) (PeerFreed p)).

Definition ol_txrx_peer_unref_delete s (p : Z) : option (pdevState * Z) :=
  P ← peers s !! p;
  match vdev P with
  | None => Some (s, - EINVAL)
  | Some v =>
      _ ← vdevs s !! v;
      if ref_cnt P =? 0 then Some (emit s Asserted, - EACCES)
      else
        let rc := ref_cnt P - 1 in
        let s := put_peer s p (P <| ref_cnt := rc |>) in
        if negb (rc =? 0) then Some (s, rc)
        else s ← delete_peer s p v (local_id P); Some (s, rc)
  end.
(** The calls that ignore the result. *)
Definition unref s (p : Z) : option pdevState := fst <$> ol_txrx_peer_unref_delete s p.

(** ** Attributes and lookups *)

Definition ol_txrx_peer_state_update s (mac : list Z) (st : Z) : option pdevState :=
  '(s, r) ← ol_txrx_peer_find_hash_find_inc_ref s mac true;
  match r with
  | None => Some s
  | Some p =>
      P ← peers s !! p;
      if state P =? st then unref s p
      else
        '(s, peer_ref_cnt) ← ol_txrx_peer_unref_delete s p;
        if 0 <? peer_ref_cnt then upd_peer s p (λ P, P <| state := st |>) else Some s
  end.

(** Lookups that drop the reference again; the result is the peer and its local id. *)
Definition find_and_unref s (r : option Z) : option (pdevState * option (Z * Z)) :=
  match r with
  | None => Some (s, None)
  | Some p => P ← peers s !! p; s ← unref s p; Some (s, Some (p, u8 (local_id P)))
  end.
Definition ol_txrx_find_peer_by_addr s (mac : list Z) : option (pdevState * option (Z * Z)) :=
  '(s, r) ← ol_txrx_peer_find_hash_find_inc_ref s mac true; find_and_unref s r.
Definition ol_txrx_find_peer_by_addr_and_vdev s (v : Z) (mac : list Z) : option (pdevState * option (Z * Z)) :=
  '(s, r) ← ol_txrx_peer_vdev_find_hash s v mac true; find_and_unref s r.
Definition ol_txrx_find_peer_by_addr_inc_ref s (mac : list Z) : option (pdevState * option (Z * Z)) :=
  '(s, r) ← ol_txrx_peer_find_hash_find_inc_ref s mac true;
  match r with None => Some (s, None) | Some p => P ← peers s !! p; Some (s, Some (p, u8 (local_id P))) end.
Definition ol_txrx_peer_find_by_addr s (mac : list Z) : option (pdevState * option Z) :=
  '(s, r) ← ol_txrx_peer_find_hash_find_inc_ref s mac false;
  match r with None => Some (s, None) | Some p => s ← unref s p; Some (s, Some p) end.

Definition ol_txrx_peer_find_by_id s (peer_id : Z) : option (option Z) :=
  if max_peer_id s <? peer_id then Some None
  else
    e ← peer_id_entry s peer_id;
    match id_peer e with
    | None => Some None
    | Some p => P ← peers s !! p; Some (if valid P then Some p else None)
    end.

Definition ol_txrx_assoc_peer_find s (v : Z) : option (pdevState * option Z) :=
  V ← vdevs s !! v;
  match last_real_peer V with
  | None => Some (s, None)
  | Some p =>
      P ← peers s !! p;
      i ← peer_ids P !! 0%nat;
      if i =? HTT_INVALID_PEER_ID then Some (s, None)
      else s ← change_ref_cnt s p 1; Some (s, Some p)
  end.

(** ** Peer ids of the firmware *)

(** The first [old] of a list becomes [new]. *)
Fixpoint replace_first (old new : Z) (l : list Z) : option (list Z) :=
  match l with
  | [] => None
  | x :: l => if x =? old then Some (new :: l) else (x ::.) <$> replace_first old new l
  end.

Section ids.
Context `{PeerConsts}.

Definition ol_txrx_peer_find_add_id s (peer_mac_addr : list Z) (peer_id : Z) : option pdevState :=
  '(s, r) ← ol_txrx_peer_find_hash_find_inc_ref s peer_mac_addr false;
  match r with
  | None => Some s
  | Some p =>
      if peer_id =? HTT_INVALID_PEER then Some s
      else
        e ← peer_id_entry s peer_id;
        let e := match id_peer e with None => e <| id_peer := Some p |> <| peer_id_ref_cnt := 0 |> | Some _ => e end in
        let s := put_entry s peer_id (e <| peer_id_ref_cnt ::= Z.succ |>) in
        P ← peers s !! p;
        let '(s, status) := match replace_first HTT_INVALID_PEER peer_id (peer_ids P) with
                            | Some l => (put_peer s p (P <| peer_ids := l |>), false)
                            | None => (s, true)
                            end in
        s ← (if fw_create_pending P =? 1
             then s ← upd_peer s p (λ P, P <| fw_create_pending := 0 |>); unref s p
             else Some s);
        Some (if status : bool then emit s Asserted else s)
  end.
Definition ol_rx_peer_map_handler s (peer_id vdev_id : Z) (peer_mac_addr : list Z) (tx_ready : Z) : option pdevState :=
  ol_txrx_peer_find_add_id s peer_mac_addr peer_id.

Definition ol_rx_peer_unmap_handler s (peer_id : Z) : option pdevState :=
  if peer_id =? HTT_INVALID_PEER then Some s
  else
    e ← peer_id_entry s peer_id;
    if negb (del_peer_id_ref_cnt e =? 0) then Some (put_entry s peer_id (e <| del_peer_id_ref_cnt ::= Z.pred |>))
    else
      match id_peer e with
      | None => Some s
      | Some p =>
          let e := e <| peer_id_ref_cnt ::= Z.pred |> in
          s ← (if peer_id_ref_cnt e =? 0 then
                 let s := put_entry s peer_id (e <| id_peer := None |>) in
                 upd_peer s p (λ P, P <| peer_ids ::= λ l, default l (replace_first peer_id HTT_INVALID_PEER l) |>)
               else Some (put_entry s peer_id e));
          unref s p
      end.

(** The loop over the peer's ids; [num_deleted_maps] is the sum of what it found. *)
Fixpoint remove_maps (idxs : list nat) s (p num_deleted_maps : Z) : option (pdevState * Z) :=
  match idxs with
  | [] => Some (s, num_deleted_maps)
  | i :: idxs =>
      P ← peers s !! p;
      peer_id ← peer_ids P !! i;
      if peer_id =? HTT_INVALID_PEER then remove_maps idxs s p num_deleted_maps
      else
        e ← peer_id_entry s peer_id;
        if bool_decide (id_peer e = Some p) then
          let s := put_entry s peer_id (mk_map None 0 (del_peer_id_ref_cnt e + peer_id_ref_cnt e)) in
          let s := put_peer s p (P <| peer_ids ::= <[i := HTT_INVALID_PEER]> |>) in
          remove_maps idxs s p (num_deleted_maps + peer_id_ref_cnt e)
        else remove_maps idxs s p num_deleted_maps
  end.
Fixpoint unref_n (n : nat) s (p : Z) : option pdevState :=
  match n with O => Some s | S n => s ← unref s p; unref_n n s p end.
Definition ol_txrx_peer_remove_obj_map_entries s (p : Z) : option pdevState :=
  '(s, num_deleted_maps) ← remove_maps (seq 0 (Z.to_nat MAX_NUM_PEER_ID_PER_PEER)) s p 0;
  unref_n (Z.to_nat num_deleted_maps) s p.

(** ** Attaching and detaching *)

Definition ol_txrx_vdev_attach s (mem : option Z) (mac : list Z) (sta : bool) : pdevState * option Z :=
  match mem with
  | None => (s, None)
  | Some v =>
      let s := put_vdev s v (mk_vdev mac sta [] None false OL_TXRX_INVALID_LOCAL_PEER_ID true) in
      (s <| vdev_list ::= λ l, l ++ [v] |>, Some v)
  end.
(** TAILQ_REMOVE of an element that is not in the queue writes through links
    that are not its own. *)
Definition tailq_remove (v : Z) (l : list Z) : option (list Z) := if bool_decide (v ∈ l) then Some (filter (.≠ v) l) else None.
(** The pause timer and the locks are freed first: freeing them twice is an
    error as well. *)
Definition ol_txrx_vdev_detach s (v : Z) : option pdevState :=
  V ← vdevs s !! v;
  if negb (ll_pause V) then None
  else
    let V := V <| ll_pause := false |> in
    l ← tailq_remove v (vdev_list s);
    let s := put_vdev s v V <| vdev_list := l |> in
    if bool_decide (peer_list V = []) then Some (emit (s <| vdevs ::= delete v |>) (VdevDeleted v))
    else Some (put_vdev s v (V <| delete_pending := true |>)).

(** The loop of [ol_txrx_peer_attach] over the peers of the vdev. *)
Inductive scan_result := ScanExists | ScanWait | ScanGo.
Fixpoint scan_peers s (v : Z) (mac : list Z) (l : list Z) (r : scan_result) : option (pdevState * scan_result) :=
  match l with
  | [] => Some (s, r)
  | p :: l =>
      P ← peers s !! p;
      if ol_txrx_peer_find_mac_addr_cmp (mac_addr P) mac then scan_peers s v mac l r
      else if delete_in_progress P =? 0 then Some (s, ScanExists)
      else s ← upd_vdev s v (λ V, V <| wait_on_peer_id := local_id P |>); scan_peers s v mac l ScanWait
  end.
Definition attach_scan s (v : Z) (mac : list Z) : option (pdevState * scan_result) :=
  V ← vdevs s !! v; scan_peers s v mac (peer_list V) ScanGo.

(** The rest: the peer is allocated and set up. *)
Definition attach_new s (v : Z) (mac : list Z) (mem : option Z) : option (pdevState * option Z) :=
  match mem with
  | None => Some (s, None)
  | Some p =>
      V ← vdevs s !! v;
      let differs := ol_txrx_peer_find_mac_addr_cmp (v_mac_addr V) mac in
      let s := put_vdev s v (V <| peer_list ::= λ l, l ++ [p] |>
                               <| last_real_peer := if differs then Some p else last_real_peer V |>) in
      let s := put_peer s p (mk_peer (Some v) 2 0 OL_TXRX_PEER_STATE_INVALID
                               (replicate (Z.to_nat MAX_NUM_PEER_ID_PER_PEER) HTT_INVALID_PEER) 0 mac 1 true
                               (negb (bool_decide (mac = v_mac_addr V))) false) in
      s ← ol_txrx_peer_find_hash_add s p;
      s ← ol_txrx_peer_state_update s mac OL_TXRX_PEER_STATE_DISC;
      s ← ol_txrx_local_peer_id_alloc s p;
      Some (s, Some p)
  end.
(** [wait] is what the other threads do to the device in the meantime, and
    whether the event was set in time. *)
Definition attach_timeout s (v : Z) : option pdevState := upd_vdev s v (λ V, V <| wait_on_peer_id := OL_TXRX_INVALID_LOCAL_PEER_ID |>).
Definition ol_txrx_peer_attach s (v : Z) (mac : list Z) (mem : option Z) (wait : pdevState → option (pdevState * bool))
    : option (pdevState * option Z) :=
  '(s, r) ← attach_scan s v mac;
  match r with
  | ScanExists => Some (s, None)
  | ScanGo => attach_new s v mac mem
  | ScanWait => '(s, done) ← wait s;
                if done : bool then attach_new s v mac mem else s ← attach_timeout s v; Some (s, None)
  end.

Definition ol_txrx_peer_detach s (p : Z) : option pdevState :=
  P ← peers s !! p;
  v ← vdev P;
  s ← upd_peer s p (λ P, P <| valid := false |> <| state := OL_TXRX_PEER_STATE_DISC |>);
  s ← ol_txrx_local_peer_id_free s p;
  V ← vdevs s !! v;
  let s := put_vdev s v (if bool_decide (last_real_peer V = Some p) then V <| last_real_peer := None |> else V) in
  s ← upd_peer s p (λ P, P <| delete_in_progress := 1 |> <| peer_unmap_timer := opmode_sta V || peer_unmap_timer P |>);
  unref s p.
Definition ol_txrx_peer_detach_force_delete s (p : Z) : option pdevState :=
  s ← ol_txrx_peer_remove_obj_map_entries s p; ol_txrx_peer_detach s p.

End ids.

(** ** The end of the device *)

Fixpoint erase_list s (l : list Z) : option pdevState :=
  match l with
  | [] => Some s
  | p :: l => s ← upd_peer s p (λ P, P <| ref_cnt := 1 |>); s ← unref s p; erase_list s l
  end.
Fixpoint erase_bins (idxs : list nat) s : option pdevState :=
  match idxs with
  | [] => Some s
  | i :: idxs => l ← bins s !! i; s ← erase_list s l; erase_bins idxs s
  end.
Definition ol_txrx_peer_find_hash_erase s : option pdevState := erase_bins (seq 0 (Z.to_nat (mask s + 1))) s.

(** ** The structure *)

(** The parts of a device that its structure is about. *)
Definition skeleton s := (peers s, vdevs s, bins s, mask s, idx_bits s, max_peer_id s, length (peer_id_to_obj_map s), vdev_list s).

(** The hash bin of an address. *)
Definition bin_of s (a : list Z) : nat := Z.to_nat (ol_txrx_peer_find_hash_index s a).

Section structure.
Context `{PeerConsts}.

(** The vdevs of the device's list are those that are not detached, each once,
    and only these have their timer and locks. *)
Definition vdevs_listed (l : list Z) (m : gmap Z ol_txrx_vdev_t) : Prop :=
  NoDup l ∧ (∀ v, v ∈ l ↔ ∃ V, m !! v = Some V ∧ ll_pause V = true) ∧ ∀ v V, m !! v = Some V → ll_pause V = negb (delete_pending V).

(** Every peer is in its hash bin and in the list of its vdev, and these hold
    nothing else; a vdev waits to be deleted only while it has peers. *)
Record peer_wf s : Prop := {
  w_max : 0 <= max_peer_id s;
  w_map_len : length (peer_id_to_obj_map s) = Z.to_nat (max_peer_id s + 1);
  w_mask : 0 <= mask s;
  w_bins_len : length (bins s) = Z.to_nat (mask s + 1);
  w_hash : ∀ i l, bins s !! i = Some l → NoDup l ∧ ∀ p, p ∈ l ↔ ∃ P, peers s !! p = Some P ∧ bin_of s (mac_addr P) = i;
  w_vdev : ∀ p P, peers s !! p = Some P → ∃ v V, vdev P = Some v ∧ vdevs s !! v = Some V ∧ p ∈ peer_list V;
  w_list : ∀ v V, vdevs s !! v = Some V → NoDup (peer_list V) ∧
    (∀ p, p ∈ peer_list V → ∃ P, peers s !! p = Some P ∧ vdev P = Some v) ∧ (delete_pending V = true → peer_list V ≠ []);
  w_ids : ∀ p P, peers s !! p = Some P → length (peer_ids P) = Z.to_nat MAX_NUM_PEER_ID_PER_PEER ∧
    Forall (λ id, id = HTT_INVALID_PEER ∨ 0 <= id <= max_peer_id s) (peer_ids P);
  w_attached : vdevs_listed (vdev_list s) (vdevs s);
}.

Lemma attached_insert l m v V V' :
  vdevs_listed l m → m !! v = Some V → ll_pause V' = ll_pause V → delete_pending V' = delete_pending V → vdevs_listed l (<[v := V']> m).
Proof.
  intros (Hnd & Hin & Hp) HV E1 E2. split; [done|]. split.
  - intros w. rewrite Hin. destruct (decide (v = w)) as [<-|Hne]; [|by rewrite lookup_insert_ne]. rewrite lookup_insert_eq, HV.
    split; intros (U & [= <-] & EU); eexists; (split; [done|congruence]).
  - intros w U. rewrite lookup_insert_Some. intros [[<- <-]|[_ HU]]; [rewrite E1, E2|]; by eapply Hp.
Qed.
Lemma attached_delete l m v : vdevs_listed l m → (∀ V, m !! v = Some V → delete_pending V = true) → vdevs_listed l (delete v m).
Proof.
  intros (Hnd & Hin & Hp) HV. split; [done|]. split.
  - intros w. rewrite Hin. destruct (decide (v = w)) as [<-|Hne]; [|by rewrite lookup_delete_ne]. rewrite lookup_delete_eq.
    split; [|by intros (U & ? & _)]. intros (U & HU & EU). specialize (Hp v U HU). rewrite (HV U HU), EU in Hp. done.
  - intros w U. rewrite lookup_delete_Some. intros [_ HU]. by eapply Hp.
Qed.
Lemma attached_new l m v V : vdevs_listed l m → m !! v = None → ll_pause V = true → delete_pending V = false →
  vdevs_listed (l ++ [v]) (<[v := V]> m).
Proof.
  intros (Hnd & Hin & Hp) HV E1 E2. split; [|split].
  - apply NoDup_app. split; [done|]. split; [|apply NoDup_singleton]. intros w Hw ->%list_elem_of_singleton.
    apply Hin in Hw as (U & HU & _). congruence.
  - intros w. rewrite elem_of_app, list_elem_of_singleton, Hin. destruct (decide (w = v)) as [->|Hne].
    + rewrite lookup_insert_eq. split; [|by right]. intros _. by exists V.
    + rewrite lookup_insert_ne by done. tauto.
  - intros w U. rewrite lookup_insert_Some. intros [[<- <-]|[_ HU]]; [by rewrite E1, E2|by eapply Hp].
Qed.
Lemma attached_detached l m v V : vdevs_listed l m → ll_pause V = false → delete_pending V = true →
  vdevs_listed (filter (.≠ v) l) (<[v := V]> m).
Proof.
  intros (Hnd & Hin & Hp) E1 E2. split; [by apply NoDup_filter|]. split.
  - intros w. rewrite list_elem_of_filter, Hin. destruct (decide (w = v)) as [->|Hne].
    + rewrite lookup_insert_eq. split; [by intros [? _]|]. intros (U & [= <-] & EU). congruence.
    + rewrite lookup_insert_ne by done. tauto.
  - intros w U. rewrite lookup_insert_Some. intros [[<- <-]|[_ HU]]; [by rewrite E1, E2|by eapply Hp].
Qed.

Lemma wf_ext s s' : skeleton s' = skeleton s → peer_wf s → peer_wf s'.
Proof.
  destruct s, s'. unfold skeleton. cbn. intros [= -> -> -> -> -> -> E ->] []. cbn in *. split; try done. cbn. congruence.
Qed.

Lemma hash_index_range s a : peer_wf s → (bin_of s a < length (bins s))%nat.
Proof.
  intros []. rewrite w_bins_len0. unfold bin_of, ol_txrx_peer_find_hash_index. set (x := Z.lxor _ _). clearbody x.
  assert (0 <= Z.land x (mask s) <= mask s) as Hr.
  { split; [apply Z.land_nonneg; lia|]. replace (mask s) with (Z.lor (Z.land x (mask s)) (Z.ldiff (mask s) x)) at 2.
    - rewrite <- Z.lxor_lor; [|apply Z.bits_inj'; intros n Hn; rewrite !Z.land_spec, Z.ldiff_spec, Z.bits_0; destruct (Z.testbit x n), (Z.testbit (mask s) n); done].
      rewrite <- Z.add_nocarry_lxor; [|apply Z.bits_inj'; intros n Hn; rewrite !Z.land_spec, Z.ldiff_spec, Z.bits_0; destruct (Z.testbit x n), (Z.testbit (mask s) n); done].
      assert (0 <= Z.ldiff (mask s) x) by (apply Z.ldiff_nonneg; lia). lia.
    - apply Z.bits_inj'. intros n Hn. rewrite Z.lor_spec, Z.land_spec, Z.ldiff_spec. destruct (Z.testbit x n), (Z.testbit (mask s) n); done. }
  lia.
Qed.

Lemma hash_bin_some s a : peer_wf s → ∃ l, hash_bin s a = Some l.
Proof. intros Hwf. apply lookup_lt_is_Some_2, hash_index_range, Hwf. Qed.

(** A peer record written back: address, vdev and ids stay good. *)
Lemma wf_put_peer s p P P' :
  peer_wf s → peers s !! p = Some P → mac_addr P' = mac_addr P → vdev P' = vdev P →
  length (peer_ids P') = Z.to_nat MAX_NUM_PEER_ID_PER_PEER ∧ Forall (λ id, id = HTT_INVALID_PEER ∨ 0 <= id <= max_peer_id s) (peer_ids P') →
  peer_wf (put_peer s p P').
Proof.
  intros [] HP Hm Hv Hids. split; try done; cbn.
  - intros i l Hl. destruct (w_hash0 i l Hl) as [Hnd Hin]. split; [done|]. intros q. rewrite Hin.
    change (bin_of (put_peer s p P')) with (bin_of s). split.
    + intros (Q & HQ & E). destruct (decide (p = q)) as [->|Hne]; [|exists Q; by rewrite lookup_insert_ne].
      exists P'. rewrite lookup_insert_eq, Hm. split; [done|]. congruence.
    + intros (Q & HQ & E). apply lookup_insert_Some in HQ as [[<- <-]|[Hne HQ]]; [exists P; by rewrite <- Hm|by exists Q].
  - intros q Q. rewrite lookup_insert_Some. intros [[<- <-]|[Hne HQ]]; [rewrite Hv; by apply w_vdev0|by apply w_vdev0].
  - intros v V HV. destruct (w_list0 v V HV) as (Hnd & Hin & Hp). split; [done|]. split; [|done]. intros q Hq.
    destruct (Hin q Hq) as (Q & HQ & E). destruct (decide (p = q)) as [->|Hne]; [|exists Q; by rewrite lookup_insert_ne].
    exists P'. rewrite lookup_insert_eq. split; [done|]. congruence.
  - intros q Q. rewrite lookup_insert_Some. intros [[<- <-]|[Hne HQ]]; [done|by apply (w_ids0 q)].
Qed.
(** The same when the ids do not change. *)
Lemma wf_put_peer_ids s p P P' :
  peer_wf s → peers s !! p = Some P → mac_addr P' = mac_addr P → vdev P' = vdev P → peer_ids P' = peer_ids P →
  peer_wf (put_peer s p P').
Proof. intros Hwf HP Hm Hv Hi. apply (wf_put_peer s p P); [done..|]. rewrite Hi. by apply (w_ids s Hwf p). Qed.

Lemma wf_put_vdev s v V V' :
  peer_wf s → vdevs s !! v = Some V → peer_list V' = peer_list V → delete_pending V' = delete_pending V → ll_pause V' = ll_pause V →
  peer_wf (put_vdev s v V').
Proof.
  intros [] HV Hl Hp Hpa. split; try done; cbn.
  - intros q Q HQ. destruct (w_vdev0 q Q HQ) as (w & W & Ew & HW & Hin). destruct (decide (v = w)) as [->|Hne].
    + exists w, V'. rewrite lookup_insert_eq, Hl. split; [done|]. split; [done|]. congruence.
    + exists w, W. by rewrite lookup_insert_ne.
  - intros w W. rewrite lookup_insert_Some. intros [[<- <-]|[Hne HW]]; [|by apply w_list0].
    rewrite Hl, Hp. by apply (w_list0 v V HV).
  - by apply (attached_insert _ _ v V).
Qed.

Lemma wf_entry s id e : peer_wf s → peer_wf (put_entry s id e).
Proof. apply wf_ext. unfold skeleton. cbn. by rewrite length_insert. Qed.

Lemma entry_some s id : peer_wf s → 0 <= id <= max_peer_id s → ∃ e, peer_id_entry s id = Some e.
Proof. intros [] Hid. apply lookup_lt_is_Some_2. rewrite w_map_len0. lia. Qed.

(** *** A peer is deleted *)

(** The vdev without the peer [p]. *)
Definition left_vdev V (p : Z) (w : Z) : ol_txrx_vdev_t := V <| peer_list ::= filter (.≠ p) |> <| wait_on_peer_id := w |>.

Lemma delete_peer_spec s p P v V peer_id :
  peer_wf s → peers s !! p = Some P → vdev P = Some v → vdevs s !! v = Some V →
  ∃ s' w, delete_peer s p v peer_id = Some s' ∧ peers s' = delete p (peers s) ∧
    vdevs s' = (if bool_decide (filter (.≠ p) (peer_list V) = []) && delete_pending V then delete v (vdevs s)
                else <[v := left_vdev V p w]> (vdevs s)) ∧
    (∀ i, bins s' !! i = filter (.≠ p) <$> bins s !! i) ∧
    peer_id_to_obj_map s' = (λ e, if bool_decide (id_peer e = Some p) then e <| id_peer := None |> else e) <$> peer_id_to_obj_map s ∧
    (mask s', idx_bits s', max_peer_id s', local_pool s', local_freelist s', local_map s', vdev_list s') =
    (mask s, idx_bits s, max_peer_id s, local_pool s, local_freelist s, local_map s, vdev_list s).
Proof.
  intros Hwf HP Hv HV. unfold delete_peer, ol_txrx_peer_find_hash_remove, upd_peer, upd_vdev. rewrite HP. cbn [mbind option_bind].
  destruct (hash_bin_some s (mac_addr P) Hwf) as [l Hl]. rewrite Hl. cbn [mbind option_bind].
  set (s1 := put_bin s (mac_addr P) (filter (.≠ p) l)).
  assert (∀ i, bins s1 !! i = filter (.≠ p) <$> bins s !! i) as Hbins.
  { intros i. cbn. fold (bin_of s (mac_addr P)). unfold hash_bin in Hl. fold (bin_of s (mac_addr P)) in Hl.
    destruct (decide (bin_of s (mac_addr P) = i)) as [<-|Hne].
    - rewrite list_lookup_insert_eq by (by eapply lookup_lt_Some). by rewrite Hl.
    - rewrite list_lookup_insert_ne by done. destruct (bins s !! i) as [l'|] eqn:E; [|done]. cbn. f_equal.
      destruct (w_hash s Hwf i l' E) as [_ Hin]. symmetry.
      assert (p ∉ l') as Hp by (rewrite Hin; intros (P' & HP' & Ei); congruence).
      clear - Hp. induction l' as [|q l' IH]; [done|]. apply not_elem_of_cons in Hp as [Hq Hp].
      rewrite filter_cons_True by congruence. f_equal. by apply IH. }
  assert (vdevs s1 !! v = Some V) as -> by done. cbn [mbind option_bind].
  set (V1 := V <| peer_list ::= filter (.≠ p) |>). set (s2 := put_vdev s1 v V1).
  assert (peers s2 !! p = Some P) as -> by done. cbn [mbind option_bind]. set (s3 := put_peer s2 p _).
  assert (vdevs s3 !! v = Some V1) as -> by apply lookup_insert_eq. cbn [mbind option_bind].
  set (s4 := if peer_id =? wait_on_peer_id V1 then _ else s3).
  set (w := if peer_id =? wait_on_peer_id V1 then OL_TXRX_INVALID_LOCAL_PEER_ID else wait_on_peer_id V).
  assert (s4 = s3 <| vdevs := <[v := left_vdev V p w]> (vdevs s) |> <| peer_events := peer_events s4 |>) as E4.
  { unfold s4, w. destruct (peer_id =? wait_on_peer_id V1).
    - assert (vdevs (put_vdev (emit s3 (WaitDone v)) v (V1 <| wait_on_peer_id := OL_TXRX_INVALID_LOCAL_PEER_ID |>)) =
        <[v := left_vdev V p OL_TXRX_INVALID_LOCAL_PEER_ID]> (vdevs s)) as <- by apply insert_insert_eq. done.
    - assert (left_vdev V p (wait_on_peer_id V) = V1) as -> by by destruct V. done. }
  assert (peers s4 = <[p := P <| delete_in_progress := 0 |>]> (peers s)) as Ep4 by (rewrite E4; done).
  rewrite Ep4, lookup_insert_eq. cbn [mbind option_bind]. change (peer_list V1) with (filter (.≠ p) (peer_list V)).
  change (delete_pending V1) with (delete_pending V). set (s5 := put_peer s4 p _).
  assert (peers s5 = <[p := P <| delete_in_progress := 0 |> <| peer_unmap_timer := false |>]> (peers s)) as Ep5
    by (cbn; by rewrite Ep4, insert_insert_eq).
  assert (delete p (peers s5) = delete p (peers s)) as Ed by (by rewrite Ep5, delete_insert_eq).
  assert (vdevs s5 = <[v := left_vdev V p w]> (vdevs s)) as Ev5 by (cbn; by rewrite E4).
  eexists _, w. split; [reflexivity|]. destruct (bool_decide _ && _); unfold emit, ol_txrx_peer_clear_map_peer; cbn;
    (split; [exact Ed|]); (split; [change (vdevs s4) with (vdevs s5); rewrite Ev5, ?delete_insert_eq; done|]); rewrite E4; by split_and!.
Qed.

Lemma delete_wf s s' p P v V w :
  peer_wf s → peers s !! p = Some P → vdev P = Some v → vdevs s !! v = Some V →
  peers s' = delete p (peers s) →
  vdevs s' = (if bool_decide (filter (.≠ p) (peer_list V) = []) && delete_pending V then delete v (vdevs s)
              else <[v := left_vdev V p w]> (vdevs s)) →
  (∀ i, bins s' !! i = filter (.≠ p) <$> bins s !! i) →
  length (peer_id_to_obj_map s') = length (peer_id_to_obj_map s) →
  (mask s', idx_bits s', max_peer_id s', vdev_list s') = (mask s, idx_bits s, max_peer_id s, vdev_list s) → peer_wf s'.
Proof.
  intros [] HP Hv HV Ep Ev Eb Em [= E1 E2 E3 E4].
  assert (∀ a, bin_of s' a = bin_of s a) as Ebin by (intros a; unfold bin_of, ol_txrx_peer_find_hash_index; by rewrite E1, E2).
  destruct (w_list0 v V HV) as (HndV & HinV & HpV).
  assert (∀ u U', vdevs s' !! u = Some U' → (u ≠ v ∧ vdevs s !! u = Some U') ∨
    (u = v ∧ U' = left_vdev V p w ∧ (delete_pending V = true → filter (.≠ p) (peer_list V) ≠ []))) as Hvd.
  { intros u U'. rewrite Ev. destruct (bool_decide _) eqn:Eb1; cbn [andb]; [destruct (delete_pending V)|].
    - rewrite lookup_delete_Some. intros [? ?]. left. split; congruence.
    - rewrite lookup_insert_Some. intros [[<- <-]|[Hne HU]]; [by right|by left].
    - apply bool_decide_eq_false_1 in Eb1. rewrite lookup_insert_Some. intros [[<- <-]|[Hne HU]]; [by right|by left]. }
  split.
  - by rewrite E3.
  - by rewrite Em, E3.
  - by rewrite E1.
  - rewrite E1, <- w_bins_len0. apply Nat.le_antisymm; apply Nat.le_ngt; intros Hlt.
    + apply lookup_lt_is_Some_2 in Hlt as [l Hl]. rewrite Eb in Hl. destruct (bins s !! length (bins s)) eqn:E; [|done].
      apply lookup_lt_Some in E. lia.
    + apply lookup_lt_is_Some_2 in Hlt as [l Hl]. specialize (Eb (length (bins s'))). rewrite Hl in Eb. cbn in Eb.
      apply lookup_lt_Some in Eb. lia.
  - intros i l. rewrite Eb. destruct (bins s !! i) as [l0|] eqn:Hl0; [|done]. intros [= <-].
    destruct (w_hash0 i l0 Hl0) as [Hnd Hin]. split; [by apply NoDup_filter|]. intros q.
    rewrite list_elem_of_filter, Hin, Ep. setoid_rewrite Ebin. split.
    + intros (Hq & Q & HQ & E). exists Q. by rewrite lookup_delete_ne.
    + intros (Q & HQ & E). apply lookup_delete_Some in HQ as [Hne HQ]. split; [done|by exists Q].
  - intros q Q. rewrite Ep, lookup_delete_Some. intros [Hne HQ]. destruct (w_vdev0 q Q HQ) as (u & U & Eu & HU & Hin).
    destruct (decide (u = v)) as [->|Hu].
    + rewrite HV in HU. injection HU as <-. assert (q ∈ filter (.≠ p) (peer_list V)) as Hq by (apply list_elem_of_filter; done).
      exists v, (left_vdev V p w). split; [done|]. split; [|done]. rewrite Ev.
      rewrite bool_decide_eq_false_2 by (intros E; rewrite E in Hq; by apply not_elem_of_nil in Hq). apply lookup_insert_eq.
    + exists u, U. split; [done|]. split; [|done]. rewrite Ev.
      destruct (_ && _); [by rewrite lookup_delete_ne|by rewrite lookup_insert_ne].
  - intros u U' HU'. destruct (Hvd u U' HU') as [[Hne HU]|(-> & -> & Hp)].
    + destruct (w_list0 u U' HU) as (Hnd & Hin & Hp). split; [done|]. split; [|done]. intros q Hq.
      destruct (Hin q Hq) as (Q & HQ & E). exists Q. rewrite Ep, lookup_delete_ne; [done|]. intros ->. congruence.
    + split; [by apply NoDup_filter|]. split; [|done]. intros q. cbn. rewrite list_elem_of_filter. intros [Hne Hq].
      destruct (HinV q Hq) as (Q & HQ & E). exists Q. by rewrite Ep, lookup_delete_ne.
  - intros q Q. rewrite Ep, lookup_delete_Some. intros [Hne HQ]. rewrite E3. by apply (w_ids0 q).
  - rewrite E4, Ev. destruct (_ && _) eqn:Eb1; [|by apply (attached_insert _ _ v V)].
    apply andb_prop in Eb1 as [_ Epe]. apply attached_delete; [done|]. intros U. rewrite HV. by intros [= <-].
Qed.

(** ** Counting references *)

Definition entry_refs e (p : Z) : Z := if decide (id_peer e = Some p) then peer_id_ref_cnt e else 0.
(** The references that the peer-id map holds to [p]. *)
Fixpoint map_refs (l : list ol_txrx_peer_id_map) (p : Z) : Z :=
  match l with [] => 0 | e :: l => entry_refs e p + map_refs l p end.
(** Those that callers hold. *)
Definition held (J : list Z) (p : Z) : Z := Z.of_nat (length (filter (.= p) J)).

Lemma map_refs_insert l i e e' p : l !! i = Some e → map_refs (<[i := e']> l) p = map_refs l p - entry_refs e p + entry_refs e' p.
Proof.
  revert i. induction l as [|e0 l IH]; intros i; [done|]. destruct i as [|i]; [cbn; intros [= ->]; lia|].
  intros Hl. change (<[S i := e']> (e0 :: l)) with (e0 :: <[i := e']> l). cbn [map_refs]. rewrite (IH i Hl). lia.
Qed.
Lemma map_refs_nonneg l p : (∀ e, e ∈ l → id_peer e = Some p → 0 <= peer_id_ref_cnt e) → 0 <= map_refs l p.
Proof.
  induction l as [|e l IH]; intros H0; cbn; [lia|]. unfold entry_refs at 1.
  assert (0 <= map_refs l p) by (apply IH; intros e' He'; apply H0; by constructor).
  destruct (decide _); [|lia]. specialize (H0 e ltac:(constructor) ltac:(done)). lia.
Qed.
Lemma map_refs_in l p i e :
  (∀ e, e ∈ l → id_peer e = Some p → 0 <= peer_id_ref_cnt e) → l !! i = Some e → entry_refs e p <= map_refs l p.
Proof.
  revert i. induction l as [|e0 l IH]; intros i H0; [done|].
  assert (∀ e, e ∈ l → id_peer e = Some p → 0 <= peer_id_ref_cnt e) as H1 by (intros e' He'; apply H0; by constructor).
  destruct i as [|i]; cbn.
  - intros [= ->]. pose proof (map_refs_nonneg l p H1). lia.
  - intros Hl. specialize (IH i H1 Hl). unfold entry_refs at 2. destruct (decide _); [|lia].
    specialize (H0 e0 ltac:(constructor) ltac:(done)). lia.
Qed.
Lemma map_refs_cleared l p q :
  q ≠ p → map_refs ((λ e, if bool_decide (id_peer e = Some p) then e <| id_peer := None |> else e) <$> l) q = map_refs l q.
Proof.
  intros Hne. induction l as [|e l IH]; [done|]. cbn [fmap list_fmap map_refs]. rewrite IH. f_equal. unfold entry_refs.
  destruct (bool_decide (id_peer e = Some p)) eqn:E; [|done]. apply bool_decide_eq_true_1 in E. cbn.
  rewrite E, !decide_False by congruence. done.
Qed.
Lemma held_cons q J p : held (q :: J) p = (if decide (q = p) then 1 else 0) + held J p.
Proof. unfold held. rewrite filter_cons. destruct (decide _); cbn; lia. Qed.
Lemma held_nonneg J p : 0 <= held J p.
Proof. unfold held. lia. Qed.
Lemma held_in J p : p ∈ J → 0 < held J p.
Proof.
  intros Hp. unfold held. assert (p ∈ filter (.= p) J) as Hf by by apply list_elem_of_filter.
  destruct (filter _ J); [by apply not_elem_of_nil in Hf|cbn; lia].
Qed.

(** Free local ids are linked in [pool]; the last entry marks the end. *)
Fixpoint free_ids (pool : list Z) (i : Z) (fl : list Z) : Prop :=
  match fl with
  | [] => i = OL_TXRX_NUM_LOCAL_PEER_IDS
  | j :: fl => i = j ∧ 0 <= j < OL_TXRX_NUM_LOCAL_PEER_IDS ∧ ∃ y, pool !! Z.to_nat j = Some y ∧ free_ids pool y fl
  end.

(** The local ids; [x] is a peer that has not got one yet. *)
Record local_ok s (x : option Z) : Prop := {
  l_pool : length (local_pool s) = Z.to_nat (OL_TXRX_NUM_LOCAL_PEER_IDS + 1);
  l_end : local_pool s !! Z.to_nat OL_TXRX_NUM_LOCAL_PEER_IDS = Some OL_TXRX_NUM_LOCAL_PEER_IDS;
  l_map : length (local_map s) = Z.to_nat OL_TXRX_NUM_LOCAL_PEER_IDS;
  l_free : ∃ fl, NoDup fl ∧ free_ids (local_pool s) (local_freelist s) fl ∧
    ∀ i p, 0 <= i < OL_TXRX_NUM_LOCAL_PEER_IDS → local_map s !! Z.to_nat i = Some (Some p) → i ∉ fl;
  l_used : ∀ i p, 0 <= i → local_map s !! Z.to_nat i = Some (Some p) →
    ∃ P, peers s !! p = Some P ∧ valid P = true ∧ local_id P = i ∧ Some p ≠ x;
  l_id : ∀ p P, peers s !! p = Some P → valid P = true → Some p ≠ x → local_id P ≠ OL_TXRX_INVALID_LOCAL_PEER_ID →
    0 <= local_id P < OL_TXRX_NUM_LOCAL_PEER_IDS ∧ local_map s !! Z.to_nat (local_id P) = Some (Some p);
}.

(** The reference counts, with the references [J] of callers. *)
Record peer_refs s (J : list Z) : Prop := {
  r_cnt : ∀ p P, peers s !! p = Some P →
    ref_cnt P = b2z (valid P) + fw_create_pending P + map_refs (peer_id_to_obj_map s) p + held J p ∧
    0 < ref_cnt P ∧ (fw_create_pending P = 0 ∨ fw_create_pending P = 1);
  r_held : ∀ p, p ∈ J → is_Some (peers s !! p);
  r_map : ∀ i e, peer_id_to_obj_map s !! i = Some e → 0 <= del_peer_id_ref_cnt e ∧
    ∀ p, id_peer e = Some p → 0 < peer_id_ref_cnt e ∧ is_Some (peers s !! p);
  r_last : ∀ v V p, vdevs s !! v = Some V → last_real_peer V = Some p →
    ∃ P, peers s !! p = Some P ∧ valid P = true ∧ vdev P = Some v;
}.

Record peer_inv s (J : list Z) (x : option Z) : Prop := {
  pi_wf : peer_wf s;
  pi_refs : peer_refs s J;
  pi_local : local_ok s x;
}.

(** *** Steps that keep the parts of the invariant *)

Lemma refs_ext s s' J :
  peers s' = peers s → peer_id_to_obj_map s' = peer_id_to_obj_map s →
  (∀ v V' p, vdevs s' !! v = Some V' → last_real_peer V' = Some p → ∃ V, vdevs s !! v = Some V ∧ last_real_peer V = Some p) →
  peer_refs s J → peer_refs s' J.
Proof.
  intros Ep Em Hv []. split; rewrite ?Ep, ?Em; try done. intros v V' p HV Hl. destruct (Hv v V' p HV Hl) as (V & HV0 & Hl0).
  by apply (r_last0 v V).
Qed.
Lemma local_ext s s' x :
  peers s' = peers s → (local_pool s', local_freelist s', local_map s') = (local_pool s, local_freelist s, local_map s) →
  local_ok s x → local_ok s' x.
Proof. intros Ep [= E1 E2 E3] []. split; rewrite ?Ep, ?E1, ?E2, ?E3; done. Qed.
Lemma local_put s x p P P' :
  local_ok s x → peers s !! p = Some P → valid P' = valid P → local_id P' = local_id P → local_ok (put_peer s p P') x.
Proof.
  intros [] HP Hv Hi. split; try done; cbn.
  - intros i q H1 H2. destruct (l_used0 i q H1 H2) as (Q & HQ & E1 & E2 & E3). destruct (decide (p = q)) as [->|Hne].
    + exists P'. rewrite lookup_insert_eq, Hv, Hi. assert (Q = P) as -> by congruence. done.
    + exists Q. by rewrite lookup_insert_ne.
  - intros q Q. rewrite lookup_insert_Some. intros [[<- <-]|[Hne HQ]]; [rewrite Hv, Hi; by apply l_id0|by apply l_id0].
Qed.

Lemma refs_put s J J' p P P' :
  peer_refs s J → peers s !! p = Some P → vdev P' = vdev P →
  (valid P' = valid P ∨ ∀ v V, vdevs s !! v = Some V → last_real_peer V ≠ Some p) →
  (∀ q, q ≠ p → held J' q = held J q) → (∀ q, q ∈ J' → q ∈ p :: J) →
  ref_cnt P' = b2z (valid P') + fw_create_pending P' + map_refs (peer_id_to_obj_map s) p + held J' p →
  0 < ref_cnt P' → (fw_create_pending P' = 0 ∨ fw_create_pending P' = 1) → peer_refs (put_peer s p P') J'.
Proof.
  intros [] HP Hvd Hva HJ Hsub Hr Hpos Hfw.
  assert (∀ q, is_Some (peers s !! q) → is_Some (<[p := P']> (peers s) !! q)) as Hk.
  { intros q Hq. rewrite lookup_insert_is_Some. destruct (decide (p = q)); [by left|by right]. }
  split; cbn.
  - intros q Q. rewrite lookup_insert_Some. intros [[<- <-]|[Hne HQ]]; [done|]. rewrite HJ by done. by apply r_cnt0.
  - intros q Hq. apply Hk. apply Hsub, elem_of_cons in Hq as [->|Hq]; [by exists P|by apply r_held0].
  - intros i e He. destruct (r_map0 i e He) as [H1 H2]. split; [done|]. intros q Hq. destruct (H2 q Hq). split; [done|by apply Hk].
  - intros v V q HV Hl. destruct (r_last0 v V q HV Hl) as (Q & HQ & E1 & E2). destruct (decide (p = q)) as [->|Hne].
    + exists P'. rewrite lookup_insert_eq, Hvd. assert (Q = P) as -> by congruence. split; [done|]. split; [|done].
      destruct Hva as [->|Hva]; [done|]. by destruct (Hva v V HV).
    + exists Q. by rewrite lookup_insert_ne.
Qed.

Lemma refs_entry s J J' id e e' :
  peer_refs s J → peer_id_entry s id = Some e → (∀ q, entry_refs e' q + held J' q = entry_refs e q + held J q) →
  (∀ q, q ∈ J' → is_Some (peers s !! q)) → 0 <= del_peer_id_ref_cnt e' →
  (∀ q, id_peer e' = Some q → 0 < peer_id_ref_cnt e' ∧ is_Some (peers s !! q)) → peer_refs (put_entry s id e') J'.
Proof.
  intros [] He Hq HJ Hd Hp. split; try done; cbn.
  - intros q Q HQ. destruct (r_cnt0 q Q HQ) as (Hr & Hpos & Hfw). split; [|done].
    rewrite (map_refs_insert _ _ e _ q He), Hr. specialize (Hq q). lia.
  - intros i e0 Hi. destruct (decide (i = Z.to_nat id)) as [->|Hne].
    + rewrite list_lookup_insert_eq in Hi by (by eapply lookup_lt_Some). by injection Hi as <-.
    + rewrite list_lookup_insert_ne in Hi by done. by apply (r_map0 i).
Qed.

(** The entries that a peer without references from the map does not have. *)
Lemma no_entries s J p : peer_refs s J → map_refs (peer_id_to_obj_map s) p = 0 →
  ∀ i e, peer_id_to_obj_map s !! i = Some e → id_peer e ≠ Some p.
Proof.
  intros [] H0 i e He E. destruct (r_map0 i e He) as [_ Hp]. destruct (Hp p E) as [Hpos _].
  pose proof (map_refs_in (peer_id_to_obj_map s) p i e) as Hle. unfold entry_refs in Hle. rewrite decide_True in Hle by done.
  assert (peer_id_ref_cnt e <= 0); [|lia]. rewrite <- H0. apply Hle; [|done]. intros e' He' E'.
  apply list_elem_of_lookup in He' as [k Hk]. destruct (r_map0 k e' Hk) as [_ Hp']. destruct (Hp' p E'). lia.
Qed.

(** *** Dropping a reference *)

Lemma unref_inv s J x p P :
  peer_inv s (p :: J) x → peers s !! p = Some P →
  ∃ s', ol_txrx_peer_unref_delete s p = Some (s', ref_cnt P - 1) ∧ peer_inv s' J x ∧
    (if ref_cnt P =? 1
     then valid P = false ∧ peers s' = delete p (peers s) ∧ peer_id_to_obj_map s' = peer_id_to_obj_map s ∧
          max_peer_id s' = max_peer_id s
     else s' = put_peer s p (P <| ref_cnt := ref_cnt P - 1 |>)).
Proof.
  intros [Hwf Hrefs Hloc] HP. destruct (w_vdev s Hwf p P HP) as (v & V & Hv & HV & Hin).
  pose proof Hrefs as []. destruct (r_cnt0 p P HP) as (Hr & Hpos & Hfw).
  unfold ol_txrx_peer_unref_delete. rewrite HP. cbn [mbind option_bind]. rewrite Hv, HV. cbn [mbind option_bind].
  destruct (Z.eqb_spec (ref_cnt P) 0); [lia|]. rewrite held_cons, decide_True in Hr by done.
  set (P1 := P <| ref_cnt := ref_cnt P - 1 |>). set (s1 := put_peer s p P1).
  assert (peer_wf s1) as Hwf1 by (by apply (wf_put_peer_ids s p P)).
  destruct (Z.eqb_spec (ref_cnt P - 1) 0) as [E|E]; cbn [negb].
  - destruct (Z.eqb_spec (ref_cnt P) 1) as [Ei1|]; [|lia].
    assert (map_refs (peer_id_to_obj_map s) p = 0 ∧ valid P = false ∧ held J p = 0) as (Hm & Hval & Hh).
    { pose proof (held_nonneg J p). assert (0 <= map_refs (peer_id_to_obj_map s) p).
      { apply map_refs_nonneg. intros e [i He]%list_elem_of_lookup Ee. destruct (r_map0 i e He) as [_ H2]. destruct (H2 p Ee). lia. }
      destruct (valid P); cbn in Hr; [lia|]. split_and!; [lia|done|lia]. }
    destruct (delete_peer_spec s1 p P1 v V (local_id P) Hwf1 (lookup_insert_eq _ _ _) Hv HV)
      as (s2 & w & E2 & Ep & Ev & Eb & Em & Eo). rewrite E2. cbn [mbind option_bind]. exists s2. split; [done|].
    injection Eo as O1 O2 O3 O4 O5 O6 O7.
    assert (peers s2 = delete p (peers s)) as Ep' by (rewrite Ep; apply delete_insert_eq).
    assert (peer_id_to_obj_map s2 = peer_id_to_obj_map s) as Em'.
    { rewrite Em. change (peer_id_to_obj_map s1) with (peer_id_to_obj_map s). apply list_eq. intros i. rewrite list_lookup_fmap.
      destruct (peer_id_to_obj_map s !! i) as [e|] eqn:He; [|done]. cbn. f_equal. rewrite bool_decide_eq_false_2; [done|].
      by apply (no_entries s (p :: J) p Hrefs Hm i). }
    split; [split|done].
    + apply (delete_wf s1 s2 p P1 v V w Hwf1 (lookup_insert_eq _ _ _) Hv HV Ep Ev Eb); [by rewrite Em, length_fmap|by rewrite O1, O2, O3, O7].
    + split; rewrite ?Em'.
      * intros q Q. rewrite Ep', lookup_delete_Some. intros [Hne HQ]. destruct (r_cnt0 q Q HQ) as (Hrq & ? & ?). split; [|done].
        rewrite Hrq, held_cons, decide_False by congruence. lia.
      * intros q Hq. rewrite Ep', lookup_delete_is_Some. split; [|apply r_held0; by constructor].
        intros ->. apply held_in in Hq. lia.
      * intros i e He. destruct (r_map0 i e He) as [H1 H2]. split; [done|]. intros q Hq. destruct (H2 q Hq) as [H3 H4].
        split; [done|]. rewrite Ep', lookup_delete_is_Some. split; [|done]. intros Epq. subst q.
        by apply (no_entries s (p :: J) p Hrefs Hm i e).
      * intros u U q HU Hl. assert (∃ U0, vdevs s !! u = Some U0 ∧ last_real_peer U0 = Some q) as (U0 & HU0 & Hl0).
        { rewrite Ev in HU. destruct (_ && _); [apply lookup_delete_Some in HU as [_ HU]; by exists U|].
          apply lookup_insert_Some in HU as [[<- <-]|[_ HU]]; [by exists V|by exists U]. }
        destruct (r_last0 u U0 q HU0 Hl0) as (Q & HQ & E1 & E3). exists Q. rewrite Ep', lookup_delete_ne; [done|]. intros ->. congruence.
    + destruct Hloc. split; rewrite ?O4, ?O5, ?O6; try done.
      * intros i q H1 H2. destruct (l_used0 i q H1 H2) as (Q & HQ & E1 & E3 & E4). exists Q. split; [|done].
        rewrite Ep', lookup_delete_ne; [done|]. intros ->. congruence.
      * intros q Q. rewrite Ep', lookup_delete_Some. intros [Hne HQ]. by apply l_id0.
  - destruct (Z.eqb_spec (ref_cnt P) 1) as [|En1]; [lia|]. exists s1. split; [done|]. split; [split; [done| |]|done].
    + apply (refs_put s (p :: J) J p P P1); try done.
      * by left.
      * intros q Hq. rewrite held_cons, decide_False by congruence. lia.
      * intros q Hq. by do 2 constructor.
      * cbn. lia.
      * cbn. lia.
    + by apply (local_put s x p P).
Qed.

(** *** Lookups *)

Lemma find_in_spec s f l :
  (∀ p, p ∈ l → is_Some (peers s !! p)) →
  ∃ r, find_in s f l = Some r ∧
    match r with
    | None => ∀ p P, p ∈ l → peers s !! p = Some P → f P = false
    | Some p => p ∈ l ∧ ∃ P, peers s !! p = Some P ∧ f P = true
    end.
Proof.
  induction l as [|p l IH]; intros Hl; [exists None; split; [done|]; by intros p P ?%not_elem_of_nil|].
  destruct (Hl p) as [P HP]; [by constructor|]. cbn [find_in]. rewrite HP. cbn [mbind option_bind]. destruct (f P) eqn:Ef.
  - exists (Some p). split; [done|]. split; [constructor|by exists P].
  - destruct IH as (r & -> & Hr); [intros q Hq; apply Hl; by constructor|]. exists r. split; [done|]. destruct r as [q|].
    + destruct Hr as [Hin Hq]. split; [by constructor|done].
    + intros q Q [->|Hq]%elem_of_cons HQ; [congruence|by apply (Hr q)].
Qed.

(** A reference is taken. *)
Lemma take_ref s J x p P :
  peer_inv s J x → peers s !! p = Some P → peer_inv (put_peer s p (P <| ref_cnt ::= λ n, n + 1 |>)) (p :: J) x.
Proof.
  intros [Hwf Hrefs Hloc] HP. destruct (r_cnt s J Hrefs p P HP) as (Hr & Hpos & Hfw). split.
  - by apply (wf_put_peer_ids s p P).
  - apply (refs_put s J (p :: J) p P); try done.
    + by left.
    + intros q Hq. rewrite held_cons, decide_False by congruence. lia.
    + rewrite held_cons, decide_True by done. cbn. lia.
    + cbn. lia.
  - by apply (local_put s x p P).
Qed.

Lemma find_inc_inv s J x mac f :
  peer_inv s J x →
  ∃ s' r, find_inc_ref s mac f = Some (s', r) ∧
    match r with
    | None => s' = s ∧ ∀ p P, peers s !! p = Some P → bin_of s (mac_addr P) = bin_of s mac → f P = false
    | Some p => ∃ P, peers s !! p = Some P ∧ f P = true ∧ s' = put_peer s p (P <| ref_cnt ::= λ n, n + 1 |>) ∧ peer_inv s' (p :: J) x
    end.
Proof.
  intros Hinv. pose proof (pi_wf _ _ _ Hinv) as Hwf. unfold find_inc_ref. destruct (hash_bin_some s mac Hwf) as [l Hl].
  rewrite Hl. cbn [mbind option_bind]. destruct (w_hash s Hwf _ _ Hl) as [_ Hin].
  destruct (find_in_spec s f l) as (r & -> & Hr); [intros p Hp; apply Hin in Hp as (P & HP & _); by exists P|]. cbn [mbind option_bind].
  destruct r as [p|].
  - destruct Hr as (_ & P & HP & Hf). unfold change_ref_cnt, upd_peer. rewrite HP. cbn [mbind option_bind].
    eexists _, (Some p). split; [reflexivity|]. exists P. split; [done|]. split; [done|]. split; [done|]. by apply take_ref.
  - exists s, None. split; [done|]. split; [done|]. intros p P HP E. apply (Hr p); [|done]. apply Hin. by exists P.
Qed.

(** Only the state of peers changes. *)
Definition same_but_state s s' : Prop :=
  (∀ q Q, peers s !! q = Some Q → ∃ Q', peers s' !! q = Some Q' ∧ Q' = Q <| state := state Q' |>) ∧
  vdevs s' = vdevs s.

Lemma state_update_inv s J x mac st :
  peer_inv s J x → ∃ s', ol_txrx_peer_state_update s mac st = Some s' ∧ peer_inv s' J x ∧ same_but_state s s'.
Proof.
  intros Hinv. unfold ol_txrx_peer_state_update, ol_txrx_peer_find_hash_find_inc_ref.
  match goal with |- context [find_inc_ref s mac ?f] => destruct (find_inc_inv s J x mac f Hinv) as (s1 & r & E1 & Hr) end.
  rewrite E1. cbn [mbind option_bind]. destruct r as [p|]; cycle 1.
  { destruct Hr as [-> _]. exists s. split; [done|]. split; [done|]. split; [|done]. intros q Q HQ. exists Q. split; [done|]. by destruct Q. }
  destruct Hr as (P & HP & Hf & -> & Hinv1). set (P1 := P <| ref_cnt ::= λ n, n + 1 |>) in *. set (s1 := put_peer s p P1) in *.
  assert (peers s1 !! p = Some P1) as HP1 by apply lookup_insert_eq. rewrite HP1. cbn [mbind option_bind].
  destruct (r_cnt s J (pi_refs _ _ _ Hinv) p P HP) as (_ & Hpos & _).
  destruct (unref_inv s1 J x p P1 Hinv1 HP1) as (s2 & E2 & Hinv2 & Hs2). assert (ref_cnt P1 = ref_cnt P + 1) as Er by done.
  destruct (Z.eqb_spec (ref_cnt P1) 1) as [|_]; [lia|]. rewrite Er in *.
  assert (P1 <| ref_cnt := ref_cnt P + 1 - 1 |> = P) as EP
    by (replace (ref_cnt P + 1 - 1) with (ref_cnt P) by lia; by destruct P).
  rewrite EP in Hs2. assert (peers s2 = peers s) as Ep2 by (rewrite Hs2; cbn; rewrite insert_insert_eq; by apply insert_id).
  unfold unref. rewrite E2. cbn [fmap option_fmap option_map mbind option_bind fst].
  destruct (Z.eqb_spec (state P1) st) as [Est|Est].
  - exists s2. split; [done|]. split; [done|]. split; [|by rewrite Hs2]. intros q Q HQ. exists Q. rewrite Ep2. split; [done|]. by destruct Q.
  - destruct (Z.ltb_spec 0 (ref_cnt P + 1 - 1)); [|lia]. unfold upd_peer. rewrite Ep2, HP. cbn [mbind option_bind].
    eexists. split; [reflexivity|]. split; [|split].
    + destruct Hinv2 as [Hwf2 Hrefs2 Hloc2]. rewrite <- Ep2 in HP. destruct (r_cnt _ _ Hrefs2 p P HP) as (Hr & ? & ?).
      split; [by apply (wf_put_peer_ids s2 p P)|apply (refs_put s2 J J p P); try done; [by left|intros q Hq; by constructor]|by apply (local_put s2 x p P)].
    + intros q Q HQ. cbn. rewrite Ep2. destruct (decide (p = q)) as [->|Hne].
      * rewrite lookup_insert_eq. eexists. split; [done|]. assert (Q = P) as -> by congruence. by destruct P.
      * rewrite lookup_insert_ne by done. exists Q. split; [done|]. by destruct Q.
    + by rewrite Hs2.
Qed.

(** *** The firmware maps and unmaps peer ids *)

Lemma replace_first_spec old new l l' : replace_first old new l = Some l' →
  length l' = length l ∧ ∀ x, x ∈ l' → x = new ∨ x ∈ l.
Proof.
  revert l'. induction l as [|y l IH]; intros l'; [done|]. cbn. destruct (Z.eqb_spec y old) as [E|E].
  - intros [= <-]. split; [done|]. intros x [->|Hx]%elem_of_cons; [by left|right; by constructor].
  - destruct (replace_first old new l) as [l0|]; [|done]. intros [= <-]. destruct (IH l0 eq_refl) as [H1 H2]. split; [cbn; by rewrite H1|].
    intros x [->|Hx]%elem_of_cons; [right; constructor|]. destruct (H2 x Hx); [by left|right; by constructor].
Qed.

(** The ids stay within the map when one is replaced. *)
Lemma ids_replace m old new l l' :
  length l = Z.to_nat MAX_NUM_PEER_ID_PER_PEER ∧ Forall (λ id, id = HTT_INVALID_PEER ∨ 0 <= id <= m) l →
  (new = HTT_INVALID_PEER ∨ 0 <= new <= m) → replace_first old new l = Some l' →
  length l' = Z.to_nat MAX_NUM_PEER_ID_PER_PEER ∧ Forall (λ id, id = HTT_INVALID_PEER ∨ 0 <= id <= m) l'.
Proof.
  intros [H1 H2] Hn (H3 & H4)%replace_first_spec. split; [congruence|]. apply Forall_forall. intros x Hx.
  rewrite Forall_forall in H2. destruct (H4 x Hx) as [->|Hx']; [done|by apply H2].
Qed.

(** The ids of a peer rewritten. *)
Lemma put_ids_inv s J x p P ids :
  peer_inv s J x → peers s !! p = Some P →
  length ids = Z.to_nat MAX_NUM_PEER_ID_PER_PEER ∧ Forall (λ id, id = HTT_INVALID_PEER ∨ 0 <= id <= max_peer_id s) ids →
  peer_inv (put_peer s p (P <| peer_ids := ids |>)) J x.
Proof.
  intros [Hwf Hrefs Hloc] HP Hids. destruct (r_cnt _ _ Hrefs p P HP) as (Hr & Hpos & Hfw). split.
  - by apply (wf_put_peer s p P).
  - apply (refs_put s J J p P); try done; [by left|]. intros q Hq. by constructor.
  - by apply (local_put s x p P).
Qed.
Lemma put_entry_inv s J J' x id e e' :
  peer_inv s J x → peer_id_entry s id = Some e → (∀ q, entry_refs e' q + held J' q = entry_refs e q + held J q) →
  (∀ q, q ∈ J' → is_Some (peers s !! q)) → 0 <= del_peer_id_ref_cnt e' →
  (∀ q, id_peer e' = Some q → 0 < peer_id_ref_cnt e' ∧ is_Some (peers s !! q)) → peer_inv (put_entry s id e') J' x.
Proof.
  intros [Hwf Hrefs Hloc] He H1 H2 H3 H4. split; [by apply wf_entry|by eapply refs_entry|by apply (local_ext s)].
Qed.
Lemma emit_inv s J x ev : peer_inv s J x → peer_inv (emit s ev) J x.
Proof.
  intros [Hwf Hrefs Hloc]. split; [by apply (wf_ext s)|apply (refs_ext s); [done..| |done]|by apply (local_ext s)].
  intros v V p HV Hl. by exists V.
Qed.

(** The creation of the peer is no longer pending. *)
Lemma created_inv s J x p P :
  peer_inv s J x → peers s !! p = Some P → fw_create_pending P = 1 →
  peer_inv (put_peer s p (P <| fw_create_pending := 0 |>)) (p :: J) x.
Proof.
  intros [Hwf Hrefs Hloc] HP Hf. destruct (r_cnt _ _ Hrefs p P HP) as (Hr & Hpos & Hfw). split.
  - by apply (wf_put_peer_ids s p P).
  - apply (refs_put s J (p :: J) p P); try done; [by left| | |by left].
    + intros q Hq. rewrite held_cons, decide_False by congruence. lia.
    + rewrite held_cons, decide_True by done. cbn. lia.
  - by apply (local_put s x p P).
Qed.

(** A peer with an entry in the map keeps a reference from it. *)
Lemma mapped_refs s J p id e :
  peer_refs s J → peer_id_entry s id = Some e → id_peer e = Some p → 1 <= map_refs (peer_id_to_obj_map s) p.
Proof.
  intros [] He Ep. destruct (r_map0 _ _ He) as [_ Hpos]. destruct (Hpos p Ep) as [Hpos1 _].
  pose proof (map_refs_in (peer_id_to_obj_map s) p (Z.to_nat id) e) as Hle. unfold entry_refs in Hle.
  rewrite decide_True in Hle by done. assert (peer_id_ref_cnt e <= map_refs (peer_id_to_obj_map s) p); [|lia]. apply Hle; [|done].
  intros e' [k Hk]%list_elem_of_lookup E'. destruct (r_map0 k e' Hk) as [_ Hp']. destruct (Hp' p E'). lia.
Qed.

Definition mapped_entry e (p : Z) : ol_txrx_peer_id_map :=
  (match id_peer e with None => e <| id_peer := Some p |> <| peer_id_ref_cnt := 0 |> | Some _ => e end) <| peer_id_ref_cnt ::= Z.succ |>.
Lemma mapped_entry_refs e p q : id_peer e = None ∨ id_peer e = Some p →
  id_peer (mapped_entry e p) = Some p ∧ del_peer_id_ref_cnt (mapped_entry e p) = del_peer_id_ref_cnt e ∧
  entry_refs (mapped_entry e p) q = entry_refs e q + (if decide (p = q) then 1 else 0).
Proof.
  unfold mapped_entry, entry_refs. intros [E|E]; rewrite E; cbn; (split; [done|]); (split; [done|]);
    rewrite ?E; destruct (decide (p = q)) as [->|Hne]; rewrite ?decide_True, ?decide_False by congruence; lia.
Qed.

Lemma map_handler_inv s J id mac vdev_id tx_ready :
  peer_inv s J None → id ≠ HTT_INVALID_PEER →
  (∀ p s1, ol_txrx_peer_find_hash_find_inc_ref s mac false = Some (s1, Some p) →
     0 <= id <= max_peer_id s ∧ ∀ e, peer_id_entry s id = Some e → id_peer e = None ∨ id_peer e = Some p) →
  ∃ s', ol_rx_peer_map_handler s id vdev_id mac tx_ready = Some s' ∧ peer_inv s' J None ∧ max_peer_id s' = max_peer_id s ∧
    (s' = s ∨ ∃ p P e, peers s !! p = Some P ∧ ol_txrx_peer_find_mac_addr_cmp mac (mac_addr P) = false ∧ peer_id_entry s id = Some e ∧
       peer_id_to_obj_map s' = <[Z.to_nat id := mapped_entry e p]> (peer_id_to_obj_map s)).
Proof.
  intros Hinv Hid Hleg. unfold ol_rx_peer_map_handler, ol_txrx_peer_find_add_id, ol_txrx_peer_find_hash_find_inc_ref in *.
  match goal with |- context [find_inc_ref s mac ?f] => destruct (find_inc_inv s J None mac f Hinv) as (s1 & r & E1 & Hr) end.
  rewrite E1 in *. cbn [mbind option_bind]. destruct r as [p|]; [|exists s; destruct Hr as [-> _]; split_and!; auto].
  destruct Hr as (P & HP & Hf & -> & Hinv1). destruct (Hleg p _ eq_refl) as [Hrange He]. clear Hleg.
  destruct (Z.eqb_spec id HTT_INVALID_PEER) as [|_]; [done|]. set (P1 := P <| ref_cnt ::= λ n, n + 1 |>) in *. set (s1 := put_peer s p P1) in *.
  assert (ol_txrx_peer_find_mac_addr_cmp mac (mac_addr P) = false) as Hmac by (apply andb_true_iff in Hf as [Hf _]; by apply negb_true_iff).
  destruct (entry_some s id (pi_wf _ _ _ Hinv) Hrange) as [e Hentry]. specialize (He e Hentry).
  assert (peer_id_entry s1 id = Some e) as -> by done. cbn [mbind option_bind]. fold (mapped_entry e p). set (e2 := mapped_entry e p).
  set (s2 := put_entry s1 id e2).
  destruct (mapped_entry_refs e p p He) as (Ee1 & Ee2 & _). fold e2 in Ee1, Ee2.
  assert (peers s1 !! p = Some P1) as HP1 by apply lookup_insert_eq.
  destruct (r_map s J (pi_refs _ _ _ Hinv) _ _ Hentry) as [Hdel Hepos].
  assert (0 < peer_id_ref_cnt e2) as He2pos.
  { unfold e2, mapped_entry. destruct He as [E|E]; rewrite E; cbn; [lia|]. destruct (Hepos p E). lia. }
  assert (peer_inv s2 J None) as Hinv2.
  { apply (put_entry_inv s1 (p :: J) J None id e); [done|done| | |by rewrite Ee2|].
    - intros q. rewrite held_cons. unfold e2. rewrite (proj2 (proj2 (mapped_entry_refs e p q He))). lia.
    - intros q Hq. apply (r_held _ _ (pi_refs _ _ _ Hinv1)). by constructor.
    - intros q. rewrite Ee1. intros [= <-]. split; [done|]. by exists P1. }
  assert (peers s2 !! p = Some P1) as HP2 by done. rewrite HP2. cbn [mbind option_bind].
  assert (∃ s3 st P3, (match replace_first HTT_INVALID_PEER id (peer_ids P1) with
                       | Some l => (put_peer s2 p (P1 <| peer_ids := l |>), false) | None => (s2, true) end) = (s3, st) ∧
    peer_inv s3 J None ∧ peers s3 !! p = Some P3 ∧ fw_create_pending P3 = fw_create_pending P1 ∧
    peer_id_to_obj_map s3 = peer_id_to_obj_map s2 ∧ max_peer_id s3 = max_peer_id s)
    as (s3 & st & P3 & -> & Hinv3 & HP3 & Hfw3 & Em3 & Emax).
  { destruct (replace_first HTT_INVALID_PEER id (peer_ids P1)) as [l|] eqn:El; [|by exists s2, true, P1].
    eexists _, false, _. split; [reflexivity|]. split; [|split; [apply lookup_insert_eq|done]].
    apply put_ids_inv; [done|done|]. eapply ids_replace; [by apply (w_ids s2 (pi_wf _ _ _ Hinv2) p)| |exact El]. by right. }
  assert (peer_id_entry s2 id = Some e2) as He2 by (apply list_lookup_insert_eq; by eapply lookup_lt_Some).
  assert (∃ s4, (if fw_create_pending P1 =? 1
                 then s ← upd_peer s3 p (λ P, P <| fw_create_pending := 0 |>); unref s p else Some s3) = Some s4 ∧
    peer_inv s4 J None ∧ peer_id_to_obj_map s4 = peer_id_to_obj_map s2 ∧ max_peer_id s4 = max_peer_id s) as (s4 & -> & Hinv4 & Em4 & Emax4).
  { destruct (Z.eqb_spec (fw_create_pending P1) 1) as [Efw|]; [|by exists s3]. unfold upd_peer. rewrite HP3. cbn [mbind option_bind].
    pose proof (created_inv s3 J None p P3 Hinv3 HP3 ltac:(congruence)) as Hinv4. set (s4 := put_peer s3 p _) in *.
    destruct (unref_inv s4 J None p _ Hinv4 (lookup_insert_eq _ _ _)) as (s5 & E5 & Hinv5 & H5). unfold unref. rewrite E5.
    exists s5. split; [done|]. split; [done|]. destruct (_ =? 1); [destruct H5 as (_ & _ & H5 & H6); by rewrite H5, H6|by rewrite H5]. }
  cbn [mbind option_bind]. exists (if st then emit s4 Asserted else s4). split; [by destruct st|].
  split; [destruct st; [by apply emit_inv|done]|]. split; [by destruct st|]. right. exists p, P, e. do 3 (split; [done|]).
  transitivity (peer_id_to_obj_map s4); [by destruct st|]. by rewrite Em4.
Qed.

Lemma unmap_handler_inv s J id :
  peer_inv s J None → id = HTT_INVALID_PEER ∨ 0 <= id <= max_peer_id s →
  ∃ s', ol_rx_peer_unmap_handler s id = Some s' ∧ peer_inv s' J None ∧
    ∀ e, id ≠ HTT_INVALID_PEER → peer_id_entry s id = Some e → 0 < del_peer_id_ref_cnt e →
      s' = put_entry s id (e <| del_peer_id_ref_cnt ::= Z.pred |>).
Proof.
  intros Hinv Hid. unfold ol_rx_peer_unmap_handler. destruct (Z.eqb_spec id HTT_INVALID_PEER) as [|Hne]; [by exists s|].
  destruct Hid as [|Hid]; [done|]. destruct (entry_some s id (pi_wf _ _ _ Hinv) Hid) as [e He]. rewrite He. cbn [mbind option_bind].
  destruct (r_map s J (pi_refs _ _ _ Hinv) _ _ He) as [Hdel Hepos].
  destruct (Z.eqb_spec (del_peer_id_ref_cnt e) 0) as [E0|E0]; cbn [negb]; cycle 1.
  { eexists. split; [reflexivity|]. split; [|by intros e' _ [= <-]]. apply (put_entry_inv s J J None id e); [done|done| | | |].
    - intros q. done.
    - apply (r_held _ _ (pi_refs _ _ _ Hinv)).
    - cbn. lia.
    - done. }
  destruct (id_peer e) as [p|] eqn:Ep; [|exists s; split; [done|]; split; [done|]; intros e' _ [= <-]; lia].
  destruct (Hepos p eq_refl) as [Hpos [P HP]]. change (peer_id_ref_cnt (e <| peer_id_ref_cnt ::= Z.pred |>)) with (Z.pred (peer_id_ref_cnt e)).
  assert (∀ e', (id_peer e' = None ∧ peer_id_ref_cnt e = 1 ∨ id_peer e' = Some p ∧ peer_id_ref_cnt e' = Z.pred (peer_id_ref_cnt e) ∧ peer_id_ref_cnt e ≠ 1) →
    del_peer_id_ref_cnt e' = 0 → peer_inv (put_entry s id e') (p :: J) None) as Hput.
  { intros e' Hcase Hd. apply (put_entry_inv s J (p :: J) None id e); [done|done| | |lia|].
    - intros q. rewrite held_cons. unfold entry_refs. rewrite Ep.
      destruct Hcase as [[-> ->]|(-> & -> & _)]; [rewrite (decide_False (P:=None = Some q)) by done|];
        destruct (decide (p = q)) as [->|]; rewrite ?decide_True, ?decide_False by congruence; lia.
    - intros q [->|Hq]%elem_of_cons; [by exists P|by apply (r_held _ _ (pi_refs _ _ _ Hinv))].
    - intros q Eq. destruct Hcase as [[E1 _]|(E1 & -> & E2)]; [congruence|]. split; [lia|]. rewrite E1 in Eq. injection Eq as <-. by exists P. }
  assert (∃ s1 P1, (if Z.pred (peer_id_ref_cnt e) =? 0 then
       upd_peer (put_entry s id (e <| peer_id_ref_cnt ::= Z.pred |> <| id_peer := None |>)) p (λ P, P <| peer_ids ::= λ l, default l (replace_first id HTT_INVALID_PEER l) |>)
     else Some (put_entry s id (e <| peer_id_ref_cnt ::= Z.pred |>))) = Some s1 ∧ peer_inv s1 (p :: J) None ∧ peers s1 !! p = Some P1)
    as (s1 & P1 & -> & Hinv1 & HP1).
  { destruct (Z.eqb_spec (Z.pred (peer_id_ref_cnt e)) 0) as [E1|E1].
    - unfold upd_peer. change (peers (put_entry s id ?x)) with (peers s). rewrite HP. cbn [mbind option_bind].
      eexists _, _. split; [reflexivity|]. split; [|apply lookup_insert_eq]. apply put_ids_inv; [apply Hput; [left; split; [done|lia]|done]|done|].
      pose proof (w_ids s (pi_wf _ _ _ Hinv) p P HP) as Hids. destruct (replace_first id HTT_INVALID_PEER (peer_ids P)) as [l|] eqn:El; [|done].
      eapply ids_replace; [exact Hids|by left|exact El].
    - eexists _, P. split; [reflexivity|]. split; [|done]. apply Hput; [right; split_and!; [done|done|lia]|done]. }
  cbn [mbind option_bind]. destruct (unref_inv s1 J None p P1 Hinv1 HP1) as (s2 & E2 & Hinv2 & _). unfold unref. rewrite E2.
  exists s2. split; [done|]. split; [done|]. intros e' _ [= <-]. lia.
Qed.

(** *** Detaching *)

Lemma held_app J1 J2 p : held (J1 ++ J2) p = held J1 p + held J2 p.
Proof. unfold held. rewrite filter_app, length_app. lia. Qed.
Lemma held_replicate n p q : held (replicate n p) q = if decide (p = q) then Z.of_nat n else 0.
Proof. induction n as [|n IH]; [by destruct (decide _)|]. cbn [replicate]. rewrite held_cons, IH. destruct (decide _); lia. Qed.

Lemma remove_maps_inv idxs s J p P num :
  peer_inv s J None → peers s !! p = Some P → (∀ i, i ∈ idxs → (i < Z.to_nat MAX_NUM_PEER_ID_PER_PEER)%nat) →
  ∃ s' n P', remove_maps idxs s p num = Some (s', num + Z.of_nat n) ∧ peer_inv s' (replicate n p ++ J) None ∧
    peers s' !! p = Some P' ∧ P' = P <| peer_ids := peer_ids P' |> ∧ max_peer_id s' = max_peer_id s ∧
    (∀ q, q ≠ p → peers s' !! q = peers s !! q) ∧
    (∀ k e, peer_id_to_obj_map s !! k = Some e → peer_id_to_obj_map s' !! k = Some e ∨
       id_peer e = Some p ∧ peer_id_to_obj_map s' !! k = Some (mk_map None 0 (del_peer_id_ref_cnt e + peer_id_ref_cnt e))) ∧
    (∀ i id e, i ∈ idxs → peer_ids P !! i = Some id → id ≠ HTT_INVALID_PEER → 0 <= id → peer_id_entry s id = Some e → id_peer e = Some p →
       peer_id_entry s' id = Some (mk_map None 0 (del_peer_id_ref_cnt e + peer_id_ref_cnt e))).
Proof.
  revert s J P num. induction idxs as [|i idxs IH]; intros s J P num Hinv HP Hi.
  { exists s, 0%nat, P. cbn [remove_maps replicate app]. split; [do 2 f_equal; lia|]. split_and!; try done; [by destruct P|by left|].
    by intros i id e ?%not_elem_of_nil. }
  assert (∀ j, j ∈ idxs → (j < Z.to_nat MAX_NUM_PEER_ID_PER_PEER)%nat) as Hi' by (intros j Hj; apply Hi; by constructor).
  cbn [remove_maps]. rewrite HP. cbn [mbind option_bind]. pose proof (w_ids s (pi_wf _ _ _ Hinv) p P HP) as [Hlen Hids].
  destruct (lookup_lt_is_Some_2 (peer_ids P) i) as [id Hid]; [rewrite Hlen; apply Hi; constructor|]. rewrite Hid. cbn [mbind option_bind].
  assert (id = HTT_INVALID_PEER ∨ 0 <= id <= max_peer_id s) as Hr by by eapply Forall_lookup_1 in Hids.
  destruct (Z.eqb_spec id HTT_INVALID_PEER) as [Einv|Hninv].
  { destruct (IH s J P num Hinv HP Hi') as (s' & n & P' & E & H1 & H2 & H3 & H4 & H5 & H6 & H7). exists s', n, P'. split_and!; try done.
    intros j id' e [->|Hj]%elem_of_cons; [congruence|by apply H7]. }
  destruct Hr as [|Hr]; [done|]. destruct (entry_some s id (pi_wf _ _ _ Hinv) Hr) as [e He]. rewrite He. cbn [mbind option_bind].
  destruct (bool_decide (id_peer e = Some p)) eqn:Ep; cycle 1.
  { apply bool_decide_eq_false_1 in Ep. destruct (IH s J P num Hinv HP Hi') as (s' & n & P' & E & H1 & H2 & H3 & H4 & H5 & H6 & H7).
    exists s', n, P'. split_and!; try done. intros j id' e' [->|Hj]%elem_of_cons; [|by apply H7]. intros Hid'. assert (id' = id) as -> by congruence.
    intros _ _ He' Ep'. congruence. }
  apply bool_decide_eq_true_1 in Ep. destruct (r_map s J (pi_refs _ _ _ Hinv) _ _ He) as [Hdel Hepos]. destruct (Hepos p Ep) as [Hpos _].
  set (e' := mk_map None 0 (del_peer_id_ref_cnt e + peer_id_ref_cnt e)). set (k := Z.to_nat (peer_id_ref_cnt e)).
  assert (peer_inv (put_entry s id e') (replicate k p ++ J) None) as Hinv1.
  { apply (put_entry_inv s J _ None id e); [done|done| | |cbn; lia|done].
    - intros q. rewrite held_app, held_replicate. unfold entry_refs. rewrite Ep. change (id_peer e') with (@None Z).
      rewrite (decide_False (P:=None = Some q)) by done. unfold k. destruct (decide (p = q)) as [->|]; rewrite ?decide_True, ?decide_False by congruence; lia.
    - intros q [[-> _]%elem_of_replicate|Hq]%elem_of_app; [by exists P|by apply (r_held _ _ (pi_refs _ _ _ Hinv))]. }
  set (P1 := P <| peer_ids ::= <[i := HTT_INVALID_PEER]> |>). set (s1 := put_peer (put_entry s id e') p P1).
  assert (peer_inv s1 (replicate k p ++ J) None) as Hinv2.
  { apply put_ids_inv; [done|done|]. rewrite length_insert. split; [done|]. apply Forall_insert; [done|by left]. }
  destruct (IH s1 _ P1 (num + peer_id_ref_cnt e) Hinv2 (lookup_insert_eq _ _ _) Hi')
    as (s' & n & P' & E & H1 & H2 & H3 & H4 & H5 & H6 & H7).
  exists s', (n + k)%nat, P'. split; [rewrite E; do 2 f_equal; unfold k; lia|].
  split; [by rewrite replicate_add, <- app_assoc|]. split; [done|]. split; [rewrite H3; by destruct P|].
  split; [done|]. split; [intros q Hq; rewrite H5 by done; by apply lookup_insert_ne|].
  assert (peer_id_entry s1 id = Some e') as He1 by (apply list_lookup_insert_eq; by eapply lookup_lt_Some).
  assert (peer_id_entry s' id = Some e') as He2.
  { destruct (H6 _ _ He1) as [H8|[H8 _]]; [done|by unfold e' in H8]. }
  split.
  - intros j ej Hj. destruct (decide (j = Z.to_nat id)) as [->|Hne].
    + right. assert (ej = e) as -> by (unfold peer_id_entry in He; congruence). done.
    + apply H6. unfold s1, put_entry, put_peer. cbn. by rewrite list_lookup_insert_ne.
  - intros j id' ej Hj Hid' Hn' H0 Hej Epj. destruct (decide (Z.to_nat id' = Z.to_nat id)) as [Eid|Hne].
    + assert (id' = id) as -> by lia. assert (ej = e) as -> by congruence. done.
    + apply elem_of_cons in Hj as [->|Hj]; [by assert (id' = id) as -> by congruence|]. apply (H7 j id' ej Hj); try done.
      * unfold P1. cbn. rewrite list_lookup_insert_ne; [done|]. intros ->. congruence.
      * unfold peer_id_entry, s1, put_entry, put_peer. cbn. by rewrite list_lookup_insert_ne.
Qed.

(** As long as the peer is attached the references from the map can be dropped. *)
Lemma unref_n_inv n s J p P :
  peer_inv s (replicate n p ++ J) None → peers s !! p = Some P → valid P = true →
  ∃ s' P', unref_n n s p = Some s' ∧ peer_inv s' J None ∧ peers s' !! p = Some P' ∧ P' = P <| ref_cnt := ref_cnt P' |> ∧
    s' = s <| peers := peers s' |> ∧ ∀ q, q ≠ p → peers s' !! q = peers s !! q.
Proof.
  revert s P. induction n as [|n IH]; intros s P Hinv HP Hv.
  { exists s, P. cbn. split_and!; try done; [by destruct P|by destruct s]. }
  cbn [replicate app] in Hinv. destruct (unref_inv s _ None p P Hinv HP) as (s1 & E1 & Hinv1 & H1). cbn [unref_n]. unfold unref.
  rewrite E1. cbn [fmap option_fmap option_map mbind option_bind fst].
  destruct (ref_cnt P =? 1); [destruct H1 as [H1 _]; congruence|]. subst s1.
  destruct (IH _ _ Hinv1 (lookup_insert_eq _ _ _) Hv) as (s' & P' & E & H2 & H3 & H4 & H5 & H6). exists s', P'. split; [done|].
  split; [done|]. split; [done|]. split; [rewrite H4; by destruct P|]. split; [rewrite H5; done|].
  intros q Hq. rewrite H6 by done. by apply lookup_insert_ne.
Qed.

Lemma free_ids_insert pool i y x fl : 0 <= i → i ∉ fl → free_ids pool x fl → free_ids (<[Z.to_nat i := y]> pool) x fl.
Proof.
  intros Hi. revert x. induction fl as [|j fl IH]; intros x; [done|]. intros Hn (-> & Hj & z & Hz & Hf). apply not_elem_of_cons in Hn as [Hne Hn].
  cbn. split; [done|]. split; [done|]. exists z. rewrite list_lookup_insert_ne by lia. split; [done|by apply IH].
Qed.

(** The peer [p] is no longer valid and gives its local id back. *)
Lemma local_detach s s' p P P' :
  local_ok s None → peers s !! p = Some P → valid P = true → valid P' = false → peers s' = <[p := P']> (peers s) →
  (local_pool s', local_freelist s', local_map s') =
    (if (local_id P =? OL_TXRX_INVALID_LOCAL_PEER_ID) || (OL_TXRX_NUM_LOCAL_PEER_IDS <=? local_id P)
     then (local_pool s, local_freelist s, local_map s)
     else (<[Z.to_nat (local_id P) := local_freelist s]> (local_pool s), u8 (local_id P), <[Z.to_nat (local_id P) := None]> (local_map s))) →
  local_ok s' None.
Proof.
  intros [] HP Hv Hv' Ep E.
  assert (∀ i q, 0 <= i → local_map s !! Z.to_nat i = Some (Some q) → q ≠ p → ∃ P0, peers s' !! q = Some P0 ∧ valid P0 = true ∧ local_id P0 = i ∧ Some q ≠ None) as Hused.
  { intros i q Hi Hq Hne. destruct (l_used0 i q Hi Hq) as (Q & HQ & E1 & E2 & E3). exists Q. by rewrite Ep, lookup_insert_ne. }
  assert (∀ q Q, peers s' !! q = Some Q → valid Q = true → q ≠ p ∧ peers s !! q = Some Q) as Hkeep.
  { intros q Q. rewrite Ep, lookup_insert_Some. intros [[<- <-]|[Hne HQ]]; [congruence|by split]. }
  destruct (Z.eqb_spec (local_id P) OL_TXRX_INVALID_LOCAL_PEER_ID) as [Ei|Hni]; cbn [orb] in E.
  - injection E as E1 E2 E3. split; rewrite ?E1, ?E2, ?E3; try done.
    + intros i q Hi Hq. apply Hused; [done|done|]. intros ->. destruct (l_used0 i p Hi Hq) as (Q & HQ & _ & E4 & _).
      apply lookup_lt_Some in Hq. assert (Q = P) as -> by congruence. rewrite l_map0 in Hq. unfold OL_TXRX_INVALID_LOCAL_PEER_ID, OL_TXRX_NUM_LOCAL_PEER_IDS in *. lia.
    + intros q Q HQ HvQ. destruct (Hkeep q Q HQ HvQ) as [_ HQ0]. by apply l_id0.
  - destruct (l_id0 p P HP Hv ltac:(done) Hni) as [Hr Hm]. destruct (Z.leb_spec OL_TXRX_NUM_LOCAL_PEER_IDS (local_id P)); [lia|].
    injection E as E1 E2 E3. rewrite u8_small in E2 by (unfold is_u8, OL_TXRX_NUM_LOCAL_PEER_IDS in *; lia).
    destruct l_free0 as (fl & Hnd & Hf & Hd). split; rewrite ?E1, ?E2, ?E3, ?length_insert; try done.
    + rewrite list_lookup_insert_ne by lia. done.
    + exists (local_id P :: fl). split; [constructor; [by eapply Hd|done]|]. split.
      * split; [done|]. split; [done|]. exists (local_freelist s). split; [apply list_lookup_insert_eq; unfold OL_TXRX_NUM_LOCAL_PEER_IDS in *; lia|].
        apply free_ids_insert; [lia|by eapply Hd|done].
      * intros i q Hi. destruct (decide (i = local_id P)) as [->|Hne].
        -- rewrite list_lookup_insert_eq by (by eapply lookup_lt_Some). done.
        -- rewrite list_lookup_insert_ne by lia. intros Hq [->|Hin]%elem_of_cons; [done|by eapply (Hd i q)].
    + intros i q Hi. destruct (decide (i = local_id P)) as [->|Hne].
      * rewrite list_lookup_insert_eq by (by eapply lookup_lt_Some). done.
      * rewrite list_lookup_insert_ne by lia. intros Hq. apply Hused; [done|done|]. intros ->.
        destruct (l_used0 i p Hi Hq) as (Q & HQ & _ & E4 & _). congruence.
    + intros q Q HQ HvQ Hx HnQ. destruct (Hkeep q Q HQ HvQ) as [Hne HQ0]. destruct (l_id0 q Q HQ0 HvQ Hx HnQ) as [H1 H2]. split; [done|].
      rewrite list_lookup_insert_ne; [done|]. intros Eq. assert (local_id P = local_id Q) as Eid by lia. rewrite Eid in Hm. congruence.
Qed.

(** The vdev [v] with its last real peer cleared. *)
Definition cleared_last V (p : Z) : ol_txrx_vdev_t :=
  if bool_decide (last_real_peer V = Some p) then V <| last_real_peer := None |> else V.

Lemma detach_inv s J p P :
  peer_inv s J None → peers s !! p = Some P → valid P = true →
  ∃ s', ol_txrx_peer_detach s p = Some s' ∧ peer_inv s' J None ∧ peer_id_to_obj_map s' = peer_id_to_obj_map s ∧
    max_peer_id s' = max_peer_id s ∧ (∀ q, q ≠ p → peers s' !! q = peers s !! q) ∧
    (∀ P', peers s' !! p = Some P' → valid P' = false).
Proof.
  intros Hinv HP Hva. pose proof Hinv as [Hwf Hrefs Hloc]. destruct (w_vdev s Hwf p P HP) as (v & V & Hv & HV & Hin).
  destruct (r_cnt _ _ Hrefs p P HP) as (Hr & Hpos & Hfw). destruct (w_list s Hwf v V HV) as (_ & _ & Hpend).
  unfold ol_txrx_peer_detach. rewrite HP. cbn [mbind option_bind]. rewrite Hv. cbn [mbind option_bind]. unfold upd_peer. rewrite HP.
  cbn [mbind option_bind]. set (P1 := P <| valid := false |> <| state := OL_TXRX_PEER_STATE_DISC |>). set (s1 := put_peer s p P1).
  assert (∃ s2, ol_txrx_local_peer_id_free s1 p = Some s2 ∧ (peers s2, vdevs s2, bins s2, mask s2, idx_bits s2, peer_id_to_obj_map s2, max_peer_id s2, vdev_list s2) =
      (peers s1, vdevs s, bins s, mask s, idx_bits s, peer_id_to_obj_map s, max_peer_id s, vdev_list s) ∧
      (local_pool s2, local_freelist s2, local_map s2) =
      (if (local_id P =? OL_TXRX_INVALID_LOCAL_PEER_ID) || (OL_TXRX_NUM_LOCAL_PEER_IDS <=? local_id P)
       then (local_pool s, local_freelist s, local_map s)
       else (<[Z.to_nat (local_id P) := local_freelist s]> (local_pool s), u8 (local_id P), <[Z.to_nat (local_id P) := None]> (local_map s))))
    as (s2 & E2 & Es2 & El2).
  { unfold ol_txrx_local_peer_id_free. assert (peers s1 !! p = Some P1) as -> by apply lookup_insert_eq. cbn [mbind option_bind].
    change (local_id P1) with (local_id P). destruct (_ || _); by eexists. }
  rewrite E2. cbn [mbind option_bind]. injection Es2 as A1 A2 A3 A4 A5 A6 A7 A8. rewrite A2, HV. cbn [mbind option_bind].
  change (if bool_decide (last_real_peer V = Some p) then V <| last_real_peer := None |> else V) with (cleared_last V p).
  set (V' := cleared_last V p). set (s3 := put_vdev s2 v V').
  assert (peers s3 !! p = Some P1) as HP3 by (cbn; rewrite A1; apply lookup_insert_eq). rewrite HP3. cbn [mbind option_bind].
  set (P4 := P1 <| delete_in_progress := 1 |> <| peer_unmap_timer := opmode_sta V || peer_unmap_timer P1 |>). set (s4 := put_peer s3 p P4).
  assert (peers s4 = <[p := P4]> (peers s)) as Ep4 by (cbn; rewrite A1; apply insert_insert_eq).
  assert (vdevs s4 = <[v := V']> (vdevs s)) as Ev4 by (cbn; by rewrite A2).
  assert (peer_inv s4 (p :: J) None) as Hinv4.
  { split.
    - apply (wf_ext (put_peer (put_vdev s v V') p P4)); [unfold skeleton; cbn; by rewrite A1, A2, A3, A4, A5, A6, A7, A8, insert_insert_eq|].
      apply (wf_put_peer_ids _ p P); [|done..]. apply (wf_put_vdev s v V); [done|done| | |];
        unfold V', cleared_last; destruct (bool_decide _); done.
    - assert (peer_refs (put_peer (put_vdev s v V') p P4) (p :: J)) as Hrefs4.
      { apply (refs_put (put_vdev s v V') J (p :: J) p P); try done.
        - apply (refs_ext s); try done. intros u U q. cbn. rewrite lookup_insert_Some. intros [[<- <-]|[Hne HU]] Hl; [|by exists U].
          exists V. split; [done|]. unfold V', cleared_last in Hl. by destruct (bool_decide _).
        - right. intros u U. cbn. rewrite lookup_insert_Some. intros [[<- <-]|[Hne HU]] Hl.
          + unfold V', cleared_last in Hl. destruct (bool_decide (last_real_peer V = Some p)) eqn:E; [done|].
            by apply bool_decide_eq_false_1 in E.
          + destruct (r_last _ _ Hrefs u U p HU Hl) as (Q & HQ & _ & Eu). congruence.
        - intros q Hq. rewrite held_cons, decide_False by congruence. lia.
        - change (peer_id_to_obj_map (put_vdev s v V')) with (peer_id_to_obj_map s). rewrite held_cons, decide_True by done.
          cbn. rewrite Hva in Hr. cbn in Hr. lia. }
      eapply refs_ext; [| | |exact Hrefs4].
      + by rewrite Ep4.
      + cbn. by rewrite A6.
      + intros u U q. rewrite Ev4. intros HU Hl. by exists U.
    - by apply (local_detach s s4 p P P4). }
  destruct (unref_inv s4 J None p P4 Hinv4 (lookup_insert_eq _ _ _)) as (s5 & E5 & Hinv5 & H5).
  unfold unref. rewrite E5. exists s5. split; [done|]. split; [done|]. destruct (ref_cnt P4 =? 1).
  - destruct H5 as (_ & Ep5 & Em5 & Emax5). split; [rewrite Em5; cbn; by rewrite A6|]. split; [rewrite Emax5; cbn; by rewrite A7|].
    rewrite Ep5. split; [intros q Hq; rewrite lookup_delete_ne, Ep4, lookup_insert_ne by done; done|]. intros P'. by rewrite lookup_delete_eq.
  - subst s5. split; [cbn; by rewrite A6|]. split; [cbn; by rewrite A7|].
    change (peers (put_peer s4 p ?x)) with (<[p := x]> (peers s4)).
    split; [intros q Hq; by rewrite lookup_insert_ne, Ep4, lookup_insert_ne by done|].
    intros P'. rewrite lookup_insert_eq. by intros [= <-].
Qed.

Lemma force_delete_inv s J p P :
  peer_inv s J None → peers s !! p = Some P → valid P = true →
  ∃ s', ol_txrx_peer_detach_force_delete s p = Some s' ∧ peer_inv s' J None ∧ max_peer_id s' = max_peer_id s ∧
    (∀ q, q ≠ p → peers s' !! q = peers s !! q) ∧
    (∀ id e, id ∈ peer_ids P → id ≠ HTT_INVALID_PEER → peer_id_entry s id = Some e → id_peer e = Some p →
       peer_id_entry s' id = Some (mk_map None 0 (del_peer_id_ref_cnt e + peer_id_ref_cnt e))).
Proof.
  intros Hinv HP Hv. unfold ol_txrx_peer_detach_force_delete, ol_txrx_peer_remove_obj_map_entries.
  destruct (remove_maps_inv (seq 0 (Z.to_nat MAX_NUM_PEER_ID_PER_PEER)) s J p P 0 Hinv HP)
    as (s1 & n & P1 & E1 & Hinv1 & HP1 & EP1 & Emax & Hk & _ & Hids).
  { intros i [_ Hi]%elem_of_seq. exact Hi. }
  rewrite E1. cbn [mbind option_bind]. rewrite Z.add_0_l, Nat2Z.id.
  assert (valid P1 = true) as Hv1 by (rewrite EP1; done).
  destruct (unref_n_inv n s1 J p P1 Hinv1 HP1 Hv1) as (s2 & P2 & E2 & Hinv2 & HP2 & EP2 & Es2 & Hk2). rewrite E2. cbn [mbind option_bind].
  destruct (detach_inv s2 J p P2 Hinv2 HP2 ltac:(by rewrite EP2)) as (s3 & E3 & Hinv3 & Em3 & Emax3 & Hk3 & _).
  exists s3. split; [done|]. split; [done|]. split; [rewrite Emax3, Es2; done|].
  split; [intros q Hq; by rewrite Hk3, Hk2, Hk|]. intros id e [i Hi]%list_elem_of_lookup Hne He Ep.
  destruct (w_ids s (pi_wf _ _ _ Hinv) p P HP) as [Hlen Hall]. assert (0 <= id) as H0.
  { destruct (Forall_lookup_1 _ _ _ _ Hall Hi); [done|lia]. }
  pose proof (Hids i id e) as Hx. unfold peer_id_entry. rewrite Em3, Es2. apply Hx; try done.
  apply elem_of_seq. apply lookup_lt_Some in Hi. lia.
Qed.

(** *** Attaching *)

Lemma map_refs_none l p : (∀ e, e ∈ l → id_peer e ≠ Some p) → map_refs l p = 0.
Proof.
  induction l as [|e l IH]; intros Hn; [done|]. cbn. unfold entry_refs. rewrite decide_False by (apply Hn; constructor).
  rewrite IH; [done|]. intros e' He'. apply Hn. by constructor.
Qed.

(** The peer gets the first free local id. *)
Lemma local_alloc_inv s J p P :
  peer_inv s J (Some p) → peers s !! p = Some P → valid P = true →
  ∃ s' i, ol_txrx_local_peer_id_alloc s p = Some s' ∧ peer_inv s' J None ∧ peers s' = <[p := P <| local_id := i |>]> (peers s).
Proof.
  intros [Hwf Hrefs Hloc] HP Hv. pose proof Hloc as []. destruct l_free0 as (fl & Hnd & Hf & Hd).
  destruct (r_cnt _ _ Hrefs p P HP) as (Hr & Hpos & Hfw).
  assert (∀ s' i, skeleton s' = skeleton (put_peer s p (P <| local_id := i |>)) → peer_id_to_obj_map s' = peer_id_to_obj_map s →
    peer_wf s' ∧ peer_refs s' J) as Hsame.
  { intros s' i Es Em. split.
    - apply (wf_ext (put_peer s p (P <| local_id := i |>))); [done|]. by apply (wf_put_peer_ids s p P).
    - unfold skeleton in Es. injection Es as A1 A2 A3 A4 A5 A6 A7 _.
      apply (refs_ext (put_peer s p (P <| local_id := i |>))); [done|done| |].
      + intros u U q. rewrite A2. intros HU Hl. by exists U.
      + apply (refs_put s J J p P); try done; [by left|]. intros q Hq. by constructor. }
  assert (∀ i q, 0 <= i → local_map s !! Z.to_nat i = Some (Some q) → q ≠ p) as Hnp.
  { intros i q Hi Hq ->. by destruct (l_used0 i p Hi Hq) as (Q & _ & _ & _ & E). }
  unfold ol_txrx_local_peer_id_alloc, upd_peer. destruct fl as [|j fl].
  - cbn in Hf. rewrite Hf, l_end0. cbn [mbind option_bind]. rewrite Z.eqb_refl, HP. cbn [mbind option_bind].
    eexists _, OL_TXRX_INVALID_LOCAL_PEER_ID. split; [reflexivity|]. split; [|done]. destruct (Hsame (put_peer s p (P <| local_id := OL_TXRX_INVALID_LOCAL_PEER_ID |>)) OL_TXRX_INVALID_LOCAL_PEER_ID eq_refl eq_refl) as [Hws Hrs].
    split; [done|done|]. split; try done.
    + by exists [].
    + intros i q Hi Hq. destruct (l_used0 i q Hi Hq) as (Q & HQ & E1 & E2 & E3). exists Q. cbn. rewrite lookup_insert_ne; [done|].
      intros ->. by apply (Hnp i q).
    + intros q Q. cbn. rewrite lookup_insert_Some. intros [[<- <-]|[Hne HQ]]; [done|]. intros HvQ _. apply l_id0; [done|done|congruence].
  - destruct Hf as (Ej & Hj & y & Hy & Hf). rewrite Ej, Hy. cbn [mbind option_bind]. apply NoDup_cons in Hnd as [Hjn Hnd].
    assert (y ≠ j) as Hyj.
    { destruct fl as [|k fl]; [cbn in Hf; lia|]. destruct Hf as (-> & _). intros ->. apply Hjn. constructor. }
    destruct (Z.eqb_spec y j) as [|_]; [done|]. rewrite HP. cbn [mbind option_bind].
    change (local_map (put_peer s p ?x)) with (local_map s).
    destruct (lookup_lt_is_Some_2 (local_map s) (Z.to_nat j)) as [o Ho]; [lia|]. rewrite Ho. cbn [mbind option_bind].
    eexists _, j. split; [reflexivity|]. split; [|done]. set (s' := _ <| local_map ::= _ |>). destruct (Hsame s' j eq_refl eq_refl) as [Hws Hrs].
    split; [done|done|]. split; try done.
    + by change (length (<[Z.to_nat j := Some p]> (local_map s)) = Z.to_nat OL_TXRX_NUM_LOCAL_PEER_IDS); rewrite length_insert.
    + exists fl. split; [done|]. split; [done|]. intros i q Hi. change (local_map s') with (<[Z.to_nat j := Some p]> (local_map s)).
      destruct (decide (i = j)) as [->|Hne]; [done|]. rewrite list_lookup_insert_ne by lia. intros Hq Hin. apply (Hd i q Hi Hq). by constructor.
    + intros i q Hi. change (local_map s') with (<[Z.to_nat j := Some p]> (local_map s)).
      change (peers s') with (<[p := P <| local_id := j |>]> (peers s)). destruct (decide (i = j)) as [->|Hne].
      * rewrite list_lookup_insert_eq by (by eapply lookup_lt_Some). intros [= <-]. exists (P <| local_id := j |>). rewrite lookup_insert_eq. done.
      * rewrite list_lookup_insert_ne by lia. intros Hq. destruct (l_used0 i q Hi Hq) as (Q & HQ & E1 & E2 & E3). exists Q.
        rewrite lookup_insert_ne; [done|]. intros ->. by apply (Hnp i q).
    + intros q Q. change (peers s') with (<[p := P <| local_id := j |>]> (peers s)).
      change (local_map s') with (<[Z.to_nat j := Some p]> (local_map s)). rewrite lookup_insert_Some. intros [[<- <-]|[Hne HQ]] HvQ _ Hni.
      * change (local_id (P <| local_id := j |>)) with j. split; [done|]. apply list_lookup_insert_eq. by eapply lookup_lt_Some.
      * destruct (l_id0 q Q HQ HvQ ltac:(congruence) Hni) as [H1 H2]. split; [done|]. rewrite list_lookup_insert_ne; [done|].
        intros E. assert (local_id Q = j) as Eq by lia. rewrite Eq in H2. apply (Hd j q Hj H2). constructor.
Qed.

(** The new peer of [attach_new]. *)
Definition new_peer V (v : Z) (mac : list Z) : ol_txrx_peer_t :=
  mk_peer (Some v) 2 0 OL_TXRX_PEER_STATE_INVALID (replicate (Z.to_nat MAX_NUM_PEER_ID_PER_PEER) HTT_INVALID_PEER) 0 mac 1 true
    (negb (bool_decide (mac = v_mac_addr V))) false.
Definition joined_vdev V (p : Z) (differs : bool) : ol_txrx_vdev_t :=
  V <| peer_list ::= λ l, l ++ [p] |> <| last_real_peer := if differs then Some p else last_real_peer V |>.

Lemma join_wf s v V p mac l differs :
  peer_wf s → vdevs s !! v = Some V → peers s !! p = None → hash_bin s mac = Some l →
  peer_wf (put_bin (put_peer (put_vdev s v (joined_vdev V p differs)) p (new_peer V v mac)) mac (l ++ [p])).
Proof.
  intros [] HV Hp Hl. unfold hash_bin in Hl. fold (bin_of s mac) in Hl. set (V' := joined_vdev V p differs). set (P0 := new_peer V v mac).
  assert (∀ q Q, peers s !! q = Some Q → q ≠ p) as Hne by (intros q Q HQ ->; congruence).
  assert (p ∉ peer_list V) as HpV.
  { intros Hin. destruct (w_list0 v V HV) as (_ & Hin' & _). destruct (Hin' p Hin) as (Q & HQ & _). congruence. }
  split; try done; cbn [put_bin put_peer put_vdev set_field].
  - cbn. by rewrite length_insert.
  - intros i l' Hl'. change (bins _) with (<[bin_of s mac := l ++ [p]]> (bins s)) in Hl'. change (peers _) with (<[p := P0]> (peers s)).
    change (bin_of _) with (bin_of s). destruct (decide (i = bin_of s mac)) as [->|Hi].
    + rewrite list_lookup_insert_eq in Hl' by (by eapply lookup_lt_Some). injection Hl' as <-. destruct (w_hash0 _ _ Hl) as [Hnd Hin]. split.
      * apply NoDup_app. split; [done|]. split; [|apply NoDup_singleton]. intros q Hq ->%list_elem_of_singleton.
        apply Hin in Hq as (Q & HQ & _). congruence.
      * intros q. rewrite elem_of_app, list_elem_of_singleton, Hin. split.
        -- intros [(Q & HQ & E)| ->]; [exists Q; rewrite lookup_insert_ne by (symmetry; by eapply Hne); done|].
           exists P0. by rewrite lookup_insert_eq.
        -- intros (Q & HQ & E). apply lookup_insert_Some in HQ as [[<- _]|[_ HQ]]; [by right|left; by exists Q].
    + rewrite list_lookup_insert_ne in Hl' by done. destruct (w_hash0 _ _ Hl') as [Hnd Hin]. split; [done|]. intros q. rewrite Hin. split.
      * intros (Q & HQ & E). exists Q. rewrite lookup_insert_ne by (symmetry; by eapply Hne). done.
      * intros (Q & HQ & E). apply lookup_insert_Some in HQ as [[<- <-]|[_ HQ]]; [|by exists Q]. by destruct Hi.
  - intros q Q. change (peers _) with (<[p := P0]> (peers s)). change (vdevs _) with (<[v := V']> (vdevs s)).
    rewrite lookup_insert_Some. intros [[<- <-]|[_ HQ]].
    + exists v, V'. rewrite lookup_insert_eq. split; [done|]. split; [done|]. apply elem_of_app. right. by apply list_elem_of_singleton.
    + destruct (w_vdev0 q Q HQ) as (u & U & Eu & HU & Hin). destruct (decide (v = u)) as [->|Hu].
      * exists u, V'. rewrite lookup_insert_eq. split; [done|]. split; [done|]. apply elem_of_app. left. congruence.
      * exists u, U. by rewrite lookup_insert_ne.
  - intros u U. change (vdevs _) with (<[v := V']> (vdevs s)). change (peers _) with (<[p := P0]> (peers s)).
    assert (∀ w W q, vdevs s !! w = Some W → q ∈ peer_list W → ∃ Q, <[p := P0]> (peers s) !! q = Some Q ∧ vdev Q = Some w) as Hold.
    { intros w W q HW Hq. destruct (w_list0 w W HW) as (_ & Hin & _). destruct (Hin q Hq) as (Q & HQ & E). exists Q.
      rewrite lookup_insert_ne by (symmetry; by eapply Hne). done. }
    rewrite lookup_insert_Some. intros [[<- <-]|[Hu HU]].
    + destruct (w_list0 v V HV) as (Hnd & Hin & _). split; [|split].
      * apply NoDup_app. split; [done|]. split; [|apply NoDup_singleton]. by intros q Hq ->%list_elem_of_singleton.
      * intros q [Hq| ->%list_elem_of_singleton]%elem_of_app; [by apply (Hold v V)|]. exists P0. by rewrite lookup_insert_eq.
      * intros _ E. by apply app_eq_nil in E as [_ ?].
    + destruct (w_list0 u U HU) as (Hnd & _ & Hpd). split; [done|]. split; [|done]. intros q Hq. by apply (Hold u U).
  - intros q Q. change (peers _) with (<[p := P0]> (peers s)). rewrite lookup_insert_Some. intros [[<- <-]|[_ HQ]]; [|by apply (w_ids0 q)].
    split; [done|]. apply Forall_replicate. by left.
  - change (vdevs_listed (vdev_list s) (<[v := V']> (vdevs s))). by apply (attached_insert _ _ v V).
Qed.

Lemma join_inv s J v V p mac l differs :
  peer_inv s J None → vdevs s !! v = Some V → peers s !! p = None → hash_bin s mac = Some l →
  peer_inv (put_bin (put_peer (put_vdev s v (joined_vdev V p differs)) p (new_peer V v mac)) mac (l ++ [p])) J (Some p).
Proof.
  intros [Hwf Hrefs Hloc] HV Hp Hl. split; [by apply join_wf| |].
  - destruct Hrefs. set (P0 := new_peer V v mac).
    assert (∀ q, is_Some (peers s !! q) → is_Some (<[p := P0]> (peers s) !! q)) as Hk.
    { intros q Hq. rewrite lookup_insert_is_Some. destruct (decide (p = q)); [by left|by right]. }
    split; try done; cbn.
    + intros q Q. rewrite lookup_insert_Some. intros [[<- <-]|[_ HQ]]; [|by apply r_cnt0].
      assert (held J p = 0) as ->.
      { unfold held. destruct (filter (.= p) J) as [|q l0] eqn:E; [done|]. exfalso. assert (q ∈ filter (.= p) J) as Hf by (rewrite E; constructor).
        apply list_elem_of_filter in Hf as [-> Hf]. destruct (r_held0 p Hf). congruence. }
      rewrite map_refs_none; [cbn; split; [done|]; split; [done|by right]|].
      intros e [i He]%list_elem_of_lookup E. destruct (r_map0 i e He) as [_ Hq]. destruct (Hq p E) as [_ [Q HQ]]. congruence.
    + intros q Hq. by apply Hk, r_held0.
    + intros i e He. destruct (r_map0 i e He) as [H1 H2]. split; [done|]. intros q Hq. destruct (H2 q Hq). split; [done|by apply Hk].
    + intros u U q. rewrite lookup_insert_Some. intros [[<- <-]|[Hu HU]] Hlast.
      * destruct differs; cbn in Hlast; [injection Hlast as <-; exists P0; by rewrite lookup_insert_eq|].
        destruct (r_last0 v V q HV Hlast) as (Q & HQ & E1 & E2). exists Q. rewrite lookup_insert_ne by congruence. done.
      * destruct (r_last0 u U q HU Hlast) as (Q & HQ & E1 & E2). exists Q. rewrite lookup_insert_ne by congruence. done.
  - destruct Hloc. split; try done; cbn.
    + intros i q Hi Hq. destruct (l_used0 i q Hi Hq) as (Q & HQ & E1 & E2 & _). exists Q.
      rewrite lookup_insert_ne by congruence. split_and!; try done. congruence.
    + intros q Q. rewrite lookup_insert_Some. intros [[<- <-]|[Hne HQ]] HvQ Hx; [done|]. by apply l_id0.
Qed.

Lemma attach_new_inv s J v V mac mem :
  peer_inv s J None → vdevs s !! v = Some V → (∀ p, mem = Some p → peers s !! p = None) →
  ∃ s', attach_new s v mac mem = Some (s', mem) ∧ peer_inv s' J None.
Proof.
  intros Hinv HV Hmem. unfold attach_new. destruct mem as [p|]; [|by exists s]. specialize (Hmem p eq_refl). rewrite HV. cbn [mbind option_bind].
  destruct (hash_bin_some s mac (pi_wf _ _ _ Hinv)) as [l Hl]. fold (new_peer V v mac). set (differs := ol_txrx_peer_find_mac_addr_cmp _ _).
  fold (joined_vdev V p differs). pose proof (join_inv s J v V p mac l differs Hinv HV Hmem Hl) as Hinv1.
  set (s1 := put_peer (put_vdev s v _) p _) in *. unfold ol_txrx_peer_find_hash_add.
  assert (peers s1 !! p = Some (new_peer V v mac)) as -> by apply lookup_insert_eq. cbn [mbind option_bind].
  change (mac_addr (new_peer V v mac)) with mac. change (hash_bin s1 mac) with (hash_bin s mac). rewrite Hl. cbn [mbind option_bind].
  destruct (state_update_inv _ J (Some p) mac OL_TXRX_PEER_STATE_DISC Hinv1) as (s2 & E2 & Hinv2 & Hk & _). rewrite E2. cbn [mbind option_bind].
  destruct (Hk p (new_peer V v mac)) as (P2 & HP2 & EP2); [apply lookup_insert_eq|].
  destruct (local_alloc_inv s2 J p P2 Hinv2 HP2) as (s3 & i & E3 & Hinv3 & _); [by rewrite EP2|]. rewrite E3. by exists s3.
Qed.

(** *** The rest *)

Lemma put_vdev_inv s J v V V' :
  peer_inv s J None → vdevs s !! v = Some V → peer_list V' = peer_list V → last_real_peer V' = last_real_peer V →
  delete_pending V' = delete_pending V → ll_pause V' = ll_pause V → peer_inv (put_vdev s v V') J None.
Proof.
  intros [Hwf Hrefs Hloc] HV Hl Hlast Hp Hpa. split; [by apply (wf_put_vdev s v V)| |by apply (local_ext s)].
  apply (refs_ext s); [done..| |done]. intros u U q. cbn. rewrite lookup_insert_Some. intros [[<- <-]|[Hne HU]] Hq; [|by exists U].
  exists V. split; [done|congruence].
Qed.

Lemma wait_inv s J v V w : peer_inv s J None → vdevs s !! v = Some V → peer_inv (put_vdev s v (V <| wait_on_peer_id := w |>)) J None.
Proof. intros Hinv HV. by apply (put_vdev_inv s J v V). Qed.

Lemma scan_inv s J v mac l r :
  peer_inv s J None → is_Some (vdevs s !! v) → (∀ p, p ∈ l → is_Some (peers s !! p)) →
  ∃ s' r', scan_peers s v mac l r = Some (s', r') ∧ peer_inv s' J None ∧ peers s' = peers s ∧ is_Some (vdevs s' !! v).
Proof.
  revert s r. induction l as [|p l IH]; intros s r Hinv Hv Hl; [by exists s, r|].
  assert (∀ q, q ∈ l → is_Some (peers s !! q)) as Hl' by (intros q Hq; apply Hl; by constructor).
  destruct (Hl p) as [P HP]; [constructor|]. cbn [scan_peers]. rewrite HP. cbn [mbind option_bind].
  destruct (ol_txrx_peer_find_mac_addr_cmp _ _); [by apply IH|]. destruct (delete_in_progress P =? 0); [by exists s, ScanExists|].
  destruct Hv as [V HV]. unfold upd_vdev. rewrite HV. cbn [mbind option_bind].
  destruct (IH (put_vdev s v (V <| wait_on_peer_id := local_id P |>)) ScanWait) as (s' & r' & E & H1 & H2 & H3);
    [by apply wait_inv|cbn; rewrite lookup_insert_eq; by eexists|done|]. by exists s', r'.
Qed.

Lemma attach_scan_inv s J v V mac :
  peer_inv s J None → vdevs s !! v = Some V →
  ∃ s' r', attach_scan s v mac = Some (s', r') ∧ peer_inv s' J None ∧ peers s' = peers s ∧ is_Some (vdevs s' !! v).
Proof.
  intros Hinv HV. unfold attach_scan. rewrite HV. cbn [mbind option_bind]. apply scan_inv; [done|by exists V|].
  intros p Hp. destruct (w_list s (pi_wf _ _ _ Hinv) v V HV) as (_ & Hin & _). destruct (Hin p Hp) as (P & HP & _). by exists P.
Qed.

Lemma vdev_attach_inv s J mem mac sta :
  peer_inv s J None → (∀ v, mem = Some v → vdevs s !! v = None) → peer_inv (fst (ol_txrx_vdev_attach s mem mac sta)) J None.
Proof.
  intros [Hwf Hrefs Hloc] Hmem. destruct mem as [v|]; [|done]. specialize (Hmem v eq_refl). cbn [ol_txrx_vdev_attach fst].
  set (V := mk_vdev mac sta [] None false OL_TXRX_INVALID_LOCAL_PEER_ID true). split; [|apply (refs_ext s); [done..| |done]|by apply (local_ext s)].
  - destruct Hwf. split; try done; cbn.
    + intros q Q HQ. destruct (w_vdev0 q Q HQ) as (u & U & Eu & HU & Hin). exists u, U. rewrite lookup_insert_ne by congruence. done.
    + intros u U. rewrite lookup_insert_Some. intros [[<- <-]|[Hu HU]]; [|by apply w_list0].
      split; [constructor|]. split; [by intros q ?%not_elem_of_nil|done].
    + by apply attached_new.
  - intros u U q. cbn. rewrite lookup_insert_Some. intros [[<- <-]|[Hu HU]]; [done|by exists U].
Qed.

Lemma detached_wf s v V :
  peer_wf s → vdevs s !! v = Some V → let s' := s <| vdev_list := filter (.≠ v) (vdev_list s) |> in
  let V' := V <| ll_pause := false |> <| delete_pending := true |> in
  peer_wf (if bool_decide (peer_list V = []) then s' <| vdevs ::= delete v |> else put_vdev s' v V').
Proof.
  intros [] HV s' V'. destruct (bool_decide (peer_list V = [])) eqn:E.
  - apply bool_decide_eq_true_1 in E. split; try done; cbn.
    + intros q Q HQ. destruct (w_vdev0 q Q HQ) as (u & U & Eu & HU & Hin). exists u, U. rewrite lookup_delete_ne; [done|].
      intros ->. assert (U = V) as -> by congruence. rewrite E in Hin. by apply not_elem_of_nil in Hin.
    + intros u U. rewrite lookup_delete_Some. intros [_ HU]. by apply w_list0.
    + rewrite <- (delete_insert_eq (vdevs s) v V'). apply attached_delete; [by apply attached_detached|].
      intros U. rewrite lookup_insert_eq. by intros [= <-].
  - apply bool_decide_eq_false_1 in E. split; try done; cbn.
    + intros q Q HQ. destruct (w_vdev0 q Q HQ) as (u & U & Eu & HU & Hin). destruct (decide (v = u)) as [->|Hne].
      * exists u, V'. rewrite lookup_insert_eq. split; [done|]. split; [done|]. cbn. congruence.
      * exists u, U. by rewrite lookup_insert_ne.
    + intros u U. rewrite lookup_insert_Some. intros [[<- <-]|[_ HU]]; [|by apply w_list0].
      destruct (w_list0 v V HV) as (Hnd & Hin & _). by split_and!.
    + by apply attached_detached.
Qed.

Lemma vdev_detach_inv s J v V :
  peer_inv s J None → vdevs s !! v = Some V → delete_pending V = false → ∃ s', ol_txrx_vdev_detach s v = Some s' ∧ peer_inv s' J None.
Proof.
  intros [Hwf Hrefs Hloc] HV Hp. pose proof (detached_wf s v V Hwf HV) as Hwf'. destruct (w_attached s Hwf) as (_ & Hin & Hpa).
  unfold ol_txrx_vdev_detach, tailq_remove. rewrite HV. cbn [mbind option_bind]. rewrite (Hpa v V HV), Hp. cbn [negb].
  rewrite (bool_decide_eq_true_2 (v ∈ vdev_list s)) by (apply Hin; exists V; by rewrite (Hpa v V HV), Hp). cbn [mbind option_bind].
  change (peer_list (V <| ll_pause := false |>)) with (peer_list V).
  destruct (bool_decide (peer_list V = [])); eexists; (split; [reflexivity|]); [apply emit_inv|]; split.
  - eapply wf_ext; [|exact Hwf']. unfold skeleton. cbn. by rewrite delete_insert_eq.
  - apply (refs_ext s); [done..| |done]. intros u U q. cbn. rewrite delete_insert_eq, lookup_delete_Some. intros [_ HU] Hq. by exists U.
  - by apply (local_ext s).
  - eapply wf_ext; [|exact Hwf']. unfold skeleton. cbn. by rewrite insert_insert_eq.
  - apply (refs_ext s); [done..| |done]. intros u U q. cbn. rewrite insert_insert_eq, lookup_insert_Some.
    intros [[<- <-]|[_ HU]] Hq; [by exists V|by exists U].
  - by apply (local_ext s).
Qed.

Lemma assoc_find_inv s J v V :
  peer_inv s J None → vdevs s !! v = Some V →
  ∃ s' r, ol_txrx_assoc_peer_find s v = Some (s', r) ∧ peer_inv s' (option_list r ++ J) None.
Proof.
  intros Hinv HV. unfold ol_txrx_assoc_peer_find. rewrite HV. cbn [mbind option_bind]. destruct (last_real_peer V) as [p|] eqn:El; [|by exists s, None].
  destruct (r_last _ _ (pi_refs _ _ _ Hinv) v V p HV El) as (P & HP & _). rewrite HP. cbn [mbind option_bind].
  destruct (w_ids s (pi_wf _ _ _ Hinv) p P HP) as [Hlen _]. destruct (lookup_lt_is_Some_2 (peer_ids P) 0) as [i Hi]; [rewrite Hlen; unfold MAX_NUM_PEER_ID_PER_PEER; lia|].
  rewrite Hi. cbn [mbind option_bind]. destruct (i =? HTT_INVALID_PEER_ID); [by exists s, None|].
  unfold change_ref_cnt, upd_peer. rewrite HP. cbn [mbind option_bind]. eexists _, (Some p). split; [reflexivity|]. by apply take_ref.
Qed.

(** ** The machine

    Calls of the control software, messages of the firmware and the data path's
    uses of peers, in any order; the second component of a state are the
    references that users hold. *)
Inductive peer_op :=
  | OpVdevAttach (mem : option Z) (mac : list Z) (sta : bool)
  | OpVdevDetach (v : Z)
  | OpScan (v : Z) (mac : list Z)
  | OpScanTimeout (v : Z)
  | OpAttach (v : Z) (mac : list Z) (mem : option Z)
  | OpDetach (p : Z)
  | OpForceDelete (p : Z)
  | OpMap (id vdev_id : Z) (mac : list Z) (tx_ready : Z)
  | OpUnmap (id : Z)
  | OpState (mac : list Z) (st : Z)
  | OpFind (mac : list Z) (check_valid : bool)
  | OpFindVdev (v : Z) (mac : list Z) (check_valid : bool)
  | OpAssoc (v : Z)
  | OpPut (p : Z).

(** One of the references [J] to [p] goes. *)
Fixpoint drop_one (p : Z) (J : list Z) : list Z :=
  match J with [] => [] | q :: J => if q =? p then J else q :: drop_one p J end.
Definition with_held (r : option (pdevState * option Z)) (J : list Z) : option (pdevState * list Z) :=
  '(s, p) ← r; Some (s, option_list p ++ J).

Definition exec (st : pdevState * list Z) (op : peer_op) : option (pdevState * list Z) :=
  let '(s, J) := st in
  match op with
  | OpVdevAttach mem mac sta => Some (fst (ol_txrx_vdev_attach s mem mac sta), J)
  | OpVdevDetach v => s ← ol_txrx_vdev_detach s v; Some (s, J)
  | OpScan v mac => '(s, r) ← attach_scan s v mac; Some (s, J)
  | OpScanTimeout v => s ← attach_timeout s v; Some (s, J)
  | OpAttach v mac mem => '(s, r) ← attach_new s v mac mem; Some (s, J)
  | OpDetach p => s ← ol_txrx_peer_detach s p; Some (s, J)
  | OpForceDelete p => s ← ol_txrx_peer_detach_force_delete s p; Some (s, J)
  | OpMap id vdev_id mac tx_ready => s ← ol_rx_peer_map_handler s id vdev_id mac tx_ready; Some (s, J)
  | OpUnmap id => s ← ol_rx_peer_unmap_handler s id; Some (s, J)
  | OpState mac st => s ← ol_txrx_peer_state_update s mac st; Some (s, J)
  | OpFind mac check => with_held (ol_txrx_peer_find_hash_find_inc_ref s mac check) J
  | OpFindVdev v mac check => with_held (ol_txrx_peer_vdev_find_hash s v mac check) J
  | OpAssoc v => with_held (ol_txrx_assoc_peer_find s v) J
  | OpPut p => s ← unref s p; Some (s, drop_one p J)
  end.
Fixpoint run (st : pdevState * list Z) (ops : list peer_op) : option (pdevState * list Z) :=
  match ops with
  | [] => Some st
  | op :: ops => st ← exec st op; run st ops
  end.

(** What the rest of the driver and the firmware keep to: new objects come from
    fresh memory, vdevs are used while they exist, vdevs and peers are detached once, only
    references that were taken are dropped, and the firmware sends ids of the
    map's range and maps an id to one peer at a time. *)
Definition legal (st : pdevState * list Z) (op : peer_op) : Prop :=
  let '(s, J) := st in
  match op with
  | OpVdevAttach mem mac sta => ∀ v, mem = Some v → vdevs s !! v = None
  | OpVdevDetach v => ∃ V, vdevs s !! v = Some V ∧ delete_pending V = false
  | OpScan v _ | OpScanTimeout v | OpAssoc v => is_Some (vdevs s !! v)
  | OpAttach v mac mem => is_Some (vdevs s !! v) ∧ ∀ p, mem = Some p → peers s !! p = None
  | OpDetach p | OpForceDelete p => ∃ P, peers s !! p = Some P ∧ valid P = true
  | OpMap id vdev_id mac tx_ready =>
      id ≠ HTT_INVALID_PEER ∧
      ∀ p s1, ol_txrx_peer_find_hash_find_inc_ref s mac false = Some (s1, Some p) →
        0 <= id <= max_peer_id s ∧ ∀ e, peer_id_entry s id = Some e → id_peer e = None ∨ id_peer e = Some p
  | OpUnmap id => id = HTT_INVALID_PEER ∨ 0 <= id <= max_peer_id s
  | OpState _ _ | OpFind _ _ | OpFindVdev _ _ _ => True
  | OpPut p => p ∈ J
  end.
Fixpoint legal_run (st : pdevState * list Z) (ops : list peer_op) : Prop :=
  match ops with
  | [] => True
  | op :: ops => legal st op ∧ ∀ st', exec st op = Some st' → legal_run st' ops
  end.

Lemma drop_one_perm p J : p ∈ J → J ≡ₚ p :: drop_one p J.
Proof.
  induction J as [|q J IH]; [by intros ?%not_elem_of_nil|]. cbn. destruct (Z.eqb_spec q p) as [->|Hne]; [done|].
  intros [->|Hp]%elem_of_cons; [done|]. etransitivity; [apply perm_skip, (IH Hp)|apply perm_swap].
Qed.
Lemma held_perm J J' p : J ≡ₚ J' → held J p = held J' p.
Proof. intros E. unfold held. by rewrite E. Qed.
Lemma inv_perm s J J' x : J ≡ₚ J' → peer_inv s J x → peer_inv s J' x.
Proof.
  intros E [Hwf [] Hloc]. split; [done| |done]. split; [|intros p; rewrite <- E; apply r_held0|done..].
  intros p P HP. rewrite <- (held_perm J J' p E). by apply r_cnt0.
Qed.

Lemma find_held s J mac f :
  peer_inv s J None → ∃ s' J', with_held (find_inc_ref s mac f) J = Some (s', J') ∧ peer_inv s' J' None.
Proof.
  intros Hinv. destruct (find_inc_inv s J None mac f Hinv) as (s' & r & E & Hr). unfold with_held. rewrite E. cbn [mbind option_bind].
  eexists s', _. split; [reflexivity|]. destruct r as [p|]; [by destruct Hr as (P & _ & _ & _ & ?)|by destruct Hr as [-> _]].
Qed.

Lemma peer_step_inv s J op :
  peer_inv s J None → legal (s, J) op → ∃ s' J', exec (s, J) op = Some (s', J') ∧ peer_inv s' J' None.
Proof.
  intros Hinv Hl. destruct op as [mem mac sta|v|v mac|v|v mac mem|p|p|id vid mac tx|id|mac st|mac c|v mac c|v|p]; cbn [exec legal] in *.
  - eexists _, J. split; [reflexivity|]. by apply vdev_attach_inv.
  - destruct Hl as (V & HV & Hp). destruct (vdev_detach_inv s J v V Hinv HV Hp) as (s' & -> & H'). by exists s', J.
  - destruct Hl as [V HV]. destruct (attach_scan_inv s J v V mac Hinv HV) as (s' & r & -> & H' & _). by exists s', J.
  - destruct Hl as [V HV]. unfold attach_timeout, upd_vdev. rewrite HV. cbn [mbind option_bind]. eexists _, J. split; [reflexivity|]. by apply wait_inv.
  - destruct Hl as [[V HV] Hm]. destruct (attach_new_inv s J v V mac mem Hinv HV Hm) as (s' & -> & H'). by exists s', J.
  - destruct Hl as (P & HP & Hv). destruct (detach_inv s J p P Hinv HP Hv) as (s' & -> & H' & _). by exists s', J.
  - destruct Hl as (P & HP & Hv). destruct (force_delete_inv s J p P Hinv HP Hv) as (s' & -> & H' & _). by exists s', J.
  - destruct Hl as [Hid Hm]. destruct (map_handler_inv s J id mac vid tx Hinv Hid Hm) as (s' & -> & H' & _). by exists s', J.
  - destruct (unmap_handler_inv s J id Hinv Hl) as (s' & -> & H' & _). by exists s', J.
  - destruct (state_update_inv s J None mac st Hinv) as (s' & -> & H' & _). by exists s', J.
  - by apply find_held.
  - by apply find_held.
  - destruct Hl as [V HV]. destruct (assoc_find_inv s J v V Hinv HV) as (s' & r & -> & H'). by eexists s', _.
  - destruct (r_held _ _ (pi_refs _ _ _ Hinv) p Hl) as [P HP]. apply (inv_perm s J (p :: drop_one p J)) in Hinv; [|by apply drop_one_perm].
    destruct (unref_inv s _ None p P Hinv HP) as (s' & E & H' & _). unfold unref. rewrite E. by eexists s', _.
Qed.

Lemma peer_run_inv s J ops :
  peer_inv s J None → legal_run (s, J) ops → ∃ s' J', run (s, J) ops = Some (s', J') ∧ peer_inv s' J' None.
Proof.
  revert s J. induction ops as [|op ops IH]; intros s J Hinv Hl; [by exists s, J|]. destruct Hl as [Hop Hl].
  destruct (peer_step_inv s J op Hinv Hop) as (s1 & J1 & E1 & Hinv1). cbn [run]. rewrite E1. cbn [mbind option_bind].
  apply IH; [done|]. by apply Hl.
Qed.

(** A peer that exists has a reason to. *)
Lemma peer_needed s J p P : peer_inv s J None → peers s !! p = Some P →
  valid P = true ∨ fw_create_pending P = 1 ∨ (∃ i e, peer_id_to_obj_map s !! i = Some e ∧ id_peer e = Some p) ∨ p ∈ J.
Proof.
  intros Hinv HP. destruct (pi_refs _ _ _ Hinv) as []. destruct (r_cnt0 p P HP) as (Hr & Hpos & Hfw).
  destruct (valid P); [by left|]. destruct Hfw as [Hfw|Hfw]; [|by right; left]. right. right. cbn in Hr.
  destruct (decide (p ∈ J)) as [|HJ]; [by right|]. left.
  assert (held J p = 0) as Hh.
  { unfold held. destruct (filter (.= p) J) as [|q l] eqn:E; [done|]. exfalso. assert (q ∈ filter (.= p) J) as Hq by (rewrite E; constructor).
    by apply list_elem_of_filter in Hq as [-> Hq]. }
  assert (∀ l, 0 < map_refs l p → ∃ i e, l !! i = Some e ∧ id_peer e = Some p) as Hex.
  { induction l as [|e l IH]; cbn; [lia|]. unfold entry_refs. destruct (decide (id_peer e = Some p)) as [E|E]; [by exists 0%nat, e|].
    intros Hl. destruct IH as (i & e' & H1 & H2); [lia|]. by exists (S i), e'. }
  apply Hex. lia.
Qed.

(** C2: the peers under any sequence of calls and messages.  From a state with
    the invariant, no legal sequence of attaching and detaching of peers and
    vdevs (each detached once, a vdev also while it has peers), maps and unmaps
    of the firmware, lookups and drops of references makes the data path use a
    freed peer or vdev, leave an array, unlink a vdev that is not in the
    device's list or free its timer twice, and the invariant holds again: the
    device's list has each vdev that is not detached exactly once, every peer is in exactly its hash bin and its vdev's list, all
    pointers of the tables are to peers that exist, and each reference count is
    the number of the references there are.  So a peer exists exactly as long as
    it is attached, its creation is pending in the firmware, a peer id is mapped
    to it or a user holds a reference: the last one of these to go frees it. *)
Theorem peers_safe s J ops :
  peer_inv s J None → legal_run (s, J) ops →
  ∃ s' J', run (s, J) ops = Some (s', J') ∧ peer_inv s' J' None ∧
    ∀ p, is_Some (peers s' !! p) ↔
      (∃ P, peers s' !! p = Some P ∧ (valid P = true ∨ fw_create_pending P = 1)) ∨
      (∃ i e, peer_id_to_obj_map s' !! i = Some e ∧ id_peer e = Some p) ∨ p ∈ J'.
Proof.
  intros Hinv Hl. destruct (peer_run_inv s J ops Hinv Hl) as (s' & J' & E & Hinv'). exists s', J'. split; [done|]. split; [done|].
  intros p. split.
  - intros [P HP]. destruct (peer_needed s' J' p P Hinv' HP) as [H1|[H1|[H1|H1]]]; [left|left|by right; left|by right; right];
      exists P; tauto.
  - intros [(P & HP & _)|[(i & e & He & Ep)|Hp]]; [by exists P| |by apply (r_held _ _ (pi_refs _ _ _ Hinv'))].
    destruct (r_map _ _ (pi_refs _ _ _ Hinv') i e He) as [_ Hq]. by apply Hq.
Qed.

(** *** Roaming *)

Lemma put_entry_twice s id e1 e2 : put_entry (put_entry s id e1) id e2 = put_entry s id e2.
Proof. destruct s. unfold put_entry, set_field. cbn. by rewrite list_insert_insert_eq. Qed.
Lemma put_entry_same s id e : peer_id_entry s id = Some e → put_entry s id e = s.
Proof. intros He. destruct s. unfold put_entry, set_field. cbn. by rewrite list_insert_id. Qed.

Lemma unmaps_absorbed n s J id e :
  peer_inv s J None → id ≠ HTT_INVALID_PEER → 0 <= id <= max_peer_id s → peer_id_entry s id = Some e → del_peer_id_ref_cnt e = Z.of_nat n →
  ∃ s', run (s, J) (replicate n (OpUnmap id)) = Some (s', J) ∧ s' = put_entry s id (e <| del_peer_id_ref_cnt := 0 |>).
Proof.
  revert s e. induction n as [|n IH]; intros s e Hinv Hid Hr He Hd.
  { exists s. split; [done|]. assert (e <| del_peer_id_ref_cnt := 0 |> = e) as -> by (destruct e; cbn in *; by rewrite Hd).
    by rewrite put_entry_same. }
  cbn [replicate run exec]. destruct (unmap_handler_inv s J id Hinv ltac:(by right)) as (s1 & E1 & Hinv1 & H1). rewrite E1. cbn [mbind option_bind].
  specialize (H1 e Hid He ltac:(lia)). set (e1 := e <| del_peer_id_ref_cnt ::= Z.pred |>) in *.
  assert (peer_id_entry s1 id = Some e1) as He1 by (rewrite H1; apply list_lookup_insert_eq; by eapply lookup_lt_Some).
  destruct (IH s1 e1 Hinv1 Hid) as (s2 & E2 & H2); [by rewrite H1|done|cbn; lia|]. exists s2. split; [done|]. by rewrite H2, H1, put_entry_twice.
Qed.

(** C31: back-to-back roaming.  The firmware has mapped the id [id] to peer [A]
    some number of times when the control software deletes [A] by force; the
    firmware maps the id to another address before it sends the unmaps of [A].
    All of these are then absorbed by the deleted mappings: they touch no peer,
    neither [A] nor the one the id is mapped to now, whose entry counts one
    reference of its own and none of a deleted peer. *)
Theorem roaming_absorbed s J A PA id e mac vdev_id tx_ready :
  peer_inv s J None → peers s !! A = Some PA → valid PA = true →
  id ∈ peer_ids PA → id ≠ HTT_INVALID_PEER → peer_id_entry s id = Some e → id_peer e = Some A → del_peer_id_ref_cnt e = 0 →
  ∃ s1 s2 s3, run (s, J) [OpForceDelete A] = Some (s1, J) ∧ run (s1, J) [OpMap id vdev_id mac tx_ready] = Some (s2, J) ∧
    run (s2, J) (replicate (Z.to_nat (peer_id_ref_cnt e)) (OpUnmap id)) = Some (s3, J) ∧ peer_inv s3 J None ∧
    s3 <| peer_id_to_obj_map := [] |> = s2 <| peer_id_to_obj_map := [] |> ∧
    (peer_id_entry s3 id = Some (mk_map None 0 0) ∨
     ∃ B PB, peers s1 !! B = Some PB ∧ ol_txrx_peer_find_mac_addr_cmp mac (mac_addr PB) = false ∧
       peer_id_entry s3 id = Some (mk_map (Some B) 1 0)).
Proof.
  intros Hinv HP Hv Hin Hid He Ep Hd. destruct (force_delete_inv s J A PA Hinv HP Hv) as (s1 & E1 & Hinv1 & Emax & _ & Hent).
  specialize (Hent id e Hin Hid He Ep). rewrite Hd, Z.add_0_l in Hent. set (n := peer_id_ref_cnt e) in *.
  destruct (r_map _ _ (pi_refs _ _ _ Hinv) _ _ He) as [_ Hpos]. destruct (Hpos A Ep) as [Hn _]. fold n in Hn.
  assert (0 <= id <= max_peer_id s1) as Hr.
  { rewrite Emax. apply list_elem_of_lookup in Hin as [i Hi]. destruct (w_ids s (pi_wf _ _ _ Hinv) A PA HP) as [_ Hall].
    by destruct (Forall_lookup_1 _ _ _ _ Hall Hi). }
  destruct (map_handler_inv s1 J id mac vdev_id tx_ready Hinv1 Hid) as (s2 & E2 & Hinv2 & Emax2 & Hcase).
  { intros q s' _. split; [done|]. intros e' He'. left. assert (e' = mk_map None 0 n) as -> by congruence. done. }
  assert (∃ e2, peer_id_entry s2 id = Some e2 ∧ del_peer_id_ref_cnt e2 = n ∧ (e2 = mk_map None 0 n ∨
    ∃ B PB, peers s1 !! B = Some PB ∧ ol_txrx_peer_find_mac_addr_cmp mac (mac_addr PB) = false ∧ e2 = mk_map (Some B) 1 n))
    as (e2 & He2 & Hd2 & Hcase2).
  { destruct Hcase as [->|(B & PB & e1 & HB & Hmac & He1 & Em)]; [exists (mk_map None 0 n); split; [exact Hent|split; [done|by left]]|].
    assert (e1 = mk_map None 0 n) as -> by congruence. exists (mk_map (Some B) 1 n). split; [|split; [done|right; by exists B, PB]].
    unfold peer_id_entry. rewrite Em. apply list_lookup_insert_eq. by eapply lookup_lt_Some. }
  destruct (unmaps_absorbed (Z.to_nat n) s2 J id e2 Hinv2 Hid) as (s3 & E3 & H3); [by rewrite Emax2|done|lia|].
  assert (peer_id_entry s3 id = Some (e2 <| del_peer_id_ref_cnt := 0 |>)) as He3
    by (rewrite H3; apply list_lookup_insert_eq; by eapply lookup_lt_Some).
  exists s1, s2, s3. cbn [run exec]. rewrite E1, E2. do 3 (split; [done|]). split.
  { rewrite H3. destruct (r_map _ _ (pi_refs _ _ _ Hinv2) _ _ He2) as [_ Hq]. apply (put_entry_inv s2 J J None id e2); try done.
    apply (r_held _ _ (pi_refs _ _ _ Hinv2)). }
  split; [by rewrite H3|]. rewrite He3. destruct Hcase2 as [->|(B & PB & HB & Hmac & ->)]; [by left|right; by exists B, PB].
Qed.

(** *** Lookups *)

Lemma of_le4_inj a b c d a' b' c' d' :
  is_u8 a → is_u8 b → is_u8 c → is_u8 d → is_u8 a' → is_u8 b' → is_u8 c' → is_u8 d' →
  of_le4 a b c d = of_le4 a' b' c' d' → a = a' ∧ b = b' ∧ c = c' ∧ d = d'.
Proof. unfold of_le4, is_u8. intros. lia. Qed.
Definition mac_ok (a : list Z) : Prop := length a = 6%nat ∧ Forall is_u8 a.
Lemma mac_cmp_eq a b : mac_ok a → mac_ok b → ol_txrx_peer_find_mac_addr_cmp a b = false ↔ a = b.
Proof.
  intros [La Ha] [Lb Hb]. destruct a as [|a0 [|a1 [|a2 [|a3 [|a4 [|a5 [|]]]]]]]; try done.
  destruct b as [|b0 [|b1 [|b2 [|b3 [|b4 [|b5 [|]]]]]]]; try done. rewrite !Forall_cons in Ha, Hb. destruct_and!.
  unfold ol_txrx_peer_find_mac_addr_cmp, bytes_abcd, bytes_ef. rewrite negb_false_iff, andb_true_iff, !Z.eqb_eq.
  change (of_le4 a0 a1 a2 a3 = of_le4 b0 b1 b2 b3 ∧ a4 + 256 * a5 = b4 + 256 * b5 ↔ [a0; a1; a2; a3; a4; a5] = [b0; b1; b2; b3; b4; b5]). split.
  - intros [E1 E2]. apply of_le4_inj in E1 as (-> & -> & -> & ->); [|done..]. unfold is_u8 in *.
    assert (a4 = b4 ∧ a5 = b5) as [-> ->] by lia. done.
  - by intros [= -> -> -> -> -> ->].
Qed.

Lemma unref_taken s J p P :
  peer_inv s J None → peers s !! p = Some P → ∃ s', unref (put_peer s p (P <| ref_cnt ::= λ n, n + 1 |>)) p = Some s' ∧ s' = s.
Proof.
  intros Hinv HP. pose proof (take_ref s J None p P Hinv HP) as Hinv1. destruct (r_cnt s J (pi_refs _ _ _ Hinv) p P HP) as (_ & Hpos & _).
  destruct (unref_inv _ J None p _ Hinv1 (lookup_insert_eq _ _ _)) as (s2 & E2 & _ & H2). unfold unref. rewrite E2.
  change (ref_cnt (P <| ref_cnt ::= λ n, n + 1 |>)) with (ref_cnt P + 1) in H2. destruct (Z.eqb_spec (ref_cnt P + 1) 1); [lia|].
  exists s2. split; [done|]. rewrite H2. replace (ref_cnt P + 1 - 1) with (ref_cnt P) by lia.
  assert (P <| ref_cnt ::= λ n, n + 1 |> <| ref_cnt := ref_cnt P |> = P) as -> by by destruct P.
  destruct s. unfold put_peer, set_field. cbn in *. by rewrite insert_insert_eq, insert_id.
Qed.

(** The lookups, in a state with the invariant whose peers have six-byte
    addresses.  Looking an address up gives a valid peer with this very address
    and the low byte of its local id, if there is one, and nothing else, and leaves the device
    as it was, the borrowed reference returned; a local id other than the
    invalid one finds a valid peer that has it or none, and the valid peer [P]
    that has one is found by it; a peer id finds a valid peer or none.  No
    lookup uses freed memory. *)
Theorem lookups_exact s J mac :
  peer_inv s J None → mac_ok mac → (∀ p P, peers s !! p = Some P → mac_ok (mac_addr P)) →
  (∃ r, ol_txrx_find_peer_by_addr s mac = Some (s, r) ∧
     match r with
     | Some (p, i) => ∃ P, peers s !! p = Some P ∧ mac_addr P = mac ∧ valid P = true ∧ u8 (local_id P) = i
     | None => ∀ p P, peers s !! p = Some P → mac_addr P = mac → valid P = false
     end) ∧
  (∀ i, 0 <= i → ∃ r, ol_txrx_peer_find_by_local_id s i = Some r ∧
     ∀ p, r = Some p → ∃ P, peers s !! p = Some P ∧ valid P = true ∧ local_id P = i) ∧
  (∀ p P, peers s !! p = Some P → valid P = true → local_id P ≠ OL_TXRX_INVALID_LOCAL_PEER_ID →
     ol_txrx_peer_find_by_local_id s (local_id P) = Some (Some p)) ∧
  (∀ id, 0 <= id → ∃ r, ol_txrx_peer_find_by_id s id = Some r ∧ ∀ p, r = Some p → ∃ P, peers s !! p = Some P ∧ valid P = true).
Proof.
  intros Hinv Hmac Hmacs. pose proof Hinv as [Hwf Hrefs []]. split; [|split; [|split]].
  - unfold ol_txrx_find_peer_by_addr, ol_txrx_peer_find_hash_find_inc_ref.
    match goal with |- context [find_inc_ref s mac ?f] => destruct (find_inc_inv s J None mac f Hinv) as (s1 & r & E1 & Hr) end.
    rewrite E1. cbn [mbind option_bind]. destruct r as [p|]; cbn [find_and_unref].
    + destruct Hr as (P & HP & Hf & -> & _). set (P1 := P <| ref_cnt ::= λ n, n + 1 |>). set (s1 := put_peer s p P1).
      assert (peers s1 !! p = Some P1) as -> by apply lookup_insert_eq. cbn [mbind option_bind].
      destruct (unref_taken s J p P Hinv HP) as (s' & E & ->). unfold s1, P1. rewrite E. cbn [mbind option_bind].
      eexists. split; [reflexivity|]. exists P. apply andb_true_iff in Hf as [Hf1 Hf2]. apply negb_true_iff, mac_cmp_eq in Hf1; [|done|by eapply Hmacs].
      by split_and!.
    + destruct Hr as [-> Hr]. exists None. split; [done|]. intros p P HP E. specialize (Hr p P HP ltac:(by rewrite E)).
      apply andb_false_iff in Hr as [Hr|Hr]; [|done]. apply negb_false_iff in Hr.
      assert (ol_txrx_peer_find_mac_addr_cmp mac (mac_addr P) = false) by (apply mac_cmp_eq; [done|by eapply Hmacs|done]). congruence.
  - intros i Hi. unfold ol_txrx_peer_find_by_local_id. destruct (_ || _) eqn:E; [by exists None|]. apply orb_false_iff in E as [_ E].
    apply Z.leb_gt in E. destruct (lookup_lt_is_Some_2 (local_map s) (Z.to_nat i)) as [r Hr]; [lia|]. exists r. split; [done|].
    intros p ->. destruct (l_used0 i p Hi Hr) as (P & HP & Hv & Eid & _). by exists P.
  - intros p P HP Hv Hi. destruct (l_id0 p P HP Hv ltac:(done) Hi) as [Hr Hm]. unfold ol_txrx_peer_find_by_local_id.
    destruct (Z.eqb_spec (local_id P) OL_TXRX_INVALID_LOCAL_PEER_ID); [done|]. cbn [orb].
    destruct (Z.leb_spec OL_TXRX_NUM_LOCAL_PEER_IDS (local_id P)); [lia|done].
  - intros id Hid. unfold ol_txrx_peer_find_by_id. destruct (Z.ltb_spec (max_peer_id s) id); [by exists None|].
    destruct (entry_some s id Hwf) as [e He]; [lia|]. rewrite He. cbn [mbind option_bind]. destruct (id_peer e) as [p|] eqn:Ep; [|by exists None].
    destruct (r_map _ _ Hrefs _ _ He) as [_ Hq]. destruct (Hq p Ep) as [_ [P HP]]. rewrite HP. cbn [mbind option_bind].
    destruct (valid P) eqn:Ev; [|by exists None]. exists (Some p). split; [done|]. intros q [= <-]. by exists P.
Qed.

(** *** A new device *)

Lemma log2_loop_spec n v k fuel :
  0 <= v → 2 ^ (Z.of_nat n) <= 2 * v + 1 → v < 2 ^ Z.of_nat n → (n <= fuel)%nat → log2_loop fuel v k = Some (k + Z.of_nat n).
Proof.
  revert v k fuel. induction n as [|n IH]; intros v k fuel H0 Hlo Hhi Hf.
  - assert (v = 0) as -> by (cbn in Hhi; lia). destruct fuel; cbn; do 2 f_equal; lia.
  - destruct fuel as [|fuel]; [lia|]. cbn [log2_loop]. rewrite Nat2Z.inj_succ, Z.pow_succ_r in Hlo, Hhi by lia.
    assert (1 <= 2 ^ Z.of_nat n) by (apply Z.pow_pos_nonneg || lia; lia).
    destruct (Z.eqb_spec v 0); [lia|]. rewrite Z.shiftr_div_pow2 by lia. change (2 ^ 1) with 2.
    pose proof (Z.div_mod v 2 ltac:(lia)). pose proof (Z.mod_pos_bound v 2 ltac:(lia)).
    rewrite IH; [f_equal; lia|lia|lia|lia|lia].
Qed.

Lemma log2_ceil_spec v : 0 < v < 2 ^ 32 → ol_txrx_log2_ceil v = Some (Z.log2_up v).
Proof.
  intros Hv. unfold ol_txrx_log2_ceil. destruct (Z.eqb_spec v 0); [lia|]. pose proof (Z.log2_nonneg v) as Hnn.
  destruct (Z.log2_spec v) as [Hlo Hhi]; [lia|]. rewrite Z.pow_succ_r in Hhi by done.
  assert (Z.log2 v < 32) by (apply Z.log2_lt_pow2; lia). set (m := Z.to_nat (Z.log2 v + 1)).
  rewrite (log2_loop_spec m); [|lia| | |lia].
  2,3: unfold m; rewrite Z2Nat.id, Z.pow_add_r by lia; change (2 ^ 1) with 2; lia.
  cbn [mbind option_bind]. replace (-1 + Z.of_nat m) with (Z.log2 v) by lia.
  rewrite Z.shiftl_1_l, u32_small by (unfold is_u32; change 4294967296 with (2 ^ 32); lia). f_equal. destruct (Z.eqb_spec (2 ^ Z.log2 v) v) as [E|E].
  - symmetry. rewrite <- E at 1. by apply Z.log2_up_pow2.
  - destruct (Z.eq_dec v 1) as [->|]; [done|]. symmetry. apply Z.log2_up_unique; [lia|].
    replace (Z.pred (Z.log2 v + 1)) with (Z.log2 v) by lia.
    rewrite Z.pow_add_r by lia. change (2 ^ 1) with 2. lia.
Qed.

(** A device before its first vdev. *)
Definition no_peers s : Prop := peers s = ∅ ∧ vdevs s = ∅ ∧ vdev_list s = [] ∧ 0 <= max_peer_id s < 2 ^ 24.

Lemma free_ids_seq n i :
  0 <= i → i + Z.of_nat n = OL_TXRX_NUM_LOCAL_PEER_IDS →
  free_ids (seqZ 1 OL_TXRX_NUM_LOCAL_PEER_IDS ++ [OL_TXRX_NUM_LOCAL_PEER_IDS]) i (seqZ i (Z.of_nat n)).
Proof.
  revert i. induction n as [|n IH]; intros i H0 Hi; [change (seqZ i (Z.of_nat 0)) with (@nil Z); cbn [free_ids]; lia|]. rewrite (seqZ_cons i) by lia. cbn [free_ids].
  split; [done|]. split; [lia|]. exists (Z.succ i). split.
  - rewrite lookup_app_l by (rewrite length_seqZ; lia). apply lookup_seqZ. lia.
  - replace (Z.pred (Z.of_nat (S n))) with (Z.of_nat n) by lia. apply IH; lia.
Qed.

Lemma start_inv s :
  no_peers s → ∃ s', ol_txrx_peer_find_attach s true true = Some (s', 0) ∧ mask s' = 2 ^ Z.log2_up ((max_peer_id s + 1) * 2) - 1 ∧
    peer_inv (ol_txrx_local_peer_id_pool_init s') [] None.
Proof.
  intros (Ep & Ev & El & Hmax). unfold ol_txrx_peer_find_attach, ol_txrx_peer_find_map_attach, ol_txrx_peer_find_hash_attach. cbn [max_peer_id].
  change (max_peer_id (s <| peer_id_to_obj_map := _ |>)) with (max_peer_id s). rewrite Z.shiftr_0_r, log2_ceil_spec by lia.
  cbn [negb Z.eqb mbind option_bind]. rewrite Z.shiftl_1_l. set (k := Z.log2_up _).
  assert (0 < 2 ^ k) by (apply Z.pow_pos_nonneg; [lia|apply Z.log2_up_nonneg]).
  eexists. split; [reflexivity|]. split; [done|]. split; split; cbn.
  - lia.
  - apply length_replicate.
  - lia.
  - rewrite length_replicate. f_equal. lia.
  - intros i l [-> _]%lookup_replicate. split; [constructor|]. intros p. split; [by intros ?%not_elem_of_nil|]. intros (P & HP & _). by rewrite Ep in HP.
  - intros p P HP. by rewrite Ep in HP.
  - intros v V HV. by rewrite Ev in HV.
  - intros p P HP. by rewrite Ep in HP.
  - rewrite El, Ev. split; [constructor|]. split; [|done]. intros v. split; [by intros ?%not_elem_of_nil|by intros (V & ? & _)].
  - intros p P HP. by rewrite Ep in HP.
  - by intros p ?%not_elem_of_nil.
  - intros i e [-> _]%lookup_replicate. done.
  - intros v V p HV. by rewrite Ev in HV.
  - done.
  - done.
  - done.
  - exists (seqZ 0 OL_TXRX_NUM_LOCAL_PEER_IDS). split; [apply NoDup_seqZ|]. split; [by apply (free_ids_seq 34 0)|].
    intros i p _ Hi. by apply (lookup_replicate_1 _ _ _ _) in Hi as [].
  - intros i p _ Hi. by apply (lookup_replicate_1 _ _ _ _) in Hi as [].
  - intros p P HP. by rewrite Ep in HP.
Qed.

(** *** The end *)

Definition same_hash s s' : Prop := mask s' = mask s ∧ idx_bits s' = idx_bits s ∧ length (bins s') = length (bins s).
Lemma unref_one s p P :
  peer_wf s → peers s !! p = Some P → ∃ s1 s', upd_peer s p (λ P, P <| ref_cnt := 1 |>) = Some s1 ∧ unref s1 p = Some s' ∧
    peer_wf s' ∧ peers s' = delete p (peers s) ∧ same_hash s s'.
Proof.
  intros Hwf HP. destruct (w_vdev s Hwf p P HP) as (v & V & Hv & HV & _). set (P1 := P <| ref_cnt := 1 |>).
  set (P2 := P1 <| ref_cnt := 1 - 1 |>). set (s1 := put_peer s p P1). set (s2 := put_peer s1 p P2).
  assert (peer_wf s2) as Hwf2 by (apply (wf_put_peer_ids s1 p P1); try done; [by apply (wf_put_peer_ids s p P)|apply lookup_insert_eq]).
  destruct (delete_peer_spec s2 p P2 v V (local_id P1) Hwf2 (lookup_insert_eq _ _ _) Hv HV)
    as (s' & w & E & Ep & Ev & Eb & Em & [= O1 O2 O3 _ _ _ O7]).
  assert (length (bins s') = length (bins s)) as Elen.
  { pose proof (delete_wf s2 s' p P2 v V w Hwf2 (lookup_insert_eq _ _ _) Hv HV Ep Ev Eb ltac:(by rewrite Em, length_fmap) ltac:(by rewrite O1, O2, O3, O7)) as Hw.
    rewrite (w_bins_len s' Hw), (w_bins_len s Hwf), O1. done. }
  exists s1, s'. unfold upd_peer. rewrite HP. split; [done|]. split; [|split; [|split; [|by split_and!]]].
  - unfold unref, ol_txrx_peer_unref_delete. assert (peers s1 !! p = Some P1) as -> by apply lookup_insert_eq. cbn [mbind option_bind].
    change (vdev P1) with (vdev P). rewrite Hv. change (vdevs s1) with (vdevs s). rewrite HV. cbn [mbind option_bind].
    change (ref_cnt P1 =? 0) with false. change (negb (ref_cnt P1 - 1 =? 0)) with false. cbn match. change (P1 <| ref_cnt := ref_cnt P1 - 1 |>) with P2.
    fold s2. by rewrite E.
  - apply (delete_wf s2 s' p P2 v V w Hwf2 (lookup_insert_eq _ _ _) Hv HV Ep Ev Eb); [by rewrite Em, length_fmap|by rewrite O1, O2, O3, O7].
  - rewrite Ep. unfold s2, s1. cbn. by rewrite !delete_insert_eq.
Qed.

Lemma same_hash_trans s1 s2 s3 : same_hash s1 s2 → same_hash s2 s3 → same_hash s1 s3.
Proof. intros (? & ? & ?) (? & ? & ?). split_and!; congruence. Qed.
Lemma same_hash_bin s s' a : same_hash s s' → bin_of s' a = bin_of s a.
Proof. intros (E1 & E2 & _). unfold bin_of, ol_txrx_peer_find_hash_index. by rewrite E1, E2. Qed.

Lemma erase_list_all l s :
  peer_wf s → NoDup l → (∀ p, p ∈ l → is_Some (peers s !! p)) →
  ∃ s', erase_list s l = Some s' ∧ peer_wf s' ∧ same_hash s s' ∧ ∀ q Q, peers s' !! q = Some Q ↔ q ∉ l ∧ peers s !! q = Some Q.
Proof.
  revert s. induction l as [|p l IH]; intros s Hwf Hnd Hl.
  { exists s. split_and!; try done. intros q Q. split; [intros HQ; split; [apply not_elem_of_nil|done]|by intros [_ ?]]. }
  apply NoDup_cons in Hnd as [Hp Hnd]. destruct (Hl p ltac:(by constructor)) as [P HP].
  destruct (unref_one s p P Hwf HP) as (s1 & s2 & E1 & E2 & Hwf2 & Ep & Hsame). cbn [erase_list]. rewrite E1. cbn [mbind option_bind].
  rewrite E2. cbn [mbind option_bind]. destruct (IH s2 Hwf2 Hnd) as (s' & E & Hwf' & Hsame' & Hq).
  { intros q Hq. rewrite Ep, lookup_delete_ne; [apply Hl; by constructor|]. by intros ->. }
  exists s'. split; [done|]. split; [done|]. split; [by eapply same_hash_trans|]. intros q Q. rewrite Hq, Ep, lookup_delete_Some, not_elem_of_cons.
  naive_solver.
Qed.

Lemma erase_bins_all n i s :
  peer_wf s → (i + n = length (bins s))%nat → (∀ q Q, peers s !! q = Some Q → (i <= bin_of s (mac_addr Q))%nat) →
  ∃ s', erase_bins (seq i n) s = Some s' ∧ peer_wf s' ∧ peers s' = ∅.
Proof.
  revert i s. induction n as [|n IH]; intros i s Hwf Hn Hi.
  { exists s. split; [done|]. split; [done|]. apply map_empty. intros q. apply eq_None_not_Some. intros [Q HQ].
    pose proof (Hi q Q HQ). pose proof (hash_index_range s (mac_addr Q) Hwf). lia. }
  cbn [seq erase_bins]. destruct (lookup_lt_is_Some_2 (bins s) i) as [l Hl]; [lia|]. rewrite Hl. cbn [mbind option_bind].
  destruct (w_hash s Hwf i l Hl) as [Hnd Hin]. destruct (erase_list_all l s Hwf Hnd) as (s1 & E1 & Hwf1 & Hsame & Hq).
  { intros p Hp. apply Hin in Hp as (P & HP & _). by exists P. }
  rewrite E1. cbn [mbind option_bind]. apply IH; [done|destruct Hsame as (_ & _ & ->); lia|]. intros q Q HQ. apply Hq in HQ as [Hnl HQ].
  rewrite (same_hash_bin s s1 _ Hsame). specialize (Hi q Q HQ). destruct (decide (bin_of s (mac_addr Q) = i)) as [E|]; [|lia].
  exfalso. apply Hnl, Hin. by exists Q.
Qed.

Lemma hash_erase_all s : peer_wf s → ∃ s', ol_txrx_peer_find_hash_erase s = Some s' ∧ peer_wf s' ∧ peers s' = ∅.
Proof.
  intros Hwf. unfold ol_txrx_peer_find_hash_erase. apply erase_bins_all; [done|by rewrite (w_bins_len s Hwf)|lia].
Qed.

(** The life of the peers of a device.  On a device without peers whose
    peer ids are below 2^24 the tables are set up: the hash table has the
    smallest power of two of bins that is not below twice the number of ids,
    and if an allocation fails the attach fails and leaves no tables.  After
    any legal sequence of calls and messages, whatever references are still
    held, the end of the device erases every peer and no freed peer or vdev is
    used on the way. *)
Theorem peer_device_lifetime s0 :
  no_peers s0 →
  ol_txrx_peer_find_attach s0 false true = Some (s0, 1) ∧
  (∃ s, ol_txrx_peer_find_attach s0 true false = Some (s, 1) ∧ peer_id_to_obj_map s = [] ∧ bins s = bins s0) ∧
  ∃ s, ol_txrx_peer_find_attach s0 true true = Some (s, 0) ∧
    Z.of_nat (length (bins s)) = 2 ^ Z.log2_up ((max_peer_id s0 + 1) * 2) ∧
    ∀ ops, legal_run (ol_txrx_local_peer_id_pool_init s, []) ops →
      ∃ s1 J s2, run (ol_txrx_local_peer_id_pool_init s, []) ops = Some (s1, J) ∧
        ol_txrx_peer_find_hash_erase s1 = Some s2 ∧ peers s2 = ∅.
Proof.
  intros H0. split; [done|]. destruct (start_inv s0 H0) as (s & E & Emask & Hinv). split.
  - destruct H0 as (_ & _ & _ & Hmax). unfold ol_txrx_peer_find_attach, ol_txrx_peer_find_map_attach, ol_txrx_peer_find_hash_attach.
    change (max_peer_id (s0 <| peer_id_to_obj_map := _ |>)) with (max_peer_id s0). rewrite Z.shiftr_0_r, log2_ceil_spec by lia.
    eexists. by split.
  - exists s. split; [done|]. split.
    { pose proof (w_bins_len _ (pi_wf _ _ _ Hinv)) as Hlen. pose proof (w_mask _ (pi_wf _ _ _ Hinv)). cbn in *. rewrite Hlen. lia. }
    intros ops Hl. destruct (peer_run_inv _ [] ops Hinv Hl) as (s1 & J & E1 & Hinv1).
    destruct (hash_erase_all s1 (pi_wf _ _ _ Hinv1)) as (s2 & E2 & _ & Ep). by exists s1, J, s2.
Qed.

End structure.
