(* ===== verification/PeerDemo.v ===== *)
(** The peers of a device with the peer ids 0 to 15, two of them on virtual
    device 1.  Whether a run keeps to [legal] is decided by computation. *)
From S2P Require Import Prelude PeerRefs.

#[export] Instance demo_consts : PeerConsts := {
  HTT_INVALID_PEER := 0xffff; OL_TXRX_PEER_STATE_INVALID := 0; OL_TXRX_PEER_STATE_DISC := 1 }.

(** ** Deciding that a run is legal *)

#[export] Instance usable_dec (o : option ol_txrx_peer_t) : Decision (∃ P, o = Some P ∧ valid P = true).
Proof.
  destruct o as [P|]; [|right; naive_solver]. destruct (valid P) eqn:E; [left; eauto|right]. intros (Q & [= <-] & HQ). congruence.
Defined.
#[export] Instance attached_dec (o : option ol_txrx_vdev_t) : Decision (∃ V, o = Some V ∧ delete_pending V = false).
Proof.
  destruct o as [V|]; [|right; naive_solver]. destruct (delete_pending V) eqn:E; [right|left; eauto]. intros (U & [= <-] & HU). congruence.
Defined.
#[export] Instance fresh_dec {A} (m : gmap Z A) (mem : option Z) : Decision (∀ p, mem = Some p → m !! p = None).
Proof.
  destruct mem as [p|]; [|by left]. destruct (m !! p) eqn:E; [right|left].
  - intros H. specialize (H p eq_refl). congruence.
  - intros q [= <-]. exact E.
Defined.
#[export] Instance mappable_dec (r : option (pdevState * option Z)) (R : Prop) (o : option ol_txrx_peer_id_map) `{Decision R} :
  Decision (∀ p s1, r = Some (s1, Some p) → R ∧ ∀ e, o = Some e → id_peer e = None ∨ id_peer e = Some p).
Proof.
  destruct r as [[s1 [p|]]|]; [|left; naive_solver..].
  destruct (decide R) as [HR|HR]; [|right; intros Hr; apply HR; by destruct (Hr p s1 eq_refl)].
  destruct o as [e|]; [|left; naive_solver].
  destruct (decide (id_peer e = None ∨ id_peer e = Some p)) as [He|He]; [left|right]; naive_solver.
Defined.
#[export] Instance peer_legal_dec st op : Decision (legal st op).
Proof. destruct st as [s J], op; cbn [legal]; apply _. Defined.
#[export] Instance peer_legal_run_dec st ops : Decision (legal_run st ops).
Proof.
  revert st. induction ops as [|op ops IH]; intros st; cbn [legal_run]; [by left|]. apply and_dec; [apply _|].
  destruct (exec st op) as [st'|]; [|by left]. destruct (IH st'); [left; congruence|right; naive_solver].
Defined.

Ltac decided := apply (bool_decide_unpack _); vm_compute; exact I.

(** ** The device *)

Definition demo_device : pdevState := mk_pdev ∅ ∅ [] 0 0 [] [] 0 [] 15 [] [].
Definition demo_start : pdevState :=
  match ol_txrx_peer_find_attach demo_device true true with
  | Some (s, _) => ol_txrx_local_peer_id_pool_init s
  | None => demo_device
  end.
Lemma demo_no_peers : no_peers demo_device.
Proof. split; [done|]. split; [done|]. split; [done|]. cbn. lia. Qed.
Lemma demo_peer_inv : peer_inv demo_start [] None.
Proof. destruct (start_inv demo_device demo_no_peers) as (s & E & _ & H). unfold demo_start. by rewrite E. Qed.

Definition mac_V : list Z := [2; 0; 0; 0; 0; 1].
Definition mac_A : list Z := [2; 0; 0; 0; 0; 10].
Definition mac_B : list Z := [2; 0; 0; 0; 0; 11].

(** Peers 10 and 11 are attached and [A] is mapped to the id 3 twice. *)
Definition demo_setup : list peer_op :=
  [OpVdevAttach (Some 1) mac_V false; OpAttach 1 mac_A (Some 10); OpAttach 1 mac_B (Some 11); OpMap 3 1 mac_A 1; OpMap 3 1 mac_A 1].
(** A user takes a reference to [A] while it is detached and unmapped, and the
    peer goes when the user has dropped it; the vdev is detached while it still
    has the peers. *)
Definition demo_leave : list peer_op := [OpFind mac_A true; OpDetach 10; OpVdevDetach 1; OpUnmap 3; OpUnmap 3].
Definition demo_state (ops : list peer_op) : pdevState * list Z := default (demo_start, []) (run (demo_start, []) ops).

Example last_reference_frees :
  is_Some (peers (demo_state (demo_setup ++ demo_leave)).1 !! 10) ∧
  peers (demo_state (demo_setup ++ demo_leave ++ [OpPut 10])).1 !! 10 = None.
Proof. split; vm_compute; [by eexists|done]. Qed.

(** The detached vdev is out of the device's list, and exists until its second
    peer is gone too; detaching it again in the meantime would be an error. *)
Definition demo_end : list peer_op := [OpPut 10; OpDetach 11; OpMap 4 1 mac_B 1; OpUnmap 4].
Example vdev_waits_for_peers :
  let s := (demo_state (demo_setup ++ demo_leave)).1 in
  vdev_list s = [] ∧ delete_pending <$> vdevs s !! 1 = Some true ∧ ol_txrx_vdev_detach s 1 = None ∧
  vdevs (demo_state (demo_setup ++ demo_leave ++ demo_end)).1 !! 1 = None.
Proof. by vm_compute. Qed.

(** Flaws of the code on small runs.  A map message with the invalid id leaves
    a reference to [A] that nobody will drop. *)
Example invalid_id_leaks :
  ref_cnt <$> peers (demo_state demo_setup).1 !! 10 = Some 3 ∧
  (s ← ol_rx_peer_map_handler (demo_state demo_setup).1 HTT_INVALID_PEER 1 mac_A 1; ref_cnt <$> peers s !! 10) = Some 4.
Proof. by vm_compute. Qed.

(** The id 3 of [A] is mapped to [B]: [B] gets a reference, but the unmap drops
    one of [A]. *)
Example remap_moves_reference :
  let s := (demo_state demo_setup).1 in
  let refs s := (ref_cnt <$> peers s !! 10, ref_cnt <$> peers s !! 11) in
  refs s = (Some 3, Some 2) ∧
  refs <$> (s ← ol_rx_peer_map_handler s 3 1 mac_B 1; ol_rx_peer_unmap_handler s 3) = Some (Some 2, Some 2).
Proof. by vm_compute. Qed.

(** ** Witnesses *)

Lemma demo_peer_state_inv ops : legal_run (demo_start, []) ops → peer_inv (demo_state ops).1 (demo_state ops).2 None.
Proof. intros Hl. destruct (peer_run_inv demo_start [] ops demo_peer_inv Hl) as (s' & J & E & H). unfold demo_state. by rewrite E. Qed.

Lemma demo_setup_inv : peer_inv (demo_state demo_setup).1 [] None.
Proof.
  assert ((demo_state demo_setup).2 = []) as <- by (vm_compute; reflexivity). apply demo_peer_state_inv. decided.
Qed.

Lemma peers_safe_witness :
  ∃ s' J', run (demo_start, []) (demo_setup ++ demo_leave) = Some (s', J') ∧ peer_inv s' J' None ∧
    ∀ p, is_Some (peers s' !! p) ↔
      (∃ P, peers s' !! p = Some P ∧ (valid P = true ∨ fw_create_pending P = 1)) ∨
      (∃ i e, peer_id_to_obj_map s' !! i = Some e ∧ id_peer e = Some p) ∨ p ∈ J'.
Proof. apply (peers_safe demo_start [] (demo_setup ++ demo_leave)); [apply demo_peer_inv|decided]. Defined.

Lemma peer_device_lifetime_witness :
  no_peers demo_device ∧ ∃ s, ol_txrx_peer_find_attach demo_device true true = Some (s, 0) ∧ Z.of_nat (length (bins s)) = 32 ∧
    ∃ s1 J s2, run (ol_txrx_local_peer_id_pool_init s, []) (demo_setup ++ demo_leave) = Some (s1, J) ∧
      ol_txrx_peer_find_hash_erase s1 = Some s2 ∧ peers s2 = ∅.
Proof.
  split; [apply demo_no_peers|]. destruct (peer_device_lifetime demo_device demo_no_peers) as (_ & _ & s & E & Hlen & H).
  exists s. split; [exact E|]. split; [exact Hlen|]. apply H.
  replace (ol_txrx_local_peer_id_pool_init s) with demo_start by (unfold demo_start; rewrite E; reflexivity). decided.
Defined.

(** [A] roams while its id 3 has two maps; the id then goes to [B]. *)
Lemma roaming_absorbed_witness :
  ∃ s1 s2 s3, run ((demo_state demo_setup).1, []) [OpForceDelete 10] = Some (s1, []) ∧ run (s1, []) [OpMap 3 1 mac_B 1] = Some (s2, []) ∧
    run (s2, []) (replicate 2 (OpUnmap 3)) = Some (s3, []) ∧ peer_inv s3 [] None ∧
    (peer_id_entry s3 3 = Some (mk_map None 0 0) ∨
     ∃ B PB, peers s1 !! B = Some PB ∧ ol_txrx_peer_find_mac_addr_cmp mac_B (mac_addr PB) = false ∧
       peer_id_entry s3 3 = Some (mk_map (Some B) 1 0)).
Proof.
  assert (∃ PA, peers (demo_state demo_setup).1 !! 10 = Some PA ∧ valid PA = true ∧ 3 ∈ peer_ids PA) as (PA & HPA & Hv & Hin).
  { eexists. split; [vm_compute; reflexivity|]. split; [reflexivity|]. decided. }
  destruct (roaming_absorbed (demo_state demo_setup).1 [] 10 PA 3 (mk_map (Some 10) 2 0) mac_B 1 1)
    as (s1 & s2 & s3 & E1 & E2 & E3 & Hinv & _ & H); [|exact HPA|exact Hv|exact Hin|by vm_compute..|].
  { apply demo_setup_inv. }
  exists s1, s2, s3. split; [exact E1|]. split; [exact E2|]. split; [exact E3|]. split; [exact Hinv|exact H].
Defined.

Lemma lookups_exact_witness :
  ∃ r, ol_txrx_find_peer_by_addr (demo_state demo_setup).1 mac_B = Some ((demo_state demo_setup).1, r) ∧ fst <$> r = Some 11.
Proof.
  destruct (lookups_exact (demo_state demo_setup).1 [] mac_B) as [(r & E & _) _].
  - apply demo_setup_inv.
  - decided.
  - assert (map_Forall (λ _ P, mac_ok (mac_addr P)) (peers (demo_state demo_setup).1)) as H by decided. exact H.
  - exists r. split; [exact E|]. assert (snd <$> ol_txrx_find_peer_by_addr (demo_state demo_setup).1 mac_B = Some (Some (11, 1))) as E2 by (vm_compute; reflexivity).
    rewrite E in E2. injection E2 as ->. reflexivity.
Defined.
