(* ===== verification/CdsTables.v ===== *)
(** The tables of the concurrency policy (core/cds/src/cds_concurrency.c) and
    the enumerations that index them (core/cds/inc/cds_concurrency.h).

    Each row of a table is an arm (the two long tables are cut by pairs of modes); the three entries of a row are in the order
    of [cds_conc_priority_mode], the two of an action row in that of
    [cds_band].  The arms for the MAX place holders, which are outside of the C
    arrays, are empty. *)
From S2P Require Import Prelude.

Inductive cds_chain_mode :=
  | CDS_ONE_ONE | CDS_TWO_TWO | CDS_MAX_NO_OF_CHAIN_MODE.

Inductive cds_con_mode :=
  | CDS_STA_MODE | CDS_SAP_MODE | CDS_P2P_CLIENT_MODE | CDS_P2P_GO_MODE | CDS_IBSS_MODE | CDS_MAX_NUM_OF_MODE.

Inductive cds_pcl_type :=
  | CDS_NONE | CDS_24G | CDS_5G | CDS_SCC_CH | CDS_MCC_CH | CDS_SCC_CH_24G | CDS_SCC_CH_5G | CDS_24G_SCC_CH
  | CDS_5G_SCC_CH | CDS_SCC_ON_5_SCC_ON_24_24G | CDS_SCC_ON_5_SCC_ON_24_5G | CDS_SCC_ON_24_SCC_ON_5_24G
  | CDS_SCC_ON_24_SCC_ON_5_5G | CDS_SCC_ON_5_SCC_ON_24 | CDS_SCC_ON_24_SCC_ON_5 | CDS_MCC_CH_24G
  | CDS_MCC_CH_5G | CDS_24G_MCC_CH | CDS_5G_MCC_CH | CDS_MAX_PCL_TYPE.

Inductive cds_one_connection_mode :=
  | CDS_STA_24_1x1 | CDS_STA_24_2x2 | CDS_STA_5_1x1 | CDS_STA_5_2x2 | CDS_P2P_CLI_24_1x1 | CDS_P2P_CLI_24_2x2
  | CDS_P2P_CLI_5_1x1 | CDS_P2P_CLI_5_2x2 | CDS_P2P_GO_24_1x1 | CDS_P2P_GO_24_2x2 | CDS_P2P_GO_5_1x1
  | CDS_P2P_GO_5_2x2 | CDS_SAP_24_1x1 | CDS_SAP_24_2x2 | CDS_SAP_5_1x1 | CDS_SAP_5_2x2 | CDS_IBSS_24_1x1
  | CDS_IBSS_24_2x2 | CDS_IBSS_5_1x1 | CDS_IBSS_5_2x2 | CDS_MAX_ONE_CONNECTION_MODE.

Inductive cds_two_connection_mode :=
  | CDS_STA_SAP_SCC_24_1x1 | CDS_STA_SAP_SCC_24_2x2 | CDS_STA_SAP_MCC_24_1x1 | CDS_STA_SAP_MCC_24_2x2
  | CDS_STA_SAP_SCC_5_1x1 | CDS_STA_SAP_SCC_5_2x2 | CDS_STA_SAP_MCC_5_1x1 | CDS_STA_SAP_MCC_5_2x2
  | CDS_STA_SAP_MCC_24_5_1x1 | CDS_STA_SAP_MCC_24_5_2x2 | CDS_STA_SAP_DBS_1x1 | CDS_STA_P2P_GO_SCC_24_1x1
  | CDS_STA_P2P_GO_SCC_24_2x2 | CDS_STA_P2P_GO_MCC_24_1x1 | CDS_STA_P2P_GO_MCC_24_2x2
  | CDS_STA_P2P_GO_SCC_5_1x1 | CDS_STA_P2P_GO_SCC_5_2x2 | CDS_STA_P2P_GO_MCC_5_1x1 | CDS_STA_P2P_GO_MCC_5_2x2
  | CDS_STA_P2P_GO_MCC_24_5_1x1 | CDS_STA_P2P_GO_MCC_24_5_2x2 | CDS_STA_P2P_GO_DBS_1x1
  | CDS_STA_P2P_CLI_SCC_24_1x1 | CDS_STA_P2P_CLI_SCC_24_2x2 | CDS_STA_P2P_CLI_MCC_24_1x1
  | CDS_STA_P2P_CLI_MCC_24_2x2 | CDS_STA_P2P_CLI_SCC_5_1x1 | CDS_STA_P2P_CLI_SCC_5_2x2
  | CDS_STA_P2P_CLI_MCC_5_1x1 | CDS_STA_P2P_CLI_MCC_5_2x2 | CDS_STA_P2P_CLI_MCC_24_5_1x1
  | CDS_STA_P2P_CLI_MCC_24_5_2x2 | CDS_STA_P2P_CLI_DBS_1x1 | CDS_P2P_GO_P2P_CLI_SCC_24_1x1
  | CDS_P2P_GO_P2P_CLI_SCC_24_2x2 | CDS_P2P_GO_P2P_CLI_MCC_24_1x1 | CDS_P2P_GO_P2P_CLI_MCC_24_2x2
  | CDS_P2P_GO_P2P_CLI_SCC_5_1x1 | CDS_P2P_GO_P2P_CLI_SCC_5_2x2 | CDS_P2P_GO_P2P_CLI_MCC_5_1x1
  | CDS_P2P_GO_P2P_CLI_MCC_5_2x2 | CDS_P2P_GO_P2P_CLI_MCC_24_5_1x1 | CDS_P2P_GO_P2P_CLI_MCC_24_5_2x2
  | CDS_P2P_GO_P2P_CLI_DBS_1x1 | CDS_P2P_GO_SAP_SCC_24_1x1 | CDS_P2P_GO_SAP_SCC_24_2x2
  | CDS_P2P_GO_SAP_MCC_24_1x1 | CDS_P2P_GO_SAP_MCC_24_2x2 | CDS_P2P_GO_SAP_SCC_5_1x1
  | CDS_P2P_GO_SAP_SCC_5_2x2 | CDS_P2P_GO_SAP_MCC_5_1x1 | CDS_P2P_GO_SAP_MCC_5_2x2
  | CDS_P2P_GO_SAP_MCC_24_5_1x1 | CDS_P2P_GO_SAP_MCC_24_5_2x2 | CDS_P2P_GO_SAP_DBS_1x1
  | CDS_P2P_CLI_SAP_SCC_24_1x1 | CDS_P2P_CLI_SAP_SCC_24_2x2 | CDS_P2P_CLI_SAP_MCC_24_1x1
  | CDS_P2P_CLI_SAP_MCC_24_2x2 | CDS_P2P_CLI_SAP_SCC_5_1x1 | CDS_P2P_CLI_SAP_SCC_5_2x2
  | CDS_P2P_CLI_SAP_MCC_5_1x1 | CDS_P2P_CLI_SAP_MCC_5_2x2 | CDS_P2P_CLI_SAP_MCC_24_5_1x1
  | CDS_P2P_CLI_SAP_MCC_24_5_2x2 | CDS_P2P_CLI_SAP_DBS_1x1 | CDS_MAX_TWO_CONNECTION_MODE.

Inductive cds_conc_next_action :=
  | CDS_NOP | CDS_DBS | CDS_DBS_DOWNGRADE | CDS_SINGLE_MAC | CDS_SINGLE_MAC_UPGRADE
  | CDS_MAX_CONC_NEXT_ACTION.

#[export] Instance cds_chain_mode_eq_dec : EqDecision cds_chain_mode.
Proof. solve_decision. Defined.
#[export] Instance cds_con_mode_eq_dec : EqDecision cds_con_mode.
Proof. solve_decision. Defined.
#[export] Instance cds_pcl_type_eq_dec : EqDecision cds_pcl_type.
Proof. solve_decision. Defined.
#[export] Instance cds_conc_next_action_eq_dec : EqDecision cds_conc_next_action.
Proof. solve_decision. Defined.

(** The place holders are the only values outside of the tables. *)
Definition is_max_one (c : cds_one_connection_mode) : bool := match c with CDS_MAX_ONE_CONNECTION_MODE => true | _ => false end.
Definition is_max_two (c : cds_two_connection_mode) : bool := match c with CDS_MAX_TWO_CONNECTION_MODE => true | _ => false end.

Definition first_connection_pcl_table (m : cds_con_mode) : list cds_pcl_type :=
  match m with
  | CDS_STA_MODE => [CDS_NONE; CDS_NONE; CDS_NONE]
  | CDS_SAP_MODE => [CDS_5G; CDS_5G; CDS_5G]
  | CDS_P2P_CLIENT_MODE => [CDS_5G; CDS_5G; CDS_5G]
  | CDS_P2P_GO_MODE => [CDS_5G; CDS_5G; CDS_5G]
  | CDS_IBSS_MODE => [CDS_NONE; CDS_NONE; CDS_NONE]
  | CDS_MAX_NUM_OF_MODE => []
  end.

Definition second_connection_pcl_dbs_table (c : cds_one_connection_mode) (m : cds_con_mode) : list cds_pcl_type :=
  match c, m with
  | CDS_STA_24_1x1, CDS_STA_MODE => [CDS_5G_SCC_CH; CDS_5G_SCC_CH; CDS_5G_SCC_CH]
  | CDS_STA_24_1x1, CDS_SAP_MODE => [CDS_5G_SCC_CH; CDS_5G_SCC_CH; CDS_5G_SCC_CH]
  | CDS_STA_24_1x1, CDS_P2P_CLIENT_MODE => [CDS_5G_SCC_CH; CDS_5G_SCC_CH; CDS_5G_SCC_CH]
  | CDS_STA_24_1x1, CDS_P2P_GO_MODE => [CDS_5G_SCC_CH; CDS_5G_SCC_CH; CDS_5G_SCC_CH]
  | CDS_STA_24_1x1, CDS_IBSS_MODE => [CDS_5G; CDS_5G; CDS_5G]
  | CDS_STA_24_2x2, CDS_STA_MODE => [CDS_5G_SCC_CH; CDS_5G_SCC_CH; CDS_5G_SCC_CH]
  | CDS_STA_24_2x2, CDS_SAP_MODE => [CDS_5G_SCC_CH; CDS_5G_SCC_CH; CDS_5G_SCC_CH]
  | CDS_STA_24_2x2, CDS_P2P_CLIENT_MODE => [CDS_5G_SCC_CH; CDS_5G_SCC_CH; CDS_5G_SCC_CH]
  | CDS_STA_24_2x2, CDS_P2P_GO_MODE => [CDS_5G_SCC_CH; CDS_5G_SCC_CH; CDS_5G_SCC_CH]
  | CDS_STA_24_2x2, CDS_IBSS_MODE => [CDS_5G; CDS_5G; CDS_5G]
  | CDS_STA_5_1x1, CDS_STA_MODE => [CDS_SCC_CH_24G; CDS_24G_SCC_CH; CDS_SCC_CH_24G]
  | CDS_STA_5_1x1, CDS_SAP_MODE => [CDS_SCC_CH_24G; CDS_24G_SCC_CH; CDS_SCC_CH_24G]
  | CDS_STA_5_1x1, CDS_P2P_CLIENT_MODE => [CDS_SCC_CH_24G; CDS_24G_SCC_CH; CDS_SCC_CH_24G]
  | CDS_STA_5_1x1, CDS_P2P_GO_MODE => [CDS_SCC_CH_24G; CDS_24G_SCC_CH; CDS_SCC_CH_24G]
  | CDS_STA_5_1x1, CDS_IBSS_MODE => [CDS_24G; CDS_24G; CDS_24G]
  | CDS_STA_5_2x2, CDS_STA_MODE => [CDS_SCC_CH_24G; CDS_24G_SCC_CH; CDS_SCC_CH_24G]
  | CDS_STA_5_2x2, CDS_SAP_MODE => [CDS_SCC_CH_24G; CDS_24G_SCC_CH; CDS_SCC_CH_24G]
  | CDS_STA_5_2x2, CDS_P2P_CLIENT_MODE => [CDS_SCC_CH_24G; CDS_24G_SCC_CH; CDS_SCC_CH_24G]
  | CDS_STA_5_2x2, CDS_P2P_GO_MODE => [CDS_SCC_CH_24G; CDS_24G_SCC_CH; CDS_SCC_CH_24G]
  | CDS_STA_5_2x2, CDS_IBSS_MODE => [CDS_24G; CDS_24G; CDS_24G]
  | CDS_P2P_CLI_24_1x1, CDS_STA_MODE => [CDS_5G_SCC_CH; CDS_5G_SCC_CH; CDS_5G_SCC_CH]
  | CDS_P2P_CLI_24_1x1, CDS_SAP_MODE => [CDS_5G_SCC_CH; CDS_5G_SCC_CH; CDS_5G_SCC_CH]
  | CDS_P2P_CLI_24_1x1, CDS_P2P_CLIENT_MODE => [CDS_5G_SCC_CH; CDS_5G_SCC_CH; CDS_5G_SCC_CH]
  | CDS_P2P_CLI_24_1x1, CDS_P2P_GO_MODE => [CDS_5G_SCC_CH; CDS_5G_SCC_CH; CDS_5G_SCC_CH]
  | CDS_P2P_CLI_24_1x1, CDS_IBSS_MODE => [CDS_MAX_PCL_TYPE; CDS_MAX_PCL_TYPE; CDS_MAX_PCL_TYPE]
  | CDS_P2P_CLI_24_2x2, CDS_STA_MODE => [CDS_5G_SCC_CH; CDS_5G_SCC_CH; CDS_5G_SCC_CH]
  | CDS_P2P_CLI_24_2x2, CDS_SAP_MODE => [CDS_5G_SCC_CH; CDS_5G_SCC_CH; CDS_5G_SCC_CH]
  | CDS_P2P_CLI_24_2x2, CDS_P2P_CLIENT_MODE => [CDS_5G_SCC_CH; CDS_5G_SCC_CH; CDS_5G_SCC_CH]
  | CDS_P2P_CLI_24_2x2, CDS_P2P_GO_MODE => [CDS_5G_SCC_CH; CDS_5G_SCC_CH; CDS_5G_SCC_CH]
  | CDS_P2P_CLI_24_2x2, CDS_IBSS_MODE => [CDS_MAX_PCL_TYPE; CDS_MAX_PCL_TYPE; CDS_MAX_PCL_TYPE]
  | CDS_P2P_CLI_5_1x1, CDS_STA_MODE => [CDS_SCC_CH_24G; CDS_24G_SCC_CH; CDS_SCC_CH_24G]
  | CDS_P2P_CLI_5_1x1, CDS_SAP_MODE => [CDS_SCC_CH_24G; CDS_24G_SCC_CH; CDS_SCC_CH_24G]
  | CDS_P2P_CLI_5_1x1, CDS_P2P_CLIENT_MODE => [CDS_SCC_CH_24G; CDS_24G_SCC_CH; CDS_SCC_CH_24G]
  | CDS_P2P_CLI_5_1x1, CDS_P2P_GO_MODE => [CDS_SCC_CH_24G; CDS_24G_SCC_CH; CDS_SCC_CH_24G]
  | CDS_P2P_CLI_5_1x1, CDS_IBSS_MODE => [CDS_MAX_PCL_TYPE; CDS_MAX_PCL_TYPE; CDS_MAX_PCL_TYPE]
  | CDS_P2P_CLI_5_2x2, CDS_STA_MODE => [CDS_SCC_CH_24G; CDS_24G_SCC_CH; CDS_SCC_CH_24G]
  | CDS_P2P_CLI_5_2x2, CDS_SAP_MODE => [CDS_SCC_CH_24G; CDS_24G_SCC_CH; CDS_SCC_CH_24G]
  | CDS_P2P_CLI_5_2x2, CDS_P2P_CLIENT_MODE => [CDS_SCC_CH_24G; CDS_24G_SCC_CH; CDS_SCC_CH_24G]
  | CDS_P2P_CLI_5_2x2, CDS_P2P_GO_MODE => [CDS_SCC_CH_24G; CDS_24G_SCC_CH; CDS_SCC_CH_24G]
  | CDS_P2P_CLI_5_2x2, CDS_IBSS_MODE => [CDS_MAX_PCL_TYPE; CDS_MAX_PCL_TYPE; CDS_MAX_PCL_TYPE]
  | CDS_P2P_GO_24_1x1, CDS_STA_MODE => [CDS_5G_SCC_CH; CDS_5G_SCC_CH; CDS_5G_SCC_CH]
  | CDS_P2P_GO_24_1x1, CDS_SAP_MODE => [CDS_5G_SCC_CH; CDS_5G_SCC_CH; CDS_5G_SCC_CH]
  | CDS_P2P_GO_24_1x1, CDS_P2P_CLIENT_MODE => [CDS_5G_SCC_CH; CDS_5G_SCC_CH; CDS_5G_SCC_CH]
  | CDS_P2P_GO_24_1x1, CDS_P2P_GO_MODE => [CDS_5G; CDS_5G; CDS_5G]
  | CDS_P2P_GO_24_1x1, CDS_IBSS_MODE => [CDS_MAX_PCL_TYPE; CDS_MAX_PCL_TYPE; CDS_MAX_PCL_TYPE]
  | CDS_P2P_GO_24_2x2, CDS_STA_MODE => [CDS_5G_SCC_CH; CDS_5G_SCC_CH; CDS_5G_SCC_CH]
  | CDS_P2P_GO_24_2x2, CDS_SAP_MODE => [CDS_5G_SCC_CH; CDS_5G_SCC_CH; CDS_5G_SCC_CH]
  | CDS_P2P_GO_24_2x2, CDS_P2P_CLIENT_MODE => [CDS_5G_SCC_CH; CDS_5G_SCC_CH; CDS_5G_SCC_CH]
  | CDS_P2P_GO_24_2x2, CDS_P2P_GO_MODE => [CDS_5G; CDS_5G; CDS_5G]
  | CDS_P2P_GO_24_2x2, CDS_IBSS_MODE => [CDS_MAX_PCL_TYPE; CDS_MAX_PCL_TYPE; CDS_MAX_PCL_TYPE]
  | CDS_P2P_GO_5_1x1, CDS_STA_MODE => [CDS_SCC_CH_24G; CDS_SCC_CH_24G; CDS_SCC_CH_24G]
  | CDS_P2P_GO_5_1x1, CDS_SAP_MODE => [CDS_SCC_CH_24G; CDS_SCC_CH_24G; CDS_SCC_CH_24G]
  | CDS_P2P_GO_5_1x1, CDS_P2P_CLIENT_MODE => [CDS_SCC_CH_24G; CDS_24G_SCC_CH; CDS_SCC_CH_24G]
  | CDS_P2P_GO_5_1x1, CDS_P2P_GO_MODE => [CDS_24G; CDS_24G; CDS_24G]
  | CDS_P2P_GO_5_1x1, CDS_IBSS_MODE => [CDS_MAX_PCL_TYPE; CDS_MAX_PCL_TYPE; CDS_MAX_PCL_TYPE]
  | CDS_P2P_GO_5_2x2, CDS_STA_MODE => [CDS_SCC_CH_24G; CDS_SCC_CH_24G; CDS_SCC_CH_24G]
  | CDS_P2P_GO_5_2x2, CDS_SAP_MODE => [CDS_SCC_CH_24G; CDS_SCC_CH_24G; CDS_SCC_CH_24G]
  | CDS_P2P_GO_5_2x2, CDS_P2P_CLIENT_MODE => [CDS_SCC_CH_24G; CDS_24G_SCC_CH; CDS_SCC_CH_24G]
  | CDS_P2P_GO_5_2x2, CDS_P2P_GO_MODE => [CDS_24G; CDS_24G; CDS_24G]
  | CDS_P2P_GO_5_2x2, CDS_IBSS_MODE => [CDS_MAX_PCL_TYPE; CDS_MAX_PCL_TYPE; CDS_MAX_PCL_TYPE]
  | CDS_SAP_24_1x1, CDS_STA_MODE => [CDS_5G_SCC_CH; CDS_5G_SCC_CH; CDS_5G_SCC_CH]
  | CDS_SAP_24_1x1, CDS_SAP_MODE => [CDS_5G_SCC_CH; CDS_5G_SCC_CH; CDS_5G_SCC_CH]
  | CDS_SAP_24_1x1, CDS_P2P_CLIENT_MODE => [CDS_5G_SCC_CH; CDS_5G_SCC_CH; CDS_5G_SCC_CH]
  | CDS_SAP_24_1x1, CDS_P2P_GO_MODE => [CDS_5G_SCC_CH; CDS_5G_SCC_CH; CDS_5G_SCC_CH]
  | CDS_SAP_24_1x1, CDS_IBSS_MODE => [CDS_MAX_PCL_TYPE; CDS_MAX_PCL_TYPE; CDS_MAX_PCL_TYPE]
  | CDS_SAP_24_2x2, CDS_STA_MODE => [CDS_5G_SCC_CH; CDS_5G_SCC_CH; CDS_5G_SCC_CH]
  | CDS_SAP_24_2x2, CDS_SAP_MODE => [CDS_5G_SCC_CH; CDS_5G_SCC_CH; CDS_5G_SCC_CH]
  | CDS_SAP_24_2x2, CDS_P2P_CLIENT_MODE => [CDS_5G_SCC_CH; CDS_5G_SCC_CH; CDS_5G_SCC_CH]
  | CDS_SAP_24_2x2, CDS_P2P_GO_MODE => [CDS_5G_SCC_CH; CDS_5G_SCC_CH; CDS_5G_SCC_CH]
  | CDS_SAP_24_2x2, CDS_IBSS_MODE => [CDS_MAX_PCL_TYPE; CDS_MAX_PCL_TYPE; CDS_MAX_PCL_TYPE]
  | CDS_SAP_5_1x1, CDS_STA_MODE => [CDS_SCC_CH_24G; CDS_SCC_CH_24G; CDS_SCC_CH_24G]
  | CDS_SAP_5_1x1, CDS_SAP_MODE => [CDS_SCC_CH_24G; CDS_SCC_CH_24G; CDS_SCC_CH_24G]
  | CDS_SAP_5_1x1, CDS_P2P_CLIENT_MODE => [CDS_SCC_CH_24G; CDS_24G_SCC_CH; CDS_SCC_CH_24G]
  | CDS_SAP_5_1x1, CDS_P2P_GO_MODE => [CDS_SCC_CH_24G; CDS_SCC_CH_24G; CDS_SCC_CH_24G]
  | CDS_SAP_5_1x1, CDS_IBSS_MODE => [CDS_MAX_PCL_TYPE; CDS_MAX_PCL_TYPE; CDS_MAX_PCL_TYPE]
  | CDS_SAP_5_2x2, CDS_STA_MODE => [CDS_SCC_CH_24G; CDS_SCC_CH_24G; CDS_SCC_CH_24G]
  | CDS_SAP_5_2x2, CDS_SAP_MODE => [CDS_SCC_CH_24G; CDS_SCC_CH_24G; CDS_SCC_CH_24G]
  | CDS_SAP_5_2x2, CDS_P2P_CLIENT_MODE => [CDS_SCC_CH_24G; CDS_24G_SCC_CH; CDS_SCC_CH_24G]
  | CDS_SAP_5_2x2, CDS_P2P_GO_MODE => [CDS_SCC_CH_24G; CDS_SCC_CH_24G; CDS_SCC_CH_24G]
  | CDS_SAP_5_2x2, CDS_IBSS_MODE => [CDS_MAX_PCL_TYPE; CDS_MAX_PCL_TYPE; CDS_MAX_PCL_TYPE]
  | CDS_IBSS_24_1x1, CDS_STA_MODE => [CDS_5G_SCC_CH; CDS_5G_SCC_CH; CDS_5G_SCC_CH]
  | CDS_IBSS_24_1x1, CDS_SAP_MODE => [CDS_MAX_PCL_TYPE; CDS_MAX_PCL_TYPE; CDS_MAX_PCL_TYPE]
  | CDS_IBSS_24_1x1, CDS_P2P_CLIENT_MODE => [CDS_MAX_PCL_TYPE; CDS_MAX_PCL_TYPE; CDS_MAX_PCL_TYPE]
  | CDS_IBSS_24_1x1, CDS_P2P_GO_MODE => [CDS_MAX_PCL_TYPE; CDS_MAX_PCL_TYPE; CDS_MAX_PCL_TYPE]
  | CDS_IBSS_24_1x1, CDS_IBSS_MODE => [CDS_MAX_PCL_TYPE; CDS_MAX_PCL_TYPE; CDS_MAX_PCL_TYPE]
  | CDS_IBSS_24_2x2, CDS_STA_MODE => [CDS_5G_SCC_CH; CDS_5G_SCC_CH; CDS_5G_SCC_CH]
  | CDS_IBSS_24_2x2, CDS_SAP_MODE => [CDS_MAX_PCL_TYPE; CDS_MAX_PCL_TYPE; CDS_MAX_PCL_TYPE]
  | CDS_IBSS_24_2x2, CDS_P2P_CLIENT_MODE => [CDS_MAX_PCL_TYPE; CDS_MAX_PCL_TYPE; CDS_MAX_PCL_TYPE]
  | CDS_IBSS_24_2x2, CDS_P2P_GO_MODE => [CDS_MAX_PCL_TYPE; CDS_MAX_PCL_TYPE; CDS_MAX_PCL_TYPE]
  | CDS_IBSS_24_2x2, CDS_IBSS_MODE => [CDS_MAX_PCL_TYPE; CDS_MAX_PCL_TYPE; CDS_MAX_PCL_TYPE]
  | CDS_IBSS_5_1x1, CDS_STA_MODE => [CDS_24G_SCC_CH; CDS_24G_SCC_CH; CDS_24G_SCC_CH]
  | CDS_IBSS_5_1x1, CDS_SAP_MODE => [CDS_MAX_PCL_TYPE; CDS_MAX_PCL_TYPE; CDS_MAX_PCL_TYPE]
  | CDS_IBSS_5_1x1, CDS_P2P_CLIENT_MODE => [CDS_MAX_PCL_TYPE; CDS_MAX_PCL_TYPE; CDS_MAX_PCL_TYPE]
  | CDS_IBSS_5_1x1, CDS_P2P_GO_MODE => [CDS_MAX_PCL_TYPE; CDS_MAX_PCL_TYPE; CDS_MAX_PCL_TYPE]
  | CDS_IBSS_5_1x1, CDS_IBSS_MODE => [CDS_MAX_PCL_TYPE; CDS_MAX_PCL_TYPE; CDS_MAX_PCL_TYPE]
  | CDS_IBSS_5_2x2, CDS_STA_MODE => [CDS_24G_SCC_CH; CDS_24G_SCC_CH; CDS_24G_SCC_CH]
  | CDS_IBSS_5_2x2, CDS_SAP_MODE => [CDS_MAX_PCL_TYPE; CDS_MAX_PCL_TYPE; CDS_MAX_PCL_TYPE]
  | CDS_IBSS_5_2x2, CDS_P2P_CLIENT_MODE => [CDS_MAX_PCL_TYPE; CDS_MAX_PCL_TYPE; CDS_MAX_PCL_TYPE]
  | CDS_IBSS_5_2x2, CDS_P2P_GO_MODE => [CDS_MAX_PCL_TYPE; CDS_MAX_PCL_TYPE; CDS_MAX_PCL_TYPE]
  | CDS_IBSS_5_2x2, CDS_IBSS_MODE => [CDS_MAX_PCL_TYPE; CDS_MAX_PCL_TYPE; CDS_MAX_PCL_TYPE]
  | CDS_MAX_ONE_CONNECTION_MODE, _ | _, CDS_MAX_NUM_OF_MODE => []
  end.

Definition second_connection_pcl_nodbs_table (c : cds_one_connection_mode) (m : cds_con_mode) : list cds_pcl_type :=
  match c, m with
  | CDS_STA_24_1x1, CDS_STA_MODE => [CDS_5G; CDS_SCC_CH; CDS_SCC_CH]
  | CDS_STA_24_1x1, CDS_SAP_MODE => [CDS_5G; CDS_SCC_CH; CDS_SCC_CH_5G]
  | CDS_STA_24_1x1, CDS_P2P_CLIENT_MODE => [CDS_5G; CDS_SCC_CH; CDS_SCC_CH_5G]
  | CDS_STA_24_1x1, CDS_P2P_GO_MODE => [CDS_5G; CDS_SCC_CH; CDS_SCC_CH_5G]
  | CDS_STA_24_1x1, CDS_IBSS_MODE => [CDS_MAX_PCL_TYPE; CDS_MAX_PCL_TYPE; CDS_MAX_PCL_TYPE]
  | CDS_STA_24_2x2, CDS_STA_MODE => [CDS_5G; CDS_SCC_CH; CDS_SCC_CH]
  | CDS_STA_24_2x2, CDS_SAP_MODE => [CDS_5G; CDS_SCC_CH; CDS_SCC_CH_5G]
  | CDS_STA_24_2x2, CDS_P2P_CLIENT_MODE => [CDS_5G; CDS_SCC_CH; CDS_SCC_CH_5G]
  | CDS_STA_24_2x2, CDS_P2P_GO_MODE => [CDS_5G; CDS_SCC_CH; CDS_SCC_CH_5G]
  | CDS_STA_24_2x2, CDS_IBSS_MODE => [CDS_MAX_PCL_TYPE; CDS_MAX_PCL_TYPE; CDS_MAX_PCL_TYPE]
  | CDS_STA_5_1x1, CDS_STA_MODE => [CDS_SCC_CH_5G; CDS_SCC_CH; CDS_SCC_CH_5G]
  | CDS_STA_5_1x1, CDS_SAP_MODE => [CDS_SCC_CH_5G; CDS_SCC_CH; CDS_SCC_CH]
  | CDS_STA_5_1x1, CDS_P2P_CLIENT_MODE => [CDS_SCC_CH_5G; CDS_SCC_CH; CDS_SCC_CH]
  | CDS_STA_5_1x1, CDS_P2P_GO_MODE => [CDS_SCC_CH_5G; CDS_SCC_CH; CDS_SCC_CH]
  | CDS_STA_5_1x1, CDS_IBSS_MODE => [CDS_MAX_PCL_TYPE; CDS_MAX_PCL_TYPE; CDS_MAX_PCL_TYPE]
  | CDS_STA_5_2x2, CDS_STA_MODE => [CDS_SCC_CH_5G; CDS_SCC_CH; CDS_SCC_CH_5G]
  | CDS_STA_5_2x2, CDS_SAP_MODE => [CDS_SCC_CH_5G; CDS_SCC_CH; CDS_SCC_CH]
  | CDS_STA_5_2x2, CDS_P2P_CLIENT_MODE => [CDS_SCC_CH_5G; CDS_SCC_CH; CDS_SCC_CH]
  | CDS_STA_5_2x2, CDS_P2P_GO_MODE => [CDS_SCC_CH_5G; CDS_SCC_CH; CDS_SCC_CH]
  | CDS_STA_5_2x2, CDS_IBSS_MODE => [CDS_MAX_PCL_TYPE; CDS_MAX_PCL_TYPE; CDS_MAX_PCL_TYPE]
  | CDS_P2P_CLI_24_1x1, CDS_STA_MODE => [CDS_5G; CDS_SCC_CH; CDS_SCC_CH]
  | CDS_P2P_CLI_24_1x1, CDS_SAP_MODE => [CDS_5G; CDS_SCC_CH; CDS_SCC_CH_5G]
  | CDS_P2P_CLI_24_1x1, CDS_P2P_CLIENT_MODE => [CDS_5G; CDS_SCC_CH; CDS_SCC_CH_5G]
  | CDS_P2P_CLI_24_1x1, CDS_P2P_GO_MODE => [CDS_5G; CDS_SCC_CH; CDS_SCC_CH_5G]
  | CDS_P2P_CLI_24_1x1, CDS_IBSS_MODE => [CDS_MAX_PCL_TYPE; CDS_MAX_PCL_TYPE; CDS_MAX_PCL_TYPE]
  | CDS_P2P_CLI_24_2x2, CDS_STA_MODE => [CDS_5G; CDS_SCC_CH; CDS_SCC_CH]
  | CDS_P2P_CLI_24_2x2, CDS_SAP_MODE => [CDS_5G; CDS_SCC_CH; CDS_SCC_CH_5G]
  | CDS_P2P_CLI_24_2x2, CDS_P2P_CLIENT_MODE => [CDS_5G; CDS_SCC_CH; CDS_SCC_CH_5G]
  | CDS_P2P_CLI_24_2x2, CDS_P2P_GO_MODE => [CDS_5G; CDS_SCC_CH; CDS_SCC_CH_5G]
  | CDS_P2P_CLI_24_2x2, CDS_IBSS_MODE => [CDS_MAX_PCL_TYPE; CDS_MAX_PCL_TYPE; CDS_MAX_PCL_TYPE]
  | CDS_P2P_CLI_5_1x1, CDS_STA_MODE => [CDS_SCC_CH_5G; CDS_SCC_CH; CDS_SCC_CH_5G]
  | CDS_P2P_CLI_5_1x1, CDS_SAP_MODE => [CDS_SCC_CH_5G; CDS_SCC_CH; CDS_SCC_CH]
  | CDS_P2P_CLI_5_1x1, CDS_P2P_CLIENT_MODE => [CDS_SCC_CH_5G; CDS_SCC_CH; CDS_SCC_CH]
  | CDS_P2P_CLI_5_1x1, CDS_P2P_GO_MODE => [CDS_SCC_CH_5G; CDS_SCC_CH; CDS_SCC_CH]
  | CDS_P2P_CLI_5_1x1, CDS_IBSS_MODE => [CDS_MAX_PCL_TYPE; CDS_MAX_PCL_TYPE; CDS_MAX_PCL_TYPE]
  | CDS_P2P_CLI_5_2x2, CDS_STA_MODE => [CDS_SCC_CH_5G; CDS_SCC_CH; CDS_SCC_CH_5G]
  | CDS_P2P_CLI_5_2x2, CDS_SAP_MODE => [CDS_SCC_CH_5G; CDS_SCC_CH; CDS_SCC_CH]
  | CDS_P2P_CLI_5_2x2, CDS_P2P_CLIENT_MODE => [CDS_SCC_CH_5G; CDS_SCC_CH; CDS_SCC_CH]
  | CDS_P2P_CLI_5_2x2, CDS_P2P_GO_MODE => [CDS_SCC_CH_5G; CDS_SCC_CH; CDS_SCC_CH]
  | CDS_P2P_CLI_5_2x2, CDS_IBSS_MODE => [CDS_MAX_PCL_TYPE; CDS_MAX_PCL_TYPE; CDS_MAX_PCL_TYPE]
  | CDS_P2P_GO_24_1x1, CDS_STA_MODE => [CDS_SCC_CH; CDS_SCC_CH; CDS_SCC_CH]
  | CDS_P2P_GO_24_1x1, CDS_SAP_MODE => [CDS_SCC_CH; CDS_SCC_CH; CDS_SCC_CH]
  | CDS_P2P_GO_24_1x1, CDS_P2P_CLIENT_MODE => [CDS_SCC_CH; CDS_SCC_CH; CDS_SCC_CH]
  | CDS_P2P_GO_24_1x1, CDS_P2P_GO_MODE => [CDS_SCC_CH; CDS_SCC_CH; CDS_SCC_CH]
  | CDS_P2P_GO_24_1x1, CDS_IBSS_MODE => [CDS_MAX_PCL_TYPE; CDS_MAX_PCL_TYPE; CDS_MAX_PCL_TYPE]
  | CDS_P2P_GO_24_2x2, CDS_STA_MODE => [CDS_SCC_CH; CDS_SCC_CH; CDS_SCC_CH]
  | CDS_P2P_GO_24_2x2, CDS_SAP_MODE => [CDS_SCC_CH; CDS_SCC_CH; CDS_SCC_CH]
  | CDS_P2P_GO_24_2x2, CDS_P2P_CLIENT_MODE => [CDS_SCC_CH; CDS_SCC_CH; CDS_SCC_CH]
  | CDS_P2P_GO_24_2x2, CDS_P2P_GO_MODE => [CDS_SCC_CH; CDS_SCC_CH; CDS_SCC_CH]
  | CDS_P2P_GO_24_2x2, CDS_IBSS_MODE => [CDS_MAX_PCL_TYPE; CDS_MAX_PCL_TYPE; CDS_MAX_PCL_TYPE]
  | CDS_P2P_GO_5_1x1, CDS_STA_MODE => [CDS_SCC_CH_5G; CDS_SCC_CH; CDS_SCC_CH]
  | CDS_P2P_GO_5_1x1, CDS_SAP_MODE => [CDS_SCC_CH; CDS_SCC_CH; CDS_SCC_CH]
  | CDS_P2P_GO_5_1x1, CDS_P2P_CLIENT_MODE => [CDS_SCC_CH; CDS_SCC_CH; CDS_SCC_CH]
  | CDS_P2P_GO_5_1x1, CDS_P2P_GO_MODE => [CDS_SCC_CH; CDS_SCC_CH; CDS_SCC_CH]
  | CDS_P2P_GO_5_1x1, CDS_IBSS_MODE => [CDS_MAX_PCL_TYPE; CDS_MAX_PCL_TYPE; CDS_MAX_PCL_TYPE]
  | CDS_P2P_GO_5_2x2, CDS_STA_MODE => [CDS_SCC_CH_5G; CDS_SCC_CH; CDS_SCC_CH]
  | CDS_P2P_GO_5_2x2, CDS_SAP_MODE => [CDS_SCC_CH; CDS_SCC_CH; CDS_SCC_CH]
  | CDS_P2P_GO_5_2x2, CDS_P2P_CLIENT_MODE => [CDS_SCC_CH; CDS_SCC_CH; CDS_SCC_CH]
  | CDS_P2P_GO_5_2x2, CDS_P2P_GO_MODE => [CDS_SCC_CH; CDS_SCC_CH; CDS_SCC_CH]
  | CDS_P2P_GO_5_2x2, CDS_IBSS_MODE => [CDS_MAX_PCL_TYPE; CDS_MAX_PCL_TYPE; CDS_MAX_PCL_TYPE]
  | CDS_SAP_24_1x1, CDS_STA_MODE => [CDS_SCC_CH; CDS_SCC_CH; CDS_SCC_CH]
  | CDS_SAP_24_1x1, CDS_SAP_MODE => [CDS_SCC_CH; CDS_SCC_CH; CDS_SCC_CH]
  | CDS_SAP_24_1x1, CDS_P2P_CLIENT_MODE => [CDS_SCC_CH; CDS_SCC_CH; CDS_SCC_CH]
  | CDS_SAP_24_1x1, CDS_P2P_GO_MODE => [CDS_SCC_CH; CDS_SCC_CH; CDS_SCC_CH]
  | CDS_SAP_24_1x1, CDS_IBSS_MODE => [CDS_MAX_PCL_TYPE; CDS_MAX_PCL_TYPE; CDS_MAX_PCL_TYPE]
  | CDS_SAP_24_2x2, CDS_STA_MODE => [CDS_SCC_CH; CDS_SCC_CH; CDS_SCC_CH]
  | CDS_SAP_24_2x2, CDS_SAP_MODE => [CDS_SCC_CH; CDS_SCC_CH; CDS_SCC_CH]
  | CDS_SAP_24_2x2, CDS_P2P_CLIENT_MODE => [CDS_SCC_CH; CDS_SCC_CH; CDS_SCC_CH]
  | CDS_SAP_24_2x2, CDS_P2P_GO_MODE => [CDS_SCC_CH; CDS_SCC_CH; CDS_SCC_CH]
  | CDS_SAP_24_2x2, CDS_IBSS_MODE => [CDS_MAX_PCL_TYPE; CDS_MAX_PCL_TYPE; CDS_MAX_PCL_TYPE]
  | CDS_SAP_5_1x1, CDS_STA_MODE => [CDS_SCC_CH_5G; CDS_SCC_CH; CDS_SCC_CH]
  | CDS_SAP_5_1x1, CDS_SAP_MODE => [CDS_SCC_CH; CDS_SCC_CH; CDS_SCC_CH]
  | CDS_SAP_5_1x1, CDS_P2P_CLIENT_MODE => [CDS_SCC_CH; CDS_SCC_CH; CDS_SCC_CH]
  | CDS_SAP_5_1x1, CDS_P2P_GO_MODE => [CDS_SCC_CH; CDS_SCC_CH; CDS_SCC_CH]
  | CDS_SAP_5_1x1, CDS_IBSS_MODE => [CDS_MAX_PCL_TYPE; CDS_MAX_PCL_TYPE; CDS_MAX_PCL_TYPE]
  | CDS_SAP_5_2x2, CDS_STA_MODE => [CDS_SCC_CH_5G; CDS_SCC_CH; CDS_SCC_CH]
  | CDS_SAP_5_2x2, CDS_SAP_MODE => [CDS_SCC_CH; CDS_SCC_CH; CDS_SCC_CH]
  | CDS_SAP_5_2x2, CDS_P2P_CLIENT_MODE => [CDS_SCC_CH; CDS_SCC_CH; CDS_SCC_CH]
  | CDS_SAP_5_2x2, CDS_P2P_GO_MODE => [CDS_SCC_CH; CDS_SCC_CH; CDS_SCC_CH]
  | CDS_SAP_5_2x2, CDS_IBSS_MODE => [CDS_MAX_PCL_TYPE; CDS_MAX_PCL_TYPE; CDS_MAX_PCL_TYPE]
  | CDS_IBSS_24_1x1, CDS_STA_MODE => [CDS_MAX_PCL_TYPE; CDS_MAX_PCL_TYPE; CDS_MAX_PCL_TYPE]
  | CDS_IBSS_24_1x1, CDS_SAP_MODE => [CDS_MAX_PCL_TYPE; CDS_MAX_PCL_TYPE; CDS_MAX_PCL_TYPE]
  | CDS_IBSS_24_1x1, CDS_P2P_CLIENT_MODE => [CDS_MAX_PCL_TYPE; CDS_MAX_PCL_TYPE; CDS_MAX_PCL_TYPE]
  | CDS_IBSS_24_1x1, CDS_P2P_GO_MODE => [CDS_MAX_PCL_TYPE; CDS_MAX_PCL_TYPE; CDS_MAX_PCL_TYPE]
  | CDS_IBSS_24_1x1, CDS_IBSS_MODE => [CDS_MAX_PCL_TYPE; CDS_MAX_PCL_TYPE; CDS_MAX_PCL_TYPE]
  | CDS_IBSS_24_2x2, CDS_STA_MODE => [CDS_MAX_PCL_TYPE; CDS_MAX_PCL_TYPE; CDS_MAX_PCL_TYPE]
  | CDS_IBSS_24_2x2, CDS_SAP_MODE => [CDS_MAX_PCL_TYPE; CDS_MAX_PCL_TYPE; CDS_MAX_PCL_TYPE]
  | CDS_IBSS_24_2x2, CDS_P2P_CLIENT_MODE => [CDS_MAX_PCL_TYPE; CDS_MAX_PCL_TYPE; CDS_MAX_PCL_TYPE]
  | CDS_IBSS_24_2x2, CDS_P2P_GO_MODE => [CDS_MAX_PCL_TYPE; CDS_MAX_PCL_TYPE; CDS_MAX_PCL_TYPE]
  | CDS_IBSS_24_2x2, CDS_IBSS_MODE => [CDS_MAX_PCL_TYPE; CDS_MAX_PCL_TYPE; CDS_MAX_PCL_TYPE]
  | CDS_IBSS_5_1x1, CDS_STA_MODE => [CDS_MAX_PCL_TYPE; CDS_MAX_PCL_TYPE; CDS_MAX_PCL_TYPE]
  | CDS_IBSS_5_1x1, CDS_SAP_MODE => [CDS_MAX_PCL_TYPE; CDS_MAX_PCL_TYPE; CDS_MAX_PCL_TYPE]
  | CDS_IBSS_5_1x1, CDS_P2P_CLIENT_MODE => [CDS_MAX_PCL_TYPE; CDS_MAX_PCL_TYPE; CDS_MAX_PCL_TYPE]
  | CDS_IBSS_5_1x1, CDS_P2P_GO_MODE => [CDS_MAX_PCL_TYPE; CDS_MAX_PCL_TYPE; CDS_MAX_PCL_TYPE]
  | CDS_IBSS_5_1x1, CDS_IBSS_MODE => [CDS_MAX_PCL_TYPE; CDS_MAX_PCL_TYPE; CDS_MAX_PCL_TYPE]
  | CDS_IBSS_5_2x2, CDS_STA_MODE => [CDS_MAX_PCL_TYPE; CDS_MAX_PCL_TYPE; CDS_MAX_PCL_TYPE]
  | CDS_IBSS_5_2x2, CDS_SAP_MODE => [CDS_MAX_PCL_TYPE; CDS_MAX_PCL_TYPE; CDS_MAX_PCL_TYPE]
  | CDS_IBSS_5_2x2, CDS_P2P_CLIENT_MODE => [CDS_MAX_PCL_TYPE; CDS_MAX_PCL_TYPE; CDS_MAX_PCL_TYPE]
  | CDS_IBSS_5_2x2, CDS_P2P_GO_MODE => [CDS_MAX_PCL_TYPE; CDS_MAX_PCL_TYPE; CDS_MAX_PCL_TYPE]
  | CDS_IBSS_5_2x2, CDS_IBSS_MODE => [CDS_MAX_PCL_TYPE; CDS_MAX_PCL_TYPE; CDS_MAX_PCL_TYPE]
  | CDS_MAX_ONE_CONNECTION_MODE, _ | _, CDS_MAX_NUM_OF_MODE => []
  end.

(** *** [third_connection_pcl_dbs_table], in six parts; a part is empty outside of its rows. *)

Definition third_dbs_STA_SAP (c : cds_two_connection_mode) (m : cds_con_mode) : list cds_pcl_type :=
  match c, m with
  | CDS_STA_SAP_SCC_24_1x1, CDS_STA_MODE => [CDS_5G_SCC_CH; CDS_5G_SCC_CH; CDS_5G_SCC_CH]
  | CDS_STA_SAP_SCC_24_1x1, CDS_SAP_MODE => [CDS_5G_SCC_CH; CDS_5G_SCC_CH; CDS_5G_SCC_CH]
  | CDS_STA_SAP_SCC_24_1x1, CDS_P2P_CLIENT_MODE => [CDS_MAX_PCL_TYPE; CDS_MAX_PCL_TYPE; CDS_MAX_PCL_TYPE]
  | CDS_STA_SAP_SCC_24_1x1, CDS_P2P_GO_MODE => [CDS_MAX_PCL_TYPE; CDS_MAX_PCL_TYPE; CDS_MAX_PCL_TYPE]
  | CDS_STA_SAP_SCC_24_1x1, CDS_IBSS_MODE => [CDS_MAX_PCL_TYPE; CDS_MAX_PCL_TYPE; CDS_MAX_PCL_TYPE]
  | CDS_STA_SAP_SCC_24_2x2, CDS_STA_MODE => [CDS_5G_SCC_CH; CDS_5G_SCC_CH; CDS_5G_SCC_CH]
  | CDS_STA_SAP_SCC_24_2x2, CDS_SAP_MODE => [CDS_5G_SCC_CH; CDS_5G_SCC_CH; CDS_5G_SCC_CH]
  | CDS_STA_SAP_SCC_24_2x2, CDS_P2P_CLIENT_MODE => [CDS_MAX_PCL_TYPE; CDS_MAX_PCL_TYPE; CDS_MAX_PCL_TYPE]
  | CDS_STA_SAP_SCC_24_2x2, CDS_P2P_GO_MODE => [CDS_MAX_PCL_TYPE; CDS_MAX_PCL_TYPE; CDS_MAX_PCL_TYPE]
  | CDS_STA_SAP_SCC_24_2x2, CDS_IBSS_MODE => [CDS_MAX_PCL_TYPE; CDS_MAX_PCL_TYPE; CDS_MAX_PCL_TYPE]
  | CDS_STA_SAP_MCC_24_1x1, CDS_STA_MODE => [CDS_5G_MCC_CH; CDS_5G; CDS_5G_MCC_CH]
  | CDS_STA_SAP_MCC_24_1x1, CDS_SAP_MODE => [CDS_5G_MCC_CH; CDS_5G; CDS_5G_MCC_CH]
  | CDS_STA_SAP_MCC_24_1x1, CDS_P2P_CLIENT_MODE => [CDS_MAX_PCL_TYPE; CDS_MAX_PCL_TYPE; CDS_MAX_PCL_TYPE]
  | CDS_STA_SAP_MCC_24_1x1, CDS_P2P_GO_MODE => [CDS_MAX_PCL_TYPE; CDS_MAX_PCL_TYPE; CDS_MAX_PCL_TYPE]
  | CDS_STA_SAP_MCC_24_1x1, CDS_IBSS_MODE => [CDS_MAX_PCL_TYPE; CDS_MAX_PCL_TYPE; CDS_MAX_PCL_TYPE]
  | CDS_STA_SAP_MCC_24_2x2, CDS_STA_MODE => [CDS_5G_MCC_CH; CDS_5G; CDS_5G_MCC_CH]
  | CDS_STA_SAP_MCC_24_2x2, CDS_SAP_MODE => [CDS_5G_MCC_CH; CDS_5G; CDS_5G_MCC_CH]
  | CDS_STA_SAP_MCC_24_2x2, CDS_P2P_CLIENT_MODE => [CDS_MAX_PCL_TYPE; CDS_MAX_PCL_TYPE; CDS_MAX_PCL_TYPE]
  | CDS_STA_SAP_MCC_24_2x2, CDS_P2P_GO_MODE => [CDS_MAX_PCL_TYPE; CDS_MAX_PCL_TYPE; CDS_MAX_PCL_TYPE]
  | CDS_STA_SAP_MCC_24_2x2, CDS_IBSS_MODE => [CDS_MAX_PCL_TYPE; CDS_MAX_PCL_TYPE; CDS_MAX_PCL_TYPE]
  | CDS_STA_SAP_SCC_5_1x1, CDS_STA_MODE => [CDS_SCC_CH_24G; CDS_24G_SCC_CH; CDS_SCC_CH_24G]
  | CDS_STA_SAP_SCC_5_1x1, CDS_SAP_MODE => [CDS_SCC_CH_24G; CDS_24G_SCC_CH; CDS_SCC_CH_24G]
  | CDS_STA_SAP_SCC_5_1x1, CDS_P2P_CLIENT_MODE => [CDS_MAX_PCL_TYPE; CDS_MAX_PCL_TYPE; CDS_MAX_PCL_TYPE]
  | CDS_STA_SAP_SCC_5_1x1, CDS_P2P_GO_MODE => [CDS_MAX_PCL_TYPE; CDS_MAX_PCL_TYPE; CDS_MAX_PCL_TYPE]
  | CDS_STA_SAP_SCC_5_1x1, CDS_IBSS_MODE => [CDS_MAX_PCL_TYPE; CDS_MAX_PCL_TYPE; CDS_MAX_PCL_TYPE]
  | CDS_STA_SAP_SCC_5_2x2, CDS_STA_MODE => [CDS_SCC_CH_24G; CDS_24G_SCC_CH; CDS_SCC_CH_24G]
  | CDS_STA_SAP_SCC_5_2x2, CDS_SAP_MODE => [CDS_SCC_CH_24G; CDS_24G_SCC_CH; CDS_SCC_CH_24G]
  | CDS_STA_SAP_SCC_5_2x2, CDS_P2P_CLIENT_MODE => [CDS_MAX_PCL_TYPE; CDS_MAX_PCL_TYPE; CDS_MAX_PCL_TYPE]
  | CDS_STA_SAP_SCC_5_2x2, CDS_P2P_GO_MODE => [CDS_MAX_PCL_TYPE; CDS_MAX_PCL_TYPE; CDS_MAX_PCL_TYPE]
  | CDS_STA_SAP_SCC_5_2x2, CDS_IBSS_MODE => [CDS_MAX_PCL_TYPE; CDS_MAX_PCL_TYPE; CDS_MAX_PCL_TYPE]
  | CDS_STA_SAP_MCC_5_1x1, CDS_STA_MODE => [CDS_MCC_CH_24G; CDS_24G; CDS_24G]
  | CDS_STA_SAP_MCC_5_1x1, CDS_SAP_MODE => [CDS_24G; CDS_24G; CDS_24G]
  | CDS_STA_SAP_MCC_5_1x1, CDS_P2P_CLIENT_MODE => [CDS_MAX_PCL_TYPE; CDS_MAX_PCL_TYPE; CDS_MAX_PCL_TYPE]
  | CDS_STA_SAP_MCC_5_1x1, CDS_P2P_GO_MODE => [CDS_MAX_PCL_TYPE; CDS_MAX_PCL_TYPE; CDS_MAX_PCL_TYPE]
  | CDS_STA_SAP_MCC_5_1x1, CDS_IBSS_MODE => [CDS_MAX_PCL_TYPE; CDS_MAX_PCL_TYPE; CDS_MAX_PCL_TYPE]
  | CDS_STA_SAP_MCC_5_2x2, CDS_STA_MODE => [CDS_MCC_CH_24G; CDS_24G; CDS_24G]
  | CDS_STA_SAP_MCC_5_2x2, CDS_SAP_MODE => [CDS_24G; CDS_24G; CDS_24G]
  | CDS_STA_SAP_MCC_5_2x2, CDS_P2P_CLIENT_MODE => [CDS_MAX_PCL_TYPE; CDS_MAX_PCL_TYPE; CDS_MAX_PCL_TYPE]
  | CDS_STA_SAP_MCC_5_2x2, CDS_P2P_GO_MODE => [CDS_MAX_PCL_TYPE; CDS_MAX_PCL_TYPE; CDS_MAX_PCL_TYPE]
  | CDS_STA_SAP_MCC_5_2x2, CDS_IBSS_MODE => [CDS_MAX_PCL_TYPE; CDS_MAX_PCL_TYPE; CDS_MAX_PCL_TYPE]
  | CDS_STA_SAP_MCC_24_5_1x1, CDS_STA_MODE => [CDS_MCC_CH_5G; CDS_5G; CDS_5G]
  | CDS_STA_SAP_MCC_24_5_1x1, CDS_SAP_MODE => [CDS_24G; CDS_24G; CDS_24G]
  | CDS_STA_SAP_MCC_24_5_1x1, CDS_P2P_CLIENT_MODE => [CDS_MAX_PCL_TYPE; CDS_MAX_PCL_TYPE; CDS_MAX_PCL_TYPE]
  | CDS_STA_SAP_MCC_24_5_1x1, CDS_P2P_GO_MODE => [CDS_MAX_PCL_TYPE; CDS_MAX_PCL_TYPE; CDS_MAX_PCL_TYPE]
  | CDS_STA_SAP_MCC_24_5_1x1, CDS_IBSS_MODE => [CDS_MAX_PCL_TYPE; CDS_MAX_PCL_TYPE; CDS_MAX_PCL_TYPE]
  | CDS_STA_SAP_MCC_24_5_2x2, CDS_STA_MODE => [CDS_MCC_CH_5G; CDS_5G; CDS_5G]
  | CDS_STA_SAP_MCC_24_5_2x2, CDS_SAP_MODE => [CDS_24G; CDS_24G; CDS_24G]
  | CDS_STA_SAP_MCC_24_5_2x2, CDS_P2P_CLIENT_MODE => [CDS_MAX_PCL_TYPE; CDS_MAX_PCL_TYPE; CDS_MAX_PCL_TYPE]
  | CDS_STA_SAP_MCC_24_5_2x2, CDS_P2P_GO_MODE => [CDS_MAX_PCL_TYPE; CDS_MAX_PCL_TYPE; CDS_MAX_PCL_TYPE]
  | CDS_STA_SAP_MCC_24_5_2x2, CDS_IBSS_MODE => [CDS_MAX_PCL_TYPE; CDS_MAX_PCL_TYPE; CDS_MAX_PCL_TYPE]
  | CDS_STA_SAP_DBS_1x1, CDS_STA_MODE => [CDS_SCC_ON_5_SCC_ON_24_5G; CDS_NONE; CDS_SCC_ON_5_SCC_ON_24]
  | CDS_STA_SAP_DBS_1x1, CDS_SAP_MODE => [CDS_SCC_ON_5_SCC_ON_24_5G; CDS_NONE; CDS_SCC_ON_5_SCC_ON_24]
  | CDS_STA_SAP_DBS_1x1, CDS_P2P_CLIENT_MODE => [CDS_MAX_PCL_TYPE; CDS_MAX_PCL_TYPE; CDS_MAX_PCL_TYPE]
  | CDS_STA_SAP_DBS_1x1, CDS_P2P_GO_MODE => [CDS_MAX_PCL_TYPE; CDS_MAX_PCL_TYPE; CDS_MAX_PCL_TYPE]
  | CDS_STA_SAP_DBS_1x1, CDS_IBSS_MODE => [CDS_MAX_PCL_TYPE; CDS_MAX_PCL_TYPE; CDS_MAX_PCL_TYPE]
  | _, _ => []
  end.

Definition third_dbs_STA_P2P_GO (c : cds_two_connection_mode) (m : cds_con_mode) : list cds_pcl_type :=
  match c, m with
  | CDS_STA_P2P_GO_SCC_24_1x1, CDS_STA_MODE => [CDS_5G_SCC_CH; CDS_5G_SCC_CH; CDS_5G_SCC_CH]
  | CDS_STA_P2P_GO_SCC_24_1x1, CDS_SAP_MODE => [CDS_MAX_PCL_TYPE; CDS_MAX_PCL_TYPE; CDS_MAX_PCL_TYPE]
  | CDS_STA_P2P_GO_SCC_24_1x1, CDS_P2P_CLIENT_MODE => [CDS_5G_SCC_CH; CDS_5G_SCC_CH; CDS_5G_SCC_CH]
  | CDS_STA_P2P_GO_SCC_24_1x1, CDS_P2P_GO_MODE => [CDS_5G_SCC_CH; CDS_5G_SCC_CH; CDS_5G_SCC_CH]
  | CDS_STA_P2P_GO_SCC_24_1x1, CDS_IBSS_MODE => [CDS_MAX_PCL_TYPE; CDS_MAX_PCL_TYPE; CDS_MAX_PCL_TYPE]
  | CDS_STA_P2P_GO_SCC_24_2x2, CDS_STA_MODE => [CDS_5G_SCC_CH; CDS_5G_SCC_CH; CDS_5G_SCC_CH]
  | CDS_STA_P2P_GO_SCC_24_2x2, CDS_SAP_MODE => [CDS_MAX_PCL_TYPE; CDS_MAX_PCL_TYPE; CDS_MAX_PCL_TYPE]
  | CDS_STA_P2P_GO_SCC_24_2x2, CDS_P2P_CLIENT_MODE => [CDS_5G_SCC_CH; CDS_5G_SCC_CH; CDS_5G_SCC_CH]
  | CDS_STA_P2P_GO_SCC_24_2x2, CDS_P2P_GO_MODE => [CDS_5G_SCC_CH; CDS_5G_SCC_CH; CDS_5G_SCC_CH]
  | CDS_STA_P2P_GO_SCC_24_2x2, CDS_IBSS_MODE => [CDS_MAX_PCL_TYPE; CDS_MAX_PCL_TYPE; CDS_MAX_PCL_TYPE]
  | CDS_STA_P2P_GO_MCC_24_1x1, CDS_STA_MODE => [CDS_5G_MCC_CH; CDS_5G; CDS_5G_MCC_CH]
  | CDS_STA_P2P_GO_MCC_24_1x1, CDS_SAP_MODE => [CDS_MAX_PCL_TYPE; CDS_MAX_PCL_TYPE; CDS_MAX_PCL_TYPE]
  | CDS_STA_P2P_GO_MCC_24_1x1, CDS_P2P_CLIENT_MODE => [CDS_5G_MCC_CH; CDS_5G; CDS_5G_MCC_CH]
  | CDS_STA_P2P_GO_MCC_24_1x1, CDS_P2P_GO_MODE => [CDS_5G_MCC_CH; CDS_5G; CDS_5G_MCC_CH]
  | CDS_STA_P2P_GO_MCC_24_1x1, CDS_IBSS_MODE => [CDS_MAX_PCL_TYPE; CDS_MAX_PCL_TYPE; CDS_MAX_PCL_TYPE]
  | CDS_STA_P2P_GO_MCC_24_2x2, CDS_STA_MODE => [CDS_5G_MCC_CH; CDS_5G; CDS_5G_MCC_CH]
  | CDS_STA_P2P_GO_MCC_24_2x2, CDS_SAP_MODE => [CDS_MAX_PCL_TYPE; CDS_MAX_PCL_TYPE; CDS_MAX_PCL_TYPE]
  | CDS_STA_P2P_GO_MCC_24_2x2, CDS_P2P_CLIENT_MODE => [CDS_5G_MCC_CH; CDS_5G; CDS_5G_MCC_CH]
  | CDS_STA_P2P_GO_MCC_24_2x2, CDS_P2P_GO_MODE => [CDS_5G_MCC_CH; CDS_5G; CDS_5G_MCC_CH]
  | CDS_STA_P2P_GO_MCC_24_2x2, CDS_IBSS_MODE => [CDS_MAX_PCL_TYPE; CDS_MAX_PCL_TYPE; CDS_MAX_PCL_TYPE]
  | CDS_STA_P2P_GO_SCC_5_1x1, CDS_STA_MODE => [CDS_SCC_CH_24G; CDS_24G_SCC_CH; CDS_SCC_CH_24G]
  | CDS_STA_P2P_GO_SCC_5_1x1, CDS_SAP_MODE => [CDS_MAX_PCL_TYPE; CDS_MAX_PCL_TYPE; CDS_MAX_PCL_TYPE]
  | CDS_STA_P2P_GO_SCC_5_1x1, CDS_P2P_CLIENT_MODE => [CDS_SCC_CH_24G; CDS_24G_SCC_CH; CDS_SCC_CH_24G]
  | CDS_STA_P2P_GO_SCC_5_1x1, CDS_P2P_GO_MODE => [CDS_SCC_CH_24G; CDS_24G_SCC_CH; CDS_SCC_CH_24G]
  | CDS_STA_P2P_GO_SCC_5_1x1, CDS_IBSS_MODE => [CDS_MAX_PCL_TYPE; CDS_MAX_PCL_TYPE; CDS_MAX_PCL_TYPE]
  | CDS_STA_P2P_GO_SCC_5_2x2, CDS_STA_MODE => [CDS_SCC_CH_24G; CDS_24G_SCC_CH; CDS_SCC_CH_24G]
  | CDS_STA_P2P_GO_SCC_5_2x2, CDS_SAP_MODE => [CDS_MAX_PCL_TYPE; CDS_MAX_PCL_TYPE; CDS_MAX_PCL_TYPE]
  | CDS_STA_P2P_GO_SCC_5_2x2, CDS_P2P_CLIENT_MODE => [CDS_SCC_CH_24G; CDS_24G_SCC_CH; CDS_SCC_CH_24G]
  | CDS_STA_P2P_GO_SCC_5_2x2, CDS_P2P_GO_MODE => [CDS_SCC_CH_24G; CDS_24G_SCC_CH; CDS_SCC_CH_24G]
  | CDS_STA_P2P_GO_SCC_5_2x2, CDS_IBSS_MODE => [CDS_MAX_PCL_TYPE; CDS_MAX_PCL_TYPE; CDS_MAX_PCL_TYPE]
  | CDS_STA_P2P_GO_MCC_5_1x1, CDS_STA_MODE => [CDS_MCC_CH_24G; CDS_24G; CDS_24G]
  | CDS_STA_P2P_GO_MCC_5_1x1, CDS_SAP_MODE => [CDS_MAX_PCL_TYPE; CDS_MAX_PCL_TYPE; CDS_MAX_PCL_TYPE]
  | CDS_STA_P2P_GO_MCC_5_1x1, CDS_P2P_CLIENT_MODE => [CDS_MCC_CH_24G; CDS_24G; CDS_24G]
  | CDS_STA_P2P_GO_MCC_5_1x1, CDS_P2P_GO_MODE => [CDS_MCC_CH_24G; CDS_24G; CDS_24G]
  | CDS_STA_P2P_GO_MCC_5_1x1, CDS_IBSS_MODE => [CDS_MAX_PCL_TYPE; CDS_MAX_PCL_TYPE; CDS_MAX_PCL_TYPE]
  | CDS_STA_P2P_GO_MCC_5_2x2, CDS_STA_MODE => [CDS_MCC_CH_24G; CDS_24G; CDS_24G]
  | CDS_STA_P2P_GO_MCC_5_2x2, CDS_SAP_MODE => [CDS_MAX_PCL_TYPE; CDS_MAX_PCL_TYPE; CDS_MAX_PCL_TYPE]
  | CDS_STA_P2P_GO_MCC_5_2x2, CDS_P2P_CLIENT_MODE => [CDS_MCC_CH_24G; CDS_24G; CDS_24G]
  | CDS_STA_P2P_GO_MCC_5_2x2, CDS_P2P_GO_MODE => [CDS_MCC_CH_24G; CDS_24G; CDS_24G]
  | CDS_STA_P2P_GO_MCC_5_2x2, CDS_IBSS_MODE => [CDS_MAX_PCL_TYPE; CDS_MAX_PCL_TYPE; CDS_MAX_PCL_TYPE]
  | CDS_STA_P2P_GO_MCC_24_5_1x1, CDS_STA_MODE => [CDS_MCC_CH_5G; CDS_5G; CDS_5G]
  | CDS_STA_P2P_GO_MCC_24_5_1x1, CDS_SAP_MODE => [CDS_MAX_PCL_TYPE; CDS_MAX_PCL_TYPE; CDS_MAX_PCL_TYPE]
  | CDS_STA_P2P_GO_MCC_24_5_1x1, CDS_P2P_CLIENT_MODE => [CDS_MCC_CH_24G; CDS_24G; CDS_24G]
  | CDS_STA_P2P_GO_MCC_24_5_1x1, CDS_P2P_GO_MODE => [CDS_MCC_CH_24G; CDS_24G; CDS_24G]
  | CDS_STA_P2P_GO_MCC_24_5_1x1, CDS_IBSS_MODE => [CDS_MAX_PCL_TYPE; CDS_MAX_PCL_TYPE; CDS_MAX_PCL_TYPE]
  | CDS_STA_P2P_GO_MCC_24_5_2x2, CDS_STA_MODE => [CDS_MCC_CH_5G; CDS_5G; CDS_5G]
  | CDS_STA_P2P_GO_MCC_24_5_2x2, CDS_SAP_MODE => [CDS_MAX_PCL_TYPE; CDS_MAX_PCL_TYPE; CDS_MAX_PCL_TYPE]
  | CDS_STA_P2P_GO_MCC_24_5_2x2, CDS_P2P_CLIENT_MODE => [CDS_MCC_CH_24G; CDS_24G; CDS_24G]
  | CDS_STA_P2P_GO_MCC_24_5_2x2, CDS_P2P_GO_MODE => [CDS_MCC_CH_24G; CDS_24G; CDS_24G]
  | CDS_STA_P2P_GO_MCC_24_5_2x2, CDS_IBSS_MODE => [CDS_MAX_PCL_TYPE; CDS_MAX_PCL_TYPE; CDS_MAX_PCL_TYPE]
  | CDS_STA_P2P_GO_DBS_1x1, CDS_STA_MODE => [CDS_SCC_ON_5_SCC_ON_24_5G; CDS_NONE; CDS_SCC_ON_5_SCC_ON_24]
  | CDS_STA_P2P_GO_DBS_1x1, CDS_SAP_MODE => [CDS_MAX_PCL_TYPE; CDS_MAX_PCL_TYPE; CDS_MAX_PCL_TYPE]
  | CDS_STA_P2P_GO_DBS_1x1, CDS_P2P_CLIENT_MODE => [CDS_SCC_ON_5_SCC_ON_24_5G; CDS_NONE; CDS_SCC_ON_5_SCC_ON_24]
  | CDS_STA_P2P_GO_DBS_1x1, CDS_P2P_GO_MODE => [CDS_SCC_ON_5_SCC_ON_24_5G; CDS_NONE; CDS_SCC_ON_5_SCC_ON_24]
  | CDS_STA_P2P_GO_DBS_1x1, CDS_IBSS_MODE => [CDS_MAX_PCL_TYPE; CDS_MAX_PCL_TYPE; CDS_MAX_PCL_TYPE]
  | _, _ => []
  end.

Definition third_dbs_STA_P2P_CLI (c : cds_two_connection_mode) (m : cds_con_mode) : list cds_pcl_type :=
  match c, m with
  | CDS_STA_P2P_CLI_SCC_24_1x1, CDS_STA_MODE => [CDS_MAX_PCL_TYPE; CDS_MAX_PCL_TYPE; CDS_MAX_PCL_TYPE]
  | CDS_STA_P2P_CLI_SCC_24_1x1, CDS_SAP_MODE => [CDS_MAX_PCL_TYPE; CDS_MAX_PCL_TYPE; CDS_MAX_PCL_TYPE]
  | CDS_STA_P2P_CLI_SCC_24_1x1, CDS_P2P_CLIENT_MODE => [CDS_5G_SCC_CH; CDS_5G_SCC_CH; CDS_5G_SCC_CH]
  | CDS_STA_P2P_CLI_SCC_24_1x1, CDS_P2P_GO_MODE => [CDS_5G_SCC_CH; CDS_5G_SCC_CH; CDS_5G_SCC_CH]
  | CDS_STA_P2P_CLI_SCC_24_1x1, CDS_IBSS_MODE => [CDS_MAX_PCL_TYPE; CDS_MAX_PCL_TYPE; CDS_MAX_PCL_TYPE]
  | CDS_STA_P2P_CLI_SCC_24_2x2, CDS_STA_MODE => [CDS_MAX_PCL_TYPE; CDS_MAX_PCL_TYPE; CDS_MAX_PCL_TYPE]
  | CDS_STA_P2P_CLI_SCC_24_2x2, CDS_SAP_MODE => [CDS_MAX_PCL_TYPE; CDS_MAX_PCL_TYPE; CDS_MAX_PCL_TYPE]
  | CDS_STA_P2P_CLI_SCC_24_2x2, CDS_P2P_CLIENT_MODE => [CDS_5G_SCC_CH; CDS_5G_SCC_CH; CDS_5G_SCC_CH]
  | CDS_STA_P2P_CLI_SCC_24_2x2, CDS_P2P_GO_MODE => [CDS_5G_SCC_CH; CDS_5G_SCC_CH; CDS_5G_SCC_CH]
  | CDS_STA_P2P_CLI_SCC_24_2x2, CDS_IBSS_MODE => [CDS_MAX_PCL_TYPE; CDS_MAX_PCL_TYPE; CDS_MAX_PCL_TYPE]
  | CDS_STA_P2P_CLI_MCC_24_1x1, CDS_STA_MODE => [CDS_MAX_PCL_TYPE; CDS_MAX_PCL_TYPE; CDS_MAX_PCL_TYPE]
  | CDS_STA_P2P_CLI_MCC_24_1x1, CDS_SAP_MODE => [CDS_MAX_PCL_TYPE; CDS_MAX_PCL_TYPE; CDS_MAX_PCL_TYPE]
  | CDS_STA_P2P_CLI_MCC_24_1x1, CDS_P2P_CLIENT_MODE => [CDS_5G_MCC_CH; CDS_5G; CDS_5G_MCC_CH]
  | CDS_STA_P2P_CLI_MCC_24_1x1, CDS_P2P_GO_MODE => [CDS_5G_MCC_CH; CDS_5G; CDS_5G_MCC_CH]
  | CDS_STA_P2P_CLI_MCC_24_1x1, CDS_IBSS_MODE => [CDS_MAX_PCL_TYPE; CDS_MAX_PCL_TYPE; CDS_MAX_PCL_TYPE]
  | CDS_STA_P2P_CLI_MCC_24_2x2, CDS_STA_MODE => [CDS_MAX_PCL_TYPE; CDS_MAX_PCL_TYPE; CDS_MAX_PCL_TYPE]
  | CDS_STA_P2P_CLI_MCC_24_2x2, CDS_SAP_MODE => [CDS_MAX_PCL_TYPE; CDS_MAX_PCL_TYPE; CDS_MAX_PCL_TYPE]
  | CDS_STA_P2P_CLI_MCC_24_2x2, CDS_P2P_CLIENT_MODE => [CDS_5G_MCC_CH; CDS_5G; CDS_5G_MCC_CH]
  | CDS_STA_P2P_CLI_MCC_24_2x2, CDS_P2P_GO_MODE => [CDS_5G_MCC_CH; CDS_5G; CDS_5G_MCC_CH]
  | CDS_STA_P2P_CLI_MCC_24_2x2, CDS_IBSS_MODE => [CDS_MAX_PCL_TYPE; CDS_MAX_PCL_TYPE; CDS_MAX_PCL_TYPE]
  | CDS_STA_P2P_CLI_SCC_5_1x1, CDS_STA_MODE => [CDS_MAX_PCL_TYPE; CDS_MAX_PCL_TYPE; CDS_MAX_PCL_TYPE]
  | CDS_STA_P2P_CLI_SCC_5_1x1, CDS_SAP_MODE => [CDS_MAX_PCL_TYPE; CDS_MAX_PCL_TYPE; CDS_MAX_PCL_TYPE]
  | CDS_STA_P2P_CLI_SCC_5_1x1, CDS_P2P_CLIENT_MODE => [CDS_SCC_CH_24G; CDS_24G_SCC_CH; CDS_SCC_CH_24G]
  | CDS_STA_P2P_CLI_SCC_5_1x1, CDS_P2P_GO_MODE => [CDS_SCC_CH_24G; CDS_24G_SCC_CH; CDS_SCC_CH_24G]
  | CDS_STA_P2P_CLI_SCC_5_1x1, CDS_IBSS_MODE => [CDS_MAX_PCL_TYPE; CDS_MAX_PCL_TYPE; CDS_MAX_PCL_TYPE]
  | CDS_STA_P2P_CLI_SCC_5_2x2, CDS_STA_MODE => [CDS_MAX_PCL_TYPE; CDS_MAX_PCL_TYPE; CDS_MAX_PCL_TYPE]
  | CDS_STA_P2P_CLI_SCC_5_2x2, CDS_SAP_MODE => [CDS_MAX_PCL_TYPE; CDS_MAX_PCL_TYPE; CDS_MAX_PCL_TYPE]
  | CDS_STA_P2P_CLI_SCC_5_2x2, CDS_P2P_CLIENT_MODE => [CDS_SCC_CH_24G; CDS_24G_SCC_CH; CDS_SCC_CH_24G]
  | CDS_STA_P2P_CLI_SCC_5_2x2, CDS_P2P_GO_MODE => [CDS_SCC_CH_24G; CDS_24G_SCC_CH; CDS_SCC_CH_24G]
  | CDS_STA_P2P_CLI_SCC_5_2x2, CDS_IBSS_MODE => [CDS_MAX_PCL_TYPE; CDS_MAX_PCL_TYPE; CDS_MAX_PCL_TYPE]
  | CDS_STA_P2P_CLI_MCC_5_1x1, CDS_STA_MODE => [CDS_MAX_PCL_TYPE; CDS_MAX_PCL_TYPE; CDS_MAX_PCL_TYPE]
  | CDS_STA_P2P_CLI_MCC_5_1x1, CDS_SAP_MODE => [CDS_MAX_PCL_TYPE; CDS_MAX_PCL_TYPE; CDS_MAX_PCL_TYPE]
  | CDS_STA_P2P_CLI_MCC_5_1x1, CDS_P2P_CLIENT_MODE => [CDS_MCC_CH_24G; CDS_24G; CDS_MCC_CH_24G]
  | CDS_STA_P2P_CLI_MCC_5_1x1, CDS_P2P_GO_MODE => [CDS_MCC_CH_24G; CDS_24G; CDS_MCC_CH_24G]
  | CDS_STA_P2P_CLI_MCC_5_1x1, CDS_IBSS_MODE => [CDS_MAX_PCL_TYPE; CDS_MAX_PCL_TYPE; CDS_MAX_PCL_TYPE]
  | CDS_STA_P2P_CLI_MCC_5_2x2, CDS_STA_MODE => [CDS_MAX_PCL_TYPE; CDS_MAX_PCL_TYPE; CDS_MAX_PCL_TYPE]
  | CDS_STA_P2P_CLI_MCC_5_2x2, CDS_SAP_MODE => [CDS_MAX_PCL_TYPE; CDS_MAX_PCL_TYPE; CDS_MAX_PCL_TYPE]
  | CDS_STA_P2P_CLI_MCC_5_2x2, CDS_P2P_CLIENT_MODE => [CDS_MCC_CH_24G; CDS_24G; CDS_MCC_CH_24G]
  | CDS_STA_P2P_CLI_MCC_5_2x2, CDS_P2P_GO_MODE => [CDS_MCC_CH_24G; CDS_24G; CDS_MCC_CH_24G]
  | CDS_STA_P2P_CLI_MCC_5_2x2, CDS_IBSS_MODE => [CDS_NONE; CDS_NONE; CDS_NONE]
  | CDS_STA_P2P_CLI_MCC_24_5_1x1, CDS_STA_MODE => [CDS_MAX_PCL_TYPE; CDS_MAX_PCL_TYPE; CDS_MAX_PCL_TYPE]
  | CDS_STA_P2P_CLI_MCC_24_5_1x1, CDS_SAP_MODE => [CDS_MAX_PCL_TYPE; CDS_MAX_PCL_TYPE; CDS_MAX_PCL_TYPE]
  | CDS_STA_P2P_CLI_MCC_24_5_1x1, CDS_P2P_CLIENT_MODE => [CDS_MCC_CH_24G; CDS_24G; CDS_MCC_CH_24G]
  | CDS_STA_P2P_CLI_MCC_24_5_1x1, CDS_P2P_GO_MODE => [CDS_MCC_CH_24G; CDS_24G; CDS_MCC_CH_24G]
  | CDS_STA_P2P_CLI_MCC_24_5_1x1, CDS_IBSS_MODE => [CDS_MAX_PCL_TYPE; CDS_MAX_PCL_TYPE; CDS_MAX_PCL_TYPE]
  | CDS_STA_P2P_CLI_MCC_24_5_2x2, CDS_STA_MODE => [CDS_MAX_PCL_TYPE; CDS_MAX_PCL_TYPE; CDS_MAX_PCL_TYPE]
  | CDS_STA_P2P_CLI_MCC_24_5_2x2, CDS_SAP_MODE => [CDS_MAX_PCL_TYPE; CDS_MAX_PCL_TYPE; CDS_MAX_PCL_TYPE]
  | CDS_STA_P2P_CLI_MCC_24_5_2x2, CDS_P2P_CLIENT_MODE => [CDS_MCC_CH_24G; CDS_24G; CDS_MCC_CH_24G]
  | CDS_STA_P2P_CLI_MCC_24_5_2x2, CDS_P2P_GO_MODE => [CDS_MCC_CH_24G; CDS_24G; CDS_MCC_CH_24G]
  | CDS_STA_P2P_CLI_MCC_24_5_2x2, CDS_IBSS_MODE => [CDS_MAX_PCL_TYPE; CDS_MAX_PCL_TYPE; CDS_MAX_PCL_TYPE]
  | CDS_STA_P2P_CLI_DBS_1x1, CDS_STA_MODE => [CDS_MAX_PCL_TYPE; CDS_MAX_PCL_TYPE; CDS_MAX_PCL_TYPE]
  | CDS_STA_P2P_CLI_DBS_1x1, CDS_SAP_MODE => [CDS_MAX_PCL_TYPE; CDS_MAX_PCL_TYPE; CDS_MAX_PCL_TYPE]
  | CDS_STA_P2P_CLI_DBS_1x1, CDS_P2P_CLIENT_MODE => [CDS_SCC_ON_5_SCC_ON_24_5G; CDS_NONE; CDS_SCC_ON_5_SCC_ON_24]
  | CDS_STA_P2P_CLI_DBS_1x1, CDS_P2P_GO_MODE => [CDS_SCC_ON_5_SCC_ON_24_5G; CDS_NONE; CDS_SCC_ON_5_SCC_ON_24]
  | CDS_STA_P2P_CLI_DBS_1x1, CDS_IBSS_MODE => [CDS_MAX_PCL_TYPE; CDS_MAX_PCL_TYPE; CDS_MAX_PCL_TYPE]
  | _, _ => []
  end.

Definition third_dbs_P2P_GO_P2P_CLI (c : cds_two_connection_mode) (m : cds_con_mode) : list cds_pcl_type :=
  match c, m with
  | CDS_P2P_GO_P2P_CLI_SCC_24_1x1, CDS_STA_MODE => [CDS_5G_SCC_CH; CDS_5G_SCC_CH; CDS_5G_SCC_CH]
  | CDS_P2P_GO_P2P_CLI_SCC_24_1x1, CDS_SAP_MODE => [CDS_5G_SCC_CH; CDS_5G_SCC_CH; CDS_5G_SCC_CH]
  | CDS_P2P_GO_P2P_CLI_SCC_24_1x1, CDS_P2P_CLIENT_MODE => [CDS_5G_SCC_CH; CDS_5G_SCC_CH; CDS_5G_SCC_CH]
  | CDS_P2P_GO_P2P_CLI_SCC_24_1x1, CDS_P2P_GO_MODE => [CDS_5G_SCC_CH; CDS_5G_SCC_CH; CDS_5G_SCC_CH]
  | CDS_P2P_GO_P2P_CLI_SCC_24_1x1, CDS_IBSS_MODE => [CDS_MAX_PCL_TYPE; CDS_MAX_PCL_TYPE; CDS_MAX_PCL_TYPE]
  | CDS_P2P_GO_P2P_CLI_SCC_24_2x2, CDS_STA_MODE => [CDS_5G_SCC_CH; CDS_5G_SCC_CH; CDS_5G_SCC_CH]
  | CDS_P2P_GO_P2P_CLI_SCC_24_2x2, CDS_SAP_MODE => [CDS_5G_SCC_CH; CDS_5G_SCC_CH; CDS_5G_SCC_CH]
  | CDS_P2P_GO_P2P_CLI_SCC_24_2x2, CDS_P2P_CLIENT_MODE => [CDS_5G_SCC_CH; CDS_5G_SCC_CH; CDS_5G_SCC_CH]
  | CDS_P2P_GO_P2P_CLI_SCC_24_2x2, CDS_P2P_GO_MODE => [CDS_5G_SCC_CH; CDS_5G_SCC_CH; CDS_5G_SCC_CH]
  | CDS_P2P_GO_P2P_CLI_SCC_24_2x2, CDS_IBSS_MODE => [CDS_MAX_PCL_TYPE; CDS_MAX_PCL_TYPE; CDS_MAX_PCL_TYPE]
  | CDS_P2P_GO_P2P_CLI_MCC_24_1x1, CDS_STA_MODE => [CDS_5G_MCC_CH; CDS_5G; CDS_5G_MCC_CH]
  | CDS_P2P_GO_P2P_CLI_MCC_24_1x1, CDS_SAP_MODE => [CDS_5G_MCC_CH; CDS_5G; CDS_5G_MCC_CH]
  | CDS_P2P_GO_P2P_CLI_MCC_24_1x1, CDS_P2P_CLIENT_MODE => [CDS_5G_MCC_CH; CDS_5G; CDS_5G_MCC_CH]
  | CDS_P2P_GO_P2P_CLI_MCC_24_1x1, CDS_P2P_GO_MODE => [CDS_5G_MCC_CH; CDS_5G; CDS_5G_MCC_CH]
  | CDS_P2P_GO_P2P_CLI_MCC_24_1x1, CDS_IBSS_MODE => [CDS_MAX_PCL_TYPE; CDS_MAX_PCL_TYPE; CDS_MAX_PCL_TYPE]
  | CDS_P2P_GO_P2P_CLI_MCC_24_2x2, CDS_STA_MODE => [CDS_5G_MCC_CH; CDS_5G; CDS_5G_MCC_CH]
  | CDS_P2P_GO_P2P_CLI_MCC_24_2x2, CDS_SAP_MODE => [CDS_5G_MCC_CH; CDS_5G; CDS_5G_MCC_CH]
  | CDS_P2P_GO_P2P_CLI_MCC_24_2x2, CDS_P2P_CLIENT_MODE => [CDS_5G_MCC_CH; CDS_5G; CDS_5G_MCC_CH]
  | CDS_P2P_GO_P2P_CLI_MCC_24_2x2, CDS_P2P_GO_MODE => [CDS_5G_MCC_CH; CDS_5G; CDS_5G_MCC_CH]
  | CDS_P2P_GO_P2P_CLI_MCC_24_2x2, CDS_IBSS_MODE => [CDS_MAX_PCL_TYPE; CDS_MAX_PCL_TYPE; CDS_MAX_PCL_TYPE]
  | CDS_P2P_GO_P2P_CLI_SCC_5_1x1, CDS_STA_MODE => [CDS_SCC_CH_24G; CDS_24G_SCC_CH; CDS_SCC_CH_24G]
  | CDS_P2P_GO_P2P_CLI_SCC_5_1x1, CDS_SAP_MODE => [CDS_SCC_CH_24G; CDS_24G_SCC_CH; CDS_SCC_CH_24G]
  | CDS_P2P_GO_P2P_CLI_SCC_5_1x1, CDS_P2P_CLIENT_MODE => [CDS_SCC_CH_24G; CDS_24G_SCC_CH; CDS_SCC_CH_24G]
  | CDS_P2P_GO_P2P_CLI_SCC_5_1x1, CDS_P2P_GO_MODE => [CDS_SCC_CH_24G; CDS_24G_SCC_CH; CDS_SCC_CH_24G]
  | CDS_P2P_GO_P2P_CLI_SCC_5_1x1, CDS_IBSS_MODE => [CDS_MAX_PCL_TYPE; CDS_MAX_PCL_TYPE; CDS_MAX_PCL_TYPE]
  | CDS_P2P_GO_P2P_CLI_SCC_5_2x2, CDS_STA_MODE => [CDS_SCC_CH_24G; CDS_24G_SCC_CH; CDS_SCC_CH_24G]
  | CDS_P2P_GO_P2P_CLI_SCC_5_2x2, CDS_SAP_MODE => [CDS_SCC_CH_24G; CDS_24G_SCC_CH; CDS_SCC_CH_24G]
  | CDS_P2P_GO_P2P_CLI_SCC_5_2x2, CDS_P2P_CLIENT_MODE => [CDS_SCC_CH_24G; CDS_24G_SCC_CH; CDS_SCC_CH_24G]
  | CDS_P2P_GO_P2P_CLI_SCC_5_2x2, CDS_P2P_GO_MODE => [CDS_SCC_CH_24G; CDS_24G_SCC_CH; CDS_SCC_CH_24G]
  | CDS_P2P_GO_P2P_CLI_SCC_5_2x2, CDS_IBSS_MODE => [CDS_MAX_PCL_TYPE; CDS_MAX_PCL_TYPE; CDS_MAX_PCL_TYPE]
  | CDS_P2P_GO_P2P_CLI_MCC_5_1x1, CDS_STA_MODE => [CDS_MCC_CH_24G; CDS_24G; CDS_24G]
  | CDS_P2P_GO_P2P_CLI_MCC_5_1x1, CDS_SAP_MODE => [CDS_24G; CDS_24G; CDS_24G]
  | CDS_P2P_GO_P2P_CLI_MCC_5_1x1, CDS_P2P_CLIENT_MODE => [CDS_MCC_CH_24G; CDS_24G; CDS_24G]
  | CDS_P2P_GO_P2P_CLI_MCC_5_1x1, CDS_P2P_GO_MODE => [CDS_MCC_CH_24G; CDS_24G; CDS_24G]
  | CDS_P2P_GO_P2P_CLI_MCC_5_1x1, CDS_IBSS_MODE => [CDS_MAX_PCL_TYPE; CDS_MAX_PCL_TYPE; CDS_MAX_PCL_TYPE]
  | CDS_P2P_GO_P2P_CLI_MCC_5_2x2, CDS_STA_MODE => [CDS_MCC_CH_24G; CDS_24G; CDS_24G]
  | CDS_P2P_GO_P2P_CLI_MCC_5_2x2, CDS_SAP_MODE => [CDS_24G; CDS_24G; CDS_24G]
  | CDS_P2P_GO_P2P_CLI_MCC_5_2x2, CDS_P2P_CLIENT_MODE => [CDS_MCC_CH_24G; CDS_24G; CDS_24G]
  | CDS_P2P_GO_P2P_CLI_MCC_5_2x2, CDS_P2P_GO_MODE => [CDS_MCC_CH_24G; CDS_24G; CDS_24G]
  | CDS_P2P_GO_P2P_CLI_MCC_5_2x2, CDS_IBSS_MODE => [CDS_MAX_PCL_TYPE; CDS_MAX_PCL_TYPE; CDS_MAX_PCL_TYPE]
  | CDS_P2P_GO_P2P_CLI_MCC_24_5_1x1, CDS_STA_MODE => [CDS_MCC_CH_5G; CDS_5G; CDS_5G]
  | CDS_P2P_GO_P2P_CLI_MCC_24_5_1x1, CDS_SAP_MODE => [CDS_24G; CDS_24G; CDS_24G]
  | CDS_P2P_GO_P2P_CLI_MCC_24_5_1x1, CDS_P2P_CLIENT_MODE => [CDS_MCC_CH_24G; CDS_24G; CDS_24G]
  | CDS_P2P_GO_P2P_CLI_MCC_24_5_1x1, CDS_P2P_GO_MODE => [CDS_MCC_CH_24G; CDS_24G; CDS_24G]
  | CDS_P2P_GO_P2P_CLI_MCC_24_5_1x1, CDS_IBSS_MODE => [CDS_MAX_PCL_TYPE; CDS_MAX_PCL_TYPE; CDS_MAX_PCL_TYPE]
  | CDS_P2P_GO_P2P_CLI_MCC_24_5_2x2, CDS_STA_MODE => [CDS_MCC_CH_5G; CDS_5G; CDS_5G]
  | CDS_P2P_GO_P2P_CLI_MCC_24_5_2x2, CDS_SAP_MODE => [CDS_24G; CDS_24G; CDS_24G]
  | CDS_P2P_GO_P2P_CLI_MCC_24_5_2x2, CDS_P2P_CLIENT_MODE => [CDS_MCC_CH_24G; CDS_24G; CDS_24G]
  | CDS_P2P_GO_P2P_CLI_MCC_24_5_2x2, CDS_P2P_GO_MODE => [CDS_MCC_CH_24G; CDS_24G; CDS_24G]
  | CDS_P2P_GO_P2P_CLI_MCC_24_5_2x2, CDS_IBSS_MODE => [CDS_MAX_PCL_TYPE; CDS_MAX_PCL_TYPE; CDS_MAX_PCL_TYPE]
  | CDS_P2P_GO_P2P_CLI_DBS_1x1, CDS_STA_MODE => [CDS_SCC_ON_5_SCC_ON_24_5G; CDS_NONE; CDS_SCC_ON_5_SCC_ON_24]
  | CDS_P2P_GO_P2P_CLI_DBS_1x1, CDS_SAP_MODE => [CDS_SCC_ON_5_SCC_ON_24_5G; CDS_NONE; CDS_SCC_ON_5_SCC_ON_24]
  | CDS_P2P_GO_P2P_CLI_DBS_1x1, CDS_P2P_CLIENT_MODE => [CDS_SCC_ON_5_SCC_ON_24_5G; CDS_NONE; CDS_SCC_ON_5_SCC_ON_24]
  | CDS_P2P_GO_P2P_CLI_DBS_1x1, CDS_P2P_GO_MODE => [CDS_SCC_ON_5_SCC_ON_24_5G; CDS_NONE; CDS_SCC_ON_5_SCC_ON_24]
  | CDS_P2P_GO_P2P_CLI_DBS_1x1, CDS_IBSS_MODE => [CDS_MAX_PCL_TYPE; CDS_MAX_PCL_TYPE; CDS_MAX_PCL_TYPE]
  | _, _ => []
  end.

Definition third_dbs_P2P_GO_SAP (c : cds_two_connection_mode) (m : cds_con_mode) : list cds_pcl_type :=
  match c, m with
  | CDS_P2P_GO_SAP_SCC_24_1x1, CDS_STA_MODE => [CDS_MAX_PCL_TYPE; CDS_MAX_PCL_TYPE; CDS_MAX_PCL_TYPE]
  | CDS_P2P_GO_SAP_SCC_24_1x1, CDS_SAP_MODE => [CDS_MAX_PCL_TYPE; CDS_MAX_PCL_TYPE; CDS_MAX_PCL_TYPE]
  | CDS_P2P_GO_SAP_SCC_24_1x1, CDS_P2P_CLIENT_MODE => [CDS_MAX_PCL_TYPE; CDS_MAX_PCL_TYPE; CDS_MAX_PCL_TYPE]
  | CDS_P2P_GO_SAP_SCC_24_1x1, CDS_P2P_GO_MODE => [CDS_MAX_PCL_TYPE; CDS_MAX_PCL_TYPE; CDS_MAX_PCL_TYPE]
  | CDS_P2P_GO_SAP_SCC_24_1x1, CDS_IBSS_MODE => [CDS_MAX_PCL_TYPE; CDS_MAX_PCL_TYPE; CDS_MAX_PCL_TYPE]
  | CDS_P2P_GO_SAP_SCC_24_2x2, CDS_STA_MODE => [CDS_MAX_PCL_TYPE; CDS_MAX_PCL_TYPE; CDS_MAX_PCL_TYPE]
  | CDS_P2P_GO_SAP_SCC_24_2x2, CDS_SAP_MODE => [CDS_MAX_PCL_TYPE; CDS_MAX_PCL_TYPE; CDS_MAX_PCL_TYPE]
  | CDS_P2P_GO_SAP_SCC_24_2x2, CDS_P2P_CLIENT_MODE => [CDS_MAX_PCL_TYPE; CDS_MAX_PCL_TYPE; CDS_MAX_PCL_TYPE]
  | CDS_P2P_GO_SAP_SCC_24_2x2, CDS_P2P_GO_MODE => [CDS_MAX_PCL_TYPE; CDS_MAX_PCL_TYPE; CDS_MAX_PCL_TYPE]
  | CDS_P2P_GO_SAP_SCC_24_2x2, CDS_IBSS_MODE => [CDS_MAX_PCL_TYPE; CDS_MAX_PCL_TYPE; CDS_MAX_PCL_TYPE]
  | CDS_P2P_GO_SAP_MCC_24_1x1, CDS_STA_MODE => [CDS_MAX_PCL_TYPE; CDS_MAX_PCL_TYPE; CDS_MAX_PCL_TYPE]
  | CDS_P2P_GO_SAP_MCC_24_1x1, CDS_SAP_MODE => [CDS_MAX_PCL_TYPE; CDS_MAX_PCL_TYPE; CDS_MAX_PCL_TYPE]
  | CDS_P2P_GO_SAP_MCC_24_1x1, CDS_P2P_CLIENT_MODE => [CDS_MAX_PCL_TYPE; CDS_MAX_PCL_TYPE; CDS_MAX_PCL_TYPE]
  | CDS_P2P_GO_SAP_MCC_24_1x1, CDS_P2P_GO_MODE => [CDS_MAX_PCL_TYPE; CDS_MAX_PCL_TYPE; CDS_MAX_PCL_TYPE]
  | CDS_P2P_GO_SAP_MCC_24_1x1, CDS_IBSS_MODE => [CDS_MAX_PCL_TYPE; CDS_MAX_PCL_TYPE; CDS_MAX_PCL_TYPE]
  | CDS_P2P_GO_SAP_MCC_24_2x2, CDS_STA_MODE => [CDS_MAX_PCL_TYPE; CDS_MAX_PCL_TYPE; CDS_MAX_PCL_TYPE]
  | CDS_P2P_GO_SAP_MCC_24_2x2, CDS_SAP_MODE => [CDS_MAX_PCL_TYPE; CDS_MAX_PCL_TYPE; CDS_MAX_PCL_TYPE]
  | CDS_P2P_GO_SAP_MCC_24_2x2, CDS_P2P_CLIENT_MODE => [CDS_MAX_PCL_TYPE; CDS_MAX_PCL_TYPE; CDS_MAX_PCL_TYPE]
  | CDS_P2P_GO_SAP_MCC_24_2x2, CDS_P2P_GO_MODE => [CDS_MAX_PCL_TYPE; CDS_MAX_PCL_TYPE; CDS_MAX_PCL_TYPE]
  | CDS_P2P_GO_SAP_MCC_24_2x2, CDS_IBSS_MODE => [CDS_MAX_PCL_TYPE; CDS_MAX_PCL_TYPE; CDS_MAX_PCL_TYPE]
  | CDS_P2P_GO_SAP_SCC_5_1x1, CDS_STA_MODE => [CDS_MAX_PCL_TYPE; CDS_MAX_PCL_TYPE; CDS_MAX_PCL_TYPE]
  | CDS_P2P_GO_SAP_SCC_5_1x1, CDS_SAP_MODE => [CDS_MAX_PCL_TYPE; CDS_MAX_PCL_TYPE; CDS_MAX_PCL_TYPE]
  | CDS_P2P_GO_SAP_SCC_5_1x1, CDS_P2P_CLIENT_MODE => [CDS_MAX_PCL_TYPE; CDS_MAX_PCL_TYPE; CDS_MAX_PCL_TYPE]
  | CDS_P2P_GO_SAP_SCC_5_1x1, CDS_P2P_GO_MODE => [CDS_MAX_PCL_TYPE; CDS_MAX_PCL_TYPE; CDS_MAX_PCL_TYPE]
  | CDS_P2P_GO_SAP_SCC_5_1x1, CDS_IBSS_MODE => [CDS_MAX_PCL_TYPE; CDS_MAX_PCL_TYPE; CDS_MAX_PCL_TYPE]
  | CDS_P2P_GO_SAP_SCC_5_2x2, CDS_STA_MODE => [CDS_MAX_PCL_TYPE; CDS_MAX_PCL_TYPE; CDS_MAX_PCL_TYPE]
  | CDS_P2P_GO_SAP_SCC_5_2x2, CDS_SAP_MODE => [CDS_MAX_PCL_TYPE; CDS_MAX_PCL_TYPE; CDS_MAX_PCL_TYPE]
  | CDS_P2P_GO_SAP_SCC_5_2x2, CDS_P2P_CLIENT_MODE => [CDS_MAX_PCL_TYPE; CDS_MAX_PCL_TYPE; CDS_MAX_PCL_TYPE]
  | CDS_P2P_GO_SAP_SCC_5_2x2, CDS_P2P_GO_MODE => [CDS_MAX_PCL_TYPE; CDS_MAX_PCL_TYPE; CDS_MAX_PCL_TYPE]
  | CDS_P2P_GO_SAP_SCC_5_2x2, CDS_IBSS_MODE => [CDS_MAX_PCL_TYPE; CDS_MAX_PCL_TYPE; CDS_MAX_PCL_TYPE]
  | CDS_P2P_GO_SAP_MCC_5_1x1, CDS_STA_MODE => [CDS_MAX_PCL_TYPE; CDS_MAX_PCL_TYPE; CDS_MAX_PCL_TYPE]
  | CDS_P2P_GO_SAP_MCC_5_1x1, CDS_SAP_MODE => [CDS_MAX_PCL_TYPE; CDS_MAX_PCL_TYPE; CDS_MAX_PCL_TYPE]
  | CDS_P2P_GO_SAP_MCC_5_1x1, CDS_P2P_CLIENT_MODE => [CDS_MAX_PCL_TYPE; CDS_MAX_PCL_TYPE; CDS_MAX_PCL_TYPE]
  | CDS_P2P_GO_SAP_MCC_5_1x1, CDS_P2P_GO_MODE => [CDS_MAX_PCL_TYPE; CDS_MAX_PCL_TYPE; CDS_MAX_PCL_TYPE]
  | CDS_P2P_GO_SAP_MCC_5_1x1, CDS_IBSS_MODE => [CDS_MAX_PCL_TYPE; CDS_MAX_PCL_TYPE; CDS_MAX_PCL_TYPE]
  | CDS_P2P_GO_SAP_MCC_5_2x2, CDS_STA_MODE => [CDS_MAX_PCL_TYPE; CDS_MAX_PCL_TYPE; CDS_MAX_PCL_TYPE]
  | CDS_P2P_GO_SAP_MCC_5_2x2, CDS_SAP_MODE => [CDS_MAX_PCL_TYPE; CDS_MAX_PCL_TYPE; CDS_MAX_PCL_TYPE]
  | CDS_P2P_GO_SAP_MCC_5_2x2, CDS_P2P_CLIENT_MODE => [CDS_MAX_PCL_TYPE; CDS_MAX_PCL_TYPE; CDS_MAX_PCL_TYPE]
  | CDS_P2P_GO_SAP_MCC_5_2x2, CDS_P2P_GO_MODE => [CDS_MAX_PCL_TYPE; CDS_MAX_PCL_TYPE; CDS_MAX_PCL_TYPE]
  | CDS_P2P_GO_SAP_MCC_5_2x2, CDS_IBSS_MODE => [CDS_MAX_PCL_TYPE; CDS_MAX_PCL_TYPE; CDS_MAX_PCL_TYPE]
  | CDS_P2P_GO_SAP_MCC_24_5_1x1, CDS_STA_MODE => [CDS_MAX_PCL_TYPE; CDS_MAX_PCL_TYPE; CDS_MAX_PCL_TYPE]
  | CDS_P2P_GO_SAP_MCC_24_5_1x1, CDS_SAP_MODE => [CDS_MAX_PCL_TYPE; CDS_MAX_PCL_TYPE; CDS_MAX_PCL_TYPE]
  | CDS_P2P_GO_SAP_MCC_24_5_1x1, CDS_P2P_CLIENT_MODE => [CDS_MAX_PCL_TYPE; CDS_MAX_PCL_TYPE; CDS_MAX_PCL_TYPE]
  | CDS_P2P_GO_SAP_MCC_24_5_1x1, CDS_P2P_GO_MODE => [CDS_MAX_PCL_TYPE; CDS_MAX_PCL_TYPE; CDS_MAX_PCL_TYPE]
  | CDS_P2P_GO_SAP_MCC_24_5_1x1, CDS_IBSS_MODE => [CDS_MAX_PCL_TYPE; CDS_MAX_PCL_TYPE; CDS_MAX_PCL_TYPE]
  | CDS_P2P_GO_SAP_MCC_24_5_2x2, CDS_STA_MODE => [CDS_MAX_PCL_TYPE; CDS_MAX_PCL_TYPE; CDS_MAX_PCL_TYPE]
  | CDS_P2P_GO_SAP_MCC_24_5_2x2, CDS_SAP_MODE => [CDS_MAX_PCL_TYPE; CDS_MAX_PCL_TYPE; CDS_MAX_PCL_TYPE]
  | CDS_P2P_GO_SAP_MCC_24_5_2x2, CDS_P2P_CLIENT_MODE => [CDS_MAX_PCL_TYPE; CDS_MAX_PCL_TYPE; CDS_MAX_PCL_TYPE]
  | CDS_P2P_GO_SAP_MCC_24_5_2x2, CDS_P2P_GO_MODE => [CDS_MAX_PCL_TYPE; CDS_MAX_PCL_TYPE; CDS_MAX_PCL_TYPE]
  | CDS_P2P_GO_SAP_MCC_24_5_2x2, CDS_IBSS_MODE => [CDS_MAX_PCL_TYPE; CDS_MAX_PCL_TYPE; CDS_MAX_PCL_TYPE]
  | CDS_P2P_GO_SAP_DBS_1x1, CDS_STA_MODE => [CDS_MAX_PCL_TYPE; CDS_MAX_PCL_TYPE; CDS_MAX_PCL_TYPE]
  | CDS_P2P_GO_SAP_DBS_1x1, CDS_SAP_MODE => [CDS_MAX_PCL_TYPE; CDS_MAX_PCL_TYPE; CDS_MAX_PCL_TYPE]
  | CDS_P2P_GO_SAP_DBS_1x1, CDS_P2P_CLIENT_MODE => [CDS_MAX_PCL_TYPE; CDS_MAX_PCL_TYPE; CDS_MAX_PCL_TYPE]
  | CDS_P2P_GO_SAP_DBS_1x1, CDS_P2P_GO_MODE => [CDS_MAX_PCL_TYPE; CDS_MAX_PCL_TYPE; CDS_MAX_PCL_TYPE]
  | CDS_P2P_GO_SAP_DBS_1x1, CDS_IBSS_MODE => [CDS_MAX_PCL_TYPE; CDS_MAX_PCL_TYPE; CDS_MAX_PCL_TYPE]
  | _, _ => []
  end.

Definition third_dbs_P2P_CLI_SAP (c : cds_two_connection_mode) (m : cds_con_mode) : list cds_pcl_type :=
  match c, m with
  | CDS_P2P_CLI_SAP_SCC_24_1x1, CDS_STA_MODE => [CDS_MAX_PCL_TYPE; CDS_MAX_PCL_TYPE; CDS_MAX_PCL_TYPE]
  | CDS_P2P_CLI_SAP_SCC_24_1x1, CDS_SAP_MODE => [CDS_MAX_PCL_TYPE; CDS_MAX_PCL_TYPE; CDS_MAX_PCL_TYPE]
  | CDS_P2P_CLI_SAP_SCC_24_1x1, CDS_P2P_CLIENT_MODE => [CDS_MAX_PCL_TYPE; CDS_MAX_PCL_TYPE; CDS_MAX_PCL_TYPE]
  | CDS_P2P_CLI_SAP_SCC_24_1x1, CDS_P2P_GO_MODE => [CDS_MAX_PCL_TYPE; CDS_MAX_PCL_TYPE; CDS_MAX_PCL_TYPE]
  | CDS_P2P_CLI_SAP_SCC_24_1x1, CDS_IBSS_MODE => [CDS_MAX_PCL_TYPE; CDS_MAX_PCL_TYPE; CDS_MAX_PCL_TYPE]
  | CDS_P2P_CLI_SAP_SCC_24_2x2, CDS_STA_MODE => [CDS_MAX_PCL_TYPE; CDS_MAX_PCL_TYPE; CDS_MAX_PCL_TYPE]
  | CDS_P2P_CLI_SAP_SCC_24_2x2, CDS_SAP_MODE => [CDS_MAX_PCL_TYPE; CDS_MAX_PCL_TYPE; CDS_MAX_PCL_TYPE]
  | CDS_P2P_CLI_SAP_SCC_24_2x2, CDS_P2P_CLIENT_MODE => [CDS_MAX_PCL_TYPE; CDS_MAX_PCL_TYPE; CDS_MAX_PCL_TYPE]
  | CDS_P2P_CLI_SAP_SCC_24_2x2, CDS_P2P_GO_MODE => [CDS_MAX_PCL_TYPE; CDS_MAX_PCL_TYPE; CDS_MAX_PCL_TYPE]
  | CDS_P2P_CLI_SAP_SCC_24_2x2, CDS_IBSS_MODE => [CDS_MAX_PCL_TYPE; CDS_MAX_PCL_TYPE; CDS_MAX_PCL_TYPE]
  | CDS_P2P_CLI_SAP_MCC_24_1x1, CDS_STA_MODE => [CDS_MAX_PCL_TYPE; CDS_MAX_PCL_TYPE; CDS_MAX_PCL_TYPE]
  | CDS_P2P_CLI_SAP_MCC_24_1x1, CDS_SAP_MODE => [CDS_MAX_PCL_TYPE; CDS_MAX_PCL_TYPE; CDS_MAX_PCL_TYPE]
  | CDS_P2P_CLI_SAP_MCC_24_1x1, CDS_P2P_CLIENT_MODE => [CDS_MAX_PCL_TYPE; CDS_MAX_PCL_TYPE; CDS_MAX_PCL_TYPE]
  | CDS_P2P_CLI_SAP_MCC_24_1x1, CDS_P2P_GO_MODE => [CDS_MAX_PCL_TYPE; CDS_MAX_PCL_TYPE; CDS_MAX_PCL_TYPE]
  | CDS_P2P_CLI_SAP_MCC_24_1x1, CDS_IBSS_MODE => [CDS_MAX_PCL_TYPE; CDS_MAX_PCL_TYPE; CDS_MAX_PCL_TYPE]
  | CDS_P2P_CLI_SAP_MCC_24_2x2, CDS_STA_MODE => [CDS_MAX_PCL_TYPE; CDS_MAX_PCL_TYPE; CDS_MAX_PCL_TYPE]
  | CDS_P2P_CLI_SAP_MCC_24_2x2, CDS_SAP_MODE => [CDS_MAX_PCL_TYPE; CDS_MAX_PCL_TYPE; CDS_MAX_PCL_TYPE]
  | CDS_P2P_CLI_SAP_MCC_24_2x2, CDS_P2P_CLIENT_MODE => [CDS_MAX_PCL_TYPE; CDS_MAX_PCL_TYPE; CDS_MAX_PCL_TYPE]
  | CDS_P2P_CLI_SAP_MCC_24_2x2, CDS_P2P_GO_MODE => [CDS_MAX_PCL_TYPE; CDS_MAX_PCL_TYPE; CDS_MAX_PCL_TYPE]
  | CDS_P2P_CLI_SAP_MCC_24_2x2, CDS_IBSS_MODE => [CDS_MAX_PCL_TYPE; CDS_MAX_PCL_TYPE; CDS_MAX_PCL_TYPE]
  | CDS_P2P_CLI_SAP_SCC_5_1x1, CDS_STA_MODE => [CDS_MAX_PCL_TYPE; CDS_MAX_PCL_TYPE; CDS_MAX_PCL_TYPE]
  | CDS_P2P_CLI_SAP_SCC_5_1x1, CDS_SAP_MODE => [CDS_MAX_PCL_TYPE; CDS_MAX_PCL_TYPE; CDS_MAX_PCL_TYPE]
  | CDS_P2P_CLI_SAP_SCC_5_1x1, CDS_P2P_CLIENT_MODE => [CDS_MAX_PCL_TYPE; CDS_MAX_PCL_TYPE; CDS_MAX_PCL_TYPE]
  | CDS_P2P_CLI_SAP_SCC_5_1x1, CDS_P2P_GO_MODE => [CDS_MAX_PCL_TYPE; CDS_MAX_PCL_TYPE; CDS_MAX_PCL_TYPE]
  | CDS_P2P_CLI_SAP_SCC_5_1x1, CDS_IBSS_MODE => [CDS_MAX_PCL_TYPE; CDS_MAX_PCL_TYPE; CDS_MAX_PCL_TYPE]
  | CDS_P2P_CLI_SAP_SCC_5_2x2, CDS_STA_MODE => [CDS_MAX_PCL_TYPE; CDS_MAX_PCL_TYPE; CDS_MAX_PCL_TYPE]
  | CDS_P2P_CLI_SAP_SCC_5_2x2, CDS_SAP_MODE => [CDS_MAX_PCL_TYPE; CDS_MAX_PCL_TYPE; CDS_MAX_PCL_TYPE]
  | CDS_P2P_CLI_SAP_SCC_5_2x2, CDS_P2P_CLIENT_MODE => [CDS_MAX_PCL_TYPE; CDS_MAX_PCL_TYPE; CDS_MAX_PCL_TYPE]
  | CDS_P2P_CLI_SAP_SCC_5_2x2, CDS_P2P_GO_MODE => [CDS_MAX_PCL_TYPE; CDS_MAX_PCL_TYPE; CDS_MAX_PCL_TYPE]
  | CDS_P2P_CLI_SAP_SCC_5_2x2, CDS_IBSS_MODE => [CDS_MAX_PCL_TYPE; CDS_MAX_PCL_TYPE; CDS_MAX_PCL_TYPE]
  | CDS_P2P_CLI_SAP_MCC_5_1x1, CDS_STA_MODE => [CDS_MAX_PCL_TYPE; CDS_MAX_PCL_TYPE; CDS_MAX_PCL_TYPE]
  | CDS_P2P_CLI_SAP_MCC_5_1x1, CDS_SAP_MODE => [CDS_MAX_PCL_TYPE; CDS_MAX_PCL_TYPE; CDS_MAX_PCL_TYPE]
  | CDS_P2P_CLI_SAP_MCC_5_1x1, CDS_P2P_CLIENT_MODE => [CDS_MAX_PCL_TYPE; CDS_MAX_PCL_TYPE; CDS_MAX_PCL_TYPE]
  | CDS_P2P_CLI_SAP_MCC_5_1x1, CDS_P2P_GO_MODE => [CDS_MAX_PCL_TYPE; CDS_MAX_PCL_TYPE; CDS_MAX_PCL_TYPE]
  | CDS_P2P_CLI_SAP_MCC_5_1x1, CDS_IBSS_MODE => [CDS_MAX_PCL_TYPE; CDS_MAX_PCL_TYPE; CDS_MAX_PCL_TYPE]
  | CDS_P2P_CLI_SAP_MCC_5_2x2, CDS_STA_MODE => [CDS_MAX_PCL_TYPE; CDS_MAX_PCL_TYPE; CDS_MAX_PCL_TYPE]
  | CDS_P2P_CLI_SAP_MCC_5_2x2, CDS_SAP_MODE => [CDS_MAX_PCL_TYPE; CDS_MAX_PCL_TYPE; CDS_MAX_PCL_TYPE]
  | CDS_P2P_CLI_SAP_MCC_5_2x2, CDS_P2P_CLIENT_MODE => [CDS_MAX_PCL_TYPE; CDS_MAX_PCL_TYPE; CDS_MAX_PCL_TYPE]
  | CDS_P2P_CLI_SAP_MCC_5_2x2, CDS_P2P_GO_MODE => [CDS_MAX_PCL_TYPE; CDS_MAX_PCL_TYPE; CDS_MAX_PCL_TYPE]
  | CDS_P2P_CLI_SAP_MCC_5_2x2, CDS_IBSS_MODE => [CDS_MAX_PCL_TYPE; CDS_MAX_PCL_TYPE; CDS_MAX_PCL_TYPE]
  | CDS_P2P_CLI_SAP_MCC_24_5_1x1, CDS_STA_MODE => [CDS_MAX_PCL_TYPE; CDS_MAX_PCL_TYPE; CDS_MAX_PCL_TYPE]
  | CDS_P2P_CLI_SAP_MCC_24_5_1x1, CDS_SAP_MODE => [CDS_MAX_PCL_TYPE; CDS_MAX_PCL_TYPE; CDS_MAX_PCL_TYPE]
  | CDS_P2P_CLI_SAP_MCC_24_5_1x1, CDS_P2P_CLIENT_MODE => [CDS_MAX_PCL_TYPE; CDS_MAX_PCL_TYPE; CDS_MAX_PCL_TYPE]
  | CDS_P2P_CLI_SAP_MCC_24_5_1x1, CDS_P2P_GO_MODE => [CDS_MAX_PCL_TYPE; CDS_MAX_PCL_TYPE; CDS_MAX_PCL_TYPE]
  | CDS_P2P_CLI_SAP_MCC_24_5_1x1, CDS_IBSS_MODE => [CDS_MAX_PCL_TYPE; CDS_MAX_PCL_TYPE; CDS_MAX_PCL_TYPE]
  | CDS_P2P_CLI_SAP_MCC_24_5_2x2, CDS_STA_MODE => [CDS_MAX_PCL_TYPE; CDS_MAX_PCL_TYPE; CDS_MAX_PCL_TYPE]
  | CDS_P2P_CLI_SAP_MCC_24_5_2x2, CDS_SAP_MODE => [CDS_MAX_PCL_TYPE; CDS_MAX_PCL_TYPE; CDS_MAX_PCL_TYPE]
  | CDS_P2P_CLI_SAP_MCC_24_5_2x2, CDS_P2P_CLIENT_MODE => [CDS_MAX_PCL_TYPE; CDS_MAX_PCL_TYPE; CDS_MAX_PCL_TYPE]
  | CDS_P2P_CLI_SAP_MCC_24_5_2x2, CDS_P2P_GO_MODE => [CDS_MAX_PCL_TYPE; CDS_MAX_PCL_TYPE; CDS_MAX_PCL_TYPE]
  | CDS_P2P_CLI_SAP_MCC_24_5_2x2, CDS_IBSS_MODE => [CDS_MAX_PCL_TYPE; CDS_MAX_PCL_TYPE; CDS_MAX_PCL_TYPE]
  | CDS_P2P_CLI_SAP_DBS_1x1, CDS_STA_MODE => [CDS_MAX_PCL_TYPE; CDS_MAX_PCL_TYPE; CDS_MAX_PCL_TYPE]
  | CDS_P2P_CLI_SAP_DBS_1x1, CDS_SAP_MODE => [CDS_MAX_PCL_TYPE; CDS_MAX_PCL_TYPE; CDS_MAX_PCL_TYPE]
  | CDS_P2P_CLI_SAP_DBS_1x1, CDS_P2P_CLIENT_MODE => [CDS_MAX_PCL_TYPE; CDS_MAX_PCL_TYPE; CDS_MAX_PCL_TYPE]
  | CDS_P2P_CLI_SAP_DBS_1x1, CDS_P2P_GO_MODE => [CDS_MAX_PCL_TYPE; CDS_MAX_PCL_TYPE; CDS_MAX_PCL_TYPE]
  | CDS_P2P_CLI_SAP_DBS_1x1, CDS_IBSS_MODE => [CDS_MAX_PCL_TYPE; CDS_MAX_PCL_TYPE; CDS_MAX_PCL_TYPE]
  | _, _ => []
  end.

Definition third_connection_pcl_dbs_table (c : cds_two_connection_mode) (m : cds_con_mode) : list cds_pcl_type :=
  third_dbs_STA_SAP c m ++ third_dbs_STA_P2P_GO c m ++ third_dbs_STA_P2P_CLI c m ++
  third_dbs_P2P_GO_P2P_CLI c m ++ third_dbs_P2P_GO_SAP c m ++ third_dbs_P2P_CLI_SAP c m.

(** *** [third_connection_pcl_nodbs_table], in six parts; a part is empty outside of its rows. *)

Definition third_nodbs_STA_SAP (c : cds_two_connection_mode) (m : cds_con_mode) : list cds_pcl_type :=
  match c, m with
  | CDS_STA_SAP_SCC_24_1x1, CDS_STA_MODE => [CDS_5G; CDS_SCC_CH; CDS_SCC_CH]
  | CDS_STA_SAP_SCC_24_1x1, CDS_SAP_MODE => [CDS_SCC_CH_5G; CDS_SCC_CH; CDS_SCC_CH]
  | CDS_STA_SAP_SCC_24_1x1, CDS_P2P_CLIENT_MODE => [CDS_MAX_PCL_TYPE; CDS_MAX_PCL_TYPE; CDS_MAX_PCL_TYPE]
  | CDS_STA_SAP_SCC_24_1x1, CDS_P2P_GO_MODE => [CDS_MAX_PCL_TYPE; CDS_MAX_PCL_TYPE; CDS_MAX_PCL_TYPE]
  | CDS_STA_SAP_SCC_24_1x1, CDS_IBSS_MODE => [CDS_MAX_PCL_TYPE; CDS_MAX_PCL_TYPE; CDS_MAX_PCL_TYPE]
  | CDS_STA_SAP_SCC_24_2x2, CDS_STA_MODE => [CDS_5G; CDS_SCC_CH; CDS_SCC_CH]
  | CDS_STA_SAP_SCC_24_2x2, CDS_SAP_MODE => [CDS_SCC_CH_5G; CDS_SCC_CH; CDS_SCC_CH]
  | CDS_STA_SAP_SCC_24_2x2, CDS_P2P_CLIENT_MODE => [CDS_MAX_PCL_TYPE; CDS_MAX_PCL_TYPE; CDS_MAX_PCL_TYPE]
  | CDS_STA_SAP_SCC_24_2x2, CDS_P2P_GO_MODE => [CDS_MAX_PCL_TYPE; CDS_MAX_PCL_TYPE; CDS_MAX_PCL_TYPE]
  | CDS_STA_SAP_SCC_24_2x2, CDS_IBSS_MODE => [CDS_MAX_PCL_TYPE; CDS_MAX_PCL_TYPE; CDS_MAX_PCL_TYPE]
  | CDS_STA_SAP_MCC_24_1x1, CDS_STA_MODE => [CDS_5G_MCC_CH; CDS_MCC_CH; CDS_MCC_CH]
  | CDS_STA_SAP_MCC_24_1x1, CDS_SAP_MODE => [CDS_5G_MCC_CH; CDS_MCC_CH; CDS_MCC_CH]
  | CDS_STA_SAP_MCC_24_1x1, CDS_P2P_CLIENT_MODE => [CDS_MAX_PCL_TYPE; CDS_MAX_PCL_TYPE; CDS_MAX_PCL_TYPE]
  | CDS_STA_SAP_MCC_24_1x1, CDS_P2P_GO_MODE => [CDS_MAX_PCL_TYPE; CDS_MAX_PCL_TYPE; CDS_MAX_PCL_TYPE]
  | CDS_STA_SAP_MCC_24_1x1, CDS_IBSS_MODE => [CDS_MAX_PCL_TYPE; CDS_MAX_PCL_TYPE; CDS_MAX_PCL_TYPE]
  | CDS_STA_SAP_MCC_24_2x2, CDS_STA_MODE => [CDS_5G_MCC_CH; CDS_MCC_CH; CDS_MCC_CH]
  | CDS_STA_SAP_MCC_24_2x2, CDS_SAP_MODE => [CDS_5G_MCC_CH; CDS_MCC_CH; CDS_MCC_CH]
  | CDS_STA_SAP_MCC_24_2x2, CDS_P2P_CLIENT_MODE => [CDS_MAX_PCL_TYPE; CDS_MAX_PCL_TYPE; CDS_MAX_PCL_TYPE]
  | CDS_STA_SAP_MCC_24_2x2, CDS_P2P_GO_MODE => [CDS_MAX_PCL_TYPE; CDS_MAX_PCL_TYPE; CDS_MAX_PCL_TYPE]
  | CDS_STA_SAP_MCC_24_2x2, CDS_IBSS_MODE => [CDS_MAX_PCL_TYPE; CDS_MAX_PCL_TYPE; CDS_MAX_PCL_TYPE]
  | CDS_STA_SAP_SCC_5_1x1, CDS_STA_MODE => [CDS_SCC_CH; CDS_SCC_CH; CDS_SCC_CH]
  | CDS_STA_SAP_SCC_5_1x1, CDS_SAP_MODE => [CDS_SCC_CH; CDS_SCC_CH; CDS_SCC_CH]
  | CDS_STA_SAP_SCC_5_1x1, CDS_P2P_CLIENT_MODE => [CDS_MAX_PCL_TYPE; CDS_MAX_PCL_TYPE; CDS_MAX_PCL_TYPE]
  | CDS_STA_SAP_SCC_5_1x1, CDS_P2P_GO_MODE => [CDS_MAX_PCL_TYPE; CDS_MAX_PCL_TYPE; CDS_MAX_PCL_TYPE]
  | CDS_STA_SAP_SCC_5_1x1, CDS_IBSS_MODE => [CDS_MAX_PCL_TYPE; CDS_MAX_PCL_TYPE; CDS_MAX_PCL_TYPE]
  | CDS_STA_SAP_SCC_5_2x2, CDS_STA_MODE => [CDS_SCC_CH; CDS_SCC_CH; CDS_SCC_CH]
  | CDS_STA_SAP_SCC_5_2x2, CDS_SAP_MODE => [CDS_SCC_CH; CDS_SCC_CH; CDS_SCC_CH]
  | CDS_STA_SAP_SCC_5_2x2, CDS_P2P_CLIENT_MODE => [CDS_MAX_PCL_TYPE; CDS_MAX_PCL_TYPE; CDS_MAX_PCL_TYPE]
  | CDS_STA_SAP_SCC_5_2x2, CDS_P2P_GO_MODE => [CDS_MAX_PCL_TYPE; CDS_MAX_PCL_TYPE; CDS_MAX_PCL_TYPE]
  | CDS_STA_SAP_SCC_5_2x2, CDS_IBSS_MODE => [CDS_MAX_PCL_TYPE; CDS_MAX_PCL_TYPE; CDS_MAX_PCL_TYPE]
  | CDS_STA_SAP_MCC_5_1x1, CDS_STA_MODE => [CDS_MCC_CH; CDS_MCC_CH; CDS_MCC_CH]
  | CDS_STA_SAP_MCC_5_1x1, CDS_SAP_MODE => [CDS_MCC_CH; CDS_MCC_CH; CDS_MCC_CH]
  | CDS_STA_SAP_MCC_5_1x1, CDS_P2P_CLIENT_MODE => [CDS_MAX_PCL_TYPE; CDS_MAX_PCL_TYPE; CDS_MAX_PCL_TYPE]
  | CDS_STA_SAP_MCC_5_1x1, CDS_P2P_GO_MODE => [CDS_MAX_PCL_TYPE; CDS_MAX_PCL_TYPE; CDS_MAX_PCL_TYPE]
  | CDS_STA_SAP_MCC_5_1x1, CDS_IBSS_MODE => [CDS_MAX_PCL_TYPE; CDS_MAX_PCL_TYPE; CDS_MAX_PCL_TYPE]
  | CDS_STA_SAP_MCC_5_2x2, CDS_STA_MODE => [CDS_MCC_CH; CDS_MCC_CH; CDS_MCC_CH]
  | CDS_STA_SAP_MCC_5_2x2, CDS_SAP_MODE => [CDS_MCC_CH; CDS_MCC_CH; CDS_MCC_CH]
  | CDS_STA_SAP_MCC_5_2x2, CDS_P2P_CLIENT_MODE => [CDS_MAX_PCL_TYPE; CDS_MAX_PCL_TYPE; CDS_MAX_PCL_TYPE]
  | CDS_STA_SAP_MCC_5_2x2, CDS_P2P_GO_MODE => [CDS_MAX_PCL_TYPE; CDS_MAX_PCL_TYPE; CDS_MAX_PCL_TYPE]
  | CDS_STA_SAP_MCC_5_2x2, CDS_IBSS_MODE => [CDS_MAX_PCL_TYPE; CDS_MAX_PCL_TYPE; CDS_MAX_PCL_TYPE]
  | CDS_STA_SAP_MCC_24_5_1x1, CDS_STA_MODE => [CDS_MCC_CH; CDS_MCC_CH; CDS_MCC_CH]
  | CDS_STA_SAP_MCC_24_5_1x1, CDS_SAP_MODE => [CDS_MCC_CH; CDS_MCC_CH; CDS_MCC_CH]
  | CDS_STA_SAP_MCC_24_5_1x1, CDS_P2P_CLIENT_MODE => [CDS_MAX_PCL_TYPE; CDS_MAX_PCL_TYPE; CDS_MAX_PCL_TYPE]
  | CDS_STA_SAP_MCC_24_5_1x1, CDS_P2P_GO_MODE => [CDS_MAX_PCL_TYPE; CDS_MAX_PCL_TYPE; CDS_MAX_PCL_TYPE]
  | CDS_STA_SAP_MCC_24_5_1x1, CDS_IBSS_MODE => [CDS_MAX_PCL_TYPE; CDS_MAX_PCL_TYPE; CDS_MAX_PCL_TYPE]
  | CDS_STA_SAP_MCC_24_5_2x2, CDS_STA_MODE => [CDS_MCC_CH; CDS_MCC_CH; CDS_MCC_CH]
  | CDS_STA_SAP_MCC_24_5_2x2, CDS_SAP_MODE => [CDS_MCC_CH; CDS_MCC_CH; CDS_MCC_CH]
  | CDS_STA_SAP_MCC_24_5_2x2, CDS_P2P_CLIENT_MODE => [CDS_MAX_PCL_TYPE; CDS_MAX_PCL_TYPE; CDS_MAX_PCL_TYPE]
  | CDS_STA_SAP_MCC_24_5_2x2, CDS_P2P_GO_MODE => [CDS_MAX_PCL_TYPE; CDS_MAX_PCL_TYPE; CDS_MAX_PCL_TYPE]
  | CDS_STA_SAP_MCC_24_5_2x2, CDS_IBSS_MODE => [CDS_MAX_PCL_TYPE; CDS_MAX_PCL_TYPE; CDS_MAX_PCL_TYPE]
  | CDS_STA_SAP_DBS_1x1, CDS_STA_MODE => [CDS_MAX_PCL_TYPE; CDS_MAX_PCL_TYPE; CDS_MAX_PCL_TYPE]
  | CDS_STA_SAP_DBS_1x1, CDS_SAP_MODE => [CDS_MAX_PCL_TYPE; CDS_MAX_PCL_TYPE; CDS_MAX_PCL_TYPE]
  | CDS_STA_SAP_DBS_1x1, CDS_P2P_CLIENT_MODE => [CDS_MAX_PCL_TYPE; CDS_MAX_PCL_TYPE; CDS_MAX_PCL_TYPE]
  | CDS_STA_SAP_DBS_1x1, CDS_P2P_GO_MODE => [CDS_MAX_PCL_TYPE; CDS_MAX_PCL_TYPE; CDS_MAX_PCL_TYPE]
  | CDS_STA_SAP_DBS_1x1, CDS_IBSS_MODE => [CDS_MAX_PCL_TYPE; CDS_MAX_PCL_TYPE; CDS_MAX_PCL_TYPE]
  | _, _ => []
  end.

Definition third_nodbs_STA_P2P_GO (c : cds_two_connection_mode) (m : cds_con_mode) : list cds_pcl_type :=
  match c, m with
  | CDS_STA_P2P_GO_SCC_24_1x1, CDS_STA_MODE => [CDS_5G; CDS_SCC_CH; CDS_SCC_CH]
  | CDS_STA_P2P_GO_SCC_24_1x1, CDS_SAP_MODE => [CDS_MAX_PCL_TYPE; CDS_MAX_PCL_TYPE; CDS_MAX_PCL_TYPE]
  | CDS_STA_P2P_GO_SCC_24_1x1, CDS_P2P_CLIENT_MODE => [CDS_5G; CDS_SCC_CH; CDS_SCC_CH]
  | CDS_STA_P2P_GO_SCC_24_1x1, CDS_P2P_GO_MODE => [CDS_5G_SCC_CH; CDS_SCC_CH; CDS_SCC_CH]
  | CDS_STA_P2P_GO_SCC_24_1x1, CDS_IBSS_MODE => [CDS_MAX_PCL_TYPE; CDS_MAX_PCL_TYPE; CDS_MAX_PCL_TYPE]
  | CDS_STA_P2P_GO_SCC_24_2x2, CDS_STA_MODE => [CDS_5G; CDS_SCC_CH; CDS_SCC_CH]
  | CDS_STA_P2P_GO_SCC_24_2x2, CDS_SAP_MODE => [CDS_MAX_PCL_TYPE; CDS_MAX_PCL_TYPE; CDS_MAX_PCL_TYPE]
  | CDS_STA_P2P_GO_SCC_24_2x2, CDS_P2P_CLIENT_MODE => [CDS_5G; CDS_SCC_CH; CDS_SCC_CH]
  | CDS_STA_P2P_GO_SCC_24_2x2, CDS_P2P_GO_MODE => [CDS_5G_SCC_CH; CDS_SCC_CH; CDS_SCC_CH]
  | CDS_STA_P2P_GO_SCC_24_2x2, CDS_IBSS_MODE => [CDS_MAX_PCL_TYPE; CDS_MAX_PCL_TYPE; CDS_MAX_PCL_TYPE]
  | CDS_STA_P2P_GO_MCC_24_1x1, CDS_STA_MODE => [CDS_5G_MCC_CH; CDS_MCC_CH; CDS_MCC_CH]
  | CDS_STA_P2P_GO_MCC_24_1x1, CDS_SAP_MODE => [CDS_MAX_PCL_TYPE; CDS_MAX_PCL_TYPE; CDS_MAX_PCL_TYPE]
  | CDS_STA_P2P_GO_MCC_24_1x1, CDS_P2P_CLIENT_MODE => [CDS_5G_MCC_CH; CDS_MCC_CH; CDS_MCC_CH]
  | CDS_STA_P2P_GO_MCC_24_1x1, CDS_P2P_GO_MODE => [CDS_5G_MCC_CH; CDS_MCC_CH; CDS_MCC_CH]
  | CDS_STA_P2P_GO_MCC_24_1x1, CDS_IBSS_MODE => [CDS_MAX_PCL_TYPE; CDS_MAX_PCL_TYPE; CDS_MAX_PCL_TYPE]
  | CDS_STA_P2P_GO_MCC_24_2x2, CDS_STA_MODE => [CDS_5G_MCC_CH; CDS_MCC_CH; CDS_MCC_CH]
  | CDS_STA_P2P_GO_MCC_24_2x2, CDS_SAP_MODE => [CDS_MAX_PCL_TYPE; CDS_MAX_PCL_TYPE; CDS_MAX_PCL_TYPE]
  | CDS_STA_P2P_GO_MCC_24_2x2, CDS_P2P_CLIENT_MODE => [CDS_5G_MCC_CH; CDS_MCC_CH; CDS_MCC_CH]
  | CDS_STA_P2P_GO_MCC_24_2x2, CDS_P2P_GO_MODE => [CDS_5G_MCC_CH; CDS_MCC_CH; CDS_MCC_CH]
  | CDS_STA_P2P_GO_MCC_24_2x2, CDS_IBSS_MODE => [CDS_MAX_PCL_TYPE; CDS_MAX_PCL_TYPE; CDS_MAX_PCL_TYPE]
  | CDS_STA_P2P_GO_SCC_5_1x1, CDS_STA_MODE => [CDS_SCC_CH; CDS_SCC_CH; CDS_SCC_CH]
  | CDS_STA_P2P_GO_SCC_5_1x1, CDS_SAP_MODE => [CDS_MAX_PCL_TYPE; CDS_MAX_PCL_TYPE; CDS_MAX_PCL_TYPE]
  | CDS_STA_P2P_GO_SCC_5_1x1, CDS_P2P_CLIENT_MODE => [CDS_SCC_CH; CDS_SCC_CH; CDS_SCC_CH]
  | CDS_STA_P2P_GO_SCC_5_1x1, CDS_P2P_GO_MODE => [CDS_SCC_CH; CDS_SCC_CH; CDS_SCC_CH]
  | CDS_STA_P2P_GO_SCC_5_1x1, CDS_IBSS_MODE => [CDS_MAX_PCL_TYPE; CDS_MAX_PCL_TYPE; CDS_MAX_PCL_TYPE]
  | CDS_STA_P2P_GO_SCC_5_2x2, CDS_STA_MODE => [CDS_SCC_CH; CDS_SCC_CH; CDS_SCC_CH]
  | CDS_STA_P2P_GO_SCC_5_2x2, CDS_SAP_MODE => [CDS_MAX_PCL_TYPE; CDS_MAX_PCL_TYPE; CDS_MAX_PCL_TYPE]
  | CDS_STA_P2P_GO_SCC_5_2x2, CDS_P2P_CLIENT_MODE => [CDS_SCC_CH; CDS_SCC_CH; CDS_SCC_CH]
  | CDS_STA_P2P_GO_SCC_5_2x2, CDS_P2P_GO_MODE => [CDS_SCC_CH; CDS_SCC_CH; CDS_SCC_CH]
  | CDS_STA_P2P_GO_SCC_5_2x2, CDS_IBSS_MODE => [CDS_MAX_PCL_TYPE; CDS_MAX_PCL_TYPE; CDS_MAX_PCL_TYPE]
  | CDS_STA_P2P_GO_MCC_5_1x1, CDS_STA_MODE => [CDS_MCC_CH; CDS_MCC_CH; CDS_MCC_CH]
  | CDS_STA_P2P_GO_MCC_5_1x1, CDS_SAP_MODE => [CDS_MAX_PCL_TYPE; CDS_MAX_PCL_TYPE; CDS_MAX_PCL_TYPE]
  | CDS_STA_P2P_GO_MCC_5_1x1, CDS_P2P_CLIENT_MODE => [CDS_MCC_CH; CDS_MCC_CH; CDS_MCC_CH]
  | CDS_STA_P2P_GO_MCC_5_1x1, CDS_P2P_GO_MODE => [CDS_MCC_CH; CDS_MCC_CH; CDS_MCC_CH]
  | CDS_STA_P2P_GO_MCC_5_1x1, CDS_IBSS_MODE => [CDS_MAX_PCL_TYPE; CDS_MAX_PCL_TYPE; CDS_MAX_PCL_TYPE]
  | CDS_STA_P2P_GO_MCC_5_2x2, CDS_STA_MODE => [CDS_MCC_CH; CDS_MCC_CH; CDS_MCC_CH]
  | CDS_STA_P2P_GO_MCC_5_2x2, CDS_SAP_MODE => [CDS_MAX_PCL_TYPE; CDS_MAX_PCL_TYPE; CDS_MAX_PCL_TYPE]
  | CDS_STA_P2P_GO_MCC_5_2x2, CDS_P2P_CLIENT_MODE => [CDS_MCC_CH; CDS_MCC_CH; CDS_MCC_CH]
  | CDS_STA_P2P_GO_MCC_5_2x2, CDS_P2P_GO_MODE => [CDS_MCC_CH; CDS_MCC_CH; CDS_MCC_CH]
  | CDS_STA_P2P_GO_MCC_5_2x2, CDS_IBSS_MODE => [CDS_MAX_PCL_TYPE; CDS_MAX_PCL_TYPE; CDS_MAX_PCL_TYPE]
  | CDS_STA_P2P_GO_MCC_24_5_1x1, CDS_STA_MODE => [CDS_MCC_CH; CDS_MCC_CH; CDS_MCC_CH]
  | CDS_STA_P2P_GO_MCC_24_5_1x1, CDS_SAP_MODE => [CDS_MAX_PCL_TYPE; CDS_MAX_PCL_TYPE; CDS_MAX_PCL_TYPE]
  | CDS_STA_P2P_GO_MCC_24_5_1x1, CDS_P2P_CLIENT_MODE => [CDS_MCC_CH; CDS_MCC_CH; CDS_MCC_CH]
  | CDS_STA_P2P_GO_MCC_24_5_1x1, CDS_P2P_GO_MODE => [CDS_MCC_CH; CDS_MCC_CH; CDS_MCC_CH]
  | CDS_STA_P2P_GO_MCC_24_5_1x1, CDS_IBSS_MODE => [CDS_MAX_PCL_TYPE; CDS_MAX_PCL_TYPE; CDS_MAX_PCL_TYPE]
  | CDS_STA_P2P_GO_MCC_24_5_2x2, CDS_STA_MODE => [CDS_MCC_CH; CDS_MCC_CH; CDS_MCC_CH]
  | CDS_STA_P2P_GO_MCC_24_5_2x2, CDS_SAP_MODE => [CDS_MAX_PCL_TYPE; CDS_MAX_PCL_TYPE; CDS_MAX_PCL_TYPE]
  | CDS_STA_P2P_GO_MCC_24_5_2x2, CDS_P2P_CLIENT_MODE => [CDS_MCC_CH; CDS_MCC_CH; CDS_MCC_CH]
  | CDS_STA_P2P_GO_MCC_24_5_2x2, CDS_P2P_GO_MODE => [CDS_MCC_CH; CDS_MCC_CH; CDS_MCC_CH]
  | CDS_STA_P2P_GO_MCC_24_5_2x2, CDS_IBSS_MODE => [CDS_MAX_PCL_TYPE; CDS_MAX_PCL_TYPE; CDS_MAX_PCL_TYPE]
  | CDS_STA_P2P_GO_DBS_1x1, CDS_STA_MODE => [CDS_MAX_PCL_TYPE; CDS_MAX_PCL_TYPE; CDS_MAX_PCL_TYPE]
  | CDS_STA_P2P_GO_DBS_1x1, CDS_SAP_MODE => [CDS_MAX_PCL_TYPE; CDS_MAX_PCL_TYPE; CDS_MAX_PCL_TYPE]
  | CDS_STA_P2P_GO_DBS_1x1, CDS_P2P_CLIENT_MODE => [CDS_MAX_PCL_TYPE; CDS_MAX_PCL_TYPE; CDS_MAX_PCL_TYPE]
  | CDS_STA_P2P_GO_DBS_1x1, CDS_P2P_GO_MODE => [CDS_MAX_PCL_TYPE; CDS_MAX_PCL_TYPE; CDS_MAX_PCL_TYPE]
  | CDS_STA_P2P_GO_DBS_1x1, CDS_IBSS_MODE => [CDS_MAX_PCL_TYPE; CDS_MAX_PCL_TYPE; CDS_MAX_PCL_TYPE]
  | _, _ => []
  end.

Definition third_nodbs_STA_P2P_CLI (c : cds_two_connection_mode) (m : cds_con_mode) : list cds_pcl_type :=
  match c, m with
  | CDS_STA_P2P_CLI_SCC_24_1x1, CDS_STA_MODE => [CDS_MAX_PCL_TYPE; CDS_MAX_PCL_TYPE; CDS_MAX_PCL_TYPE]
  | CDS_STA_P2P_CLI_SCC_24_1x1, CDS_SAP_MODE => [CDS_MAX_PCL_TYPE; CDS_MAX_PCL_TYPE; CDS_MAX_PCL_TYPE]
  | CDS_STA_P2P_CLI_SCC_24_1x1, CDS_P2P_CLIENT_MODE => [CDS_5G_SCC_CH; CDS_SCC_CH; CDS_SCC_CH]
  | CDS_STA_P2P_CLI_SCC_24_1x1, CDS_P2P_GO_MODE => [CDS_5G_SCC_CH; CDS_SCC_CH; CDS_SCC_CH]
  | CDS_STA_P2P_CLI_SCC_24_1x1, CDS_IBSS_MODE => [CDS_MAX_PCL_TYPE; CDS_MAX_PCL_TYPE; CDS_MAX_PCL_TYPE]
  | CDS_STA_P2P_CLI_SCC_24_2x2, CDS_STA_MODE => [CDS_MAX_PCL_TYPE; CDS_MAX_PCL_TYPE; CDS_MAX_PCL_TYPE]
  | CDS_STA_P2P_CLI_SCC_24_2x2, CDS_SAP_MODE => [CDS_MAX_PCL_TYPE; CDS_MAX_PCL_TYPE; CDS_MAX_PCL_TYPE]
  | CDS_STA_P2P_CLI_SCC_24_2x2, CDS_P2P_CLIENT_MODE => [CDS_5G_SCC_CH; CDS_SCC_CH; CDS_SCC_CH]
  | CDS_STA_P2P_CLI_SCC_24_2x2, CDS_P2P_GO_MODE => [CDS_5G_SCC_CH; CDS_SCC_CH; CDS_SCC_CH]
  | CDS_STA_P2P_CLI_SCC_24_2x2, CDS_IBSS_MODE => [CDS_MAX_PCL_TYPE; CDS_MAX_PCL_TYPE; CDS_MAX_PCL_TYPE]
  | CDS_STA_P2P_CLI_MCC_24_1x1, CDS_STA_MODE => [CDS_MAX_PCL_TYPE; CDS_MAX_PCL_TYPE; CDS_MAX_PCL_TYPE]
  | CDS_STA_P2P_CLI_MCC_24_1x1, CDS_SAP_MODE => [CDS_MAX_PCL_TYPE; CDS_MAX_PCL_TYPE; CDS_MAX_PCL_TYPE]
  | CDS_STA_P2P_CLI_MCC_24_1x1, CDS_P2P_CLIENT_MODE => [CDS_5G_MCC_CH; CDS_MCC_CH; CDS_MCC_CH]
  | CDS_STA_P2P_CLI_MCC_24_1x1, CDS_P2P_GO_MODE => [CDS_5G_MCC_CH; CDS_MCC_CH; CDS_MCC_CH]
  | CDS_STA_P2P_CLI_MCC_24_1x1, CDS_IBSS_MODE => [CDS_MAX_PCL_TYPE; CDS_MAX_PCL_TYPE; CDS_MAX_PCL_TYPE]
  | CDS_STA_P2P_CLI_MCC_24_2x2, CDS_STA_MODE => [CDS_MAX_PCL_TYPE; CDS_MAX_PCL_TYPE; CDS_MAX_PCL_TYPE]
  | CDS_STA_P2P_CLI_MCC_24_2x2, CDS_SAP_MODE => [CDS_MAX_PCL_TYPE; CDS_MAX_PCL_TYPE; CDS_MAX_PCL_TYPE]
  | CDS_STA_P2P_CLI_MCC_24_2x2, CDS_P2P_CLIENT_MODE => [CDS_5G_MCC_CH; CDS_MCC_CH; CDS_MCC_CH]
  | CDS_STA_P2P_CLI_MCC_24_2x2, CDS_P2P_GO_MODE => [CDS_5G_MCC_CH; CDS_MCC_CH; CDS_MCC_CH]
  | CDS_STA_P2P_CLI_MCC_24_2x2, CDS_IBSS_MODE => [CDS_MAX_PCL_TYPE; CDS_MAX_PCL_TYPE; CDS_MAX_PCL_TYPE]
  | CDS_STA_P2P_CLI_SCC_5_1x1, CDS_STA_MODE => [CDS_MAX_PCL_TYPE; CDS_MAX_PCL_TYPE; CDS_MAX_PCL_TYPE]
  | CDS_STA_P2P_CLI_SCC_5_1x1, CDS_SAP_MODE => [CDS_MAX_PCL_TYPE; CDS_MAX_PCL_TYPE; CDS_MAX_PCL_TYPE]
  | CDS_STA_P2P_CLI_SCC_5_1x1, CDS_P2P_CLIENT_MODE => [CDS_SCC_CH; CDS_SCC_CH; CDS_SCC_CH]
  | CDS_STA_P2P_CLI_SCC_5_1x1, CDS_P2P_GO_MODE => [CDS_SCC_CH; CDS_SCC_CH; CDS_SCC_CH]
  | CDS_STA_P2P_CLI_SCC_5_1x1, CDS_IBSS_MODE => [CDS_MAX_PCL_TYPE; CDS_MAX_PCL_TYPE; CDS_MAX_PCL_TYPE]
  | CDS_STA_P2P_CLI_SCC_5_2x2, CDS_STA_MODE => [CDS_MAX_PCL_TYPE; CDS_MAX_PCL_TYPE; CDS_MAX_PCL_TYPE]
  | CDS_STA_P2P_CLI_SCC_5_2x2, CDS_SAP_MODE => [CDS_MAX_PCL_TYPE; CDS_MAX_PCL_TYPE; CDS_MAX_PCL_TYPE]
  | CDS_STA_P2P_CLI_SCC_5_2x2, CDS_P2P_CLIENT_MODE => [CDS_SCC_CH; CDS_SCC_CH; CDS_SCC_CH]
  | CDS_STA_P2P_CLI_SCC_5_2x2, CDS_P2P_GO_MODE => [CDS_SCC_CH; CDS_SCC_CH; CDS_SCC_CH]
  | CDS_STA_P2P_CLI_SCC_5_2x2, CDS_IBSS_MODE => [CDS_MAX_PCL_TYPE; CDS_MAX_PCL_TYPE; CDS_MAX_PCL_TYPE]
  | CDS_STA_P2P_CLI_MCC_5_1x1, CDS_STA_MODE => [CDS_MAX_PCL_TYPE; CDS_MAX_PCL_TYPE; CDS_MAX_PCL_TYPE]
  | CDS_STA_P2P_CLI_MCC_5_1x1, CDS_SAP_MODE => [CDS_MAX_PCL_TYPE; CDS_MAX_PCL_TYPE; CDS_MAX_PCL_TYPE]
  | CDS_STA_P2P_CLI_MCC_5_1x1, CDS_P2P_CLIENT_MODE => [CDS_MCC_CH; CDS_MCC_CH; CDS_MCC_CH]
  | CDS_STA_P2P_CLI_MCC_5_1x1, CDS_P2P_GO_MODE => [CDS_MCC_CH; CDS_MCC_CH; CDS_MCC_CH]
  | CDS_STA_P2P_CLI_MCC_5_1x1, CDS_IBSS_MODE => [CDS_MAX_PCL_TYPE; CDS_MAX_PCL_TYPE; CDS_MAX_PCL_TYPE]
  | CDS_STA_P2P_CLI_MCC_5_2x2, CDS_STA_MODE => [CDS_MAX_PCL_TYPE; CDS_MAX_PCL_TYPE; CDS_MAX_PCL_TYPE]
  | CDS_STA_P2P_CLI_MCC_5_2x2, CDS_SAP_MODE => [CDS_MAX_PCL_TYPE; CDS_MAX_PCL_TYPE; CDS_MAX_PCL_TYPE]
  | CDS_STA_P2P_CLI_MCC_5_2x2, CDS_P2P_CLIENT_MODE => [CDS_MCC_CH; CDS_MCC_CH; CDS_MCC_CH]
  | CDS_STA_P2P_CLI_MCC_5_2x2, CDS_P2P_GO_MODE => [CDS_MCC_CH; CDS_MCC_CH; CDS_MCC_CH]
  | CDS_STA_P2P_CLI_MCC_5_2x2, CDS_IBSS_MODE => [CDS_MAX_PCL_TYPE; CDS_MAX_PCL_TYPE; CDS_MAX_PCL_TYPE]
  | CDS_STA_P2P_CLI_MCC_24_5_1x1, CDS_STA_MODE => [CDS_MAX_PCL_TYPE; CDS_MAX_PCL_TYPE; CDS_MAX_PCL_TYPE]
  | CDS_STA_P2P_CLI_MCC_24_5_1x1, CDS_SAP_MODE => [CDS_MAX_PCL_TYPE; CDS_MAX_PCL_TYPE; CDS_MAX_PCL_TYPE]
  | CDS_STA_P2P_CLI_MCC_24_5_1x1, CDS_P2P_CLIENT_MODE => [CDS_MCC_CH; CDS_MCC_CH; CDS_MCC_CH]
  | CDS_STA_P2P_CLI_MCC_24_5_1x1, CDS_P2P_GO_MODE => [CDS_MCC_CH; CDS_MCC_CH; CDS_MCC_CH]
  | CDS_STA_P2P_CLI_MCC_24_5_1x1, CDS_IBSS_MODE => [CDS_MAX_PCL_TYPE; CDS_MAX_PCL_TYPE; CDS_MAX_PCL_TYPE]
  | CDS_STA_P2P_CLI_MCC_24_5_2x2, CDS_STA_MODE => [CDS_MAX_PCL_TYPE; CDS_MAX_PCL_TYPE; CDS_MAX_PCL_TYPE]
  | CDS_STA_P2P_CLI_MCC_24_5_2x2, CDS_SAP_MODE => [CDS_MAX_PCL_TYPE; CDS_MAX_PCL_TYPE; CDS_MAX_PCL_TYPE]
  | CDS_STA_P2P_CLI_MCC_24_5_2x2, CDS_P2P_CLIENT_MODE => [CDS_MCC_CH; CDS_MCC_CH; CDS_MCC_CH]
  | CDS_STA_P2P_CLI_MCC_24_5_2x2, CDS_P2P_GO_MODE => [CDS_MCC_CH; CDS_MCC_CH; CDS_MCC_CH]
  | CDS_STA_P2P_CLI_MCC_24_5_2x2, CDS_IBSS_MODE => [CDS_MAX_PCL_TYPE; CDS_MAX_PCL_TYPE; CDS_MAX_PCL_TYPE]
  | CDS_STA_P2P_CLI_DBS_1x1, CDS_STA_MODE => [CDS_MAX_PCL_TYPE; CDS_MAX_PCL_TYPE; CDS_MAX_PCL_TYPE]
  | CDS_STA_P2P_CLI_DBS_1x1, CDS_SAP_MODE => [CDS_MAX_PCL_TYPE; CDS_MAX_PCL_TYPE; CDS_MAX_PCL_TYPE]
  | CDS_STA_P2P_CLI_DBS_1x1, CDS_P2P_CLIENT_MODE => [CDS_MAX_PCL_TYPE; CDS_MAX_PCL_TYPE; CDS_MAX_PCL_TYPE]
  | CDS_STA_P2P_CLI_DBS_1x1, CDS_P2P_GO_MODE => [CDS_MAX_PCL_TYPE; CDS_MAX_PCL_TYPE; CDS_MAX_PCL_TYPE]
  | CDS_STA_P2P_CLI_DBS_1x1, CDS_IBSS_MODE => [CDS_MAX_PCL_TYPE; CDS_MAX_PCL_TYPE; CDS_MAX_PCL_TYPE]
  | _, _ => []
  end.

Definition third_nodbs_P2P_GO_P2P_CLI (c : cds_two_connection_mode) (m : cds_con_mode) : list cds_pcl_type :=
  match c, m with
  | CDS_P2P_GO_P2P_CLI_SCC_24_1x1, CDS_STA_MODE => [CDS_5G; CDS_SCC_CH; CDS_SCC_CH]
  | CDS_P2P_GO_P2P_CLI_SCC_24_1x1, CDS_SAP_MODE => [CDS_SCC_CH_5G; CDS_SCC_CH; CDS_SCC_CH]
  | CDS_P2P_GO_P2P_CLI_SCC_24_1x1, CDS_P2P_CLIENT_MODE => [CDS_5G; CDS_SCC_CH; CDS_SCC_CH]
  | CDS_P2P_GO_P2P_CLI_SCC_24_1x1, CDS_P2P_GO_MODE => [CDS_5G_SCC_CH; CDS_SCC_CH; CDS_SCC_CH]
  | CDS_P2P_GO_P2P_CLI_SCC_24_1x1, CDS_IBSS_MODE => [CDS_MAX_PCL_TYPE; CDS_MAX_PCL_TYPE; CDS_MAX_PCL_TYPE]
  | CDS_P2P_GO_P2P_CLI_SCC_24_2x2, CDS_STA_MODE => [CDS_5G; CDS_SCC_CH; CDS_SCC_CH]
  | CDS_P2P_GO_P2P_CLI_SCC_24_2x2, CDS_SAP_MODE => [CDS_SCC_CH_5G; CDS_SCC_CH; CDS_SCC_CH]
  | CDS_P2P_GO_P2P_CLI_SCC_24_2x2, CDS_P2P_CLIENT_MODE => [CDS_5G; CDS_SCC_CH; CDS_SCC_CH]
  | CDS_P2P_GO_P2P_CLI_SCC_24_2x2, CDS_P2P_GO_MODE => [CDS_5G_SCC_CH; CDS_SCC_CH; CDS_SCC_CH]
  | CDS_P2P_GO_P2P_CLI_SCC_24_2x2, CDS_IBSS_MODE => [CDS_MAX_PCL_TYPE; CDS_MAX_PCL_TYPE; CDS_MAX_PCL_TYPE]
  | CDS_P2P_GO_P2P_CLI_MCC_24_1x1, CDS_STA_MODE => [CDS_5G_MCC_CH; CDS_MCC_CH; CDS_MCC_CH]
  | CDS_P2P_GO_P2P_CLI_MCC_24_1x1, CDS_SAP_MODE => [CDS_5G_MCC_CH; CDS_MCC_CH; CDS_MCC_CH]
  | CDS_P2P_GO_P2P_CLI_MCC_24_1x1, CDS_P2P_CLIENT_MODE => [CDS_5G_MCC_CH; CDS_MCC_CH; CDS_MCC_CH]
  | CDS_P2P_GO_P2P_CLI_MCC_24_1x1, CDS_P2P_GO_MODE => [CDS_5G_MCC_CH; CDS_MCC_CH; CDS_MCC_CH]
  | CDS_P2P_GO_P2P_CLI_MCC_24_1x1, CDS_IBSS_MODE => [CDS_MAX_PCL_TYPE; CDS_MAX_PCL_TYPE; CDS_MAX_PCL_TYPE]
  | CDS_P2P_GO_P2P_CLI_MCC_24_2x2, CDS_STA_MODE => [CDS_5G_MCC_CH; CDS_MCC_CH; CDS_MCC_CH]
  | CDS_P2P_GO_P2P_CLI_MCC_24_2x2, CDS_SAP_MODE => [CDS_5G_MCC_CH; CDS_MCC_CH; CDS_MCC_CH]
  | CDS_P2P_GO_P2P_CLI_MCC_24_2x2, CDS_P2P_CLIENT_MODE => [CDS_5G_MCC_CH; CDS_MCC_CH; CDS_MCC_CH]
  | CDS_P2P_GO_P2P_CLI_MCC_24_2x2, CDS_P2P_GO_MODE => [CDS_5G_MCC_CH; CDS_MCC_CH; CDS_MCC_CH]
  | CDS_P2P_GO_P2P_CLI_MCC_24_2x2, CDS_IBSS_MODE => [CDS_MAX_PCL_TYPE; CDS_MAX_PCL_TYPE; CDS_MAX_PCL_TYPE]
  | CDS_P2P_GO_P2P_CLI_SCC_5_1x1, CDS_STA_MODE => [CDS_SCC_CH; CDS_SCC_CH; CDS_SCC_CH]
  | CDS_P2P_GO_P2P_CLI_SCC_5_1x1, CDS_SAP_MODE => [CDS_SCC_CH; CDS_SCC_CH; CDS_SCC_CH]
  | CDS_P2P_GO_P2P_CLI_SCC_5_1x1, CDS_P2P_CLIENT_MODE => [CDS_SCC_CH; CDS_SCC_CH; CDS_SCC_CH]
  | CDS_P2P_GO_P2P_CLI_SCC_5_1x1, CDS_P2P_GO_MODE => [CDS_SCC_CH; CDS_SCC_CH; CDS_SCC_CH]
  | CDS_P2P_GO_P2P_CLI_SCC_5_1x1, CDS_IBSS_MODE => [CDS_MAX_PCL_TYPE; CDS_MAX_PCL_TYPE; CDS_MAX_PCL_TYPE]
  | CDS_P2P_GO_P2P_CLI_SCC_5_2x2, CDS_STA_MODE => [CDS_SCC_CH; CDS_SCC_CH; CDS_SCC_CH]
  | CDS_P2P_GO_P2P_CLI_SCC_5_2x2, CDS_SAP_MODE => [CDS_SCC_CH; CDS_SCC_CH; CDS_SCC_CH]
  | CDS_P2P_GO_P2P_CLI_SCC_5_2x2, CDS_P2P_CLIENT_MODE => [CDS_SCC_CH; CDS_SCC_CH; CDS_SCC_CH]
  | CDS_P2P_GO_P2P_CLI_SCC_5_2x2, CDS_P2P_GO_MODE => [CDS_SCC_CH; CDS_SCC_CH; CDS_SCC_CH]
  | CDS_P2P_GO_P2P_CLI_SCC_5_2x2, CDS_IBSS_MODE => [CDS_MAX_PCL_TYPE; CDS_MAX_PCL_TYPE; CDS_MAX_PCL_TYPE]
  | CDS_P2P_GO_P2P_CLI_MCC_5_1x1, CDS_STA_MODE => [CDS_MCC_CH; CDS_MCC_CH; CDS_MCC_CH]
  | CDS_P2P_GO_P2P_CLI_MCC_5_1x1, CDS_SAP_MODE => [CDS_MCC_CH; CDS_MCC_CH; CDS_MCC_CH]
  | CDS_P2P_GO_P2P_CLI_MCC_5_1x1, CDS_P2P_CLIENT_MODE => [CDS_MCC_CH; CDS_MCC_CH; CDS_MCC_CH]
  | CDS_P2P_GO_P2P_CLI_MCC_5_1x1, CDS_P2P_GO_MODE => [CDS_MCC_CH; CDS_MCC_CH; CDS_MCC_CH]
  | CDS_P2P_GO_P2P_CLI_MCC_5_1x1, CDS_IBSS_MODE => [CDS_MAX_PCL_TYPE; CDS_MAX_PCL_TYPE; CDS_MAX_PCL_TYPE]
  | CDS_P2P_GO_P2P_CLI_MCC_5_2x2, CDS_STA_MODE => [CDS_MCC_CH; CDS_MCC_CH; CDS_MCC_CH]
  | CDS_P2P_GO_P2P_CLI_MCC_5_2x2, CDS_SAP_MODE => [CDS_MCC_CH; CDS_MCC_CH; CDS_MCC_CH]
  | CDS_P2P_GO_P2P_CLI_MCC_5_2x2, CDS_P2P_CLIENT_MODE => [CDS_MCC_CH; CDS_MCC_CH; CDS_MCC_CH]
  | CDS_P2P_GO_P2P_CLI_MCC_5_2x2, CDS_P2P_GO_MODE => [CDS_MCC_CH; CDS_MCC_CH; CDS_MCC_CH]
  | CDS_P2P_GO_P2P_CLI_MCC_5_2x2, CDS_IBSS_MODE => [CDS_MAX_PCL_TYPE; CDS_MAX_PCL_TYPE; CDS_MAX_PCL_TYPE]
  | CDS_P2P_GO_P2P_CLI_MCC_24_5_1x1, CDS_STA_MODE => [CDS_MCC_CH; CDS_MCC_CH; CDS_MCC_CH]
  | CDS_P2P_GO_P2P_CLI_MCC_24_5_1x1, CDS_SAP_MODE => [CDS_MCC_CH; CDS_MCC_CH; CDS_MCC_CH]
  | CDS_P2P_GO_P2P_CLI_MCC_24_5_1x1, CDS_P2P_CLIENT_MODE => [CDS_MCC_CH; CDS_MCC_CH; CDS_MCC_CH]
  | CDS_P2P_GO_P2P_CLI_MCC_24_5_1x1, CDS_P2P_GO_MODE => [CDS_MCC_CH; CDS_MCC_CH; CDS_MCC_CH]
  | CDS_P2P_GO_P2P_CLI_MCC_24_5_1x1, CDS_IBSS_MODE => [CDS_MAX_PCL_TYPE; CDS_MAX_PCL_TYPE; CDS_MAX_PCL_TYPE]
  | CDS_P2P_GO_P2P_CLI_MCC_24_5_2x2, CDS_STA_MODE => [CDS_MCC_CH; CDS_MCC_CH; CDS_MCC_CH]
  | CDS_P2P_GO_P2P_CLI_MCC_24_5_2x2, CDS_SAP_MODE => [CDS_MCC_CH; CDS_MCC_CH; CDS_MCC_CH]
  | CDS_P2P_GO_P2P_CLI_MCC_24_5_2x2, CDS_P2P_CLIENT_MODE => [CDS_MCC_CH; CDS_MCC_CH; CDS_MCC_CH]
  | CDS_P2P_GO_P2P_CLI_MCC_24_5_2x2, CDS_P2P_GO_MODE => [CDS_MCC_CH; CDS_MCC_CH; CDS_MCC_CH]
  | CDS_P2P_GO_P2P_CLI_MCC_24_5_2x2, CDS_IBSS_MODE => [CDS_MAX_PCL_TYPE; CDS_MAX_PCL_TYPE; CDS_MAX_PCL_TYPE]
  | CDS_P2P_GO_P2P_CLI_DBS_1x1, CDS_STA_MODE => [CDS_MAX_PCL_TYPE; CDS_MAX_PCL_TYPE; CDS_MAX_PCL_TYPE]
  | CDS_P2P_GO_P2P_CLI_DBS_1x1, CDS_SAP_MODE => [CDS_MAX_PCL_TYPE; CDS_MAX_PCL_TYPE; CDS_MAX_PCL_TYPE]
  | CDS_P2P_GO_P2P_CLI_DBS_1x1, CDS_P2P_CLIENT_MODE => [CDS_MAX_PCL_TYPE; CDS_MAX_PCL_TYPE; CDS_MAX_PCL_TYPE]
  | CDS_P2P_GO_P2P_CLI_DBS_1x1, CDS_P2P_GO_MODE => [CDS_MAX_PCL_TYPE; CDS_MAX_PCL_TYPE; CDS_MAX_PCL_TYPE]
  | CDS_P2P_GO_P2P_CLI_DBS_1x1, CDS_IBSS_MODE => [CDS_MAX_PCL_TYPE; CDS_MAX_PCL_TYPE; CDS_MAX_PCL_TYPE]
  | _, _ => []
  end.

Definition third_nodbs_P2P_GO_SAP (c : cds_two_connection_mode) (m : cds_con_mode) : list cds_pcl_type :=
  match c, m with
  | CDS_P2P_GO_SAP_SCC_24_1x1, CDS_STA_MODE => [CDS_MAX_PCL_TYPE; CDS_MAX_PCL_TYPE; CDS_MAX_PCL_TYPE]
  | CDS_P2P_GO_SAP_SCC_24_1x1, CDS_SAP_MODE => [CDS_MAX_PCL_TYPE; CDS_MAX_PCL_TYPE; CDS_MAX_PCL_TYPE]
  | CDS_P2P_GO_SAP_SCC_24_1x1, CDS_P2P_CLIENT_MODE => [CDS_MAX_PCL_TYPE; CDS_MAX_PCL_TYPE; CDS_MAX_PCL_TYPE]
  | CDS_P2P_GO_SAP_SCC_24_1x1, CDS_P2P_GO_MODE => [CDS_MAX_PCL_TYPE; CDS_MAX_PCL_TYPE; CDS_MAX_PCL_TYPE]
  | CDS_P2P_GO_SAP_SCC_24_1x1, CDS_IBSS_MODE => [CDS_MAX_PCL_TYPE; CDS_MAX_PCL_TYPE; CDS_MAX_PCL_TYPE]
  | CDS_P2P_GO_SAP_SCC_24_2x2, CDS_STA_MODE => [CDS_MAX_PCL_TYPE; CDS_MAX_PCL_TYPE; CDS_MAX_PCL_TYPE]
  | CDS_P2P_GO_SAP_SCC_24_2x2, CDS_SAP_MODE => [CDS_MAX_PCL_TYPE; CDS_MAX_PCL_TYPE; CDS_MAX_PCL_TYPE]
  | CDS_P2P_GO_SAP_SCC_24_2x2, CDS_P2P_CLIENT_MODE => [CDS_MAX_PCL_TYPE; CDS_MAX_PCL_TYPE; CDS_MAX_PCL_TYPE]
  | CDS_P2P_GO_SAP_SCC_24_2x2, CDS_P2P_GO_MODE => [CDS_MAX_PCL_TYPE; CDS_MAX_PCL_TYPE; CDS_MAX_PCL_TYPE]
  | CDS_P2P_GO_SAP_SCC_24_2x2, CDS_IBSS_MODE => [CDS_MAX_PCL_TYPE; CDS_MAX_PCL_TYPE; CDS_MAX_PCL_TYPE]
  | CDS_P2P_GO_SAP_MCC_24_1x1, CDS_STA_MODE => [CDS_MAX_PCL_TYPE; CDS_MAX_PCL_TYPE; CDS_MAX_PCL_TYPE]
  | CDS_P2P_GO_SAP_MCC_24_1x1, CDS_SAP_MODE => [CDS_MAX_PCL_TYPE; CDS_MAX_PCL_TYPE; CDS_MAX_PCL_TYPE]
  | CDS_P2P_GO_SAP_MCC_24_1x1, CDS_P2P_CLIENT_MODE => [CDS_MAX_PCL_TYPE; CDS_MAX_PCL_TYPE; CDS_MAX_PCL_TYPE]
  | CDS_P2P_GO_SAP_MCC_24_1x1, CDS_P2P_GO_MODE => [CDS_MAX_PCL_TYPE; CDS_MAX_PCL_TYPE; CDS_MAX_PCL_TYPE]
  | CDS_P2P_GO_SAP_MCC_24_1x1, CDS_IBSS_MODE => [CDS_MAX_PCL_TYPE; CDS_MAX_PCL_TYPE; CDS_MAX_PCL_TYPE]
  | CDS_P2P_GO_SAP_MCC_24_2x2, CDS_STA_MODE => [CDS_MAX_PCL_TYPE; CDS_MAX_PCL_TYPE; CDS_MAX_PCL_TYPE]
  | CDS_P2P_GO_SAP_MCC_24_2x2, CDS_SAP_MODE => [CDS_MAX_PCL_TYPE; CDS_MAX_PCL_TYPE; CDS_MAX_PCL_TYPE]
  | CDS_P2P_GO_SAP_MCC_24_2x2, CDS_P2P_CLIENT_MODE => [CDS_MAX_PCL_TYPE; CDS_MAX_PCL_TYPE; CDS_MAX_PCL_TYPE]
  | CDS_P2P_GO_SAP_MCC_24_2x2, CDS_P2P_GO_MODE => [CDS_MAX_PCL_TYPE; CDS_MAX_PCL_TYPE; CDS_MAX_PCL_TYPE]
  | CDS_P2P_GO_SAP_MCC_24_2x2, CDS_IBSS_MODE => [CDS_MAX_PCL_TYPE; CDS_MAX_PCL_TYPE; CDS_MAX_PCL_TYPE]
  | CDS_P2P_GO_SAP_SCC_5_1x1, CDS_STA_MODE => [CDS_MAX_PCL_TYPE; CDS_MAX_PCL_TYPE; CDS_MAX_PCL_TYPE]
  | CDS_P2P_GO_SAP_SCC_5_1x1, CDS_SAP_MODE => [CDS_MAX_PCL_TYPE; CDS_MAX_PCL_TYPE; CDS_MAX_PCL_TYPE]
  | CDS_P2P_GO_SAP_SCC_5_1x1, CDS_P2P_CLIENT_MODE => [CDS_MAX_PCL_TYPE; CDS_MAX_PCL_TYPE; CDS_MAX_PCL_TYPE]
  | CDS_P2P_GO_SAP_SCC_5_1x1, CDS_P2P_GO_MODE => [CDS_MAX_PCL_TYPE; CDS_MAX_PCL_TYPE; CDS_MAX_PCL_TYPE]
  | CDS_P2P_GO_SAP_SCC_5_1x1, CDS_IBSS_MODE => [CDS_MAX_PCL_TYPE; CDS_MAX_PCL_TYPE; CDS_MAX_PCL_TYPE]
  | CDS_P2P_GO_SAP_SCC_5_2x2, CDS_STA_MODE => [CDS_MAX_PCL_TYPE; CDS_MAX_PCL_TYPE; CDS_MAX_PCL_TYPE]
  | CDS_P2P_GO_SAP_SCC_5_2x2, CDS_SAP_MODE => [CDS_MAX_PCL_TYPE; CDS_MAX_PCL_TYPE; CDS_MAX_PCL_TYPE]
  | CDS_P2P_GO_SAP_SCC_5_2x2, CDS_P2P_CLIENT_MODE => [CDS_MAX_PCL_TYPE; CDS_MAX_PCL_TYPE; CDS_MAX_PCL_TYPE]
  | CDS_P2P_GO_SAP_SCC_5_2x2, CDS_P2P_GO_MODE => [CDS_MAX_PCL_TYPE; CDS_MAX_PCL_TYPE; CDS_MAX_PCL_TYPE]
  | CDS_P2P_GO_SAP_SCC_5_2x2, CDS_IBSS_MODE => [CDS_MAX_PCL_TYPE; CDS_MAX_PCL_TYPE; CDS_MAX_PCL_TYPE]
  | CDS_P2P_GO_SAP_MCC_5_1x1, CDS_STA_MODE => [CDS_MAX_PCL_TYPE; CDS_MAX_PCL_TYPE; CDS_MAX_PCL_TYPE]
  | CDS_P2P_GO_SAP_MCC_5_1x1, CDS_SAP_MODE => [CDS_MAX_PCL_TYPE; CDS_MAX_PCL_TYPE; CDS_MAX_PCL_TYPE]
  | CDS_P2P_GO_SAP_MCC_5_1x1, CDS_P2P_CLIENT_MODE => [CDS_MAX_PCL_TYPE; CDS_MAX_PCL_TYPE; CDS_MAX_PCL_TYPE]
  | CDS_P2P_GO_SAP_MCC_5_1x1, CDS_P2P_GO_MODE => [CDS_MAX_PCL_TYPE; CDS_MAX_PCL_TYPE; CDS_MAX_PCL_TYPE]
  | CDS_P2P_GO_SAP_MCC_5_1x1, CDS_IBSS_MODE => [CDS_MAX_PCL_TYPE; CDS_MAX_PCL_TYPE; CDS_MAX_PCL_TYPE]
  | CDS_P2P_GO_SAP_MCC_5_2x2, CDS_STA_MODE => [CDS_MAX_PCL_TYPE; CDS_MAX_PCL_TYPE; CDS_MAX_PCL_TYPE]
  | CDS_P2P_GO_SAP_MCC_5_2x2, CDS_SAP_MODE => [CDS_MAX_PCL_TYPE; CDS_MAX_PCL_TYPE; CDS_MAX_PCL_TYPE]
  | CDS_P2P_GO_SAP_MCC_5_2x2, CDS_P2P_CLIENT_MODE => [CDS_MAX_PCL_TYPE; CDS_MAX_PCL_TYPE; CDS_MAX_PCL_TYPE]
  | CDS_P2P_GO_SAP_MCC_5_2x2, CDS_P2P_GO_MODE => [CDS_MAX_PCL_TYPE; CDS_MAX_PCL_TYPE; CDS_MAX_PCL_TYPE]
  | CDS_P2P_GO_SAP_MCC_5_2x2, CDS_IBSS_MODE => [CDS_MAX_PCL_TYPE; CDS_MAX_PCL_TYPE; CDS_MAX_PCL_TYPE]
  | CDS_P2P_GO_SAP_MCC_24_5_1x1, CDS_STA_MODE => [CDS_MAX_PCL_TYPE; CDS_MAX_PCL_TYPE; CDS_MAX_PCL_TYPE]
  | CDS_P2P_GO_SAP_MCC_24_5_1x1, CDS_SAP_MODE => [CDS_MAX_PCL_TYPE; CDS_MAX_PCL_TYPE; CDS_MAX_PCL_TYPE]
  | CDS_P2P_GO_SAP_MCC_24_5_1x1, CDS_P2P_CLIENT_MODE => [CDS_MAX_PCL_TYPE; CDS_MAX_PCL_TYPE; CDS_MAX_PCL_TYPE]
  | CDS_P2P_GO_SAP_MCC_24_5_1x1, CDS_P2P_GO_MODE => [CDS_MAX_PCL_TYPE; CDS_MAX_PCL_TYPE; CDS_MAX_PCL_TYPE]
  | CDS_P2P_GO_SAP_MCC_24_5_1x1, CDS_IBSS_MODE => [CDS_MAX_PCL_TYPE; CDS_MAX_PCL_TYPE; CDS_MAX_PCL_TYPE]
  | CDS_P2P_GO_SAP_MCC_24_5_2x2, CDS_STA_MODE => [CDS_MAX_PCL_TYPE; CDS_MAX_PCL_TYPE; CDS_MAX_PCL_TYPE]
  | CDS_P2P_GO_SAP_MCC_24_5_2x2, CDS_SAP_MODE => [CDS_MAX_PCL_TYPE; CDS_MAX_PCL_TYPE; CDS_MAX_PCL_TYPE]
  | CDS_P2P_GO_SAP_MCC_24_5_2x2, CDS_P2P_CLIENT_MODE => [CDS_MAX_PCL_TYPE; CDS_MAX_PCL_TYPE; CDS_MAX_PCL_TYPE]
  | CDS_P2P_GO_SAP_MCC_24_5_2x2, CDS_P2P_GO_MODE => [CDS_MAX_PCL_TYPE; CDS_MAX_PCL_TYPE; CDS_MAX_PCL_TYPE]
  | CDS_P2P_GO_SAP_MCC_24_5_2x2, CDS_IBSS_MODE => [CDS_MAX_PCL_TYPE; CDS_MAX_PCL_TYPE; CDS_MAX_PCL_TYPE]
  | CDS_P2P_GO_SAP_DBS_1x1, CDS_STA_MODE => [CDS_MAX_PCL_TYPE; CDS_MAX_PCL_TYPE; CDS_MAX_PCL_TYPE]
  | CDS_P2P_GO_SAP_DBS_1x1, CDS_SAP_MODE => [CDS_MAX_PCL_TYPE; CDS_MAX_PCL_TYPE; CDS_MAX_PCL_TYPE]
  | CDS_P2P_GO_SAP_DBS_1x1, CDS_P2P_CLIENT_MODE => [CDS_MAX_PCL_TYPE; CDS_MAX_PCL_TYPE; CDS_MAX_PCL_TYPE]
  | CDS_P2P_GO_SAP_DBS_1x1, CDS_P2P_GO_MODE => [CDS_MAX_PCL_TYPE; CDS_MAX_PCL_TYPE; CDS_MAX_PCL_TYPE]
  | CDS_P2P_GO_SAP_DBS_1x1, CDS_IBSS_MODE => [CDS_MAX_PCL_TYPE; CDS_MAX_PCL_TYPE; CDS_MAX_PCL_TYPE]
  | _, _ => []
  end.

Definition third_nodbs_P2P_CLI_SAP (c : cds_two_connection_mode) (m : cds_con_mode) : list cds_pcl_type :=
  match c, m with
  | CDS_P2P_CLI_SAP_SCC_24_1x1, CDS_STA_MODE => [CDS_MAX_PCL_TYPE; CDS_MAX_PCL_TYPE; CDS_MAX_PCL_TYPE]
  | CDS_P2P_CLI_SAP_SCC_24_1x1, CDS_SAP_MODE => [CDS_MAX_PCL_TYPE; CDS_MAX_PCL_TYPE; CDS_MAX_PCL_TYPE]
  | CDS_P2P_CLI_SAP_SCC_24_1x1, CDS_P2P_CLIENT_MODE => [CDS_MAX_PCL_TYPE; CDS_MAX_PCL_TYPE; CDS_MAX_PCL_TYPE]
  | CDS_P2P_CLI_SAP_SCC_24_1x1, CDS_P2P_GO_MODE => [CDS_MAX_PCL_TYPE; CDS_MAX_PCL_TYPE; CDS_MAX_PCL_TYPE]
  | CDS_P2P_CLI_SAP_SCC_24_1x1, CDS_IBSS_MODE => [CDS_MAX_PCL_TYPE; CDS_MAX_PCL_TYPE; CDS_MAX_PCL_TYPE]
  | CDS_P2P_CLI_SAP_SCC_24_2x2, CDS_STA_MODE => [CDS_MAX_PCL_TYPE; CDS_MAX_PCL_TYPE; CDS_MAX_PCL_TYPE]
  | CDS_P2P_CLI_SAP_SCC_24_2x2, CDS_SAP_MODE => [CDS_MAX_PCL_TYPE; CDS_MAX_PCL_TYPE; CDS_MAX_PCL_TYPE]
  | CDS_P2P_CLI_SAP_SCC_24_2x2, CDS_P2P_CLIENT_MODE => [CDS_MAX_PCL_TYPE; CDS_MAX_PCL_TYPE; CDS_MAX_PCL_TYPE]
  | CDS_P2P_CLI_SAP_SCC_24_2x2, CDS_P2P_GO_MODE => [CDS_MAX_PCL_TYPE; CDS_MAX_PCL_TYPE; CDS_MAX_PCL_TYPE]
  | CDS_P2P_CLI_SAP_SCC_24_2x2, CDS_IBSS_MODE => [CDS_MAX_PCL_TYPE; CDS_MAX_PCL_TYPE; CDS_MAX_PCL_TYPE]
  | CDS_P2P_CLI_SAP_MCC_24_1x1, CDS_STA_MODE => [CDS_MAX_PCL_TYPE; CDS_MAX_PCL_TYPE; CDS_MAX_PCL_TYPE]
  | CDS_P2P_CLI_SAP_MCC_24_1x1, CDS_SAP_MODE => [CDS_MAX_PCL_TYPE; CDS_MAX_PCL_TYPE; CDS_MAX_PCL_TYPE]
  | CDS_P2P_CLI_SAP_MCC_24_1x1, CDS_P2P_CLIENT_MODE => [CDS_MAX_PCL_TYPE; CDS_MAX_PCL_TYPE; CDS_MAX_PCL_TYPE]
  | CDS_P2P_CLI_SAP_MCC_24_1x1, CDS_P2P_GO_MODE => [CDS_MAX_PCL_TYPE; CDS_MAX_PCL_TYPE; CDS_MAX_PCL_TYPE]
  | CDS_P2P_CLI_SAP_MCC_24_1x1, CDS_IBSS_MODE => [CDS_MAX_PCL_TYPE; CDS_MAX_PCL_TYPE; CDS_MAX_PCL_TYPE]
  | CDS_P2P_CLI_SAP_MCC_24_2x2, CDS_STA_MODE => [CDS_MAX_PCL_TYPE; CDS_MAX_PCL_TYPE; CDS_MAX_PCL_TYPE]
  | CDS_P2P_CLI_SAP_MCC_24_2x2, CDS_SAP_MODE => [CDS_MAX_PCL_TYPE; CDS_MAX_PCL_TYPE; CDS_MAX_PCL_TYPE]
  | CDS_P2P_CLI_SAP_MCC_24_2x2, CDS_P2P_CLIENT_MODE => [CDS_MAX_PCL_TYPE; CDS_MAX_PCL_TYPE; CDS_MAX_PCL_TYPE]
  | CDS_P2P_CLI_SAP_MCC_24_2x2, CDS_P2P_GO_MODE => [CDS_MAX_PCL_TYPE; CDS_MAX_PCL_TYPE; CDS_MAX_PCL_TYPE]
  | CDS_P2P_CLI_SAP_MCC_24_2x2, CDS_IBSS_MODE => [CDS_MAX_PCL_TYPE; CDS_MAX_PCL_TYPE; CDS_MAX_PCL_TYPE]
  | CDS_P2P_CLI_SAP_SCC_5_1x1, CDS_STA_MODE => [CDS_MAX_PCL_TYPE; CDS_MAX_PCL_TYPE; CDS_MAX_PCL_TYPE]
  | CDS_P2P_CLI_SAP_SCC_5_1x1, CDS_SAP_MODE => [CDS_MAX_PCL_TYPE; CDS_MAX_PCL_TYPE; CDS_MAX_PCL_TYPE]
  | CDS_P2P_CLI_SAP_SCC_5_1x1, CDS_P2P_CLIENT_MODE => [CDS_MAX_PCL_TYPE; CDS_MAX_PCL_TYPE; CDS_MAX_PCL_TYPE]
  | CDS_P2P_CLI_SAP_SCC_5_1x1, CDS_P2P_GO_MODE => [CDS_MAX_PCL_TYPE; CDS_MAX_PCL_TYPE; CDS_MAX_PCL_TYPE]
  | CDS_P2P_CLI_SAP_SCC_5_1x1, CDS_IBSS_MODE => [CDS_MAX_PCL_TYPE; CDS_MAX_PCL_TYPE; CDS_MAX_PCL_TYPE]
  | CDS_P2P_CLI_SAP_SCC_5_2x2, CDS_STA_MODE => [CDS_MAX_PCL_TYPE; CDS_MAX_PCL_TYPE; CDS_MAX_PCL_TYPE]
  | CDS_P2P_CLI_SAP_SCC_5_2x2, CDS_SAP_MODE => [CDS_MAX_PCL_TYPE; CDS_MAX_PCL_TYPE; CDS_MAX_PCL_TYPE]
  | CDS_P2P_CLI_SAP_SCC_5_2x2, CDS_P2P_CLIENT_MODE => [CDS_MAX_PCL_TYPE; CDS_MAX_PCL_TYPE; CDS_MAX_PCL_TYPE]
  | CDS_P2P_CLI_SAP_SCC_5_2x2, CDS_P2P_GO_MODE => [CDS_MAX_PCL_TYPE; CDS_MAX_PCL_TYPE; CDS_MAX_PCL_TYPE]
  | CDS_P2P_CLI_SAP_SCC_5_2x2, CDS_IBSS_MODE => [CDS_MAX_PCL_TYPE; CDS_MAX_PCL_TYPE; CDS_MAX_PCL_TYPE]
  | CDS_P2P_CLI_SAP_MCC_5_1x1, CDS_STA_MODE => [CDS_MAX_PCL_TYPE; CDS_MAX_PCL_TYPE; CDS_MAX_PCL_TYPE]
  | CDS_P2P_CLI_SAP_MCC_5_1x1, CDS_SAP_MODE => [CDS_MAX_PCL_TYPE; CDS_MAX_PCL_TYPE; CDS_MAX_PCL_TYPE]
  | CDS_P2P_CLI_SAP_MCC_5_1x1, CDS_P2P_CLIENT_MODE => [CDS_MAX_PCL_TYPE; CDS_MAX_PCL_TYPE; CDS_MAX_PCL_TYPE]
  | CDS_P2P_CLI_SAP_MCC_5_1x1, CDS_P2P_GO_MODE => [CDS_MAX_PCL_TYPE; CDS_MAX_PCL_TYPE; CDS_MAX_PCL_TYPE]
  | CDS_P2P_CLI_SAP_MCC_5_1x1, CDS_IBSS_MODE => [CDS_MAX_PCL_TYPE; CDS_MAX_PCL_TYPE; CDS_MAX_PCL_TYPE]
  | CDS_P2P_CLI_SAP_MCC_5_2x2, CDS_STA_MODE => [CDS_MAX_PCL_TYPE; CDS_MAX_PCL_TYPE; CDS_MAX_PCL_TYPE]
  | CDS_P2P_CLI_SAP_MCC_5_2x2, CDS_SAP_MODE => [CDS_MAX_PCL_TYPE; CDS_MAX_PCL_TYPE; CDS_MAX_PCL_TYPE]
  | CDS_P2P_CLI_SAP_MCC_5_2x2, CDS_P2P_CLIENT_MODE => [CDS_MAX_PCL_TYPE; CDS_MAX_PCL_TYPE; CDS_MAX_PCL_TYPE]
  | CDS_P2P_CLI_SAP_MCC_5_2x2, CDS_P2P_GO_MODE => [CDS_MAX_PCL_TYPE; CDS_MAX_PCL_TYPE; CDS_MAX_PCL_TYPE]
  | CDS_P2P_CLI_SAP_MCC_5_2x2, CDS_IBSS_MODE => [CDS_MAX_PCL_TYPE; CDS_MAX_PCL_TYPE; CDS_MAX_PCL_TYPE]
  | CDS_P2P_CLI_SAP_MCC_24_5_1x1, CDS_STA_MODE => [CDS_MAX_PCL_TYPE; CDS_MAX_PCL_TYPE; CDS_MAX_PCL_TYPE]
  | CDS_P2P_CLI_SAP_MCC_24_5_1x1, CDS_SAP_MODE => [CDS_MAX_PCL_TYPE; CDS_MAX_PCL_TYPE; CDS_MAX_PCL_TYPE]
  | CDS_P2P_CLI_SAP_MCC_24_5_1x1, CDS_P2P_CLIENT_MODE => [CDS_MAX_PCL_TYPE; CDS_MAX_PCL_TYPE; CDS_MAX_PCL_TYPE]
  | CDS_P2P_CLI_SAP_MCC_24_5_1x1, CDS_P2P_GO_MODE => [CDS_MAX_PCL_TYPE; CDS_MAX_PCL_TYPE; CDS_MAX_PCL_TYPE]
  | CDS_P2P_CLI_SAP_MCC_24_5_1x1, CDS_IBSS_MODE => [CDS_MAX_PCL_TYPE; CDS_MAX_PCL_TYPE; CDS_MAX_PCL_TYPE]
  | CDS_P2P_CLI_SAP_MCC_24_5_2x2, CDS_STA_MODE => [CDS_MAX_PCL_TYPE; CDS_MAX_PCL_TYPE; CDS_MAX_PCL_TYPE]
  | CDS_P2P_CLI_SAP_MCC_24_5_2x2, CDS_SAP_MODE => [CDS_MAX_PCL_TYPE; CDS_MAX_PCL_TYPE; CDS_MAX_PCL_TYPE]
  | CDS_P2P_CLI_SAP_MCC_24_5_2x2, CDS_P2P_CLIENT_MODE => [CDS_MAX_PCL_TYPE; CDS_MAX_PCL_TYPE; CDS_MAX_PCL_TYPE]
  | CDS_P2P_CLI_SAP_MCC_24_5_2x2, CDS_P2P_GO_MODE => [CDS_MAX_PCL_TYPE; CDS_MAX_PCL_TYPE; CDS_MAX_PCL_TYPE]
  | CDS_P2P_CLI_SAP_MCC_24_5_2x2, CDS_IBSS_MODE => [CDS_MAX_PCL_TYPE; CDS_MAX_PCL_TYPE; CDS_MAX_PCL_TYPE]
  | CDS_P2P_CLI_SAP_DBS_1x1, CDS_STA_MODE => [CDS_MAX_PCL_TYPE; CDS_MAX_PCL_TYPE; CDS_MAX_PCL_TYPE]
  | CDS_P2P_CLI_SAP_DBS_1x1, CDS_SAP_MODE => [CDS_MAX_PCL_TYPE; CDS_MAX_PCL_TYPE; CDS_MAX_PCL_TYPE]
  | CDS_P2P_CLI_SAP_DBS_1x1, CDS_P2P_CLIENT_MODE => [CDS_MAX_PCL_TYPE; CDS_MAX_PCL_TYPE; CDS_MAX_PCL_TYPE]
  | CDS_P2P_CLI_SAP_DBS_1x1, CDS_P2P_GO_MODE => [CDS_MAX_PCL_TYPE; CDS_MAX_PCL_TYPE; CDS_MAX_PCL_TYPE]
  | CDS_P2P_CLI_SAP_DBS_1x1, CDS_IBSS_MODE => [CDS_MAX_PCL_TYPE; CDS_MAX_PCL_TYPE; CDS_MAX_PCL_TYPE]
  | _, _ => []
  end.

Definition third_connection_pcl_nodbs_table (c : cds_two_connection_mode) (m : cds_con_mode) : list cds_pcl_type :=
  third_nodbs_STA_SAP c m ++ third_nodbs_STA_P2P_GO c m ++ third_nodbs_STA_P2P_CLI c m ++
  third_nodbs_P2P_GO_P2P_CLI c m ++ third_nodbs_P2P_GO_SAP c m ++ third_nodbs_P2P_CLI_SAP c m.

Definition next_action_two_connection_table (c : cds_one_connection_mode) : list cds_conc_next_action :=
  match c with
  | CDS_STA_24_1x1 => [CDS_NOP; CDS_DBS]
  | CDS_STA_24_2x2 => [CDS_NOP; CDS_DBS_DOWNGRADE]
  | CDS_STA_5_1x1 => [CDS_DBS; CDS_NOP]
  | CDS_STA_5_2x2 => [CDS_DBS_DOWNGRADE; CDS_NOP]
  | CDS_P2P_CLI_24_1x1 => [CDS_NOP; CDS_DBS]
  | CDS_P2P_CLI_24_2x2 => [CDS_NOP; CDS_DBS_DOWNGRADE]
  | CDS_P2P_CLI_5_1x1 => [CDS_DBS; CDS_NOP]
  | CDS_P2P_CLI_5_2x2 => [CDS_DBS_DOWNGRADE; CDS_NOP]
  | CDS_P2P_GO_24_1x1 => [CDS_NOP; CDS_DBS]
  | CDS_P2P_GO_24_2x2 => [CDS_NOP; CDS_DBS_DOWNGRADE]
  | CDS_P2P_GO_5_1x1 => [CDS_DBS; CDS_NOP]
  | CDS_P2P_GO_5_2x2 => [CDS_DBS_DOWNGRADE; CDS_NOP]
  | CDS_SAP_24_1x1 => [CDS_NOP; CDS_DBS]
  | CDS_SAP_24_2x2 => [CDS_NOP; CDS_DBS_DOWNGRADE]
  | CDS_SAP_5_1x1 => [CDS_DBS; CDS_NOP]
  | CDS_SAP_5_2x2 => [CDS_DBS_DOWNGRADE; CDS_NOP]
  | CDS_IBSS_24_1x1 => [CDS_NOP; CDS_DBS]
  | CDS_IBSS_24_2x2 => [CDS_NOP; CDS_DBS_DOWNGRADE]
  | CDS_IBSS_5_1x1 => [CDS_DBS; CDS_NOP]
  | CDS_IBSS_5_2x2 => [CDS_DBS_DOWNGRADE; CDS_NOP]
  | CDS_MAX_ONE_CONNECTION_MODE => []
  end.

Definition next_action_three_connection_table (c : cds_two_connection_mode) : list cds_conc_next_action :=
  match c with
  | CDS_STA_SAP_SCC_24_1x1 => [CDS_NOP; CDS_DBS]
  | CDS_STA_SAP_SCC_24_2x2 => [CDS_NOP; CDS_DBS_DOWNGRADE]
  | CDS_STA_SAP_MCC_24_1x1 => [CDS_NOP; CDS_DBS]
  | CDS_STA_SAP_MCC_24_2x2 => [CDS_NOP; CDS_DBS_DOWNGRADE]
  | CDS_STA_SAP_SCC_5_1x1 => [CDS_DBS; CDS_NOP]
  | CDS_STA_SAP_SCC_5_2x2 => [CDS_DBS_DOWNGRADE; CDS_NOP]
  | CDS_STA_SAP_MCC_5_1x1 => [CDS_DBS; CDS_NOP]
  | CDS_STA_SAP_MCC_5_2x2 => [CDS_DBS_DOWNGRADE; CDS_NOP]
  | CDS_STA_SAP_MCC_24_5_1x1 => [CDS_DBS; CDS_DBS]
  | CDS_STA_SAP_MCC_24_5_2x2 => [CDS_DBS_DOWNGRADE; CDS_DBS_DOWNGRADE]
  | CDS_STA_SAP_DBS_1x1 => [CDS_NOP; CDS_NOP]
  | CDS_STA_P2P_GO_SCC_24_1x1 => [CDS_NOP; CDS_DBS]
  | CDS_STA_P2P_GO_SCC_24_2x2 => [CDS_NOP; CDS_DBS_DOWNGRADE]
  | CDS_STA_P2P_GO_MCC_24_1x1 => [CDS_NOP; CDS_DBS]
  | CDS_STA_P2P_GO_MCC_24_2x2 => [CDS_NOP; CDS_DBS_DOWNGRADE]
  | CDS_STA_P2P_GO_SCC_5_1x1 => [CDS_DBS; CDS_NOP]
  | CDS_STA_P2P_GO_SCC_5_2x2 => [CDS_DBS_DOWNGRADE; CDS_NOP]
  | CDS_STA_P2P_GO_MCC_5_1x1 => [CDS_DBS; CDS_NOP]
  | CDS_STA_P2P_GO_MCC_5_2x2 => [CDS_DBS_DOWNGRADE; CDS_NOP]
  | CDS_STA_P2P_GO_MCC_24_5_1x1 => [CDS_DBS; CDS_DBS]
  | CDS_STA_P2P_GO_MCC_24_5_2x2 => [CDS_DBS_DOWNGRADE; CDS_DBS_DOWNGRADE]
  | CDS_STA_P2P_GO_DBS_1x1 => [CDS_NOP; CDS_NOP]
  | CDS_STA_P2P_CLI_SCC_24_1x1 => [CDS_NOP; CDS_DBS]
  | CDS_STA_P2P_CLI_SCC_24_2x2 => [CDS_NOP; CDS_DBS_DOWNGRADE]
  | CDS_STA_P2P_CLI_MCC_24_1x1 => [CDS_NOP; CDS_DBS]
  | CDS_STA_P2P_CLI_MCC_24_2x2 => [CDS_NOP; CDS_DBS_DOWNGRADE]
  | CDS_STA_P2P_CLI_SCC_5_1x1 => [CDS_DBS; CDS_NOP]
  | CDS_STA_P2P_CLI_SCC_5_2x2 => [CDS_DBS_DOWNGRADE; CDS_NOP]
  | CDS_STA_P2P_CLI_MCC_5_1x1 => [CDS_DBS; CDS_NOP]
  | CDS_STA_P2P_CLI_MCC_5_2x2 => [CDS_DBS_DOWNGRADE; CDS_NOP]
  | CDS_STA_P2P_CLI_MCC_24_5_1x1 => [CDS_DBS; CDS_DBS]
  | CDS_STA_P2P_CLI_MCC_24_5_2x2 => [CDS_DBS_DOWNGRADE; CDS_DBS_DOWNGRADE]
  | CDS_STA_P2P_CLI_DBS_1x1 => [CDS_NOP; CDS_NOP]
  | CDS_P2P_GO_P2P_CLI_SCC_24_1x1 => [CDS_NOP; CDS_DBS]
  | CDS_P2P_GO_P2P_CLI_SCC_24_2x2 => [CDS_NOP; CDS_DBS_DOWNGRADE]
  | CDS_P2P_GO_P2P_CLI_MCC_24_1x1 => [CDS_NOP; CDS_DBS]
  | CDS_P2P_GO_P2P_CLI_MCC_24_2x2 => [CDS_NOP; CDS_DBS_DOWNGRADE]
  | CDS_P2P_GO_P2P_CLI_SCC_5_1x1 => [CDS_DBS; CDS_NOP]
  | CDS_P2P_GO_P2P_CLI_SCC_5_2x2 => [CDS_DBS_DOWNGRADE; CDS_NOP]
  | CDS_P2P_GO_P2P_CLI_MCC_5_1x1 => [CDS_DBS; CDS_NOP]
  | CDS_P2P_GO_P2P_CLI_MCC_5_2x2 => [CDS_DBS_DOWNGRADE; CDS_NOP]
  | CDS_P2P_GO_P2P_CLI_MCC_24_5_1x1 => [CDS_DBS; CDS_DBS]
  | CDS_P2P_GO_P2P_CLI_MCC_24_5_2x2 => [CDS_DBS_DOWNGRADE; CDS_DBS_DOWNGRADE]
  | CDS_P2P_GO_P2P_CLI_DBS_1x1 => [CDS_NOP; CDS_NOP]
  | CDS_P2P_GO_SAP_SCC_24_1x1 => [CDS_NOP; CDS_DBS]
  | CDS_P2P_GO_SAP_SCC_24_2x2 => [CDS_NOP; CDS_DBS_DOWNGRADE]
  | CDS_P2P_GO_SAP_MCC_24_1x1 => [CDS_NOP; CDS_DBS]
  | CDS_P2P_GO_SAP_MCC_24_2x2 => [CDS_NOP; CDS_DBS_DOWNGRADE]
  | CDS_P2P_GO_SAP_SCC_5_1x1 => [CDS_DBS; CDS_NOP]
  | CDS_P2P_GO_SAP_SCC_5_2x2 => [CDS_DBS_DOWNGRADE; CDS_NOP]
  | CDS_P2P_GO_SAP_MCC_5_1x1 => [CDS_DBS; CDS_NOP]
  | CDS_P2P_GO_SAP_MCC_5_2x2 => [CDS_DBS_DOWNGRADE; CDS_NOP]
  | CDS_P2P_GO_SAP_MCC_24_5_1x1 => [CDS_DBS; CDS_DBS]
  | CDS_P2P_GO_SAP_MCC_24_5_2x2 => [CDS_DBS_DOWNGRADE; CDS_DBS_DOWNGRADE]
  | CDS_P2P_GO_SAP_DBS_1x1 => [CDS_NOP; CDS_NOP]
  | CDS_P2P_CLI_SAP_SCC_24_1x1 => [CDS_NOP; CDS_DBS]
  | CDS_P2P_CLI_SAP_SCC_24_2x2 => [CDS_NOP; CDS_DBS_DOWNGRADE]
  | CDS_P2P_CLI_SAP_MCC_24_1x1 => [CDS_NOP; CDS_DBS]
  | CDS_P2P_CLI_SAP_MCC_24_2x2 => [CDS_NOP; CDS_DBS_DOWNGRADE]
  | CDS_P2P_CLI_SAP_SCC_5_1x1 => [CDS_DBS; CDS_NOP]
  | CDS_P2P_CLI_SAP_SCC_5_2x2 => [CDS_DBS_DOWNGRADE; CDS_NOP]
  | CDS_P2P_CLI_SAP_MCC_5_1x1 => [CDS_DBS; CDS_NOP]
  | CDS_P2P_CLI_SAP_MCC_5_2x2 => [CDS_DBS_DOWNGRADE; CDS_NOP]
  | CDS_P2P_CLI_SAP_MCC_24_5_1x1 => [CDS_DBS; CDS_DBS]
  | CDS_P2P_CLI_SAP_MCC_24_5_2x2 => [CDS_DBS_DOWNGRADE; CDS_DBS_DOWNGRADE]
  | CDS_P2P_CLI_SAP_DBS_1x1 => [CDS_NOP; CDS_NOP]
  | CDS_MAX_TWO_CONNECTION_MODE => []
  end.
