(* ===== verification/CdsConn.v ===== *)
(** The connection table of the concurrency policy: conc_connection_list of
    core/cds/src/cds_concurrency.c with the operations that add, change, remove
    and look up entries, the channels of core/cds/src/cds_reg_service.c, and
    the state that the policy manager keeps in the CDS and HDD contexts.

    The table has three entries; the ones in use come first.  The loops that
    run while CONC_CONNECTION_LIST_VALID_INDEX holds are recursions over the
    table that stop at the first entry not in use.  The regulatory domain, the
    configuration and the answers of the other layers are the class [CdsEnv]. *)
From S2P Require Import Prelude CdsTables.

Definition MAX_NUMBER_OF_CONC_CONNECTIONS : Z := 3.

Inductive QDF_STATUS :=
  | QDF_STATUS_SUCCESS | QDF_STATUS_E_FAILURE | QDF_STATUS_E_NOSUPPORT | QDF_STATUS_E_ALREADY | QDF_STATUS_E_INVAL
  | QDF_STATUS_E_FAULT | QDF_STATUS_E_ABORTED | QDF_STATUS_E_CANCELED.
#[export] Instance QDF_STATUS_eq_dec : EqDecision QDF_STATUS.
Proof. solve_decision. Defined.

Definition QDF_IS_STATUS_SUCCESS (st : QDF_STATUS) : bool := bool_decide (st = QDF_STATUS_SUCCESS).

(** The modes of an interface; the ones the policy does not handle are one. *)
Inductive tQDF_ADAPTER_MODE :=
  | QDF_STA_MODE | QDF_SAP_MODE | QDF_P2P_CLIENT_MODE | QDF_P2P_GO_MODE | QDF_IBSS_MODE | QDF_MONITOR_MODE
  | QDF_OTHER_MODE.
#[export] Instance tQDF_ADAPTER_MODE_eq_dec : EqDecision tQDF_ADAPTER_MODE.
Proof. solve_decision. Defined.

(** *** Channels *)

Inductive channel_state :=
  | CHANNEL_STATE_DISABLE | CHANNEL_STATE_DFS | CHANNEL_STATE_ENABLE | CHANNEL_STATE_INVALID.
#[export] Instance channel_state_eq_dec : EqDecision channel_state.
Proof. solve_decision. Defined.
#[export] Instance channel_state_inhabited : Inhabited channel_state := populate CHANNEL_STATE_DISABLE.

(** Centre frequency and number, in the order of [enum channel_enum]. *)
Definition chan_mapping : list (Z * Z) :=
  [(2412, 1); (2417, 2); (2422, 3); (2427, 4); (2432, 5); (2437, 6); (2442, 7); (2447, 8); (2452, 9);
   (2457, 10); (2462, 11); (2467, 12); (2472, 13);
   (5180, 36); (5200, 40); (5220, 44); (5240, 48); (5260, 52); (5280, 56); (5300, 60); (5320, 64);
   (5500, 100); (5520, 104); (5540, 108); (5560, 112); (5580, 116); (5600, 120); (5620, 124); (5640, 128);
   (5660, 132); (5680, 136); (5700, 140); (5720, 144);
   (5745, 149); (5765, 153); (5785, 157); (5805, 161); (5825, 165);
   (5852, 170); (5855, 171); (5860, 172); (5865, 173); (5870, 174); (5875, 175); (5880, 176); (5885, 177);
   (5890, 178); (5895, 179); (5900, 180); (5905, 181); (5910, 182); (5915, 183); (5920, 184)].

Definition MIN_24GHZ_CHANNEL : Z := 0.
Definition MAX_24GHZ_CHANNEL : Z := 12.
Definition MIN_5GHZ_CHANNEL : Z := 13.
Definition MAX_5GHZ_CHANNEL : Z := 52.
Definition INVALID_CHANNEL : Z := 0xBAD.
Definition CDS_MIN_24GHZ_CHANNEL_NUMBER : Z := Eval vm_compute in snd (zget chan_mapping MIN_24GHZ_CHANNEL).
Definition CDS_MAX_24GHZ_CHANNEL_NUMBER : Z := Eval vm_compute in snd (zget chan_mapping MAX_24GHZ_CHANNEL).
Definition CDS_MIN_5GHZ_CHANNEL_NUMBER : Z := Eval vm_compute in snd (zget chan_mapping MIN_5GHZ_CHANNEL).
Definition CDS_MAX_5GHZ_CHANNEL_NUMBER : Z := Eval vm_compute in snd (zget chan_mapping MAX_5GHZ_CHANNEL).

Definition CDS_IS_CHANNEL_24GHZ (c : Z) : bool :=
  (CDS_MIN_24GHZ_CHANNEL_NUMBER <=? c) && (c <=? CDS_MAX_24GHZ_CHANNEL_NUMBER).
Definition CDS_IS_CHANNEL_5GHZ (c : Z) : bool :=
  (CDS_MIN_5GHZ_CHANNEL_NUMBER <=? c) && (c <=? CDS_MAX_5GHZ_CHANNEL_NUMBER).
Definition CDS_IS_SAME_BAND_CHANNELS (a b : Z) : bool :=
  negb (a =? 0) && negb (b =? 0) && eqb (CDS_IS_CHANNEL_5GHZ a) (CDS_IS_CHANNEL_5GHZ b).

Fixpoint chan_enum_from (l : list (Z * Z)) (loop chan_num : Z) : Z :=
  match l with
  | [] => INVALID_CHANNEL
  | c :: l' => if snd c =? chan_num then loop else chan_enum_from l' (loop + 1) chan_num
  end.

Definition cds_get_channel_enum (chan_num : Z) : Z := chan_enum_from chan_mapping 0 chan_num.

Definition cds_freq_to_chan (freq : Z) : Z :=
  if (2407 <? freq) && (freq <? 2484) then u8 (u32 (freq - 2407) / 5)
  else if freq =? 2484 then 14
  else if (2407 <? freq) && (freq <? 5000) then u8 (u32 (freq - 2512) / 20 + 15)
  else u8 (u32 (freq - 5000) / 5).

(** True for the 5 GHz band. *)
Definition cds_chan_to_band (chan : Z) : bool := negb (chan <=? 14).

(** *** Data *)

Inductive hw_mode_bandwidth :=
  | HW_MODE_BW_NONE | HW_MODE_5_MHZ | HW_MODE_10_MHZ | HW_MODE_20_MHZ | HW_MODE_40_MHZ | HW_MODE_80_MHZ
  | HW_MODE_80_PLUS_80_MHZ | HW_MODE_160_MHZ | HW_MODE_MAX_BANDWIDTH.
Inductive phy_ch_width :=
  | CH_WIDTH_20MHZ | CH_WIDTH_40MHZ | CH_WIDTH_80MHZ | CH_WIDTH_160MHZ | CH_WIDTH_80P80MHZ | CH_WIDTH_5MHZ
  | CH_WIDTH_10MHZ | CH_WIDTH_INVALID | CH_WIDTH_MAX.
#[export] Instance hw_mode_bandwidth_eq_dec : EqDecision hw_mode_bandwidth.
Proof. solve_decision. Defined.

Record cds_conc_connection_info := mk_conn {
  mode : cds_con_mode;
  chan : Z;
  bw : hw_mode_bandwidth;
  mac : Z;
  chain_mask : cds_chain_mode;
  original_nss : Z;
  vdev_id : Z;
  in_use : bool;
}.
#[export] Instance conn_eta : Eta cds_conc_connection_info := fun c =>
  mk_conn (mode c) (chan c) (bw c) (mac c) (chain_mask c) (original_nss c) (vdev_id c) (in_use c).
#[export] Instance conn_eq_dec : EqDecision cds_conc_connection_info.
Proof. solve_decision. Defined.

(** An entry of zero bytes. *)
Definition zero_conn : cds_conc_connection_info :=
  mk_conn CDS_STA_MODE 0 HW_MODE_BW_NONE 0 CDS_ONE_ONE 0 0 false.
#[export] Instance conn_inhabited : Inhabited cds_conc_connection_info := populate zero_conn.

(** The fields of struct wma_txrx_node that the policy reads. *)
Record wma_txrx_node := mk_node {
  node_type : Z;
  sub_type : Z;
  mhz : Z;
  chan_width : phy_ch_width;
  mac_id : Z;
}.

Inductive hw_mode_ss_config := HW_MODE_SS_0x0 | HW_MODE_SS_1x1 | HW_MODE_SS_2x2 | HW_MODE_SS_3x3 | HW_MODE_SS_4x4.
#[export] Instance hw_mode_ss_config_eq_dec : EqDecision hw_mode_ss_config.
Proof. solve_decision. Defined.

(** The arguments of a hardware mode: streams and bandwidth of both MACs, DBS. *)
Record hw_mode_req := mk_req {
  mac0_ss : hw_mode_ss_config;
  mac0_bw : hw_mode_bandwidth;
  mac1_ss : hw_mode_ss_config;
  mac1_bw : hw_mode_bandwidth;
  dbs : bool;
}.
#[export] Instance hw_mode_req_eta : Eta hw_mode_req := fun r =>
  mk_req (mac0_ss r) (mac0_bw r) (mac1_ss r) (mac1_bw r) (dbs r).

Inductive cds_hw_mode_change :=
  | CDS_HW_MODE_NOT_IN_PROGRESS | CDS_SMM_IN_PROGRESS | CDS_DBS_IN_PROGRESS | CDS_SBS_IN_PROGRESS.

(** What the policy asks of the other layers. *)
Inductive pm_event :=
  | Ev_mac_id (vdev mac : Z)                              (* ol_txrx_update_mac_id_cb *)
  | Ev_set_pcl (channels weights : list Z)                (* sme_pdev_set_pcl *)
  | Ev_set_hw_mode (session_id index : Z)                 (* sme_pdev_set_hw_mode *)
  | Ev_nss_update (vdev nss : Z) (next : cds_conc_next_action)   (* sme_nss_update_request *)
  | Ev_lro (enable : bool)
  | Ev_rps (enable : bool)
  | Ev_tdls
  | Ev_timer_start
  | Ev_timer_stop
  | Ev_connection_update_done.

(** The parameters of the model. *)
Class CdsEnv := {
  QDF_MAX_NUM_CHAN : Z;
  wma_is_hw_dbs_capable : bool;
  gMaxConcurrentActiveSessions : Z;
  conc_system_pref : Z;
  enable2x2 : bool;
  sub_20_channel_width : bool;
  reg_channels : list channel_state;                      (* reg_channels[].state *)
  sme_get_valid_channels : option (list Z);
  pld_get_wlan_unsafe_channel : list Z;
  sme_get_vdev_type_nss : tQDF_ADAPTER_MODE → Z * Z;      (* 2.4 GHz, 5 GHz *)
  wma_get_hw_mode_idx_from_dbs_hw_list : hw_mode_req → Z;
  wma_get_hw_mode_from_idx : Z → bool;                    (* whether the index is valid *)
  sme_pdev_set_hw_mode : list pm_event → Z → bool;        (* whether the command was accepted *)
  sme_nss_update_request : list pm_event → Z → bool;
  sap_adapter : bool;                                     (* an adapter in SAP mode exists *)
  adapter_mode_number : tQDF_ADAPTER_MODE → Z;
  WMI_VDEV_TYPE_AP : Z;
  WMI_VDEV_TYPE_STA : Z;
  WMI_VDEV_TYPE_IBSS : Z;
  WMI_UNIFIED_VDEV_SUBTYPE_P2P_GO : Z;
  WMI_UNIFIED_VDEV_SUBTYPE_P2P_CLIENT : Z;
}.

(** The policy's state: the table, and the fields of the CDS and HDD contexts
    (counters are in the order of the constructors of [tQDF_ADAPTER_MODE]). *)
Record cds_state := mk_cds {
  conc_connection_list : list cds_conc_connection_info;
  no_of_active_sessions : list Z;
  no_of_open_sessions : list Z;
  concurrency_mode : Z;
  sap_mandatory_channels : list Z;
  sap_mandatory_channels_len : Z;
  sme_cbacks : bool;                   (* the callbacks of SME are registered *)
  dbs_opportunistic_timer : bool;      (* it runs *)
  do_hw_mode_change : bool;
  hw_mode_change_in_progress : cds_hw_mode_change;
  connection_in_progress : bool;
  interfaces : gmap Z wma_txrx_node;
  current_hw_mode : option bool;       (* dbs_cap of the current hardware mode, if known *)
  events : list pm_event;              (* newest first *)
}.
#[export] Instance cds_state_eta : Eta cds_state := fun s =>
  mk_cds (conc_connection_list s) (no_of_active_sessions s) (no_of_open_sessions s) (concurrency_mode s)
    (sap_mandatory_channels s) (sap_mandatory_channels_len s) (sme_cbacks s) (dbs_opportunistic_timer s)
    (do_hw_mode_change s) (hw_mode_change_in_progress s) (connection_in_progress s) (interfaces s)
    (current_hw_mode s) (events s).

Definition emit (e : pm_event) (s : cds_state) : cds_state := s <| events ::= cons e |>.

(** *** The table *)
Section ops.
Context {E : CdsEnv}.
Implicit Types s : cds_state.

Definition cds_get_channel_state (chan_num : Z) : channel_state :=
  let chan_enum := cds_get_channel_enum chan_num in
  if chan_enum =? INVALID_CHANNEL then CHANNEL_STATE_INVALID else zget reg_channels chan_enum.

Definition CDS_IS_DFS_CH (chan_num : Z) : bool :=
  bool_decide (cds_get_channel_state chan_num = CHANNEL_STATE_DFS).

Definition CDS_IS_PASSIVE_OR_DISABLE_CH (chan_num : Z) : bool :=
  negb (bool_decide (cds_get_channel_state chan_num = CHANNEL_STATE_ENABLE)).

Definition CONC_CONNECTION_LIST_VALID_INDEX (l : list cds_conc_connection_info) (index : Z) : bool :=
  (index <? MAX_NUMBER_OF_CONC_CONNECTIONS) && in_use (zget l index).

(** for (conn_index = 0; conn_index < 3; conn_index++) if (in_use) count++ *)
Definition count_in_use (l : list cds_conc_connection_info) : Z :=
  foldl (λ count c, if in_use c then count + 1 else count) 0 l.

Definition cds_get_connection_count (s : cds_state) : Z := count_in_use (conc_connection_list s).

(** The indices of the entries of a mode; their number is the return value. *)
Fixpoint mode_list (l : list cds_conc_connection_info) (conn_index : Z) (m : cds_con_mode) : list Z :=
  match l with
  | [] => []
  | c :: l' =>
      if bool_decide (mode c = m) && in_use c then conn_index :: mode_list l' (conn_index + 1) m
      else mode_list l' (conn_index + 1) m
  end.

Definition cds_mode_specific_connection_list (s : cds_state) (m : cds_con_mode) : list Z :=
  mode_list (conc_connection_list s) 0 m.

Definition cds_mode_specific_connection_count (s : cds_state) (m : cds_con_mode) : Z :=
  Z.of_nat (length (cds_mode_specific_connection_list s m)).

(** The scan while the index is valid for an entry that satisfies [p]. *)
Fixpoint scan_valid (p : cds_conc_connection_info → bool) (l : list cds_conc_connection_info) (conn_index : Z) : option Z :=
  match l with
  | [] => None
  | c :: l' =>
      if in_use c then if p c then Some conn_index else scan_valid p l' (conn_index + 1) else None
  end.

Definition find_vdev (l : list cds_conc_connection_info) (vdev : Z) : option Z := scan_valid (λ c, vdev =? vdev_id c) l 0.

Definition cds_update_conc_list (s : cds_state) (conn_index : Z) (e : cds_conc_connection_info) : cds_state :=
  if MAX_NUMBER_OF_CONC_CONNECTIONS <=? conn_index then s
  else emit (Ev_mac_id (vdev_id e) (mac e)) (s <| conc_connection_list ::= λ l, zset l conn_index e |>).

Definition cds_get_mode (type subtype : Z) : cds_con_mode :=
  if type =? WMI_VDEV_TYPE_AP then
    if subtype =? 0 then CDS_SAP_MODE
    else if subtype =? WMI_UNIFIED_VDEV_SUBTYPE_P2P_GO then CDS_P2P_GO_MODE else CDS_MAX_NUM_OF_MODE
  else if type =? WMI_VDEV_TYPE_STA then
    if subtype =? 0 then CDS_STA_MODE
    else if subtype =? WMI_UNIFIED_VDEV_SUBTYPE_P2P_CLIENT then CDS_P2P_CLIENT_MODE else CDS_MAX_NUM_OF_MODE
  else if type =? WMI_VDEV_TYPE_IBSS then CDS_IBSS_MODE
  else CDS_MAX_NUM_OF_MODE.

Definition cds_get_bw (w : phy_ch_width) : hw_mode_bandwidth :=
  match w with
  | CH_WIDTH_20MHZ => HW_MODE_20_MHZ
  | CH_WIDTH_40MHZ => HW_MODE_40_MHZ
  | CH_WIDTH_80MHZ => HW_MODE_80_MHZ
  | CH_WIDTH_160MHZ => HW_MODE_160_MHZ
  | CH_WIDTH_80P80MHZ => HW_MODE_80_PLUS_80_MHZ
  | CH_WIDTH_5MHZ => HW_MODE_5_MHZ
  | CH_WIDTH_10MHZ => HW_MODE_10_MHZ
  | CH_WIDTH_INVALID | CH_WIDTH_MAX => HW_MODE_BW_NONE
  end.

(** The mode of the policy for an adapter mode; [None] for the others. *)
Definition cds_map_concurrency_mode (m : tQDF_ADAPTER_MODE) : option cds_con_mode :=
  match m with
  | QDF_STA_MODE => Some CDS_STA_MODE
  | QDF_SAP_MODE => Some CDS_SAP_MODE
  | QDF_P2P_CLIENT_MODE => Some CDS_P2P_CLIENT_MODE
  | QDF_P2P_GO_MODE => Some CDS_P2P_GO_MODE
  | QDF_IBSS_MODE => Some CDS_IBSS_MODE
  | _ => None
  end.

Definition cds_get_nss_for_vdev (s : cds_state) (m : cds_con_mode) : option (Z * Z) :=
  let ask dev_mode := if sme_cbacks s then Some (sme_get_vdev_type_nss dev_mode) else None in
  match m with
  | CDS_STA_MODE => ask QDF_STA_MODE
  | CDS_SAP_MODE => ask QDF_SAP_MODE
  | CDS_P2P_CLIENT_MODE => ask QDF_P2P_CLIENT_MODE
  | CDS_P2P_GO_MODE => ask QDF_P2P_GO_MODE
  | CDS_IBSS_MODE => ask QDF_IBSS_MODE
  | CDS_MAX_NUM_OF_MODE => None
  end.

Definition wma_get_interface_by_vdev_id (s : cds_state) (vdev : Z) : option wma_txrx_node :=
  interfaces s !! u8 vdev.

(** The entry that describes an interface; this part of the code is repeated in
    cds_incr_connection_count and cds_update_connection_info. *)
Definition conn_of_interface (s : cds_state) (vdev : Z) (n : wma_txrx_node) : cds_conc_connection_info :=
  let m := cds_get_mode (node_type n) (sub_type n) in
  let c := cds_freq_to_chan (mhz n) in
  let '(chain, nss) :=
    match cds_get_nss_for_vdev s m with
    | Some (nss_2g, nss_5g) =>
        ((if (CDS_IS_CHANNEL_24GHZ c && (1 <? nss_2g)) || (CDS_IS_CHANNEL_5GHZ c && (1 <? nss_5g))
          then CDS_TWO_TWO else CDS_ONE_ONE),
         if CDS_IS_CHANNEL_24GHZ c then nss_2g else nss_5g)
    | None => (CDS_ONE_ONE, 0)
    end in
  mk_conn m c (cds_get_bw (chan_width n)) (mac_id n) chain nss vdev true.

Definition cds_incr_connection_count (s : cds_state) (vdev : Z) : QDF_STATUS * cds_state :=
  let conn_index := cds_get_connection_count s in
  if gMaxConcurrentActiveSessions <? conn_index then (QDF_STATUS_E_FAILURE, s)
  else match wma_get_interface_by_vdev_id s vdev with
  | None => (QDF_STATUS_E_FAILURE, s)
  | Some n => (QDF_STATUS_SUCCESS, cds_update_conc_list s conn_index (conn_of_interface s vdev n))
  end.

Definition cds_update_connection_info (s : cds_state) (vdev : Z) : QDF_STATUS * cds_state :=
  match find_vdev (conc_connection_list s) vdev with
  | None => (QDF_STATUS_E_FAILURE, s)
  | Some conn_index =>
      match wma_get_interface_by_vdev_id s vdev with
      | None => (QDF_STATUS_E_FAILURE, s)
      | Some n => (QDF_STATUS_SUCCESS, cds_update_conc_list s conn_index (conn_of_interface s vdev n))
      end
  end.

(** The entries above the removed one move down; the fuel is the table's size. *)
Fixpoint shift_down (fuel : nat) (l : list cds_conc_connection_info) (conn_index next_conn_index : Z) : list cds_conc_connection_info * Z :=
  match fuel with
  | O => (l, next_conn_index)
  | S f =>
      if CONC_CONNECTION_LIST_VALID_INDEX l next_conn_index
      then shift_down f (zset l conn_index (zget l next_conn_index)) (conn_index + 1) (next_conn_index + 1)
      else (l, next_conn_index)
  end.

Definition cds_decr_connection_count (s : cds_state) (vdev : Z) : QDF_STATUS * cds_state :=
  match find_vdev (conc_connection_list s) vdev with
  | None => (QDF_STATUS_E_FAILURE, s)
  | Some conn_index =>
      let '(l, next) := shift_down 3 (conc_connection_list s) conn_index (conn_index + 1) in
      (QDF_STATUS_SUCCESS, s <| conc_connection_list := zset l (next - 1) zero_conn |>)
  end.

(** Returns the saved entry, which is zero when there is none of the mode. *)
Definition cds_store_and_del_conn_info (s : cds_state) (m : cds_con_mode) : cds_conc_connection_info * cds_state :=
  match scan_valid (λ c, bool_decide (m = mode c)) (conc_connection_list s) 0 with
  | None => (zero_conn, s)
  | Some conn_index =>
      let info := zget (conc_connection_list s) conn_index in
      (info, snd (cds_decr_connection_count s (vdev_id info)))
  end.

Definition cds_restore_deleted_conn_info (s : cds_state) (info : cds_conc_connection_info) : cds_state :=
  let conn_index := cds_get_connection_count s in
  if MAX_NUMBER_OF_CONC_CONNECTIONS <=? conn_index then s
  else s <| conc_connection_list ::= λ l, zset l conn_index info |>.

(** The MAC ids that the firmware reports after a change of the hardware mode. *)
Definition update_mac (s : cds_state) (vm : Z * Z) : cds_state :=
  match find_vdev (conc_connection_list s) (fst vm) with
  | None => s
  | Some conn_index =>
      emit (Ev_mac_id (fst vm) (snd vm))
        (s <| conc_connection_list ::= λ l, zset l conn_index (zget l conn_index <| mac := snd vm |>) |>)
  end.

Definition cds_update_hw_mode_conn_info (s : cds_state) (vdev_mac_map : list (Z * Z)) : cds_state :=
  foldl update_mac s vdev_mac_map.

Definition cds_set_hw_mode_change_in_progress (s : cds_state) (v : cds_hw_mode_change) : cds_state :=
  s <| hw_mode_change_in_progress := v |>.

(** The map is [None] when the pointer is null. *)
Definition cds_pdev_set_hw_mode_cb (s : cds_state) (status_ok : bool) (cfgd_hw_mode_index : Z)
    (vdev_mac_map : option (list (Z * Z))) : cds_state :=
  let s := cds_set_hw_mode_change_in_progress s CDS_HW_MODE_NOT_IN_PROGRESS in
  if negb status_ok then s
  else match vdev_mac_map with
  | None => s
  | Some m =>
      if wma_get_hw_mode_from_idx cfgd_hw_mode_index
      then emit Ev_connection_update_done (cds_update_hw_mode_conn_info s m) else s
  end.

Definition cds_hw_mode_transition_cb (s : cds_state) (new_hw_mode_index : Z)
    (vdev_mac_map : option (list (Z * Z))) : cds_state :=
  match vdev_mac_map with
  | None => s
  | Some m => if wma_get_hw_mode_from_idx new_hw_mode_index then cds_update_hw_mode_conn_info s m else s
  end.

(** *** Lookups *)

(** The loops over all entries that take the first one in use that satisfies [p]. *)
Fixpoint find_in_use (p : cds_conc_connection_info → bool) (l : list cds_conc_connection_info) (i : Z) : Z :=
  match l with
  | [] => i
  | c :: l' => if p c && in_use c then i else find_in_use p l' (i + 1)
  end.

Definition cds_get_connection_for_vdev_id (s : cds_state) (vdev : Z) : Z :=
  find_in_use (λ c, vdev_id c =? vdev) (conc_connection_list s) 0.

Definition cds_get_channel (s : cds_state) (m : cds_con_mode) (vdev : option Z) : Z :=
  if bool_decide (m = CDS_MAX_NUM_OF_MODE) then 0
  else
    let idx := find_in_use
      (λ c, bool_decide (mode c = m) && match vdev with None => true | Some v => v =? vdev_id c end)
      (conc_connection_list s) 0 in
    if idx =? MAX_NUMBER_OF_CONC_CONNECTIONS then 0 else chan (zget (conc_connection_list s) idx).

Definition cds_is_ibss_conn_exist (s : cds_state) : option Z :=
  match cds_mode_specific_connection_list s CDS_IBSS_MODE with
  | [] => None
  | i :: _ => Some (chan (zget (conc_connection_list s) i))
  end.

(** The last matching entry wins in the two following loops. *)
Definition cds_is_any_nondfs_chnl_present (s : cds_state) : option Z :=
  foldl (λ r c, if in_use c && negb (CDS_IS_DFS_CH (chan c)) then Some (chan c) else r) None
    (conc_connection_list s).

Definition cds_is_any_dfs_beaconing_session_present (s : cds_state) : option Z :=
  foldl (λ r c,
    if in_use c && CDS_IS_DFS_CH (chan c) && (bool_decide (CDS_SAP_MODE = mode c) || bool_decide (CDS_P2P_GO_MODE = mode c))
    then Some (chan c) else r) None (conc_connection_list s).

(** [band5] is CDS_BAND_5. *)
Definition cds_is_any_mode_active_on_band_along_with_session (s : cds_state) (session_id : Z) (band5 : bool) : bool :=
  existsb (λ c, negb (vdev_id c =? session_id) && in_use c &&
    (if band5 then CDS_IS_CHANNEL_5GHZ (chan c) else CDS_IS_CHANNEL_24GHZ (chan c))) (conc_connection_list s).

Definition cds_get_mac_id_by_session_id (s : cds_state) (session_id : Z) : option Z :=
  let i := find_in_use (λ c, vdev_id c =? session_id) (conc_connection_list s) 0 in
  if i =? MAX_NUMBER_OF_CONC_CONNECTIONS then None else Some (mac (zget (conc_connection_list s) i)).

(** The outer [None]: the session id is used as an index and is out of the table. *)
Definition cds_get_mcc_session_id_on_mac (s : cds_state) (macid session_id : Z) : option (option Z) :=
  if MAX_NUMBER_OF_CONC_CONNECTIONS <=? session_id then None
  else
    let l := conc_connection_list s in
    let c0 := chan (zget l session_id) in
    let i := find_in_use
      (λ c, (mac c =? macid) && negb (vdev_id c =? session_id) && negb (chan c =? c0)) l 0 in
    Some (if i =? MAX_NUMBER_OF_CONC_CONNECTIONS then None else Some (u8 (vdev_id (zget l i)))).

Definition cds_get_mcc_operating_channel (s : cds_state) (session_id : Z) : option Z :=
  match cds_get_mac_id_by_session_id s session_id with
  | None => Some 0
  | Some macid =>
      match cds_get_mcc_session_id_on_mac s macid session_id with
      | None => None
      | Some None => Some 0
      | Some (Some mcc_session_id) =>
          if MAX_NUMBER_OF_CONC_CONNECTIONS <=? mcc_session_id then None
          else Some (chan (zget (conc_connection_list s) mcc_session_id))
      end
  end.
End ops.

(** ** The table as a list of at most three connections *)

Definition tbl (l : list cds_conc_connection_info) : list cds_conc_connection_info :=
  l ++ replicate (3 - length l) zero_conn.

Definition live (l : list cds_conc_connection_info) : Prop :=
  (length l <= 3)%nat ∧ Forall (λ c, in_use c = true) l.

(** [s] holds the connections [l], oldest first. *)
Definition holds (s : cds_state) (l : list cds_conc_connection_info) : Prop :=
  conc_connection_list s = tbl l ∧ live l.

(** Removal and replacement of the first entry that satisfies [p]. *)
Fixpoint remove_first {A} (p : A → bool) (l : list A) : list A :=
  match l with
  | [] => []
  | x :: l' => if p x then l' else x :: remove_first p l'
  end.

Fixpoint alter_first {A} (p : A → bool) (f : A → A) (l : list A) : list A :=
  match l with
  | [] => []
  | x :: l' => if p x then f x :: l' else x :: alter_first p f l'
  end.

Definition has_vdev (v : Z) (c : cds_conc_connection_info) : bool := v =? vdev_id c.
Definition has_mode (m : cds_con_mode) (c : cds_conc_connection_info) : bool := bool_decide (m = mode c).

(** The operations of the table as one language, with their answers. *)
Inductive table_op :=
  | Op_incr (vdev : Z)
  | Op_update (vdev : Z)
  | Op_decr (vdev : Z)
  | Op_query (m : cds_con_mode)        (* a connection of the mode is taken out and put back *)
  | Op_macs (vdev_mac_map : list (Z * Z))
  | Op_count
  | Op_count_mode (m : cds_con_mode)
  | Op_channel (m : cds_con_mode)
  | Op_mac_of (vdev : Z).

Inductive table_out :=
  | Out_status (st : QDF_STATUS)
  | Out_conn (c : cds_conc_connection_info)
  | Out_num (n : Z)
  | Out_mac (m : option Z)
  | Out_none.

Section table.
Context {E : CdsEnv}.

Definition exec_table (s : cds_state) (o : table_op) : table_out * cds_state :=
  match o with
  | Op_incr v => let '(st, s') := cds_incr_connection_count s v in (Out_status st, s')
  | Op_update v => let '(st, s') := cds_update_connection_info s v in (Out_status st, s')
  | Op_decr v => let '(st, s') := cds_decr_connection_count s v in (Out_status st, s')
  | Op_query m =>
      if 0 <? cds_mode_specific_connection_count s m then
        let '(info, s') := cds_store_and_del_conn_info s m in
        (Out_conn info, cds_restore_deleted_conn_info s' info)
      else (Out_none, s)
  | Op_macs l => (Out_none, cds_update_hw_mode_conn_info s l)
  | Op_count => (Out_num (cds_get_connection_count s), s)
  | Op_count_mode m => (Out_num (cds_mode_specific_connection_count s m), s)
  | Op_channel m => (Out_num (cds_get_channel s m None), s)
  | Op_mac_of v => (Out_mac (cds_get_mac_id_by_session_id s v), s)
  end.

(** The same on a list; [entry] describes the interface of a vdev. *)
Definition spec_table (entry : Z → option cds_conc_connection_info) (l : list cds_conc_connection_info)
    (o : table_op) : table_out * list cds_conc_connection_info :=
  let fail := (Out_status QDF_STATUS_E_FAILURE, l) in
  match o with
  | Op_incr v =>
      if gMaxConcurrentActiveSessions <? Z.of_nat (length l) then fail
      else match entry v with
      | None => fail
      | Some e => (Out_status QDF_STATUS_SUCCESS, if (length l <? 3)%nat then l ++ [e] else l)
      end
  | Op_update v =>
      match entry v with
      | Some e => if existsb (has_vdev v) l then (Out_status QDF_STATUS_SUCCESS, alter_first (has_vdev v) (λ _, e) l) else fail
      | None => fail
      end
  | Op_decr v =>
      if existsb (has_vdev v) l then (Out_status QDF_STATUS_SUCCESS, remove_first (has_vdev v) l) else fail
  | Op_query m =>
      match find (has_mode m) l with
      | Some info => (Out_conn info, remove_first (has_vdev (vdev_id info)) l ++ [info])
      | None => (Out_none, l)
      end
  | Op_macs vms => (Out_none, foldl (λ l vm, alter_first (has_vdev (fst vm)) (λ c, c <| mac := snd vm |>) l) l vms)
  | Op_count => (Out_num (Z.of_nat (length l)), l)
  | Op_count_mode m => (Out_num (Z.of_nat (length (List.filter (has_mode m) l))), l)
  | Op_channel m =>
      (Out_num (match m with CDS_MAX_NUM_OF_MODE => 0 | _ => from_option chan 0 (find (has_mode m) l) end), l)
  | Op_mac_of v => (Out_mac (mac <$> find (has_vdev v) l), l)
  end.

Fixpoint run_table (s : cds_state) (ops : list table_op) : list table_out * cds_state :=
  match ops with
  | [] => ([], s)
  | o :: ops' =>
      let '(r, s1) := exec_table s o in
      let '(rs, s2) := run_table s1 ops' in (r :: rs, s2)
  end.

Fixpoint run_spec (entry : Z → option cds_conc_connection_info) (l : list cds_conc_connection_info)
    (ops : list table_op) : list table_out * list cds_conc_connection_info :=
  match ops with
  | [] => ([], l)
  | o :: ops' =>
      let '(r, l1) := spec_table entry l o in
      let '(rs, l2) := run_spec entry l1 ops' in (r :: rs, l2)
  end.

Definition entry_of (s : cds_state) (v : Z) : option cds_conc_connection_info :=
  conn_of_interface s v <$> wma_get_interface_by_vdev_id s v.
End table.

(** The four shapes of a live list, with the flags of its entries known. *)
Ltac live_cases H :=
  match type of H with live ?l =>
    let Hn := fresh in let Hl := fresh in
    destruct H as [Hn Hl]; destruct l as [|?a [|?b [|?c [|]]]]; cbn in Hn; try lia; clear Hn;
    rewrite ?Forall_cons in Hl; destruct_and?
  end.

Section table_lemmas.
Context {E : CdsEnv}.
Implicit Types s : cds_state.
Implicit Types l : list cds_conc_connection_info.

Lemma length_tbl l : live l → length (tbl l) = 3%nat.
Proof. intros [Hn _]. unfold tbl. rewrite length_app, length_replicate. lia. Qed.

Lemma live_zero : live [].
Proof. split; [cbn; lia|constructor]. Qed.

Lemma scan_valid_tbl p l i : live l → scan_valid p (tbl l) i = scan_valid p l i.
Proof. intros Hl. live_cases Hl; cbn; repeat case_match; done || congruence. Qed.

Lemma count_tbl l : live l → count_in_use (tbl l) = Z.of_nat (length l).
Proof. intros Hl. live_cases Hl; cbn; repeat case_match; done || congruence. Qed.

Lemma mode_list_tbl l m :
  live l → length (mode_list (tbl l) 0 m) = length (List.filter (has_mode m) l).
Proof.
  intros Hl. unfold has_mode.
  live_cases Hl; cbn; rewrite ?andb_false_r; try done;
    repeat match goal with H : in_use _ = true |- _ => rewrite H; clear H end;
    rewrite ?andb_true_r; repeat case_bool_decide; try congruence; done.
Qed.

Lemma zget_tbl_scan p l i :
  live l → scan_valid p l 0 = Some i → find p l = Some (zget (tbl l) i) ∧ 0 <= i < Z.of_nat (length l).
Proof.
  intros Hl Hs. live_cases Hl; cbn in *; repeat case_match; simplify_eq; split; try done.
Qed.

Lemma scan_none p l : live l → scan_valid p l 0 = None → find p l = None ∧ existsb p l = false.
Proof.
  intros Hl Hs. live_cases Hl; cbn in *; repeat case_match; simplify_eq; done.
Qed.

Lemma scan_some p l i : scan_valid p l 0 = Some i → existsb p l = true.
Proof.
  generalize 0 at 1. induction l as [|c l IH]; intros k; cbn; [done|].
  destruct (in_use c); [|done]. destruct (p c); [done|]. apply IH.
Qed.

Lemma append_tbl l e :
  live l → in_use e = true → (length l < 3)%nat →
  zset (tbl l) (Z.of_nat (length l)) e = tbl (l ++ [e]) ∧ live (l ++ [e]).
Proof.
  intros Hl He Hn. split.
  - live_cases Hl; cbn in *; try lia; done.
  - destruct Hl as [_ Hl]. split; [rewrite length_app; cbn; lia|].
    apply Forall_app; split; [done|]. by constructor.
Qed.

Lemma length_alter_first {A} p (f : A → A) (l : list A) : length (alter_first p f l) = length l.
Proof. induction l as [|c l IH]; cbn; [done|]. case_match; cbn; congruence. Qed.

Lemma length_remove_first {A} p (l : list A) : (length (remove_first p l) <= length l)%nat.
Proof. induction l as [|c l IH]; cbn; [done|]. case_match; cbn; lia. Qed.

Lemma alter_tbl p f l i :
  live l → scan_valid p l 0 = Some i → (∀ c, in_use c = true → in_use (f c) = true) →
  zset (tbl l) i (f (zget (tbl l) i)) = tbl (alter_first p f l) ∧ live (alter_first p f l).
Proof.
  intros Hl Hs Hf. split.
  - live_cases Hl; cbn in *; repeat case_match; simplify_eq; done.
  - destruct Hl as [Hn Hl]. clear Hs. split; [by rewrite length_alter_first|].
    clear Hn. induction Hl as [|c l Hc Hl IH]; cbn; [constructor|].
    case_match; constructor; auto.
Qed.

Lemma remove_live p l : live l → live (remove_first p l).
Proof.
  intros [Hn Hl]. split.
  - pose proof (length_remove_first p l). lia.
  - clear Hn. induction Hl as [|c l Hc Hl IH]; cbn; [constructor|]. case_match; [done|]. by constructor.
Qed.

Lemma remove_tbl p l i :
  live l → scan_valid p l 0 = Some i →
  let '(l', next) := shift_down 3 (tbl l) i (i + 1) in zset l' (next - 1) zero_conn = tbl (remove_first p l).
Proof.
  intros Hl Hs. live_cases Hl; cbn in Hs; repeat split_if_in Hs; simplify_eq;
    repeat match goal with c : cds_conc_connection_info |- _ => destruct c end; cbn in *; simplify_eq;
    repeat match goal with H : p _ = _ |- _ => rewrite H; clear H; cbn end; vm_compute; done.
Qed.
End table_lemmas.

Section refines.
Context {E : CdsEnv}.
Implicit Types s : cds_state.
Implicit Types l : list cds_conc_connection_info.

Lemma find_in_use_tbl p l :
  live l →
  match find p l with
  | None => find_in_use p (tbl l) 0 = 3
  | Some c => find_in_use p (tbl l) 0 < 3 ∧ zget (tbl l) (find_in_use p (tbl l) 0) = c
  end.
Proof.
  intros Hl. live_cases Hl; cbn; rewrite ?andb_false_r; try done;
    repeat match goal with c : cds_conc_connection_info |- _ => destruct c end; cbn in *; simplify_eq;
    rewrite ?andb_true_r; repeat case_match; simplify_eq; done.
Qed.

Lemma holds_count s l : holds s l → cds_get_connection_count s = Z.of_nat (length l).
Proof. intros [Ht Hl]. unfold cds_get_connection_count. rewrite Ht. by apply count_tbl. Qed.

Lemma holds_count_mode s l m :
  holds s l → cds_mode_specific_connection_count s m = Z.of_nat (length (List.filter (has_mode m) l)).
Proof.
  intros [Ht Hl]. unfold cds_mode_specific_connection_count, cds_mode_specific_connection_list.
  rewrite Ht. by rewrite mode_list_tbl.
Qed.

Lemma find_filter p l : find p l = None ↔ List.filter p l = [].
Proof. induction l as [|c l IH]; cbn; [done|]. case_match; [naive_solver|apply IH]. Qed.

(** A failed [find] leaves the list as it is; a successful one has found the
    element that [remove_first] removes. *)
Lemma existsb_find {A} (p : A → bool) (l : list A) :
  existsb p l = match find p l with Some _ => true | None => false end.
Proof. induction l as [|c l IH]; cbn; [done|]. by destruct (p c). Qed.

Lemma alter_id {A} (p : A → bool) f (l : list A) : existsb p l = false → alter_first p f l = l.
Proof. induction l as [|c l IH]; cbn; [done|]. intros H. apply orb_false_iff in H as [-> H]. by rewrite IH. Qed.

Lemma in_use_entry s v n : in_use (conn_of_interface s v n) = true.
Proof. unfold conn_of_interface. by destruct (cds_get_nss_for_vdev _ _) as [[]|]. Qed.

Lemma incr_refines s l v :
  holds s l →
  let '(st, s') := cds_incr_connection_count s v in
  Out_status st = fst (spec_table (entry_of s) l (Op_incr v)) ∧
  holds s' (snd (spec_table (entry_of s) l (Op_incr v))).
Proof.
  intros Hh. unfold cds_incr_connection_count. rewrite (holds_count _ _ Hh). unfold spec_table, entry_of.
  destruct (_ <? _); [by split|].
  destruct (wma_get_interface_by_vdev_id s v) as [n|] eqn:Hn; cbn; [|by split].
  destruct Hh as [Ht Hl]. unfold cds_update_conc_list, MAX_NUMBER_OF_CONC_CONNECTIONS.
  destruct (Nat.leb_spec (length l) 2) as [Hlt|Hge].
  - rewrite (proj2 (Z.leb_gt _ _)) by lia. split; [done|].
    destruct (append_tbl l (conn_of_interface s v n) Hl (in_use_entry _ _ _)) as [He Hl']; [lia|].
    split; [|exact Hl']. unfold emit. cbn. by rewrite Ht, He.
  - rewrite (proj2 (Z.leb_le _ _)) by lia. done.
Qed.

Lemma update_refines s l v :
  holds s l →
  let '(st, s') := cds_update_connection_info s v in
  Out_status st = fst (spec_table (entry_of s) l (Op_update v)) ∧
  holds s' (snd (spec_table (entry_of s) l (Op_update v))).
Proof.
  intros Hh. destruct (Hh) as [Ht Hl]. unfold cds_update_connection_info, find_vdev. rewrite Ht, scan_valid_tbl by done.
  unfold spec_table, entry_of. fold (has_vdev v).
  destruct (scan_valid _ l 0) as [i|] eqn:Hs.
  2: { destruct (scan_none _ _ Hl Hs) as [_ ->]. by destruct (wma_get_interface_by_vdev_id s v). }
  rewrite (scan_some _ _ _ Hs).
  destruct (wma_get_interface_by_vdev_id s v) as [n|] eqn:Hn; cbn; [|by split].
  destruct (zget_tbl_scan _ _ _ Hl Hs) as [_ Hi].
  unfold cds_update_conc_list, MAX_NUMBER_OF_CONC_CONNECTIONS.
  destruct (Hl) as [Hl3 _]. rewrite (proj2 (Z.leb_gt _ _)) by lia. split; [done|].
  destruct (alter_tbl (has_vdev v) (λ _, conn_of_interface s v n) l i Hl Hs) as [He Hl'].
  { intros. apply in_use_entry. }
  split; [|exact Hl']. unfold emit. cbn. by rewrite Ht, He.
Qed.

Lemma decr_refines s l v :
  holds s l →
  let '(st, s') := cds_decr_connection_count s v in
  (Out_status st, s') =
    (fst (spec_table (entry_of s) l (Op_decr v)), s <| conc_connection_list := tbl (snd (spec_table (entry_of s) l (Op_decr v))) |>) ∧
  holds s' (snd (spec_table (entry_of s) l (Op_decr v))).
Proof.
  intros [Ht Hl]. unfold cds_decr_connection_count, find_vdev. rewrite Ht, scan_valid_tbl by done.
  unfold spec_table. fold (has_vdev v).
  destruct (scan_valid _ l 0) as [i|] eqn:Hs.
  - rewrite (scan_some _ _ _ Hs). pose proof (remove_tbl _ _ _ Hl Hs) as Hr.
    destruct (shift_down _ _ _ _) as [l' next]. rewrite Hr.
    split; [done|]. split; [done|]. by apply remove_live.
  - destruct (scan_none _ _ Hl Hs) as [_ ->]. cbn [fst snd]. rewrite <- Ht. split; [by destruct s|done].
Qed.

Lemma restore_refines s l info :
  holds s l → (length l < 3)%nat → in_use info = true → holds (cds_restore_deleted_conn_info s info) (l ++ [info]).
Proof.
  intros Hh Hn Hi. unfold cds_restore_deleted_conn_info, MAX_NUMBER_OF_CONC_CONNECTIONS.
  rewrite (holds_count _ _ Hh), (proj2 (Z.leb_gt _ _)) by lia. destruct Hh as [Ht Hl].
  destruct (append_tbl l info Hl Hi Hn) as [He Hl']. split; [|done]. cbn. by rewrite Ht, He.
Qed.

Lemma find_live p l c : live l → find p l = Some c → in_use c = true ∧ p c = true ∧ c ∈ l.
Proof.
  intros [_ Hl] Hf. apply find_some in Hf as [Hin Hp]. rewrite Forall_forall in Hl.
  apply list_elem_of_In in Hin. naive_solver.
Qed.

Lemma remove_first_shorter {A} (p : A → bool) (l : list A) x :
  x ∈ l → p x = true → S (length (remove_first p l)) = length l.
Proof.
  intros Hx Hp. induction l as [|y l IH]; [by apply not_elem_of_nil in Hx|]. cbn.
  destruct (p y) eqn:Hy; [done|]. cbn. f_equal. apply IH.
  apply elem_of_cons in Hx as [->|Hx]; [congruence|done].
Qed.

(** Taking a connection of a mode out of the table. *)
Lemma store_refines s l m info :
  holds s l → find (has_mode m) l = Some info →
  ∃ s', cds_store_and_del_conn_info s m = (info, s') ∧
    s' = s <| conc_connection_list := tbl (remove_first (has_vdev (vdev_id info)) l) |> ∧
    holds s' (remove_first (has_vdev (vdev_id info)) l).
Proof.
  intros Hh Hf. destruct (Hh) as [Ht Hl]. unfold cds_store_and_del_conn_info. rewrite Ht, scan_valid_tbl by done.
  fold (has_mode m). destruct (scan_valid _ l 0) as [i|] eqn:Hs.
  2: { destruct (scan_none _ _ Hl Hs). congruence. }
  destruct (zget_tbl_scan _ _ _ Hl Hs) as [Hz _]. rewrite Hf in Hz. injection Hz as <-.
  pose proof (decr_refines s l (vdev_id info) Hh) as Hd.
  destruct (cds_decr_connection_count s (vdev_id info)) as [st s'] eqn:Hc. destruct Hd as [Hd1 Hd2].
  destruct (find_live _ _ _ Hl Hf) as (_ & _ & Hin).
  assert (existsb (has_vdev (vdev_id info)) l = true) as Hex.
  { apply existsb_exists. exists info. split; [by apply list_elem_of_In|]. apply Z.eqb_refl. }
  unfold spec_table in Hd1, Hd2. rewrite Hex in Hd1, Hd2. cbn [fst snd] in Hd1, Hd2.
  exists s'. split; [done|]. split; [congruence|done].
Qed.

Lemma query_refines s l m :
  holds s l →
  let '(r, s') := exec_table s (Op_query m) in
  r = fst (spec_table (entry_of s) l (Op_query m)) ∧ holds s' (snd (spec_table (entry_of s) l (Op_query m))).
Proof.
  intros Hh. destruct (Hh) as [Ht Hl]. unfold exec_table, spec_table. rewrite (holds_count_mode _ _ _ Hh).
  destruct (find (has_mode m) l) as [info|] eqn:Hf.
  - assert (List.filter (has_mode m) l ≠ []) as Hne by (rewrite <- find_filter, Hf; done).
    rewrite (proj2 (Z.ltb_lt _ _)) by (destruct (List.filter _ _); [done|cbn; lia]).
    destruct (store_refines _ _ _ _ Hh Hf) as (s' & -> & _ & Hh'). split; [done|].
    destruct (find_live _ _ _ Hl Hf) as (Hu & _ & Hin). apply restore_refines; [done| |done].
    destruct Hl as [Hn _].
    pose proof (remove_first_shorter (has_vdev (vdev_id info)) l info Hin (Z.eqb_refl _)). lia.
  - apply find_filter in Hf. rewrite Hf. by split.
Qed.

Lemma macs_refines s l vms :
  holds s l →
  holds (cds_update_hw_mode_conn_info s vms)
    (foldl (λ l vm, alter_first (has_vdev (fst vm)) (λ c, c <| mac := snd vm |>) l) l vms) ∧
  interfaces (cds_update_hw_mode_conn_info s vms) = interfaces s ∧
  sme_cbacks (cds_update_hw_mode_conn_info s vms) = sme_cbacks s.
Proof.
  unfold cds_update_hw_mode_conn_info. revert s l. induction vms as [|vm vms IH]; intros s l Hh; [done|]. cbn [foldl].
  assert (holds (update_mac s vm) (alter_first (has_vdev (fst vm)) (λ c, c <| mac := snd vm |>) l) ∧
    interfaces (update_mac s vm) = interfaces s ∧ sme_cbacks (update_mac s vm) = sme_cbacks s) as (H1 & H2 & H3).
  { destruct Hh as [Ht Hl]. unfold update_mac, find_vdev. rewrite Ht, scan_valid_tbl by done. fold (has_vdev (fst vm)).
    destruct (scan_valid _ l 0) as [i|] eqn:Hs.
    - destruct (alter_tbl (has_vdev (fst vm)) (λ c, c <| mac := snd vm |>) l i Hl Hs) as [He Hl']; [done|].
      split; [|done]. split; [|done]. unfold emit. cbn. rewrite Ht. apply He.
    - destruct (scan_none _ _ Hl Hs) as [_ Hex]. rewrite alter_id by done. done. }
  destruct (IH _ _ H1) as (H4 & H5 & H6). split; [done|]. split; congruence.
Qed.
End refines.

Section theorems.
Context {E : CdsEnv}.
Implicit Types s : cds_state.
Implicit Types l : list cds_conc_connection_info.

(** The entries that the interfaces describe do not depend on the table. *)
Definition same_interfaces s s' : Prop := interfaces s' = interfaces s ∧ sme_cbacks s' = sme_cbacks s.

Lemma same_entries s s' v : same_interfaces s s' → entry_of s' v = entry_of s v.
Proof.
  intros [Hi Hc]. unfold entry_of, wma_get_interface_by_vdev_id, conn_of_interface, cds_get_nss_for_vdev.
  by rewrite Hi, Hc.
Qed.

Lemma exec_table_interfaces s o : same_interfaces s (snd (exec_table s o)).
Proof.
  assert (∀ i e, same_interfaces s (cds_update_conc_list s i e)) as Hu.
  { intros i e. unfold cds_update_conc_list. by destruct (_ <=? _). }
  assert (∀ v, same_interfaces s (snd (cds_decr_connection_count s v))) as Hd.
  { intros v. unfold cds_decr_connection_count. destruct (find_vdev _ _); [|done]. by destruct (shift_down _ _ _ _). }
  destruct o as [v|v|v|m|vms| |m|m|v]; try done; unfold exec_table.
  - unfold cds_incr_connection_count. destruct (_ <? _); [done|].
    destruct (wma_get_interface_by_vdev_id s v); [apply Hu|done].
  - unfold cds_update_connection_info. destruct (find_vdev _ _); [|done].
    destruct (wma_get_interface_by_vdev_id s v); [apply Hu|done].
  - specialize (Hd v). by destruct (cds_decr_connection_count s v).
  - destruct (_ <? _); [|done]. unfold cds_store_and_del_conn_info, cds_restore_deleted_conn_info.
    destruct (scan_valid _ _ _); cbn; [|by destruct (_ <=? _)].
    pose proof (Hd (vdev_id (zget (conc_connection_list s) z))) as [H1 H2].
    destruct (_ <=? _); split; cbn; congruence.
  - cbn. unfold cds_update_hw_mode_conn_info. revert s Hu Hd.
    induction vms as [|vm vms IH]; intros s _ _; [done|]. cbn.
    assert (same_interfaces s (update_mac s vm)) as [H1 H2].
    { unfold update_mac. by destruct (find_vdev _ _). }
    destruct (IH (update_mac s vm)) as [H3 H4].
    + intros. unfold cds_update_conc_list. by destruct (_ <=? _).
    + intros v. unfold cds_decr_connection_count. destruct (find_vdev _ _); [|done]. by destruct (shift_down _ _ _ _).
    + split; congruence.
Qed.

Lemma exec_table_refines s l o :
  holds s l →
  fst (exec_table s o) = fst (spec_table (entry_of s) l o) ∧
  holds (snd (exec_table s o)) (snd (spec_table (entry_of s) l o)).
Proof.
  intros Hh. destruct (Hh) as [Ht Hl]. destruct o as [v|v|v|m|vms| |m|m|v].
  - pose proof (incr_refines s l v Hh) as H. unfold exec_table. by destruct (cds_incr_connection_count s v).
  - pose proof (update_refines s l v Hh) as H. unfold exec_table. by destruct (cds_update_connection_info s v).
  - pose proof (decr_refines s l v Hh) as H. unfold exec_table. destruct (cds_decr_connection_count s v).
    destruct H as [H ?]. split; [|done]. by injection H.
  - pose proof (query_refines s l m Hh) as H. by destruct (exec_table s (Op_query m)).
  - split; [done|]. apply (macs_refines s l vms Hh).
  - cbn. by rewrite (holds_count _ _ Hh).
  - cbn. by rewrite (holds_count_mode _ _ _ Hh).
  - split; [|done]. unfold exec_table, spec_table, cds_get_channel, MAX_NUMBER_OF_CONC_CONNECTIONS. cbn [fst].
    rewrite Ht. f_equal. case_bool_decide; [by subst|].
    pose proof (find_in_use_tbl (λ c, bool_decide (mode c = m) && true) l Hl) as Hf.
    assert (find (λ c, bool_decide (mode c = m) && true) l = find (has_mode m) l) as Heq.
    { clear. induction l as [|c l IH]; cbn; [done|]. rewrite andb_true_r, IH. unfold has_mode.
      repeat case_bool_decide; congruence. }
    rewrite Heq in Hf. destruct (find (has_mode m) l) as [c|]; [|by destruct m; rewrite Hf].
    destruct Hf as [Hlt ->]. rewrite (proj2 (Z.eqb_neq _ _)) by lia. by destruct m.
  - split; [|done]. unfold exec_table, spec_table, cds_get_mac_id_by_session_id, MAX_NUMBER_OF_CONC_CONNECTIONS.
    cbn [fst]. rewrite Ht. f_equal.
    pose proof (find_in_use_tbl (λ c, vdev_id c =? v) l Hl) as Hf.
    assert (find (λ c, vdev_id c =? v) l = find (has_vdev v) l) as Heq.
    { clear. induction l as [|c l IH]; cbn; [done|]. rewrite IH. unfold has_vdev. by rewrite Z.eqb_sym. }
    rewrite Heq in Hf. destruct (find (has_vdev v) l) as [c|]; [|by rewrite Hf].
    destruct Hf as [Hlt ->]. by rewrite (proj2 (Z.eqb_neq _ _)) by lia.
Qed.

(** C16: the connection table implements a list of at most three connections, in
    the order in which they came up: whatever the operations, in whatever order
    (adding the connection of an interface, refreshing it, removing it, taking
    one out for a query and putting it back, new MAC ids, counts and look-ups),
    the answers are those of the list.  Adding to a full table answers success
    and loses the connection when the limit on sessions is not below three. *)
Theorem conn_table_refines_list s l ops :
  holds s l →
  fst (run_table s ops) = fst (run_spec (entry_of s) l ops) ∧
  holds (snd (run_table s ops)) (snd (run_spec (entry_of s) l ops)).
Proof.
  revert s l. induction ops as [|o ops IH]; intros s l Hh; [done|]. cbn [run_table run_spec].
  pose proof (exec_table_refines s l o Hh) as [H1 H2]. pose proof (exec_table_interfaces s o) as Hi.
  destruct (exec_table s o) as [r s1], (spec_table (entry_of s) l o) as [r' l1]. cbn in H1, H2, Hi. subst r'.
  destruct (IH s1 l1 H2) as [H3 H4].
  assert (run_spec (entry_of s1) l1 ops = run_spec (entry_of s) l1 ops) as Heq.
  { clear -Hi. revert l1. induction ops as [|o ops IH]; intros l1; [done|]. cbn.
    assert (spec_table (entry_of s1) l1 o = spec_table (entry_of s) l1 o) as ->.
    { destruct o; cbn; rewrite ?(same_entries _ _ _ Hi); done. }
    destruct (spec_table _ _ _) as [r l2]. by rewrite IH. }
  rewrite Heq in H3, H4. destruct (run_table s1 ops), (run_spec (entry_of s) l1 ops). cbn in *. by subst.
Qed.
End theorems.
