(* ===== verification/CdsPcl.v ===== *)
(** Preferred channel lists: the rows of the policy's tables for the current
    connections and the channel lists that they stand for
    (core/cds/src/cds_concurrency.c, from cds_get_connection_channels to
    cds_get_third_connection_pcl_table_index, and the mandatory channels of SAP).

    The caller's buffers are the arrays of a [sir_pcl_list].  The local arrays of
    a function that are only filled from index 0 upwards are lists, their
    counters the lengths; an access outside a buffer of the caller or of a local array is
    [None]. *)
From S2P Require Import Prelude CdsTables CdsConn.

Definition WEIGHT_OF_GROUP1_PCL_CHANNELS : Z := 255.
Definition WEIGHT_OF_GROUP2_PCL_CHANNELS : Z := WEIGHT_OF_GROUP1_PCL_CHANNELS - 20.
Definition WEIGHT_OF_GROUP3_PCL_CHANNELS : Z := WEIGHT_OF_GROUP2_PCL_CHANNELS - 20.
Definition WEIGHT_OF_NON_PCL_CHANNELS : Z := 1.
Definition WEIGHT_OF_DISALLOWED_CHANNELS : Z := 0.
(** The size of a pointer: QDF_ARRAY_SIZE applied to a pointer parameter. *)
Definition POINTER_SIZE : Z := 8.

Inductive cds_pcl_group_id := CDS_PCL_GROUP_ID1_ID2 | CDS_PCL_GROUP_ID2_ID3.
Inductive cds_pcl_channel_order := CDS_PCL_ORDER_NONE | CDS_PCL_ORDER_24G_THEN_5G | CDS_PCL_ORDER_5G_THEN_2G.

Record sir_pcl_list := mk_pcl {
  pcl_list : list Z;
  weight_list : list Z;
  pcl_len : Z;
}.
#[export] Instance pcl_eta : Eta sir_pcl_list := fun p => mk_pcl (pcl_list p) (weight_list p) (pcl_len p).

(** memcpy to the start of a buffer. *)
Definition copy_to (buf data : list Z) : option (list Z) :=
  if (length data <=? length buf)%nat then Some (zwrite buf 0 data) else None.

(** *** Rows of the tables *)

(** The four rows of a mode, by band and chains. *)
Definition one_index (c : cds_conc_connection_info)
    (i24_1x1 i24_2x2 i5_1x1 i5_2x2 : cds_one_connection_mode) : cds_one_connection_mode :=
  if CDS_IS_CHANNEL_24GHZ (chan c) then if bool_decide (CDS_ONE_ONE = chain_mask c) then i24_1x1 else i24_2x2
  else if bool_decide (CDS_ONE_ONE = chain_mask c) then i5_1x1 else i5_2x2.

Definition cds_get_second_connection_pcl_table_index (s : cds_state) : cds_one_connection_mode :=
  let c := zget (conc_connection_list s) 0 in
  match mode c with
  | CDS_STA_MODE => one_index c CDS_STA_24_1x1 CDS_STA_24_2x2 CDS_STA_5_1x1 CDS_STA_5_2x2
  | CDS_SAP_MODE => one_index c CDS_SAP_24_1x1 CDS_SAP_24_2x2 CDS_SAP_5_1x1 CDS_SAP_5_2x2
  | CDS_P2P_CLIENT_MODE => one_index c CDS_P2P_CLI_24_1x1 CDS_P2P_CLI_24_2x2 CDS_P2P_CLI_5_1x1 CDS_P2P_CLI_5_2x2
  | CDS_P2P_GO_MODE => one_index c CDS_P2P_GO_24_1x1 CDS_P2P_GO_24_2x2 CDS_P2P_GO_5_1x1 CDS_P2P_GO_5_2x2
  | CDS_IBSS_MODE => one_index c CDS_IBSS_24_1x1 CDS_IBSS_24_2x2 CDS_IBSS_5_1x1 CDS_IBSS_5_2x2
  | CDS_MAX_NUM_OF_MODE => CDS_MAX_ONE_CONNECTION_MODE
  end.

(** The eleven rows of a pair of modes, by channels, MACs and chains. *)
Definition two_index (c0 c1 : cds_conc_connection_info)
    (scc24_1x1 scc24_2x2 scc5_1x1 scc5_2x2 mcc24_1x1 mcc24_2x2 mcc5_1x1 mcc5_2x2 mcc24_5_1x1 mcc24_5_2x2 dbs_1x1
     : cds_two_connection_mode) : cds_two_connection_mode :=
  let one := bool_decide (CDS_ONE_ONE = chain_mask c0) in
  if chan c0 =? chan c1 then
    if CDS_IS_CHANNEL_24GHZ (chan c0) then if one then scc24_1x1 else scc24_2x2
    else if one then scc5_1x1 else scc5_2x2
  else if mac c0 =? mac c1 then
    if CDS_IS_CHANNEL_24GHZ (chan c0) && CDS_IS_CHANNEL_24GHZ (chan c1) then if one then mcc24_1x1 else mcc24_2x2
    else if CDS_IS_CHANNEL_5GHZ (chan c0) && CDS_IS_CHANNEL_5GHZ (chan c1) then if one then mcc5_1x1 else mcc5_2x2
    else if one then mcc24_5_1x1 else mcc24_5_2x2
  else dbs_1x1.

Definition modes_are (c0 c1 : cds_conc_connection_info) (a b : cds_con_mode) : bool :=
  (bool_decide (a = mode c0) && bool_decide (b = mode c1)) || (bool_decide (b = mode c0) && bool_decide (a = mode c1)).

Definition index_P2P_CLI_SAP (c0 c1 : cds_conc_connection_info) : cds_two_connection_mode :=
  two_index c0 c1 CDS_P2P_CLI_SAP_SCC_24_1x1 CDS_P2P_CLI_SAP_SCC_24_2x2 CDS_P2P_CLI_SAP_SCC_5_1x1
    CDS_P2P_CLI_SAP_SCC_5_2x2 CDS_P2P_CLI_SAP_MCC_24_1x1 CDS_P2P_CLI_SAP_MCC_24_2x2 CDS_P2P_CLI_SAP_MCC_5_1x1
    CDS_P2P_CLI_SAP_MCC_5_2x2 CDS_P2P_CLI_SAP_MCC_24_5_1x1 CDS_P2P_CLI_SAP_MCC_24_5_2x2 CDS_P2P_CLI_SAP_DBS_1x1.

Definition index_STA_SAP (c0 c1 : cds_conc_connection_info) : cds_two_connection_mode :=
  two_index c0 c1 CDS_STA_SAP_SCC_24_1x1 CDS_STA_SAP_SCC_24_2x2 CDS_STA_SAP_SCC_5_1x1
    CDS_STA_SAP_SCC_5_2x2 CDS_STA_SAP_MCC_24_1x1 CDS_STA_SAP_MCC_24_2x2 CDS_STA_SAP_MCC_5_1x1
    CDS_STA_SAP_MCC_5_2x2 CDS_STA_SAP_MCC_24_5_1x1 CDS_STA_SAP_MCC_24_5_2x2 CDS_STA_SAP_DBS_1x1.

Definition index_STA_P2P_GO (c0 c1 : cds_conc_connection_info) : cds_two_connection_mode :=
  two_index c0 c1 CDS_STA_P2P_GO_SCC_24_1x1 CDS_STA_P2P_GO_SCC_24_2x2 CDS_STA_P2P_GO_SCC_5_1x1
    CDS_STA_P2P_GO_SCC_5_2x2 CDS_STA_P2P_GO_MCC_24_1x1 CDS_STA_P2P_GO_MCC_24_2x2 CDS_STA_P2P_GO_MCC_5_1x1
    CDS_STA_P2P_GO_MCC_5_2x2 CDS_STA_P2P_GO_MCC_24_5_1x1 CDS_STA_P2P_GO_MCC_24_5_2x2 CDS_STA_P2P_GO_DBS_1x1.

Definition index_STA_P2P_CLI (c0 c1 : cds_conc_connection_info) : cds_two_connection_mode :=
  two_index c0 c1 CDS_STA_P2P_CLI_SCC_24_1x1 CDS_STA_P2P_CLI_SCC_24_2x2 CDS_STA_P2P_CLI_SCC_5_1x1
    CDS_STA_P2P_CLI_SCC_5_2x2 CDS_STA_P2P_CLI_MCC_24_1x1 CDS_STA_P2P_CLI_MCC_24_2x2 CDS_STA_P2P_CLI_MCC_5_1x1
    CDS_STA_P2P_CLI_MCC_5_2x2 CDS_STA_P2P_CLI_MCC_24_5_1x1 CDS_STA_P2P_CLI_MCC_24_5_2x2 CDS_STA_P2P_CLI_DBS_1x1.

Definition index_P2P_GO_P2P_CLI (c0 c1 : cds_conc_connection_info) : cds_two_connection_mode :=
  two_index c0 c1 CDS_P2P_GO_P2P_CLI_SCC_24_1x1 CDS_P2P_GO_P2P_CLI_SCC_24_2x2 CDS_P2P_GO_P2P_CLI_SCC_5_1x1
    CDS_P2P_GO_P2P_CLI_SCC_5_2x2 CDS_P2P_GO_P2P_CLI_MCC_24_1x1 CDS_P2P_GO_P2P_CLI_MCC_24_2x2
    CDS_P2P_GO_P2P_CLI_MCC_5_1x1 CDS_P2P_GO_P2P_CLI_MCC_5_2x2 CDS_P2P_GO_P2P_CLI_MCC_24_5_1x1
    CDS_P2P_GO_P2P_CLI_MCC_24_5_2x2 CDS_P2P_GO_P2P_CLI_DBS_1x1.

Definition index_P2P_GO_SAP (c0 c1 : cds_conc_connection_info) : cds_two_connection_mode :=
  two_index c0 c1 CDS_P2P_GO_SAP_SCC_24_1x1 CDS_P2P_GO_SAP_SCC_24_2x2 CDS_P2P_GO_SAP_SCC_5_1x1
    CDS_P2P_GO_SAP_SCC_5_2x2 CDS_P2P_GO_SAP_MCC_24_1x1 CDS_P2P_GO_SAP_MCC_24_2x2 CDS_P2P_GO_SAP_MCC_5_1x1
    CDS_P2P_GO_SAP_MCC_5_2x2 CDS_P2P_GO_SAP_MCC_24_5_1x1 CDS_P2P_GO_SAP_MCC_24_5_2x2 CDS_P2P_GO_SAP_DBS_1x1.

Definition cds_get_third_connection_pcl_table_index (s : cds_state) : cds_two_connection_mode :=
  let c0 := zget (conc_connection_list s) 0 in
  let c1 := zget (conc_connection_list s) 1 in
  if modes_are c0 c1 CDS_P2P_CLIENT_MODE CDS_SAP_MODE then index_P2P_CLI_SAP c0 c1
  else if modes_are c0 c1 CDS_STA_MODE CDS_SAP_MODE then index_STA_SAP c0 c1
  else if modes_are c0 c1 CDS_STA_MODE CDS_P2P_GO_MODE then index_STA_P2P_GO c0 c1
  else if modes_are c0 c1 CDS_STA_MODE CDS_P2P_CLIENT_MODE then index_STA_P2P_CLI c0 c1
  else if modes_are c0 c1 CDS_P2P_GO_MODE CDS_P2P_CLIENT_MODE then index_P2P_GO_P2P_CLI c0 c1
  else if modes_are c0 c1 CDS_SAP_MODE CDS_P2P_GO_MODE then index_P2P_GO_SAP c0 c1
  else CDS_MAX_TWO_CONNECTION_MODE.

Section pcl.
Context {E : CdsEnv}.
Implicit Types s : cds_state.

(** *** Channels of the current connections *)

(** One pass over the connections: the channels written so far and the weights
    of the whole list, whose length is the index. *)
Fixpoint collect (wanted : cds_conc_connection_info → bool) (weight weight_len : Z)
    (l : list cds_conc_connection_info) (channels weights : list Z) : list Z * list Z :=
  match l with
  | [] => (channels, weights)
  | c :: l' =>
      if in_use c then
        if wanted c && (Z.of_nat (length weights) <? weight_len)
        then collect wanted weight weight_len l' (channels ++ [chan c]) (weights ++ [weight])
        else collect wanted weight weight_len l' channels weights
      else (channels, weights)
  end.

Definition cds_get_connection_channels (s : cds_state) (order : cds_pcl_channel_order) (skip_dfs_channel : bool)
    (weights : list Z) (weight_len : Z) (group_id : cds_pcl_group_id) : list Z * list Z :=
  let '(weight1, weight2) :=
    match group_id with
    | CDS_PCL_GROUP_ID1_ID2 => (WEIGHT_OF_GROUP1_PCL_CHANNELS, WEIGHT_OF_GROUP2_PCL_CHANNELS)
    | CDS_PCL_GROUP_ID2_ID3 => (WEIGHT_OF_GROUP2_PCL_CHANNELS, WEIGHT_OF_GROUP3_PCL_CHANNELS)
    end in
  let l := conc_connection_list s in
  let allowed c := negb (skip_dfs_channel && CDS_IS_DFS_CH (chan c)) in
  let on_24 c := CDS_IS_CHANNEL_24GHZ (chan c) in
  let on_5 c := allowed c && CDS_IS_CHANNEL_5GHZ (chan c) in
  match order with
  | CDS_PCL_ORDER_NONE => collect allowed weight1 weight_len l [] weights
  | CDS_PCL_ORDER_24G_THEN_5G =>
      let '(ch, w) := collect on_24 weight1 weight_len l [] weights in collect on_5 weight2 weight_len l ch w
  | CDS_PCL_ORDER_5G_THEN_2G =>
      let '(ch, w) := collect on_5 weight1 weight_len l [] weights in collect on_24 weight2 weight_len l ch w
  end.

(** *** Channels to avoid *)

(** One channel of the list: kept, with its weight while there is room for
    weights, when it is not one to avoid. *)
Definition keep_safe (weight_len : Z) (st : list Z * list Z * Z) (cw : Z * Z) : list Z * list Z * Z :=
  let '(channels, weights, n) := st in
  if bool_decide (fst cw ∈ pld_get_wlan_unsafe_channel) then st
  else (zset channels n (fst cw), if n <? weight_len then zset weights n (snd cw) else weights, n + 1).

(** The counters of the loops have eight bits: above 255 channels they need not end. *)
Definition cds_update_with_safe_channel_list (p : sir_pcl_list) (weight_len : Z) : option sir_pcl_list :=
  let current_channel_count := Z.min (pcl_len p) QDF_MAX_NUM_CHAN in
  if bool_decide (pld_get_wlan_unsafe_channel = []) then Some p
  else if (Z.of_nat (length (pcl_list p)) <? current_channel_count) || (Z.of_nat (length (weight_list p)) <? QDF_MAX_NUM_CHAN)
       || (Z.of_nat (length (weight_list p)) <? weight_len)
       || (255 <? current_channel_count) || (255 <? Z.of_nat (length pld_get_wlan_unsafe_channel)) then None
  else
    let current_channel_list := zread (pcl_list p) 0 current_channel_count in
    let org_weight_list := zread (weight_list p) 0 QDF_MAX_NUM_CHAN in
    let channels := zwrite (pcl_list p) 0 (replicate (Z.to_nat current_channel_count) 0) in
    let weights := zwrite (weight_list p) 0 (replicate (Z.to_nat weight_len) 0) in
    let '(channels, weights, n) :=
      foldl (keep_safe weight_len) (channels, weights, 0) (zip current_channel_list org_weight_list) in
    Some (mk_pcl channels weights n).

(** *** The channel list of a PCL type *)

(** The valid channels, in an array of zeros; [None] is an error. *)
Definition cds_get_valid_chans (s : cds_state) : option (list Z * Z) :=
  if negb (sme_cbacks s) then None
  else match sme_get_valid_channels with
  | None => None
  | Some l => Some (zwrite (replicate (Z.to_nat QDF_MAX_NUM_CHAN) 0) 0 l, Z.of_nat (length l))
  end.

(** while (channel_list[chan_index] <= 11): what is taken, and the rest of the array. *)
Fixpoint take_24 (l : list Z) : list Z * list Z :=
  match l with
  | [] => ([], [])
  | c :: l' => if c <=? 11 then let '(a, r) := take_24 l' in (c :: a, r) else ([], l)
  end.

(** Take the next channel of the array when it is [c], and then the ones of [cs]. *)
Fixpoint take_upper (cs : list Z) (a r : list Z) : list Z * list Z :=
  match cs, r with
  | c :: cs', x :: r' => if x =? c then take_upper cs' (a ++ [x]) r' else (a, r)
  | _, _ => (a, r)
  end.

Definition divide_channels (channel_list : list Z) (num_channels : Z) (skip_dfs_channel : bool) : list Z * list Z :=
  let '(a, r) := take_24 channel_list in
  let '(channel_list_24, r) := take_upper [12; 13; 14] a r in
  (channel_list_24,
   List.filter (λ c, negb (skip_dfs_channel && CDS_IS_DFS_CH c))
     (take (Z.to_nat (num_channels - Z.of_nat (length channel_list_24))) r)).

(** A group of channels after the ones written so far, cut at the end of the weights. *)
Definition add_group (weight weight_len : Z) (group : list Z) (out : list Z * list Z) : list Z * list Z :=
  let num_channels := Z.of_nat (length (fst out)) in
  let n := Z.min (num_channels + Z.of_nat (length group)) weight_len - num_channels in
  (fst out ++ take (Z.to_nat n) group, snd out ++ replicate (Z.to_nat n) weight).

(** The switch on the PCL type: channels and weights; [None] for the types without a list. *)
Definition pcl_switch (s : cds_state) (pcl : cds_pcl_type) (skip : bool) (list_24 list_5 : list Z)
    (weight_len : Z) : option (list Z * list Z) :=
  let conn order := cds_get_connection_channels s order skip [] weight_len CDS_PCL_GROUP_ID1_ID2 in
  let then_conn (out : list Z * list Z) :=
    let '(ch, w) := cds_get_connection_channels s CDS_PCL_ORDER_NONE skip (snd out) weight_len CDS_PCL_GROUP_ID2_ID3 in
    (fst out ++ ch, w) in
  let g1 := WEIGHT_OF_GROUP1_PCL_CHANNELS in
  let g2 := WEIGHT_OF_GROUP2_PCL_CHANNELS in
  let g3 := WEIGHT_OF_GROUP3_PCL_CHANNELS in
  match pcl with
  | CDS_24G => Some (add_group g1 weight_len list_24 ([], []))
  | CDS_5G => Some (add_group g1 weight_len list_5 ([], []))
  | CDS_SCC_CH | CDS_MCC_CH => Some (conn CDS_PCL_ORDER_NONE)
  | CDS_SCC_CH_24G | CDS_MCC_CH_24G => Some (add_group g2 weight_len list_24 (conn CDS_PCL_ORDER_NONE))
  | CDS_SCC_CH_5G | CDS_MCC_CH_5G => Some (add_group g2 weight_len list_5 (conn CDS_PCL_ORDER_NONE))
  | CDS_24G_SCC_CH | CDS_24G_MCC_CH => Some (then_conn (add_group g1 weight_len list_24 ([], [])))
  | CDS_5G_SCC_CH | CDS_5G_MCC_CH => Some (then_conn (add_group g1 weight_len list_5 ([], [])))
  | CDS_SCC_ON_24_SCC_ON_5 => Some (conn CDS_PCL_ORDER_24G_THEN_5G)
  | CDS_SCC_ON_5_SCC_ON_24 => Some (conn CDS_PCL_ORDER_5G_THEN_2G)
  | CDS_SCC_ON_24_SCC_ON_5_24G => Some (add_group g3 weight_len list_24 (conn CDS_PCL_ORDER_24G_THEN_5G))
  | CDS_SCC_ON_24_SCC_ON_5_5G => Some (add_group g3 weight_len list_5 (conn CDS_PCL_ORDER_24G_THEN_5G))
  | CDS_SCC_ON_5_SCC_ON_24_24G => Some (add_group g3 weight_len list_24 (conn CDS_PCL_ORDER_5G_THEN_2G))
  | CDS_SCC_ON_5_SCC_ON_24_5G => Some (add_group g3 weight_len list_5 (conn CDS_PCL_ORDER_5G_THEN_2G))
  | CDS_NONE | CDS_MAX_PCL_TYPE => None
  end.

Definition skip_dfs (s : cds_state) (m : cds_con_mode) : bool :=
  (bool_decide (m = CDS_SAP_MODE) || bool_decide (m = CDS_P2P_GO_MODE)) &&
  (0 <? cds_mode_specific_connection_count s CDS_STA_MODE).

Definition cds_get_channel_list (s : cds_state) (pcl : cds_pcl_type) (m : cds_con_mode) (p : sir_pcl_list)
    (weight_len : Z) : option (QDF_STATUS * sir_pcl_list) :=
  match pcl with
  | CDS_MAX_PCL_TYPE => Some (QDF_STATUS_E_FAILURE, p)
  | CDS_NONE => Some (QDF_STATUS_SUCCESS, p)
  | _ =>
      match cds_get_valid_chans s with
      | None => Some (QDF_STATUS_E_FAILURE, p)
      | Some (channel_list, num_channels) =>
          if QDF_MAX_NUM_CHAN <? num_channels then None
          else
            let skip := skip_dfs s m in
            let '(list_24, list_5) := divide_channels channel_list num_channels skip in
            '(ch, w) ← pcl_switch s pcl skip list_24 list_5 weight_len;
            chs ← copy_to (pcl_list p) ch;
            ws ← copy_to (weight_list p) w;
            p' ← cds_update_with_safe_channel_list (mk_pcl chs ws (Z.of_nat (length ch))) weight_len;
            Some (QDF_STATUS_SUCCESS, p')
      end
  end.

(** *** Restrictions of SAP and GO *)

(** The loop that keeps the entries whose channel satisfies [keep]: both are
    gathered in local arrays and copied back after clearing the size of a pointer. *)
Definition modify_pcl (keep : Z → bool) (p : sir_pcl_list) : option sir_pcl_list :=
  if (Z.of_nat (length (pcl_list p)) <? pcl_len p) || (Z.of_nat (length (weight_list p)) <? pcl_len p)
     || (Z.of_nat (length (pcl_list p)) <? POINTER_SIZE) || (Z.of_nat (length (weight_list p)) <? POINTER_SIZE) then None
  else
    let kept := List.filter (λ cw, keep (fst cw)) (zip (zread (pcl_list p) 0 (pcl_len p)) (zread (weight_list p) 0 (pcl_len p))) in
    if QDF_MAX_NUM_CHAN <? Z.of_nat (length kept) then None
    else
      chs ← copy_to (zwrite (pcl_list p) 0 (replicate (Z.to_nat POINTER_SIZE) 0)) (map fst kept);
      ws ← copy_to (zwrite (weight_list p) 0 (replicate (Z.to_nat POINTER_SIZE) 0)) (map snd kept);
      Some (mk_pcl chs ws (Z.of_nat (length kept))).

Definition cds_modify_pcl_based_on_enabled_channels (p : sir_pcl_list) : option sir_pcl_list :=
  modify_pcl (λ c, negb (CDS_IS_PASSIVE_OR_DISABLE_CH c)) p.

Definition cds_list_has_24GHz_channel (l : list Z) : bool := existsb CDS_IS_CHANNEL_24GHZ l.

Definition mandatory_channels (s : cds_state) : list Z :=
  zread (sap_mandatory_channels s) 0 (sap_mandatory_channels_len s).

(** [channels] has the length that the caller passes. *)
Definition cds_set_sap_mandatory_channels (s : cds_state) (channels : list Z) : option (QDF_STATUS * cds_state) :=
  if bool_decide (channels = []) then Some (QDF_STATUS_E_FAILURE, s)
  else if negb (cds_list_has_24GHz_channel channels) then Some (QDF_STATUS_E_FAILURE, s)
  else
    a ← copy_to (sap_mandatory_channels s) channels;
    Some (QDF_STATUS_SUCCESS, s <| sap_mandatory_channels := a |> <| sap_mandatory_channels_len := Z.of_nat (length channels) |>).

Definition cds_reset_sap_mandatory_channels (s : cds_state) : cds_state :=
  s <| sap_mandatory_channels_len := 0 |> <| sap_mandatory_channels ::= λ l, replicate (length l) 0 |>.

Definition cds_is_sap_mandatory_channel_set (s : cds_state) : bool := negb (sap_mandatory_channels_len s =? 0).

Definition cds_modify_sap_pcl_based_on_mandatory_channel (s : cds_state) (p : sir_pcl_list)
    : option (QDF_STATUS * sir_pcl_list) :=
  if sap_mandatory_channels_len s =? 0 then Some (QDF_STATUS_SUCCESS, p)
  else if negb (cds_list_has_24GHz_channel (mandatory_channels s)) then Some (QDF_STATUS_E_FAILURE, p)
  else p' ← modify_pcl (λ c, bool_decide (c ∈ mandatory_channels s)) p; Some (QDF_STATUS_SUCCESS, p').

(** *** The preferred channel list of a mode *)

Definition cds_get_first_connection_pcl_table_index : Z := if 3 <=? conc_system_pref then 0 else conc_system_pref.

Definition system_pref : Z :=
  if conc_system_pref =? 0 then 0 else if conc_system_pref =? 1 then 1 else if conc_system_pref =? 2 then 2 else 0.

(** The PCL type of the tables for a new connection; [inl] is an error. *)
Definition pcl_of_tables (s : cds_state) (m : cds_con_mode) : option (QDF_STATUS + cds_pcl_type) :=
  let num_connections := cds_get_connection_count s in
  if num_connections =? 0 then
    inr <$> first_connection_pcl_table m !! Z.to_nat cds_get_first_connection_pcl_table_index
  else if num_connections =? 1 then
    let second_index := cds_get_second_connection_pcl_table_index s in
    if is_max_one second_index then Some (inl QDF_STATUS_E_FAILURE)
    else if wma_is_hw_dbs_capable then inr <$> second_connection_pcl_dbs_table second_index m !! Z.to_nat system_pref
    else inr <$> second_connection_pcl_nodbs_table second_index m !! Z.to_nat system_pref
  else if num_connections =? 2 then
    let third_index := cds_get_third_connection_pcl_table_index s in
    if is_max_two third_index then Some (inl QDF_STATUS_E_FAILURE)
    else if wma_is_hw_dbs_capable then inr <$> third_connection_pcl_dbs_table third_index m !! Z.to_nat system_pref
    else inr <$> third_connection_pcl_nodbs_table third_index m !! Z.to_nat system_pref
  else Some (inr CDS_NONE).

Definition cds_get_pcl (s : cds_state) (m : cds_con_mode) (p : sir_pcl_list) (weight_len : Z)
    : option (QDF_STATUS * sir_pcl_list) :=
  t ← pcl_of_tables s m;
  match t with
  | inl st => Some (st, p)
  | inr pcl =>
      '(st, p) ← cds_get_channel_list s pcl m p weight_len;
      if negb (QDF_IS_STATUS_SUCCESS st) then Some (st, p)
      else
        '(st, p) ←
          (if bool_decide (m = CDS_SAP_MODE) && cds_is_sap_mandatory_channel_set s
           then cds_modify_sap_pcl_based_on_mandatory_channel s p else Some (QDF_STATUS_SUCCESS, p));
        if negb (QDF_IS_STATUS_SUCCESS st) then Some (st, p)
        else if bool_decide (m = CDS_P2P_GO_MODE)
        then p ← cds_modify_pcl_based_on_enabled_channels p; Some (QDF_STATUS_SUCCESS, p)
        else Some (QDF_STATUS_SUCCESS, p)
  end.

(** The list of a new connection as if one of the mode did not exist. *)
Definition cds_get_pcl_for_existing_conn (s : cds_state) (m : cds_con_mode) (p : sir_pcl_list) (weight_len : Z)
    : option (QDF_STATUS * sir_pcl_list * cds_state) :=
  if 0 <? cds_mode_specific_connection_count s m then
    let '(info, s1) := cds_store_and_del_conn_info s m in
    '(st, p) ← cds_get_pcl s1 m p weight_len;
    Some (st, p, cds_restore_deleted_conn_info s1 info)
  else Some (QDF_STATUS_SUCCESS, p, s).

(** [stale] are the buffers and the length before they are written. *)
Definition cds_get_nondfs_preferred_channel (s : cds_state) (m : cds_con_mode) (for_existing_conn : bool)
    (stale : sir_pcl_list) : option (Z * cds_state) :=
  let first_nondfs (p : sir_pcl_list) :=
    if (Z.of_nat (length (pcl_list p)) <? pcl_len p) then None
    else Some (from_option id 6 (find (λ c, negb (CDS_IS_DFS_CH c)) (zread (pcl_list p) 0 (pcl_len p)))) in
  if for_existing_conn then
    match cds_is_any_nondfs_chnl_present s with
    | Some c => Some (c, s)
    | None =>
        '(st, p, s') ← cds_get_pcl_for_existing_conn s m stale QDF_MAX_NUM_CHAN;
        if negb (QDF_IS_STATUS_SUCCESS st) then Some (6, s') else c ← first_nondfs p; Some (c, s')
    end
  else
    '(st, p) ← cds_get_pcl s m stale QDF_MAX_NUM_CHAN;
    if negb (QDF_IS_STATUS_SUCCESS st) then Some (6, s) else c ← first_nondfs p; Some (c, s).

(** An empty struct sir_pcl_list. *)
Definition zero_pcl : sir_pcl_list := mk_pcl (replicate 128 0) (replicate 128 0) 0.

Definition cds_get_sap_mandatory_channel (s : cds_state) : option (QDF_STATUS * option Z * cds_state) :=
  '(st, p, s) ← cds_get_pcl_for_existing_conn s CDS_SAP_MODE zero_pcl 128;
  if negb (QDF_IS_STATUS_SUCCESS st) then Some (st, None, s)
  else
    '(st, p) ← (if pcl_len p =? 0 then cds_get_pcl s CDS_SAP_MODE p 128 else Some (QDF_STATUS_SUCCESS, p));
    if negb (QDF_IS_STATUS_SUCCESS st) then Some (st, None, s)
    else
      '(st, p) ← cds_modify_sap_pcl_based_on_mandatory_channel s p;
      if negb (QDF_IS_STATUS_SUCCESS st) then Some (st, None, s)
      else Some (QDF_STATUS_SUCCESS, Some (zget (pcl_list p) 0), s).
End pcl.

(** ** What a list holds *)

Definition entries (p : sir_pcl_list) : list (Z * Z) :=
  zip (zread (pcl_list p) 0 (pcl_len p)) (zread (weight_list p) 0 (pcl_len p)).

(** Where the channels of a group come from. *)
Inductive source := Src_conn | Src_conn_24 | Src_conn_5 | Src_valid_24 | Src_valid_5.

(** The groups of a PCL type, in order of preference. *)
Definition pcl_groups (pcl : cds_pcl_type) : list source :=
  match pcl with
  | CDS_NONE | CDS_MAX_PCL_TYPE => []
  | CDS_24G => [Src_valid_24]
  | CDS_5G => [Src_valid_5]
  | CDS_SCC_CH | CDS_MCC_CH => [Src_conn]
  | CDS_SCC_CH_24G | CDS_MCC_CH_24G => [Src_conn; Src_valid_24]
  | CDS_SCC_CH_5G | CDS_MCC_CH_5G => [Src_conn; Src_valid_5]
  | CDS_24G_SCC_CH | CDS_24G_MCC_CH => [Src_valid_24; Src_conn]
  | CDS_5G_SCC_CH | CDS_5G_MCC_CH => [Src_valid_5; Src_conn]
  | CDS_SCC_ON_24_SCC_ON_5 => [Src_conn_24; Src_conn_5]
  | CDS_SCC_ON_5_SCC_ON_24 => [Src_conn_5; Src_conn_24]
  | CDS_SCC_ON_24_SCC_ON_5_24G => [Src_conn_24; Src_conn_5; Src_valid_24]
  | CDS_SCC_ON_24_SCC_ON_5_5G => [Src_conn_24; Src_conn_5; Src_valid_5]
  | CDS_SCC_ON_5_SCC_ON_24_24G => [Src_conn_5; Src_conn_24; Src_valid_24]
  | CDS_SCC_ON_5_SCC_ON_24_5G => [Src_conn_5; Src_conn_24; Src_valid_5]
  end.

Definition group_weights : list Z :=
  [WEIGHT_OF_GROUP1_PCL_CHANNELS; WEIGHT_OF_GROUP2_PCL_CHANNELS; WEIGHT_OF_GROUP3_PCL_CHANNELS].

Section spec.
Context {E : CdsEnv}.
Implicit Types s : cds_state.
Implicit Types l : list cds_conc_connection_info.

Definition source_channels (l : list cds_conc_connection_info) (skip : bool) (list_24 list_5 : list Z) (src : source)
    : list Z :=
  let allowed c := negb (skip && CDS_IS_DFS_CH (chan c)) in
  match src with
  | Src_conn => map chan (List.filter allowed l)
  | Src_conn_24 => map chan (List.filter (λ c, CDS_IS_CHANNEL_24GHZ (chan c)) l)
  | Src_conn_5 => map chan (List.filter (λ c, allowed c && CDS_IS_CHANNEL_5GHZ (chan c)) l)
  | Src_valid_24 => list_24
  | Src_valid_5 => list_5
  end.

(** The groups with their weights, one after the other. *)
Fixpoint weigh (gs : list (list Z)) (ws : list Z) : list (Z * Z) :=
  match gs, ws with
  | g :: gs', w :: ws' => map (λ c, (c, w)) g ++ weigh gs' ws'
  | _, _ => []
  end.

Definition spec_entries (l : list cds_conc_connection_info) (skip : bool) (list_24 list_5 : list Z)
    (pcl : cds_pcl_type) (weight_len : Z) : list (Z * Z) :=
  take (Z.to_nat weight_len) (weigh (map (source_channels l skip list_24 list_5) (pcl_groups pcl)) group_weights).

(** Lists and lengths written by the switch that stand for entries. *)
Definition rep (out : list Z * list Z) (es : list (Z * Z)) : Prop := out = (map fst es, map snd es).

Lemma take_cut {A} n (X Y : list A) : take n X ++ take (n - length (take n X)) Y = take n (X ++ Y).
Proof. rewrite take_app, length_take. f_equal. f_equal. lia. Qed.

Lemma map_fst_const {A B} (w : B) (g : list A) : map fst (map (λ c, (c, w)) g) = g.
Proof. rewrite map_map. apply map_id. Qed.
Lemma map_snd_const {A B} (w : B) (g : list A) : map snd (map (λ c, (c, w)) g) = replicate (length g) w.
Proof. induction g; cbn; congruence. Qed.

Lemma add_group_rep w wl g out X :
  rep out (take (Z.to_nat wl) X) → rep (add_group w wl g out) (take (Z.to_nat wl) (X ++ map (λ c, (c, w)) g)).
Proof.
  intros ->. unfold add_group, rep. cbn [fst snd]. rewrite <- take_cut, !map_app, !length_map.
  set (es := take (Z.to_nat wl) X). assert (length es <= Z.to_nat wl)%nat by (unfold es; rewrite length_take; lia).
  assert (take (Z.to_nat (Z.min (Z.of_nat (length es) + Z.of_nat (length g)) wl - Z.of_nat (length es))) g =
          take (Z.to_nat wl - length es) g) as ->.
  { destruct (decide (length g <= Z.to_nat wl - length es)%nat).
    - rewrite !take_ge by lia. done.
    - f_equal. lia. }
  rewrite firstn_map, map_fst_const, map_snd_const, length_take. do 3 f_equal. lia.
Qed.

Lemma collect_live wanted w wl l ch ws :
  Forall (λ c, in_use c = true) l → ∀ k,
  collect wanted w wl (l ++ replicate k zero_conn) ch ws =
  let g := take (Z.to_nat wl - length ws) (map chan (List.filter wanted l)) in
  (ch ++ g, ws ++ replicate (length g) w).
Proof.
  intros Hl k. revert ch ws. induction Hl as [|c l Hc Hl IH]; intros ch ws; cbn.
  - rewrite take_nil, !app_nil_r. by destruct k.
  - rewrite Hc. destruct (wanted c); cbn; [|apply IH].
    destruct (Z.ltb_spec (Z.of_nat (length ws)) wl).
    + rewrite IH, length_app. cbn.
      replace (Z.to_nat wl - length ws)%nat with (S (Z.to_nat wl - (length ws + 1)))%nat by lia. cbn.
      by rewrite <- !app_assoc.
    + rewrite IH. replace (Z.to_nat wl - length ws)%nat with 0%nat by lia. done.
Qed.

(** One pass, after entries that fill the list so far. *)
Lemma collect_rep wanted w wl l X :
  live l →
  ∃ ch, collect wanted w wl (tbl l) [] (map snd (take (Z.to_nat wl) X)) =
    (ch, map snd (take (Z.to_nat wl) (X ++ map (λ c, (c, w)) (map chan (List.filter wanted l))))) ∧
    map fst (take (Z.to_nat wl) X) ++ ch =
    map fst (take (Z.to_nat wl) (X ++ map (λ c, (c, w)) (map chan (List.filter wanted l)))).
Proof.
  intros [_ Hl]. unfold tbl. rewrite collect_live by done. cbn. eexists. rewrite <- !take_cut, !map_app, !length_map.
  rewrite (firstn_map (λ c, (c, w))), map_fst_const, map_snd_const. done.
Qed.

(** The second pass continues the channels of the first. *)
Lemma collect_app wanted w wl l ch ws :
  collect wanted w wl l ch ws = (ch ++ fst (collect wanted w wl l [] ws), snd (collect wanted w wl l [] ws)).
Proof.
  revert ch ws. induction l as [|c l IH]; intros ch ws; cbn; [by rewrite app_nil_r|].
  destruct (in_use c); [|by rewrite app_nil_r].
  destruct (wanted c && (Z.of_nat (length ws) <? wl)); [|apply IH].
  rewrite IH, (IH [chan c]). cbn. by rewrite <- app_assoc.
Qed.
End spec.

Section switch.
Context {E : CdsEnv}.
Implicit Types s : cds_state.
Implicit Types l : list cds_conc_connection_info.

Lemma conn_rep s l order skip wl :
  holds s l →
  rep (cds_get_connection_channels s order skip [] wl CDS_PCL_GROUP_ID1_ID2)
    (take (Z.to_nat wl) (weigh (map (source_channels l skip [] [])
      match order with
      | CDS_PCL_ORDER_NONE => [Src_conn]
      | CDS_PCL_ORDER_24G_THEN_5G => [Src_conn_24; Src_conn_5]
      | CDS_PCL_ORDER_5G_THEN_2G => [Src_conn_5; Src_conn_24]
      end) group_weights)).
Proof.
  intros [Ht Hl]. unfold cds_get_connection_channels, rep. rewrite Ht.
  assert (map snd (take (Z.to_nat wl) ([] : list (Z * Z))) = []) as Hnil by (by rewrite take_nil).
  assert (map fst (take (Z.to_nat wl) ([] : list (Z * Z))) = []) as Hnil' by (by rewrite take_nil).
  destruct order; cbn [weigh map group_weights source_channels].
  - match goal with |- collect ?f ?w _ _ _ _ = _ => destruct (collect_rep f w wl l [] Hl) as (ch & He & Hc) end.
    rewrite Hnil in He. rewrite Hnil' in Hc. rewrite He. cbn [app] in *. by rewrite app_nil_r, <- Hc.
  - match goal with |- context [collect ?f ?w _ _ [] []] =>
      destruct (collect_rep f w wl l [] Hl) as (ch & He & Hc) end.
    rewrite Hnil in He. rewrite Hnil' in Hc. rewrite He. cbn [app] in *.
    match goal with |- collect ?f ?w _ _ _ (map snd (take _ ?X)) = _ =>
      destruct (collect_rep f w wl l X Hl) as (ch2 & He2 & Hc2) end.
    rewrite collect_app, He2, Hc. cbn [fst snd]. by rewrite Hc2, app_nil_r.
  - match goal with |- context [collect ?f ?w _ _ [] []] =>
      destruct (collect_rep f w wl l [] Hl) as (ch & He & Hc) end.
    rewrite Hnil in He. rewrite Hnil' in Hc. rewrite He. cbn [app] in *.
    match goal with |- collect ?f ?w _ _ _ (map snd (take _ ?X)) = _ =>
      destruct (collect_rep f w wl l X Hl) as (ch2 & He2 & Hc2) end.
    rewrite collect_app, He2, Hc. cbn [fst snd]. by rewrite Hc2, app_nil_r.
Qed.

Lemma then_conn_rep s l skip wl out X :
  holds s l → rep out (take (Z.to_nat wl) X) →
  rep (let '(ch, w) := cds_get_connection_channels s CDS_PCL_ORDER_NONE skip (snd out) wl CDS_PCL_GROUP_ID2_ID3 in
       (fst out ++ ch, w))
    (take (Z.to_nat wl) (X ++ map (λ c, (c, WEIGHT_OF_GROUP2_PCL_CHANNELS)) (source_channels l skip [] [] Src_conn))).
Proof.
  intros [Ht Hl] Ho. unfold rep in *. subst out. unfold cds_get_connection_channels. rewrite Ht. cbn [fst snd].
  match goal with |- context [collect ?f ?w _ _ [] (map snd (take _ ?X))] =>
    destruct (collect_rep f w wl l X Hl) as (ch & He & Hc) end.
  rewrite He. cbv beta iota. by rewrite Hc.
Qed.

(** The switch writes the groups of the type, cut at the number of weights. *)
Lemma pcl_switch_rep s l pcl skip list_24 list_5 wl :
  holds s l → pcl ≠ CDS_NONE → pcl ≠ CDS_MAX_PCL_TYPE →
  ∃ out, pcl_switch s pcl skip list_24 list_5 wl = Some out ∧ rep out (spec_entries l skip list_24 list_5 pcl wl).
Proof.
  intros Hh Hn Hm.
  assert (rep ([], []) (take (Z.to_nat wl) [])) as Hr0 by (by unfold rep; rewrite take_nil).
  pose proof (conn_rep s l CDS_PCL_ORDER_NONE skip wl Hh) as H0.
  pose proof (conn_rep s l CDS_PCL_ORDER_24G_THEN_5G skip wl Hh) as H1.
  pose proof (conn_rep s l CDS_PCL_ORDER_5G_THEN_2G skip wl Hh) as H2.
  pose proof (λ w g, add_group_rep w wl g ([], []) [] Hr0) as H3.
  pose proof (λ out X, then_conn_rep s l skip wl out X Hh) as H4.
  cbn [map weigh group_weights source_channels] in H0, H1, H2, H4. rewrite ?app_nil_r in H0, H1, H2.
  unfold spec_entries.
  destruct pcl; try done; unfold pcl_switch; eexists; (split; [reflexivity|]);
    cbn [pcl_groups map weigh group_weights source_channels]; rewrite ?app_nil_r, ?app_assoc;
    first [done | apply H3 | apply H4, H3 | by apply add_group_rep].
Qed.
End switch.

(** The environment keeps its contracts: the limits of the lists it fills. *)
Class CdsEnvOk {E : CdsEnv} : Prop := {
  max_num_chan : QDF_MAX_NUM_CHAN = 128;                  (* as the arrays of sir_pcl_list *)
  valid_channels_fit : ∀ l, sme_get_valid_channels = Some l → Z.of_nat (length l) <= QDF_MAX_NUM_CHAN;
  unsafe_channels_fit : Z.of_nat (length pld_get_wlan_unsafe_channel) <= QDF_MAX_NUM_CHAN;
  system_pref_range : 0 <= conc_system_pref <= 2;
}.

Section buffers.
Context {E : CdsEnv} {Eok : CdsEnvOk}.
Implicit Types s : cds_state.
Implicit Types p : sir_pcl_list.

(** Buffers of the callers: room for [QDF_MAX_NUM_CHAN] channels and weights,
    and at most [weight_len] entries in them. *)
Definition pcl_ok (p : sir_pcl_list) (weight_len : Z) : Prop :=
  QDF_MAX_NUM_CHAN <= Z.of_nat (length (pcl_list p)) ∧ QDF_MAX_NUM_CHAN <= Z.of_nat (length (weight_list p)) ∧
  0 <= pcl_len p <= weight_len ∧ weight_len <= QDF_MAX_NUM_CHAN.

Lemma length_zread_0 {A} (l : list A) n : 0 <= n <= Z.of_nat (length l) → length (zread l 0 n) = Z.to_nat n.
Proof. intros. unfold zread. rewrite length_take, length_drop. lia. Qed.

Lemma length_entries p wl : pcl_ok p wl → length (entries p) = Z.to_nat (pcl_len p).
Proof.
  intros (?&?&?&?). unfold entries. rewrite length_zip_with, !length_zread_0 by lia. lia.
Qed.

Lemma copy_to_some buf data :
  (length data <= length buf)%nat → copy_to buf data = Some (zwrite buf 0 data).
Proof. intros. unfold copy_to. by rewrite (proj2 (Nat.leb_le _ _)). Qed.

(** Buffers that have just been filled with entries. *)
Lemma entries_of_copy bufc bufw es :
  (length es <= length bufc)%nat → (length es <= length bufw)%nat →
  entries (mk_pcl (zwrite bufc 0 (map fst es)) (zwrite bufw 0 (map snd es)) (Z.of_nat (length es))) = es.
Proof.
  intros. unfold entries. cbn [pcl_list weight_list pcl_len].
  assert (∀ A B (f : A → B) (es : list A) buf, (length es <= length buf)%nat →
    zread (zwrite buf 0 (map f es)) 0 (Z.of_nat (length es)) = map f es) as Hr.
  { intros A B f es' buf Hb. replace (length es') with (length (map f es')) by apply length_map.
    apply zread_zwrite_eq; [done|]. rewrite length_map. lia. }
  rewrite !Hr by done. induction es as [|[c w] es IH]; [done|]. cbn in *. by rewrite IH by lia.
Qed.

Definition is_safe (cw : Z * Z) : bool := negb (bool_decide (fst cw ∈ pld_get_wlan_unsafe_channel)).

(** The arrays of the loop hold the entries [es], written from index 0. *)
Definition filled (nc nw : nat) (es : list (Z * Z)) (st : list Z * list Z * Z) : Prop :=
  let '(channels, weights, n) := st in
  n = Z.of_nat (length es) ∧ take (length es) channels = map fst es ∧ take (length es) weights = map snd es ∧
  length channels = nc ∧ length weights = nw.

Lemma take_zset_snoc (a : list Z) (n : nat) y :
  (n < length a)%nat → take (S n) (zset a (Z.of_nat n) y) = take n a ++ [y].
Proof.
  intros. unfold zset. rewrite Nat2Z.id, (take_S_r _ _ y) by (apply list_lookup_insert_eq; lia).
  by rewrite take_insert_ge by lia.
Qed.

Lemma keep_safe_loop wl nc nw xs es st :
  filled nc nw es st → (length es + length xs <= nc)%nat → (length es + length xs <= nw)%nat →
  Z.of_nat (length es + length xs) <= wl →
  filled nc nw (es ++ List.filter is_safe xs) (foldl (keep_safe wl) st xs).
Proof.
  revert es st. induction xs as [|x xs IH]; intros es [[ch w] n] Hf Hnc Hnw Hwl; cbn [foldl].
  { cbn. by rewrite app_nil_r. }
  cbn [length] in *. destruct Hf as (-> & Hc & Hw & Hlc & Hlw).
  change (List.filter is_safe (x :: xs)) with (if is_safe x then x :: List.filter is_safe xs else List.filter is_safe xs).
  unfold is_safe at 1. unfold keep_safe at 2. destruct (bool_decide _); cbn [negb].
  - apply IH; [by split_and!|lia..].
  - rewrite (proj2 (Z.ltb_lt _ _)) by lia.
    replace (es ++ x :: List.filter is_safe xs) with ((es ++ [x]) ++ List.filter is_safe xs) by by rewrite <- app_assoc.
    assert (length (es ++ [x]) = S (length es)) as Hd by (rewrite length_app; cbn; lia).
    apply IH; rewrite ?Hd; [|lia..]. unfold filled. rewrite Hd, !take_zset_snoc, !length_zset, !map_app by lia.
    cbn. rewrite Hc, Hw. split_and!; [lia|done..].
Qed.

Lemma zip_fst_snd {A B} (l : list (A * B)) : zip (map fst l) (map snd l) = l.
Proof. induction l as [|[] l IH]; cbn; congruence. Qed.

(** The avoidance list removes exactly its channels, with their weights. *)
Lemma safe_spec p wl :
  pcl_ok p wl →
  ∃ p', cds_update_with_safe_channel_list p wl = Some p' ∧ entries p' = List.filter is_safe (entries p) ∧
    length (pcl_list p') = length (pcl_list p) ∧ length (weight_list p') = length (weight_list p) ∧ pcl_ok p' wl.
Proof.
  intros Hp. pose proof (length_entries _ _ Hp) as Hle. pose proof Hp as (Hc & Hw & Hn & Hwl).
  destruct Eok as [Hmax _ Hun _]. unfold cds_update_with_safe_channel_list.
  rewrite Z.min_l by lia. case_bool_decide as Hnil.
  - exists p. split; [done|]. split; [|done]. unfold is_safe. rewrite Hnil. clear.
    induction (entries p) as [|e es IH]; [done|]. cbn. by rewrite <- IH.
  - rewrite !(proj2 (Z.ltb_ge _ _)) by lia. cbn [orb].
    set (ch0 := zwrite (pcl_list p) 0 _). set (w0 := zwrite (weight_list p) 0 _).
    assert (length ch0 = length (pcl_list p)) as Hl1 by apply length_zwrite.
    assert (length w0 = length (weight_list p)) as Hl2 by apply length_zwrite.
    assert (zip (zread (pcl_list p) 0 (pcl_len p)) (zread (weight_list p) 0 QDF_MAX_NUM_CHAN) = entries p) as ->.
    { unfold entries. rewrite <- (zip_with_take_r pair (zread (pcl_list p) 0 (pcl_len p)) (zread (weight_list p) 0 QDF_MAX_NUM_CHAN)).
      rewrite length_zread_0 by lia. unfold zread. cbn [Z.to_nat drop]. rewrite !drop_0, take_take. do 2 f_equal. lia. }
    pose proof (keep_safe_loop wl (length (pcl_list p)) (length (weight_list p)) (entries p) [] (ch0, w0, 0)) as Hloop.
    destruct (foldl _ _ _) as [[ch w] n].
    destruct Hloop as (-> & Hch & Hww & Hlc & Hlw); [done|cbn; lia..|].
    eexists. split; [reflexivity|]. cbn [pcl_list weight_list].
    pose proof (filter_length_le is_safe (entries p)).
    split; [|split; [lia|]; split; [lia|]].
    + unfold entries at 1, zread. cbn [pcl_list weight_list pcl_len Z.to_nat drop app] in *.
      rewrite !drop_0, Nat2Z.id, Hch, Hww. apply zip_fst_snd.
    + unfold pcl_ok. cbn [pcl_list weight_list pcl_len app] in *. lia.
Qed.
End buffers.

Section lists.
Context {E : CdsEnv} {Eok : CdsEnvOk}.
Implicit Types s : cds_state.
Implicit Types p : sir_pcl_list.

Definition same_size p p' : Prop :=
  length (pcl_list p') = length (pcl_list p) ∧ length (weight_list p') = length (weight_list p).

(** A restriction keeps exactly the entries of the channels that satisfy it. *)
Lemma modify_spec keep p wl :
  pcl_ok p wl →
  ∃ p', modify_pcl keep p = Some p' ∧ entries p' = List.filter (λ cw, keep (fst cw)) (entries p) ∧
    same_size p p' ∧ pcl_ok p' wl.
Proof.
  intros Hp. pose proof (length_entries _ _ Hp) as Hle. pose proof Hp as (Hc & Hw & Hn & Hwl).
  destruct Eok as [Hmax _ _ _]. unfold modify_pcl, POINTER_SIZE. rewrite !(proj2 (Z.ltb_ge _ _)) by lia. cbn [orb].
  fold (entries p). set (kept := List.filter _ (entries p)).
  pose proof (filter_length_le (λ cw, keep (fst cw)) (entries p)) as Hk. fold kept in Hk.
  rewrite (proj2 (Z.ltb_ge _ _)) by lia.
  rewrite !copy_to_some by (rewrite length_map, length_zwrite; lia). cbn.
  eexists. split; [reflexivity|]. rewrite entries_of_copy by (rewrite length_zwrite; lia).
  unfold same_size, pcl_ok. cbn [pcl_list weight_list pcl_len]. rewrite !length_zwrite. split_and!; done || lia.
Qed.

(** The divided valid channels. *)
Definition valid_lists s (skip : bool) : option (list Z * list Z) :=
  match cds_get_valid_chans s with
  | Some (channel_list, n) => Some (divide_channels channel_list n skip)
  | None => None
  end.

(** The entries of a new connection's list, and the status; [es] are the ones
    of the caller. *)
Definition channel_list_spec s l (pcl : cds_pcl_type) (m : cds_con_mode) (es : list (Z * Z)) (weight_len : Z)
    : QDF_STATUS * list (Z * Z) :=
  match pcl with
  | CDS_MAX_PCL_TYPE => (QDF_STATUS_E_FAILURE, es)
  | CDS_NONE => (QDF_STATUS_SUCCESS, es)
  | _ =>
      match valid_lists s (skip_dfs s m) with
      | None => (QDF_STATUS_E_FAILURE, es)
      | Some (list_24, list_5) =>
          (QDF_STATUS_SUCCESS, List.filter is_safe (spec_entries l (skip_dfs s m) list_24 list_5 pcl weight_len))
      end
  end.

Lemma channel_list_refines s l pcl m p wl :
  holds s l → pcl_ok p wl →
  ∃ st p', cds_get_channel_list s pcl m p wl = Some (st, p') ∧
    (st, entries p') = channel_list_spec s l pcl m (entries p) wl ∧ same_size p p' ∧ pcl_ok p' wl.
Proof.
  intros Hh Hp. pose proof Hp as (Hc & Hw & Hn & Hwl). unfold channel_list_spec, valid_lists.
  destruct (decide (pcl = CDS_NONE)) as [->|HN]; [exists QDF_STATUS_SUCCESS, p; done|].
  destruct (decide (pcl = CDS_MAX_PCL_TYPE)) as [->|HM]; [exists QDF_STATUS_E_FAILURE, p; done|].
  destruct (cds_get_valid_chans s) as [[arr n]|] eqn:Hv.
  2: { exists QDF_STATUS_E_FAILURE, p. unfold cds_get_channel_list. rewrite Hv. by destruct pcl. }
  assert (n <= QDF_MAX_NUM_CHAN) as Hvn.
  { unfold cds_get_valid_chans in Hv. destruct (sme_cbacks s); [|done]. cbn in Hv.
    destruct sme_get_valid_channels as [vl|] eqn:Hs; [|done]. injection Hv as _ <-. by apply (valid_channels_fit vl). }
  destruct (divide_channels arr n (skip_dfs s m)) as [l24 l5] eqn:Hd.
  destruct (pcl_switch_rep s l pcl (skip_dfs s m) l24 l5 wl Hh HN HM) as (out & Hsw & Hrep).
  unfold rep in Hrep. subst out. set (es := spec_entries _ _ _ _ _ _) in *.
  assert (Z.of_nat (length es) <= wl) as Hes by (unfold es, spec_entries; rewrite length_take; lia).
  set (p1 := mk_pcl (zwrite (pcl_list p) 0 (map fst es)) (zwrite (weight_list p) 0 (map snd es)) (Z.of_nat (length es))).
  assert (pcl_ok p1 wl) as Hp1. { unfold pcl_ok, p1. cbn [pcl_list weight_list pcl_len]. rewrite !length_zwrite. lia. }
  destruct (safe_spec p1 wl Hp1) as (p' & Hsafe & Hent & Hl1 & Hl2 & Hok').
  exists QDF_STATUS_SUCCESS, p'. split.
  - unfold cds_get_channel_list. rewrite Hv, (proj2 (Z.ltb_ge _ _)), Hd, Hsw by lia. cbn [mbind option_bind].
    rewrite !copy_to_some by (rewrite length_map; lia). cbn [mbind option_bind]. rewrite length_map.
    fold p1. rewrite Hsafe. by destruct pcl.
  - split.
    + rewrite Hent. unfold p1. rewrite entries_of_copy by lia. by destruct pcl.
    + split; [|done]. unfold same_size, p1 in *. cbn [pcl_list weight_list] in *. rewrite !length_zwrite in *. done.
Qed.

(** *** The whole query *)

Definition restrict_sap s (m : cds_con_mode) (es : list (Z * Z)) : QDF_STATUS * list (Z * Z) :=
  if bool_decide (m = CDS_SAP_MODE) && cds_is_sap_mandatory_channel_set s then
    if cds_list_has_24GHz_channel (mandatory_channels s)
    then (QDF_STATUS_SUCCESS, List.filter (λ cw, bool_decide (fst cw ∈ mandatory_channels s)) es)
    else (QDF_STATUS_E_FAILURE, es)
  else (QDF_STATUS_SUCCESS, es).

Definition restrict_go (m : cds_con_mode) (es : list (Z * Z)) : list (Z * Z) :=
  if bool_decide (m = CDS_P2P_GO_MODE)
  then List.filter (λ cw, bool_decide (cds_get_channel_state (fst cw) = CHANNEL_STATE_ENABLE)) es else es.

Definition pcl_spec s l (t : QDF_STATUS + cds_pcl_type) (m : cds_con_mode) (es : list (Z * Z)) (weight_len : Z)
    : QDF_STATUS * list (Z * Z) :=
  match t with
  | inl st => (st, es)
  | inr pcl =>
      let '(st, es) := channel_list_spec s l pcl m es weight_len in
      if negb (QDF_IS_STATUS_SUCCESS st) then (st, es)
      else
        let '(st, es) := restrict_sap s m es in
        if negb (QDF_IS_STATUS_SUCCESS st) then (st, es) else (QDF_STATUS_SUCCESS, restrict_go m es)
  end.

Lemma sap_refines s m p wl :
  pcl_ok p wl →
  ∃ st p', (if bool_decide (m = CDS_SAP_MODE) && cds_is_sap_mandatory_channel_set s
      then cds_modify_sap_pcl_based_on_mandatory_channel s p else Some (QDF_STATUS_SUCCESS, p)) = Some (st, p') ∧
    (st, entries p') = restrict_sap s m (entries p) ∧ same_size p p' ∧ pcl_ok p' wl.
Proof.
  intros Hp. unfold restrict_sap, cds_is_sap_mandatory_channel_set, cds_modify_sap_pcl_based_on_mandatory_channel.
  destruct (bool_decide (m = CDS_SAP_MODE)); [|exists QDF_STATUS_SUCCESS, p; done]. cbn [andb].
  destruct (sap_mandatory_channels_len s =? 0); cbn [negb]; [exists QDF_STATUS_SUCCESS, p; done|].
  destruct (cds_list_has_24GHz_channel _); cbn [negb]; [|exists QDF_STATUS_E_FAILURE, p; done].
  destruct (modify_spec (λ c, bool_decide (c ∈ mandatory_channels s)) p wl Hp) as (p' & -> & He & Hs & Hok).
  exists QDF_STATUS_SUCCESS, p'. cbn. by rewrite He.
Qed.

Lemma go_refines m p wl :
  pcl_ok p wl →
  ∃ p', (if bool_decide (m = CDS_P2P_GO_MODE)
      then q ← cds_modify_pcl_based_on_enabled_channels p; Some (QDF_STATUS_SUCCESS, q)
      else Some (QDF_STATUS_SUCCESS, p)) = Some (QDF_STATUS_SUCCESS, p') ∧
    entries p' = restrict_go m (entries p) ∧ same_size p p' ∧ pcl_ok p' wl.
Proof.
  intros Hp. unfold restrict_go, cds_modify_pcl_based_on_enabled_channels.
  destruct (bool_decide (m = CDS_P2P_GO_MODE)); [|exists p; done].
  destruct (modify_spec (λ c, negb (CDS_IS_PASSIVE_OR_DISABLE_CH c)) p wl Hp) as (p' & -> & He & Hs & Hok).
  exists p'. cbn. split; [done|]. split; [|done]. rewrite He. apply filter_ext. intros cw.
  unfold CDS_IS_PASSIVE_OR_DISABLE_CH. by rewrite negb_involutive.
Qed.

Lemma pcl_refines s l t m p wl :
  holds s l → pcl_ok p wl → pcl_of_tables s m = Some t →
  ∃ st p', cds_get_pcl s m p wl = Some (st, p') ∧
    (st, entries p') = pcl_spec s l t m (entries p) wl ∧ same_size p p' ∧ pcl_ok p' wl.
Proof.
  intros Hh Hp Ht. unfold cds_get_pcl, pcl_spec. rewrite Ht. cbn [mbind option_bind].
  destruct t as [st|pcl]; [by exists st, p|].
  destruct (channel_list_refines s l pcl m p wl Hh Hp) as (st & p1 & -> & <- & Hs1 & Hok1). cbn [mbind option_bind].
  destruct (QDF_IS_STATUS_SUCCESS st) eqn:Hst; cbn [negb]; [|by exists st, p1].
  destruct (sap_refines s m p1 wl Hok1) as (st2 & p2 & -> & <- & Hs2 & Hok2). cbn [mbind option_bind].
  assert (same_size p p2) as Hs12 by (unfold same_size in *; intuition congruence).
  destruct (QDF_IS_STATUS_SUCCESS st2) eqn:Hst2; cbn [negb]; [|by exists st2, p2].
  destruct (go_refines m p2 wl Hok2) as (p3 & -> & He3 & Hs3 & Hok3).
  exists QDF_STATUS_SUCCESS, p3. rewrite He3. split_and!; try done; unfold same_size in *; intuition congruence.
Qed.
End lists.

(** *** The rows *)

(** The pairs of modes that have rows: two different modes, neither of them IBSS. *)
Definition pair_has_rows (a b : cds_con_mode) : bool :=
  match a, b with
  | CDS_IBSS_MODE, _ | _, CDS_IBSS_MODE | CDS_MAX_NUM_OF_MODE, _ | _, CDS_MAX_NUM_OF_MODE => false
  | _, _ => negb (bool_decide (a = b))
  end.

Lemma first_row m : m ≠ CDS_MAX_NUM_OF_MODE → length (first_connection_pcl_table m) = 3%nat.
Proof. by destruct m. Qed.
Lemma second_row c m :
  is_max_one c = false → m ≠ CDS_MAX_NUM_OF_MODE →
  length (second_connection_pcl_dbs_table c m) = 3%nat ∧ length (second_connection_pcl_nodbs_table c m) = 3%nat ∧
  length (next_action_two_connection_table c) = 2%nat.
Proof. by destruct c, m. Qed.
Lemma third_row c m :
  is_max_two c = false → m ≠ CDS_MAX_NUM_OF_MODE →
  length (third_connection_pcl_dbs_table c m) = 3%nat ∧ length (third_connection_pcl_nodbs_table c m) = 3%nat ∧
  length (next_action_three_connection_table c) = 2%nat.
Proof. by destruct c, m. Qed.

Section rows.
Context {E : CdsEnv}.
Implicit Types s : cds_state.

Lemma holds_first s c l : holds s (c :: l) → zget (conc_connection_list s) 0 = c.
Proof. intros [-> _]. done. Qed.
Lemma holds_second s c0 c1 l : holds s (c0 :: c1 :: l) → zget (conc_connection_list s) 1 = c1.
Proof. intros [-> _]. done. Qed.

Lemma second_index_row s c l :
  holds s (c :: l) → mode c ≠ CDS_MAX_NUM_OF_MODE → is_max_one (cds_get_second_connection_pcl_table_index s) = false.
Proof.
  intros Hh Hm. unfold cds_get_second_connection_pcl_table_index, one_index. rewrite (holds_first _ _ _ Hh).
  destruct (mode c); try done; by repeat split_if.
Qed.

Lemma is_max_two_index c0 c1 r1 r2 r3 r4 r5 r6 r7 r8 r9 r10 r11 :
  Forall (λ r, is_max_two r = false) [r1; r2; r3; r4; r5; r6; r7; r8; r9; r10; r11] →
  is_max_two (two_index c0 c1 r1 r2 r3 r4 r5 r6 r7 r8 r9 r10 r11) = false.
Proof.
  intros H. repeat (apply Forall_cons in H as [? H]). unfold two_index. by repeat split_if.
Qed.

Lemma third_index_row s c0 c1 l :
  holds s (c0 :: c1 :: l) →
  is_max_two (cds_get_third_connection_pcl_table_index s) = negb (pair_has_rows (mode c0) (mode c1)).
Proof.
  intros Hh. unfold cds_get_third_connection_pcl_table_index, modes_are.
  rewrite (holds_first _ _ _ Hh), (holds_second _ _ _ _ Hh).
  destruct (mode c0), (mode c1); cbn; try done; apply is_max_two_index; by repeat constructor.
Qed.
End rows.

Section types.
Context {E : CdsEnv} {Eok : CdsEnvOk}.
Implicit Types s : cds_state.

Lemma pref_row {A} (r : list A) : length r = 3%nat → is_Some (r !! Z.to_nat system_pref).
Proof. intros Hr. apply lookup_lt_is_Some. unfold system_pref. repeat split_if; lia. Qed.
Lemma first_pref_row {A} (r : list A) :
  length r = 3%nat → is_Some (r !! Z.to_nat cds_get_first_connection_pcl_table_index).
Proof.
  intros Hr. apply lookup_lt_is_Some. destruct Eok as [_ _ _ Hp]. unfold cds_get_first_connection_pcl_table_index.
  split_if; lia.
Qed.

Lemma pcl_of_tables_total s l m :
  holds s l → Forall (λ c, mode c ≠ CDS_MAX_NUM_OF_MODE) l → m ≠ CDS_MAX_NUM_OF_MODE →
  ∃ t, pcl_of_tables s m = Some t ∧
    (∀ st, t = inl st → st = QDF_STATUS_E_FAILURE ∧
      ∃ c0 c1, l = [c0; c1] ∧ pair_has_rows (mode c0) (mode c1) = false).
Proof.
  intros Hh Hl Hm. unfold pcl_of_tables. rewrite (holds_count _ _ Hh).
  destruct Hh as [Ht [Hn Hu]] eqn:Hh0. clear Hh0.
  destruct l as [|c0 [|c1 [|c2 l]]]; cbn [length].
  - destruct (first_pref_row _ (first_row m Hm)) as [t ->]. exists (inr t). done.
  - apply Forall_cons in Hl as [Hc _].
    pose proof (second_index_row s c0 [] Hh Hc) as Hr. cbn. rewrite Hr.
    destruct (second_row _ m Hr Hm) as (H1 & H2 & _).
    destruct wma_is_hw_dbs_capable.
    + destruct (pref_row _ H1) as [t ->]. exists (inr t). done.
    + destruct (pref_row _ H2) as [t ->]. exists (inr t). done.
  - pose proof (third_index_row s c0 c1 [] Hh) as Hr. cbn.
    destruct (is_max_two (cds_get_third_connection_pcl_table_index s)) eqn:Hi.
    { eexists. split; [done|]. intros st [= <-]. split; [done|]. exists c0, c1. split; [done|].
      by destruct (pair_has_rows _ _). }
    destruct (third_row _ m Hi Hm) as (H1 & H2 & _).
    destruct wma_is_hw_dbs_capable.
    + destruct (pref_row _ H1) as [t ->]. exists (inr t). done.
    + destruct (pref_row _ H2) as [t ->]. exists (inr t). done.
  - exists (inr CDS_NONE). rewrite !(proj2 (Z.eqb_neq _ _)) by lia. done.
Qed.

Lemma get_pcl_total s l m p wl :
  holds s l → Forall (λ c, mode c ≠ CDS_MAX_NUM_OF_MODE) l → m ≠ CDS_MAX_NUM_OF_MODE → pcl_ok p wl →
  ∃ st p', cds_get_pcl s m p wl = Some (st, p').
Proof.
  intros Hh Hl Hm Hp. destruct (pcl_of_tables_total s l m Hh Hl Hm) as (t & Ht & _).
  destruct (pcl_refines s l t m p wl Hh Hp Ht) as (st & p' & H & _). by exists st, p'.
Qed.
End types.

Section theorems.
Context {E : CdsEnv} {Eok : CdsEnvOk}.
Implicit Types s : cds_state.

(** The rows of the policy's tables are well typed for any connections:
    every row has an entry per preference and per band; one connection always
    selects a row; two connections select one exactly when their modes differ
    and neither is IBSS; so the queries never index outside of a table. *)
Theorem table_rows_typed s l m :
  holds s l → Forall (λ c, mode c ≠ CDS_MAX_NUM_OF_MODE) l → m ≠ CDS_MAX_NUM_OF_MODE →
  (∀ c, is_max_one c = false →
    length (second_connection_pcl_dbs_table c m) = 3%nat ∧ length (second_connection_pcl_nodbs_table c m) = 3%nat ∧
    length (next_action_two_connection_table c) = 2%nat) ∧
  (∀ c, is_max_two c = false →
    length (third_connection_pcl_dbs_table c m) = 3%nat ∧ length (third_connection_pcl_nodbs_table c m) = 3%nat ∧
    length (next_action_three_connection_table c) = 2%nat) ∧
  (∀ c, l = [c] → is_max_one (cds_get_second_connection_pcl_table_index s) = false) ∧
  (∀ c0 c1, l = [c0; c1] →
    is_max_two (cds_get_third_connection_pcl_table_index s) = negb (pair_has_rows (mode c0) (mode c1))) ∧
  (pcl_of_tables s m ≠ None ∧ (pcl_of_tables s m = Some (inl QDF_STATUS_E_FAILURE) ↔
    ∃ c0 c1, l = [c0; c1] ∧ pair_has_rows (mode c0) (mode c1) = false)).
Proof.
  intros Hh Hl Hm. destruct (pcl_of_tables_total s l m Hh Hl Hm) as (t & Ht & Hfail).
  split; [intros; by apply second_row|]. split; [intros; by apply third_row|].
  split; [intros c ->; apply Forall_cons in Hl as [Hc _]; by eapply second_index_row|].
  split; [intros c0 c1 ->; by eapply third_index_row|].
  rewrite Ht. split; [done|]. split; [intros [= ->]; by destruct (Hfail _ eq_refl)|].
  intros (c0 & c1 & -> & Hp). pose proof (third_index_row s c0 c1 [] Hh) as Hr.
  rewrite Hp in Hr. unfold pcl_of_tables in Ht. rewrite (holds_count _ _ Hh) in Ht. cbn in Ht. rewrite Hr in Ht.
  by injection Ht as <-.
Qed.

(** C8: a query for a preferred channel list stays inside its buffers and
    answers exactly what the policy says: an error for a combination that the
    tables refuse or have no row for, without valid channels, or for SAP when
    no mandatory channel is in the 2.4 GHz band; the entries that the caller had when the tables
    prefer nothing; and otherwise the groups of the PCL type in order, cut at
    the size of the weights, without the channels to avoid, restricted to the mandatory channels for
    SAP and to the enabled ones for GO. *)
Theorem get_pcl_exact s l m p weight_len :
  holds s l → Forall (λ c, mode c ≠ CDS_MAX_NUM_OF_MODE) l → m ≠ CDS_MAX_NUM_OF_MODE → pcl_ok p weight_len →
  ∃ t st p', pcl_of_tables s m = Some t ∧ cds_get_pcl s m p weight_len = Some (st, p') ∧
    (st, entries p') = pcl_spec s l t m (entries p) weight_len ∧ same_size p p' ∧ pcl_ok p' weight_len.
Proof.
  intros Hh Hl Hm Hp. destruct (pcl_of_tables_total s l m Hh Hl Hm) as (t & Ht & _).
  destruct (pcl_refines s l t m p weight_len Hh Hp Ht) as (st & p' & H). by exists t, st, p'.
Qed.

(** *** What the entries are *)

Definition heavier (a b : Z * Z) : Prop := snd b <= snd a.

Lemma sorted_filter {A} (R : A → A → Prop) f (l : list A) :
  StronglySorted R l → StronglySorted R (List.filter f l).
Proof.
  induction 1 as [|x l Hs IH Hx]; cbn; [constructor|]. destruct (f x); [|done]. constructor; [done|].
  rewrite Forall_forall in *. intros y Hy. apply Hx. apply list_elem_of_In in Hy. apply filter_In in Hy as [Hy _].
  by apply list_elem_of_In.
Qed.

Lemma weigh_in gs ws c w : (c, w) ∈ weigh gs ws → (∃ g, g ∈ gs ∧ c ∈ g) ∧ w ∈ ws.
Proof.
  revert ws. induction gs as [|g gs IH]; intros [|w' ws]; cbn; try (intros H; by apply not_elem_of_nil in H).
  intros [H|H]%elem_of_app.
  - apply list_elem_of_In, in_map_iff in H as (c' & [= -> ->] & Hin). split; [|by left].
    exists g. split; [by left|by apply list_elem_of_In].
  - destruct (IH ws H) as [(g' & Hg & Hc) Hw]. split; [|by right]. exists g'. split; [by right|done].
Qed.

Lemma weigh_sorted gs ws : StronglySorted (λ a b : Z, b <= a) ws → StronglySorted heavier (weigh gs ws).
Proof.
  revert ws. induction gs as [|g gs IH]; intros [|w ws] Hs; cbn; try constructor.
  apply StronglySorted_inv in Hs as [Hs Hw]. apply StronglySorted_app_2; [| |by apply IH].
  - intros [c1 w1] [c2 w2] H1 H2. apply list_elem_of_In, in_map_iff in H1 as (? & [= -> ->] & _).
    apply weigh_in in H2 as [_ H2]. rewrite Forall_forall in Hw. by apply Hw in H2.
  - clear. induction g as [|c g IHg]; cbn; constructor; [done|]. rewrite Forall_forall. intros [c' w'] H.
    apply list_elem_of_In, in_map_iff in H as (? & [= -> ->] & _). unfold heavier. cbn. lia.
Qed.

Lemma spec_sorted l skip l24 l5 pcl wl : StronglySorted heavier (spec_entries l skip l24 l5 pcl wl).
Proof.
  unfold spec_entries. eapply StronglySorted_app_1_l. rewrite take_drop. apply weigh_sorted.
  unfold group_weights, WEIGHT_OF_GROUP3_PCL_CHANNELS, WEIGHT_OF_GROUP2_PCL_CHANNELS.
  repeat (apply StronglySorted_cons; split); [repeat constructor; lia..|apply SSorted_nil].
Qed.

Lemma spec_in l skip l24 l5 pcl wl c w :
  (c, w) ∈ spec_entries l skip l24 l5 pcl wl →
  (∃ src, src ∈ pcl_groups pcl ∧ c ∈ source_channels l skip l24 l5 src) ∧ w ∈ group_weights.
Proof.
  unfold spec_entries. intros H. apply elem_of_take in H as (i & Hi & _). apply list_elem_of_lookup_2 in Hi.
  apply weigh_in in Hi as [(g & Hg & Hc) Hw]. split; [|done].
  apply list_elem_of_In, in_map_iff in Hg as (src & <- & Hsrc). exists src. split; [by apply list_elem_of_In|done].
Qed.

Lemma take_24_spec (l : list Z) : l = (take_24 l).1 ++ (take_24 l).2 ∧ Forall (λ c, c <= 11) (take_24 l).1.
Proof.
  induction l as [|c l [He Hf]]; cbn; [done|]. destruct (Z.leb_spec c 11); cbn; [|done].
  destruct (take_24 l) as [a r]. cbn in *. split; [by rewrite He|by constructor].
Qed.

Lemma take_upper_spec cs (a r : list Z) :
  Forall (λ c, c <= 14) cs → Forall (λ c, c <= 14) a →
  (take_upper cs a r).1 ++ (take_upper cs a r).2 = a ++ r ∧ Forall (λ c, c <= 14) (take_upper cs a r).1.
Proof.
  intros Hc. revert a r. induction Hc as [|c cs Hc0 Hc IH]; intros a r Ha; cbn; [by destruct r|].
  destruct r as [|x r]; [done|]. destruct (Z.eqb_spec x c) as [->|]; [|done].
  destruct (IH (a ++ [c]) r) as [H1 H2]; [apply Forall_app; by repeat constructor|].
  split; [|done]. by rewrite H1, <- app_assoc.
Qed.

Lemma divide_in arr n skip l24 l5 c :
  divide_channels arr n skip = (l24, l5) →
  (c ∈ l24 → c ∈ arr ∧ c <= 14) ∧ (c ∈ l5 → c ∈ arr ∧ (skip && CDS_IS_DFS_CH c) = false).
Proof.
  unfold divide_channels. pose proof (take_24_spec arr) as [He Hf]. destruct (take_24 arr) as [a r]. cbn in He, Hf.
  pose proof (take_upper_spec [12; 13; 14] a r) as [Hu1 Hu2].
  { repeat constructor; lia. } { eapply Forall_impl; [exact Hf|]. intros x ?. cbn in *. lia. }
  destruct (take_upper [12; 13; 14] a r) as [l r']. cbn in Hu1, Hu2. intros [= <- <-]. rewrite He, <- Hu1. split.
  - intros H. split; [by apply elem_of_app; left|]. rewrite Forall_forall in Hu2. by apply Hu2.
  - intros H. apply list_elem_of_In, filter_In in H as [H Hs]. apply list_elem_of_In, elem_of_take in H as (i & Hi & _).
    split; [apply elem_of_app; right; by eapply list_elem_of_lookup_2|]. by apply negb_true_iff in Hs.
Qed.

Lemma valid_lists_in s skip l24 l5 :
  valid_lists s skip = Some (l24, l5) →
  ∃ vl, sme_get_valid_channels = Some vl ∧
    (∀ c, c ∈ l24 → (c ∈ vl ∨ c = 0) ∧ c <= 14) ∧
    (∀ c, c ∈ l5 → (c ∈ vl ∨ c = 0) ∧ (skip && CDS_IS_DFS_CH c) = false).
Proof.
  unfold valid_lists, cds_get_valid_chans. destruct (sme_cbacks s); [|done]. cbn.
  destruct sme_get_valid_channels as [vl|] eqn:Hv; [|done]. intros [= Hd]. exists vl. split; [done|].
  pose proof (valid_channels_fit vl Hv) as Hfit.
  assert (∀ c, c ∈ zwrite (replicate (Z.to_nat QDF_MAX_NUM_CHAN) 0) 0 vl → c ∈ vl ∨ c = 0) as Harr.
  { intros c. rewrite zwrite_0 by (rewrite length_replicate; lia). rewrite drop_replicate.
    intros [H|H]%elem_of_app; [by left|right]. by apply elem_of_replicate_inv in H. }
  split; intros c Hc.
  - apply (divide_in _ _ _ _ _ _ Hd) in Hc as [Hc Hle]. split; [by apply Harr|done].
  - apply (divide_in _ _ _ _ _ _ Hd) in Hc as [Hc Hs]. split; [by apply Harr|done].
Qed.

(** The restrictions of SAP and GO filter the entries. *)
Lemma restrict_kept s m es es' :
  (QDF_STATUS_SUCCESS, es') = (let '(st, es) := restrict_sap s m es in
    if negb (QDF_IS_STATUS_SUCCESS st) then (st, es) else (QDF_STATUS_SUCCESS, restrict_go m es)) →
  ∃ f, es' = List.filter f es ∧ ∀ c w, f (c, w) = true →
    (m = CDS_P2P_GO_MODE → cds_get_channel_state c = CHANNEL_STATE_ENABLE) ∧
    (m = CDS_SAP_MODE → sap_mandatory_channels_len s ≠ 0 → c ∈ mandatory_channels s).
Proof.
  unfold restrict_sap, restrict_go, cds_is_sap_mandatory_channel_set.
  destruct (decide (m = CDS_SAP_MODE)) as [->|Hs].
  - rewrite bool_decide_true by done. cbn [andb]. destruct (Z.eqb_spec (sap_mandatory_channels_len s) 0) as [Hz|Hz].
    + cbn. intros [= ->]. exists (λ _, true). split; [|done]. clear. induction es; cbn; congruence.
    + cbn [negb]. destruct (cds_list_has_24GHz_channel _); [|done]. cbn. intros [= ->].
      eexists. split; [reflexivity|]. intros c w H. apply bool_decide_eq_true in H. done.
  - rewrite bool_decide_false by done. cbn. intros [= ->]. case_bool_decide as Hg.
    + eexists. split; [reflexivity|]. intros c w H. apply bool_decide_eq_true in H. done.
    + exists (λ _, true). split; [|done]. clear. induction es; cbn; congruence.
Qed.

(** A channel of a group is the one of a connection, allowed or in the 2.4 GHz band, or a valid one. *)
Lemma source_in l skip l24 l5 src c :
  c ∈ source_channels l skip l24 l5 src →
  (c ∈ map chan l ∧ ((skip && CDS_IS_DFS_CH c) = false ∨ c <= 14)) ∨ c ∈ l24 ∨ c ∈ l5.
Proof.
  assert (∀ f, c ∈ map chan (List.filter f l) → ∃ x, x ∈ l ∧ chan x = c ∧ f x = true) as Hm.
  { intros f H. apply list_elem_of_In, in_map_iff in H as (x & <- & H). apply filter_In in H as [H Hf].
    exists x. by rewrite list_elem_of_In. }
  assert (∀ x, x ∈ l → chan x = c → c ∈ map chan l) as Hin.
  { intros x Hx <-. apply list_elem_of_In, in_map. by apply list_elem_of_In. }
  destruct src; cbn; intros H; try (by right; left); try (by right; right); left.
  - destruct (Hm _ H) as (x & Hx & Hc & Hf). split; [by eapply Hin|]. left. subst c. by apply negb_true_iff.
  - destruct (Hm _ H) as (x & Hx & Hc & Hf). split; [by eapply Hin|]. right. subst c.
    unfold CDS_IS_CHANNEL_24GHZ, CDS_MAX_24GHZ_CHANNEL_NUMBER in Hf. bool_hyps. lia.
  - destruct (Hm _ H) as (x & Hx & Hc & Hf). split; [by eapply Hin|]. left. subst c. bool_hyps. done.
Qed.

(** C24: what a preferred channel list contains: as many entries as it says and
    no more than there are weights; weights of the three groups, never
    increasing along the list; only valid channels, channels of current connections or the
    zero that pads the valid ones; no channel to avoid; for SAP and GO beside a
    station no DFS channel above the 2.4 GHz band; for GO only enabled channels, and for
    SAP only mandatory ones if any are set. *)
Theorem pcl_sound s l m p weight_len t p' :
  holds s l → pcl_ok p weight_len → pcl_of_tables s m = Some (inr t) → t ≠ CDS_NONE →
  cds_get_pcl s m p weight_len = Some (QDF_STATUS_SUCCESS, p') →
  length (entries p') = Z.to_nat (pcl_len p') ∧ pcl_len p' <= weight_len ∧ StronglySorted heavier (entries p') ∧
  ∀ c w, (c, w) ∈ entries p' →
    w ∈ group_weights ∧ c ∉ pld_get_wlan_unsafe_channel ∧
    (c ∈ map chan l ∨ c = 0 ∨ ∃ vl, sme_get_valid_channels = Some vl ∧ c ∈ vl) ∧
    (skip_dfs s m = true → 14 < c → CDS_IS_DFS_CH c = false) ∧
    (m = CDS_P2P_GO_MODE → cds_get_channel_state c = CHANNEL_STATE_ENABLE) ∧
    (m = CDS_SAP_MODE → sap_mandatory_channels_len s ≠ 0 → c ∈ mandatory_channels s).
Proof.
  intros Hh Hp Ht Hn Hg. destruct (pcl_refines s l (inr t) m p weight_len Hh Hp Ht) as (st & q & Hq & Hs & _ & Hok).
  rewrite Hg in Hq. injection Hq as <- <-. split; [by eapply length_entries|]. split; [apply Hok|].
  unfold pcl_spec, channel_list_spec in Hs. cbn in Hs.
  destruct (decide (t = CDS_MAX_PCL_TYPE)) as [->|Hmax]; [done|].
  destruct (valid_lists s (skip_dfs s m)) as [[l24 l5]|] eqn:Hv; [|by destruct t].
  set (es := List.filter is_safe (spec_entries l (skip_dfs s m) l24 l5 t weight_len)).
  assert ((QDF_STATUS_SUCCESS, entries p') =
    let '(st, es) := restrict_sap s m es in
    if negb (QDF_IS_STATUS_SUCCESS st) then (st, es) else (QDF_STATUS_SUCCESS, restrict_go m es)) as Hs'
    by (by destruct t).
  clear Hs.
  assert (StronglySorted heavier es) as Hsort by apply sorted_filter, spec_sorted.
  destruct (restrict_kept s m es (entries p') Hs') as (f & Hf & Hkept). rewrite Hf.
  split; [by apply sorted_filter|]. intros c w Hin. apply list_elem_of_In, filter_In in Hin as [Hes Hfc].
  apply list_elem_of_In in Hes. destruct (Hkept c w Hfc) as [Hgo Hsap].
  unfold es in Hes. apply list_elem_of_In, filter_In in Hes as [Hes Hsafe]. apply list_elem_of_In in Hes.
  apply spec_in in Hes as [(src & _ & Hsrc) Hw]. destruct (valid_lists_in _ _ _ _ Hv) as (vl & Hvl & H24 & H5).
  split; [done|]. split; [by unfold is_safe in Hsafe; apply negb_true_iff, bool_decide_eq_false in Hsafe|].
  destruct (source_in _ _ _ _ _ _ Hsrc) as [[Hc Hd]|[H|H]].
  - split; [by left|]. split; [|done]. intros Hsk Hlt. rewrite Hsk in Hd. destruct Hd as [Hd|Hd]; [done|lia].
  - destruct (H24 c H) as [[]]; (split; [naive_solver|]); (split; [lia|done]).
  - destruct (H5 c H) as [[] Hd]; (split; [naive_solver|]); (split; [|done]); intros Hsk _; by rewrite Hsk in Hd.
Qed.

(** *** The division of the valid channels *)

Lemma take_24_app (lo r : list Z) :
  Forall (λ c, c <= 11) lo → match r with c :: _ => 11 < c | [] => True end → take_24 (lo ++ r) = (lo, r).
Proof.
  intros Hlo Hr. induction Hlo as [|c lo Hc Hlo IH]; cbn.
  - destruct r as [|c r]; [done|]. cbn. by rewrite (proj2 (Z.leb_gt _ _)) by lia.
  - by rewrite (proj2 (Z.leb_le _ _)), IH by lia.
Qed.

Lemma take_upper_app cs up (a r : list Z) :
  up `prefix_of` cs → (∀ x, head r = Some x → head (drop (length up) cs) = Some x → False) →
  take_upper cs a (up ++ r) = (a ++ up, r).
Proof.
  intros [k ->]. rewrite drop_app_length. revert a. induction up as [|u up IH]; intros a Hx; cbn.
  - rewrite app_nil_r. destruct k as [|x k], r as [|y r]; try done. cbn.
    destruct (Z.eqb_spec y x) as [->|]; [|done]. by destruct (Hx x).
  - rewrite Z.eqb_refl, IH by done. by rewrite <- app_assoc.
Qed.

(** The division of the valid channels into bands, for channels in
    ascending order.  With a channel above 11 the lists are exactly the bands (the
    5 GHz one without DFS channels if they are skipped), except that a channel 13 without 12 or 14
    without 13 counts as 5 GHz.  Without any, the padding of the array is
    taken for 2.4 GHz channels: the list is filled up with channel 0. *)
Theorem band_split lo up rest skip :
  Forall (λ c, 0 < c <= 11) lo → up `prefix_of` [12; 13; 14] → Forall (λ c, 11 < c) rest →
  head rest ≠ head (drop (length up) [12; 13; 14]) ∨ rest = [] →
  Z.of_nat (length (lo ++ up ++ rest)) <= QDF_MAX_NUM_CHAN →
  divide_channels (zwrite (replicate (Z.to_nat QDF_MAX_NUM_CHAN) 0) 0 (lo ++ up ++ rest))
    (Z.of_nat (length (lo ++ up ++ rest))) skip =
  if bool_decide (up ++ rest = [])
  then (lo ++ replicate (Z.to_nat QDF_MAX_NUM_CHAN - length lo) 0, [])
  else (lo ++ up, List.filter (λ c, negb (skip && CDS_IS_DFS_CH c)) rest).
Proof.
  intros Hlo Hup Hrest Hhead Hlen. rewrite zwrite_0 by (rewrite length_replicate; lia). rewrite drop_replicate.
  unfold divide_channels. set (n := length (lo ++ up ++ rest)) in *.
  assert (Forall (λ c, c <= 11) lo) as Hlo' by (eapply Forall_impl; [exact Hlo|]; cbn; lia).
  case_bool_decide as Hnil.
  - apply app_eq_nil in Hnil as [-> ->]. rewrite !app_nil_r in *.
    assert (Forall (λ c, c <= 11) (lo ++ replicate (Z.to_nat QDF_MAX_NUM_CHAN - n) 0)) as Ha.
    { apply Forall_app. split; [done|]. apply Forall_replicate. lia. }
    pose proof (take_24_app _ [] Ha) as Ht. rewrite app_nil_r in Ht. rewrite Ht by done. cbn. rewrite take_nil. unfold n. by rewrite ?app_nil_r.
  - rewrite <- !app_assoc. rewrite take_24_app; [|done|].
    2: { destruct up as [|u up]; [destruct rest as [|c rest]; [done|]; apply Forall_cons in Hrest as [? _]; cbn; lia|].
         destruct Hup as [k Hk]. injection Hk as <- _. done. }
    rewrite take_upper_app; [|done|].
    + f_equal. f_equal. unfold n. rewrite !length_app. rewrite take_app_length' by lia. done.
    + intros x Hx Hd. destruct rest as [|c rest].
      * cbn in Hx. apply head_Some_elem_of, elem_of_replicate_inv in Hx. subst x.
        destruct Hup as [k Hk]. rewrite Hk, drop_app_length in Hd.
        assert (0 ∈ [12; 13; 14]) as H0 by (rewrite Hk; apply elem_of_app; right; by apply head_Some_elem_of).
        set_solver.
      * cbn in Hx. injection Hx as <-. destruct Hhead as [Hh|]; [|done]. apply Hh. by rewrite Hd.
Qed.
End theorems.
