(* ===== verification/CdsPolicy.v ===== *)
(** The decisions of the concurrency policy (core/cds/src/cds_concurrency.c):
    whether a connection may come up, what happens to the sessions when one
    does or goes away, and which hardware mode the connections need, with the
    commands and callbacks that change it.

    Messages to the other layers are events of the state; the locks, which the code drops and
    takes again inside these functions, are left out: a function is one step.
    [None] is an access outside of a table or buffer, or the end of the fuel. *)
From S2P Require Import Prelude CdsTables CdsConn CdsPcl.

Section policy.
Context {E : CdsEnv}.
Implicit Types s : cds_state.

(** *** Whether a connection is allowed *)

Definition cds_disallow_mcc (s : cds_state) (channel : Z) : bool :=
  match scan_valid (λ c,
      if negb wma_is_hw_dbs_capable then negb (chan c =? channel)
      else CDS_IS_CHANNEL_5GHZ (chan c) && negb (chan c =? channel)) (conc_connection_list s) 0 with
  | Some _ => true
  | None => false
  end.

Definition cds_allow_new_home_channel (s : cds_state) (channel num_connections : Z) : bool :=
  let c0 := zget (conc_connection_list s) 0 in
  let c1 := zget (conc_connection_list s) 1 in
  if (num_connections =? 2) && negb (chan c0 =? chan c1) && (mac c0 =? mac c1) then
    if negb wma_is_hw_dbs_capable then
      negb (negb (channel =? chan c0) && negb (channel =? chan c1))
    else
      negb ((CDS_IS_CHANNEL_24GHZ channel && CDS_IS_CHANNEL_24GHZ (chan c0) && CDS_IS_CHANNEL_24GHZ (chan c1)) ||
            (CDS_IS_CHANNEL_5GHZ channel && CDS_IS_CHANNEL_5GHZ (chan c0) && CDS_IS_CHANNEL_5GHZ (chan c1)))
  else true.

Definition cds_is_5g_channel_allowed (s : cds_state) (channel : Z) (m : cds_con_mode) : bool :=
  negb (existsb (λ i,
      let c := chan (zget (conc_connection_list s) i) in
      CDS_IS_DFS_CH c && CDS_IS_CHANNEL_5GHZ channel && negb (channel =? c))
    (cds_mode_specific_connection_list s m)).

(** The sum is kept in eight bits. *)
Definition cds_max_concurrent_connections_reached (s : cds_state) : bool :=
  gMaxConcurrentActiveSessions - 1 <? foldl (λ j n, u8 (j + n)) 0 (no_of_active_sessions s).

(** IBSS beside other connections: true when it is refused. *)
Definition ibss_refused (s : cds_state) (channel num_connections : Z) : bool :=
  let c0 := zget (conc_connection_list s) 0 in
  if wma_is_hw_dbs_capable then
    if 1 <? num_connections then true
    else if negb (bool_decide (CDS_STA_MODE = mode c0)) then true
    else negb (channel =? 0) && negb (chan c0 =? channel) && CDS_IS_SAME_BAND_CHANNELS (chan c0) channel
  else negb (num_connections =? 0).

(** A station beside IBSS: true when it is refused. *)
Definition sta_beside_ibss_refused (s : cds_state) (channel num_connections : Z) : bool :=
  let c0 := zget (conc_connection_list s) 0 in
  if wma_is_hw_dbs_capable then
    if 1 <? num_connections then true
    else if negb (channel =? 0) && CDS_IS_DFS_CH (chan c0) && CDS_IS_CHANNEL_5GHZ channel then true
    else negb (chan c0 =? channel) && CDS_IS_SAME_BAND_CHANNELS (chan c0) channel
  else true.

Definition cds_allow_concurrency (s : cds_state) (m : cds_con_mode) (channel : Z) : option bool :=
  '(ret, _) ← cds_get_pcl s m zero_pcl 128;
  let num_connections := cds_get_connection_count s in
  let sta_count := cds_mode_specific_connection_count s CDS_STA_MODE in
  let ibss_count := cds_mode_specific_connection_count s CDS_IBSS_MODE in
  Some (
    if negb (QDF_IS_STATUS_SUCCESS ret) then false
    else if negb (num_connections =? 0) && sub_20_channel_width then false
    else if cds_max_concurrent_connections_reached s then false
    else if negb (channel =? 0) && negb (cds_allow_new_home_channel s channel num_connections) then false
    else if negb (channel =? 0) && negb (cds_is_5g_channel_allowed s channel CDS_P2P_GO_MODE) then false
    else if negb (channel =? 0) && negb (cds_is_5g_channel_allowed s channel CDS_SAP_MODE) then false
    else if negb (channel =? 0) && (bool_decide (CDS_P2P_GO_MODE = m) || bool_decide (CDS_SAP_MODE = m))
            && CDS_IS_DFS_CH channel && cds_disallow_mcc s channel then false
    else if bool_decide (CDS_IBSS_MODE = m) && negb (ibss_count =? 0) && negb (sta_count =? 0) then false
    else if bool_decide (CDS_IBSS_MODE = m) && CDS_IS_DFS_CH channel && negb (sta_count =? 0) then false
    else if bool_decide (CDS_IBSS_MODE = m) && ibss_refused s channel num_connections then false
    else if bool_decide (CDS_STA_MODE = m) && negb (ibss_count =? 0) && negb (sta_count =? 0) then false
    else if bool_decide (CDS_STA_MODE = m) && negb (ibss_count =? 0)
            && sta_beside_ibss_refused s channel num_connections then false
    else if negb (channel =? 0) && bool_decide (m = CDS_P2P_GO_MODE) && negb (num_connections =? 0)
            && existsb (λ i, CDS_IS_SAME_BAND_CHANNELS channel (chan (zget (conc_connection_list s) i)))
                 (cds_mode_specific_connection_list s CDS_P2P_GO_MODE) then false
    else true).

(** *** Sessions *)

(** The counters' index of a mode that has one. *)
Definition session_ix (m : tQDF_ADAPTER_MODE) : option Z :=
  match m with
  | QDF_STA_MODE => Some 0
  | QDF_SAP_MODE => Some 1
  | QDF_P2P_CLIENT_MODE => Some 2
  | QDF_P2P_GO_MODE => Some 3
  | QDF_IBSS_MODE => Some 4
  | QDF_MONITOR_MODE => Some 5
  | QDF_OTHER_MODE => None
  end.

Definition cds_set_concurrency_mode (s : cds_state) (m : tQDF_ADAPTER_MODE) : cds_state :=
  match session_ix m with
  | Some i =>
      s <| concurrency_mode ::= λ c, Z.lor c (Z.shiftl 1 (adapter_mode_number m)) |>
        <| no_of_open_sessions ::= λ l, zset l i (u8 (zget l i + 1)) |>
  | None => s
  end.

Definition cds_clear_concurrency_mode (s : cds_state) (m : tQDF_ADAPTER_MODE) : cds_state :=
  match m with
  | QDF_STA_MODE | QDF_P2P_CLIENT_MODE | QDF_P2P_GO_MODE | QDF_SAP_MODE | QDF_MONITOR_MODE =>
      match session_ix m with
      | Some i =>
          let s := s <| no_of_open_sessions ::= λ l, zset l i (u8 (zget l i - 1)) |> in
          if zget (no_of_open_sessions s) i =? 0
          then s <| concurrency_mode ::= λ c, Z.land c (Z.lnot (Z.shiftl 1 (adapter_mode_number m))) |> else s
      | None => s
      end
  | _ => s
  end.

Definition cds_clear_concurrent_session_count (s : cds_state) : cds_state :=
  s <| no_of_active_sessions ::= λ l, replicate (length l) 0 |>.

Definition cds_is_multiple_active_sta_sessions (s : cds_state) : bool := 1 <? zget (no_of_active_sessions s) 0.
Definition cds_is_sta_active_connection_exists (s : cds_state) : bool := negb (zget (no_of_active_sessions s) 0 =? 0).

(** Returns whether the flag was set. *)
Definition cds_set_connection_in_progress (s : cds_state) (value : bool) : bool * cds_state :=
  if connection_in_progress s && value then (false, s) else (true, s <| connection_in_progress := value |>).

(** The buffers are not initialised, but the length is zero. *)
Definition cds_pdev_set_pcl (s : cds_state) (m : tQDF_ADAPTER_MODE) : option cds_state :=
  match cds_map_concurrency_mode m with
  | None => Some s
  | Some con_mode =>
      '(st, p) ← cds_get_pcl s con_mode zero_pcl 128;
      if QDF_IS_STATUS_SUCCESS st
      then Some (emit (Ev_set_pcl (zread (pcl_list p) 0 (pcl_len p)) (zread (weight_list p) 0 (pcl_len p))) s)
      else Some s
  end.

Definition adapter_mode_of (m : cds_con_mode) : option tQDF_ADAPTER_MODE :=
  match m with
  | CDS_STA_MODE => Some QDF_STA_MODE
  | CDS_SAP_MODE => Some QDF_SAP_MODE
  | CDS_P2P_CLIENT_MODE => Some QDF_P2P_CLIENT_MODE
  | CDS_P2P_GO_MODE => Some QDF_P2P_GO_MODE
  | CDS_IBSS_MODE => Some QDF_IBSS_MODE
  | CDS_MAX_NUM_OF_MODE => None
  end.

Definition cds_set_pcl_for_existing_combo (s : cds_state) (m : cds_con_mode) : option cds_state :=
  match adapter_mode_of m with
  | None => Some s
  | Some pcl_mode =>
      if 0 <? cds_mode_specific_connection_count s m then
        let '(info, s) := cds_store_and_del_conn_info s m in
        s ← cds_pdev_set_pcl s pcl_mode;
        Some (cds_restore_deleted_conn_info s info)
      else Some s
  end.

(** Connections that exclude large receive offload. *)
Definition concurrency_present (s : cds_state) : bool :=
  (1 <? cds_mode_specific_connection_count s CDS_STA_MODE) ||
  (0 <? cds_mode_specific_connection_count s CDS_SAP_MODE) ||
  (0 <? cds_mode_specific_connection_count s CDS_P2P_CLIENT_MODE) ||
  (0 <? cds_mode_specific_connection_count s CDS_P2P_GO_MODE) ||
  (0 <? cds_mode_specific_connection_count s CDS_IBSS_MODE).

Definition sta_alone (s : cds_state) : bool :=
  (cds_mode_specific_connection_count s CDS_STA_MODE =? 1) &&
  (cds_mode_specific_connection_count s CDS_SAP_MODE =? 0) &&
  (cds_mode_specific_connection_count s CDS_P2P_CLIENT_MODE =? 0) &&
  (cds_mode_specific_connection_count s CDS_P2P_GO_MODE =? 0) &&
  (cds_mode_specific_connection_count s CDS_IBSS_MODE =? 0).

Definition cds_incr_active_session (s : cds_state) (m : tQDF_ADAPTER_MODE) (session_id : Z) : option cds_state :=
  let s :=
    match cds_map_concurrency_mode m, session_ix m with
    | Some _, Some i => s <| no_of_active_sessions ::= λ l, zset l i (u8 (zget l i + 1)) |>
    | _, _ => s
    end in
  s ← (if bool_decide (m = QDF_STA_MODE) then cds_pdev_set_pcl s m else Some s);
  let s := snd (cds_incr_connection_count s session_id) in
  s ← (if (0 <? cds_mode_specific_connection_count s CDS_STA_MODE) && negb (bool_decide (m = QDF_STA_MODE))
       then cds_set_pcl_for_existing_combo s CDS_STA_MODE else Some s);
  let s := if concurrency_present s then emit (Ev_lro false) s else s in
  let s := if (cds_mode_specific_connection_count s CDS_SAP_MODE =? 1) && sap_adapter then emit (Ev_rps true) s else s in
  Some (emit Ev_tdls s).

Definition cds_decr_active_session (s : cds_state) (m : tQDF_ADAPTER_MODE) (session_id : Z) : cds_state :=
  let s :=
    match cds_map_concurrency_mode m, session_ix m with
    | Some _, Some i =>
        if zget (no_of_active_sessions s) i =? 0 then s
        else s <| no_of_active_sessions ::= λ l, zset l i (zget l i - 1) |>
    | _, _ => s
    end in
  let s := snd (cds_decr_connection_count s session_id) in
  let s := if sta_alone s then emit (Ev_lro true) s else s in
  let s := if (cds_mode_specific_connection_count s CDS_SAP_MODE =? 0) && sap_adapter then emit (Ev_rps false) s else s in
  emit Ev_tdls s.

(** *** Hardware modes *)

(** The loop over the MACs in use: true when both are. *)
Definition both_macs_in_use (l : list cds_conc_connection_info) : bool :=
  let used m := existsb (λ c, (mac c =? m) && in_use c) l in used 0 && used 1.

Definition cds_need_opportunistic_upgrade (s : cds_state) : cds_conc_next_action :=
  if negb wma_is_hw_dbs_capable then CDS_NOP
  else match current_hw_mode s with
  | None => CDS_NOP
  | Some false => CDS_NOP
  | Some true =>
      if both_macs_in_use (conc_connection_list s) then CDS_NOP
      else if existsb (λ c, (original_nss c =? 2) && in_use c) (conc_connection_list s) then CDS_SINGLE_MAC_UPGRADE
      else CDS_SINGLE_MAC
  end.

Definition start_timer (s : cds_state) : cds_state :=
  emit Ev_timer_start (s <| dbs_opportunistic_timer := true |>).
Definition stop_timer (s : cds_state) : cds_state :=
  emit Ev_timer_stop (s <| dbs_opportunistic_timer := false |>).

Definition cds_decr_session_set_pcl (s : cds_state) (m : tQDF_ADAPTER_MODE) (session_id : Z) : option cds_state :=
  let s := cds_decr_active_session s m session_id in
  s ← cds_set_pcl_for_existing_combo s CDS_STA_MODE;
  Some (if bool_decide (cds_need_opportunistic_upgrade s = CDS_NOP) then s else start_timer (stop_timer s)).

(** The answer of SME is a function of what it has been asked before. *)
Definition cds_pdev_set_hw_mode (s : cds_state) (session_id : Z) (r : hw_mode_req) : QDF_STATUS * cds_state :=
  let cap ss := if bool_decide (HW_MODE_SS_2x2 = ss) && negb enable2x2 then HW_MODE_SS_1x1 else ss in
  let hw_mode_index := wma_get_hw_mode_idx_from_dbs_hw_list (r <| mac0_ss ::= cap |> <| mac1_ss ::= cap |>) in
  if hw_mode_index <? 0 then (QDF_STATUS_E_FAILURE, s)
  else
    let s' := emit (Ev_set_hw_mode session_id hw_mode_index) s in
    if sme_pdev_set_hw_mode (events s) hw_mode_index then (QDF_STATUS_SUCCESS, s') else (QDF_STATUS_E_FAILURE, s').

Definition dbs_req : hw_mode_req := mk_req HW_MODE_SS_1x1 HW_MODE_80_MHZ HW_MODE_SS_1x1 HW_MODE_40_MHZ true.
Definition single_mac_req : hw_mode_req := mk_req HW_MODE_SS_2x2 HW_MODE_80_MHZ HW_MODE_SS_0x0 HW_MODE_BW_NONE false.

(** The request for one beaconing entity: only if it came up with two streams. *)
Definition nss_request (new_nss : Z) (next : cds_conc_next_action) (st : QDF_STATUS * cds_state) (i : Z)
    : QDF_STATUS * cds_state :=
  let '(status, s) := st in
  let c := zget (conc_connection_list s) i in
  if cds_get_connection_for_vdev_id s (vdev_id c) =? MAX_NUMBER_OF_CONC_CONNECTIONS then st
  else if original_nss c =? 2 then
    (if sme_nss_update_request (events s) (vdev_id c) then QDF_STATUS_SUCCESS else QDF_STATUS_E_FAILURE,
     emit (Ev_nss_update (vdev_id c) new_nss next) s)
  else st.

Definition cds_complete_action_with (next_actions : cds_state → Z → cds_conc_next_action → option (QDF_STATUS * cds_state))
    (s : cds_state) (new_nss : Z) (next : cds_conc_next_action) (session_id : Z) : option (QDF_STATUS * cds_state) :=
  if negb wma_is_hw_dbs_capable then Some (QDF_STATUS_E_NOSUPPORT, s)
  else
    let st := foldl (nss_request new_nss next) (QDF_STATUS_E_FAILURE, s) (cds_mode_specific_connection_list s CDS_P2P_GO_MODE) in
    let '(status, s) := foldl (nss_request new_nss next) st (cds_mode_specific_connection_list (snd st) CDS_SAP_MODE) in
    if QDF_IS_STATUS_SUCCESS status then Some (status, s) else next_actions s session_id next.

(** cds_next_actions and cds_complete_action call each other. *)
Fixpoint next_actions_fuel (fuel : nat) (s : cds_state) (session_id : Z) (action : cds_conc_next_action)
    : option (QDF_STATUS * cds_state) :=
  match fuel with
  | O => None
  | S f =>
      if negb wma_is_hw_dbs_capable then Some (QDF_STATUS_E_NOSUPPORT, s)
      else match current_hw_mode s with
      | None => Some (QDF_STATUS_E_FAILURE, s)
      | Some dbs_cap =>
          if (bool_decide (CDS_DBS_DOWNGRADE = action) || bool_decide (CDS_DBS = action)) && dbs_cap
          then Some (QDF_STATUS_E_ALREADY, s)
          else match action with
          | CDS_DBS_DOWNGRADE => cds_complete_action_with (next_actions_fuel f) s 1 CDS_DBS session_id
          | CDS_DBS => Some (cds_pdev_set_hw_mode s session_id dbs_req)
          | CDS_SINGLE_MAC_UPGRADE =>
              let s := snd (cds_pdev_set_hw_mode s session_id single_mac_req) in
              cds_complete_action_with (next_actions_fuel f) s 2 CDS_SINGLE_MAC session_id
          | CDS_SINGLE_MAC => Some (cds_pdev_set_hw_mode s session_id single_mac_req)
          | _ => Some (QDF_STATUS_E_FAILURE, s)
          end
      end
  end.

(** Two calls deep at most: see [next_actions_exact]. *)
Definition cds_next_actions (s : cds_state) (session_id : Z) (action : cds_conc_next_action)
    : option (QDF_STATUS * cds_state) := next_actions_fuel 2 s session_id action.

Definition cds_complete_action (s : cds_state) (new_nss : Z) (next : cds_conc_next_action) (session_id : Z)
    : option (QDF_STATUS * cds_state) := cds_complete_action_with cds_next_actions s new_nss next session_id.

Definition cds_nss_update_cb (s : cds_state) (vdev : Z) (next : cds_conc_next_action) : option cds_state :=
  if cds_get_connection_for_vdev_id s vdev =? MAX_NUMBER_OF_CONC_CONNECTIONS then Some s
  else '(_, s) ← cds_next_actions s vdev next; Some s.

Definition cds_dbs_opportunistic_timer_handler (s : cds_state) : option cds_state :=
  let action := cds_need_opportunistic_upgrade s in
  if bool_decide (action = CDS_NOP) then Some s else '(_, s) ← cds_next_actions s 0 action; Some s.

(** The action of the tables for a new connection; [inl] is an error. *)
Definition action_of_tables (s : cds_state) (channel : Z) : option (QDF_STATUS + cds_conc_next_action) :=
  let band := if CDS_IS_CHANNEL_24GHZ channel then 0%nat else 1%nat in
  let num_connections := cds_get_connection_count s in
  if num_connections =? 0 then Some (inr CDS_NOP)
  else if num_connections =? 1 then
    let second_index := cds_get_second_connection_pcl_table_index s in
    if is_max_one second_index then Some (inl QDF_STATUS_E_FAILURE)
    else inr <$> next_action_two_connection_table second_index !! band
  else if num_connections =? 2 then
    let third_index := cds_get_third_connection_pcl_table_index s in
    if is_max_two third_index then Some (inl QDF_STATUS_E_FAILURE)
    else inr <$> next_action_three_connection_table third_index !! band
  else Some (inr CDS_NOP).

Definition cds_current_connections_update (s : cds_state) (session_id channel : Z) : option (QDF_STATUS * cds_state) :=
  if negb wma_is_hw_dbs_capable then Some (QDF_STATUS_E_NOSUPPORT, s)
  else
    a ← action_of_tables s channel;
    match a with
    | inl st => Some (st, s)
    | inr CDS_NOP => Some (QDF_STATUS_E_NOSUPPORT, s)
    | inr next_action => cds_next_actions s session_id next_action
    end.

Definition cds_get_current_pref_hw_mode (s : cds_state) : cds_conc_next_action :=
  match current_hw_mode s with
  | None => CDS_NOP
  | Some dbs_cap =>
      let band i := cds_chan_to_band (chan (zget (conc_connection_list s) i)) in
      let num_connections := cds_get_connection_count s in
      if num_connections =? 2 then
        if eqb (band 0) (band 1) && dbs_cap then CDS_SINGLE_MAC_UPGRADE
        else if negb (eqb (band 0) (band 1)) && negb dbs_cap then CDS_DBS_DOWNGRADE else CDS_NOP
      else if num_connections =? 3 then
        if eqb (band 0) (band 1) && eqb (band 1) (band 2) && dbs_cap then CDS_SINGLE_MAC_UPGRADE
        else if (negb (eqb (band 0) (band 1)) || negb (eqb (band 1) (band 2)) || negb (eqb (band 0) (band 2))) && negb dbs_cap
        then CDS_DBS_DOWNGRADE else CDS_NOP
      else CDS_NOP
  end.

Definition cds_restart_opportunistic_timer (s : cds_state) (check_state : bool) : QDF_STATUS * cds_state :=
  if check_state && negb (dbs_opportunistic_timer s) then (QDF_STATUS_E_FAILURE, s)
  else (QDF_STATUS_SUCCESS, start_timer (stop_timer s)).

Definition cds_set_hw_mode_on_channel_switch (s : cds_state) (session_id : Z) : option (QDF_STATUS * cds_state) :=
  if negb wma_is_hw_dbs_capable then Some (QDF_STATUS_E_FAILURE, s)
  else match cds_get_current_pref_hw_mode s with
  | CDS_DBS_DOWNGRADE => cds_next_actions s session_id CDS_DBS_DOWNGRADE
  | CDS_SINGLE_MAC_UPGRADE => Some (QDF_STATUS_E_FAILURE, snd (cds_restart_opportunistic_timer s false))
  | _ => Some (QDF_STATUS_SUCCESS, s)
  end.

Definition cds_checkn_update_hw_mode_single_mac_mode (s : cds_state) (channel : Z) : option cds_state :=
  if existsb (λ c, in_use c && negb (CDS_IS_SAME_BAND_CHANNELS channel (chan c))) (conc_connection_list s) then Some s
  else cds_dbs_opportunistic_timer_handler (if dbs_opportunistic_timer s then stop_timer s else s).

Definition cds_set_do_hw_mode_change_flag (s : cds_state) (flag : bool) : cds_state := s <| do_hw_mode_change := flag |>.
Definition cds_is_hw_mode_change_after_vdev_up (s : cds_state) : bool := do_hw_mode_change s.
Definition cds_is_hw_mode_change_in_progress (s : cds_state) : cds_hw_mode_change := hw_mode_change_in_progress s.

(** *** Weights of all valid channels *)

(** The weights by the answer for a new station, then the ones of the list. *)
Fixpoint sta_weights (s : cds_state) (saved weighed : list Z) (i : Z) : option (list Z) :=
  match saved with
  | [] => Some weighed
  | c :: saved' =>
      match cds_allow_concurrency s CDS_STA_MODE c with
      | None => None
      | Some ok => sta_weights s saved' (if ok then zset weighed i WEIGHT_OF_NON_PCL_CHANNELS else weighed) (i + 1)
      end
  end.

Definition pcl_weight (pcl : list (Z * Z)) (weighed : list Z) (ic : Z * Z) : list Z :=
  match find (λ cw, fst cw =? snd ic) pcl with
  | Some cw => zset weighed (fst ic) (snd cw)
  | None => weighed
  end.

(** [pcl] and [saved] are the lists with their lengths; the result is the weights and the state. *)
Definition cds_get_valid_chan_weights (s : cds_state) (pcl : list (Z * Z)) (saved : list Z)
    : option (list Z * cds_state) :=
  if QDF_MAX_NUM_CHAN <? Z.of_nat (length saved) then None
  else
    let weighed := replicate (Z.to_nat QDF_MAX_NUM_CHAN) WEIGHT_OF_DISALLOWED_CHANNELS in
    '(weighed, s) ←
      (if 0 <? cds_mode_specific_connection_count s CDS_STA_MODE then
         let '(info, s1) := cds_store_and_del_conn_info s CDS_STA_MODE in
         w ← sta_weights s1 saved weighed 0;
         Some (w, cds_restore_deleted_conn_info s1 info)
       else Some (weighed, s));
    Some (foldl (pcl_weight pcl) weighed (zip (seqZ 0 (Z.of_nat (length saved))) saved), s).

(** *** The life of the policy manager *)

Definition cds_init_policy_mgr (s : cds_state) : cds_state :=
  cds_reset_sap_mandatory_channels
    (s <| conc_connection_list := replicate 3 zero_conn |> <| dbs_opportunistic_timer := false |>
       <| do_hw_mode_change := false |> <| hw_mode_change_in_progress := CDS_HW_MODE_NOT_IN_PROGRESS |>
       <| sme_cbacks := true |>).

Definition cds_deinit_policy_mgr (s : cds_state) : cds_state :=
  let s := if dbs_opportunistic_timer s then stop_timer s else s in
  cds_reset_sap_mandatory_channels (s <| sme_cbacks := false |>).
End policy.

(** ** Hardware mode commands *)
Section actions.
Context {E : CdsEnv}.
Implicit Types s : cds_state.
Implicit Types l : list cds_conc_connection_info.

Lemma map_mode_list l m :
  live l → map (zget (tbl l)) (mode_list (tbl l) 0 m) = List.filter (has_mode m) l.
Proof.
  intros Hl. unfold has_mode.
  live_cases Hl; cbn; rewrite ?andb_false_r; try done;
    repeat match goal with H : in_use _ = true |- _ => rewrite H; clear H end;
    rewrite ?andb_true_r; repeat case_bool_decide; try congruence; done.
Qed.

Lemma mode_list_map s l m :
  holds s l → map (zget (tbl l)) (cds_mode_specific_connection_list s m) = List.filter (has_mode m) l.
Proof. intros [Ht Hl]. unfold cds_mode_specific_connection_list. rewrite Ht. by apply map_mode_list. Qed.

(** The beaconing entities that came up with two streams: GOs, then access points. *)
Definition beacons l (m : cds_con_mode) : list Z :=
  map vdev_id (List.filter (λ c, original_nss c =? 2) (List.filter (has_mode m) l)).

Definition ask_nss (new_nss : Z) (next : cds_conc_next_action) (st : QDF_STATUS * cds_state) (vdev : Z)
    : QDF_STATUS * cds_state :=
  (if sme_nss_update_request (events (snd st)) vdev then QDF_STATUS_SUCCESS else QDF_STATUS_E_FAILURE,
   emit (Ev_nss_update vdev new_nss next) (snd st)).

(** Nothing but the events differs. *)
Definition only_events s s' : Prop := s' = s <| events := events s' |>.

Lemma only_events_refl s : only_events s s.
Proof. unfold only_events. by destruct s. Qed.
Lemma only_events_emit s s' e : only_events s s' → only_events s (emit e s').
Proof. unfold only_events, emit. intros ->. done. Qed.
Lemma only_events_trans s1 s2 s3 : only_events s1 s2 → only_events s2 s3 → only_events s1 s3.
Proof. unfold only_events. intros H1 H2. rewrite H2. rewrite H1. done. Qed.
Lemma only_events_table s s' : only_events s s' → conc_connection_list s' = conc_connection_list s.
Proof. unfold only_events. by intros ->. Qed.
Lemma only_events_holds s s' l : only_events s s' → holds s l → holds s' l.
Proof. intros He [Ht Hl]. split; [|done]. by rewrite (only_events_table _ _ He). Qed.

Lemma set_hw_mode_only_events s sid r : only_events s (snd (cds_pdev_set_hw_mode s sid r)).
Proof.
  unfold cds_pdev_set_hw_mode. destruct (_ <? _); [apply only_events_refl|].
  destruct (sme_pdev_set_hw_mode _ _); apply only_events_emit, only_events_refl.
Qed.

Lemma existsb_vdev l c : c ∈ l → ∃ c', find (λ x, vdev_id x =? vdev_id c) l = Some c'.
Proof.
  intros Hc. destruct (find _ l) as [c'|] eqn:Hf; [by exists c'|].
  exfalso. pose proof (find_none _ _ Hf c (proj1 (list_elem_of_In _ _) Hc)) as H. cbn in H. lia.
Qed.

(** The loop over the beaconing entities of a mode. *)
Lemma nss_loop s l new_nss next ixs st :
  live l → only_events s (snd st) → conc_connection_list s = tbl l → Forall (λ c, c ∈ l) (map (zget (tbl l)) ixs) →
  let st' := foldl (nss_request new_nss next) st ixs in
  st' = foldl (ask_nss new_nss next) st
    (map vdev_id (List.filter (λ c, original_nss c =? 2) (map (zget (tbl l)) ixs))) ∧ only_events s (snd st').
Proof.
  intros Hl He Ht. revert st He. induction ixs as [|i ixs IH]; intros [stt s1] He Hin; [done|]. cbn [map foldl].
  apply Forall_cons in Hin as [Hi Hin]. cbn in He. pose proof (only_events_table _ _ He) as Ht1. rewrite Ht in Ht1.
  unfold nss_request at 2 4. unfold cds_get_connection_for_vdev_id. rewrite Ht1.
  pose proof (find_in_use_tbl (λ c, vdev_id c =? vdev_id (zget (tbl l) i)) l Hl) as Hf.
  destruct (existsb_vdev l (zget (tbl l) i) Hi) as [c' Hc']. cbn [List.filter]. rewrite Hc' in Hf.
  rewrite (proj2 (Z.eqb_neq _ _)) by (unfold MAX_NUMBER_OF_CONC_CONNECTIONS; lia).
  destruct (original_nss _ =? 2); cbn [map foldl]; apply IH; try done. by apply only_events_emit.
Qed.

Lemma complete_exact next_actions s l new_nss next sid :
  holds s l → wma_is_hw_dbs_capable = true →
  cds_complete_action_with next_actions s new_nss next sid =
    (let '(st, s') := foldl (ask_nss new_nss next) (QDF_STATUS_E_FAILURE, s) (beacons l CDS_P2P_GO_MODE ++ beacons l CDS_SAP_MODE) in
     if QDF_IS_STATUS_SUCCESS st then Some (st, s') else next_actions s' sid next) ∧
  only_events s (snd (foldl (ask_nss new_nss next) (QDF_STATUS_E_FAILURE, s) (beacons l CDS_P2P_GO_MODE ++ beacons l CDS_SAP_MODE))).
Proof.
  intros Hh Hd. pose proof Hh as [Ht Hl]. unfold cds_complete_action_with. rewrite Hd. cbn [negb].
  assert (∀ s1 m, only_events s s1 → Forall (λ c, c ∈ l) (map (zget (tbl l)) (cds_mode_specific_connection_list s1 m)) ∧
    map (zget (tbl l)) (cds_mode_specific_connection_list s1 m) = List.filter (has_mode m) l) as Hm.
  { intros s1 m He. rewrite (mode_list_map s1 l m (only_events_holds _ _ _ He Hh)). split; [|done].
    apply Forall_forall. intros c Hc. apply list_elem_of_In, filter_In in Hc as [Hc _]. by apply list_elem_of_In. }
  destruct (Hm s CDS_P2P_GO_MODE (only_events_refl s)) as [Hg1 Hg2].
  destruct (nss_loop s l new_nss next (cds_mode_specific_connection_list s CDS_P2P_GO_MODE) (QDF_STATUS_E_FAILURE, s)
    Hl (only_events_refl s) Ht Hg1) as [H1 H2].
  destruct (Hm _ CDS_SAP_MODE H2) as [Hs1 Hs2].
  destruct (nss_loop s l new_nss next _ _ Hl H2 Ht Hs1) as [H3 H4].
  rewrite foldl_app. unfold beacons. rewrite <- Hg2, <- H1, <- Hs2, <- H3. split; [|done].
  by destruct (foldl _ (foldl _ _ _) _).
Qed.

(** What an action does when the current hardware mode is known. *)
Definition action_spec s l (dbs_cap : bool) (sid : Z) (action : cds_conc_next_action) : QDF_STATUS * cds_state :=
  let all := beacons l CDS_P2P_GO_MODE ++ beacons l CDS_SAP_MODE in
  match action with
  | CDS_DBS => if dbs_cap then (QDF_STATUS_E_ALREADY, s) else cds_pdev_set_hw_mode s sid dbs_req
  | CDS_DBS_DOWNGRADE =>
      if dbs_cap then (QDF_STATUS_E_ALREADY, s)
      else
        let '(st, s') := foldl (ask_nss 1 CDS_DBS) (QDF_STATUS_E_FAILURE, s) all in
        if QDF_IS_STATUS_SUCCESS st then (st, s') else cds_pdev_set_hw_mode s' sid dbs_req
  | CDS_SINGLE_MAC => cds_pdev_set_hw_mode s sid single_mac_req
  | CDS_SINGLE_MAC_UPGRADE =>
      let s := snd (cds_pdev_set_hw_mode s sid single_mac_req) in
      let '(st, s') := foldl (ask_nss 2 CDS_SINGLE_MAC) (QDF_STATUS_E_FAILURE, s) all in
      if QDF_IS_STATUS_SUCCESS st then (st, s') else cds_pdev_set_hw_mode s' sid single_mac_req
  | CDS_NOP | CDS_MAX_CONC_NEXT_ACTION => (QDF_STATUS_E_FAILURE, s)
  end.

(** The action once it is known that the hardware has DBS and which mode it is in. *)
Definition actions_spec s l (sid : Z) (action : cds_conc_next_action) : QDF_STATUS * cds_state :=
  if wma_is_hw_dbs_capable then
    match current_hw_mode s with
    | Some dbs_cap => action_spec s l dbs_cap sid action
    | None => (QDF_STATUS_E_FAILURE, s)
    end
  else (QDF_STATUS_E_NOSUPPORT, s).

(** The request that a plain action makes. *)
Definition req_of (a : cds_conc_next_action) : hw_mode_req := if bool_decide (a = CDS_DBS) then dbs_req else single_mac_req.

Lemma plain_action f s s1 sid a b :
  (1 <= f)%nat → only_events s s1 → wma_is_hw_dbs_capable = true → current_hw_mode s = Some b →
  a = CDS_DBS ∨ a = CDS_SINGLE_MAC → b && bool_decide (a = CDS_DBS) = false →
  next_actions_fuel f s1 sid a = Some (cds_pdev_set_hw_mode s1 sid (req_of a)).
Proof.
  intros Hf He Hd Hb Ha Hnb. destruct f as [|f]; [lia|]. cbn. rewrite Hd. cbn.
  assert (current_hw_mode s1 = Some b) as -> by (unfold only_events in He; by rewrite He).
  destruct Ha as [-> | ->]; by destruct b.
Qed.

(** A result that differs from [s] in the events only. *)
Definition gives s (r : option (QDF_STATUS * cds_state)) (spec : QDF_STATUS * cds_state) : Prop :=
  r = Some spec ∧ only_events s (snd spec).

Lemma set_hw_mode_gives s s1 sid r :
  only_events s s1 → gives s (Some (cds_pdev_set_hw_mode s1 sid r)) (cds_pdev_set_hw_mode s1 sid r).
Proof. intros He. split; [done|]. eapply only_events_trans; [exact He|]. apply set_hw_mode_only_events. Qed.

Lemma complete_gives f s s1 l sid nss next b :
  (1 <= f)%nat → holds s l → only_events s s1 → wma_is_hw_dbs_capable = true → current_hw_mode s = Some b →
  next = CDS_DBS ∨ next = CDS_SINGLE_MAC → b && bool_decide (next = CDS_DBS) = false →
  gives s (cds_complete_action_with (next_actions_fuel f) s1 nss next sid)
    (let '(st, s') := foldl (ask_nss nss next) (QDF_STATUS_E_FAILURE, s1) (beacons l CDS_P2P_GO_MODE ++ beacons l CDS_SAP_MODE) in
     if QDF_IS_STATUS_SUCCESS st then (st, s') else cds_pdev_set_hw_mode s' sid (req_of next)).
Proof.
  intros Hf Hh He Hd Hb Hn Hnb.
  destruct (complete_exact (next_actions_fuel f) s1 l nss next sid (only_events_holds _ _ _ He Hh) Hd) as [-> Hk].
  destruct (foldl _ _ _) as [st s2]. cbn in Hk. pose proof (only_events_trans _ _ _ He Hk) as He2.
  destruct (QDF_IS_STATUS_SUCCESS st); [done|]. rewrite (plain_action f s s2 sid next b) by done.
  by apply set_hw_mode_gives.
Qed.

Lemma next_actions_give s l fuel sid action :
  holds s l → (2 <= fuel)%nat → gives s (next_actions_fuel fuel s sid action) (actions_spec s l sid action).
Proof.
  intros Hh Hf. destruct fuel as [|f]; [lia|]. unfold actions_spec. cbn [next_actions_fuel].
  pose proof (only_events_refl s) as Hr. pose proof (set_hw_mode_only_events s sid single_mac_req) as Hs1.
  destruct wma_is_hw_dbs_capable eqn:Hd; cbn [negb]; [|done].
  destruct (current_hw_mode s) as [b|] eqn:Hb; [|done].
  destruct action; cbn; try done; destruct b; cbn; try done; try (by apply set_hw_mode_gives).
  - apply (complete_gives f s s l sid 1 CDS_DBS false); [lia|done..|by left|done].
  - apply (complete_gives f s _ l sid 2 CDS_SINGLE_MAC true); [lia|done..|by right|done].
  - apply (complete_gives f s _ l sid 2 CDS_SINGLE_MAC false); [lia|done..|by right|done].
Qed.

(** C25: cds_next_actions and cds_complete_action, which call each other, always
    end, two calls deep: without DBS hardware or a known mode there is an
    error; DBS is not requested when the hardware is in it; otherwise the
    actions ask each beaconing entity with two streams (GOs first) for the new number of
    streams, and the hardware mode is commanded at once for the plain actions, only
    when the last of these requests was not accepted for the downgrade, and both before
    and, in that case, again after them for the upgrade.  The table is untouched. *)
Theorem next_actions_exact s l fuel sid action :
  holds s l → (2 <= fuel)%nat →
  ∃ st s', next_actions_fuel fuel s sid action = Some (st, s') ∧ cds_next_actions s sid action = Some (st, s') ∧
    only_events s s' ∧ (st, s') = actions_spec s l sid action.
Proof.
  intros Hh Hf. destruct (next_actions_give s l fuel sid action Hh Hf) as [H1 H2].
  destruct (next_actions_give s l 2 sid action Hh (le_n 2)) as [H3 _].
  unfold cds_next_actions. rewrite H1, H3. destruct (actions_spec s l sid action) as [st s']. by exists st, s'.
Qed.
End actions.

(** ** Bands *)
Section bands.
Context {E : CdsEnv}.
Implicit Types s : cds_state.
Implicit Types l : list cds_conc_connection_info.

(** A channel of one of the two bands. *)
Definition in_band (c : Z) : bool := CDS_IS_CHANNEL_24GHZ c || CDS_IS_CHANNEL_5GHZ c.

Definition same_band (a b : Z) : bool := eqb (CDS_IS_CHANNEL_24GHZ a) (CDS_IS_CHANNEL_24GHZ b).

Lemma band_24_5 c : in_band c = true → CDS_IS_CHANNEL_5GHZ c = negb (CDS_IS_CHANNEL_24GHZ c).
Proof.
  unfold in_band, CDS_IS_CHANNEL_24GHZ, CDS_IS_CHANNEL_5GHZ, CDS_MIN_24GHZ_CHANNEL_NUMBER, CDS_MAX_24GHZ_CHANNEL_NUMBER,
    CDS_MIN_5GHZ_CHANNEL_NUMBER, CDS_MAX_5GHZ_CHANNEL_NUMBER. lia.
Qed.
Lemma band_of_chan c : in_band c = true → cds_chan_to_band c = negb (CDS_IS_CHANNEL_24GHZ c).
Proof.
  unfold in_band, cds_chan_to_band, CDS_IS_CHANNEL_24GHZ, CDS_IS_CHANNEL_5GHZ, CDS_MIN_24GHZ_CHANNEL_NUMBER,
    CDS_MAX_24GHZ_CHANNEL_NUMBER, CDS_MIN_5GHZ_CHANNEL_NUMBER, CDS_MAX_5GHZ_CHANNEL_NUMBER. lia.
Qed.

(** The DBS action for the streams of the oldest connection. *)
Definition dbs_action (c : cds_conc_connection_info) : cds_conc_next_action :=
  if bool_decide (CDS_ONE_ONE = chain_mask c) then CDS_DBS else CDS_DBS_DOWNGRADE.

(** A row of actions by the bands that do not need DBS. *)
Definition action_row (c : cds_conc_connection_info) (ok24 ok5 : bool) : list cds_conc_next_action :=
  [if ok24 then CDS_NOP else dbs_action c; if ok5 then CDS_NOP else dbs_action c].

Lemma two_action s c :
  holds s [c] → mode c ≠ CDS_MAX_NUM_OF_MODE →
  next_action_two_connection_table (cds_get_second_connection_pcl_table_index s) =
  action_row c (CDS_IS_CHANNEL_24GHZ (chan c)) (negb (CDS_IS_CHANNEL_24GHZ (chan c))).
Proof.
  intros Hh Hm. unfold cds_get_second_connection_pcl_table_index, one_index, action_row, dbs_action.
  rewrite (holds_first _ _ _ Hh). destruct (mode c); try done; by repeat split_if.
Qed.

Lemma three_action s c0 c1 :
  holds s [c0; c1] → pair_has_rows (mode c0) (mode c1) = true → in_band (chan c0) = true → in_band (chan c1) = true →
  mac c0 = mac c1 →
  next_action_three_connection_table (cds_get_third_connection_pcl_table_index s) =
  action_row c0 (CDS_IS_CHANNEL_24GHZ (chan c0) && CDS_IS_CHANNEL_24GHZ (chan c1))
    (negb (CDS_IS_CHANNEL_24GHZ (chan c0)) && negb (CDS_IS_CHANNEL_24GHZ (chan c1))).
Proof.
  intros Hh Hp H0 H1 Hmac. unfold cds_get_third_connection_pcl_table_index, modes_are.
  rewrite (holds_first _ _ _ Hh), (holds_second _ _ _ _ Hh).
  assert (∀ r1 r2 r3 r4 r5 r6 r7 r8 r9 r10 r11,
    Forall (λ rt : cds_two_connection_mode * list cds_conc_next_action, next_action_three_connection_table rt.1 = rt.2)
      [(r1, [CDS_NOP; CDS_DBS]); (r2, [CDS_NOP; CDS_DBS_DOWNGRADE]); (r3, [CDS_DBS; CDS_NOP]); (r4, [CDS_DBS_DOWNGRADE; CDS_NOP]);
       (r5, [CDS_NOP; CDS_DBS]); (r6, [CDS_NOP; CDS_DBS_DOWNGRADE]); (r7, [CDS_DBS; CDS_NOP]); (r8, [CDS_DBS_DOWNGRADE; CDS_NOP]);
       (r9, [CDS_DBS; CDS_DBS]); (r10, [CDS_DBS_DOWNGRADE; CDS_DBS_DOWNGRADE]); (r11, [CDS_NOP; CDS_NOP])] →
    next_action_three_connection_table (two_index c0 c1 r1 r2 r3 r4 r5 r6 r7 r8 r9 r10 r11) =
    action_row c0 (CDS_IS_CHANNEL_24GHZ (chan c0) && CDS_IS_CHANNEL_24GHZ (chan c1))
      (negb (CDS_IS_CHANNEL_24GHZ (chan c0)) && negb (CDS_IS_CHANNEL_24GHZ (chan c1)))) as Hrow.
  { intros r1 r2 r3 r4 r5 r6 r7 r8 r9 r10 r11 H. repeat (apply Forall_cons in H as [? H]). cbn [fst snd] in *.
    unfold two_index, action_row, dbs_action. rewrite (band_24_5 _ H0), (band_24_5 _ H1), Hmac, Z.eqb_refl.
    destruct (Z.eqb_spec (chan c0) (chan c1)) as [->|]; repeat split_if;
      repeat match goal with H : context [CDS_IS_CHANNEL_24GHZ ?x] |- _ => destruct (CDS_IS_CHANNEL_24GHZ x) end; done. }
  destruct (mode c0), (mode c1); try done; cbn; apply Hrow; by repeat constructor.
Qed.

Definition bands_differ l (channel : Z) : bool :=
  existsb (λ c, negb (same_band (chan c) channel)) l || existsb (λ c, negb (same_band (chan c) (chan (hd zero_conn l)))) l.

Lemma zget_app_tbl s l e : holds s (l ++ [e]) → zget (conc_connection_list s) (Z.of_nat (length l)) = e.
Proof. intros [-> [Hn _]]. unfold tbl, zget. rewrite Nat2Z.id, <- app_assoc. apply list_lookup_total_middle. done. Qed.

(** The action of the tables, as the rule it implements. *)
Lemma action_by_bands s l channel :
  holds s l → (length l <= 2)%nat → Forall (λ c, mode c ≠ CDS_MAX_NUM_OF_MODE ∧ in_band (chan c) = true) l →
  in_band channel = true →
  (∀ c0 c1, l = [c0; c1] → pair_has_rows (mode c0) (mode c1) = true ∧ mac c0 = mac c1) →
  action_of_tables s channel = Some (inr (if bands_differ l channel then dbs_action (hd zero_conn l) else CDS_NOP)).
Proof.
  intros Hh Hn Hl Hc Hp. unfold action_of_tables. rewrite (holds_count _ _ Hh).
  destruct l as [|c0 [|c1 [|]]]; cbn [length]; [done| | |cbn in Hn; lia].
  - apply Forall_cons in Hl as [[Hm H0] _]. cbn -[action_of_tables].
    rewrite (second_index_row s c0 [] Hh Hm), (two_action s c0 Hh Hm). unfold action_row, bands_differ, same_band. cbn.
    destruct (CDS_IS_CHANNEL_24GHZ channel), (CDS_IS_CHANNEL_24GHZ (chan c0)); done.
  - apply Forall_cons in Hl as [[Hm H0] Hl]. apply Forall_cons in Hl as [[Hm1 H1] _].
    destruct (Hp c0 c1 eq_refl) as [Hrows Hmac]. cbn -[action_of_tables].
    rewrite (third_index_row s c0 c1 [] Hh), Hrows, (three_action s c0 c1 Hh Hrows H0 H1 Hmac).
    unfold action_row, bands_differ, same_band. cbn.
    destruct (CDS_IS_CHANNEL_24GHZ channel), (CDS_IS_CHANNEL_24GHZ (chan c0)), (CDS_IS_CHANNEL_24GHZ (chan c1)); done.
Qed.

(** The tables of actions and the rule for channel switches agree: for a
    connection that comes up beside at most two others on one MAC, the tables
    ask for DBS (with a downgrade if the oldest connection has two streams)
    exactly when the connections, with the new one, are not all in one band; this
    is exactly when, once the connection is in the table, the rule that looks at
    the bands of the whole table prefers DBS to the single MAC in use. *)
Theorem actions_agree s l channel s' e :
  holds s l → (length l <= 2)%nat → Forall (λ c, mode c ≠ CDS_MAX_NUM_OF_MODE ∧ in_band (chan c) = true) l →
  in_band channel = true →
  (∀ c0 c1, l = [c0; c1] → pair_has_rows (mode c0) (mode c1) = true ∧ mac c0 = mac c1) →
  holds s' (l ++ [e]) → chan e = channel → current_hw_mode s' = Some false →
  ∃ a, action_of_tables s channel = Some (inr a) ∧
    a = (if bands_differ l channel then dbs_action (hd zero_conn l) else CDS_NOP) ∧
    (a ≠ CDS_NOP ↔ cds_get_current_pref_hw_mode s' = CDS_DBS_DOWNGRADE).
Proof.
  intros Hh Hn Hl Hc Hp Hh' He Hmode. eexists. split; [by apply action_by_bands|]. split; [done|].
  assert (dbs_action (hd zero_conn l) ≠ CDS_NOP) as Hd by (unfold dbs_action; by case_bool_decide).
  assert (cds_get_current_pref_hw_mode s' = if bands_differ l channel then CDS_DBS_DOWNGRADE else CDS_NOP) as ->.
  2: { by destruct (bands_differ l channel). }
  unfold cds_get_current_pref_hw_mode. rewrite Hmode, (holds_count _ _ Hh'), length_app. cbn [length].
  pose proof (zget_app_tbl _ _ _ Hh') as He'.
  destruct l as [|c0 [|c1 [|]]]; cbn [length app] in *; [done| | |lia].
  - apply Forall_cons in Hl as [[Hm H0] _]. rewrite (holds_first _ _ _ Hh').
    change (Z.of_nat 1) with 1 in He'. cbn. rewrite He', He.
    rewrite !band_of_chan by done. unfold bands_differ, same_band. cbn.
    destruct (CDS_IS_CHANNEL_24GHZ channel), (CDS_IS_CHANNEL_24GHZ (chan c0)); done.
  - apply Forall_cons in Hl as [[Hm H0] Hl]. apply Forall_cons in Hl as [[Hm1 H1] _].
    rewrite (holds_first _ _ _ Hh'), (holds_second _ _ _ _ Hh').
    change (Z.of_nat 2) with 2 in He'. cbn. rewrite He', He.
    rewrite !band_of_chan by done. unfold bands_differ, same_band. cbn.
    destruct (CDS_IS_CHANNEL_24GHZ channel), (CDS_IS_CHANNEL_24GHZ (chan c0)), (CDS_IS_CHANNEL_24GHZ (chan c1)); done.
Qed.
End bands.
