(* ===== verification/CdsSession.v ===== *)
(** The concurrency policy over the life of the driver: connections that come
    up after being allowed, go away, are queried and moved between MACs
    (core/cds/src/cds_concurrency.c), as one machine, and what every reachable
    table satisfies.

    A connection comes up in one step with the answer that allowed it; its
    channel is known (not 0).  Changes of the channel of an existing connection
    are not steps: the policy is not asked about them. *)
From S2P Require Import Prelude CdsTables CdsConn CdsPcl CdsPolicy.

(** *** The machine *)
Inductive pm_op :=
  | Pm_connect (m : tQDF_ADAPTER_MODE) (vdev : Z) (n : wma_txrx_node)
  | Pm_disconnect (m : tQDF_ADAPTER_MODE) (vdev : Z)
  | Pm_query (m : cds_con_mode)                   (* cds_get_pcl_for_existing_conn *)
  | Pm_update (session_id channel : Z)            (* cds_current_connections_update *)
  | Pm_channel_switch (session_id : Z)            (* cds_set_hw_mode_on_channel_switch *)
  | Pm_timer                                      (* cds_dbs_opportunistic_timer_handler *)
  | Pm_nss_cb (vdev : Z) (next : cds_conc_next_action)
  | Pm_hw_mode_cb (ok : bool) (index : Z) (vdev_mac_map : option (list (Z * Z)))
  | Pm_transition (index : Z) (vdev_mac_map : option (list (Z * Z)))
  | Pm_hw_mode (dbs_cap : option bool).           (* the hardware mode that WMA reports *)

Section machine.
Context {E : CdsEnv}.
Implicit Types s : cds_state.
Implicit Types l : list cds_conc_connection_info.

Definition pm_step (s : cds_state) (o : pm_op) : option cds_state :=
  match o with
  | Pm_connect m vdev n => cds_incr_active_session (s <| interfaces ::= <[vdev := n]> |>) m vdev
  | Pm_disconnect m vdev => cds_decr_session_set_pcl s m vdev
  | Pm_query m => '(_, _, s) ← cds_get_pcl_for_existing_conn s m zero_pcl 128; Some s
  | Pm_update session_id channel => '(_, s) ← cds_current_connections_update s session_id channel; Some s
  | Pm_channel_switch session_id => '(_, s) ← cds_set_hw_mode_on_channel_switch s session_id; Some s
  | Pm_timer => cds_dbs_opportunistic_timer_handler s
  | Pm_nss_cb vdev next => cds_nss_update_cb s vdev next
  | Pm_hw_mode_cb ok index m => Some (cds_pdev_set_hw_mode_cb s ok index m)
  | Pm_transition index m => Some (cds_hw_mode_transition_cb s index m)
  | Pm_hw_mode b => Some (s <| current_hw_mode := b |>)
  end.

Fixpoint pm_run (s : cds_state) (ops : list pm_op) : option cds_state :=
  match ops with
  | [] => Some s
  | o :: ops' => match pm_step s o with Some s' => pm_run s' ops' | None => None end
  end.

(** The vdevs of the table are the sessions of the driver. *)
Definition vdev_in_table (s : cds_state) (vdev : Z) (m : cds_con_mode) : Prop :=
  ∃ c, find (λ c, in_use c && (vdev_id c =? vdev)) (conc_connection_list s) = Some c ∧ mode c = m.

Definition macs_ok (m : option (list (Z * Z))) : Prop :=
  wma_is_hw_dbs_capable = false → ∀ vms, m = Some vms → Forall (λ vm : Z * Z, snd vm = 0) vms.

(** What the driver guarantees at a step: a new connection has been allowed in
    its mode and on its channel and has a vdev of its own; a connection that goes away exists;
    hardware without DBS has one MAC. *)
Definition pm_legal (s : cds_state) (o : pm_op) : Prop :=
  match o with
  | Pm_connect m vdev n =>
      is_u8 vdev ∧
      find (λ c, in_use c && (vdev_id c =? vdev)) (conc_connection_list s) = None ∧
      cds_map_concurrency_mode m = Some (cds_get_mode (node_type n) (sub_type n)) ∧
      in_band (cds_freq_to_chan (mhz n)) = true ∧
      (wma_is_hw_dbs_capable = false → mac_id n = 0) ∧
      cds_allow_concurrency s (cds_get_mode (node_type n) (sub_type n)) (cds_freq_to_chan (mhz n)) = Some true
  | Pm_disconnect m vdev =>
      match cds_map_concurrency_mode m with Some cm => vdev_in_table s vdev cm | None => False end
  | Pm_query m => m ≠ CDS_MAX_NUM_OF_MODE
  | Pm_hw_mode_cb _ _ m | Pm_transition _ m => macs_ok m
  | _ => True
  end.

Fixpoint pm_legal_run (s : cds_state) (ops : list pm_op) : Prop :=
  match ops with
  | [] => True
  | o :: ops' => pm_legal s o ∧ ∀ s', pm_step s o = Some s' → pm_legal_run s' ops'
  end.

(** *** What the policy guarantees *)

(** The modes that may join two others. *)
Definition third_ok (a b m : cds_con_mode) : bool :=
  match a, b with
  | CDS_STA_MODE, CDS_SAP_MODE | CDS_SAP_MODE, CDS_STA_MODE =>
      match m with CDS_STA_MODE | CDS_SAP_MODE => true | _ => false end
  | CDS_STA_MODE, CDS_P2P_GO_MODE | CDS_P2P_GO_MODE, CDS_STA_MODE =>
      match m with CDS_STA_MODE | CDS_P2P_CLIENT_MODE | CDS_P2P_GO_MODE => true | _ => false end
  | CDS_STA_MODE, CDS_P2P_CLIENT_MODE | CDS_P2P_CLIENT_MODE, CDS_STA_MODE =>
      match m with CDS_P2P_CLIENT_MODE | CDS_P2P_GO_MODE => true | _ => false end
  | CDS_P2P_GO_MODE, CDS_P2P_CLIENT_MODE | CDS_P2P_CLIENT_MODE, CDS_P2P_GO_MODE =>
      match m with CDS_IBSS_MODE | CDS_MAX_NUM_OF_MODE => false | _ => true end
  | _, _ => false
  end.

Definition beaconing (c : cds_conc_connection_info) : Prop := mode c = CDS_SAP_MODE ∨ mode c = CDS_P2P_GO_MODE.

(** What [x] demands of another connection [y]: a GO its band from other GOs, an
    access point or GO on a DFS channel the same channel from all in the
    5 GHz band, IBSS a station on DBS hardware and its own channel or the other band. *)
Definition tolerates (x y : cds_conc_connection_info) : Prop :=
  (mode x = CDS_P2P_GO_MODE → mode y = CDS_P2P_GO_MODE → CDS_IS_SAME_BAND_CHANNELS (chan x) (chan y) = false) ∧
  (beaconing x → CDS_IS_DFS_CH (chan x) = true → CDS_IS_CHANNEL_5GHZ (chan y) = true → chan y = chan x) ∧
  (mode x = CDS_IBSS_MODE → mode y = CDS_STA_MODE ∧ wma_is_hw_dbs_capable = true ∧
     (chan x = chan y ∨ CDS_IS_SAME_BAND_CHANNELS (chan x) (chan y) = false)).

Record policy_ok (l : list cds_conc_connection_info) : Prop := {
  ok_entries : Forall (λ c, mode c ≠ CDS_MAX_NUM_OF_MODE ∧ in_band (chan c) = true) l;
  ok_vdevs : NoDup (map vdev_id l);
  ok_max : Z.of_nat (length l) <= gMaxConcurrentActiveSessions;
  ok_pairs : ∀ x y, x ∈ l → y ∈ l → vdev_id x ≠ vdev_id y → tolerates x y;
  ok_triple : length l = 3%nat → ∃ a b m, map mode l ≡ₚ [a; b; m] ∧ third_ok a b m = true;
  ok_home : wma_is_hw_dbs_capable = false →
    Forall (λ c, mac c = 0) l ∧ ∃ c1 c2, Forall (λ c, chan c = c1 ∨ chan c = c2) l;
}.

(** The counters of active sessions are the numbers of connections. *)
Definition count_mode (l : list cds_conc_connection_info) (m : cds_con_mode) : Z :=
  Z.of_nat (length (List.filter (has_mode m) l)).
Definition session_counts (l : list cds_conc_connection_info) : list Z :=
  map (count_mode l) [CDS_STA_MODE; CDS_SAP_MODE; CDS_P2P_CLIENT_MODE; CDS_P2P_GO_MODE; CDS_IBSS_MODE] ++ [0].

Definition pm_inv (s : cds_state) (l : list cds_conc_connection_info) : Prop :=
  holds s l ∧ policy_ok l ∧ no_of_active_sessions s = session_counts l.
End machine.

Section invariant.
Context {E : CdsEnv}.
Implicit Types s : cds_state.
Implicit Types l : list cds_conc_connection_info.

(** *** The invariant does not depend on the order of the table *)

Lemma policy_ok_perm l l' : l ≡ₚ l' → policy_ok l → policy_ok l'.
Proof.
  intros Hp [H1 H2 H3 H4 H5 H6]. pose proof (Permutation_length Hp) as Hlen. constructor.
  - by rewrite <- Hp.
  - by rewrite <- Hp.
  - by rewrite <- Hlen.
  - intros x y Hx Hy. rewrite <- Hp in Hx, Hy. by apply H4.
  - intros Hl. destruct H5 as (a & b & m & Hperm & Hok); [congruence|]. exists a, b, m. by rewrite <- Hp.
  - intros Hd. destruct (H6 Hd) as [Hm (c1 & c2 & Hc)]. split; [by rewrite <- Hp|]. exists c1, c2. by rewrite <- Hp.
Qed.

(** Removing a connection keeps it. *)
Lemma policy_ok_tail c l : (length l < 3)%nat → policy_ok (c :: l) → policy_ok l.
Proof.
  intros Hn [H1 H2 H3 H4 H5 H6]. apply Forall_cons in H1 as [_ H1]. cbn in H2. apply NoDup_cons in H2 as [_ H2].
  cbn [length] in H3. constructor; try done; [lia| |lia|].
  - intros x y Hx Hy. apply H4; by right.
  - intros Hd. destruct (H6 Hd) as [Hm (c1 & c2 & Hc)]. apply Forall_cons in Hm as [_ Hm], Hc as [_ Hc].
    split; [done|]. by exists c1, c2.
Qed.

Lemma count_mode_perm l l' m : l ≡ₚ l' → count_mode l m = count_mode l' m.
Proof.
  intros Hp. unfold count_mode. f_equal. induction Hp as [|x l l' Hp IH|x y l|l l' l'' H1 IH1 H2 IH2]; cbn.
  - done.
  - destruct (has_mode m x); cbn; lia.
  - by destruct (has_mode m x), (has_mode m y).
  - lia.
Qed.
Lemma session_counts_perm l l' : l ≡ₚ l' → session_counts l = session_counts l'.
Proof. intros Hp. unfold session_counts. cbn. by rewrite !(count_mode_perm _ _ _ Hp). Qed.

(** MAC ids matter only to hardware without DBS. *)
Definition static (c : cds_conc_connection_info) : cds_conc_connection_info := c <| mac := 0 |>.

Lemma policy_ok_static l l' :
  map static l' = map static l → policy_ok l →
  (wma_is_hw_dbs_capable = false → Forall (λ c, mac c = 0) l') → policy_ok l' ∧ session_counts l' = session_counts l.
Proof.
  intros Hst [H1 H2 H3 H4 H5 H6] Hmac.
  assert (∀ B (f : cds_conc_connection_info → B) , (∀ c, f (static c) = f c) → map f l' = map f l) as Hmap.
  { intros B f Hf. transitivity (map f (map static l')); [rewrite map_map; by apply map_ext|].
    rewrite Hst, map_map. by apply map_ext. }
  assert (∀ x', x' ∈ l' → ∃ x, x ∈ l ∧ static x = static x') as Hin.
  { intros x' Hx. apply list_elem_of_In, (in_map static) in Hx. rewrite Hst in Hx.
    apply in_map_iff in Hx as (x & Hx & Hx'). exists x. by rewrite list_elem_of_In. }
  assert (∀ P : cds_conc_connection_info → Prop, (∀ c, P (static c) ↔ P c) → Forall P l → Forall P l') as Hall.
  { intros P HP. rewrite !Forall_forall. intros Hl x' Hx. destruct (Hin x' Hx) as (x & Hx1 & He).
    rewrite <- HP, <- He, HP. by apply Hl. }
  assert (length l' = length l) as Hlen. { rewrite <- (length_map static l'), Hst. apply length_map. }
  split.
  - constructor.
    + by apply Hall.
    + by rewrite (Hmap _ vdev_id).
    + by rewrite Hlen.
    + intros x' y' Hx Hy Hne. destruct (Hin x' Hx) as (x & Hx1 & Hxe), (Hin y' Hy) as (y & Hy1 & Hye).
      assert (tolerates (static x) (static y)) as Ht.
      { apply (H4 x y); [done..|]. replace (vdev_id x) with (vdev_id (static x)) by done.
        replace (vdev_id y) with (vdev_id (static y)) by done. by rewrite Hxe, Hye. }
      by rewrite Hxe, Hye in Ht.
    + rewrite Hlen, (Hmap _ mode) by done. done.
    + intros Hd. split; [by apply Hmac|]. destruct (H6 Hd) as [_ (c1 & c2 & Hc)]. exists c1, c2. by apply Hall.
  - unfold session_counts, count_mode. cbn.
    assert (∀ m, length (List.filter (has_mode m) l') = length (List.filter (has_mode m) l)) as Hcount.
    { intros m. clear -Hst. revert l Hst. induction l' as [|x l' IH]; intros [|y l] Hst; try done. cbn in Hst.
      injection Hst as Hx Hst. assert (has_mode m x = has_mode m y) as Hm.
      { unfold has_mode. by rewrite Hx. }
      cbn. rewrite Hm. destruct (has_mode m y); cbn; by rewrite (IH l). }
    by rewrite !Hcount.
Qed.

(** *** Allowed connections *)

Lemma scan_valid_false p l : live l → scan_valid p l 0 = None → Forall (λ c, p c = false) l.
Proof.
  intros Hl Hs. destruct (scan_none p l Hl Hs) as [Hf _]. apply Forall_forall. intros c Hc.
  apply (find_none _ _ Hf). by apply list_elem_of_In.
Qed.

Lemma mode_in_list s l m (p : cds_conc_connection_info → bool) :
  holds s l → existsb (λ i, p (zget (conc_connection_list s) i)) (cds_mode_specific_connection_list s m) = false →
  ∀ c, c ∈ l → mode c = m → p c = false.
Proof.
  intros Hh Hex c Hc Hm. pose proof (mode_list_map s l m Hh) as Hmap. destruct Hh as [Ht _]. rewrite Ht in Hex.
  destruct (p c) eqn:Hp; [|done]. rewrite <- Hex. symmetry. apply existsb_exists.
  assert (c ∈ List.filter (has_mode m) l) as Hin.
  { apply list_elem_of_In, filter_In. split; [by apply list_elem_of_In|]. by apply bool_decide_eq_true. }
  rewrite <- Hmap in Hin. apply list_elem_of_In, in_map_iff in Hin as (i & Hi & Hii). exists i. by rewrite Hi.
Qed.
End invariant.

Section allow.
Context {E : CdsEnv} {Eok : CdsEnvOk}.
Implicit Types s : cds_state.
Implicit Types l : list cds_conc_connection_info.

(** What an allowed connection satisfies, condition by condition. *)
Record allowed (s : cds_state) (l : list cds_conc_connection_info) (m : cds_con_mode) (ch : Z) : Prop := {
  al_pcl : ∃ pcl, pcl_of_tables s m = Some (inr pcl) ∧ pcl ≠ CDS_MAX_PCL_TYPE;
  al_max : cds_max_concurrent_connections_reached s = false;
  al_home : cds_allow_new_home_channel s ch (Z.of_nat (length l)) = true;
  al_beacon : ∀ c, c ∈ l → beaconing c → CDS_IS_DFS_CH (chan c) = true → CDS_IS_CHANNEL_5GHZ ch = true → ch = chan c;
  al_dfs : m = CDS_SAP_MODE ∨ m = CDS_P2P_GO_MODE → CDS_IS_DFS_CH ch = true →
    ∀ c, c ∈ l → CDS_IS_CHANNEL_5GHZ (chan c) = true → chan c = ch;
  al_ibss : m = CDS_IBSS_MODE → ibss_refused s ch (Z.of_nat (length l)) = false;
  al_sta : m = CDS_STA_MODE → ∀ c, c ∈ l → mode c = CDS_IBSS_MODE →
    sta_beside_ibss_refused s ch (Z.of_nat (length l)) = false;
  al_go : m = CDS_P2P_GO_MODE → ∀ c, c ∈ l → mode c = CDS_P2P_GO_MODE → CDS_IS_SAME_BAND_CHANNELS ch (chan c) = false;
}.

Lemma in_band_nonzero c : in_band c = true → (c =? 0) = false.
Proof.
  unfold in_band, CDS_IS_CHANNEL_24GHZ, CDS_IS_CHANNEL_5GHZ, CDS_MIN_24GHZ_CHANNEL_NUMBER, CDS_MIN_5GHZ_CHANNEL_NUMBER. lia.
Qed.

Lemma zero_pcl_ok : pcl_ok zero_pcl 128.
Proof. destruct Eok as [Hm _ _ _]. unfold pcl_ok, zero_pcl. cbn [pcl_list weight_list pcl_len]. rewrite !length_replicate. lia. Qed.

Lemma five_g_allowed s l ch m :
  holds s l → cds_is_5g_channel_allowed s ch m = true →
  ∀ c, c ∈ l → mode c = m → CDS_IS_DFS_CH (chan c) = true → CDS_IS_CHANNEL_5GHZ ch = true → ch = chan c.
Proof.
  intros Hh Ha c Hc Hm Hd H5. unfold cds_is_5g_channel_allowed in Ha. apply negb_true_iff in Ha.
  pose proof (mode_in_list s l m (λ x, CDS_IS_DFS_CH (chan x) && CDS_IS_CHANNEL_5GHZ ch && negb (ch =? chan x)) Hh Ha c Hc Hm)
    as Hf. cbn in Hf. rewrite Hd, H5 in Hf. by apply negb_false_iff, Z.eqb_eq in Hf.
Qed.

Lemma allow_true s l m ch :
  holds s l → Forall (λ c, mode c ≠ CDS_MAX_NUM_OF_MODE) l → m ≠ CDS_MAX_NUM_OF_MODE → in_band ch = true → cds_allow_concurrency s m ch = Some true → allowed s l m ch.
Proof.
  intros Hh Hlm Hm Hb Ha. pose proof (in_band_nonzero _ Hb) as Hz. unfold cds_allow_concurrency in Ha.
  destruct (cds_get_pcl s m zero_pcl 128) as [[ret p]|] eqn:Hp; [|done]. cbn in Ha. rewrite Hz in Ha. cbn [negb andb] in Ha.
  rewrite (holds_count _ _ Hh) in Ha. injection Ha as Ha. pose proof Hh as [Ht Hl].
  destruct (QDF_IS_STATUS_SUCCESS ret) eqn:Hret; [|done]. cbn [negb] in Ha.
  destruct (negb (Z.of_nat (length l) =? 0) && sub_20_channel_width); [done|].
  destruct (cds_max_concurrent_connections_reached s) eqn:Hmax; [done|].
  destruct (cds_allow_new_home_channel _ _ _) eqn:Hhome; [|done]. cbn [negb] in Ha.
  destruct (cds_is_5g_channel_allowed s ch CDS_P2P_GO_MODE) eqn:Hgo5; [|done]. cbn [negb] in Ha.
  destruct (cds_is_5g_channel_allowed s ch CDS_SAP_MODE) eqn:Hsap5; [|done]. cbn [negb] in Ha.
  destruct ((bool_decide (CDS_P2P_GO_MODE = m) || bool_decide (CDS_SAP_MODE = m)) && CDS_IS_DFS_CH ch && cds_disallow_mcc s ch)
    eqn:Hdfs; [done|].
  destruct (bool_decide (CDS_IBSS_MODE = m) && _ && _) in Ha; [done|].
  destruct (bool_decide (CDS_IBSS_MODE = m) && CDS_IS_DFS_CH ch && _) in Ha; [done|].
  destruct (bool_decide (CDS_IBSS_MODE = m) && ibss_refused _ _ _) eqn:Hib; [done|].
  destruct (bool_decide (CDS_STA_MODE = m) && _ && _) in Ha; [done|].
  destruct (bool_decide (CDS_STA_MODE = m) && _ && sta_beside_ibss_refused _ _ _) eqn:Hsta; [done|].
  destruct (bool_decide (m = CDS_P2P_GO_MODE) && _ && _) eqn:Hgo; [done|]. clear Ha.
  constructor; try done.
  - destruct (pcl_of_tables_total s l m Hh Hlm Hm) as (t & Hpt & Hfail). rewrite Hpt.
    unfold cds_get_pcl in Hp. rewrite Hpt in Hp. destruct t as [st|pcl]; cbn in Hp.
    + injection Hp as -> _. by destruct (Hfail _ eq_refl) as [-> _].
    + exists pcl. split; [done|]. intros ->. cbn in Hp. by injection Hp as <- _.
  - intros c Hc [Hcm|Hcm]; [exact (five_g_allowed s l ch _ Hh Hsap5 c Hc Hcm)|exact (five_g_allowed s l ch _ Hh Hgo5 c Hc Hcm)].
  - intros Hms Hd c Hc H5. rewrite Hd, andb_true_r in Hdfs.
    assert (bool_decide (CDS_P2P_GO_MODE = m) || bool_decide (CDS_SAP_MODE = m) = true) as Hbm.
    { apply orb_true_iff. rewrite !bool_decide_eq_true. naive_solver. }
    rewrite Hbm in Hdfs. cbn [andb] in Hdfs. unfold cds_disallow_mcc in Hdfs. rewrite Ht, scan_valid_tbl in Hdfs by done.
    destruct (scan_valid _ l 0) eqn:Hsc; [done|]. apply scan_valid_false in Hsc; [|done].
    rewrite Forall_forall in Hsc. specialize (Hsc c Hc). cbn in Hsc. rewrite H5 in Hsc.
    destruct wma_is_hw_dbs_capable; cbn in Hsc; by apply negb_false_iff, Z.eqb_eq in Hsc.
  - intros ->. by rewrite bool_decide_true in Hib by done.
  - intros -> c Hc Hcm. rewrite bool_decide_true in Hsta by done. rewrite (holds_count_mode _ _ _ Hh) in Hsta.
    destruct (sta_beside_ibss_refused _ _ _); [|done]. rewrite andb_true_r in Hsta. cbn in Hsta.
    apply negb_false_iff, Z.eqb_eq in Hsta. assert (c ∈ List.filter (has_mode CDS_IBSS_MODE) l) as Hin.
    { apply list_elem_of_In, filter_In. split; [by apply list_elem_of_In|]. by apply bool_decide_eq_true. }
    destruct (List.filter _ l); [by apply not_elem_of_nil in Hin|done].
  - intros -> c Hc Hcm. rewrite bool_decide_true in Hgo by done. cbn [andb] in Hgo.
    destruct l as [|c0 l0]; [by apply not_elem_of_nil in Hc|]. cbn [length] in Hgo.
    replace (Z.of_nat (S (length l0)) =? 0) with false in Hgo by (clear; lia). cbn [negb andb] in Hgo.
    by apply (mode_in_list s (c0 :: l0) CDS_P2P_GO_MODE (λ x, CDS_IS_SAME_BAND_CHANNELS ch (chan x)) Hh Hgo).
Qed.
End allow.

(** *** What the tables refuse *)

Definition is_max_pcl (t : cds_pcl_type) : bool := match t with CDS_MAX_PCL_TYPE => true | _ => false end.
Definition third_refuses (m : cds_con_mode) (r : cds_two_connection_mode) : bool :=
  forallb is_max_pcl (third_connection_pcl_dbs_table r m) && forallb is_max_pcl (third_connection_pcl_nodbs_table r m).
Definition second_refuses (m : cds_con_mode) (r : cds_one_connection_mode) : bool :=
  forallb is_max_pcl (second_connection_pcl_dbs_table r m) && forallb is_max_pcl (second_connection_pcl_nodbs_table r m).

Section tables.
Context {E : CdsEnv}.
Implicit Types s : cds_state.

Lemma refused_lookup (r : list cds_pcl_type) i t : forallb is_max_pcl r = true → r !! i = Some t → t = CDS_MAX_PCL_TYPE.
Proof.
  intros Hf Hi. rewrite forallb_forall in Hf. apply list_elem_of_lookup_2, list_elem_of_In in Hi.
  specialize (Hf t Hi). by destruct t.
Qed.

Lemma two_index_ind (P : cds_two_connection_mode → Prop) c0 c1 r1 r2 r3 r4 r5 r6 r7 r8 r9 r10 r11 :
  Forall P [r1; r2; r3; r4; r5; r6; r7; r8; r9; r10; r11] → P (two_index c0 c1 r1 r2 r3 r4 r5 r6 r7 r8 r9 r10 r11).
Proof.
  intros H. repeat (apply Forall_cons in H as [? H]). unfold two_index. by repeat split_if.
Qed.

(** IBSS as a third connection is left to the checks on IBSS: one row of the
    DBS table has no entry against it. *)
Lemma third_table_ok s c0 c1 m pcl :
  holds s [c0; c1] → m ≠ CDS_IBSS_MODE → pcl_of_tables s m = Some (inr pcl) → pcl ≠ CDS_MAX_PCL_TYPE →
  third_ok (mode c0) (mode c1) m = true.
Proof.
  intros Hh Hib Ht Hn. destruct (third_ok (mode c0) (mode c1) m) eqn:Hok; [done|]. exfalso. apply Hn.
  unfold pcl_of_tables in Ht. rewrite (holds_count _ _ Hh) in Ht. cbn in Ht.
  assert (is_max_two (cds_get_third_connection_pcl_table_index s) = true ∨
    third_refuses m (cds_get_third_connection_pcl_table_index s) = true) as [Hmax|Href].
  { unfold cds_get_third_connection_pcl_table_index, modes_are. rewrite (holds_first _ _ _ Hh), (holds_second _ _ _ _ Hh).
    clear -Hok Hib. destruct (mode c0), (mode c1); cbn in *; try (by left); right; destruct m; try done;
      apply (two_index_ind (λ r, third_refuses _ r = true)); by repeat constructor. }
  { by rewrite Hmax in Ht. }
  destruct (is_max_two _); [done|]. unfold third_refuses in Href. apply andb_true_iff in Href as [H1 H2].
  destruct wma_is_hw_dbs_capable; apply fmap_Some in Ht as (t & Hl & [= ->]).
  - exact (refused_lookup _ _ _ H1 Hl).
  - exact (refused_lookup _ _ _ H2 Hl).
Qed.

(** IBSS and another connection: only a station, only on DBS hardware. *)
Lemma second_table_ok s c0 m pcl :
  holds s [c0] → mode c0 ≠ CDS_MAX_NUM_OF_MODE → pcl_of_tables s m = Some (inr pcl) → pcl ≠ CDS_MAX_PCL_TYPE →
  (mode c0 = CDS_IBSS_MODE → m = CDS_STA_MODE ∧ wma_is_hw_dbs_capable = true) ∧
  (m = CDS_IBSS_MODE → mode c0 = CDS_STA_MODE ∧ wma_is_hw_dbs_capable = true).
Proof.
  intros Hh Hm Ht Hn. unfold pcl_of_tables in Ht. rewrite (holds_count _ _ Hh) in Ht. cbn in Ht.
  rewrite (second_index_row s c0 [] Hh Hm) in Ht.
  unfold cds_get_second_connection_pcl_table_index, one_index in Ht. rewrite (holds_first _ _ _ Hh) in Ht.
  assert (∀ r, match wma_is_hw_dbs_capable with
      | true => inr <$> second_connection_pcl_dbs_table r m !! Z.to_nat system_pref
      | false => inr <$> second_connection_pcl_nodbs_table r m !! Z.to_nat system_pref
      end = Some (inr pcl : QDF_STATUS + cds_pcl_type) →
      forallb is_max_pcl (if wma_is_hw_dbs_capable then second_connection_pcl_dbs_table r m
                          else second_connection_pcl_nodbs_table r m) = false) as Hr.
  { intros r H. destruct (forallb _ _) eqn:Hf; [|done]. exfalso. apply Hn. destruct wma_is_hw_dbs_capable;
      apply fmap_Some in H as (t & Hl & [= ->]); exact (refused_lookup _ _ _ Hf Hl). }
  match type of Ht with context [second_connection_pcl_dbs_table ?r m] => specialize (Hr r) end.
  specialize (Hr Ht). clear Ht Hn Hh. split.
  - intros Hc. rewrite Hc in Hr. repeat split_if_in Hr; destruct m; done.
  - intros ->. destruct (mode c0) eqn:Hc; repeat split_if_in Hr; done.
Qed.
End tables.

Section admission.
Context {E : CdsEnv} {Eok : CdsEnvOk}.
Hypothesis sessions_fit : gMaxConcurrentActiveSessions <= MAX_NUMBER_OF_CONC_CONNECTIONS.
Implicit Types s : cds_state.
Implicit Types l : list cds_conc_connection_info.

Lemma same_band_sym a b : CDS_IS_SAME_BAND_CHANNELS a b = CDS_IS_SAME_BAND_CHANNELS b a.
Proof.
  unfold CDS_IS_SAME_BAND_CHANNELS. destruct (CDS_IS_CHANNEL_5GHZ a), (CDS_IS_CHANNEL_5GHZ b), (a =? 0), (b =? 0); done.
Qed.

Lemma sum_counts l :
  live l → Forall (λ c, mode c ≠ CDS_MAX_NUM_OF_MODE) l →
  foldl (λ j n, u8 (j + n)) 0 (session_counts l) = Z.of_nat (length l).
Proof.
  intros Hl Hm. live_cases Hl; rewrite ?Forall_cons in Hm; destruct_and?;
    unfold session_counts, count_mode, has_mode; cbn -[u8];
    repeat match goal with H : mode ?c ≠ _ |- _ => destruct (mode c); try done; clear H end; done.
Qed.

Lemma two_rows s c0 c1 m pcl :
  holds s [c0; c1] → pcl_of_tables s m = Some (inr pcl) → pair_has_rows (mode c0) (mode c1) = true.
Proof.
  intros Hh Ht. unfold pcl_of_tables in Ht. rewrite (holds_count _ _ Hh) in Ht. cbn in Ht.
  rewrite (third_index_row _ _ _ _ Hh) in Ht. by destruct (pair_has_rows _ _).
Qed.

Lemma no_ibss_pair a b : pair_has_rows a b = true → a ≠ CDS_IBSS_MODE ∧ b ≠ CDS_IBSS_MODE.
Proof. by destruct a, b. Qed.

(** A new connection of an allowed mode and channel agrees with the others. *)
Lemma allowed_tolerates s l e c :
  holds s l → policy_ok l → (length l <= 2)%nat → allowed s l (mode e) (chan e) → c ∈ l → tolerates e c ∧ tolerates c e.
Proof.
  intros Hh Hok Hn Ha Hc. destruct Ha as [(pcl & Hpcl & Hpm) _ _ Hb Hd Hib Hst Hgo].
  assert (Forall (λ c, mode c ≠ CDS_MAX_NUM_OF_MODE) l) as Hlm.
  { eapply Forall_impl; [apply (ok_entries _ Hok)|]. intros x [? _]. done. }
  split; split_and!.
  - intros Hme Hmc. by apply Hgo.
  - intros Hbe Hdf H5. by apply Hd.
  - intros Hme. specialize (Hib Hme). unfold ibss_refused in Hib.
    destruct l as [|c0 [|c1 [|]]]; [by apply not_elem_of_nil in Hc| | |cbn in Hn; lia].
    + apply list_elem_of_singleton in Hc as ->. rewrite (holds_first _ _ _ Hh) in Hib. cbn in Hib.
      destruct wma_is_hw_dbs_capable; [|done]. case_bool_decide as Hm0; [|done]. cbn in Hib. split; [done|]. split; [done|].
      rewrite same_band_sym. destruct (Z.eqb_spec (chan c0) (chan e)) as [->|]; [by left|]. right. cbn in Hib.
      destruct (Z.eqb_spec (chan e) 0) as [->|]; [|done]. unfold CDS_IS_SAME_BAND_CHANNELS. cbn. by rewrite andb_false_r.
    + cbn in Hib. by destruct wma_is_hw_dbs_capable.
  - intros Hmc Hme. rewrite same_band_sym. by apply Hgo.
  - intros Hbc Hdf H5. by apply Hb.
  - intros Hmc. destruct l as [|c0 [|c1 [|]]]; [by apply not_elem_of_nil in Hc| | |cbn in Hn; lia].
    + apply list_elem_of_singleton in Hc as ->. apply Forall_cons in Hlm as [Hm0 _].
      destruct (second_table_ok s c0 (mode e) pcl Hh Hm0 Hpcl Hpm) as [H1 _]. destruct (H1 Hmc) as [Hme Hdbs].
      split; [done|]. split; [done|]. specialize (Hst Hme c0 ltac:(by left) Hmc).
      unfold sta_beside_ibss_refused in Hst. rewrite (holds_first _ _ _ Hh), Hdbs in Hst. cbn in Hst.
      destruct (negb (chan e =? 0) && CDS_IS_DFS_CH (chan c0) && CDS_IS_CHANNEL_5GHZ (chan e)); [done|].
      destruct (Z.eqb_spec (chan c0) (chan e)) as [->|]; [by left|by right].
    + destruct (no_ibss_pair _ _ (two_rows _ _ _ _ _ Hh Hpcl)) as [H0 H1].
      rewrite !elem_of_cons in Hc. destruct Hc as [->|[->|Hc]]; [done..|by apply not_elem_of_nil in Hc].
Qed.

(** An allowed connection keeps the invariant. *)
Lemma policy_ok_snoc s l e :
  pm_inv s l → mode e ≠ CDS_MAX_NUM_OF_MODE → in_band (chan e) = true → allowed s l (mode e) (chan e) →
  vdev_id e ∉ map vdev_id l → (wma_is_hw_dbs_capable = false → mac e = 0) →
  (length l < 3)%nat ∧ policy_ok (l ++ [e]).
Proof.
  intros (Hh & Hok & Hcnt) Hme Hbe Ha Hv Hmac.
  assert (Forall (λ c, mode c ≠ CDS_MAX_NUM_OF_MODE) l) as Hlm.
  { eapply Forall_impl; [apply (ok_entries _ Hok)|]. intros x [? _]. done. }
  assert (Z.of_nat (length l) < gMaxConcurrentActiveSessions) as Hlt.
  { pose proof (al_max _ _ _ _ Ha) as Hm. unfold cds_max_concurrent_connections_reached in Hm.
    rewrite Hcnt, sum_counts in Hm by (done || apply Hh). apply Z.ltb_ge in Hm. lia. }
  unfold MAX_NUMBER_OF_CONC_CONNECTIONS in sessions_fit. split; [lia|].
  pose proof (λ c, allowed_tolerates s l e c Hh Hok ltac:(lia) Ha) as Htol.
  destruct Hok as [H1 H2 H3 H4 H5 H6]. constructor.
  - apply Forall_app. split; [done|]. by repeat constructor.
  - rewrite map_app. apply NoDup_app. split_and!; [done| |apply NoDup_singleton].
    intros v Hin Hin2. apply list_elem_of_singleton in Hin2 as ->. done.
  - rewrite length_app. cbn. lia.
  - intros x y Hx Hy Hne. apply elem_of_app in Hx as [Hx|Hx], Hy as [Hy|Hy];
      rewrite ?list_elem_of_singleton in *; subst; [by apply H4|by apply Htol..|done].
  - rewrite length_app. cbn. intros Hl3. destruct l as [|c0 [|c1 [|]]]; cbn in Hl3; try lia.
    exists (mode c0), (mode c1), (mode e). split; [done|]. destruct (al_pcl _ _ _ _ Ha) as (pcl & Hp1 & Hp2).
    eapply third_table_ok; [done| |done..]. intros Hi. pose proof (al_ibss _ _ _ _ Ha Hi) as Hib.
    unfold ibss_refused in Hib. cbn in Hib. by destruct wma_is_hw_dbs_capable.
  - intros Hd. destruct (H6 Hd) as [Hm Hc]. split; [apply Forall_app; split; [done|]; by repeat constructor; apply Hmac|].
    destruct l as [|c0 [|c1 [|]]]; [| | |cbn in *; lia].
    + exists (chan e), (chan e). repeat constructor.
    + exists (chan c0), (chan e). repeat (apply Forall_cons; split); [by left|by right|constructor].
    + pose proof (al_home _ _ _ _ Ha) as Hho. unfold cds_allow_new_home_channel in Hho.
      rewrite (holds_first _ _ _ Hh), (holds_second _ _ _ _ Hh), Hd in Hho.
      apply Forall_cons in Hm as [Hm0 Hm]. apply Forall_cons in Hm as [Hm1 _]. rewrite Hm0, Hm1 in Hho. cbn in Hho.
      destruct (Z.eqb_spec (chan c0) (chan c1)) as [Heq|Hne].
      * exists (chan c0), (chan e). repeat (apply Forall_cons; split); [by left|by left|by right|constructor].
      * exists (chan c0), (chan c1). cbn in Hho. repeat (apply Forall_cons; split); [by left|by right| |constructor].
        destruct (Z.eqb_spec (chan e) (chan c0)); [by left|]. destruct (Z.eqb_spec (chan e) (chan c1)); [by right|done].
Qed.
End admission.

Section steps.
Context {E : CdsEnv} {Eok : CdsEnvOk}.
Hypothesis sessions_fit : gMaxConcurrentActiveSessions <= MAX_NUMBER_OF_CONC_CONNECTIONS.
Implicit Types s : cds_state.
Implicit Types l : list cds_conc_connection_info.

Lemma remove_vdev_perm l c :
  NoDup (map vdev_id l) → c ∈ l → l ≡ₚ c :: remove_first (has_vdev (vdev_id c)) l.
Proof.
  intros Hnd Hc. induction l as [|x l IH]; [by apply not_elem_of_nil in Hc|]. cbn in *.
  apply NoDup_cons in Hnd as [Hx Hnd]. unfold has_vdev at 1. destruct (Z.eqb_spec (vdev_id c) (vdev_id x)) as [He|Hne].
  - apply elem_of_cons in Hc as [->|Hc]; [done|]. exfalso. apply Hx. rewrite <- He.
    apply list_elem_of_In, in_map. by apply list_elem_of_In.
  - apply elem_of_cons in Hc as [->|Hc]; [done|]. rewrite Permutation_swap. constructor. by apply IH.
Qed.

Lemma modes_of_ok l : policy_ok l → Forall (λ c, mode c ≠ CDS_MAX_NUM_OF_MODE) l.
Proof. intros Hok. eapply Forall_impl; [apply (ok_entries _ Hok)|]. intros x [? _]. done. Qed.

(** The table in another order, the counters the same. *)
Definition reordered s s' l l' : Prop :=
  l ≡ₚ l' ∧ holds s' l' ∧ no_of_active_sessions s' = no_of_active_sessions s.

Lemma reordered_inv s s' l l' : pm_inv s l → reordered s s' l l' → pm_inv s' l'.
Proof.
  intros (Hh & Hok & Hc) (Hp & Hh' & Hc'). split; [done|]. split; [by eapply policy_ok_perm|].
  rewrite Hc', Hc. by apply session_counts_perm.
Qed.

Lemma only_events_reordered s s' l : holds s l → only_events s s' → reordered s s' l l.
Proof.
  intros Hh He. split; [done|]. split; [by eapply only_events_holds|]. unfold only_events in He. by rewrite He.
Qed.

Lemma reordered_trans s1 s2 s3 l1 l2 l3 : reordered s1 s2 l1 l2 → reordered s2 s3 l2 l3 → reordered s1 s3 l1 l3.
Proof. intros (H1 & H2 & H3) (H4 & H5 & H6). split; [by rewrite H1|]. split; [done|congruence]. Qed.

Lemma set_pcl_total s l m :
  holds s l → Forall (λ c, mode c ≠ CDS_MAX_NUM_OF_MODE) l →
  ∃ s', cds_pdev_set_pcl s m = Some s' ∧ only_events s s'.
Proof.
  intros Hh Hlm. unfold cds_pdev_set_pcl. destruct (cds_map_concurrency_mode m) as [cm|] eqn:Hm.
  2: { exists s. split; [done|apply only_events_refl]. }
  assert (cm ≠ CDS_MAX_NUM_OF_MODE) as Hcm by (by destruct m; cbn in Hm; simplify_eq).
  destruct (get_pcl_total s l cm zero_pcl 128 Hh Hlm Hcm zero_pcl_ok) as (st & p' & ->). cbn.
  destruct (QDF_IS_STATUS_SUCCESS st); eexists; (split; [done|]);
    [apply only_events_emit|]; apply only_events_refl.
Qed.

(** A query that takes a connection of a mode out of the table and puts it back. *)
Lemma out_and_back s l m (q : cds_state → Prop) :
  pm_inv s l →
  (∀ s1 l1, holds s1 l1 → Forall (λ c, mode c ≠ CDS_MAX_NUM_OF_MODE) l1 → q s1) →
  (0 <? cds_mode_specific_connection_count s m) = true →
  ∃ info s1 l', cds_store_and_del_conn_info s m = (info, s1) ∧ q s1 ∧
    ∀ s2, only_events s1 s2 → reordered s (cds_restore_deleted_conn_info s2 info) l l'.
Proof.
  intros (Hh & Hok & Hc) Hq Hcnt. rewrite (holds_count_mode _ _ _ Hh) in Hcnt.
  destruct (find (has_mode m) l) as [info|] eqn:Hf.
  2: { apply find_filter in Hf. by rewrite Hf in Hcnt. }
  destruct (store_refines s l m info Hh Hf) as (s1 & Hs & Hs1 & Hh1).
  destruct (find_live _ _ _ (proj2 Hh) Hf) as (Hu & _ & Hin).
  pose proof (remove_vdev_perm l info (ok_vdevs _ Hok) Hin) as Hp.
  set (l1 := remove_first (has_vdev (vdev_id info)) l) in *.
  exists info, s1, (l1 ++ [info]). split; [done|]. split.
  { apply (Hq s1 l1 Hh1). pose proof (modes_of_ok _ Hok) as Hlm. rewrite Hp in Hlm. by apply Forall_cons in Hlm as [_ ?]. }
  intros s2 He. split; [by rewrite <- Permutation_cons_append|].
  pose proof (Permutation_length Hp) as Hlen. pose proof (proj1 (proj2 Hh)) as Hn. cbn in Hlen.
  split; [apply restore_refines; [by eapply only_events_holds|lia|done]|].
  unfold cds_restore_deleted_conn_info. unfold only_events in He. rewrite He, Hs1. by destruct (_ <=? _).
Qed.

Lemma existing_combo s l m :
  pm_inv s l → ∃ s' l', cds_set_pcl_for_existing_combo s m = Some s' ∧ reordered s s' l l'.
Proof.
  intros Hi. pose proof Hi as (Hh & Hok & Hc). unfold cds_set_pcl_for_existing_combo.
  destruct (adapter_mode_of m) as [am|]; [|exists s, l; split; [done|by apply only_events_reordered, only_events_refl]].
  destruct (0 <? _) eqn:Hcnt; [|exists s, l; split; [done|by apply only_events_reordered, only_events_refl]].
  destruct (out_and_back s l m (λ s1, ∃ s', cds_pdev_set_pcl s1 am = Some s' ∧ only_events s1 s') Hi) as
    (info & s1 & l' & -> & (s2 & Hset & He) & Hr); [|done|].
  { intros s1 l1 H1 H2. by eapply set_pcl_total. }
  rewrite Hset. cbn. exists (cds_restore_deleted_conn_info s2 info), l'. split; [done|]. by apply Hr.
Qed.

Lemma existing_conn s l m :
  pm_inv s l → m ≠ CDS_MAX_NUM_OF_MODE →
  ∃ st p s' l', cds_get_pcl_for_existing_conn s m zero_pcl 128 = Some (st, p, s') ∧ reordered s s' l l'.
Proof.
  intros Hi Hm. pose proof Hi as (Hh & Hok & Hc). unfold cds_get_pcl_for_existing_conn.
  destruct (0 <? _) eqn:Hcnt.
  2: { exists QDF_STATUS_SUCCESS, zero_pcl, s, l. split; [done|by apply only_events_reordered, only_events_refl]. }
  destruct (out_and_back s l m (λ s1, ∃ st p, cds_get_pcl s1 m zero_pcl 128 = Some (st, p)) Hi) as
    (info & s1 & l' & -> & (st & p & Hset) & Hr); [|done|].
  { intros s1 l1 H1 H2. by apply (get_pcl_total s1 l1 m zero_pcl 128 H1 H2 Hm zero_pcl_ok). }
  rewrite Hset. cbn. exists st, p, (cds_restore_deleted_conn_info s1 info), l'. split; [done|]. apply Hr, only_events_refl.
Qed.
End steps.

Section runs.
Context {E : CdsEnv} {Eok : CdsEnvOk}.
Hypothesis sessions_fit : gMaxConcurrentActiveSessions <= MAX_NUMBER_OF_CONC_CONNECTIONS.
Implicit Types s : cds_state.
Implicit Types l : list cds_conc_connection_info.

Lemma count_cons e l m : count_mode (e :: l) m = (if has_mode m e then 1 else 0) + count_mode l m.
Proof. unfold count_mode. cbn. destruct (has_mode m e); cbn [length]; lia. Qed.

(** One more connection of a mode, one more in its counter. *)
Lemma counts_cons m i e l :
  cds_map_concurrency_mode m = Some (mode e) → session_ix m = Some i →
  session_counts (e :: l) = zset (session_counts l) i (zget (session_counts l) i + 1) ∧
  0 <= zget (session_counts l) i <= Z.of_nat (length l) ∧ 0 <= i < 5.
Proof.
  intros Hm Hi. unfold session_counts. cbn [map app]. rewrite !count_cons.
  assert (∀ m, 0 <= count_mode l m <= Z.of_nat (length l)) as Hle.
  { intros x. unfold count_mode. pose proof (filter_length_le (has_mode x) l). lia. }
  unfold has_mode.
  destruct m; cbn in Hm, Hi; try done; injection Hm as <-; injection Hi as <-; cbn [zget zset];
    (split; [|split; [apply Hle|lia]]); unfold zset, zget; cbn; by rewrite ?(Z.add_comm 1).
Qed.

Lemma find_tbl l v :
  live l → find (λ c, in_use c && (vdev_id c =? v)) (tbl l) = find (has_vdev v) l.
Proof.
  intros Hl. unfold has_vdev. live_cases Hl; cbn; rewrite ?(Z.eqb_sym v);
    repeat match goal with H : in_use _ = true |- _ => rewrite H; clear H end; cbn; done.
Qed.

Lemma add_connection s l m vdev n :
  pm_inv s l → pm_legal s (Pm_connect m vdev n) →
  ∀ s1, interfaces s1 = <[vdev := n]> (interfaces s) → conc_connection_list s1 = conc_connection_list s →
    no_of_active_sessions s1 = match session_ix m with
      | Some i => zset (no_of_active_sessions s) i (u8 (zget (no_of_active_sessions s) i + 1))
      | None => no_of_active_sessions s end →
  ∃ e, pm_inv (snd (cds_incr_connection_count s1 vdev)) (l ++ [e]).
Proof.
  intros Hi (Hv & Hfree & Hm & Hb & Hmac & Hal) s1 Hif Htab Hcnt. pose proof Hi as (Hh & Hok & Hc).
  set (e := conn_of_interface s1 vdev n).
  assert (mode e = cds_get_mode (node_type n) (sub_type n)) as Hem.
  { unfold e, conn_of_interface. by destruct (cds_get_nss_for_vdev _ _) as [[]|]. }
  assert (chan e = cds_freq_to_chan (mhz n) ∧ vdev_id e = vdev ∧ mac e = mac_id n) as (Hec & Hev & Hema).
  { unfold e, conn_of_interface. by destruct (cds_get_nss_for_vdev _ _) as [[]|]. }
  assert (mode e ≠ CDS_MAX_NUM_OF_MODE) as Hme by (rewrite Hem; destruct m; cbn in Hm; simplify_eq; congruence).
  rewrite <- Hem in Hm, Hal. rewrite <- Hec in Hb, Hal.
  pose proof (allow_true s l (mode e) (chan e) Hh (modes_of_ok _ Hok) Hme Hb Hal) as Ha.
  assert (vdev_id e ∉ map vdev_id l) as Hnew.
  { rewrite Hev. destruct Hh as [Ht Hl]. rewrite Ht, find_tbl in Hfree by done. intros Hin.
    apply list_elem_of_In, in_map_iff in Hin as (c & Hcv & Hin). pose proof (find_none _ _ Hfree c Hin) as Hn.
    unfold has_vdev in Hn. lia. }
  destruct (policy_ok_snoc sessions_fit s l e Hi Hme Hb Ha Hnew) as [Hlen Hok'].
  { intros Hd. rewrite Hema. by apply Hmac. }
  assert (holds s1 l) as Hh1 by (split; [rewrite Htab; apply Hh|apply Hh]).
  exists e. pose proof (incr_refines s1 l vdev Hh1) as Hinc. unfold cds_incr_connection_count in *.
  unfold spec_table, entry_of in Hinc. rewrite (holds_count _ _ Hh1) in *.
  pose proof (ok_max _ Hok) as Hmax. rewrite (proj2 (Z.ltb_ge _ _)) in * by lia.
  assert (wma_get_interface_by_vdev_id s1 vdev = Some n) as Hn.
  { unfold wma_get_interface_by_vdev_id. rewrite Hif, u8_small by done. apply lookup_insert_eq. }
  rewrite Hn in *. cbn [fmap option_fmap option_map] in Hinc. rewrite (proj2 (Nat.ltb_lt _ _)) in Hinc by lia.
  fold e in Hinc |- *. destruct Hinc as [_ Hh']. split; [done|]. split; [done|].
  transitivity (no_of_active_sessions s1).
  { cbn. unfold cds_update_conc_list. by destruct (_ <=? _). }
  rewrite (session_counts_perm _ (e :: l)) by (by rewrite <- Permutation_cons_append).
  assert (∃ i, session_ix m = Some i) as [i Hix] by (destruct m; cbn in *; simplify_eq; by eexists).
  rewrite Hcnt, Hix, Hc. destruct (counts_cons m i e l Hm Hix) as (-> & Hz & _).
  rewrite u8_small; [done|]. unfold is_u8. lia.
Qed.

Lemma step_connect s l m vdev n :
  pm_inv s l → pm_legal s (Pm_connect m vdev n) →
  ∃ s' l', pm_step s (Pm_connect m vdev n) = Some s' ∧ pm_inv s' l'.
Proof.
  intros Hi Hleg. pose proof Hi as (Hh & Hok & Hc). cbn [pm_step]. unfold cds_incr_active_session.
  assert (∃ cm, cds_map_concurrency_mode m = Some cm) as [cm Hcm] by (destruct Hleg as (_ & _ & Hm & _); by eexists).
  assert (∃ i, session_ix m = Some i) as [i Hix] by (destruct m; cbn in *; simplify_eq; by eexists).
  rewrite Hcm, Hix. set (s0 := s <| interfaces ::= _ |> <| no_of_active_sessions ::= _ |>).
  assert (∃ s1, (if bool_decide (m = QDF_STA_MODE) then cds_pdev_set_pcl s0 m else Some s0) = Some s1 ∧ only_events s0 s1)
    as (s1 & -> & He1).
  { destruct (bool_decide _); [|exists s0; split; [done|apply only_events_refl]].
    apply (set_pcl_total s0 l); [by split; [apply Hh|apply Hh]|by apply modes_of_ok]. }
  cbn [mbind option_bind].
  destruct (add_connection s l m vdev n Hi Hleg s1) as (e & Hi2).
  { unfold only_events in He1. by rewrite He1. } { unfold only_events in He1. by rewrite He1. }
  { unfold only_events in He1. by rewrite He1, Hix. }
  set (s2 := snd (cds_incr_connection_count s1 vdev)) in *.
  assert (∃ s3 l3, (if (0 <? cds_mode_specific_connection_count s2 CDS_STA_MODE) && negb (bool_decide (m = QDF_STA_MODE))
     then cds_set_pcl_for_existing_combo s2 CDS_STA_MODE else Some s2) = Some s3 ∧ pm_inv s3 l3) as (s3 & l3 & -> & Hi3).
  { destruct (_ && _); [|by exists s2, (l ++ [e])].
    destruct (existing_combo s2 (l ++ [e]) CDS_STA_MODE Hi2) as (s3 & l3 & -> & Hr). exists s3, l3. split; [done|].
    by eapply reordered_inv. }
  cbn [mbind option_bind]. eexists _, l3. split; [reflexivity|].
  eapply reordered_inv; [exact Hi3|]. apply only_events_reordered; [apply Hi3|].
  apply only_events_emit. repeat case_match; repeat apply only_events_emit; apply only_events_refl.
Qed.
End runs.

Section life.
Context {E : CdsEnv} {Eok : CdsEnvOk}.
Hypothesis sessions_fit : gMaxConcurrentActiveSessions <= MAX_NUMBER_OF_CONC_CONNECTIONS.
Implicit Types s : cds_state.
Implicit Types l : list cds_conc_connection_info.

(** The table and the counters are the same. *)
Definition same_table s s' : Prop :=
  conc_connection_list s' = conc_connection_list s ∧ no_of_active_sessions s' = no_of_active_sessions s.

Lemma same_table_inv s s' l : same_table s s' → pm_inv s l → pm_inv s' l.
Proof. intros [Ht Hc] ([Hh Hl] & Hok & Hn). split; [split; [by rewrite Ht|done]|]. split; [done|by rewrite Hc]. Qed.

Lemma only_events_same s s' : only_events s s' → same_table s s'.
Proof. unfold only_events. by intros ->. Qed.

Lemma same_table_trans s1 s2 s3 : same_table s1 s2 → same_table s2 s3 → same_table s1 s3.
Proof. intros [H1 H2] [H3 H4]. split; congruence. Qed.

Lemma length_counts l : length (session_counts l) = 6%nat.
Proof. done. Qed.

(** A connection that goes away takes its entry and its count along. *)
Lemma remove_connection s l m vdev :
  pm_inv s l → pm_legal s (Pm_disconnect m vdev) → ∃ l', pm_inv (cds_decr_active_session s m vdev) l'.
Proof.
  intros (Hh & Hok & Hc) Hleg. cbn in Hleg. destruct (cds_map_concurrency_mode m) as [cm|] eqn:Hcm; [|done].
  destruct Hleg as (c & Hf & Hm). pose proof Hh as [Ht Hl]. rewrite Ht, find_tbl in Hf by done.
  destruct (find_live _ _ _ Hl Hf) as (_ & Hv & Hin). unfold has_vdev in Hv. apply Z.eqb_eq in Hv as Hvc.
  pose proof (remove_vdev_perm l c (ok_vdevs _ Hok) Hin) as Hp. rewrite <- Hvc in Hp.
  set (l' := remove_first (has_vdev vdev) l) in *. exists l'.
  assert (∃ i, session_ix m = Some i) as [i Hix] by (destruct m; cbn in *; simplify_eq; by eexists).
  rewrite <- Hm in Hcm. destruct (counts_cons m i c l' Hcm Hix) as (Hcons & Hz & Hi).
  assert (existsb (has_vdev vdev) l = true) as Hex by (rewrite existsb_find, Hf; done).
  unfold cds_decr_active_session. rewrite Hcm, Hix.
  assert (zget (no_of_active_sessions s) i = zget (session_counts l') i + 1) as Hget.
  { rewrite Hc, (session_counts_perm _ _ Hp), Hcons. unfold zget, zset.
    rewrite list_lookup_total_insert_eq; [done|]. rewrite length_counts. lia. }
  assert ((zget (session_counts l') i + 1 =? 0) = false) as Hnz by (clear -Hz; lia).
  rewrite Hget, Hnz.
  set (s1 := s <| no_of_active_sessions ::= _ |>).
  pose proof (decr_refines s1 l vdev ltac:(by split)) as Hd.
  destruct (cds_decr_connection_count s1 vdev) as [st s2]. destruct Hd as [Hd Hh2].
  unfold spec_table in Hd, Hh2. rewrite Hex in Hd, Hh2. cbn [fst snd] in Hd, Hh2. injection Hd as _ Hs2. cbn [snd].
  assert (pm_inv s2 l') as Hi2.
  { split; [done|]. split.
    - apply (policy_ok_tail c); [|by eapply policy_ok_perm].
      pose proof (Permutation_length Hp) as Hlen. destruct Hl as [Hn _]. cbn in Hlen. lia.
    - rewrite Hs2. cbn. rewrite Hget, Hc, (session_counts_perm _ _ Hp), Hcons. unfold zset.
      rewrite list_insert_insert_eq, Z.add_simpl_r. apply list_insert_id.
      unfold zget. apply list_lookup_lookup_total_lt. rewrite length_counts. lia. }
  eapply same_table_inv; [|exact Hi2]. apply only_events_same, only_events_emit.
  repeat case_match; repeat apply only_events_emit; apply only_events_refl.
Qed.

Lemma step_disconnect s l m vdev :
  pm_inv s l → pm_legal s (Pm_disconnect m vdev) →
  ∃ s' l', pm_step s (Pm_disconnect m vdev) = Some s' ∧ pm_inv s' l'.
Proof.
  intros Hi Hleg. destruct (remove_connection s l m vdev Hi Hleg) as [l1 Hi1]. cbn [pm_step]. unfold cds_decr_session_set_pcl.
  destruct (existing_combo _ l1 CDS_STA_MODE Hi1) as (s2 & l2 & -> & Hr). cbn [mbind option_bind].
  pose proof (reordered_inv _ _ _ _ Hi1 Hr) as Hi2. eexists _, l2. split; [done|].
  case_bool_decide; [done|]. by eapply same_table_inv; [|exact Hi2].
Qed.

(** *** Commands and callbacks *)

Lemma next_actions_same s l sid action :
  holds s l → ∃ st s', cds_next_actions s sid action = Some (st, s') ∧ same_table s s'.
Proof.
  intros Hh. destruct (next_actions_give s l 2 sid action Hh (le_n 2)) as [H1 H2]. unfold cds_next_actions. rewrite H1.
  destruct (actions_spec s l sid action) as [st s']. exists st, s'. split; [done|]. by apply only_events_same.
Qed.

Lemma action_of_tables_total s l channel :
  holds s l → ∃ a, action_of_tables s channel = Some a.
Proof.
  intros Hh. unfold action_of_tables. rewrite (holds_count _ _ Hh).
  destruct l as [|c0 [|c1 [|c2 [|]]]]; cbn [length]; try by eexists.
  - cbn. destruct (cds_get_second_connection_pcl_table_index s), (CDS_IS_CHANNEL_24GHZ channel); by eexists.
  - cbn. destruct (cds_get_third_connection_pcl_table_index s), (CDS_IS_CHANNEL_24GHZ channel); by eexists.
  - destruct Hh as [_ [Hn _]]. cbn in Hn. lia.
Qed.

Lemma update_same s l sid channel :
  pm_inv s l → ∃ st s', cds_current_connections_update s sid channel = Some (st, s') ∧ same_table s s'.
Proof.
  intros (Hh & Hok & _). unfold cds_current_connections_update. destruct (negb _); [by eexists _, s|].
  destruct (action_of_tables_total s l channel Hh) as [[st|a] ->]; cbn [mbind option_bind]; [by eexists _, s|].
  destruct a; try (by eexists _, s); by apply (next_actions_same s l).
Qed.

Lemma switch_same s l sid :
  holds s l → ∃ st s', cds_set_hw_mode_on_channel_switch s sid = Some (st, s') ∧ same_table s s'.
Proof.
  intros Hh. unfold cds_set_hw_mode_on_channel_switch. destruct (negb _); [by eexists _, s|].
  destruct (cds_get_current_pref_hw_mode s); try (by eexists _, s); [|by eexists _, _].
  by apply (next_actions_same s l).
Qed.

Lemma timer_same s l : holds s l → ∃ s', cds_dbs_opportunistic_timer_handler s = Some s' ∧ same_table s s'.
Proof.
  intros Hh. unfold cds_dbs_opportunistic_timer_handler. case_bool_decide; [by exists s|].
  destruct (next_actions_same s l 0 (cds_need_opportunistic_upgrade s) Hh) as (st & s' & -> & Hs). by exists s'.
Qed.

Lemma nss_cb_same s l vdev next : holds s l → ∃ s', cds_nss_update_cb s vdev next = Some s' ∧ same_table s s'.
Proof.
  intros Hh. unfold cds_nss_update_cb. destruct (_ =? _); [by exists s|].
  destruct (next_actions_same s l vdev next Hh) as (st & s' & -> & Hs). by exists s'.
Qed.

(** New MAC ids change nothing that matters, where there is one MAC not even them. *)
Definition set_macs l (vms : list (Z * Z)) : list cds_conc_connection_info :=
  foldl (λ l vm, alter_first (has_vdev (fst vm)) (λ c, c <| mac := snd vm |>) l) l vms.

Lemma set_macs_static l vms : map static (set_macs l vms) = map static l.
Proof.
  revert l. induction vms as [|vm vms IH]; intros l; [done|]. unfold set_macs in *. cbn [foldl]. rewrite IH.
  clear. induction l as [|c l IH]; cbn; [done|]. destruct (has_vdev _ c); cbn; [done|]. by rewrite IH.
Qed.

Lemma set_macs_zero l vms :
  Forall (λ vm : Z * Z, snd vm = 0) vms → Forall (λ c, mac c = 0) l → Forall (λ c, mac c = 0) (set_macs l vms).
Proof.
  intros Hv. revert l. induction Hv as [|vm vms H0 Hv IH]; intros l Hl; [done|]. apply IH.
  clear -H0 Hl. induction Hl as [|c l Hc Hl IH]; cbn; [done|]. by destruct (has_vdev _ c); constructor.
Qed.

Lemma macs_counters s vms : no_of_active_sessions (cds_update_hw_mode_conn_info s vms) = no_of_active_sessions s.
Proof.
  unfold cds_update_hw_mode_conn_info. revert s. induction vms as [|vm vms IH]; intros s; [done|]. cbn. rewrite IH.
  unfold update_mac. by destruct (find_vdev _ _).
Qed.

Lemma macs_inv s l m vms :
  pm_inv s l → macs_ok m → m = Some vms → pm_inv (cds_update_hw_mode_conn_info s vms) (set_macs l vms).
Proof.
  intros (Hh & Hok & Hc) Hm ->. destruct (macs_refines s l vms Hh) as (Hh' & _).
  destruct (policy_ok_static l (set_macs l vms) (set_macs_static _ _) Hok) as [Hok' Hcnt].
  { intros Hd. apply set_macs_zero; [by apply (Hm Hd vms)|]. by apply (ok_home _ Hok). }
  split; [done|]. split; [done|]. by rewrite macs_counters, Hcnt.
Qed.

Lemma hw_mode_cb_inv s l ok index m :
  pm_inv s l → macs_ok m → ∃ l', pm_inv (cds_pdev_set_hw_mode_cb s ok index m) l'.
Proof.
  intros Hi Hm. unfold cds_pdev_set_hw_mode_cb. set (s0 := cds_set_hw_mode_change_in_progress s _).
  assert (pm_inv s0 l) as Hi0 by (by eapply same_table_inv; [|exact Hi]).
  destruct (negb ok); [by exists l|]. destruct m as [vms|]; [|by exists l]. destruct (wma_get_hw_mode_from_idx _); [|by exists l].
  exists (set_macs l vms). eapply same_table_inv; [|by eapply macs_inv]. done.
Qed.

Lemma transition_inv s l index m : pm_inv s l → macs_ok m → ∃ l', pm_inv (cds_hw_mode_transition_cb s index m) l'.
Proof.
  intros Hi Hm. unfold cds_hw_mode_transition_cb. destruct m as [vms|]; [|by exists l].
  destruct (wma_get_hw_mode_from_idx _); [|by exists l]. exists (set_macs l vms). by eapply macs_inv.
Qed.

(** Every legal step has a successor that keeps the invariant. *)
Lemma pm_step_keeps s l o : pm_inv s l → pm_legal s o → ∃ s' l', pm_step s o = Some s' ∧ pm_inv s' l'.
Proof.
  intros Hi Hleg. pose proof Hi as (Hh & _).
  destruct o as [m vdev n|m vdev|m|sid ch|sid| |vdev next|ok index m|index m|b].
  - by eapply step_connect.
  - by eapply step_disconnect.
  - destruct (existing_conn s l m Hi Hleg) as (st & p & s' & l' & Hs & Hr). exists s', l'. cbn [pm_step]. rewrite Hs.
    split; [done|]. by eapply reordered_inv.
  - destruct (update_same s l sid ch Hi) as (st & s' & Hs & Hsame). exists s', l. cbn [pm_step]. rewrite Hs.
    split; [done|]. by eapply same_table_inv.
  - destruct (switch_same s l sid Hh) as (st & s' & Hs & Hsame). exists s', l. cbn [pm_step]. rewrite Hs.
    split; [done|]. by eapply same_table_inv.
  - destruct (timer_same s l Hh) as (s' & Hs & Hsame). exists s', l. split; [done|]. by eapply same_table_inv.
  - destruct (nss_cb_same s l vdev next Hh) as (s' & Hs & Hsame). exists s', l. split; [done|]. by eapply same_table_inv.
  - destruct (hw_mode_cb_inv s l ok index m Hi Hleg) as [l' Hi']. by eexists _, l'.
  - destruct (transition_inv s l index m Hi Hleg) as [l' Hi']. by eexists _, l'.
  - eexists _, l. split; [done|]. by eapply same_table_inv; [|exact Hi].
Qed.

Lemma run_keeps s l ops : pm_inv s l → pm_legal_run s ops → ∃ s' l', pm_run s ops = Some s' ∧ pm_inv s' l'.
Proof.
  revert s l. induction ops as [|o ops IH]; intros s l Hi Hleg; [by exists s, l|].
  destruct Hleg as [Ho Hops]. destruct (pm_step_keeps s l o Hi Ho) as (s1 & l1 & Hs & Hi1). cbn [pm_run]. rewrite Hs.
  apply (IH s1 l1 Hi1). by apply Hops.
Qed.

Lemma init_inv s :
  no_of_active_sessions s = session_counts [] → 0 <= gMaxConcurrentActiveSessions → pm_inv (cds_init_policy_mgr s) [].
Proof.
  intros Hc Hg. split; [split; [done|apply live_zero]|]. split; [|done].
  constructor; try done; [constructor|intros x y Hx; by apply not_elem_of_nil in Hx|].
  intros _. split; [constructor|]. exists 0, 0. constructor.
Qed.
End life.

(** *** The policy is safe *)
Section safe.
Context {E : CdsEnv} {Eok : CdsEnvOk}.
Implicit Types s : cds_state.

(** C3: from an initialised policy manager with cleared counters, and with a limit
    on sessions that fits the table, whatever connections come up (each allowed
    in its mode and on its channel), go away, are queried and moved between MACs, and
    whatever commands and callbacks come in between: every step has a result,
    the table always holds a list of connections with distinct vdevs that
    number at most the limit, GOs are in different bands, a beaconing connection on a
    DFS channel shares that channel with all others of the 5 GHz band, IBSS is only beside
    a station and on DBS hardware, a third connection joins only pairs of modes that
    accept it, without DBS there are at most two channels, and the
    counters of active sessions are the numbers of connections of each mode. *)
Theorem policy_safe s ops :
  0 <= gMaxConcurrentActiveSessions <= MAX_NUMBER_OF_CONC_CONNECTIONS →
  length (no_of_active_sessions s) = 6%nat →
  pm_legal_run (cds_init_policy_mgr (cds_clear_concurrent_session_count s)) ops →
  ∃ s' l, pm_run (cds_init_policy_mgr (cds_clear_concurrent_session_count s)) ops = Some s' ∧
    holds s' l ∧ policy_ok l ∧ no_of_active_sessions s' = session_counts l.
Proof.
  intros [Hg Hfit] Hn Hleg.
  assert (pm_inv (cds_init_policy_mgr (cds_clear_concurrent_session_count s)) []) as Hi.
  { apply init_inv; [|done]. cbn. by rewrite Hn. }
  destruct (run_keeps Hfit _ [] ops Hi Hleg) as (s' & l & Hr & Hi'). by exists s', l.
Qed.

(** cds_clear_concurrency_mode does not know IBSS: once set, its bit of the
    concurrency mode and its count of open sessions stay. *)
Lemma ibss_mode_stays s :
  cds_clear_concurrency_mode (cds_set_concurrency_mode s QDF_IBSS_MODE) QDF_IBSS_MODE =
    cds_set_concurrency_mode s QDF_IBSS_MODE ∧
  (0 <= adapter_mode_number QDF_IBSS_MODE →
   Z.testbit (concurrency_mode (cds_set_concurrency_mode s QDF_IBSS_MODE)) (adapter_mode_number QDF_IBSS_MODE) = true).
Proof.
  split; [done|]. intros Hb. cbn. rewrite Z.lor_spec, Z.shiftl_spec by done. rewrite Z.sub_diag. apply orb_true_r.
Qed.
End safe.

(** *** Weights of the valid channels *)
Section weights.
Context {E : CdsEnv} {Eok : CdsEnvOk}.
Implicit Types s : cds_state.
Implicit Types l : list cds_conc_connection_info.

Lemma allow_total s l m ch :
  holds s l → Forall (λ c, mode c ≠ CDS_MAX_NUM_OF_MODE) l → m ≠ CDS_MAX_NUM_OF_MODE →
  ∃ b, cds_allow_concurrency s m ch = Some b.
Proof.
  intros Hh Hl Hm. unfold cds_allow_concurrency.
  destruct (get_pcl_total s l m zero_pcl 128 Hh Hl Hm zero_pcl_ok) as (st & p & ->). by eexists.
Qed.

(** The state that the weights ask for a new station in: without the oldest one. *)
Definition without_station (s : cds_state) : cds_state := snd (cds_store_and_del_conn_info s CDS_STA_MODE).

Definition station_may (s : cds_state) (c : Z) : bool :=
  (0 <? cds_mode_specific_connection_count s CDS_STA_MODE) &&
  bool_decide (cds_allow_concurrency (without_station s) CDS_STA_MODE c = Some true).

Lemma zset_lookup (w : list Z) (i : nat) (x : Z) j :
  (i < length w)%nat → zset w (Z.of_nat i) x !! j = if bool_decide (i = j) then Some x else w !! j.
Proof.
  intros Hi. unfold zset. rewrite Nat2Z.id. case_bool_decide as Hj; [subst; by apply list_lookup_insert_eq|by apply list_lookup_insert_ne].
Qed.
Lemma sta_weights_lookup s l saved w (i : nat) :
  holds s l → Forall (λ c, mode c ≠ CDS_MAX_NUM_OF_MODE) l → (i + length saved <= length w)%nat →
  ∃ w', sta_weights s saved w (Z.of_nat i) = Some w' ∧ length w' = length w ∧
    ∀ j, w' !! j = match (if (j <? i)%nat then None else saved !! (j - i)%nat) with
      | Some c => if bool_decide (cds_allow_concurrency s CDS_STA_MODE c = Some true)
                  then Some WEIGHT_OF_NON_PCL_CHANNELS else w !! j
      | None => w !! j
      end.
Proof.
  intros Hh Hl. revert w i. induction saved as [|c saved IH]; intros w i Hn; cbn [sta_weights length] in *.
  { exists w. split; [done|]. split; [done|]. intros j. destruct (j <? i)%nat; [done|by rewrite lookup_nil]. }
  destruct (allow_total s l CDS_STA_MODE c Hh Hl ltac:(done)) as [b Hb]. rewrite Hb.
  set (w1 := if b then zset w (Z.of_nat i) _ else w).
  assert (length w1 = length w) as Hlen by (unfold w1; destruct b; [apply length_zset|done]).
  replace (Z.of_nat i + 1) with (Z.of_nat (S i)) by lia.
  destruct (IH w1 (S i) ltac:(lia)) as (w' & -> & Hw' & Hlook). exists w'. split; [done|]. split; [lia|].
  intros j. rewrite Hlook. clear Hlook IH.
  assert (w1 !! j = if bool_decide (i = j) && b then Some WEIGHT_OF_NON_PCL_CHANNELS else w !! j) as ->.
  { unfold w1. destruct b; [rewrite zset_lookup by lia; by rewrite andb_true_r|by rewrite andb_false_r]. }
  destruct (Nat.ltb_spec j (S i)), (Nat.ltb_spec j i); try lia.
  - by rewrite (bool_decide_eq_false_2 (i = j)) by lia.
  - assert (j = i) as -> by lia. rewrite Nat.sub_diag. cbn. rewrite (bool_decide_eq_true_2 (i = i)) by done. rewrite Hb. by destruct b.
  - rewrite (bool_decide_eq_false_2 (i = j)) by lia. replace (j - i)%nat with (S (j - S i)) by lia. done.
Qed.

Lemma pcl_weights_lookup pcl saved w (i : nat) :
  (i + length saved <= length w)%nat →
  let w' := foldl (pcl_weight pcl) w (zip (seqZ (Z.of_nat i) (Z.of_nat (length saved))) saved) in
  length w' = length w ∧
  ∀ j, w' !! j = match (if (j <? i)%nat then None else saved !! (j - i)%nat) with
    | Some c => match find (λ cw, fst cw =? c) pcl with Some cw => Some (snd cw) | None => w !! j end
    | None => w !! j
    end.
Proof.
  revert w i. induction saved as [|c saved IH]; intros w i Hn.
  { split; [done|]. intros j. rewrite lookup_nil. by destruct (j <? i)%nat. }
  cbn [length] in *. rewrite (seqZ_cons (Z.of_nat i)) by lia. cbn [zip zip_with foldl].
  replace (Z.succ (Z.of_nat i)) with (Z.of_nat (S i)) by lia.
  replace (Z.pred (Z.of_nat (S (length saved)))) with (Z.of_nat (length saved)) by lia.
  set (w1 := pcl_weight pcl w (Z.of_nat i, c)).
  assert (length w1 = length w) as Hlen.
  { unfold w1, pcl_weight. destruct (find _ _); [apply length_zset|done]. }
  destruct (IH w1 (S i) ltac:(lia)) as [Hw' Hlook]. split; [lia|]. intros j. rewrite Hlook. clear Hlook IH.
  assert (w1 !! j = match (if bool_decide (i = j) then find (λ cw, fst cw =? c) pcl else None) with
    | Some cw => Some (snd cw) | None => w !! j end) as ->.
  { unfold w1, pcl_weight. cbn [fst snd]. destruct (find _ _) as [cw|]; [rewrite zset_lookup by lia|]; by case_bool_decide. }
  destruct (Nat.ltb_spec j (S i)), (Nat.ltb_spec j i); try lia.
  - by rewrite (bool_decide_eq_false_2 (i = j)) by lia.
  - assert (j = i) as -> by lia. rewrite Nat.sub_diag. cbn. by rewrite (bool_decide_eq_true_2 (i = i)).
  - rewrite (bool_decide_eq_false_2 (i = j)) by lia. replace (j - i)%nat with (S (j - S i)) by lia. done.
Qed.

(** The weights before those of the list. *)
Lemma base_weights s l saved (n : nat) :
  pm_inv s l → (length saved <= n)%nat →
  ∃ w s' l', (if 0 <? cds_mode_specific_connection_count s CDS_STA_MODE then
      let '(info, s1) := cds_store_and_del_conn_info s CDS_STA_MODE in
      w ← sta_weights s1 saved (replicate n WEIGHT_OF_DISALLOWED_CHANNELS) 0;
      Some (w, cds_restore_deleted_conn_info s1 info)
    else Some (replicate n WEIGHT_OF_DISALLOWED_CHANNELS, s)) = Some (w, s') ∧ reordered s s' l l' ∧ length w = n ∧
    ∀ i c, saved !! i = Some c →
      w !! i = Some (if station_may s c then WEIGHT_OF_NON_PCL_CHANNELS else WEIGHT_OF_DISALLOWED_CHANNELS).
Proof.
  intros Hi Hn. unfold station_may, without_station. destruct (0 <? _) eqn:Hcnt.
  2: { exists (replicate n WEIGHT_OF_DISALLOWED_CHANNELS), s, l. split; [done|].
       split; [by apply only_events_reordered, only_events_refl; apply Hi|]. split; [apply length_replicate|].
       intros i c Hc. apply lookup_replicate_2. apply lookup_lt_Some in Hc. lia. }
  destruct (out_and_back s l CDS_STA_MODE (λ s1, ∃ l1, holds s1 l1 ∧ Forall (λ c, mode c ≠ CDS_MAX_NUM_OF_MODE) l1) Hi) as
    (info & s1 & l' & Hst & (l1 & Hh1 & Hl1) & Hr); [by eauto|done|]. rewrite Hst. cbn [snd].
  destruct (sta_weights_lookup s1 l1 saved (replicate n WEIGHT_OF_DISALLOWED_CHANNELS) 0 Hh1 Hl1) as (w & Hw & Hlen & Hlook).
  { rewrite length_replicate. lia. }
  change (Z.of_nat 0) with 0 in Hw. rewrite Hw. exists w, (cds_restore_deleted_conn_info s1 info), l'. split; [done|].
  split; [apply Hr, only_events_refl|]. split; [by rewrite Hlen, length_replicate|].
  intros i c Hc. rewrite Hlook. cbn. rewrite Nat.sub_0_r, Hc. cbn [andb].
  destruct (bool_decide _); [done|]. apply lookup_replicate_2. apply lookup_lt_Some in Hc. lia.
Qed.

(** The query counts the station that it took out of the table as active. *)
Lemma full_refuses s l c :
  pm_inv s l → gMaxConcurrentActiveSessions <= Z.of_nat (length l) → station_may s c = false.
Proof.
  intros Hi Hfull. pose proof Hi as (Hh & Hok & Hc). unfold station_may, without_station.
  destruct (0 <? _) eqn:Hcnt; [|done]. cbn [andb].
  destruct (out_and_back s l CDS_STA_MODE (λ s1, ∃ l1, holds s1 l1 ∧ Forall (λ c, mode c ≠ CDS_MAX_NUM_OF_MODE) l1) Hi) as
    (info & s1 & l' & Hst & (l1 & Hh1 & Hl1) & Hr); [by eauto|done|]. rewrite Hst. cbn [snd].
  assert (no_of_active_sessions s1 = no_of_active_sessions s) as Hn.
  { destruct (Hr s1 (only_events_refl s1)) as (_ & _ & Hn). rewrite <- Hn.
    unfold cds_restore_deleted_conn_info. by destruct (_ <=? _). }
  apply bool_decide_eq_false_2. unfold cds_allow_concurrency.
  destruct (get_pcl_total s1 l1 CDS_STA_MODE zero_pcl 128 Hh1 Hl1 ltac:(done) zero_pcl_ok) as (st & p & ->).
  assert (cds_max_concurrent_connections_reached s1 = true) as Hmax.
  { unfold cds_max_concurrent_connections_reached. rewrite Hn, Hc, sum_counts by (apply Hh || by apply modes_of_ok).
    apply Z.ltb_lt. lia. }
  cbn [mbind option_bind]. rewrite Hmax. intros [= Hx].
  destruct (negb (QDF_IS_STATUS_SUCCESS st)); [done|]. by destruct (_ && sub_20_channel_width).
Qed.

(** The weights that roaming gets for the valid channels: a channel of the
    preferred list has its weight there, and any other one 1 if there is a
    station and a new one, in its place, would be allowed on the channel, else 0; the table
    is restored up to its order.  The station is taken out of the table, but not out of the
    counters: with as many sessions as the limit allows, all channels outside of the preferred list have weight 0. *)
Theorem chan_weights_exact s l pcl saved :
  pm_inv s l → Z.of_nat (length saved) <= QDF_MAX_NUM_CHAN →
  ∃ w s' l', cds_get_valid_chan_weights s pcl saved = Some (w, s') ∧ reordered s s' l l' ∧
    length w = Z.to_nat QDF_MAX_NUM_CHAN ∧
    (∀ i c, saved !! i = Some c → w !! i = Some
      match find (λ cw, fst cw =? c) pcl with
      | Some cw => snd cw
      | None => if station_may s c then WEIGHT_OF_NON_PCL_CHANNELS else WEIGHT_OF_DISALLOWED_CHANNELS
      end) ∧
    (gMaxConcurrentActiveSessions <= Z.of_nat (length l) → ∀ c, station_may s c = false).
Proof.
  intros Hi Hn. unfold cds_get_valid_chan_weights. rewrite (proj2 (Z.ltb_ge _ _)) by done.
  destruct (base_weights s l saved (Z.to_nat QDF_MAX_NUM_CHAN) Hi) as (w & s' & l' & -> & Hr & Hlen & Hbase); [lia|].
  cbn [mbind option_bind]. destruct (pcl_weights_lookup pcl saved w 0) as [Hlen' Hlook]; [lia|]. change (Z.of_nat 0) with 0 in *.
  eexists _, s', l'. split; [done|]. split; [done|]. split; [lia|]. split.
  - intros i c Hc. rewrite Hlook. cbn. rewrite Nat.sub_0_r, Hc. destruct (find _ _); [done|]. by apply Hbase.
  - intros Hfull c. by apply (full_refuses s l).
Qed.
End weights.
