(* ===== verification/CdsDemo.v ===== *)
(** The theorems on the concurrency policy applied to a concrete driver: a
    radio with two MACs, a regulatory domain with DFS channels, a station on
    channel 6, a P2P group owner and an access point; and runs of the model that show what the
    findings are about. *)
From S2P Require Import Prelude CdsTables CdsConn CdsPcl CdsPolicy CdsSession.

(** *** The environment *)

(** Channels 52 to 144 need radar detection. *)
Definition demo_channels : list channel_state :=
  replicate 17 CHANNEL_STATE_ENABLE ++ replicate 16 CHANNEL_STATE_DFS ++ replicate 20 CHANNEL_STATE_ENABLE.

#[local] Instance demo_env (has_dbs : bool) (limit : Z) : CdsEnv := {|
  QDF_MAX_NUM_CHAN := 128;
  wma_is_hw_dbs_capable := has_dbs;
  gMaxConcurrentActiveSessions := limit;
  conc_system_pref := 0;
  enable2x2 := true;
  sub_20_channel_width := false;
  reg_channels := demo_channels;
  sme_get_valid_channels := Some [1; 6; 11; 36; 40; 52; 149];
  pld_get_wlan_unsafe_channel := [40];
  sme_get_vdev_type_nss := λ _, (2, 2);
  wma_get_hw_mode_idx_from_dbs_hw_list := λ r, if dbs r then 1 else 0;
  wma_get_hw_mode_from_idx := λ i, i <? 2;
  sme_pdev_set_hw_mode := λ _ _, true;
  sme_nss_update_request := λ _ _, true;
  sap_adapter := true;
  adapter_mode_number := λ m, from_option id 7 (session_ix m);
  WMI_VDEV_TYPE_AP := 1;
  WMI_VDEV_TYPE_STA := 2;
  WMI_VDEV_TYPE_IBSS := 3;
  WMI_UNIFIED_VDEV_SUBTYPE_P2P_GO := 3;
  WMI_UNIFIED_VDEV_SUBTYPE_P2P_CLIENT := 2;
|}.

Lemma demo_env_ok has_dbs limit : @CdsEnvOk (demo_env has_dbs limit).
Proof. split; [done| |done|done]. by intros l [= <-]. Defined.

Definition power_on : cds_state :=
  mk_cds [] (replicate 6 0) (replicate 6 0) 0 (replicate 128 0) 0 false false false CDS_HW_MODE_NOT_IN_PROGRESS false
    ∅ (Some false) [].

Definition demo_start : cds_state := cds_init_policy_mgr (cds_clear_concurrent_session_count power_on).

Definition sta_node (freq : Z) : wma_txrx_node := mk_node 2 0 freq CH_WIDTH_20MHZ 0.
Definition go_node (freq : Z) : wma_txrx_node := mk_node 1 3 freq CH_WIDTH_80MHZ 0.
Definition sap_node (freq : Z) : wma_txrx_node := mk_node 1 0 freq CH_WIDTH_20MHZ 0.

(** *** Decisions *)
Section decisions.
Context {E : CdsEnv}.

#[export] Instance vdev_in_table_dec s vdev m : Decision (vdev_in_table s vdev m).
Proof.
  refine (match find (λ c, in_use c && (vdev_id c =? vdev)) (conc_connection_list s) as r
    return find _ _ = r → Decision _ with
    | Some c => λ Hf, match decide (mode c = m) with left H => left _ | right H => right _ end
    | None => λ Hf, right _
    end eq_refl).
  - exists c. by split.
  - intros (c' & Hc' & H'). rewrite Hf in Hc'. by injection Hc' as <-.
  - intros (c' & Hc' & H'). by rewrite Hf in Hc'.
Defined.

#[export] Instance macs_ok_dec m : Decision (macs_ok m).
Proof.
  refine (match decide (wma_is_hw_dbs_capable = false), m with
    | left H, Some vms => match decide (Forall (λ vm : Z * Z, snd vm = 0) vms) with left Hv => left _ | right Hv => right _ end
    | left H, None => left _
    | right H, _ => left _
    end).
  - intros _ v [= <-]. done.
  - intros Hm. by apply Hv, (Hm H vms).
  - by intros _ v [=].
  - by intros Hd.
Defined.

#[export] Instance pm_legal_dec s o : Decision (pm_legal s o).
Proof. destruct o; cbn; try apply _. destruct (cds_map_concurrency_mode m); apply _. Defined.

#[export] Instance pm_legal_run_dec ops s : Decision (pm_legal_run s ops).
Proof.
  revert s. induction ops as [|o ops IH]; intros s; cbn; [apply _|].
  destruct (decide (pm_legal s o)) as [Ho|Ho]; [|right; by intros [? _]].
  destruct (pm_step s o) as [s1|].
  - destruct (IH s1) as [Hr|Hr]; [left; split; [done|]; by intros s' [= <-]|right; intros [_ H]; by apply Hr, H].
  - left. split; [done|]. by intros s' [=].
Defined.
End decisions.

Definition demo_run : list pm_op :=
  [Pm_connect QDF_STA_MODE 0 (sta_node 2437); Pm_update 1 36; Pm_hw_mode (Some true);
   Pm_connect QDF_P2P_GO_MODE 1 (go_node 5180); Pm_hw_mode_cb true 1 (Some [(1, 1)]); Pm_query CDS_STA_MODE;
   Pm_connect QDF_STA_MODE 2 (sta_node 5180); Pm_disconnect QDF_STA_MODE 0; Pm_timer; Pm_nss_cb 1 CDS_SINGLE_MAC;
   Pm_channel_switch 1; Pm_transition 0 (Some [(1, 0)]); Pm_disconnect QDF_P2P_GO_MODE 1].

(** *** The connection table *)
Definition sta6 : cds_conc_connection_info := mk_conn CDS_STA_MODE 6 HW_MODE_20_MHZ 0 CDS_TWO_TWO 2 0 true.
Definition go36 : cds_conc_connection_info := mk_conn CDS_P2P_GO_MODE 36 HW_MODE_80_MHZ 0 CDS_TWO_TWO 2 1 true.
Definition sap1 : cds_conc_connection_info := mk_conn CDS_SAP_MODE 1 HW_MODE_20_MHZ 0 CDS_ONE_ONE 1 2 true.

(** A state that holds some connections, beside the interface of vdev 3. *)
Definition demo_with (l : list cds_conc_connection_info) : cds_state :=
  demo_start <| conc_connection_list := tbl l |> <| interfaces := {[3 := sta_node 5180]} |>.

Lemma demo_holds l : (length l <= 3)%nat → Forall (λ c, in_use c = true) l → holds (demo_with l) l.
Proof. intros Hn Hl. by split. Defined.

Definition demo_table_ops : list table_op :=
  [Op_count; Op_incr 3; Op_query CDS_STA_MODE; Op_macs [(1, 1)]; Op_mac_of 1; Op_decr 0; Op_channel CDS_STA_MODE; Op_incr 9].

Lemma conn_table_refines_list_witness :
  holds (demo_with [sta6; go36]) [sta6; go36] ∧
  fst (@run_table (demo_env true 3) (demo_with [sta6; go36]) demo_table_ops) =
    [Out_num 2; Out_status QDF_STATUS_SUCCESS; Out_conn sta6; Out_none; Out_mac (Some 1); Out_status QDF_STATUS_SUCCESS;
     Out_num 36; Out_status QDF_STATUS_E_FAILURE].
Proof.
  assert (holds (demo_with [sta6; go36]) [sta6; go36]) as Hh by (apply demo_holds; [cbn; lia|by repeat constructor]).
  split; [exact Hh|].
  rewrite (proj1 (@conn_table_refines_list (demo_env true 3) _ _ demo_table_ops Hh)). vm_compute. reflexivity.
Defined.

(** With a limit of four the fourth connection is reported as added, but it is not in the table. *)
Lemma fourth_connection_lost :
  let r := @run_table (demo_env true 4) (demo_with [sta6; go36; sap1]) [Op_incr 3; Op_mac_of 3; Op_count] in
  fst r = [Out_status QDF_STATUS_SUCCESS; Out_mac None; Out_num 3].
Proof. vm_compute. reflexivity. Qed.

(** *** Runs of the driver *)
Lemma policy_safe_witness :
  @pm_legal_run (demo_env true 3) demo_start demo_run ∧
  ∃ s' l, @pm_run (demo_env true 3) demo_start demo_run = Some s' ∧ holds s' l ∧ @policy_ok (demo_env true 3) l ∧
    no_of_active_sessions s' = session_counts l.
Proof.
  assert (@pm_legal_run (demo_env true 3) demo_start demo_run) as Hleg.
  { apply (@bool_decide_unpack _ (@pm_legal_run_dec (demo_env true 3) _ _)). vm_compute. exact I. }
  split; [exact Hleg|]. apply (@policy_safe (demo_env true 3) (demo_env_ok true 3) power_on); [|reflexivity|exact Hleg].
  split; vm_compute; discriminate.
Defined.

(** *** Channel lists *)
(** A group owner beside a station on channel 6, with two MACs. *)
Definition demo_query : option (QDF_STATUS * list (Z * Z)) :=
  '(st, p) ← @cds_get_pcl (demo_env true 3) (demo_with [sta6]) CDS_P2P_GO_MODE zero_pcl 128; Some (st, entries p).

Lemma get_pcl_exact_witness :
  demo_query = Some (QDF_STATUS_SUCCESS, [(36, 255); (149, 255); (6, 235)]) ∧
  ∃ t st p', @pcl_of_tables (demo_env true 3) (demo_with [sta6]) CDS_P2P_GO_MODE = Some t ∧
    @cds_get_pcl (demo_env true 3) (demo_with [sta6]) CDS_P2P_GO_MODE zero_pcl 128 = Some (st, p') ∧
    (st, entries p') = @pcl_spec (demo_env true 3) (demo_with [sta6]) [sta6] t CDS_P2P_GO_MODE (entries zero_pcl) 128 ∧
    same_size zero_pcl p' ∧ @pcl_ok (demo_env true 3) p' 128.
Proof.
  split; [vm_compute; reflexivity|].
  apply (@get_pcl_exact (demo_env true 3) (demo_env_ok true 3)); [|by repeat constructor|done|exact (@zero_pcl_ok _ (demo_env_ok true 3))].
  apply demo_holds; [cbn; lia|by repeat constructor].
Defined.

Lemma pcl_sound_witness :
  match @cds_get_pcl (demo_env true 3) (demo_with [sta6]) CDS_P2P_GO_MODE zero_pcl 128 with
  | Some (QDF_STATUS_SUCCESS, p') =>
      length (entries p') = 3%nat ∧ StronglySorted heavier (entries p') ∧
      ∀ c w, (c, w) ∈ entries p' → @cds_get_channel_state (demo_env true 3) c = CHANNEL_STATE_ENABLE
  | _ => False
  end.
Proof.
  destruct (@cds_get_pcl (demo_env true 3) (demo_with [sta6]) CDS_P2P_GO_MODE zero_pcl 128) as [[st p']|] eqn:Hg.
  2: { apply (f_equal (λ x, match x with Some _ => true | None => false end)) in Hg. vm_compute in Hg. discriminate. }
  assert (st = QDF_STATUS_SUCCESS) as ->.
  { apply (f_equal (option_map fst)) in Hg. vm_compute in Hg. by injection Hg. }
  assert (length (entries p') = 3%nat) as Hlen.
  { apply (f_equal (option_map (λ r, length (entries (snd r))))) in Hg. vm_compute in Hg. by injection Hg. }
  assert (holds (demo_with [sta6]) [sta6]) as Hh by (apply demo_holds; [cbn; lia|by repeat constructor]).
  destruct (@pcl_sound (demo_env true 3) (demo_env_ok true 3) (demo_with [sta6]) [sta6] CDS_P2P_GO_MODE zero_pcl 128
    CDS_5G_SCC_CH p' Hh (@zero_pcl_ok _ (demo_env_ok true 3)) ltac:(vm_compute; reflexivity) ltac:(done) Hg) as (_ & _ & Hs & Hin).
  split; [exact Hlen|]. split; [exact Hs|]. intros c w Hc. by apply (Hin c w Hc).
Defined.

Lemma table_rows_typed_witness :
  is_max_one (cds_get_second_connection_pcl_table_index (demo_with [go36])) = false ∧
  @pcl_of_tables (demo_env true 3) (demo_with [go36]) CDS_SAP_MODE ≠ None.
Proof.
  destruct (@table_rows_typed (demo_env true 3) (demo_env_ok true 3) (demo_with [go36]) [go36] CDS_SAP_MODE) as (_ & _ & H1 & _ & H2 & _).
  - apply demo_holds; [cbn; lia|by repeat constructor].
  - by repeat constructor.
  - done.
  - split; [by apply (H1 go36)|exact H2].
Defined.

(** Channel 13 is in the band only because channel 12 is there. *)
Lemma band_split_witness :
  @divide_channels (demo_env true 3) (zwrite (replicate 128 0) 0 ([1; 6] ++ [12; 13] ++ [36; 52])) 6 true = ([1; 6; 12; 13], [36]).
Proof.
  apply (@band_split (demo_env true 3) (demo_env_ok true 3) [1; 6] [12; 13] [36; 52] true).
  - repeat constructor; lia.
  - by exists [14].
  - repeat constructor; lia.
  - left. cbn. discriminate.
  - cbn. lia.
Defined.

(** Without channels above 11 the list of the 2.4 GHz band is filled with zeros. *)
Lemma padding_taken_for_channels :
  @divide_channels (demo_env true 3) (zwrite (replicate 128 0) 0 [1; 6; 11]) 3 false = ([1; 6; 11] ++ replicate 125 0, []).
Proof. vm_compute. reflexivity. Qed.

(** *** Hardware modes *)
Lemma next_actions_exact_witness :
  ∃ st s', next_actions_fuel (E := demo_env true 3) 5 (demo_with [sta6; go36]) 1 CDS_SINGLE_MAC_UPGRADE = Some (st, s') ∧
    st = QDF_STATUS_SUCCESS ∧ events s' = [Ev_nss_update 1 2 CDS_SINGLE_MAC; Ev_set_hw_mode 1 0] ∧ only_events (demo_with [sta6; go36]) s'.
Proof.
  destruct (@next_actions_exact (demo_env true 3) (demo_with [sta6; go36]) [sta6; go36] 5 1 CDS_SINGLE_MAC_UPGRADE)
    as (st & s' & H1 & _ & H2 & H3).
  - apply demo_holds; [cbn; lia|by repeat constructor].
  - lia.
  - exists st, s'. split; [exact H1|]. injection H3 as -> ->. split; [reflexivity|]. split; [reflexivity|exact H2].
Defined.

(** Without a beaconing entity the upgrade commands the mode twice. *)
Lemma upgrade_commands_twice :
  option_map (λ r, events (snd r)) (@cds_next_actions (demo_env true 3) (demo_with [sta6]) 0 CDS_SINGLE_MAC_UPGRADE) =
    Some [Ev_set_hw_mode 0 0; Ev_set_hw_mode 0 0].
Proof. vm_compute. reflexivity. Qed.

Lemma actions_agree_witness :
  ∃ a, action_of_tables (demo_with [sta6]) 36 = Some (inr a) ∧ a = CDS_DBS_DOWNGRADE ∧
    (a ≠ CDS_NOP ↔ cds_get_current_pref_hw_mode (demo_with [sta6; go36]) = CDS_DBS_DOWNGRADE).
Proof.
  apply (actions_agree (demo_with [sta6]) [sta6] 36 (demo_with [sta6; go36]) go36).
  - apply demo_holds; [cbn; lia|by repeat constructor].
  - cbn. lia.
  - by repeat constructor.
  - done.
  - intros c0 c1 [=].
  - apply (demo_holds [sta6; go36]); [cbn; lia|by repeat constructor].
  - done.
  - done.
Defined.

(** *** Weights *)

(** A driver with one station. *)
Definition demo_station : cds_state := demo_with [sta6] <| no_of_active_sessions := [1; 0; 0; 0; 0; 0] |>.

Lemma demo_station_inv : @pm_inv (demo_env true 3) demo_station [sta6].
Proof.
  split; [by split; [|split; [cbn; lia|by repeat constructor]]|]. split; [|reflexivity]. constructor.
  - by repeat constructor.
  - apply NoDup_singleton.
  - vm_compute. discriminate.
  - intros x y Hx Hy. apply list_elem_of_singleton in Hx as ->, Hy as ->. done.
  - done.
  - by intros [=].
Defined.

Lemma chan_weights_exact_witness :
  @pm_inv (demo_env true 3) demo_station [sta6] ∧
  ∃ w s' l', @cds_get_valid_chan_weights (demo_env true 3) demo_station [(36, 255); (149, 255)] [6; 36; 64] = Some (w, s') ∧
    reordered demo_station s' [sta6] l' ∧ take 4 w = [1; 255; 1; 0].
Proof.
  split; [exact demo_station_inv|].
  destruct (@chan_weights_exact (demo_env true 3) (demo_env_ok true 3) demo_station [sta6] [(36, 255); (149, 255)] [6; 36; 64]
    demo_station_inv ltac:(vm_compute; discriminate)) as (w & s' & l' & H1 & H2 & _ & _ & _).
  exists w, s', l'. split; [exact H1|]. split; [exact H2|].
  apply (f_equal (option_map (λ r, take 4 (fst r)))) in H1. vm_compute in H1. by injection H1.
Defined.

(** With a limit of one session the station may roam to no other channel. *)
Lemma full_limit_no_roaming :
  option_map (λ r, take 4 (fst r)) (@cds_get_valid_chan_weights (demo_env true 1) demo_station [(36, 255); (149, 255)] [6; 36; 64]) =
    Some [0; 255; 0; 0].
Proof. vm_compute. reflexivity. Qed.
