(* ===== verification/SapAcl.v ===== *)
(** The access lists of a soft AP: core/sap/src/sap_fsm.c (the sorted arrays of
    addresses) and sap_module.c (configuring and changing them).

    An access point keeps two arrays of 32 addresses, the accept and the deny
    list, each with the number of entries in use.  They are sorted when they are
    configured, searched by bisection, and kept sorted by insertions and
    removals.  [MemCmp] is qdf_mem_cmp on two addresses.  Array accesses are
    checked: [None] is an access outside an array or a loop without end.
    Context pointers are those of a live interface; logging is left out.

    The abstract specification is a pair of multisets of addresses, and
    [acl_refines_multisets] shows that every sequence of operations behaves as
    the operations on the multisets do. *)
From stdpp Require Import gmultiset.
From S2P Require Import Prelude Arrays LimTypes CdsConn.

Definition MAX_ACL_MAC_ADDRESS : Z := 32.
Definition SIR_MAC_MGMT_DEAUTH : Z := 0xC.
Definition SIR_MAC_MGMT_DISASSOC : Z := 0xA.
Definition eSIR_MAC_DEAUTH_LEAVING_BSS_REASON : Z := 3.
Definition eCsrForcedDeauthSta : Z := 19.

(** qdf_mem_cmp(a, b, QDF_MAC_ADDR_SIZE) *)
Class MemCmp := qdf_mem_cmp : mac_addr → mac_addr → Z.
Class MemCmpOk `{MemCmp} := mem_cmp_ok :: CmpOk qdf_mem_cmp mac_wf.

(** [eSapMacAddrACL]: wlansap_set_mode casts any number to it. *)
Definition eSAP_ACCEPT_UNLESS_DENIED : Z := 0.
Definition eSAP_DENY_UNLESS_ACCEPTED : Z := 1.
Definition eSAP_SUPPORT_ACCEPT_AND_DENY : Z := 2.
Definition eSAP_ALLOW_ALL : Z := 3.

(** [eSapACLType] and [eSapACLCmdType]: the caller casts bytes to them. *)
Definition eSAP_BLACK_LIST : Z := 0.
Definition eSAP_WHITE_LIST : Z := 1.
Definition ADD_STA_TO_ACL : Z := 0.
Definition DELETE_STA_FROM_ACL : Z := 1.

Record tagCsrDelStaParams := mk_del {
  peerMacAddr : mac_addr;
  reason_code : Z;
  subtype : Z;
}.

Inductive acl_event :=
  | Ev_deauth_sta (p : tagCsrDelStaParams)        (* sme_roam_deauth_sta *)
  | Ev_unknown_sta_join (peer : mac_addr).        (* eSAP_UNKNOWN_STA_JOIN *)

(** The part of tSapContext that holds the lists. *)
Record sap_acl := mk_acl {
  eSapMacAddrAclMode : Z;
  acceptMacList : list mac_addr;
  nAcceptMac : Z;
  denyMacList : list mac_addr;
  nDenyMac : Z;
  acl_events : list acl_event;                    (* newest first *)
}.
#[export] Instance sap_acl_eta : Eta sap_acl := fun s =>
  mk_acl (eSapMacAddrAclMode s) (acceptMacList s) (nAcceptMac s) (denyMacList s) (nDenyMac s) (acl_events s).

(** The part of tsap_Config_t that configures them. *)
Record acl_config := mk_acl_config {
  SapMacaddr_acl : Z;
  accept_mac : list mac_addr;
  num_accept_mac : Z;
  deny_mac : list mac_addr;
  num_deny_mac : Z;
}.

Section ops.
Context `{MemCmp}.
Implicit Types (l : list mac_addr) (s : sap_acl).

(** The body of the inner loop of sap_sort_mac_list. *)
Definition sort_step l (inner : Z) : option (list mac_addr) :=
  a ← aget l inner;
  b ← aget l (inner + 1);
  if 0 <? qdf_mem_cmp a b then
    l ← aset l (inner + 1) a;
    aset l inner b
  else Some l.

Definition sap_sort_mac_list l (size : Z) : option (list mac_addr) :=
  if MAX_ACL_MAC_ADDRESS <? size then Some l
  else for_opt (λ l _, for_opt sort_step (seqZ 0 (size - 1)) l) (seqZ 0 size) l.

(** while (nStart <= nEnd); the fuel is more than the number of entries. *)
Fixpoint search_loop (fuel : nat) l (peerMac : mac_addr) (nStart nEnd : Z) : option (option Z) :=
  match fuel with
  | O => None
  | S f =>
      if nStart <=? nEnd then
        let nMiddle := s8 ((nStart + nEnd) ÷ 2) in
        m ← aget l nMiddle;
        let nRes := qdf_mem_cmp m peerMac in
        if nRes =? 0 then Some (Some (u8 nMiddle))
        else if nRes <? 0 then search_loop f l peerMac (s8 (nMiddle + 1)) nEnd
        else search_loop f l peerMac nStart (s8 (nMiddle - 1))
      else Some None
  end.

(** The index if the address was found (eSAP_TRUE). *)
Definition sap_search_mac_list l (num_mac : Z) (peerMac : mac_addr) : option (option Z) :=
  let nEnd := s8 (num_mac - 1) in
  if MAX_ACL_MAC_ADDRESS <? num_mac then Some None
  else search_loop (S (Z.to_nat num_mac)) l peerMac 0 nEnd.

(** for (i = size - 1; i >= 0; i--): [k] is [i + 1]; returns [i] at the end. *)
Fixpoint add_loop (k : nat) l (peerMac : mac_addr) : option (list mac_addr * Z) :=
  match k with
  | O => Some (l, -1)
  | S k' =>
      let i := Z.of_nat k' in
      a ← aget l i;
      if 0 <? qdf_mem_cmp a peerMac then
        l ← aset l (i + 1) a;
        add_loop k' l peerMac
      else Some (l, i)
  end.

(** The list and the size after the call. *)
Definition sap_add_mac_to_acl l (size : Z) (peerMac : mac_addr) : option (list mac_addr * Z) :=
  if MAX_ACL_MAC_ADDRESS <? size then Some (l, size)
  else
    '(l, i) ← add_loop (Z.to_nat size) l peerMac;
    l ← aset l (i + 1) peerMac;
    Some (l, u8 (size + 1)).

Definition sap_remove_mac_from_acl l (size index : Z) : option (list mac_addr * Z) :=
  if (size =? 0) || (MAX_ACL_MAC_ADDRESS <? size) then Some (l, size)
  else
    l ← for_opt (λ l i, a ← aget l (i + 1); aset l i a) (seqZ index (size - 1 - index)) l;
    l ← aset l (size - 1) zero_mac;
    Some (l, u8 (size - 1)).

Definition sap_is_peer_mac_allowed s (peerMac : mac_addr) : option (QDF_STATUS * sap_acl) :=
  if eSAP_ALLOW_ALL =? eSapMacAddrAclMode s then Some (QDF_STATUS_SUCCESS, s)
  else
    accepted ← sap_search_mac_list (acceptMacList s) (nAcceptMac s) peerMac;
    if accepted is Some _ then Some (QDF_STATUS_SUCCESS, s)
    else
      denied ← sap_search_mac_list (denyMacList s) (nDenyMac s) peerMac;
      if denied is Some _ then Some (QDF_STATUS_E_FAILURE, s)
      else if eSAP_ACCEPT_UNLESS_DENIED =? eSapMacAddrAclMode s then Some (QDF_STATUS_SUCCESS, s)
      else if eSAP_DENY_UNLESS_ACCEPTED =? eSapMacAddrAclMode s then Some (QDF_STATUS_E_FAILURE, s)
      else if eSAP_SUPPORT_ACCEPT_AND_DENY =? eSapMacAddrAclMode s then
        Some (QDF_STATUS_E_FAILURE, s <| acl_events ::= cons (Ev_unknown_sta_join peerMac) |>)
      else Some (QDF_STATUS_SUCCESS, s).

(** The lists are copied whole, 32 entries each. *)
Definition wlansap_set_mac_acl s (c : acl_config) : option (QDF_STATUS * sap_acl) :=
  let s := s <| eSapMacAddrAclMode := SapMacaddr_acl c |> in
  if eSAP_DENY_UNLESS_ACCEPTED =? eSapMacAddrAclMode s then
    l ← sap_sort_mac_list (accept_mac c) (num_accept_mac c);
    Some (QDF_STATUS_SUCCESS, s <| acceptMacList := l |> <| nAcceptMac := num_accept_mac c |>)
  else if eSAP_ACCEPT_UNLESS_DENIED =? eSapMacAddrAclMode s then
    l ← sap_sort_mac_list (deny_mac c) (num_deny_mac c);
    Some (QDF_STATUS_SUCCESS, s <| denyMacList := l |> <| nDenyMac := num_deny_mac c |>)
  else Some (QDF_STATUS_SUCCESS, s).

(** What wlansap_start_bss does with the lists. *)
Definition start_bss_acl s (c : acl_config) : option sap_acl :=
  la ← sap_sort_mac_list (accept_mac c) (num_accept_mac c);
  ld ← sap_sort_mac_list (deny_mac c) (num_deny_mac c);
  Some (s <| eSapMacAddrAclMode := SapMacaddr_acl c |>
          <| acceptMacList := la |> <| nAcceptMac := num_accept_mac c |>
          <| denyMacList := ld |> <| nDenyMac := num_deny_mac c |>).

Definition wlansap_set_mode s (mode : Z) : QDF_STATUS * sap_acl :=
  (QDF_STATUS_SUCCESS, s <| eSapMacAddrAclMode := mode |>).

(** The entries that are copied out. *)
Definition wlansap_get_acl_accept_list s : list mac_addr * Z :=
  (zread (acceptMacList s) 0 (nAcceptMac s), nAcceptMac s).
Definition wlansap_get_acl_deny_list s : list mac_addr * Z :=
  (zread (denyMacList s) 0 (nDenyMac s), nDenyMac s).

(** for (i = 0; i < n - 1; i++) zero the entry *)
Definition clear_list l (n : Z) : option (list mac_addr) :=
  for_opt (λ l i, aset l i zero_mac) (seqZ 0 (n - 1)) l.

Definition wlansap_clear_acl s : option (QDF_STATUS * sap_acl) :=
  ld ← clear_list (denyMacList s) (nDenyMac s);
  la ← clear_list (acceptMacList s) (nAcceptMac s);
  Some (QDF_STATUS_SUCCESS,
        s <| denyMacList := ld |> <| nDenyMac := 0 |> <| acceptMacList := la |> <| nAcceptMac := 0 |>).

(** A null [mac] is [None]. *)
Definition wlansap_populate_del_sta_params (m : option mac_addr) (reason sub : Z) : tagCsrDelStaParams :=
  mk_del (default [0xff; 0xff; 0xff; 0xff; 0xff; 0xff] m)
    (if reason =? 0 then eSIR_MAC_DEAUTH_LEAVING_BSS_REASON else reason)
    (if (sub =? Z.shiftr SIR_MAC_MGMT_DEAUTH 4) || (sub =? Z.shiftr SIR_MAC_MGMT_DISASSOC 4)
     then sub else Z.shiftr SIR_MAC_MGMT_DEAUTH 4).

Definition wlansap_deauth_sta s (p : tagCsrDelStaParams) : sap_acl :=
  s <| acl_events ::= cons (Ev_deauth_sta p) |>.

Definition remove_accept s (index : Z) : option sap_acl :=
  '(l, n) ← sap_remove_mac_from_acl (acceptMacList s) (nAcceptMac s) index;
  Some (s <| acceptMacList := l |> <| nAcceptMac := n |>).
Definition remove_deny s (index : Z) : option sap_acl :=
  '(l, n) ← sap_remove_mac_from_acl (denyMacList s) (nDenyMac s) index;
  Some (s <| denyMacList := l |> <| nDenyMac := n |>).
Definition add_accept s (peer : mac_addr) : option sap_acl :=
  '(l, n) ← sap_add_mac_to_acl (acceptMacList s) (nAcceptMac s) peer;
  Some (s <| acceptMacList := l |> <| nAcceptMac := n |>).
Definition add_deny s (peer : mac_addr) : option sap_acl :=
  '(l, n) ← sap_add_mac_to_acl (denyMacList s) (nDenyMac s) peer;
  Some (s <| denyMacList := l |> <| nDenyMac := n |>).

(** The deauthentication of a station that leaves or enters a list. *)
Definition deauth_peer s (peer : mac_addr) : sap_acl :=
  wlansap_deauth_sta s
    (wlansap_populate_del_sta_params (Some peer) eCsrForcedDeauthSta (Z.shiftr SIR_MAC_MGMT_DEAUTH 4)).

(** case eSAP_WHITE_LIST, with the results of the two searches. *)
Definition modify_white s (peer : mac_addr) (cmd : Z) (wl bl : option Z) : option (QDF_STATUS * sap_acl) :=
  if cmd =? ADD_STA_TO_ACL then
    if nAcceptMac s =? MAX_ACL_MAC_ADDRESS then Some (QDF_STATUS_E_FAILURE, s)
    else if wl is Some _ then Some (QDF_STATUS_SUCCESS, s)
    else
      s ← (if bl is Some i then remove_deny s i else Some s);
      s ← add_accept s peer;
      Some (QDF_STATUS_SUCCESS, s)
  else if cmd =? DELETE_STA_FROM_ACL then
    match wl with
    | Some i =>
        s ← remove_accept s i;
        Some (QDF_STATUS_SUCCESS, deauth_peer s peer)
    | None => Some (QDF_STATUS_E_FAILURE, s)
    end
  else Some (QDF_STATUS_E_FAILURE, s).

(** case eSAP_BLACK_LIST *)
Definition modify_black s (peer : mac_addr) (cmd : Z) (wl bl : option Z) : option (QDF_STATUS * sap_acl) :=
  if cmd =? ADD_STA_TO_ACL then
    if nDenyMac s =? MAX_ACL_MAC_ADDRESS then Some (QDF_STATUS_E_FAILURE, s)
    else if bl is Some _ then Some (QDF_STATUS_SUCCESS, s)
    else
      s ← (if wl is Some i then remove_accept s i else Some s);
      s ← add_deny (deauth_peer s peer) peer;
      Some (QDF_STATUS_SUCCESS, s)
  else if cmd =? DELETE_STA_FROM_ACL then
    match bl with
    | Some i =>
        s ← remove_deny s i;
        Some (QDF_STATUS_SUCCESS, s)
    | None => Some (QDF_STATUS_E_FAILURE, s)
    end
  else Some (QDF_STATUS_E_FAILURE, s).

Definition wlansap_modify_acl s (peer_sta_mac : mac_addr) (list_type cmd : Z) : option (QDF_STATUS * sap_acl) :=
  wl ← sap_search_mac_list (acceptMacList s) (nAcceptMac s) peer_sta_mac;
  bl ← sap_search_mac_list (denyMacList s) (nDenyMac s) peer_sta_mac;
  match wl, bl with
  | Some _, Some _ => Some (QDF_STATUS_E_FAILURE, s)
  | _, _ =>
      if list_type =? eSAP_WHITE_LIST then modify_white s peer_sta_mac cmd wl bl
      else if list_type =? eSAP_BLACK_LIST then modify_black s peer_sta_mac cmd wl bl
      else Some (QDF_STATUS_E_FAILURE, s)
  end.

(** ** The operations as one machine *)
Inductive acl_op :=
  | Op_start_bss (c : acl_config)
  | Op_set_mac_acl (c : acl_config)
  | Op_set_mode (mode : Z)
  | Op_modify (peer : mac_addr) (list_type cmd : Z)
  | Op_clear
  | Op_associate (peer : mac_addr).

Definition acl_step s (o : acl_op) : option (QDF_STATUS * sap_acl) :=
  match o with
  | Op_start_bss c => s ← start_bss_acl s c; Some (QDF_STATUS_SUCCESS, s)
  | Op_set_mac_acl c => wlansap_set_mac_acl s c
  | Op_set_mode m => Some (wlansap_set_mode s m)
  | Op_modify p t c => wlansap_modify_acl s p t c
  | Op_clear => wlansap_clear_acl s
  | Op_associate p => sap_is_peer_mac_allowed s p
  end.

(** The statuses in order, and the final state. *)
Fixpoint acl_run s (ops : list acl_op) : option (list QDF_STATUS * sap_acl) :=
  match ops with
  | [] => Some ([], s)
  | o :: ops' =>
      '(st, s) ← acl_step s o;
      '(sts, s) ← acl_run s ops';
      Some (st :: sts, s)
  end.
End ops.

(** ** Sorting

    One pass of the inner loop carries the greatest address seen so far. *)
Section sort.
Context `{MemCmpOk}.
Implicit Types (l p q r a b : list mac_addr) (x y z m : mac_addr).

Abbreviation le := (cmp_le qdf_mem_cmp).
Abbreviation sorted := (cmp_sorted qdf_mem_cmp).

Fixpoint bubble x l : list mac_addr :=
  match l with
  | [] => [x]
  | y :: l' => if 0 <? qdf_mem_cmp x y then y :: bubble x l' else x :: bubble y l'
  end.

Lemma sort_step_mid p x y r :
  sort_step (p ++ x :: y :: r) (Z.of_nat (length p)) =
  Some (p ++ (if 0 <? qdf_mem_cmp x y then y :: x :: r else x :: y :: r)).
Proof.
  unfold sort_step. rewrite aget_mid. cbn [mbind option_bind].
  assert (Hp : Z.of_nat (length p) + 1 = Z.of_nat (length (p ++ [x]))) by (rewrite length_app; cbn; lia).
  rewrite Hp. rewrite (app_assoc p [x] (y :: r) : p ++ x :: y :: r = (p ++ [x]) ++ y :: r).
  rewrite aget_mid. cbn [mbind option_bind].
  destruct (0 <? qdf_mem_cmp x y); [|by rewrite <- app_assoc].
  rewrite aset_mid. cbn [mbind option_bind].
  rewrite <- app_assoc. cbn [app]. apply (aset_mid p x (x :: r) y).
Qed.

Lemma inner_loop p x q r :
  for_opt sort_step (seqZ (Z.of_nat (length p)) (Z.of_nat (length q))) (p ++ x :: q ++ r) =
  Some (p ++ bubble x q ++ r).
Proof.
  revert p x. induction q as [|y q IH]; intros p x; [done|].
  rewrite seqZ_cons by (cbn; lia). cbn [for_opt app].
  rewrite sort_step_mid. cbn [mbind option_bind].
  set (c := if 0 <? qdf_mem_cmp x y then x else y).
  set (o := if 0 <? qdf_mem_cmp x y then y else x).
  assert ((p ++ (if 0 <? qdf_mem_cmp x y then y :: x :: q ++ r else x :: y :: q ++ r)) = (p ++ [o]) ++ c :: q ++ r) as ->.
  { rewrite <- app_assoc. subst c o. by destruct (0 <? _). }
  replace (Z.succ (Z.of_nat (length p))) with (Z.of_nat (length (p ++ [o]))) by (rewrite length_app; cbn; lia).
  replace (Z.pred (Z.of_nat (length (y :: q)))) with (Z.of_nat (length q)) by (cbn; lia).
  rewrite IH, <- app_assoc. do 2 f_equal. cbn. subst c o. by destruct (0 <? _).
Qed.

Lemma bubble_perm x l : bubble x l ≡ₚ x :: l.
Proof.
  revert x. induction l as [|y l IH]; intros x; cbn; [done|].
  destruct (0 <? _); rewrite IH; [apply perm_swap|done].
Qed.

(** The last one of a pass is the greatest. *)
Lemma bubble_max x l : mac_wf x → Forall mac_wf l →
  ∃ a m, bubble x l = a ++ [m] ∧ ∀ y, y ∈ a → le y m.
Proof.
  intros Hx Hl. revert x Hx. induction Hl as [|y l Hy Hl IH]; intros x Hx; cbn.
  { exists [], x. split; [done|]. intros y Hy. by apply elem_of_nil in Hy. }
  assert (Hgo : ∀ c o, mac_wf c → mac_wf o → le o c →
    ∃ a m, o :: bubble c l = a ++ [m] ∧ ∀ y, y ∈ a → le y m).
  { intros c o Hc Ho Hoc. destruct (IH c Hc) as (a & m & E & Ham). exists (o :: a), m.
    rewrite E. split; [done|]. intros z [->|Hz]%elem_of_cons; [|by apply Ham].
    assert (Hcm : c ∈ a ++ [m]) by (rewrite <- E, bubble_perm; by left).
    assert (Hm : Forall mac_wf (a ++ [m])) by (rewrite <- E, bubble_perm; by constructor).
    rewrite Forall_forall in Hm.
    apply elem_of_app in Hcm as [Hcm|Hcm%list_elem_of_singleton]; [|by subst].
    apply (cmp_le_trans qdf_mem_cmp mac_wf _ c); [done|done|apply Hm; set_solver|done|by apply Ham]. }
  destruct (Z.ltb_spec 0 (qdf_mem_cmp x y)).
  - apply Hgo; [done..|]. by apply (cmp_gt_le qdf_mem_cmp mac_wf).
  - apply Hgo; [done..|]. unfold cmp_le. lia.
Qed.

(** A pass does not disturb a sorted suffix of greater addresses. *)
Lemma bubble_app x q b : sorted b → (∀ y z, y ∈ x :: q → z ∈ b → le y z) →
  bubble x (q ++ b) = bubble x q ++ b.
Proof.
  revert x. induction q as [|y q IH]; intros x Hb Hle; cbn.
  - assert (Hx : ∀ z, z ∈ b → le x z) by (intros; apply Hle; set_solver). clear Hle.
    revert x Hx. induction Hb as [|y b Hb IHb Hy]; intros x Hx; cbn; [done|].
    destruct (Z.ltb_spec 0 (qdf_mem_cmp x y)) as [Hc|].
    { specialize (Hx y ltac:(by left)). unfold cmp_le in Hx. lia. }
    f_equal. rewrite Forall_forall in Hy. by apply IHb.
  - destruct (0 <? _); cbn; f_equal; apply IH; try done; intros ???; apply Hle; set_solver.
Qed.

Lemma sap_sort_mac_list_spec p r :
  Forall mac_wf p → (length p <= 32)%nat →
  ∃ p', sap_sort_mac_list (p ++ r) (Z.of_nat (length p)) = Some (p' ++ r) ∧ p' ≡ₚ p ∧ sorted p'.
Proof.
  intros Hwf Hlen. unfold sap_sort_mac_list.
  destruct (Z.ltb_spec MAX_ACL_MAC_ADDRESS (Z.of_nat (length p))) as [Hlt|_].
  { unfold MAX_ACL_MAC_ADDRESS in Hlt. lia. }
  edestruct (for_opt_ind (λ l _, for_opt sort_step (seqZ 0 (Z.of_nat (length p) - 1)) l)
    (λ k l, ∃ a b, l = a ++ b ++ r ∧ Z.of_nat (length b) = k ∧ a ++ b ≡ₚ p ∧ sorted b ∧
      ∀ y z, y ∈ a → z ∈ b → le y z)) as (l & -> & a & b & -> & Hb & Hperm & Hs & Hle).
  - lia.
  - exists p, []. rewrite app_nil_r. cbn. split; [done|]. split; [done|]. split; [done|].
    split; [constructor|]. intros y z _ Hz. by apply elem_of_nil in Hz.
  - intros i l Hi (a & b & -> & Hb & Hperm & Hs & Hle).
    pose proof (Permutation_length Hperm) as Hn. rewrite length_app in Hn.
    destruct a as [|x q]; [cbn in Hn; lia|].
    assert (Hq : Forall mac_wf (x :: q)).
    { rewrite <- Hperm in Hwf. by apply Forall_app in Hwf as [? _]. }
    apply Forall_cons in Hq as [Hx Hq].
    destruct (bubble_max x q Hx Hq) as (a & m & Eb & Ham).
    pose proof (bubble_perm x q) as Hbp. rewrite Eb in Hbp.
    exists (a ++ (m :: b) ++ r). split.
    + replace ((x :: q) ++ b ++ r) with (x :: (q ++ b) ++ r) by (cbn; by rewrite <- app_assoc).
      replace (Z.of_nat (length p) - 1) with (Z.of_nat (length (q ++ b))) by (rewrite length_app; cbn in Hn; lia).
      pose proof (inner_loop [] x (q ++ b) r : for_opt sort_step (seqZ 0 _) (x :: _) = _) as ->.
      rewrite bubble_app by done. rewrite Eb. cbn. by rewrite <- !app_assoc.
    + exists a, (m :: b). split; [done|]. split; [cbn; lia|].
      assert (Hsub : ∀ y, y ∈ a ++ [m] → y ∈ x :: q) by (intros y; by rewrite Hbp).
      split.
      { rewrite <- Hperm, <- Hbp, <- app_assoc. done. }
      split.
      { constructor; [done|]. rewrite Forall_forall. intros z Hz. apply Hle; [apply Hsub; set_solver|done]. }
      intros y z Hy [->|Hz]%elem_of_cons; [by apply Ham|]. apply Hle; [apply Hsub; set_solver|done].
  - pose proof (Permutation_length Hperm) as Hn. rewrite length_app in Hn.
    destruct a; [|cbn in Hn; lia]. by exists b.
Qed.
End sort.

(** ** Searching, inserting, removing *)
Section lists.
Context `{MemCmpOk}.
Implicit Types (l p q r a b : list mac_addr) (x y z m : mac_addr).

Abbreviation le := (cmp_le qdf_mem_cmp).
Abbreviation sorted := (cmp_sorted qdf_mem_cmp).

Lemma s8_id i : -128 <= i < 128 → s8 i = i.
Proof. intros. unfold s8. split_if; bool_hyps; word_lia. Qed.

(** The bisection keeps every position of the address between its bounds. *)
Lemma search_loop_spec fuel p r x nStart nEnd :
  Forall mac_wf p → mac_wf x → sorted p → (length p <= 32)%nat →
  0 <= nStart → nEnd < Z.of_nat (length p) → nStart <= nEnd + 1 →
  (∀ i, p !! i = Some x → nStart <= Z.of_nat i <= nEnd) →
  (Z.to_nat (nEnd - nStart + 1) < fuel)%nat →
  (∃ i, search_loop fuel (p ++ r) x nStart nEnd = Some (Some i) ∧ aget p i = Some x) ∨
  (search_loop fuel (p ++ r) x nStart nEnd = Some None ∧ x ∉ p).
Proof.
  intros Hwf Hx Hs Hlen. revert nStart nEnd.
  induction fuel as [|f IH]; intros nStart nEnd Hst Hend Hse Hin Hfuel; [lia|].
  cbn [search_loop]. destruct (Z.leb_spec nStart nEnd) as [Hle|Hgt].
  2:{ right. split; [done|]. intros (i & Hi)%list_elem_of_lookup. specialize (Hin i Hi). lia. }
  set (mid := (nStart + nEnd) ÷ 2).
  assert (Hmid : nStart <= mid <= nEnd).
  { subst mid. rewrite Z.quot_div_nonneg by lia. Z.div_mod_to_equations. lia. }
  rewrite s8_id by lia.
  destruct (lookup_lt_is_Some_2 p (Z.to_nat mid)) as [m Hm]; [lia|].
  assert (aget (p ++ r) mid = Some m) as ->.
  { apply aget_lookup; [lia|]. by apply lookup_app_l_Some. }
  cbn [mbind option_bind].
  assert (Hwm : mac_wf m) by (by apply (Forall_lookup_1 _ _ _ _ Hwf Hm)).
  assert (Hu8 : u8 mid = mid) by (apply u8_small; red; lia).
  destruct (Z.eqb_spec (qdf_mem_cmp m x) 0) as [He|Hne].
  { left. exists mid. rewrite Hu8. split; [done|]. apply aget_lookup; [lia|].
    apply (cmp_eq qdf_mem_cmp mac_wf) in He; [by subst|done..]. }
  rewrite !s8_id by lia.
  assert (Hnx : m ≠ x).
  { intros ->. apply Hne. by apply (cmp_eq qdf_mem_cmp mac_wf). }
  destruct (Z.ltb_spec (qdf_mem_cmp m x) 0) as [Hlt|Hge].
  - apply IH; [lia..| |lia]. intros i Hi. specialize (Hin i Hi).
    destruct (Nat.lt_trichotomy i (Z.to_nat mid)) as [Hl|[->|Hl]]; [|congruence|lia].
    pose proof (cmp_sorted_lookup qdf_mem_cmp p i (Z.to_nat mid) x m Hs Hl Hi Hm) as Hc.
    assert (Hwx := cmp_flip qdf_mem_cmp mac_wf m x Hwm Hx). unfold cmp_le in Hc. lia.
  - apply IH; [lia..| |lia]. intros i Hi. specialize (Hin i Hi).
    destruct (Nat.lt_trichotomy i (Z.to_nat mid)) as [Hl|[->|Hl]]; [lia|congruence|].
    pose proof (cmp_sorted_lookup qdf_mem_cmp p (Z.to_nat mid) i m x Hs Hl Hm Hi) as Hc.
    unfold cmp_le in Hc. lia.
Qed.

Lemma sap_search_mac_list_spec p r x :
  Forall mac_wf p → mac_wf x → sorted p → (length p <= 32)%nat →
  (∃ i, sap_search_mac_list (p ++ r) (Z.of_nat (length p)) x = Some (Some i) ∧ aget p i = Some x) ∨
  (sap_search_mac_list (p ++ r) (Z.of_nat (length p)) x = Some None ∧ x ∉ p).
Proof.
  intros Hwf Hx Hs Hlen. unfold sap_search_mac_list.
  destruct (Z.ltb_spec MAX_ACL_MAC_ADDRESS (Z.of_nat (length p))) as [Hlt|_].
  { unfold MAX_ACL_MAC_ADDRESS in Hlt. lia. }
  rewrite s8_id by lia.
  apply search_loop_spec; try done; try lia. intros i Hi%lookup_lt_Some. lia.
Qed.

(** The greater addresses move one up and leave a hole for the new one. *)
Lemma add_loop_spec p y r x :
  ∃ p1 p2, p = p1 ++ p2 ∧ Forall (λ z, 0 < qdf_mem_cmp z x) p2 ∧
    (∀ z, last p1 = Some z → qdf_mem_cmp z x <= 0) ∧
    add_loop (length p) (p ++ y :: r) x ≫= (λ '(l, i), aset l (i + 1) x) = Some (p1 ++ x :: p2 ++ r).
Proof.
  revert y r. induction p as [|a p IH] using rev_ind; intros y r.
  { exists [], []. split; [done|]. split; [constructor|]. split; [done|]. apply (aset_mid [] y r x). }
  rewrite length_app, Nat.add_1_r. cbn [add_loop].
  rewrite <- app_assoc. cbn [app]. rewrite aget_mid. cbn [mbind option_bind].
  destruct (Z.ltb_spec 0 (qdf_mem_cmp a x)) as [Hgt|Hle].
  - assert (Hs : aset (p ++ a :: y :: r) (Z.of_nat (length p) + 1) a = Some (p ++ a :: a :: r)).
    { replace (Z.of_nat (length p) + 1) with (Z.of_nat (length (p ++ [a]))) by (rewrite length_app; cbn; lia).
      rewrite (app_assoc p [a] (y :: r) : p ++ a :: y :: r = _). rewrite aset_mid. by rewrite <- app_assoc. }
    rewrite Hs. cbn [mbind option_bind].
    destruct (IH a (a :: r)) as (p1 & p2 & -> & Hp2 & Hp1 & E).
    exists p1, (p2 ++ [a]). split; [by rewrite app_assoc|].
    split; [by apply Forall_app_2; [|constructor]|]. split; [done|].
    rewrite E. by rewrite <- app_assoc.
  - exists (p ++ [a]), []. split; [by rewrite app_nil_r|]. split; [constructor|]. split.
    { intros z. rewrite last_snoc. by intros [= <-]. }
    cbn [mbind option_bind].
    replace (Z.of_nat (length p) + 1) with (Z.of_nat (length (p ++ [a]))) by (rewrite length_app; cbn; lia).
    rewrite (app_assoc p [a] (y :: r) : p ++ a :: y :: r = _). apply aset_mid.
Qed.

Lemma sap_add_mac_to_acl_spec p y r x :
  Forall mac_wf p → mac_wf x → sorted p → (length p < 32)%nat →
  ∃ p', sap_add_mac_to_acl (p ++ y :: r) (Z.of_nat (length p)) x = Some (p' ++ r, Z.of_nat (length p')) ∧
    p' ≡ₚ x :: p ∧ sorted p'.
Proof.
  intros Hwf Hx Hs Hlen. unfold sap_add_mac_to_acl.
  destruct (Z.ltb_spec MAX_ACL_MAC_ADDRESS (Z.of_nat (length p))) as [Hlt|_].
  { unfold MAX_ACL_MAC_ADDRESS in Hlt. lia. }
  rewrite Nat2Z.id. destruct (add_loop_spec p y r x) as (p1 & p2 & -> & Hp2 & Hp1 & E).
  destruct (add_loop _ _ _) as [[l i]|]; [|done]. cbn [mbind option_bind] in E |- *.
  rewrite E. cbn [mbind option_bind].
  exists (p1 ++ x :: p2). split.
  { rewrite <- app_assoc. cbn. do 2 f_equal. rewrite u8_small by (red; lia).
    rewrite !length_app. cbn. lia. }
  split; [symmetry; apply Permutation_middle|].
  apply Forall_app in Hwf as [Hw1 Hw2]. apply cmp_sorted_app in Hs as (Hs1 & Hs2 & Hs12).
  rewrite Forall_forall in Hp2, Hw1, Hw2.
  apply cmp_sorted_app. split; [done|]. split.
  - constructor; [done|]. rewrite Forall_forall. intros z Hz.
    apply (cmp_gt_le qdf_mem_cmp mac_wf); auto.
  - intros z w Hz. rewrite elem_of_cons. intros [->|Hw]; [|by apply Hs12].
    destruct p1 as [|c p1 _] using rev_ind; [by apply elem_of_nil in Hz|].
    assert (Hc : le c x) by (apply Hp1, last_snoc).
    apply elem_of_app in Hz as [Hz|Hz%list_elem_of_singleton]; [|by subst].
    apply cmp_sorted_app in Hs1 as (_ & _ & Hs1).
    apply (cmp_le_trans qdf_mem_cmp mac_wf _ c); try done; [apply Hw1; set_solver..|].
    apply Hs1; set_solver.
Qed.

(** Moving the entries above a position one down. *)
Lemma shift_left p x q r :
  for_opt (λ l i, a ← aget l (i + 1); aset l i a)
    (seqZ (Z.of_nat (length p)) (Z.of_nat (length q))) (p ++ x :: q ++ r) =
  Some (p ++ q ++ [default x (last q)] ++ r).
Proof.
  revert p x. induction q as [|y q IH]; intros p x; [done|].
  rewrite seqZ_cons by (cbn; lia). cbn [for_opt app].
  assert (Hg : aget (p ++ x :: y :: q ++ r) (Z.of_nat (length p) + 1) = Some y).
  { replace (Z.of_nat (length p) + 1) with (Z.of_nat (length (p ++ [x]))) by (rewrite length_app; cbn; lia).
    rewrite (app_assoc p [x] (y :: q ++ r) : p ++ x :: y :: q ++ r = _). apply aget_mid. }
  rewrite Hg. cbn [mbind option_bind]. rewrite aset_mid. cbn [mbind option_bind].
  replace (Z.succ (Z.of_nat (length p))) with (Z.of_nat (length (p ++ [y]))) by (rewrite length_app; cbn; lia).
  replace (Z.pred (Z.of_nat (length (y :: q)))) with (Z.of_nat (length q)) by (cbn; lia).
  rewrite (app_assoc p [y] (y :: q ++ r) : p ++ y :: y :: q ++ r = _). rewrite IH.
  rewrite <- app_assoc, last_cons. cbn. by destruct (last q).
Qed.

Lemma sap_remove_mac_from_acl_spec p x q r :
  (length (p ++ x :: q) <= 32)%nat →
  sap_remove_mac_from_acl ((p ++ x :: q) ++ r) (Z.of_nat (length (p ++ x :: q))) (Z.of_nat (length p)) =
  Some ((p ++ q) ++ zero_mac :: r, Z.of_nat (length (p ++ q))).
Proof.
  intros Hlen. unfold sap_remove_mac_from_acl. rewrite length_app in *. cbn [length] in *.
  destruct (Z.eqb_spec (Z.of_nat (length p + S (length q))) 0); [lia|].
  destruct (Z.ltb_spec MAX_ACL_MAC_ADDRESS (Z.of_nat (length p + S (length q)))) as [Hlt|_].
  { unfold MAX_ACL_MAC_ADDRESS in Hlt. lia. }
  cbn [orb]. replace (Z.of_nat (length p + S (length q)) - 1 - Z.of_nat (length p)) with (Z.of_nat (length q)) by lia.
  rewrite <- app_assoc. cbn [app]. rewrite shift_left. cbn [mbind option_bind].
  replace (Z.of_nat (length p + S (length q)) - 1) with (Z.of_nat (length (p ++ q))) by (rewrite length_app; lia).
  rewrite app_assoc. cbn [app]. rewrite aset_mid. cbn [mbind option_bind].
  do 2 f_equal. rewrite length_app. apply u8_small. red. lia.
Qed.
End lists.

(** ** The lists as multisets *)
Record acl_spec := mk_spec {
  sp_mode : Z;
  whites : gmultiset mac_addr;
  blacks : gmultiset mac_addr;
  sp_events : list acl_event;
}.

Definition forced_deauth (peer : mac_addr) : acl_event :=
  Ev_deauth_sta (mk_del peer eCsrForcedDeauthSta (Z.shiftr SIR_MAC_MGMT_DEAUTH 4)).

Definition is_full (X : gmultiset mac_addr) : bool := bool_decide (size X = 32%nat).

(** Changing a list: an address of the other list moves, and a station that is
    black-listed or leaves the white list is deauthenticated. *)
Definition spec_modify (sp : acl_spec) (x : mac_addr) (list_type cmd : Z) : QDF_STATUS * acl_spec :=
  let 'mk_spec m W B ev := sp in
  let fail := (QDF_STATUS_E_FAILURE, sp) in
  if bool_decide (x ∈ W) && bool_decide (x ∈ B) then fail
  else if list_type =? eSAP_WHITE_LIST then
    if cmd =? ADD_STA_TO_ACL then
      if is_full W then fail
      else if bool_decide (x ∈ W) then (QDF_STATUS_SUCCESS, sp)
      else (QDF_STATUS_SUCCESS, mk_spec m ({[+ x +]} ⊎ W) (B ∖ {[+ x +]}) ev)
    else if cmd =? DELETE_STA_FROM_ACL then
      if bool_decide (x ∈ W) then (QDF_STATUS_SUCCESS, mk_spec m (W ∖ {[+ x +]}) B (forced_deauth x :: ev)) else fail
    else fail
  else if list_type =? eSAP_BLACK_LIST then
    if cmd =? ADD_STA_TO_ACL then
      if is_full B then fail
      else if bool_decide (x ∈ B) then (QDF_STATUS_SUCCESS, sp)
      else (QDF_STATUS_SUCCESS, mk_spec m (W ∖ {[+ x +]}) ({[+ x +]} ⊎ B) (forced_deauth x :: ev))
    else if cmd =? DELETE_STA_FROM_ACL then
      if bool_decide (x ∈ B) then (QDF_STATUS_SUCCESS, mk_spec m W (B ∖ {[+ x +]}) ev) else fail
    else fail
  else fail.

(** Whether a station may associate: the white list comes first. *)
Definition spec_associate (sp : acl_spec) (x : mac_addr) : QDF_STATUS * acl_spec :=
  let 'mk_spec m W B ev := sp in
  if (m =? eSAP_ALLOW_ALL) || bool_decide (x ∈ W) then (QDF_STATUS_SUCCESS, sp)
  else if bool_decide (x ∈ B) || (m =? eSAP_DENY_UNLESS_ACCEPTED) then (QDF_STATUS_E_FAILURE, sp)
  else if m =? eSAP_SUPPORT_ACCEPT_AND_DENY then
    (QDF_STATUS_E_FAILURE, mk_spec m W B (Ev_unknown_sta_join x :: ev))
  else (QDF_STATUS_SUCCESS, sp).

Definition config_set (l : list mac_addr) (n : Z) : gmultiset mac_addr :=
  list_to_set_disj (take (Z.to_nat n) l).

Definition acl_spec_step (sp : acl_spec) (o : acl_op) : QDF_STATUS * acl_spec :=
  let 'mk_spec m W B ev := sp in
  match o with
  | Op_start_bss c =>
      (QDF_STATUS_SUCCESS, mk_spec (SapMacaddr_acl c) (config_set (accept_mac c) (num_accept_mac c))
                             (config_set (deny_mac c) (num_deny_mac c)) ev)
  | Op_set_mac_acl c =>
      (QDF_STATUS_SUCCESS,
       if SapMacaddr_acl c =? eSAP_DENY_UNLESS_ACCEPTED
       then mk_spec (SapMacaddr_acl c) (config_set (accept_mac c) (num_accept_mac c)) B ev
       else if SapMacaddr_acl c =? eSAP_ACCEPT_UNLESS_DENIED
       then mk_spec (SapMacaddr_acl c) W (config_set (deny_mac c) (num_deny_mac c)) ev
       else mk_spec (SapMacaddr_acl c) W B ev)
  | Op_set_mode m => (QDF_STATUS_SUCCESS, mk_spec m W B ev)
  | Op_modify x t c => spec_modify sp x t c
  | Op_clear => (QDF_STATUS_SUCCESS, mk_spec m ∅ ∅ ev)
  | Op_associate x => spec_associate sp x
  end.

Fixpoint acl_spec_run (sp : acl_spec) (ops : list acl_op) : list QDF_STATUS * acl_spec :=
  match ops with
  | [] => ([], sp)
  | o :: ops' =>
      let '(st, sp) := acl_spec_step sp o in
      let '(sts, sp) := acl_spec_run sp ops' in
      (st :: sts, sp)
  end.

(** Configured arrays have 32 entries, of which at most 32 are in use. *)
Definition config_ok (l : list mac_addr) (n : Z) : Prop :=
  length l = 32%nat ∧ Forall mac_wf l ∧ 0 <= n <= 32.

Definition acl_op_ok (o : acl_op) : Prop :=
  match o with
  | Op_start_bss c | Op_set_mac_acl c =>
      config_ok (accept_mac c) (num_accept_mac c) ∧ config_ok (deny_mac c) (num_deny_mac c)
  | Op_modify x _ _ | Op_associate x => mac_wf x
  | Op_set_mode _ | Op_clear => True
  end.

(** ** The refinement *)
#[local] Arguments Z.eqb : simpl never.

Section refinement.
Context `{MemCmpOk}.
Implicit Types (l p q r : list mac_addr) (x : mac_addr) (X : gmultiset mac_addr) (s : sap_acl) (sp : acl_spec).

Abbreviation sorted := (cmp_sorted qdf_mem_cmp).

(** The array [l] with [n] sorted entries in use represents [X]. *)
Definition list_rep l (n : Z) X : Prop :=
  ∃ p r, l = p ++ r ∧ n = Z.of_nat (length p) ∧ length l = 32%nat ∧ Forall mac_wf l ∧ sorted p ∧
    X = list_to_set_disj p.

Definition acl_rel s sp : Prop :=
  list_rep (acceptMacList s) (nAcceptMac s) (whites sp) ∧
  list_rep (denyMacList s) (nDenyMac s) (blacks sp) ∧
  eSapMacAddrAclMode s = sp_mode sp ∧ acl_events s = sp_events sp.

Lemma zero_mac_wf : mac_wf zero_mac.
Proof. split; [done|]. unfold zero_mac. repeat (constructor; [red; lia|]). constructor. Qed.

Lemma size_list_to_set_disj p : size (list_to_set_disj p : gmultiset mac_addr) = length p.
Proof.
  induction p as [|x p IH]; [done|]. rewrite list_to_set_disj_cons, gmultiset_size_disj_union, IH.
  by rewrite gmultiset_size_singleton.
Qed.

Lemma list_rep_size l n X : list_rep l n X → n = Z.of_nat (size X) ∧ 0 <= n <= 32.
Proof.
  intros (p & r & -> & -> & Hl & _ & _ & ->). rewrite length_app in Hl.
  rewrite size_list_to_set_disj. lia.
Qed.

Lemma list_rep_full l n X : list_rep l n X → (n =? MAX_ACL_MAC_ADDRESS) = is_full X.
Proof.
  intros [-> _]%list_rep_size. unfold is_full, MAX_ACL_MAC_ADDRESS.
  case_bool_decide; [apply Z.eqb_eq|apply Z.eqb_neq]; lia.
Qed.

Lemma list_rep_empty l : length l = 32%nat → Forall mac_wf l → list_rep l 0 ∅.
Proof. intros. exists [], l. split_and!; try done. constructor. Qed.

Lemma sort_rep l n : config_ok l n →
  ∃ l', sap_sort_mac_list l n = Some l' ∧ list_rep l' n (config_set l n).
Proof.
  intros (Hl & Hwf & Hn). set (p := take (Z.to_nat n) l). set (r := drop (Z.to_nat n) l).
  assert (Elr : l = p ++ r) by (symmetry; apply take_drop).
  assert (En : n = Z.of_nat (length p)) by (subst p; rewrite length_take; lia).
  pose proof Hwf as Hwf'. rewrite Elr in Hwf'. apply Forall_app in Hwf' as [Hp Hr].
  destruct (sap_sort_mac_list_spec p r Hp) as (p' & E & Hperm & Hs); [lia|].
  exists (p' ++ r). rewrite Elr at 1. rewrite En at 1. split; [done|].
  exists p', r. pose proof (Permutation_length Hperm) as Hlp.
  split_and!; [done|lia| |by rewrite Forall_app, Hperm|done|].
  - rewrite Elr, length_app in Hl. rewrite length_app. lia.
  - unfold config_set. fold p. by rewrite Hperm.
Qed.

Lemma search_rep l n X x : list_rep l n X → mac_wf x →
  (∃ p q r, l = (p ++ x :: q) ++ r ∧ n = Z.of_nat (length (p ++ x :: q)) ∧
     sap_search_mac_list l n x = Some (Some (Z.of_nat (length p))) ∧ x ∈ X) ∨
  (sap_search_mac_list l n x = Some None ∧ x ∉ X).
Proof.
  intros (p & r & -> & -> & Hl & Hwf & Hs & ->) Hx. rewrite length_app in Hl.
  pose proof Hwf as [Hp _]%Forall_app.
  destruct (sap_search_mac_list_spec p r x Hp Hx Hs) as [(i & E & Hi)|[E Hni]]; [lia| |].
  2:{ right. split; [done|]. by rewrite elem_of_list_to_set_disj. }
  left. pose proof (aget_Some _ _ _ Hi) as Hb. apply aget_lookup in Hi; [|lia].
  apply list_elem_of_split_length in Hi as (p1 & p2 & -> & Hp1).
  exists p1, p2, r. rewrite E. split_and!; try done; [do 2 f_equal; lia|].
  rewrite elem_of_list_to_set_disj. set_solver.
Qed.

Lemma remove_rep l n X p x q r :
  list_rep l n X → l = (p ++ x :: q) ++ r → n = Z.of_nat (length (p ++ x :: q)) →
  ∃ l' n', sap_remove_mac_from_acl l n (Z.of_nat (length p)) = Some (l', n') ∧ list_rep l' n' (X ∖ {[+ x +]}).
Proof.
  intros (p0 & r0 & E1 & E2 & Hl & Hwf & Hs & ->) -> Hn.
  assert (p0 = p ++ x :: q ∧ r0 = r) as [-> ->].
  { apply app_inj_1; [lia|done]. }
  rewrite Hn. rewrite sap_remove_mac_from_acl_spec by (rewrite length_app in Hl; lia).
  eexists _, _. split; [done|]. exists (p ++ q), (zero_mac :: r).
  apply Forall_app in Hwf as [Hw1 Hw2]. apply Forall_app in Hw1 as [Hw1 Hw3].
  apply Forall_cons in Hw3 as [_ Hw3].
  apply cmp_sorted_app in Hs as (Hs1 & Hs2 & Hs12). apply StronglySorted_inv in Hs2 as [Hs2 Hs3].
  split_and!; try done.
  - rewrite !length_app in Hl |- *. cbn in Hl |- *. lia.
  - rewrite !Forall_app, Forall_cons. split_and!; try done. apply zero_mac_wf.
  - apply cmp_sorted_app. split_and!; try done. intros a b Ha Hb. apply Hs12; set_solver.
  - rewrite <- Permutation_middle, list_to_set_disj_cons. multiset_solver.
Qed.

Lemma add_rep l n X x : list_rep l n X → mac_wf x → is_full X = false →
  ∃ l' n', sap_add_mac_to_acl l n x = Some (l', n') ∧ list_rep l' n' ({[+ x +]} ⊎ X).
Proof.
  intros HX Hx Hfull. pose proof (list_rep_full _ _ _ HX) as Hn. rewrite Hfull in Hn. bool_hyps.
  destruct HX as (p & r & -> & -> & Hl & Hwf & Hs & ->). pose proof Hl as Hl'. rewrite length_app in Hl'.
  unfold MAX_ACL_MAC_ADDRESS in Hn. destruct r as [|y r]; [cbn in Hl'; lia|]. cbn in Hl'.
  apply Forall_app in Hwf as [Hp Hr]. apply Forall_cons in Hr as [_ Hr].
  destruct (sap_add_mac_to_acl_spec p y r x Hp Hx Hs) as (p' & E & Hperm & Hs'); [lia|].
  eexists _, _. split; [done|]. exists p', r. pose proof (Permutation_length Hperm) as Hlp. cbn in Hlp.
  split_and!; try done.
  - rewrite length_app. lia.
  - rewrite Forall_app, Hperm, Forall_cons. done.
  - by rewrite Hperm, list_to_set_disj_cons.
Qed.

Lemma clear_rep l n X : list_rep l n X →
  ∃ l', clear_list l n = Some l' ∧ list_rep l' 0 ∅.
Proof.
  intros HX. pose proof (list_rep_size _ _ _ HX) as [_ Hn].
  destruct HX as (p & r & _ & _ & Hl & Hwf & _).
  destruct (Z.eq_dec n 0) as [->|Hn0].
  { exists l. split; [done|]. by apply list_rep_empty. }
  edestruct (for_opt_ind (λ l i, aset l i zero_mac)
    (λ _ l, length l = 32%nat ∧ Forall mac_wf l) (n - 1) l) as (l' & E & Hl' & Hwf'); [lia|done| |].
  - intros i l' Hi [Hl' Hwf']. eexists. split; [apply aset_zset; lia|].
    split; [by rewrite length_zset|]. by apply Forall_insert, zero_mac_wf.
  - exists l'. split; [done|]. by apply list_rep_empty.
Qed.

#[local] Ltac acl_done := eexists; split; [done|by split_and!].
#[local] Ltac acl_cases := repeat (split_if; cbn; [try acl_done|]); try acl_done.

Lemma modify_refines s sp x t c :
  acl_rel s sp → mac_wf x →
  ∃ s', wlansap_modify_acl s x t c = Some (fst (spec_modify sp x t c), s') ∧
    acl_rel s' (snd (spec_modify sp x t c)).
Proof.
  destruct sp as [m W B ev], s as [m' la na ld nd ev'].
  intros (HW & HB & Hm & Hev) Hx. cbn in HW, HB, Hm, Hev. subst m' ev'.
  unfold wlansap_modify_acl, spec_modify. cbn.
  destruct (search_rep _ _ _ _ HW Hx) as [(p & q & r & Ela & Ena & -> & HxW)|[-> HxW]];
  destruct (search_rep _ _ _ _ HB Hx) as [(p' & q' & r' & Eld & End' & -> & HxB)|[-> HxB]]; cbn;
  rewrite ?(bool_decide_true (x ∈ W)), ?(bool_decide_true (x ∈ B)),
    ?(bool_decide_false (x ∈ W)), ?(bool_decide_false (x ∈ B)) by done; cbn.
  - eexists. split; [done|]. by split_and!.
  - unfold modify_white, modify_black. cbn.
    rewrite (list_rep_full _ _ _ HW), (list_rep_full _ _ _ HB).
    destruct (remove_rep _ _ _ _ _ _ _ HW Ela Ena) as (l1 & n1 & Hrem & Hl1).
    acl_cases.
    + unfold remove_accept. cbn. rewrite Hrem. cbn. acl_done.
    + unfold remove_accept. cbn. rewrite Hrem. cbn. unfold add_deny. cbn.
      destruct (add_rep _ _ _ _ HB Hx) as (l2 & n2 & Hadd & Hl2); [done|]. rewrite Hadd. cbn.
      acl_done.
  - unfold modify_white, modify_black. cbn.
    rewrite (list_rep_full _ _ _ HW), (list_rep_full _ _ _ HB).
    destruct (remove_rep _ _ _ _ _ _ _ HB Eld End') as (l1 & n1 & Hrem & Hl1).
    acl_cases.
    + unfold remove_deny. cbn. rewrite Hrem. cbn. unfold add_accept. cbn.
      destruct (add_rep _ _ _ _ HW Hx) as (l2 & n2 & Hadd & Hl2); [done|]. rewrite Hadd. cbn.
      acl_done.
    + unfold remove_deny. cbn. rewrite Hrem. cbn. acl_done.
  - unfold modify_white, modify_black. cbn.
    rewrite (list_rep_full _ _ _ HW), (list_rep_full _ _ _ HB).
    assert (HWx : W ∖ {[+ x +]} = W) by multiset_solver.
    assert (HBx : B ∖ {[+ x +]} = B) by multiset_solver.
    rewrite HWx, HBx.
    acl_cases.
    + unfold add_accept. cbn.
      destruct (add_rep _ _ _ _ HW Hx) as (l2 & n2 & Hadd & Hl2); [done|]. rewrite Hadd. cbn.
      acl_done.
    + unfold add_deny. cbn.
      destruct (add_rep _ _ _ _ HB Hx) as (l2 & n2 & Hadd & Hl2); [done|]. rewrite Hadd. cbn.
      acl_done.
Qed.

Lemma associate_refines s sp x :
  acl_rel s sp → mac_wf x →
  ∃ s', sap_is_peer_mac_allowed s x = Some (fst (spec_associate sp x), s') ∧
    acl_rel s' (snd (spec_associate sp x)).
Proof.
  destruct sp as [m W B ev], s as [m' la na ld nd ev'].
  intros (HW & HB & Hm & Hev) Hx. cbn in HW, HB, Hm, Hev. subst m' ev'.
  unfold sap_is_peer_mac_allowed, spec_associate. cbn.
  rewrite !(Z.eqb_sym _ m).
  destruct (m =? eSAP_ALLOW_ALL); cbn; [acl_done|].
  destruct (search_rep _ _ _ _ HW Hx) as [(p & q & r & _ & _ & -> & HxW)|[-> HxW]]; cbn.
  { rewrite bool_decide_true by done. acl_done. }
  destruct (search_rep _ _ _ _ HB Hx) as [(p & q & r & _ & _ & -> & HxB)|[-> HxB]]; cbn;
    rewrite (bool_decide_false (x ∈ W)) by done;
    [rewrite (bool_decide_true (x ∈ B)) by done; cbn; acl_done|].
  rewrite (bool_decide_false (x ∈ B)) by done. cbn.
  destruct (Z.eqb_spec m eSAP_ACCEPT_UNLESS_DENIED) as [->|]; cbn; [acl_done|]. acl_cases.
Qed.

Lemma step_refines s sp o :
  acl_rel s sp → acl_op_ok o →
  ∃ s', acl_step s o = Some (fst (acl_spec_step sp o), s') ∧ acl_rel s' (snd (acl_spec_step sp o)).
Proof.
  intros Hr Ho. destruct o as [c|c|m|x t c| |x]; cbn [acl_step].
  3:{ destruct sp. destruct Hr as (? & ? & ? & ?). eexists. split; [done|by split_and!]. }
  3:{ destruct sp. by apply modify_refines. }
  4:{ destruct sp. by apply associate_refines. }
  all: destruct sp as [m W B ev], s as [m' la na ld nd ev'], Hr as (HW & HB & Hm & Hev);
    cbn in HW, HB, Hm, Hev; subst m' ev'.
  - destruct Ho as [Ha Hd]. destruct (sort_rep _ _ Ha) as (l1 & E1 & H1), (sort_rep _ _ Hd) as (l2 & E2 & H2).
    unfold start_bss_acl. rewrite E1, E2. acl_done.
  - destruct Ho as [Ha Hd]. destruct (sort_rep _ _ Ha) as (l1 & E1 & H1), (sort_rep _ _ Hd) as (l2 & E2 & H2).
    unfold wlansap_set_mac_acl, acl_spec_step. cbn. rewrite !(Z.eqb_sym _ (SapMacaddr_acl c)), E1, E2. cbn.
    acl_cases.
  - destruct (clear_rep _ _ _ HB) as (ld' & E1 & H1), (clear_rep _ _ _ HW) as (la' & E2 & H2).
    unfold wlansap_clear_acl. cbn. rewrite E1, E2. acl_done.
Qed.

(** C19: the sorted arrays of addresses implement two multisets.  From related
    states, every sequence of configurations, changes, clearings and
    association requests (with configured counts of at most 32) returns the
    statuses and emits the events that the operations on the multisets give, in
    the same order; no access leaves an array, every search ends, and the final
    states are related again: the entries in use are sorted and are exactly the
    multisets. *)
Theorem acl_refines_multisets s sp ops :
  acl_rel s sp → Forall acl_op_ok ops →
  ∃ s', acl_run s ops = Some (fst (acl_spec_run sp ops), s') ∧ acl_rel s' (snd (acl_spec_run sp ops)).
Proof.
  intros Hr Hops. revert s sp Hr. induction Hops as [|o ops Ho Hops IH]; intros s sp Hr.
  { by exists s. }
  cbn [acl_run acl_spec_run]. destruct (step_refines s sp o Hr Ho) as (s1 & -> & H1).
  destruct (acl_spec_step sp o) as [st sp1]. cbn in H1 |- *.
  destruct (IH s1 sp1 H1) as (s2 & -> & H2). destruct (acl_spec_run sp1 ops) as [sts sp2].
  cbn in H2 |- *. by exists s2.
Qed.

(** The guard of sap_add_mac_to_acl lets a full list through, and the address
    is written behind the array; wlansap_modify_acl checks the size before. *)
Lemma add_to_full_list p x :
  length p = 32%nat → Forall mac_wf p → mac_wf x → (∀ z, z ∈ p → 0 < qdf_mem_cmp z x → False) →
  sap_add_mac_to_acl p 32 x = None.
Proof.
  intros Hp Hwf Hx Hmax. unfold sap_add_mac_to_acl. cbn -[add_loop].
  destruct p as [|a p _] using rev_ind; [done|]. rewrite length_app, Nat.add_1_r in Hp. injection Hp as Hp.
  assert (Ha : aget (p ++ [a]) (Z.of_nat 31) = Some a) by (rewrite <- Hp; apply aget_mid).
  change (Z.to_nat 32) with (S 31). revert Ha Hp. generalize 31%nat. intros k Ha Hp.
  cbn [add_loop]. rewrite Ha. cbn [mbind option_bind].
  destruct (Z.ltb_spec 0 (qdf_mem_cmp a x)) as [Hgt|].
  { exfalso. apply (Hmax a); [set_solver|done]. }
  cbn [mbind option_bind]. unfold aset. rewrite length_app, Hp. cbn [length].
  rewrite (proj2 (Z.ltb_ge _ _)) by lia. by rewrite andb_false_r.
Qed.
End refinement.
