(* ===== verification/SapNol.v ===== *)
(** The non-occupancy list of a soft AP: core/sap/src/sap_fsm.c and
    sap_module.c.

    For every channel with radar detection (DFS) of the regulatory domain the
    driver keeps the time of a radar on it; the channel must not be used for 30
    minutes from then on, and a radar within these minutes does not change the
    time.  The list is an array of 40 entries of which the first
    [numCurrentRegDomainDfsChannels] are in use.  The clock
    (cds_get_monotonic_boottime, microseconds) is read once per operation and is
    an argument.  Array accesses are checked: [None] is an access outside an
    array. *)
From S2P Require Import Prelude Arrays CdsTables CdsConn.

Definition NUM_5GHZ_CHANNELS : Z := 40.
Definition SAP_DFS_NON_OCCUPANCY_PERIOD : Z := 30 * 60 * 1000 * 1000.
Definition MAX_BONDED_CHANNELS : Z := 8.
Definition UINT_MAX : Z := 4294967295.

(** [eSapDfsChanStatus_t]; the platform may hand over other numbers. *)
Definition eSAP_DFS_CHANNEL_USABLE : Z := 0.
Definition eSAP_DFS_CHANNEL_AVAILABLE : Z := 1.
Definition eSAP_DFS_CHANNEL_UNAVAILABLE : Z := 2.

Record tSapDfsNolInfo := mk_nol {
  dfs_channel_number : Z;
  radar_status_flag : Z;
  radar_found_timestamp : Z;
}.
#[export] Instance nol_eta : Eta tSapDfsNolInfo := fun e =>
  mk_nol (dfs_channel_number e) (radar_status_flag e) (radar_found_timestamp e).
#[export] Instance nol_eq_dec : EqDecision tSapDfsNolInfo.
Proof. solve_decision. Defined.
Definition zero_nol : tSapDfsNolInfo := mk_nol 0 0 0.
#[export] Instance nol_inhabited : Inhabited tSapDfsNolInfo := populate zero_nol.

(** What SAP tells the HDD layer. *)
Inductive nol_event :=
  | Ev_nol_get
  | Ev_nol_set (entries : list tSapDfsNolInfo)
  | Ev_no_available_channel.

(** The fields of tSapDfsInfo that the modelled functions use. *)
Record tSapDfsInfo := mk_sap_dfs {
  sap_radar_found_status : bool;
  csaIERequired : bool;
  numCurrentRegDomainDfsChannels : Z;
  sapDfsChannelNolList : list tSapDfsNolInfo;
  orig_chanWidth : phy_ch_width;
  new_chanWidth : phy_ch_width;
  new_ch_width : phy_ch_width;                  (* new_ch_params.ch_width *)
  new_center_freq_seg1 : Z;                     (* new_ch_params.center_freq_seg1 *)
  is_dfs_w53_disabled : bool;
  sap_operating_chan_preferred_location : Z;
  tx_leakage_threshold : Z;
  dfs_events : list nol_event;                  (* newest first *)
}.
#[export] Instance nol_dfs_eta : Eta tSapDfsInfo := fun d =>
  mk_sap_dfs (sap_radar_found_status d) (csaIERequired d) (numCurrentRegDomainDfsChannels d) (sapDfsChannelNolList d)
    (orig_chanWidth d) (new_chanWidth d) (new_ch_width d) (new_center_freq_seg1 d) (is_dfs_w53_disabled d)
    (sap_operating_chan_preferred_location d) (tx_leakage_threshold d) (dfs_events d).

(** [ePhyChanBondState] *)
Definition PHY_SINGLE_CHANNEL_CENTERED : Z := 0.
Definition PHY_DOUBLE_CHANNEL_LOW_PRIMARY : Z := 1.
Definition PHY_DOUBLE_CHANNEL_HIGH_PRIMARY : Z := 3.
Definition PHY_QUADRUPLE_CHANNEL_20MHZ_LOW_40MHZ_LOW : Z := 7.
Definition PHY_QUADRUPLE_CHANNEL_20MHZ_HIGH_40MHZ_LOW : Z := 8.
Definition PHY_QUADRUPLE_CHANNEL_20MHZ_LOW_40MHZ_HIGH : Z := 9.
Definition PHY_QUADRUPLE_CHANNEL_20MHZ_HIGH_40MHZ_HIGH : Z := 10.

Section ops.
Implicit Types (d : tSapDfsInfo) (e : tSapDfsNolInfo) (l : list tSapDfsNolInfo).

Definition emit_dfs (ev : nol_event) d : tSapDfsInfo := d <| dfs_events ::= cons ev |>.

(** eSAP_DFS_NOL_SET carries the entries in use. *)
Definition signal_nol_set d : tSapDfsInfo :=
  emit_dfs (Ev_nol_set (zread (sapDfsChannelNolList d) 0 (numCurrentRegDomainDfsChannels d))) d.

Definition sap_get_bonding_channels (channel size chanBondState : Z) : list Z :=
  if size <? MAX_BONDED_CHANNELS then []
  else if chanBondState =? PHY_SINGLE_CHANNEL_CENTERED then [channel]
  else if chanBondState =? PHY_DOUBLE_CHANNEL_HIGH_PRIMARY then [u8 (channel - 4); channel]
  else if chanBondState =? PHY_DOUBLE_CHANNEL_LOW_PRIMARY then [channel; u8 (channel + 4)]
  else if chanBondState =? PHY_QUADRUPLE_CHANNEL_20MHZ_LOW_40MHZ_LOW then
    [channel; u8 (channel + 4); u8 (channel + 8); u8 (channel + 12)]
  else if chanBondState =? PHY_QUADRUPLE_CHANNEL_20MHZ_HIGH_40MHZ_LOW then
    [u8 (channel - 4); channel; u8 (channel + 4); u8 (channel + 8)]
  else if chanBondState =? PHY_QUADRUPLE_CHANNEL_20MHZ_LOW_40MHZ_HIGH then
    [u8 (channel - 8); u8 (channel - 4); channel; u8 (channel + 4)]
  else if chanBondState =? PHY_QUADRUPLE_CHANNEL_20MHZ_HIGH_40MHZ_HIGH then
    [u8 (channel - 12); u8 (channel - 8); u8 (channel - 4); channel]
  else [channel].

(** *** Marking *)

Definition mark_entry (time : Z) e : tSapDfsNolInfo :=
  if (radar_status_flag e =? eSAP_DFS_CHANNEL_UNAVAILABLE) &&
     (u64 (time - radar_found_timestamp e) <? SAP_DFS_NON_OCCUPANCY_PERIOD) then e
  else e <| radar_found_timestamp := time |> <| radar_status_flag := eSAP_DFS_CHANNEL_UNAVAILABLE |>.

(** for (j = 0; j <= nRegDomainDfsChannels; j++) *)
Definition mark_channel (n c time : Z) l : option (list tSapDfsNolInfo) :=
  for_opt (λ l j, e ← aget l j; if dfs_channel_number e =? c then aset l j (mark_entry time e) else Some l)
    (seqZ 0 (n + 1)) l.

Definition sap_mark_dfs_channels d (channels : list Z) (numChannels time : Z) : option tSapDfsInfo :=
  l ← for_opt (λ l i, c ← aget channels i; mark_channel (numCurrentRegDomainDfsChannels d) c time l)
        (seqZ 0 numChannels) (sapDfsChannelNolList d);
  Some (d <| sapDfsChannelNolList := l |>).

(** *** Looking up *)

Definition sap_dfs_check_if_channel_avaialable e (current_time : Z) : bool * tSapDfsNolInfo :=
  if (radar_status_flag e =? eSAP_DFS_CHANNEL_USABLE) || (radar_status_flag e =? eSAP_DFS_CHANNEL_AVAILABLE)
  then (true, e)
  else if radar_status_flag e =? eSAP_DFS_CHANNEL_UNAVAILABLE then
    let time_when_radar_found := radar_found_timestamp e in
    let time_since_last_radar :=
      if current_time <? time_when_radar_found
      then u64 (u64 (UINT_MAX * 1000 - time_when_radar_found) + current_time)
      else u64 (current_time - time_when_radar_found) in
    if SAP_DFS_NON_OCCUPANCY_PERIOD <=? time_since_last_radar
    then (true, e <| radar_status_flag := eSAP_DFS_CHANNEL_AVAILABLE |> <| radar_found_timestamp := 0 |>)
    else (false, e)
  else (true, e).

(** The loop over the entries for one channel: the list, and the index of the
    entry that is not available. *)
Fixpoint nol_scan (idxs : list Z) (c now : Z) l : option (list tSapDfsNolInfo * option Z) :=
  match idxs with
  | [] => Some (l, None)
  | i :: rest =>
      e ← aget l i;
      if negb (dfs_channel_number e =? c) then nol_scan rest c now l
      else
        let '(available, e) := sap_dfs_check_if_channel_avaialable e now in
        l ← aset l i e;
        if available then nol_scan rest c now l else Some (l, Some i)
  end.

(** The loop over the bonded channels. *)
Fixpoint bonded_scan (n : Z) (channels : list Z) (now : Z) l : option (list tSapDfsNolInfo * option Z) :=
  match channels with
  | [] => Some (l, None)
  | c :: rest =>
      '(l, hit) ← nol_scan (seqZ 0 n) c now l;
      match hit with
      | Some i => Some (l, Some i)
      | None => bonded_scan n rest now l
      end
  end.

Definition sap_dfs_is_channel_in_nol_list d (channel_number chan_bondState now : Z) : option (bool * tSapDfsInfo) :=
  let n := numCurrentRegDomainDfsChannels d in
  if (n =? 0) || (NUM_5GHZ_CHANNELS <? n) then Some (false, d)
  else
    let channels := sap_get_bonding_channels channel_number MAX_BONDED_CHANNELS chan_bondState in
    '(l, hit) ← bonded_scan n channels now (sapDfsChannelNolList d);
    let d := d <| sapDfsChannelNolList := l |> in
    match hit with
    | None => Some (false, d)
    | Some i =>
        nol ← aget l i;
        d ← sap_mark_dfs_channels d channels (Z.of_nat (length channels)) (radar_found_timestamp nol);
        Some (true, signal_nol_set d)
    end.

(** *** The list as a whole *)

(** One entry of wlansap_get_dfs_nol, and the channel if it is unavailable. *)
Definition get_nol_entry e (current_time : Z) : tSapDfsNolInfo * option Z :=
  if dfs_channel_number e =? 0 then (e, None)
  else
    let elapsed_time := u64 (current_time - radar_found_timestamp e) in
    if (radar_status_flag e =? eSAP_DFS_CHANNEL_AVAILABLE) || (radar_status_flag e =? eSAP_DFS_CHANNEL_USABLE) ||
       (SAP_DFS_NON_OCCUPANCY_PERIOD <=? elapsed_time)
    then (e <| radar_status_flag := eSAP_DFS_CHANNEL_AVAILABLE |> <| radar_found_timestamp := 0 |>, None)
    else (e, Some (dfs_channel_number e)).

(** The channels written to the caller's buffer. *)
Definition wlansap_get_dfs_nol d (current_time : Z) : option (list Z * tSapDfsInfo) :=
  '(l, nol) ← for_opt (λ '(l, nol) i,
      e ← aget l i;
      let '(e, c) := get_nol_entry e current_time in
      l ← aset l i e;
      Some (l, nol ++ option_list c))
    (seqZ 0 (numCurrentRegDomainDfsChannels d)) (sapDfsChannelNolList d, []);
  Some (nol, d <| sapDfsChannelNolList := l |>).

Definition eSAP_DFS_NOL_CLEAR : Z := 0.
Definition eSAP_DFS_NOL_RANDOMIZE : Z := 1.

(** [coin i] tells whether the random number of entry [i] is odd. *)
Definition set_nol_entry (conf : Z) (coin : Z → bool) (now i : Z) e : tSapDfsNolInfo :=
  let clear := e <| radar_status_flag := eSAP_DFS_CHANNEL_AVAILABLE |> <| radar_found_timestamp := 0 |> in
  if dfs_channel_number e =? 0 then e
  else if conf =? eSAP_DFS_NOL_CLEAR then clear
  else if coin i
  then e <| radar_status_flag := eSAP_DFS_CHANNEL_UNAVAILABLE |> <| radar_found_timestamp := now |>
  else clear.

Definition wlansap_set_dfs_nol d (conf : Z) (coin : Z → bool) (now : Z) : option tSapDfsInfo :=
  let n := numCurrentRegDomainDfsChannels d in
  if n =? 0 then Some d
  else
    l ← (if (conf =? eSAP_DFS_NOL_CLEAR) || (conf =? eSAP_DFS_NOL_RANDOMIZE)
         then for_opt (λ l i, e ← aget l i; aset l i (set_nol_entry conf coin now i e)) (seqZ 0 n)
                (sapDfsChannelNolList d)
         else Some (sapDfsChannelNolList d));
    Some (signal_nol_set (d <| sapDfsChannelNolList := l |>)).

Definition CHAN_ENUM_36 : Z := 13.
Definition CHAN_ENUM_165 : Z := 37.

(** [platform] is the list that the callback fills in when it succeeds. *)
Definition sap_init_dfs_channel_nol_list `{CdsEnv} d (platform : option (list tSapDfsNolInfo)) : option tSapDfsInfo :=
  let d := emit_dfs Ev_nol_get d in
  let l := default (sapDfsChannelNolList d) platform in
  '(l, count) ← for_opt (λ '(l, count) i,
      if bool_decide (zget reg_channels i = CHANNEL_STATE_DFS) then
        l ← (if platform is Some _ then Some l
             else aset l count (mk_nol (snd (zget chan_mapping i)) eSAP_DFS_CHANNEL_USABLE 0));
        Some (l, u8 (count + 1))
      else Some (l, count))
    (seqZ CHAN_ENUM_36 (CHAN_ENUM_165 - CHAN_ENUM_36 + 1)) (l, 0);
  Some (d <| sapDfsChannelNolList := l |> <| numCurrentRegDomainDfsChannels := count |>).

End ops.

(** ** The list as a map

    The abstract state maps a channel to the time at which its non-occupancy
    period began; [spec_in m now c] holds while the period lasts. *)
Definition spec_in (m : gmap Z Z) (now c : Z) : bool :=
  match m !! c with
  | Some t => now - t <? SAP_DFS_NON_OCCUPANCY_PERIOD
  | None => false
  end.

Inductive nol_op :=
  | Nol_radar (channels : list Z) (time : Z)
  | Nol_query (channel now : Z)
  | Nol_get (now : Z)
  | Nol_clear (now : Z).

Inductive nol_out := Out_none | Out_in_nol (b : bool) | Out_nol (l : list Z).

Definition nol_time (o : nol_op) : Z :=
  match o with Nol_radar _ t | Nol_query _ t | Nol_get t | Nol_clear t => t end.

Definition nol_step (d : tSapDfsInfo) (o : nol_op) : option (nol_out * tSapDfsInfo) :=
  match o with
  | Nol_radar cs t => d ← sap_mark_dfs_channels d cs (Z.of_nat (length cs)) t; Some (Out_none, d)
  | Nol_query c now =>
      '(b, d) ← sap_dfs_is_channel_in_nol_list d c PHY_SINGLE_CHANNEL_CENTERED now; Some (Out_in_nol b, d)
  | Nol_get now => '(l, d) ← wlansap_get_dfs_nol d now; Some (Out_nol l, d)
  | Nol_clear now => d ← wlansap_set_dfs_nol d eSAP_DFS_NOL_CLEAR (λ _, false) now; Some (Out_none, d)
  end.

Fixpoint nol_run (d : tSapDfsInfo) (ops : list nol_op) : option (list nol_out * tSapDfsInfo) :=
  match ops with
  | [] => Some ([], d)
  | o :: ops' => '(out, d) ← nol_step d o; '(outs, d) ← nol_run d ops'; Some (out :: outs, d)
  end.

(** A radar on a channel of the domain starts a period, unless one runs. *)
Definition spec_mark (D : list Z) (t : Z) (m : gmap Z Z) (c : Z) : gmap Z Z :=
  if bool_decide (c ∈ D) && negb (spec_in m t c) then <[c := t]> m else m.

Definition nol_spec_step (D : list Z) (m : gmap Z Z) (o : nol_op) : nol_out * gmap Z Z :=
  match o with
  | Nol_radar cs t => (Out_none, foldl (spec_mark D t) m cs)
  | Nol_query c now => (Out_in_nol (bool_decide (c ∈ D) && spec_in m now c), m)
  | Nol_get now => (Out_nol (List.filter (spec_in m now) D), m)
  | Nol_clear _ => (Out_none, ∅)
  end.

Fixpoint nol_spec_run (D : list Z) (m : gmap Z Z) (ops : list nol_op) : list nol_out * gmap Z Z :=
  match ops with
  | [] => ([], m)
  | o :: ops' =>
      let '(out, m) := nol_spec_step D m o in
      let '(outs, m) := nol_spec_run D m ops' in
      (out :: outs, m)
  end.

(** The clock does not go back. *)
Fixpoint times_ok (now : Z) (ops : list nol_op) : Prop :=
  match ops with
  | [] => True
  | o :: ops' => now <= nol_time o ∧ is_u64 (nol_time o) ∧ times_ok (nol_time o) ops'
  end.

(** An entry agrees with the map at [now]: expired periods may still be marked. *)
Definition entry_rel (m : gmap Z Z) (now : Z) (e : tSapDfsNolInfo) : Prop :=
  (radar_status_flag e = eSAP_DFS_CHANNEL_UNAVAILABLE ∧
   m !! dfs_channel_number e = Some (radar_found_timestamp e) ∧ 0 <= radar_found_timestamp e <= now) ∨
  ((radar_status_flag e = eSAP_DFS_CHANNEL_USABLE ∨ radar_status_flag e = eSAP_DFS_CHANNEL_AVAILABLE) ∧
   spec_in m now (dfs_channel_number e) = false).

(** The first entries are those of the channels of the domain. *)
Definition nol_rel (D : list Z) (m : gmap Z Z) (now : Z) (d : tSapDfsInfo) : Prop :=
  ∃ es x r, sapDfsChannelNolList d = es ++ x :: r ∧ length (sapDfsChannelNolList d) = 40%nat ∧
    numCurrentRegDomainDfsChannels d = Z.of_nat (length es) ∧
    map dfs_channel_number es = D ∧ NoDup D ∧ 0 ∉ D ∧ Forall (entry_rel m now) es.

Section refinement.
Implicit Types (d : tSapDfsInfo) (e x : tSapDfsNolInfo) (l es p r : list tSapDfsNolInfo) (D : list Z) (m : gmap Z Z).

Lemma spec_in_later m now now' c : spec_in m now c = false → now <= now' → spec_in m now' c = false.
Proof. unfold spec_in. destruct (m !! c); [|done]. intros. bool_hyps. apply Z.ltb_ge. lia. Qed.

Lemma entry_rel_later m now now' e : entry_rel m now e → now <= now' → entry_rel m now' e.
Proof.
  intros [(?&?&?)|[? Hi]] Hle; [left; split_and!; try done; lia|right]. split; [done|].
  by apply (spec_in_later m now).
Qed.

(** An entry in its period, seen by the code and by the map. *)
Lemma entry_in m now e :
  entry_rel m now e → is_u64 now →
  spec_in m now (dfs_channel_number e) =
  (radar_status_flag e =? eSAP_DFS_CHANNEL_UNAVAILABLE) && (u64 (now - radar_found_timestamp e) <? SAP_DFS_NON_OCCUPANCY_PERIOD).
Proof.
  intros [(Hf & Hm & Ht)|[Hf Hi]] Hu.
  - unfold spec_in. rewrite Hm, Hf. cbn. rewrite u64_small; [done|]. unfold is_u64 in *. lia.
  - rewrite Hi. by destruct Hf as [-> | ->].
Qed.

Definition mark_at (c t : Z) e : tSapDfsNolInfo := if dfs_channel_number e =? c then mark_entry t e else e.

Lemma mark_at_chan c t e : dfs_channel_number (mark_at c t e) = dfs_channel_number e.
Proof. unfold mark_at, mark_entry. destruct (_ =? _); [|done]. by destruct (_ && _). Qed.

Lemma map_mark_chan c t es : map dfs_channel_number (map (mark_at c t) es) = map dfs_channel_number es.
Proof. rewrite map_map. apply map_ext, mark_at_chan. Qed.

Lemma mark_channel_spec es x r c t :
  mark_channel (Z.of_nat (length es)) c t (es ++ x :: r) = Some (map (mark_at c t) es ++ mark_at c t x :: r).
Proof.
  unfold mark_channel.
  replace (Z.of_nat (length es) + 1) with (Z.of_nat (length (es ++ [x]))) by (rewrite length_app; cbn; lia).
  rewrite (app_assoc es [x] r : es ++ x :: r = _).
  change 0 with (Z.of_nat (length (@nil tSapDfsNolInfo))).
  change ((es ++ [x]) ++ r) with ([] ++ (es ++ [x]) ++ r).
  rewrite (for_opt_map _ (mark_at c t)).
  - by rewrite map_app, <- app_assoc.
  - intros pre e suf. rewrite aget_mid. cbn [mbind option_bind]. unfold mark_at.
    destruct (_ =? _); [apply aset_mid|done].
Qed.

Lemma mark_rel m now c t D e :
  entry_rel m now e → now <= t → is_u64 t → dfs_channel_number e ∈ D →
  entry_rel (spec_mark D t m c) t (mark_at c t e).
Proof.
  intros He Hle Ht HD. pose proof (entry_rel_later _ _ t _ He Hle) as Het.
  pose proof (entry_in m t e Het Ht) as Hin. unfold mark_at, spec_mark, mark_entry.
  destruct (Z.eqb_spec (dfs_channel_number e) c) as [<-|Hne].
  - rewrite bool_decide_true by done. rewrite <- Hin. cbn.
    destruct (spec_in m t _) eqn:E; cbn; [done|]. left. rsimpl. rewrite lookup_insert_eq.
    unfold is_u64 in *. split_and!; [done|done|lia|lia].
  - destruct (bool_decide (c ∈ D) && negb (spec_in m t c)); [|exact Het]. unfold entry_rel, spec_in in *.
    by rewrite !lookup_insert_ne by congruence.
Qed.

Lemma mark_all D n t cs pre m now es x r :
  length es = n → map dfs_channel_number es = D → now <= t → is_u64 t → Forall (entry_rel m now) es →
  ∃ es' x', for_opt (λ l i, c ← aget (pre ++ cs) i; mark_channel (Z.of_nat n) c t l)
      (seqZ (Z.of_nat (length pre)) (Z.of_nat (length cs))) (es ++ x :: r) = Some (es' ++ x' :: r) ∧
    map dfs_channel_number es' = D ∧ Forall (entry_rel (foldl (spec_mark D t) m cs) t) es'.
Proof.
  intros Hn HD Hle Ht He. revert pre m now es x Hn HD Hle He.
  induction cs as [|c cs IH]; intros pre m now es x Hn HD Hle He.
  { exists es, x. split_and!; [done|done|]. eapply Forall_impl; [exact He|].
    intros e Hee. by apply (entry_rel_later m now). }
  rewrite seqZ_cons by (cbn; lia). cbn [for_opt foldl]. rewrite aget_mid. cbn [mbind option_bind].
  pose proof (mark_channel_spec es x r c t) as Hmk. rewrite Hn in Hmk. rewrite Hmk. cbn [mbind option_bind].
  destruct (IH (pre ++ [c]) (spec_mark D t m c) t (map (mark_at c t) es) (mark_at c t x)) as (es' & x' & E & H1 & H2).
  - by rewrite length_map.
  - by rewrite map_mark_chan.
  - lia.
  - apply Forall_forall. intros e' (e & -> & Hin)%list_elem_of_fmap.
    rewrite Forall_forall in He. eapply mark_rel; [by apply He|done|done|].
    rewrite <- HD. apply list_elem_of_fmap. by exists e.
  - exists es', x'. split; [|done]. rewrite <- E. rewrite <- !app_assoc. cbn [app].
    f_equal. f_equal; rewrite ?length_app; cbn; lia.
Qed.

Lemma sap_mark_dfs_channels_spec D m now d cs t :
  nol_rel D m now d → now <= t → is_u64 t →
  ∃ d', sap_mark_dfs_channels d cs (Z.of_nat (length cs)) t = Some d' ∧
    nol_rel D (foldl (spec_mark D t) m cs) t d'.
Proof.
  intros (es & x & r & El & Hlen & Hn & HD & Hnd & H0 & He) Hle Ht.
  unfold sap_mark_dfs_channels. rewrite Hn, El.
  destruct (mark_all D (length es) t cs [] m now es x r) as (es' & x' & E & HD' & He'); [done..|].
  cbn [length app] in E. change (Z.of_nat 0) with 0 in E. rewrite E. cbn [mbind option_bind].
  eexists. split; [done|]. exists es', x', r. cbn.
  assert (Hlen' : length es' = length es) by (rewrite <- (length_map dfs_channel_number es'), HD', <- HD; apply length_map).
  split_and!; try done; [|by rewrite Hlen'].
  rewrite El in Hlen. rewrite length_app in *. cbn in *. lia.
Qed.

(** The entry of a channel after a look-up. *)
Definition looked_up (now : Z) e : tSapDfsNolInfo := snd (sap_dfs_check_if_channel_avaialable e now).
Definition look_at (c now : Z) e : tSapDfsNolInfo := if dfs_channel_number e =? c then looked_up now e else e.

Lemma check_spec m now e :
  entry_rel m now e → is_u64 now →
  sap_dfs_check_if_channel_avaialable e now = (negb (spec_in m now (dfs_channel_number e)), looked_up now e) ∧
  entry_rel m now (looked_up now e) ∧ dfs_channel_number (looked_up now e) = dfs_channel_number e ∧
  (spec_in m now (dfs_channel_number e) = true → looked_up now e = e).
Proof.
  intros He Hu. pose proof (entry_in m now e He Hu) as Hin. rewrite Hin.
  unfold looked_up, sap_dfs_check_if_channel_avaialable.
  destruct He as [(Hf & Hm & Ht)|[Hf Hi]].
  - rewrite Hf in *. cbn in *. destruct (Z.ltb_spec now (radar_found_timestamp e)); [lia|].
    rewrite Z.leb_antisym. destruct (_ <? _) eqn:E; cbn; split_and!; try done.
    + by left.
    + right. cbn. split; [by right|]. by rewrite Hin.
  - destruct Hf as [Hf|Hf]; rewrite Hf in *; cbn; split_and!; try done; right; (split; [|done]); auto.
Qed.

Lemma look_at_chan m now c e : entry_rel m now e → is_u64 now → dfs_channel_number (look_at c now e) = dfs_channel_number e.
Proof. intros He Hu. unfold look_at. destruct (_ =? _); [|done]. by apply (check_spec m now e He Hu). Qed.

(** The scan finds the one entry of the channel. *)
Lemma nol_scan_spec m now c pre es r :
  Forall (entry_rel m now) es → is_u64 now → NoDup (map dfs_channel_number es) →
  ∃ hit, nol_scan (seqZ (Z.of_nat (length pre)) (Z.of_nat (length es))) c now (pre ++ es ++ r) =
    Some (pre ++ map (look_at c now) es ++ r, hit) ∧
    match hit with
    | None => c ∈ map dfs_channel_number es → spec_in m now c = false
    | Some i => c ∈ map dfs_channel_number es ∧ spec_in m now c = true ∧
        ∃ e, aget (pre ++ map (look_at c now) es ++ r) i = Some e ∧ e ∈ es ∧ dfs_channel_number e = c
    end.
Proof.
  intros He Hu Hnd. revert pre Hnd. induction He as [|e es Hee He IH]; intros pre Hnd; cbn [map] in Hnd |- *.
  { exists None. split; [done|]. intros Hc. by apply elem_of_nil in Hc. }
  apply NoDup_cons in Hnd as [Hni Hnd].
  rewrite seqZ_cons by (cbn; lia). cbn [nol_scan app]. rewrite aget_mid. cbn [mbind option_bind].
  replace (Z.pred (Z.of_nat (length (e :: es)))) with (Z.of_nat (length es)) by (cbn; lia).
  assert (Hpre : ∀ e', Z.succ (Z.of_nat (length pre)) = Z.of_nat (length (pre ++ [e']))).
  { intros. rewrite length_app. cbn. lia. }
  assert (Happ : ∀ e' t, pre ++ e' :: t = (pre ++ [e']) ++ t) by (intros; by rewrite <- app_assoc).
  assert (Hla : look_at c now e = if dfs_channel_number e =? c then looked_up now e else e) by done. rewrite Hla.
  destruct (Z.eqb_spec (dfs_channel_number e) c) as [<-|Hne]; cbn [negb].
  - destruct (check_spec m now e Hee Hu) as (Ec & Hr & Hch & Hsame). rewrite Ec. cbn [mbind option_bind].
    rewrite aset_mid. cbn [mbind option_bind].
    assert (Hid : map (look_at (dfs_channel_number e) now) es = es).
    { rewrite <- (map_id es) at 2. apply map_ext_in. intros e' Hin%list_elem_of_In. unfold look_at.
      destruct (Z.eqb_spec (dfs_channel_number e') (dfs_channel_number e)) as [Heq|]; [|done].
      destruct Hni. rewrite <- Heq. apply list_elem_of_fmap. by exists e'. }
    rewrite Hid. destruct (spec_in m now (dfs_channel_number e)) eqn:Hin; cbn [negb].
    + exists (Some (Z.of_nat (length pre))). split; [done|]. split; [by left|]. split; [done|].
      exists e. rewrite (Hsame eq_refl). split; [apply aget_mid|]. by split; [left|].
    + destruct (IH (pre ++ [looked_up now e]) Hnd) as (hit & E & Hhit).
      rewrite <- Hpre, <- Happ, Hid, <- Happ in E. exists hit. split; [done|].
      destruct hit as [i|]; [|done]. destruct Hhit as (Hc & _). by destruct (Hni Hc).
  - destruct (IH (pre ++ [e]) Hnd) as (hit & E & Hhit).
    rewrite <- Hpre, <- !Happ in E. exists hit. split; [done|].
    rewrite <- Happ in Hhit. destruct hit as [i|].
    + destruct Hhit as (Hc & Hin & e' & Ha & He' & Hce). split; [by right|]. split; [done|].
      exists e'. split; [done|]. by split; [right|].
    + intros [->|Hc]%elem_of_cons; [done|]. by apply Hhit.
Qed.

Lemma look_at_rel m now c es :
  Forall (entry_rel m now) es → is_u64 now →
  Forall (entry_rel m now) (map (look_at c now) es) ∧
  map dfs_channel_number (map (look_at c now) es) = map dfs_channel_number es.
Proof.
  intros He Hu. induction He as [|e es Hee He [IH1 IH2]]; cbn; [done|]. split.
  - constructor; [|done]. unfold look_at. destruct (_ =? _); [|exact Hee]. by apply check_spec.
  - by rewrite IH2, (look_at_chan m).
Qed.

(** Channels in their period are not marked again with the time of one entry. *)
Lemma mark_same m now c es e :
  Forall (entry_rel m now) es → is_u64 now → spec_in m now c = true →
  e ∈ es → dfs_channel_number e = c → map (mark_at c (radar_found_timestamp e)) es = es.
Proof.
  intros He Hu Hin Hel Hc. rewrite <- (map_id es) at 2. apply map_ext_in. intros e' He'%list_elem_of_In.
  unfold mark_at, mark_entry. destruct (Z.eqb_spec (dfs_channel_number e') c) as [Hc'|]; [|done].
  rewrite Forall_forall in He.
  destruct (He _ Hel) as [(_ & Hm & _)|[_ Hn]]; [|congruence].
  destruct (He _ He') as [(Hf' & Hm' & _)|[_ Hn]]; [|congruence].
  rewrite Hf'. assert (radar_found_timestamp e' = radar_found_timestamp e) as -> by congruence.
  by rewrite Z.sub_diag.
Qed.

Lemma nol_rel_later D m now now' d : nol_rel D m now d → now <= now' → nol_rel D m now' d.
Proof.
  intros (es & x & r & ? & ? & ? & ? & ? & ? & He) Hle. exists es, x, r. split_and!; try done.
  eapply Forall_impl; [exact He|]. intros e Hee. by apply (entry_rel_later m now).
Qed.

Lemma mark_single d c t es x r :
  sapDfsChannelNolList d = es ++ x :: r → numCurrentRegDomainDfsChannels d = Z.of_nat (length es) →
  sap_mark_dfs_channels d [c] 1 t =
  Some (d <| sapDfsChannelNolList := map (mark_at c t) es ++ mark_at c t x :: r |>).
Proof.
  intros El Hn. unfold sap_mark_dfs_channels. rewrite El, Hn. change (seqZ 0 1) with [0].
  cbn [for_opt]. change (aget [c] 0) with (Some c). cbn [mbind option_bind].
  by rewrite mark_channel_spec.
Qed.

Lemma in_nol_single D m now0 now d c :
  nol_rel D m now0 d → now0 <= now → is_u64 now →
  ∃ d', sap_dfs_is_channel_in_nol_list d c PHY_SINGLE_CHANNEL_CENTERED now =
    Some (bool_decide (c ∈ D) && spec_in m now c, d') ∧ nol_rel D m now d'.
Proof.
  intros Hr Hle Hu. apply (nol_rel_later _ _ _ now) in Hr; [|done].
  destruct Hr as (es & x & r & El & Hlen & Hn & HD & Hnd & H0 & He).
  unfold sap_dfs_is_channel_in_nol_list. rewrite Hn, El. rewrite El, length_app in Hlen. cbn [length] in Hlen.
  destruct (Z.eqb_spec (Z.of_nat (length es)) 0) as [Hes|Hes]; cbn [orb].
  { destruct es; [|done]. cbn in HD. subst D. exists d. rewrite bool_decide_false by (intros Hc; by apply elem_of_nil in Hc).
    split; [done|]. exists [], x, r. rewrite El. split_and!; try done; cbn; lia. }
  destruct (Z.ltb_spec NUM_5GHZ_CHANNELS (Z.of_nat (length es))) as [Hgt|_]; [unfold NUM_5GHZ_CHANNELS in Hgt; lia|].
  change (sap_get_bonding_channels c MAX_BONDED_CHANNELS PHY_SINGLE_CHANNEL_CENTERED) with [c].
  cbn [bonded_scan]. rewrite <- HD in Hnd.
  destruct (nol_scan_spec m now c [] es (x :: r) He Hu Hnd) as (hit & E & Hhit).
  cbn [length app] in E, Hhit. change (Z.of_nat 0) with 0 in E. rewrite E. cbn [mbind option_bind].
  destruct (look_at_rel m now c es He Hu) as [He1 HD1]. set (es1 := map (look_at c now) es) in *.
  assert (Hlen1 : length es1 = length es) by apply length_map.
  destruct hit as [i|]; cbn [mbind option_bind].
  - destruct Hhit as (Hc & Hin & e & Hi & Hel & Hce). cbn. rewrite Hi. cbn [mbind option_bind].
    rewrite Hin, bool_decide_true by (by rewrite <- HD).
    rewrite (mark_single _ c _ es1 x r) by (rsimpl; by rewrite ?Hlen1). cbn [mbind option_bind].
    eexists. split; [done|].
    assert (He1' : e ∈ es1).
    { apply list_elem_of_fmap. exists e. split; [|done]. unfold look_at. rewrite Hce, Z.eqb_refl.
      rewrite Forall_forall in He. symmetry. apply (check_spec m now e (He _ Hel) Hu). by rewrite Hce. }
    exists es1, (mark_at c (radar_found_timestamp e) x), r. rsimpl.
    rewrite (mark_same m now c es1 e) by done. rewrite length_app, Hlen1. cbn.
    split_and!; try done; [by rewrite HD1|by rewrite <- HD].
  - eexists. split.
    { rewrite <- HD. repeat f_equal. case_bool_decide as Hc; [|done]. by rewrite (Hhit Hc). }
    exists es1, x, r. rsimpl. rewrite length_app, Hlen1. cbn.
    split_and!; try done; [by rewrite HD1|by rewrite <- HD].
Qed.

(** *** The list as a whole *)

Definition got (now : Z) e : tSapDfsNolInfo := fst (get_nol_entry e now).

Lemma get_nol_entry_spec m now e :
  entry_rel m now e → is_u64 now → dfs_channel_number e ≠ 0 →
  get_nol_entry e now = (got now e, if spec_in m now (dfs_channel_number e) then Some (dfs_channel_number e) else None) ∧
  entry_rel m now (got now e) ∧ dfs_channel_number (got now e) = dfs_channel_number e.
Proof.
  intros He Hu H0. pose proof (entry_in m now e He Hu) as Hin. rewrite Hin.
  unfold got, get_nol_entry. destruct (Z.eqb_spec (dfs_channel_number e) 0); [done|].
  rewrite Z.leb_antisym. destruct He as [(Hf & Hm & Ht)|[Hf Hi]].
  - rewrite Hf in *. cbn in *. destruct (_ <? _) eqn:E; cbn; split_and!; try done.
    + by left.
    + right. cbn. split; [by right|]. by rewrite Hin.
  - destruct Hf as [Hf|Hf]; rewrite Hf in *; cbn; split_and!; try done; right; cbn; (split; [by right|done]).
Qed.

Lemma get_loop m now pre es r acc :
  Forall (entry_rel m now) es → is_u64 now → 0 ∉ map dfs_channel_number es →
  ∃ es', for_opt (λ '(l, nol) i, e ← aget l i; let '(e, c) := get_nol_entry e now in
      l ← aset l i e; Some (l, nol ++ option_list c))
    (seqZ (Z.of_nat (length pre)) (Z.of_nat (length es))) (pre ++ es ++ r, acc) =
    Some (pre ++ es' ++ r, acc ++ List.filter (spec_in m now) (map dfs_channel_number es)) ∧
  Forall (entry_rel m now) es' ∧ map dfs_channel_number es' = map dfs_channel_number es.
Proof.
  intros He Hu. revert pre acc. induction He as [|e es Hee He IH]; intros pre acc H0; cbn [map] in H0 |- *.
  { exists []. by rewrite app_nil_r. }
  apply not_elem_of_cons in H0 as [H0 H0'].
  rewrite seqZ_cons by (cbn; lia). cbn [for_opt app]. rewrite aget_mid. cbn [mbind option_bind].
  destruct (get_nol_entry_spec m now e Hee Hu) as (-> & Hr & Hc); [done|].
  rewrite aset_mid. cbn [mbind option_bind].
  destruct (IH (pre ++ [got now e]) (acc ++ option_list (if spec_in m now (dfs_channel_number e) then Some (dfs_channel_number e) else None)) H0')
    as (es' & E & He' & HD').
  exists (got now e :: es'). split; [|split; [by constructor|by cbn; rewrite Hc, HD']].
  replace (Z.succ (Z.of_nat (length pre))) with (Z.of_nat (length (pre ++ [got now e]))) by (rewrite length_app; cbn; lia).
  replace (Z.pred (Z.of_nat (length (e :: es)))) with (Z.of_nat (length es)) by (cbn; lia).
  rewrite <- !app_assoc in E. cbn [app] in E. etransitivity; [exact E|]. cbn [List.filter].
  by destruct (spec_in m now (dfs_channel_number e)).
Qed.

Lemma get_refines D m now0 now d :
  nol_rel D m now0 d → now0 <= now → is_u64 now →
  ∃ d', wlansap_get_dfs_nol d now = Some (List.filter (spec_in m now) D, d') ∧ nol_rel D m now d'.
Proof.
  intros Hr Hle Hu. apply (nol_rel_later _ _ _ now) in Hr; [|done].
  destruct Hr as (es & x & r & El & Hlen & Hn & HD & Hnd & H0 & He).
  unfold wlansap_get_dfs_nol. rewrite Hn, El.
  destruct (get_loop m now [] es (x :: r) [] He Hu) as (es' & E & He' & HD'); [by rewrite HD|].
  cbn [length app] in E. change (Z.of_nat 0) with 0 in E. rewrite E. cbn [mbind option_bind].
  eexists. split; [by rewrite HD|]. exists es', x, r. rsimpl.
  assert (length es' = length es) as Hl by (rewrite <- (length_map dfs_channel_number es'), HD'; apply length_map).
  rewrite El in Hlen. rewrite length_app in *. cbn in *. split_and!; try done; [lia|by rewrite Hl|by rewrite HD'].
Qed.

Lemma clear_refines D m now0 now d :
  nol_rel D m now0 d → now0 <= now →
  ∃ d', wlansap_set_dfs_nol d eSAP_DFS_NOL_CLEAR (λ _, false) now = Some d' ∧ nol_rel D ∅ now d'.
Proof.
  intros (es & x & r & El & Hlen & Hn & HD & Hnd & H0 & He) Hle.
  unfold wlansap_set_dfs_nol. rewrite Hn.
  destruct (Z.eqb_spec (Z.of_nat (length es)) 0) as [Hes|Hes].
  { destruct es; [|done]. exists d. split; [done|]. exists [], x, r. split_and!; done. }
  set (g := λ e, if dfs_channel_number e =? 0 then e
    else e <| radar_status_flag := eSAP_DFS_CHANNEL_AVAILABLE |> <| radar_found_timestamp := 0 |>).
  assert (Hg : ∀ pre e suf, (e0 ← aget (pre ++ e :: suf) (Z.of_nat (length pre));
    aset (pre ++ e :: suf) (Z.of_nat (length pre)) (set_nol_entry eSAP_DFS_NOL_CLEAR (λ _, false) now (Z.of_nat (length pre)) e0))
    = Some (pre ++ g e :: suf)).
  { intros. rewrite aget_mid. cbn [mbind option_bind]. rewrite aset_mid. done. }
  pose proof (for_opt_map (λ l i, e ← aget l i; aset l i (set_nol_entry eSAP_DFS_NOL_CLEAR (λ _, false) now i e))
    g [] es (x :: r) Hg) as E.
  cbn [length app] in E. change (Z.of_nat 0) with 0 in E. cbn [orb Z.eqb eSAP_DFS_NOL_CLEAR] in E |- *.
  rewrite El, E. cbn [mbind option_bind]. eexists. split; [done|].
  exists (map g es), x, r. rsimpl. rewrite El in Hlen.
  assert (HD' : map dfs_channel_number (map g es) = map dfs_channel_number es).
  { rewrite map_map. apply map_ext. intros e. unfold g. by destruct (_ =? _). }
  rewrite length_app, length_map in *. cbn in *. split_and!; try done; [by rewrite HD'|].
  apply Forall_forall. intros e' (e & -> & Hin)%list_elem_of_fmap. right. unfold g.
  rewrite Forall_forall in He. destruct (Z.eqb_spec (dfs_channel_number e) 0) as [Hz|]; cbn; [|auto].
  destruct H0. rewrite <- HD, <- Hz. apply list_elem_of_fmap. by exists e.
Qed.

(** C20: the non-occupancy list implements a map from channels to the starts of
    their 30-minute periods.  For every sequence of radar indications,
    single-channel look-ups, read-outs and clearings with a clock that does not
    go back, no access leaves the array; a channel of the domain is reported as
    unavailable exactly while less than 30 minutes have passed since the radar
    that started its period (later radars within the period do not extend it),
    channels outside the domain never are, and the read-out lists exactly the
    unavailable channels, in order. *)
Theorem nol_refines_map D m now d ops :
  nol_rel D m now d → times_ok now ops →
  ∃ d', nol_run d ops = Some (fst (nol_spec_run D m ops), d') ∧
    nol_rel D (snd (nol_spec_run D m ops)) (default now (last (map nol_time ops))) d'.
Proof.
  revert m now d. induction ops as [|o ops IH]; intros m now d Hr Ht; [by exists d|].
  destruct Ht as (Hle & Hu & Ht). cbn [nol_run nol_spec_run map].
  assert (Hstep : ∃ d1, nol_step d o = Some (fst (nol_spec_step D m o), d1) ∧
    nol_rel D (snd (nol_spec_step D m o)) (nol_time o) d1).
  { destruct o as [cs t|c t|t|t]; cbn [nol_step nol_spec_step nol_time fst snd] in *.
    - destruct (sap_mark_dfs_channels_spec D m now d cs t Hr Hle Hu) as (d1 & -> & H1). by exists d1.
    - destruct (in_nol_single D m now t d c Hr Hle Hu) as (d1 & -> & H1). by exists d1.
    - destruct (get_refines D m now t d Hr Hle Hu) as (d1 & -> & H1). by exists d1.
    - destruct (clear_refines D m now t d Hr Hle) as (d1 & -> & H1). by exists d1. }
  destruct Hstep as (d1 & -> & H1). cbn [mbind option_bind].
  destruct (nol_spec_step D m o) as [out m1]. cbn [fst snd] in H1.
  destruct (IH m1 (nol_time o) d1 H1 Ht) as (d2 & E & H2). rewrite E. cbn [mbind option_bind].
  destruct (nol_spec_run D m1 ops) as [outs m2]. cbn [fst snd] in *. exists d2. split; [done|].
  rewrite last_cons. by destruct (last (map nol_time ops)).
Qed.

Lemma mark_double d c c' t es x r :
  sapDfsChannelNolList d = es ++ x :: r → numCurrentRegDomainDfsChannels d = Z.of_nat (length es) →
  sap_mark_dfs_channels d [c; c'] 2 t =
  Some (d <| sapDfsChannelNolList :=
    map (mark_at c' t) (map (mark_at c t) es) ++ mark_at c' t (mark_at c t x) :: r |>).
Proof.
  intros El Hn. unfold sap_mark_dfs_channels. rewrite El, Hn. change (seqZ 0 2) with [0; 1].
  cbn [for_opt]. change (aget [c; c'] 0) with (Some c). change (aget [c; c'] 1) with (Some c').
  cbn [mbind option_bind]. rewrite mark_channel_spec. cbn [mbind option_bind].
  rewrite <- (length_map (mark_at c t)) at 1. by rewrite mark_channel_spec.
Qed.

(** Marking with an older time rewinds a running period. *)
Lemma mark_back m now c' t1 t2 e :
  entry_rel m now e → is_u64 now → m !! c' = Some t2 → 0 <= t1 < t2 → t2 <= now →
  now < t1 + SAP_DFS_NON_OCCUPANCY_PERIOD → entry_rel (<[c' := t1]> m) now (mark_at c' t1 e).
Proof.
  intros He Hu Hm Ht Hle Hp. unfold mark_at, mark_entry.
  destruct (Z.eqb_spec (dfs_channel_number e) c') as [<-|Hne].
  - destruct He as [(Hf & Hm' & _)|[_ Hn]].
    2:{ unfold spec_in in Hn. rewrite Hm in Hn. bool_hyps. lia. }
    assert (radar_found_timestamp e = t2) as -> by congruence. rewrite Hf.
    assert (Hw : u64 (t1 - t2) <? SAP_DFS_NON_OCCUPANCY_PERIOD = false).
    { apply Z.ltb_ge. unfold SAP_DFS_NON_OCCUPANCY_PERIOD in *. unfold is_u64 in Hu. word_lia. }
    rewrite Hw. left. rsimpl. rewrite lookup_insert_eq. split_and!; try done; lia.
  - unfold entry_rel, spec_in in *. by rewrite !lookup_insert_ne by congruence.
Qed.

(** A look-up of a bonded pair shortens a non-occupancy period.  When radar
    was found on a channel at [t1] and later, at [t2], on the one above it, the
    look-up of the 40 MHz channel marks the upper one with the time of the
    lower one: the difference of the times wraps around and passes for an
    expired period.  From [t1] + 30 minutes on the upper channel counts as free
    although its own 30 minutes are not over. *)
Theorem bonded_query_rewinds D m now d c t1 t2 :
  nol_rel D m now d → is_u64 now → is_u64 (t1 + SAP_DFS_NON_OCCUPANCY_PERIOD) → 0 <= c < 252 → c ∈ D → c + 4 ∈ D →
  m !! c = Some t1 → m !! (c + 4) = Some t2 → 0 <= t1 < t2 → t2 <= now < t1 + SAP_DFS_NON_OCCUPANCY_PERIOD →
  ∃ d1 d2,
    sap_dfs_is_channel_in_nol_list d c PHY_DOUBLE_CHANNEL_LOW_PRIMARY now = Some (true, d1) ∧
    sap_dfs_is_channel_in_nol_list d1 (c + 4) PHY_SINGLE_CHANNEL_CENTERED (t1 + SAP_DFS_NON_OCCUPANCY_PERIOD) =
      Some (false, d2) ∧
    spec_in m (t1 + SAP_DFS_NON_OCCUPANCY_PERIOD) (c + 4) = true.
Proof.
  intros (es & x & r & El & Hlen & Hn & HD & Hnd & H0 & He) Hu Hu1 Hc HcD HcD' Hm Hm' Ht Hnow.
  assert (Hin : spec_in m now c = true) by (unfold spec_in; rewrite Hm; apply Z.ltb_lt; lia).
  assert (Hq : ∃ d1, sap_dfs_is_channel_in_nol_list d c PHY_DOUBLE_CHANNEL_LOW_PRIMARY now = Some (true, d1) ∧
    nol_rel D (<[c + 4 := t1]> m) now d1).
  { unfold sap_dfs_is_channel_in_nol_list. rewrite Hn, El. rewrite El, length_app in Hlen. cbn [length] in Hlen.
    destruct (Z.eqb_spec (Z.of_nat (length es)) 0) as [Hes|Hes]; cbn [orb].
    { destruct es; [|done]. cbn in HD. subst D. by apply elem_of_nil in HcD. }
    destruct (Z.ltb_spec NUM_5GHZ_CHANNELS (Z.of_nat (length es))) as [Hgt|_]; [unfold NUM_5GHZ_CHANNELS in Hgt; lia|].
    assert (sap_get_bonding_channels c MAX_BONDED_CHANNELS PHY_DOUBLE_CHANNEL_LOW_PRIMARY = [c; c + 4]) as ->.
    { cbn. by rewrite u8_small by (red; lia). }
    cbn [bonded_scan]. pose proof Hnd as Hnd'. rewrite <- HD in Hnd'.
    destruct (nol_scan_spec m now c [] es (x :: r) He Hu Hnd') as (hit & E & Hhit).
    cbn [length app] in E, Hhit. change (Z.of_nat 0) with 0 in E. rewrite E. cbn [mbind option_bind].
    destruct (look_at_rel m now c es He Hu) as [He1 HD1]. set (es1 := map (look_at c now) es) in *.
    assert (Hlen1 : length es1 = length es) by apply length_map.
    rewrite <- HD in HcD. destruct hit as [i|]; [|by rewrite (Hhit HcD) in Hin].
    destruct Hhit as (_ & _ & e & Hi & Hel & Hce). cbn. rewrite Hi. cbn [mbind option_bind].
    assert (Hte : radar_found_timestamp e = t1).
    { rewrite Forall_forall in He. destruct (He _ Hel) as [(_ & Hme & _)|[_ Hf]]; congruence. }
    rewrite (mark_double _ c (c + 4) _ es1 x r) by (rsimpl; by rewrite ?Hlen1). cbn [mbind option_bind].
    eexists. split; [done|].
    assert (He1' : e ∈ es1).
    { apply list_elem_of_fmap. exists e. split; [|done]. unfold look_at. rewrite Hce, Z.eqb_refl.
      rewrite Forall_forall in He. symmetry. apply (check_spec m now e (He _ Hel) Hu). by rewrite Hce. }
    rewrite (mark_same m now c es1 e) by done. rewrite Hte.
    eexists (map (mark_at (c + 4) t1) es1), _, r. rsimpl. rewrite length_app, length_map, Hlen1. cbn.
    split_and!; try done; [by rewrite map_mark_chan, HD1|].
    apply Forall_forall. intros e' (e0 & -> & Hin0)%list_elem_of_fmap. rewrite Forall_forall in He1.
    apply (mark_back m now _ t1 t2); try done; [by apply He1|lia..]. }
  destruct Hq as (d1 & E1 & H1).
  destruct (in_nol_single D _ now (t1 + SAP_DFS_NON_OCCUPANCY_PERIOD) d1 (c + 4) H1) as (d2 & E2 & _); [lia|done|].
  exists d1, d2. split; [done|]. rewrite E2. unfold spec_in. rewrite lookup_insert_eq, Hm'.
  split; [|apply Z.ltb_lt; lia].
  do 2 f_equal. rewrite bool_decide_true by done. cbn. apply Z.ltb_ge. lia.
Qed.

(** *** The initial list *)
Section init.
Context {E : CdsEnv}.

(** The channels with radar detection among those of some indices. *)
Definition dfs_channels_of (idxs : list Z) : list Z :=
  map (λ i, snd (zget chan_mapping i)) (List.filter (λ i, bool_decide (zget reg_channels i = CHANNEL_STATE_DFS)) idxs).
Definition dfs_channels : list Z := dfs_channels_of (seqZ CHAN_ENUM_36 (CHAN_ENUM_165 - CHAN_ENUM_36 + 1)).

Lemma init_loop idxs es r :
  (length idxs < length r)%nat → (length es + length idxs < 256)%nat →
  ∃ es' r', for_opt (λ '(l, count) i,
      if bool_decide (zget reg_channels i = CHANNEL_STATE_DFS) then
        l ← aset l count (mk_nol (snd (zget chan_mapping i)) eSAP_DFS_CHANNEL_USABLE 0);
        Some (l, u8 (count + 1))
      else Some (l, count)) idxs (es ++ r, Z.of_nat (length es)) =
    Some ((es ++ es') ++ r', Z.of_nat (length (es ++ es'))) ∧
    length (es' ++ r') = length r ∧ r' ≠ [] ∧ map dfs_channel_number es' = dfs_channels_of idxs ∧
    Forall (λ e, radar_status_flag e = eSAP_DFS_CHANNEL_USABLE) es'.
Proof.
  revert es r. induction idxs as [|i idxs IH]; intros es r Hr Hb; cbn [length] in Hr, Hb.
  { exists [], r. rewrite app_nil_r. split_and!; try done. intros ->. cbn in Hr. lia. }
  cbn [for_opt]. unfold dfs_channels_of. cbn [List.filter]. case_bool_decide as Hd; cbn [mbind option_bind].
  - destruct r as [|y r]; [cbn in Hr; lia|]. rewrite aset_mid. cbn [mbind option_bind].
    set (e := mk_nol _ _ _). rewrite u8_small by (red; lia).
    destruct (IH (es ++ [e]) r) as (es' & r' & Eq & H1 & H2 & H3 & H4); [cbn in Hr; lia|rewrite length_app; cbn; lia|].
    exists (e :: es'), r'.
    replace (Z.of_nat (length es) + 1) with (Z.of_nat (length (es ++ [e]))) by (rewrite length_app; cbn; lia).
    rewrite (app_assoc es [e] r : es ++ e :: r = _), Eq. rewrite <- (app_assoc es [e] es').
    cbn [app map length] in *. split_and!; try done; [by rewrite H1|by f_equal|by constructor].
  - destruct (IH es r) as (es' & r' & Eq & H1); [lia|lia|]. by exists es', r'.
Qed.

Lemma init_rel d now :
  length (sapDfsChannelNolList d) = 40%nat → 0 <= now → NoDup dfs_channels → 0 ∉ dfs_channels →
  ∃ d', sap_init_dfs_channel_nol_list d None = Some d' ∧ nol_rel dfs_channels ∅ now d'.
Proof.
  intros Hl Hnow Hnd H0. unfold sap_init_dfs_channel_nol_list. cbn [default].
  destruct (init_loop (seqZ CHAN_ENUM_36 (CHAN_ENUM_165 - CHAN_ENUM_36 + 1)) [] (sapDfsChannelNolList d))
    as (es & r & Eq & H1 & H2 & H3 & H4); [rewrite Hl; vm_compute; lia|vm_compute; lia|].
  cbn [app length] in Eq. change (Z.of_nat 0) with 0 in Eq. cbn. cbn in Eq. rewrite Eq. cbn.
  eexists. split; [done|]. destruct r as [|x r]; [done|]. exists es, x, r. rsimpl.
  split_and!; try done; [by rewrite H1|].
  eapply Forall_impl; [exact H4|]. intros e He. right. split; [by left|done].
Qed.
End init.
End refinement.
