(* ===== verification/SapLeak.v ===== *)
(** Leakage into non-occupied channels: core/sap/src/sap_fsm.c, the part under
    WLAN_ENABLE_CHNL_MATRIX_RESTRICTION.

    A transmitter on one channel leaks into others.  For each width and each
    channel that may be in the non-occupancy list a row of a table gives the
    leakage from the 20 channels 36 to 144; the candidates whose leakage into a
    non-occupied channel is at or below a threshold are removed from the list of
    candidates (overwritten with 0).  A row of the source with fewer
    initialisers than entries ends in zeros. *)
From S2P Require Import Prelude Arrays CdsTables CdsConn SapNol.

Definition SAP_TX_LEAKAGE_MAX : Z := 1000.
Definition SAP_TX_LEAKAGE_MIN : Z := 200.
Definition SAP_TX_LEAKAGE_AUTO_MIN : Z := 210.

Record tSapTxLeakInfo := leak {
  leak_chan : Z;
  leak_lvl : Z;
}.
Record tSapChanMatrixInfo := mk_matrix {
  channel : Z;
  chan_matrix : list tSapTxLeakInfo;
}.

(** *** The tables, each in two parts *)

Definition ht80_chan_low : list tSapChanMatrixInfo :=
  [
   mk_matrix 52 [
     leak 36 148; leak 40 199; leak 44 193; leak 48 197; leak 52 SAP_TX_LEAKAGE_MIN; leak 56 153; leak 60 137;
     leak 64 134; leak 100 358; leak 104 350; leak 108 404; leak 112 344; leak 116 424; leak 120 429;
     leak 124 437; leak 128 435; leak 132 SAP_TX_LEAKAGE_MAX; leak 136 SAP_TX_LEAKAGE_MAX;
     leak 140 SAP_TX_LEAKAGE_MAX; leak 144 SAP_TX_LEAKAGE_MIN];
   mk_matrix 56 [
     leak 36 171; leak 40 178; leak 44 171; leak 48 178; leak 52 SAP_TX_LEAKAGE_MIN;
     leak 56 SAP_TX_LEAKAGE_MIN; leak 60 SAP_TX_LEAKAGE_MIN; leak 64 280; leak 100 351; leak 104 376;
     leak 108 362; leak 112 362; leak 116 403; leak 120 397; leak 124 SAP_TX_LEAKAGE_MAX;
     leak 128 SAP_TX_LEAKAGE_MAX; leak 132 SAP_TX_LEAKAGE_MAX; leak 136 SAP_TX_LEAKAGE_MAX;
     leak 140 SAP_TX_LEAKAGE_MAX; leak 144 SAP_TX_LEAKAGE_MIN];
   mk_matrix 60 [
     leak 36 156; leak 40 146; leak 44 SAP_TX_LEAKAGE_MIN; leak 48 SAP_TX_LEAKAGE_MIN; leak 52 180;
     leak 56 SAP_TX_LEAKAGE_MIN; leak 60 SAP_TX_LEAKAGE_MIN; leak 64 SAP_TX_LEAKAGE_MIN; leak 100 376;
     leak 104 360; leak 108 SAP_TX_LEAKAGE_MAX; leak 112 SAP_TX_LEAKAGE_MAX; leak 116 395; leak 120 399;
     leak 124 SAP_TX_LEAKAGE_MAX; leak 128 SAP_TX_LEAKAGE_MAX; leak 132 SAP_TX_LEAKAGE_MAX;
     leak 136 SAP_TX_LEAKAGE_MAX; leak 140 SAP_TX_LEAKAGE_MAX; leak 144 SAP_TX_LEAKAGE_MIN];
   mk_matrix 64 [
     leak 36 217; leak 40 221; leak 44 SAP_TX_LEAKAGE_MIN; leak 48 SAP_TX_LEAKAGE_MIN; leak 52 176;
     leak 56 176; leak 60 SAP_TX_LEAKAGE_MIN; leak 64 SAP_TX_LEAKAGE_MIN; leak 100 384; leak 104 390;
     leak 108 SAP_TX_LEAKAGE_MAX; leak 112 SAP_TX_LEAKAGE_MAX; leak 116 375; leak 120 374;
     leak 124 SAP_TX_LEAKAGE_MAX; leak 128 SAP_TX_LEAKAGE_MAX; leak 132 SAP_TX_LEAKAGE_MAX;
     leak 136 SAP_TX_LEAKAGE_MAX; leak 140 SAP_TX_LEAKAGE_MAX; leak 144 SAP_TX_LEAKAGE_MIN];
   mk_matrix 100 [
     leak 36 357; leak 40 326; leak 44 321; leak 48 326; leak 52 378; leak 56 396; leak 60 SAP_TX_LEAKAGE_MAX;
     leak 64 SAP_TX_LEAKAGE_MAX; leak 100 SAP_TX_LEAKAGE_MIN; leak 104 SAP_TX_LEAKAGE_MIN; leak 108 196;
     leak 112 116; leak 116 166; leak 120 SAP_TX_LEAKAGE_MIN; leak 124 SAP_TX_LEAKAGE_MIN;
     leak 128 SAP_TX_LEAKAGE_MIN; leak 132 SAP_TX_LEAKAGE_MIN; leak 136 SAP_TX_LEAKAGE_MIN;
     leak 140 SAP_TX_LEAKAGE_MIN; leak 144 SAP_TX_LEAKAGE_MIN];
   mk_matrix 104 [
     leak 36 325; leak 40 325; leak 44 305; leak 48 352; leak 52 411; leak 56 411; leak 60 SAP_TX_LEAKAGE_MAX;
     leak 64 SAP_TX_LEAKAGE_MAX; leak 100 SAP_TX_LEAKAGE_MIN; leak 104 SAP_TX_LEAKAGE_MIN;
     leak 108 SAP_TX_LEAKAGE_MIN; leak 112 460; leak 116 198; leak 120 SAP_TX_LEAKAGE_MIN;
     leak 124 SAP_TX_LEAKAGE_MIN; leak 128 SAP_TX_LEAKAGE_MIN; leak 132 SAP_TX_LEAKAGE_MIN;
     leak 136 SAP_TX_LEAKAGE_MIN; leak 140 SAP_TX_LEAKAGE_MIN; leak 144 SAP_TX_LEAKAGE_MIN];
   mk_matrix 108 [
     leak 36 304; leak 40 332; leak 44 310; leak 48 335; leak 52 431; leak 56 391; leak 60 SAP_TX_LEAKAGE_MAX;
     leak 64 SAP_TX_LEAKAGE_MAX; leak 100 280; leak 104 SAP_TX_LEAKAGE_MIN; leak 108 SAP_TX_LEAKAGE_MIN;
     leak 112 SAP_TX_LEAKAGE_MIN; leak 116 185; leak 120 SAP_TX_LEAKAGE_MIN; leak 124 SAP_TX_LEAKAGE_MIN;
     leak 128 SAP_TX_LEAKAGE_MIN; leak 132 SAP_TX_LEAKAGE_MIN; leak 136 SAP_TX_LEAKAGE_MIN;
     leak 140 SAP_TX_LEAKAGE_MIN; leak 144 SAP_TX_LEAKAGE_MIN];
   mk_matrix 112 [
     leak 36 327; leak 40 335; leak 44 331; leak 48 345; leak 52 367; leak 56 401; leak 60 SAP_TX_LEAKAGE_MAX;
     leak 64 SAP_TX_LEAKAGE_MAX; leak 100 131; leak 104 132; leak 108 SAP_TX_LEAKAGE_MIN;
     leak 112 SAP_TX_LEAKAGE_MIN; leak 116 189; leak 120 SAP_TX_LEAKAGE_MIN; leak 124 SAP_TX_LEAKAGE_MIN;
     leak 128 SAP_TX_LEAKAGE_MIN; leak 132 SAP_TX_LEAKAGE_MIN; leak 136 SAP_TX_LEAKAGE_MIN;
     leak 140 SAP_TX_LEAKAGE_MIN; leak 144 SAP_TX_LEAKAGE_MIN]
  ].

Definition ht80_chan_high : list tSapChanMatrixInfo :=
  [
   mk_matrix 116 [
     leak 36 384; leak 40 372; leak 44 389; leak 48 396; leak 52 348; leak 56 336; leak 60 SAP_TX_LEAKAGE_MAX;
     leak 64 SAP_TX_LEAKAGE_MAX; leak 100 172; leak 104 169; leak 108 SAP_TX_LEAKAGE_MIN;
     leak 112 SAP_TX_LEAKAGE_MIN; leak 116 SAP_TX_LEAKAGE_MIN; leak 120 SAP_TX_LEAKAGE_MIN;
     leak 124 SAP_TX_LEAKAGE_MIN; leak 128 SAP_TX_LEAKAGE_MIN; leak 132 SAP_TX_LEAKAGE_MIN;
     leak 136 SAP_TX_LEAKAGE_MIN; leak 140 SAP_TX_LEAKAGE_MIN; leak 144 SAP_TX_LEAKAGE_MIN];
   mk_matrix 120 [
     leak 36 395; leak 40 419; leak 44 439; leak 48 407; leak 52 321; leak 56 334; leak 60 SAP_TX_LEAKAGE_MAX;
     leak 64 SAP_TX_LEAKAGE_MAX; leak 100 134; leak 104 186; leak 108 SAP_TX_LEAKAGE_MIN;
     leak 112 SAP_TX_LEAKAGE_MIN; leak 116 SAP_TX_LEAKAGE_MIN; leak 120 SAP_TX_LEAKAGE_MIN;
     leak 124 SAP_TX_LEAKAGE_MIN; leak 128 159; leak 132 SAP_TX_LEAKAGE_MIN; leak 136 SAP_TX_LEAKAGE_MIN;
     leak 140 SAP_TX_LEAKAGE_MIN; leak 144 SAP_TX_LEAKAGE_MIN];
   mk_matrix 124 [
     leak 36 469; leak 40 433; leak 44 434; leak 48 435; leak 52 332; leak 56 345; leak 60 SAP_TX_LEAKAGE_MAX;
     leak 64 SAP_TX_LEAKAGE_MAX; leak 100 146; leak 104 177; leak 108 SAP_TX_LEAKAGE_MIN;
     leak 112 SAP_TX_LEAKAGE_MIN; leak 116 350; leak 120 SAP_TX_LEAKAGE_MIN; leak 124 SAP_TX_LEAKAGE_MIN;
     leak 128 138; leak 132 SAP_TX_LEAKAGE_MIN; leak 136 SAP_TX_LEAKAGE_MIN; leak 140 SAP_TX_LEAKAGE_MIN;
     leak 144 SAP_TX_LEAKAGE_MIN];
   mk_matrix 128 [
     leak 36 408; leak 40 434; leak 44 449; leak 48 444; leak 52 341; leak 56 374; leak 60 SAP_TX_LEAKAGE_MAX;
     leak 64 SAP_TX_LEAKAGE_MAX; leak 100 205; leak 104 208; leak 108 SAP_TX_LEAKAGE_MIN;
     leak 112 SAP_TX_LEAKAGE_MIN; leak 116 142; leak 120 SAP_TX_LEAKAGE_MIN; leak 124 SAP_TX_LEAKAGE_MIN;
     leak 128 SAP_TX_LEAKAGE_MIN; leak 132 SAP_TX_LEAKAGE_MIN; leak 136 SAP_TX_LEAKAGE_MIN;
     leak 140 SAP_TX_LEAKAGE_MIN; leak 144 SAP_TX_LEAKAGE_MIN];
   mk_matrix 132 [
     leak 36 SAP_TX_LEAKAGE_MAX; leak 40 SAP_TX_LEAKAGE_MAX; leak 44 SAP_TX_LEAKAGE_MAX;
     leak 48 SAP_TX_LEAKAGE_MAX; leak 52 SAP_TX_LEAKAGE_MAX; leak 56 SAP_TX_LEAKAGE_MAX;
     leak 60 SAP_TX_LEAKAGE_MIN; leak 64 SAP_TX_LEAKAGE_MIN; leak 100 SAP_TX_LEAKAGE_MIN;
     leak 104 SAP_TX_LEAKAGE_MIN; leak 108 SAP_TX_LEAKAGE_MIN; leak 112 SAP_TX_LEAKAGE_MIN;
     leak 116 SAP_TX_LEAKAGE_MIN; leak 120 SAP_TX_LEAKAGE_MIN; leak 124 SAP_TX_LEAKAGE_MIN;
     leak 128 SAP_TX_LEAKAGE_MIN; leak 132 SAP_TX_LEAKAGE_MIN; leak 136 SAP_TX_LEAKAGE_MIN;
     leak 140 SAP_TX_LEAKAGE_MIN; leak 144 SAP_TX_LEAKAGE_MIN];
   mk_matrix 136 [
     leak 36 SAP_TX_LEAKAGE_MAX; leak 40 SAP_TX_LEAKAGE_MAX; leak 44 SAP_TX_LEAKAGE_MAX;
     leak 48 SAP_TX_LEAKAGE_MAX; leak 52 SAP_TX_LEAKAGE_MAX; leak 56 SAP_TX_LEAKAGE_MAX;
     leak 60 SAP_TX_LEAKAGE_MIN; leak 64 SAP_TX_LEAKAGE_MIN; leak 100 SAP_TX_LEAKAGE_MIN;
     leak 104 SAP_TX_LEAKAGE_MIN; leak 108 SAP_TX_LEAKAGE_MIN; leak 112 SAP_TX_LEAKAGE_MIN;
     leak 116 SAP_TX_LEAKAGE_MIN; leak 120 SAP_TX_LEAKAGE_MIN; leak 124 SAP_TX_LEAKAGE_MIN;
     leak 128 SAP_TX_LEAKAGE_MIN; leak 132 SAP_TX_LEAKAGE_MIN; leak 136 SAP_TX_LEAKAGE_MIN;
     leak 140 SAP_TX_LEAKAGE_MIN; leak 144 SAP_TX_LEAKAGE_MIN];
   mk_matrix 140 [
     leak 36 SAP_TX_LEAKAGE_MAX; leak 40 SAP_TX_LEAKAGE_MAX; leak 44 SAP_TX_LEAKAGE_MAX;
     leak 48 SAP_TX_LEAKAGE_MAX; leak 52 SAP_TX_LEAKAGE_MAX; leak 56 SAP_TX_LEAKAGE_MAX;
     leak 60 SAP_TX_LEAKAGE_MIN; leak 64 SAP_TX_LEAKAGE_MIN; leak 100 SAP_TX_LEAKAGE_MIN;
     leak 104 SAP_TX_LEAKAGE_MIN; leak 108 SAP_TX_LEAKAGE_MIN; leak 112 SAP_TX_LEAKAGE_MIN;
     leak 116 SAP_TX_LEAKAGE_MIN; leak 120 SAP_TX_LEAKAGE_MIN; leak 124 SAP_TX_LEAKAGE_MIN;
     leak 128 SAP_TX_LEAKAGE_MIN; leak 132 SAP_TX_LEAKAGE_MIN; leak 136 SAP_TX_LEAKAGE_MIN;
     leak 144 SAP_TX_LEAKAGE_MIN; leak 0 0];
   mk_matrix 144 [
     leak 36 SAP_TX_LEAKAGE_MAX; leak 40 SAP_TX_LEAKAGE_MAX; leak 44 SAP_TX_LEAKAGE_MAX;
     leak 48 SAP_TX_LEAKAGE_MAX; leak 52 SAP_TX_LEAKAGE_MAX; leak 56 SAP_TX_LEAKAGE_MAX;
     leak 60 SAP_TX_LEAKAGE_MIN; leak 64 SAP_TX_LEAKAGE_MIN; leak 100 SAP_TX_LEAKAGE_MIN;
     leak 104 SAP_TX_LEAKAGE_MIN; leak 108 SAP_TX_LEAKAGE_MIN; leak 112 SAP_TX_LEAKAGE_MIN;
     leak 116 SAP_TX_LEAKAGE_MIN; leak 120 SAP_TX_LEAKAGE_MIN; leak 124 SAP_TX_LEAKAGE_MIN;
     leak 128 SAP_TX_LEAKAGE_MIN; leak 132 SAP_TX_LEAKAGE_MIN; leak 136 SAP_TX_LEAKAGE_MIN;
     leak 144 SAP_TX_LEAKAGE_MIN; leak 0 0]
  ].

Definition ht80_chan : list tSapChanMatrixInfo := ht80_chan_low ++ ht80_chan_high.

Definition ht40_chan_low : list tSapChanMatrixInfo :=
  [
   mk_matrix 52 [
     leak 36 SAP_TX_LEAKAGE_AUTO_MIN; leak 40 SAP_TX_LEAKAGE_AUTO_MIN; leak 44 230; leak 48 230;
     leak 52 SAP_TX_LEAKAGE_MIN; leak 56 SAP_TX_LEAKAGE_MIN; leak 60 SAP_TX_LEAKAGE_AUTO_MIN;
     leak 64 SAP_TX_LEAKAGE_AUTO_MIN; leak 100 625; leak 104 323; leak 108 646; leak 112 646;
     leak 116 SAP_TX_LEAKAGE_MAX; leak 120 SAP_TX_LEAKAGE_MAX; leak 124 SAP_TX_LEAKAGE_MAX;
     leak 128 SAP_TX_LEAKAGE_MAX; leak 132 SAP_TX_LEAKAGE_MAX; leak 136 SAP_TX_LEAKAGE_MAX;
     leak 140 SAP_TX_LEAKAGE_MAX; leak 144 SAP_TX_LEAKAGE_MIN];
   mk_matrix 56 [
     leak 36 SAP_TX_LEAKAGE_AUTO_MIN; leak 40 SAP_TX_LEAKAGE_AUTO_MIN; leak 44 SAP_TX_LEAKAGE_AUTO_MIN;
     leak 48 SAP_TX_LEAKAGE_AUTO_MIN; leak 52 SAP_TX_LEAKAGE_MIN; leak 56 SAP_TX_LEAKAGE_MIN;
     leak 60 SAP_TX_LEAKAGE_MIN; leak 64 SAP_TX_LEAKAGE_MIN; leak 100 611; leak 104 611; leak 108 617;
     leak 112 617; leak 116 SAP_TX_LEAKAGE_MAX; leak 120 SAP_TX_LEAKAGE_MAX; leak 124 SAP_TX_LEAKAGE_MAX;
     leak 128 SAP_TX_LEAKAGE_MAX; leak 132 SAP_TX_LEAKAGE_MAX; leak 136 SAP_TX_LEAKAGE_MAX;
     leak 140 SAP_TX_LEAKAGE_MAX; leak 144 SAP_TX_LEAKAGE_MIN];
   mk_matrix 60 [
     leak 36 SAP_TX_LEAKAGE_AUTO_MIN; leak 40 SAP_TX_LEAKAGE_AUTO_MIN; leak 44 SAP_TX_LEAKAGE_AUTO_MIN;
     leak 48 SAP_TX_LEAKAGE_AUTO_MIN; leak 52 190; leak 56 190; leak 60 SAP_TX_LEAKAGE_MIN;
     leak 64 SAP_TX_LEAKAGE_MIN; leak 100 608; leak 104 608; leak 108 623; leak 112 623;
     leak 116 SAP_TX_LEAKAGE_MAX; leak 120 SAP_TX_LEAKAGE_MAX; leak 124 SAP_TX_LEAKAGE_MAX;
     leak 128 SAP_TX_LEAKAGE_MAX; leak 132 SAP_TX_LEAKAGE_MAX; leak 136 SAP_TX_LEAKAGE_MAX;
     leak 140 SAP_TX_LEAKAGE_MAX; leak 144 SAP_TX_LEAKAGE_MIN];
   mk_matrix 64 [
     leak 36 SAP_TX_LEAKAGE_AUTO_MIN; leak 40 SAP_TX_LEAKAGE_AUTO_MIN; leak 44 SAP_TX_LEAKAGE_AUTO_MIN;
     leak 48 SAP_TX_LEAKAGE_AUTO_MIN; leak 52 295; leak 56 295; leak 60 SAP_TX_LEAKAGE_MIN;
     leak 64 SAP_TX_LEAKAGE_MIN; leak 100 594; leak 104 594; leak 108 625; leak 112 625;
     leak 116 SAP_TX_LEAKAGE_MAX; leak 120 SAP_TX_LEAKAGE_MAX; leak 124 SAP_TX_LEAKAGE_MAX;
     leak 128 SAP_TX_LEAKAGE_MAX; leak 132 SAP_TX_LEAKAGE_MAX; leak 136 SAP_TX_LEAKAGE_MAX;
     leak 140 SAP_TX_LEAKAGE_MAX; leak 144 SAP_TX_LEAKAGE_MIN];
   mk_matrix 100 [
     leak 36 618; leak 40 618; leak 44 604; leak 48 604; leak 52 596; leak 56 596; leak 60 584; leak 64 584;
     leak 100 SAP_TX_LEAKAGE_MIN; leak 104 SAP_TX_LEAKAGE_MIN; leak 108 299; leak 112 299;
     leak 116 SAP_TX_LEAKAGE_AUTO_MIN; leak 120 SAP_TX_LEAKAGE_AUTO_MIN; leak 124 SAP_TX_LEAKAGE_AUTO_MIN;
     leak 128 SAP_TX_LEAKAGE_AUTO_MIN; leak 132 538; leak 136 538; leak 140 598; leak 144 SAP_TX_LEAKAGE_MIN];
   mk_matrix 104 [
     leak 36 636; leak 40 636; leak 44 601; leak 48 601; leak 52 616; leak 56 616; leak 60 584; leak 64 584;
     leak 100 SAP_TX_LEAKAGE_MIN; leak 104 SAP_TX_LEAKAGE_MIN; leak 108 SAP_TX_LEAKAGE_MIN;
     leak 112 SAP_TX_LEAKAGE_MIN; leak 116 SAP_TX_LEAKAGE_AUTO_MIN; leak 120 SAP_TX_LEAKAGE_AUTO_MIN;
     leak 124 SAP_TX_LEAKAGE_AUTO_MIN; leak 128 SAP_TX_LEAKAGE_AUTO_MIN; leak 132 553; leak 136 553;
     leak 140 568; leak 144 SAP_TX_LEAKAGE_MIN];
   mk_matrix 108 [
     leak 36 600; leak 40 600; leak 44 627; leak 48 627; leak 52 611; leak 56 611; leak 60 611; leak 64 611;
     leak 100 214; leak 104 214; leak 108 SAP_TX_LEAKAGE_MIN; leak 112 SAP_TX_LEAKAGE_MIN;
     leak 116 SAP_TX_LEAKAGE_AUTO_MIN; leak 120 SAP_TX_LEAKAGE_AUTO_MIN; leak 124 SAP_TX_LEAKAGE_AUTO_MIN;
     leak 128 SAP_TX_LEAKAGE_AUTO_MIN; leak 132 SAP_TX_LEAKAGE_AUTO_MIN; leak 136 SAP_TX_LEAKAGE_AUTO_MIN;
     leak 140 534; leak 144 SAP_TX_LEAKAGE_MIN];
   mk_matrix 112 [
     leak 36 645; leak 40 645; leak 44 641; leak 48 641; leak 52 618; leak 56 618; leak 60 612; leak 64 612;
     leak 100 293; leak 104 293; leak 108 SAP_TX_LEAKAGE_MIN; leak 112 SAP_TX_LEAKAGE_MIN;
     leak 116 SAP_TX_LEAKAGE_MIN; leak 120 SAP_TX_LEAKAGE_MIN; leak 124 SAP_TX_LEAKAGE_AUTO_MIN;
     leak 128 SAP_TX_LEAKAGE_AUTO_MIN; leak 132 SAP_TX_LEAKAGE_AUTO_MIN; leak 136 SAP_TX_LEAKAGE_AUTO_MIN;
     leak 140 521; leak 144 SAP_TX_LEAKAGE_MIN]
  ].

Definition ht40_chan_high : list tSapChanMatrixInfo :=
  [
   mk_matrix 116 [
     leak 36 661; leak 40 661; leak 44 624; leak 48 624; leak 52 634; leak 56 634; leak 60 611; leak 64 611;
     leak 100 SAP_TX_LEAKAGE_AUTO_MIN; leak 104 SAP_TX_LEAKAGE_AUTO_MIN; leak 108 217; leak 112 217;
     leak 116 SAP_TX_LEAKAGE_MIN; leak 120 SAP_TX_LEAKAGE_MIN; leak 124 SAP_TX_LEAKAGE_AUTO_MIN;
     leak 128 SAP_TX_LEAKAGE_AUTO_MIN; leak 132 SAP_TX_LEAKAGE_AUTO_MIN; leak 136 SAP_TX_LEAKAGE_AUTO_MIN;
     leak 140 SAP_TX_LEAKAGE_AUTO_MIN; leak 144 SAP_TX_LEAKAGE_MIN];
   mk_matrix 120 [
     leak 36 667; leak 40 667; leak 44 645; leak 48 645; leak 52 633; leak 56 633; leak 60 619; leak 64 619;
     leak 100 SAP_TX_LEAKAGE_AUTO_MIN; leak 104 SAP_TX_LEAKAGE_AUTO_MIN; leak 108 291; leak 112 291;
     leak 116 SAP_TX_LEAKAGE_MIN; leak 120 SAP_TX_LEAKAGE_MIN; leak 124 SAP_TX_LEAKAGE_MIN;
     leak 128 SAP_TX_LEAKAGE_MIN; leak 132 SAP_TX_LEAKAGE_AUTO_MIN; leak 136 SAP_TX_LEAKAGE_AUTO_MIN;
     leak 140 SAP_TX_LEAKAGE_AUTO_MIN; leak 144 SAP_TX_LEAKAGE_MIN];
   mk_matrix 124 [
     leak 36 676; leak 40 676; leak 44 668; leak 48 668; leak 52 595; leak 56 595; leak 60 622; leak 64 622;
     leak 100 SAP_TX_LEAKAGE_AUTO_MIN; leak 104 SAP_TX_LEAKAGE_AUTO_MIN; leak 108 SAP_TX_LEAKAGE_AUTO_MIN;
     leak 112 SAP_TX_LEAKAGE_AUTO_MIN; leak 116 225; leak 120 225; leak 124 SAP_TX_LEAKAGE_MIN;
     leak 128 SAP_TX_LEAKAGE_MIN; leak 132 SAP_TX_LEAKAGE_AUTO_MIN; leak 136 SAP_TX_LEAKAGE_AUTO_MIN;
     leak 140 SAP_TX_LEAKAGE_AUTO_MIN; leak 144 SAP_TX_LEAKAGE_MIN];
   mk_matrix 128 [
     leak 36 678; leak 40 678; leak 44 664; leak 48 664; leak 52 651; leak 56 651; leak 60 643; leak 64 643;
     leak 100 SAP_TX_LEAKAGE_AUTO_MIN; leak 104 SAP_TX_LEAKAGE_AUTO_MIN; leak 108 SAP_TX_LEAKAGE_AUTO_MIN;
     leak 112 SAP_TX_LEAKAGE_AUTO_MIN; leak 116 293; leak 120 293; leak 124 SAP_TX_LEAKAGE_MIN;
     leak 128 SAP_TX_LEAKAGE_MIN; leak 132 SAP_TX_LEAKAGE_MIN; leak 136 SAP_TX_LEAKAGE_MIN;
     leak 140 SAP_TX_LEAKAGE_AUTO_MIN; leak 144 SAP_TX_LEAKAGE_MIN];
   mk_matrix 132 [
     leak 36 689; leak 40 689; leak 44 669; leak 48 669; leak 52 662; leak 56 662; leak 60 609; leak 64 609;
     leak 100 538; leak 104 538; leak 108 SAP_TX_LEAKAGE_AUTO_MIN; leak 112 SAP_TX_LEAKAGE_AUTO_MIN;
     leak 116 SAP_TX_LEAKAGE_AUTO_MIN; leak 120 SAP_TX_LEAKAGE_AUTO_MIN; leak 124 247; leak 128 247;
     leak 132 SAP_TX_LEAKAGE_MIN; leak 136 SAP_TX_LEAKAGE_MIN; leak 140 SAP_TX_LEAKAGE_MIN;
     leak 144 SAP_TX_LEAKAGE_MIN];
   mk_matrix 136 [
     leak 36 703; leak 40 703; leak 44 688; leak 48 SAP_TX_LEAKAGE_MIN; leak 52 671; leak 56 671; leak 60 658;
     leak 64 658; leak 100 504; leak 104 504; leak 108 SAP_TX_LEAKAGE_AUTO_MIN;
     leak 112 SAP_TX_LEAKAGE_AUTO_MIN; leak 116 SAP_TX_LEAKAGE_AUTO_MIN; leak 120 SAP_TX_LEAKAGE_AUTO_MIN;
     leak 124 289; leak 128 289; leak 132 SAP_TX_LEAKAGE_MIN; leak 136 SAP_TX_LEAKAGE_MIN;
     leak 140 SAP_TX_LEAKAGE_MIN; leak 144 SAP_TX_LEAKAGE_MIN];
   mk_matrix 140 [
     leak 36 695; leak 40 695; leak 44 684; leak 48 684; leak 52 664; leak 56 664; leak 60 658; leak 64 658;
     leak 100 601; leak 104 601; leak 108 545; leak 112 545; leak 116 SAP_TX_LEAKAGE_AUTO_MIN;
     leak 120 SAP_TX_LEAKAGE_AUTO_MIN; leak 124 SAP_TX_LEAKAGE_AUTO_MIN; leak 128 SAP_TX_LEAKAGE_AUTO_MIN;
     leak 132 262; leak 136 262; leak 140 SAP_TX_LEAKAGE_MIN; leak 144 SAP_TX_LEAKAGE_MIN];
   mk_matrix 144 [
     leak 36 695; leak 40 695; leak 44 684; leak 48 684; leak 52 664; leak 56 664; leak 60 658; leak 64 658;
     leak 100 601; leak 104 601; leak 108 545; leak 112 545; leak 116 SAP_TX_LEAKAGE_AUTO_MIN;
     leak 120 SAP_TX_LEAKAGE_AUTO_MIN; leak 124 SAP_TX_LEAKAGE_AUTO_MIN; leak 128 SAP_TX_LEAKAGE_AUTO_MIN;
     leak 132 262; leak 136 262; leak 140 SAP_TX_LEAKAGE_MIN; leak 144 SAP_TX_LEAKAGE_MIN]
  ].

Definition ht40_chan : list tSapChanMatrixInfo := ht40_chan_low ++ ht40_chan_high.

Definition ht20_chan_low : list tSapChanMatrixInfo :=
  [
   mk_matrix 52 [
     leak 36 SAP_TX_LEAKAGE_AUTO_MIN; leak 40 286; leak 44 225; leak 48 121; leak 52 SAP_TX_LEAKAGE_MIN;
     leak 56 SAP_TX_LEAKAGE_MIN; leak 60 300; leak 64 SAP_TX_LEAKAGE_AUTO_MIN; leak 100 637;
     leak 104 SAP_TX_LEAKAGE_MAX; leak 108 SAP_TX_LEAKAGE_MAX; leak 112 SAP_TX_LEAKAGE_MAX;
     leak 116 SAP_TX_LEAKAGE_MAX; leak 120 SAP_TX_LEAKAGE_MAX; leak 124 SAP_TX_LEAKAGE_MAX;
     leak 128 SAP_TX_LEAKAGE_MAX; leak 132 SAP_TX_LEAKAGE_MAX; leak 136 SAP_TX_LEAKAGE_MAX;
     leak 140 SAP_TX_LEAKAGE_MAX; leak 144 SAP_TX_LEAKAGE_MIN];
   mk_matrix 56 [
     leak 36 468; leak 40 SAP_TX_LEAKAGE_AUTO_MIN; leak 44 SAP_TX_LEAKAGE_AUTO_MIN; leak 48 206;
     leak 52 SAP_TX_LEAKAGE_MIN; leak 56 SAP_TX_LEAKAGE_MIN; leak 60 SAP_TX_LEAKAGE_MIN;
     leak 64 SAP_TX_LEAKAGE_MIN; leak 100 SAP_TX_LEAKAGE_MAX; leak 104 SAP_TX_LEAKAGE_MAX;
     leak 108 SAP_TX_LEAKAGE_MAX; leak 112 SAP_TX_LEAKAGE_MAX; leak 116 SAP_TX_LEAKAGE_MAX;
     leak 120 SAP_TX_LEAKAGE_MAX; leak 124 SAP_TX_LEAKAGE_MAX; leak 128 SAP_TX_LEAKAGE_MAX;
     leak 132 SAP_TX_LEAKAGE_MAX; leak 136 SAP_TX_LEAKAGE_MAX; leak 140 SAP_TX_LEAKAGE_MAX;
     leak 144 SAP_TX_LEAKAGE_MIN];
   mk_matrix 60 [
     leak 36 507; leak 40 440; leak 44 SAP_TX_LEAKAGE_AUTO_MIN; leak 48 313; leak 52 SAP_TX_LEAKAGE_MIN;
     leak 56 SAP_TX_LEAKAGE_MIN; leak 60 SAP_TX_LEAKAGE_MIN; leak 64 SAP_TX_LEAKAGE_MIN;
     leak 100 SAP_TX_LEAKAGE_MAX; leak 104 SAP_TX_LEAKAGE_MAX; leak 108 SAP_TX_LEAKAGE_MAX;
     leak 112 SAP_TX_LEAKAGE_MAX; leak 116 SAP_TX_LEAKAGE_MAX; leak 120 SAP_TX_LEAKAGE_MAX;
     leak 124 SAP_TX_LEAKAGE_MAX; leak 128 SAP_TX_LEAKAGE_MAX; leak 132 SAP_TX_LEAKAGE_MAX;
     leak 136 SAP_TX_LEAKAGE_MAX; leak 140 SAP_TX_LEAKAGE_MAX; leak 144 SAP_TX_LEAKAGE_MIN];
   mk_matrix 64 [
     leak 36 516; leak 40 520; leak 44 506; leak 48 SAP_TX_LEAKAGE_AUTO_MIN; leak 52 301; leak 56 258;
     leak 60 SAP_TX_LEAKAGE_MIN; leak 64 SAP_TX_LEAKAGE_MIN; leak 100 620; leak 104 617;
     leak 108 SAP_TX_LEAKAGE_MAX; leak 112 SAP_TX_LEAKAGE_MAX; leak 116 SAP_TX_LEAKAGE_MAX;
     leak 120 SAP_TX_LEAKAGE_MAX; leak 124 SAP_TX_LEAKAGE_MAX; leak 128 SAP_TX_LEAKAGE_MAX;
     leak 132 SAP_TX_LEAKAGE_MAX; leak 136 SAP_TX_LEAKAGE_MAX; leak 140 SAP_TX_LEAKAGE_MAX;
     leak 144 SAP_TX_LEAKAGE_MIN];
   mk_matrix 100 [
     leak 36 616; leak 40 601; leak 44 604; leak 48 589; leak 52 612; leak 56 592; leak 60 590; leak 64 582;
     leak 100 SAP_TX_LEAKAGE_MIN; leak 104 131; leak 108 SAP_TX_LEAKAGE_AUTO_MIN;
     leak 112 SAP_TX_LEAKAGE_AUTO_MIN; leak 116 SAP_TX_LEAKAGE_AUTO_MIN; leak 120 522; leak 124 571;
     leak 128 589; leak 132 593; leak 136 598; leak 140 594; leak 144 SAP_TX_LEAKAGE_MIN];
   mk_matrix 104 [
     leak 36 622; leak 40 624; leak 44 618; leak 48 610; leak 52 SAP_TX_LEAKAGE_MAX;
     leak 56 SAP_TX_LEAKAGE_MAX; leak 60 SAP_TX_LEAKAGE_MAX; leak 64 SAP_TX_LEAKAGE_MAX;
     leak 100 SAP_TX_LEAKAGE_MIN; leak 104 SAP_TX_LEAKAGE_MIN; leak 108 SAP_TX_LEAKAGE_MIN; leak 112 463;
     leak 116 483; leak 120 503; leak 124 523; leak 128 565; leak 132 570; leak 136 588; leak 140 585;
     leak 144 SAP_TX_LEAKAGE_MIN];
   mk_matrix 108 [
     leak 36 620; leak 40 638; leak 44 611; leak 48 614; leak 52 SAP_TX_LEAKAGE_MAX;
     leak 56 SAP_TX_LEAKAGE_MAX; leak 60 SAP_TX_LEAKAGE_MAX; leak 64 SAP_TX_LEAKAGE_MAX; leak 100 477;
     leak 104 SAP_TX_LEAKAGE_MIN; leak 108 SAP_TX_LEAKAGE_MIN; leak 112 SAP_TX_LEAKAGE_MIN; leak 116 477;
     leak 120 497; leak 124 517; leak 128 537; leak 132 557; leak 136 577; leak 140 603;
     leak 144 SAP_TX_LEAKAGE_MIN];
   mk_matrix 112 [
     leak 36 636; leak 40 623; leak 44 638; leak 48 628; leak 52 SAP_TX_LEAKAGE_MAX;
     leak 56 SAP_TX_LEAKAGE_MAX; leak 60 SAP_TX_LEAKAGE_MAX; leak 64 606; leak 100 501; leak 104 481;
     leak 108 SAP_TX_LEAKAGE_MIN; leak 112 SAP_TX_LEAKAGE_MIN; leak 116 SAP_TX_LEAKAGE_MIN; leak 120 481;
     leak 124 501; leak 128 421; leak 132 541; leak 136 561; leak 140 583; leak 144 SAP_TX_LEAKAGE_MIN]
  ].

Definition ht20_chan_high : list tSapChanMatrixInfo :=
  [
   mk_matrix 116 [
     leak 36 646; leak 40 648; leak 44 633; leak 48 634; leak 52 SAP_TX_LEAKAGE_MAX;
     leak 56 SAP_TX_LEAKAGE_MAX; leak 60 615; leak 64 594; leak 100 575; leak 104 554; leak 108 534;
     leak 112 SAP_TX_LEAKAGE_MIN; leak 116 SAP_TX_LEAKAGE_MIN; leak 120 SAP_TX_LEAKAGE_MIN;
     leak 124 SAP_TX_LEAKAGE_MIN; leak 128 SAP_TX_LEAKAGE_MIN; leak 132 534; leak 136 554; leak 140 574;
     leak 144 SAP_TX_LEAKAGE_MIN];
   mk_matrix 120 [
     leak 36 643; leak 40 649; leak 44 654; leak 48 629; leak 52 SAP_TX_LEAKAGE_MAX; leak 56 621;
     leak 60 SAP_TX_LEAKAGE_MAX; leak 64 SAP_TX_LEAKAGE_MAX; leak 100 565; leak 104 545; leak 108 525;
     leak 112 505; leak 116 SAP_TX_LEAKAGE_MIN; leak 120 SAP_TX_LEAKAGE_MIN; leak 124 SAP_TX_LEAKAGE_MIN;
     leak 128 505; leak 132 525; leak 136 545; leak 140 565; leak 144 SAP_TX_LEAKAGE_MIN];
   mk_matrix 124 [
     leak 36 638; leak 40 657; leak 44 663; leak 48 649; leak 52 SAP_TX_LEAKAGE_MAX;
     leak 56 SAP_TX_LEAKAGE_MAX; leak 60 SAP_TX_LEAKAGE_MAX; leak 64 SAP_TX_LEAKAGE_MAX; leak 100 581;
     leak 104 561; leak 108 541; leak 112 521; leak 116 499; leak 120 SAP_TX_LEAKAGE_MIN;
     leak 124 SAP_TX_LEAKAGE_MIN; leak 128 SAP_TX_LEAKAGE_MIN; leak 132 499; leak 136 519; leak 140 539;
     leak 144 SAP_TX_LEAKAGE_MIN];
   mk_matrix 128 [
     leak 36 651; leak 40 651; leak 44 674; leak 48 640; leak 52 SAP_TX_LEAKAGE_MAX;
     leak 56 SAP_TX_LEAKAGE_MAX; leak 60 SAP_TX_LEAKAGE_MAX; leak 64 SAP_TX_LEAKAGE_MAX; leak 100 603;
     leak 104 560; leak 108 540; leak 112 520; leak 116 499; leak 120 479; leak 124 SAP_TX_LEAKAGE_MIN;
     leak 128 SAP_TX_LEAKAGE_MIN; leak 132 SAP_TX_LEAKAGE_MIN; leak 136 479; leak 140 499;
     leak 144 SAP_TX_LEAKAGE_MIN];
   mk_matrix 132 [
     leak 36 643; leak 40 668; leak 44 651; leak 48 657; leak 52 SAP_TX_LEAKAGE_MAX;
     leak 56 SAP_TX_LEAKAGE_MAX; leak 60 SAP_TX_LEAKAGE_MAX; leak 64 SAP_TX_LEAKAGE_MAX;
     leak 100 SAP_TX_LEAKAGE_MAX; leak 104 602; leak 108 578; leak 112 570; leak 116 550; leak 120 530;
     leak 124 510; leak 128 SAP_TX_LEAKAGE_MIN; leak 132 SAP_TX_LEAKAGE_MIN; leak 136 SAP_TX_LEAKAGE_MIN;
     leak 140 490; leak 144 SAP_TX_LEAKAGE_MIN];
   mk_matrix 136 [
     leak 36 654; leak 40 667; leak 44 666; leak 48 642; leak 52 SAP_TX_LEAKAGE_MAX;
     leak 56 SAP_TX_LEAKAGE_MAX; leak 60 SAP_TX_LEAKAGE_MAX; leak 64 SAP_TX_LEAKAGE_MAX;
     leak 100 SAP_TX_LEAKAGE_MAX; leak 104 SAP_TX_LEAKAGE_MAX; leak 108 SAP_TX_LEAKAGE_MAX; leak 112 596;
     leak 116 555; leak 120 535; leak 124 515; leak 128 495; leak 132 SAP_TX_LEAKAGE_MIN;
     leak 136 SAP_TX_LEAKAGE_MIN; leak 140 SAP_TX_LEAKAGE_MIN; leak 144 SAP_TX_LEAKAGE_MIN];
   mk_matrix 140 [
     leak 36 679; leak 40 673; leak 44 667; leak 48 656; leak 52 634; leak 56 663; leak 60 662; leak 64 660;
     leak 100 SAP_TX_LEAKAGE_MAX; leak 104 SAP_TX_LEAKAGE_MAX; leak 108 SAP_TX_LEAKAGE_MAX; leak 112 590;
     leak 116 573; leak 120 553; leak 124 533; leak 128 513; leak 132 490; leak 136 SAP_TX_LEAKAGE_MIN;
     leak 140 SAP_TX_LEAKAGE_MIN; leak 144 SAP_TX_LEAKAGE_MIN];
   mk_matrix 144 [
     leak 36 679; leak 40 673; leak 44 667; leak 48 656; leak 52 634; leak 56 663; leak 60 662; leak 64 660;
     leak 100 SAP_TX_LEAKAGE_MAX; leak 104 SAP_TX_LEAKAGE_MAX; leak 108 SAP_TX_LEAKAGE_MAX; leak 112 590;
     leak 116 573; leak 120 553; leak 124 533; leak 128 513; leak 132 490; leak 136 SAP_TX_LEAKAGE_MIN;
     leak 140 SAP_TX_LEAKAGE_MIN; leak 144 SAP_TX_LEAKAGE_MIN]
  ].

Definition ht20_chan : list tSapChanMatrixInfo := ht20_chan_low ++ ht20_chan_high.

(** *** Looking up and marking *)

(** The row of a non-occupied channel. *)
Definition sap_find_target_channel_in_channel_matrix (ch_width : phy_ch_width) (NOL_channel : Z)
    : option (list tSapTxLeakInfo) :=
  let pchan_matrix :=
    match ch_width with
    | CH_WIDTH_20MHZ => ht20_chan
    | CH_WIDTH_40MHZ => ht40_chan
    | CH_WIDTH_80MHZ => ht80_chan
    | _ => ht20_chan
    end in
  chan_matrix <$> find (λ r, NOL_channel =? channel r) pchan_matrix.

(** CHAN_ENUM_144 - CHAN_ENUM_36 + 1 *)
Definition num_channel : Z := 20.

(** The loop over the candidates and the row; the fuel is more than the number
    of both together. *)
Fixpoint leak_loop (fuel : nat) (mx : list tSapTxLeakInfo) (threshold sz : Z) (l : list Z) (j k : Z) : option (list Z) :=
  match fuel with
  | O => None
  | S f =>
      if (j <? sz) && (k <? num_channel) then
        c ← aget l j;
        if c =? 0 then leak_loop f mx threshold sz l (j + 1) k
        else
          e ← aget mx k;
          if negb (leak_chan e =? c) then leak_loop f mx threshold sz l j (k + 1)
          else
            l ← (if leak_lvl e <=? threshold then aset l j 0 else Some l);
            leak_loop f mx threshold sz l (j + 1) (k + 1)
      else Some l
  end.

(** The loop over the entries of the non-occupancy list, all 40 of them.  The
    list of candidates is returned with the status. *)
Fixpoint mark_loop (idxs : list Z) (ch_width : phy_ch_width) (nol : list tSapDfsNolInfo) (threshold sz : Z)
    (l : list Z) : option (QDF_STATUS * list Z) :=
  match idxs with
  | [] => Some (QDF_STATUS_SUCCESS, l)
  | i :: rest =>
      e ← aget nol i;
      if (radar_status_flag e =? eSAP_DFS_CHANNEL_USABLE) || (radar_status_flag e =? eSAP_DFS_CHANNEL_AVAILABLE)
      then mark_loop rest ch_width nol threshold sz l
      else match sap_find_target_channel_in_channel_matrix ch_width (dfs_channel_number e) with
      | None => Some (QDF_STATUS_E_FAILURE, l)
      | Some mx =>
          l ← leak_loop (S (Z.to_nat sz + Z.to_nat num_channel)) mx threshold sz l 0 0;
          mark_loop rest ch_width nol threshold sz l
      end
  end.

Definition sap_mark_leaking_ch (d : tSapDfsInfo) (ch_width : phy_ch_width) (nol : list tSapDfsNolInfo)
    (temp_ch_lst_sz : Z) (temp_ch_lst : list Z) : option (QDF_STATUS * list Z) :=
  mark_loop (seqZ 0 NUM_5GHZ_CHANNELS) ch_width nol (tx_leakage_threshold d) temp_ch_lst_sz temp_ch_lst.

(** ** What is removed *)

Definition leaks (mx : list tSapTxLeakInfo) (threshold c : Z) : bool :=
  existsb (λ e, (leak_chan e =? c) && (leak_lvl e <=? threshold)) mx.

Definition strike (mx : list tSapTxLeakInfo) (threshold c : Z) : Z := if leaks mx threshold c then 0 else c.

Abbreviation candidates := (List.filter (λ c, negb (c =? 0))).

(** Every candidate has an entry in the row or lies above the row. *)
Definition covered (mx : list tSapTxLeakInfo) (l : list Z) : Prop :=
  ∀ c, c ∈ l → c ≠ 0 → c ∈ map leak_chan mx ∨ ∀ x, x ∈ map leak_chan mx → x < c.

Section leak.
Implicit Types (mx : list tSapTxLeakInfo) (l pre : list Z).

Lemma leaks_cons e mx thr c :
  leaks (e :: mx) thr c = (leak_chan e =? c) && (leak_lvl e <=? thr) || leaks mx thr c.
Proof. done. Qed.

Lemma leaks_out mx thr c : c ∉ map leak_chan mx → leaks mx thr c = false.
Proof.
  induction mx as [|e mx IH]; [done|]. cbn [map]. rewrite leaks_cons. intros [Hc Hm]%not_elem_of_cons.
  rewrite IH by done. by destruct (Z.eqb_spec (leak_chan e) c); [subst|].
Qed.

(** The candidates below the head of the row are struck by the rest only. *)
Lemma strike_tail e mx thr l :
  (∀ c, c ∈ l → c ≠ 0 → c ≠ leak_chan e) → leak_chan e ≠ 0 → map (strike (e :: mx) thr) l = map (strike mx thr) l.
Proof.
  intros Hl He. apply map_ext_in. intros c Hc%list_elem_of_In. unfold strike. rewrite leaks_cons.
  destruct (Z.eqb_spec (leak_chan e) c) as [Heq|]; [|done].
  destruct (Z.eq_dec c 0); [congruence|]. by destruct (Hl c Hc).
Qed.

Lemma strike_nil thr l : map (strike [] thr) l = l.
Proof. rewrite <- (map_id l) at 2. by apply map_ext. Qed.

(** The loop at position [j] of the candidates and [k] of the row. *)
Lemma leak_loop_spec fuel mxp mx thr pre l :
  (length l + length mx < fuel)%nat → Z.of_nat (length (mxp ++ mx)) = num_channel →
  StronglySorted Z.lt (map leak_chan mx) → 0 ∉ map leak_chan mx →
  StronglySorted Z.lt (candidates l) → covered mx l →
  leak_loop fuel (mxp ++ mx) thr (Z.of_nat (length (pre ++ l))) (pre ++ l) (Z.of_nat (length pre)) (Z.of_nat (length mxp)) =
  Some (pre ++ map (strike mx thr) l).
Proof.
  revert mxp mx pre l. induction fuel as [|f IH]; intros mxp mx pre l Hf Hmx Hs H0 Hl Hcov; [lia|].
  cbn [leak_loop]. rewrite !length_app in *.
  destruct l as [|c l].
  { rewrite Nat.add_0_r. cbn [length]. rewrite Z.ltb_irrefl. cbn [andb map]. done. }
  destruct (Z.ltb_spec (Z.of_nat (length pre)) (Z.of_nat (length pre + length (c :: l)))); [|cbn in *; lia].
  destruct mx as [|e mx].
  { cbn [length] in Hmx. rewrite Nat.add_0_r in Hmx. rewrite Hmx, Z.ltb_irrefl. cbn [andb]. by rewrite strike_nil. }
  rewrite (proj2 (Z.ltb_lt (Z.of_nat (length mxp)) num_channel)) by (cbn [length] in Hmx; lia). cbn [andb].
  rewrite !aget_mid. cbn [mbind option_bind].
  assert (Hp1 : ∀ x : Z, Z.of_nat (length pre) + 1 = Z.of_nat (length (pre ++ [x]))) by (intros; rewrite length_app; cbn; lia).
  assert (Hp2 : ∀ x : tSapTxLeakInfo, Z.of_nat (length mxp) + 1 = Z.of_nat (length (mxp ++ [x]))) by (intros; rewrite length_app; cbn; lia).
  assert (Hsz : ∀ x : Z, Z.of_nat (length pre + length (c :: l)) = Z.of_nat (length ((pre ++ [x]) ++ l)))
    by (intros; rewrite !length_app; cbn; lia).
  assert (Ha1 : ∀ x : Z, pre ++ x :: l = (pre ++ [x]) ++ l) by (intros; by rewrite <- app_assoc).
  assert (Ha2 : mxp ++ e :: mx = (mxp ++ [e]) ++ mx) by by rewrite <- app_assoc.
  cbn [map] in Hs, H0. apply StronglySorted_inv in Hs as [Hs Hse]. rewrite Forall_forall in Hse.
  apply not_elem_of_cons in H0 as [H0e H0]. cbn [length] in *.
  destruct (Z.eqb_spec c 0) as [->|Hc].
  { rewrite (Hp1 0), (Hsz 0), (Ha1 0). rewrite IH; try done.
    - rewrite <- app_assoc. cbn. unfold strike at 2.
      destruct (leaks _ _ 0) eqn:E; [done|]. done.
    - cbn [length]. lia.
    - rewrite !length_app. cbn [length]. lia.
    - cbn [map]. constructor; [done|]. by rewrite Forall_forall.
    - cbn [map]. by apply not_elem_of_cons.
    - intros c' Hc'. apply Hcov. by right. }
  assert (Hlc : ∀ c', c' ∈ l → c' ≠ 0 → c < c').
  { intros c' Hc' Hz. cbn [List.filter] in Hl. destruct (Z.eqb_spec c 0); [done|]. cbn [negb] in Hl.
    apply StronglySorted_inv in Hl as [_ Hl]. rewrite Forall_forall in Hl. apply Hl.
    apply list_elem_of_In, filter_In. split; [by apply list_elem_of_In|]. by apply negb_true_iff, Z.eqb_neq. }
  assert (Hl' : StronglySorted Z.lt (candidates l)).
  { cbn [List.filter] in Hl. destruct (negb _); [by apply StronglySorted_inv in Hl as [? _]|done]. }
  destruct (Z.eqb_spec (leak_chan e) c) as [Heq|Hne]; cbn [negb].
  - assert (Hset : (if leak_lvl e <=? thr then aset (pre ++ c :: l) (Z.of_nat (length pre)) 0 else Some (pre ++ c :: l)) =
      Some (pre ++ strike (e :: mx) thr c :: l)).
    { unfold strike. rewrite leaks_cons, Heq, Z.eqb_refl. cbn [andb].
      rewrite (leaks_out mx) by (intros Hin; specialize (Hse c Hin); lia). rewrite orb_false_r.
      destruct (_ <=? _); [apply aset_mid|done]. }
    rewrite Hset. cbn [mbind option_bind]. set (c1 := strike (e :: mx) thr c).
    rewrite (Hp1 c1), (Hp2 e), (Hsz c1), Ha1, Ha2. rewrite IH; try done.
    + rewrite <- app_assoc. cbn [app map]. rewrite (strike_tail e mx); [done| |done].
      intros c' Hc' Hz. specialize (Hlc c' Hc' Hz). lia.
    + lia.
    + rewrite !length_app. cbn [length]. lia.
    + intros c' Hc' Hz. destruct (Hcov c' ltac:(by right) Hz) as [Hin|Hgt].
      * cbn [map] in Hin. apply elem_of_cons in Hin as [->|Hin]; [|by left]. specialize (Hlc _ Hc' Hz). lia.
      * right. intros x Hx. apply Hgt. by right.
  - assert (Hcl : ∀ c', c' ∈ c :: l → c' ≠ 0 → c' ≠ leak_chan e).
    { intros c' Hc' Hz ->. apply elem_of_cons in Hc' as [Hc'|Hc']; [by destruct Hne|].
      specialize (Hlc _ Hc' Hz). destruct (Hcov c ltac:(by left) Hc) as [Hin|Hgt].
      - cbn [map] in Hin. apply elem_of_cons in Hin as [->|Hin]; [done|]. specialize (Hse _ Hin). lia.
      - specialize (Hgt (leak_chan e) ltac:(by left)). lia. }
    rewrite (Hp2 e), Ha2.
    replace (Z.of_nat (length pre + S (length l))) with (Z.of_nat (length (pre ++ c :: l))) by (rewrite length_app; cbn; lia).
    rewrite IH; try done.
    + rewrite (strike_tail e mx); [done|done|done].
    + cbn [length]. lia.
    + rewrite !length_app. cbn [length]. lia.
    + intros c' Hc' Hz. destruct (Hcov c' Hc' Hz) as [Hin|Hgt].
      * cbn [map] in Hin. apply elem_of_cons in Hin as [->|Hin]; [|by left]. by destruct (Hcl _ Hc' Hz).
      * right. intros x Hx. apply Hgt. by right.
Qed.

(** ** The rows *)
Definition matrix_channels : list Z :=
  [36; 40; 44; 48; 52; 56; 60; 64; 100; 104; 108; 112; 116; 120; 124; 128; 132; 136; 140; 144].
(** The channels that may be in the non-occupancy list. *)
Definition matrix_rows : list Z := [52; 56; 60; 64; 100; 104; 108; 112; 116; 120; 124; 128; 132; 136; 140; 144].

(** The two rows that lack the entry for channel 140. *)
Definition short_row (w : phy_ch_width) (c : Z) : bool :=
  match w with CH_WIDTH_80MHZ => (c =? 140) || (c =? 144) | _ => false end.

Definition row_ok (w : phy_ch_width) (c : Z) : bool :=
  match sap_find_target_channel_in_channel_matrix w c with
  | Some mx => bool_decide (map leak_chan mx = matrix_channels) || short_row w c
  | None => false
  end.

Lemma rows_ok w c : c ∈ matrix_rows → row_ok w c = true.
Proof.
  intros Hc. assert (Ha : forallb (row_ok w) matrix_rows = true) by (destruct w; vm_compute; done).
  rewrite forallb_forall in Ha. by apply Ha, list_elem_of_In.
Qed.

Lemma row_complete w c : c ∈ matrix_rows → short_row w c = false →
  ∃ mx, sap_find_target_channel_in_channel_matrix w c = Some mx ∧ map leak_chan mx = matrix_channels.
Proof.
  intros Hc Hs. pose proof (rows_ok w c Hc) as Hr. unfold row_ok in Hr.
  destruct (sap_find_target_channel_in_channel_matrix w c) as [mx|]; [|done].
  exists mx. split; [done|]. rewrite Hs, orb_false_r in Hr. by bool_hyps.
Qed.

Lemma matrix_channels_sorted : StronglySorted Z.lt matrix_channels ∧ 0 ∉ matrix_channels ∧
  ∀ c, c ∈ matrix_channels → c <= 144.
Proof.
  split_and!.
  - unfold matrix_channels. repeat (constructor; [|repeat (constructor; [lia|]); constructor]). constructor.
  - unfold matrix_channels. set_solver.
  - intros c. unfold matrix_channels. set_solver by lia.
Qed.

(** A candidate that is not struck out, and the ones above the rows. *)
Definition candidate_ok (c : Z) : Prop := c = 0 ∨ c ∈ matrix_channels ∨ 144 < c.

Lemma candidates_strike mx thr l :
  StronglySorted Z.lt (candidates l) → StronglySorted Z.lt (candidates (map (strike mx thr) l)).
Proof.
  induction l as [|c l IH]; [done|]. cbn [map List.filter]. intros Hl.
  assert (Hl' : StronglySorted Z.lt (candidates l)).
  { destruct (negb _); [by apply StronglySorted_inv in Hl as [? _]|done]. }
  unfold strike at 1 2. destruct (leaks mx thr c); [by apply IH|].
  destruct (Z.eqb_spec c 0) as [->|Hc]; cbn [negb]; cbn [Z.eqb negb] in *; [by apply IH|].
  destruct (Z.eqb_spec c 0); [done|]. cbn [negb] in Hl.
  apply StronglySorted_inv in Hl as [_ Hc']. constructor; [by apply IH|].
  rewrite Forall_forall in *. intros x Hx%list_elem_of_In. apply filter_In in Hx as [Hx Hz].
  apply in_map_iff in Hx as (y & <- & Hy). unfold strike in *. destruct (leaks mx thr y); [done|].
  apply Hc'. apply list_elem_of_In, filter_In. done.
Qed.

Lemma strike_ok mx thr l : Forall candidate_ok l → Forall candidate_ok (map (strike mx thr) l).
Proof.
  rewrite !Forall_forall. intros Hl c' (c & -> & Hc)%list_elem_of_fmap. unfold strike.
  destruct (leaks mx thr c); [by left|by apply Hl].
Qed.

(** ** All entries *)

Definition unavailable (e : tSapDfsNolInfo) : bool :=
  negb ((radar_status_flag e =? eSAP_DFS_CHANNEL_USABLE) || (radar_status_flag e =? eSAP_DFS_CHANNEL_AVAILABLE)).

(** Whether a candidate leaks too much into some entry. *)
Definition leaks_into (w : phy_ch_width) (nol : list tSapDfsNolInfo) (thr c : Z) : bool :=
  existsb (λ e, unavailable e &&
    from_option (λ mx, leaks mx thr c) false (sap_find_target_channel_in_channel_matrix w (dfs_channel_number e))) nol.

Lemma mark_loop_spec w thr np nol l :
  Forall (λ e, unavailable e = true → dfs_channel_number e ∈ matrix_rows ∧ short_row w (dfs_channel_number e) = false) nol →
  StronglySorted Z.lt (candidates l) → Forall candidate_ok l →
  mark_loop (seqZ (Z.of_nat (length np)) (Z.of_nat (length nol))) w (np ++ nol) thr (Z.of_nat (length l)) l =
  Some (QDF_STATUS_SUCCESS, map (λ c, if leaks_into w nol thr c then 0 else c) l).
Proof.
  intros Hn. revert np l. induction Hn as [|e nol He Hn IH]; intros np l Hs Hc.
  { cbn. by rewrite map_id. }
  rewrite seqZ_cons by (cbn; lia). cbn [mark_loop]. rewrite aget_mid. cbn [mbind option_bind].
  replace (Z.succ (Z.of_nat (length np))) with (Z.of_nat (length (np ++ [e]))) by (rewrite length_app; cbn; lia).
  replace (Z.pred (Z.of_nat (length (e :: nol)))) with (Z.of_nat (length nol)) by (cbn; lia).
  rewrite (app_assoc np [e] nol : np ++ e :: nol = _).
  unfold leaks_into. cbn [existsb]. unfold unavailable in He |- * at 1.
  destruct (_ || _) eqn:Hf; cbn [negb andb orb]; [by apply IH|].
  destruct (He eq_refl) as [Hrow Hshort].
  destruct (row_complete w _ Hrow Hshort) as (mx & -> & Hmx). cbn [from_option].
  destruct matrix_channels_sorted as (Hms & Hm0 & Hm144).
  assert (Hlm : length mx = 20%nat) by (rewrite <- (length_map leak_chan mx), Hmx; done).
  pose proof (leak_loop_spec (S (Z.to_nat (Z.of_nat (length l)) + Z.to_nat num_channel)) [] mx thr [] l) as Hloop.
  cbn [app length] in Hloop. change (Z.of_nat 0) with 0 in Hloop. rewrite Hloop; clear Hloop; cbn [mbind option_bind].
  - replace (Z.of_nat (length l)) with (Z.of_nat (length (map (strike mx thr) l))) by by rewrite length_map.
    rewrite IH; [|by apply candidates_strike|by apply strike_ok]. rewrite map_map. do 2 f_equal.
    apply map_ext. intros c. unfold strike. destruct (leaks mx thr c); cbn [orb]; [|done]. by destruct (leaks_into _ _ _ _).
  - unfold num_channel. lia.
  - by rewrite Hlm.
  - by rewrite Hmx.
  - by rewrite Hmx.
  - done.
  - intros c Hcl Hz. rewrite Hmx. rewrite Forall_forall in Hc. destruct (Hc c Hcl) as [?|[?|?]]; [done|by left|right].
    intros x Hx. specialize (Hm144 x Hx). lia.
Qed.

(** C36: which candidates are removed.  With an increasing list of candidates
    (struck-out ones apart), channels 36 to 144 of the matrix or above it, and
    non-occupied channels that have a complete row, the marking ends, stays
    inside its arrays, and strikes out exactly the candidates whose leakage into
    some non-occupied channel is at or below the threshold. *)
Theorem leak_marking_exact d w nol l :
  length nol = 40%nat →
  Forall (λ e, unavailable e = true → dfs_channel_number e ∈ matrix_rows ∧ short_row w (dfs_channel_number e) = false) nol →
  StronglySorted Z.lt (candidates l) → Forall candidate_ok l →
  sap_mark_leaking_ch d w nol (Z.of_nat (length l)) l =
  Some (QDF_STATUS_SUCCESS, map (λ c, if leaks_into w nol (tx_leakage_threshold d) c then 0 else c) l).
Proof.
  intros Hl Hn Hs Hc. unfold sap_mark_leaking_ch. change NUM_5GHZ_CHANNELS with (Z.of_nat 40). rewrite <- Hl.
  by apply (mark_loop_spec w _ [] nol l).
Qed.

(** The candidates must be in increasing order: behind one above the matrix
    none is removed. *)
Lemma leak_order_matters d nol :
  tx_leakage_threshold d = 310 → nol = mk_nol 52 eSAP_DFS_CHANNEL_UNAVAILABLE 0 :: replicate 39 zero_nol →
  leaks_into CH_WIDTH_40MHZ nol 310 36 = true ∧
  sap_mark_leaking_ch d CH_WIDTH_40MHZ nol 2 [36; 149] = Some (QDF_STATUS_SUCCESS, [0; 149]) ∧
  sap_mark_leaking_ch d CH_WIDTH_40MHZ nol 2 [149; 36] = Some (QDF_STATUS_SUCCESS, [149; 36]).
Proof. intros Hd ->. unfold sap_mark_leaking_ch. rewrite Hd. by vm_compute. Qed.

(** A short row hides the leakage of channel 144. *)
Lemma short_row_hides d nol :
  tx_leakage_threshold d = 310 → nol = mk_nol 140 eSAP_DFS_CHANNEL_UNAVAILABLE 0 :: replicate 39 zero_nol →
  leaks_into CH_WIDTH_80MHZ nol 310 144 = true ∧
  sap_mark_leaking_ch d CH_WIDTH_80MHZ nol 2 [140; 144] = Some (QDF_STATUS_SUCCESS, [140; 144]).
Proof. intros Hd ->. unfold sap_mark_leaking_ch. rewrite Hd. by vm_compute. Qed.
End leak.
