(* ===== verification/SapDfs.v ===== *)
(** Choosing a channel after a radar: core/sap/src/sap_fsm.c
    (sap_apply_rules to sap_random_channel_sel, sap_indicate_radar).

    The 5 GHz channels of the preferred channel list are filtered by the rules
    (Japan, non-occupancy list, avoided channels, the range configured for
    automatic selection), candidates that leak are removed ([SapLeak]), and a
    channel is drawn at random such that a whole block of the configured width
    is left; where there is none the width falls back.

    The environment is the class [SapEnv]: the features chosen at compile time,
    the regulatory domain, the configuration.  The random number, the clock and
    the contents of uninitialised memory are arguments.  [None] is an access
    outside an array, a null pointer or a loop without end. *)
From S2P Require Import Prelude Arrays CdsTables CdsConn CdsPcl SapNol SapLeak.

Definition WNI_CFG_VALID_CHANNEL_LIST_LEN : Z := 100.
Definition DFS_MKK_REGION : Z := 3.
Definition SAP_CHAN_PREFERRED_INDOOR : Z := 1.
Definition SAP_CHAN_PREFERRED_OUTDOOR : Z := 2.
Definition SAP_80MHZ_MASK : Z := 0x0F.
Definition SAP_40MHZ_MASK_L : Z := 0x03.
Definition SAP_40MHZ_MASK_H : Z := 0x0C.
Definition SIR_DFS_MAX_20M_SUB_CH : Z := 8.
Definition SIR_80MHZ_START_CENTER_CH_DIFF : Z := 6.

Class SapEnv := {
  WLAN_ENABLE_CHNL_MATRIX_RESTRICTION : bool;
  FEATURE_AP_MCC_CH_AVOIDANCE : bool;
  FEATURE_WLAN_CH_AVOID : bool;
  FEATURE_WLAN_STA_AP_MODE_DFS_DISABLE : bool;
  cds_get_dfs_region : Z;
  cds_is_fcc_regdomain : bool;
  sap_channel_avoidance : bool;                 (* mac_ctx->sap.sap_channel_avoidance *)
  f_prefer_non_dfs_on_radar : bool;
  WNI_CFG_DFS_MASTER_ENABLED : Z;
  base_channels : list Z;                       (* mac_ctx->scan.base_channels *)
}.

(** *** Data *)

(** struct sap_acs_cfg; a null [ch_list] is [None]. *)
Record sap_acs_cfg := mk_acs {
  acs_mode : bool;                              (* automatic selection is on *)
  start_ch : Z;
  end_ch : Z;
  ch_list : option (list Z);
  ch_list_count : Z;
  ch_width : phy_ch_width;
  pcl_channels : list Z;
  pcl_ch_count : Z;
  pri_ch : Z;
  ht_sec_ch : Z;
}.
#[export] Instance acs_eta : Eta sap_acs_cfg := fun a =>
  mk_acs (acs_mode a) (start_ch a) (end_ch a) (ch_list a) (ch_list_count a) (ch_width a) (pcl_channels a) (pcl_ch_count a)
    (pri_ch a) (ht_sec_ch a).

Record tChannelInfo := mk_chan {
  ci_channel : Z;
  valid : bool;
}.

(** The fields of tSapContext that the modelled functions use. *)
Record tSapContext := mk_sap {
  sap_channel : Z;                              (* channel *)
  secondary_ch : Z;
  ch_width_orig : phy_ch_width;
  SapAllChnlList : list tChannelInfo;           (* numChannel entries *)
  acs_cfg : sap_acs_cfg;
  avoid_present : bool;                         (* sap_detected_avoid_ch_ie.present *)
  avoid_channels : list Z;                      (* sap_detected_avoid_ch_ie.channels *)
  disableDFSChSwitch : bool;                    (* csr_roamProfile.disableDFSChSwitch *)
  chan_before_pre_cac : Z;
  sap_started : bool;                           (* sapsMachine == eSAP_STARTED *)
  dfs_ch_disable : bool;
  acs_dfs_mode_disable : bool;                  (* dfs_mode == ACS_DFS_MODE_DISABLE *)
  phyMode_11b : bool;                           (* csr_roamProfile.phyMode == eCSR_DOT11_MODE_11b *)
  enableOverLapCh : bool;
  acsBestChannelNum : Z;                        (* acsBestChannelInfo.channelNum *)
  acsBestWeight : Z;                            (* acsBestChannelInfo.weight *)
}.
#[export] Instance sap_eta : Eta tSapContext := fun c =>
  mk_sap (sap_channel c) (secondary_ch c) (ch_width_orig c) (SapAllChnlList c) (acs_cfg c) (avoid_present c)
    (avoid_channels c) (disableDFSChSwitch c) (chan_before_pre_cac c) (sap_started c) (dfs_ch_disable c)
    (acs_dfs_mode_disable c) (phyMode_11b c) (enableOverLapCh c) (acsBestChannelNum c) (acsBestWeight c).

Section ops.
Context {E : CdsEnv} {SE : SapEnv}.
Implicit Types (d : tSapDfsInfo) (ctx : tSapContext).

(** *** The list of channels *)

(** pcl.pcl_list and pcl.pcl_len; [stale] is the uninitialised structure, whose
    length is set to 0 first. *)
Definition sap_pcl_query (s : cds_state) (stale : sir_pcl_list) : option (QDF_STATUS * sir_pcl_list * cds_state) :=
  let p := mk_pcl (pcl_list stale) (weight_list stale) 0 in
  if cds_mode_specific_connection_count s CDS_SAP_MODE =? 0 then
    '(st, p) ← cds_get_pcl s CDS_SAP_MODE p (Z.of_nat (length (weight_list p)));
    Some (st, p, s)
  else cds_get_pcl_for_existing_conn s CDS_SAP_MODE p (Z.of_nat (length (weight_list p))).

(** for (i = 0; i <= pcl.pcl_len; i++): the entries written. *)
Definition all_channels_step (p : sir_pcl_list) (out : list tChannelInfo) (i : Z) : option (list tChannelInfo) :=
  c ← aget (pcl_list p) i;
  if CDS_IS_CHANNEL_5GHZ c then
    let ch_state := cds_get_channel_state c in
    if negb (bool_decide (ch_state = CHANNEL_STATE_ENABLE) || bool_decide (ch_state = CHANNEL_STATE_DFS)) then Some out
    else if WNI_CFG_VALID_CHANNEL_LIST_LEN <=? Z.of_nat (length out) then None
    else Some (out ++ [mk_chan c true])
  else Some out.

Definition sap_get_5ghz_channel_list ctx (s : cds_state) (stale : sir_pcl_list)
    : option (QDF_STATUS * tSapContext * cds_state) :=
  '(st, p, s) ← sap_pcl_query s stale;
  if negb (QDF_IS_STATUS_SUCCESS st) then Some (st, ctx, s)
  else
    l ← for_opt (all_channels_step p) (seqZ 0 (pcl_len p + 1)) [];
    Some (QDF_STATUS_SUCCESS, ctx <| SapAllChnlList := l |>, s).

(** *** Rules *)

Definition IS_CHAN_JAPAN_W53 (c : Z) : bool := (52 <=? c) && (c <=? 64).
Definition IS_CHAN_JAPAN_INDOOR (c : Z) : bool := (36 <=? c) && (c <=? 64).
Definition IS_CHAN_JAPAN_OUTDOOR (c : Z) : bool := (100 <=? c) && (c <=? 140).

Definition sap_dfs_is_w53_invalid d (channelID : Z) : bool := is_dfs_w53_disabled d && IS_CHAN_JAPAN_W53 channelID.

Definition sap_dfs_is_channel_in_preferred_location d (channelID : Z) : bool :=
  if (SAP_CHAN_PREFERRED_INDOOR =? sap_operating_chan_preferred_location d) && IS_CHAN_JAPAN_OUTDOOR channelID then false
  else if (SAP_CHAN_PREFERRED_OUTDOOR =? sap_operating_chan_preferred_location d) && IS_CHAN_JAPAN_INDOOR channelID then false
  else true.

(** All entries of the array are compared, also the unused ones. *)
Definition sap_check_in_avoid_ch_list ctx (channel : Z) : bool := existsb (λ c, c =? channel) (avoid_channels ctx).

(** The loop reads [ch_list_count] entries. *)
Definition sap_is_valid_acs_channel ctx (channel : Z) : option bool :=
  let a := acs_cfg ctx in
  if negb (acs_mode a) then Some true
  else if (channel <? start_ch a) || (end_ch a <? channel) then Some false
  else match ch_list a with
  | None => Some true
  | Some l =>
      if Z.of_nat (length l) <? ch_list_count a then None
      else Some (existsb (λ c, channel =? c) (zread l 0 (ch_list_count a)))
  end.

(** The loop of sap_apply_rules: the entries, the count of valid channels. *)
Fixpoint apply_rules_loop (chs : list tChannelInfo) ctx d (num_valid_ch now : Z)
    : option (list tChannelInfo * Z * tSapDfsInfo) :=
  match chs with
  | [] => Some ([], num_valid_ch, d)
  | ci :: rest =>
      let ch_id := ci_channel ci in
      let drop d :=
        '(l, n, d) ← apply_rules_loop rest ctx d (u8 (num_valid_ch - 1)) now;
        Some (mk_chan ch_id false :: l, n, d) in
      if (cds_get_dfs_region =? DFS_MKK_REGION) && sap_dfs_is_w53_invalid d ch_id then drop d
      else if (cds_get_dfs_region =? DFS_MKK_REGION) && negb (sap_dfs_is_channel_in_preferred_location d ch_id) then drop d
      else
        '(in_nol, d) ← (if bool_decide (cds_get_channel_state ch_id = CHANNEL_STATE_DFS)
                        then sap_dfs_is_channel_in_nol_list d ch_id PHY_SINGLE_CHANNEL_CENTERED now
                        else Some (false, d));
        if (in_nol : bool) then drop d
        else
          let v := if FEATURE_AP_MCC_CH_AVOIDANCE && sap_channel_avoidance && avoid_present ctx &&
                      sap_check_in_avoid_ch_list ctx ch_id then false else valid ci in
          is_valid_acs_chan ← sap_is_valid_acs_channel ctx ch_id;
          if negb is_valid_acs_chan then drop d
          else
            '(l, n, d) ← apply_rules_loop rest ctx d num_valid_ch now;
            Some (mk_chan ch_id v :: l, n, d)
  end.

Definition sap_apply_rules ctx d (now : Z) : option (Z * tSapContext * tSapDfsInfo) :=
  '(l, n, d) ← apply_rules_loop (SapAllChnlList ctx) ctx d (u8 (Z.of_nat (length (SapAllChnlList ctx)))) now;
  Some (n, ctx <| SapAllChnlList := l |>, d).

(** *** Drawing *)

(** [rnd] is the sum of the random byte and the system ticks. *)
Definition select_rand_from_lst (ch_lst : list Z) (num_ch rnd : Z) : option Z :=
  if num_ch =? 0 then Some 0
  else if Z.of_nat (length ch_lst) <? num_ch then None
  else
    let l := zread ch_lst 0 num_ch in
    let dfs_ch := List.filter CDS_IS_DFS_CH l in
    let non_dfs_ch := List.filter (λ c, negb (CDS_IS_DFS_CH c)) l in
    if (WNI_CFG_VALID_CHANNEL_LIST_LEN <? Z.of_nat (length dfs_ch)) ||
       (WNI_CFG_VALID_CHANNEL_LIST_LEN <? Z.of_nat (length non_dfs_ch)) then None
    else if negb f_prefer_non_dfs_on_radar then aget ch_lst (u8 (rnd mod num_ch))
    else if negb (Z.of_nat (length non_dfs_ch) =? 0) then aget non_dfs_ch (u8 (rnd mod Z.of_nat (length non_dfs_ch)))
    else aget dfs_ch (u8 (rnd mod Z.of_nat (length dfs_ch))).

Record tChannelBondingInfo := mk_band {
  channelMap : Z;                               (* 4 bits *)
  startChannel : Z;
}.

(** The first band that contains the channel gets the bit. *)
Fixpoint sap_set_bitmap (bm : list tChannelBondingInfo) (channel : Z) : list tChannelBondingInfo :=
  match bm with
  | [] => []
  | b :: bm' =>
      if (startChannel b <=? channel) && (channel <=? startChannel b + 12)
      then mk_band (Z.land (Z.lor (channelMap b) (Z.shiftl 1 ((channel - startChannel b) ÷ 4))) 15) (startChannel b) :: bm'
      else b :: sap_set_bitmap bm' channel
  end.

(** The channels that one band contributes. *)
Definition band_channels (w : phy_ch_width) (b : tChannelBondingInfo) : list Z :=
  let s := startChannel b in
  match w with
  | CH_WIDTH_160MHZ | CH_WIDTH_80P80MHZ | CH_WIDTH_80MHZ =>
      if channelMap b =? SAP_80MHZ_MASK then [s; u8 (s + 4); u8 (s + 8); u8 (s + 12)] else []
  | CH_WIDTH_40MHZ =>
      (if Z.land (channelMap b) SAP_40MHZ_MASK_L =? SAP_40MHZ_MASK_L then [s; u8 (s + 4)] else []) ++
      (if Z.land (channelMap b) SAP_40MHZ_MASK_H =? SAP_40MHZ_MASK_H then [u8 (s + 8); u8 (s + 12)] else [])
  | _ => []
  end.

Definition sap_populate_available_channels (bm : list tChannelBondingInfo) (w : phy_ch_width) : list Z :=
  bm ≫= band_channels w.

Definition empty_bitmap : list tChannelBondingInfo :=
  [mk_band 0 36; mk_band 0 52; mk_band 0 100; mk_band 0 116; mk_band 0 132; mk_band 0 149].

(** for (i = 1; i < final_cnt; i++): the start of the first run of eight. *)
Fixpoint run_of_8 (idxs : list Z) (l : list Z) (count : Z) : option (option Z) :=
  match idxs with
  | [] => Some None
  | i :: rest =>
      a ← aget l i;
      b ← aget l (i - 1);
      let count := if a - b =? 4 then u8 (count + 1) else 0 in
      if count =? SIR_DFS_MAX_20M_SUB_CH - 1 then s ← aget l (i - 7); Some (Some s)
      else run_of_8 rest l count
  end.

(** for (i = 0; i < final_cnt / 4; i++): the centre of the second segment, or 0. *)
Fixpoint second_segment (idxs : list Z) (l : list Z) (primary : Z) : option Z :=
  match idxs with
  | [] => Some 0
  | i :: rest =>
      c ← aget l (i * 4);
      if negb (c =? 0) && (SIR_DFS_MAX_20M_SUB_CH * 2 <? Z.abs (primary - c))
      then Some (u8 (c + SIR_80MHZ_START_CENTER_CH_DIFF))
      else second_segment rest l primary
  end.

Definition is_160 (w : phy_ch_width) : bool := match w with CH_WIDTH_160MHZ => true | _ => false end.
Definition is_80p80 (w : phy_ch_width) : bool := match w with CH_WIDTH_80P80MHZ => true | _ => false end.
Definition is_20 (w : phy_ch_width) : bool := match w with CH_WIDTH_20MHZ => true | _ => false end.
(** ch_wd > CH_WIDTH_80MHZ as numbers *)
Definition above_80 (w : phy_ch_width) : bool :=
  match w with CH_WIDTH_20MHZ | CH_WIDTH_40MHZ | CH_WIDTH_80MHZ => false | _ => true end.

(** The next width when no block of the width is left. *)
Definition narrower (w : phy_ch_width) : phy_ch_width :=
  match w with
  | CH_WIDTH_160MHZ | CH_WIDTH_80P80MHZ | CH_WIDTH_80MHZ => CH_WIDTH_40MHZ
  | CH_WIDTH_40MHZ => CH_WIDTH_20MHZ
  | _ => w
  end.

(** The 80+80 MHz choice from the index drawn: the channel, the centre of the
    second segment. *)
Definition pick_80p80 (final_lst : list Z) (final_cnt index : Z) : option (Z * Z) :=
  target_channel ← aget final_lst index;
  let index := index - index mod 4 in
  primary_seg_start_ch ← aget final_lst index;
  final_lst ← for_opt (λ l i, aset l (i + index) 0) (seqZ 0 4) final_lst;
  sec_seg_ch ← second_segment (seqZ 0 (final_cnt / 4)) final_lst primary_seg_start_ch;
  Some (target_channel, sec_seg_ch).

(** The channel (0 if there is none), the width and the state after the call. *)
Definition sap_find_ch_wh_fallback d (ch_wd : phy_ch_width) (ch_lst : list Z) (num_ch rnd : Z)
    : option (Z * phy_ch_width * tSapDfsInfo) :=
  if Z.of_nat (length ch_lst) <? num_ch then None
  else
    let ch_map := foldl (λ bm c, if c =? 0 then bm else sap_set_bitmap bm c) empty_bitmap (zread ch_lst 0 num_ch) in
    let final_lst := sap_populate_available_channels ch_map ch_wd in
    let final_cnt := Z.of_nat (length final_lst) in
    if final_cnt =? 0 then Some (0, narrower ch_wd, d)
    else if (is_160 ch_wd || is_80p80 ch_wd) && (final_cnt <? SIR_DFS_MAX_20M_SUB_CH) then Some (0, CH_WIDTH_80MHZ, d)
    else
      new_160 ← (if is_160 ch_wd then run_of_8 (seqZ 1 (final_cnt - 1)) final_lst 0 else Some None);
      let flag := is_80p80 ch_wd || bool_decide (is_Some new_160) in
      if negb flag && above_80 ch_wd then Some (0, CH_WIDTH_80MHZ, d)
      else if is_160 ch_wd then
        let rand_byte := rnd mod SIR_DFS_MAX_20M_SUB_CH in
        Some (u8 (default 0 new_160 + rand_byte * 4), ch_wd, d)
      else if is_80p80 ch_wd then
        '(target_channel, sec_seg_ch) ← pick_80p80 final_lst final_cnt (u8 (rnd mod final_cnt));
        let ch_wd :=
          if (sec_seg_ch =? 0) && (final_cnt =? SIR_DFS_MAX_20M_SUB_CH) then CH_WIDTH_160MHZ
          else if sec_seg_ch =? 0 then CH_WIDTH_80MHZ else ch_wd in
        Some (target_channel, ch_wd, d <| new_center_freq_seg1 := sec_seg_ch |>)
      else
        target_channel ← select_rand_from_lst final_lst final_cnt rnd;
        Some (target_channel, ch_wd, d).

(** The do-while loop: [lst] is rule_adjusted_lst. *)
Fixpoint width_loop (fuel : nat) d (ch_wd : phy_ch_width) (lst : list Z) (cnt rnd : Z)
    : option (Z * phy_ch_width * tSapDfsInfo) :=
  match fuel with
  | O => None
  | S f =>
      '(st, leak_lst) ← (if WLAN_ENABLE_CHNL_MATRIX_RESTRICTION
                         then sap_mark_leaking_ch d ch_wd (sapDfsChannelNolList d) cnt lst
                         else Some (QDF_STATUS_SUCCESS, lst));
      if negb (QDF_IS_STATUS_SUCCESS st) then Some (0, ch_wd, d)
      else if is_20 ch_wd then
        let final_lst := List.filter (λ c, negb (c =? 0)) leak_lst in
        if QDF_MAX_NUM_CHAN <? Z.of_nat (length final_lst) then None
        else
          target_channel ← select_rand_from_lst final_lst (Z.of_nat (length final_lst)) rnd;
          Some (target_channel, ch_wd, d)
      else
        '(target_channel, ch_wd, d) ← sap_find_ch_wh_fallback d ch_wd leak_lst cnt rnd;
        if target_channel =? 0 then width_loop f d ch_wd lst cnt rnd
        else Some (target_channel, ch_wd, d)
  end.

(** [alloc] tells whether both allocations succeed; allocated memory is zeroed. *)
Definition sap_random_channel_sel ctx d (s : cds_state) (stale : sir_pcl_list) (alloc : bool) (now rnd : Z)
    : option (Z * tSapContext * tSapDfsInfo * cds_state) :=
  let ch_wd := if is_20 (orig_chanWidth d) then ch_width_orig ctx else orig_chanWidth d in
  let d := d <| orig_chanWidth := ch_wd |> in
  '(st, ctx, s) ← sap_get_5ghz_channel_list ctx s stale;
  if negb (QDF_IS_STATUS_SUCCESS st) then Some (0, ctx, d, s)
  else
    '(rule_adjusted_cnt, ctx, d) ← sap_apply_rules ctx d now;
    if rule_adjusted_cnt =? 0 then Some (0, ctx, d, s)
    else if negb alloc then Some (0, ctx, d, s)
    else
      let l := map ci_channel (List.filter valid (SapAllChnlList ctx)) in
      if rule_adjusted_cnt <? Z.of_nat (length l) then None
      else
        let lst := l ++ replicate (Z.to_nat rule_adjusted_cnt - length l) 0 in
        '(target_channel, ch_wd, d) ← width_loop 5 d ch_wd lst rule_adjusted_cnt rnd;
        let d := if target_channel =? 0 then d else d <| new_chanWidth := ch_wd |> <| new_ch_width := ch_wd |> in
        Some (target_channel, ctx, d, s).

(** The channels on which the radar was found, at most eight of them count. *)
Record tSirSmeDfsEventInd := mk_radar {
  dfs_radar_status : bool;
  radar_channels : list Z;                      (* chan_list.channels, 8 entries *)
  nchannels : Z;
}.

Definition sap_indicate_radar ctx d (s : cds_state) (ev : tSirSmeDfsEventInd) (stale : sir_pcl_list) (alloc : bool)
    (now rnd : Z) : option (Z * tSapContext * tSapDfsInfo * cds_state) :=
  if negb (dfs_radar_status ev) then Some (0, ctx, d, s)
  else
    let d := if sap_started ctx then d <| csaIERequired := true |> else d in
    if disableDFSChSwitch ctx then Some (sap_channel ctx, ctx, d, s)
    else
      let d := d <| sap_radar_found_status := true |> in
      let nchannels := if SIR_DFS_MAX_20M_SUB_CH <? nchannels ev then SIR_DFS_MAX_20M_SUB_CH else nchannels ev in
      d ← sap_mark_dfs_channels d (radar_channels ev) nchannels now;
      if negb (chan_before_pre_cac ctx =? 0) then Some (chan_before_pre_cac ctx, ctx, d, s)
      else
        '(target_channel, ctx, d, s) ← sap_random_channel_sel ctx d s stale alloc now rnd;
        let d := if target_channel =? 0 then emit_dfs Ev_no_available_channel d else d in
        Some (target_channel, ctx, d, s).
End ops.

(** ** What may be chosen

    [selectable m now c]: the channel passes every rule, [m] being the
    non-occupancy map of [SapNol]. *)
Section spec.
Context {E : CdsEnv} {SE : SapEnv}.
Implicit Types (d : tSapDfsInfo) (ctx : tSapContext) (m : gmap Z Z).

Definition in_band c : bool :=
  CDS_IS_CHANNEL_5GHZ c &&
  (bool_decide (cds_get_channel_state c = CHANNEL_STATE_ENABLE) || bool_decide (cds_get_channel_state c = CHANNEL_STATE_DFS)).

Definition mkk_ok d c : bool :=
  negb ((cds_get_dfs_region =? DFS_MKK_REGION) &&
        (sap_dfs_is_w53_invalid d c || negb (sap_dfs_is_channel_in_preferred_location d c))).

Definition avoided ctx c : bool :=
  FEATURE_AP_MCC_CH_AVOIDANCE && sap_channel_avoidance && avoid_present ctx && sap_check_in_avoid_ch_list ctx c.

Definition acs_allows ctx c : bool :=
  let a := acs_cfg ctx in
  negb (acs_mode a) ||
  (start_ch a <=? c) && (c <=? end_ch a) &&
  match ch_list a with
  | None => true
  | Some l => existsb (λ x, c =? x) (zread l 0 (ch_list_count a))
  end.

Definition passes ctx d m now c : bool :=
  mkk_ok d c && negb (CDS_IS_DFS_CH c && spec_in m now c) && acs_allows ctx c.

Definition selectable ctx d m now c : bool := in_band c && passes ctx d m now c && negb (avoided ctx c).

(** The block of channels that a network of the width occupies around a
    channel: one of these. *)
Definition blocks_80 : list (list Z) :=
  [[36; 40; 44; 48]; [52; 56; 60; 64]; [100; 104; 108; 112]; [116; 120; 124; 128]; [132; 136; 140; 144]; [149; 153; 157; 161]].
Definition blocks_40 : list (list Z) := blocks_80 ≫= λ b, [take 2 b; drop 2 b].
(** The last one is not a channel of the standard. *)
Definition blocks_160 : list (list Z) :=
  [seqZ 0 8; seqZ 16 8; seqZ 20 8] ≫= λ l, [map (λ i, 36 + 4 * i) l].

(** The blocks that contain [t]; [seg1] is the centre of the second segment of
    an 80+80 MHz network, whose first segment contains [t]. *)
Definition footprints (w : phy_ch_width) (seg1 t : Z) : list (list Z) :=
  let around := List.filter (existsb (Z.eqb t)) in
  match w with
  | CH_WIDTH_20MHZ => [[t]]
  | CH_WIDTH_40MHZ => around blocks_40
  | CH_WIDTH_80MHZ => around blocks_80
  | CH_WIDTH_160MHZ => around blocks_160
  | CH_WIDTH_80P80MHZ =>
      around blocks_80 ≫= λ B1,
        map (app B1) (List.filter (λ B2, negb (bool_decide (B1 = B2)) && bool_decide (head B2 = Some (seg1 - 6))) blocks_80)
  | _ => []
  end.

(** The widths for which the search ends. *)
Definition width_known (w : phy_ch_width) : bool :=
  match w with
  | CH_WIDTH_20MHZ | CH_WIDTH_40MHZ | CH_WIDTH_80MHZ | CH_WIDTH_160MHZ | CH_WIDTH_80P80MHZ => true
  | _ => false
  end.
End spec.

Section proofs.
Context {E : CdsEnv} {SE : SapEnv}.
Implicit Types (d : tSapDfsInfo) (ctx : tSapContext) (m : gmap Z Z) (l : list Z).

(** *** Channels of the band *)
Definition aligned (c : Z) : bool :=
  forallb (λ s, negb ((s <=? c) && (c <=? s + 12)) || ((c - s) mod 4 =? 0)) [36; 52; 100; 116; 132; 149].

Lemma chan_enum_from_in cs k c : chan_enum_from cs k c ≠ INVALID_CHANNEL → c ∈ map snd cs.
Proof.
  revert k. induction cs as [|x cs IH]; intros k; [done|]. cbn.
  destruct (Z.eqb_spec (snd x) c) as [->|]; [by left|]. intros H. right. by apply (IH (k + 1)).
Qed.

Lemma in_band_mapped c : in_band c = true → c ∈ map snd chan_mapping.
Proof.
  intros [_ Hs]%andb_true_iff. apply (chan_enum_from_in _ 0). intros He.
  unfold cds_get_channel_state, cds_get_channel_enum in Hs. rewrite He in Hs. done.
Qed.

Lemma mapped_aligned : forallb aligned (map snd chan_mapping) = true.
Proof. vm_compute. done. Qed.

Lemma in_band_aligned c : in_band c = true → aligned c = true.
Proof.
  intros Hb. pose proof mapped_aligned as Ha. rewrite forallb_forall in Ha.
  apply Ha, list_elem_of_In. by apply in_band_mapped.
Qed.

Lemma in_band_pos c : in_band c = true → 36 <= c.
Proof. intros [Hb _]%andb_true_iff. unfold CDS_IS_CHANNEL_5GHZ, CDS_MIN_5GHZ_CHANNEL_NUMBER in Hb. bool_hyps. lia. Qed.

(** *** The list of channels *)
Lemma sap_get_5ghz_loop p n :
  0 <= n <= Z.of_nat (length (pcl_list p)) → n <= WNI_CFG_VALID_CHANNEL_LIST_LEN →
  for_opt (all_channels_step p) (seqZ 0 n) [] =
  Some (map (λ c, mk_chan c true) (List.filter in_band (zread (pcl_list p) 0 n))).
Proof.
  intros [Hn Hl] Hw. rewrite <- (Z2Nat.id n Hn) in *. unfold zread. cbn. rewrite drop_0, Nat2Z.id.
  induction (Z.to_nat n) as [|k IH]; [done|].
  rewrite seqZ_S, for_opt_app, IH by lia. cbn [mbind option_bind for_opt].
  unfold all_channels_step. rewrite Z.add_0_l, aget_nat.
  destruct (lookup_lt_is_Some_2 (pcl_list p) k) as [c Hc]; [lia|]. rewrite Hc. cbn [mbind option_bind].
  rewrite (take_S_r _ _ c) by done. rewrite List.filter_app, map_app. cbn [List.filter].
  assert (Hb : in_band c = CDS_IS_CHANNEL_5GHZ c && (bool_decide (cds_get_channel_state c = CHANNEL_STATE_ENABLE) ||
    bool_decide (cds_get_channel_state c = CHANNEL_STATE_DFS))) by done. rewrite Hb.
  destruct (CDS_IS_CHANNEL_5GHZ c); cbn [andb map]; [|by rewrite app_nil_r].
  destruct (_ || _); cbn [negb map]; [|by rewrite app_nil_r].
  destruct (Z.leb_spec WNI_CFG_VALID_CHANNEL_LIST_LEN (Z.of_nat (length (map (λ c, mk_chan c true) (List.filter in_band (take k (pcl_list p))))))) as [Hbad|];
    [|done].
  rewrite length_map in Hbad. pose proof (List.filter_length_le in_band (take k (pcl_list p))) as Hf.
  rewrite length_take in Hf. lia.
Qed.

(** *** Rules *)
(** The part of the state that the look-up in the non-occupancy list keeps. *)
Definition same_config d d' : Prop :=
  is_dfs_w53_disabled d' = is_dfs_w53_disabled d ∧
  sap_operating_chan_preferred_location d' = sap_operating_chan_preferred_location d ∧
  orig_chanWidth d' = orig_chanWidth d ∧ tx_leakage_threshold d' = tx_leakage_threshold d.

#[local] Instance same_config_refl : Reflexive same_config.
Proof. done. Qed.
#[local] Instance same_config_trans : Transitive same_config.
Proof. unfold same_config. intros ???. naive_solver congruence. Qed.

Lemma mark_same_config d cs n t d' : sap_mark_dfs_channels d cs n t = Some d' → same_config d d'.
Proof.
  unfold sap_mark_dfs_channels. destruct (for_opt _ _ _); [|done]. cbn [mbind option_bind].
  intros [= <-]. done.
Qed.

Lemma lookup_same_config d c b now r d' :
  sap_dfs_is_channel_in_nol_list d c b now = Some (r, d') → same_config d d'.
Proof.
  unfold sap_dfs_is_channel_in_nol_list. destruct (_ || _); [by intros [= _ <-]|].
  destruct (bonded_scan _ _ _ _) as [[l [i|]]|]; cbn [mbind option_bind]; [|by intros [= _ <-]|done].
  destruct (aget l i); [|done]. cbn [mbind option_bind].
  destruct (sap_mark_dfs_channels _ _ _ _) as [d1|] eqn:Em; [|done]. cbn [mbind option_bind].
  intros [= _ <-]. apply mark_same_config in Em. exact Em.
Qed.

Lemma passes_same_config ctx d d' m now c : same_config d d' → passes ctx d' m now c = passes ctx d m now c.
Proof.
  intros (H1 & H2 & _). unfold passes, mkk_ok, sap_dfs_is_w53_invalid, sap_dfs_is_channel_in_preferred_location.
  by rewrite H1, H2.
Qed.

Definition acs_list_ok ctx : Prop :=
  acs_mode (acs_cfg ctx) = true → ∀ l, ch_list (acs_cfg ctx) = Some l → ch_list_count (acs_cfg ctx) <= Z.of_nat (length l).

Lemma acs_channel_spec ctx c : acs_list_ok ctx → sap_is_valid_acs_channel ctx c = Some (acs_allows ctx c).
Proof.
  unfold acs_list_ok, sap_is_valid_acs_channel, acs_allows. intros Hl.
  destruct (acs_mode (acs_cfg ctx)); cbn [negb orb]; [specialize (Hl eq_refl)|done].
  rewrite !Z.leb_antisym. destruct (c <? _); cbn [orb andb negb]; [done|].
  destruct (_ <? c); cbn [negb andb]; [done|].
  destruct (ch_list (acs_cfg ctx)); [|done]. specialize (Hl _ eq_refl).
  destruct (Z.ltb_spec (Z.of_nat (length l)) (ch_list_count (acs_cfg ctx))); [lia|done].
Qed.

Abbreviation ruled_out ctx d m now := (List.filter (λ c, negb (passes ctx d m now c))).

Lemma apply_rules_spec D m now0 now ctx d cs n :
  nol_rel D m now0 d → now0 <= now → is_u64 now → (∀ c, in_band c = true → CDS_IS_DFS_CH c = true → c ∈ D) →
  acs_list_ok ctx → Forall (λ c, in_band c = true) cs → Z.of_nat (length cs) <= n < 256 →
  ∃ d', apply_rules_loop (map (λ c, mk_chan c true) cs) ctx d n now =
    Some (map (λ c, mk_chan c (passes ctx d m now c && negb (avoided ctx c))) cs,
          n - Z.of_nat (length (ruled_out ctx d m now cs)), d') ∧
  nol_rel D m now d' ∧ same_config d d'.
Proof.
  intros Hr Hle Hu HD Ha Hcs. apply (nol_rel_later _ _ _ now) in Hr; [|done]. clear Hle now0.
  revert d n Hr. induction Hcs as [|c cs Hc Hcs IH]; intros d n Hr Hn; cbn [length] in Hn.
  { exists d. cbn. rewrite Z.sub_0_r. done. }
  cbn [map apply_rules_loop ci_channel].
  (* the two ways to go on *)
  assert (Hgo : ∀ d1 n1, nol_rel D m now d1 → same_config d d1 → Z.of_nat (length cs) <= n1 < 256 →
    ∃ d', apply_rules_loop (map (λ c, mk_chan c true) cs) ctx d1 n1 now =
      Some (map (λ c, mk_chan c (passes ctx d m now c && negb (avoided ctx c))) cs,
            n1 - Z.of_nat (length (ruled_out ctx d m now cs)), d') ∧ nol_rel D m now d' ∧ same_config d d').
  { intros d1 n1 H1 Hs H2. destruct (IH d1 n1 H1 H2) as (d' & Eq & Hd' & Hs'). exists d'.
    split; [|split; [done|by etransitivity]].
    assert (Hp : ∀ c, passes ctx d1 m now c = passes ctx d m now c) by (intros; by apply passes_same_config).
    assert (Hr1 : ruled_out ctx d1 m now cs = ruled_out ctx d m now cs)
      by (apply List.filter_ext; intros; by rewrite Hp).
    rewrite Eq, Hr1. do 3 f_equal. apply map_ext. intros. by rewrite Hp. }
  assert (Hdrop : ∀ d1, nol_rel D m now d1 → same_config d d1 → passes ctx d m now c = false →
    ∃ d', ('(l, n, d) ← apply_rules_loop (map (λ c, mk_chan c true) cs) ctx d1 (u8 (n - 1)) now;
           Some (mk_chan c false :: l, n, d)) =
      Some (map (λ c, mk_chan c (passes ctx d m now c && negb (avoided ctx c))) (c :: cs),
            n - Z.of_nat (length (ruled_out ctx d m now (c :: cs))), d') ∧ nol_rel D m now d' ∧ same_config d d').
  { intros d1 H1 Hs Hp. rewrite u8_small by (red; lia). destruct (Hgo d1 (n - 1) H1 Hs) as (d' & Eq & Hd'); [lia|].
    exists d'. rewrite Eq. cbn [mbind option_bind map List.filter]. rewrite Hp. cbn [negb andb length].
    split; [|done]. do 2 f_equal. f_equal. lia. }
  destruct (cds_get_dfs_region =? DFS_MKK_REGION) eqn:Em; cbn [andb];
    [destruct (sap_dfs_is_w53_invalid d c) eqn:Ew|].
  { apply Hdrop; [done|done|]. unfold passes, mkk_ok. by rewrite Em, Ew. }
  1: destruct (sap_dfs_is_channel_in_preferred_location d c) eqn:El; cbn [negb].
  2: { apply Hdrop; [done|done|]. unfold passes, mkk_ok. by rewrite Em, Ew, El. }
  all: assert (Hm : mkk_ok d c = true) by (unfold mkk_ok; rewrite ?Em, ?Ew, ?El; done).
  all: assert (Hq : ∃ d1, (if bool_decide (cds_get_channel_state c = CHANNEL_STATE_DFS)
         then sap_dfs_is_channel_in_nol_list d c PHY_SINGLE_CHANNEL_CENTERED now else Some (false, d)) =
         Some (CDS_IS_DFS_CH c && spec_in m now c, d1) ∧ nol_rel D m now d1 ∧ same_config d d1);
    [fold (CDS_IS_DFS_CH c); destruct (CDS_IS_DFS_CH c) eqn:Ed; [|by exists d];
     destruct (in_nol_single D m now now d c Hr) as (d1 & Eq & H1); [lia|done|];
     rewrite bool_decide_true in Eq by (by apply HD); cbn [andb] in Eq;
     exists d1; split; [done|]; split; [done|]; by apply lookup_same_config in Eq|].
  all: destruct Hq as (d1 & Eq & H1 & Hs); rewrite Eq; cbn [mbind option_bind].
  all: destruct (CDS_IS_DFS_CH c && spec_in m now c) eqn:Ei;
    [apply Hdrop; [done|done|]; unfold passes; by rewrite Ei, andb_false_r|].
  all: rewrite acs_channel_spec by done; cbn [mbind option_bind].
  all: destruct (acs_allows ctx c) eqn:Eac; cbn [negb];
    [|apply Hdrop; [done|done|]; unfold passes; by rewrite Eac, !andb_false_r].
  all: destruct (Hgo d1 n H1 Hs) as (d' & Eq' & Hd'); [lia|].
  all: rewrite Eq'; cbn [mbind option_bind List.filter map]; exists d'; split; [|done].
  all: assert (Hp : passes ctx d m now c = true) by (unfold passes; by rewrite Hm, Ei, Eac).
  all: rewrite Hp; cbn [negb andb valid]; unfold avoided; by destruct (_ && sap_check_in_avoid_ch_list ctx c).
Qed.

(** The channels that pass are at most as many as the count says. *)
Lemma selectable_count ctx d m now cs :
  (length (List.filter (λ c, passes ctx d m now c && negb (avoided ctx c)) cs) + length (ruled_out ctx d m now cs)
   <= length cs)%nat.
Proof.
  induction cs as [|c cs IH]; [done|]. cbn [List.filter].
  destruct (passes ctx d m now c), (avoided ctx c); cbn in *; lia.
Qed.

(** *** Drawing from a list *)
Lemma aget_mod l n r :
  0 < n → n = Z.of_nat (length l) → n < 256 → ∃ c, aget l (u8 (r mod n)) = Some c ∧ c ∈ l.
Proof.
  intros Hn -> Hb. pose proof (Z.mod_pos_bound r (Z.of_nat (length l)) Hn) as Hr.
  rewrite u8_small by (red; lia). destruct (aget_is_Some l (r mod Z.of_nat (length l)) Hr) as [c Hc].
  exists c. split; [done|]. apply aget_lookup in Hc; [|lia]. by eapply list_elem_of_lookup_2.
Qed.

Lemma select_rand_in l r :
  Z.of_nat (length l) <= WNI_CFG_VALID_CHANNEL_LIST_LEN → l ≠ [] →
  ∃ c, select_rand_from_lst l (Z.of_nat (length l)) r = Some c ∧ c ∈ l.
Proof.
  intros Hb Hl. unfold WNI_CFG_VALID_CHANNEL_LIST_LEN in Hb. assert (0 < Z.of_nat (length l)) as Hpos by (destruct l; [done|cbn; lia]).
  unfold select_rand_from_lst. destruct (Z.eqb_spec (Z.of_nat (length l)) 0); [lia|]. rewrite Z.ltb_irrefl.
  rewrite zread_0_all by lia.
  assert (Hf : ∀ p, Z.of_nat (length (List.filter p l)) <= Z.of_nat (length l))
    by (intros p; pose proof (List.filter_length_le p l); lia).
  assert (Hg : ∀ p, (WNI_CFG_VALID_CHANNEL_LIST_LEN <? Z.of_nat (length (List.filter p l))) = false).
  { intros p. apply Z.ltb_ge. specialize (Hf p). unfold WNI_CFG_VALID_CHANNEL_LIST_LEN. lia. }
  rewrite !Hg. cbn [orb].
  assert (Hin : ∀ p, 0 < Z.of_nat (length (List.filter p l)) →
    ∃ c, aget (List.filter p l) (u8 (r mod Z.of_nat (length (List.filter p l)))) = Some c ∧ c ∈ l).
  { intros p Hp. destruct (aget_mod (List.filter p l) _ r Hp eq_refl) as (c & Hc & Hcl); [specialize (Hf p); lia|].
    exists c. split; [done|]. apply list_elem_of_In, filter_In in Hcl as [Hcl _]. by apply list_elem_of_In. }
  destruct f_prefer_non_dfs_on_radar; cbn [negb]; [|apply aget_mod; lia].
  destruct (Z.eqb_spec (Z.of_nat (length (List.filter (λ c, negb (CDS_IS_DFS_CH c)) l))) 0) as [Hz|]; cbn [negb];
    [|apply Hin; lia].
  apply Hin. destruct l as [|x l]; [done|]. cbn [List.filter] in *. destruct (CDS_IS_DFS_CH x); cbn in *; lia.
Qed.

(** *** Leak marking changes entries to 0 only *)
Definition struck : list Z → list Z → Prop := Forall2 (λ x y, y = x ∨ y = 0).

#[local] Instance struck_refl : Reflexive struck.
Proof. intros l. apply Forall2_same_length_lookup. split; [done|]. intros. left. congruence. Qed.
#[local] Instance struck_trans : Transitive struck.
Proof. intros l1 l2 l3 H1. revert l3. induction H1; intros l3 H3; inversion H3; subst; constructor; [naive_solver|by apply IHForall2]. Qed.

Lemma aset_struck l j l' : aset l j 0 = Some l' → struck l l'.
Proof.
  intros [Hj ->]%aset_Some. apply Forall2_same_length_lookup. rewrite length_zset. split; [done|].
  unfold zset. intros i x y Hx [(<- & <- & _)|[_ Hy]]%list_lookup_insert_Some; [by right|left; congruence].
Qed.

Lemma leak_loop_total fuel mx thr sz l j k :
  length mx = 20%nat → 0 <= j → 0 <= k → sz <= Z.of_nat (length l) →
  Z.max 0 (sz - j) + Z.max 0 (20 - k) < Z.of_nat fuel →
  ∃ l', leak_loop fuel mx thr sz l j k = Some l' ∧ struck l l'.
Proof.
  intros Hmx. revert l j k. induction fuel as [|f IH]; intros l j k Hj Hk Hsz Hf; [lia|].
  cbn [leak_loop]. unfold num_channel in *.
  destruct (Z.ltb_spec j sz); [|by exists l]. destruct (Z.ltb_spec k 20); [|by exists l]. cbn [andb].
  destruct (aget_is_Some l j) as [c Hc]; [lia|]. rewrite Hc. cbn [mbind option_bind].
  destruct (c =? 0); [apply IH; lia|].
  destruct (aget_is_Some mx k) as [e He]; [lia|]. rewrite He. cbn [mbind option_bind].
  destruct (negb _); [apply IH; lia|].
  destruct (leak_lvl e <=? thr); cbn [mbind option_bind]; [|apply IH; lia].
  rewrite aset_zset by lia. cbn [mbind option_bind].
  destruct (IH (zset l j 0) (j + 1) (k + 1)) as (l' & Eq & Hl'); [lia..|rewrite length_zset; lia|lia|].
  exists l'. split; [done|]. etransitivity; [|done]. apply (aset_struck _ j). apply aset_zset. lia.
Qed.

Lemma rows_length w c mx : sap_find_target_channel_in_channel_matrix w c = Some mx → length mx = 20%nat.
Proof.
  unfold sap_find_target_channel_in_channel_matrix. intros Hmx. apply fmap_Some in Hmx as (r & Hr & ->).
  apply find_some in Hr as [Hr _].
  assert (Ha : forallb (λ r, Nat.eqb (length (chan_matrix r)) 20) (ht20_chan ++ ht40_chan ++ ht80_chan) = true)
    by (vm_compute; done).
  rewrite forallb_forall in Ha. apply Nat.eqb_eq, Ha. rewrite !in_app_iff. destruct w; tauto.
Qed.

Lemma mark_loop_total idxs w nol thr sz l :
  Forall (λ i, 0 <= i < Z.of_nat (length nol)) idxs → 0 <= sz <= Z.of_nat (length l) →
  ∃ st l', mark_loop idxs w nol thr sz l = Some (st, l') ∧ struck l l'.
Proof.
  intros Hi. revert l. induction Hi as [|i idxs Hi Hidxs IH]; intros l Hsz; [by exists QDF_STATUS_SUCCESS, l|].
  cbn [mark_loop]. destruct (aget_is_Some nol i Hi) as [e He]. rewrite He. cbn [mbind option_bind].
  destruct (_ || _); [by apply IH|].
  destruct (sap_find_target_channel_in_channel_matrix _ _) as [mx|] eqn:Emx; [|by eexists _, l].
  apply rows_length in Emx.
  destruct (leak_loop_total (S (Z.to_nat sz + Z.to_nat num_channel)) mx thr sz l 0 0) as (l1 & Eq & Hl1);
    [done|lia|lia|lia|unfold num_channel; lia|].
  rewrite Eq. cbn [mbind option_bind]. pose proof (Forall2_length _ _ _ Hl1) as Hlen.
  destruct (IH l1) as (st & l' & Eq' & Hl'); [lia|]. exists st, l'. split; [done|]. by etransitivity.
Qed.

Lemma sap_mark_leaking_ch_total d w sz l :
  length (sapDfsChannelNolList d) = 40%nat → 0 <= sz <= Z.of_nat (length l) →
  ∃ st l', sap_mark_leaking_ch d w (sapDfsChannelNolList d) sz l = Some (st, l') ∧ struck l l'.
Proof.
  intros Hl Hsz. apply mark_loop_total; [|done]. rewrite Hl. apply Forall_forall. intros i [? ?]%elem_of_seqZ.
  unfold NUM_5GHZ_CHANNELS in *. lia.
Qed.

(** *** The bitmap *)
Definition band_starts : list Z := [36; 52; 100; 116; 132; 149].

(** Every bit stands for a channel with [P]. *)
Definition band_ok (P : Z → Prop) (b : tChannelBondingInfo) : Prop :=
  startChannel b ∈ band_starts ∧ 0 <= channelMap b < 16 ∧
  ∀ i, 0 <= i < 4 → Z.testbit (channelMap b) i = true → P (startChannel b + 4 * i).

(** The channels whose bits are set. *)
Definition band_bits (b : tChannelBondingInfo) : list Z :=
  map (λ i, startChannel b + 4 * i) (List.filter (Z.testbit (channelMap b)) [0; 1; 2; 3]).

Lemma band_bits_P P b : band_ok P b → Forall P (band_bits b).
Proof.
  intros (_ & _ & Hi). apply Forall_forall. intros c (i & -> & [Hin Ht]%list_elem_of_In%filter_In)%list_elem_of_fmap.
  apply Hi; [cbn in Hin; lia|done].
Qed.

(** A block around [t] lies within [l]. *)
Definition ok_for (l : list Z) (w : phy_ch_width) (seg1 t : Z) : bool :=
  negb (t =? 0) && existsb (forallb (λ c, existsb (Z.eqb c) l)) (footprints w seg1 t).

Lemma ok_for_P P l w seg1 t :
  ok_for l w seg1 t = true → Forall P l → t ≠ 0 ∧ ∃ B, B ∈ footprints w seg1 t ∧ Forall P B.
Proof.
  intros [Ht%negb_true_iff%Z.eqb_neq (B & HB & Hc)%existsb_exists]%andb_true_iff Hl. split; [done|].
  exists B. split; [by apply list_elem_of_In|]. rewrite forallb_forall in Hc. rewrite Forall_forall in Hl |- *.
  intros c Hin. apply Hl. apply list_elem_of_In in Hin. apply Hc, existsb_exists in Hin as (x & Hx & ->%Z.eqb_eq).
  by apply list_elem_of_In.
Qed.

Lemma set_bitmap_ok P bm c :
  Forall (band_ok P) bm → aligned c = true → P c → Forall (band_ok P) (sap_set_bitmap bm c).
Proof.
  intros Hb Ha Hc. induction Hb as [|b bm (Hs & Hr & Hi) Hb IH]; [constructor|]. cbn [sap_set_bitmap].
  destruct (_ && _) eqn:Eb; [|constructor; [exact (conj Hs (conj Hr Hi))|done]]. constructor; [|done]. split; [done|].
  cbn [channelMap startChannel]. split.
  { change 15 with (Z.ones 4). rewrite Z.land_ones by lia. apply Z.mod_pos_bound. lia. }
  unfold aligned in Ha. rewrite forallb_forall in Ha. specialize (Ha _ (proj1 (list_elem_of_In _ _) Hs)).
  rewrite Eb in Ha. cbn in Ha. bool_hyps.
  intros i Hi4. rewrite Z.land_spec, Z.lor_spec. intros [[Ht|Ht]%orb_true_iff _]%andb_true_iff; [by apply Hi|].
  rewrite Z.shiftl_spec in Ht by lia.
  assert (Hk : i = (c - startChannel b) ÷ 4).
  { rewrite Z.quot_div_nonneg in * by lia. destruct (Z.eq_dec i ((c - startChannel b) / 4)) as [|Hne]; [done|].
    change 1 with (2 ^ 0) in Ht. rewrite Z.pow2_bits_false in Ht by lia. done. }
  rewrite Z.quot_div_nonneg in Hk by lia.
  replace (startChannel b + 4 * i) with c; [done|]. subst i. Z.div_mod_to_equations. lia.
Qed.

Lemma set_bitmap_starts bm c : map startChannel (sap_set_bitmap bm c) = map startChannel bm.
Proof. induction bm as [|b bm IH]; [done|]. cbn. destruct (_ && _); cbn; [done|by rewrite IH]. Qed.

Lemma bitmap_of_list P l :
  (∀ c, c ∈ l → c ≠ 0 → P c ∧ aligned c = true) →
  let bm := foldl (λ bm c, if c =? 0 then bm else sap_set_bitmap bm c) empty_bitmap l in
  Forall (band_ok P) bm ∧ map startChannel bm = band_starts.
Proof.
  intros Hl. assert (H0 : Forall (band_ok P) empty_bitmap ∧ map startChannel empty_bitmap = band_starts).
  { split; [|done]. unfold empty_bitmap, band_ok.
    repeat (constructor; [split_and!; [cbn; set_solver|done..|cbn; intros i _; by rewrite Z.testbit_0_l]|]). constructor. }
  cbn zeta. revert H0. generalize empty_bitmap. induction l as [|c l IH]; intros bm [Hb Hs]; [done|]. cbn [foldl].
  apply IH; [intros; apply Hl; [by right|done]|]. destruct (Z.eqb_spec c 0) as [|Hc]; [done|].
  rewrite set_bitmap_starts. split; [|done]. destruct (Hl c) as [? ?]; [by left|done|]. by apply set_bitmap_ok.
Qed.

(** The bands all of whose channels are free. *)
Definition full_list (fs : list bool) : list Z := concat (zip_with (λ (f : bool) B, if f then B else []) fs blocks_80).

Definition map_full (b : tChannelBondingInfo) : bool := channelMap b =? SAP_80MHZ_MASK.

(** *** The channel chosen

    The cases are finite: sixteen maps for each of the six bands, and 64 ways in
    which the bands are full. *)
Definition band_check (w : phy_ch_width) (s k : Z) : bool :=
  forallb (ok_for (band_bits (mk_band k s)) w 0) (band_channels w (mk_band k s)).

Lemma band_checked w s k :
  w = CH_WIDTH_40MHZ ∨ w = CH_WIDTH_80MHZ → s ∈ band_starts → 0 <= k < 16 → band_check w s k = true.
Proof.
  intros Hw Hs Hk. assert (Ha : forallb (λ s, forallb (band_check w s) (seqZ 0 16)) band_starts = true)
    by (destruct Hw as [->| ->]; vm_compute; done).
  rewrite forallb_forall in Ha. specialize (Ha _ (proj1 (list_elem_of_In _ _) Hs)).
  rewrite forallb_forall in Ha. apply Ha, list_elem_of_In, elem_of_seqZ. lia.
Qed.

Lemma populate_ok P w bm t :
  w = CH_WIDTH_40MHZ ∨ w = CH_WIDTH_80MHZ → Forall (band_ok P) bm → t ∈ sap_populate_available_channels bm w →
  t ≠ 0 ∧ ∃ B, B ∈ footprints w 0 t ∧ Forall P B.
Proof.
  intros Hw Hb (b & Ht & Hin)%list_elem_of_bind. rewrite Forall_forall in Hb. specialize (Hb b Hin).
  pose proof (band_bits_P P b Hb) as Hbits. destruct Hb as (Hs & Hk & Hi). pose proof (band_checked w _ _ Hw Hs Hk) as Hc.
  unfold band_check in Hc. rewrite forallb_forall in Hc. apply (ok_for_P P (band_bits b)); [|done].
  destruct b. by apply Hc, list_elem_of_In.
Qed.

Fixpoint all_bools (n : nat) : list (list bool) :=
  match n with O => [[]] | S n => all_bools n ≫= λ fs : list bool, [true :: fs; false :: fs] end.

Lemma in_all_bools fs : fs ∈ all_bools (length fs).
Proof.
  induction fs as [|f fs IH]; [by left|]. cbn [length all_bools]. apply list_elem_of_bind. exists fs.
  split; [|done]. destruct f; [left|right; left].
Qed.

Lemma populate_full bm w :
  map startChannel bm = band_starts → above_80 w = true → width_known w = true →
  sap_populate_available_channels bm w = full_list (map map_full bm).
Proof.
  intros Hs Hw Hk. unfold band_starts in Hs. do 6 (destruct bm as [|[? ?] bm]; [done|]). destruct bm; [|done].
  cbn in Hs. injection Hs as -> -> -> -> -> ->. destruct w; done.
Qed.

Lemma full_list_P P bm :
  Forall (band_ok P) bm → map startChannel bm = band_starts → Forall P (full_list (map map_full bm)).
Proof.
  intros Hb Hs. rewrite <- (populate_full bm CH_WIDTH_160MHZ) by done. apply Forall_forall.
  intros c (b & Hc & Hin)%list_elem_of_bind. rewrite Forall_forall in Hb. pose proof (Hb b Hin) as Hok.
  pose proof (band_bits_P P b Hok) as Hbits. cbn [band_channels] in Hc.
  destruct (Z.eqb_spec (channelMap b) SAP_80MHZ_MASK) as [He|]; [|by apply elem_of_nil in Hc].
  unfold band_bits in Hbits. rewrite He in Hbits. change (List.filter _ _) with [0; 1; 2; 3] in Hbits. cbn [map] in Hbits.
  destruct Hok as (Hst & _). unfold band_starts in Hst. rewrite Forall_forall in Hbits. apply Hbits.
  repeat (apply elem_of_cons in Hst as [Hst|Hst]); try (by apply elem_of_nil in Hst); rewrite Hst in *; exact Hc.
Qed.

Definition check_160 (fs : list bool) : bool :=
  let l := full_list fs in
  if Z.of_nat (length l) <? SIR_DFS_MAX_20M_SUB_CH then true
  else match run_of_8 (seqZ 1 (Z.of_nat (length l) - 1)) l 0 with
  | Some (Some s) => forallb (λ r, ok_for l CH_WIDTH_160MHZ 0 (u8 (s + r * 4))) (seqZ 0 8)
  | Some None => true
  | None => false
  end.

Definition check_80p80 (fs : list bool) : bool :=
  let l := full_list fs in
  let n := Z.of_nat (length l) in
  if n <? SIR_DFS_MAX_20M_SUB_CH then true
  else forallb (λ i, match pick_80p80 l n i with
    | Some (t, seg) =>
        ok_for l (if (seg =? 0) && (n =? SIR_DFS_MAX_20M_SUB_CH) then CH_WIDTH_160MHZ
                  else if seg =? 0 then CH_WIDTH_80MHZ else CH_WIDTH_80P80MHZ) seg t
    | None => false
    end) (seqZ 0 n).

Lemma checked_160 fs : length fs = 6%nat → check_160 fs = true.
Proof.
  intros Hl. assert (Ha : forallb check_160 (all_bools 6) = true) by (vm_compute; done).
  rewrite forallb_forall in Ha. apply Ha, list_elem_of_In. rewrite <- Hl. apply in_all_bools.
Qed.

Lemma checked_80p80 fs : length fs = 6%nat → check_80p80 fs = true.
Proof.
  intros Hl. assert (Ha : forallb check_80p80 (all_bools 6) = true) by (vm_compute; done).
  rewrite forallb_forall in Ha. apply Ha, list_elem_of_In. rewrite <- Hl. apply in_all_bools.
Qed.

(** *** The fall-back *)
Definition rank (w : phy_ch_width) : Z :=
  match w with CH_WIDTH_20MHZ => 0 | CH_WIDTH_40MHZ => 1 | CH_WIDTH_80MHZ => 2 | _ => 3 end.

Definition chosen (P : Z → Prop) (t : Z) (w : phy_ch_width) (seg1 : Z) : Prop :=
  t ≠ 0 ∧ width_known w = true ∧ ∃ B, B ∈ footprints w seg1 t ∧ Forall P B.

Lemma ok_for_chosen P l w seg1 t : width_known w = true → ok_for l w seg1 t = true → Forall P l → chosen P t w seg1.
Proof. intros Hw Ho Hl. destruct (ok_for_P P l w seg1 t Ho Hl). done. Qed.

Lemma run_of_8_length fs s :
  run_of_8 (seqZ 1 (Z.of_nat (length (full_list fs)) - 1)) (full_list fs) 0 = Some s →
  8 <= Z.of_nat (length (full_list fs)) → length fs = 6%nat →
  match s with Some s => Forall (λ r, ok_for (full_list fs) CH_WIDTH_160MHZ 0 (u8 (s + r * 4)) = true) (seqZ 0 8) | None => True end.
Proof.
  intros Hr Hl Hf. pose proof (checked_160 fs Hf) as Hc. unfold check_160 in Hc. rewrite Hr in Hc.
  destruct (Z.ltb_spec (Z.of_nat (length (full_list fs))) SIR_DFS_MAX_20M_SUB_CH); [unfold SIR_DFS_MAX_20M_SUB_CH in *; lia|].
  destruct s; [|done]. rewrite forallb_forall in Hc. apply Forall_forall. intros r Hin. by apply Hc, list_elem_of_In.
Qed.

Lemma run_of_8_total fs : length fs = 6%nat → 8 <= Z.of_nat (length (full_list fs)) →
  is_Some (run_of_8 (seqZ 1 (Z.of_nat (length (full_list fs)) - 1)) (full_list fs) 0).
Proof.
  intros Hf Hl. pose proof (checked_160 fs Hf) as Hc. unfold check_160 in Hc.
  destruct (Z.ltb_spec (Z.of_nat (length (full_list fs))) SIR_DFS_MAX_20M_SUB_CH); [unfold SIR_DFS_MAX_20M_SUB_CH in *; lia|].
  destruct (run_of_8 _ _ _); [by eexists|done].
Qed.

Lemma pick_spec fs i : length fs = 6%nat → 8 <= Z.of_nat (length (full_list fs)) → 0 <= i < Z.of_nat (length (full_list fs)) →
  ∃ t seg, pick_80p80 (full_list fs) (Z.of_nat (length (full_list fs))) i = Some (t, seg) ∧
  ok_for (full_list fs) (if (seg =? 0) && (Z.of_nat (length (full_list fs)) =? SIR_DFS_MAX_20M_SUB_CH) then CH_WIDTH_160MHZ
                         else if seg =? 0 then CH_WIDTH_80MHZ else CH_WIDTH_80P80MHZ) seg t = true.
Proof.
  intros Hf Hl Hi. pose proof (checked_80p80 fs Hf) as Hc. unfold check_80p80 in Hc.
  destruct (Z.ltb_spec (Z.of_nat (length (full_list fs))) SIR_DFS_MAX_20M_SUB_CH); [unfold SIR_DFS_MAX_20M_SUB_CH in *; lia|].
  rewrite forallb_forall in Hc. specialize (Hc i). destruct (pick_80p80 _ _ i) as [[t seg]|].
  - exists t, seg. split; [done|]. apply Hc, list_elem_of_In, elem_of_seqZ. lia.
  - discriminate Hc. apply list_elem_of_In, elem_of_seqZ. lia.
Qed.

Lemma full_list_length fs : length fs = 6%nat → Z.of_nat (length (full_list fs)) <= 24.
Proof.
  intros Hl. assert (Ha : forallb (λ fs, Z.of_nat (length (full_list fs)) <=? 24) (all_bools 6) = true) by (vm_compute; done).
  rewrite forallb_forall in Ha. apply Z.leb_le, Ha, list_elem_of_In. rewrite <- Hl. apply in_all_bools.
Qed.

Lemma populate_length bm w : length bm = 6%nat → Z.of_nat (length (sap_populate_available_channels bm w)) <= 24.
Proof.
  intros Hl. assert (Hb : ∀ b, (length (band_channels w b) <= 4)%nat).
  { intros b. unfold band_channels. destruct w; repeat case_match; cbn; lia. }
  do 6 (destruct bm as [|? bm]; [done|]). destruct bm; [|done]. unfold sap_populate_available_channels. cbn.
  rewrite !length_app. cbn. pose proof (Hb t). pose proof (Hb t0). pose proof (Hb t1).
  pose proof (Hb t2). pose proof (Hb t3). pose proof (Hb t4). lia.
Qed.

(** Either nothing is found and the width falls, or a free block is found. *)
Lemma fallback_spec (P : Z → Prop) d w l rnd :
  width_known w = true → 0 < rank w → (∀ c, c ∈ l → c ≠ 0 → P c ∧ aligned c = true) →
  ∃ t w' d', sap_find_ch_wh_fallback d w l (Z.of_nat (length l)) rnd = Some (t, w', d') ∧
    ((t = 0 ∧ d' = d ∧ width_known w' = true ∧ rank w' < rank w) ∨
     (chosen P t w' (new_center_freq_seg1 d') ∧ ∃ seg, d' = d <| new_center_freq_seg1 := seg |>)).
Proof.
  intros Hw Hrk Hl. unfold sap_find_ch_wh_fallback. rewrite Z.ltb_irrefl, zread_0_all by lia.
  destruct (bitmap_of_list P l Hl) as [Hb Hs]. set (bm := foldl _ _ _) in *. clearbody bm.
  assert (Hbl : length bm = 6%nat) by (rewrite <- (length_map startChannel), Hs; done).
  pose proof (populate_length bm w Hbl) as Hpl. set (fl := sap_populate_available_channels bm w) in *.
  assert (Hd : d = d <| new_center_freq_seg1 := new_center_freq_seg1 d |>) by by destruct d.
  destruct (Z.eqb_spec (Z.of_nat (length fl)) 0) as [|Hne].
  { eexists 0, _, d. split; [done|]. left. destruct w; cbn in *; try done; split_and!; try done; lia. }
  assert (Hnil : fl ≠ []) by (intros ->; done).
  destruct (above_80 w) eqn:Ea.
  - assert (Hfl : fl = full_list (map map_full bm)) by (by apply populate_full). rewrite Hfl in *. clear fl Hfl.
    set (fs := map map_full bm) in *. assert (Hf : length fs = 6%nat) by (unfold fs; by rewrite length_map).
    pose proof (full_list_P P bm Hb Hs) as HP. fold fs in HP. clearbody fs.
    assert (Hor : is_160 w || is_80p80 w = true) by (destruct w; done). rewrite Hor. cbn [andb].
    destruct (Z.ltb_spec (Z.of_nat (length (full_list fs))) SIR_DFS_MAX_20M_SUB_CH) as [|H8].
    { eexists 0, _, d. split; [done|]. left. destruct w; done. }
    unfold SIR_DFS_MAX_20M_SUB_CH in H8. destruct (run_of_8_total fs Hf H8) as [s Hrun].
    pose proof (run_of_8_length fs s Hrun H8 Hf) as Hok. pose proof (Z.mod_pos_bound rnd SIR_DFS_MAX_20M_SUB_CH ltac:(done)) as Hr8.
    destruct w; try done; cbn [is_160 is_80p80 above_80 orb andb negb].
    + rewrite Hrun. cbn [mbind option_bind]. destruct s as [s|]; cbn [is_Some bool_decide].
      2: { eexists 0, _, d. split; [done|]. by left. }
      eexists _, _, d. split; [done|]. right. split; [|by eexists].
      apply (ok_for_chosen P (full_list fs)); [done| |done]. rewrite Forall_forall in Hok.
      apply (Hok (rnd mod SIR_DFS_MAX_20M_SUB_CH)), elem_of_seqZ. unfold SIR_DFS_MAX_20M_SUB_CH in *. lia.
    + cbn [mbind option_bind]. pose proof (Z.mod_pos_bound rnd (Z.of_nat (length (full_list fs))) ltac:(lia)) as Hr.
      rewrite u8_small by (red; lia).
      destruct (pick_spec fs (rnd mod Z.of_nat (length (full_list fs))) Hf H8 Hr) as (t & seg & Eq & Ho).
      rewrite Eq. cbn [mbind option_bind]. eexists _, _, _. split; [done|]. right. split; [|by eexists].
      rsimpl. apply (ok_for_chosen P (full_list fs)); [|exact Ho|done]. repeat split_if; done.
  - assert (Hw2 : w = CH_WIDTH_40MHZ ∨ w = CH_WIDTH_80MHZ) by (destruct w; auto; cbn in *; lia).
    destruct (select_rand_in fl rnd) as (t & Eq & Ht); [unfold WNI_CFG_VALID_CHANNEL_LIST_LEN; lia|done|].
    assert (Hc : chosen P t w (new_center_freq_seg1 d)).
    { destruct (populate_ok P w bm t Hw2 Hb Ht) as (Ht0 & B & HB & HPB). split; [done|]. split; [done|].
      exists B. split; [|done]. destruct Hw2 as [->| ->]; exact HB. }
    exists t, w, d. split; [|right; split; [done|by eexists]].
    destruct Hw2 as [->| ->]; cbn; by rewrite Eq.
Qed.

(** The widths fall until a block is found: four rounds are enough. *)
Lemma width_loop_spec (P : Z → Prop) fuel d w l rnd :
  width_known w = true → rank w < Z.of_nat fuel → (∀ c, c ∈ l → c ≠ 0 → P c ∧ aligned c = true) →
  Z.of_nat (length l) <= WNI_CFG_VALID_CHANNEL_LIST_LEN → Z.of_nat (length l) <= QDF_MAX_NUM_CHAN →
  length (sapDfsChannelNolList d) = 40%nat →
  ∃ t w' d', width_loop fuel d w l (Z.of_nat (length l)) rnd = Some (t, w', d') ∧
    (t ≠ 0 → chosen P t w' (new_center_freq_seg1 d')) ∧
    (WLAN_ENABLE_CHNL_MATRIX_RESTRICTION = false → t = 0 → Forall (λ c, c = 0) l) ∧
    ∃ seg, d' = d <| new_center_freq_seg1 := seg |>.
Proof.
  intros Hw Hf Hl Hlen Hq Hnol. assert (Hd : d = d <| new_center_freq_seg1 := new_center_freq_seg1 d |>) by by destruct d.
  revert w Hw Hf. induction fuel as [|f IH]; intros w Hw Hf.
  { destruct w; cbn in Hf; try done; lia. }
  cbn [width_loop].
  assert (Hm : ∃ st ll, (if WLAN_ENABLE_CHNL_MATRIX_RESTRICTION
      then sap_mark_leaking_ch d w (sapDfsChannelNolList d) (Z.of_nat (length l)) l else Some (QDF_STATUS_SUCCESS, l)) = Some (st, ll) ∧
      struck l ll ∧ (WLAN_ENABLE_CHNL_MATRIX_RESTRICTION = false → st = QDF_STATUS_SUCCESS ∧ ll = l)).
  { destruct WLAN_ENABLE_CHNL_MATRIX_RESTRICTION; [|by eexists _, l].
    destruct (sap_mark_leaking_ch_total d w (Z.of_nat (length l)) l Hnol) as (st & ll & -> & Hll); [lia|]. by exists st, ll. }
  destruct Hm as (st & ll & -> & Hll & Hoff). cbn [mbind option_bind].
  destruct (QDF_IS_STATUS_SUCCESS st) eqn:Est; cbn [negb].
  2: { eexists 0, w, d. split; [done|]. split; [done|]. split; [|by eexists]. intros Ho _. destruct (Hoff Ho) as [-> _]. done. }
  pose proof (Forall2_length _ _ _ Hll) as Hlln.
  assert (Hl' : ∀ c, c ∈ ll → c ≠ 0 → P c ∧ aligned c = true).
  { intros c [i Hi]%list_elem_of_lookup Hc. destruct (Forall2_lookup_r _ _ _ _ _ Hll Hi) as (x & Hx & [->| ->]); [|done].
    apply Hl; [by eapply list_elem_of_lookup_2|done]. }
  destruct (is_20 w) eqn:E20.
  - set (fl := List.filter _ ll). pose proof (List.filter_length_le (λ c, negb (c =? 0)) ll) as Hfl. fold fl in Hfl.
    destruct (Z.ltb_spec QDF_MAX_NUM_CHAN (Z.of_nat (length fl))); [lia|].
    destruct (decide (fl = [])) as [Hnil|Hnil].
    + rewrite Hnil. cbn. eexists 0, w, d. split; [done|]. split; [done|]. split; [|by eexists].
      intros Ho _. destruct (Hoff Ho) as [_ ->]. apply Forall_forall. intros c Hc. destruct (Z.eq_dec c 0) as [|Hz]; [done|].
      assert (Hin : c ∈ fl) by (apply list_elem_of_In, filter_In; split; [by apply list_elem_of_In|by apply negb_true_iff, Z.eqb_neq]).
      rewrite Hnil in Hin. by apply elem_of_nil in Hin.
    + destruct (select_rand_in fl rnd) as (t & Eq & Ht); [lia|done|]. rewrite Eq. cbn [mbind option_bind].
      apply list_elem_of_In, filter_In in Ht as [Ht Ht0%negb_true_iff%Z.eqb_neq].
      exists t, w, d. split; [done|]. split_and!; [|done|by eexists]. intros _. split; [done|]. split; [done|].
      exists [t]. destruct w; try done. split; [by left|]. constructor; [|done]. apply Hl'; [by apply list_elem_of_In|done].
  - assert (Hr : 0 < rank w) by (destruct w; done).
    destruct (fallback_spec P d w ll rnd Hw Hr Hl') as (t & w' & d' & Efb & Hres).
    rewrite <- Hlln in Efb. rewrite Efb. cbn [mbind option_bind]. destruct Hres as [(-> & -> & Hw' & Hlt)|[Hc Hseg]].
    + cbn. destruct (IH w' Hw') as (t2 & w2 & d2 & Eq & H2); [lia|]. exists t2, w2, d2. done.
    + destruct (Z.eqb_spec t 0) as [Ht0|Ht0]; [by destruct Hc|]. exists t, w', d'. split; [done|]. by split_and!.
Qed.

(** *** The whole selection *)
Lemma footprints_in w seg1 t B : B ∈ footprints w seg1 t → t ∈ B.
Proof.
  assert (Hin : ∀ b Bs, b ∈ List.filter (existsb (Z.eqb t)) Bs → t ∈ b).
  { intros b Bs [_ (x & Hx & ->%Z.eqb_eq)%existsb_exists]%list_elem_of_In%filter_In. by apply list_elem_of_In. }
  unfold footprints. destruct w; try apply Hin; try (intros H; by apply elem_of_nil in H).
  - intros ->%list_elem_of_singleton. by left.
  - intros (B1 & (B2 & -> & _)%list_elem_of_fmap & H1)%list_elem_of_bind. apply elem_of_app. left. by apply (Hin _ blocks_80).
Qed.

(** The candidates: one entry more of the preferred list than its length says. *)
Definition free ctx d m now p c : Prop :=
  c ∈ zread (pcl_list p) 0 (pcl_len p + 1) ∧ selectable ctx d m now c = true.

Lemma filter_fused (f g h : Z → bool) l :
  (∀ c, h c = f c && g c) → List.filter g (List.filter f l) = List.filter h l.
Proof. intros Hh. induction l as [|c l IH]; [done|]. cbn. rewrite Hh. destruct (f c); cbn; by rewrite IH. Qed.

Lemma valid_channels (g : Z → bool) cs :
  map ci_channel (List.filter valid (map (λ c, mk_chan c (g c)) cs)) = List.filter g cs.
Proof. induction cs as [|c cs IH]; [done|]. cbn. destruct (g c); cbn; by rewrite IH. Qed.

Definition first_width ctx d : phy_ch_width := if is_20 (orig_chanWidth d) then ch_width_orig ctx else orig_chanWidth d.

(** What the caller of the selection relies on. *)
Definition query_ok ctx (s : cds_state) (stale : sir_pcl_list) (p : sir_pcl_list) (s' : cds_state) : Prop :=
  sap_pcl_query s stale = Some (QDF_STATUS_SUCCESS, p, s') ∧ 0 <= pcl_len p < Z.of_nat (length (pcl_list p)) ∧
  pcl_len p < WNI_CFG_VALID_CHANNEL_LIST_LEN <= QDF_MAX_NUM_CHAN ∧ acs_list_ok ctx.

#[local] Arguments width_loop : simpl never.

Lemma random_sel_spec D m now0 now ctx d s stale rnd p s' :
  nol_rel D m now0 d → now0 <= now → is_u64 now → (∀ c, in_band c = true → CDS_IS_DFS_CH c = true → c ∈ D) →
  width_known (first_width ctx d) = true → query_ok ctx s stale p s' →
  ∃ t ctx' d', sap_random_channel_sel ctx d s stale true now rnd = Some (t, ctx', d', s') ∧ nol_rel D m now d' ∧
    (t ≠ 0 → ∃ B, B ∈ footprints (new_chanWidth d') (new_center_freq_seg1 d') t ∧ Forall (free ctx d m now p) B) ∧
    (WLAN_ENABLE_CHNL_MATRIX_RESTRICTION = false → t = 0 → ∀ c, ¬ free ctx d m now p c).
Proof.
  intros Hr Hle Hu HD Hw (Eq & Hp & [Hlim Hq] & Ha). unfold sap_random_channel_sel. fold (first_width ctx d).
  set (w := first_width ctx d) in *. unfold sap_get_5ghz_channel_list. rewrite Eq. cbn [mbind option_bind].
  cbn [QDF_IS_STATUS_SUCCESS negb]. change (QDF_IS_STATUS_SUCCESS QDF_STATUS_SUCCESS) with true. cbn [negb].
  rewrite (sap_get_5ghz_loop p (pcl_len p + 1)) by lia. cbn [mbind option_bind]. change (negb true) with false. cbv iota.
  set (chs := zread (pcl_list p) 0 (pcl_len p + 1)). set (cs := List.filter in_band chs).
  assert (Hchs : (length chs <= 100)%nat).
  { unfold chs, zread. rewrite length_take. unfold WNI_CFG_VALID_CHANNEL_LIST_LEN in Hlim. lia. }
  pose proof (List.filter_length_le in_band chs) as Hcs. fold cs in Hcs.
  unfold sap_apply_rules. rsimpl. rewrite length_map, u8_small by (red; lia).
  set (ctx1 := mk_sap _ _ _ _ _ _ _ _ _ _ _ _ _ _ _ _). set (d1 := mk_sap_dfs _ _ _ _ _ _ _ _ _ _ _ _).
  destruct (apply_rules_spec D m now0 now ctx1 d1 cs (Z.of_nat (length cs))) as (d2 & E2 & Hr2 & Hs2);
    [exact Hr|done|done|done|exact Ha| |lia|].
  { apply Forall_forall. by intros c [_ Hc]%list_elem_of_In%filter_In. }
  rewrite E2. cbn [mbind option_bind]. clear E2.
  set (g := λ c, passes ctx1 d1 m now c && negb (avoided ctx1 c)).
  pose proof (selectable_count ctx1 d1 m now cs) as Hcount. fold g in Hcount |- *.
  set (n := Z.of_nat (length cs) - Z.of_nat (length (ruled_out ctx1 d1 m now cs))) in *.
  assert (Hfree : ∀ c, c ∈ List.filter g cs ↔ free ctx d m now p c).
  { intros c. unfold cs, free. rewrite (filter_fused in_band g (selectable ctx d m now)).
    - rewrite !list_elem_of_In, filter_In. done.
    - intros c'. symmetry. apply andb_assoc. }
  destruct (Z.eqb_spec n 0) as [Hz|Hz].
  { eexists 0, _, d2. split; [done|]. split; [done|]. split; [done|]. intros _ _ c Hc%Hfree.
    assert (List.filter g cs = []) as Hnil by (apply length_zero_iff_nil; lia). rewrite Hnil in Hc. by apply elem_of_nil in Hc. }
  change (negb true) with false. cbv iota. rsimpl.
  replace (map ci_channel _) with (List.filter g cs) by (symmetry; exact (valid_channels g cs)).
  set (l := List.filter g cs) in *. destruct (Z.ltb_spec n (Z.of_nat (length l))); [lia|].
  set (lst := l ++ replicate (Z.to_nat n - length l) 0).
  assert (Hlst : Z.of_nat (length lst) = n) by (unfold lst; rewrite length_app, length_replicate; lia).
  assert (Hin : ∀ c, c ∈ lst → c ≠ 0 → free ctx d m now p c ∧ aligned c = true).
  { intros c [Hc|[-> _]%elem_of_replicate]%elem_of_app Hc0; [|done]. split; [by apply Hfree|].
    apply list_elem_of_In, filter_In in Hc as [[_ Hc]%filter_In _]. by apply in_band_aligned. }
  destruct Hr2 as (es & x & r & El & Hl40 & Hrest).
  destruct (width_loop_spec (free ctx d m now p) 5 d2 w lst rnd Hw) as (t & w' & d3 & E3 & Hc & Hlive & [seg Hd3]);
    [destruct w; cbn; lia|done|unfold WNI_CFG_VALID_CHANNEL_LIST_LEN in *; lia..|done|].
  rewrite Hlst in E3. fold lst. rewrite E3. cbn [mbind option_bind].
  eexists t, _, _. split; [done|]. split; [|split].
  - exists es, x, r. subst d3. destruct (t =? 0); exact (conj El (conj Hl40 Hrest)).
  - intros Ht. destruct (Hc Ht) as (_ & _ & B & HB & HP). exists B. split; [|done].
    destruct (Z.eqb_spec t 0); [done|]. exact HB.
  - intros Hoff Ht c Hcf. specialize (Hlive Hoff Ht). rewrite Forall_forall in Hlive.
    assert (c = 0) as ->. { apply Hlive, elem_of_app. left. by apply Hfree. }
    destruct Hcf as [_ [[Hb _]%andb_true_iff _]%andb_true_iff]. apply in_band_pos in Hb. lia.
Qed.

(** *** The radar *)
Lemma for_opt_ext {St} (f g : St → Z → option St) idxs st :
  (∀ st i, i ∈ idxs → f st i = g st i) → for_opt f idxs st = for_opt g idxs st.
Proof.
  revert st. induction idxs as [|i idxs IH]; intros st Hfg; [done|]. cbn. rewrite Hfg by by left.
  destruct (g st i); [|done]. cbn. apply IH. intros. apply Hfg. by right.
Qed.

Lemma mark_first d cs n t :
  0 <= n <= Z.of_nat (length cs) →
  sap_mark_dfs_channels d cs n t = sap_mark_dfs_channels d (zread cs 0 n) (Z.of_nat (length (zread cs 0 n))) t.
Proof.
  intros Hn. unfold sap_mark_dfs_channels. rewrite length_zread by (split_and!; lia).
  rewrite (for_opt_ext _ (λ (l : list tSapDfsNolInfo) i, c ← aget (zread cs 0 n) i; mark_channel (numCurrentRegDomainDfsChannels d) c t l)); [done|].
  intros l i [H0 Hi]%elem_of_seqZ. unfold aget. destruct (Z.ltb_spec i 0); [lia|]. unfold zread. cbn.
  rewrite drop_0, lookup_take, decide_True by lia. done.
Qed.

Lemma spec_mark_keeps D now m cs c : spec_in m now c = true → spec_in (foldl (spec_mark D now) m cs) now c = true.
Proof.
  revert m. induction cs as [|x cs IH]; intros m Hc; [done|]. cbn. apply IH. unfold spec_mark.
  destruct (_ && _) eqn:Em; [|done]. apply andb_true_iff in Em as [_ Em%negb_true_iff].
  unfold spec_in. rewrite lookup_insert_ne by congruence. done.
Qed.

(** A radar puts its channels into their period. *)
Lemma spec_marked D now m cs c : c ∈ cs → c ∈ D → spec_in (foldl (spec_mark D now) m cs) now c = true.
Proof.
  intros Hc HD. revert m. induction cs as [|x cs IH]; intros m; [by apply elem_of_nil in Hc|]. cbn.
  apply elem_of_cons in Hc as [<-|Hc]; [|by apply IH]. apply spec_mark_keeps. unfold spec_mark. rewrite bool_decide_true by done. cbn [andb].
  destruct (spec_in m now c) eqn:Ei; [done|]. cbn. unfold spec_in. rewrite lookup_insert_eq, Z.sub_diag. done.
Qed.

(** The choice after a radar. *)
Lemma indicate_radar_spec D m now0 now ctx d s ev stale rnd p s' :
  nol_rel D m now0 d → now0 <= now → is_u64 now → (∀ c, in_band c = true → CDS_IS_DFS_CH c = true → c ∈ D) →
  width_known (first_width ctx d) = true → query_ok ctx s stale p s' →
  dfs_radar_status ev = true → disableDFSChSwitch ctx = false → chan_before_pre_cac ctx = 0 →
  0 <= nchannels ev → Z.of_nat (length (radar_channels ev)) = SIR_DFS_MAX_20M_SUB_CH →
  let radar := zread (radar_channels ev) 0 (Z.min SIR_DFS_MAX_20M_SUB_CH (nchannels ev)) in
  let m' := foldl (spec_mark D now) m radar in
  ∃ t ctx' d',
    sap_indicate_radar ctx d s ev stale true now rnd = Some (t, ctx', d', s') ∧ nol_rel D m' now d' ∧
    (t ≠ 0 → ∃ B, B ∈ footprints (new_chanWidth d') (new_center_freq_seg1 d') t ∧ t ∈ B ∧
      ∀ c, c ∈ B → free ctx d m' now p c ∧ (CDS_IS_DFS_CH c = true → c ∉ radar)) ∧
    (WLAN_ENABLE_CHNL_MATRIX_RESTRICTION = false → t = 0 ↔ ∀ c, ¬ free ctx d m' now p c) ∧
    (t = 0 → head (dfs_events d') = Some Ev_no_available_channel).
Proof.
  intros Hr Hle Hu HD Hw Hq Hst Hdis Hpre Hn Hlen radar m'.
  unfold sap_indicate_radar. rewrite Hst, Hdis, Hpre. cbn [negb Z.eqb].
  set (d0 := (if sap_started ctx then d <| csaIERequired := true |> else d) <| sap_radar_found_status := true |>).
  assert (Hr0 : nol_rel D m now0 d0) by (unfold d0; destruct (sap_started ctx); exact Hr).
  assert (Hs0 : same_config d d0) by (unfold d0; destruct (sap_started ctx); done).
  replace (if SIR_DFS_MAX_20M_SUB_CH <? nchannels ev then SIR_DFS_MAX_20M_SUB_CH else nchannels ev)
    with (Z.min SIR_DFS_MAX_20M_SUB_CH (nchannels ev)) by (destruct (Z.ltb_spec SIR_DFS_MAX_20M_SUB_CH (nchannels ev)); lia).
  rewrite mark_first by lia. fold radar.
  destruct (sap_mark_dfs_channels_spec D m now0 d0 radar now Hr0 Hle Hu) as (d1 & E1 & Hr1). fold m' in Hr1.
  rewrite E1. cbn [mbind option_bind].
  assert (Hs1 : same_config d d1) by (etransitivity; [exact Hs0|by eapply mark_same_config]).
  assert (Hw1 : width_known (first_width ctx d1) = true).
  { destruct Hs1 as (_ & _ & Ho & _). unfold first_width. by rewrite Ho. }
  destruct (random_sel_spec D m' now now ctx d1 s stale rnd p s' Hr1) as (t & ctx' & d2 & E2 & Hr2 & Hblock & Hlive);
    [lia|done..|].
  assert (Hfree : ∀ c, free ctx d1 m' now p c ↔ free ctx d m' now p c).
  { intros c. unfold free, selectable. by rewrite (passes_same_config _ _ _ _ _ _ Hs1). }
  rewrite E2. cbn [mbind option_bind]. eexists t, ctx', _. split; [done|].
  assert (Hsafe : t ≠ 0 → ∃ B, B ∈ footprints (new_chanWidth d2) (new_center_freq_seg1 d2) t ∧ t ∈ B ∧
      ∀ c, c ∈ B → free ctx d m' now p c ∧ (CDS_IS_DFS_CH c = true → c ∉ radar)).
  { intros Ht. destruct (Hblock Ht) as (B & HB & HP). exists B. split; [done|]. split; [by eapply footprints_in|].
    intros c Hc. rewrite Forall_forall in HP. specialize (HP c Hc). apply Hfree in HP. split; [done|].
    intros Hdc Hrad. destruct HP as [_ [[Hb Hp]%andb_true_iff _]%andb_true_iff].
    apply andb_true_iff in Hp as [[_ Hp]%andb_true_iff _]. rewrite Hdc in Hp. unfold m' in Hp.
    rewrite spec_marked in Hp by auto. done. }
  destruct (Z.eqb_spec t 0) as [->|Ht]; (split; [exact Hr2|]); (split; [exact Hsafe|]).
  - split; [|done]. intros Hoff. split; [|done]. intros _ c Hc%Hfree. by apply (Hlive Hoff eq_refl c).
  - split; [|done]. intros _. split; [done|]. intros Hnone. destruct (Hsafe Ht) as (B & _ & Hin & HB).
    destruct (HB t Hin) as [Hf _]. by destruct (Hnone t).
Qed.
(** C18: after a radar the network moves to a channel that may be used.  When the
    search succeeds, the new channel lies in a whole block of the new width,
    every channel of which is a candidate that passes all the rules (enabled or
    with radar detection, not in its non-occupancy period, within the configured
    range and list, allowed in the Japanese domain, not avoided); none of the
    channels of the radar that need detection is in the block.  The non-occupancy
    list then agrees with the map in which the radar is entered.  No access
    leaves an array and the fall-back of the width ends.  Without the leakage
    tables the search fails only if there is no free channel at all; a failure
    is reported. *)
Theorem radar_target_safe D m now0 now ctx d s ev stale rnd p s' :
  nol_rel D m now0 d → now0 <= now → is_u64 now → (∀ c, in_band c = true → CDS_IS_DFS_CH c = true → c ∈ D) →
  width_known (first_width ctx d) = true → query_ok ctx s stale p s' →
  dfs_radar_status ev = true → disableDFSChSwitch ctx = false → chan_before_pre_cac ctx = 0 →
  0 <= nchannels ev → Z.of_nat (length (radar_channels ev)) = SIR_DFS_MAX_20M_SUB_CH →
  let radar := zread (radar_channels ev) 0 (Z.min SIR_DFS_MAX_20M_SUB_CH (nchannels ev)) in
  let m' := foldl (spec_mark D now) m radar in
  ∃ t ctx' d',
    sap_indicate_radar ctx d s ev stale true now rnd = Some (t, ctx', d', s') ∧ nol_rel D m' now d' ∧
    (t ≠ 0 → ∃ B, B ∈ footprints (new_chanWidth d') (new_center_freq_seg1 d') t ∧ t ∈ B ∧
      ∀ c, c ∈ B → free ctx d m' now p c ∧ (CDS_IS_DFS_CH c = true → c ∉ radar)) ∧
    (WLAN_ENABLE_CHNL_MATRIX_RESTRICTION = false → t = 0 ↔ ∀ c, ¬ free ctx d m' now p c) ∧
    (t = 0 → head (dfs_events d') = Some Ev_no_available_channel).
Proof. exact (indicate_radar_spec D m now0 now ctx d s ev stale rnd p s'). Qed.
End proofs.
