(* ===== verification/SapFsm.v ===== *)
(** The state machine of the soft AP: core/sap/src/sap_fsm.c (sap_fsm and the
    functions of the states), sap_module.c and sap_api_link_cntl.c (the requests
    of the HDD layer and the indications of the roaming module).

    Up to five access points share the DFS state: the non-occupancy list
    ([SapNol]), the timer of the channel availability check (CAC), and whether
    the check may be skipped.  A context is an index into [sessions]; the array
    sapCtxList holds pointers to the open ones.  Requests to the SME layer and
    events for the HDD layer are entered in a trace.  What the layers around
    answer during one operation is the record [answers]; whether it depends on
    the context is written out where the code asks more than once.  [None] is an
    access outside an array or a loop without end. *)
From S2P Require Import Prelude Arrays CdsTables CdsConn CdsPcl SapNol SapLeak SapDfs.

Definition SAP_MAX_NUM_SESSION : nat := 5.
Definition AUTO_CHANNEL_SELECT : Z := 0.
Definition SAP_DEFAULT_24GHZ_CHANNEL : Z := 6.
Definition SAP_DEFAULT_5GHZ_CHANNEL : Z := 40.
Definition SAP_CHANNEL_NOT_SELECTED : Z := 0.
Definition DFS_ETSI_REGION : Z := 2.
Definition DEFAULT_CAC_TIMEOUT : Z := 60 * 1000.
Definition ETSI_WEATHER_CH_CAC_TIMEOUT : Z := 10 * 60 * 1000.
Definition CHAN_ENUM_13 : Z := 12.
Definition BW20 : Z := 0.
Definition BW40_LOW_PRIMARY : Z := 1.
Definition BW40_HIGH_PRIMARY : Z := 3.
Definition BW80 : Z := 4.
Definition STA_AP_MASK : Z := 3.                  (* QDF_STA_MASK | QDF_SAP_MASK *)

Inductive eSapFsmStates :=
  | eSAP_DISCONNECTED | eSAP_CH_SELECT | eSAP_DFS_CAC_WAIT | eSAP_STARTING | eSAP_STARTED | eSAP_DISCONNECTING.
#[export] Instance eSapFsmStates_eq_dec : EqDecision eSapFsmStates.
Proof. solve_decision. Defined.

(** The events of sap_fsm; the last one carries u2. *)
Inductive sap_msg :=
  | eSAP_HDD_START_INFRA_BSS | eSAP_HDD_STOP_INFRA_BSS | eSAP_MAC_SCAN_COMPLETE | eSAP_CHANNEL_SELECTION_FAILED
  | eSAP_CHANNEL_SELECTION_RETRY | eSAP_MAC_START_BSS_SUCCESS | eSAP_MAC_START_FAILS | eSAP_MAC_READY_FOR_CONNECTIONS
  | eSAP_OPERATING_CHANNEL_CHANGED | eSAP_DFS_CHANNEL_CAC_START | eSAP_DFS_CHANNEL_CAC_RADAR_FOUND
  | eSAP_DFS_CHANNEL_CAC_END | eSAP_DFS_CHNL_SWITCH_ANNOUNCEMENT_START | eSAP_CHANNEL_SWITCH_ANNOUNCEMENT_START
  | eWNI_SME_CHANNEL_CHANGE_REQ | eWNI_SME_CHANNEL_CHANGE_RSP (failure : bool).

#[export] Instance sap_msg_eq_dec : EqDecision sap_msg.
Proof. solve_decision. Defined.

(** The events of eSapHddEvent that the machine signals. *)
Inductive eSapHddEvent :=
  | eSAP_START_BSS_EVENT (success : bool) | eSAP_STOP_BSS_EVENT | eSAP_CHANNEL_CHANGE_EVENT | eSAP_DFS_CAC_START
  | eSAP_DFS_CAC_END | eSAP_DFS_PRE_CAC_END | eSAP_DFS_CAC_INTERRUPTED | eSAP_DFS_RADAR_DETECT
  | eSAP_DFS_RADAR_DETECT_DURING_PRE_CAC | eSAP_DFS_NO_AVAILABLE_CHANNEL | eSAP_DFS_NOL_GET | eSAP_DFS_NOL_SET.

Inductive fsm_event :=
  | Ev_hdd (k : nat) (e : eSapHddEvent)
  | Ev_open_session (k : nat)                    (* sme_open_session *)
  | Ev_close_session (k : nat)                   (* sme_close_session *)
  | Ev_scan (k : nat)                            (* sme_scan_request *)
  | Ev_roam_connect (k : nat) (channel : Z)      (* sme_roam_connect *)
  | Ev_stop_bss (k : nat)                        (* sme_roam_stop_bss *)
  | Ev_start_beacon (k : nat)                    (* sme_roam_start_beacon_req *)
  | Ev_csa_ie (k : nat) (channel : Z)            (* sme_roam_csa_ie_request *)
  | Ev_channel_change (k : nat) (channel : Z)    (* sme_roam_channel_change_req *)
  | Ev_timer_start (timeout : Z)
  | Ev_timer_stop.

(** The fields of struct ch_params_s that the machine looks at. *)
Record ch_params_s := mk_params {
  cp_width : phy_ch_width;                       (* ch_width *)
  center_freq_seg1 : Z;
}.
#[export] Instance params_eta : Eta ch_params_s := fun p => mk_params (cp_width p) (center_freq_seg1 p).

Inductive eCsrPhyMode := eCSR_DOT11_MODE_11a | eCSR_DOT11_MODE_11b | eCSR_DOT11_MODE_11g | eCSR_DOT11_MODE_11g_ONLY
  | eCSR_DOT11_MODE_other.
#[export] Instance eCsrPhyMode_eq_dec : EqDecision eCsrPhyMode.
Proof. solve_decision. Defined.

Inductive tSap_skip_acs_scan := eSAP_DO_NEW_ACS_SCAN | eSAP_DO_PAR_ACS_SCAN | eSAP_SKIP_ACS_SCAN.
#[export] Instance skip_eq_dec : EqDecision tSap_skip_acs_scan.
Proof. solve_decision. Defined.

(** The other fields of tSapContext, besides those of [SapDfs.tSapContext]. *)
Record sap_session := mk_session {
  base : tSapContext;
  sapsMachine : eSapFsmStates;
  sessionId : Z;
  isSapSessionOpen : bool;
  pfnSapEventCallback : bool;                    (* it is registered *)
  csrPersona : tQDF_ADAPTER_MODE;
  phyMode : eCsrPhyMode;
  channels_set : bool;                           (* csr_roamProfile.ChannelInfo has a list *)
  ch_params : ch_params_s;
  cc_switch_mode : bool;                         (* not QDF_MCC_TO_SCC_SWITCH_DISABLE *)
  skip_scan_status : tSap_skip_acs_scan;
  acs_hw_mode_a : bool;                          (* acs_cfg->hw_mode is 11a or 11ad *)
  scan_list : list Z;                            (* channelList, num_of_channel *)
  isCacStartNotified : bool;
  isCacEndNotified : bool;
  is_sap_ready_for_chnl_chng : bool;
  is_pre_cac_on : bool;
  pre_cac_complete : bool;
}.
#[export] Instance session_eta : Eta sap_session := fun x =>
  mk_session (base x) (sapsMachine x) (sessionId x) (isSapSessionOpen x) (pfnSapEventCallback x) (csrPersona x) (phyMode x)
    (channels_set x) (ch_params x) (cc_switch_mode x) (skip_scan_status x) (acs_hw_mode_a x) (scan_list x)
    (isCacStartNotified x) (isCacEndNotified x) (is_sap_ready_for_chnl_chng x) (is_pre_cac_on x) (pre_cac_complete x).

(** The global state: pMac->sap, the contexts, the policy manager. *)
Record machine := mk_machine {
  sessions : list sap_session;
  sapCtxList : list (tQDF_ADAPTER_MODE * option nat);   (* sapPersona, pSapContext *)
  dfs : tSapDfsInfo;
  cac_skip : bool;                               (* cac_state == eSAP_DFS_SKIP_CAC *)
  ignore_cac : bool;
  is_dfs_cac_timer_running : bool;
  sap_dfs_cac_timer : option Z;                  (* the timer runs, its timeout *)
  target_channel : Z;
  user_provided_target_channel : Z;
  cds : cds_state;
  trace : list fsm_event;                        (* newest first *)
}.
#[export] Instance machine_eta : Eta machine := fun m =>
  mk_machine (sessions m) (sapCtxList m) (dfs m) (cac_skip m) (ignore_cac m) (is_dfs_cac_timer_running m)
    (sap_dfs_cac_timer m) (target_channel m) (user_provided_target_channel m) (cds m) (trace m).

(** What the layers around answer. *)
Record answers := mk_answers {
  hdd_ok : nat → eSapHddEvent → bool;            (* the HDD callback *)
  vdev_ok : bool;                                (* cds_get_vdev_types *)
  open_ok : option Z;                            (* sme_open_session: the session *)
  opened_ok : bool;                              (* its completion was seen in time *)
  close_ok : bool;
  scan_ok : bool;
  scan_result_ok : bool;                         (* sme_scan_get_result *)
  connect_ok : bool;
  stop_ok : bool;
  beacon_ok : bool;
  csa_ok : bool;
  change_ok : bool;
  timer_ok : bool;
  connection_ok : bool;                          (* cds_update_and_wait_for_connection_update *)
  switch_ok : bool;                              (* sme_validate_sap_channel_switch *)
  concurrent_ch : Z;                             (* sme_get_concurrent_operation_channel *)
  overlap_ch : Z → Z;                            (* sme_check_concurrent_channel_overlap *)
  cb_mode : Z;                                   (* the bonding state of the band *)
  opclass : Z → Z;                               (* cds_reg_dmn_get_opclass_from_channel, by offset *)
  platform_nol : option (list tSapDfsNolInfo);     (* pld_wlan_get_dfs_nol; [None]: it has none *)
  a_now : Z;
  a_rnd : Z;
  a_alloc : bool;
  stale_pcl : sir_pcl_list;
}.

(** What the machine asks of the channel selection, and of the regulatory
    component for the parameters of a channel. *)
Class ChannelSelection := {
  FEATURE_WLAN_MCC_TO_SCC_SWITCH : bool;
  FEATURE_WLAN_AP_AP_ACS_OPTIMIZE : bool;
  cds_set_channel_params : Z → Z → ch_params_s → ch_params_s;
  get_channel_list : tSapContext → list Z;                        (* sap_get_channel_list *)
  select_channel : tSapContext → cds_state → Z * tSapContext;     (* sap_select_channel on the scan results *)
}.

(** *** Access *)
Definition emit_fsm (e : fsm_event) (m : machine) : machine := m <| trace ::= cons e |>.
Definition upd (k : nat) (f : sap_session → sap_session) (m : machine) : machine := m <| sessions ::= alter f k |>.

Definition is_ap (p : tQDF_ADAPTER_MODE) : bool := bool_decide (p = QDF_SAP_MODE) || bool_decide (p = QDF_P2P_GO_MODE).

(** The context of an entry that the loops over the array consider. *)
Definition slot_ctx (s : tQDF_ADAPTER_MODE * option nat) : option nat := if is_ap (fst s) then snd s else None.
Definition ap_contexts (m : machine) : list nat := omap slot_ctx (sapCtxList m).

Definition in_state (m : machine) (k : nat) (st : eSapFsmStates) : bool :=
  match sessions m !! k with Some x => bool_decide (sapsMachine x = st) | None => false end.

(** What the functions of [SapDfs] see of a context. *)
Definition sap_view (x : sap_session) : tSapContext :=
  base x <| sap_started := bool_decide (sapsMachine x = eSAP_STARTED) |>
         <| phyMode_11b := bool_decide (phyMode x = eCSR_DOT11_MODE_11b) |>.

Definition set_state (st : eSapFsmStates) (x : sap_session) : sap_session := x <| sapsMachine := st |>.
Definition set_channel (ch : Z) (x : sap_session) : sap_session := x <| base := base x <| sap_channel := ch |> |>.

(** The number of the enumeration. *)
Definition width_num (w : phy_ch_width) : Z :=
  match w with
  | CH_WIDTH_20MHZ => 0 | CH_WIDTH_40MHZ => 1 | CH_WIDTH_80MHZ => 2 | CH_WIDTH_160MHZ => 3 | CH_WIDTH_80P80MHZ => 4
  | CH_WIDTH_5MHZ => 5 | CH_WIDTH_10MHZ => 6 | CH_WIDTH_INVALID => 7 | CH_WIDTH_MAX => 8
  end.
Definition width_of_num (n : Z) : phy_ch_width :=
  match n with
  | 0 => CH_WIDTH_20MHZ | 1 => CH_WIDTH_40MHZ | 2 => CH_WIDTH_80MHZ | 3 => CH_WIDTH_160MHZ | 4 => CH_WIDTH_80P80MHZ
  | 5 => CH_WIDTH_5MHZ | 6 => CH_WIDTH_10MHZ | 7 => CH_WIDTH_INVALID | _ => CH_WIDTH_MAX
  end.

Section machine.
Context {E : CdsEnv} {SE : SapEnv} {CS : ChannelSelection}.
Implicit Types (m : machine) (k : nat) (x : sap_session) (a : answers).

(** The callback is only called when it is registered. *)
Definition sap_signal_hdd_event a k (e : eSapHddEvent) m : bool * machine :=
  match sessions m !! k with
  | Some x => if pfnSapEventCallback x then (hdd_ok a k e, emit_fsm (Ev_hdd k e) m) else (false, m)
  | None => (false, m)
  end.
Definition signal a k (e : eSapHddEvent) m : machine := snd (sap_signal_hdd_event a k e m).

(** HDD copies the list that the platform keeps into the array during the call. *)
Definition platform_list a x : option (list tSapDfsNolInfo) := if pfnSapEventCallback x then platform_nol a else None.
Definition nol_get (platform : option (list tSapDfsNolInfo)) (d : tSapDfsInfo) : tSapDfsInfo :=
  d <| sapDfsChannelNolList ::= λ l, default l platform |>.

Definition status_of (b : bool) (failure : QDF_STATUS) : QDF_STATUS := if b then QDF_STATUS_SUCCESS else failure.

(** new_ch_params = cds_set_channel_params(channel, 0, new_ch_params) *)
Definition set_new_params (channel : Z) (d : tSapDfsInfo) : tSapDfsInfo :=
  let p := cds_set_channel_params channel 0 (mk_params (new_ch_width d) (new_center_freq_seg1 d)) in
  d <| new_ch_width := cp_width p |> <| new_center_freq_seg1 := center_freq_seg1 p |>.

Definition set_params (channel secondary : Z) x : sap_session :=
  x <| ch_params := cds_set_channel_params channel secondary (ch_params x) |>.

(** *** The contexts *)
Definition sap_find_valid_concurrent_session m : option nat :=
  find (λ k, negb (in_state m k eSAP_DISCONNECTED)) (ap_contexts m).

Definition sap_find_cac_wait_session m : option nat := find (λ k, in_state m k eSAP_DFS_CAC_WAIT) (ap_contexts m).

Definition sap_get_total_number_sap_intf m : Z := Z.of_nat (length (ap_contexts m)).

(** The first other context decides. *)
Definition is_concurrent_sap_ready_for_channel_change m k : bool :=
  match find (λ j, negb (Nat.eqb j k)) (ap_contexts m) with
  | Some j => from_option is_sap_ready_for_chnl_chng false (sessions m !! j)
  | None => false
  end.

Definition clear_cac_notified x : sap_session := x <| isCacStartNotified := false |> <| isCacEndNotified := false |>.

Definition sap_cac_reset_notify m : machine := foldl (λ m k, upd k clear_cac_notified m) m (ap_contexts m).

(** *** The timer *)
Definition stop_cac_timer m : machine :=
  emit_fsm Ev_timer_stop (m <| sap_dfs_cac_timer := None |> <| is_dfs_cac_timer_running := false |>).

Definition IS_ETSI_WEATHER_CH (c : Z) : bool := (120 <=? c) && (c <=? 130).
Definition IS_CH_BONDING_WITH_WEATHER_CH (c : Z) : bool := c =? 116.

Definition sap_is_channel_bonding_etsi_weather_channel x : bool :=
  IS_CH_BONDING_WITH_WEATHER_CH (sap_channel (base x)) && negb (is_20 (cp_width (ch_params x))).

Definition cac_timeout x : Z :=
  if (cds_get_dfs_region =? DFS_ETSI_REGION) &&
     (IS_ETSI_WEATHER_CH (sap_channel (base x)) || sap_is_channel_bonding_etsi_weather_channel x)
  then ETSI_WEATHER_CH_CAC_TIMEOUT else DEFAULT_CAC_TIMEOUT.

Definition sap_start_dfs_cac_timer a k m : machine :=
  match sessions m !! k with
  | None => m
  | Some x =>
      if ignore_cac m then m
      else if timer_ok a
      then emit_fsm (Ev_timer_start (cac_timeout x))
             (m <| sap_dfs_cac_timer := Some (cac_timeout x) |> <| is_dfs_cac_timer_running := true |>)
      else m <| sap_dfs_cac_timer := None |> <| is_dfs_cac_timer_running := false |>
  end.

Definition sap_stop_dfs_cac_timer m : machine := if sap_dfs_cac_timer m is Some _ then stop_cac_timer m else m.

(** *** Sessions *)

(** qdf_mem_zero(&pMac->sap); the list of events is kept. *)
Definition zero_dfs (d : tSapDfsInfo) : tSapDfsInfo :=
  mk_sap_dfs false false 0 (replicate 40 zero_nol) CH_WIDTH_20MHZ CH_WIDTH_20MHZ CH_WIDTH_20MHZ 0 false 0 0 (dfs_events d).
Definition zero_sap m : machine :=
  mk_machine (sessions m) (replicate SAP_MAX_NUM_SESSION (QDF_STA_MODE, None)) (zero_dfs (dfs m)) false false false None 0 0
    (cds m) (trace m).

Definition sap_close_session a k m : option (bool * machine) :=
  x ← sessions m !! k;
  let m := emit_fsm (Ev_close_session k) m in
  let m := upd k clear_cac_notified m in
  s ← aget (sapCtxList m) (sessionId x);
  l ← aset (sapCtxList m) (sessionId x) (fst s, None);
  let m := m <| sapCtxList := l |> in
  let m := upd k (λ x, x <| isSapSessionOpen := false |> <| pre_cac_complete := false |> <| is_pre_cac_on := false |>
                         <| base := base x <| chan_before_pre_cac := 0 |> |>) m in
  let m :=
    match sap_find_valid_concurrent_session m with
    | Some _ => m
    | None =>
        let m := if is_dfs_cac_timer_running m then stop_cac_timer m else m in
        zero_sap (sap_cac_reset_notify (m <| cac_skip := false |>))
    end in
  Some (close_ok a, m).

(** sme_open_session hands over the number of the session. *)
Definition sap_open_session a k m : option (QDF_STATUS * machine) :=
  if negb (vdev_ok a) then Some (QDF_STATUS_E_FAILURE, m)
  else
    let m := emit_fsm (Ev_open_session k) m in
    match open_ok a with
    | None => Some (QDF_STATUS_E_FAILURE, m)
    | Some id =>
        let m := upd k (λ x, x <| sessionId := id |>) m in
        if negb (opened_ok a) then Some (QDF_STATUS_E_FAILURE, m)
        else
          x ← sessions m !! k;
          l ← aset (sapCtxList m) id (csrPersona x, Some k);
          Some (QDF_STATUS_SUCCESS,
            upd k (λ x, x <| isSapSessionOpen := true |> <| is_pre_cac_on := false |> <| pre_cac_complete := false |>
                          <| base := base x <| chan_before_pre_cac := 0 |> |>) (m <| sapCtxList := l |>))
    end.

(** *** Requests *)
Definition wlansap_start_beacon_req a k m : bool * machine :=
  if sap_radar_found_status (dfs m) then (false, m)
  else (beacon_ok a, emit_fsm (Ev_start_beacon k) (upd k (λ x, x <| pre_cac_complete := false |>) m)).

Definition wlansap_dfs_send_csa_ie_request a k m : QDF_STATUS * machine :=
  let d := dfs m <| new_ch_width := new_chanWidth (dfs m) |> in
  (status_of (csa_ok a) QDF_STATUS_E_FAULT,
   emit_fsm (Ev_csa_ie k (target_channel m)) (m <| dfs := set_new_params (target_channel m) d |>)).

Definition wlansap_channel_change_request a k (target : Z) m : QDF_STATUS * machine :=
  match sessions m !! k with
  | None => (QDF_STATUS_E_FAULT, m)
  | Some x =>
      if negb (channels_set x) then (QDF_STATUS_E_FAULT, m)
      else
        let d := set_new_params target (dfs m) in
        let m := m <| dfs := d |> in
        let m := upd k (λ x, set_channel target (x <| ch_params := ch_params x <| cp_width := new_ch_width d |> |>)) m in
        let m := emit_fsm (Ev_channel_change k target) m in
        if change_ok a then (QDF_STATUS_SUCCESS, signal a k eSAP_CHANNEL_CHANGE_EVENT m) else (QDF_STATUS_E_FAULT, m)
  end.

Definition sap_goto_starting a k m : option (QDF_STATUS * machine) :=
  x ← sessions m !! k;
  Some (status_of (connect_ok a) QDF_STATUS_E_FAILURE, emit_fsm (Ev_roam_connect k (u8 (sap_channel (base x)))) m).

Definition sap_goto_disconnecting a k m : QDF_STATUS * machine :=
  (status_of (stop_ok a) QDF_STATUS_E_FAILURE, emit_fsm (Ev_stop_bss k) m).

(** *** Notifications of the availability check *)
Fixpoint cac_start_loop a (ks : list nat) (st : QDF_STATUS) m : QDF_STATUS * machine :=
  match ks with
  | [] => (st, m)
  | k :: ks' =>
      if from_option isCacStartNotified true (sessions m !! k) then cac_start_loop a ks' st m
      else
        let '(ok, m) := sap_signal_hdd_event a k eSAP_DFS_CAC_START m in
        if ok then cac_start_loop a ks' QDF_STATUS_SUCCESS (upd k (λ x, x <| isCacStartNotified := true |>) m)
        else (QDF_STATUS_E_FAILURE, m)
  end.

Definition sap_cac_start_notify a m : QDF_STATUS * machine := cac_start_loop a (ap_contexts m) QDF_STATUS_E_FAILURE m.

Definition wlansap_update_pre_cac_end a k m : bool * machine :=
  let m := upd k (λ x, set_state eSAP_STARTED (x <| isCacEndNotified := true |>)) m in
  sap_signal_hdd_event a k eSAP_DFS_PRE_CAC_END (m <| dfs := dfs m <| sap_radar_found_status := false |> |>).

(** One access point whose check is over. *)
Definition cac_end_one a k m : bool * machine :=
  let '(ok, m) := sap_signal_hdd_event a k eSAP_DFS_CAC_END m in
  if ok then
    let m := upd k (λ x, x <| isCacEndNotified := true |>) m in
    let m := m <| dfs := dfs m <| sap_radar_found_status := false |> |> in
    let m := snd (wlansap_start_beacon_req a k m) in
    sap_signal_hdd_event a k (eSAP_START_BSS_EVENT true) (upd k (set_state eSAP_STARTED) m)
  else (false, m).

Definition cac_end_due m k : bool :=
  match sessions m !! k with
  | Some x => negb (isCacEndNotified x) && bool_decide (sapsMachine x = eSAP_DFS_CAC_WAIT)
  | None => false
  end.

Fixpoint cac_end_loop a (ks : list nat) (st : QDF_STATUS) m : QDF_STATUS * machine :=
  match ks with
  | [] => (st, m <| cac_skip := true |>)
  | k :: ks' =>
      if negb (cac_end_due m k) then cac_end_loop a ks' st m
      else if from_option is_pre_cac_on false (sessions m !! k) then
        let '(ok, m) := wlansap_update_pre_cac_end a k m in
        if ok then (QDF_STATUS_SUCCESS, m <| cac_skip := true |>) else (QDF_STATUS_E_FAILURE, m)
      else
        let '(ok, m) := cac_end_one a k m in
        if ok then cac_end_loop a ks' QDF_STATUS_SUCCESS m else (QDF_STATUS_E_FAILURE, m)
  end.

Definition sap_cac_end_notify a m : QDF_STATUS * machine := cac_end_loop a (ap_contexts m) QDF_STATUS_E_FAILURE m.

(** *** The states

    [rec] is sap_fsm itself. *)
Section states.
Context (rec : answers → nat → sap_msg → machine → option (QDF_STATUS * machine)).

Definition sap_select_default_oper_chan x : Z :=
  if acs_hw_mode_a x then SAP_DEFAULT_5GHZ_CHANNEL else SAP_DEFAULT_24GHZ_CHANNEL.

Definition clear_scan_list x : sap_session := x <| scan_list := [] |>.

(** The callback of the scan; [success] is eCSR_SCAN_SUCCESS. *)
Definition wlansap_scan_callback a k (success : bool) m : option (QDF_STATUS * machine) :=
  x ← sessions m !! k;
  if bool_decide (sapsMachine x = eSAP_DISCONNECTED) then Some (QDF_STATUS_E_FAILURE, m)
  else
    let '(operChannel, ctx) :=
      if success && scan_result_ok a then
        let '(c, ctx) := select_channel (sap_view x) (cds m) in
        (u8 (if u8 c =? 0 then start_ch (acs_cfg ctx) else c), ctx)
      else (0, base x) in
    let m := upd k (λ x, x <| base := ctx |>) m in
    let selected := negb (operChannel =? SAP_CHANNEL_NOT_SELECTED) in
    let m := upd k (if selected then set_channel operChannel else set_state eSAP_CH_SELECT) m in
    let m := upd k (λ x, set_params (sap_channel (base x)) (secondary_ch (base x))
                           (x <| ch_params := ch_params x <| cp_width := ch_width (acs_cfg (base x)) |> |>)) m in
    let m := upd k clear_scan_list m in
    rec a k (if selected && success then eSAP_MAC_SCAN_COMPLETE else eSAP_CHANNEL_SELECTION_FAILED) m.

(** The part of sap_goto_channel_sel for automatic selection. *)
Definition goto_auto_channel a k m : option (QDF_STATUS * machine) :=
  x ← sessions m !! k;
  let channels := get_channel_list (sap_view x) in
  let optimize := FEATURE_WLAN_AP_AP_ACS_OPTIMIZE in
  let skip := bool_decide (skip_scan_status x = eSAP_SKIP_ACS_SCAN) in
  let m := if optimize && negb skip && bool_decide (channels = [])
           then upd k (λ x, x <| skip_scan_status := eSAP_SKIP_ACS_SCAN |>) m else m in
  if optimize && (skip || bool_decide (channels = []))
  then
    '(_, m) ← wlansap_scan_callback a k true m;
    Some (QDF_STATUS_SUCCESS, m)
  else
    let m := emit_fsm (Ev_scan k) (upd k (λ x, x <| scan_list := channels |>) m) in
    if scan_ok a then Some (QDF_STATUS_SUCCESS, m)
    else
      let ch := match channels with c :: _ => c | [] => sap_select_default_oper_chan x end in
      let m := upd k (λ x, clear_scan_list (set_channel ch x)) m in
      '(_, m) ← rec a k eSAP_MAC_SCAN_COMPLETE m;
      Some (QDF_STATUS_SUCCESS, m).

Definition is_dfs_channel (x : sap_session) : bool := CDS_IS_DFS_CH (sap_channel (base x)).

(** Follow a concurrent network on an overlapping channel. *)
Definition follow_overlap a k (dfs_too : bool) m : machine :=
  match sessions m !! k with
  | None => m
  | Some x =>
      let con_ch := u8 (overlap_ch a (sap_channel (base x))) in
      if FEATURE_WLAN_MCC_TO_SCC_SWITCH && cc_switch_mode x && negb (sap_channel (base x) =? 0) && negb (con_ch =? 0) &&
         (dfs_too || negb (CDS_IS_DFS_CH con_ch))
      then upd k (λ x, set_params con_ch 0 (set_channel con_ch x)) m else m
  end.

Definition forbid_dfs (x : sap_session) : sap_session := x <| base := base x <| dfs_ch_disable := true |> |>.

Definition cds_concurrent_beaconing_sessions_running (s : cds_state) : bool :=
  1 <? u8 (zget (no_of_open_sessions s) 1 + zget (no_of_open_sessions s) 3 + zget (no_of_open_sessions s) 4).

(** The restrictions by concurrent networks: false is QDF_STATUS_E_ABORTED. *)
Definition beaconing_checks a k m : option (bool * machine) :=
  x ← sessions m !! k;
  if negb (cds_concurrent_beaconing_sessions_running (cds m)) then Some (true, m)
  else
    let con_ch := u8 (concurrent_ch a) in
    let auto := sap_channel (base x) =? AUTO_CHANNEL_SELECT in
    let restrict := FEATURE_WLAN_STA_AP_MODE_DFS_DISABLE && negb (con_ch =? 0) in
    if restrict && negb auto && negb (sap_channel (base x) =? con_ch) && is_dfs_channel x then Some (false, m)
    else Some (true, follow_overlap a k true (if restrict && auto then upd k forbid_dfs m else m)).

Definition sta_ap_checks a k m : option (bool * machine) :=
  x ← sessions m !! k;
  if negb (concurrency_mode (cds m) =? STA_AP_MASK) then Some (true, m)
  else
    let auto := sap_channel (base x) =? AUTO_CHANNEL_SELECT in
    if FEATURE_WLAN_STA_AP_MODE_DFS_DISABLE && negb auto && is_dfs_channel x then Some (false, m)
    else Some (true, follow_overlap a k false (if FEATURE_WLAN_STA_AP_MODE_DFS_DISABLE && auto then upd k forbid_dfs m else m)).

(** The status of the nested call of sap_fsm is not returned.  Selection before
    the start of the network (sap_do_acs_pre_start_bss) is not modelled: it ends
    in sap_config_acs_result. *)
Definition sap_goto_channel_sel a k (check_for_connection_update : bool) m : option (QDF_STATUS * machine) :=
  '(go_on, m) ← beaconing_checks a k m;
  if negb (go_on : bool) then Some (QDF_STATUS_E_ABORTED, m)
  else
    '(go_on, m) ← sta_ap_checks a k m;
    if negb (go_on : bool) then Some (QDF_STATUS_E_ABORTED, m)
    else
      x ← sessions m !! k;
      if sap_channel (base x) =? AUTO_CHANNEL_SELECT then goto_auto_channel a k m
      else if check_for_connection_update && negb (connection_ok a) then Some (QDF_STATUS_E_FAILURE, m)
      else
        '(_, m) ← rec a k eSAP_MAC_SCAN_COMPLETE m;
        Some (QDF_STATUS_SUCCESS, m).

Definition wait_for_cac a k m : QDF_STATUS * machine :=
  let m := if is_dfs_cac_timer_running m then m else sap_start_dfs_cac_timer a k m in
  sap_cac_start_notify a m.

Definition sap_fsm_state_disconnected a k (msg : sap_msg) m : option (QDF_STATUS * machine) :=
  x ← sessions m !! k;
  match msg with
  | eSAP_HDD_START_INFRA_BSS =>
      let opened :=
        if isSapSessionOpen x then Some m
        else if negb (vdev_ok a) then None
        else match open_ok a with
        | None => None
        | Some id => Some (upd k (λ x, x <| sessionId := id |> <| isSapSessionOpen := true |>) (emit_fsm (Ev_open_session k) m))
        end in
      match opened with
      | None => Some (QDF_STATUS_E_FAILURE, m)
      | Some m =>
          d ← sap_init_dfs_channel_nol_list (dfs m) (platform_list a x);
          sap_goto_channel_sel a k true (upd k (set_state eSAP_CH_SELECT) (m <| dfs := d |>))
      end
  | eSAP_DFS_CHANNEL_CAC_START => Some (wait_for_cac a k (upd k (set_state eSAP_DFS_CAC_WAIT) m))
  | eSAP_CHANNEL_SELECTION_RETRY => sap_goto_channel_sel a k false (upd k (set_state eSAP_CH_SELECT) m)
  | _ => Some (QDF_STATUS_E_FAILURE, m)
  end.

(** The channel found, or [None]: a new one must be chosen and there is none.
    The bonding state is passed to the leakage tables as a width. *)
Definition check_selected_channel a k m : option (bool * machine) :=
  x ← sessions m !! k;
  let channel := u8 (sap_channel (base x)) in
  b_leak_chan ← (if WLAN_ENABLE_CHNL_MATRIX_RESTRICTION then
      '(_, l) ← sap_mark_leaking_ch (dfs m) (width_of_num (cb_mode a)) (sapDfsChannelNolList (dfs m)) 1 [channel];
      t ← aget l 0;
      Some (negb (t =? sap_channel (base x)))
    else Some false);
  '(in_nol, d) ← sap_dfs_is_channel_in_nol_list (dfs m) channel (cb_mode a) (a_now a);
  let m := m <| dfs := d |> in
  if (in_nol : bool) || (b_leak_chan : bool) then
    '(ch, ctx, d, s) ← sap_random_channel_sel (sap_view x) (dfs m) (cds m) (stale_pcl a) (a_alloc a) (a_now a) (a_rnd a);
    let m := upd k (λ x, x <| base := ctx |>) (m <| dfs := d |> <| cds := s |>) in
    if ch =? 0 then Some (false, signal a k eSAP_DFS_NO_AVAILABLE_CHANNEL m)
    else Some (true, upd k (λ x, set_params ch (secondary_ch (base x)) (set_channel ch x)) m)
  else Some (true, m).

Definition to_11a x : sap_session :=
  if (14 <? sap_channel (base x)) &&
     (bool_decide (phyMode x = eCSR_DOT11_MODE_11g) || bool_decide (phyMode x = eCSR_DOT11_MODE_11g_ONLY))
  then x <| phyMode := eCSR_DOT11_MODE_11a |> else x.

(** con_ch has 16 bits here. *)
Definition follow_dfs_channel a k m : machine :=
  let con_ch := u16 (concurrent_ch a) in
  if cds_concurrent_beaconing_sessions_running (cds m) && negb (con_ch =? 0) && CDS_IS_DFS_CH con_ch
  then upd k (set_channel con_ch) m else m.

Definition sap_fsm_state_ch_select a k (msg : sap_msg) m : option (QDF_STATUS * machine) :=
  match msg with
  | eSAP_MAC_SCAN_COMPLETE =>
      '(found, m) ← check_selected_channel a k m;
      if negb found then Some (QDF_STATUS_E_FAULT, m)
      else
        let m := follow_dfs_channel a k (upd k to_11a m) in
        let m := upd k (λ x, set_state eSAP_STARTING (x <| channels_set := true |>)) m in
        let m := signal a k eSAP_CHANNEL_CHANGE_EVENT m in
        sap_goto_starting a k m
  | eSAP_CHANNEL_SELECTION_FAILED | eSAP_HDD_STOP_INFRA_BSS =>
      Some (QDF_STATUS_E_FAILURE, signal a k (eSAP_START_BSS_EVENT false) (upd k (set_state eSAP_DISCONNECTED) m))
  | _ => Some (QDF_STATUS_E_FAILURE, m)
  end.

(** The state of the context that handles the event is changed once per access
    point, theirs is not. *)
Definition radar_found_one a k m (t : nat) : machine :=
  if in_state m t eSAP_DISCONNECTED then m
  else
    let m := upd k (set_state eSAP_DISCONNECTING) m in
    let m := signal a t eSAP_DFS_RADAR_DETECT m in
    snd (wlansap_channel_change_request a t (target_channel m) m).

Definition sap_fsm_state_dfs_cac_wait a k (msg : sap_msg) m : option (QDF_STATUS * machine) :=
  match msg with
  | eSAP_DFS_CHANNEL_CAC_START => Some (wait_for_cac a k m)
  | eSAP_DFS_CHANNEL_CAC_RADAR_FOUND =>
      let m := if target_channel m =? 0 then m else upd k (set_params (target_channel m) 0) m in
      Some (QDF_STATUS_E_FAILURE, foldl (radar_found_one a k) m (ap_contexts m))
  | eSAP_DFS_CHANNEL_CAC_END => Some (sap_cac_end_notify a m)
  | eSAP_HDD_STOP_INFRA_BSS =>
      let m := match sap_find_valid_concurrent_session m with None => sap_stop_dfs_cac_timer m | Some _ => m end in
      Some (sap_goto_disconnecting a k (upd k (set_state eSAP_DISCONNECTING) m))
  | _ => Some (QDF_STATUS_E_FAILURE, m)
  end.

(** The channels of the network need an availability check. *)
Definition needs_cac x : bool :=
  match cp_width (ch_params x) with
  | CH_WIDTH_160MHZ => true
  | CH_WIDTH_80P80MHZ =>
      is_dfs_channel x || CDS_IS_DFS_CH (u32 (center_freq_seg1 (ch_params x) - SIR_80MHZ_START_CENTER_CH_DIFF))
  | _ => is_dfs_channel x
  end.

Definition sap_fsm_state_starting a k (msg : sap_msg) m : option (QDF_STATUS * machine) :=
  x ← sessions m !! k;
  match msg with
  | eSAP_MAC_START_BSS_SUCCESS =>
      let '(ok, m) := sap_signal_hdd_event a k (eSAP_START_BSS_EVENT true) (upd k (set_state eSAP_STARTED) m) in
      if needs_cac x then
        if negb (ignore_cac m) && negb (cac_skip m) && negb (pre_cac_complete x)
        then Some (wait_for_cac a k (upd k (set_state eSAP_DFS_CAC_WAIT) m))
        else Some (status_of ok QDF_STATUS_E_FAILURE, snd (wlansap_start_beacon_req a k m))
      else Some (status_of ok QDF_STATUS_E_FAILURE, m)
  | eSAP_MAC_START_FAILS | eSAP_HDD_STOP_INFRA_BSS =>
      let m := signal a k (eSAP_START_BSS_EVENT false) (upd k (set_state eSAP_DISCONNECTED) m) in
      '(st, m) ← rec a k eSAP_MAC_READY_FOR_CONNECTIONS m;
      if isSapSessionOpen x then
        '(_, m) ← sap_close_session a k m;
        Some (st, m)
      else Some (st, m)
  | eSAP_OPERATING_CHANNEL_CHANGED =>
      let m := upd k (λ x, set_state eSAP_STARTED (set_channel (target_channel m) x)) m in
      let '(ok, m) := sap_signal_hdd_event a k (eSAP_START_BSS_EVENT true) m in
      Some (status_of ok QDF_STATUS_E_FAILURE, m)
  | _ => Some (QDF_STATUS_E_FAILURE, m)
  end.

Definition sap_fsm_state_started a k (msg : sap_msg) m : option (QDF_STATUS * machine) :=
  match msg with
  | eSAP_HDD_STOP_INFRA_BSS => Some (sap_goto_disconnecting a k (upd k (set_state eSAP_DISCONNECTING) m))
  | eSAP_DFS_CHNL_SWITCH_ANNOUNCEMENT_START =>
      Some (foldl (λ (r : QDF_STATUS * machine) t, wlansap_dfs_send_csa_ie_request a t (snd r)) (QDF_STATUS_E_FAILURE, m) (ap_contexts m))
  | eSAP_CHANNEL_SWITCH_ANNOUNCEMENT_START =>
      x ← sessions m !! k;
      s ← aget (sapCtxList m) (sessionId x);
      Some (if is_ap (fst s) then wlansap_dfs_send_csa_ie_request a k m else (QDF_STATUS_E_FAILURE, m))
  | _ => Some (QDF_STATUS_E_FAILURE, m)
  end.

Definition sap_fsm_state_disconnecting a k (msg : sap_msg) m : option (QDF_STATUS * machine) :=
  x ← sessions m !! k;
  match msg with
  | eSAP_MAC_READY_FOR_CONNECTIONS =>
      let m := upd k (set_state eSAP_DISCONNECTED) m in
      if isSapSessionOpen x then
        '(closed, m) ← sap_close_session a k m;
        if (closed : bool) then Some (QDF_STATUS_SUCCESS, m)
        else let '(ok, m) := sap_signal_hdd_event a k eSAP_STOP_BSS_EVENT m in Some (status_of ok QDF_STATUS_E_FAILURE, m)
      else Some (QDF_STATUS_E_FAILURE, m)
  | eWNI_SME_CHANNEL_CHANGE_REQ => Some (wlansap_channel_change_request a k (target_channel m) m)
  | eWNI_SME_CHANNEL_CHANGE_RSP failure =>
      Some (if failure then sap_goto_disconnecting a k m else (QDF_STATUS_E_FAILURE, m))
  | _ => Some (QDF_STATUS_E_FAILURE, m)
  end.
End states.

(** The machine calls itself from the selection of a channel and from a failed
    start. *)
Fixpoint sap_fsm_n (fuel : nat) a k (msg : sap_msg) m : option (QDF_STATUS * machine) :=
  match fuel with
  | O => None
  | S f =>
      x ← sessions m !! k;
      match sapsMachine x with
      | eSAP_DISCONNECTED => sap_fsm_state_disconnected (sap_fsm_n f) a k msg m
      | eSAP_CH_SELECT => sap_fsm_state_ch_select a k msg m
      | eSAP_DFS_CAC_WAIT => sap_fsm_state_dfs_cac_wait a k msg m
      | eSAP_STARTING => sap_fsm_state_starting (sap_fsm_n f) a k msg m
      | eSAP_STARTED => sap_fsm_state_started a k msg m
      | eSAP_DISCONNECTING => sap_fsm_state_disconnecting a k msg m
      end
  end.

Definition sap_fsm := sap_fsm_n 2.
End machine.
