(* ===== verification/SapLink.v ===== *)
(** The interface of the soft AP: core/sap/src/sap_module.c (requests of the HDD
    layer) and sap_api_link_cntl.c (wlansap_roam_callback and the functions it
    calls), and the operations as one machine.  The indications of the roaming
    module are cut at the two switch statements of the callback.  wlansap_context_get
    is taken to succeed: the contexts are those in use. *)
From S2P Require Import Prelude Arrays CdsTables CdsConn CdsPcl SapNol SapLeak SapDfs SapFsm.

(** The part of tsap_Config_t that wlansap_start_bss copies. *)
Record bss_config := mk_config {
  cf_channel : Z;
  cf_dfs_mode_disable : bool;
  cf_ch_params : ch_params_s;
  cf_ch_width_orig : phy_ch_width;
  cf_cc_switch_mode : bool;
  cf_enOverLapCh : bool;
  cf_acs_cfg : sap_acs_cfg;
  cf_skip_scan : tSap_skip_acs_scan;
  cf_hw_mode_a : bool;
  cf_persona : tQDF_ADAPTER_MODE;
  cf_disableDFSChSwitch : bool;
  cf_phyMode : eCsrPhyMode;
}.

Section link.
Context {E : CdsEnv} {SE : SapEnv} {CS : ChannelSelection}.
Implicit Types (m : machine) (k : nat) (x : sap_session) (a : answers).

Definition configure (c : bss_config) x : sap_session :=
  x <| sapsMachine := eSAP_DISCONNECTED |>
    <| base := base x <| sap_channel := cf_channel c |> <| acs_dfs_mode_disable := cf_dfs_mode_disable c |>
                      <| ch_width_orig := cf_ch_width_orig c |> <| enableOverLapCh := cf_enOverLapCh c |>
                      <| acs_cfg := cf_acs_cfg c |> <| disableDFSChSwitch := cf_disableDFSChSwitch c |> |>
    <| ch_params := cf_ch_params c |> <| cc_switch_mode := cf_cc_switch_mode c |> <| skip_scan_status := cf_skip_scan c |>
    <| acs_hw_mode_a := cf_hw_mode_a c |> <| csrPersona := cf_persona c |> <| phyMode := cf_phyMode c |>
    <| pfnSapEventCallback := true |>.

Definition wlansap_start_bss a k (c : bss_config) m : option (QDF_STATUS * machine) :=
  sap_fsm a k eSAP_HDD_START_INFRA_BSS (upd k (configure c) m).

Definition wlansap_stop_bss a k m : option (QDF_STATUS * machine) := sap_fsm a k eSAP_HDD_STOP_INFRA_BSS m.

Definition wlansap_start a k (mode : tQDF_ADAPTER_MODE) m : option (QDF_STATUS * machine) :=
  sap_open_session a k (upd k (λ x, x <| csrPersona := mode |> <| pfnSapEventCallback := true |>) m).

(** A context of zeroes. *)
Definition no_acs : sap_acs_cfg := mk_acs false 0 0 None 0 CH_WIDTH_20MHZ [] 0 0 0.
Definition zero_ctx : tSapContext :=
  mk_sap 0 0 CH_WIDTH_20MHZ [] no_acs false [] false 0 false false false false false 0 0.
Definition zero_session : sap_session :=
  mk_session zero_ctx eSAP_DISCONNECTED 0 false false QDF_STA_MODE eCSR_DOT11_MODE_other false (mk_params CH_WIDTH_20MHZ 0)
    false eSAP_DO_NEW_ACS_SCAN false [] false false false false false.

(** wlansap_close; the context itself is not freed here. *)
Definition wlansap_clean_cb a k m : option machine :=
  x ← sessions m !! k;
  m ← (if isSapSessionOpen x then '(_, m) ← sap_close_session a k m; Some m else Some m);
  Some (upd k (λ _, zero_session) m).

Definition wlansap_set_invalid_session k m : machine :=
  upd k (λ x, x <| sessionId := 255 |> <| isSapSessionOpen := false |>) m.

(** *** Changing the channel on request *)

(** for (; bw >= BW20; bw--) with an unsigned bw: the first bandwidth that has
    an operating class. *)
Fixpoint csa_width_loop (fuel : nat) (opclass : Z → Z) (bw : Z) : option phy_ch_width :=
  match fuel with
  | O => None
  | S f =>
      if opclass bw =? 0 then csa_width_loop f opclass (u8 (bw - 1))
      else Some (if bw =? BW80 then CH_WIDTH_80MHZ
                 else if (bw =? BW40_HIGH_PRIMARY) || (bw =? BW40_LOW_PRIMARY) then CH_WIDTH_40MHZ
                 else CH_WIDTH_20MHZ)
  end.

(** The channel is compared with the index CHAN_ENUM_13. *)
Definition wlansap_update_csa_channel_params a k (channel : Z) m : option machine :=
  x ← sessions m !! k;
  w ← (if channel <=? CHAN_ENUM_13 then Some CH_WIDTH_20MHZ
       else
         let orig := ch_width_orig (base x) in
         csa_width_loop 256 (opclass a)
           (if width_num CH_WIDTH_80MHZ <=? width_num orig then BW80
            else if width_num orig =? width_num CH_WIDTH_40MHZ then BW40_HIGH_PRIMARY else BW20));
  Some (m <| dfs := dfs m <| new_chanWidth := w |> |>).

(** QDF_MIN of two widths. *)
Definition width_min (v w : phy_ch_width) : phy_ch_width := if width_num v <? width_num w then v else w.

Definition wlansap_set_channel_change_with_csa a k (targetChannel : Z) (target_bw : phy_ch_width) m
    : option (QDF_STATUS * machine) :=
  x ← sessions m !! k;
  if negb (sap_channel (base x) =? targetChannel) &&
     (bool_decide (cds_get_channel_state targetChannel = CHANNEL_STATE_ENABLE) ||
      (CDS_IS_DFS_CH targetChannel &&
       negb (cds_is_any_mode_active_on_band_along_with_session (cds m) (sessionId x) true)))
  then
    if FEATURE_WLAN_MCC_TO_SCC_SWITCH && negb (switch_ok a) then Some (QDF_STATUS_E_FAULT, m)
    else if bool_decide (sapsMachine x = eSAP_STARTED) then
      m ← wlansap_update_csa_channel_params a k targetChannel m;
      let d := dfs m <| new_ch_width := new_chanWidth (dfs m) |> in
      let d := match target_bw with
        | CH_WIDTH_MAX => d
        | _ => let w := width_min (new_ch_width d) target_bw in d <| new_chanWidth := w |> <| new_ch_width := w |>
        end in
      let d := set_new_params targetChannel d <| csaIERequired := true |> <| sap_radar_found_status := true |> in
      let m := m <| target_channel := u8 targetChannel |> <| dfs := d |> <| cac_skip := false |> in
      '(_, m) ← sap_fsm a k eSAP_CHANNEL_SWITCH_ANNOUNCEMENT_START (sap_cac_reset_notify m);
      Some (QDF_STATUS_SUCCESS, m)
    else Some (QDF_STATUS_E_FAULT, m)
  else Some (QDF_STATUS_E_FAULT, m).

(** *** Indications of the roaming module *)

(** wlansap_roam_process_ch_change_success *)
Definition channel_change_success a k m : option machine :=
  x ← sessions m !! k;
  let m := upd k (set_channel (target_channel m)) m in
  if negb (bool_decide (sapsMachine x = eSAP_DISCONNECTING)) then Some m
  else
    let started m := upd k (set_state eSAP_STARTING) (m <| dfs := dfs m <| sap_radar_found_status := false |> |>) in
    let is_ch_dfs := needs_cac (set_channel (target_channel m) x) in
    let '(msg, m) :=
      if is_ch_dfs && pre_cac_complete x then (eSAP_MAC_START_BSS_SUCCESS, started (snd (wlansap_start_beacon_req a k m)))
      else if is_ch_dfs then
        if negb (ignore_cac m) && negb (cac_skip m)
        then (eSAP_DFS_CHANNEL_CAC_START, upd k (set_state eSAP_DISCONNECTED) m)
        else (eSAP_MAC_START_BSS_SUCCESS, started (snd (wlansap_start_beacon_req a k m)))
      else (eSAP_MAC_START_BSS_SUCCESS, started m) in
    '(_, m) ← sap_fsm a k msg m;
    Some m.

(** Issue the channel change for every access point (not for group owners). *)
Fixpoint issue_changes a (ks : list nat) m : option machine :=
  match ks with
  | [] => Some m
  | t :: ks' =>
      '(st, m) ← sap_fsm a t eWNI_SME_CHANNEL_CHANGE_REQ m;
      issue_changes a ks' (if QDF_IS_STATUS_SUCCESS st then upd t (λ x, x <| is_sap_ready_for_chnl_chng := false |>) m else m)
  end.

Definition sap_mode_contexts m : list nat :=
  omap (λ s : tQDF_ADAPTER_MODE * option nat, if bool_decide (fst s = QDF_SAP_MODE) then snd s else None) (sapCtxList m).

(** wlansap_roam_process_dfs_chansw_update *)
Definition chansw_update a k m : option machine :=
  x ← sessions m !! k;
  if disableDFSChSwitch (base x)
  then Some (emit_fsm (Ev_start_beacon k) (upd k (λ x, x <| pre_cac_complete := false |>) m))
  else if negb (bool_decide (sapsMachine x = eSAP_STARTED)) then Some m
  else
    let m := upd k (set_state eSAP_DISCONNECTING) m in
    let m := if target_channel m =? 0 then m else upd k (set_params (target_channel m) 0) m in
    if sap_get_total_number_sap_intf m <=? 1 then
      '(_, m) ← sap_fsm a k eWNI_SME_CHANNEL_CHANGE_REQ m;
      Some m
    else
      let m := upd k (λ x, x <| is_sap_ready_for_chnl_chng := true |>) m in
      if negb (is_concurrent_sap_ready_for_channel_change m k) then Some m
      else issue_changes a (sap_mode_contexts m) m.

(** wlansap_roam_process_dfs_radar_found *)
Definition radar_found a k m : option machine :=
  x ← sessions m !! k;
  if bool_decide (sapsMachine x = eSAP_DFS_CAC_WAIT) then
    if disableDFSChSwitch (base x) || negb (sap_radar_found_status (dfs m)) then Some m
    else
      let m := signal a k eSAP_DFS_CAC_INTERRUPTED (stop_cac_timer m) in
      '(_, m) ← sap_fsm a k eSAP_DFS_CHANNEL_CAC_RADAR_FOUND m;
      Some m
  else if bool_decide (sapsMachine x = eSAP_STARTED) then
    '(_, m) ← sap_fsm a k eSAP_DFS_CHNL_SWITCH_ANNOUNCEMENT_START m;
    Some m
  else Some m.

Fixpoint stop_all a (ks : list nat) m : option machine :=
  match ks with
  | [] => Some m
  | t :: ks' => '(_, m) ← wlansap_stop_bss a t m; stop_all a ks' m
  end.

(** eCSR_ROAM_DFS_RADAR_IND *)
Definition radar_ind a k (ev : tSirSmeDfsEventInd) m : option machine :=
  x ← sessions m !! k;
  if is_pre_cac_on x then Some (signal a k eSAP_DFS_RADAR_DETECT_DURING_PRE_CAC (stop_cac_timer m))
  else
    let m := signal a k eSAP_DFS_NOL_GET (signal a k eSAP_DFS_RADAR_DETECT m) in
    let m := m <| dfs ::= nol_get (platform_list a x) |> in
    '(t, ctx, d, s) ← sap_indicate_radar (sap_view x) (dfs m) (cds m) ev (stale_pcl a) (a_alloc a) (a_now a) (a_rnd a);
    let m := upd k (λ x, x <| base := ctx |>) (m <| target_channel := t |> <| dfs := d |> <| cds := s |>) in
    let m := if 0 <? user_provided_target_channel m
             then m <| target_channel := user_provided_target_channel m |> <| user_provided_target_channel := 0 |> else m in
    if negb (target_channel m =? 0)
    then Some (signal a k eSAP_DFS_NOL_SET (sap_cac_reset_notify (m <| cac_skip := false |>)))
    else stop_all a (ap_contexts m) m.

(** The expiry of the timer. *)
Definition sap_dfs_cac_timer_callback a m : option machine :=
  match sap_find_cac_wait_session m with
  | None => Some m
  | Some k =>
      let m := if is_dfs_cac_timer_running m then m <| is_dfs_cac_timer_running := false |> else m in
      '(_, m) ← sap_fsm a k eSAP_DFS_CHANNEL_CAC_END m;
      Some m
  end.

(** ** The operations *)
Inductive sap_op :=
  | Sap_start (k : nat) (mode : tQDF_ADAPTER_MODE)
  | Sap_start_bss (k : nat) (c : bss_config)
  | Sap_stop_bss (k : nat)
  | Sap_close (k : nat)
  | Sap_invalidate (k : nat)
  | Sap_csa (k : nat) (channel : Z) (bw : phy_ch_width)
  | Sap_scan_done (k : nat) (success : bool)
  | Sap_radar_ind (k : nat) (ev : tSirSmeDfsEventInd)
  | Sap_radar_found (k : nat)
  | Sap_chansw_update (k : nat)
  | Sap_channel_changed (k : nat) (success : bool)
  | Sap_infra_started (k : nat)
  | Sap_infra_start_failed (k : nat)
  | Sap_infra_stopped (k : nat)
  | Sap_session_opened (k : nat)
  | Sap_session_closed (k : nat)                 (* sap_roam_session_close_callback *)
  | Sap_retry (k : nat)
  | Sap_pre_cac (k : nat) (on complete : bool) (channel : Z)
  | Sap_ignore_cac (b : bool)
  | Sap_set_target (channel : Z)
  | Sap_timer_expired.

Definition fsm_op a k (msg : sap_msg) m : option machine := '(_, m) ← sap_fsm a k msg m; Some m.

Definition sap_step (o : sap_op) a m : option machine :=
  match o with
  | Sap_start k mode => '(_, m) ← wlansap_start a k mode m; Some m
  | Sap_start_bss k c => '(_, m) ← wlansap_start_bss a k c m; Some m
  | Sap_stop_bss k => '(_, m) ← wlansap_stop_bss a k m; Some m
  | Sap_close k => wlansap_clean_cb a k m
  | Sap_invalidate k => Some (wlansap_set_invalid_session k m)
  | Sap_csa k ch bw => '(_, m) ← wlansap_set_channel_change_with_csa a k ch bw m; Some m
  | Sap_scan_done k ok => '(_, m) ← wlansap_scan_callback sap_fsm a k ok m; Some m
  | Sap_radar_ind k ev => radar_ind a k ev m
  | Sap_radar_found k => radar_found a k m
  | Sap_chansw_update k => chansw_update a k m
  | Sap_channel_changed k true => channel_change_success a k m
  | Sap_channel_changed k false => fsm_op a k (eWNI_SME_CHANNEL_CHANGE_RSP true) m
  | Sap_infra_started k => fsm_op a k eSAP_MAC_START_BSS_SUCCESS m
  | Sap_infra_start_failed k => fsm_op a k eSAP_MAC_START_FAILS m
  | Sap_infra_stopped k => fsm_op a k eSAP_MAC_READY_FOR_CONNECTIONS m
  | Sap_session_opened k => Some (upd k (λ x, x <| isSapSessionOpen := true |>) m)
  | Sap_session_closed k => Some (signal a k eSAP_STOP_BSS_EVENT m)
  | Sap_retry k => fsm_op a k eSAP_CHANNEL_SELECTION_RETRY m
  | Sap_pre_cac k on complete ch =>
      Some (upd k (λ x, x <| is_pre_cac_on := on |> <| pre_cac_complete := complete |>
                          <| base := base x <| chan_before_pre_cac := ch |> |>) m)
  | Sap_ignore_cac b => Some (m <| ignore_cac := b |>)
  | Sap_set_target ch => Some (m <| user_provided_target_channel := (if 0 <? ch then u8 ch else 0) |>)
  | Sap_timer_expired => sap_dfs_cac_timer_callback a (m <| sap_dfs_cac_timer := None |>)
  end.

Fixpoint sap_run (ops : list (sap_op * answers)) m : option machine :=
  match ops with
  | [] => Some m
  | (o, a) :: ops' => m ← sap_step o a m; sap_run ops' m
  end.
End link.
