(* ===== verification/SapSafe.v ===== *)
(** Availability checks of the soft AP: what the state machine of [SapFsm] and
    [SapLink] guarantees.  No access point beacons on a channel that needs an
    availability check before a check is over; the states change along a table;
    a radar moves the network away. *)
From S2P Require Import Prelude Arrays CdsTables CdsConn CdsPcl SapNol SapLeak SapDfs SapFsm SapLink.

Section safe.
Context {E : CdsEnv} {SE : SapEnv} {CS : ChannelSelection}.
Implicit Types (m : machine) (k j : nat) (x y : sap_session) (a : answers).

(** *** Steps that keep the states *)
Definition same_session x y : Prop :=
  sapsMachine y = sapsMachine x ∧ (pre_cac_complete y = true → pre_cac_complete x = true) ∧
  disableDFSChSwitch (base y) = disableDFSChSwitch (base x).

Definition beacons m : list nat := omap (λ e, match e with Ev_start_beacon k => Some k | _ => None end) (trace m).

(** The flags that let an access point beacon without a check are not raised. *)
Definition flags_le m m' : Prop :=
  (cac_skip m' = true → cac_skip m = true) ∧ (ignore_cac m' = true → ignore_cac m = true).

Definition quiet m m' : Prop :=
  Forall2 same_session (sessions m) (sessions m') ∧ flags_le m m' ∧ beacons m' = beacons m.

#[export] Instance same_session_preorder : PreOrder same_session.
Proof. split; [by intros x|]. intros x y z (?&?&?) (?&?&?). split_and!; [congruence|auto|congruence]. Qed.

#[export] Instance flags_le_preorder : PreOrder flags_le.
Proof. split; [by intros m|]. intros m m1 m2 (?&?) (?&?). split; auto. Qed.

#[export] Instance quiet_preorder : PreOrder quiet.
Proof.
  split.
  - intros m. split_and!; [|by split|done]. reflexivity.
  - intros m m1 m2 (H1 & F1 & B1) (H2 & F2 & B2). split_and!; [by etransitivity..|congruence].
Qed.

Lemma quiet_same m m' :
  sessions m' = sessions m → flags_le m m' → beacons m' = beacons m → quiet m m'.
Proof. intros Hs Hf Hb. split_and!; [|done|done]. rewrite Hs. reflexivity. Qed.

Lemma quiet_upd k f m : (∀ x, same_session x (f x)) → quiet m (upd k f m).
Proof.
  intros Hf. split_and!; [|done|done]. cbn. apply Forall2_same_length_lookup. rewrite length_alter. split; [done|].
  intros i x y Hx Hy. rewrite list_lookup_alter in Hy. destruct (decide (k = i)); simplify_eq/=; [|reflexivity].
  rewrite Hx in Hy. injection Hy as <-. apply Hf.
Qed.

Lemma emit_quiet e m : (∀ k, e ≠ Ev_start_beacon k) → quiet m (emit_fsm e m).
Proof. intros He. apply quiet_same; [done|done|]. unfold beacons. cbn. destruct e; try done. by destruct (He k). Qed.

Lemma quiet_signal a k e m : quiet m (snd (sap_signal_hdd_event a k e m)).
Proof.
  unfold sap_signal_hdd_event. destruct (sessions m !! k) as [x|]; [|done].
  destruct (pfnSapEventCallback x); [|done]. by apply emit_quiet.
Qed.

Lemma quiet_signal' a k e m ok m' : sap_signal_hdd_event a k e m = (ok, m') → quiet m m'.
Proof. intros Eq. pose proof (quiet_signal a k e m) as Hq. by rewrite Eq in Hq. Qed.

Lemma quiet_foldl {A} (f : machine → A → machine) (l : list A) m : (∀ m z, quiet m (f m z)) → quiet m (foldl f m l).
Proof. intros Hf. revert m. induction l as [|z l IH]; intros m; [reflexivity|]. cbn. etransitivity; [apply Hf|apply IH]. Qed.

Ltac quiet_flags := apply quiet_same; [done|split; cbn; intros; first [done|congruence]|done].

Lemma quiet_reset m : quiet m (sap_cac_reset_notify m).
Proof. apply quiet_foldl. intros m' k. by apply quiet_upd. Qed.

Lemma quiet_stop_cac_timer m : quiet m (stop_cac_timer m).
Proof. quiet_flags. Qed.

Lemma quiet_start_timer a k m : quiet m (sap_start_dfs_cac_timer a k m).
Proof.
  unfold sap_start_dfs_cac_timer. destruct (sessions m !! k); [|done]. destruct (ignore_cac m) eqn:Ei; [done|].
  destruct (timer_ok a); (apply quiet_same; [done|split; cbn; congruence|done]).
Qed.

Lemma quiet_zero m : quiet m (zero_sap m).
Proof. quiet_flags. Qed.

Lemma quiet_close a k m ok m' : sap_close_session a k m = Some (ok, m') → quiet m m'.
Proof.
  unfold sap_close_session. destruct (sessions m !! k) as [x|]; [|done]. cbn [mbind option_bind].
  destruct (aget _ _) as [s|]; [|done]. cbn [mbind option_bind].
  destruct (aset _ _ _) as [l|]; [|done]. cbn [mbind option_bind]. intros [= <- <-].
  set (m1 := upd k clear_cac_notified _). set (m2 := upd k _ (m1 <| sapCtxList := l |>)).
  assert (H1 : quiet m m1) by (unfold m1; etransitivity; [by apply (emit_quiet (Ev_close_session k))|by apply quiet_upd]).
  assert (H2 : quiet m m2).
  { etransitivity; [exact H1|]. etransitivity; [|by apply quiet_upd]. quiet_flags. }
  destruct (sap_find_valid_concurrent_session m2); [exact H2|]. etransitivity; [exact H2|].
  etransitivity; [|apply quiet_zero]. etransitivity; [|apply quiet_reset].
  split_if; quiet_flags.
Qed.

Lemma quiet_open a k m st m' : sap_open_session a k m = Some (st, m') → quiet m m'.
Proof.
  unfold sap_open_session. destruct (vdev_ok a); cbn [negb]; [|by intros [= _ <-]].
  assert (H1 : quiet m (emit_fsm (Ev_open_session k) m)) by by apply emit_quiet.
  destruct (open_ok a) as [id|]; [|by intros [= _ <-]].
  set (m1 := upd k _ _). assert (H2 : quiet m m1) by (etransitivity; [exact H1|by apply quiet_upd]).
  destruct (opened_ok a); cbn [negb]; [|by intros [= _ <-]].
  destruct (sessions m1 !! k) as [x|]; [|done]. cbn [mbind option_bind].
  destruct (aset _ _ _) as [l|]; [|done]. cbn [mbind option_bind]. intros [= _ <-].
  etransitivity; [exact H2|]. etransitivity; [|by apply quiet_upd]. quiet_flags.
Qed.

Lemma quiet_csa a k m : quiet m (snd (wlansap_dfs_send_csa_ie_request a k m)).
Proof. unfold wlansap_dfs_send_csa_ie_request. cbn [snd]. etransitivity; [|by apply emit_quiet]. quiet_flags. Qed.

Lemma quiet_change_request a k t m : quiet m (snd (wlansap_channel_change_request a k t m)).
Proof.
  unfold wlansap_channel_change_request. destruct (sessions m !! k) as [x|]; [|done].
  destruct (channels_set x); cbn [negb]; [|done]. set (m1 := emit_fsm _ _).
  assert (H1 : quiet m m1).
  { unfold m1. etransitivity; [|by apply emit_quiet]. etransitivity; [|by apply quiet_upd]. quiet_flags. }
  destruct (change_ok a); [|exact H1]. etransitivity; [exact H1|apply quiet_signal].
Qed.

Lemma quiet_starting a k m st m' : sap_goto_starting a k m = Some (st, m') → quiet m m'.
Proof.
  unfold sap_goto_starting. destruct (sessions m !! k); [|done]. cbn [mbind option_bind]. intros [= _ <-]. by apply emit_quiet.
Qed.

Lemma quiet_disconnecting a k m : quiet m (snd (sap_goto_disconnecting a k m)).
Proof. by apply emit_quiet. Qed.

Lemma quiet_cac_start a m : quiet m (snd (sap_cac_start_notify a m)).
Proof.
  unfold sap_cac_start_notify. generalize QDF_STATUS_E_FAILURE. generalize (ap_contexts m). intros ks. revert m.
  induction ks as [|k ks IH]; intros m st; [done|]. cbn [cac_start_loop].
  destruct (from_option _ _ _); [apply IH|]. destruct (sap_signal_hdd_event a k eSAP_DFS_CAC_START m) as [ok m1] eqn:Es.
  apply quiet_signal' in Es. destruct ok; [|exact Es]. etransitivity; [exact Es|]. etransitivity; [|apply IH]. by apply quiet_upd.
Qed.

Lemma quiet_wait a k m : quiet m (snd (wait_for_cac a k m)).
Proof.
  unfold wait_for_cac. etransitivity; [|apply quiet_cac_start]. destruct (is_dfs_cac_timer_running m); [done|apply quiet_start_timer].
Qed.

(** *** Steps that change states but justify every beacon *)
Definition free_session x y : Prop :=
  (pre_cac_complete y = true → pre_cac_complete x = true) ∧ disableDFSChSwitch (base y) = disableDFSChSwitch (base x).

(** An access point may beacon without a check of its own. *)
Definition exempt m k : Prop :=
  ignore_cac m = true ∨ cac_skip m = true ∨ ∃ x, sessions m !! k = Some x ∧ pre_cac_complete x = true.

Definition calm m m' : Prop :=
  Forall2 free_session (sessions m) (sessions m') ∧ flags_le m m' ∧
  ∃ new, beacons m' = new ++ beacons m ∧ Forall (exempt m) new.

#[export] Instance free_session_preorder : PreOrder free_session.
Proof. split; [by intros x|]. intros x y z (?&?) (?&?). split; [auto|congruence]. Qed.

Lemma exempt_back m m1 k :
  Forall2 free_session (sessions m) (sessions m1) → flags_le m m1 → exempt m1 k → exempt m k.
Proof.
  intros Hs [Hk Hi] [?|[?|(y & Hy & Hp)]]; [left; auto|right; left; auto|right; right].
  destruct (Forall2_lookup_r _ _ _ _ _ Hs Hy) as (x & Hx & Hxy & _). exists x. auto.
Qed.

#[export] Instance calm_preorder : PreOrder calm.
Proof.
  split.
  - intros m. split_and!; [reflexivity|reflexivity|]. exists []. split; [done|constructor].
  - intros m m1 m2 (H1 & F1 & n1 & B1 & J1) (H2 & F2 & n2 & B2 & J2). split_and!; [by etransitivity..|].
    exists (n2 ++ n1). rewrite B2, B1, <- app_assoc. split; [done|]. apply Forall_app. split; [|done].
    eapply Forall_impl; [exact J2|]. intros k. by apply exempt_back.
Qed.

Lemma quiet_calm m m' : quiet m m' → calm m m'.
Proof.
  intros (Hs & Hf & Hb). split_and!; [|done|by exists []].
  eapply Forall2_impl; [exact Hs|]. by intros x y (_ & H).
Qed.

Lemma calm_upd k f m : (∀ x, free_session x (f x)) → calm m (upd k f m).
Proof.
  intros Hf. split_and!; [|by split|by exists []]. cbn. apply Forall2_same_length_lookup. rewrite length_alter. split; [done|].
  intros i x y Hx Hy. rewrite list_lookup_alter in Hy. destruct (decide (k = i)); simplify_eq/=; [|reflexivity].
  rewrite Hx in Hy. injection Hy as <-. apply Hf.
Qed.

Lemma calm_set_state k s m : calm m (upd k (set_state s) m).
Proof. by apply calm_upd. Qed.

Lemma calm_beacon a k m : exempt m k → calm m (snd (wlansap_start_beacon_req a k m)).
Proof.
  intros Hk. unfold wlansap_start_beacon_req. destruct (sap_radar_found_status (dfs m)); [done|].
  destruct (calm_upd k (λ x, x <| pre_cac_complete := false |>) m) as (Hs & Hf & _); [done|].
  split_and!; [exact Hs|exact Hf|]. exists [k]. split; [done|]. constructor; [exact Hk|constructor].
Qed.

(** *** Changes of the state of one context *)
Definition state_of m k : option eSapFsmStates := sapsMachine <$> sessions m !! k.

Definition moves k (s s' : eSapFsmStates) m m' : Prop :=
  state_of m k = Some s ∧ state_of m' k = Some s' ∧ ∀ j, j ≠ k → state_of m' j = state_of m j.

Lemma quiet_state m m' k : quiet m m' → state_of m' k = state_of m k.
Proof.
  intros (Hs & _). unfold state_of. destruct (sessions m !! k) as [x|] eqn:Ex; cbn.
  - destruct (Forall2_lookup_l _ _ _ _ _ Hs Ex) as (y & -> & Hy & _). cbn. by rewrite Hy.
  - apply lookup_ge_None in Ex. rewrite (Forall2_length _ _ _ Hs) in Ex. by apply lookup_ge_None in Ex as ->.
Qed.

Lemma moves_quiet k s m m' : state_of m k = Some s → quiet m m' → moves k s s m m'.
Proof. intros Hs Hq. split_and!; [done|by rewrite (quiet_state _ _ _ Hq)|]. intros j _. by apply quiet_state. Qed.

Lemma moves_trans k s1 s2 s3 m1 m2 m3 : moves k s1 s2 m1 m2 → moves k s2 s3 m2 m3 → moves k s1 s3 m1 m3.
Proof. intros (?&?&H1) (?&?&H2). split_and!; [done..|]. intros j Hj. by rewrite H2, H1. Qed.

Lemma moves_then_quiet k s1 s2 m1 m2 m3 : moves k s1 s2 m1 m2 → quiet m2 m3 → moves k s1 s2 m1 m3.
Proof. intros H1 H2. eapply moves_trans; [exact H1|]. apply moves_quiet; [apply H1|done]. Qed.

Lemma quiet_then_moves k s1 s2 m1 m2 m3 : quiet m1 m2 → moves k s1 s2 m2 m3 → moves k s1 s2 m1 m3.
Proof.
  intros H1 H2. eapply moves_trans; [|exact H2]. apply moves_quiet; [|done]. rewrite <- (quiet_state _ _ k H1). apply H2.
Qed.

Lemma moves_upd k f s s' m :
  state_of m k = Some s → (∀ x, sapsMachine x = s → sapsMachine (f x) = s') → moves k s s' m (upd k f m).
Proof.
  intros Hs Hf. unfold moves, state_of in *. cbn. split_and!; [done| |].
  - rewrite list_lookup_alter. destruct (decide (k = k)); [|done]. destruct (sessions m !! k) as [x|]; [|done].
    cbn in *. injection Hs as Hs. by rewrite (Hf x).
  - intros j Hj. rewrite list_lookup_alter. destruct (decide (k = j)); [congruence|done].
Qed.

Lemma moves_set_state k s s' m : state_of m k = Some s → moves k s s' m (upd k (set_state s') m).
Proof. intros Hs. by apply (moves_upd k _ s). Qed.

Lemma upd_at {R : sap_session → sap_session → Prop} `{!Reflexive R} k f m x :
  sessions m !! k = Some x → R x (f x) → Forall2 R (sessions m) (sessions (upd k f m)).
Proof.
  intros Hk Hf. cbn. apply Forall2_same_length_lookup. rewrite length_alter. split; [done|].
  intros i y z Hy Hz. rewrite list_lookup_alter in Hz. destruct (decide (k = i)) as [<-|]; simplify_eq/=; [|reflexivity].
  rewrite Hk in Hz. cbn in Hz. by injection Hz as <-.
Qed.

Lemma quiet_upd_at k f m x : sessions m !! k = Some x → same_session x (f x) → quiet m (upd k f m).
Proof. intros Hk Hf. split_and!; [by eapply upd_at|by split|done]. Qed.

(** *** Acting on one context *)
Definition act k (s s' : eSapFsmStates) m m' : Prop := calm m m' ∧ moves k s s' m m'.

Lemma act_quiet k s m m' : state_of m k = Some s → quiet m m' → act k s s m m'.
Proof. intros. split; [by apply quiet_calm|by apply moves_quiet]. Qed.

Lemma act_trans k s1 s2 s3 m1 m2 m3 : act k s1 s2 m1 m2 → act k s2 s3 m2 m3 → act k s1 s3 m1 m3.
Proof. intros [? ?] [? ?]. split; [by etransitivity|by eapply moves_trans]. Qed.

Lemma act_then_quiet k s1 s2 m1 m2 m3 : act k s1 s2 m1 m2 → quiet m2 m3 → act k s1 s2 m1 m3.
Proof. intros H1 H2. eapply act_trans; [exact H1|]. apply act_quiet; [apply H1|done]. Qed.

Lemma quiet_then_act k s1 s2 m1 m2 m3 : quiet m1 m2 → act k s1 s2 m2 m3 → act k s1 s2 m1 m3.
Proof.
  intros H1 [H2 H3]. split; [etransitivity; [by apply quiet_calm|done]|by eapply quiet_then_moves].
Qed.

Lemma act_set_state k s s' m : state_of m k = Some s → act k s s' m (upd k (set_state s') m).
Proof. intros. split; [apply calm_set_state|by apply moves_set_state]. Qed.

Lemma act_state k s s' m m' : act k s s' m m' → state_of m' k = Some s'.
Proof. intros [_ (_ & H & _)]. exact H. Qed.

(** The states that may follow. *)
Definition next (s : eSapFsmStates) (msg : sap_msg) : list eSapFsmStates :=
  match s, msg with
  | eSAP_DISCONNECTED, (eSAP_HDD_START_INFRA_BSS | eSAP_CHANNEL_SELECTION_RETRY) =>
      [eSAP_DISCONNECTED; eSAP_CH_SELECT; eSAP_STARTING]
  | eSAP_DISCONNECTED, eSAP_DFS_CHANNEL_CAC_START => [eSAP_DFS_CAC_WAIT]
  | eSAP_CH_SELECT, eSAP_MAC_SCAN_COMPLETE => [eSAP_CH_SELECT; eSAP_STARTING]
  | eSAP_CH_SELECT, (eSAP_CHANNEL_SELECTION_FAILED | eSAP_HDD_STOP_INFRA_BSS) => [eSAP_DISCONNECTED]
  | eSAP_DFS_CAC_WAIT, eSAP_DFS_CHANNEL_CAC_RADAR_FOUND => [eSAP_DFS_CAC_WAIT; eSAP_DISCONNECTING]
  | eSAP_DFS_CAC_WAIT, eSAP_DFS_CHANNEL_CAC_END => [eSAP_DFS_CAC_WAIT; eSAP_STARTED]
  | eSAP_DFS_CAC_WAIT, eSAP_HDD_STOP_INFRA_BSS => [eSAP_DISCONNECTING]
  | eSAP_STARTING, eSAP_MAC_START_BSS_SUCCESS => [eSAP_STARTED; eSAP_DFS_CAC_WAIT]
  | eSAP_STARTING, (eSAP_MAC_START_FAILS | eSAP_HDD_STOP_INFRA_BSS) => [eSAP_DISCONNECTED]
  | eSAP_STARTING, eSAP_OPERATING_CHANNEL_CHANGED => [eSAP_STARTED]
  | eSAP_STARTED, eSAP_HDD_STOP_INFRA_BSS => [eSAP_DISCONNECTING]
  | eSAP_DISCONNECTING, eSAP_MAC_READY_FOR_CONNECTIONS => [eSAP_DISCONNECTED]
  | _, _ => [s]
  end.

(** What one event does, unless it is the end of the check. *)
Definition goes k (s : eSapFsmStates) (l : list eSapFsmStates) m m' : Prop := ∃ s', s' ∈ l ∧ act k s s' m m'.

Lemma goes_one k s s' m m' : act k s s' m m' → goes k s [s'] m m'.
Proof. intros. exists s'. split; [by left|done]. Qed.

Lemma act_then_goes k s1 s2 l m1 m2 m3 : act k s1 s2 m1 m2 → goes k s2 l m2 m3 → goes k s1 l m1 m3.
Proof. intros H1 (s' & Hs & H2). exists s'. split; [done|by eapply act_trans]. Qed.

Lemma goes_weaken k s l l' m m' : goes k s l m m' → l ⊆ l' → goes k s l' m m'.
Proof. intros (s' & Hs & H) Hl. exists s'. auto. Qed.

Definition rec_ok (rec : answers → nat → sap_msg → machine → option (QDF_STATUS * machine)) : Prop :=
  ∀ a k msg m st m' s, msg ≠ eSAP_DFS_CHANNEL_CAC_END → state_of m k = Some s → rec a k msg m = Some (st, m') →
    goes k s (next s msg) m m'.

(** The channel selection does not touch the test mode. *)
Class ChannelSelectionOk : Prop :=
  select_keeps : ∀ ctx s, disableDFSChSwitch (snd (select_channel ctx s)) = disableDFSChSwitch ctx.

Lemma state_lookup m k s : state_of m k = Some s → ∃ x, sessions m !! k = Some x ∧ sapsMachine x = s.
Proof. unfold state_of. destruct (sessions m !! k) as [x|]; [|done]. intros [= <-]. by exists x. Qed.

Lemma random_sel_keeps ctx d (s : cds_state) stale al now rnd t ctx' d' s' :
  sap_random_channel_sel ctx d s stale al now rnd = Some (t, ctx', d', s') →
  disableDFSChSwitch ctx' = disableDFSChSwitch ctx.
Proof.
  unfold sap_random_channel_sel, sap_get_5ghz_channel_list, sap_apply_rules.
  destruct (sap_pcl_query s stale) as [[[st p] s1]|]; [|done]. cbn [mbind option_bind].
  destruct (QDF_IS_STATUS_SUCCESS st) eqn:Est; cbn [negb].
  2: { cbn [mbind option_bind]. rewrite Est. cbn [negb]. by intros [= _ <- _ _]. }
  destruct (for_opt _ _ _) as [l|]; [|done]. cbn [mbind option_bind].
  change (negb (QDF_IS_STATUS_SUCCESS QDF_STATUS_SUCCESS)) with false. cbv iota.
  destruct (apply_rules_loop _ _ _ _ _) as [[[l1 n] d1]|]; [|done]. cbn [mbind option_bind].
  destruct (n =? 0); [by intros [= _ <- _ _]|]. destruct (negb al); [by intros [= _ <- _ _]|].
  destruct (_ <? _); [done|]. destruct (width_loop _ _ _ _ _ _) as [[[t1 w] d2]|]; [|done]. cbn [mbind option_bind].
  by intros [= _ <- _ _].
Qed.

Lemma act_upd k f s s' m :
  state_of m k = Some s → (∀ x, free_session x (f x) ∧ sapsMachine (f x) = s') → act k s s' m (upd k f m).
Proof. intros Hs Hf. split; [apply calm_upd; intros; apply Hf|]. apply moves_upd; [done|]. intros; apply Hf. Qed.

(** A change of the state and of fields that do not matter. *)
Ltac keep_flags := intros ?; split; [split; [auto|done]|done].

Section handlers.
Context {Ok : ChannelSelectionOk}.
Context (rec : answers → nat → sap_msg → machine → option (QDF_STATUS * machine)) (Hrec : rec_ok rec).

(** The callback enters the selected channel and reports to the machine. *)
Lemma scan_callback_split a k ok m st m' s :
  state_of m k = Some s → s ≠ eSAP_DISCONNECTED → wlansap_scan_callback rec a k ok m = Some (st, m') →
  ∃ m4 s4 (msg : sap_msg), act k s s4 m m4 ∧ (s4 = s ∨ s4 = eSAP_CH_SELECT) ∧
    (msg = eSAP_MAC_SCAN_COMPLETE ∨ msg = eSAP_CHANNEL_SELECTION_FAILED) ∧ rec a k msg m4 = Some (st, m').
Proof.
  intros Hs Hne. destruct (state_lookup m k _ Hs) as (x & Hx & Hxs).
  unfold wlansap_scan_callback. rewrite Hx. cbn [mbind option_bind]. rewrite bool_decide_false by congruence.
  destruct (if ok && scan_result_ok a then _ else _) as [ch ctx] eqn:Ec.
  assert (Hctx : disableDFSChSwitch ctx = disableDFSChSwitch (base x)).
  { destruct (ok && scan_result_ok a); [|by injection Ec as _ <-].
    pose proof (select_keeps (sap_view x) (cds m)) as Hk. destruct (select_channel (sap_view x) (cds m)) as [c ctx'].
    injection Ec as _ <-. exact Hk. }
  set (m1 := upd k (λ x, x <| base := ctx |>) m).
  assert (H1 : quiet m m1) by (eapply quiet_upd_at; [exact Hx|by split_and!]).
  set (sel := negb (ch =? SAP_CHANNEL_NOT_SELECTED)).
  set (m2 := upd k (if sel then set_channel ch else set_state eSAP_CH_SELECT) m1).
  assert (Hs1 : state_of m1 k = Some s) by by rewrite (quiet_state _ _ _ H1).
  assert (H2 : act k s (if sel then s else eSAP_CH_SELECT) m1 m2).
  { unfold m2. destruct sel; [|by apply act_set_state]. apply act_quiet; [done|]. by apply quiet_upd. }
  set (m3 := upd k _ m2). set (m4 := upd k _ m3). intros Er. eexists m4, _, _. split_and!; [| | |exact Er].
  - eapply quiet_then_act; [exact H1|]. eapply act_then_quiet; [exact H2|].
    etransitivity; [apply (quiet_upd k)|apply (quiet_upd k)]; done.
  - destruct sel; [by left|by right].
  - destruct (sel && ok); [by left|by right].
Qed.

Lemma scan_callback_goes a k ok m st m' :
  state_of m k = Some eSAP_CH_SELECT → wlansap_scan_callback rec a k ok m = Some (st, m') →
  goes k eSAP_CH_SELECT [eSAP_DISCONNECTED; eSAP_CH_SELECT; eSAP_STARTING] m m'.
Proof.
  intros Hs Hc. apply (scan_callback_split _ _ _ _ _ _ eSAP_CH_SELECT) in Hc as (m4 & s4 & msg & H4 & Hs4 & Hmsg & Er); [|done..].
  assert (s4 = eSAP_CH_SELECT) as -> by naive_solver. eapply act_then_goes; [exact H4|].
  destruct Hmsg as [-> | ->];
    (eapply goes_weaken; [eapply Hrec; [|apply (act_state _ _ _ _ _ H4)|exact Er]; done|]); cbn; set_solver.
Qed.

Lemma goto_auto_goes a k m st m' :
  state_of m k = Some eSAP_CH_SELECT → goto_auto_channel rec a k m = Some (st, m') →
  goes k eSAP_CH_SELECT [eSAP_DISCONNECTED; eSAP_CH_SELECT; eSAP_STARTING] m m'.
Proof.
  intros Hs. destruct (state_lookup m k _ Hs) as (x & Hx & Hxs).
  unfold goto_auto_channel. rewrite Hx. cbn [mbind option_bind].
  set (m1 := if _ && _ then upd k _ m else m).
  assert (H1 : quiet m m1) by (unfold m1; destruct (_ && _); [by apply quiet_upd|done]).
  destruct (_ && (_ || _)).
  - destruct (wlansap_scan_callback _ _ _ _ _) as [[st' m2]|] eqn:Ec; [|done]. cbn [mbind option_bind]. intros [= _ <-].
    apply scan_callback_goes in Ec; [|by rewrite (quiet_state _ _ _ H1)].
    eapply act_then_goes; [|exact Ec]. by apply act_quiet.
  - set (m2 := emit_fsm (Ev_scan k) _).
    assert (H2 : quiet m m2).
    { etransitivity; [exact H1|]. etransitivity; [|by apply emit_quiet]. by apply quiet_upd. }
    destruct (scan_ok a).
    + intros [= _ <-]. eapply goes_weaken; [apply goes_one, act_quiet; [exact Hs|exact H2]|]. set_solver.
    + set (m3 := upd k _ m2). assert (H3 : quiet m m3) by (etransitivity; [exact H2|by apply quiet_upd]).
      destruct (rec _ _ _ _) as [[st' m4]|] eqn:Er; [|done]. cbn [mbind option_bind]. intros [= _ <-].
      eapply act_then_goes; [apply act_quiet; [exact Hs|exact H3]|].
      eapply goes_weaken; [eapply Hrec; [|by rewrite (quiet_state _ _ _ H3)|exact Er]; done|]. cbn. set_solver.
Qed.

Lemma quiet_follow a k b m : quiet m (follow_overlap a k b m).
Proof.
  unfold follow_overlap. destruct (sessions m !! k); [|done]. destruct (_ && _); [|done]. by apply quiet_upd.
Qed.

Lemma quiet_beaconing a k m b m' : beaconing_checks a k m = Some (b, m') → quiet m m'.
Proof.
  unfold beaconing_checks. destruct (sessions m !! k); [|done]. cbn [mbind option_bind].
  destruct (negb _); [by intros [= _ <-]|]. destruct (_ && _); intros [= _ <-]; [done|].
  etransitivity; [|apply quiet_follow]. destruct (_ && _); [by apply quiet_upd|done].
Qed.

Lemma quiet_sta_ap a k m b m' : sta_ap_checks a k m = Some (b, m') → quiet m m'.
Proof.
  unfold sta_ap_checks. destruct (sessions m !! k); [|done]. cbn [mbind option_bind].
  destruct (negb _); [by intros [= _ <-]|]. destruct (_ && _); intros [= _ <-]; [done|].
  etransitivity; [|apply quiet_follow]. destruct (_ && _); [by apply quiet_upd|done].
Qed.

Lemma goto_channel_sel_goes a k b m st m' :
  state_of m k = Some eSAP_CH_SELECT → sap_goto_channel_sel rec a k b m = Some (st, m') →
  goes k eSAP_CH_SELECT [eSAP_DISCONNECTED; eSAP_CH_SELECT; eSAP_STARTING] m m'.
Proof.
  intros Hs. unfold sap_goto_channel_sel.
  destruct (beaconing_checks a k m) as [[go1 m1]|] eqn:E1; [|done]. cbn [mbind option_bind]. apply quiet_beaconing in E1.
  assert (Hstay : ∀ m2, quiet m m2 → goes k eSAP_CH_SELECT [eSAP_DISCONNECTED; eSAP_CH_SELECT; eSAP_STARTING] m m2).
  { intros m2 H2. eapply goes_weaken; [apply goes_one, act_quiet; [exact Hs|exact H2]|]. set_solver. }
  destruct (negb go1); [intros [= _ <-]; by apply Hstay|].
  destruct (sta_ap_checks a k m1) as [[go2 m2]|] eqn:E2; [|done]. cbn [mbind option_bind]. apply quiet_sta_ap in E2.
  assert (H2 : quiet m m2) by by etransitivity.
  destruct (negb go2); [intros [= _ <-]; by apply Hstay|].
  destruct (sessions m2 !! k) as [x|] eqn:Ex; [|done]. cbn [mbind option_bind].
  assert (Hs2 : state_of m2 k = Some eSAP_CH_SELECT) by by rewrite (quiet_state _ _ _ H2).
  destruct (_ =? _).
  - intros Ea. apply goto_auto_goes in Ea; [|done]. eapply act_then_goes; [|exact Ea]. by apply act_quiet.
  - destruct (_ && _); [intros [= _ <-]; by apply Hstay|].
    destruct (rec _ _ _ _) as [[st' m3]|] eqn:Er; [|done]. cbn [mbind option_bind]. intros [= _ <-].
    eapply act_then_goes; [apply act_quiet; [exact Hs|exact H2]|].
    eapply goes_weaken; [eapply Hrec; [|exact Hs2|exact Er]; done|]. cbn. set_solver.
Qed.

Lemma quiet_check a k m b m' : check_selected_channel a k m = Some (b, m') → quiet m m'.
Proof.
  unfold check_selected_channel. destruct (sessions m !! k) as [x|] eqn:Hx; [|done]. cbn [mbind option_bind].
  destruct (if WLAN_ENABLE_CHNL_MATRIX_RESTRICTION then _ else _) as [leak|]; [|done]. cbn [mbind option_bind].
  destruct (sap_dfs_is_channel_in_nol_list _ _ _ _) as [[nol d]|]; [|done]. cbn [mbind option_bind].
  assert (H1 : quiet m (m <| dfs := d |>)) by quiet_flags.
  destruct (nol || leak); [|by intros [= _ <-]].
  destruct (sap_random_channel_sel _ _ _ _ _ _ _) as [[[[ch ctx] d'] s']|] eqn:Er; [|done]. cbn [mbind option_bind].
  apply random_sel_keeps in Er. set (m1 := upd k _ _).
  assert (H2 : quiet m m1).
  { etransitivity; [exact H1|]. etransitivity; [|eapply quiet_upd_at; [exact Hx|by split_and!]]. quiet_flags. }
  destruct (ch =? 0); intros [= _ <-]; (etransitivity; [exact H2|]); [apply quiet_signal|by apply quiet_upd].
Qed.

Lemma quiet_to_11a k m : quiet m (upd k to_11a m).
Proof. apply quiet_upd. intros x. unfold to_11a. destruct (_ && _); done. Qed.

Lemma quiet_follow_dfs a k m : quiet m (follow_dfs_channel a k m).
Proof. unfold follow_dfs_channel. destruct (_ && _); [by apply quiet_upd|done]. Qed.

Lemma ch_select_goes a k msg m st m' :
  state_of m k = Some eSAP_CH_SELECT → sap_fsm_state_ch_select a k msg m = Some (st, m') →
  goes k eSAP_CH_SELECT (next eSAP_CH_SELECT msg) m m'.
Proof.
  intros Hs. unfold sap_fsm_state_ch_select.
  assert (Hdown : goes k eSAP_CH_SELECT [eSAP_DISCONNECTED] m (signal a k (eSAP_START_BSS_EVENT false) (upd k (set_state eSAP_DISCONNECTED) m))).
  { apply goes_one. eapply act_then_quiet; [by apply act_set_state|apply quiet_signal]. }
  destruct msg; try (intros [= _ <-]; apply goes_one, act_quiet; [exact Hs|done]); try (by intros [= _ <-]).
  destruct (check_selected_channel a k m) as [[found m1]|] eqn:Ec; [|done]. cbn [mbind option_bind]. apply quiet_check in Ec.
  destruct (negb found).
  - intros [= _ <-]. exists eSAP_CH_SELECT. split; [by left|by apply act_quiet].
  - set (m2 := follow_dfs_channel a k (upd k to_11a m1)). set (m3 := upd k _ m2). intros Eg.
    assert (H2 : quiet m m2).
    { etransitivity; [exact Ec|]. etransitivity; [apply quiet_to_11a|apply quiet_follow_dfs]. }
    exists eSAP_STARTING. split; [right; by left|]. eapply quiet_then_act; [exact H2|].
    eapply act_then_quiet; [|eapply quiet_starting; exact Eg]. eapply act_then_quiet; [|apply quiet_signal].
    apply act_upd; [by rewrite (quiet_state _ _ _ H2)|keep_flags].
Qed.

Lemma disconnected_goes a k msg m st m' :
  state_of m k = Some eSAP_DISCONNECTED → sap_fsm_state_disconnected rec a k msg m = Some (st, m') →
  goes k eSAP_DISCONNECTED (next eSAP_DISCONNECTED msg) m m'.
Proof.
  intros Hs. destruct (state_lookup m k _ Hs) as (x & Hx & Hxs).
  unfold sap_fsm_state_disconnected. rewrite Hx. cbn [mbind option_bind].
  assert (Hsel : ∀ b m1 st m', quiet m m1 → sap_goto_channel_sel rec a k b (upd k (set_state eSAP_CH_SELECT) m1) = Some (st, m') →
    goes k eSAP_DISCONNECTED [eSAP_DISCONNECTED; eSAP_CH_SELECT; eSAP_STARTING] m m').
  { intros b m1 st1 m2 H1 Es. assert (Hs1 : state_of m1 k = Some eSAP_DISCONNECTED) by by rewrite (quiet_state _ _ _ H1).
    eapply act_then_goes; [eapply quiet_then_act; [exact H1|by apply (act_set_state k _ eSAP_CH_SELECT)]|].
    eapply goto_channel_sel_goes; [|exact Es]. apply (moves_set_state _ _ _ _ Hs1). }
  destruct msg; try (intros [= _ <-]; apply goes_one, act_quiet; [exact Hs|done]).
  - destruct (if isSapSessionOpen x then _ else _) as [m1|] eqn:Eo.
    2: { intros [= _ <-]. eapply goes_weaken; [apply goes_one, act_quiet; [exact Hs|done]|]. set_solver. }
    assert (H1 : quiet m m1).
    { destruct (isSapSessionOpen x); [by injection Eo as <-|]. destruct (negb _); [done|].
      destruct (open_ok a); [|done]. injection Eo as <-. etransitivity; [by apply (emit_quiet (Ev_open_session k))|by apply quiet_upd]. }
    destruct (sap_init_dfs_channel_nol_list _ _) as [d|]; [|done]. cbn [mbind option_bind]. intros Es.
    eapply (Hsel true (m1 <| dfs := d |>)); [|exact Es]. etransitivity; [exact H1|quiet_flags].
  - intros Es. by eapply (Hsel false m).
  - intros [= Es]. apply goes_one. replace m' with (snd (wait_for_cac a k (upd k (set_state eSAP_DFS_CAC_WAIT) m))) by by rewrite Es.
    eapply act_then_quiet; [by apply act_set_state|apply quiet_wait].
Qed.

Lemma radar_found_one_act a k m t s :
  state_of m k = Some s →
  ∃ s', (s' = s ∨ s' = eSAP_DISCONNECTING) ∧ act k s s' m (radar_found_one a k m t).
Proof.
  intros Hs. unfold radar_found_one. destruct (in_state _ _ _).
  - exists s. split; [by left|by apply act_quiet].
  - exists eSAP_DISCONNECTING. split; [by right|]. eapply act_then_quiet; [|eapply quiet_change_request].
    eapply act_then_quiet; [by apply act_set_state|apply quiet_signal].
Qed.

Lemma cac_wait_goes a k msg m st m' :
  msg ≠ eSAP_DFS_CHANNEL_CAC_END →
  state_of m k = Some eSAP_DFS_CAC_WAIT → sap_fsm_state_dfs_cac_wait a k msg m = Some (st, m') →
  goes k eSAP_DFS_CAC_WAIT (next eSAP_DFS_CAC_WAIT msg) m m'.
Proof.
  intros Hmsg Hs. unfold sap_fsm_state_dfs_cac_wait.
  destruct msg; try (intros [= _ <-]; apply goes_one, act_quiet; [exact Hs|done]); try done.
  - intros [= _ <-]. set (m1 := match _ with Some _ => m | None => _ end).
    assert (H1 : quiet m m1).
    { unfold m1. destruct (sap_find_valid_concurrent_session m); [done|]. unfold sap_stop_dfs_cac_timer.
      destruct (sap_dfs_cac_timer m); [apply quiet_stop_cac_timer|done]. }
    apply goes_one. eapply quiet_then_act; [exact H1|]. eapply act_then_quiet; [|by apply (emit_quiet (Ev_stop_bss k))].
    apply act_set_state. by rewrite (quiet_state _ _ _ H1).
  - intros [= Es]. apply goes_one. replace m' with (snd (wait_for_cac a k m)) by by rewrite Es.
    apply act_quiet; [exact Hs|apply quiet_wait].
  - intros [= _ <-]. set (m1 := if _ =? _ then m else _).
    assert (H1 : quiet m m1) by (unfold m1; destruct (_ =? _); [done|by apply quiet_upd]).
    assert (Hs1 : state_of m1 k = Some eSAP_DFS_CAC_WAIT) by by rewrite (quiet_state _ _ _ H1).
    assert (Hl : ∀ ks m s, state_of m k = Some s → s = eSAP_DFS_CAC_WAIT ∨ s = eSAP_DISCONNECTING →
      ∃ s', s' ∈ [eSAP_DFS_CAC_WAIT; eSAP_DISCONNECTING] ∧ act k s s' m (foldl (radar_found_one a k) m ks)).
    { intros ks. induction ks as [|t ks IH]; intros m2 s Hm2 Hor; cbn.
      - exists s. split; [set_solver|by apply act_quiet].
      - destruct (radar_found_one_act a k m2 t s Hm2) as (s1 & H1' & Ha).
        destruct (IH _ s1 (act_state _ _ _ _ _ Ha)) as (s2 & H2' & Ha2); [naive_solver|].
        exists s2. split; [done|]. by eapply act_trans. }
    destruct (Hl (ap_contexts m1) m1 _ Hs1) as (s' & Hs' & Ha); [by left|].
    exists s'. split; [done|]. by eapply quiet_then_act.
Qed.

Lemma signal_sessions a k e m ok m' : sap_signal_hdd_event a k e m = (ok, m') →
  sessions m' = sessions m ∧ ignore_cac m' = ignore_cac m ∧ cac_skip m' = cac_skip m ∧ sapCtxList m' = sapCtxList m.
Proof.
  unfold sap_signal_hdd_event. destruct (sessions m !! k) as [x|]; [|by intros [= _ <-]].
  destruct (pfnSapEventCallback x); by intros [= _ <-].
Qed.

Lemma starting_goes a k msg m st m' :
  state_of m k = Some eSAP_STARTING → sap_fsm_state_starting rec a k msg m = Some (st, m') →
  goes k eSAP_STARTING (next eSAP_STARTING msg) m m'.
Proof.
  intros Hs. destruct (state_lookup m k _ Hs) as (x & Hx & Hxs).
  unfold sap_fsm_state_starting. rewrite Hx. cbn [mbind option_bind].
  assert (Hstop : ∀ st m', ('(st, m1) ← rec a k eSAP_MAC_READY_FOR_CONNECTIONS
        (signal a k (eSAP_START_BSS_EVENT false) (upd k (set_state eSAP_DISCONNECTED) m));
      if isSapSessionOpen x then '(_, m2) ← sap_close_session a k m1; Some (st, m2) else Some (st, m1)) = Some (st, m') →
    goes k eSAP_STARTING [eSAP_DISCONNECTED] m m').
  { intros st1 m1 Es. set (m2 := signal a k _ _) in Es.
    assert (H2 : act k eSAP_STARTING eSAP_DISCONNECTED m m2) by (eapply act_then_quiet; [by apply act_set_state|apply quiet_signal]).
    destruct (rec a k eSAP_MAC_READY_FOR_CONNECTIONS m2) as [[st2 m3]|] eqn:Er; [|done]. cbn [mbind option_bind] in Es.
    apply (Hrec _ _ _ _ _ _ eSAP_DISCONNECTED) in Er; [|done|exact (act_state _ _ _ _ _ H2)]. destruct Er as (s' & ->%list_elem_of_singleton & H3).
    apply goes_one. pose proof (act_trans _ _ _ _ _ _ _ H2 H3) as H4. destruct (isSapSessionOpen x); [|by injection Es as _ <-].
    destruct (sap_close_session a k m3) as [[b m4]|] eqn:Eq; [|done]. cbn [mbind option_bind] in Es. injection Es as _ <-.
    eapply act_then_quiet; [exact H4|by eapply quiet_close]. }
  destruct msg; try (intros [= _ <-]; apply goes_one, act_quiet; [exact Hs|done]); try (by apply Hstop).
  - destruct (sap_signal_hdd_event a k (eSAP_START_BSS_EVENT true) (upd k (set_state eSAP_STARTED) m)) as [ok m1] eqn:Es.
    assert (H1 : act k eSAP_STARTING eSAP_STARTED m m1).
    { eapply act_then_quiet; [by apply act_set_state|by eapply quiet_signal']. }
    apply signal_sessions in Es as (Hss & Hig & Hsk & _).
    destruct (needs_cac x); [|intros [= _ <-]; exists eSAP_STARTED; split; [by left|done]].
    destruct (negb (ignore_cac m1) && negb (cac_skip m1) && negb (pre_cac_complete x)) eqn:Ew.
    + intros [= Eq]. replace m' with (snd (wait_for_cac a k (upd k (set_state eSAP_DFS_CAC_WAIT) m1))) by by rewrite Eq.
      exists eSAP_DFS_CAC_WAIT. split; [right; by left|]. eapply act_then_quiet; [|eapply quiet_wait].
      eapply act_trans; [exact H1|]. by apply act_set_state, (act_state _ _ _ _ _ H1).
    + intros [= _ <-]. exists eSAP_STARTED. split; [by left|].
      assert (He : exempt m1 k).
      { destruct (ignore_cac m1) eqn:Ei; [by left|]. destruct (cac_skip m1) eqn:Ek; [by right; left|]. right; right.
        cbn in Ew. apply negb_false_iff in Ew. exists (set_state eSAP_STARTED x). split; [|done].
        rewrite Hss. cbn. rewrite list_lookup_alter, decide_True, Hx by done. done. }
      destruct H1 as [H1 H1']. split; [etransitivity; [exact H1|by apply calm_beacon]|].
      eapply moves_trans; [exact H1'|]. unfold wlansap_start_beacon_req. destruct (sap_radar_found_status (dfs m1)); cbn [snd].
      * apply moves_quiet; [apply H1'|done].
      * apply (moves_upd k (λ x, x <| pre_cac_complete := false |>) eSAP_STARTED eSAP_STARTED m1); [apply H1'|done].
  - destruct (sap_signal_hdd_event a k (eSAP_START_BSS_EVENT true) _) as [ok m1] eqn:Es. apply quiet_signal' in Es.
    intros [= _ <-]. apply goes_one. eapply act_then_quiet; [|exact Es]. apply act_upd; [done|keep_flags].
Qed.

Lemma started_goes a k msg m st m' :
  state_of m k = Some eSAP_STARTED → sap_fsm_state_started a k msg m = Some (st, m') →
  goes k eSAP_STARTED (next eSAP_STARTED msg) m m'.
Proof.
  intros Hs. unfold sap_fsm_state_started.
  destruct msg; try (intros [= _ <-]; apply goes_one, act_quiet; [exact Hs|done]).
  - intros [= _ <-]. apply goes_one. eapply act_then_quiet; [by apply act_set_state|by apply (emit_quiet (Ev_stop_bss k))].
  - intros [= Eq]. apply goes_one, act_quiet; [exact Hs|].
    assert (Hl : ∀ ks (r : QDF_STATUS * machine), quiet m (snd r) →
      quiet m (snd (foldl (λ (r : QDF_STATUS * machine) t, wlansap_dfs_send_csa_ie_request a t (snd r)) r ks))).
    { intros ks. induction ks as [|t ks IH]; intros r Hr; [done|]. cbn [foldl]. apply IH. etransitivity; [exact Hr|apply quiet_csa]. }
    specialize (Hl (ap_contexts m) (QDF_STATUS_E_FAILURE, m) ltac:(reflexivity)). by rewrite Eq in Hl.
  - destruct (sessions m !! k) as [x|]; [|done]. cbn [mbind option_bind]. destruct (aget _ _) as [s|]; [|done]. cbn [mbind option_bind].
    destruct (is_ap (fst s)); [|intros [= _ <-]; by apply goes_one, act_quiet].
    intros [= _ <-]. apply goes_one, act_quiet; [exact Hs|exact (quiet_csa a k m)].
Qed.

Lemma disconnecting_goes a k msg m st m' :
  state_of m k = Some eSAP_DISCONNECTING → sap_fsm_state_disconnecting a k msg m = Some (st, m') →
  goes k eSAP_DISCONNECTING (next eSAP_DISCONNECTING msg) m m'.
Proof.
  intros Hs. destruct (state_lookup m k _ Hs) as (x & Hx & Hxs).
  unfold sap_fsm_state_disconnecting. rewrite Hx. cbn [mbind option_bind].
  destruct msg; try (intros [= _ <-]; apply goes_one, act_quiet; [exact Hs|done]).
  - assert (H1 : act k eSAP_DISCONNECTING eSAP_DISCONNECTED m (upd k (set_state eSAP_DISCONNECTED) m)) by by apply act_set_state.
    destruct (isSapSessionOpen x); [|intros [= _ <-]; by apply goes_one].
    destruct (sap_close_session _ _ _) as [[closed m1]|] eqn:Ec; [|done]. cbn [mbind option_bind]. apply quiet_close in Ec.
    destruct closed; [intros [= _ <-]; apply goes_one; by eapply act_then_quiet|].
    destruct (sap_signal_hdd_event a k eSAP_STOP_BSS_EVENT m1) as [ok m2] eqn:Es. apply quiet_signal' in Es.
    intros [= _ <-]. apply goes_one. eapply act_then_quiet; [exact H1|by etransitivity].
  - intros [= Eq]. apply goes_one, act_quiet; [exact Hs|].
    pose proof (quiet_change_request a k (target_channel m) m) as Hq. by rewrite Eq in Hq.
  - intros [= Eq]. apply goes_one, act_quiet; [exact Hs|]. destruct failure; [|by injection Eq as _ <-].
    injection Eq as _ <-. by apply emit_quiet.
Qed.
End handlers.

Lemma sap_fsm_n_ok {Ok : ChannelSelectionOk} n : rec_ok (sap_fsm_n n).
Proof.
  induction n as [|n IH]; intros a k msg m st m' s Hmsg Hs Heq; [done|]. cbn [sap_fsm_n] in Heq.
  destruct (state_lookup m k _ Hs) as (x & Hx & Hxs). rewrite Hx in Heq. cbn [mbind option_bind] in Heq. rewrite Hxs in Heq.
  destruct s; [by eapply disconnected_goes|by eapply ch_select_goes|by eapply cac_wait_goes|by eapply starting_goes|
    by eapply started_goes|by eapply disconnecting_goes].
Qed.

(** *** The end of the check *)
Definition ends m m' : Prop :=
  Forall2 free_session (sessions m) (sessions m') ∧ (ignore_cac m' = true → ignore_cac m = true) ∧
  (∀ j, state_of m' j = state_of m j ∨ (state_of m j = Some eSAP_DFS_CAC_WAIT ∧ state_of m' j = Some eSAP_STARTED)) ∧
  ∃ new, beacons m' = new ++ beacons m ∧ Forall (λ j, state_of m j = Some eSAP_DFS_CAC_WAIT) new.

#[export] Instance ends_preorder : PreOrder ends.
Proof.
  split.
  - intros m. split_and!; [reflexivity|done|by left|]. exists []. split; [done|constructor].
  - intros m m1 m2 (H1 & I1 & S1 & n1 & B1 & J1) (H2 & I2 & S2 & n2 & B2 & J2). split_and!; [by etransitivity|auto| |].
    + intros j. destruct (S2 j) as [Heq2|[Hw Ht]], (S1 j) as [Heq1|[Hw' Ht']]; [left|right|right|];
        rewrite ?Heq2; first [split; congruence|congruence].
    + exists (n2 ++ n1). rewrite B2, B1, <- app_assoc. split; [done|]. apply Forall_app. split; [|done].
      eapply Forall_impl; [exact J2|]. intros j Hj. destruct (S1 j) as [Heq|[? ?]]; congruence.
Qed.

Lemma quiet_ends m m' : quiet m m' → ends m m'.
Proof.
  intros Hq. split_and!.
  - by apply (quiet_calm _ _ Hq).
  - apply Hq.
  - intros j. left. by apply quiet_state.
  - exists []. split; [apply Hq|constructor].
Qed.

Lemma ends_start k f m x :
  sessions m !! k = Some x → sapsMachine x = eSAP_DFS_CAC_WAIT →
  (∀ x, free_session x (f x) ∧ sapsMachine (f x) = eSAP_STARTED) → ends m (upd k f m).
Proof.
  intros Hx Hs Hf. assert (Hk : state_of m k = Some eSAP_DFS_CAC_WAIT) by (unfold state_of; by rewrite Hx, <- Hs).
  destruct (act_upd k f _ eSAP_STARTED m Hk Hf) as [(Hfr & [_ Hi] & _) (_ & H1 & H2)].
  split_and!; [exact Hfr|exact Hi| |by exists []].
  intros j. destruct (decide (j = k)) as [->|Hj]; [by right|left; by apply H2].
Qed.

Lemma ends_beacon a k m : state_of m k = Some eSAP_DFS_CAC_WAIT → ends m (snd (wlansap_start_beacon_req a k m)).
Proof.
  intros Hk. unfold wlansap_start_beacon_req. destruct (sap_radar_found_status (dfs m)); [done|]. cbn [snd].
  set (f := λ x, x <| pre_cac_complete := false |>).
  assert (Hq : quiet m (upd k f m)) by by apply quiet_upd.
  apply quiet_ends in Hq as (H1 & H2 & H3 & _). split_and!; [exact H1|exact H2|exact H3|].
  exists [k]. split; [done|]. by repeat constructor.
Qed.

Lemma cac_end_one_ends a k m x :
  sessions m !! k = Some x → sapsMachine x = eSAP_DFS_CAC_WAIT → ends m (snd (cac_end_one a k m)).
Proof.
  intros Hx Hs. unfold cac_end_one. destruct (sap_signal_hdd_event a k eSAP_DFS_CAC_END m) as [ok m1] eqn:E1.
  apply quiet_signal' in E1. destruct ok; [|by apply quiet_ends].
  set (m2 := upd k _ m1). set (m3 := m2 <| dfs := _ |>). set (m4 := snd (wlansap_start_beacon_req a k m3)).
  assert (H3 : quiet m m3) by (etransitivity; [exact E1|]; etransitivity; [by apply (quiet_upd k (λ x, x <| isCacEndNotified := true |>))|quiet_flags]).
  assert (Hk : state_of m k = Some eSAP_DFS_CAC_WAIT) by (unfold state_of; by rewrite Hx, <- Hs).
  assert (H3s : state_of m3 k = Some eSAP_DFS_CAC_WAIT) by by rewrite (quiet_state _ _ _ H3).
  assert (H4 : ends m m4) by (etransitivity; [by apply quiet_ends|by apply ends_beacon]).
  assert (H4s : ∃ y, sessions m4 !! k = Some y ∧ sapsMachine y = eSAP_DFS_CAC_WAIT).
  { apply state_lookup. unfold m4, wlansap_start_beacon_req. destruct (sap_radar_found_status (dfs m3)); cbn [snd]; [done|].
    pose proof (quiet_upd k (λ x, x <| pre_cac_complete := false |>) m3 ltac:(done)) as Hq.
    etransitivity; [exact (quiet_state _ _ k Hq)|done]. }
  destruct H4s as (y & Hy & Hys). etransitivity; [exact H4|]. etransitivity; [eapply (ends_start k (set_state eSAP_STARTED)); [exact Hy|exact Hys|keep_flags]|].
  apply quiet_ends, quiet_signal.
Qed.

Lemma skip_ends b m : ends m (m <| cac_skip := b |>).
Proof. split_and!; [reflexivity|done|by left|by exists []]. Qed.

Lemma cac_end_ends a m : ends m (snd (sap_cac_end_notify a m)).
Proof.
  unfold sap_cac_end_notify. generalize QDF_STATUS_E_FAILURE. generalize (ap_contexts m). intros ks. revert m.
  induction ks as [|k ks IH]; intros m st; [apply skip_ends|]. cbn [cac_end_loop].
  unfold cac_end_due. destruct (sessions m !! k) as [x|] eqn:Hx; [|apply IH].
  destruct (isCacEndNotified x); cbn [negb andb]; [apply IH|].
  case_bool_decide as Hs; cbn [negb]; [|apply IH]. cbn [from_option].
  destruct (is_pre_cac_on x).
  - unfold wlansap_update_pre_cac_end. set (m1 := upd k _ m).
    assert (H1 : ends m m1).
    { eapply ends_start; [exact Hx|exact Hs|keep_flags]. }
    assert (H2 : ends m (m1 <| dfs := dfs m1 <| sap_radar_found_status := false |> |>)).
    { etransitivity; [exact H1|]. apply quiet_ends. quiet_flags. }
    destruct (sap_signal_hdd_event a k eSAP_DFS_PRE_CAC_END _) as [ok m3] eqn:E3. apply quiet_signal' in E3.
    assert (H3 : ends m m3) by (etransitivity; [exact H2|by apply quiet_ends]).
    destruct ok; cbn [snd]; [|exact H3]. etransitivity; [exact H3|apply skip_ends].
  - pose proof (cac_end_one_ends a k m x Hx Hs) as H1. destruct (cac_end_one a k m) as [ok m1]. cbn [snd] in H1.
    destruct ok; [|exact H1]. etransitivity; [exact H1|apply IH].
Qed.

(** Outside the wait the event is not handled. *)
Lemma cac_end_elsewhere a k m st m' s :
  state_of m k = Some s → s ≠ eSAP_DFS_CAC_WAIT → sap_fsm a k eSAP_DFS_CHANNEL_CAC_END m = Some (st, m') → m' = m.
Proof.
  intros Hs Hne. destruct (state_lookup m k _ Hs) as (x & Hx & Hxs). unfold sap_fsm. cbn [sap_fsm_n]. rewrite Hx.
  cbn [mbind option_bind]. rewrite Hxs.
  unfold sap_fsm_state_disconnected, sap_fsm_state_starting, sap_fsm_state_disconnecting. rewrite Hx. cbn [mbind option_bind].
  destruct s; try done; by intros [= _ <-].
Qed.

Lemma cac_end_here a k m st m' :
  state_of m k = Some eSAP_DFS_CAC_WAIT → sap_fsm a k eSAP_DFS_CHANNEL_CAC_END m = Some (st, m') → ends m m'.
Proof.
  intros Hs. destruct (state_lookup m k _ Hs) as (x & Hx & Hxs). unfold sap_fsm. cbn [sap_fsm_n]. rewrite Hx.
  cbn [mbind option_bind]. rewrite Hxs. cbn [sap_fsm_state_dfs_cac_wait]. intros [= Eq].
  pose proof (cac_end_ends a m) as H. by rewrite Eq in H.
Qed.

(** C35: the states of an access point follow a table.  Whatever the layers around
    answer, an event that the machine handles takes the context to one of the
    states that the table [next] allows; events that are not in the table change
    no state.  The state of no other context changes, but for the end of an
    availability check: it may take other waiting contexts to the started
    state. *)
Theorem sap_fsm_follows_table {Ok : ChannelSelectionOk} a k msg m st m' s :
  state_of m k = Some s → sap_fsm a k msg m = Some (st, m') →
  (∃ s', s' ∈ next s msg ∧ state_of m' k = Some s') ∧
  ∀ j, j ≠ k → state_of m' j = state_of m j ∨
    (msg = eSAP_DFS_CHANNEL_CAC_END ∧ s = eSAP_DFS_CAC_WAIT ∧ state_of m j = Some eSAP_DFS_CAC_WAIT ∧
     state_of m' j = Some eSAP_STARTED).
Proof.
  intros Hs Heq. destruct (decide (msg = eSAP_DFS_CHANNEL_CAC_END)) as [->|Hmsg].
  - destruct (decide (s = eSAP_DFS_CAC_WAIT)) as [->|Hne].
    + apply cac_end_here in Heq as (_ & _ & Hst & _); [|done]. split.
      * destruct (Hst k) as [->|[_ ->]]; [exists eSAP_DFS_CAC_WAIT|exists eSAP_STARTED]; (split; [set_solver|done]).
      * intros j _. destruct (Hst j) as [?|[? ?]]; [by left|by right].
    + apply (cac_end_elsewhere _ _ _ _ _ s) in Heq as ->; [|done|done]. split; [|by left].
      exists s. split; [|done]. destruct s; try done; by left.
  - destruct (sap_fsm_n_ok 2 a k msg m st m' s Hmsg Hs Heq) as (s' & Hin & _ & (_ & H1 & H2)).
    split; [by exists s'|]. intros j Hj. left. by apply H2.
Qed.

(** *** The operations *)
Context {Ok : ChannelSelectionOk}.
Implicit Types (s : cds_state).

Lemma fsm_calm a k msg m st m' :
  msg ≠ eSAP_DFS_CHANNEL_CAC_END → sap_fsm a k msg m = Some (st, m') → calm m m'.
Proof.
  intros Hmsg Heq. destruct (state_of m k) as [s|] eqn:Hs.
  - by destruct (sap_fsm_n_ok 2 a k msg m st m' s Hmsg Hs Heq) as (s' & _ & H & _).
  - unfold sap_fsm, state_of in *. cbn [sap_fsm_n] in Heq. by destruct (sessions m !! k).
Qed.

Lemma fsm_op_calm a k msg m m' : msg ≠ eSAP_DFS_CHANNEL_CAC_END → fsm_op a k msg m = Some m' → calm m m'.
Proof.
  intros Hmsg. unfold fsm_op. destruct (sap_fsm a k msg m) as [[st m1]|] eqn:E1; [|done]. cbn [mbind option_bind].
  intros [= <-]. by eapply fsm_calm.
Qed.

(** The second half of an operation: an event. *)
Lemma calm_then_fsm a k msg m m1 m' :
  msg ≠ eSAP_DFS_CHANNEL_CAC_END → calm m m1 → fsm_op a k msg m1 = Some m' → calm m m'.
Proof. intros Hmsg H1 H2. etransitivity; [exact H1|by eapply fsm_op_calm]. Qed.

Lemma csa_params_quiet a k ch m m' : wlansap_update_csa_channel_params a k ch m = Some m' → quiet m m'.
Proof.
  unfold wlansap_update_csa_channel_params. destruct (sessions m !! k) as [x|]; [|done]. cbn [mbind option_bind].
  destruct (if ch <=? CHAN_ENUM_13 then _ else _) as [w|]; [|done]. cbn [mbind option_bind]. intros [= <-]. quiet_flags.
Qed.

Lemma csa_calm a k ch bw m st m' :
  wlansap_set_channel_change_with_csa a k ch bw m = Some (st, m') → calm m m'.
Proof.
  unfold wlansap_set_channel_change_with_csa. destruct (sessions m !! k) as [x|]; [|done]. cbn [mbind option_bind].
  destruct (_ && _); [|by intros [= _ <-]]. destruct (FEATURE_WLAN_MCC_TO_SCC_SWITCH && _); [by intros [= _ <-]|].
  case_bool_decide; [|by intros [= _ <-]].
  destruct (wlansap_update_csa_channel_params a k ch m) as [m1|] eqn:E1; [|done]. cbn [mbind option_bind].
  apply csa_params_quiet in E1. set (m2 := m1 <| target_channel := _ |> <| dfs := _ |> <| cac_skip := _ |>).
  destruct (sap_fsm _ _ _ _) as [[st1 m3]|] eqn:E2; [|done]. cbn [mbind option_bind]. intros [= _ <-].
  etransitivity; [|eapply fsm_calm; [|exact E2]; done]. apply quiet_calm. etransitivity; [exact E1|]. etransitivity; [|apply quiet_reset]. quiet_flags.
Qed.

Lemma scan_callback_calm a k ok m st m' : wlansap_scan_callback sap_fsm a k ok m = Some (st, m') → calm m m'.
Proof.
  intros Hc. destruct (state_of m k) as [s|] eqn:Hs; [destruct (decide (s = eSAP_DISCONNECTED)) as [-> |Hne]|].
  - destruct (state_lookup m k _ Hs) as (x & Hx & Hxs). unfold wlansap_scan_callback in Hc. rewrite Hx in Hc.
    cbn [mbind option_bind] in Hc. rewrite bool_decide_true in Hc by done. by injection Hc as _ <-.
  - destruct (scan_callback_split sap_fsm a k ok m st m' s Hs Hne Hc) as (m4 & s4 & msg & [H4 _] & _ & Hmsg & Er).
    etransitivity; [exact H4|]. eapply fsm_calm; [|exact Er]. by destruct Hmsg as [-> | ->].
  - unfold state_of, wlansap_scan_callback in *. by destruct (sessions m !! k).
Qed.

Lemma indicate_keeps ctx d s ev stale al now rnd t ctx' d' s' :
  sap_indicate_radar ctx d s ev stale al now rnd = Some (t, ctx', d', s') → disableDFSChSwitch ctx' = disableDFSChSwitch ctx.
Proof.
  unfold sap_indicate_radar. destruct (negb _); [by intros [= _ <- _ _]|].
  destruct (disableDFSChSwitch ctx) eqn:Ed; [by intros [= _ <- _ _]|]. cbv zeta.
  destruct (sap_mark_dfs_channels _ _ _ _) as [d1|]; [|done]. cbn [mbind option_bind].
  destruct (negb _); [by intros [= _ <- _ _]|].
  destruct (sap_random_channel_sel _ _ _ _ _ _ _) as [[[[t1 c1] d2] s1]|] eqn:Er; [|done]. cbn [mbind option_bind].
  intros [= _ <- _ _]. rewrite <- Ed. by eapply random_sel_keeps.
Qed.

Lemma stop_all_calm a (ks : list nat) m m' : stop_all a ks m = Some m' → calm m m'.
Proof.
  revert m. induction ks as [|t ks IH]; intros m; [by intros [= <-]|]. cbn [stop_all]. unfold wlansap_stop_bss.
  destruct (sap_fsm _ _ _ _) as [[st m1]|] eqn:E1; [|done]. cbn [mbind option_bind]. intros E2.
  etransitivity; [eapply fsm_calm; [|exact E1]; done|by apply IH].
Qed.

Lemma sessions_signal a k e m : sessions (signal a k e m) = sessions m.
Proof. unfold signal. destruct (sap_signal_hdd_event a k e m) as [ok m'] eqn:Es. by apply signal_sessions in Es as (? & _). Qed.

Lemma radar_ind_calm a k ev m m' : radar_ind a k ev m = Some m' → calm m m'.
Proof.
  unfold radar_ind. destruct (sessions m !! k) as [x|] eqn:Hx; [|done]. cbn [mbind option_bind].
  destruct (is_pre_cac_on x).
  { intros [= <-]. apply quiet_calm. etransitivity; [apply quiet_stop_cac_timer|apply quiet_signal]. }
  set (m0 := signal a k eSAP_DFS_NOL_GET _). set (m1 := m0 <| dfs ::= _ |>).
  assert (H1 : quiet m m1) by (etransitivity; [etransitivity; apply quiet_signal|]; unfold m1; quiet_flags).
  destruct (sap_indicate_radar _ _ _ _ _ _ _ _) as [[[[t ctx] d] s]|] eqn:Ei; [|done]. cbn [mbind option_bind].
  apply indicate_keeps in Ei. set (m2 := upd k _ _).
  assert (Hx1 : sessions m1 !! k = Some x) by (change (sessions m1) with (sessions m0); unfold m0; by rewrite !sessions_signal).
  assert (H2 : quiet m m2).
  { etransitivity; [exact H1|]. etransitivity; [|eapply (quiet_upd_at k _ _ x); [exact Hx1|by split_and!]]. quiet_flags. }
  set (m3 := if 0 <? user_provided_target_channel m2 then _ else m2).
  assert (H3 : quiet m m3).
  { etransitivity; [exact H2|]. unfold m3. split_if; [quiet_flags|done]. }
  destruct (negb _).
  - intros [= <-]. apply quiet_calm. etransitivity; [exact H3|]. etransitivity; [|apply quiet_signal].
    etransitivity; [|apply quiet_reset]. quiet_flags.
  - intros Es. etransitivity; [by apply quiet_calm|by eapply stop_all_calm].
Qed.

Lemma radar_found_calm a k m m' : radar_found a k m = Some m' → calm m m'.
Proof.
  unfold radar_found. destruct (sessions m !! k) as [x|]; [|done]. cbn [mbind option_bind].
  case_bool_decide.
  - destruct (_ || _); [by intros [= <-]|]. apply calm_then_fsm; [done|]. apply quiet_calm.
    etransitivity; [apply quiet_stop_cac_timer|apply quiet_signal].
  - case_bool_decide; [|by intros [= <-]]. by apply fsm_op_calm.
Qed.

Lemma issue_changes_calm a (ks : list nat) m m' : issue_changes a ks m = Some m' → calm m m'.
Proof.
  revert m. induction ks as [|t ks IH]; intros m; [by intros [= <-]|]. cbn [issue_changes].
  destruct (sap_fsm _ _ _ _) as [[st m1]|] eqn:E1; [|done]. cbn [mbind option_bind]. intros E2.
  etransitivity; [eapply fsm_calm; [|exact E1]; done|]. etransitivity; [|by apply IH]. destruct (QDF_IS_STATUS_SUCCESS st); [|done].
  by apply quiet_calm, quiet_upd.
Qed.

Lemma chansw_calm a k m m' x :
  sessions m !! k = Some x → disableDFSChSwitch (base x) = false → chansw_update a k m = Some m' → calm m m'.
Proof.
  intros Hx Hd. unfold chansw_update. rewrite Hx. cbn [mbind option_bind]. rewrite Hd.
  destruct (negb _); [by intros [= <-]|]. set (m1 := upd k (set_state eSAP_DISCONNECTING) m).
  set (m2 := if target_channel m1 =? 0 then m1 else _).
  assert (H2 : calm m m2).
  { etransitivity; [apply (calm_set_state k)|]. apply quiet_calm. unfold m2, m1. destruct (_ =? 0); [done|]. by apply quiet_upd. }
  destruct (_ <=? 1); [by apply calm_then_fsm|].
  set (m3 := upd k _ m2). assert (H3 : calm m m3) by (etransitivity; [exact H2|by apply quiet_calm, quiet_upd]).
  destruct (negb _); [by intros [= <-]|]. intros Es. etransitivity; [exact H3|by eapply issue_changes_calm].
Qed.

Lemma channel_changed_calm a k m m' : channel_change_success a k m = Some m' → calm m m'.
Proof.
  unfold channel_change_success. destruct (sessions m !! k) as [x|] eqn:Hx; [|done]. cbn [mbind option_bind].
  set (m1 := upd k (set_channel (target_channel m)) m).
  assert (H1 : calm m m1) by by apply quiet_calm, quiet_upd.
  assert (Hx1 : sessions m1 !! k = Some (set_channel (target_channel m) x)).
  { unfold m1. cbn. rewrite list_lookup_alter. by rewrite decide_True, Hx. }
  destruct (negb _); [by intros [= <-]|].
  set (started := λ m, upd k (set_state eSAP_STARTING) (m <| dfs := dfs m <| sap_radar_found_status := false |> |>)).
  assert (Hst : ∀ m2, calm m m2 → calm m (started m2)).
  { intros m2 H2. etransitivity; [exact H2|]. etransitivity; [|apply calm_set_state]. apply quiet_calm. quiet_flags. }
  assert (Hb : exempt m1 k → calm m (started (snd (wlansap_start_beacon_req a k m1)))).
  { intros He. apply Hst. etransitivity; [exact H1|by apply calm_beacon]. }
  set (dfs_ch := needs_cac _).
  destruct (dfs_ch && pre_cac_complete x) eqn:Ep.
  - apply calm_then_fsm; [done|]. apply Hb. right; right. exists (set_channel (target_channel m) x). split; [done|].
    by apply andb_true_iff in Ep as [_ Hp].
  - destruct dfs_ch; [|by apply calm_then_fsm, Hst].
    destruct (negb (ignore_cac m1) && negb (cac_skip m1)) eqn:Ew.
    + apply calm_then_fsm; [done|]. etransitivity; [exact H1|apply calm_set_state].
    + apply calm_then_fsm; [done|]. apply Hb. destruct (ignore_cac m1) eqn:Ei; [by left|]. right; left. by destruct (cac_skip m1).
Qed.

Lemma start_calm a k mode m m' : ('(_, m) ← wlansap_start a k mode m; Some m) = Some m' → calm m m'.
Proof.
  unfold wlansap_start. destruct (sap_open_session _ _ _) as [[st m1]|] eqn:Eo; [|done]. cbn [mbind option_bind]. intros [= <-].
  apply quiet_open in Eo. apply quiet_calm. etransitivity; [|exact Eo]. by apply quiet_upd.
Qed.

(** An access point that is told to beacon: its check is skipped, or the timer of
    the check expired while it waited, or channel switches are disabled for
    tests and it was told to leave. *)
Definition justified (o : sap_op) m k : Prop :=
  exempt m k ∨ (o = Sap_timer_expired ∧ state_of m k = Some eSAP_DFS_CAC_WAIT) ∨
  (o = Sap_chansw_update k ∧ ∃ x, sessions m !! k = Some x ∧ disableDFSChSwitch (base x) = true).

(** What an operation tells the access points. *)
Definition tells (P : nat → Prop) m m' : Prop := ∃ new, beacons m' = new ++ beacons m ∧ Forall P new.

Lemma calm_tells o m m' : calm m m' → tells (justified o m) m m'.
Proof.
  intros (_ & _ & new & Hn & Hf). exists new. split; [done|]. eapply Forall_impl; [exact Hf|]. by left.
Qed.

Lemma timer_tells a m m' :
  sap_dfs_cac_timer_callback a (m <| sap_dfs_cac_timer := None |>) = Some m' → tells (justified Sap_timer_expired m) m m'.
Proof.
  unfold sap_dfs_cac_timer_callback. set (m1 := m <| sap_dfs_cac_timer := None |>).
  destruct (sap_find_cac_wait_session m1) as [k|] eqn:Ef; [|intros [= <-]; by exists []].
  apply find_some in Ef as [_ Hk]. set (m2 := if is_dfs_cac_timer_running m1 then _ else m1).
  assert (H2 : quiet m m2) by (unfold m2; split_if; quiet_flags).
  assert (Hw : state_of m2 k = Some eSAP_DFS_CAC_WAIT).
  { rewrite (quiet_state _ _ _ H2). unfold in_state in Hk. unfold state_of. change (sessions m1) with (sessions m) in Hk.
    destruct (sessions m !! k) as [x|]; [|done]. apply bool_decide_eq_true in Hk. cbn. by rewrite Hk. }
  destruct (sap_fsm a k eSAP_DFS_CHANNEL_CAC_END m2) as [[st m3]|] eqn:E3; [|done]. cbn [mbind option_bind]. intros [= <-].
  apply cac_end_here in E3 as (_ & _ & _ & new & Hn & Hf); [|done]. exists new.
  rewrite Hn. pose proof H2 as (_ & _ & ->). split; [done|]. eapply Forall_impl; [exact Hf|].
  intros j Hj. right; left. split; [done|]. by rewrite <- (quiet_state m m2 j).
Qed.

Lemma start_bss_tells a k c m m' :
  fsm_op a k eSAP_HDD_START_INFRA_BSS (upd k (configure c) m) = Some m' → tells (exempt m) m m'.
Proof.
  set (m1 := upd k (configure c) m). intros (_ & _ & new & Hn & Hf)%fsm_op_calm; [|done].
  exists new. split; [done|]. eapply Forall_impl; [exact Hf|]. intros j [?|[?|(y & Hy & Hp)]]; [by left|by right; left|right; right].
  unfold m1 in Hy. cbn in Hy. rewrite list_lookup_alter in Hy. destruct (decide (k = j)) as [<-|]; [|by exists y].
  destruct (sessions m !! k) as [x|]; [|done]. cbn in Hy. injection Hy as <-. by exists x.
Qed.

Lemma close_beacons a k m m' : wlansap_clean_cb a k m = Some m' →
  flags_le m m' ∧ beacons m' = beacons m ∧
  (∃ m1, Forall2 free_session (sessions m) (sessions m1) ∧ sessions m' = alter (λ _, zero_session) k (sessions m1)).
Proof.
  unfold wlansap_clean_cb. destruct (sessions m !! k) as [x|]; [|done]. cbn [mbind option_bind].
  destruct (if isSapSessionOpen x then _ else _) as [m1|] eqn:E1; [|done]. cbn [mbind option_bind]. intros [= <-].
  assert (H1 : quiet m m1).
  { destruct (isSapSessionOpen x); [|by injection E1 as <-].
    destruct (sap_close_session a k m) as [[b m2]|] eqn:E2; [|done]. cbn [mbind option_bind] in E1. injection E1 as <-.
    by eapply quiet_close. }
  split_and!; [apply H1|apply H1|]. exists m1. split; [by apply quiet_calm|done].
Qed.

(** *** Without a check no access point beacons *)
Definition unchecked (x : sap_session) : bool := pre_cac_complete x || disableDFSChSwitch (base x).

(** Nothing excuses an access point from its check. *)
Definition strict m : Prop :=
  ignore_cac m = false ∧ cac_skip m = false ∧ Forall (λ x, unchecked x = false) (sessions m).

Definition checked_op (o : sap_op) : bool :=
  match o with
  | Sap_timer_expired => false
  | Sap_ignore_cac b => negb b
  | Sap_pre_cac _ _ complete _ => negb complete
  | Sap_start_bss _ c => negb (cf_disableDFSChSwitch c)
  | _ => true
  end.

Lemma strict_not_exempt m k : strict m → ¬ exempt m k.
Proof.
  intros (Hi & Hc & Hf) [?|[?|(x & Hx & Hp)]]; [congruence..|].
  rewrite Forall_lookup in Hf. specialize (Hf k x Hx). unfold unchecked in Hf. by rewrite Hp in Hf.
Qed.

Definition kept m m' : Prop := strict m → strict m' ∧ beacons m' = beacons m.

Lemma strict_flags m m' : flags_le m m' → strict m → Forall (λ x, unchecked x = false) (sessions m') → strict m'.
Proof.
  intros [Hk Hi] (? & ? & _) Hf. split_and!; [destruct (ignore_cac m'); [by specialize (Hi eq_refl); congruence|done]| |done].
  destruct (cac_skip m'); [by specialize (Hk eq_refl); congruence|done].
Qed.

Lemma free_unchecked x y : free_session x y → unchecked x = false → unchecked y = false.
Proof.
  intros [Hp Hd]. unfold unchecked. rewrite Hd. destruct (pre_cac_complete y), (pre_cac_complete x); cbn; try done. by rewrite Hp.
Qed.

Lemma frees_unchecked l l' :
  Forall2 free_session l l' → Forall (λ x, unchecked x = false) l → Forall (λ x, unchecked x = false) l'.
Proof.
  induction 1; [done|]. intros (?&?)%Forall_cons_1. constructor; [by eapply free_unchecked|auto].
Qed.

Lemma calm_kept m m' : calm m m' → kept m m'.
Proof.
  intros (Hs & Hf & new & Hn & Hj) H. split.
  - eapply strict_flags; [exact Hf|exact H|]. eapply frees_unchecked; [exact Hs|apply H].
  - destruct new as [|j new]; [done|]. apply Forall_cons_1 in Hj as [Hj _]. by destruct (strict_not_exempt m j).
Qed.

Lemma unchecked_upd k f m :
  (∀ x, unchecked x = false → unchecked (f x) = false) → Forall (λ x, unchecked x = false) (sessions m) →
  Forall (λ x, unchecked x = false) (sessions (upd k f m)).
Proof. intros Hf Hs. cbn. apply Forall_alter; [done|]. intros x Hx _. apply Hf. rewrite Forall_lookup in Hs. by apply (Hs k). Qed.

Lemma kept_upd k f m : (∀ x, unchecked x = false → unchecked (f x) = false) → kept m (upd k f m).
Proof. intros Hf H. split; [|done]. apply (strict_flags m); [by split|exact H|]. by apply unchecked_upd, H. Qed.

Lemma kept_then_calm m m1 m' : kept m m1 → calm m1 m' → kept m m'.
Proof. intros H1 H2 H. destruct (H1 H) as [Hs <-]. by apply calm_kept. Qed.

Lemma step_kept o a m m' : checked_op o = true → sap_step o a m = Some m' → kept m m'.
Proof.
  intros Ho Heq. destruct o as [k mode|k c|k|k|k|k ch bw|k ok|k ev|k|k|k [|]|k|k|k|k|k|k|k on complete ch|b|ch|]; cbn [sap_step] in Heq.
  all: try (by apply fsm_op_calm, calm_kept in Heq).
  - by eapply calm_kept, start_calm.
  - change (fsm_op a k eSAP_HDD_START_INFRA_BSS (upd k (configure c) m) = Some m') in Heq. apply fsm_op_calm in Heq; [|done].
    eapply kept_then_calm; [|exact Heq]. apply kept_upd. intros x. unfold unchecked. cbn in *.
    destruct (cf_disableDFSChSwitch c); [done|]. by destruct (pre_cac_complete x).
  - intros H. apply close_beacons in Heq as (Hf & Hb & m1 & Hs & He). split; [|done].
    eapply strict_flags; [exact Hf|exact H|]. rewrite He. apply Forall_alter; [|done]. eapply frees_unchecked; [exact Hs|apply H].
  - injection Heq as <-. by apply kept_upd.
  - destruct (wlansap_set_channel_change_with_csa a k ch bw m) as [[st m1]|] eqn:E1; [|done]. injection Heq as <-.
    by eapply calm_kept, csa_calm.
  - destruct (wlansap_scan_callback sap_fsm a k ok m) as [[st m1]|] eqn:E1; [|done]. injection Heq as <-.
    by eapply calm_kept, scan_callback_calm.
  - by eapply calm_kept, radar_ind_calm.
  - by eapply calm_kept, radar_found_calm.
  - intros H. destruct (sessions m !! k) as [x|] eqn:Hx; [|unfold chansw_update in Heq; by rewrite Hx in Heq].
    apply (calm_kept m m'); [|exact H]. eapply chansw_calm; [exact Hx| |exact Heq].
    destruct H as (_ & _ & Hf). rewrite Forall_lookup in Hf. specialize (Hf k x Hx). unfold unchecked in Hf.
    by apply orb_false_iff in Hf as [_ Hd].
  - by eapply calm_kept, channel_changed_calm.
  - injection Heq as <-. by apply kept_upd.
  - injection Heq as <-. apply calm_kept, quiet_calm, quiet_signal.
  - injection Heq as <-. apply kept_upd. intros x. unfold unchecked. cbn in *. destruct complete; [done|]. by destruct (pre_cac_complete x).
  - injection Heq as <-. destruct b; [done|]. apply calm_kept, quiet_calm. quiet_flags.
  - injection Heq as <-. apply calm_kept, quiet_calm. quiet_flags.
  - done.
Qed.

(** C4: no access point is told to beacon before the check of its channel.
    From any state in which the check is in force (it is not ignored by
    configuration, it was not done by an earlier check, no test mode), and
    through any operations that do not switch it off, whatever the layers around
    answer: as long as the timer of the check has not expired, no request to
    beacon is sent, and the check stays in force. *)
Theorem no_beacon_before_check ops m m' :
  strict m → Forall (λ oa, checked_op (fst oa) = true) ops → sap_run ops m = Some m' →
  strict m' ∧ beacons m' = beacons m.
Proof.
  revert m. induction ops as [|[o a] ops IH]; intros m Hm Hops Heq; cbn [sap_run] in Heq; [by injection Heq as <-|].
  apply Forall_cons_1 in Hops as [Ho Hops]. destruct (sap_step o a m) as [m1|] eqn:E1; [|done]. cbn [mbind option_bind] in Heq.
  destruct (step_kept o a m m1 Ho E1 Hm) as [H1 Hb]. destruct (IH m1 H1 Hops Heq) as [H2 Hb2]. split; [done|congruence].
Qed.

(** C23: a request to beacon has a reason.  One operation, from any state: every
    access point that it tells to beacon is excused from the check (it is
    ignored, done before, or done ahead for the channel), or it waited for the
    check and the timer expired, or it runs in the test mode without channel
    switches. *)
Theorem beacons_justified o a m m' : sap_step o a m = Some m' → tells (justified o m) m m'.
Proof.
  intros Heq. destruct o as [k mode|k c|k|k|k|k ch bw|k ok|k ev|k|k|k [|]|k|k|k|k|k|k|k on complete ch|b|ch|]; cbn [sap_step] in Heq.
  all: try (by apply fsm_op_calm in Heq; [apply calm_tells|]).
  - by eapply calm_tells, start_calm.
  - apply start_bss_tells in Heq as (new & Hn & Hf). exists new. split; [done|]. eapply Forall_impl; [exact Hf|]. by left.
  - apply close_beacons in Heq as (_ & Hb & _). by exists [].
  - injection Heq as <-. by exists [].
  - destruct (wlansap_set_channel_change_with_csa a k ch bw m) as [[st m1]|] eqn:E1; [|done]. injection Heq as <-.
    by eapply calm_tells, csa_calm.
  - destruct (wlansap_scan_callback sap_fsm a k ok m) as [[st m1]|] eqn:E1; [|done]. injection Heq as <-.
    by eapply calm_tells, scan_callback_calm.
  - by eapply calm_tells, radar_ind_calm.
  - by eapply calm_tells, radar_found_calm.
  - destruct (sessions m !! k) as [x|] eqn:Hx; [|unfold chansw_update in Heq; by rewrite Hx in Heq].
    destruct (disableDFSChSwitch (base x)) eqn:Hd; [|by eapply calm_tells, chansw_calm].
    unfold chansw_update in Heq. rewrite Hx in Heq. cbn [mbind option_bind] in Heq. rewrite Hd in Heq. injection Heq as <-.
    exists [k]. split; [done|]. constructor; [|done]. right; right. split; [done|by exists x].
  - by eapply calm_tells, channel_changed_calm.
  - injection Heq as <-. by exists [].
  - injection Heq as <-. apply calm_tells, quiet_calm, quiet_signal.
  - injection Heq as <-. by exists [].
  - injection Heq as <-. by exists [].
  - injection Heq as <-. by exists [].
  - by eapply timer_tells.
Qed.

(** *** The end of a check, exactly *)
Lemma fsm_in_state a k msg m x :
  sessions m !! k = Some x →
  sap_fsm a k msg m =
    match sapsMachine x with
    | eSAP_DISCONNECTED => sap_fsm_state_disconnected (sap_fsm_n 1) a k msg m
    | eSAP_CH_SELECT => sap_fsm_state_ch_select a k msg m
    | eSAP_DFS_CAC_WAIT => sap_fsm_state_dfs_cac_wait a k msg m
    | eSAP_STARTING => sap_fsm_state_starting (sap_fsm_n 1) a k msg m
    | eSAP_STARTED => sap_fsm_state_started a k msg m
    | eSAP_DISCONNECTING => sap_fsm_state_disconnecting a k msg m
    end.
Proof. intros Hx. unfold sap_fsm. cbn [sap_fsm_n]. by rewrite Hx. Qed.

(** A signal only adds to the trace. *)
Lemma signal_as a k e m :
  ∃ l, sap_signal_hdd_event a k e m = (fst (sap_signal_hdd_event a k e m), m <| trace := l ++ trace m |>) ∧
    omap (λ e, match e with Ev_start_beacon k => Some k | _ => None end) l = [].
Proof.
  unfold sap_signal_hdd_event. destruct (sessions m !! k) as [x|]; [destruct (pfnSapEventCallback x)|].
  - by exists [Ev_hdd k e].
  - exists []. split; [|done]. by destruct m.
  - exists []. split; [|done]. by destruct m.
Qed.

Lemma beacons_app l m : omap (λ e, match e with Ev_start_beacon k => Some k | _ => None end) l = [] →
  beacons (m <| trace := l ++ trace m |>) = beacons m.
Proof. intros Hl. unfold beacons. cbn. by rewrite omap_app, Hl. Qed.

Lemma lookup_upd k f m x : sessions m !! k = Some x → sessions (upd k f m) !! k = Some (f x).
Proof. intros Hx. cbn. by rewrite list_lookup_alter, decide_True, Hx. Qed.

Lemma lookup_upd_ne k j f m : j ≠ k → sessions (upd k f m) !! j = sessions m !! j.
Proof. intros Hj. cbn. rewrite list_lookup_alter, decide_False by congruence. done. Qed.

(** The HDD layer takes the two events. *)
Definition hdd_takes a k x : Prop :=
  pfnSapEventCallback x = true ∧ hdd_ok a k eSAP_DFS_CAC_END = true ∧ hdd_ok a k (eSAP_START_BSS_EVENT true) = true.

Lemma signal_ok a k e m x : sessions m !! k = Some x → pfnSapEventCallback x = true →
  sap_signal_hdd_event a k e m = (hdd_ok a k e, emit_fsm (Ev_hdd k e) m).
Proof. intros Hx Hp. unfold sap_signal_hdd_event. by rewrite Hx, Hp. Qed.

Lemma cac_end_one_ok a k m x :
  sessions m !! k = Some x → hdd_takes a k x →
  ∃ m', cac_end_one a k m = (true, m') ∧ state_of m' k = Some eSAP_STARTED ∧
    (∀ j, j ≠ k → sessions m' !! j = sessions m !! j) ∧ beacons m' = k :: beacons m.
Proof.
  intros Hx (Hp & H1 & H2). unfold cac_end_one. rewrite (signal_ok _ _ _ _ _ Hx Hp), H1.
  set (m1 := upd k _ (emit_fsm _ m)). assert (Hx1 : sessions m1 !! k = Some (x <| isCacEndNotified := true |>)) by by apply lookup_upd.
  set (m2 := m1 <| dfs := _ |>). unfold wlansap_start_beacon_req. change (sap_radar_found_status (dfs m2)) with false. cbv iota. cbn [snd].
  set (m3 := upd k (set_state eSAP_STARTED) _).
  assert (Hx3 : sessions m3 !! k = Some (set_state eSAP_STARTED (x <| isCacEndNotified := true |> <| pre_cac_complete := false |>))).
  { unfold m3. apply lookup_upd. apply (lookup_upd k _ m2). exact Hx1. }
  rewrite (signal_ok _ _ _ _ _ Hx3 Hp), H2. eexists. split; [done|]. split_and!.
  - unfold state_of. change (sessions (emit_fsm _ m3)) with (sessions m3). by rewrite Hx3.
  - intros j Hj. change (sessions (emit_fsm _ m3)) with (sessions m3). unfold m3. rewrite lookup_upd_ne by done.
    change (sessions (emit_fsm _ (upd k (λ x, x <| pre_cac_complete := false |>) m2))) with (sessions (upd k (λ x, x <| pre_cac_complete := false |>) m1)).
    rewrite lookup_upd_ne by done. unfold m1. by rewrite lookup_upd_ne.
  - done.
Qed.

(** A context whose check can be completed. *)
Definition ready a m k : Prop :=
  ∀ x, sessions m !! k = Some x → sapsMachine x = eSAP_DFS_CAC_WAIT →
    hdd_takes a k x ∧ isCacEndNotified x = false ∧ is_pre_cac_on x = false.

Lemma cac_end_loop_ok a (ks : list nat) st m :
  NoDup ks → (∀ k, k ∈ ks → ready a m k) →
  ∃ st' m', cac_end_loop a ks st m = (st', m') ∧ cac_skip m' = true ∧
    beacons m' = reverse (List.filter (λ k, in_state m k eSAP_DFS_CAC_WAIT) ks) ++ beacons m ∧
    ∀ j, state_of m' j = if decide (j ∈ ks ∧ state_of m j = Some eSAP_DFS_CAC_WAIT) then Some eSAP_STARTED else state_of m j.
Proof.
  intros Hnd. revert m st. induction Hnd as [|k ks Hk Hnd IH]; intros m st Hr; cbn [cac_end_loop].
  { eexists _, _. split_and!; [done..|]. intros j. rewrite decide_False; [done|]. by intros [[]%elem_of_nil _]. }
  assert (Hw : in_state m k eSAP_DFS_CAC_WAIT = bool_decide (state_of m k = Some eSAP_DFS_CAC_WAIT)).
  { unfold in_state, state_of. destruct (sessions m !! k) as [x|]; [|done]. cbn. apply bool_decide_ext. split; congruence. }
  destruct (in_state m k eSAP_DFS_CAC_WAIT) eqn:Ew.
  - symmetry in Hw. apply bool_decide_eq_true in Hw. destruct (state_lookup m k _ Hw) as (x & Hx & Hxs).
    destruct (Hr k ltac:(by left) x Hx Hxs) as (Ht & He & Hp). unfold cac_end_due. rewrite Hx, He, bool_decide_true by done.
    cbn [negb andb from_option]. rewrite Hp. destruct (cac_end_one_ok a k m x Hx Ht) as (m1 & -> & H1 & H2 & H3).
    assert (Hsame : ∀ j, j ≠ k → state_of m1 j = state_of m j) by (intros j Hj; unfold state_of; by rewrite H2).
    destruct (IH m1 QDF_STATUS_SUCCESS) as (st' & m' & -> & Hc & Hb & Hs).
    { intros j Hj y. rewrite H2 by congruence. apply Hr. by right. }
    exists st', m'. split_and!; [done|done| |].
    + rewrite Hb, H3. cbn [List.filter]. rewrite Ew, reverse_cons, <- app_assoc. cbn. do 2 f_equal. apply filter_ext_in.
      intros j Hj%list_elem_of_In. unfold in_state. rewrite H2 by congruence. done.
    + intros j. rewrite Hs. destruct (decide (j = k)) as [->|Hj].
      * rewrite decide_False by (intros [? _]; done). rewrite decide_True; [done|]. by split; [left|].
      * rewrite Hsame by done. apply decide_ext. rewrite elem_of_cons. naive_solver.
  - assert (Hn : state_of m k ≠ Some eSAP_DFS_CAC_WAIT) by by (symmetry in Hw; apply bool_decide_eq_false in Hw).
    assert (cac_end_due m k = false) as ->.
    { unfold cac_end_due, state_of in *. destruct (sessions m !! k) as [x|]; [|done]. rewrite bool_decide_false by (cbn in Hn; congruence).
      by rewrite andb_false_r. }
    cbn [negb]. destruct (IH m st) as (st' & m' & -> & Hc & Hb & Hs); [intros j Hj; apply Hr; by right|].
    exists st', m'. split_and!; [done|done| |].
    + cbn [List.filter]. by rewrite Ew.
    + intros j. rewrite Hs. apply decide_ext. rewrite elem_of_cons. naive_solver.
Qed.

Lemma find_none_filter {A} (p : A → bool) l : find p l = None → List.filter p l = [].
Proof. induction l as [|z l IH]; [done|]. cbn. by destruct (p z). Qed.

(** C22: every check comes to its end.  When the timer expires and the HDD layer
    takes the events, then exactly the registered access points that waited for
    the check are started and told to beacon, in the order of the array; the
    others keep their state; and further checks are skipped.  Whether the timer
    was known to run makes no difference. *)
Theorem cac_completes a m :
  NoDup (ap_contexts m) → (∀ k, k ∈ ap_contexts m → ready a m k) →
  let waiting := List.filter (λ k, in_state m k eSAP_DFS_CAC_WAIT) (ap_contexts m) in
  ∃ m', sap_step Sap_timer_expired a m = Some m' ∧ beacons m' = reverse waiting ++ beacons m ∧
    (waiting ≠ [] → cac_skip m' = true) ∧
    ∀ j, state_of m' j = if decide (j ∈ ap_contexts m ∧ state_of m j = Some eSAP_DFS_CAC_WAIT) then Some eSAP_STARTED else state_of m j.
Proof.
  intros Hnd Hr waiting. cbn [sap_step]. unfold sap_dfs_cac_timer_callback. set (m0 := m <| sap_dfs_cac_timer := None |>).
  unfold sap_find_cac_wait_session. change (find (λ k, in_state m0 k eSAP_DFS_CAC_WAIT) (ap_contexts m0)) with
    (find (λ k, in_state m k eSAP_DFS_CAC_WAIT) (ap_contexts m)).
  destruct (find _ (ap_contexts m)) as [k|] eqn:Ef.
  - apply find_some in Ef as [Hk Hw]. set (m1 := if is_dfs_cac_timer_running m0 then _ else m0).
    assert (H1 : sessions m1 = sessions m ∧ ap_contexts m1 = ap_contexts m ∧ beacons m1 = beacons m) by (unfold m1; split_if; done).
    destruct H1 as (Hs1 & Hc1 & Hb1).
    assert (Hst1 : ∀ j, state_of m1 j = state_of m j) by (intros j; unfold state_of; by rewrite Hs1).
    unfold in_state in Hw. destruct (sessions m !! k) as [x|] eqn:Hx; [|done]. apply bool_decide_eq_true in Hw.
    rewrite (fsm_in_state a k _ m1 x) by by rewrite Hs1. rewrite Hw. cbn [sap_fsm_state_dfs_cac_wait mbind option_bind].
    unfold sap_cac_end_notify. rewrite Hc1.
    destruct (cac_end_loop_ok a (ap_contexts m) QDF_STATUS_E_FAILURE m1 Hnd) as (st' & m' & -> & Hc & Hb & Hs).
    { intros j Hj y. rewrite Hs1. by apply Hr. }
    exists m'. split_and!; [done| |done|].
    + rewrite Hb, Hb1. do 2 f_equal. apply filter_ext. intros j. unfold in_state. by rewrite Hs1.
    + intros j. rewrite Hs, !Hst1. done.
  - apply find_none_filter in Ef. exists m0. split_and!; [done| | |].
    + unfold waiting. by rewrite Ef.
    + unfold waiting. by rewrite Ef.
    + intros j. change (state_of m0 j) with (state_of m j). rewrite decide_False; [done|]. intros [Hj Hs].
      assert (Hin : j ∈ List.filter (λ k, in_state m k eSAP_DFS_CAC_WAIT) (ap_contexts m)).
      { apply list_elem_of_In, filter_In. split; [by apply list_elem_of_In|]. unfold in_state, state_of in *.
        destruct (sessions m !! j) as [x|]; [|done]. apply bool_decide_eq_true. by injection Hs. }
      rewrite Ef in Hin. by apply elem_of_nil in Hin.
Qed.

(** *** A radar, from the indication to the new channel *)
(** The only access point. *)
Definition single k x m : Prop := ap_contexts m = [k] ∧ sessions m !! k = Some x.

(** Everything but the contexts and the trace. *)
Definition same_flags m m' : Prop :=
  target_channel m' = target_channel m ∧ cac_skip m' = cac_skip m ∧ ignore_cac m' = ignore_cac m.

Lemma single_upd k f x m : single k x m → single k (f x) (upd k f m).
Proof. intros [Hc Hx]. split; [exact Hc|by apply lookup_upd]. Qed.

Lemma signal_single a k e x m :
  single k x m → ∃ l, signal a k e m = m <| trace := l ++ trace m |> ∧ single k x (signal a k e m) ∧ beacons (signal a k e m) = beacons m.
Proof.
  intros Hs. unfold signal. destruct (signal_as a k e m) as (l & Hl & Hb). exists l. rewrite Hl. split_and!; [done..|by apply beacons_app].
Qed.

Lemma reset_single k x m : single k x m → sap_cac_reset_notify m = upd k clear_cac_notified m.
Proof. intros [Hc _]. unfold sap_cac_reset_notify. by rewrite Hc. Qed.

Lemma ind_moves a k ev m x t ctx' d' s' :
  single k x m → is_pre_cac_on x = false → user_provided_target_channel m = 0 → t ≠ 0 →
  sap_indicate_radar (sap_view x) (nol_get (platform_list a x) (dfs m)) (cds m) ev (stale_pcl a) (a_alloc a) (a_now a) (a_rnd a) = Some (t, ctx', d', s') →
  ∃ m1, radar_ind a k ev m = Some m1 ∧ single k (clear_cac_notified (x <| base := ctx' |>)) m1 ∧
    target_channel m1 = t ∧ cac_skip m1 = false ∧ ignore_cac m1 = ignore_cac m ∧ beacons m1 = beacons m.
Proof.
  intros Hs Hp Hu Ht Hi. unfold radar_ind. rewrite (proj2 Hs). cbn [mbind option_bind]. rewrite Hp.
  destruct (signal_single a k eSAP_DFS_RADAR_DETECT x m Hs) as (l1 & E1 & Hs1 & B1).
  destruct (signal_single a k eSAP_DFS_NOL_GET x _ Hs1) as (l2 & E2 & Hs2 & B2). rewrite B1 in B2.
  set (m2' := signal a k eSAP_DFS_NOL_GET _) in *. set (m2 := m2' <| dfs ::= _ |>).
  change (single k x m2) in Hs2. change (beacons m2' = beacons m) with (beacons m2 = beacons m) in B2.
  assert (H2 : dfs m2 = nol_get (platform_list a x) (dfs m) ∧ cds m2 = cds m ∧ user_provided_target_channel m2 = 0 ∧ ignore_cac m2 = ignore_cac m).
  { unfold m2. rewrite E2, E1. by split_and!. }
  destruct H2 as (-> & -> & Hu2 & Hi2). rewrite Hi. cbn [mbind option_bind].
  set (m3 := upd k _ _). assert (Hs3 : single k (x <| base := ctx' |>) m3).
  { destruct Hs2. unfold m3. by apply (single_upd k (λ x, x <| base := ctx' |>)). }
  replace (user_provided_target_channel m3) with 0 by by symmetry. cbn [Z.ltb Z.compare].
  change (target_channel m3) with t. destruct (Z.eqb_spec t 0); [done|]. cbn [negb].
  rewrite (reset_single k (x <| base := ctx' |>)) by exact Hs3.
  set (m4 := upd k clear_cac_notified _).
  assert (Hs4 : single k (clear_cac_notified (x <| base := ctx' |>)) m4) by (apply single_upd; exact Hs3).
  destruct (signal_single a k eSAP_DFS_NOL_SET _ m4 Hs4) as (l & E4 & H5 & B5). eexists. split; [done|].
  split; [exact H5|]. rewrite E4. split_and!; [done..|]. rewrite <- E4, B5, <- B2. done.
Qed.

Lemma found_moves a k m x :
  single k x m → sapsMachine x = eSAP_STARTED →
  ∃ m1, radar_found a k m = Some m1 ∧ single k x m1 ∧ same_flags m m1 ∧ trace m1 = Ev_csa_ie k (target_channel m) :: trace m.
Proof.
  intros Hs Hst. unfold radar_found. rewrite (proj2 Hs). cbn [mbind option_bind]. rewrite Hst.
  rewrite bool_decide_false by done. rewrite bool_decide_true by done.
  rewrite (fsm_in_state a k _ m x), Hst by apply Hs. cbn [sap_fsm_state_started]. rewrite (proj1 Hs). cbn.
  eexists. split; [done|]. by split_and!.
Qed.

Lemma change_request_moves a k t m x :
  single k x m → channels_set x = true →
  ∃ m1, snd (wlansap_channel_change_request a k t m) = m1 ∧
    single k (set_channel t (x <| ch_params := ch_params x <| cp_width := new_ch_width (set_new_params t (dfs m)) |> |>)) m1 ∧
    same_flags m m1 ∧ beacons m1 = beacons m ∧ Ev_channel_change k t ∈ trace m1 ∧ trace m ⊆ trace m1.
Proof.
  intros Hs Hc. unfold wlansap_channel_change_request. rewrite (proj2 Hs), Hc. cbn [negb].
  set (f := λ x, set_channel t _). set (m1 := emit_fsm _ _).
  assert (Hs1 : single k (f x) m1) by (apply (single_upd k f x); exact Hs).
  assert (H1 : same_flags m m1 ∧ beacons m1 = beacons m ∧ Ev_channel_change k t ∈ trace m1 ∧ trace m ⊆ trace m1).
  { split_and!; [done..|by left|]. intros e He. by right. }
  destruct H1 as (F1 & B1 & T1 & S1).
  destruct (change_ok a); cbn [snd]; [|by exists m1].
  destruct (signal_single a k eSAP_CHANNEL_CHANGE_EVENT _ m1 Hs1) as (l & E1 & H2 & B2). exists (signal a k eSAP_CHANNEL_CHANGE_EVENT m1).
  split; [done|]. split; [exact H2|]. rewrite B2. split; [by rewrite E1|]. split; [done|]. rewrite E1. cbn [trace]. set_solver.
Qed.

Lemma chansw_moves a k m x :
  single k x m → sapsMachine x = eSAP_STARTED → disableDFSChSwitch (base x) = false → channels_set x = true → target_channel m ≠ 0 →
  ∃ m1 x1, chansw_update a k m = Some m1 ∧ single k x1 m1 ∧ sapsMachine x1 = eSAP_DISCONNECTING ∧
    pre_cac_complete x1 = pre_cac_complete x ∧ same_flags m m1 ∧ beacons m1 = beacons m ∧
    Ev_channel_change k (target_channel m) ∈ trace m1 ∧ trace m ⊆ trace m1.
Proof.
  intros Hs Hst Hd Hc Ht. unfold chansw_update. rewrite (proj2 Hs). cbn [mbind option_bind]. rewrite Hd, Hst.
  rewrite bool_decide_true by done. cbn [negb]. set (m1 := upd k (set_state eSAP_DISCONNECTING) m).
  change (target_channel m1) with (target_channel m). destruct (Z.eqb_spec (target_channel m) 0); [done|].
  set (m2 := upd k _ m1).
  assert (Hs2 : single k (set_params (target_channel m) 0 (set_state eSAP_DISCONNECTING x)) m2) by (do 2 apply single_upd; exact Hs).
  unfold sap_get_total_number_sap_intf. rewrite (proj1 Hs2). cbn [length Z.of_nat Z.leb Z.compare].
  rewrite (fsm_in_state a k _ m2 _ (proj2 Hs2)). change (sapsMachine (set_params _ _ _)) with eSAP_DISCONNECTING. cbv iota.
  unfold sap_fsm_state_disconnecting. rewrite (proj2 Hs2). cbn [mbind option_bind].
  destruct (change_request_moves a k (target_channel m2) m2 _ Hs2 Hc) as (m3 & E3 & Hs3 & F3 & B3 & T3 & S3).
  destruct (wlansap_channel_change_request a k (target_channel m2) m2) as [st m4]. cbn [snd] in E3. subst m4.
  cbn [mbind option_bind]. eexists _, _. split; [done|]. split; [exact Hs3|]. by split_and!.
Qed.

Lemma cac_start_moves a k x m :
  single k x m → ∃ x1, single k x1 (snd (sap_cac_start_notify a m)) ∧ sapsMachine x1 = sapsMachine x ∧ base x1 = base x ∧
    ch_params x1 = ch_params x ∧ trace m ⊆ trace (snd (sap_cac_start_notify a m)).
Proof.
  intros Hs. unfold sap_cac_start_notify. rewrite (proj1 Hs). cbn [cac_start_loop]. rewrite (proj2 Hs). cbn [from_option].
  destruct (isCacStartNotified x); [exists x; by split_and!|].
  destruct (signal_single a k eSAP_DFS_CAC_START x m Hs) as (l & E1 & H2 & _). unfold signal in *.
  destruct (sap_signal_hdd_event a k eSAP_DFS_CAC_START m) as [ok m1]. cbn [snd] in *.
  assert (Ht : trace m ⊆ trace m1) by (rewrite E1; cbn [trace]; set_solver).
  destruct ok; cbn [snd]; [|exists x; by split_and!].
  exists (x <| isCacStartNotified := true |>). split_and!; [|done..]. by apply (single_upd k (λ x, x <| isCacStartNotified := true |>)).
Qed.

Lemma wait_moves a k x m :
  single k x m → ∃ x1, single k x1 (snd (wait_for_cac a k m)) ∧ sapsMachine x1 = sapsMachine x ∧ base x1 = base x ∧
    ch_params x1 = ch_params x ∧ trace m ⊆ trace (snd (wait_for_cac a k m)).
Proof.
  intros Hs. unfold wait_for_cac. set (m1 := if is_dfs_cac_timer_running m then m else _).
  assert (H1 : single k x m1 ∧ trace m ⊆ trace m1).
  { unfold m1, sap_start_dfs_cac_timer. destruct (is_dfs_cac_timer_running m); [done|]. rewrite (proj2 Hs).
    destruct (ignore_cac m); [done|]. destruct (timer_ok a); (split; [exact Hs|]); [|done]. intros e He. by right. }
  destruct H1 as [H1 T1]. destruct (cac_start_moves a k x m1 H1) as (x1 & H2 & ? & ? & ? & T2).
  exists x1. split_and!; [done..|]. by etransitivity.
Qed.

Lemma changed_moves a k m x :
  single k x m → sapsMachine x = eSAP_DISCONNECTING → pre_cac_complete x = false → ignore_cac m = false → cac_skip m = false →
  ∃ m1 x1, channel_change_success a k m = Some m1 ∧ single k x1 m1 ∧ sap_channel (base x1) = target_channel m ∧
    sapsMachine x1 = (if needs_cac x1 then eSAP_DFS_CAC_WAIT else eSAP_STARTED) ∧ trace m ⊆ trace m1 ∧
    beacons m1 = beacons m.
Proof.
  intros Hs Hst Hp Hi Hk. unfold channel_change_success. rewrite (proj2 Hs). cbn [mbind option_bind].
  set (ch := target_channel m). set (m1 := upd k (set_channel ch) m).
  assert (Hs1 : single k (set_channel ch x) m1) by by apply single_upd.
  rewrite Hst, bool_decide_true by done. cbn [negb]. rewrite Hp, andb_false_r.
  change (ignore_cac m1) with (ignore_cac m). change (cac_skip m1) with (cac_skip m). rewrite Hi, Hk. cbn [negb andb].
  change (target_channel m1) with ch. destruct (needs_cac (set_channel ch x)) eqn:Hn; cbv beta iota zeta.
  - set (m2 := upd k (set_state eSAP_DISCONNECTED) m1).
    assert (Hs2 : single k (set_state eSAP_DISCONNECTED (set_channel ch x)) m2) by by apply single_upd.
    rewrite (fsm_in_state a k _ m2 _ (proj2 Hs2)). cbn [sapsMachine set_state].
    unfold sap_fsm_state_disconnected. rewrite (proj2 Hs2). cbn [mbind option_bind].
    set (m3 := upd k (set_state eSAP_DFS_CAC_WAIT) m2).
    assert (Hs3 : single k (set_state eSAP_DFS_CAC_WAIT (set_state eSAP_DISCONNECTED (set_channel ch x))) m3) by by apply single_upd.
    destruct (wait_moves a k _ m3 Hs3) as (x4 & Hs4 & Hst4 & Hb4 & Hc4 & T4).
    pose proof (quiet_wait a k m3) as (_ & _ & B4). destruct (wait_for_cac a k m3) as [st m4]. cbn [snd] in *. eexists _, x4. split; [done|]. split; [exact Hs4|].
    split; [by rewrite Hb4|]. split; [|by split]. replace (needs_cac x4) with true; [by rewrite Hst4|].
    rewrite <- Hn. unfold needs_cac, is_dfs_channel. by rewrite Hb4, Hc4.
  - set (m2 := upd k (set_state eSAP_STARTING) _).
    assert (Hs2 : single k (set_state eSAP_STARTING (set_channel ch x)) m2) by (apply single_upd; exact Hs1).
    rewrite (fsm_in_state a k _ m2 _ (proj2 Hs2)). cbn [sapsMachine set_state].
    unfold sap_fsm_state_starting. rewrite (proj2 Hs2). cbn [mbind option_bind].
    change (needs_cac (set_state _ _)) with (needs_cac (set_channel ch x)). rewrite Hn.
    set (m3 := upd k (set_state eSAP_STARTED) m2).
    assert (Hs3 : single k (set_state eSAP_STARTED (set_state eSAP_STARTING (set_channel ch x))) m3) by by apply single_upd.
    destruct (signal_single a k (eSAP_START_BSS_EVENT true) _ m3 Hs3) as (l & E4 & Hs4 & B4). unfold signal in *.
    destruct (sap_signal_hdd_event a k (eSAP_START_BSS_EVENT true) m3) as [ok m4]. cbn [snd mbind option_bind] in *.
    eexists _, _. split; [done|]. split; [exact Hs4|]. split; [done|]. split.
    + change (needs_cac (set_state _ _)) with (needs_cac (set_channel ch x)). by rewrite Hn.
    + split; [|exact B4]. rewrite E4. cbn [trace]. set_solver.
Qed.

Lemma stop_moves a k m x :
  single k x m → sapsMachine x = eSAP_STARTED →
  ∃ m1, stop_all a [k] m = Some m1 ∧ single k (set_state eSAP_DISCONNECTING x) m1 ∧ Ev_stop_bss k ∈ trace m1 ∧ beacons m1 = beacons m.
Proof.
  intros Hs Hst. cbn [stop_all]. unfold wlansap_stop_bss. rewrite (fsm_in_state a k _ m x), Hst by apply Hs. cbn [sap_fsm_state_started].
  unfold sap_goto_disconnecting. cbn [mbind option_bind]. eexists. split; [done|]. split; [by apply single_upd|]. split; [by left|done].
Qed.

Lemma ind_stops a k ev m x ctx' d' s' :
  single k x m → sapsMachine x = eSAP_STARTED → is_pre_cac_on x = false → user_provided_target_channel m = 0 →
  sap_indicate_radar (sap_view x) (nol_get (platform_list a x) (dfs m)) (cds m) ev (stale_pcl a) (a_alloc a) (a_now a) (a_rnd a) = Some (0, ctx', d', s') →
  ∃ m1, radar_ind a k ev m = Some m1 ∧ single k (set_state eSAP_DISCONNECTING (x <| base := ctx' |>)) m1 ∧
    Ev_stop_bss k ∈ trace m1 ∧ beacons m1 = beacons m.
Proof.
  intros Hs Hst Hp Hu Hi. unfold radar_ind. rewrite (proj2 Hs). cbn [mbind option_bind]. rewrite Hp.
  destruct (signal_single a k eSAP_DFS_RADAR_DETECT x m Hs) as (l1 & E1 & Hs1 & B1).
  destruct (signal_single a k eSAP_DFS_NOL_GET x _ Hs1) as (l2 & E2 & Hs2 & B2). rewrite B1 in B2.
  set (m2' := signal a k eSAP_DFS_NOL_GET _) in *. set (m2 := m2' <| dfs ::= _ |>).
  change (single k x m2) in Hs2. change (beacons m2' = beacons m) with (beacons m2 = beacons m) in B2.
  assert (H2 : dfs m2 = nol_get (platform_list a x) (dfs m) ∧ cds m2 = cds m ∧ user_provided_target_channel m2 = 0).
  { unfold m2. rewrite E2, E1. by split_and!. }
  destruct H2 as (-> & -> & Hu2). rewrite Hi. cbn [mbind option_bind].
  set (m3 := upd k _ _). assert (Hs3 : single k (x <| base := ctx' |>) m3).
  { destruct Hs2. unfold m3. by apply (single_upd k (λ x, x <| base := ctx' |>)). }
  replace (user_provided_target_channel m3) with 0 by by symmetry. cbn [Z.ltb Z.compare].
  change (target_channel m3) with 0. cbn [Z.eqb negb]. rewrite (proj1 Hs3).
  destruct (stop_moves a k m3 _ Hs3 Hst) as (m4 & -> & Hs4 & T4 & B4). exists m4. split_and!; [done|exact Hs4|done|by rewrite B4, <- B2].
Qed.

(** C5: a radar moves the network away.  A single started access point, a
    radar on the channels [radar]: when the search succeeds, with the non-occupancy
    list [nol] that the platform has supplied on the indication, the indication, the
    announcement, the switch and its confirmation take the access point to a
    channel that passes all the rules and is none of the channels of the radar
    that need detection; the switch is announced and requested for that channel;
    if the new channel needs an availability check the access point waits for
    it, otherwise it is started; on the way it is not told to beacon.  If there
    is no channel it is stopped at once; without the leakage tables only if no
    channel is free. *)
Theorem radar_moves_network D nol now0 a1 a2 a3 a4 k ev m x p s' :
  single k x m → sapsMachine x = eSAP_STARTED → is_pre_cac_on x = false → pre_cac_complete x = false →
  channels_set x = true → ignore_cac m = false → user_provided_target_channel m = 0 →
  let d := nol_get (platform_list a1 x) (dfs m) in
  nol_rel D nol now0 d → now0 <= a_now a1 → is_u64 (a_now a1) → (∀ c, in_band c = true → CDS_IS_DFS_CH c = true → c ∈ D) →
  width_known (first_width (sap_view x) d) = true → query_ok (sap_view x) (cds m) (stale_pcl a1) p s' → a_alloc a1 = true →
  dfs_radar_status ev = true → disableDFSChSwitch (base x) = false → chan_before_pre_cac (base x) = 0 →
  0 <= nchannels ev → Z.of_nat (length (radar_channels ev)) = SIR_DFS_MAX_20M_SUB_CH →
  let radar := zread (radar_channels ev) 0 (Z.min SIR_DFS_MAX_20M_SUB_CH (nchannels ev)) in
  let nol' := foldl (spec_mark D (a_now a1)) nol radar in
  let may c := free (sap_view x) d nol' (a_now a1) p c in
  (∃ t m' x', sap_run [(Sap_radar_ind k ev, a1); (Sap_radar_found k, a2); (Sap_chansw_update k, a3); (Sap_channel_changed k true, a4)] m = Some m' ∧
    may t ∧ (CDS_IS_DFS_CH t = true → t ∉ radar) ∧
    sessions m' !! k = Some x' ∧ sap_channel (base x') = t ∧
    sapsMachine x' = (if needs_cac x' then eSAP_DFS_CAC_WAIT else eSAP_STARTED) ∧
    Ev_csa_ie k t ∈ trace m' ∧ Ev_channel_change k t ∈ trace m' ∧ beacons m' = beacons m) ∨
  (∃ m' x', sap_run [(Sap_radar_ind k ev, a1)] m = Some m' ∧ sessions m' !! k = Some x' ∧ sapsMachine x' = eSAP_DISCONNECTING ∧
    Ev_stop_bss k ∈ trace m' ∧ beacons m' = beacons m ∧ (WLAN_ENABLE_CHNL_MATRIX_RESTRICTION = false → ∀ c, ¬ may c)).
Proof.
  intros Hs Hst Hpon Hpre Hcs Hig Hu d Hr Hle Hnow HD Hw Hq Hal Hrad Hdis Hbp Hn Hlen radar nol' may.
  destruct (indicate_radar_spec D nol now0 (a_now a1) (sap_view x) d (cds m) ev (stale_pcl a1) (a_rnd a1) p s' Hr Hle Hnow HD Hw Hq
    Hrad Hdis Hbp Hn Hlen) as (t & ctx' & d' & Ei & _ & Hblock & Hnone & _).
  rewrite <- Hal in Ei. destruct (decide (t = 0)) as [->|Ht].
  - right. destruct (ind_stops a1 k ev m x ctx' d' s' Hs Hst Hpon Hu Ei) as (m1 & E1 & Hs1 & T1 & B1).
    exists m1. eexists. cbn [sap_run sap_step]. rewrite E1. split; [done|]. split; [apply Hs1|]. split_and!; [done..|].
    intros Hoff. by apply (Hnone Hoff).
  - left. destruct (ind_moves a1 k ev m x t ctx' d' s' Hs Hpon Hu Ht Ei) as (m1 & E1 & Hs1 & Ht1 & Hk1 & Hi1 & B1).
    assert (Hd' : disableDFSChSwitch ctx' = false) by (apply indicate_keeps in Ei; by rewrite Ei).
    destruct (found_moves a2 k m1 _ Hs1 Hst) as (m2 & E2 & Hs2 & (Ht2 & Hk2 & Hi2) & T2).
    destruct (chansw_moves a3 k m2 _ Hs2 Hst Hd' Hcs) as (m3 & x3 & E3 & Hs3 & Hst3 & Hp3 & (Ht3 & Hk3 & Hi3) & B3 & T3 & S3); [congruence|].
    destruct (changed_moves a4 k m3 x3 Hs3 Hst3) as (m4 & x4 & E4 & Hs4 & Hc4 & Hst4 & S4 & B4); [by rewrite Hp3|congruence..|].
    assert (B2 : beacons m2 = beacons m1) by by (unfold beacons; rewrite T2).
    destruct (Hblock Ht) as (B & _ & Hin & HB). destruct (HB t Hin) as [Hmay Hnr].
    assert (Htt : target_channel m3 = t) by congruence.
    exists t, m4, x4. cbn [sap_run sap_step]. rewrite E1. cbn [mbind option_bind]. rewrite E2. cbn [mbind option_bind]. rewrite E3.
    cbn [mbind option_bind]. rewrite E4. split; [done|]. split_and!; [exact Hmay|exact Hnr|apply Hs4|congruence|exact Hst4| | |].
    + apply S4, S3. rewrite T2, Ht1. by left.
    + apply S4. rewrite <- Ht1, <- Ht2. exact T3.
    + congruence.
Qed.
End safe.
