(* ===== verification/SapDemo.v ===== *)
(** The theorems on the soft AP applied to concrete inputs: access lists with
    the byte-wise comparison, a non-occupancy list, a radar during operation;
    and runs that show what the findings are about. *)
From stdpp Require Import gmultiset.
From S2P Require Import Prelude LimTypes Arrays CdsTables CdsConn CdsPcl CdsPolicy CdsSession CdsDemo SapAcl SapNol SapLeak SapDfs.

#[local] Instance u8_dec x : Decision (is_u8 x).
Proof. unfold is_u8. apply _. Defined.

(** *** Access lists *)

(** memcmp. *)
Fixpoint memcmp (a b : list Z) : Z :=
  match a, b with
  | x :: a', y :: b' => if x =? y then memcmp a' b' else x - y
  | _, _ => 0
  end.
#[local] Instance demo_mem_cmp : MemCmp := memcmp.

Lemma memcmp_flip a b : length a = length b → memcmp b a = - memcmp a b.
Proof.
  revert b. induction a as [|x a IH]; intros [|y b] Hl; try done. cbn in *. injection Hl as Hl.
  rewrite (Z.eqb_sym y x). destruct (Z.eqb_spec x y); [by apply IH|lia].
Defined.

Lemma memcmp_eq a b : length a = length b → memcmp a b = 0 → a = b.
Proof.
  revert b. induction a as [|x a IH]; intros [|y b] Hl; try done. cbn in *. injection Hl as Hl.
  destruct (Z.eqb_spec x y) as [->|]; [|lia]. intros H. f_equal. by apply IH.
Defined.

Lemma memcmp_refl a : memcmp a a = 0.
Proof. induction a as [|x a IH]; [done|]. cbn. by rewrite Z.eqb_refl. Defined.

Lemma memcmp_trans a b c :
  length a = length b → length b = length c → memcmp a b < 0 → memcmp b c < 0 → memcmp a c < 0.
Proof.
  revert b c. induction a as [|x a IH]; intros [|y b] [|z c] H1 H2; try done. cbn in *. injection H1 as H1. injection H2 as H2.
  destruct (Z.eqb_spec x y) as [->|]; destruct (Z.eqb_spec y z) as [->|]; intros Ha Hb.
  - by apply (IH b).
  - lia.
  - destruct (Z.eqb_spec x z); lia.
  - destruct (Z.eqb_spec x z); lia.
Defined.

#[local] Instance demo_mem_cmp_ok : MemCmpOk.
Proof.
  split.
  - intros a b [Ha _] [Hb _]. split; [apply memcmp_eq; congruence|intros ->; apply memcmp_refl].
  - intros a b [Ha _] [Hb _]. unfold qdf_mem_cmp, demo_mem_cmp. rewrite (memcmp_flip a b) by congruence. lia.
  - intros a b c [Ha _] [Hb _] [Hc _]. apply memcmp_trans; congruence.
Defined.

Definition no_macs : list mac_addr := replicate 32 zero_mac.
Definition acl_start : sap_acl := mk_acl eSAP_ACCEPT_UNLESS_DENIED no_macs 0 no_macs 0 [].
Definition acl_spec_start : acl_spec := mk_spec eSAP_ACCEPT_UNLESS_DENIED ∅ ∅ [].
Definition mac_a : mac_addr := [2; 0; 0; 0; 0; 1].
Definition mac_b : mac_addr := [2; 0; 0; 0; 0; 2].

(** The accept list holds one address twice. *)
Definition acl_config_demo : acl_config := mk_acl_config eSAP_DENY_UNLESS_ACCEPTED (mac_b :: mac_a :: mac_b :: replicate 29 zero_mac) 3 no_macs 0.
Definition acl_demo_ops : list acl_op :=
  [Op_start_bss acl_config_demo; Op_associate mac_a; Op_modify mac_b eSAP_BLACK_LIST ADD_STA_TO_ACL;
   Op_modify mac_b eSAP_BLACK_LIST ADD_STA_TO_ACL; Op_associate mac_b; Op_clear; Op_associate mac_b].

Lemma no_macs_rep : list_rep no_macs 0 ∅.
Proof.
  exists [], no_macs. split_and!; try done; [|by constructor].
  apply Forall_replicate. apply zero_mac_wf.
Defined.

Lemma acl_demo_legal : Forall acl_op_ok acl_demo_ops.
Proof.
  assert (Hwf : ∀ a, bool_decide (length a = 6%nat ∧ Forall is_u8 a) = true → mac_wf a) by (intros a Ha; by apply bool_decide_eq_true in Ha).
  assert (H32 : Forall mac_wf no_macs) by (apply Forall_replicate, zero_mac_wf).
  assert (Ha : mac_wf mac_a) by by apply Hwf. assert (Hb : mac_wf mac_b) by by apply Hwf.
  repeat constructor; try done; try lia.
Defined.

Lemma acl_refines_multisets_witness :
  acl_rel acl_start acl_spec_start ∧ Forall acl_op_ok acl_demo_ops ∧
  ∃ s', acl_run acl_start acl_demo_ops =
    Some ([QDF_STATUS_SUCCESS; QDF_STATUS_SUCCESS; QDF_STATUS_SUCCESS; QDF_STATUS_E_FAILURE; QDF_STATUS_SUCCESS;
           QDF_STATUS_SUCCESS; QDF_STATUS_E_FAILURE], s') ∧
    acl_rel s' (snd (acl_spec_run acl_spec_start acl_demo_ops)).
Proof.
  assert (acl_rel acl_start acl_spec_start) as Hr by (split_and!; [exact no_macs_rep|exact no_macs_rep|reflexivity|reflexivity]).
  split; [exact Hr|]. split; [exact acl_demo_legal|].
  destruct (acl_refines_multisets acl_start acl_spec_start acl_demo_ops Hr acl_demo_legal) as (s' & Hs & Hr').
  exists s'. split; [|exact Hr']. rewrite Hs. vm_compute. reflexivity.
Defined.

(** An address configured twice is still accepted after it was denied. *)
Lemma doubled_address_stays :
  let r := acl_run acl_start [Op_start_bss acl_config_demo; Op_modify mac_b eSAP_BLACK_LIST ADD_STA_TO_ACL; Op_associate mac_b] in
  fst <$> r = Some [QDF_STATUS_SUCCESS; QDF_STATUS_SUCCESS; QDF_STATUS_SUCCESS].
Proof. vm_compute. reflexivity. Qed.

(** *** The non-occupancy list *)
Definition demo_domain : list Z := [52; 56; 60; 64; 100; 104; 108; 112; 116; 120; 124; 128; 132; 136; 140; 144].
Definition demo_dfs : tSapDfsInfo :=
  mk_sap_dfs false false 16 (map (λ c, mk_nol c eSAP_DFS_CHANNEL_USABLE 0) demo_domain ++ replicate 24 zero_nol)
    CH_WIDTH_80MHZ CH_WIDTH_20MHZ CH_WIDTH_20MHZ 0 false 0 310 [].

Lemma demo_nol_rel : nol_rel demo_domain ∅ 0 demo_dfs.
Proof.
  exists (map (λ c, mk_nol c eSAP_DFS_CHANNEL_USABLE 0) demo_domain), zero_nol, (replicate 23 zero_nol).
  split_and!; try done.
  - apply (bool_decide_unpack _). vm_compute. exact I.
  - apply (bool_decide_unpack _). vm_compute. exact I.
  - apply Forall_forall. intros e (c & -> & _)%list_elem_of_fmap. right. split; [by left|done].
Defined.

Definition nol_demo_ops : list nol_op :=
  [Nol_radar [52; 56; 36] 1000; Nol_query 52 2000; Nol_query 36 2000; Nol_radar [56; 60] 5000; Nol_get 6000;
   Nol_query 56 (1000 + SAP_DFS_NON_OCCUPANCY_PERIOD); Nol_get (2000 + SAP_DFS_NON_OCCUPANCY_PERIOD);
   Nol_clear (3000 + SAP_DFS_NON_OCCUPANCY_PERIOD); Nol_query 60 (4000 + SAP_DFS_NON_OCCUPANCY_PERIOD)].

Lemma nol_refines_map_witness :
  nol_rel demo_domain ∅ 0 demo_dfs ∧ times_ok 0 nol_demo_ops ∧
  ∃ d', nol_run demo_dfs nol_demo_ops =
    Some ([SapNol.Out_none; Out_in_nol true; Out_in_nol false; SapNol.Out_none; Out_nol [52; 56; 60]; Out_in_nol false;
           Out_nol [60]; SapNol.Out_none; Out_in_nol false], d').
Proof.
  assert (times_ok 0 nol_demo_ops) as Ht by (cbn; unfold is_u64, SAP_DFS_NON_OCCUPANCY_PERIOD; repeat split; lia).
  split; [exact demo_nol_rel|]. split; [exact Ht|].
  destruct (nol_refines_map demo_domain ∅ 0 demo_dfs nol_demo_ops demo_nol_rel Ht) as (d' & Hd & _).
  exists d'. rewrite Hd. vm_compute. reflexivity.
Defined.

(** Radar on channel 52, and five minutes later on channel 56. *)
Definition minutes (n : Z) : Z := n * 60 * 1000 * 1000.
Definition two_radars : gmap Z Z := <[56 := minutes 6]> (<[52 := minutes 1]> ∅).
Definition dfs_two_radars : tSapDfsInfo :=
  demo_dfs <| sapDfsChannelNolList :=
    [mk_nol 52 eSAP_DFS_CHANNEL_UNAVAILABLE (minutes 1); mk_nol 56 eSAP_DFS_CHANNEL_UNAVAILABLE (minutes 6)] ++
    map (λ c, mk_nol c eSAP_DFS_CHANNEL_USABLE 0) (drop 2 demo_domain) ++ replicate 24 zero_nol |>.

Lemma two_radars_rel : nol_rel demo_domain two_radars (minutes 7) dfs_two_radars.
Proof.
  exists ([mk_nol 52 eSAP_DFS_CHANNEL_UNAVAILABLE (minutes 1); mk_nol 56 eSAP_DFS_CHANNEL_UNAVAILABLE (minutes 6)] ++
    map (λ c, mk_nol c eSAP_DFS_CHANNEL_USABLE 0) (drop 2 demo_domain)), zero_nol, (replicate 23 zero_nol).
  split_and!; try done.
  - apply (bool_decide_unpack _). vm_compute. exact I.
  - apply (bool_decide_unpack _). vm_compute. exact I.
  - cbn [app]. constructor; [by left|]. constructor; [by left|].
    apply Forall_forall. intros e (c & -> & Hc)%list_elem_of_fmap. right. split; [by left|]. cbn [dfs_channel_number].
    unfold spec_in. replace (two_radars !! c) with (@None Z); [done|]. symmetry. unfold two_radars.
    cbn in Hc. rewrite !lookup_insert_ne by (intros <-; set_solver). done.
Defined.

Lemma bonded_query_rewinds_witness :
  nol_rel demo_domain two_radars (minutes 7) dfs_two_radars ∧
  ∃ d1 d2,
    sap_dfs_is_channel_in_nol_list dfs_two_radars 52 PHY_DOUBLE_CHANNEL_LOW_PRIMARY (minutes 8) = Some (true, d1) ∧
    sap_dfs_is_channel_in_nol_list d1 56 PHY_SINGLE_CHANNEL_CENTERED (minutes 31) = Some (false, d2) ∧
    spec_in two_radars (minutes 31) 56 = true.
Proof.
  split; [exact two_radars_rel|].
  assert (nol_rel demo_domain two_radars (minutes 8) dfs_two_radars) as Hr by (apply (nol_rel_later _ _ (minutes 7)); [exact two_radars_rel|done]).
  apply (bonded_query_rewinds demo_domain two_radars (minutes 8) dfs_two_radars 52 (minutes 1) (minutes 6) Hr);
    [unfold is_u64, minutes; lia|unfold is_u64, minutes, SAP_DFS_NON_OCCUPANCY_PERIOD; lia|lia| | |reflexivity|reflexivity| |].
  - apply (bool_decide_unpack _). vm_compute. exact I.
  - apply (bool_decide_unpack _). vm_compute. exact I.
  - unfold minutes. lia.
  - unfold minutes, SAP_DFS_NON_OCCUPANCY_PERIOD. lia.
Defined.

(** *** Leakage *)
Definition demo_nol_52 : list tSapDfsNolInfo := mk_nol 52 eSAP_DFS_CHANNEL_UNAVAILABLE 0 :: replicate 39 zero_nol.

Lemma leak_marking_exact_witness :
  sap_mark_leaking_ch demo_dfs CH_WIDTH_40MHZ demo_nol_52 (Z.of_nat (length [36; 40; 44; 48; 100; 149]))
    [36; 40; 44; 48; 100; 149] = Some (QDF_STATUS_SUCCESS, [0; 0; 0; 0; 100; 149]).
Proof.
  rewrite (leak_marking_exact demo_dfs CH_WIDTH_40MHZ demo_nol_52 [36; 40; 44; 48; 100; 149]); [vm_compute; reflexivity|reflexivity| | |].
  - constructor; [intros _; split; [left; reflexivity|reflexivity]|]. apply Forall_replicate. intros Hu. vm_compute in Hu. discriminate.
  - vm_compute. repeat (constructor; [|repeat (constructor; [done|]); constructor]). constructor.
  - repeat (constructor; [apply (bool_decide_unpack _); vm_compute; exact I|]). constructor.
Defined.

(** *** A radar during operation *)
(** The channels of two bands without radar detection and one with. *)
#[local] Instance sap_cds_env : CdsEnv := {|
  QDF_MAX_NUM_CHAN := 128;
  wma_is_hw_dbs_capable := true;
  gMaxConcurrentActiveSessions := 3;
  conc_system_pref := 0;
  enable2x2 := true;
  sub_20_channel_width := false;
  reg_channels := demo_channels;
  sme_get_valid_channels := Some [1; 6; 36; 40; 44; 48; 52; 56; 60; 64; 149; 153; 157; 161];
  pld_get_wlan_unsafe_channel := [];
  sme_get_vdev_type_nss := λ _, (2, 2);
  wma_get_hw_mode_idx_from_dbs_hw_list := λ r, if dbs r then 1 else 0;
  wma_get_hw_mode_from_idx := λ i, i <? 2;
  sme_pdev_set_hw_mode := λ _ _, true;
  sme_nss_update_request := λ _ _, true;
  sap_adapter := true;
  adapter_mode_number := λ m, from_option id 7 (session_ix m);
  WMI_VDEV_TYPE_AP := 1;
  WMI_VDEV_TYPE_STA := 2;
  WMI_VDEV_TYPE_IBSS := 3;
  WMI_UNIFIED_VDEV_SUBTYPE_P2P_GO := 3;
  WMI_UNIFIED_VDEV_SUBTYPE_P2P_CLIENT := 2;
|}.

#[local] Instance demo_sap_env (matrix : bool) : SapEnv := {|
  WLAN_ENABLE_CHNL_MATRIX_RESTRICTION := matrix;
  FEATURE_AP_MCC_CH_AVOIDANCE := true;
  FEATURE_WLAN_CH_AVOID := true;
  FEATURE_WLAN_STA_AP_MODE_DFS_DISABLE := true;
  cds_get_dfs_region := 1;
  cds_is_fcc_regdomain := true;
  sap_channel_avoidance := false;
  f_prefer_non_dfs_on_radar := false;
  WNI_CFG_DFS_MASTER_ENABLED := 1;
  base_channels := [1; 6; 11; 36; 40; 52; 149];
|}.

Definition demo_sap : tSapContext :=
  mk_sap 52 0 CH_WIDTH_80MHZ [] (mk_acs true 36 165 None 0 CH_WIDTH_80MHZ [] 0 0 0) false [] false 0 true false false false false 0 0.

(** An uninitialised structure. *)
Definition demo_stale : sir_pcl_list := mk_pcl (replicate 128 0) (replicate 128 0) 77.
Definition demo_radar : tSirSmeDfsEventInd := mk_radar true [52; 56; 60; 64; 0; 0; 0; 0] 4.

Lemma demo_dfs_channels c :
  in_band c = true → CDS_IS_DFS_CH c = true → c ∈ demo_domain.
Proof.
  intros Hb Hd. apply in_band_mapped in Hb.
  assert (Ha : forallb (λ c, negb (CDS_IS_DFS_CH c) || bool_decide (c ∈ demo_domain)) (map snd chan_mapping) = true)
    by (vm_compute; done).
  rewrite forallb_forall in Ha. specialize (Ha c (proj1 (list_elem_of_In _ _) Hb)). rewrite Hd in Ha. by apply bool_decide_eq_true in Ha.
Defined.

Definition demo_pcl : sir_pcl_list := from_option (λ r, snd (fst r)) demo_stale (sap_pcl_query demo_start demo_stale).
Definition demo_after : cds_state := from_option snd demo_start (sap_pcl_query demo_start demo_stale).

Definition target_of {A B C : Type} (r : option (Z * A * B * C)) : option Z :=
  match r with Some (t, _, _, _) => Some t | None => None end.

Lemma demo_query : query_ok demo_sap demo_start demo_stale demo_pcl demo_after.
Proof. split_and!; [vm_compute; reflexivity|vm_compute; done..|exact (λ _ _ H, ltac:(discriminate H))]. Defined.

(** With the leakage tables: channels 36 to 48 leak into the radar channels, and
    the network moves to the block of 149. *)
Lemma radar_target_safe_witness :
  let m' := foldl (spec_mark demo_domain 1000) ∅ [52; 56; 60; 64] in
  nol_rel demo_domain ∅ 0 demo_dfs ∧ query_ok demo_sap demo_start demo_stale demo_pcl demo_after ∧
  ∃ ctx' d',
    @sap_indicate_radar sap_cds_env (demo_sap_env true) demo_sap demo_dfs demo_start demo_radar demo_stale true 1000 5 =
      Some (153, ctx', d', demo_after) ∧ nol_rel demo_domain m' 1000 d' ∧
    ∃ B, B ∈ footprints (new_chanWidth d') (new_center_freq_seg1 d') 153 ∧ 153 ∈ B ∧
      ∀ c, c ∈ B → @free sap_cds_env (demo_sap_env true) demo_sap demo_dfs m' 1000 demo_pcl c.
Proof.
  intros m'. split; [exact demo_nol_rel|]. split; [exact demo_query|].
  destruct (@radar_target_safe sap_cds_env (demo_sap_env true) demo_domain ∅ 0 1000 demo_sap demo_dfs demo_start demo_radar demo_stale
    5 demo_pcl demo_after demo_nol_rel) as (t & ctx' & d' & E & Hr & Hb & _);
    [lia|unfold is_u64; lia|exact demo_dfs_channels|reflexivity|exact demo_query|reflexivity..|cbn; lia|reflexivity|].
  assert (Ht : target_of (@sap_indicate_radar sap_cds_env (demo_sap_env true) demo_sap demo_dfs demo_start demo_radar demo_stale
    true 1000 5) = Some 153) by (vm_compute; reflexivity).
  rewrite E in Ht. cbn in Ht. injection Ht as ->. destruct (Hb ltac:(discriminate)) as (B & HB & Hin & HP).
  exists ctx', d'. split; [exact E|]. split; [exact Hr|]. exists B. split; [exact HB|]. split; [exact Hin|].
  intros c Hc. apply (HP c Hc).
Defined.

(** The fall-back has no way out of the widths of 5 and 10 MHz. *)
Lemma narrow_width_never_ends fuel d s l rnd :
  @width_loop s (demo_sap_env false) fuel d CH_WIDTH_5MHZ l (Z.of_nat (length l)) rnd = None.
Proof.
  revert d. induction fuel as [|f IH]; intros d; [done|]. cbn [width_loop WLAN_ENABLE_CHNL_MATRIX_RESTRICTION demo_sap_env].
  cbn [mbind option_bind]. change (negb (QDF_IS_STATUS_SUCCESS QDF_STATUS_SUCCESS)) with false. cbv iota. cbn [is_20].
  unfold sap_find_ch_wh_fallback. rewrite Z.ltb_irrefl.
  set (bm := foldl _ _ _). assert (Hp : sap_populate_available_channels bm CH_WIDTH_5MHZ = []).
  { clearbody bm. induction bm as [|b bm IHb]; [done|]. exact IHb. }
  rewrite Hp. cbn. apply IH.
Qed.
