(* ===== verification/SapFsmDemo.v ===== *)
(** The theorems on the state machine of the soft AP applied to concrete runs, and
    runs that show what the findings are about. *)
From S2P Require Import Prelude Arrays CdsTables CdsConn CdsPcl CdsPolicy CdsSession CdsDemo SapNol SapLeak SapDfs SapDemo SapFsm SapLink SapSafe.

#[local] Existing Instance sap_cds_env.
#[local] Instance fsm_sap_env : SapEnv := demo_sap_env false.

(** The parameters of a channel keep the width. *)
#[local] Instance demo_selection : ChannelSelection := {|
  FEATURE_WLAN_MCC_TO_SCC_SWITCH := true;
  FEATURE_WLAN_AP_AP_ACS_OPTIMIZE := false;
  cds_set_channel_params := λ _ _ p, p;
  get_channel_list := λ _, [36; 40; 52];
  select_channel := λ ctx _, (52, ctx);
|}.

#[local] Instance demo_selection_ok : ChannelSelectionOk.
Proof. by intros ctx s. Defined.

Definition all_ok : answers :=
  mk_answers (λ _ _, true) true (Some 0) true true true true true true true true true true true true 0 (λ _, 0) 2 (λ _, 1)
    None 1000 5 true demo_stale.

Definition second_ok : answers := mk_answers (λ _ _, true) true (Some 1) true true true true true true true true true true true true 0
  (λ _, 0) 2 (λ _, 1) None 1000 5 true demo_stale.

Definition no_contexts : list (tQDF_ADAPTER_MODE * option nat) := replicate SAP_MAX_NUM_SESSION (QDF_STA_MODE, None).

(** Two contexts that were never started. *)
Definition power_up : machine :=
  mk_machine [zero_session; zero_session] no_contexts demo_dfs false false false None 0 0 demo_start [].

Definition config_52 : bss_config :=
  mk_config 52 false (mk_params CH_WIDTH_80MHZ 0) CH_WIDTH_80MHZ false false (acs_cfg demo_sap) eSAP_DO_NEW_ACS_SCAN false QDF_SAP_MODE false
    eCSR_DOT11_MODE_11a.

(** An access point on channel 52, up to its availability check. *)
Definition bring_up (k : nat) (a : answers) : list (sap_op * answers) :=
  [(Sap_start k QDF_SAP_MODE, a); (Sap_start_bss k config_52, a); (Sap_infra_started k, a)].

Definition waiting_machine : machine := default power_up (sap_run (bring_up 0 all_ok) power_up).

Lemma waiting_run : sap_run (bring_up 0 all_ok) power_up = Some waiting_machine.
Proof. vm_compute. reflexivity. Defined.

(** The check is started, its timer set to a minute. *)
Lemma no_beacon_before_check_witness :
  strict power_up ∧ Forall (λ oa, checked_op (fst oa) = true) (bring_up 0 all_ok) ∧
  sap_run (bring_up 0 all_ok) power_up = Some waiting_machine ∧
  state_of waiting_machine 0 = Some eSAP_DFS_CAC_WAIT ∧ sap_dfs_cac_timer waiting_machine = Some DEFAULT_CAC_TIMEOUT ∧
  strict waiting_machine ∧ beacons waiting_machine = [].
Proof.
  assert (strict power_up) as Hs by (split_and!; [reflexivity|reflexivity|repeat constructor]).
  assert (Forall (λ oa, checked_op (fst oa) = true) (bring_up 0 all_ok)) as Ho by repeat constructor.
  split; [exact Hs|]. split; [exact Ho|]. split; [exact waiting_run|]. split; [vm_compute; reflexivity|]. split; [vm_compute; reflexivity|].
  destruct (no_beacon_before_check (bring_up 0 all_ok) power_up waiting_machine Hs Ho waiting_run) as [H1 H2].
  split; [exact H1|]. rewrite H2. reflexivity.
Defined.

Definition checked_machine : machine := default power_up (sap_step Sap_timer_expired all_ok waiting_machine).

Lemma checked_step : sap_step Sap_timer_expired all_ok waiting_machine = Some checked_machine.
Proof. vm_compute. reflexivity. Defined.

Lemma beacons_justified_witness :
  sap_step Sap_timer_expired all_ok waiting_machine = Some checked_machine ∧ beacons checked_machine = [0%nat] ∧
  tells (justified Sap_timer_expired waiting_machine) waiting_machine checked_machine.
Proof.
  split; [exact checked_step|]. split; [vm_compute; reflexivity|].
  exact (beacons_justified Sap_timer_expired all_ok waiting_machine checked_machine checked_step).
Defined.

Lemma sap_fsm_follows_table_witness :
  ∃ st m', sap_fsm all_ok 0 eSAP_DFS_CHANNEL_CAC_RADAR_FOUND waiting_machine = Some (st, m') ∧
    state_of m' 0 = Some eSAP_DISCONNECTING ∧
    ∃ s', s' ∈ next eSAP_DFS_CAC_WAIT eSAP_DFS_CHANNEL_CAC_RADAR_FOUND ∧ state_of m' 0 = Some s'.
Proof.
  assert (state_of waiting_machine 0 = Some eSAP_DFS_CAC_WAIT) as Hs by (vm_compute; reflexivity).
  destruct (sap_fsm all_ok 0 eSAP_DFS_CHANNEL_CAC_RADAR_FOUND waiting_machine) as [[st m']|] eqn:Eq; [|vm_compute in Eq; discriminate].
  exists st, m'. split; [reflexivity|]. split.
  - vm_compute in Eq. injection Eq as <- <-. vm_compute. reflexivity.
  - exact (proj1 (sap_fsm_follows_table all_ok 0 eSAP_DFS_CHANNEL_CAC_RADAR_FOUND waiting_machine st m' eSAP_DFS_CAC_WAIT Hs Eq)).
Defined.

(** Two access points wait for the same check. *)
Definition two_waiting : machine := default power_up (sap_run (bring_up 0 all_ok ++ bring_up 1 second_ok) power_up).

Lemma two_wait : state_of two_waiting 0 = Some eSAP_DFS_CAC_WAIT ∧ state_of two_waiting 1 = Some eSAP_DFS_CAC_WAIT ∧
  ap_contexts two_waiting = [0%nat; 1%nat].
Proof. vm_compute. done. Defined.

Lemma cac_completes_witness :
  ∃ m', sap_step Sap_timer_expired all_ok two_waiting = Some m' ∧ beacons m' = [1%nat; 0%nat] ∧ cac_skip m' = true ∧
    state_of m' 0 = Some eSAP_STARTED ∧ state_of m' 1 = Some eSAP_STARTED.
Proof.
  destruct (cac_completes all_ok two_waiting) as (m' & H1 & H2 & H3 & H4).
  - vm_compute. repeat constructor; set_solver.
  - intros k Hk x. destruct two_wait as (_ & _ & Ht). rewrite Ht in Hk. clear Ht.
    apply elem_of_cons in Hk as [->|Hk]; [|apply list_elem_of_singleton in Hk as ->].
    all: vm_compute; intros [= <-] _; done.
  - exists m'. split; [exact H1|]. rewrite H2, !H4. split; [vm_compute; reflexivity|]. split; [apply H3; vm_compute; discriminate|].
    split; vm_compute; reflexivity.
Defined.

(** A started access point on channel 52, 80 MHz wide, and a radar on its block. *)
Definition started_ap : sap_session :=
  zero_session <| base := demo_sap |> <| sapsMachine := eSAP_STARTED |> <| channels_set := true |> <| pfnSapEventCallback := true |>.
Definition started_machine : machine :=
  mk_machine [started_ap] ((QDF_SAP_MODE, Some 0%nat) :: drop 1 no_contexts) demo_dfs true false false None 0 0 demo_start [].
Definition radar_ops : list (sap_op * answers) :=
  [(Sap_radar_ind 0 demo_radar, all_ok); (Sap_radar_found 0, all_ok); (Sap_chansw_update 0, all_ok); (Sap_channel_changed 0 true, all_ok)].

Lemma radar_does_not_stop :
  from_option (λ m, state_of m 0) None (sap_run [(Sap_radar_ind 0 demo_radar, all_ok)] started_machine) = Some eSAP_STARTED.
Proof. vm_compute. reflexivity. Defined.

Lemma radar_moves_network_witness :
  single 0 started_ap started_machine ∧
  ∃ t m' x', sap_run radar_ops started_machine = Some m' ∧
    free demo_sap demo_dfs (foldl (spec_mark demo_domain 1000) ∅ [52; 56; 60; 64]) 1000 demo_pcl t ∧
    sessions m' !! 0%nat = Some x' ∧ sap_channel (base x') = t ∧ Ev_csa_ie 0 t ∈ trace m' ∧ Ev_channel_change 0 t ∈ trace m' ∧
    beacons m' = [].
Proof.
  assert (single 0 started_ap started_machine) as Hs by (split; reflexivity).
  split; [exact Hs|].
  destruct (radar_moves_network demo_domain ∅ 0 all_ok all_ok all_ok all_ok 0 demo_radar started_machine started_ap demo_pcl demo_after Hs)
    as [(t & m' & x' & H1 & H2 & _ & H3 & H4 & _ & H5 & H6 & H7)|(m' & x' & H1 & H2 & H3 & _)];
    [first [reflexivity|exact demo_nol_rel|exact demo_dfs_channels|exact demo_query|unfold is_u64; cbn; lia]..| |].
  - exists t, m', x'. split; [exact H1|]. split; [exact H2|]. split; [exact H3|]. split; [exact H4|]. split; [exact H5|]. split; [exact H6|].
    exact H7.
  - pose proof radar_does_not_stop as Hc. rewrite H1 in Hc. cbn [from_option] in Hc. unfold state_of in Hc. rewrite H2 in Hc. cbn in Hc.
    rewrite H3 in Hc. discriminate Hc.
Defined.

(** *** What the findings are about *)

(** A radar while two access points wait: the one that handles the indication
    leaves, the other goes on waiting for a timer that was stopped. *)
Definition radar_mark (m : machine) : machine := m <| dfs := dfs m <| sap_radar_found_status := true |> |> <| target_channel := 36 |>.

Definition change_requests (m : machine) : list (nat * Z) :=
  omap (λ e, match e with Ev_channel_change k c => Some (k, c) | _ => None end) (trace m).

Lemma second_session_stuck :
  ∃ m', sap_step (Sap_radar_found 0) all_ok (radar_mark two_waiting) = Some m' ∧
    state_of m' 0 = Some eSAP_DISCONNECTING ∧ state_of m' 1 = Some eSAP_DFS_CAC_WAIT ∧
    sap_dfs_cac_timer m' = None ∧ is_dfs_cac_timer_running m' = false ∧
    change_requests m' = [(1%nat, 36); (0%nat, 36)].
Proof.
  eexists. split; [vm_compute; reflexivity|]. split_and!; vm_compute; reflexivity.
Qed.

(** The access point that waited is stopped: the timer goes on, its expiry finds
    no waiting access point and leaves the flag set, and the next check starts
    no timer. *)
Definition stale_timer_ops : list (sap_op * answers) :=
  [(Sap_stop_bss 0, all_ok); (Sap_timer_expired, all_ok); (Sap_start_bss 1 config_52, second_ok); (Sap_infra_started 1, second_ok)].

Definition half_open : machine := default power_up (sap_run (bring_up 0 all_ok ++ [(Sap_start 1 QDF_SAP_MODE, second_ok)]) power_up).

Lemma stale_timer_flag :
  ∃ m', sap_run stale_timer_ops half_open = Some m' ∧ state_of m' 1 = Some eSAP_DFS_CAC_WAIT ∧
    sap_dfs_cac_timer m' = None ∧ is_dfs_cac_timer_running m' = true.
Proof. eexists. split; [vm_compute; reflexivity|]. split_and!; vm_compute; reflexivity. Qed.

(** The context reopened by the machine is not entered in the array: its check is
    never announced and its expiry is not seen. *)
Definition reopen_ops : list (sap_op * answers) :=
  bring_up 0 all_ok ++ [(Sap_stop_bss 0, all_ok); (Sap_infra_stopped 0, all_ok); (Sap_start_bss 0 config_52, all_ok);
                        (Sap_infra_started 0, all_ok); (Sap_timer_expired, all_ok)].

Lemma reopened_never_checked :
  ∃ m', sap_run reopen_ops power_up = Some m' ∧ ap_contexts m' = [] ∧ state_of m' 0 = Some eSAP_DFS_CAC_WAIT ∧
    sap_dfs_cac_timer m' = None.
Proof. eexists. split; [vm_compute; reflexivity|]. split_and!; vm_compute; reflexivity. Qed.

(** Without an operating class for the channel the search for a width does not end. *)
Lemma csa_width_never_ends fuel bw : csa_width_loop fuel (λ _, 0) bw = None.
Proof. revert bw. induction fuel as [|f IH]; intros bw; [done|]. cbn. apply IH. Qed.
