(* ===== verification/DfsTypes.v ===== *)
(** The data of the radar detection of a soft AP: core/sap/dfs/inc/dfs.h,
    ath_dfs_structs.h and core/wma/inc/wma_dfs_interface.h.

    A delay line, a pulse line and the buffer of a chirp detector are circular
    buffers with the same four fields; [ring] is that part of the three structs.
    A queue of event objects is the list of their contents.  Fields that the code
    only prints are left out.  [pulses_ext_seg], [dfs_b5radars] and
    [dfs_b5radars_ext_seg] are pointers that may be null.  The board and the
    firmware are those of this driver: ol_if_dfs_get_ext_busy and ol_if_get_tsf64
    answer 0, ol_if_dfs_attach sets the capabilities. *)
From S2P Require Import Prelude Arrays.

Definition DFS_MAX_DL_SIZE : Z := 64.
Definition DFS_MAX_DL_MASK : Z := 63.
Definition DFS_MAX_B5_SIZE : Z := 128.
Definition DFS_MAX_B5_MASK : Z := 127.
Definition DFS_MAX_PULSE_BUFFER_SIZE : Z := 1024.
Definition DFS_MAX_PULSE_BUFFER_MASK : Z := 1023.
Definition DFS_MAX_RADAR_OVERLAP : Z := 16.
Definition DFS_MAX_EVENTS : Z := 1024.
Definition MAX_EVENTS : Z := 100.
Definition DFS_NUM_RADAR_STATES : Z := 64.
Definition DFS_MAX_NUM_RADAR_FILTERS : Z := 10.
Definition DFS_MAX_RADAR_TYPES : Z := 32.
Definition MAX_DFS_RADAR_TABLE_TYPE : Z := 256.
Definition DFS_TSMASK : Z := 4294967295.
Definition DFS_TSSHIFT : Z := 32.
Definition DFS_TSF_WRAP : Z := 18446744073709551615.
Definition DFS_RADAR_EN : Z := 2147483648.
Definition DFS_AR_EN : Z := 1073741824.
Definition DFS_80P80_SEG0 : Z := 0.
Definition DFS_80P80_SEG1 : Z := 1.
Definition DFS_RADAR_SUMMARY_REPORT_VERSION_2 : Z := 1.
Definition DFS_RADAR_SUMMARY_REPORT_VERSION_3 : Z := 2.
Definition DFS_EVENT_CHECKCHIRP : Z := 1.
Definition DFS_EVENT_HW_CHIRP : Z := 2.
Definition DFS_EVENT_SW_CHIRP : Z := 4.

(** [enum dfs_region] (DFS_FCC_REGION and so on), board ids and channel flags. *)
Definition DFS_UNINIT_DOMAIN : Z := 0.
Definition DFS_FCC_DOMAIN : Z := 1.
Definition DFS_ETSI_DOMAIN : Z := 2.
Definition DFS_MKK_DOMAIN : Z := 3.
Definition DFS_HWBD_QCA6174 : Z := 1.
Definition IEEE80211_CHAN_HT40PLUS : Z := 0x20000.
Definition IEEE80211_CHAN_HT40MINUS : Z := 0x40000.
Definition IEEE80211_CHAN_VHT40PLUS : Z := 0x200000.
Definition IEEE80211_CHAN_VHT40MINUS : Z := 0x400000.
Definition IEEE80211_CHAN_VHT80 : Z := 0x800000.
Definition IEEE80211_CHAN_VHT80P80 : Z := 0x1000000.
Definition IEEE80211_CHAN_VHT160 : Z := 0x2000000.
Definition IEEE80211_CHAN_11AC_VHT80 : Z := 0x800100.
Definition CHANNEL_108G : Z := 0xd0.
Definition CHANNEL_TURBO : Z := 0x10.
Definition CHANNEL_INTERFERENCE : Z := 1.

(** [DFS_DIFF] of two unsigned numbers. *)
Definition DFS_DIFF (a b : Z) : Z := Z.max a b - Z.min a b.

(** ** Circular buffers *)
Record ring (A : Type) := mk_ring {
  elems : list A;
  firstelem : Z;
  lastelem : Z;
  numelems : Z;
}.
#[global] Arguments mk_ring {A} _ _ _ _.
#[global] Arguments elems {A} _.
#[global] Arguments firstelem {A} _.
#[global] Arguments lastelem {A} _.
#[global] Arguments numelems {A} _.
#[export] Instance ring_eta A : Eta (ring A) := fun r =>
  mk_ring (elems r) (firstelem r) (lastelem r) (numelems r).

Record dfs_pulseparams := mk_pulse { p_time : Z; p_dur : Z; p_rssi : Z }.
#[export] Instance pulse_inhabited : Inhabited dfs_pulseparams := populate (mk_pulse 0 0 0).

Record dfs_delayelem := mk_delay { de_time : Z; de_dur : Z; de_rssi : Z; de_ts : Z }.
#[export] Instance delay_eta : Eta dfs_delayelem := fun e => mk_delay (de_time e) (de_dur e) (de_rssi e) (de_ts e).
Definition zero_delay : dfs_delayelem := mk_delay 0 0 0 0.
#[export] Instance delay_inhabited : Inhabited dfs_delayelem := populate zero_delay.

Record dfs_bin5elem := mk_b5elem { be_ts : Z; be_rssi : Z; be_dur : Z }.
Definition zero_b5elem : dfs_bin5elem := mk_b5elem 0 0 0.
#[export] Instance b5elem_inhabited : Inhabited dfs_bin5elem := populate zero_b5elem.

Abbreviation dfs_pulseline := (ring dfs_pulseparams).

Record dfs_delayline := mk_dl { dl_ring : ring dfs_delayelem; dl_last_ts : Z }.
#[export] Instance dl_eta : Eta dfs_delayline := fun d => mk_dl (dl_ring d) (dl_last_ts d).

Record dfs_bin5pulse := mk_b5pulse {
  b5_threshold : Z; b5_mindur : Z; b5_maxdur : Z; b5_timewindow : Z; b5_rssithresh : Z; b5_rssimargin : Z }.
#[export] Instance b5pulse_eta : Eta dfs_bin5pulse := fun p =>
  mk_b5pulse (b5_threshold p) (b5_mindur p) (b5_maxdur p) (b5_timewindow p) (b5_rssithresh p) (b5_rssimargin p).

Record dfs_bin5radars := mk_b5radar { br_ring : ring dfs_bin5elem; br_pulse : dfs_bin5pulse }.
#[export] Instance b5radar_eta : Eta dfs_bin5radars := fun b => mk_b5radar (br_ring b) (br_pulse b).

(** ** Filters *)
Record dfs_filter := mk_filter {
  rf_dl : dfs_delayline;
  rf_dl_ext_seg : dfs_delayline;
  rf_numpulses : Z;
  rf_minpri : Z;
  rf_maxpri : Z;
  rf_threshold : Z;
  rf_filterlen : Z;
  rf_patterntype : Z;
  rf_fixed_pri_radar_pulse : Z;
  rf_mindur : Z;
  rf_maxdur : Z;
  rf_ignore_pri_window : Z;
  rf_pulseid : Z;
}.
#[export] Instance filter_eta : Eta dfs_filter := fun f =>
  mk_filter (rf_dl f) (rf_dl_ext_seg f) (rf_numpulses f) (rf_minpri f) (rf_maxpri f) (rf_threshold f) (rf_filterlen f)
    (rf_patterntype f) (rf_fixed_pri_radar_pulse f) (rf_mindur f) (rf_maxdur f) (rf_ignore_pri_window f) (rf_pulseid f).

Record dfs_filtertype := mk_ft {
  ft_filters : list dfs_filter;
  ft_filterdur : Z;
  ft_numfilters : Z;
  ft_last_ts : Z;
  ft_mindur : Z;
  ft_maxdur : Z;
  ft_rssithresh : Z;
  ft_numpulses : Z;
  ft_patterntype : Z;
  ft_minpri : Z;
  ft_rssimargin : Z;
}.
#[export] Instance ft_eta : Eta dfs_filtertype := fun t =>
  mk_ft (ft_filters t) (ft_filterdur t) (ft_numfilters t) (ft_last_ts t) (ft_mindur t) (ft_maxdur t) (ft_rssithresh t)
    (ft_numpulses t) (ft_patterntype t) (ft_minpri t) (ft_rssimargin t).

(** ** Events *)
Record dfs_event := mk_ev {
  re_full_ts : Z;
  re_ts : Z;
  re_rssi : Z;
  re_dur : Z;
  re_chanindex : Z;
  re_flags : Z;
  sidx : Z;
  radar_80p80_segid : Z;
  rsu_version : Z;
}.
#[export] Instance ev_eta : Eta dfs_event := fun e =>
  mk_ev (re_full_ts e) (re_ts e) (re_rssi e) (re_dur e) (re_chanindex e) (re_flags e) (sidx e) (radar_80p80_segid e)
    (rsu_version e).
Definition zero_event : dfs_event := mk_ev 0 0 0 0 0 0 0 0 0.

(** ** The channel and the device *)
Record dfs_ieee80211_channel := mk_ch {
  ic_freq : Z;
  ic_flags : Z;
  ic_flagext : Z;
  ic_ieee : Z;
  ic_vhtop_ch_freq_seg1 : Z;
  ic_vhtop_ch_freq_seg2 : Z;
  ic_pri_freq_center_freq_mhz_separation : Z;
  ic_80p80_both_dfs : bool;
  ic_radar_found_segid : Z;
}.
#[export] Instance ch_eta : Eta dfs_ieee80211_channel := fun c =>
  mk_ch (ic_freq c) (ic_flags c) (ic_flagext c) (ic_ieee c) (ic_vhtop_ch_freq_seg1 c) (ic_vhtop_ch_freq_seg2 c)
    (ic_pri_freq_center_freq_mhz_separation c) (ic_80p80_both_dfs c) (ic_radar_found_segid c).

Definition IEEE80211_IS_CHAN_DFS (c : dfs_ieee80211_channel) : bool := Z.land (ic_flagext c) (Z.lor 2 8) =? 2.
Definition IEEE80211_IS_CHAN_RADAR (c : dfs_ieee80211_channel) : bool := Z.land (ic_flags c) 0x1000 =? 0x1000.
Definition IEEE80211_IS_CHAN_11N_HT40PLUS (c : dfs_ieee80211_channel) : bool :=
  negb (Z.land (ic_flags c) IEEE80211_CHAN_HT40PLUS =? 0).
Definition IEEE80211_IS_CHAN_11N_HT40MINUS (c : dfs_ieee80211_channel) : bool :=
  negb (Z.land (ic_flags c) IEEE80211_CHAN_HT40MINUS =? 0).
Definition IEEE80211_IS_CHAN_11AC_VHT80 (c : dfs_ieee80211_channel) : bool :=
  Z.land (ic_flags c) IEEE80211_CHAN_11AC_VHT80 =? IEEE80211_CHAN_11AC_VHT80.
Definition IEEE80211_IS_CHAN_11AC_VHT80P80 (c : dfs_ieee80211_channel) : bool :=
  Z.land (ic_flags c) IEEE80211_CHAN_VHT80P80 =? IEEE80211_CHAN_VHT80P80.
Definition IEEE80211_IS_CHAN_11AC_VHT160 (c : dfs_ieee80211_channel) : bool :=
  Z.land (ic_flags c) IEEE80211_CHAN_VHT160 =? IEEE80211_CHAN_VHT160.
Definition IS_CHAN_HT40 (c : dfs_ieee80211_channel) : bool :=
  negb (Z.land (ic_flags c) (Z.lor IEEE80211_CHAN_HT40PLUS IEEE80211_CHAN_HT40MINUS) =? 0).

Record dfs_info := mk_dinfo {
  rn_numradars : Z;
  rn_lastfull_ts : Z;
  rn_last_ts : Z;                 (* uint16_t *)
  rn_last_unique_ts : Z;
  rn_ts_prefix : Z;
  rn_numbin5radars : Z;
  rn_minrssithresh : Z;
  rn_maxpulsedur : Z;
  dfs_ext_chan_busy : Z;
  ext_chan_busy_ts : Z;
  dfs_last_bin5_dur : Z;
  dfs_last_bin5_dur_ext_seg : Z;
}.
#[export] Instance info_eta : Eta dfs_info := fun r =>
  mk_dinfo (rn_numradars r) (rn_lastfull_ts r) (rn_last_ts r) (rn_last_unique_ts r) (rn_ts_prefix r) (rn_numbin5radars r)
    (rn_minrssithresh r) (rn_maxpulsedur r) (dfs_ext_chan_busy r) (ext_chan_busy_ts r) (dfs_last_bin5_dur r)
    (dfs_last_bin5_dur_ext_seg r).

(** [struct ath_dfs] with the fields of [struct ieee80211com] and of the
    capabilities that the detection uses. *)
Record ath_dfs := mk_dfs {
  ic_curchan : dfs_ieee80211_channel;
  disable_phy_err_processing : bool;
  dfs_hw_bd_id : Z;
  dfs_curchan_radindex : Z;                      (* int16_t *)
  dfs_extchan_radindex : Z;
  dfsdomain : Z;
  dfs_proc_phyerr : Z;
  dfs_eventq : list dfs_event;
  dfs_radarq : list dfs_event;
  dfs_arq : list dfs_event;
  dfs_radar : list dfs_ieee80211_channel;        (* rs_chan of the entries *)
  dfs_radarf : list dfs_filtertype;
  dfs_rinfo : dfs_info;
  dfs_b5radars : option (list dfs_bin5radars);
  dfs_b5radars_ext_seg : option (list dfs_bin5radars);
  dfs_radartable : list (list Z);
  num_radar_detects : Z;
  total_phy_errors : Z;
  rssi_discards : Z;
  pulses : dfs_pulseline;
  pulses_ext_seg : option dfs_pulseline;
  ath_radar_tasksched : bool;
  ath_chip_is_bb_tlv : bool;
  ath_dfs_ext_chan_ok : bool;
  dfs_bangradar : bool;
  dur_multiplier : Z;
  ath_dfs_isdfsregdomain : Z;
  ath_dfs_false_rssi_thres : Z;
  ath_dfs_peak_mag : Z;
  dfs_phyerr_count : Z;
  dfs_phyerr_reject_count : Z;
  dfs_phyerr_queued_count : Z;
  dfs_phyerr_freq_min : Z;
  dfs_phyerr_freq_max : Z;
  dfs_phyerr_w53_counter : Z;
  dfs_pri_multiplier : Z;
  dfs_pri_multiplier_ini : Z;
  disable_dfs_ch_switch : bool;
  test_ts : Z;
  test_ts_ext_seg : Z;
}.
#[export] Instance dfs_eta : Eta ath_dfs := fun d =>
  mk_dfs (ic_curchan d) (disable_phy_err_processing d) (dfs_hw_bd_id d) (dfs_curchan_radindex d) (dfs_extchan_radindex d)
    (dfsdomain d) (dfs_proc_phyerr d) (dfs_eventq d) (dfs_radarq d) (dfs_arq d) (dfs_radar d) (dfs_radarf d) (dfs_rinfo d)
    (dfs_b5radars d) (dfs_b5radars_ext_seg d) (dfs_radartable d) (num_radar_detects d) (total_phy_errors d)
    (rssi_discards d) (pulses d) (pulses_ext_seg d) (ath_radar_tasksched d) (ath_chip_is_bb_tlv d)
    (ath_dfs_ext_chan_ok d) (dfs_bangradar d) (dur_multiplier d) (ath_dfs_isdfsregdomain d) (ath_dfs_false_rssi_thres d)
    (ath_dfs_peak_mag d) (dfs_phyerr_count d) (dfs_phyerr_reject_count d) (dfs_phyerr_queued_count d)
    (dfs_phyerr_freq_min d) (dfs_phyerr_freq_max d) (dfs_phyerr_w53_counter d) (dfs_pri_multiplier d)
    (dfs_pri_multiplier_ini d) (disable_dfs_ch_switch d) (test_ts d) (test_ts_ext_seg d).

(** The 80p80 second segment has buffers of its own. *)
Definition ext_seg (both : bool) (seg_id : Z) : bool := both && negb (seg_id =? 0).
