(* ===== verification/DfsLine.v ===== *)
(** The circular buffers of the radar detection: dfs_add_pulse of
    dfs_bindetects.c, dfs_bin5_addpulse of dfs_fcc_bin5.c, the pulse line of
    dfs_process_radarevent and the resets of dfs_init.c.

    [ring_list] is the content of a buffer, oldest element first.  The theorems
    say what the buffers hold as lists: the delay line of a filter the pulses of
    the filter's window, the buffer of a chirp detector those of its window that
    follow each other in the intervals of a burst. *)
From S2P Require Import Prelude Arrays DfsTypes.

(** Adding an element to a circular buffer of size [size = mask + 1]: the lines
    that the three buffers share. *)
Definition ring_push {A} (size mask : Z) (x : A) (r : ring A) : ring A :=
  let index := Z.land (u32 (lastelem r + 1)) mask in
  let r := if numelems r =? size then r <| firstelem ::= λ f, Z.land (u32 (f + 1)) mask |>
           else r <| numelems ::= λ n, u32 (n + 1) |> in
  r <| lastelem := index |> <| elems ::= λ l, zset l index x |>.

(** The element [i] places after the first one. *)
Definition ring_at {A} `{Inhabited A} (mask : Z) (r : ring A) (i : Z) : A :=
  zget (elems r) (Z.land (u32 (firstelem r + i)) mask).

(** memset of the array and the indices of an empty buffer. *)
Definition ring_reset {A} (z : A) (mask : Z) (r : ring A) : ring A :=
  mk_ring (map (λ _, z) (elems r)) 0 mask 0.

(** ** Delay lines of the filters *)

(** The loop that drops what is older than the filter: [n] runs while it is below
    [dl_numelems - 1], which the body changes. *)
Fixpoint drop_old (fuel : nat) (filterlen this_ts n index : Z) (r : ring dfs_delayelem) : ring dfs_delayelem :=
  match fuel with
  | O => r
  | S fuel =>
      if n <? u32 (numelems r - 1) then
        let index := Z.land (u32 (index - 1)) DFS_MAX_DL_MASK in
        let window := u32 (this_ts - de_ts (zget (elems r) index)) in
        let r := if filterlen <? window
                 then r <| firstelem := Z.land (u32 (index + 1)) DFS_MAX_DL_MASK |> <| numelems := n + 1 |>
                 else r in
        drop_old fuel filterlen this_ts (n + 1) index r
      else r
  end.

Definition dfs_add_pulse_dl (filterlen : Z) (re : dfs_event) (deltaT this_ts : Z) (r : ring dfs_delayelem) : ring dfs_delayelem :=
  let r := ring_push DFS_MAX_DL_SIZE DFS_MAX_DL_MASK (mk_delay deltaT (re_dur re) (re_rssi re) this_ts) r in
  drop_old (Z.to_nat DFS_MAX_DL_SIZE) filterlen this_ts 0 (lastelem r) r.

Definition get_dl (both : bool) (seg_id : Z) (rf : dfs_filter) : dfs_delayline :=
  if ext_seg both seg_id then rf_dl_ext_seg rf else rf_dl rf.
Definition upd_dl (both : bool) (seg_id : Z) (f : dfs_delayline → dfs_delayline) (rf : dfs_filter) : dfs_filter :=
  if ext_seg both seg_id then rf <| rf_dl_ext_seg ::= f |> else rf <| rf_dl ::= f |>.

Definition dfs_add_pulse (both : bool) (rf : dfs_filter) (re : dfs_event) (deltaT this_ts seg_id : Z) : dfs_filter :=
  upd_dl both seg_id (λ dl, dl <| dl_ring ::= dfs_add_pulse_dl (rf_filterlen rf) re (u32 deltaT) this_ts |>) rf.

(** ** Buffers of the chirp detectors *)
Definition DFS_BIN5_PRI_LOWER_LIMIT : Z := 990.
Definition DFS_BIN5_PRI_HIGHER_LIMIT : Z := 2010.
Definition DFS_BIN5_BRI_LOWER_LIMIT : Z := 300000.
Definition DFS_BIN5_BRI_UPPER_LIMIT : Z := 12000000.

(** The interval from the last pulse is neither one between pulses of a burst nor
    one between bursts. *)
Definition bin5_interval (tsDelta : Z) : bool :=
  negb ((tsDelta <? DFS_BIN5_PRI_LOWER_LIMIT) ||
        ((DFS_BIN5_PRI_HIGHER_LIMIT <? tsDelta) && (tsDelta <? DFS_BIN5_BRI_LOWER_LIMIT))).

Fixpoint bin5_drop_old (fuel : nat) (timewindow thists : Z) (r : ring dfs_bin5elem) : ring dfs_bin5elem :=
  match fuel with
  | O => r
  | S fuel =>
      if 0 <? u32 (numelems r - 1) then
        if timewindow <? u64 (thists - be_ts (zget (elems r) (firstelem r))) then
          bin5_drop_old fuel timewindow thists
            (r <| numelems ::= λ n, u32 (n - 1) |> <| firstelem ::= λ f, Z.land (u32 (f + 1)) DFS_MAX_B5_MASK |>)
        else r
      else r
  end.

Definition bin5_add_ring (timewindow : Z) (re : dfs_event) (thists : Z) (r : ring dfs_bin5elem) : ring dfs_bin5elem * bool :=
  if negb (numelems r =? 0) && negb (bin5_interval (u64 (thists - be_ts (zget (elems r) (lastelem r)))))
  then (r, false)
  else
    let r := ring_push DFS_MAX_B5_SIZE DFS_MAX_B5_MASK (mk_b5elem thists (re_rssi re) (re_dur re)) r in
    (bin5_drop_old (Z.to_nat DFS_MAX_B5_SIZE) timewindow thists r, true).

Definition dfs_bin5_addpulse (br : dfs_bin5radars) (re : dfs_event) (thists : Z) : dfs_bin5radars * bool :=
  let '(r, added) := bin5_add_ring (b5_timewindow (br_pulse br)) re thists (br_ring br) in
  (br <| br_ring := r |>, added).

(** ** Resets *)
Definition zero_dl (dl : dfs_delayline) : dfs_delayline :=
  mk_dl (ring_reset zero_delay DFS_MAX_DL_MASK (dl_ring dl)) 0.

(** Only the array and the last index. *)
Definition dfs_reset_delayline (dl : dfs_delayline) : dfs_delayline :=
  dl <| dl_ring ::= λ r, r <| elems ::= map (λ _, zero_delay) |> <| lastelem := DFS_MAX_DL_MASK |> |>.

(** ** Rings as lists *)

(** The sizes of the buffers are powers of two. *)
Class RingSize (size mask : Z) : Prop := {
  size_range : 0 < size < 2147483648;
  mask_mod : ∀ x, Z.land x mask = x mod size;
  size_u32 : (size | 4294967296);
}.

Lemma ring_size_pow k : 0 <= k < 31 → RingSize (2 ^ k) (Z.ones k).
Proof.
  intros Hk. split.
  - split; [apply Z.pow_pos_nonneg; lia|]. change 2147483648 with (2 ^ 31). apply Z.pow_lt_mono_r; lia.
  - intros x. apply Z.land_ones. lia.
  - exists (2 ^ (32 - k)). rewrite <- Z.pow_add_r by lia. by replace (32 - k + k) with 32 by lia.
Qed.
#[export] Instance dl_size : RingSize DFS_MAX_DL_SIZE DFS_MAX_DL_MASK := ring_size_pow 6 ltac:(lia).
#[export] Instance b5_size : RingSize DFS_MAX_B5_SIZE DFS_MAX_B5_MASK := ring_size_pow 7 ltac:(lia).
#[export] Instance pl_size : RingSize DFS_MAX_PULSE_BUFFER_SIZE DFS_MAX_PULSE_BUFFER_MASK := ring_size_pow 10 ltac:(lia).

Section rings.
Context {A : Type} `{Inhabited A} {size mask : Z} {HS : RingSize size mask}.
Implicit Types (r : ring A) (x : A) (l : list A).

(** The content, oldest first. *)
Definition ring_list r : list A := map (ring_at mask r) (seqZ 0 (numelems r)).

(** What memory safety needs, and what the content needs on top of it. *)
Definition ring_shape r : Prop := Z.of_nat (length (elems r)) = size ∧ 0 <= numelems r <= size.
Definition ring_wf r : Prop :=
  ring_shape r ∧ 0 <= firstelem r < size ∧ lastelem r = (firstelem r + numelems r - 1) mod size.

Lemma mask_u32 (a : Z) : Z.land (u32 a) mask = a mod size.
Proof.
  rewrite mask_mod. unfold u32. pose proof (size_range (size:=size)). destruct size_u32 as [q Hq].
  symmetry. apply Znumtheory.Zmod_div_mod; [lia|lia|by exists q].
Qed.

Lemma mask_range (a : Z) : 0 <= Z.land a mask < size.
Proof. rewrite mask_mod. apply Z.mod_pos_bound, (size_range (size:=size)). Qed.

Lemma ring_list_length r : 0 <= numelems r → Z.of_nat (length (ring_list r)) = numelems r.
Proof. intros. unfold ring_list. rewrite length_map, length_seqZ. lia. Qed.

Lemma ring_list_lookup r (i : nat) :
  Z.of_nat i < numelems r → ring_list r !! i = Some (ring_at mask r (Z.of_nat i)).
Proof. intros. unfold ring_list. rewrite list_lookup_fmap, lookup_seqZ_lt by lia. cbn. by rewrite Z.add_0_l. Qed.

Lemma ring_at_mod r i : ring_at mask r i = zget (elems r) ((firstelem r + i) mod size).
Proof. unfold ring_at. by rewrite mask_u32. Qed.

(** Contents that agree position by position. *)
Lemma ring_list_ext r l :
  numelems r = Z.of_nat (length l) → (∀ i x, l !! i = Some x → ring_at mask r (Z.of_nat i) = x) → ring_list r = l.
Proof.
  intros Hn Hi. apply list_eq. intros i. destruct (decide (i < length l)%nat) as [Hl|Hl].
  - rewrite ring_list_lookup by lia. destruct (lookup_lt_is_Some_2 _ _ Hl) as [x Hx]. rewrite Hx. by erewrite Hi.
  - rewrite (lookup_ge_None_2 l) by lia. apply lookup_ge_None_2. pose proof (ring_list_length r). lia.
Qed.

(** Two places less than [size] apart are different. *)
Lemma places_differ a b : 0 < b - a < size → a mod size ≠ b mod size.
Proof.
  intros Hab E. assert ((b - a) mod size = 0) as E2.
  { rewrite Zminus_mod, E, Z.sub_diag. apply Zmod_0_l. }
  rewrite Z.mod_small in E2; lia.
Qed.

Lemma mod_shift a b c : (a mod size + b - c) mod size = (a + b - c) mod size.
Proof. rewrite <- !Z.add_sub_assoc. apply Zplus_mod_idemp_l. Qed.

Lemma ring_push_spec x r :
  ring_wf r →
  ring_wf (ring_push size mask x r) ∧
  ring_list (ring_push size mask x r) = (if numelems r =? size then drop 1 (ring_list r) else ring_list r) ++ [x].
Proof.
  pose proof (size_range (size:=size)) as Hsz. intros ((Hl & Hn) & Hf & Hlast).
  assert (Hix : Z.land (u32 (lastelem r + 1)) mask = (firstelem r + numelems r) mod size).
  { rewrite mask_u32, Hlast, Zplus_mod_idemp_l. f_equal. lia. }
  assert (Hmod : 0 <= (firstelem r + numelems r) mod size < size) by (apply Z.mod_pos_bound; lia).
  unfold ring_push. rewrite Hix. pose proof (ring_list_length r) as Hlen.
  destruct (Z.eqb_spec (numelems r) size) as [E|E]; rsimpl.
  - rewrite mask_u32. split.
    + split; [|split; cbn; [apply Z.mod_pos_bound; lia|]]; [split; cbn; [by rewrite length_zset|lia]|].
      rewrite mod_shift. f_equal. lia.
    + apply ring_list_ext; cbn.
      { rewrite length_app, length_drop. cbn. lia. }
      intros i y Hi. rewrite ring_at_mod. cbn. rewrite Zplus_mod_idemp_l.
      destruct (decide (Z.of_nat i < size - 1)) as [Hlt|Hge].
      * assert (Hne : (firstelem r + 1 + Z.of_nat i) mod size ≠ (firstelem r + numelems r) mod size) by (apply places_differ; lia).
        assert (0 <= (firstelem r + 1 + Z.of_nat i) mod size < size) by (apply Z.mod_pos_bound; lia).
        rewrite zget_zset_ne by lia.
        rewrite lookup_app_l in Hi by (rewrite length_drop; lia). rewrite lookup_drop, ring_list_lookup in Hi by lia.
        rewrite ring_at_mod in Hi. injection Hi as <-. do 2 f_equal. lia.
      * rewrite lookup_app_r in Hi by (rewrite length_drop; lia). rewrite length_drop in Hi.
        assert (Hi' : (i - (length (ring_list r) - 1))%nat = 0%nat).
        { apply lookup_lt_Some in Hi. cbn in Hi. lia. }
        rewrite Hi' in Hi. injection Hi as <-.
        replace (firstelem r + 1 + Z.of_nat i) with (firstelem r + numelems r) by (cbn in Hi'; lia).
        apply zget_zset_eq. lia.
  - unfold u32. rewrite (Z.mod_small (numelems r + 1)) by lia. split.
    + split; [|split; cbn; [lia|]]; [split; cbn; [by rewrite length_zset|lia]|]. f_equal. lia.
    + apply ring_list_ext; cbn.
      { rewrite length_app. cbn. lia. }
      intros i y Hi. rewrite ring_at_mod. cbn. destruct (decide (Z.of_nat i < numelems r)) as [Hlt|Hge].
      * assert (Hne : (firstelem r + Z.of_nat i) mod size ≠ (firstelem r + numelems r) mod size) by (apply places_differ; lia).
        assert (0 <= (firstelem r + Z.of_nat i) mod size < size) by (apply Z.mod_pos_bound; lia).
        rewrite zget_zset_ne by lia.
        rewrite lookup_app_l, ring_list_lookup in Hi by lia. rewrite ring_at_mod in Hi. congruence.
      * rewrite lookup_app_r in Hi by lia. apply lookup_lt_Some in Hi as Hi2. cbn in Hi2.
        replace (i - length (ring_list r))%nat with 0%nat in Hi by lia. injection Hi as <-.
        replace (Z.of_nat i) with (numelems r) by lia. apply zget_zset_eq. lia.
Qed.

(** Dropping the oldest elements: any fields with these values. *)
Lemma ring_drop_spec r k f n :
  ring_wf r → 0 <= k <= numelems r → f = (firstelem r + k) mod size → n = numelems r - k →
  ring_wf (r <| firstelem := f |> <| numelems := n |>) ∧
  ring_list (r <| firstelem := f |> <| numelems := n |>) = drop (Z.to_nat k) (ring_list r).
Proof.
  pose proof (size_range (size:=size)) as Hsz. intros ((Hl & Hn) & Hf & Hlast) Hk -> ->. rsimpl. split.
  - split; [|split; cbn; [apply Z.mod_pos_bound; lia|]]; [split; cbn; [done|lia]|].
    rewrite Hlast, mod_shift. f_equal. lia.
  - pose proof (ring_list_length r) as Hlen. apply ring_list_ext; cbn; [rewrite length_drop; lia|].
    intros i y Hi. apply lookup_lt_Some in Hi as Hi2. rewrite length_drop in Hi2.
    rewrite lookup_drop, ring_list_lookup, ring_at_mod in Hi by lia. injection Hi as <-.
    rewrite ring_at_mod. cbn. rewrite Zplus_mod_idemp_l. do 2 f_equal. lia.
Qed.

Lemma ring_reset_spec z r :
  Z.of_nat (length (elems r)) = size → mask = size - 1 →
  ring_wf (ring_reset z mask r) ∧ ring_list (ring_reset z mask r) = [].
Proof.
  pose proof (size_range (size:=size)) as Hsz. intros Hl Hm. split; [|done].
  split; [split; cbn; [by rewrite length_map|lia]|]. split; [cbn; lia|].
  rewrite <- (Z.mod_add _ 1 size) by lia. unfold ring_reset. cbn [firstelem lastelem numelems].
  rewrite Z.mod_small; lia.
Qed.

(** The element [n] places before the last one. *)
Lemma ring_back r (n : Z) :
  ring_wf r → 0 <= n < numelems r →
  reverse (ring_list r) !! Z.to_nat n = Some (zget (elems r) ((lastelem r - n) mod size)).
Proof.
  pose proof (size_range (size:=size)) as Hsz. intros ((Hl & Hn) & Hf & Hlast) Hr. pose proof (ring_list_length r) as Hlen.
  rewrite reverse_lookup by lia. rewrite ring_list_lookup by lia. rewrite ring_at_mod. f_equal.
  rewrite Hlast, Zminus_mod_idemp_l. do 2 f_equal. lia.
Qed.

Lemma ring_push_shape x r : ring_shape r → ring_shape (ring_push size mask x r).
Proof.
  pose proof (size_range (size:=size)) as Hsz. intros [Hl Hn]. unfold ring_push. split.
  - split_if; rsimpl; by rewrite length_zset.
  - split_if; rsimpl; bool_hyps; [lia|]. unfold u32. rewrite Z.mod_small; lia.
Qed.

Lemma ring_push_num x r : 0 <= numelems r <= size → numelems (ring_push size mask x r) <= numelems r + 1.
Proof.
  pose proof (size_range (size:=size)) as Hsz. intros Hn. unfold ring_push. split_if; rsimpl; [lia|].
  unfold u32. rewrite Z.mod_small; lia.
Qed.
End rings.
#[global] Arguments ring_list {A _} mask r.
#[global] Arguments ring_shape {A} size r.
#[global] Arguments ring_wf {A} size r.

(** ** What the buffers hold *)

(** The longest prefix of elements that satisfy [P]. *)
Fixpoint while_ok {A} (P : A → bool) (l : list A) : list A :=
  match l with
  | x :: l => if P x then x :: while_ok P l else []
  | [] => []
  end.

Lemma drop_reverse_take {A} (k : nat) (l : list A) : drop k (reverse l) = reverse (take (length l - k) l).
Proof. unfold reverse. rewrite <- !rev_alt. apply skipn_rev. Qed.

Section delay_line.
Context (filterlen : Z).

Definition in_window (t : Z) (e : dfs_delayelem) : bool := negb (filterlen <? u32 (t - de_ts e)).

(** A delay line, newest pulse first. *)
Definition line_add (e : dfs_delayelem) (h : list dfs_delayelem) : list dfs_delayelem :=
  e :: while_ok (in_window (de_ts e)) (take 63 h).

Abbreviation dl_wf := (ring_wf (A:=dfs_delayelem) DFS_MAX_DL_SIZE).
Abbreviation dl_list := (ring_list (A:=dfs_delayelem) DFS_MAX_DL_MASK).

Lemma drop_old_spec fuel t n r h :
  dl_wf r → dl_list r = reverse h → 0 <= n < numelems r → numelems r - 1 - n <= Z.of_nat fuel →
  let r' := drop_old fuel filterlen t n ((lastelem r - n) mod DFS_MAX_DL_SIZE) r in
  dl_wf r' ∧ dl_list r' = reverse (take (Z.to_nat (n + 1)) h ++ while_ok (in_window t) (drop (Z.to_nat (n + 1)) h)).
Proof.
  revert n r. induction fuel as [|fuel IH]; intros n r Hwf Hr Hn Hfuel; cbn zeta.
  - cbn [drop_old]. split; [done|]. rewrite Hr. f_equal.
    assert (Hlen : Z.of_nat (length h) = numelems r).
    { rewrite <- (ring_list_length (mask:=DFS_MAX_DL_MASK) r), Hr, length_reverse by lia. done. }
    rewrite drop_ge, take_ge by lia. cbn. by rewrite app_nil_r.
  - assert (Hlen : Z.of_nat (length h) = numelems r).
    { rewrite <- (ring_list_length (mask:=DFS_MAX_DL_MASK) r), Hr, length_reverse by lia. done. }
    pose proof Hwf as ((Hl & Hnum) & Hf & Hlast). unfold DFS_MAX_DL_SIZE in Hnum. cbn [drop_old].
    assert (Hu : u32 (numelems r - 1) = numelems r - 1) by (apply u32_small; red; lia). rewrite Hu.
    destruct (Z.ltb_spec n (numelems r - 1)) as [Hlt|Hge].
    2:{ split; [done|]. rewrite Hr, drop_ge, take_ge by lia. cbn. by rewrite app_nil_r. }
    rewrite (mask_u32 (size:=DFS_MAX_DL_SIZE)).
    replace (((lastelem r - n) mod DFS_MAX_DL_SIZE - 1) mod DFS_MAX_DL_SIZE) with ((lastelem r - (n + 1)) mod DFS_MAX_DL_SIZE)
      by (rewrite Zminus_mod_idemp_l; f_equal; lia).
    pose proof (ring_back (mask:=DFS_MAX_DL_MASK) r (n + 1) Hwf ltac:(lia)) as Hy. rewrite Hr, reverse_involutive in Hy.
    set (y := zget (elems r) _) in *. rewrite (drop_S h y (Z.to_nat (n + 1)) Hy). cbn [while_ok].
    assert (Hin : in_window t y = negb (filterlen <? u32 (t - de_ts y))) by done. rewrite Hin. clear Hin.
    destruct (Z.ltb_spec filterlen (u32 (t - de_ts y))) as [Ho|Ho]; cbn [negb].
    + set (r1 := r <| firstelem := _ |> <| numelems := _ |>).
      assert (H1 : dl_wf r1 ∧ dl_list r1 = drop (Z.to_nat (numelems r - (n + 1))) (dl_list r)).
      { unfold r1. apply ring_drop_spec; [done|lia| |lia].
        rewrite (mask_u32 (size:=DFS_MAX_DL_SIZE)), Hlast, Zplus_mod_idemp_l.
        replace ((firstelem r + numelems r - 1) mod DFS_MAX_DL_SIZE - (n + 1) + 1) with ((firstelem r + numelems r - 1) mod DFS_MAX_DL_SIZE - n) by lia.
        rewrite Zminus_mod_idemp_l. f_equal. lia. }
      destruct H1 as [H1 H2]. rewrite Hr, drop_reverse_take in H2.
      replace (length h - Z.to_nat (numelems r - (n + 1)))%nat with (Z.to_nat (n + 1)) in H2 by lia.
      assert (Hstop : ∀ ix, drop_old fuel filterlen t (n + 1) ix r1 = r1).
      { intros ix. destruct fuel; [done|]. cbn [drop_old]. unfold r1. rsimpl. rewrite u32_small by (red; lia).
        destruct (Z.ltb_spec (n + 1) (n + 1 - 1)); [lia|done]. }
      rewrite Hstop, app_nil_r. done.
    + destruct (IH (n + 1) r Hwf Hr ltac:(lia) ltac:(lia)) as [H1 H2]. split; [exact H1|]. rewrite H2. f_equal.
      replace (Z.to_nat (n + 1 + 1)) with (S (Z.to_nat (n + 1))) by lia.
      rewrite (take_S_r _ _ _ Hy), <- app_assoc. done.
Qed.

Lemma dfs_add_pulse_dl_spec re deltaT t r h :
  dl_wf r → dl_list r = reverse h →
  let r' := dfs_add_pulse_dl filterlen re deltaT t r in
  dl_wf r' ∧ dl_list r' = reverse (line_add (mk_delay deltaT (re_dur re) (re_rssi re) t) h).
Proof.
  intros Hwf Hr. unfold dfs_add_pulse_dl. set (e := mk_delay _ _ _ _). cbn zeta.
  pose proof Hwf as ((Hl & Hnum) & Hf & Hlast).
  assert (Hlen : Z.of_nat (length h) = numelems r).
  { rewrite <- (ring_list_length (mask:=DFS_MAX_DL_MASK) r), Hr, length_reverse by lia. done. }
  destruct (ring_push_spec (mask:=DFS_MAX_DL_MASK) e r Hwf) as [H1 H2].
  set (r1 := ring_push _ _ _ _) in *.
  assert (H3 : dl_list r1 = reverse (e :: take 63 h)).
  { rewrite H2, reverse_cons. f_equal. unfold DFS_MAX_DL_SIZE in *.
    destruct (Z.eqb_spec (numelems r) 64); rewrite Hr; [|rewrite take_ge by lia; done].
    rewrite drop_reverse_take. do 2 f_equal. lia. }
  assert (Hn1 : numelems r1 = Z.of_nat (length (e :: take 63 h))).
  { rewrite <- (ring_list_length (mask:=DFS_MAX_DL_MASK) r1), H3, length_reverse; [done|]. apply H1. }
  pose proof (proj2 (proj1 H1)) as Hn64. unfold DFS_MAX_DL_SIZE in Hn64.
  pose proof (drop_old_spec (Z.to_nat DFS_MAX_DL_SIZE) t 0 r1 (e :: take 63 h) H1 H3) as H4. cbn zeta in H4.
  replace ((lastelem r1 - 0) mod DFS_MAX_DL_SIZE) with (lastelem r1) in H4.
  2:{ rewrite Z.sub_0_r. destruct H1 as (_ & _ & ->). by rewrite Zmod_mod. }
  destruct (H4 ltac:(rewrite Hn1; cbn [length]; lia) ltac:(unfold DFS_MAX_DL_SIZE; lia)) as [H5 H6].
  split; [exact H5|]. rewrite H6. done.
Qed.
End delay_line.

Section bin5_line.
Context (timewindow : Z).

(** Dropping from the old end, but never the newest element. *)
Fixpoint b5_trim (t : Z) (l : list dfs_bin5elem) : list dfs_bin5elem :=
  match l with
  | [] => []
  | x :: rest =>
      match rest with
      | [] => l
      | _ => if timewindow <? u64 (t - be_ts x) then b5_trim t rest else l
      end
  end.

(** The chirp detector's list, oldest pulse first. *)
Definition b5_ok (t : Z) (l : list dfs_bin5elem) : bool :=
  match last l with Some e => bin5_interval (u64 (t - be_ts e)) | None => true end.
Definition b5_add (e : dfs_bin5elem) (l : list dfs_bin5elem) : list dfs_bin5elem :=
  if b5_ok (be_ts e) l
  then b5_trim (be_ts e) ((if Z.of_nat (length l) =? DFS_MAX_B5_SIZE then drop 1 l else l) ++ [e])
  else l.

Abbreviation b5_wf := (ring_wf (A:=dfs_bin5elem) DFS_MAX_B5_SIZE).
Abbreviation b5_list := (ring_list (A:=dfs_bin5elem) DFS_MAX_B5_MASK).

Lemma bin5_drop_old_spec fuel t r l :
  b5_wf r → b5_list r = l → 0 < numelems r → numelems r - 1 <= Z.of_nat fuel →
  let r' := bin5_drop_old fuel timewindow t r in b5_wf r' ∧ b5_list r' = b5_trim t l.
Proof.
  revert r l. induction fuel as [|fuel IH]; intros r l Hwf Hr Hpos Hfuel; cbn zeta;
    assert (Hlen : Z.of_nat (length l) = numelems r) by
      (rewrite <- (ring_list_length (mask:=DFS_MAX_B5_MASK) r), Hr; [done|apply Hwf]).
  - split; [done|]. cbn [bin5_drop_old]. rewrite Hr. destruct l as [|x [|y l]]; cbn [length] in Hlen; [done..|lia].
  - pose proof Hwf as ((Hl & Hnum) & Hf & Hlast). unfold DFS_MAX_B5_SIZE in Hnum. cbn [bin5_drop_old].
    rewrite u32_small by (red; lia). destruct (Z.ltb_spec 0 (numelems r - 1)) as [Hlt|Hge].
    2:{ split; [done|]. rewrite Hr. destruct l as [|x [|y l]]; cbn [length] in Hlen; [done..|lia]. }
    destruct l as [|x [|y l]]; cbn [length] in Hlen; [lia..|].
    change (b5_trim t (x :: y :: l)) with (if timewindow <? u64 (t - be_ts x) then b5_trim t (y :: l) else x :: y :: l).
    assert (Hx : zget (elems r) (firstelem r) = x).
    { pose proof (ring_list_lookup (mask:=DFS_MAX_B5_MASK) r 0 ltac:(lia)) as H0. rewrite Hr in H0. injection H0 as H0.
      rewrite (ring_at_mod (size:=DFS_MAX_B5_SIZE)), Z.add_0_r, Z.mod_small in H0 by lia. done. }
    rewrite Hx. destruct (timewindow <? u64 (t - be_ts x)); [|by split].
    set (r1 := r <| numelems ::= _ |> <| firstelem ::= _ |>).
    assert (H1 : r1 = r <| firstelem := (firstelem r + 1) mod DFS_MAX_B5_SIZE |> <| numelems := numelems r - 1 |>).
    { unfold r1. rsimpl. rewrite (mask_u32 (size:=DFS_MAX_B5_SIZE)), u32_small by (red; lia). done. }
    destruct (ring_drop_spec (mask:=DFS_MAX_B5_MASK) r 1 _ _ Hwf ltac:(lia) eq_refl eq_refl) as [H2 H3]. rewrite <- H1, Hr in *.
    apply IH; [done|done|rewrite H1; rsimpl; lia|]. rewrite H1. rsimpl. lia.
Qed.

Lemma bin5_add_ring_spec re t r l :
  b5_wf r → b5_list r = l →
  let '(r', added) := bin5_add_ring timewindow re t r in
  added = b5_ok t l ∧ b5_wf r' ∧ b5_list r' = b5_add (mk_b5elem t (re_rssi re) (re_dur re)) l.
Proof.
  intros Hwf Hr. pose proof Hwf as ((Hl & Hnum) & Hf & Hlast). unfold DFS_MAX_B5_SIZE in Hnum.
  assert (Hlen : Z.of_nat (length l) = numelems r) by (rewrite <- (ring_list_length (mask:=DFS_MAX_B5_MASK) r), Hr; lia || done).
  unfold bin5_add_ring, b5_add. cbn [be_ts].
  assert (Hok : b5_ok t l = negb (negb (numelems r =? 0) && negb (bin5_interval (u64 (t - be_ts (zget (elems r) (lastelem r))))))).
  { unfold b5_ok. destruct (Z.eqb_spec (numelems r) 0) as [E|E]; cbn [negb andb].
    - destruct l; [done|]. cbn [length] in Hlen. lia.
    - pose proof (ring_back (mask:=DFS_MAX_B5_MASK) r 0 Hwf ltac:(lia)) as Hb. rewrite Hr in Hb.
      change (Z.to_nat 0) with 0%nat in Hb. rewrite <- head_lookup, head_reverse in Hb. rewrite Hb, negb_involutive.
      do 4 f_equal. rewrite Z.sub_0_r. destruct Hwf as (_ & _ & ->). by rewrite Zmod_mod. }
  destruct (_ && _) eqn:E; cbn [negb] in Hok; rewrite Hok; [done|]. split; [done|].
  set (e := mk_b5elem _ _ _). destruct (ring_push_spec (mask:=DFS_MAX_B5_MASK) e r Hwf) as [H1 H2].
  rewrite Hr in H2. rewrite <- Hlen in H2. apply bin5_drop_old_spec; [done|done|..].
  - rewrite <- (ring_list_length (mask:=DFS_MAX_B5_MASK)), H2 by apply H1. rewrite length_app. cbn [length]. lia.
  - pose proof (proj2 (proj1 H1)) as Hn. unfold DFS_MAX_B5_SIZE in *. lia.
Qed.
End bin5_line.

(** *** Histories *)

Section histories.
Context {A : Type} (ts : A → Z).

(** Newest first, over less than the span [w] of the clock. *)
Definition history (w : Z) (h : list A) : Prop :=
  StronglySorted (λ a b, ts b <= ts a) h ∧ ∀ a b, a ∈ h → b ∈ h → ts a - ts b < w.

Lemma history_tail w a h : history w (a :: h) → history w h.
Proof. intros [[Hs _]%StronglySorted_inv Hw]. split; [done|]. intros x y Hx Hy. apply Hw; by right. Qed.

Lemma history_head w a b h : history w (a :: h) → b ∈ a :: h → 0 <= ts a - ts b < w.
Proof.
  intros [[_ Ha]%StronglySorted_inv Hw] Hb. split.
  - apply elem_of_cons in Hb as [->|Hb]; [lia|]. rewrite Forall_forall in Ha. specialize (Ha b Hb). cbn in Ha. lia.
  - apply Hw; [by left|done].
Qed.

(** The elements that are at most [len] older than [t]. *)
Definition recent (len t : Z) (h : list A) : list A := filter (λ x, t - ts x <= len) h.

Lemma while_recent (P : A → bool) len t h :
  StronglySorted (λ a b, ts b <= ts a) h → (∀ x, x ∈ h → P x = (t - ts x <=? len)) → while_ok P h = recent len t h.
Proof.
  unfold recent. induction 1 as [|a h Hs IH Ha]; intros HP; [done|]. cbn [while_ok]. rewrite (HP a) by by left.
  destruct (Z.leb_spec (t - ts a) len).
  - rewrite filter_cons_True by done. f_equal. apply IH. intros x Hx. apply HP. by right.
  - rewrite filter_cons_False by lia. clear IH HP. induction Ha as [|x h Hx Ha IH]; [done|]. rewrite filter_cons_False by lia.
    apply IH. by apply StronglySorted_inv in Hs as [? _].
Qed.
End histories.

(** *** The delay line is the recent past *)

(** The element that dfs_add_pulse stores, and the delay line after the pulses
    of a history. *)
Definition pulse_elem (p : dfs_event * Z * Z) : dfs_delayelem :=
  let '(re, deltaT, t) := p in mk_delay deltaT (re_dur re) (re_rssi re) t.
Definition add_pulses (filterlen : Z) (ps : list (dfs_event * Z * Z)) (r : ring dfs_delayelem) : ring dfs_delayelem :=
  foldl (λ r '(re, deltaT, t), dfs_add_pulse_dl filterlen re deltaT t r) r ps.
Fixpoint line_of (filterlen : Z) (h : list dfs_delayelem) : list dfs_delayelem :=
  match h with
  | [] => []
  | e :: h => line_add filterlen e (line_of filterlen h)
  end.

(** The events that a chirp detector accepts, newest first, and its buffer after
    offering it the events of a history. *)
Definition b5_elem (p : dfs_event * Z) : dfs_bin5elem := mk_b5elem p.2 (re_rssi p.1) (re_dur p.1).
Definition offer_pulses (timewindow : Z) (ps : list (dfs_event * Z)) (r : ring dfs_bin5elem) : ring dfs_bin5elem :=
  foldl (λ r p, (bin5_add_ring timewindow p.1 p.2 r).1) r ps.
Fixpoint b5_accepted (h : list dfs_bin5elem) : list dfs_bin5elem :=
  match h with
  | [] => []
  | e :: h =>
      let a := b5_accepted h in
      if match a with [] => true | x :: _ => bin5_interval (u64 (be_ts e - be_ts x)) end then e :: a else a
  end.

Definition latest {A} (ts : A → Z) (h : list A) : Z := match h with x :: _ => ts x | [] => 0 end.

Lemma recent_take {A} (ts : A → Z) len t (n : nat) h :
  StronglySorted (λ a b, ts b <= ts a) h → recent ts len t (take n h) = take n (recent ts len t h).
Proof.
  intros Hs. revert n. unfold recent. induction Hs as [|x h Hs IH Hx]; intros n; [by destruct n|].
  destruct n as [|n]; [done|]. cbn [take]. destruct (decide (t - ts x <= len)).
  - rewrite !filter_cons_True by done. cbn [take]. by rewrite IH.
  - rewrite !filter_cons_False by done.
    assert (Hnil : ∀ l, Forall (λ b, ts b <= ts x) l → filter (λ y, t - ts y <= len) l = []).
    { clear -n0. induction 1; [done|]. rewrite filter_cons_False by lia. done. }
    rewrite !Hnil by eauto using Forall_take. by destruct n.
Qed.

Lemma recent_recent {A} (ts : A → Z) len t t' h : t <= t' → recent ts len t' (recent ts len t h) = recent ts len t' h.
Proof. intros. unfold recent. rewrite list_filter_filter_l; [done|]. intros. lia. Qed.

Lemma sorted_recent {A} (ts : A → Z) len t h :
  StronglySorted (λ a b, ts b <= ts a) h → StronglySorted (λ a b, ts b <= ts a) (recent ts len t h).
Proof.
  unfold recent. induction 1 as [|x h Hs IH Hx]; [constructor|]. destruct (decide (t - ts x <= len)).
  - rewrite filter_cons_True by done. constructor; [done|]. rewrite Forall_forall in *. intros y [_ Hy]%list_elem_of_filter. by apply Hx.
  - by rewrite filter_cons_False.
Qed.

Lemma sorted_take {A} (R : relation A) (n : nat) h : StronglySorted R h → StronglySorted R (take n h).
Proof. intros Hs. apply (StronglySorted_app_1_l R _ (drop n h)). by rewrite take_drop. Qed.

Lemma recent_all {A} (ts : A → Z) len t h : Forall (λ x, t - ts x <= len) h → recent ts len t h = h.
Proof. unfold recent. induction 1; [done|]. rewrite filter_cons_True by done. by f_equal. Qed.

Lemma line_of_recent filterlen h :
  0 <= filterlen → history de_ts 4294967296 h →
  line_of filterlen h = take 64 (recent de_ts filterlen (latest de_ts h) h).
Proof.
  intros Hlen. induction h as [|e h IH]; intros Hh; [done|]. cbn [line_of latest]. rewrite IH by by eapply history_tail.
  unfold line_add. unfold recent at 2. rewrite filter_cons_True by lia. fold (recent de_ts filterlen (de_ts e) h). cbn [take]. f_equal.
  rewrite take_take. change (63 `min` 64)%nat with 63%nat.
  pose proof (history_tail _ _ _ _ Hh) as [Hs _].
  rewrite (while_recent de_ts _ filterlen (de_ts e)).
  - rewrite recent_take by by apply sorted_recent.
    f_equal. destruct h as [|x h]; [done|]. apply recent_recent. cbn [latest].
    pose proof (history_head _ _ _ x _ Hh ltac:(right; left)). lia.
  - apply sorted_take. by apply sorted_recent.
  - intros x Hx. assert (x ∈ h) as Hxh.
    { apply elem_of_take in Hx as (i & Hi & _). apply list_elem_of_lookup_2 in Hi. by apply list_elem_of_filter in Hi as [_ ?]. }
    pose proof (history_head _ _ _ x _ Hh ltac:(by right)). unfold in_window. rewrite u32_small by (red; lia).
    destruct (Z.ltb_spec filterlen (de_ts e - de_ts x)), (Z.leb_spec (de_ts e - de_ts x) filterlen); done || lia.
Qed.

Lemma add_pulses_spec filterlen ps r h :
  ring_wf DFS_MAX_DL_SIZE r → ring_list DFS_MAX_DL_MASK r = reverse (line_of filterlen h) →
  ring_wf DFS_MAX_DL_SIZE (add_pulses filterlen ps r) ∧
  ring_list DFS_MAX_DL_MASK (add_pulses filterlen ps r) = reverse (line_of filterlen (reverse (map pulse_elem ps) ++ h)).
Proof.
  revert r h. induction ps as [|[[re dT] t] ps IH]; intros r h Hwf Hr; [done|]. cbn [add_pulses foldl map].
  destruct (dfs_add_pulse_dl_spec filterlen re dT t r _ Hwf Hr) as [H1 H2].
  destruct (IH _ (pulse_elem (re, dT, t) :: h) H1 H2) as [H3 H4]. split; [exact H3|].
  rewrite reverse_cons, <- app_assoc. exact H4.
Qed.

Lemma b5_trim_recent timewindow l e :
  0 <= timewindow < 18446744073709551616 →
  history be_ts 18446744073709551616 (e :: reverse l) →
  b5_trim timewindow (be_ts e) (l ++ [e]) = reverse (recent be_ts timewindow (be_ts e) (e :: reverse l)).
Proof.
  intros Htw. induction l as [|x l IH]; intros Hh.
  - cbn [app reverse rev_append b5_trim]. rewrite recent_all; [done|]. constructor; [lia|constructor].
  - rewrite reverse_cons in Hh.
    assert (Hh2 : history be_ts 18446744073709551616 (e :: reverse l)).
    { destruct Hh as [Hs Hw]. split.
      - rewrite app_comm_cons in Hs. by apply StronglySorted_app in Hs as (_ & ? & _).
      - intros a b Ha Hb. apply Hw; rewrite app_comm_cons; apply elem_of_app; by left. }
    pose proof (history_head _ _ _ x _ Hh ltac:(right; apply elem_of_app; right; left)) as Hx.
    rewrite reverse_cons, app_comm_cons. unfold recent. rewrite filter_app. fold (recent be_ts timewindow (be_ts e) (e :: reverse l)).
    assert (Hstep : b5_trim timewindow (be_ts e) ((x :: l) ++ [e]) =
                    if timewindow <? u64 (be_ts e - be_ts x) then b5_trim timewindow (be_ts e) (l ++ [e]) else (x :: l) ++ [e])
      by by destruct l.
    rewrite Hstep, u64_small by (red; lia). destruct (Z.ltb_spec timewindow (be_ts e - be_ts x)) as [Ho|Ho].
    + rewrite (filter_cons_False _ x) by lia. cbn [filter list_filter]. rewrite app_nil_r. by apply IH.
    + rewrite (filter_cons_True _ x) by lia.
      rewrite reverse_app. cbn [list_filter filter reverse rev_append app]. f_equal.
      rewrite recent_all.
      * by rewrite reverse_cons, reverse_involutive.
      * apply Forall_forall. intros y Hy. destruct Hh as [Hs _]. rewrite app_comm_cons in Hs.
        apply StronglySorted_app in Hs as (Hs & _ & _). specialize (Hs y x Hy ltac:(by left)). cbn in Hs. lia.
Qed.

Lemma b5_accepted_in h x : x ∈ b5_accepted h → x ∈ h.
Proof.
  induction h as [|e h IH]; [done|]. cbn [b5_accepted]. split_if; intros Hx; [|right; by apply IH].
  apply elem_of_cons in Hx as [->|Hx]; [by left|right; by apply IH].
Qed.

Lemma b5_accepted_history w h : history be_ts w h → history be_ts w (b5_accepted h).
Proof.
  intros Hh. split.
  - induction h as [|e h IH]; [constructor|]. pose proof (history_tail _ _ _ _ Hh) as Ht. cbn [b5_accepted].
    split_if; [|by apply IH]. constructor; [by apply IH|]. apply Forall_forall. intros x Hx%b5_accepted_in.
    pose proof (history_head _ _ _ x _ Hh ltac:(by right)). lia.
  - intros a b Ha Hb. apply Hh; by apply b5_accepted_in.
Qed.

(** What a chirp detector holds after the accepted pulses [a]. *)
Definition b5_content (timewindow : Z) (a : list dfs_bin5elem) : list dfs_bin5elem :=
  reverse (take 128 (recent be_ts timewindow (latest be_ts a) a)).

Lemma b5_content_last timewindow x a :
  0 <= timewindow → last (b5_content timewindow (x :: a)) = Some x.
Proof.
  intros. unfold b5_content, recent. cbn [latest]. rewrite filter_cons_True by lia. cbn [take]. by rewrite reverse_cons, last_snoc.
Qed.

Lemma b5_add_content timewindow e h :
  0 <= timewindow < 18446744073709551616 → history be_ts 18446744073709551616 (e :: h) →
  b5_ok (be_ts e) (b5_content timewindow (b5_accepted h)) =
    match b5_accepted h with [] => true | x :: _ => bin5_interval (u64 (be_ts e - be_ts x)) end ∧
  b5_add timewindow e (b5_content timewindow (b5_accepted h)) = b5_content timewindow (b5_accepted (e :: h)).
Proof.
  intros Htw Hh. cbn [b5_accepted]. set (a := b5_accepted h).
  assert (Hok : b5_ok (be_ts e) (b5_content timewindow a) =
                match a with [] => true | x :: _ => bin5_interval (u64 (be_ts e - be_ts x)) end).
  { unfold b5_ok. destruct a as [|x a']; [done|]. by rewrite b5_content_last by lia. }
  split; [exact Hok|]. unfold b5_add. rewrite Hok. destruct (match a with [] => true | _ :: _ => _ end); [|done].
  assert (Ha : ∀ X, (∀ x, x ∈ X → x ∈ a) → StronglySorted (λ a b, be_ts b <= be_ts a) X → history be_ts 18446744073709551616 (e :: X)).
  { intros X HX HS. assert (HXh : ∀ x, x ∈ e :: X → x ∈ e :: h).
    { intros x [->|Hx]%elem_of_cons; [by left|]. right. apply b5_accepted_in. by apply HX. }
    split; [|intros y z Hy Hz; apply Hh; by apply HXh]. constructor; [done|]. apply Forall_forall. intros x Hx.
    pose proof (history_head _ _ _ x _ Hh ltac:(apply HXh; by right)). lia. }
  pose proof (proj1 (b5_accepted_history _ _ (history_tail _ _ _ _ Hh))) as Hs. fold a in Hs.
  set (R := recent be_ts timewindow (latest be_ts a) a).
  assert (Hl : (if Z.of_nat (length (b5_content timewindow a)) =? DFS_MAX_B5_SIZE then drop 1 (b5_content timewindow a)
                else b5_content timewindow a) = reverse (take 127 R)).
  { unfold b5_content. fold R. rewrite length_reverse, length_take. unfold DFS_MAX_B5_SIZE.
    destruct (Z.eqb_spec (Z.of_nat (128 `min` length R)) 128) as [E|E].
    - rewrite drop_reverse_take, take_take, length_take. do 2 f_equal. lia.
    - rewrite !take_ge by lia. done. }
  rewrite Hl, b5_trim_recent; [|done|].
  - rewrite reverse_involutive. unfold b5_content. f_equal. cbn [latest]. unfold recent at 1 2.
    rewrite !filter_cons_True by lia. cbn [take]. f_equal. fold (recent be_ts timewindow (be_ts e) (take 127 R)) (recent be_ts timewindow (be_ts e) a).
    rewrite recent_take by by apply sorted_recent. f_equal. unfold R. destruct a as [|x a'] eqn:Ea; [done|].
    apply recent_recent. cbn [latest]. assert (Hx : x ∈ e :: h).
    { right. apply b5_accepted_in. fold a. rewrite Ea. by left. }
    pose proof (history_head _ _ _ x _ Hh Hx). lia.
  - rewrite reverse_involutive. apply Ha; [|apply sorted_take; by apply sorted_recent].
    intros x (i & Hi & _)%elem_of_take. apply list_elem_of_lookup_2 in Hi. by apply list_elem_of_filter in Hi as [_ ?].
Qed.

Lemma offer_pulses_spec timewindow ps r h :
  0 <= timewindow < 18446744073709551616 → history be_ts 18446744073709551616 (reverse (map b5_elem ps) ++ h) →
  ring_wf DFS_MAX_B5_SIZE r → ring_list DFS_MAX_B5_MASK r = b5_content timewindow (b5_accepted h) →
  ring_wf DFS_MAX_B5_SIZE (offer_pulses timewindow ps r) ∧
  ring_list DFS_MAX_B5_MASK (offer_pulses timewindow ps r) = b5_content timewindow (b5_accepted (reverse (map b5_elem ps) ++ h)).
Proof.
  intros Htw. revert r h. induction ps as [|p ps IH]; intros r h Hh Hwf Hr; [done|]. cbn [offer_pulses foldl map].
  cbn [map] in Hh. rewrite reverse_cons, <- app_assoc in Hh |- *. cbn [app] in Hh |- *.
  assert (Hh1 : history be_ts 18446744073709551616 (b5_elem p :: h)).
  { destruct Hh as [Hs Hw]. split; [by apply StronglySorted_app_1_r in Hs|]. intros a b Ha Hb. apply Hw; apply elem_of_app; by right. }
  pose proof (bin5_add_ring_spec timewindow p.1 p.2 r _ Hwf Hr) as H1.
  destruct (bin5_add_ring _ _ _ r) as [r1 added] eqn:Er. destruct H1 as (_ & H1 & H2). cbn [fst].
  apply IH; [exact Hh|exact H1|]. rewrite H2. by apply b5_add_content.
Qed.

(** C21: after any pulses in the order of their time stamps, within the span that the
    code's arithmetic tells apart, a delay line that was reset holds exactly the pulses
    of the last [filterlen] microseconds, the newest 64 if there are more; the buffer
    of a chirp detector holds those pulses of its window, the newest 128 if there are
    more, that followed the last accepted one at an interval of a burst. *)
Theorem pulse_windows filterlen timewindow (dl : ring dfs_delayelem) (br : ring dfs_bin5elem) ps bs :
  0 <= filterlen → 0 <= timewindow < 18446744073709551616 →
  Z.of_nat (length (elems dl)) = DFS_MAX_DL_SIZE → Z.of_nat (length (elems br)) = DFS_MAX_B5_SIZE →
  history de_ts 4294967296 (reverse (map pulse_elem ps)) → history be_ts 18446744073709551616 (reverse (map b5_elem bs)) →
  let h := reverse (map pulse_elem ps) in let a := b5_accepted (reverse (map b5_elem bs)) in
  reverse (ring_list DFS_MAX_DL_MASK (add_pulses filterlen ps (ring_reset zero_delay DFS_MAX_DL_MASK dl))) =
    take 64 (recent de_ts filterlen (latest de_ts h) h) ∧
  reverse (ring_list DFS_MAX_B5_MASK (offer_pulses timewindow bs (ring_reset zero_b5elem DFS_MAX_B5_MASK br))) =
    take 128 (recent be_ts timewindow (latest be_ts a) a).
Proof.
  intros Hf Htw Hdl Hbr Hh Hb h a. split.
  - destruct (ring_reset_spec (mask:=DFS_MAX_DL_MASK) zero_delay dl Hdl eq_refl) as [H1 H2].
    destruct (add_pulses_spec filterlen ps _ [] H1 H2) as [_ ->]. rewrite reverse_involutive, app_nil_r. by apply line_of_recent.
  - destruct (ring_reset_spec (mask:=DFS_MAX_B5_MASK) zero_b5elem br Hbr eq_refl) as [H1 H2].
    destruct (offer_pulses_spec timewindow bs _ [] Htw ltac:(by rewrite app_nil_r) H1 H2) as [_ ->].
    unfold b5_content. by rewrite reverse_involutive, app_nil_r.
Qed.
