(* ===== verification/DfsBin.v ===== *)
(** The pattern checks of the radar detection: dfs_bindetects.c, dfs_staggered.c,
    dfs_fcc_bin5.c and the margins of dfs_misc.c.

    [None] is an access outside an array.  A check gets the fields of [dfs_rinfo]
    that the margins cache and gives them back.  The element counts are unsigned
    32-bit numbers, the scores C integers that never become negative. *)
From S2P Require Import Prelude Arrays DfsTypes DfsLine.

Definition DFS_EXT_CHAN_LOADING_THRESH : Z := 30.
Definition DFS_DEFAULT_PRI_MARGIN : Z := 6.
Definition DFS_DEFAULT_FIXEDPATTERN_PRI_MARGIN : Z := 4.

Definition ol_if_dfs_get_ext_busy : Z := 0.
Definition ol_if_get_tsf64 : Z := 0.

Definition adjust_pri_per_chan_busy (ext_chan_busy pri_margin : Z) : Z :=
  if DFS_EXT_CHAN_LOADING_THRESH <? ext_chan_busy
  then Z.quot ((ext_chan_busy - DFS_EXT_CHAN_LOADING_THRESH) * pri_margin) 100 else 0.
Definition adjust_thresh_per_chan_busy (ext_chan_busy thresh : Z) : Z :=
  if DFS_EXT_CHAN_LOADING_THRESH <? ext_chan_busy
  then Z.quot ((ext_chan_busy - DFS_EXT_CHAN_LOADING_THRESH) * thresh) 100 else 0.

(** The load of the extension channel, cached or not. *)
Definition ext_busy (ri : dfs_info) : Z * dfs_info :=
  let ext_chan_busy := ol_if_dfs_get_ext_busy in
  if 0 <=? ext_chan_busy then
    (ext_chan_busy, ri <| ext_chan_busy_ts := ol_if_get_tsf64 |> <| dfs_ext_chan_busy := u8 ext_chan_busy |>)
  else if negb (dfs_ext_chan_busy ri =? 0) && (rn_lastfull_ts ri <? ext_chan_busy_ts ri)
  then (dfs_ext_chan_busy ri, ri) else (0, ri).

Definition dfs_get_pri_margin (c : dfs_ieee80211_channel) (ri : dfs_info) (is_fixed_pattern : bool) : Z * dfs_info :=
  let pri_margin := if is_fixed_pattern then DFS_DEFAULT_FIXEDPATTERN_PRI_MARGIN else DFS_DEFAULT_PRI_MARGIN in
  if IS_CHAN_HT40 c then
    let '(ext_chan_busy, ri) := ext_busy ri in
    (pri_margin - adjust_pri_per_chan_busy ext_chan_busy pri_margin, ri)
  else (pri_margin, ri).

Definition dfs_get_filter_threshold (c : dfs_ieee80211_channel) (ri : dfs_info) (rf : dfs_filter) : Z * dfs_info :=
  let thresh := rf_threshold rf in
  if IS_CHAN_HT40 c then
    let '(ext_chan_busy, ri) := ext_busy ri in
    (thresh + adjust_thresh_per_chan_busy ext_chan_busy thresh, ri)
  else (thresh, ri).

Definition dfs_round (val : Z) : Z :=
  if val <? 0 then 0
  else
    let ival := val / 100 in
    let rem := u32 (val - ival * 100) in
    if rem <? 50 then ival else ival + 1.

(** ** Fixed patterns *)

(** The first loop: back to the newest pulse before [start_ts]. *)
Fixpoint find_start (i : nat) (start_ts index : Z) (pl : dfs_pulseline) : Z :=
  match i with
  | O => index
  | S i =>
      let index := Z.land (u32 (index - 1)) DFS_MAX_PULSE_BUFFER_MASK in
      if start_ts <=? p_time (zget (elems pl) index) then find_start i start_ts index pl else index
  end.

(** One window: the pulse it ends at and whether it counts. *)
Fixpoint window_loop (i : nat) (refpri dur window_start window_end index : Z) (pl : dfs_pulseline) : Z * bool :=
  match i with
  | O => (index, false)
  | S i =>
      let prev_event_ts := p_time (zget (elems pl) index) in
      let index := Z.land (u32 (index + 1)) DFS_MAX_PULSE_BUFFER_MASK in
      let event := zget (elems pl) index in
      let event_ts := p_time event in
      let next_event_ts := p_time (zget (elems pl) (Z.land (u32 (index + 1)) DFS_MAX_PULSE_BUFFER_MASK)) in
      let deltadur := DFS_DIFF (p_dur event) dur in
      if (event_ts <=? window_end) && (window_start <=? event_ts) then
        if (p_dur event =? 1) || (negb (dur =? 1) && (deltadur <=? 2)) then (index, true)
        else window_loop i refpri dur window_start window_end index pl
      else if window_end <? event_ts then (Z.land (u32 (index - 1)) DFS_MAX_PULSE_BUFFER_MASK, false)
      else if event_ts =? prev_event_ts then
        if (refpri <? u64 (next_event_ts - event_ts)) || (u64 (next_event_ts - event_ts) =? 0) then
          if (p_dur event =? 1) || (negb (p_dur event =? 1) && (deltadur <=? 2)) then (index, true)
          else window_loop i refpri dur window_start window_end index pl
        else window_loop i refpri dur window_start window_end index pl
      else window_loop i refpri dur window_start window_end index pl
  end.

Definition dfs_bin_fixedpattern_check (c : dfs_ieee80211_channel) (ri : dfs_info) (pl : dfs_pulseline) (rf : dfs_filter)
    (dur : Z) : bool * dfs_info :=
  let '(primargin, ri) := dfs_get_pri_margin c ri (rf_patterntype rf =? 1) in
  let refpri := u32 (rf_minpri rf + rf_maxpri rf) / 2 in
  let end_ts := p_time (zget (elems pl) (lastelem pl)) in
  let start_ts := u64 (end_ts - u32 (refpri * rf_numpulses rf)) in
  let index := find_start (Z.to_nat (numelems pl)) start_ts (lastelem pl) pl in
  let '(_, numpulses) :=
    foldl (λ '(index, numpulses) n,
        let window_start := u64 (start_ts + refpri * n - (primargin + n)) in
        let window_end := u64 (window_start + 2 * (primargin + n)) in
        let '(index, hit) := window_loop (Z.to_nat (numelems pl)) refpri dur window_start window_end index pl in
        (index, if hit : bool then numpulses + 1 else numpulses))
      (index, 0) (seqZ 0 (rf_numpulses rf + 1)) in
  let '(thresh, ri) := dfs_get_filter_threshold c ri rf in
  (thresh <=? numpulses, ri).

(** ** Counting the pulses that fit an interval *)

(** The pulses whose distance to the last good one is a multiple of the interval. *)
Definition count_multiples (all : bool) (numpulsetochk delta_time_stamps fundamentalpri primargin : Z) : Z :=
  let hits := filter (λ j, DFS_DIFF delta_time_stamps (u32 ((j + 1) * fundamentalpri)) <? u32 (2 * (j + 1) * primargin) = true)
                (seqZ 0 numpulsetochk) in
  if all then Z.of_nat (length hits) else match hits with [] => 0 | _ => 1 end.

Definition dur_margin (rf : dfs_filter) : Z := if rf_maxdur rf <? 10 then 4 else 6.

(** The interval that the delay elements around [refpri] have on average. *)
Definition average_pri (rf : dfs_filter) (primargin score refpri : Z) (dl : ring dfs_delayelem) : Z :=
  if negb (rf_fixed_pri_radar_pulse rf =? 0) then refpri
  else
    let priscorechk := if rf_ignore_pri_window rf =? 1 then Z.shiftr (rf_threshold rf) 1 else 1 in
    if negb (priscorechk <? score) then refpri
    else
      let near := filter (λ p, DFS_DIFF p refpri <? primargin = true)
                    (map (λ i, de_time (ring_at DFS_MAX_DL_MASK dl i)) (seqZ 0 (numelems dl))) in
      let averagerefpri := foldl (λ a p, u32 (a + p)) 0 near in
      if negb (rf_patterntype rf =? 2) then
        match near with [] => refpri | _ => averagerefpri / Z.of_nat (length near) end
      else averagerefpri / score.

(** One delay element: the line, the pulses counted so far and the time stamp of the
    last good one.  [deltapri1] and [deltapri2] are 0 when the window is not ignored. *)
Definition pri_check_elem (rf : dfs_filter) (primargin refpri refdur fundamentalpri : Z)
    (s : ring dfs_delayelem * Z * Z) (i : Z) : ring dfs_delayelem * Z * Z :=
  let '(dl, numpulses, prev_good_timestamp) := s in
  let delayindex := Z.land (u32 (firstelem dl + i)) DFS_MAX_DL_MASK in
  let e := zget (elems dl) delayindex in
  let '(dl, searchpri) :=
    if de_time e =? 0 then
      let dindex := Z.land (u32 (delayindex + 1)) DFS_MAX_DL_MASK in
      (dl <| elems ::= λ l, zset l dindex (zget l dindex <| de_time ::= λ t, u32 (t - refpri) |>) |>, refpri)
    else (dl, de_time e) in
  let deltadur := DFS_DIFF (de_dur e) refdur in
  let primatch :=
    if (0 <? rf_ignore_pri_window rf) && negb (rf_patterntype rf =? 2)
    then existsb (λ j, DFS_DIFF searchpri (u32 ((j + 1) * refpri)) <? u32 (2 * primargin)) (seqZ 0 (rf_numpulses rf))
    else (0 <? primargin) || (0 <? primargin) in
  if primatch && (deltadur <? dur_margin rf) then
    let numpulses :=
      if numpulses =? 1 then numpulses + 1
      else
        let delta_time_stamps := u32 (de_ts e - prev_good_timestamp) in
        let numpulsetochk :=
          if 0 <? rf_ignore_pri_window rf then
            if (rf_patterntype rf =? 2) && (u32 fundamentalpri <? u32 (refpri + 100)) then 4 else rf_numpulses rf
          else 4 in
        numpulses + count_multiples (negb (0 <? rf_ignore_pri_window rf)) numpulsetochk delta_time_stamps fundamentalpri primargin in
    (dl, numpulses, u32 (de_ts e))
  else (dl, numpulses, prev_good_timestamp).

Definition dfs_bin_pri_check (c : dfs_ieee80211_channel) (ri : dfs_info) (rf : dfs_filter) (dl : ring dfs_delayelem)
    (score refpri refdur fundamentalpri : Z) : Z * ring dfs_delayelem * dfs_info :=
  let '(primargin, ri) := dfs_get_pri_margin c ri (rf_patterntype rf =? 1) in
  if (rf_maxpri rf <? refpri) || (refpri <? rf_minpri rf) then (0, dl, ri)
  else
    let refpri := average_pri rf primargin score refpri dl in
    let '(dl, numpulses, _) :=
      foldl (pri_check_elem rf primargin refpri refdur fundamentalpri) (dl, 1, 0) (seqZ 0 (numelems dl)) in
    (numpulses, dl, ri).

(** ** The check of a filter *)

(** The delay element with the smallest interval that is not zero. *)
Definition lowest_pri (dl : ring dfs_delayelem) : Z :=
  snd (foldl (λ '(lowpri, lowpriindex) n,
          let refpri := de_time (ring_at DFS_MAX_DL_MASK dl n) in
          if refpri =? 0 then (lowpri, lowpriindex)
          else if refpri <? lowpri then (refpri, n) else (lowpri, lowpriindex))
        (65535, 0) (seqZ 0 (numelems dl))).

(** How many delay elements have an interval that fits that of element [n]. *)
Definition pri_score (rf : dfs_filter) (primargin refpri : Z) (dl : ring dfs_delayelem) : Z :=
  Z.of_nat (length (filter (λ i,
    let searchpri := de_time (ring_at DFS_MAX_DL_MASK dl i) in
    ((DFS_DIFF searchpri refpri <? primargin) ||
     ((rf_ignore_pri_window rf =? 2) &&
      ((DFS_DIFF searchpri (u32 (2 * refpri)) <? primargin) || (DFS_DIFF searchpri (u32 (3 * refpri)) <? primargin)))) = true)
    (seqZ 0 (numelems dl)))).

(** The loop over the elements; it stops at a score above the threshold. *)
Fixpoint score_loop (rf : dfs_filter) (primargin : Z) (dl : ring dfs_delayelem) (ns : list Z) (score : list Z) : option (list Z) :=
  match ns with
  | [] => Some score
  | n :: ns =>
      let refpri := de_time (ring_at DFS_MAX_DL_MASK dl n) in
      if refpri =? 0 then score_loop rf primargin dl ns score
      else
        let s := if refpri <? rf_maxpri rf then pri_score rf primargin refpri dl else 0 in
        score ← aset score n s;
        if rf_threshold rf <? s then Some score else score_loop rf primargin dl ns score
  end.

(** The best score, and the last of the best elements with the smallest interval. *)
Definition high_scorer (dl : ring dfs_delayelem) (score : list Z) : option (Z * Z) :=
  for_opt (λ '(highscore, highscoreindex) n,
      s ← aget score n;
      Some (if highscore <? s then (s, n)
            else if s =? highscore then
              if de_time (ring_at DFS_MAX_DL_MASK dl n) <=? de_time (ring_at DFS_MAX_DL_MASK dl highscoreindex)
              then (highscore, n) else (highscore, highscoreindex)
            else (highscore, highscoreindex)))
    (seqZ 0 (numelems dl)) (0, 0).

Definition dfs_bin_check (c : dfs_ieee80211_channel) (ri : dfs_info) (pl : dfs_pulseline) (rf : dfs_filter)
    (dl : ring dfs_delayelem) (deltaT width : Z) : option (bool * ring dfs_delayelem * dfs_info) :=
  if numelems dl <? u32 (rf_threshold rf - 1) then Some (false, dl, ri)
  else if rf_filterlen rf <? deltaT then Some (false, dl, ri)
  else
    let '(primargin, ri) := dfs_get_pri_margin c ri (rf_patterntype rf =? 1) in
    if rf_patterntype rf =? 1 then
      let '(found, ri) := dfs_bin_fixedpattern_check c ri pl rf width in
      Some (found, (if found : bool then dl <| numelems := 0 |> else dl), ri)
    else
      score ← score_loop rf primargin dl (seqZ 0 (numelems dl)) (replicate 64 0);
      '(highscore, highscoreindex) ← high_scorer dl score;
      let lowprichk := if 0 <? rf_ignore_pri_window rf then Z.shiftr (rf_threshold rf) 1 + 1 else 3 in
      let scoreindex := if highscore <? lowprichk then lowest_pri dl else highscoreindex in
      let ref := ring_at DFS_MAX_DL_MASK dl scoreindex in
      let refpri := if negb (rf_fixed_pri_radar_pulse rf =? 0) then u32 (rf_minpri rf + rf_maxpri rf) / 2 else de_time ref in
      s ← aget score scoreindex;
      let '(numpulses, dl, ri) := dfs_bin_pri_check c ri rf dl s refpri (de_dur ref) refpri in
      let '(thresh, ri) := dfs_get_filter_threshold c ri rf in
      Some (thresh <=? numpulses, dl, ri).

(** ** Staggered patterns *)
Definition is_pri_multiple (sample_pri refpri : Z) : bool :=
  if (sample_pri <? refpri) || (refpri =? 0) then false
  else existsb (λ i, sample_pri mod u32 (i * refpri) <=? 5) [1; 2; 3].

Definition DFS_STAGGERED_PRI_MARGIN_MIN : Z := 20.

Definition is_unique_pri (highestpri midpri lowestpri refpri : Z) : bool :=
  if (DFS_STAGGERED_PRI_MARGIN_MIN <=? DFS_DIFF lowestpri refpri) && (DFS_STAGGERED_PRI_MARGIN_MIN <=? DFS_DIFF midpri refpri) &&
     (DFS_STAGGERED_PRI_MARGIN_MIN <=? DFS_DIFF highestpri refpri) then true
  else if is_pri_multiple refpri highestpri || is_pri_multiple refpri lowestpri || is_pri_multiple refpri midpri then false
  else false.

(** A candidate: its score, its interval, its place. *)
Record candidate := mk_cand { cand_score : Z; cand_pri : Z; cand_index : Z }.
Definition no_cand : candidate := mk_cand 0 0 0.

(** The highest, middle and lowest scorers after one more element. *)
Definition rank_step (dl : ring dfs_delayelem) (score : list Z) (s : candidate * candidate * candidate) (n : Z)
    : option (candidate * candidate * candidate) :=
  let '(high, mid, low) := s in
  let refpri := de_time (ring_at DFS_MAX_DL_MASK dl n) in
  sc ← aget score n;
  let c := mk_cand sc refpri n in
  let unique := is_unique_pri (cand_pri high) (cand_pri mid) (cand_pri low) refpri in
  Some (if (cand_score high <=? sc) && unique then (c, high, mid)
        else if (cand_score mid <=? sc) && unique then (high, c, mid)
        else if (cand_score low <=? sc) && unique then (high, mid, c)
        else (high, mid, low)).

Definition stagger_score (rf : dfs_filter) (dl : ring dfs_delayelem) (score : list Z) (n : Z) : option (list Z) :=
  let refpri := de_time (ring_at DFS_MAX_DL_MASK dl n) in
  if refpri =? 0 then Some score
  else if (rf_maxpri rf <? refpri) || (refpri <? rf_minpri rf) then aset score n 0
  else aset score n (Z.of_nat (length (filter (λ i, DFS_DIFF (de_time (ring_at DFS_MAX_DL_MASK dl i)) refpri <? 6 = true)
                                          (seqZ 0 (numelems dl))))).

(** The most pulses that fit one of three fundamental intervals. *)
Definition stagger_count (c : dfs_ieee80211_channel) (rf : dfs_filter) (cand : candidate) (funds : list Z)
    (s : ring dfs_delayelem * dfs_info) : Z * (ring dfs_delayelem * dfs_info) :=
  let '(dl, ri) := s in
  let ref := ring_at DFS_MAX_DL_MASK dl (cand_index cand) in
  foldl (λ '(best, (dl, ri)) fund,
      let '(numpulses, dl, ri) := dfs_bin_pri_check c ri rf dl (cand_score cand) (de_time ref) (de_dur ref) fund in
      (if best <? numpulses then numpulses else best, (dl, ri)))
    (0, (dl, ri)) funds.

Definition dfs_staggered_check (c : dfs_ieee80211_channel) (ri : dfs_info) (rf : dfs_filter) (dl : ring dfs_delayelem) (deltaT : Z)
    : option (bool * ring dfs_delayelem * dfs_info) :=
  if numelems dl <? u32 (rf_threshold rf - 1) then Some (false, dl, ri)
  else if rf_filterlen rf <? deltaT then Some (false, dl, ri)
  else
    score ← for_opt (stagger_score rf dl) (seqZ 0 (numelems dl)) (replicate 64 0);
    '(high, mid, low) ← for_opt (rank_step dl score) (seqZ 0 (numelems dl)) (no_cand, no_cand, no_cand);
    if cand_score mid =? 0 then Some (false, dl, ri)
    else
      let two := u32 (cand_pri high + cand_pri mid) in
      let three := u32 (two + cand_pri low) in
      let '(numpulseshigh, s) := stagger_count c rf high [cand_pri high; two; three] (dl, ri) in
      let '(numpulsesmid, (dl, ri)) := stagger_count c rf mid [cand_pri mid; two; three] s in
      Some ((rf_threshold rf <=? numpulseshigh) && (rf_threshold rf <=? numpulsesmid), dl, ri).

(** ** Chirps: dfs_fcc_bin5.c *)
Definition MIN_BIN5_DUR_MICROSEC : Z := 50.
Definition MAX_BIN5_DUR_MICROSEC : Z := 105.
Definition DFS_BIN5_WIDTH_MARGIN : Z := 4.
Definition DFS_BIN5_RSSI_MARGIN : Z := 5.

Definition DFS_EVENT_NOTCHIRP (e : dfs_event) : bool :=
  negb (Z.land (re_flags e) DFS_EVENT_CHECKCHIRP =? 0) &&
  (Z.land (re_flags e) (Z.lor DFS_EVENT_HW_CHIRP DFS_EVENT_SW_CHIRP) =? 0).

Definition dfs_bin5_check_pulse (c : dfs_ieee80211_channel) (re : dfs_event) (br : dfs_bin5radars) : bool :=
  let p := br_pulse br in
  if DFS_EVENT_NOTCHIRP re then false
  else
    let b5_rssithresh := if Z.land (ic_flags c) CHANNEL_TURBO =? 0 then b5_rssithresh p + b5_rssimargin p else b5_rssithresh p in
    (b5_mindur p <=? re_dur re) && (re_dur re <=? b5_maxdur p) && (b5_rssithresh <=? re_rssi re).

Definition bin5_dur_ok (e : dfs_bin5elem) : bool :=
  negb ((be_dur e <? MIN_BIN5_DUR_MICROSEC) || (MAX_BIN5_DUR_MICROSEC <? be_dur e)).

(** The interval between two pulses; after a wrap of the clock the second time stamp. *)
Definition bin5_pri (prev this : dfs_bin5elem) : Z :=
  if be_ts prev <=? be_ts this then be_ts this - be_ts prev else be_ts this.

(** Two pulses of one burst, and two bursts. *)
Definition same_burst (prev this : dfs_bin5elem) : bool :=
  let pri := bin5_pri prev this in
  (DFS_BIN5_PRI_LOWER_LIMIT <=? pri) && (pri <=? DFS_BIN5_PRI_HIGHER_LIMIT).
Definition next_burst (prev this : dfs_bin5elem) : bool :=
  let pri := bin5_pri prev this in
  (DFS_BIN5_BRI_LOWER_LIMIT <=? pri) && (pri <=? DFS_BIN5_BRI_UPPER_LIMIT).
Definition alike (prev this : dfs_bin5elem) : bool :=
  (DFS_DIFF (be_dur prev) (be_dur this) <=? DFS_BIN5_WIDTH_MARGIN) &&
  (DFS_DIFF (be_rssi prev) (be_rssi this) <=? DFS_BIN5_RSSI_MARGIN).

(** The counters of dfs_bin5_check: the bursts and the places that are recorded in
    the array [index] of 128 entries. *)
Record b5_count := mk_count { bursts : Z; numevents : Z; index : list Z }.

Definition record_pair (prev this : Z) (k : b5_count) : option b5_count :=
  '(n, ix) ←
    (if 2 <=? numevents k then
       recorded ← aget (index k) (numevents k - 1);
       if negb (recorded =? prev) then ix ← aset (index k) (numevents k) prev; Some (numevents k + 1, ix)
       else Some (numevents k, index k)
     else ix ← aset (index k) (numevents k) prev; Some (numevents k + 1, ix));
  ix ← aset ix n this;
  Some (mk_count (bursts k + 1) (n + 1) ix).

Definition bin5_pair (r : ring dfs_bin5elem) (s : Z * b5_count) (i : Z) : option (Z * b5_count) :=
  let '(prev, k) := s in
  let this := Z.land (u32 (firstelem r + i)) DFS_MAX_B5_MASK in
  let e := zget (elems r) this in
  let p := zget (elems r) prev in
  if negb (bin5_dur_ok e) then Some (prev, k)
  else
    k ← (if same_burst p e then if alike p e then record_pair prev this k else Some k
         else if next_burst p e then Some (mk_count (bursts k + 1) (numevents k) (index k))
         else Some k);
    Some (this, k).

(** The first pulse of a valid duration. *)
Fixpoint bin5_ref (idxs : list Z) (r : ring dfs_bin5elem) (this i1 : Z) : Z * Z :=
  match idxs with
  | [] => (this, i1)
  | i :: idxs =>
      let this := Z.land (u32 (firstelem r + i)) DFS_MAX_B5_MASK in
      if bin5_dur_ok (zget (elems r) this) then (this, i) else bin5_ref idxs r this (i + 1)
  end.

Fixpoint bin5_check_loop (brs : list dfs_bin5radars) (this : Z) (k : b5_count) : option bool :=
  match brs with
  | [] => Some false
  | br :: brs =>
      let r := br_ring br in
      let '(this, i1) := bin5_ref (seqZ 0 (numelems r)) r this 0 in
      '(this, k) ← for_opt (bin5_pair r) (seqZ (i1 + 1) (numelems r - (i1 + 1))) (this, k);
      if b5_threshold (br_pulse br) <=? bursts k then
        Some (negb (u64 (be_ts (zget (elems r) (lastelem r)) - be_ts (zget (elems r) (firstelem r))) <? 3000000))
      else bin5_check_loop brs this k
  end.

Definition dfs_bin5_check (brs : list dfs_bin5radars) : option bool :=
  bin5_check_loop brs 0 (mk_count 0 0 (replicate 128 0)).

Definition dfs_retain_bin5_burst_pattern (both : bool) (ri : dfs_info) (diff_ts old_dur seg_id : Z) : Z :=
  let last_bin5_dur := if ext_seg both seg_id then dfs_last_bin5_dur_ext_seg ri else dfs_last_bin5_dur ri in
  if (DFS_BIN5_PRI_LOWER_LIMIT <=? diff_ts) && (diff_ts <=? DFS_BIN5_PRI_HIGHER_LIMIT) then last_bin5_dur else old_dur.
