(* ===== verification/DfsEvent.v ===== *)
(** The processing of radar events: dfs_process_radarevent.c, the resets of
    dfs_init.c and the task of dfs.c.

    [radar_event] is one round of the loop over the queue: the buffers of the
    segment, the time stamp, the workarounds, the chirp detectors and the filters
    that the duration of the pulse selects.  [None] is an access outside an array
    or through a null pointer. *)
From S2P Require Import Prelude Arrays DfsTypes DfsLine DfsBin.

Section event.
Implicit Types (d : ath_dfs) (re : dfs_event) (ri : dfs_info).

(** ** Resets *)
Definition reset_pulseline (pl : dfs_pulseline) : dfs_pulseline :=
  pl <| firstelem := 0 |> <| numelems := 0 |> <| lastelem := DFS_MAX_PULSE_BUFFER_MASK |>.
Definition reset_b5 (br : dfs_bin5radars) : dfs_bin5radars := br <| br_ring ::= ring_reset zero_b5elem DFS_MAX_B5_MASK |>.

(** The second segment's buffers, on boards that have them. *)
Definition ext_board d (seg_id : Z) : bool := negb (dfs_hw_bd_id d =? DFS_HWBD_QCA6174) && negb (seg_id =? 0).

Definition reset_filter (ext : bool) (rf : dfs_filter) : dfs_filter :=
  if ext then rf <| rf_dl_ext_seg ::= zero_dl |> else rf <| rf_dl ::= zero_dl |>.

(** for (i = 0; i < n; i++) l[i] = f(l[i]) *)
Definition update_first {A} (n : Z) (f : A → A) (l : list A) : option (list A) :=
  for_opt (λ l i, x ← aget l i; aset l i (f x)) (seqZ 0 n) l.

Definition reset_filtertype (ext : bool) (ft : dfs_filtertype) : option dfs_filtertype :=
  fs ← update_first (ft_numfilters ft) (reset_filter ext) (ft_filters ft);
  Some (ft <| ft_filters := fs |>).

Definition dfs_reset_alldelaylines d (seg_id : Z) : option ath_dfs :=
  let ext := ext_board d seg_id in
  match (if ext then pulses_ext_seg d else Some (pulses d)), (if ext then dfs_b5radars_ext_seg d else dfs_b5radars d) with
  | Some pl, Some b5 =>
      let d := if ext then d <| pulses_ext_seg := Some (reset_pulseline pl) |> else d <| pulses := reset_pulseline pl |> in
      fts ← mapM (reset_filtertype ext) (dfs_radarf d);
      b5 ← update_first (rn_numbin5radars (dfs_rinfo d)) reset_b5 b5;
      let d := d <| dfs_radarf := fts |> in
      Some (if ext then d <| dfs_b5radars_ext_seg := Some b5 |> else d <| dfs_b5radars := Some b5 |>)
  | _, _ => Some d
  end.

Definition dfs_reset_radarq d : ath_dfs :=
  d <| dfs_eventq ::= λ q, q ++ map (λ _, zero_event) (dfs_radarq d) |> <| dfs_radarq := [] |>.

(** ** Time stamps *)

(** The 64-bit time stamp from the 32-bit one of the event. *)
Definition update_prefix ri re : dfs_info :=
  if rn_lastfull_ts ri =? 0 then ri <| rn_ts_prefix := 0 |>
  else
    let ri := if (re_dur re =? 0) && (re_ts re =? rn_last_unique_ts ri) then ri else ri <| rn_last_unique_ts := re_ts re |> in
    let deltafull_ts := u64 (re_full_ts re - rn_lastfull_ts ri) in
    if re_ts re <=? rn_last_ts ri then
      let ri := ri <| rn_ts_prefix ::= λ p, u64 (p + Z.shiftl 1 DFS_TSSHIFT) |> in
      let wrap := u32 (DFS_TSMASK - rn_last_ts ri + 1 + re_ts re) in
      let deltafull_ts := if wrap <? deltafull_ts then u64 (deltafull_ts - wrap) else deltafull_ts in
      let deltafull_ts := Z.shiftr deltafull_ts DFS_TSSHIFT in
      if 1 <? deltafull_ts then ri <| rn_ts_prefix ::= λ p, u64 (p + Z.shiftl (deltafull_ts - 1) DFS_TSSHIFT) |> else ri
    else if DFS_TSMASK <? deltafull_ts then
      let deltafull_ts := Z.shiftr deltafull_ts DFS_TSSHIFT in
      ri <| rn_ts_prefix ::= λ p, u64 (p + Z.shiftl (deltafull_ts - 1) DFS_TSSHIFT) |>
    else ri.

Definition event_time ri re : Z * dfs_info :=
  let ri := update_prefix ri re in
  (Z.lor (rn_ts_prefix ri) (re_ts re), ri <| rn_lastfull_ts := re_full_ts re |> <| rn_last_ts := u16 (re_ts re) |>).

Definition dfs_process_pulse_dur d (re_dur : Z) : Z :=
  if re_dur =? 0 then 1
  else if ath_chip_is_bb_tlv d then re_dur
  else u8 (dfs_round (dur_multiplier d * re_dur)).

(** ** Workarounds *)
Definition region_in d (rs : list Z) : bool := existsb (λ r, r =? dfsdomain d) rs.

(** A signature that is likely a false radar. *)
Definition reject_signature d re (diff_ts : Z) : bool :=
  negb (disable_dfs_ch_switch d) && region_in d [DFS_FCC_DOMAIN; DFS_MKK_DOMAIN] &&
  (11 <=? re_dur re) && (re_dur re <=? 20) && ((500 <? diff_ts) || (diff_ts <=? 305)) && (sidx re =? -4).

Definition off_centre (c : dfs_ieee80211_channel) : bool :=
  (Z.land (ic_flags c) IEEE80211_CHAN_VHT80 =? IEEE80211_CHAN_VHT80) &&
  ((ic_pri_freq_center_freq_mhz_separation c =? 30) || (ic_pri_freq_center_freq_mhz_separation c =? -30)).

Definition fix_duration (c : dfs_ieee80211_channel) d re (diff_ts : Z) : dfs_event :=
  let re :=
    if region_in d [DFS_FCC_DOMAIN; DFS_MKK_DOMAIN] && off_centre c && (sidx re =? 0) &&
       ((11 <? re_dur re) && (re_dur re <? 33)) && ((200 <? diff_ts) && (diff_ts <? 500))
    then re <| re_dur := 12 |> else re in
  if region_in d [DFS_ETSI_DOMAIN] && off_centre c && (sidx re =? 0) &&
     ((15 <? re_dur re) && (re_dur re <? 33)) &&
     (((625 <? diff_ts) && (diff_ts <? 5000)) || ((250 <? diff_ts) && (diff_ts <? 435)))
  then re <| re_dur := 15 |> else re.

(** ** Chirp detectors *)
Definition b5_of d (seg_id : Z) : option (list dfs_bin5radars) :=
  if seg_id =? 0 then dfs_b5radars d else dfs_b5radars_ext_seg d.
Definition set_b5 d (seg_id : Z) (b5 : list dfs_bin5radars) : ath_dfs :=
  if seg_id =? 0 then d <| dfs_b5radars := Some b5 |> else d <| dfs_b5radars_ext_seg := Some b5 |>.
Definition set_last_bin5_dur (seg_id dur : Z) ri : dfs_info :=
  if seg_id =? 0 then ri <| dfs_last_bin5_dur := dur |> else ri <| dfs_last_bin5_dur_ext_seg := dur |>.

(** The detectors that dfs_bin5_check looks at: those of the segment, as many as
    there are. *)
Definition b5_checked d (seg_id : Z) : option (list dfs_bin5radars) :=
  b5 ← (if ext_seg (ic_80p80_both_dfs (ic_curchan d)) seg_id then dfs_b5radars_ext_seg d else dfs_b5radars d);
  if rn_numbin5radars (dfs_rinfo d) <=? Z.of_nat (length b5) then Some (zread b5 0 (rn_numbin5radars (dfs_rinfo d))) else None.

Fixpoint bin5_loop (ps : list Z) d re (this_ts diff_ts seg_id : Z) : option (bool * ath_dfs * dfs_event) :=
  match ps with
  | [] => Some (false, d, re)
  | p :: ps =>
      b5 ← b5_of d seg_id;
      br ← aget b5 p;
      if dfs_bin5_check_pulse (ic_curchan d) re br then
        let dur := dfs_retain_bin5_burst_pattern (ic_80p80_both_dfs (ic_curchan d)) (dfs_rinfo d) diff_ts (re_dur re) seg_id in
        let re := re <| re_dur := dur |> in
        let d := d <| dfs_rinfo ::= set_last_bin5_dur seg_id dur |> in
        let '(br, added) := dfs_bin5_addpulse br re this_ts in
        b5 ← aset b5 p br;
        let d := set_b5 d seg_id b5 in
        if (added : bool) then
          brs ← b5_checked d seg_id;
          found ← dfs_bin5_check brs;
          if (found : bool) then Some (true, d, re) else bin5_loop ps d re this_ts diff_ts seg_id
        else bin5_loop ps d re this_ts diff_ts seg_id
      else bin5_loop ps d re this_ts diff_ts seg_id
  end.

(** ** Filters *)

(** One filter of a type: whether it found a radar, and the filter and the cached
    fields afterwards. *)
Definition filter_step d (pl : dfs_pulseline) re (this_ts seg_id : Z) (rf : dfs_filter) ri
    : option (bool * dfs_filter * dfs_info) :=
  let both := ic_80p80_both_dfs (ic_curchan d) in
  if (rf_mindur rf <=? re_dur re) && (re_dur re <=? rf_maxdur rf) then
    let last := dl_last_ts (get_dl both seg_id rf) in
    let deltaT := if this_ts <? last then u64 (DFS_TSF_WRAP - last + this_ts + 1) else u64 (this_ts - last) in
    let touch := upd_dl both seg_id (λ dl, dl <| dl_last_ts := this_ts |>) in
    if (deltaT <? rf_minpri rf) && negb (deltaT =? 0) then Some (false, rf, ri)
    else if (if 0 <? rf_ignore_pri_window rf then deltaT <? rf_minpri rf
             else (u64 (dfs_pri_multiplier d * rf_maxpri rf) <? deltaT) || (deltaT <? rf_minpri rf))
    then Some (false, touch rf, ri)
    else
      let rf := dfs_add_pulse both rf re deltaT this_ts seg_id in
      let dl := dl_ring (get_dl both seg_id rf) in
      '(found, dl, ri) ←
        (if rf_patterntype rf =? 2 then dfs_staggered_check (ic_curchan d) ri rf dl (u32 deltaT)
         else dfs_bin_check (ic_curchan d) ri pl rf dl (u32 deltaT) (re_dur re));
      Some (found : bool, touch (upd_dl both seg_id (λ l, l <| dl_ring := dl |>) rf), ri)
  else Some (false, rf, ri).

Fixpoint filters_loop (ps : list Z) d pl re (this_ts seg_id : Z) (fs : list dfs_filter) ri
    : option (bool * list dfs_filter * dfs_info) :=
  match ps with
  | [] => Some (false, fs, ri)
  | p :: ps =>
      rf ← aget fs p;
      '(found, rf, ri) ← filter_step d pl re this_ts seg_id rf ri;
      fs ← aset fs p rf;
      if (found : bool) then Some (true, fs, ri) else filters_loop ps d pl re this_ts seg_id fs ri
  end.

(** The types that the row of the radar table lists, up to the first -1. *)
Fixpoint types_loop (fuel : nat) (row : list Z) (tabledepth : Z) d re (this_ts seg_id : Z) : option (bool * ath_dfs) :=
  match fuel with
  | O => Some (false, d)
  | S fuel =>
      if negb (tabledepth <? DFS_MAX_RADAR_OVERLAP) then Some (false, d)
      else
        t ← aget row tabledepth;
        if t =? -1 then Some (false, d)
        else
          ft ← aget (dfs_radarf d) t;
          if (re_rssi re <? ft_rssithresh ft) && (4 <? re_dur re) then types_loop fuel row (tabledepth + 1) d re this_ts seg_id
          else
            let deltaT := u64 (this_ts - ft_last_ts ft) in
            if (deltaT <? ft_minpri ft) && negb (deltaT =? 0) then types_loop fuel row (tabledepth + 1) d re this_ts seg_id
            else
              pl ← (if ext_seg (ic_80p80_both_dfs (ic_curchan d)) seg_id then pulses_ext_seg d else Some (pulses d));
              '(found, fs, ri) ← filters_loop (seqZ 0 (ft_numfilters ft)) d pl re this_ts seg_id (ft_filters ft) (dfs_rinfo d);
              fts ← aset (dfs_radarf d) t (ft <| ft_filters := fs |> <| ft_last_ts := this_ts |>);
              let d := d <| dfs_radarf := fts |> <| dfs_rinfo := ri |> in
              if (found : bool) then Some (true, d) else types_loop fuel row (tabledepth + 1) d re this_ts seg_id
  end.

(** ** One event *)

(** The pulse line of the segment. *)
Definition pl_of d (seg_id : Z) : option dfs_pulseline := if seg_id =? 0 then Some (pulses d) else pulses_ext_seg d.
Definition set_pl d (seg_id : Z) (pl : dfs_pulseline) : ath_dfs :=
  if seg_id =? 0 then d <| pulses := pl |> else d <| pulses_ext_seg := Some pl |>.

(** The distance to the last event of the segment, which is remembered. *)
Definition update_test_ts d (seg_id this_ts : Z) : Z * ath_dfs :=
  if seg_id =? 0 then (u32 (u32 this_ts - test_ts d), d <| test_ts := u32 this_ts |>)
  else (u32 (u32 this_ts - test_ts_ext_seg d), d <| test_ts_ext_seg := u32 this_ts |>).

(** Recording the event: the time stamp, the converted duration, the pulse line and
    the distance to the last event. *)
Definition record_event d re (seg_id : Z) : option (Z * Z * dfs_event * ath_dfs) :=
  let '(this_ts, ri) := event_time (dfs_rinfo d) re in
  let d := d <| dfs_rinfo := ri |> in
  let re := re <| re_dur := dfs_process_pulse_dur d (re_dur re) |> in
  let this_ts := if negb (ath_chip_is_bb_tlv d) && negb (re_dur re =? 1) then u64 (this_ts - re_dur re) else this_ts in
  pl ← pl_of d seg_id;
  let pl := ring_push DFS_MAX_PULSE_BUFFER_SIZE DFS_MAX_PULSE_BUFFER_MASK (mk_pulse this_ts (re_dur re) (re_rssi re)) pl in
  let '(diff_ts, d) := update_test_ts (set_pl d seg_id pl) seg_id this_ts in
  Some (this_ts, diff_ts, re, d).

(** From the workarounds on: whether a radar was found. *)
Definition match_event (c : dfs_ieee80211_channel) d re (this_ts diff_ts seg_id : Z) : option (bool * ath_dfs) :=
  if reject_signature d re diff_ts then Some (false, d)
  else
    let re := fix_duration c d re diff_ts in
    '(found, d, re) ←
      (if region_in d [DFS_FCC_DOMAIN; DFS_MKK_DOMAIN]
       then bin5_loop (seqZ 0 (rn_numbin5radars (dfs_rinfo d))) d re this_ts diff_ts seg_id else Some (false, d, re));
    if (found : bool) then Some (true, d)
    else
      row ← aget (dfs_radartable d) (re_dur re);
      types_loop (Z.to_nat DFS_MAX_RADAR_OVERLAP + 1) row 0 d re this_ts seg_id.

Definition radar_event (c : dfs_ieee80211_channel) d re (seg_id : Z) : option (bool * ath_dfs) :=
  if disable_phy_err_processing d then Some (false, d)
  else if negb (re_chanindex re <? DFS_NUM_RADAR_STATES) then Some (false, d)
  else
    rs ← aget (dfs_radar d) (re_chanindex re);
    if negb (Z.land (ic_flagext rs) CHANNEL_INTERFERENCE =? 0) then Some (false, d)
    else
      '(this_ts, diff_ts, re, d) ← record_event d re seg_id;
      d ← (if diff_ts <? 100 then d ← dfs_reset_alldelaylines d seg_id; Some (dfs_reset_radarq d) else Some d);
      match_event c d re this_ts diff_ts seg_id.

(** ** The queue *)
Definition event_seg d re : Z := if ic_80p80_both_dfs (ic_curchan d) then radar_80p80_segid re else DFS_80P80_SEG0.

(** The loop over the queue, with the segment of the last event. *)
Fixpoint radar_loop (events : nat) (c : dfs_ieee80211_channel) d (seg_id : Z) : option (bool * Z * ath_dfs) :=
  match events with
  | O => Some (false, seg_id, d)
  | S events =>
      match dfs_radarq d with
      | [] => Some (false, seg_id, d)
      | re :: q =>
          let d := d <| dfs_radarq := q |> <| dfs_eventq ::= λ l, l ++ [zero_event] |> in
          let seg_id := event_seg d re in
          '(found, d) ← radar_event c d re seg_id;
          if (found : bool) then Some (true, seg_id, d) else radar_loop events c d seg_id
      end
  end.

(** What follows when a radar was found. *)
Definition radar_detected d (seg_id : Z) : option ath_dfs :=
  let d := d <| num_radar_detects ::= λ n, u32 (n + 1) |> in
  let d := d <| ic_curchan ::= λ c, c <| ic_radar_found_segid := seg_id |> |> in
  d ← dfs_reset_alldelaylines (dfs_reset_radarq d) DFS_80P80_SEG0;
  d ← (if ic_80p80_both_dfs (ic_curchan d) then dfs_reset_alldelaylines d DFS_80P80_SEG1 else Some d);
  Some (d <| dfs_phyerr_freq_min := 0x7fffffff |> <| dfs_phyerr_freq_max := 0 |> <| dfs_phyerr_w53_counter := 0 |>).

(** At most a hundred events, then what follows. *)
Definition process_queue (events : nat) (c : dfs_ieee80211_channel) d : option (bool * ath_dfs) :=
  '(found, seg_id, d) ← radar_loop events c d DFS_80P80_SEG0;
  if (found : bool) then d ← radar_detected d seg_id; Some (true, d) else Some (false, d).

Definition dfs_process_radarevent (c : dfs_ieee80211_channel) d : option (bool * ath_dfs) :=
  if negb (IEEE80211_IS_CHAN_DFS (ic_curchan d)) then
    d ← dfs_reset_alldelaylines (dfs_reset_radarq d) DFS_80P80_SEG0;
    d ← (if ic_80p80_both_dfs (ic_curchan d) then dfs_reset_alldelaylines d DFS_80P80_SEG1 else Some d);
    Some (false, d)
  else if dfs_bangradar d then
    _ ← aget (dfs_radar d) (dfs_curchan_radindex d);
    d ← radar_detected (d <| dfs_bangradar := false |>) DFS_80P80_SEG0;
    Some (true, d)
  else
    let w53 := (dfsdomain d =? DFS_MKK_DOMAIN) && ath_chip_is_bb_tlv d && (ic_freq c <? 5500) in
    let d := if w53 then d <| dfs_pri_multiplier := dfs_pri_multiplier_ini d |> else d in
    if w53 && (dfs_phyerr_w53_counter d <? 5) then Some (false, d)
    else
      let d := if w53 then d <| dfs_phyerr_freq_min := 0x7fffffff |> <| dfs_phyerr_freq_max := 0 |> else d in
      process_queue (Z.to_nat MAX_EVENTS) c d.

(** The timer that dfs_process_phyerr starts; [true] stands for the notification of
    the radar to the layers above. *)
Definition dfs_task d : option (bool * ath_dfs) :=
  '(found, d) ← dfs_process_radarevent (ic_curchan d) d;
  Some (found : bool, d <| ath_radar_tasksched := false |>).
End event.
