(* ===== verification/DfsInit.v ===== *)
(** The radar filters: the tables of radar_filters.h, dfs_init_radar_filters of
    dfs_init.c, the attachment and the activation of dfs.c and the choice of the
    table by wma_dfs_configure.

    Memory is allocated in dfs_attach, successfully here; what malloc returns for the
    buffers of the chirp detectors is overwritten before it is read. *)
From S2P Require Import Prelude Arrays DfsTypes DfsLine DfsBin DfsEvent.

(** [struct dfs_pulse] in the order of the tables. *)
Record dfs_pulse := mk_rp {
  rp_numpulses : Z; rp_pulsedur : Z; rp_pulsefreq : Z; rp_max_pulsefreq : Z; rp_patterntype : Z; rp_pulsevar : Z;
  rp_threshold : Z; rp_mindur : Z; rp_maxdur : Z; rp_rssithresh : Z; rp_meanoffset : Z; rp_rssimargin : Z;
  rp_ignore_pri_window : Z; rp_pulseid : Z }.

Definition dfs_fcc_radars : list dfs_pulse :=
  [mk_rp 18 1 700 700 0 6 5 0 1 18 0 3 1 0;
   mk_rp 18 1 350 350 0 6 5 0 1 18 0 3 0 0;
   mk_rp 9 1 3003 3003 1 7 5 0 1 18 0 0 1 1;
   mk_rp 23 5 4347 6666 0 18 8 0 7 22 0 3 0 2;
   mk_rp 18 10 2000 5000 0 23 6 6 13 22 0 3 0 5;
   mk_rp 16 15 2000 5000 0 25 5 11 23 22 0 3 0 11;
   mk_rp 57 1 1066 1930 0 6 20 0 1 22 0 3 0 21;
   mk_rp 27 1 500 1066 0 6 13 0 1 22 0 3 0 22;
   mk_rp 18 1 325 500 0 6 9 0 1 22 0 3 0 23].

Definition dfs_mkk4_radars : list dfs_pulse :=
  [mk_rp 18 1 720 720 0 6 6 0 1 18 0 3 0 17;
   mk_rp 18 4 250 250 0 10 5 1 6 18 0 3 0 18;
   mk_rp 18 5 260 260 0 10 6 1 6 18 0 3 1 19;
   mk_rp 18 1 700 700 0 6 5 0 1 18 0 3 1 0;
   mk_rp 18 1 350 350 0 6 5 0 1 18 0 3 0 0;
   mk_rp 9 1 3003 3003 1 7 5 0 1 18 0 0 1 1;
   mk_rp 23 5 4347 6666 0 18 8 0 7 22 0 3 0 2;
   mk_rp 18 10 2000 5000 0 23 6 6 13 22 0 3 0 5;
   mk_rp 16 15 2000 5000 0 25 5 11 23 22 0 3 0 11].

Definition dfs_fcc_bin5pulses : list dfs_bin5pulse := [mk_b5pulse 4 28 105 12 17 5].
Definition dfs_jpn_bin5pulses : list dfs_bin5pulse := [mk_b5pulse 5 28 105 12 22 5].

Definition dfs_etsi_radars : list dfs_pulse :=
  [mk_rp 30 2 300 400 2 30 3 0 5 15 0 0 1 31;
   mk_rp 30 2 400 1200 2 30 7 0 5 15 0 0 0 32;
   mk_rp 10 5 200 400 0 24 5 0 8 15 0 0 2 33;
   mk_rp 10 5 400 600 0 24 5 0 8 15 0 0 2 37;
   mk_rp 10 5 600 800 0 24 5 0 8 15 0 0 2 38;
   mk_rp 10 5 800 1000 0 24 5 0 8 15 0 0 2 39;
   mk_rp 15 15 200 1600 0 24 8 0 18 22 0 0 0 34;
   mk_rp 25 15 2300 4000 0 24 10 0 18 22 0 0 0 35;
   mk_rp 20 30 2000 4000 0 24 6 19 33 24 0 0 0 36].

Definition dfs_korea_radars : list dfs_pulse :=
  [mk_rp 18 1 700 700 0 6 5 0 1 18 0 3 1 40;
   mk_rp 10 1 1800 1800 0 6 4 0 1 18 0 3 1 41;
   mk_rp 70 1 330 330 0 6 20 0 2 18 0 3 1 42;
   mk_rp 3 1 3003 3003 1 7 2 0 1 18 0 0 1 43].

Definition dfs_china_radars : list dfs_pulse :=
  [mk_rp 18 1 700 700 0 6 5 0 1 18 0 3 1 0;
   mk_rp 18 1 350 350 0 6 5 0 1 18 0 3 0 0;
   mk_rp 9 1 3003 3003 1 7 5 0 1 18 0 0 1 1;
   mk_rp 23 5 4347 6666 0 18 8 0 7 22 0 3 0 2;
   mk_rp 18 10 2000 5000 0 23 6 6 13 22 0 3 0 5;
   mk_rp 16 15 2000 5000 0 25 5 11 23 22 0 3 0 11;
   mk_rp 57 1 1066 1930 0 6 20 0 1 22 0 3 0 21;
   mk_rp 27 1 500 1066 0 6 13 0 1 22 0 3 0 22;
   mk_rp 18 1 325 500 0 6 9 0 1 22 0 3 0 23;
   mk_rp 20 1 1000 1000 0 6 5 0 1 18 0 3 1 24].

Record ath_dfs_radar_tab_info := mk_tab {
  tab_dfsdomain : Z; tab_radars : list dfs_pulse; tab_b5pulses : list dfs_bin5pulse; tab_pri_multiplier : Z }.

Definition DFS_CN_DOMAIN : Z := 4.
Definition DFS_KR_DOMAIN : Z := 5.

(** wma_dfs_configure: the table of a regulatory domain. *)
Definition radar_tab (dfsdomain pri_multiplier : Z) : ath_dfs_radar_tab_info :=
  if dfsdomain =? DFS_FCC_DOMAIN then mk_tab DFS_FCC_DOMAIN dfs_fcc_radars dfs_fcc_bin5pulses pri_multiplier
  else if dfsdomain =? DFS_ETSI_DOMAIN then mk_tab DFS_ETSI_DOMAIN dfs_etsi_radars [] pri_multiplier
  else if dfsdomain =? DFS_MKK_DOMAIN then mk_tab DFS_MKK_DOMAIN dfs_mkk4_radars dfs_jpn_bin5pulses pri_multiplier
  else if dfsdomain =? DFS_CN_DOMAIN then mk_tab DFS_CN_DOMAIN dfs_china_radars [] pri_multiplier
  else if dfsdomain =? DFS_KR_DOMAIN then mk_tab DFS_KR_DOMAIN dfs_korea_radars [] pri_multiplier
  else mk_tab DFS_UNINIT_DOMAIN [] [] pri_multiplier.

(** ** Filters *)
Definition s32 (x : Z) : Z := if u32 x <? 2147483648 then u32 x else u32 x - 4294967296.
Definition DFS_STATUS_SUCCESS : Z := 0.
Definition DFS_STATUS_FAIL : Z := 1.
Definition DFS_MAX_RSSI_VALUE : Z := 0x7fffffff.
Definition DFS_BIN5_TIME_WINDOW_UNITS_MULTIPLIER : Z := 1000000.

Definition same_type (rp : dfs_pulse) (ft : dfs_filtertype) : bool :=
  (rp_pulsedur rp =? ft_filterdur ft) && (rp_numpulses rp =? ft_numpulses ft) &&
  (rp_mindur rp =? ft_mindur ft) && (rp_maxdur rp =? ft_maxdur ft).

(** The first type of the right durations. *)
Fixpoint find_type (ns : list Z) (rp : dfs_pulse) (fts : list dfs_filtertype) : option (option Z) :=
  match ns with
  | [] => Some None
  | n :: ns => ft ← aget fts n; if same_type rp ft then Some (Some n) else find_type ns rp fts
  end.

(** The first free place of a row. *)
Fixpoint free_place (fuel : nat) (tableindex : Z) (row : list Z) : option (option Z) :=
  match fuel with
  | O => Some None
  | S fuel =>
      if tableindex <? DFS_MAX_RADAR_OVERLAP then
        x ← aget row tableindex;
        if x =? -1 then Some (Some tableindex) else free_place fuel (tableindex + 1) row
      else Some None
  end.

(** Entering a type in the rows of its durations; [false] if a row is full. *)
Fixpoint enter_type (durs : list Z) (t : Z) (table : list (list Z)) : option (bool * list (list Z)) :=
  match durs with
  | [] => Some (true, table)
  | i :: durs =>
      row ← aget table i;
      place ← free_place (Z.to_nat DFS_MAX_RADAR_OVERLAP + 1) 0 row;
      match place with
      | Some k => row ← aset row k (s8 t); table ← aset table i row; enter_type durs t table
      | None => Some (false, table)
      end
  end.

Definition new_type (rp : dfs_pulse) (ft : dfs_filtertype) : dfs_filtertype :=
  ft <| ft_numfilters := 0 |> <| ft_numpulses := rp_numpulses rp |> <| ft_patterntype := rp_patterntype rp |>
     <| ft_mindur := rp_mindur rp |> <| ft_maxdur := rp_maxdur rp |> <| ft_filterdur := rp_pulsedur rp |>
     <| ft_rssithresh := rp_rssithresh rp |> <| ft_rssimargin := rp_rssimargin rp |> <| ft_minpri := 1000000 |>.

(** The fields of a filter from its table entry. *)
Definition fill_filter (ext : bool) (rp : dfs_pulse) (rf : dfs_filter) : dfs_filter :=
  let rf := rf <| rf_dl ::= dfs_reset_delayline |> in
  let rf := if ext then rf <| rf_dl_ext_seg ::= dfs_reset_delayline |> else rf in
  let T := u32 (100000000 / rp_max_pulsefreq rp - 100 * rp_meanoffset rp) in
  let Tmax := u32 (100000000 / rp_pulsefreq rp - 100 * rp_meanoffset rp) in
  let rf := rf <| rf_numpulses := rp_numpulses rp |> <| rf_patterntype := rp_patterntype rp |> <| rf_pulseid := rp_pulseid rp |>
               <| rf_mindur := rp_mindur rp |> <| rf_maxdur := rp_maxdur rp |>
               <| rf_ignore_pri_window := rp_ignore_pri_window rp |>
               <| rf_minpri := dfs_round (s32 (T - 100 * rp_pulsevar rp)) |>
               <| rf_maxpri := dfs_round (s32 (Tmax + 100 * rp_pulsevar rp)) |>
               <| rf_fixed_pri_radar_pulse := b2z (rp_max_pulsefreq rp =? rp_pulsefreq rp) |>
               <| rf_threshold := rp_threshold rp |> in
  rf <| rf_filterlen := u32 (rf_maxpri rf * rf_numpulses rf) |>.

(** One entry of the table: [false] is the failure of the code. *)
Definition add_pulse_type (ext : bool) (rp : dfs_pulse) (s : ath_dfs * Z * Z) : option (bool * (ath_dfs * Z * Z)) :=
  let '(d, min_rssithresh, max_pulsedur) := s in
  let n := rn_numradars (dfs_rinfo d) in
  known ← find_type (seqZ 0 n) rp (dfs_radarf d);
  '(ok, t, s) ←
    match known with
    | Some t => Some (true, t, s)
    | None =>
        if DFS_MAX_RADAR_TYPES <? n + 1 then Some (false, n, s)
        else
          ft ← aget (dfs_radarf d) n;
          let ft := new_type rp ft in
          fts ← aset (dfs_radarf d) n ft;
          '(ok, table) ← enter_type (seqZ (rp_mindur rp) (rp_maxdur rp + 1 - rp_mindur rp)) n (dfs_radartable d);
          let d := d <| dfs_radarf := fts |> <| dfs_radartable := table |> in
          let d := if ok : bool then d <| dfs_rinfo ::= λ r, r <| rn_numradars := n + 1 |> |> else d in
          Some (ok, n, (d, Z.min (ft_rssithresh ft) min_rssithresh, Z.max (ft_maxdur ft) max_pulsedur))
    end;
  if negb ok then Some (false, s)
  else
    let '(d, min_rssithresh, max_pulsedur) := s in
    ft ← aget (dfs_radarf d) t;
    rf ← aget (ft_filters ft) (ft_numfilters ft);
    let rf := fill_filter ext rp rf in
    fs ← aset (ft_filters ft) (ft_numfilters ft) rf;
    let ft := ft <| ft_filters := fs |> <| ft_numfilters ::= λ n, n + 1 |> <| ft_minpri ::= Z.min (rf_minpri rf) |> in
    fts ← aset (dfs_radarf d) t ft;
    Some (true, (d <| dfs_radarf := fts |>, min_rssithresh, max_pulsedur)).

Fixpoint add_pulse_types (ext : bool) (rps : list dfs_pulse) (s : ath_dfs * Z * Z) : option (bool * (ath_dfs * Z * Z)) :=
  match rps with
  | [] => Some (true, s)
  | rp :: rps => '(ok, s) ← add_pulse_type ext rp s; if ok : bool then add_pulse_types ext rps s else Some (false, s)
  end.

(** A chirp detector as malloc returns it, with its pulse description. *)
Definition new_b5 (p : dfs_bin5pulse) : dfs_bin5radars :=
  mk_b5radar (mk_ring (replicate 128 zero_b5elem) 0 0 0)
    (p <| b5_timewindow ::= λ w, u32 (w * DFS_BIN5_TIME_WINDOW_UNITS_MULTIPLIER) |>).

Definition dfs_init_radar_filters (radar_info : option ath_dfs_radar_tab_info) (d : ath_dfs) : option (Z * ath_dfs) :=
  let d := d <| ath_dfs_isdfsregdomain := 0 |> in
  match radar_info with
  | None => Some (DFS_STATUS_SUCCESS, d <| dfs_proc_phyerr ::= λ f, Z.ldiff f DFS_RADAR_EN |>)
  | Some info =>
      if tab_dfsdomain info =? 0 then Some (DFS_STATUS_SUCCESS, d <| dfs_proc_phyerr ::= λ f, Z.ldiff f DFS_RADAR_EN |>)
      else
        let ext := negb (dfs_hw_bd_id d =? DFS_HWBD_QCA6174) in
        let d := d <| dfsdomain := tab_dfsdomain info |> <| ath_dfs_isdfsregdomain := 1 |>
                   <| dfs_rinfo ::= λ r, r <| rn_numradars := 0 |> |>
                   <| dfs_radartable ::= map (map (λ _, -1)) |> in
        '(ok, (d, min_rssithresh, max_pulsedur)) ← add_pulse_types ext (tab_radars info) (d, DFS_MAX_RSSI_VALUE, 0);
        if negb (ok : bool) then Some (DFS_STATUS_FAIL, d)
        else
          let b5 := map new_b5 (tab_b5pulses info) in
          let d := d <| dfs_rinfo ::= λ r, r <| rn_numbin5radars := Z.of_nat (length b5) |> |>
                     <| dfs_b5radars := match b5 with [] => None | _ => Some b5 end |>
                     <| dfs_b5radars_ext_seg := match b5 with [] => None | _ => if ext then Some b5 else None end |> in
          let min_rssithresh := foldl (λ m b, Z.min m (b5_rssithresh (br_pulse b))) min_rssithresh b5 in
          let max_pulsedur := foldl (λ m b, Z.max m (b5_maxdur (br_pulse b))) max_pulsedur b5 in
          d ← dfs_reset_alldelaylines d DFS_80P80_SEG0;
          d ← (if ext then dfs_reset_alldelaylines d DFS_80P80_SEG1 else Some d);
          let d := dfs_reset_radarq d in
          let d := d <| dfs_curchan_radindex := -1 |> <| dfs_extchan_radindex := -1 |> in
          let dur := u32 (dfs_round (s32 (u32 (u32 (max_pulsedur * 100) / 80 * 100))) + 20) in
          Some (DFS_STATUS_SUCCESS,
                d <| dfs_rinfo ::= λ r, r <| rn_minrssithresh := min_rssithresh |> <| rn_maxpulsedur := dur |> |>)
  end.

(** ** Channels *)
Definition zero_channel : dfs_ieee80211_channel := mk_ch 0 0 0 0 0 0 0 false 0.

(** The entry of a channel, which is made when there is none: its index. *)
Definition dfs_getchanstate (cmp_ch : dfs_ieee80211_channel) (d : ath_dfs) : option Z * ath_dfs :=
  match list_find (λ c, ic_freq c = ic_freq cmp_ch ∧ ic_flags c = ic_flags cmp_ch) (dfs_radar d) with
  | Some (i, _) => (Some (Z.of_nat i), d)
  | None =>
      match list_find (λ c, ic_freq c = 0) (dfs_radar d) with
      | Some (i, _) => (Some (Z.of_nat i), d <| dfs_radar ::= λ l, zset l (Z.of_nat i) cmp_ch |>)
      | None => (None, d)
      end
  end.

Definition DFS_FAST_CLOCK_MULTIPLIER : Z := 800 / 11.

(** [ext_ch] is the extension channel that ieee80211_get_extchan finds in HT40 mode. *)
Definition dfs_radar_enable (info : ath_dfs_radar_tab_info) (hostap : bool) (ext_ch : option dfs_ieee80211_channel) (d : ath_dfs)
    : option (Z * ath_dfs) :=
  '(status, d) ← dfs_init_radar_filters (Some info) d;
  if status =? DFS_STATUS_FAIL then Some (-5, d)
  else
    let chan := ic_curchan d in
    let ext_ch := if IS_CHAN_HT40 chan then ext_ch else None in
    if hostap && IEEE80211_IS_CHAN_DFS chan then
      let reset d :=
        d ← dfs_reset_alldelaylines d DFS_80P80_SEG0;
        if ic_80p80_both_dfs chan then dfs_reset_alldelaylines d DFS_80P80_SEG1 else Some d in
      d ← reset (d <| dfs_proc_phyerr ::= λ f, Z.lor f DFS_RADAR_EN |>);
      let '(rs_pri, d) := dfs_getchanstate chan d in
      let '(rs_ext, d) := match ext_ch with Some c => dfs_getchanstate c d | None => (None, d) end in
      match rs_pri with
      | Some index_pri =>
          if match ext_ch, rs_ext with Some _, None => false | _, _ => true end then
            d ← (if negb (index_pri =? dfs_curchan_radindex d) then reset d else Some d);
            let d := d <| dfs_curchan_radindex := index_pri |> <| dfs_pri_multiplier_ini := tab_pri_multiplier info |> in
            let d := match rs_ext with Some i => d <| dfs_extchan_radindex := i |> | None => d end in
            Some (DFS_STATUS_SUCCESS, d <| dur_multiplier := DFS_FAST_CLOCK_MULTIPLIER |>)
          else Some (DFS_STATUS_SUCCESS, d)
      | None => Some (DFS_STATUS_SUCCESS, d)
      end
    else Some (DFS_STATUS_SUCCESS, d).

Definition dfs_radar_disable (d : ath_dfs) : ath_dfs := d <| dfs_proc_phyerr ::= λ f, Z.ldiff f DFS_RADAR_EN |>.

(** [current_dfs_regdomain] and [dfs_pri_multiplier] of the device. *)
Definition wma_dfs_configure (dfsdomain pri_multiplier : Z) (hostap : bool) (ext_ch : option dfs_ieee80211_channel) (d : ath_dfs)
    : option (Z * ath_dfs) :=
  dfs_radar_enable (radar_tab dfsdomain pri_multiplier) hostap ext_ch d.

(** ** Attachment *)
Definition zero_line : dfs_delayline := mk_dl (mk_ring (replicate 64 zero_delay) 0 0 0) 0.
Definition zero_filter : dfs_filter := mk_filter zero_line zero_line 0 0 0 0 0 0 0 0 0 0 0.
Definition zero_type : dfs_filtertype := mk_ft (replicate 10 zero_filter) 0 0 0 0 0 0 0 0 0 0.
Definition MAX_BIN5_DUR : Z := 145.

(** The device before its filters are initialised. *)
Definition attached (curchan : dfs_ieee80211_channel) (hw_bd_id : Z) (row : list Z) : ath_dfs :=
  let ext := negb (hw_bd_id =? DFS_HWBD_QCA6174) in
  let pl := mk_ring (replicate 1024 (mk_pulse 0 0 0)) 0 DFS_MAX_PULSE_BUFFER_MASK 0 in
  {| ic_curchan := curchan; disable_phy_err_processing := false; dfs_hw_bd_id := hw_bd_id;
     dfs_curchan_radindex := 0; dfs_extchan_radindex := 0; dfsdomain := 0; dfs_proc_phyerr := 0;
     dfs_eventq := replicate 1024 zero_event; dfs_radarq := []; dfs_arq := [];
     dfs_radar := replicate 64 zero_channel; dfs_radarf := replicate 32 zero_type;
     dfs_rinfo := mk_dinfo 0 0 0 0 0 0 0 0 0 ol_if_get_tsf64 MAX_BIN5_DUR (if ext then MAX_BIN5_DUR else 0);
     dfs_b5radars := None; dfs_b5radars_ext_seg := None; dfs_radartable := replicate 256 row;
     num_radar_detects := 0; total_phy_errors := 0; rssi_discards := 0;
     pulses := pl; pulses_ext_seg := if ext then Some pl else None;
     ath_radar_tasksched := false; ath_chip_is_bb_tlv := true; ath_dfs_ext_chan_ok := false; dfs_bangradar := false;
     dur_multiplier := 0; ath_dfs_isdfsregdomain := 0; ath_dfs_false_rssi_thres := 0; ath_dfs_peak_mag := 0;
     dfs_phyerr_count := 0; dfs_phyerr_reject_count := 0; dfs_phyerr_queued_count := 0;
     dfs_phyerr_freq_min := 0; dfs_phyerr_freq_max := 0; dfs_phyerr_w53_counter := 0;
     dfs_pri_multiplier := 0; dfs_pri_multiplier_ini := 0; disable_dfs_ch_switch := false;
     test_ts := 0; test_ts_ext_seg := 0 |}.

Definition dfs_attach (curchan : dfs_ieee80211_channel) (hw_bd_id : Z) (row : list Z) : option (Z * ath_dfs) :=
  '(status, d) ← dfs_init_radar_filters (Some (mk_tab 0 [] [] 0)) (attached curchan hw_bd_id row);
  Some (status,
    if negb (status =? 0) then d
    else d <| ath_dfs_false_rssi_thres := 50 |> <| ath_dfs_peak_mag := 40 |> <| dfs_phyerr_freq_min := 0x7fffffff |>
           <| dfs_pri_multiplier := 2 |>).
