(* ===== verification/DfsCheck.v ===== *)
(** The pattern checks always answer, keep the shape of the buffers, and find nothing
    in a buffer that holds less than the threshold asks for. *)
From S2P Require Import Prelude Arrays DfsTypes DfsLine DfsBin.

(** What is left of [dfs_rinfo] without the cached load of the extension channel. *)
Definition info_core (ri : dfs_info) : dfs_info := ri <| ext_chan_busy_ts := 0 |> <| dfs_ext_chan_busy := 0 |>.

Abbreviation dl_shape := (ring_shape (A:=dfs_delayelem) DFS_MAX_DL_SIZE).

(** A check may change intervals and empty the buffer. *)
Definition line_kept (dl dl' : ring dfs_delayelem) : Prop :=
  length (elems dl') = length (elems dl) ∧ 0 <= numelems dl' <= numelems dl ∧
  firstelem dl' = firstelem dl ∧ lastelem dl' = lastelem dl.

Lemma line_kept_refl dl : dl_shape dl → line_kept dl dl.
Proof. intros [? ?]. split_and!; done || lia. Qed.

Lemma line_kept_trans a b c : line_kept a b → line_kept b c → line_kept a c.
Proof. intros (?&?&?&?) (?&?&?&?). split_and!; congruence || lia. Qed.

Lemma line_kept_shape dl dl' : dl_shape dl → line_kept dl dl' → dl_shape dl'.
Proof. intros [? ?] (?&?&_). unfold ring_shape. split; [congruence|lia]. Qed.

Section margins.
Context (c : dfs_ieee80211_channel).
Implicit Types (ri : dfs_info) (rf : dfs_filter).

Lemma dfs_get_pri_margin_spec ri fixed :
  ∃ ri', dfs_get_pri_margin c ri fixed = (if fixed : bool then 4 else 6, ri') ∧ info_core ri' = info_core ri.
Proof.
  unfold dfs_get_pri_margin. destruct (IS_CHAN_HT40 c).
  - destruct fixed; cbn; (eexists; split; [reflexivity|done]).
  - destruct fixed; (eexists; split; [reflexivity|done]).
Qed.

Lemma dfs_get_filter_threshold_spec ri rf :
  ∃ ri', dfs_get_filter_threshold c ri rf = (rf_threshold rf, ri') ∧ info_core ri' = info_core ri.
Proof.
  unfold dfs_get_filter_threshold. destruct (IS_CHAN_HT40 c); [|by eexists].
  cbn. eexists. split; [by rewrite Z.add_0_r|done].
Qed.

Lemma fixedpattern_spec ri pl rf dur :
  ∃ f ri', dfs_bin_fixedpattern_check c ri pl rf dur = (f, ri') ∧ info_core ri' = info_core ri.
Proof.
  unfold dfs_bin_fixedpattern_check.
  destruct (dfs_get_pri_margin_spec ri (rf_patterntype rf =? 1)) as (ri1 & -> & H1).
  destruct (foldl _ _ _) as [ix n]. destruct (dfs_get_filter_threshold_spec ri1 rf) as (ri2 & -> & H2).
  eexists _, _. split; [reflexivity|congruence].
Qed.

(** ** Counting the pulses that fit *)

Lemma pri_check_elem_kept rf margin refpri refdur fund dl np pg i :
  dl_shape dl →
  let '(dl', _, _) := pri_check_elem rf margin refpri refdur fund (dl, np, pg) i in
  length (elems dl') = length (elems dl) ∧ numelems dl' = numelems dl ∧ firstelem dl' = firstelem dl ∧ lastelem dl' = lastelem dl.
Proof.
  intros _. unfold pri_check_elem. destruct (de_time _ =? 0); destruct (_ && _); rsimpl; by rewrite ?length_zset.
Qed.

Lemma pri_check_fold_kept rf margin refpri refdur fund idxs dl np pg :
  dl_shape dl →
  let '(dl', _, _) := foldl (pri_check_elem rf margin refpri refdur fund) (dl, np, pg) idxs in
  length (elems dl') = length (elems dl) ∧ numelems dl' = numelems dl ∧ firstelem dl' = firstelem dl ∧ lastelem dl' = lastelem dl.
Proof.
  revert dl np pg. induction idxs as [|i idxs IH]; intros dl np pg Hdl; [done|]. cbn [foldl].
  pose proof (pri_check_elem_kept rf margin refpri refdur fund dl np pg i Hdl) as H1.
  destruct (pri_check_elem _ _ _ _ _ _ i) as [[dl1 np1] pg1]. destruct H1 as (H1 & H2 & H3 & H4).
  specialize (IH dl1 np1 pg1 ltac:(destruct Hdl; split; congruence || lia)).
  destruct (foldl _ _ _) as [[dl2 np2] pg2]. destruct IH as (?&?&?&?). split_and!; congruence.
Qed.

Lemma dfs_bin_pri_check_kept ri rf dl score refpri refdur fund :
  dl_shape dl →
  ∃ np dl' ri', dfs_bin_pri_check c ri rf dl score refpri refdur fund = (np, dl', ri') ∧ line_kept dl dl' ∧
    info_core ri' = info_core ri.
Proof.
  intros Hdl. unfold dfs_bin_pri_check. destruct (dfs_get_pri_margin_spec ri (rf_patterntype rf =? 1)) as (ri1 & -> & H1).
  destruct (_ || _); [by eexists _, _, _; split_and!; [reflexivity|apply line_kept_refl|]|].
  match goal with |- context [foldl (pri_check_elem _ ?m ?p _ _) ?s ?l] =>
    pose proof (pri_check_fold_kept rf m p refdur fund l dl 1 0 Hdl) as H2;
    destruct (foldl (pri_check_elem rf m p refdur fund) s l) as [[dl2 np2] pg2] end.
  destruct H2 as (H2 & H3 & H4 & H5). eexists _, _, _. split; [reflexivity|]. split; [|done].
  destruct Hdl. split_and!; congruence || lia.
Qed.

(** ** The checks of a filter *)

Lemma score_loop_total rf margin dl ns score :
  Forall (λ n, 0 <= n < 64) ns → length score = 64%nat →
  ∃ score', score_loop rf margin dl ns score = Some score' ∧ length score' = 64%nat.
Proof.
  intros Hns. revert score. induction Hns as [|n ns Hn Hns IH]; intros score Hs; [by exists score|]. cbn [score_loop].
  destruct (_ =? 0); [by apply IH|]. rewrite aset_zset by lia. cbn [mbind option_bind].
  destruct (_ <? _); [eexists; split; [reflexivity|by rewrite length_zset]|]. apply IH. by rewrite length_zset.
Qed.

Lemma idx_range dl : dl_shape dl → Forall (λ n, 0 <= n < 64) (seqZ 0 (numelems dl)).
Proof. intros [_ Hn]. unfold DFS_MAX_DL_SIZE in Hn. apply Forall_forall. intros n Hi%elem_of_seqZ. lia. Qed.

Lemma high_scorer_total dl score :
  dl_shape dl → length score = 64%nat → ∃ hs hi, high_scorer dl score = Some (hs, hi) ∧ 0 <= hi < Z.max 1 (numelems dl).
Proof.
  intros Hdl Hs. unfold high_scorer.
  destruct (for_opt_ind (λ '(highscore, highscoreindex) n,
      s ← aget score n;
      Some (if highscore <? s then (s, n)
            else if s =? highscore then
              if de_time (ring_at DFS_MAX_DL_MASK dl n) <=? de_time (ring_at DFS_MAX_DL_MASK dl highscoreindex)
              then (highscore, n) else (highscore, highscoreindex)
            else (highscore, highscoreindex))) (λ _ s, 0 <= s.2 < Z.max 1 (numelems dl)) (numelems dl) (0, 0)) as ([hs hi] & -> & H).
  - apply Hdl.
  - cbn. lia.
  - intros i [hs hi] Hi Hp. destruct Hdl as [_ Hn]. unfold DFS_MAX_DL_SIZE in Hn.
    rewrite (aget_zget score) by lia. cbn [mbind option_bind]. eexists. split; [reflexivity|].
    cbn in Hp. repeat split_if; cbn; lia.
  - eauto.
Qed.

Lemma lowest_pri_range dl : dl_shape dl → 0 <= lowest_pri dl < Z.max 1 (numelems dl).
Proof.
  intros [_ Hn]. unfold DFS_MAX_DL_SIZE in Hn. unfold lowest_pri.
  match goal with |- context [foldl ?f ?s0 ?l] => apply (foldl_seqZ_ind f (λ _ st, 0 <= st.2 < Z.max 1 (numelems dl)) s0 (numelems dl)) end;
    [lia|cbn; lia|].
  intros i [a b] Hi Hs. cbn in Hs. repeat split_if; cbn; lia.
Qed.

Lemma dfs_bin_check_total ri pl rf dl deltaT width :
  dl_shape dl →
  ∃ f dl' ri', dfs_bin_check c ri pl rf dl deltaT width = Some (f, dl', ri') ∧ line_kept dl dl' ∧ info_core ri' = info_core ri ∧
    (f = true → u32 (rf_threshold rf - 1) <= numelems dl).
Proof.
  intros Hdl. pose proof (line_kept_refl dl Hdl) as Hrefl. unfold dfs_bin_check.
  destruct (Z.ltb_spec (numelems dl) (u32 (rf_threshold rf - 1))) as [Ht|Ht]; [by eexists _, _, _|].
  destruct (_ <? _); [by eexists _, _, _|].
  destruct (dfs_get_pri_margin_spec ri (rf_patterntype rf =? 1)) as (ri1 & -> & H1).
  destruct (rf_patterntype rf =? 1).
  { destruct (fixedpattern_spec ri1 pl rf width) as (f & ri2 & -> & H2). eexists _, _, _. split; [reflexivity|].
    split; [|split; [congruence|done]]. destruct f; [|done]. destruct Hdl. unfold line_kept. rsimpl. lia. }
  destruct (score_loop_total rf 6 dl (seqZ 0 (numelems dl)) (replicate 64 0) (idx_range dl Hdl) ltac:(by rewrite length_replicate))
    as (score & -> & Hs). cbn [mbind option_bind].
  destruct (high_scorer_total dl score Hdl Hs) as (hs & hi & -> & Hhi).
  pose proof (lowest_pri_range dl Hdl) as Hlo. pose proof (proj2 Hdl) as Hnum. unfold DFS_MAX_DL_SIZE in Hnum.
  cbn [mbind option_bind]. cbn zeta.
  match goal with |- context [aget score ?ix] => set (scoreindex := ix) end. assert (0 <= scoreindex < 64) as Hsi by (unfold scoreindex; repeat split_if; lia).
  rewrite (aget_zget score scoreindex) by lia. cbn [mbind option_bind].
  match goal with |- context [dfs_bin_pri_check c ri1 rf dl ?s ?p ?d ?p2] =>
    destruct (dfs_bin_pri_check_kept ri1 rf dl s p d p2 Hdl) as (np & dl2 & ri2 & -> & H2 & H3) end.
  destruct (dfs_get_filter_threshold_spec ri2 rf) as (ri3 & -> & H4). eexists _, _, _. split; [reflexivity|].
  split; [done|]. split; [congruence|done].
Qed.

(** ** Staggered patterns *)
Lemma stagger_score_total rf dl score n :
  0 <= n < 64 → length score = 64%nat → ∃ score', stagger_score rf dl score n = Some score' ∧ length score' = 64%nat.
Proof.
  intros Hn Hs. unfold stagger_score. split_if; [by exists score|].
  split_if; rewrite aset_zset by lia; eexists; (split; [reflexivity|by rewrite length_zset]).
Qed.

Lemma stagger_count_total ri rf cand funds dl :
  dl_shape dl →
  ∃ n dl' ri', stagger_count c rf cand funds (dl, ri) = (n, (dl', ri')) ∧ line_kept dl dl' ∧ info_core ri' = info_core ri.
Proof.
  intros Hdl. unfold stagger_count. set (e := ring_at _ _ _). clearbody e.
  assert (H : ∀ funds dl1 ri1 best, line_kept dl dl1 → info_core ri1 = info_core ri →
    ∃ n dl' ri', foldl (λ '(best, (dl, ri)) fund,
        let '(numpulses, dl, ri) := dfs_bin_pri_check c ri rf dl (cand_score cand) (de_time e) (de_dur e) fund in
        (if best <? numpulses then numpulses else best, (dl, ri))) (best, (dl1, ri1)) funds = (n, (dl', ri')) ∧
      line_kept dl dl' ∧ info_core ri' = info_core ri).
  { clear funds. induction funds as [|f funds IH]; intros dl1 ri1 best H1 H2; [by eexists _, _, _|]. cbn [foldl].
    destruct (dfs_bin_pri_check_kept ri1 rf dl1 (cand_score cand) (de_time e) (de_dur e) f (line_kept_shape _ _ Hdl H1))
      as (np & dl2 & ri2 & -> & H3 & H4). apply IH; [by eapply line_kept_trans|congruence]. }
  apply H; [by apply line_kept_refl|done].
Qed.

Lemma dfs_staggered_check_total ri rf dl deltaT :
  dl_shape dl →
  ∃ f dl' ri', dfs_staggered_check c ri rf dl deltaT = Some (f, dl', ri') ∧ line_kept dl dl' ∧ info_core ri' = info_core ri ∧
    (f = true → u32 (rf_threshold rf - 1) <= numelems dl).
Proof.
  intros Hdl. pose proof (line_kept_refl dl Hdl) as Hrefl. unfold dfs_staggered_check.
  destruct (Z.ltb_spec (numelems dl) (u32 (rf_threshold rf - 1))) as [Ht|Ht]; [by eexists _, _, _|].
  destruct (_ <? _); [by eexists _, _, _|]. pose proof (proj2 Hdl) as Hn. unfold DFS_MAX_DL_SIZE in Hn.
  destruct (for_opt_ind (stagger_score rf dl) (λ _ s, length s = 64%nat) (numelems dl) (replicate 64 0)) as (score & -> & Hs);
    [lia|by rewrite length_replicate| |].
  { intros i s0 Hi Hs. apply stagger_score_total; [lia|done]. }
  cbn [mbind option_bind].
  destruct (for_opt_ind (rank_step dl score) (λ _ _, True) (numelems dl) (no_cand, no_cand, no_cand)) as ([[high mid] low] & -> & _);
    [lia|done| |].
  { intros i [[h m] l] Hi _. unfold rank_step. rewrite (aget_zget score) by lia. cbn [mbind option_bind]. by eexists. }
  cbn [mbind option_bind]. cbn beta iota zeta. destruct (cand_score mid =? 0); [by eexists _, _, _|].
  destruct (stagger_count_total ri rf high [cand_pri high; u32 (cand_pri high + cand_pri mid);
    u32 (u32 (cand_pri high + cand_pri mid) + cand_pri low)] dl Hdl) as (n1 & dl1 & ri1 & -> & H1 & H2).
  destruct (stagger_count_total ri1 rf mid [cand_pri mid; u32 (cand_pri high + cand_pri mid);
    u32 (u32 (cand_pri high + cand_pri mid) + cand_pri low)] dl1 (line_kept_shape _ _ Hdl H1)) as (n2 & dl2 & ri2 & -> & H3 & H4).
  eexists _, _, _. split; [reflexivity|]. split; [by eapply line_kept_trans|]. split; [congruence|done].
Qed.
End margins.

(** ** Chirps *)

Abbreviation b5_shape := (ring_shape (A:=dfs_bin5elem) DFS_MAX_B5_SIZE).

(** [seen] pulses looked at, [prev] the last one: what is recorded fits. *)
Definition recorded (seen prev : Z) (k : b5_count) : Prop :=
  length (index k) = 128%nat ∧ 0 <= numevents k ∧ bursts k <= seen - 1 ∧
  (numevents k <= seen - 1 ∨ (2 <= numevents k <= seen ∧ aget (index k) (numevents k - 1) = Some prev)).

Lemma record_pair_total seen prev this k :
  recorded seen prev k → 1 <= seen < 128 → ∃ k', record_pair prev this k = Some k' ∧ recorded (seen + 1) this k'.
Proof.
  intros (Hl & H0 & Hb & Hk) Hs. unfold record_pair.
  assert (Hnew : numevents k <= seen - 1 →
    ∃ n ix, (ix ← aset (index k) (numevents k) prev; Some (numevents k + 1, ix)) = Some (n, ix) ∧
      n = numevents k + 1 ∧ length ix = 128%nat).
  { intros. rewrite aset_zset by lia. cbn [mbind option_bind]. eexists _, _. split; [reflexivity|]. split; [done|by rewrite length_zset]. }
  assert (Hput : ∀ n ix, length ix = 128%nat → 0 <= n <= seen → 1 <= n →
    ∃ k', (ix ← aset ix n this; Some (mk_count (bursts k + 1) (n + 1) ix)) = Some k' ∧ recorded (seen + 1) this k').
  { intros n ix Hix Hn Hn1. rewrite aset_zset by lia. cbn [mbind option_bind]. eexists. split; [reflexivity|]. unfold recorded. cbn.
    split; [by rewrite length_zset|]. split; [lia|]. split; [lia|]. right. split; [lia|].
    replace (n + 1 - 1) with n by lia. rewrite aget_zget by (rewrite length_zset; lia). f_equal. apply zget_zset_eq. lia. }
  destruct (Z.leb_spec 2 (numevents k)) as [H2|H2].
  - destruct Hk as [Hk|[Hk Hlast]].
    + rewrite (aget_zget (index k)) by lia. cbn [mbind option_bind]. destruct (negb _).
      * destruct (Hnew Hk) as (n & ix & -> & -> & Hix). apply Hput; [done|lia|lia].
      * apply Hput; [done|lia|lia].
    + rewrite Hlast. cbn [mbind option_bind]. rewrite Z.eqb_refl. cbn [negb mbind option_bind]. apply Hput; [done|lia|lia].
  - destruct Hk as [Hk|[Hk _]]; [|lia]. destruct (Hnew Hk) as (n & ix & -> & -> & Hix). apply Hput; [done|lia|lia].
Qed.

Lemma bin5_pair_total r i prev k :
  b5_shape r → 1 <= i < numelems r →
  recorded i prev k → ∃ prev' k', bin5_pair r (prev, k) i = Some (prev', k') ∧ recorded (i + 1) prev' k'.
Proof.
  intros [Hl Hn] Hi Hk. unfold DFS_MAX_B5_SIZE in Hn. unfold bin5_pair.
  assert (Hstay : ∀ p, recorded (i + 1) p (mk_count (bursts k) (numevents k) (index k)) ∧
                       recorded (i + 1) p (mk_count (bursts k + 1) (numevents k) (index k))).
  { intros p. destruct Hk as (H1 & H2 & H3 & H4). unfold recorded. cbn. split; (split; [done|]; split; [lia|]; split; [lia|]); left; lia. }
  destruct k as [b n ix]. cbn [bursts numevents index] in *.
  destruct (negb _); [eexists _, _; split; [reflexivity|apply Hstay]|].
  destruct (same_burst _ _).
  - destruct (alike _ _).
    + destruct (record_pair_total i prev (Z.land (u32 (firstelem r + i)) DFS_MAX_B5_MASK) _ Hk ltac:(lia)) as (k' & -> & Hk').
      eexists _, _. split; [reflexivity|exact Hk'].
    + eexists _, _. split; [reflexivity|apply Hstay].
  - destruct (next_burst _ _); eexists _, _; (split; [reflexivity|apply Hstay]).
Qed.

Lemma for_opt_range {S} (f : S → Z → option S) (P : Z → S → Prop) a n s :
  0 <= n → P a s → (∀ i s, a <= i < a + n → P i s → ∃ s', f s i = Some s' ∧ P (i + 1) s') →
  ∃ s', for_opt f (seqZ a n) s = Some s' ∧ P (a + n) s'.
Proof.
  intros Hn H0. rewrite <- (Z2Nat.id n Hn). induction (Z.to_nat n) as [|m IH]; intros Hs.
  { exists s. by replace (a + Z.of_nat 0) with a by lia. }
  rewrite seqZ_S, for_opt_app. destruct IH as (s1 & -> & H1); [intros i s' ?; apply Hs; lia|].
  cbn. destruct (Hs (a + Z.of_nat m) s1) as (s2 & -> & H2); [lia|done|].
  cbn. exists s2. split; [done|]. by replace (a + Z.of_nat (Datatypes.S m)) with (a + Z.of_nat m + 1) by lia.
Qed.

Lemma bin5_ref_range idxs r this i0 :
  ∀ a, idxs = seqZ a (Z.of_nat (length idxs)) → i0 = a →
  let '(_, i1) := bin5_ref idxs r this i0 in a <= i1 <= a + Z.of_nat (length idxs).
Proof.
  revert this i0. induction idxs as [|i idxs IH]; intros this i0 a Hs ->; [cbn; lia|]. cbn [length] in Hs.
  rewrite seqZ_cons in Hs by lia. injection Hs as Hi Hs. cbn [bin5_ref]. destruct (bin5_dur_ok _); [cbn [length]; lia|].
  replace (Z.pred (Z.of_nat (S (length idxs)))) with (Z.of_nat (length idxs)) in Hs by lia.
  specialize (IH (Z.land (u32 (firstelem r + i)) DFS_MAX_B5_MASK) (i + 1) (Z.succ a) Hs ltac:(lia)).
  destruct (bin5_ref _ _ _ _) as [t i1]. cbn [length]. lia.
Qed.

(** With one detector the check stays inside the array of places. *)
Lemma dfs_bin5_check_total brs :
  (length brs <= 1)%nat → Forall (λ br, b5_shape (br_ring br)) brs →
  ∃ f, dfs_bin5_check brs = Some f ∧
    (f = true → ∃ br, br ∈ brs ∧ (b5_threshold (br_pulse br) < numelems (br_ring br) ∨ b5_threshold (br_pulse br) <= 0)).
Proof.
  intros Hl Hbrs. unfold dfs_bin5_check. destruct brs as [|br [|]]; cbn [length] in Hl; [by exists false| |lia].
  apply Forall_cons in Hbrs as [Hbr _]. cbn [bin5_check_loop].
  pose proof (bin5_ref_range (seqZ 0 (numelems (br_ring br))) (br_ring br) 0 0 0) as Hr.
  rewrite length_seqZ, Z2Nat.id in Hr by apply Hbr. specialize (Hr eq_refl eq_refl).
  destruct (bin5_ref _ _ _ _) as [this i1]. pose proof (proj2 Hbr) as Hn.
  destruct (decide (i1 + 1 <= numelems (br_ring br))) as [Hi|Hi].
  - destruct (for_opt_range (bin5_pair (br_ring br)) (λ i s, recorded i s.1 s.2) (i1 + 1) (numelems (br_ring br) - (i1 + 1))
      (this, mk_count 0 0 (replicate 128 0))) as ([this' k] & -> & Hk).
    + lia.
    + unfold recorded. cbn. split; [done|]. split; [lia|]. split; [lia|]. left. lia.
    + intros i [p k] Hi2 Hk. destruct (bin5_pair_total (br_ring br) i p k Hbr ltac:(lia) Hk) as (p' & k' & -> & Hk').
      exists (p', k'). done.
    + cbn [mbind option_bind]. destruct (Z.leb_spec (b5_threshold (br_pulse br)) (bursts k)) as [Hb|Hb]; [|by exists false].
      eexists. split; [reflexivity|]. intros _. exists br. split; [by left|]. destruct Hk as (_ & _ & Hk & _). cbn in Hk. left. lia.
  - replace (seqZ (i1 + 1) _) with (@nil Z) by (symmetry; apply seqZ_nil; lia). cbn [for_opt mbind option_bind bursts].
    destruct (Z.leb_spec (b5_threshold (br_pulse br)) 0) as [Hb|Hb]; [|by exists false].
    eexists. split; [reflexivity|]. intros _. exists br. split; [by left|]. by right.
Qed.
