(* ===== verification/DfsSafe.v ===== *)
(** The processing of radar events always answers, stays inside its arrays, loses no
    event object and finds nothing without pulses. *)
From S2P Require Import Prelude Arrays DfsTypes DfsLine DfsBin DfsCheck DfsEvent.

(** ** What the code relies on *)

Definition filter_shape (rf : dfs_filter) : Prop := dl_shape (dl_ring (rf_dl rf)) ∧ dl_shape (dl_ring (rf_dl_ext_seg rf)).
Definition type_ok (ft : dfs_filtertype) : Prop :=
  length (ft_filters ft) = 10%nat ∧ 0 <= ft_numfilters ft <= 10 ∧ Forall filter_shape (ft_filters ft).

(** A row of the radar table: no type twice. *)
Definition dur_row_ok (row : list Z) : Prop :=
  length row = 16%nat ∧ Forall (λ t, -1 <= t < 32) row ∧ NoDup (filter (λ t, t ≠ -1) row).
Definition b5_list_ok (n : Z) (l : list dfs_bin5radars) : Prop :=
  Z.of_nat (length l) = n ∧ Forall (λ br, b5_shape (br_ring br)) l.
Definition event_ok (re : dfs_event) : Prop := 0 <= re_dur re < 256 ∧ 0 <= re_chanindex re.
Abbreviation pl_shape := (ring_shape (A:=dfs_pulseparams) DFS_MAX_PULSE_BUFFER_SIZE).

Record dfs_ok (d : ath_dfs) : Prop := {
  ok_radar : length (dfs_radar d) = 64%nat;
  ok_radarf : length (dfs_radarf d) = 32%nat;
  ok_types : Forall type_ok (dfs_radarf d);
  ok_table : length (dfs_radartable d) = 256%nat;
  ok_rows : Forall dur_row_ok (dfs_radartable d);
  ok_pulses : pl_shape (pulses d);
  ok_pulses_ext : match pulses_ext_seg d with Some pl => pl_shape pl | None => ic_80p80_both_dfs (ic_curchan d) = false end;
  ok_b5_num : 0 <= rn_numbin5radars (dfs_rinfo d) <= 1;
  ok_b5 : match dfs_b5radars d with
          | Some l => b5_list_ok (rn_numbin5radars (dfs_rinfo d)) l
          | None => rn_numbin5radars (dfs_rinfo d) = 0 end;
  ok_b5_ext : match dfs_b5radars_ext_seg d with
              | Some l => b5_list_ok (rn_numbin5radars (dfs_rinfo d)) l
              | None => ic_80p80_both_dfs (ic_curchan d) = true → rn_numbin5radars (dfs_rinfo d) = 0 end;
  ok_dur : 0 <= dfs_last_bin5_dur (dfs_rinfo d) < 256;
  ok_dur_ext : 0 <= dfs_last_bin5_dur_ext_seg (dfs_rinfo d) < 256;
  ok_queue : Forall event_ok (dfs_radarq d);
}.

(** ** One filter *)
Definition filter_static (rf : dfs_filter) : dfs_filter :=
  let z := mk_dl (mk_ring [] 0 0 0) 0 in rf <| rf_dl := z |> <| rf_dl_ext_seg := z |>.
Definition type_static (ft : dfs_filtertype) : dfs_filtertype := ft <| ft_filters := [] |> <| ft_last_ts := 0 |>.

(** A line gains at most [k] pulses. *)
Definition line_grown (k : Z) (a b : dfs_delayline) : Prop :=
  (dl_shape (dl_ring a) → dl_shape (dl_ring b)) ∧ numelems (dl_ring b) <= numelems (dl_ring a) + k.
Definition filter_grown (k : Z) (a b : dfs_filter) : Prop :=
  filter_static b = filter_static a ∧ line_grown k (rf_dl a) (rf_dl b) ∧ line_grown k (rf_dl_ext_seg a) (rf_dl_ext_seg b).
Definition type_grown (k : Z) (a b : dfs_filtertype) : Prop :=
  type_static b = type_static a ∧ Forall2 (filter_grown k) (ft_filters a) (ft_filters b).
Definition b5_grown (k : Z) (a b : dfs_bin5radars) : Prop :=
  br_pulse b = br_pulse a ∧ (b5_shape (br_ring a) → b5_shape (br_ring b)) ∧ numelems (br_ring b) <= numelems (br_ring a) + k.

(** Growth as a family of relations: reflexive for [0 <= k], and adding up. *)
Class Growth {A} (R : Z → relation A) : Prop := {
  growth_refl : ∀ k x, 0 <= k → R k x x;
  growth_trans : ∀ k m x y z, R k x y → R m y z → R (k + m) x z;
}.
#[export] Instance line_growth : Growth line_grown.
Proof. split; unfold line_grown; [intros; split; [done|lia]|]. intros k m x y z [? ?] [? ?]. split; [auto|lia]. Qed.
#[export] Instance filter_growth : Growth filter_grown.
Proof.
  split; unfold filter_grown; [intros; split_and!; [done|by apply growth_refl..]|].
  intros k m x y z (? & ? & ?) (? & ? & ?). split_and!; [congruence|by eapply growth_trans..].
Qed.
#[export] Instance list_growth {A} (R : Z → relation A) `{!Growth R} : Growth (λ k, Forall2 (R k)).
Proof.
  split.
  - intros k l Hk. induction l; constructor; [by apply growth_refl|done].
  - intros k m x y z H1. revert z. induction H1; intros z H2; inversion H2; subst; constructor; [by eapply growth_trans|auto].
Qed.
#[export] Instance type_growth : Growth type_grown.
Proof.
  split; unfold type_grown; [intros; split; [done|by apply (growth_refl (R:=λ k, Forall2 (filter_grown k)))]|].
  intros k m x y z [? ?] [? ?]. split; [congruence|]. by eapply (growth_trans (R:=λ k, Forall2 (filter_grown k))).
Qed.
#[export] Instance b5_growth : Growth b5_grown.
Proof. split; unfold b5_grown; [intros; split_and!; [done|done|lia]|]. intros k m x y z (? & ? & ?) (? & ? & ?). split_and!; [congruence|auto|lia]. Qed.
#[export] Instance option_growth {A} (R : Z → relation A) `{!Growth R} : Growth (λ k, option_Forall2 (R k)).
Proof.
  split.
  - intros k [x|] Hk; constructor. by apply growth_refl.
  - intros k m x y z H1 H2. destruct H1; inversion H2; subst; constructor. by eapply growth_trans.
Qed.

Lemma growth_le {A} (R : Z → relation A) `{!Growth R} k m x y : R k x y → k <= m → R m x y.
Proof. intros H Hk. replace m with (k + (m - k)) by lia. eapply growth_trans; [exact H|]. apply growth_refl. lia. Qed.

Lemma filter_grown_shape k a b : filter_grown k a b → filter_shape a → filter_shape b.
Proof. intros (_ & [H1 _] & [H2 _]) [? ?]. split; auto. Qed.

Lemma type_grown_ok k a b : type_grown k a b → type_ok a → type_ok b.
Proof.
  intros [Hs Hf] (Hl & Hn & Hsh). apply (f_equal ft_numfilters) in Hs as Hn2. cbn in Hn2. unfold type_ok.
  rewrite <- (Forall2_length _ _ _ Hf), Hn2. split; [done|]. split; [done|].
  rewrite Forall_forall in Hsh |- *. intros y Hy. apply list_elem_of_lookup in Hy as [i Hi].
  destruct (Forall2_lookup_r _ _ _ _ _ Hf Hi) as (x & Hx & H). eapply filter_grown_shape; [exact H|]. apply Hsh. by eapply list_elem_of_lookup_2.
Qed.

Lemma drop_old_shape fuel len t n ix r :
  dl_shape r → 1 <= numelems r → 0 <= n →
  dl_shape (drop_old fuel len t n ix r) ∧ numelems (drop_old fuel len t n ix r) <= numelems r.
Proof.
  revert n ix r. induction fuel as [|fuel IH]; intros n ix r Hr H1 Hn; [split; [done|cbn; lia]|]. cbn [drop_old].
  pose proof Hr as [Hl Hnum]. unfold DFS_MAX_DL_SIZE in Hnum. rewrite u32_small by (red; lia).
  destruct (Z.ltb_spec n (numelems r - 1)) as [Hlt|]; [|split; [done|lia]]. destruct (_ <? _).
  - destruct (IH (n + 1) (Z.land (u32 (ix - 1)) DFS_MAX_DL_MASK)
      (r <| firstelem := Z.land (u32 (Z.land (u32 (ix - 1)) DFS_MAX_DL_MASK + 1)) DFS_MAX_DL_MASK |> <| numelems := n + 1 |>)) as [H2 H3].
    + rsimpl. split; cbn; [done|]. unfold DFS_MAX_DL_SIZE. lia.
    + rsimpl. lia.
    + lia.
    + split; [exact H2|]. etransitivity; [exact H3|]. rsimpl. lia.
  - destruct (IH (n + 1) (Z.land (u32 (ix - 1)) DFS_MAX_DL_MASK) r Hr H1 ltac:(lia)) as [H2 H3]. by split.
Qed.

Lemma dfs_add_pulse_dl_shape len re dT t r :
  dl_shape r → dl_shape (dfs_add_pulse_dl len re dT t r) ∧ numelems (dfs_add_pulse_dl len re dT t r) <= numelems r + 1.
Proof.
  intros Hr. unfold dfs_add_pulse_dl. set (e := mk_delay _ _ _ _). pose proof Hr as [_ Hn].
  assert (H1 : 1 <= numelems (ring_push DFS_MAX_DL_SIZE DFS_MAX_DL_MASK e r)).
  { unfold ring_push. unfold DFS_MAX_DL_SIZE in *. destruct (Z.eqb_spec (numelems r) 64); rsimpl; [lia|]. rewrite u32_small by (red; lia). lia. }
  destruct (drop_old_shape (Z.to_nat DFS_MAX_DL_SIZE) len t 0 (lastelem (ring_push DFS_MAX_DL_SIZE DFS_MAX_DL_MASK e r))
    (ring_push DFS_MAX_DL_SIZE DFS_MAX_DL_MASK e r)) as [H2 H3]; [by apply ring_push_shape|done|lia|].
  split; [exact H2|]. etransitivity; [exact H3|]. by apply ring_push_num.
Qed.

Lemma upd_dl_grown k both seg f rf :
  0 <= k → line_grown k (get_dl both seg rf) (f (get_dl both seg rf)) → filter_grown k rf (upd_dl both seg f rf).
Proof.
  unfold get_dl, upd_dl. intros Hk H. destruct (ext_seg both seg); rsimpl; split_and!; try done; by apply growth_refl.
Qed.

Lemma get_upd_dl both seg f rf : get_dl both seg (upd_dl both seg f rf) = f (get_dl both seg rf).
Proof. unfold get_dl, upd_dl. by destruct (ext_seg both seg). Qed.
Lemma upd_upd_dl both seg f g rf : upd_dl both seg f (upd_dl both seg g rf) = upd_dl both seg (λ x, f (g x)) rf.
Proof. unfold upd_dl. by destruct (ext_seg both seg). Qed.
Lemma static_upd_dl both seg f rf : filter_static (upd_dl both seg f rf) = filter_static rf.
Proof. unfold upd_dl. by destruct (ext_seg both seg). Qed.
Lemma upd_dl_threshold both seg f rf : rf_threshold (upd_dl both seg f rf) = rf_threshold rf.
Proof. unfold upd_dl. by destruct (ext_seg both seg). Qed.
Lemma shape_get_dl both seg rf : filter_shape rf → dl_shape (dl_ring (get_dl both seg rf)).
Proof. intros [? ?]. unfold get_dl. by destruct (ext_seg both seg). Qed.

Lemma upd_ring_shape both seg rf g :
  filter_shape rf → (∀ r, dl_shape r → dl_shape (g r) ∧ numelems (g r) <= numelems r + 1) →
  let rf1 := upd_dl both seg (λ dl, dl <| dl_ring ::= g |>) rf in
  dl_shape (dl_ring (get_dl both seg rf1)) ∧
  numelems (dl_ring (get_dl both seg rf1)) <= numelems (dl_ring (get_dl both seg rf)) + 1.
Proof. intros Hrf Hg. cbn zeta. rewrite get_upd_dl. apply Hg. by apply shape_get_dl. Qed.

(** A pulse is added, a check changes the line, the time stamp is stored. *)
Lemma upd_twice_grown both seg rf g ts dl' :
  filter_shape rf → (∀ r, dl_shape r → dl_shape (g r) ∧ numelems (g r) <= numelems r + 1) →
  let rf1 := upd_dl both seg (λ dl, dl <| dl_ring ::= g |>) rf in
  line_kept (dl_ring (get_dl both seg rf1)) dl' →
  filter_grown 1 rf (upd_dl both seg (λ dl, dl <| dl_last_ts := ts |>) (upd_dl both seg (λ l, l <| dl_ring := dl' |>) rf1)).
Proof.
  intros Hrf Hg. cbn zeta. rewrite !upd_upd_dl, get_upd_dl. intros Hk. apply upd_dl_grown; [lia|].
  destruct (Hg _ (shape_get_dl both seg rf Hrf)) as [Hs Hn].
  change (line_kept (g (dl_ring (get_dl both seg rf))) dl') in Hk.
  pose proof (line_kept_shape _ _ Hs Hk). destruct Hk as (_ & Hk & _). split; cbn; [done|lia].
Qed.

Definition line_of_event (d : ath_dfs) (seg_id : Z) (rf : dfs_filter) : ring dfs_delayelem :=
  dl_ring (get_dl (ic_80p80_both_dfs (ic_curchan d)) seg_id rf).

Lemma filter_step_total d pl re ts seg rf ri :
  filter_shape rf →
  ∃ f rf' ri', filter_step d pl re ts seg rf ri = Some (f, rf', ri') ∧ filter_grown 1 rf rf' ∧ info_core ri' = info_core ri ∧
    (f = true → u32 (rf_threshold rf - 1) <= numelems (line_of_event d seg rf) + 1).
Proof.
  intros Hrf. pose proof (growth_refl (R:=filter_grown) 1 rf ltac:(lia)) as Hrefl. unfold filter_step. set (both := ic_80p80_both_dfs _).
  destruct (_ && _); [|by eexists _, _, _]. cbn zeta. set (deltaT := if _ <? _ then _ else _).
  destruct (_ && _); [by eexists _, _, _|].
  match goal with |- context [if ?b then Some (false, upd_dl _ _ _ _, _) else _] => destruct b end.
  { eexists _, _, _. split; [reflexivity|]. split; [|done]. apply upd_dl_grown; [lia|]. split; cbn; [done|lia]. }
  pose proof (λ r, dfs_add_pulse_dl_shape (rf_filterlen rf) re (u32 deltaT) ts r) as Hshape. unfold dfs_add_pulse.
  set (g := dfs_add_pulse_dl (rf_filterlen rf) re (u32 deltaT) ts) in *. clearbody g deltaT.
  pose proof (λ dl', upd_twice_grown both seg rf g ts dl' Hrf Hshape) as Hg.
  destruct (upd_ring_shape both seg rf g Hrf Hshape) as [Hs1 Hs2].
  pose proof (upd_dl_threshold both seg (λ dl, dl <| dl_ring ::= g |>) rf) as Ht.
  unfold line_of_event. fold both.
  set (rf1 := upd_dl both seg (λ dl, dl <| dl_ring ::= g |>) rf) in *. clearbody rf1.
  destruct (rf_patterntype rf1 =? 2).
  - destruct (dfs_staggered_check_total (ic_curchan d) ri rf1 _ (u32 deltaT) Hs1) as (f & dl' & ri' & -> & H1 & H2 & H3).
    eexists _, _, _. split; [reflexivity|]. split; [by apply Hg|]. split; [done|]. intros E. specialize (H3 E). rewrite Ht in H3. lia.
  - destruct (dfs_bin_check_total (ic_curchan d) ri pl rf1 _ (u32 deltaT) (re_dur re) Hs1) as (f & dl' & ri' & -> & H1 & H2 & H3).
    eexists _, _, _. split; [reflexivity|]. split; [by apply Hg|]. split; [done|]. intros E. specialize (H3 E). rewrite Ht in H3. lia.
Qed.

(** ** The filters of a type *)

(** Too few pulses for the threshold, even with [k] more. *)
Definition filter_quiet (k : Z) (rf : dfs_filter) : Prop :=
  numelems (dl_ring (rf_dl rf)) + k < u32 (rf_threshold rf - 1) ∧
  numelems (dl_ring (rf_dl_ext_seg rf)) + k < u32 (rf_threshold rf - 1).
Definition type_quiet (k : Z) (ft : dfs_filtertype) : Prop := Forall (filter_quiet k) (ft_filters ft).
Definition b5_quiet (k : Z) (br : dfs_bin5radars) : Prop :=
  0 < b5_threshold (br_pulse br) ∧ numelems (br_ring br) + k <= b5_threshold (br_pulse br).

Lemma filter_quiet_grown k m a b : filter_grown k a b → filter_quiet (k + m) a → filter_quiet m b.
Proof.
  intros (Hs & [_ H1] & [_ H2]) [Q1 Q2]. apply (f_equal rf_threshold) in Hs. change (rf_threshold b = rf_threshold a) in Hs.
  unfold filter_quiet. rewrite Hs. lia.
Qed.
Lemma b5_quiet_grown k m a b : b5_grown k a b → b5_quiet (k + m) a → b5_quiet m b.
Proof. intros (Hs & _ & H) [? ?]. unfold b5_quiet. rewrite Hs. lia. Qed.

(** Predicates that survive growth survive it in lists. *)
Lemma Forall_grown {A} (R : relation A) (P Q : A → Prop) l l' :
  (∀ x y, R x y → P x → Q y) → Forall2 R l l' → Forall P l → Forall Q l'.
Proof. intros H. induction 1; inversion 1; subst; constructor; eauto. Qed.

Lemma type_quiet_grown k m a b : type_grown k a b → type_quiet (k + m) a → type_quiet m b.
Proof. intros [_ H]. apply (Forall_grown _ _ _ _ _ (filter_quiet_grown k m) H). Qed.

(** Writing one element that has grown. *)
Lemma grown_zset {A} (R : Z → relation A) `{!Growth R} k l i x y :
  0 <= k → aget l i = Some x → R k x y → Forall2 (R k) l (zset l i y).
Proof.
  intros Hk Hx Hxy. apply aget_Some in Hx as Hi. apply aget_lookup in Hx; [|lia].
  rewrite <- (list_insert_id _ _ _ Hx) at 1. unfold zset. apply Forall2_insert; [|done].
  by apply (growth_refl (R:=λ k, Forall2 (R k))).
Qed.

(** The loop reads every element once, in its initial state. *)
Lemma filters_loop_total d pl re ts seg ps fs ri :
  NoDup ps → Forall (λ p, 0 <= p < Z.of_nat (length fs)) ps → Forall filter_shape fs →
  ∃ f fs' ri', filters_loop ps d pl re ts seg fs ri = Some (f, fs', ri') ∧ Forall2 (filter_grown 1) fs fs' ∧
    info_core ri' = info_core ri ∧ (Forall (filter_quiet 1) fs → f = false).
Proof.
  intros Hnd Hps Hfs.
  assert (H : ∀ fs1 ri1, Forall2 (filter_grown 1) fs fs1 → Forall (λ p, aget fs1 p = aget fs p) ps → info_core ri1 = info_core ri →
    ∃ f fs' ri', filters_loop ps d pl re ts seg fs1 ri1 = Some (f, fs', ri') ∧ Forall2 (filter_grown 1) fs fs' ∧
    info_core ri' = info_core ri ∧ (Forall (filter_quiet 1) fs → f = false)).
  2:{ apply H; [by apply (growth_refl (R:=λ k, Forall2 (filter_grown k)))| |done]. by apply Forall_true. }
  induction Hnd as [|p ps Hp Hnd IH]; intros fs1 ri1 Hg Heq Hri; [by eexists _, _, _|].
  apply Forall_cons in Hps as [Hp1 Hps]. apply Forall_cons in Heq as [Hp2 Heq]. cbn [filters_loop].
  destruct (aget_is_Some fs p Hp1) as [rf Hrf]. rewrite Hp2, Hrf. cbn [mbind option_bind].
  assert (Hsh : filter_shape rf).
  { apply aget_lookup in Hrf; [|lia]. rewrite Forall_lookup in Hfs. by eapply Hfs. }
  destruct (filter_step_total d pl re ts seg rf ri1 Hsh) as (f & rf' & ri' & -> & H1 & H2 & H3). cbn [mbind option_bind].
  rewrite aset_zset by (rewrite <- (Forall2_length _ _ _ Hg); lia). cbn [mbind option_bind].
  assert (Hg1 : Forall2 (filter_grown 1) fs (zset fs1 p rf')).
  { rewrite <- (list_insert_id fs (Z.to_nat p) rf) by (apply aget_lookup in Hrf; [done|lia]). by apply Forall2_insert. }
  destruct f.
  - eexists _, _, _. split; [reflexivity|]. split; [done|]. split; [congruence|]. intros Hq. exfalso.
    apply aget_lookup in Hrf; [|lia]. rewrite Forall_lookup in Hq. destruct (Hq _ _ Hrf) as [Q1 Q2]. specialize (H3 eq_refl).
    unfold line_of_event, get_dl in H3. destruct (ext_seg _ _); lia.
  - apply (IH Hps); [done| |congruence]. rewrite Forall_forall in Heq, Hps |- *. intros q Hq. rewrite <- (Heq q Hq).
    specialize (Hps q Hq). cbn in Hps. assert (q ≠ p) by congruence. unfold aget, zset. destruct (Z.ltb_spec q 0); [lia|].
    apply list_lookup_insert_ne. lia.
Qed.

(** ** The types of a duration *)
Lemma row_distinct row i j t :
  NoDup (filter (λ t, t ≠ -1) row) → row !! i = Some t → row !! j = Some t → t ≠ -1 → i = j.
Proof.
  intros Hnd Hi Hj Ht. revert i j Hnd Hi Hj. induction row as [|x row IH]; intros i j Hnd Hi Hj; [done|].
  assert (Hin : ∀ k, row !! k = Some t → t ∈ filter (λ t, t ≠ -1) row).
  { intros k Hk. apply list_elem_of_filter. split; [done|]. by eapply list_elem_of_lookup_2. }
  destruct (decide (x ≠ -1)) as [Hx|Hx].
  - rewrite filter_cons_True in Hnd by done. apply NoDup_cons in Hnd as [Hn Hnd].
    destruct i as [|i], j as [|j]; cbn in Hi, Hj; simplify_eq; [done|by destruct Hn; eapply Hin..|f_equal; by eapply IH].
  - rewrite filter_cons_False in Hnd by done.
    destruct i as [|i], j as [|j]; cbn in Hi, Hj; simplify_eq; [done|by destruct Hx..|f_equal; by eapply IH].
Qed.

(** The device after the loop over the types: only filters and cached fields differ. *)
Abbreviation with_types d fts ri := (d <| dfs_radarf := fts |> <| dfs_rinfo := ri |>).

Lemma types_loop_total d re ts seg row :
  length (dfs_radarf d) = 32%nat → Forall type_ok (dfs_radarf d) → dur_row_ok row →
  (pulses_ext_seg d = None → ic_80p80_both_dfs (ic_curchan d) = false) →
  ∃ f fts ri, types_loop (Z.to_nat DFS_MAX_RADAR_OVERLAP + 1) row 0 d re ts seg = Some (f, with_types d fts ri) ∧
    Forall2 (type_grown 1) (dfs_radarf d) fts ∧ info_core ri = info_core (dfs_rinfo d) ∧
    (Forall (type_quiet 1) (dfs_radarf d) → f = false).
Proof.
  intros Hl Hok (Hrow & Hvals & Hnd) Hpl.
  assert (H : ∀ fuel depth fts1 ri1, 0 <= depth → Forall2 (type_grown 1) (dfs_radarf d) fts1 →
    (∀ j t, depth <= j → aget row j = Some t → t ≠ -1 → aget fts1 t = aget (dfs_radarf d) t) →
    info_core ri1 = info_core (dfs_rinfo d) →
    ∃ f fts ri, types_loop fuel row depth (with_types d fts1 ri1) re ts seg = Some (f, with_types d fts ri) ∧
      Forall2 (type_grown 1) (dfs_radarf d) fts ∧ info_core ri = info_core (dfs_rinfo d) ∧
      (Forall (type_quiet 1) (dfs_radarf d) → f = false)).
  2:{ specialize (H (Z.to_nat DFS_MAX_RADAR_OVERLAP + 1)%nat 0 (dfs_radarf d) (dfs_rinfo d)).
      replace (with_types d (dfs_radarf d) (dfs_rinfo d)) with d in H by by destruct d.
      apply H; [done|by apply (growth_refl (R:=λ k, Forall2 (type_grown k)))|done|done]. }
  induction fuel as [|fuel IH]; intros depth fts1 ri1 Hd Hg Heq Hri; cbn [types_loop]; [by eexists _, _, _|].
  destruct (Z.ltb_spec depth DFS_MAX_RADAR_OVERLAP) as [Hlt|]; cbn [negb]; [|by eexists _, _, _].
  unfold DFS_MAX_RADAR_OVERLAP in Hlt.
  destruct (aget_is_Some row depth) as [t Ht]; [lia|]. rewrite Ht. cbn [mbind option_bind].
  destruct (Z.eqb_spec t (-1)) as [|Hne]; [by eexists _, _, _|].
  assert (Hrange : 0 <= t < 32).
  { apply aget_lookup in Ht; [|lia]. rewrite Forall_lookup in Hvals. specialize (Hvals _ _ Ht). cbn in Hvals. lia. }
  destruct (aget_is_Some (dfs_radarf d) t) as [ft Hft]; [lia|].
  change (dfs_radarf (with_types d fts1 ri1)) with fts1. rewrite (Heq depth t) by (done || lia). rewrite Hft. cbn [mbind option_bind].
  assert (Hnext : ∀ fts ri f0, Forall2 (type_grown 1) (dfs_radarf d) fts → info_core ri = info_core (dfs_rinfo d) →
     (∀ q, q ≠ t → 0 <= q → aget fts q = aget fts1 q) → f0 = false →
     ∃ f fts' ri', (if f0 then Some (true, with_types d fts ri) else types_loop fuel row (depth + 1) (with_types d fts ri) re ts seg)
        = Some (f, with_types d fts' ri') ∧
      Forall2 (type_grown 1) (dfs_radarf d) fts' ∧ info_core ri' = info_core (dfs_rinfo d) ∧
      (Forall (type_quiet 1) (dfs_radarf d) → f = false)).
  { intros fts ri f0 H1 H2 H3 ->. apply IH; [lia|done| |done]. intros j q Hj Hq Hqn. apply aget_Some in Hq as Hjr.
    apply aget_lookup in Hq as Hq'; [|lia]. apply aget_lookup in Ht as Ht'; [|lia].
    assert (0 <= q) by (rewrite Forall_lookup in Hvals; specialize (Hvals _ _ Hq'); cbn in Hvals; lia).
    rewrite H3; [apply (Heq j); [lia|done..]| |done]. intros ->.
    pose proof (row_distinct _ _ _ _ Hnd Hq' Ht' Hne). lia. }
  destruct (_ && _); [by apply (Hnext fts1 ri1 false)|].
  cbn zeta. destruct (_ && _); [by apply (Hnext fts1 ri1 false)|].
  change (ic_curchan (with_types d fts1 ri1)) with (ic_curchan d).
  change (pulses_ext_seg (with_types d fts1 ri1)) with (pulses_ext_seg d). change (pulses (with_types d fts1 ri1)) with (pulses d).
  assert (Hplx : ∃ pl, (if ext_seg (ic_80p80_both_dfs (ic_curchan d)) seg then pulses_ext_seg d else Some (pulses d)) = Some pl).
  { destruct (pulses_ext_seg d) as [pl|]; [destruct (ext_seg _ _); eauto|]. rewrite Hpl by done. cbn. eauto. }
  destruct Hplx as [pl ->]. cbn [mbind option_bind].
  apply aget_lookup in Hft as Hft'; [|lia]. rewrite Forall_lookup in Hok. destruct (Hok _ _ Hft') as (Hfl & Hfn & Hfs).
  destruct (filters_loop_total (with_types d fts1 ri1) pl re ts seg (seqZ 0 (ft_numfilters ft)) (ft_filters ft) ri1)
    as (f & fs' & ri' & E & H1 & H2 & H3); [apply NoDup_seqZ| |done|].
  { apply Forall_forall. intros p Hp%elem_of_seqZ. lia. }
  change (dfs_rinfo (with_types d fts1 ri1)) with ri1. rewrite E. cbn [mbind option_bind]. clear E.
  rewrite aset_zset by (rewrite <- (Forall2_length _ _ _ Hg); lia). cbn [mbind option_bind]. rsimpl.
  set (ft' := mk_ft fs' _ _ _ _ _ _ _ _ _ _).
  assert (Hft'g : type_grown 1 ft ft') by (split; [by destruct ft|done]).
  assert (Hg1 : Forall2 (type_grown 1) (dfs_radarf d) (zset fts1 t ft')).
  { rewrite <- (list_insert_id _ _ _ Hft'). by apply Forall2_insert. }
  destruct f; [|].
  - eexists _, _, _. split; [reflexivity|]. split; [done|]. split; [congruence|]. intros Hq. apply H3.
    rewrite Forall_lookup in Hq. exact (Hq _ _ Hft').
  - apply (Hnext (zset fts1 t ft') ri' false); [done|congruence| |done]. intros q Hq Hq0. unfold aget, zset.
    destruct (Z.ltb_spec q 0); [done|]. apply list_lookup_insert_ne. lia.
Qed.
