(* ===== verification/DfsQuiet.v ===== *)
(** Radar events: the chirp detectors, one event, the queue and the task. *)
From S2P Require Import Prelude Arrays DfsTypes DfsLine DfsBin DfsCheck DfsEvent DfsSafe.

(** ** The chirp detectors *)
Lemma bin5_drop_old_shape fuel tw t r :
  b5_shape r → 0 < numelems r → b5_shape (bin5_drop_old fuel tw t r) ∧ numelems (bin5_drop_old fuel tw t r) <= numelems r.
Proof.
  revert r. induction fuel as [|fuel IH]; intros r Hr H0; [split; [done|cbn; lia]|]. cbn [bin5_drop_old].
  pose proof Hr as [Hl Hn]. unfold DFS_MAX_B5_SIZE in Hn. rewrite u32_small by (red; lia).
  destruct (Z.ltb_spec 0 (numelems r - 1)); [|split; [done|lia]]. destruct (_ <? _); [|split; [done|lia]].
  set (r1 := r <| numelems ::= _ |> <| firstelem ::= _ |>).
  assert (H1 : numelems r1 = numelems r - 1) by (unfold r1; rsimpl; apply u32_small; red; lia).
  assert (Hs1 : b5_shape r1).
  { split; [exact Hl|]. rewrite H1. unfold DFS_MAX_B5_SIZE. lia. }
  destruct (IH r1 Hs1 ltac:(lia)) as [H2 H3]. split; [done|lia].
Qed.

Lemma dfs_bin5_addpulse_grown br re t : b5_shape (br_ring br) → b5_grown 1 br (dfs_bin5_addpulse br re t).1.
Proof.
  intros Hr. unfold dfs_bin5_addpulse, bin5_add_ring. destruct (_ && _).
  - destruct br as [r p]. by apply (growth_refl (R:=b5_grown)).
  - set (e := mk_b5elem _ _ _). set (r1 := ring_push _ _ _ _).
    assert (H1 : b5_shape r1) by by apply ring_push_shape.
    assert (H2 : numelems r1 <= numelems (br_ring br) + 1) by (apply ring_push_num; apply Hr).
    assert (H3 : 0 < numelems r1).
    { destruct Hr as [_ Hn]. unfold r1, ring_push, DFS_MAX_B5_SIZE in *. destruct (Z.eqb_spec (numelems (br_ring br)) 128); rsimpl; [lia|].
      rewrite u32_small by (red; lia). lia. }
    destruct (bin5_drop_old_shape (Z.to_nat DFS_MAX_B5_SIZE) (b5_timewindow (br_pulse br)) t r1 H1 H3) as [H4 H5].
    split_and!; [done|done|]. change (numelems (bin5_drop_old (Z.to_nat DFS_MAX_B5_SIZE) (b5_timewindow (br_pulse br)) t r1) <= numelems (br_ring br) + 1). lia.
Qed.

(** The detectors of a segment, as the loop finds and leaves them. *)
Abbreviation with_b5 d seg b5 ri := (set_b5 (d <| dfs_rinfo := ri |>) seg b5).

(** The durations that the chirp detectors remember, and the number of detectors. *)
Definition info_ok (n : Z) (ri : dfs_info) : Prop :=
  rn_numbin5radars ri = n ∧ 0 <= dfs_last_bin5_dur ri < 256 ∧ 0 <= dfs_last_bin5_dur_ext_seg ri < 256.

(** With at most one detector: the segment's list is empty or a single one. *)
Lemma bin5_loop_total d re ts diff seg b5 n :
  info_ok n (dfs_rinfo d) → 0 <= n <= 1 → b5_of d seg = Some b5 → b5_list_ok n b5 →
  (seg ≠ 0 → ic_80p80_both_dfs (ic_curchan d) = true) →
  0 <= re_dur re < 256 →
  ∃ f b5' ri dur, bin5_loop (seqZ 0 n) d re ts diff seg = Some (f, with_b5 d seg b5' ri, re <| re_dur := dur |>) ∧
    Forall2 (b5_grown 1) b5 b5' ∧ info_ok n ri ∧ 0 <= dur < 256 ∧ (Forall (b5_quiet 1) b5 → f = false).
Proof.
  intros Hri Hn Hb5 Hok Hseg Hdur.
  assert (Hself : with_b5 d seg b5 (dfs_rinfo d) = d).
  { unfold set_b5, b5_of in *. destruct d; rsimpl. destruct (seg =? 0); cbn in *; by rewrite Hb5. }
  assert (Hstay : ∃ f b5' ri dur, Some (false, d, re) = Some (f, with_b5 d seg b5' ri, re <| re_dur := dur |>) ∧
    Forall2 (b5_grown 1) b5 b5' ∧ info_ok n ri ∧ 0 <= dur < 256 ∧ (Forall (b5_quiet 1) b5 → f = false)).
  { exists false, b5, (dfs_rinfo d), (re_dur re). rewrite Hself. split; [by destruct re|].
    split; [by apply (growth_refl (R:=λ k, Forall2 (b5_grown k)))|done]. }
  destruct (decide (n = 0)) as [->|Hn0]; [exact Hstay|]. assert (n = 1) as -> by lia.
  change (seqZ 0 1) with [0]. cbn [bin5_loop]. rewrite Hb5. cbn [mbind option_bind].
  destruct Hok as [Hlen Hsh]. destruct b5 as [|br [|? ?]]; [done| |cbn in Hlen; lia]. apply Forall_cons in Hsh as [Hsh _].
  cbn [aget mbind option_bind]. change (aget [br] 0) with (Some br). cbn [mbind option_bind].
  destruct (dfs_bin5_check_pulse _ _ _); [|exact Hstay].
  set (dur := dfs_retain_bin5_burst_pattern _ _ _ _ _).
  assert (Hdur' : 0 <= dur < 256).
  { destruct Hri as (_ & H1 & H2). unfold dur, dfs_retain_bin5_burst_pattern. repeat split_if; lia. }
  set (re1 := re <| re_dur := dur |>). set (ri1 := set_last_bin5_dur seg dur (dfs_rinfo d)).
  assert (Hri1 : info_ok 1 ri1).
  { destruct Hri as (H0 & H1 & H2). unfold ri1, set_last_bin5_dur. destruct (seg =? 0); rsimpl; unfold info_ok; cbn; auto. }
  pose proof (dfs_bin5_addpulse_grown br re1 ts Hsh) as Hg. destruct (dfs_bin5_addpulse br re1 ts) as [br' added] eqn:Eadd. cbn [fst] in Hg.
  change (aset [br] 0 br') with (Some [br']). cbn [mbind option_bind].
  assert (Hg2 : Forall2 (b5_grown 1) [br] [br']) by (constructor; [exact Hg|constructor]).
  change (d <| dfs_rinfo ::= set_last_bin5_dur seg dur |>) with (d <| dfs_rinfo := ri1 |>).
  assert (Hend : ∀ f : bool, (Forall (b5_quiet 1) [br] → f = false) →
    ∃ f0 b5' ri dur0, Some (f, with_b5 d seg [br'] ri1, re1) = Some (f0, with_b5 d seg b5' ri, re <| re_dur := dur0 |>) ∧
    Forall2 (b5_grown 1) [br] b5' ∧ info_ok 1 ri ∧ 0 <= dur0 < 256 ∧ (Forall (b5_quiet 1) [br] → f0 = false)).
  { intros f Hf. by exists f, [br'], ri1, dur. }
  destruct added; [|by apply Hend].
  assert (Hchk : b5_checked (with_b5 d seg [br'] ri1) seg = Some [br']).
  { unfold b5_checked, set_b5, ext_seg. destruct (Z.eqb_spec seg 0) as [Hs|Hs].
    - rewrite andb_false_r. change (rn_numbin5radars (dfs_rinfo _)) with (rn_numbin5radars ri1). cbn [mbind option_bind].
      rsimpl. by rewrite (proj1 Hri1).
    - specialize (Hseg Hs). rsimpl. rewrite Hseg. cbn. by rewrite (proj1 Hri1). }
  rewrite Hchk. cbn [mbind option_bind].
  destruct (dfs_bin5_check_total [br']) as (f & -> & Hf); [done|by repeat constructor; apply Hg|]. cbn [mbind option_bind].
  assert (Hq : Forall (b5_quiet 1) [br] → f = false).
  { intros [Hq _]%Forall_cons. destruct f; [|done]. destruct (Hf eq_refl) as (x & ->%list_elem_of_singleton & Hx).
    pose proof (b5_quiet_grown 1 0 _ _ Hg Hq) as [Q1 Q2]. lia. }
  destruct f; by apply Hend.
Qed.

(** ** What an event leaves behind *)

(** The fields that events do not change. *)
Definition dfs_static (d : ath_dfs) : ath_dfs :=
  d <| dfs_eventq := [] |> <| dfs_radarq := [] |> <| dfs_radarf := [] |> <| dfs_rinfo := mk_dinfo 0 0 0 0 0 0 0 0 0 0 0 0 |>
    <| dfs_b5radars := None |> <| dfs_b5radars_ext_seg := None |> <| pulses := mk_ring [] 0 0 0 |> <| pulses_ext_seg := None |>
    <| test_ts := 0 |> <| test_ts_ext_seg := 0 |>.

Definition pl_kept (_ : Z) (a b : dfs_pulseline) : Prop := pl_shape a → pl_shape b.
#[export] Instance pl_growth : Growth pl_kept.
Proof. split; unfold pl_kept; auto. Qed.

Abbreviation b5s_grown k := (option_Forall2 (Forall2 (b5_grown k))).

(** Every line gains at most [k] pulses, and no event object is lost. *)
Record event_grown (k : Z) (d d' : ath_dfs) : Prop := {
  eg_static : dfs_static d' = dfs_static d;
  eg_types : Forall2 (type_grown k) (dfs_radarf d) (dfs_radarf d');
  eg_b5 : b5s_grown k (dfs_b5radars d) (dfs_b5radars d');
  eg_b5_ext : b5s_grown k (dfs_b5radars_ext_seg d) (dfs_b5radars_ext_seg d');
  eg_info : ∀ n, info_ok n (dfs_rinfo d) → info_ok n (dfs_rinfo d');
  eg_pulses : pl_kept k (pulses d) (pulses d');
  eg_pulses_ext : option_Forall2 (pl_kept k) (pulses_ext_seg d) (pulses_ext_seg d');
  eg_events : (length (dfs_eventq d') + length (dfs_radarq d') = length (dfs_eventq d) + length (dfs_radarq d))%nat;
  eg_queue : dfs_radarq d' = dfs_radarq d ∨ dfs_radarq d' = [];
}.

Abbreviation types_refl := (growth_refl (R:=λ k, Forall2 (type_grown k))).
Abbreviation b5s_refl := (growth_refl (R:=λ k, b5s_grown k)).
Abbreviation pl_refl := (growth_refl (R:=λ k, option_Forall2 (pl_kept k))).

#[export] Instance event_growth : Growth event_grown.
Proof.
  split.
  - intros k d Hk. split; [done|by apply types_refl|by apply b5s_refl..|done|by apply (growth_refl (R:=pl_kept))|by apply pl_refl|done|by left].
  - intros k m x y z [] []. split; [congruence|..|lia|intuition congruence].
    + by eapply (growth_trans (R:=λ k, Forall2 (type_grown k))).
    + by eapply (growth_trans (R:=λ k, b5s_grown k)).
    + by eapply (growth_trans (R:=λ k, b5s_grown k)).
    + auto.
    + by eapply (growth_trans (R:=pl_kept)).
    + by eapply (growth_trans (R:=λ k, option_Forall2 (pl_kept k))).
Qed.

Record dfs_quiet (k : Z) (d : ath_dfs) : Prop := {
  q_types : Forall (type_quiet k) (dfs_radarf d);
  q_b5 : ∀ l, dfs_b5radars d = Some l → Forall (b5_quiet k) l;
  q_b5_ext : ∀ l, dfs_b5radars_ext_seg d = Some l → Forall (b5_quiet k) l;
}.

Lemma dfs_quiet_grown k m d d' : event_grown k d d' → dfs_quiet (k + m) d → dfs_quiet m d'.
Proof.
  intros [_ Ht Hb He _ _ _ _ _] [Qt Qb Qe].
  assert (H : ∀ o o', b5s_grown k o o' → (∀ l, o = Some l → Forall (b5_quiet (k + m)) l) → ∀ l, o' = Some l → Forall (b5_quiet m) l).
  { intros o o' [x y Hxy|] Hq l [= <-]. apply (Forall_grown _ _ _ _ _ (b5_quiet_grown k m) Hxy). by apply Hq. }
  split; [apply (Forall_grown _ _ _ _ _ (type_quiet_grown k m) Ht Qt)|by eapply H..].
Qed.

Lemma b5_list_grown k n a b : Forall2 (b5_grown k) a b → b5_list_ok n a → b5_list_ok n b.
Proof.
  intros H [H1 H2]. split; [by rewrite <- (Forall2_length _ _ _ H)|]. refine (Forall_grown _ _ _ _ _ _ H H2).
  intros x y (_ & Hs & _). exact Hs.
Qed.

Lemma dfs_ok_info d : dfs_ok d → info_ok (rn_numbin5radars (dfs_rinfo d)) (dfs_rinfo d).
Proof. intros []. unfold info_ok. auto. Qed.

Lemma dfs_ok_grown k d d' : event_grown k d d' → dfs_ok d → dfs_ok d'.
Proof.
  intros [Hs Ht Hb He Hi Hp Hpe _ Hq] Hok. specialize (Hi _ (dfs_ok_info d Hok)). destruct Hi as (Hn & Hd1 & Hd2). pose proof Hok as [].
  assert (Hc : ic_curchan d' = ic_curchan d) by exact (f_equal ic_curchan Hs).
  assert (Hr : dfs_radar d' = dfs_radar d) by exact (f_equal dfs_radar Hs).
  assert (Htab : dfs_radartable d' = dfs_radartable d) by exact (f_equal dfs_radartable Hs).
  split; rewrite ?Hc, ?Hr, ?Htab, ?Hn; try done.
  - by rewrite <- (Forall2_length _ _ _ Ht).
  - refine (Forall_grown _ _ _ _ _ (type_grown_ok k) Ht ok_types).
  - by apply Hp.
  - destruct Hpe as [x y Hxy|]; [|done]. by apply Hxy.
  - destruct Hb as [x y Hxy|]; [|done]. by eapply b5_list_grown.
  - destruct He as [x y Hxy|]; [|done]. by eapply b5_list_grown.
  - destruct Hq as [->| ->]; [done|constructor].
Qed.

(** ** Resets *)
Lemma update_first_spec {A} n (f : A → A) l :
  0 <= n <= Z.of_nat (length l) → update_first n f l = Some (map f (take (Z.to_nat n) l) ++ drop (Z.to_nat n) l).
Proof.
  intros Hn. unfold update_first.
  pose proof (for_opt_map (λ l i, x ← aget l i; aset l i (f x)) f [] (take (Z.to_nat n) l) (drop (Z.to_nat n) l)) as H.
  rewrite length_take, app_nil_l, take_drop in H. cbn [length app] in H.
  replace (Z.of_nat (Z.to_nat n `min` length l)) with n in H by lia. apply H.
  intros pre e suf. rewrite aget_mid. cbn [mbind option_bind]. apply aset_mid.
Qed.

Lemma update_first_grown {A} (R : Z → relation A) `{!Growth R} (P : A → Prop) n f l :
  0 <= n <= Z.of_nat (length l) → Forall P l → (∀ x, P x → R 0 x (f x)) →
  ∃ l', update_first n f l = Some l' ∧ Forall2 (R 0) l l'.
Proof.
  intros Hn Hl Hf. rewrite update_first_spec by done. eexists. split; [reflexivity|].
  rewrite <- (take_drop (Z.to_nat n) l) at 1. rewrite <- (take_drop (Z.to_nat n) l) in Hl. apply Forall_app in Hl as [Hl _].
  apply Forall2_app; [|by apply (growth_refl (R:=λ k, Forall2 (R k)))].
  induction Hl; constructor; [by apply Hf|done].
Qed.

Lemma reset_filter_grown ext rf : filter_shape rf → filter_grown 0 rf (reset_filter ext rf).
Proof.
  intros [H1 H2].
  assert (H : ∀ dl, dl_shape (dl_ring dl) → line_grown 0 dl (zero_dl dl)).
  { intros [r t] [Hl Hn]. unfold DFS_MAX_DL_SIZE in *. unfold line_grown, zero_dl, ring_reset, ring_shape, DFS_MAX_DL_SIZE in *. cbn in *.
    rewrite length_map. lia. }
  unfold reset_filter. destruct ext; rsimpl; split_and!; try done; try (by apply growth_refl); by apply H.
Qed.

Lemma reset_filtertype_grown ext ft : type_ok ft → ∃ ft', reset_filtertype ext ft = Some ft' ∧ type_grown 0 ft ft'.
Proof.
  intros (Hl & Hn & Hf). unfold reset_filtertype.
  destruct (update_first_grown filter_grown filter_shape (ft_numfilters ft) (reset_filter ext) (ft_filters ft)) as (fs & -> & H);
    [lia|done|apply reset_filter_grown|]. cbn. eexists. split; [reflexivity|]. split; [done|exact H].
Qed.

Lemma reset_types_grown ext l : Forall type_ok l → ∃ l', mapM (reset_filtertype ext) l = Some l' ∧ Forall2 (type_grown 0) l l'.
Proof.
  induction 1 as [|ft l Hft Hl IH]; [by exists []; split; [|constructor]|]. destruct IH as (l' & E & H).
  destruct (reset_filtertype_grown ext ft Hft) as (ft' & E1 & H1). exists (ft' :: l').
  split; [apply mapM_Some; constructor; [exact E1|by apply mapM_Some]|by constructor].
Qed.

Lemma reset_b5_grown br : b5_shape (br_ring br) → b5_grown 0 br (reset_b5 br).
Proof.
  intros [Hl Hn]. unfold b5_grown, reset_b5, ring_reset, ring_shape, DFS_MAX_B5_SIZE in *. rsimpl. rewrite length_map. split_and!; [done|lia..].
Qed.

Lemma reset_pulseline_kept k pl : pl_kept k pl (reset_pulseline pl).
Proof. intros [Hl Hn]. unfold reset_pulseline, ring_shape, DFS_MAX_PULSE_BUFFER_SIZE in *. rsimpl. lia. Qed.

Lemma dfs_reset_alldelaylines_total d seg :
  dfs_ok d → ∃ d', dfs_reset_alldelaylines d seg = Some d' ∧ event_grown 0 d d'.
Proof.
  intros Hok. pose proof Hok as []. pose proof (growth_refl (R:=event_grown) 0 d ltac:(lia)) as Hrefl.
  assert (Hb : ∀ l, b5_list_ok (rn_numbin5radars (dfs_rinfo d)) l →
     ∃ l', update_first (rn_numbin5radars (dfs_rinfo d)) reset_b5 l = Some l' ∧ Forall2 (b5_grown 0) l l').
  { intros l [H1 H2]. apply (update_first_grown b5_grown (λ br, b5_shape (br_ring br))); [lia|done|apply reset_b5_grown]. }
  unfold dfs_reset_alldelaylines. destruct (ext_board d seg).
  - destruct (pulses_ext_seg d) as [pl|] eqn:Epl; [|by exists d]. destruct (dfs_b5radars_ext_seg d) as [b5|] eqn:Eb5; [|by exists d].
    change (dfs_radarf (d <| pulses_ext_seg := Some (reset_pulseline pl) |>)) with (dfs_radarf d).
    destruct (reset_types_grown true (dfs_radarf d) ok_types) as (fts & -> & Ht). cbn [mbind option_bind].
    change (rn_numbin5radars (dfs_rinfo (d <| pulses_ext_seg := Some (reset_pulseline pl) |>))) with (rn_numbin5radars (dfs_rinfo d)).
    destruct (Hb b5 ok_b5_ext) as (b5' & -> & H5). cbn [mbind option_bind]. eexists. split; [reflexivity|].
    destruct Hrefl. split; try done; cbn; rewrite ?Epl, ?Eb5; constructor; [exact H5|apply reset_pulseline_kept].
  - destruct (dfs_b5radars d) as [b5|] eqn:Eb5; [|by exists d].
    change (dfs_radarf (d <| pulses := reset_pulseline (pulses d) |>)) with (dfs_radarf d).
    destruct (reset_types_grown false (dfs_radarf d) ok_types) as (fts & -> & Ht). cbn [mbind option_bind].
    change (rn_numbin5radars (dfs_rinfo (d <| pulses := reset_pulseline (pulses d) |>))) with (rn_numbin5radars (dfs_rinfo d)).
    destruct (Hb b5 ok_b5) as (b5' & -> & H5). cbn [mbind option_bind]. eexists. split; [reflexivity|].
    destruct Hrefl. split; try done; cbn; rewrite ?Eb5; [by constructor|apply reset_pulseline_kept].
Qed.

Lemma dfs_reset_radarq_grown d : event_grown 0 d (dfs_reset_radarq d).
Proof.
  pose proof (growth_refl (R:=event_grown) 0 d ltac:(lia)) as []. split; try done; [|by right].
  unfold dfs_reset_radarq. rsimpl. rewrite length_app, length_map. lia.
Qed.

(** ** One event *)

(** The segment that the events of this channel can have. *)
Definition seg_ok (d : ath_dfs) (seg : Z) : Prop := seg ≠ 0 → ic_80p80_both_dfs (ic_curchan d) = true.

Lemma event_seg_ok d re : seg_ok d (event_seg d re).
Proof. unfold seg_ok, event_seg, DFS_80P80_SEG0. by destruct (ic_80p80_both_dfs _). Qed.

Lemma grown_curchan k d d' : event_grown k d d' → ic_curchan d' = ic_curchan d.
Proof. intros []. exact (f_equal ic_curchan eg_static0). Qed.

Lemma event_time_info n ri re : info_ok n ri → info_ok n (event_time ri re).2.
Proof. unfold event_time, update_prefix, info_ok. intros H. cbn. repeat split_if; exact H. Qed.

Lemma process_pulse_dur_range d dur : 0 <= dur < 256 → 0 <= dfs_process_pulse_dur d dur < 256.
Proof.
  intros. unfold dfs_process_pulse_dur. split_if; [lia|]. split_if; [done|]. apply u8_range.
Qed.

Lemma record_event_total d re seg :
  dfs_ok d → seg_ok d seg → event_ok re →
  ∃ ts diff dur d', record_event d re seg = Some (ts, diff, re <| re_dur := dur |>, d') ∧ event_grown 0 d d' ∧ 0 <= dur < 256.
Proof.
  intros Hok Hseg [Hdur _]. unfold record_event. pose proof (event_time_info (rn_numbin5radars (dfs_rinfo d)) (dfs_rinfo d) re) as Hinfo.
  assert (Hinfo' : ∀ n, info_ok n (dfs_rinfo d) → info_ok n (event_time (dfs_rinfo d) re).2) by (intros n; apply event_time_info).
  destruct (event_time (dfs_rinfo d) re) as [ts ri]. cbn [snd] in *. cbn zeta.
  assert (Hpl : ∃ pl, pl_of (d <| dfs_rinfo := ri |>) seg = Some pl ∧ pl_of d seg = Some pl).
  { unfold pl_of. destruct (Z.eqb_spec seg 0); [eauto|]. specialize (Hseg n). destruct Hok.
    change (pulses_ext_seg (d <| dfs_rinfo := ri |>)) with (pulses_ext_seg d).
    destruct (pulses_ext_seg d); [eauto|congruence]. }
  destruct Hpl as (pl & -> & Hpl). cbn [mbind option_bind]. set (dur := dfs_process_pulse_dur _ _).
  assert (Hd : 0 <= dur < 256) by by apply process_pulse_dur_range. clearbody dur.
  match goal with |- context [mk_pulse ?t ?x ?r] => generalize t (mk_pulse t x r); intros ts1 p end.
  assert (Hk : pl_kept 0 pl (ring_push DFS_MAX_PULSE_BUFFER_SIZE DFS_MAX_PULSE_BUFFER_MASK p pl)) by (intros ?; by apply ring_push_shape).
  set (pl' := ring_push _ _ _ _) in *. clearbody pl'.
  pose proof (growth_refl (R:=event_grown) 0 d ltac:(lia)) as [].
  unfold update_test_ts, set_pl, pl_of in *. destruct (seg =? 0).
  - injection Hpl as <-. eexists _, _, dur, _. split; [reflexivity|]. split; [|done]. by split.
  - eexists _, _, dur, _. split; [reflexivity|]. split; [|done]. split; try done. cbn. rewrite Hpl. by constructor.
Qed.

Lemma bin5_stage d re ts diff seg :
  dfs_ok d → seg_ok d seg → 0 <= re_dur re < 256 →
  ∃ f d' re', bin5_loop (seqZ 0 (rn_numbin5radars (dfs_rinfo d))) d re ts diff seg = Some (f, d', re') ∧
    event_grown 1 d d' ∧ dfs_radarf d' = dfs_radarf d ∧ 0 <= re_dur re' < 256 ∧ (dfs_quiet 1 d → f = false).
Proof.
  intros Hok Hseg Hdur. pose proof Hok as []. pose proof (growth_refl (R:=event_grown) 1 d ltac:(lia)) as Hrefl.
  destruct (decide (rn_numbin5radars (dfs_rinfo d) = 0)) as [->|Hn]; [by eexists _, _, _|].
  assert (Hb : ∃ b5, b5_of d seg = Some b5 ∧ b5_list_ok (rn_numbin5radars (dfs_rinfo d)) b5).
  { unfold b5_of. destruct (Z.eqb_spec seg 0) as [|Hs]; [destruct (dfs_b5radars d); [eauto|done]|].
    specialize (Hseg Hs). destruct (dfs_b5radars_ext_seg d); [eauto|]. by specialize (ok_b5_ext Hseg). }
  destruct Hb as (b5 & Hb & Hbok).
  destruct (bin5_loop_total d re ts diff seg b5 _ (dfs_ok_info d Hok) ok_b5_num Hb Hbok Hseg Hdur)
    as (f & b5' & ri & dur & -> & Hg & Hri & Hdur' & Hq).
  eexists _, _, _. split; [reflexivity|].
  assert (Hinfo : ∀ n, info_ok n (dfs_rinfo d) → info_ok n ri) by (intros n [<- _]; exact Hri).
  clear Hok Hbok ok_b5 ok_b5_ext. destruct Hrefl. unfold b5_of, set_b5 in *. destruct (seg =? 0).
  - split; [|split_and!; [done|apply Hdur'..|]]; [|intros []; eauto]. split; try done. cbn. rewrite Hb. by constructor.
  - split; [|split_and!; [done|apply Hdur'..|]]; [|intros []; eauto]. split; try done. cbn. rewrite Hb. by constructor.
Qed.

Lemma fix_duration_range c d re diff : 0 <= re_dur re < 256 → 0 <= re_dur (fix_duration c d re diff) < 256.
Proof.
  intros H. unfold fix_duration.
  assert (H1 : ∀ b : bool, 0 <= re_dur (if b then re <| re_dur := 12 |> else re) < 256) by (intros []; [cbn; lia|done]).
  match goal with |- context [if ?b then re <| re_dur := 12 |> else re] => specialize (H1 b); generalize dependent (if b then re <| re_dur := 12 |> else re) end.
  intros re1 H1. split_if; [cbn; lia|exact H1].
Qed.

Lemma info_core_ok n ri ri' : info_core ri' = info_core ri → info_ok n ri → info_ok n ri'.
Proof.
  intros H (H1 & H2 & H3). unfold info_ok.
  pose proof (f_equal rn_numbin5radars H) as E1. pose proof (f_equal dfs_last_bin5_dur H) as E2.
  pose proof (f_equal dfs_last_bin5_dur_ext_seg H) as E3. cbn in E1, E2, E3. split_and!; congruence || lia.
Qed.

Lemma match_event_total c d re ts diff seg :
  dfs_ok d → seg_ok d seg → 0 <= re_dur re < 256 →
  ∃ f d', match_event c d re ts diff seg = Some (f, d') ∧ event_grown 1 d d' ∧ (dfs_quiet 1 d → f = false).
Proof.
  intros Hok Hseg Hdur. pose proof (growth_refl (R:=event_grown) 1 d ltac:(lia)) as Hrefl. unfold match_event.
  destruct (reject_signature d re diff); [by eexists _, _|]. cbn zeta.
  assert (H1 : ∃ f d' re', (if region_in d [DFS_FCC_DOMAIN; DFS_MKK_DOMAIN]
       then bin5_loop (seqZ 0 (rn_numbin5radars (dfs_rinfo d))) d (fix_duration c d re diff) ts diff seg
       else Some (false, d, fix_duration c d re diff)) = Some (f, d', re') ∧
    event_grown 1 d d' ∧ dfs_radarf d' = dfs_radarf d ∧ 0 <= re_dur re' < 256 ∧ (dfs_quiet 1 d → f = false)).
  { pose proof (fix_duration_range c d re diff Hdur) as Hf. destruct (region_in _ _); [by apply bin5_stage|by eexists _, _, _]. }
  destruct H1 as (f & d1 & re1 & -> & Hg & Hf & Hd1 & Hq). cbn [mbind option_bind].
  destruct f; [by eexists _, _|].
  pose proof (dfs_ok_grown _ _ _ Hg Hok) as Hok1. pose proof Hok1 as [].
  destruct (aget_is_Some (dfs_radartable d1) (re_dur re1)) as [row Hrow]; [lia|]. rewrite Hrow. cbn [mbind option_bind].
  apply aget_lookup in Hrow; [|lia]. rewrite Forall_lookup in ok_rows. specialize (ok_rows _ _ Hrow).
  destruct (types_loop_total d1 re1 ts seg row ok_radarf ok_types ok_rows) as (f & fts & ri & -> & Ht & Hri & Hqt).
  { intros E. by rewrite E in ok_pulses_ext. }
  eexists _, _. split; [reflexivity|]. rewrite Hf in Ht, Hqt. split; [|intros []; auto].
  clear -Hg Ht Hri. destruct Hg. split; try done. intros n Hn. eapply info_core_ok; [exact Hri|auto].
Qed.

Lemma radar_event_total c d re seg :
  dfs_ok d → seg_ok d seg → event_ok re →
  ∃ f d', radar_event c d re seg = Some (f, d') ∧ event_grown 1 d d' ∧ (dfs_quiet 1 d → f = false).
Proof.
  intros Hok Hseg Hev. pose proof (growth_refl (R:=event_grown) 1 d ltac:(lia)) as Hrefl. unfold radar_event.
  destruct (disable_phy_err_processing d); [by eexists _, _|].
  destruct (Z.ltb_spec (re_chanindex re) DFS_NUM_RADAR_STATES) as [Hc|]; cbn [negb]; [|by eexists _, _].
  pose proof (ok_radar d Hok) as Hrad. unfold DFS_NUM_RADAR_STATES in Hc. destruct Hev as [Hdur Hch].
  destruct (aget_is_Some (dfs_radar d) (re_chanindex re)) as [rs ->]; [lia|]. cbn [mbind option_bind].
  destruct (negb _); [by eexists _, _|].
  destruct (record_event_total d re seg Hok Hseg (conj Hdur Hch)) as (ts & diff & dur & d1 & -> & Hg1 & Hdur1). cbn [mbind option_bind].
  pose proof (dfs_ok_grown _ _ _ Hg1 Hok) as Hok1.
  assert (H2 : ∃ d2, (if diff <? 100 then d ← dfs_reset_alldelaylines d1 seg; Some (dfs_reset_radarq d) else Some d1) = Some d2 ∧
    event_grown 0 d1 d2).
  { destruct (diff <? 100); [|exists d1; split; [done|by apply growth_refl]].
    destruct (dfs_reset_alldelaylines_total d1 seg Hok1) as (d2 & -> & H2). cbn. eexists. split; [reflexivity|].
    apply (growth_trans (R:=event_grown) 0 0 _ d2); [done|apply dfs_reset_radarq_grown]. }
  destruct H2 as (d2 & -> & Hg2). cbn [mbind option_bind].
  pose proof (growth_trans 0 0 _ _ _ Hg1 Hg2) as Hg. pose proof (dfs_ok_grown _ _ _ Hg Hok) as Hok2.
  destruct (match_event_total c d2 (re <| re_dur := dur |>) ts diff seg Hok2) as (f & d3 & -> & Hg3 & Hq).
  - intros Hs. rewrite (grown_curchan _ _ _ Hg). by apply Hseg.
  - exact Hdur1.
  - eexists _, _. split; [reflexivity|]. split; [exact (growth_trans 0 1 _ _ _ Hg Hg3)|].
    intros Hquiet. apply Hq. exact (dfs_quiet_grown 0 1 _ _ Hg Hquiet).
Qed.

(** ** The queue *)
Definition num_events (d : ath_dfs) : nat := (length (dfs_eventq d) + length (dfs_radarq d))%nat.

Lemma dfs_quiet_le k m d : m <= k → dfs_quiet k d → dfs_quiet m d.
Proof.
  intros Hm H. apply (dfs_quiet_grown (k - m) m d d); [apply growth_refl; lia|]. by replace (k - m + m) with k by lia.
Qed.

Lemma radar_loop_total n c d seg :
  dfs_ok d → seg_ok d seg →
  ∃ f seg' d', radar_loop n c d seg = Some (f, seg', d') ∧ dfs_ok d' ∧ seg_ok d' seg' ∧ dfs_static d' = dfs_static d ∧
    num_events d' = num_events d ∧ (f = false → length (dfs_radarq d') <= length (dfs_radarq d) - n)%nat ∧
    (dfs_quiet (Z.of_nat (length (dfs_radarq d))) d → f = false).
Proof.
  revert d seg. induction n as [|n IH]; intros d seg Hok Hseg; cbn [radar_loop]; [by eexists _, _, _; split_and!; [done..|lia|done]|].
  destruct (dfs_radarq d) as [|re q] eqn:Eq; [by eexists _, _, _; split_and!; [done..|rewrite Eq; cbn; lia|done]|].
  set (d1 := d <| dfs_radarq := q |> <| dfs_eventq ::= λ l, l ++ [zero_event] |>). cbn zeta.
  assert (Hev : event_ok re ∧ Forall event_ok q) by (destruct Hok; rewrite Eq in ok_queue; by apply Forall_cons).
  assert (Hok1 : dfs_ok d1) by (destruct Hok; split; try done; apply Hev).
  destruct (radar_event_total c d1 re (event_seg d1 re) Hok1 (event_seg_ok d1 re) (proj1 Hev)) as (f & d2 & -> & Hg & Hq).
  cbn [mbind option_bind]. pose proof (dfs_ok_grown _ _ _ Hg Hok1) as Hok2.
  assert (Hn2 : num_events d2 = num_events d).
  { transitivity (num_events d1); [apply Hg|]. unfold num_events, d1. rsimpl. rewrite Eq, length_app. cbn. lia. }
  assert (Hst : dfs_static d2 = dfs_static d) by (transitivity (dfs_static d1); [apply Hg|done]).
  assert (Hs2 : seg_ok d2 (event_seg d1 re)).
  { intros Hs. rewrite (grown_curchan _ _ _ Hg). exact (event_seg_ok d1 re Hs). }
  assert (Hlen : (length (dfs_radarq d2) <= length q)%nat) by (destruct Hg as [_ _ _ _ _ _ _ _ [->| ->]]; cbn; lia).
  assert (Hquiet : dfs_quiet (Z.of_nat (length (re :: q))) d → dfs_quiet (1 + Z.of_nat (length q)) d1).
  { intros [H1 H2 H3]. replace (Z.of_nat (length (re :: q))) with (1 + Z.of_nat (length q)) in * by (cbn [length]; lia). by split. }
  destruct f.
  - eexists _, _, _. split; [reflexivity|]. split_and!; try done. intros Hd%Hquiet. apply Hq. apply (dfs_quiet_le _ 1) in Hd; [done|lia].
  - destruct (IH d2 _ Hok2 Hs2) as (f & seg' & d' & -> & H1 & H2 & H3 & H4 & H5 & H6).
    eexists _, _, _. split; [reflexivity|]. split_and!; [done|done|congruence|congruence| |].
    + intros E. specialize (H5 E). cbn [length]. lia.
    + intros Hd%Hquiet. apply H6. apply (dfs_quiet_grown 1 _ _ _ Hg) in Hd. eapply dfs_quiet_le; [|exact Hd]. lia.
Qed.

(** ** The task *)

(** Resetting everything: the queue and the lines of both segments. *)
Definition reset_all (d : ath_dfs) : option ath_dfs :=
  d ← dfs_reset_alldelaylines (dfs_reset_radarq d) DFS_80P80_SEG0;
  (if ic_80p80_both_dfs (ic_curchan d) then dfs_reset_alldelaylines d DFS_80P80_SEG1 else Some d).

Lemma reset_all_total d :
  dfs_ok d → ∃ d', reset_all d = Some d' ∧ event_grown 0 d d' ∧ dfs_radarq d' = [].
Proof.
  intros Hok. unfold reset_all. pose proof (dfs_reset_radarq_grown d) as H0.
  pose proof (dfs_ok_grown _ _ _ H0 Hok) as Hok0. set (d0 := dfs_reset_radarq d) in *.
  assert (Hq0 : dfs_radarq d0 = []) by done. clearbody d0.
  assert (Hq : ∀ a b, event_grown 0 a b → dfs_radarq a = [] → dfs_radarq b = []).
  { intros a b [_ _ _ _ _ _ _ _ [->| ->]]; done. }
  destruct (dfs_reset_alldelaylines_total d0 DFS_80P80_SEG0 Hok0) as (d1 & -> & H1). cbn [mbind option_bind].
  pose proof (growth_trans 0 0 _ _ _ H0 H1) as H2. destruct (ic_80p80_both_dfs _); [|exists d1; eauto].
  destruct (dfs_reset_alldelaylines_total d1 DFS_80P80_SEG1 (dfs_ok_grown _ _ _ H2 Hok)) as (d2 & -> & H3).
  exists d2. split; [done|]. split; [exact (growth_trans 0 0 _ _ _ H2 H3)|eauto].
Qed.

Lemma radar_detected_total d seg :
  dfs_ok d →
  ∃ d', radar_detected d seg = Some d' ∧ dfs_ok d' ∧ num_events d' = num_events d ∧ dfs_radarq d' = [] ∧
    num_radar_detects d' = u32 (num_radar_detects d + 1).
Proof.
  intros Hok. unfold radar_detected.
  set (d1 := d <| num_radar_detects ::= λ n, u32 (n + 1) |> <| ic_curchan ::= λ c, c <| ic_radar_found_segid := seg |> |>).
  assert (Hok1 : dfs_ok d1) by (destruct Hok; by split). cbn zeta.
  assert (Hn : num_radar_detects d1 = u32 (num_radar_detects d + 1)) by done.
  assert (He : num_events d1 = num_events d) by done. clearbody d1.
  destruct (reset_all_total d1 Hok1) as (d2 & E & Hg & Hq). unfold reset_all in E.
  destruct (dfs_reset_alldelaylines (dfs_reset_radarq d1) DFS_80P80_SEG0) as [d1'|]; [|done]. cbn [mbind option_bind] in E |- *.
  rewrite E. cbn [mbind option_bind]. eexists. split; [reflexivity|].
  pose proof (dfs_ok_grown _ _ _ Hg Hok1) as Hok2. rewrite <- He, <- Hn.
  split; [destruct Hok2; by split|]. split; [apply Hg|]. split; [exact Hq|]. exact (f_equal num_radar_detects (eg_static _ _ _ Hg)).
Qed.

Lemma process_queue_total n c d :
  dfs_ok d →
  ∃ f d', process_queue n c d = Some (f, d') ∧
    dfs_ok d' ∧ num_events d' = num_events d ∧
    num_radar_detects d' = (if f : bool then u32 (num_radar_detects d + 1) else num_radar_detects d) ∧
    (f = true → dfs_radarq d' = []) ∧ (dfs_quiet (Z.of_nat (length (dfs_radarq d))) d → f = false).
Proof.
  intros Hok. unfold process_queue. destruct (radar_loop_total n c d DFS_80P80_SEG0 Hok ltac:(by intros []))
    as (f & seg & d3 & -> & Hok3 & _ & Hst & Hn3 & _ & Hq). cbn [mbind option_bind].
  pose proof (f_equal num_radar_detects Hst) as Hd3. change (num_radar_detects d3 = num_radar_detects d) in Hd3.
  destruct f.
  - destruct (radar_detected_total d3 seg Hok3) as (d4 & -> & H1 & H2 & H3 & H4). cbn [mbind option_bind].
    eexists _, _. split; [reflexivity|]. split_and!; [done|congruence|congruence|done|done].
  - eexists _, _. split; [reflexivity|]. by split_and!.
Qed.

Lemma bind_Some {A B} (f : A → option B) (x : A) : Some x ≫= f = f x.
Proof. done. Qed.

(** What a run of the task leaves, with [f] for a detection. *)
Definition task_done (d : ath_dfs) (f : bool) (d' : ath_dfs) : Prop :=
  dfs_ok d' ∧ num_events d' = num_events d ∧
  num_radar_detects d' = (if f then u32 (num_radar_detects d + 1) else num_radar_detects d) ∧ (f = true → dfs_radarq d' = []).

Lemma reset_all_done d : dfs_ok d → ∃ d', (d ← reset_all d; Some (false, d)) = Some (false, d') ∧ task_done d false d'.
Proof.
  intros Hok. destruct (reset_all_total d Hok) as (d2 & -> & Hg & Hq). cbn [mbind option_bind]. exists d2. split; [done|].
  split; [by eapply dfs_ok_grown|]. split; [apply Hg|]. split; [|done]. exact (f_equal num_radar_detects (eg_static _ _ _ Hg)).
Qed.

Lemma bang_done d :
  dfs_ok d → ∃ d', (d ← radar_detected (d <| dfs_bangradar := false |>) DFS_80P80_SEG0; Some (true, d)) = Some (true, d') ∧ task_done d true d'.
Proof.
  set (d1 := d <| dfs_bangradar := false |>). intros Hok. assert (Hok1 : dfs_ok d1) by (destruct Hok; by split).
  assert (H1 : num_events d1 = num_events d) by done.
  assert (H2 : num_radar_detects d1 = num_radar_detects d) by done. clearbody d1.
  destruct (radar_detected_total d1 DFS_80P80_SEG0 Hok1) as (d2 & -> & H3 & H4 & H5 & H6). cbn [mbind option_bind].
  exists d2. split; [done|]. unfold task_done. rewrite H4, H6, H1, H2. done.
Qed.

Lemma process_radarevent_total c d :
  dfs_ok d → (dfs_bangradar d = true → 0 <= dfs_curchan_radindex d < 64) →
  ∃ f d', dfs_process_radarevent c d = Some (f, d') ∧ task_done d f d' ∧
    (dfs_bangradar d = false → dfs_quiet (Z.of_nat (length (dfs_radarq d))) d → f = false).
Proof.
  intros Hok Hbang. unfold dfs_process_radarevent. destruct (negb _).
  { destruct (reset_all_done d Hok) as (d' & E & H). exists false, d'. split; [|done]. rewrite <- E. unfold reset_all.
    by destruct (dfs_reset_alldelaylines (dfs_reset_radarq d) DFS_80P80_SEG0). }
  destruct (dfs_bangradar d) eqn:Eb.
  { destruct (aget_is_Some (dfs_radar d) (dfs_curchan_radindex d)) as [x ->]; [rewrite (ok_radar d Hok); by apply Hbang|].
    destruct (bang_done d Hok) as (d' & E & H). exists true, d'. rewrite bind_Some. split; [exact E|done]. }
  set (w53 := (dfsdomain d =? DFS_MKK_DOMAIN) && ath_chip_is_bb_tlv d && (ic_freq c <? 5500)). cbn zeta.
  set (d1 := if w53 then d <| dfs_pri_multiplier := dfs_pri_multiplier_ini d |> else d).
  set (d2 := if w53 then d1 <| dfs_phyerr_freq_min := 0x7fffffff |> <| dfs_phyerr_freq_max := 0 |> else d1).
  assert (H1 : task_done d false d1).
  { unfold d1. destruct w53; [|done]. split; [destruct Hok; by split|done]. }
  assert (H2 : task_done d false d2 ∧ dfs_radarq d2 = dfs_radarq d ∧ (∀ k, dfs_quiet k d → dfs_quiet k d2)).
  { unfold d2, d1. destruct w53; [|done]. split; [split; [destruct Hok; by split|done]|]. split; [done|]. intros k []; by split. }
  clearbody d2 d1. destruct (w53 && _); [by exists false, d1|].
  destruct H2 as ((Hok2 & Hn2 & Hd2 & _) & Hq2 & Hquiet).
  destruct (process_queue_total (Z.to_nat MAX_EVENTS) c d2 Hok2) as (f & d3 & -> & H3 & H4 & H5 & H6 & H7).
  exists f, d3. split; [done|]. unfold task_done. rewrite H4, Hn2, H5, Hd2. split; [done|].
  intros _ Hd%Hquiet. apply H7. by rewrite Hq2.
Qed.

(** C7: the radar task always answers in a device whose tables and buffers have their
    sizes: it stays inside every array, keeps the device in that state, loses no event
    object, counts a detection exactly when it reports one and then leaves no event
    in the queue. *)
Theorem radar_task_safe d :
  dfs_ok d → (dfs_bangradar d = true → 0 <= dfs_curchan_radindex d < 64) →
  ∃ f d', dfs_task d = Some (f, d') ∧ dfs_ok d' ∧ num_events d' = num_events d ∧ ath_radar_tasksched d' = false ∧
    num_radar_detects d' = (if f : bool then u32 (num_radar_detects d + 1) else num_radar_detects d) ∧
    (f = true → dfs_radarq d' = []).
Proof.
  intros Hok Hb. destruct (process_radarevent_total (ic_curchan d) d Hok Hb) as (f & d' & E & (H1 & H2 & H3 & H4) & _).
  unfold dfs_task. rewrite E. cbn [mbind option_bind]. eexists _, _. split; [reflexivity|].
  split; [destruct H1; by split|]. split; [exact H2|]. split; [done|]. split; [exact H3|exact H4].
Qed.

(** C26: no false alarm without pulses: when every filter and every chirp detector
    would stay below its threshold even if all queued events were added to it, the
    task reports no radar. *)
Theorem no_radar_without_pulses d :
  dfs_ok d → dfs_bangradar d = false → dfs_quiet (Z.of_nat (length (dfs_radarq d))) d →
  ∃ d', dfs_task d = Some (false, d').
Proof.
  intros Hok Hb Hq. destruct (process_radarevent_total (ic_curchan d) d Hok ltac:(by rewrite Hb)) as (f & d' & E & _ & H).
  unfold dfs_task. rewrite E, (H Hb Hq). cbn [mbind option_bind]. by eexists.
Qed.

(** Without chirp detectors the reset of the lines does nothing at all. *)
Lemma reset_needs_detectors d : dfs_b5radars d = None → dfs_reset_alldelaylines d DFS_80P80_SEG0 = Some d.
Proof.
  intros Hb. unfold dfs_reset_alldelaylines, ext_board. cbn. rewrite andb_false_r. by rewrite Hb.
Qed.
