(* ===== verification/DfsTrain.v ===== *)
(** A train of pulses at regular intervals is detected. *)
From S2P Require Import Prelude Arrays DfsTypes DfsLine DfsBin DfsCheck DfsEvent DfsSafe DfsQuiet.

(** ** The check of a line *)
Section check.
Context (c : dfs_ieee80211_channel) (rf : dfs_filter) (lo hi : Z).

(** The intervals that the filter accepts, close enough to each other. *)
Record accepts : Prop := {
  acc_window : rf_ignore_pri_window rf = 0;
  acc_pattern : rf_patterntype rf = 0;
  acc_range : 0 < rf_minpri rf ∧ rf_minpri rf <= lo ∧ lo <= hi ∧ hi <= rf_maxpri rf ∧ rf_maxpri rf < 2147483648;
  acc_close : hi - lo < 12;
  acc_fixed : rf_fixed_pri_radar_pulse rf ≠ 0 → lo <= (rf_minpri rf + rf_maxpri rf) / 2 <= hi;
}.

Implicit Types (dl : ring dfs_delayelem).

(** A line of such intervals. *)
Record train_line dl : Prop := {
  tl_time : ∀ i, 0 <= i < numelems dl → lo <= de_time (ring_at DFS_MAX_DL_MASK dl i) <= hi;
  tl_ts : ∀ i, 0 <= i < numelems dl - 1 →
    lo <= u32 (de_ts (ring_at DFS_MAX_DL_MASK dl (i + 1)) - u32 (de_ts (ring_at DFS_MAX_DL_MASK dl i))) <= hi;
  tl_dur : ∀ i j, 0 <= i < numelems dl → 0 <= j < numelems dl →
    DFS_DIFF (de_dur (ring_at DFS_MAX_DL_MASK dl i)) (de_dur (ring_at DFS_MAX_DL_MASK dl j)) < 4;
}.

Lemma count_multiples_pos delta fund :
  accepts → lo <= delta <= hi → lo <= fund <= hi → 1 <= count_multiples true 4 delta fund 6.
Proof.
  intros [_ _ Hr Hc _] Hd Hf. unfold count_multiples. change (seqZ 0 4) with (0 :: [1; 2; 3]). cbv zeta iota.
  rewrite filter_cons_True; [cbn [length]; lia|]. apply Z.ltb_lt. rewrite !u32_small by (red; lia). unfold DFS_DIFF. lia.
Qed.

Lemma pri_check_train dl refpri refdur fund :
  accepts → train_line dl → 0 <= numelems dl → lo <= fund <= hi →
  (∀ i, 0 <= i < numelems dl → DFS_DIFF (de_dur (ring_at DFS_MAX_DL_MASK dl i)) refdur < 4) →
  ∃ np prev, foldl (pri_check_elem rf 6 refpri refdur fund) (dl, 1, 0) (seqZ 0 (numelems dl)) = (dl, np, prev) ∧ 1 + numelems dl <= np.
Proof.
  intros Hacc [Ht Hts _] Hn Hf Hd.
  pose proof (foldl_seqZ_ind (pri_check_elem rf 6 refpri refdur fund) (λ i s, ∃ np prev, s = (dl, np, prev) ∧ 1 + i <= np ∧
    (0 < i → prev = u32 (de_ts (ring_at DFS_MAX_DL_MASK dl (i - 1)))) ∧ (i = 0 → np = 1)) (dl, 1, 0) (numelems dl) Hn) as H.
  destruct H as (np & prev & -> & H1 & _); [| |by eexists _, _].
  { eexists _, _. split; [reflexivity|]. split_and!; [lia|lia|done]. }
  intros i s Hi (np & prev & -> & H1 & H2 & H3). unfold pri_check_elem.
  pose proof (Ht i Hi) as Hti. specialize (Hd i Hi). unfold ring_at in Hti, Hd. destruct Hacc as [Hw Hp Hr Hc Hx].
  rewrite Hw, Hp. change (0 <? 0) with false. cbn [andb orb negb].
  destruct (Z.eqb_spec (de_time (zget (elems dl) (Z.land (u32 (firstelem dl + i)) DFS_MAX_DL_MASK))) 0) as [E|_]; [lia|].
  change (0 <? 6) with true. cbn [andb orb].
  assert (Hm : (DFS_DIFF (de_dur (zget (elems dl) (Z.land (u32 (firstelem dl + i)) DFS_MAX_DL_MASK))) refdur <? dur_margin rf) = true).
  { apply Z.ltb_lt. unfold dur_margin. split_if; lia. }
  rewrite Hm. eexists _, _. split; [reflexivity|].
  split; [|split; [intros _; unfold ring_at; by replace (i + 1 - 1) with i by lia|lia]].
  destruct (Z.eqb_spec np 1) as [->|Hne].
  - destruct (decide (i = 0)); lia.
  - destruct (decide (i = 0)) as [->|Hi0]; [by specialize (H3 eq_refl)|].
    enough (1 <= count_multiples true 4 (u32 (de_ts (zget (elems dl) (Z.land (u32 (firstelem dl + i)) DFS_MAX_DL_MASK)) - prev)) fund 6) by lia.
    apply count_multiples_pos; [by split| |done]. rewrite H2 by lia. specialize (Hts (i - 1) ltac:(lia)).
    by replace (i - 1 + 1) with i in Hts by lia.
Qed.

Lemma dfs_bin_check_train ri pl dl deltaT width :
  dl_shape dl → accepts → train_line dl → 1 <= numelems dl → 0 < rf_threshold rf <= numelems dl + 1 → deltaT <= rf_filterlen rf →
  ∃ dl' ri', dfs_bin_check c ri pl rf dl deltaT width = Some (true, dl', ri').
Proof.
  intros Hdl Hacc Htl H1 Hthr Hlen. pose proof Htl as [Ht _ Hd]. pose proof Hacc as [Hw Hp Hr Hc Hx]. pose proof (proj2 Hdl) as Hnum.
  unfold DFS_MAX_DL_SIZE in Hnum. unfold dfs_bin_check. rewrite u32_small by (red; lia).
  destruct (Z.ltb_spec (numelems dl) (rf_threshold rf - 1)); [lia|]. destruct (Z.ltb_spec (rf_filterlen rf) deltaT); [lia|].
  rewrite Hp, Hw. change (0 =? 1) with false. change (0 <? 0) with false. cbv iota.
  destruct (dfs_get_pri_margin_spec c ri false) as (ri1 & -> & _). cbv iota beta zeta.
  destruct (score_loop_total rf 6 dl (seqZ 0 (numelems dl)) (replicate 64 0) (idx_range dl Hdl) ltac:(by rewrite length_replicate))
    as (score & -> & Hs). cbn [mbind option_bind].
  destruct (high_scorer_total dl score Hdl Hs) as (hs & hix & -> & Hhi). pose proof (lowest_pri_range dl Hdl) as Hlo.
  cbn [mbind option_bind]. match goal with |- context [aget score ?ix] => set (k := ix) end.
  assert (Hk : 0 <= k < numelems dl) by (unfold k; split_if; lia). rewrite (aget_zget score k) by lia. cbn [mbind option_bind].
  match goal with |- context [dfs_bin_pri_check _ _ _ _ _ ?rp _ _] => set (refpri := rp) end.
  assert (Href : lo <= refpri <= hi).
  { unfold refpri. destruct (Z.eqb_spec (rf_fixed_pri_radar_pulse rf) 0); cbn [negb]; [by apply Ht|]. rewrite u32_small by (red; lia). auto. }
  clearbody refpri. unfold dfs_bin_pri_check. rewrite Hp. change (0 =? 1) with false. cbv iota.
  destruct (dfs_get_pri_margin_spec c ri1 false) as (ri2 & -> & _). cbv iota beta zeta.
  destruct (Z.ltb_spec (rf_maxpri rf) refpri); [lia|]. destruct (Z.ltb_spec refpri (rf_minpri rf)); [lia|]. cbn [orb].
  match goal with |- context [foldl (pri_check_elem rf 6 ?rp ?rd ?fu) _ _] =>
    destruct (pri_check_train dl rp rd fu Hacc Htl ltac:(lia) Href) as (np & prev & -> & Hnp) end; [intros i Hi; by apply Hd|].
  destruct (dfs_get_filter_threshold_spec c ri2 rf) as (ri3 & -> & _). eexists _, _.
  replace (rf_threshold rf <=? np) with true by (symmetry; apply Z.leb_le; lia). reflexivity.
Qed.
End check.

(** ** One pulse of the train at its filter *)
Section filter_train.
Context (lo hi : Z).

(** The content of a line, oldest pulse first. *)
Record train_list (l : list dfs_delayelem) : Prop := {
  trl_time : ∀ i e, l !! i = Some e → lo <= de_time e <= hi;
  trl_ts : ∀ i e e', l !! i = Some e → l !! S i = Some e' → lo <= u32 (de_ts e' - u32 (de_ts e)) <= hi;
  trl_dur : ∀ i j e e', l !! i = Some e → l !! j = Some e' → DFS_DIFF (de_dur e) (de_dur e') < 4;
}.

Lemma train_list_nil : train_list [].
Proof. by split. Qed.

Lemma lookup_snoc_cases {A} (l : list A) x i y : (l ++ [x]) !! i = Some y → l !! i = Some y ∨ (i = length l ∧ y = x).
Proof.
  intros H. destruct (decide (i < length l)%nat).
  - left. by rewrite lookup_app_l in H.
  - right. rewrite lookup_app_r in H by lia. apply list_lookup_singleton_Some in H as [? ->]. split; [lia|done].
Qed.

Lemma DFS_DIFF_comm a b : DFS_DIFF a b = DFS_DIFF b a.
Proof. unfold DFS_DIFF. lia. Qed.

Lemma train_list_snoc l e :
  train_list l → lo <= de_time e <= hi → (∀ e0, last l = Some e0 → lo <= u32 (de_ts e - u32 (de_ts e0)) <= hi) →
  (∀ e0, e0 ∈ l → DFS_DIFF (de_dur e0) (de_dur e) < 4) → train_list (l ++ [e]).
Proof.
  intros [H1 H2 H3] He Hl Hd. split.
  - intros i x [Hx|[_ ->]]%lookup_snoc_cases; eauto.
  - intros i x x' Hx Hx'. destruct (lookup_snoc_cases _ _ _ _ Hx') as [Hx''|[Hi ->]].
    + destruct (lookup_snoc_cases _ _ _ _ Hx) as [?|[-> _]]; [eauto|]. apply lookup_lt_Some in Hx''. lia.
    + destruct (lookup_snoc_cases _ _ _ _ Hx) as [Hx0|[-> _]]; [|lia]. apply Hl. rewrite last_lookup.
      by replace (pred (length l)) with i by lia.
  - intros i j x x' Hx Hx'. destruct (lookup_snoc_cases _ _ _ _ Hx) as [Hi|[_ ->]], (lookup_snoc_cases _ _ _ _ Hx') as [Hj|[_ ->]].
    + eauto.
    + apply Hd. by eapply list_elem_of_lookup_2.
    + rewrite DFS_DIFF_comm. apply Hd. by eapply list_elem_of_lookup_2.
    + unfold DFS_DIFF. lia.
Qed.

Lemma train_list_line r :
  ring_wf DFS_MAX_DL_SIZE r → train_list (ring_list DFS_MAX_DL_MASK r) → train_line lo hi r.
Proof.
  intros _ [H1 H2 H3].
  assert (Hl : ∀ i, 0 <= i < numelems r → ring_list DFS_MAX_DL_MASK r !! Z.to_nat i = Some (ring_at DFS_MAX_DL_MASK r i)).
  { intros i Hi. rewrite ring_list_lookup by lia. by rewrite Z2Nat.id by lia. }
  split.
  - intros i Hi. eapply H1, Hl. lia.
  - intros i Hi. apply (H2 (Z.to_nat i)); [apply Hl; lia|]. rewrite <- (Hl (i + 1)) by lia. f_equal. lia.
  - intros i j Hi Hj. by eapply H3; apply Hl.
Qed.

(** A pulse that leaves everything in the window. *)
Lemma add_in_window len re dT t r l :
  ring_wf DFS_MAX_DL_SIZE r → ring_list DFS_MAX_DL_MASK r = l → (length l < 64)%nat →
  (∀ e, e ∈ l → 0 <= t - de_ts e <= len) → len < 4294967296 →
  ring_wf DFS_MAX_DL_SIZE (dfs_add_pulse_dl len re dT t r) ∧
  ring_list DFS_MAX_DL_MASK (dfs_add_pulse_dl len re dT t r) = l ++ [mk_delay dT (re_dur re) (re_rssi re) t].
Proof.
  intros Hwf Hl Hlen Hw Hsmall.
  destruct (dfs_add_pulse_dl_spec len re dT t r (reverse l) Hwf ltac:(by rewrite reverse_involutive)) as [H1 H2].
  split; [exact H1|]. rewrite H2. unfold line_add. rewrite take_ge by (rewrite length_reverse; lia).
  rewrite reverse_cons. f_equal.
  assert (Hall : ∀ h, (∀ e, e ∈ h → e ∈ l) → while_ok (in_window len t) h = h).
  { induction h as [|x h IH]; intros Hh; [done|]. cbn [while_ok]. unfold in_window at 1.
    specialize (Hw x (Hh x ltac:(by left))). rewrite u32_small by (red; lia).
    destruct (Z.ltb_spec len (t - de_ts x)); [lia|]. cbn [negb]. f_equal. apply IH. intros e He. apply Hh. by right. }
  cbn [de_ts]. rewrite Hall; [by rewrite reverse_involutive|]. intros e. by rewrite elem_of_reverse.
Qed.

Lemma get_dl_one seg rf : get_dl false seg rf = rf_dl rf.
Proof. done. Qed.
Lemma upd_dl_one seg f rf : upd_dl false seg f rf = rf <| rf_dl ::= f |>.
Proof. done. Qed.

(** The first pulse, long after anything else, is only remembered. *)
Lemma filter_step_first d pl re t seg rf ri :
  ic_80p80_both_dfs (ic_curchan d) = false → accepts rf lo hi → rf_mindur rf <= re_dur re <= rf_maxdur rf →
  0 <= dl_last_ts (rf_dl rf) <= t → t < 18446744073709551616 →
  u64 (dfs_pri_multiplier d * rf_maxpri rf) < t - dl_last_ts (rf_dl rf) → hi <= t - dl_last_ts (rf_dl rf) →
  filter_step d pl re t seg rf ri = Some (false, rf <| rf_dl ::= λ dl, dl <| dl_last_ts := t |> |>, ri).
Proof.
  intros Hb [Hw _ Hr _ _] Hd Hlast Ht Hm Hhi. unfold filter_step. rewrite Hb, get_dl_one, upd_dl_one, Hw.
  destruct (Z.leb_spec (rf_mindur rf) (re_dur re)); [|lia]. destruct (Z.leb_spec (re_dur re) (rf_maxdur rf)); [|lia]. cbn [andb].
  cbv zeta. destruct (Z.ltb_spec t (dl_last_ts (rf_dl rf))); [lia|]. rewrite (u64_small (t - _)) by (red; lia).
  destruct (Z.ltb_spec (t - dl_last_ts (rf_dl rf)) (rf_minpri rf)); [lia|]. cbn [andb].
  change (0 <? 0) with false. cbv iota. destruct (Z.ltb_spec (u64 (dfs_pri_multiplier d * rf_maxpri rf)) (t - dl_last_ts (rf_dl rf))); [done|lia].
Qed.

(** A pulse in time: it is added, and found when the threshold is reached. *)
Lemma filter_step_train d pl re t t0 seg rf ri l :
  ic_80p80_both_dfs (ic_curchan d) = false → accepts rf lo hi → rf_mindur rf <= re_dur re <= rf_maxdur rf →
  dl_last_ts (rf_dl rf) = t0 → 0 <= t0 → lo <= t - t0 <= hi → t < 18446744073709551616 →
  hi <= u64 (dfs_pri_multiplier d * rf_maxpri rf) →
  ring_wf DFS_MAX_DL_SIZE (dl_ring (rf_dl rf)) → ring_list DFS_MAX_DL_MASK (dl_ring (rf_dl rf)) = l → train_list l →
  (∀ e, last l = Some e → de_ts e = t0) → (∀ e, e ∈ l → 0 <= t - de_ts e <= rf_filterlen rf) → 
  hi <= rf_filterlen rf < 4294967296 → (∀ e, e ∈ l → DFS_DIFF (de_dur e) (re_dur re) < 4) →
  0 < rf_threshold rf <= 64 → Z.of_nat (length l) + 1 <= rf_threshold rf - 1 →
  ∃ f rf' ri', filter_step d pl re t seg rf ri = Some (f, rf', ri') ∧
    (f = false → Z.of_nat (length l) + 1 < rf_threshold rf - 1 ∧ filter_static rf' = filter_static rf ∧
       dl_last_ts (rf_dl rf') = t ∧ ring_wf DFS_MAX_DL_SIZE (dl_ring (rf_dl rf')) ∧
       ring_list DFS_MAX_DL_MASK (dl_ring (rf_dl rf')) = l ++ [mk_delay (t - t0) (re_dur re) (re_rssi re) t]).
Proof.
  intros Hb Hacc Hd Hlast Ht0 Hgap Ht Hm Hwf Hl Htr Hnew Hw Hlen Hdur Hthr Hcount. pose proof Hacc as [Hwin Hpat Hr _ _].
  unfold filter_step. rewrite Hb, get_dl_one, Hwin, Hlast.
  destruct (Z.leb_spec (rf_mindur rf) (re_dur re)); [|lia]. destruct (Z.leb_spec (re_dur re) (rf_maxdur rf)); [|lia]. cbn [andb].
  cbv zeta. destruct (Z.ltb_spec t t0); [lia|]. rewrite (u64_small (t - t0)) by (red; lia).
  destruct (Z.ltb_spec (t - t0) (rf_minpri rf)); [lia|]. cbn [andb].
  change (0 <? 0) with false. cbv iota. destruct (Z.ltb_spec (u64 (dfs_pri_multiplier d * rf_maxpri rf)) (t - t0)); [lia|]. cbn [orb].
  unfold dfs_add_pulse. rewrite !upd_dl_one, !get_dl_one, (u32_small (t - t0)) by (red; lia).
  set (e := mk_delay (t - t0) (re_dur re) (re_rssi re) t).
  destruct (add_in_window (rf_filterlen rf) re (t - t0) t (dl_ring (rf_dl rf)) l Hwf Hl ltac:(lia) Hw ltac:(lia)) as [Ha1 Ha2]. fold e in Ha2.
  set (r1 := dfs_add_pulse_dl _ _ _ _ _) in *. 
  set (rf1 := rf <| rf_dl ::= λ dl, dl <| dl_ring ::= _ |> |>).
  assert (E1 : dl_ring (rf_dl rf1) = r1) by done. assert (Hacc1 : accepts rf1 lo hi) by (destruct Hacc; by split).
  assert (E2 : rf_threshold rf1 = rf_threshold rf) by done. assert (E3 : rf_filterlen rf1 = rf_filterlen rf) by done.
  assert (E4 : filter_static rf1 = filter_static rf) by done. rewrite E1. clearbody rf1 r1.
  assert (Hn1 : numelems r1 = Z.of_nat (length l) + 1).
  { rewrite <- (ring_list_length (mask:=DFS_MAX_DL_MASK) r1), Ha2, length_app; [cbn; lia|apply Ha1]. }
  assert (Htr1 : train_list (l ++ [e])).
  { apply train_list_snoc; [done|cbn; lia| |exact Hdur]. intros e0 He0. rewrite (Hnew e0 He0). change (de_ts e) with t.
    assert (u32 (t - u32 t0) = t - t0) as ->; [|lia]. unfold u32. rewrite Zminus_mod_idemp_r. apply Z.mod_small. lia. }
  rewrite (acc_pattern _ _ _ Hacc1). change (0 =? 2) with false. cbv iota.
  destruct (decide (rf_threshold rf - 1 = Z.of_nat (length l) + 1)) as [Heq|Hlt].
  - destruct (dfs_bin_check_train (ic_curchan d) rf1 lo hi ri pl r1 (t - t0) (re_dur re)) as (dl' & ri' & ->); [apply Ha1|done| |lia..|].
    + apply train_list_line; [exact Ha1|by rewrite Ha2].
    + eexists _, _, _. split; [reflexivity|done].
  - unfold dfs_bin_check. rewrite E2, u32_small by (red; lia).
    destruct (Z.ltb_spec (numelems r1) (rf_threshold rf - 1)); [|lia]. eexists _, _, _. split; [reflexivity|]. intros _.
    split; [lia|]. split; [exact E4|]. split; [done|]. by split.
Qed.
End filter_train.

(** ** The filter among the others: runs that find nothing *)
Lemma filters_loop_visit d pl re ts seg ps fs ri fs' ri' p rf :
  filters_loop ps d pl re ts seg fs ri = Some (false, fs', ri') → NoDup ps → aget fs p = Some rf →
  if decide (p ∈ ps) then ∃ ri1 rf' ri2, filter_step d pl re ts seg rf ri1 = Some (false, rf', ri2) ∧ aget fs' p = Some rf'
  else aget fs' p = Some rf.
Proof.
  intros Hrun Hnd. revert fs ri rf Hrun. induction Hnd as [|q ps Hq Hnd IH]; intros fs ri rf Hrun Hp; cbn [filters_loop] in Hrun.
  { injection Hrun as <- <-. by destruct (decide (p ∈ [])) as [?%elem_of_nil|]. }
  destruct (aget fs q) as [rq|] eqn:Eq; [|done]. cbn [mbind option_bind] in Hrun.
  destruct (filter_step d pl re ts seg rq ri) as [[[f rq'] ri1]|] eqn:Es; [|done]. cbn [mbind option_bind] in Hrun.
  destruct (aset fs q rq') as [fs1|] eqn:Ea; [|done]. cbn [mbind option_bind] in Hrun. destruct f; [done|].
  pose proof (aget_Some _ _ _ Hp) as Hpr. destruct (decide (p = q)) as [->|Hne].
  - rewrite Hp in Eq. injection Eq as <-. specialize (IH fs1 ri1 _ Hrun (aget_aset_eq _ _ _ _ Ea)).
    rewrite decide_False in IH by done. rewrite decide_True by (by left). eauto.
  - specialize (IH fs1 ri1 rf Hrun). rewrite (aget_aset_ne _ _ _ _ _ Ea) in IH by (done || lia). specialize (IH Hp).
    destruct (decide (p ∈ ps)); [rewrite decide_True by (by right)|rewrite decide_False by (by intros [?|?]%elem_of_cons)]; exact IH.
Qed.

(** One round of the loop over the types. *)
Definition type_skipped (re : dfs_event) (ts : Z) (ft : dfs_filtertype) : bool :=
  ((re_rssi re <? ft_rssithresh ft) && (4 <? re_dur re)) ||
  ((u64 (ts - ft_last_ts ft) <? ft_minpri ft) && negb (u64 (ts - ft_last_ts ft) =? 0)).

Definition type_visited (d : ath_dfs) (re : dfs_event) (ts seg q : Z) (d1 : ath_dfs) : Prop :=
  ∃ ft pl fs ri fts, aget (dfs_radarf d) q = Some ft ∧
    filters_loop (seqZ 0 (ft_numfilters ft)) d pl re ts seg (ft_filters ft) (dfs_rinfo d) = Some (false, fs, ri) ∧
    aset (dfs_radarf d) q (ft <| ft_filters := fs |> <| ft_last_ts := ts |>) = Some fts ∧ d1 = with_types d fts ri.

Lemma types_round fuel row depth d re ts seg d' q :
  types_loop (S fuel) row depth d re ts seg = Some (false, d') → depth < 16 → aget row depth = Some q → q ≠ -1 →
  ∃ d1 ft, types_loop fuel row (depth + 1) d1 re ts seg = Some (false, d') ∧ aget (dfs_radarf d) q = Some ft ∧
    if type_skipped re ts ft then d1 = d else type_visited d re ts seg q d1.
Proof.
  intros Hrun Hd Hq Hne. cbn [types_loop] in Hrun. unfold DFS_MAX_RADAR_OVERLAP in Hrun.
  destruct (Z.ltb_spec depth 16); [|lia]. cbn [negb] in Hrun. rewrite Hq in Hrun. cbn [mbind option_bind] in Hrun.
  destruct (Z.eqb_spec q (-1)); [done|]. destruct (aget (dfs_radarf d) q) as [ft|] eqn:Ef; [|done]. cbn [mbind option_bind] in Hrun.
  unfold type_skipped. destruct ((re_rssi re <? ft_rssithresh ft) && (4 <? re_dur re)) eqn:E1.
  { exists d, ft. by rewrite E1. }
  cbv zeta in Hrun. destruct ((u64 (ts - ft_last_ts ft) <? ft_minpri ft) && negb (u64 (ts - ft_last_ts ft) =? 0)) eqn:E2.
  { exists d, ft. by rewrite E1, E2. }
  destruct (if ext_seg (ic_80p80_both_dfs (ic_curchan d)) seg then pulses_ext_seg d else Some (pulses d)) as [pl|] eqn:Ep; [|done].
  cbn [mbind option_bind] in Hrun.
  destruct (filters_loop (seqZ 0 (ft_numfilters ft)) d pl re ts seg (ft_filters ft) (dfs_rinfo d)) as [[[f fs] ri]|] eqn:El; [|done].
  cbn [mbind option_bind] in Hrun. destruct (aset _ q _) as [fts|] eqn:Ea; [|done]. cbn [mbind option_bind] in Hrun.
  destruct f; [done|]. eexists _, ft. rewrite E1, E2. split; [exact Hrun|]. split; [done|]. exists ft, pl, fs, ri, fts. done.
Qed.

(** A type that is not listed is not touched. *)
Lemma types_loop_other fuel row depth d re ts seg d' t :
  types_loop fuel row depth d re ts seg = Some (false, d') → 0 <= depth → 0 <= t →
  (∀ j, depth <= j → aget row j ≠ Some t) → aget (dfs_radarf d') t = aget (dfs_radarf d) t.
Proof.
  revert depth d. induction fuel as [|fuel IH]; intros depth d Hrun Hd Ht Hno; [by injection Hrun as <-|].
  destruct (decide (depth < 16)) as [Hlt|Hge].
  2:{ cbn [types_loop] in Hrun. unfold DFS_MAX_RADAR_OVERLAP in Hrun. destruct (Z.ltb_spec depth 16); [lia|]. by injection Hrun as <-. }
  destruct (aget row depth) as [q|] eqn:Eq.
  2:{ cbn [types_loop] in Hrun. rewrite Eq in Hrun. by destruct (negb _); [injection Hrun as <-|]. }
  destruct (decide (q = -1)) as [->|Hq].
  { cbn [types_loop] in Hrun. rewrite Eq in Hrun. by destruct (negb _); injection Hrun as <-. }
  destruct (types_round _ _ _ _ _ _ _ _ _ Hrun Hlt Eq Hq) as (d1 & ft & Hrun1 & Hft & H1).
  rewrite (IH _ _ Hrun1) by (lia || (intros; apply Hno; lia)).
  destruct (type_skipped re ts ft); [by subst|]. destruct H1 as (ft1 & pl & fs & ri & fts & _ & _ & Ha & ->).
  change (dfs_radarf (with_types d fts ri)) with fts. apply (aget_aset_ne _ _ _ _ _ Ha Ht). intros ->. by apply (Hno depth).
Qed.

(** The round of a listed type. *)
Lemma types_loop_visit fuel row depth d re ts seg d' t m ft :
  types_loop fuel row depth d re ts seg = Some (false, d') → 0 <= depth <= m → m < 16 → m - depth < Z.of_nat fuel →
  aget row m = Some t → 0 <= t → (∀ j, depth <= j < m → ∃ q, aget row j = Some q ∧ q ≠ -1) →
  (∀ j, aget row j = Some t → j = m) → aget (dfs_radarf d) t = Some ft → type_skipped re ts ft = false →
  ∃ d1 d2, dfs_static d1 = dfs_static d ∧ aget (dfs_radarf d1) t = Some ft ∧ type_visited d1 re ts seg t d2 ∧
    aget (dfs_radarf d') t = aget (dfs_radarf d2) t.
Proof.
  revert depth d. induction fuel as [|fuel IH]; intros depth d Hrun Hd Hm Hf Hrow Ht Hpre Huniq Hft Hskip; [lia|].
  destruct (decide (depth = m)) as [->|Hne].
  - destruct (types_round _ _ _ _ _ _ _ _ _ Hrun Hm Hrow ltac:(lia)) as (d1 & ft1 & Hrun1 & Hft1 & H1).
    rewrite Hft in Hft1. injection Hft1 as <-. rewrite Hskip in H1. exists d, d1. split; [done|]. split; [done|]. split; [exact H1|].
    apply (types_loop_other _ _ _ _ _ _ _ _ _ Hrun1); [lia|lia|]. intros j Hj E. specialize (Huniq j E). lia.
  - destruct (Hpre depth ltac:(lia)) as (q & Hq & Hq1).
    destruct (types_round _ _ _ _ _ _ _ _ _ Hrun ltac:(lia) Hq Hq1) as (d1 & ft1 & Hrun1 & Hft1 & H1).
    assert (Hd1 : dfs_static d1 = dfs_static d ∧ aget (dfs_radarf d1) t = Some ft).
    { destruct (type_skipped re ts ft1); [by subst|]. destruct H1 as (ft2 & pl & fs & ri & fts & _ & _ & Ha & ->).
      split; [done|]. change (dfs_radarf (with_types d fts ri)) with fts. rewrite (aget_aset_ne _ _ _ _ _ Ha Ht); [done|].
      intros ->. specialize (Huniq _ Hq). lia. }
    destruct Hd1 as [Hs1 Hft2].
    destruct (IH (depth + 1) d1 Hrun1) as (d2 & d3 & H2 & H3 & H4 & H5); try done; try lia; [intros; apply Hpre; lia|].
    exists d2, d3. split; [congruence|]. done.
Qed.

(** ** One event of the train *)

(** The device listens with filter [p] of type [t], which are [rf] and [ft] now. *)
Record listens (d : ath_dfs) (t p lo hi : Z) (ft : dfs_filtertype) (rf : dfs_filter) : Prop := {
  l_segment : ic_80p80_both_dfs (ic_curchan d) = false;
  l_on : disable_phy_err_processing d = false;
  l_tlv : ath_chip_is_bb_tlv d = true;
  l_type : aget (dfs_radarf d) t = Some ft;
  l_filter : aget (ft_filters ft) p = Some rf ∧ 0 <= p < ft_numfilters ft;
  l_accepts : accepts rf lo hi;
  l_pri : 100 <= lo ∧ ft_minpri ft <= lo ∧ hi <= u64 (dfs_pri_multiplier d * rf_maxpri rf);
  l_thr : 1 < rf_threshold rf <= 64 ∧ (rf_threshold rf - 1) * hi <= rf_filterlen rf < 4294967296;
}.

(** A pulse that the filter is for, on a channel that is not yet marked. *)
Record train_event (d : ath_dfs) (t : Z) (ft : dfs_filtertype) (rf : dfs_filter) (re : dfs_event) : Prop := {
  te_chan : ∃ rs, aget (dfs_radar d) (re_chanindex re) = Some rs ∧ Z.land (ic_flagext rs) CHANNEL_INTERFERENCE = 0;
  te_dur : 0 < re_dur re ∧ rf_mindur rf <= re_dur re <= rf_maxdur rf;
  te_rssi : ft_rssithresh ft <= re_rssi re ∨ re_dur re <= 4;
  te_sidx : sidx re ≠ 0 ∧ sidx re ≠ -4;
  te_ts : is_u32 (re_ts re) ∧ 0 < re_full_ts re < 18446744073709551616;
  te_chirp : ∀ l br, dfs_b5radars d = Some l → br ∈ l → re_dur re < b5_mindur (br_pulse br);
  te_row : ∃ row m, aget (dfs_radartable d) (re_dur re) = Some row ∧ 0 <= m < 16 ∧ aget row m = Some t ∧
    ∀ j, 0 <= j < m → ∃ q, aget row j = Some q ∧ q ≠ -1;
}.

Lemma bin5_loop_short ps d re ts diff b5 :
  b5_of d 0 = Some b5 → (∀ br, br ∈ b5 → re_dur re < b5_mindur (br_pulse br)) →
  Forall (λ q, 0 <= q < Z.of_nat (length b5)) ps → bin5_loop ps d re ts diff 0 = Some (false, d, re).
Proof.
  intros Hb Hs. induction 1 as [|q ps Hq Hps IH]; [done|]. cbn [bin5_loop]. rewrite Hb. cbn [mbind option_bind].
  destruct (aget_is_Some b5 q Hq) as [br Hbr]. rewrite Hbr. cbn [mbind option_bind].
  apply aget_lookup, list_elem_of_lookup_2 in Hbr; [|lia]. specialize (Hs br Hbr).
  assert (dfs_bin5_check_pulse (ic_curchan d) re br = false) as ->; [|exact IH].
  unfold dfs_bin5_check_pulse. split_if; [done|]. destruct (Z.leb_spec (b5_mindur (br_pulse br)) (re_dur re)); [lia|done].
Qed.

Lemma fix_duration_other c d re diff : sidx re ≠ 0 → fix_duration c d re diff = re.
Proof.
  intros Hs. unfold fix_duration. assert ((sidx re =? 0) = false) as E by by apply Z.eqb_neq.
  rewrite E, !andb_false_r. cbn [andb]. by rewrite E, !andb_false_r.
Qed.

(** What a run without a detection did to the filter. *)
Lemma match_event_visit c d re ts diff t p lo hi ft rf d' :
  dfs_ok d → listens d t p lo hi ft rf → train_event d t ft rf re → 0 <= re_dur re < 256 → 0 <= t → type_skipped re ts ft = false →
  match_event c d re ts diff 0 = Some (false, d') →
  ∃ d1 pl ri1 rf' ri2 ft', filter_step d1 pl re ts 0 rf ri1 = Some (false, rf', ri2) ∧ dfs_static d1 = dfs_static d ∧
    aget (dfs_radarf d') t = Some ft' ∧ aget (ft_filters ft') p = Some rf' ∧ type_static ft' = type_static ft ∧ ft_last_ts ft' = ts ∧
    info_core (dfs_rinfo d') = info_core (dfs_rinfo d) ∧ d' = with_types d (dfs_radarf d') (dfs_rinfo d').
Proof.
  intros Hok [_ _ _ Hty [Hf Hp] _ _ _] [_ _ _ [Hs0 Hs4] _ Hch (row & m & Hrow & Hm & Hrt & Hpre)] Hdur Ht Hskip Hrun. unfold match_event in Hrun.
  assert (reject_signature d re diff = false) as Hrej.
  { unfold reject_signature. assert ((sidx re =? -4) = false) as -> by by apply Z.eqb_neq. by rewrite andb_false_r. }
  rewrite Hrej, fix_duration_other in Hrun by done.
  assert (Hb5 : (if region_in d [DFS_FCC_DOMAIN; DFS_MKK_DOMAIN]
     then bin5_loop (seqZ 0 (rn_numbin5radars (dfs_rinfo d))) d re ts diff 0 else Some (false, d, re)) = Some (false, d, re)).
  { destruct (region_in _ _); [|done]. pose proof (ok_b5 d Hok) as H5. destruct (dfs_b5radars d) as [l|] eqn:El; [|by rewrite H5].
    apply (bin5_loop_short _ _ _ _ _ l); [done|eauto|]. apply Forall_forall. intros q Hq%elem_of_seqZ. destruct H5 as [H5 _]. lia. }
  rewrite Hb5 in Hrun. rewrite bind_Some in Hrun; cbv beta iota in Hrun. rewrite Hrow in Hrun. rewrite bind_Some in Hrun; cbv beta iota in Hrun.
  pose proof Hrow as Hrow'. apply aget_lookup in Hrow'; [|lia]. pose proof (ok_rows d Hok) as Hrows. rewrite Forall_lookup in Hrows.
  specialize (Hrows _ _ Hrow').
  destruct (types_loop_total d re ts 0 row (ok_radarf d Hok) (ok_types d Hok) Hrows) as (f & fts & ri & E & _ & Hri & _).
  { intros E. pose proof (ok_pulses_ext d Hok) as H. by rewrite E in H. }
  rewrite E in Hrun. injection Hrun as -> <-.
  destruct (types_loop_visit _ _ _ _ _ _ _ _ t m ft E) as (d1 & d2 & H1 & H2 & H3 & H4); try done; try lia.
  { unfold DFS_MAX_RADAR_OVERLAP. lia. }
  { intros j Hj. apply aget_Some in Hj as Hjr. apply aget_lookup in Hj; [|lia]. apply aget_lookup in Hrt; [|lia].
    pose proof (row_distinct _ _ _ _ (proj2 (proj2 Hrows)) Hj Hrt ltac:(lia)). lia. }
  destruct H3 as (ft1 & pl & fs & ri1 & fts1 & H3 & H5 & H6 & ->). rewrite H2 in H3. injection H3 as <-.
  pose proof (filters_loop_visit _ _ _ _ _ _ _ _ _ _ p rf H5 ltac:(apply NoDup_seqZ) Hf) as H7.
  rewrite decide_True in H7 by (apply elem_of_seqZ; lia). destruct H7 as (ri2 & rf' & ri3 & H7 & H8).
  exists d1, pl, ri2, rf', ri3, (ft <| ft_filters := fs |> <| ft_last_ts := ts |>). split; [exact H7|]. split; [exact H1|].
  split; [|by split_and!]. rewrite H4. change (dfs_radarf (with_types d1 fts1 ri1)) with fts1. by eapply aget_aset_eq.
Qed.

Lemma radar_event_visit c d re ts ri t p lo hi ft rf d' :
  dfs_ok d → listens d t p lo hi ft rf → train_event d t ft rf re → event_ok re → 0 <= t →
  event_time (dfs_rinfo d) re = (ts, ri) → 100 <= u32 (u32 ts - test_ts d) → type_skipped re ts ft = false →
  radar_event c d re 0 = Some (false, d') →
  ∃ d1 pl ri1 rf' ri2 ft', filter_step d1 pl re ts 0 rf ri1 = Some (false, rf', ri2) ∧ dfs_static d1 = dfs_static d ∧
    aget (dfs_radarf d') t = Some ft' ∧ aget (ft_filters ft') p = Some rf' ∧ type_static ft' = type_static ft ∧ ft_last_ts ft' = ts ∧
    info_core (dfs_rinfo d') = info_core ri ∧ test_ts d' = u32 ts ∧ dfs_radarq d' = dfs_radarq d ∧ dfs_b5radars d' = dfs_b5radars d ∧
    dfs_static d' = dfs_static d.
Proof.
  intros Hok Hl Hev Hevok Ht Htime Hdiff Hskip Hrun. unfold radar_event in Hrun. rewrite (l_on _ _ _ _ _ _ _ Hl) in Hrun.
  destruct (te_chan _ _ _ _ _ Hev) as (rs & Hrs & Hint). pose proof (aget_Some _ _ _ Hrs) as Hcr. rewrite (ok_radar d Hok) in Hcr.
  unfold DFS_NUM_RADAR_STATES in Hrun. destruct (Z.ltb_spec (re_chanindex re) 64); [|lia]. cbn [negb] in Hrun.
  rewrite Hrs in Hrun. rewrite bind_Some in Hrun; cbv beta iota in Hrun. rewrite Hint in Hrun. change (negb (0 =? 0)) with false in Hrun. cbv iota in Hrun.
  destruct (record_event_total d re 0 Hok ltac:(by intros []) Hevok) as (ts1 & diff & dur & d1 & E & Hg & Hdur).
  assert (E2 : ts1 = ts ∧ diff = u32 (u32 ts - test_ts d) ∧ re <| re_dur := dur |> = re ∧
    d1 = d <| dfs_rinfo := ri |> <| pulses := pulses d1 |> <| test_ts := u32 ts |>).
  { clear Hrun. unfold record_event in E. rewrite Htime in E. cbv zeta iota beta in E.
    change (ath_chip_is_bb_tlv (d <| dfs_rinfo := ri |>)) with (ath_chip_is_bb_tlv d) in E. rewrite (l_tlv _ _ _ _ _ _ _ Hl) in E. cbn [negb andb] in E.
    cbn [pl_of Z.eqb mbind option_bind] in E. change (dfs_process_pulse_dur (d <| dfs_rinfo := ri |>) (re_dur re)) with (dfs_process_pulse_dur d (re_dur re)) in E.
    assert (dfs_process_pulse_dur d (re_dur re) = re_dur re) as Hpd.
    { unfold dfs_process_pulse_dur. rewrite (l_tlv _ _ _ _ _ _ _ Hl). destruct (te_dur _ _ _ _ _ Hev). destruct (Z.eqb_spec (re_dur re) 0); [lia|done]. }
    rewrite Hpd in E. injection E as -> <- Hdur' <-. split_and!; [done|done| |done].
    assert (dur = re_dur re) as -> by congruence. by destruct re. }
  rewrite E in Hrun. rewrite bind_Some in Hrun; cbv beta iota in Hrun. destruct E2 as (E3 & E4 & E5 & Hd1). clear E. rewrite E3, E4, E5 in Hrun.
  destruct (Z.ltb_spec (u32 (u32 ts - test_ts d)) 100); [lia|]. rewrite bind_Some in Hrun; cbv beta iota in Hrun.
  pose proof (dfs_ok_grown _ _ _ Hg Hok) as Hok1.
  assert (Hf1 : dfs_radarf d1 = dfs_radarf d ∧ dfs_rinfo d1 = ri ∧ test_ts d1 = u32 ts ∧ dfs_b5radars d1 = dfs_b5radars d ∧
    dfs_radarq d1 = dfs_radarq d ∧ dfs_static d1 = dfs_static d ∧ dfs_radartable d1 = dfs_radartable d ∧ dfs_radar d1 = dfs_radar d) by (by rewrite Hd1).
  clear Hd1. destruct Hf1 as (Hf1 & Hf2 & Hf3 & Hf4 & Hf5 & Hf6 & Hf7 & Hf8).
  assert (Hl1 : listens d1 t p lo hi ft rf).
  { destruct Hl. split; try done; [by rewrite (f_equal ic_curchan Hf6 : ic_curchan d1 = ic_curchan d)
      |by rewrite (f_equal disable_phy_err_processing Hf6 : disable_phy_err_processing d1 = disable_phy_err_processing d)
      |by rewrite (f_equal ath_chip_is_bb_tlv Hf6 : ath_chip_is_bb_tlv d1 = ath_chip_is_bb_tlv d)|by rewrite Hf1|].
    by rewrite (f_equal dfs_pri_multiplier Hf6 : dfs_pri_multiplier d1 = dfs_pri_multiplier d). }
  assert (Hev1 : train_event d1 t ft rf re) by (destruct Hev; split; rewrite ?Hf4, ?Hf7, ?Hf8; done).
  destruct (match_event_visit c d1 re ts _ t p lo hi ft rf d' Hok1 Hl1 Hev1 (proj1 Hevok) Ht Hskip Hrun)
    as (d2 & pl & ri1 & rf' & ri2 & ft' & H1 & H2 & H3 & H4 & H5 & H6 & H7 & H8).
  rewrite Hf2 in H7. generalize dependent (dfs_radarf d'). generalize dependent (dfs_rinfo d'). intros ri' H7 fts' H3 H8. subst d'.
  exists d2, pl, ri1, rf', ri2, ft'. split; [exact H1|]. split; [congruence|]. split; [exact H3|]. split; [exact H4|].
  split; [exact H5|]. split; [exact H6|]. split; [exact H7|]. split; [exact Hf3|]. split; [exact Hf5|]. split; [exact Hf4|exact Hf6].
Qed.

(** ** Time stamps *)

(** The upper half of the 64-bit clock. *)
Definition prefix_ok (ri : dfs_info) : Prop := (4294967296 | rn_ts_prefix ri) ∧ is_u64 (rn_ts_prefix ri).

Lemma prefix_add A k : (4294967296 | A) → (4294967296 | u64 (A + Z.shiftl k DFS_TSSHIFT)).
Proof.
  intros [q ->]. unfold u64, DFS_TSSHIFT. rewrite Z.shiftl_mul_pow2 by lia. change (2 ^ 32) with 4294967296.
  rewrite <- Z.mul_add_distr_r. change 18446744073709551616 with (4294967296 * 4294967296).
  rewrite Z.mul_mod_distr_r by lia. apply Z.divide_factor_r.
Qed.

Lemma update_prefix_ok ri re : prefix_ok ri → prefix_ok (update_prefix ri re).
Proof.
  intros [Hd Hr]. unfold update_prefix. destruct (_ =? 0).
  { split; cbn; [apply Z.divide_0_r|red; lia]. }
  set (ri1 := if _ && _ then ri else _). assert (H1 : rn_ts_prefix ri1 = rn_ts_prefix ri) by (unfold ri1; by destruct (_ && _)).
  clearbody ri1. cbv zeta.
  assert (H2 : ∀ k, prefix_ok (ri1 <| rn_ts_prefix ::= λ p, u64 (p + Z.shiftl k DFS_TSSHIFT) |>)).
  { intros k. split; cbn; [rewrite H1; by apply prefix_add|apply u64_range]. }
  destruct (_ <=? _).
  - destruct (1 <? _); [|apply H2]. split; cbn; [apply prefix_add; rewrite H1; by apply prefix_add|apply u64_range].
  - destruct (_ <? _); [apply H2|]. by split; rewrite H1.
Qed.

Lemma lor_low A r : (4294967296 | A) → is_u32 r → Z.lor A r = A + r.
Proof.
  intros [q ->] Hr. assert (Hl : Z.land (q * 4294967296) r = 0).
  { change 4294967296 with (2 ^ 32). rewrite <- Z.shiftl_mul_pow2 by lia. apply Z.bits_inj'. intros n Hn.
    rewrite Z.land_spec, Z.bits_0, Z.shiftl_spec by done. destruct (decide (n < 32)).
    - by rewrite Z.testbit_neg_r by lia.
    - assert (r = r mod 2 ^ 32) as -> by (symmetry; apply Z.mod_small; red in Hr; lia).
      rewrite (Z.mod_pow2_bits_high r 32 n) by lia. apply andb_false_r. }
  rewrite <- Z.lxor_lor by done. symmetry. by apply Z.add_nocarry_lxor.
Qed.

Lemma event_time_spec ri re ts ri' :
  prefix_ok ri → is_u32 (re_ts re) → event_time ri re = (ts, ri') →
  prefix_ok ri' ∧ ts = rn_ts_prefix ri' + re_ts re ∧ 0 <= ts < 18446744073709551616 ∧
  rn_last_ts ri' = u16 (re_ts re) ∧ rn_lastfull_ts ri' = re_full_ts re.
Proof.
  intros Hp Hr [= <- <-]. pose proof (update_prefix_ok ri re Hp) as Hp'. cbn.
  split; [exact Hp'|]. rewrite lor_low by (apply Hp' || done). split; [done|]. split; [|done].
  destruct Hp' as [[q Hq] Hb]. red in Hb, Hr. rewrite Hq in Hb |- *. lia.
Qed.

(** The next pulse of the train keeps the upper half. *)
Lemma event_time_next ri re0 re ts ri' :
  rn_last_ts ri = u16 (re_ts re0) → rn_lastfull_ts ri = re_full_ts re0 → 0 < re_full_ts re0 →
  0 <= re_ts re0 < re_ts re → 0 <= re_full_ts re - re_full_ts re0 < 4294967296 →
  event_time ri re = (ts, ri') → rn_ts_prefix ri' = rn_ts_prefix ri.
Proof.
  intros Hl Hf H0 Hts Hfull [= _ <-]. cbn. unfold update_prefix. rewrite Hf. destruct (Z.eqb_spec (re_full_ts re0) 0); [lia|].
  set (ri1 := if _ && _ then ri else _). assert (H1 : rn_ts_prefix ri1 = rn_ts_prefix ri ∧ rn_last_ts ri1 = rn_last_ts ri ∧
    rn_lastfull_ts ri1 = rn_lastfull_ts ri) by (unfold ri1; by destruct (_ && _)). destruct H1 as (H1 & H2 & H3). cbv zeta.
  clearbody ri1. rewrite H2, H3, Hl, Hf. pose proof (u16_range (re_ts re0)) as Hu. unfold u16 in *.
  pose proof (Z.mod_le (re_ts re0) 65536 ltac:(lia) ltac:(lia)) as Hle.
  destruct (Z.leb_spec (re_ts re) (re_ts re0 mod 65536)); [lia|]. rewrite (u64_small (re_full_ts re - re_full_ts re0)) by (red; lia). unfold DFS_TSMASK.
  destruct (Z.ltb_spec 4294967295 (re_full_ts re - re_full_ts re0)); [lia|done].
Qed.

(** ** The train in the queue *)

(** Two pulses that follow each other. *)
Definition gap_ok (lo hi : Z) (a b : dfs_event) : Prop :=
  lo <= re_ts b - re_ts a <= hi ∧ 0 <= re_full_ts b - re_full_ts a < 4294967296.
Fixpoint spaced (lo hi : Z) (prev : dfs_event) (evs : list dfs_event) : Prop :=
  match evs with
  | [] => True
  | re :: evs => gap_ok lo hi prev re ∧ spaced lo hi re evs
  end.

(** After the pulse [prev] at [T], with the line [l] behind it; durations start at [D]. *)
Record tracked (d : ath_dfs) (t p lo hi D : Z) (ft : dfs_filtertype) (rf : dfs_filter) (prev : dfs_event) (T : Z)
    (l : list dfs_delayelem) : Prop := {
  tr_listens : listens d t p lo hi ft rf;
  tr_clock : prefix_ok (dfs_rinfo d) ∧ T = rn_ts_prefix (dfs_rinfo d) + re_ts prev ∧ 0 <= T < 18446744073709551616 ∧
    rn_last_ts (dfs_rinfo d) = u16 (re_ts prev) ∧ rn_lastfull_ts (dfs_rinfo d) = re_full_ts prev;
  tr_prev : is_u32 (re_ts prev) ∧ 0 < re_full_ts prev;
  tr_last : test_ts d = u32 T ∧ ft_last_ts ft = T ∧ dl_last_ts (rf_dl rf) = T;
  tr_line : ring_wf DFS_MAX_DL_SIZE (dl_ring (rf_dl rf)) ∧ ring_list DFS_MAX_DL_MASK (dl_ring (rf_dl rf)) = l;
  tr_train : train_list lo hi l;
  tr_newest : ∀ e, last l = Some e → de_ts e = T;
  tr_span : ∀ e, e ∈ l → 0 <= T - de_ts e <= (Z.of_nat (length l) - 1) * hi ∧ D <= de_dur e < D + 4;
  tr_short : Z.of_nat (length l) < rf_threshold rf - 1;
}.

Lemma listens_after d d' t p lo hi ft ft' rf rf' :
  listens d t p lo hi ft rf → dfs_static d' = dfs_static d → aget (dfs_radarf d') t = Some ft' → aget (ft_filters ft') p = Some rf' →
  type_static ft' = type_static ft → filter_static rf' = filter_static rf → listens d' t p lo hi ft' rf'.
Proof.
  intros [H1 H2 H3 H4 [H5 H6] H7 H8 H9] Hs Ha Hb Ht Hf.
  assert (ic_curchan d' = ic_curchan d ∧ disable_phy_err_processing d' = disable_phy_err_processing d ∧
    ath_chip_is_bb_tlv d' = ath_chip_is_bb_tlv d ∧ dfs_pri_multiplier d' = dfs_pri_multiplier d) as (E1 & E2 & E3 & E4).
  { split_and!; [exact (f_equal ic_curchan Hs)|exact (f_equal disable_phy_err_processing Hs)|exact (f_equal ath_chip_is_bb_tlv Hs)
      |exact (f_equal dfs_pri_multiplier Hs)]. }
  assert (ft_numfilters ft' = ft_numfilters ft ∧ ft_minpri ft' = ft_minpri ft) as [E5 E6]
    by (split; [exact (f_equal ft_numfilters Ht)|exact (f_equal ft_minpri Ht)]).
  assert (rf_maxpri rf' = rf_maxpri rf ∧ rf_minpri rf' = rf_minpri rf ∧ rf_threshold rf' = rf_threshold rf ∧ rf_filterlen rf' = rf_filterlen rf
    ∧ rf_ignore_pri_window rf' = rf_ignore_pri_window rf ∧ rf_patterntype rf' = rf_patterntype rf ∧
    rf_fixed_pri_radar_pulse rf' = rf_fixed_pri_radar_pulse rf) as (F1 & F2 & F3 & F4 & F5 & F6 & F7).
  { split_and!; [exact (f_equal rf_maxpri Hf)|exact (f_equal rf_minpri Hf)|exact (f_equal rf_threshold Hf)|exact (f_equal rf_filterlen Hf)
      |exact (f_equal rf_ignore_pri_window Hf)|exact (f_equal rf_patterntype Hf)|exact (f_equal rf_fixed_pri_radar_pulse Hf)]. }
  split; rewrite ?E1, ?E2, ?E3, ?E4, ?E5, ?E6, ?F1, ?F3, ?F4; try done.
  destruct H7. split; rewrite ?F1, ?F2, ?F5, ?F6, ?F7; done.
Qed.

Lemma train_event_after d d' t ft ft' rf rf' re :
  train_event d t ft rf re → dfs_static d' = dfs_static d → dfs_b5radars d' = dfs_b5radars d →
  type_static ft' = type_static ft → filter_static rf' = filter_static rf → train_event d' t ft' rf' re.
Proof.
  intros [H1 H2 H3 H4 H5 H6 H7] Hs Hb Ht Hf.
  assert (dfs_radar d' = dfs_radar d ∧ dfs_radartable d' = dfs_radartable d) as [E1 E2]
    by (split; [exact (f_equal dfs_radar Hs)|exact (f_equal dfs_radartable Hs)]).
  assert (ft_rssithresh ft' = ft_rssithresh ft) as E3 by exact (f_equal ft_rssithresh Ht).
  assert (rf_mindur rf' = rf_mindur rf ∧ rf_maxdur rf' = rf_maxdur rf) as [E4 E5]
    by (split; [exact (f_equal rf_mindur Hf)|exact (f_equal rf_maxdur Hf)]).
  split; rewrite ?E1, ?E2, ?E3, ?E4, ?E5, ?Hb; done.
Qed.

Lemma upd_dl_last_static rf T : filter_static (rf <| rf_dl ::= λ dl, dl <| dl_last_ts := T |> |>) = filter_static rf.
Proof. done. Qed.

Lemma info_core_clock ri ri' :
  info_core ri' = info_core ri →
  rn_ts_prefix ri' = rn_ts_prefix ri ∧ rn_last_ts ri' = rn_last_ts ri ∧ rn_lastfull_ts ri' = rn_lastfull_ts ri.
Proof.
  intros H. split_and!; [exact (f_equal rn_ts_prefix H)|exact (f_equal rn_last_ts H)|exact (f_equal rn_lastfull_ts H)].
Qed.

(** The first pulse of the train after a quiet time. *)
Record quiet_before (d : ath_dfs) (ft : dfs_filtertype) (rf : dfs_filter) (hi T : Z) : Prop := {
  qb_event : 100 <= u32 (u32 T - test_ts d);
  qb_type : ft_minpri ft <= u64 (T - ft_last_ts ft);
  qb_filter : 0 <= dl_last_ts (rf_dl rf) ∧ hi <= T - dl_last_ts (rf_dl rf) ∧
    u64 (dfs_pri_multiplier d * rf_maxpri rf) < T - dl_last_ts (rf_dl rf);
  qb_line : ring_wf DFS_MAX_DL_SIZE (dl_ring (rf_dl rf)) ∧ numelems (dl_ring (rf_dl rf)) = 0;
}.

Lemma not_skipped re T ft :
  ft_rssithresh ft <= re_rssi re ∨ re_dur re <= 4 → ft_minpri ft <= u64 (T - ft_last_ts ft) → type_skipped re T ft = false.
Proof.
  intros Hr Hm. unfold type_skipped. destruct (Z.ltb_spec (u64 (T - ft_last_ts ft)) (ft_minpri ft)); [lia|]. rewrite andb_false_l, orb_false_r.
  destruct (Z.ltb_spec (re_rssi re) (ft_rssithresh ft)), (Z.ltb_spec 4 (re_dur re)); done || lia.
Qed.

Lemma track_first c d t p lo hi D ft rf re d' :
  dfs_ok d → listens d t p lo hi ft rf → train_event d t ft rf re → event_ok re → 0 <= t → prefix_ok (dfs_rinfo d) →
  quiet_before d ft rf hi (event_time (dfs_rinfo d) re).1 → radar_event c d re 0 = Some (false, d') →
  ∃ ft' rf' T, tracked d' t p lo hi D ft' rf' re T [] ∧ type_static ft' = type_static ft ∧ filter_static rf' = filter_static rf ∧
    dfs_static d' = dfs_static d ∧ dfs_b5radars d' = dfs_b5radars d ∧ dfs_radarq d' = dfs_radarq d.
Proof.
  intros Hok Hl Hev Hevok Ht Hpre [Hq1 Hq2 (Hq3 & Hq4 & Hq5) [Hwf Hnum]] Hrun. destruct (event_time _ _) as [T ri] eqn:Etime. cbn [fst] in *.
  destruct (te_ts _ _ _ _ _ Hev) as [Hr32 Hfull]. destruct (event_time_spec _ _ _ _ Hpre Hr32 Etime) as (Hp1 & HT & HTr & Hc1 & Hc2).
  destruct (radar_event_visit c d re T ri t p lo hi ft rf d' Hok Hl Hev Hevok Ht Etime Hq1
    (not_skipped _ _ _ (te_rssi _ _ _ _ _ Hev) Hq2) Hrun)
    as (d1 & pl & ri1 & rf' & ri2 & ft' & Hstep & Hd1 & Hty & Hfi & Hts & Hlast & Hri & Htest & Hrq & Hb5 & Hst).
  rewrite (filter_step_first lo hi) in Hstep.
  - injection Hstep as <- _. exists ft', (rf <| rf_dl ::= λ dl, dl <| dl_last_ts := T |> |>), T.
    split; [|split_and!; done]. destruct (info_core_clock _ _ Hri) as (C1 & C2 & C3).
    split; rewrite ?C1, ?C2, ?C3; try done.
    + by eapply listens_after.
    + split; [by unfold prefix_ok; rewrite C1|done].
    + split; [done|lia].
    + split; [exact Hwf|]. cbn. apply nil_length_inv. pose proof (ring_list_length (mask:=DFS_MAX_DL_MASK) (dl_ring (rf_dl rf))). lia.
    + intros e He. by apply elem_of_nil in He.
    + destruct (l_thr _ _ _ _ _ _ _ Hl) as [Hthr _]. cbn. lia.
  - rewrite (f_equal ic_curchan Hd1 : ic_curchan d1 = ic_curchan d). apply Hl.
  - apply Hl.
  - apply Hev.
  - destruct Hl as [_ _ _ _ _ [_ _ Hr _ _] _ _]. lia.
  - lia.
  - rewrite (f_equal dfs_pri_multiplier Hd1 : dfs_pri_multiplier d1 = dfs_pri_multiplier d). exact Hq5.
  - exact Hq4.
Qed.

Lemma track_next c d t p lo hi D ft rf prev T l re d' :
  dfs_ok d → tracked d t p lo hi D ft rf prev T l → train_event d t ft rf re → event_ok re → 0 <= t →
  gap_ok lo hi prev re → D <= re_dur re < D + 4 → radar_event c d re 0 = Some (false, d') →
  ∃ ft' rf' T' e, tracked d' t p lo hi D ft' rf' re T' (l ++ [e]) ∧ type_static ft' = type_static ft ∧ filter_static rf' = filter_static rf ∧
    dfs_static d' = dfs_static d ∧ dfs_b5radars d' = dfs_b5radars d ∧ dfs_radarq d' = dfs_radarq d.
Proof.
  intros Hok [Hl (Hp & HT & HTr & Hc1 & Hc2) [Hr0 Hf0] (Hte & Htl & Hdl) [Hwf Hlist] Htrain Hnew Hspan Hshort] Hev Hevok Ht [Hgap Hfull] HD Hrun.
  destruct (event_time (dfs_rinfo d) re) as [T' ri] eqn:Etime. destruct (te_ts _ _ _ _ _ Hev) as [Hr32 Hre].
  destruct (event_time_spec _ _ _ _ Hp Hr32 Etime) as (Hp1 & HT1 & HTr1 & Hc3 & Hc4).
  destruct (l_pri _ _ _ _ _ _ _ Hl) as (Hlo & Hmin & Hmul). destruct (l_thr _ _ _ _ _ _ _ Hl) as [Hthr Hflen].
  pose proof (l_accepts _ _ _ _ _ _ _ Hl) as [_ _ (Hm0 & Hm1 & Hm2 & Hm3 & Hm4) _ _].
  pose proof (event_time_next (dfs_rinfo d) prev re T' ri Hc1 Hc2 ltac:(lia) ltac:(red in Hr0; lia) Hfull Etime) as Hpre.
  assert (HTgap : lo <= T' - T <= hi) by lia.
  assert (Hsmall : u32 (u32 T' - test_ts d) = T' - T).
  { rewrite Hte. unfold u32. rewrite <- Zminus_mod. apply Z.mod_small. lia. }
  assert (Hskip : ft_minpri ft <= u64 (T' - ft_last_ts ft)) by (rewrite Htl, u64_small; [lia|red; lia]).
  destruct (radar_event_visit c d re T' ri t p lo hi ft rf d' Hok Hl Hev Hevok Ht Etime ltac:(lia)
    (not_skipped _ _ _ (te_rssi _ _ _ _ _ Hev) Hskip) Hrun)
    as (d1 & pl & ri1 & rf' & ri2 & ft' & Hstep & Hd1 & Hty & Hfi & Hts & Hlast & Hri & Htest & Hrq & Hb5 & Hst).
  assert (Hw : ∀ e, e ∈ l → 0 <= T' - de_ts e <= Z.of_nat (length l) * hi).
  { intros e He. destruct (Hspan e He) as [Hs _]. lia. }
  assert (Hlen : Z.of_nat (length l) * hi <= rf_filterlen rf) by nia.
  destruct (filter_step_train lo hi d1 pl re T' T 0 rf ri1 l) as (f & rf1 & ri3 & Hstep1 & Hres); try done; try lia.
  - rewrite (f_equal ic_curchan Hd1 : ic_curchan d1 = ic_curchan d). apply Hl.
  - apply Hl.
  - apply Hev.
  - rewrite (f_equal dfs_pri_multiplier Hd1 : dfs_pri_multiplier d1 = dfs_pri_multiplier d). exact Hmul.
  - intros e He. specialize (Hw e He). lia.
  - nia.
  - intros e He. destruct (Hspan e He) as [_ Hd]. unfold DFS_DIFF. lia.
  - rewrite Hstep in Hstep1. injection Hstep1 as <- <- <-. destruct (Hres eq_refl) as (H1 & H2 & H3 & H4 & H5). clear Hres.
    eexists ft', rf', T', _. split; [|split_and!; done]. destruct (info_core_clock _ _ Hri) as (C1 & C2 & C3).
    split; rewrite ?C1, ?C2, ?C3; try done.
    + by eapply listens_after.
    + split; [by unfold prefix_ok; rewrite C1|done].
    + split; [done|lia].
    + apply train_list_snoc; [done|cbn; lia| |].
      * intros e0 He0. rewrite (Hnew e0 He0). cbn [de_ts]. assert (u32 (T' - u32 T) = T' - T) as ->; [|lia].
        unfold u32. rewrite Zminus_mod_idemp_r. apply Z.mod_small. lia.
      * intros e He. destruct (Hspan e He) as [_ Hd]. cbn [de_dur]. unfold DFS_DIFF. lia.
    + intros e. rewrite last_snoc. by intros [= <-].
    + intros e. rewrite length_app. cbn [length]. intros [He| ->%list_elem_of_singleton]%elem_of_app.
      * specialize (Hw e He). destruct (Hspan e He) as [_ Hd]. split; [|done]. lia.
      * cbn [de_ts de_dur]. split; [|done]. nia.
    + rewrite length_app. cbn [length]. rewrite (f_equal rf_threshold H2 : rf_threshold rf' = rf_threshold rf). lia.
Qed.

Lemma tracked_same d d1 t p lo hi D ft rf prev T l :
  tracked d t p lo hi D ft rf prev T l → dfs_static d1 = dfs_static d → dfs_radarf d1 = dfs_radarf d → dfs_rinfo d1 = dfs_rinfo d →
  test_ts d1 = test_ts d → tracked d1 t p lo hi D ft rf prev T l.
Proof.
  intros [] Hs Hf Hi Ht. split; rewrite ?Hi, ?Ht; try done. eapply listens_after; [done|done| |by apply tr_listens0|done|done].
  rewrite Hf. apply tr_listens0.
Qed.

Lemma track_loop n c d t p lo hi D ft rf prev T l seg :
  dfs_ok d → tracked d t p lo hi D ft rf prev T l → 0 <= t →
  Forall (train_event d t ft rf) (dfs_radarq d) → Forall (λ re, D <= re_dur re < D + 4) (dfs_radarq d) →
  spaced lo hi prev (dfs_radarq d) → (length (dfs_radarq d) <= n)%nat →
  rf_threshold rf - 1 <= Z.of_nat (length l) + Z.of_nat (length (dfs_radarq d)) →
  ∃ seg' d', radar_loop n c d seg = Some (true, seg', d').
Proof.
  revert d ft rf prev T l seg. induction n as [|n IH]; intros d ft rf prev T l seg Hok Htr Ht Hevs Hdurs Hsp Hn Hcount.
  { pose proof (tr_short _ _ _ _ _ _ _ _ _ _ _ Htr). lia. }
  cbn [radar_loop]. destruct (dfs_radarq d) as [|re q] eqn:Eq.
  { pose proof (tr_short _ _ _ _ _ _ _ _ _ _ _ Htr). cbn in Hcount. lia. }
  set (d1 := d <| dfs_radarq := q |> <| dfs_eventq ::= λ l, l ++ [zero_event] |>). cbv zeta.
  assert (Hev : event_ok re ∧ Forall event_ok q) by (pose proof (ok_queue d Hok) as H; rewrite Eq in H; by apply Forall_cons).
  assert (Hok1 : dfs_ok d1) by (destruct Hok; split; try done; apply Hev).
  assert (Htr1 : tracked d1 t p lo hi D ft rf prev T l) by by eapply tracked_same.
  assert (Hs1 : dfs_static d1 = dfs_static d) by done. assert (Hb1 : dfs_b5radars d1 = dfs_b5radars d) by done.
  assert (Hq1 : dfs_radarq d1 = q) by done. clearbody d1.
  assert (event_seg d1 re = 0) as ->.
  { unfold event_seg. by rewrite (l_segment _ _ _ _ _ _ _ (tr_listens _ _ _ _ _ _ _ _ _ _ _ Htr1)). }
  destruct (radar_event_total c d1 re 0 Hok1 ltac:(by intros []) (proj1 Hev)) as (f & d2 & E & Hg & _). rewrite E, bind_Some. cbv beta iota.
  destruct f; [by eexists _, _|]. apply Forall_cons in Hevs as [Hre Hevs]. apply Forall_cons in Hdurs as [HD Hdurs]. destruct Hsp as [Hgap Hsp].
  destruct (track_next c d1 t p lo hi D ft rf prev T l re d2 Hok1 Htr1) as (ft' & rf' & T' & e & H1 & H2 & H3 & H4 & H5 & H6); try done.
  { by eapply train_event_after. }
  { apply Hev. }
  apply (IH d2 ft' rf' re T' (l ++ [e])); rewrite ?H6, ?Hq1; try done.
  - by eapply dfs_ok_grown.
  - eapply Forall_impl; [exact Hevs|]. intros x Hx. eapply train_event_after; [exact Hx|congruence..].
  - cbn in Hn. lia.
  - rewrite length_app. cbn [length] in *. rewrite (f_equal rf_threshold H3 : rf_threshold rf' = rf_threshold rf). lia.
Qed.

(** The whole queue: the first pulse and the others. *)
Lemma train_in_loop n c d t p lo hi D ft rf re evs :
  dfs_ok d → listens d t p lo hi ft rf → 0 <= t → prefix_ok (dfs_rinfo d) → dfs_radarq d = re :: evs →
  quiet_before d ft rf hi (event_time (dfs_rinfo d) re).1 →
  Forall (train_event d t ft rf) (re :: evs) → Forall (λ re, D <= re_dur re < D + 4) (re :: evs) → spaced lo hi re evs →
  rf_threshold rf <= Z.of_nat (length (re :: evs)) → (length (re :: evs) <= n)%nat →
  ∃ seg' d', radar_loop n c d DFS_80P80_SEG0 = Some (true, seg', d').
Proof.
  intros Hok Hl Ht Hpre Eq Hquiet Hevs Hdurs Hsp Hthr Hn. destruct n as [|n]; [cbn in Hn; lia|]. cbn [radar_loop]. rewrite Eq.
  set (d1 := d <| dfs_radarq := evs |> <| dfs_eventq ::= λ l, l ++ [zero_event] |>). cbv zeta.
  assert (Hev : event_ok re ∧ Forall event_ok evs) by (pose proof (ok_queue d Hok) as H; rewrite Eq in H; by apply Forall_cons).
  assert (Hok1 : dfs_ok d1) by (destruct Hok; split; try done; apply Hev).
  assert (Hl1 : listens d1 t p lo hi ft rf) by (eapply listens_after; [exact Hl|done|apply Hl|apply Hl|done|done]).
  assert (Hs1 : dfs_static d1 = dfs_static d) by done. assert (Hb1 : dfs_b5radars d1 = dfs_b5radars d) by done.
  assert (Hq1 : dfs_radarq d1 = evs) by done. assert (Hri1 : dfs_rinfo d1 = dfs_rinfo d) by done.
  assert (Hqu1 : quiet_before d1 ft rf hi (event_time (dfs_rinfo d1) re).1) by (destruct Hquiet; by split).
  clearbody d1. apply Forall_cons in Hevs as [Hre Hevs]. apply Forall_cons in Hdurs as [HD Hdurs].
  assert (event_seg d1 re = 0) as -> by by (unfold event_seg; rewrite (l_segment _ _ _ _ _ _ _ Hl1)).
  destruct (radar_event_total c d1 re 0 Hok1 ltac:(by intros []) (proj1 Hev)) as (f & d2 & E & Hg & _). rewrite E, bind_Some. cbv beta iota.
  destruct f; [by eexists _, _|].
  assert (Hre1 : train_event d1 t ft rf re) by by eapply train_event_after. rewrite <- Hri1 in Hpre.
  destruct (track_first c d1 t p lo hi D ft rf re d2 Hok1 Hl1 Hre1 (proj1 Hev) Ht Hpre Hqu1 E) as (ft' & rf' & T & H1 & H2 & H3 & H4 & H5 & H6).
  apply (track_loop n c d2 t p lo hi D ft' rf' re T []); rewrite ?H6, ?Hq1; try done.
  - by eapply dfs_ok_grown.
  - eapply Forall_impl; [exact Hevs|]. intros x Hx. eapply train_event_after; [exact Hx|congruence..].
  - cbn in Hn. lia.
  - cbn [length] in *. rewrite (f_equal rf_threshold H3 : rf_threshold rf' = rf_threshold rf). lia.
Qed.

(** C6: a radar is found.  When the queue holds a train of as many pulses as the
    threshold of a filter asks for, at intervals that the filter accepts and that
    differ by less than twelve microseconds, after a time without pulses, the task
    reports a radar; nothing is assumed about the other types, filters and detectors. *)
Theorem regular_train_detected d t p lo hi D ft rf re evs :
  dfs_ok d → listens d t p lo hi ft rf → 0 <= t → prefix_ok (dfs_rinfo d) →
  IEEE80211_IS_CHAN_DFS (ic_curchan d) = true → dfs_bangradar d = false →
  dfsdomain d ≠ DFS_MKK_DOMAIN ∨ 5500 <= ic_freq (ic_curchan d) →
  dfs_radarq d = re :: evs → rf_threshold rf <= Z.of_nat (length (re :: evs)) <= MAX_EVENTS →
  Forall (train_event d t ft rf) (re :: evs) → Forall (λ re, D <= re_dur re < D + 4) (re :: evs) → spaced lo hi re evs →
  quiet_before d ft rf hi (event_time (dfs_rinfo d) re).1 →
  ∃ d', dfs_task d = Some (true, d').
Proof.
  intros Hok Hl Ht Hpre Hdfs Hbang Hw53 Eq [Hthr Hmax] Hevs Hdurs Hsp Hquiet. unfold dfs_task, dfs_process_radarevent.
  rewrite Hdfs, Hbang. cbn [negb]. cbv iota.
  assert (((dfsdomain d =? DFS_MKK_DOMAIN) && ath_chip_is_bb_tlv d && (ic_freq (ic_curchan d) <? 5500)) = false) as ->.
  { destruct Hw53; [by rewrite (proj2 (Z.eqb_neq _ _))|]. destruct (Z.ltb_spec (ic_freq (ic_curchan d)) 5500); [lia|]. by rewrite andb_false_r. }
  cbv zeta. cbn [andb]. cbv iota. unfold process_queue. unfold MAX_EVENTS in *.
  destruct (train_in_loop (Z.to_nat 100) (ic_curchan d) d t p lo hi D ft rf re evs Hok Hl Ht Hpre Eq Hquiet Hevs Hdurs Hsp Hthr ltac:(lia))
    as (seg & d1 & E). rewrite E, bind_Some. cbv beta iota.
  destruct (radar_loop_total (Z.to_nat 100) (ic_curchan d) d DFS_80P80_SEG0 Hok ltac:(by intros []))
    as (f & seg1 & d2 & E2 & Hok2 & _). rewrite E in E2. injection E2 as <- <- <-.
  destruct (radar_detected_total d1 seg Hok2) as (d3 & -> & _). rewrite !bind_Some. by eexists.
Qed.
