(* ===== verification/DfsSetup.v ===== *)
(** The set-up of the radar filters: what a device is like after
    dfs_init_radar_filters, for every table that fits the arrays, and that the
    tables of all regions do. *)
From S2P Require Import Prelude Arrays DfsTypes DfsLine DfsBin DfsCheck DfsEvent DfsInit DfsSafe DfsQuiet.

(** ** Rows of the radar table *)

(** The types of a duration, each once, and free places. *)
Definition tab_row (n : Z) (row : list Z) : Prop :=
  ∃ used, row = used ++ replicate (16 - length used) (-1) ∧ NoDup used ∧ Forall (λ t, 0 <= t < n) used.

Lemma used_length n used : NoDup used → Forall (λ t, 0 <= t < n) used → (length used <= Z.to_nat n)%nat.
Proof.
  intros Hnd Hr. rewrite <- (length_seqZ 0 n). apply submseteq_length, NoDup_submseteq; [done|].
  intros t Ht. apply elem_of_seqZ. rewrite Forall_forall in Hr. specialize (Hr t Ht). lia.
Qed.

Lemma tab_row_mono n m row : n <= m → tab_row n row → tab_row m row.
Proof. intros Hn (used & E & Hnd & Hr). exists used. split; [done|]. split; [done|]. eapply Forall_impl; [exact Hr|]. cbn. lia. Qed.

Lemma tab_row_ok n row : n <= 16 → tab_row n row → dur_row_ok row.
Proof.
  intros Hn (used & -> & Hnd & Hr). pose proof (used_length n used Hnd Hr). split; [|split].
  - rewrite length_app, length_replicate. lia.
  - apply Forall_app. split; [|apply Forall_replicate; lia]. eapply Forall_impl; [exact Hr|]. cbn. lia.
  - rewrite filter_app. apply NoDup_app. assert (filter (λ t, t ≠ -1) (replicate (16 - length used) (-1)) = []) as ->.
    { generalize (16 - length used)%nat. intros k. by induction k. }
    split; [by apply NoDup_filter|]. split; [by intros x _ ?%elem_of_nil|constructor].
Qed.

Lemma free_place_spec pre suf r fuel :
  Forall (.≠ -1) suf → (length (pre ++ suf) < 16)%nat → (length suf < fuel)%nat →
  free_place fuel (Z.of_nat (length pre)) (pre ++ suf ++ -1 :: r) = Some (Some (Z.of_nat (length (pre ++ suf)))).
Proof.
  intros Hs. revert pre fuel. induction Hs as [|x suf Hx Hs IH]; intros pre fuel Hlen Hf; (destruct fuel as [|fuel]; [lia|]); cbn [free_place].
  - rewrite length_app in Hlen. cbn in Hlen. unfold DFS_MAX_RADAR_OVERLAP. rewrite (proj2 (Z.ltb_lt _ _)) by lia.
    rewrite app_nil_l, app_nil_r, aget_mid. done.
  - rewrite length_app in Hlen. cbn in Hlen. unfold DFS_MAX_RADAR_OVERLAP. rewrite (proj2 (Z.ltb_lt _ _)) by lia.
    change ((x :: suf) ++ -1 :: r) with (x :: (suf ++ -1 :: r)). rewrite aget_mid. cbn [mbind option_bind].
    destruct (Z.eqb_spec x (-1)); [done|]. specialize (IH (pre ++ [x]) fuel). rewrite <- !app_assoc in IH. cbn [app] in IH.
    replace (Z.of_nat (length pre) + 1) with (Z.of_nat (length (pre ++ [x]))) by (rewrite length_app; cbn; lia).
    apply IH; [rewrite length_app; cbn; lia|cbn in Hf; lia].
Qed.

(** A type enters a row that has room. *)
Lemma enter_row t row :
  0 <= t < 16 → tab_row t row →
  ∃ k row', free_place (Z.to_nat DFS_MAX_RADAR_OVERLAP + 1) 0 row = Some (Some k) ∧ aset row k (s8 t) = Some row' ∧
    tab_row (t + 1) row' ∧ t ∈ row' ∧ ∀ x, x ≠ -1 → x ∈ row → x ∈ row'.
Proof.
  intros Ht (used & -> & Hnd & Hr). pose proof (used_length t used Hnd Hr) as Hlen.
  assert (16 - length used = S (15 - length used))%nat as -> by lia. cbn [replicate].
  assert (s8 t = t) as -> by (unfold s8; rewrite u8_small by (red; lia); rewrite (proj2 (Z.ltb_lt _ _)); lia).
  eexists (Z.of_nat (length used)), _. split; [|split; [apply aset_mid|split; [|split]]].
  - apply (free_place_spec [] used).
    + eapply Forall_impl; [exact Hr|]. cbn. lia.
    + cbn. lia.
    + change (Z.to_nat DFS_MAX_RADAR_OVERLAP) with 16%nat. lia.
  - exists (used ++ [t]). rewrite length_app. cbn [length]. rewrite <- app_assoc. split; [do 2 f_equal; f_equal; lia|]. split.
    + apply NoDup_app. split; [done|]. split; [|apply NoDup_singleton]. intros x Hx ->%list_elem_of_singleton.
      rewrite Forall_forall in Hr. specialize (Hr t Hx). lia.
    + apply Forall_app. split; [eapply Forall_impl; [exact Hr|]; cbn; lia|]. by constructor; [lia|].
  - apply elem_of_app. right. left.
  - intros x Hx. rewrite !elem_of_app, !elem_of_cons. intros [?|[?|?]]; [by left|done|by right; right].
Qed.

Lemma enter_type_spec durs t table :
  0 <= t < 16 → NoDup durs → Forall (λ i, 0 <= i < Z.of_nat (length table)) durs →
  (∀ i row, aget table i = Some row → tab_row (t + 1) row ∧ (i ∈ durs → tab_row t row)) →
  ∃ table', enter_type durs t table = Some (true, table') ∧ length table' = length table ∧
    ∀ i row', aget table' i = Some row' → tab_row (t + 1) row' ∧ (i ∈ durs → t ∈ row') ∧
      ∃ row, aget table i = Some row ∧ ∀ x, x ≠ -1 → x ∈ row → x ∈ row'.
Proof.
  intros Ht Hnd. revert table. induction Hnd as [|i durs Hi Hnd IH]; intros table Hdurs Hrows; cbn [enter_type].
  { exists table. split; [done|]. split; [done|]. intros i row Hrow. split; [by apply (Hrows i)|]. split; [by intros ?%elem_of_nil|]. by exists row. }
  apply Forall_cons in Hdurs as [Hin Hdurs]. destruct (aget_is_Some table i Hin) as [row Hrow]. rewrite Hrow. cbn [mbind option_bind].
  destruct (Hrows i row Hrow) as [_ Hrow0]. destruct (enter_row t row Ht) as (k & row' & E1 & E2 & Hr1 & Hr2 & Hr3); [apply Hrow0; by left|].
  rewrite E1. cbn [mbind option_bind]. rewrite E2. cbn [mbind option_bind].
  rewrite (aset_zset table i row') by done. pose proof (aset_zset table i row' Hin) as E3. cbn [mbind option_bind].
  destruct (IH (zset table i row')) as (table' & E & Hlen & H).
  - by rewrite length_zset.
  - intros j r Hj. pose proof (aget_Some _ _ _ Hj) as Hjn. destruct (decide (i = j)) as [<-|Hne].
    + rewrite (aget_aset_eq _ _ _ _ E3) in Hj. injection Hj as <-. split; [done|]. done.
    + rewrite (aget_aset_ne _ _ _ _ _ E3) in Hj by lia. destruct (Hrows j r Hj) as [H1 H2]. split; [done|]. intros Hjd. apply H2. by right.
  - exists table'. split; [done|]. rewrite length_zset in Hlen. split; [done|]. intros j r Hj. destruct (H j r Hj) as (H1 & H2 & r0 & H3 & H4).
    pose proof (aget_Some _ _ _ Hj) as Hjn. split; [done|]. destruct (decide (i = j)) as [<-|Hne].
    + rewrite (aget_aset_eq _ _ _ _ E3) in H3. injection H3 as <-. split; [intros _; apply H4; [lia|done]|]. exists row. split; [done|]. auto.
    + rewrite (aget_aset_ne _ _ _ _ _ E3) in H3 by lia. split; [intros [->|?]%elem_of_cons; [done|auto]|]. by exists r0.
Qed.

(** ** Devices while the table is entered *)

(** What a filter of the entry [rp] looks for. *)
Definition filter_for (rp : dfs_pulse) : dfs_filter := filter_static (fill_filter false rp zero_filter).

(** A filter for the entry [rp] is among those of a type of its durations. *)
Definition has_filter (d : ath_dfs) (rp : dfs_pulse) : Prop :=
  ∃ t ft j rf, 0 <= t < rn_numradars (dfs_rinfo d) ∧ aget (dfs_radarf d) t = Some ft ∧ same_type rp ft = true ∧
    0 <= j < ft_numfilters ft ∧ aget (ft_filters ft) j = Some rf ∧ filter_static rf = filter_for rp.

(** The types below [n] are in the rows of their durations, and have at most [k]
    filters each. *)
Definition type_entered (table : list (list Z)) (k t : Z) (ft : dfs_filtertype) : Prop :=
  0 <= ft_numfilters ft <= k ∧ ∀ i row, ft_mindur ft <= i <= ft_maxdur ft → aget table i = Some row → t ∈ row.

Definition with_tables (d : ath_dfs) (fts : list dfs_filtertype) (table : list (list Z)) (n : Z) : ath_dfs :=
  d <| dfs_radarf := fts |> <| dfs_radartable := table |> <| dfs_rinfo ::= λ r, r <| rn_numradars := n |> |>.

(** The device [d0] when the entries [done] of a table have been processed. *)
Record set_up (d0 : ath_dfs) (done : list dfs_pulse) (d : ath_dfs) : Prop := {
  su_same : d = with_tables d0 (dfs_radarf d) (dfs_radartable d) (rn_numradars (dfs_rinfo d));
  su_num : 0 <= rn_numradars (dfs_rinfo d) <= Z.of_nat (length done);
  su_len : length (dfs_radarf d) = 32%nat;
  su_types : Forall type_ok (dfs_radarf d);
  su_entered : ∀ t ft, 0 <= t < rn_numradars (dfs_rinfo d) → aget (dfs_radarf d) t = Some ft →
    type_entered (dfs_radartable d) (Z.of_nat (length done)) t ft;
  su_table : length (dfs_radartable d) = 256%nat;
  su_rows : Forall (tab_row (rn_numradars (dfs_rinfo d))) (dfs_radartable d);
  su_done : Forall (has_filter d) done;
}.

Lemma find_type_spec ns rp fts :
  Forall (λ n, 0 <= n < Z.of_nat (length fts)) ns →
  find_type ns rp fts = Some None ∨
  ∃ t ft, find_type ns rp fts = Some (Some t) ∧ t ∈ ns ∧ aget fts t = Some ft ∧ same_type rp ft = true.
Proof.
  induction 1 as [|n ns Hn Hns IH]; [by left|]. cbn [find_type]. destruct (aget_is_Some fts n Hn) as [ft Hft]. rewrite Hft.
  cbn [mbind option_bind]. destruct (same_type rp ft) eqn:E; [right; exists n, ft; by repeat split; try left|].
  destruct IH as [IH|(t & ft' & H1 & H2 & H3)]; [by left|right]. exists t, ft'. split; [done|]. split; [by right|done].
Qed.

Lemma reset_delayline_shape dl : dl_shape (dl_ring dl) → dl_shape (dl_ring (dfs_reset_delayline dl)).
Proof. destruct dl as [[e f l n] t]. intros [H1 H2]. cbn in *. split; cbn; [by rewrite length_map|done]. Qed.

Lemma fill_filter_shape ext rp rf : filter_shape rf → filter_shape (fill_filter ext rp rf).
Proof. intros [H1 H2]. split; destruct ext; cbn; try done; by apply reset_delayline_shape. Qed.
Lemma fill_filter_static ext rp rf : filter_static (fill_filter ext rp rf) = filter_for rp.
Proof. by destruct ext, rf. Qed.

Lemma same_type_eq rp ft : same_type rp ft = true → ft_mindur ft = rp_mindur rp ∧ ft_maxdur ft = rp_maxdur rp.
Proof. unfold same_type. intros H. bool_hyps. done. Qed.

(** An entry of a table that the code can process: the divisions are defined
    and the durations are rows of the radar table. *)
Definition entry_fits (rp : dfs_pulse) : Prop :=
  0 < rp_pulsefreq rp ∧ 0 < rp_max_pulsefreq rp ∧ 0 <= rp_mindur rp ∧ rp_maxdur rp < 256.

(** The first half of [add_pulse_type]: the type of the entry. *)
Definition pulse_type_of (rp : dfs_pulse) (s : ath_dfs * Z * Z) : option (bool * Z * (ath_dfs * Z * Z)) :=
  let '(d, min_rssithresh, max_pulsedur) := s in
  let n := rn_numradars (dfs_rinfo d) in
  known ← find_type (seqZ 0 n) rp (dfs_radarf d);
  match known with
  | Some t => Some (true, t, s)
  | None =>
      if DFS_MAX_RADAR_TYPES <? n + 1 then Some (false, n, s)
      else
        ft ← aget (dfs_radarf d) n;
        let ft := new_type rp ft in
        fts ← aset (dfs_radarf d) n ft;
        '(ok, table) ← enter_type (seqZ (rp_mindur rp) (rp_maxdur rp + 1 - rp_mindur rp)) n (dfs_radartable d);
        let d := d <| dfs_radarf := fts |> <| dfs_radartable := table |> in
        let d := if ok : bool then d <| dfs_rinfo ::= λ r, r <| rn_numradars := n + 1 |> |> else d in
        Some (ok, n, (d, Z.min (ft_rssithresh ft) min_rssithresh, Z.max (ft_maxdur ft) max_pulsedur))
  end.

Lemma pulse_type_spec d0 done rp d m M :
  set_up d0 done d → entry_fits rp → (length done < 10)%nat →
  ∃ t d1 m1 M1 ft, pulse_type_of rp (d, m, M) = Some (true, t, (d1, m1, M1)) ∧
    d1 = with_tables d (dfs_radarf d1) (dfs_radartable d1) (rn_numradars (dfs_rinfo d1)) ∧
    0 <= t < rn_numradars (dfs_rinfo d1) ∧ rn_numradars (dfs_rinfo d1) <= Z.of_nat (length done) + 1 ∧
    length (dfs_radarf d1) = 32%nat ∧ Forall type_ok (dfs_radarf d1) ∧
    (∀ u fu, 0 <= u < rn_numradars (dfs_rinfo d1) → aget (dfs_radarf d1) u = Some fu → type_entered (dfs_radartable d1) (Z.of_nat (length done)) u fu) ∧
    length (dfs_radartable d1) = 256%nat ∧ Forall (tab_row (rn_numradars (dfs_rinfo d1))) (dfs_radartable d1) ∧
    Forall (has_filter d1) done ∧ aget (dfs_radarf d1) t = Some ft ∧ same_type rp ft = true.
Proof.
  intros [Hsame Hnum Hlen Hty Hent Htab Hrows Hdone] (_ & _ & Hmin & Hmax) Hk. unfold pulse_type_of. set (n := rn_numradars (dfs_rinfo d)) in *.
  destruct (find_type_spec (seqZ 0 n) rp (dfs_radarf d)) as [E|(t & ft & E & Ht & Hft & Hst)].
  { apply Forall_forall. intros x Hx%elem_of_seqZ. lia. }
  2: { rewrite E. cbn [mbind option_bind]. apply elem_of_seqZ in Ht. exists t, d, m, M, ft. split; [done|].
       split; [by destruct d, dfs_rinfo|]. split_and!; try done; try lia. }
  rewrite E. cbn [mbind option_bind]. unfold DFS_MAX_RADAR_TYPES. rewrite (proj2 (Z.ltb_ge _ _)) by lia.
  destruct (aget_is_Some (dfs_radarf d) n ltac:(lia)) as [ft0 Hft0]. rewrite Hft0. cbn [mbind option_bind].
  set (ft := new_type rp ft0). rewrite (aset_zset _ n ft) by lia. cbn [mbind option_bind].
  set (durs := seqZ (rp_mindur rp) (rp_maxdur rp + 1 - rp_mindur rp)).
  rewrite Forall_aget in Hrows.
  destruct (enter_type_spec durs n (dfs_radartable d)) as (table & E2 & Hlen2 & H2).
  { lia. } { apply NoDup_seqZ. } { apply Forall_forall. intros x Hx%elem_of_seqZ. lia. }
  { intros i row Hrow. split; [eapply tab_row_mono; [|by apply (Hrows i)]; lia|intros _; by apply (Hrows i)]. }
  rewrite E2. cbn [mbind option_bind]. set (fts := zset (dfs_radarf d) n ft).
  pose proof (aset_zset (dfs_radarf d) n ft ltac:(lia)) as E3. fold fts in E3.
  pose proof (proj1 (Forall_aget _ _) Hty n ft0 Hft0) as (Hfl & Hfn & Hfs).
  eexists n, _, _, _, ft. split; [reflexivity|]. cbn [dfs_radarf dfs_radartable dfs_rinfo rn_numradars].
  change (dfs_radarf (set_field _ _ _)) with fts. change (dfs_radartable (set_field _ _ _)) with table.
  change (rn_numradars (dfs_rinfo (set_field _ _ _))) with (n + 1).
  split; [done|]. split; [lia|]. split; [lia|]. split; [unfold fts; by rewrite length_zset|].
  split. { rewrite Forall_aget in Hty |- *. intros i x Hi. pose proof (aget_Some _ _ _ Hi). destruct (decide (n = i)) as [<-|Hne].
    - rewrite (aget_aset_eq _ _ _ _ E3) in Hi. injection Hi as <-. split; [exact Hfl|]. split; [cbn; lia|exact Hfs].
    - rewrite (aget_aset_ne _ _ _ _ _ E3) in Hi by lia. by apply (Hty i). }
  split. { intros u fu Hu Hfu. destruct (decide (n = u)) as [<-|Hne].
    - rewrite (aget_aset_eq _ _ _ _ E3) in Hfu. injection Hfu as <-. split; [cbn; lia|]. cbn. intros i row Hi Hrow.
      destruct (H2 i row Hrow) as (_ & Hin & _). apply Hin, elem_of_seqZ. lia.
    - rewrite (aget_aset_ne _ _ _ _ _ E3) in Hfu by lia. destruct (Hent u fu ltac:(lia) Hfu) as [Hn1 Hin]. split; [done|]. intros i row Hi Hrow.
      destruct (H2 i row Hrow) as (_ & _ & row0 & Hrow0 & Hincl). apply Hincl; [lia|]. by apply (Hin i). }
  split; [congruence|]. split. { apply Forall_aget. intros i row Hrow. by apply (H2 i). }
  split; [|split; [by apply (aget_aset_eq _ _ _ _ E3)|]].
  - eapply Forall_impl; [exact Hdone|]. intros r (t & g & j & rf & Ht & Hg & Hrest). exists t, g, j, rf. split; [|split; [|exact Hrest]].
    + change (rn_numradars (dfs_rinfo (set_field _ _ _))) with (n + 1). fold n in Ht. lia.
    + change (dfs_radarf (set_field _ _ _)) with fts. rewrite (aget_aset_ne _ _ _ _ _ E3); [done|lia|]. fold n in Ht. lia.
  - unfold same_type. cbn. by rewrite !Z.eqb_refl.
Qed.

(** The second half: the type's next filter. *)
Definition pulse_filter_of (ext : bool) (rp : dfs_pulse) (x : bool * Z * (ath_dfs * Z * Z)) : option (bool * (ath_dfs * Z * Z)) :=
  let '(ok, t, s) := x in
  if negb ok then Some (false, s)
  else
    let '(d, min_rssithresh, max_pulsedur) := s in
    ft ← aget (dfs_radarf d) t;
    rf ← aget (ft_filters ft) (ft_numfilters ft);
    let rf := fill_filter ext rp rf in
    fs ← aset (ft_filters ft) (ft_numfilters ft) rf;
    let ft := ft <| ft_filters := fs |> <| ft_numfilters ::= λ n, n + 1 |> <| ft_minpri ::= Z.min (rf_minpri rf) |> in
    fts ← aset (dfs_radarf d) t ft;
    Some (true, (d <| dfs_radarf := fts |>, min_rssithresh, max_pulsedur)).
Lemma add_pulse_type_halves ext rp s : add_pulse_type ext rp s = pulse_type_of rp s ≫= pulse_filter_of ext rp.
Proof.
  destruct s as [[d m] M]. unfold add_pulse_type, pulse_type_of. cbv zeta.
  destruct (find_type _ _ _) as [[t|]|]; cbn [mbind option_bind]; [done| |done]. destruct (_ <? _); [done|].
  destruct (aget _ _); cbn [mbind option_bind]; [|done]. destruct (aset _ _ _); cbn [mbind option_bind]; [|done].
  destruct (enter_type _ _ _) as [[ok table]|]; cbn [mbind option_bind]; done.
Qed.

Lemma add_pulse_type_spec ext d0 done rp d m M :
  set_up d0 done d → entry_fits rp → (length done < 10)%nat →
  ∃ d' m' M', add_pulse_type ext rp (d, m, M) = Some (true, (d', m', M')) ∧ set_up d0 (done ++ [rp]) d'.
Proof.
  intros Hset Hrp Hk. pose proof (su_same _ _ _ Hset) as Hsame0.
  destruct (pulse_type_spec d0 done rp d m M Hset Hrp Hk) as (t & d1 & m1 & M1 & ft & E & Hsame & Ht & Hn & Hlen & Hty & Hent & Htab & Hrows & Hdone & Hft & Hst).
  rewrite add_pulse_type_halves, E. cbn [mbind option_bind]. unfold pulse_filter_of. cbn [negb]. rewrite Hft. cbn [mbind option_bind].
  destruct (proj1 (Forall_aget _ _) Hty t ft Hft) as (Hfl & Hfn & Hfs). destruct (Hent t ft Ht Hft) as [Hnf Hin].
  destruct (aget_is_Some (ft_filters ft) (ft_numfilters ft) ltac:(lia)) as [rf0 Hrf0]. rewrite Hrf0. cbn [mbind option_bind].
  set (rf := fill_filter ext rp rf0). pose proof (aset_zset (ft_filters ft) (ft_numfilters ft) rf ltac:(lia)) as E1. rewrite E1. cbn [mbind option_bind].
  set (fs := zset _ _ rf) in *. set (ft' := ft <| ft_filters := fs |> <| ft_numfilters ::= _ |> <| ft_minpri ::= _ |>).
  pose proof (aset_zset (dfs_radarf d1) t ft' ltac:(lia)) as E2. rewrite E2. cbn [mbind option_bind]. set (fts := zset _ _ ft') in *.
  eexists _, m1, M1. split; [reflexivity|].
  assert (Hold : ∀ r, has_filter d1 r → has_filter (d1 <| dfs_radarf := fts |>) r).
  { intros r (u & g & j & rg & Hu & Hg & Hsg & Hj & Hrg & Hstat). destruct (decide (t = u)) as [<-|Hne].
    - assert (g = ft) as -> by congruence. exists t, ft', j, rg. split; [done|]. split; [by apply (aget_aset_eq _ _ _ _ E2)|]. split; [done|].
      split; [cbn; lia|]. split; [|done]. change (ft_filters ft') with fs. rewrite (aget_aset_ne _ _ _ _ _ E1); [done|lia|lia].
    - exists u, g, j, rg. split; [done|]. split; [|done]. cbn. rewrite (aget_aset_ne _ _ _ _ _ E2); [done|lia|done]. }
  split; cbn [dfs_radarf dfs_radartable dfs_rinfo];
    change (dfs_radarf (d1 <| dfs_radarf := fts |>)) with fts; change (dfs_radartable (d1 <| dfs_radarf := fts |>)) with (dfs_radartable d1);
    change (dfs_rinfo (d1 <| dfs_radarf := fts |>)) with (dfs_rinfo d1).
  - rewrite Hsame, Hsame0. done.
  - rewrite length_app. cbn. lia.
  - unfold fts. by rewrite length_zset.
  - rewrite Forall_aget in Hty |- *. intros u x Hx. pose proof (aget_Some _ _ _ Hx). destruct (decide (t = u)) as [<-|Hne].
    + rewrite (aget_aset_eq _ _ _ _ E2) in Hx. injection Hx as <-. split; [cbn; unfold fs; by rewrite length_zset|]. split; [cbn; lia|].
      change (ft_filters ft') with fs. apply Forall_aget. intros j g Hj. pose proof (aget_Some _ _ _ Hj) as Hjn. rewrite Forall_aget in Hfs.
      destruct (decide (ft_numfilters ft = j)) as [<-|Hj'].
      * rewrite (aget_aset_eq _ _ _ _ E1) in Hj. injection Hj as <-. apply fill_filter_shape. by apply (Hfs (ft_numfilters ft)).
      * rewrite (aget_aset_ne _ _ _ _ _ E1) in Hj by lia. by apply (Hfs j).
    + rewrite (aget_aset_ne _ _ _ _ _ E2) in Hx by lia. by apply (Hty u).
  - intros u fu Hu Hfu. rewrite length_app. cbn [length]. destruct (decide (t = u)) as [<-|Hne].
    + rewrite (aget_aset_eq _ _ _ _ E2) in Hfu. injection Hfu as <-. split; [cbn; lia|exact Hin].
    + rewrite (aget_aset_ne _ _ _ _ _ E2) in Hfu by lia. destruct (Hent u fu Hu Hfu) as [H1 H2]. split; [lia|exact H2].
  - done.
  - done.
  - apply Forall_app. split; [eapply Forall_impl; [exact Hdone|exact Hold]|]. constructor; [|done].
    exists t, ft', (ft_numfilters ft), rf. split; [exact Ht|]. split; [by apply (aget_aset_eq _ _ _ _ E2)|]. split; [done|]. split; [cbn; lia|].
    split; [by apply (aget_aset_eq _ _ _ _ E1)|]. apply fill_filter_static.
Qed.

Lemma add_pulse_types_spec ext d0 rps done d m M :
  set_up d0 done d → Forall entry_fits rps → (length done + length rps <= 10)%nat →
  ∃ d' m' M', add_pulse_types ext rps (d, m, M) = Some (true, (d', m', M')) ∧ set_up d0 (done ++ rps) d'.
Proof.
  revert done d m M. induction rps as [|rp rps IH]; intros done d m M Hset Hrps Hk; cbn [add_pulse_types].
  { exists d, m, M. by rewrite app_nil_r. }
  apply Forall_cons in Hrps as [Hrp Hrps]. cbn [length] in Hk.
  destruct (add_pulse_type_spec ext d0 done rp d m M Hset Hrp ltac:(lia)) as (d1 & m1 & M1 & E & Hset1). rewrite E. cbn [mbind option_bind].
  destruct (IH (done ++ [rp]) d1 m1 M1 Hset1 Hrps) as (d' & m' & M' & E' & Hset'); [rewrite length_app; cbn; lia|].
  exists d', m', M'. split; [done|]. by rewrite <- app_assoc in Hset'.
Qed.

(** ** Devices that can be set up *)

(** The shapes of a device, whatever region it was set up for before, if any; the
    boards with one segment have no channel of 80 + 80 MHz. *)
Record configurable (d : ath_dfs) : Prop := {
  cf_radar : length (dfs_radar d) = 64%nat;
  cf_radarf : length (dfs_radarf d) = 32%nat;
  cf_types : Forall type_ok (dfs_radarf d);
  cf_table : length (dfs_radartable d) = 256%nat;
  cf_rows : Forall (λ row, length row = 16%nat) (dfs_radartable d);
  cf_pulses : pl_shape (pulses d);
  cf_pulses_ext : match pulses_ext_seg d with Some pl => pl_shape pl | None => ic_80p80_both_dfs (ic_curchan d) = false end;
  cf_dur : 0 <= dfs_last_bin5_dur (dfs_rinfo d) < 256;
  cf_dur_ext : 0 <= dfs_last_bin5_dur_ext_seg (dfs_rinfo d) < 256;
  cf_queue : Forall event_ok (dfs_radarq d);
  cf_board : ic_80p80_both_dfs (ic_curchan d) = true → dfs_hw_bd_id d ≠ DFS_HWBD_QCA6174;
}.

(** A device that the radar task has run on can be set up again. *)
Lemma dfs_ok_configurable d :
  dfs_ok d → (ic_80p80_both_dfs (ic_curchan d) = true → dfs_hw_bd_id d ≠ DFS_HWBD_QCA6174) → configurable d.
Proof. intros [] Hb. split; try done. eapply Forall_impl; [exact ok_rows|]. by intros row (H & _). Qed.

(** So can one that has just been attached. *)
Lemma attached_configurable chan board row :
  length row = 16%nat → (ic_80p80_both_dfs chan = true → board ≠ DFS_HWBD_QCA6174) → configurable (attached chan board row).
Proof.
  intros Hrow Hb. assert (pl_shape (mk_ring (replicate 1024 (mk_pulse 0 0 0)) 0 DFS_MAX_PULSE_BUFFER_MASK 0)) as Hpl by (split; [done|cbn; unfold DFS_MAX_PULSE_BUFFER_SIZE; lia]).
  assert (dl_shape (dl_ring zero_line)) as Hdl by (split; [done|cbn; unfold DFS_MAX_DL_SIZE; lia]).
  split; try done; cbn [attached dfs_radar dfs_radarf dfs_radartable pulses_ext_seg ic_curchan dfs_rinfo dfs_last_bin5_dur dfs_last_bin5_dur_ext_seg dfs_radarq].
  - apply Forall_replicate. split; [done|]. split; [cbn; lia|]. by apply Forall_replicate.
  - by apply Forall_replicate.
  - destruct (Z.eqb_spec board DFS_HWBD_QCA6174) as [->|]; cbn; [|done]. apply not_true_is_false. intros E. by apply Hb.
  - unfold MAX_BIN5_DUR. destruct (negb _); lia.
Qed.

(** A table that fits: at most ten entries, as many as a type has filters, and at
    most one chirp detector. *)
Definition tab_fits (info : ath_dfs_radar_tab_info) : Prop :=
  tab_dfsdomain info ≠ 0 ∧ (length (tab_radars info) <= 10)%nat ∧ Forall entry_fits (tab_radars info) ∧
  (length (tab_b5pulses info) <= 1)%nat.

(** The device looks for the pulses of [rp]: it has the filter, and the filter's
    type is in the row of every duration of the entry. *)
Definition listens_for (d : ath_dfs) (rp : dfs_pulse) : Prop :=
  ∃ t ft j rf, 0 <= t < rn_numradars (dfs_rinfo d) ∧ aget (dfs_radarf d) t = Some ft ∧ same_type rp ft = true ∧
    0 <= j < ft_numfilters ft ∧ aget (ft_filters ft) j = Some rf ∧ filter_static rf = filter_for rp ∧
    ∀ i, rp_mindur rp <= i <= rp_maxdur rp → ∃ row, aget (dfs_radartable d) i = Some row ∧ t ∈ row.

Lemma set_up_listens d0 done d rp : set_up d0 done d → entry_fits rp → rp ∈ done → listens_for d rp.
Proof.
  intros [] (_ & _ & Hmin & Hmax) Hin. rewrite Forall_forall in su_done0. destruct (su_done0 rp Hin) as (t & ft & j & rf & Ht & Hft & Hst & Hrest).
  destruct Hrest as (Hj & Hrf & Hstat). exists t, ft, j, rf. split_and!; try done; try lia. intros i Hi.
  destruct (aget_is_Some (dfs_radartable d) i ltac:(lia)) as [row Hrow]. exists row. split; [done|].
  destruct (su_entered0 t ft Ht Hft) as [_ H]. apply (H i row); [|done]. destruct (same_type_eq rp ft Hst) as [-> ->]. done.
Qed.

(** Resets keep what a device listens for. *)
Lemma listens_grown d d' rp :
  dfs_static d' = dfs_static d → Forall2 (type_grown 0) (dfs_radarf d) (dfs_radarf d') → dfs_rinfo d' = dfs_rinfo d →
  listens_for d rp → listens_for d' rp.
Proof.
  intros Hs Ht Hr (t & ft & j & rf & Htn & Hft & Hst & Hj & Hrf & Hstat & Hrows).
  assert (dfs_radartable d' = dfs_radartable d) as Htab by exact (f_equal dfs_radartable Hs).
  rewrite aget_lookup in Hft by lia. destruct (Forall2_lookup_l _ _ _ _ _ Ht Hft) as (ft' & Hft' & Hts & Hfs).
  rewrite aget_lookup in Hrf by lia. destruct (Forall2_lookup_l _ _ _ _ _ Hfs Hrf) as (rf' & Hrf' & Hrs & _).
  assert (ft_numfilters ft' = ft_numfilters ft) as En by exact (f_equal ft_numfilters Hts).
  exists t, ft', j, rf'. rewrite Hr, Htab, En, !aget_lookup by lia. split_and!; try done; try lia; [|congruence].
  unfold same_type in *. rewrite (f_equal ft_filterdur Hts : ft_filterdur ft' = ft_filterdur ft), (f_equal ft_numpulses Hts : ft_numpulses ft' = ft_numpulses ft).
  by rewrite (f_equal ft_mindur Hts : ft_mindur ft' = ft_mindur ft), (f_equal ft_maxdur Hts : ft_maxdur ft' = ft_maxdur ft).
Qed.

Lemma reset_rinfo d seg d' : dfs_reset_alldelaylines d seg = Some d' → dfs_rinfo d' = dfs_rinfo d.
Proof.
  unfold dfs_reset_alldelaylines. destruct (ext_board d seg).
  - destruct (pulses_ext_seg d); [|by intros [= ->]]. destruct (dfs_b5radars_ext_seg d); [|by intros [= ->]].
    destruct (mapM _ _); cbn [mbind option_bind]; [|done]. destruct (update_first _ _ _); cbn [mbind option_bind]; [|done]. by intros [= <-].
  - destruct (dfs_b5radars d); [|by intros [= ->]].
    destruct (mapM _ _); cbn [mbind option_bind]; [|done]. destruct (update_first _ _ _); cbn [mbind option_bind]; [|done]. by intros [= <-].
Qed.

(** ** The set-up *)

(** The device [d'] after the set-up of [d] with a table. *)
Record tables_ready (info : ath_dfs_radar_tab_info) (d d' : ath_dfs) : Prop := {
  tr_ok : dfs_ok d';
  tr_domain : dfsdomain d' = tab_dfsdomain info;
  tr_b5 : rn_numbin5radars (dfs_rinfo d') = Z.of_nat (length (tab_b5pulses info));
  tr_types : 0 <= rn_numradars (dfs_rinfo d') <= DFS_MAX_RADAR_TYPES;
  tr_listens : ∀ rp, rp ∈ tab_radars info → listens_for d' rp;
  tr_events : num_events d' = num_events d;
  tr_chan : ic_curchan d' = ic_curchan d;
  tr_board : dfs_hw_bd_id d' = dfs_hw_bd_id d;
}.

Lemma ready_grown info d d1 d2 :
  event_grown 0 d1 d2 → dfs_rinfo d2 = dfs_rinfo d1 → tables_ready info d d1 → tables_ready info d d2.
Proof.
  intros Hg Hr []. split; rewrite ?Hr; try done.
  - by eapply dfs_ok_grown.
  - rewrite <- tr_domain0. exact (f_equal dfsdomain (eg_static _ _ _ Hg)).
  - intros rp Hrp. apply (listens_grown d1); [apply Hg|apply Hg|done|by apply tr_listens0].
  - rewrite <- tr_events0. apply Hg.
  - rewrite <- tr_chan0. exact (f_equal ic_curchan (eg_static _ _ _ Hg)).
  - rewrite <- tr_board0. exact (f_equal dfs_hw_bd_id (eg_static _ _ _ Hg)).
Qed.

Lemma ready_reset info d d1 seg :
  tables_ready info d d1 → dfs_radarq d1 = [] →
  ∃ d2, dfs_reset_alldelaylines d1 seg = Some d2 ∧ tables_ready info d d2 ∧ dfs_radarq d2 = [].
Proof.
  intros Hr Hq. destruct (dfs_reset_alldelaylines_total d1 seg (tr_ok _ _ _ Hr)) as (d2 & E & Hg). exists d2. split; [done|].
  split; [eapply ready_grown; [exact Hg|by eapply reset_rinfo|done]|]. destruct (eg_queue _ _ _ Hg) as [->| ->]; done.
Qed.

(** The device when its tables have been cleared. *)
Definition cleared (info : ath_dfs_radar_tab_info) (d : ath_dfs) : ath_dfs :=
  d <| ath_dfs_isdfsregdomain := 0 |> <| dfsdomain := tab_dfsdomain info |> <| ath_dfs_isdfsregdomain := 1 |>
    <| dfs_rinfo ::= λ r, r <| rn_numradars := 0 |> |> <| dfs_radartable ::= map (map (λ _, -1)) |>.

Lemma cleared_configurable info d : configurable d → configurable (cleared info d).
Proof.
  intros []. split; try done; cbn; [by rewrite length_map|]. apply Forall_map. eapply Forall_impl; [exact cf_rows0|].
  intros row Hrow. cbn. by rewrite length_map.
Qed.

Lemma cleared_set_up info d : configurable d → set_up (cleared info d) [] (cleared info d).
Proof.
  intros []. split; try done; cbn.
  - intros t ft Ht. lia.
  - by rewrite length_map.
  - apply Forall_map. eapply Forall_impl; [exact cf_rows0|]. intros row Hrow. exists []. split; [|split; [constructor|done]].
    change (map (λ _, -1) row = replicate 16 (-1)). rewrite <- Hrow. clear. induction row as [|x row IH]; [done|]. cbn. by f_equal.
Qed.

(** The device with the chirp detectors of its region. *)
Definition with_detectors (info : ath_dfs_radar_tab_info) (d : ath_dfs) : ath_dfs :=
  let ext := negb (dfs_hw_bd_id d =? DFS_HWBD_QCA6174) in
  let b5 := map new_b5 (tab_b5pulses info) in
  d <| dfs_rinfo ::= λ r, r <| rn_numbin5radars := Z.of_nat (length b5) |> |>
    <| dfs_b5radars := match b5 with [] => None | _ => Some b5 end |>
    <| dfs_b5radars_ext_seg := match b5 with [] => None | _ => if ext then Some b5 else None end |>.

Lemma detectors_ok l : b5_list_ok (Z.of_nat (length (map new_b5 l))) (map new_b5 l).
Proof. split; [done|]. apply Forall_map, Forall_true. intros p. split; [done|cbn; unfold DFS_MAX_B5_SIZE; lia]. Qed.

Lemma with_detectors_ok d0 info d :
  configurable d0 → tab_fits info → set_up d0 (tab_radars info) d → dfs_ok (with_detectors info d).
Proof.
  intros [] (_ & Hlen & _ & Hb5) Hset. pose proof Hset as [Hsame Hnum Hrl Hty _ Htab Hrows _].
  assert (Hf : ∀ A (f : ath_dfs → A), f d = f (with_tables d0 (dfs_radarf d) (dfs_radartable d) (rn_numradars (dfs_rinfo d)))).
  { intros A f. exact (f_equal f Hsame). }
  pose proof (detectors_ok (tab_b5pulses info)) as Hok. set (b5 := map new_b5 (tab_b5pulses info)) in *.
  assert (Hl5 : length b5 = length (tab_b5pulses info)) by apply length_map.
  assert (Ed : (with_detectors info d) = with_detectors info d) by done.
  split; unfold with_detectors; fold b5; cbn.
  - by rewrite (Hf _ dfs_radar).
  - exact Hrl.
  - exact Hty.
  - exact Htab.
  - eapply Forall_impl; [exact Hrows|]. intros row. apply tab_row_ok. lia.
  - by rewrite (Hf _ pulses).
  - by rewrite (Hf _ pulses_ext_seg), (Hf _ ic_curchan).
  - lia.
  - destruct b5; [done|exact Hok].
  - rewrite (Hf _ dfs_hw_bd_id), (Hf _ ic_curchan). change (dfs_hw_bd_id (with_tables d0 _ _ _)) with (dfs_hw_bd_id d0).
    change (ic_curchan (with_tables d0 _ _ _)) with (ic_curchan d0). destruct b5; [done|]. destruct (Z.eqb_spec (dfs_hw_bd_id d0) DFS_HWBD_QCA6174); cbn; [|exact Hok].
    intros E. by destruct (cf_board0 E).
  - by rewrite (Hf _ dfs_rinfo).
  - by rewrite (Hf _ dfs_rinfo).
  - by rewrite (Hf _ dfs_radarq).
Qed.

Lemma radarq_rinfo d : dfs_rinfo (dfs_reset_radarq d) = dfs_rinfo d ∧ dfs_radarq (dfs_reset_radarq d) = [].
Proof. done. Qed.

(** Resetting the lines and the queue of a device that is ready but for its
    queue. *)
Lemma init_resets d :
  dfs_ok d →
  ∃ d1 d2, dfs_reset_alldelaylines d DFS_80P80_SEG0 = Some d1 ∧
    (if negb (dfs_hw_bd_id d1 =? DFS_HWBD_QCA6174) then dfs_reset_alldelaylines d1 DFS_80P80_SEG1 else Some d1) = Some d2 ∧
    event_grown 0 d (dfs_reset_radarq d2) ∧ dfs_rinfo (dfs_reset_radarq d2) = dfs_rinfo d.
Proof.
  intros Hok. destruct (dfs_reset_alldelaylines_total d DFS_80P80_SEG0 Hok) as (d1 & E1 & H1). exists d1.
  assert (∃ d2, (if negb (dfs_hw_bd_id d1 =? DFS_HWBD_QCA6174) then dfs_reset_alldelaylines d1 DFS_80P80_SEG1 else Some d1) = Some d2 ∧
    event_grown 0 d d2 ∧ dfs_rinfo d2 = dfs_rinfo d1) as (d2 & E2 & H2 & Er).
  { destruct (negb _); [|by exists d1]. destruct (dfs_reset_alldelaylines_total d1 DFS_80P80_SEG1 (dfs_ok_grown _ _ _ H1 Hok)) as (d2 & E2 & H2).
    exists d2. split; [done|]. split; [exact (growth_trans 0 0 _ _ _ H1 H2)|by eapply reset_rinfo]. }
  exists d2. split; [done|]. split; [done|]. split; [exact (growth_trans 0 0 _ _ _ H2 (dfs_reset_radarq_grown d2))|].
  rewrite (proj1 (radarq_rinfo d2)), Er. by eapply reset_rinfo.
Qed.

Lemma detectors_ready d0 info d :
  configurable d0 → tab_fits info → set_up (cleared info d0) (tab_radars info) d → tables_ready info d0 (with_detectors info d).
Proof.
  intros Hc Hfit Hset. pose proof (with_detectors_ok _ info d (cleared_configurable info d0 Hc) Hfit Hset) as Hok.
  pose proof (su_same _ _ _ Hset) as Hsame. destruct Hfit as (_ & Hlen & Hent & _). pose proof (su_num _ _ _ Hset) as Hn.
  split; try done.
  - exact (f_equal dfsdomain Hsame).
  - cbn. by rewrite length_map.
  - cbn. unfold DFS_MAX_RADAR_TYPES. lia.
  - intros rp Hrp. rewrite Forall_forall in Hent. destruct (set_up_listens _ _ d rp Hset (Hent rp Hrp) Hrp) as (t & ft & j & rf & H).
    by exists t, ft, j, rf.
  - exact (f_equal num_events Hsame).
  - exact (f_equal ic_curchan Hsame).
  - exact (f_equal dfs_hw_bd_id Hsame).
Qed.

(** Fields that the radar task does not use. *)
Lemma ready_ext info d d1 d2 :
  tables_ready info d d1 → length (dfs_radar d2) = 64%nat →
  (dfs_radarf d2, dfs_radartable d2, pulses d2, pulses_ext_seg d2, ic_curchan d2, dfs_hw_bd_id d2, dfsdomain d2) =
  (dfs_radarf d1, dfs_radartable d1, pulses d1, pulses_ext_seg d1, ic_curchan d1, dfs_hw_bd_id d1, dfsdomain d1) →
  (dfs_b5radars d2, dfs_b5radars_ext_seg d2, dfs_radarq d2, dfs_eventq d2) = (dfs_b5radars d1, dfs_b5radars_ext_seg d1, dfs_radarq d1, dfs_eventq d1) →
  (rn_numradars (dfs_rinfo d2), rn_numbin5radars (dfs_rinfo d2), dfs_last_bin5_dur (dfs_rinfo d2), dfs_last_bin5_dur_ext_seg (dfs_rinfo d2)) =
  (rn_numradars (dfs_rinfo d1), rn_numbin5radars (dfs_rinfo d1), dfs_last_bin5_dur (dfs_rinfo d1), dfs_last_bin5_dur_ext_seg (dfs_rinfo d1)) →
  tables_ready info d d2.
Proof.
  intros [[]] Hl [= E1 E2 E3 E4 E5 E6 E7] [= E8 E9 E10 E11] [= E12 E13 E14 E15].
  split; [split|..]; unfold num_events, listens_for; rewrite ?E1, ?E2, ?E3, ?E4, ?E5, ?E6, ?E7, ?E8, ?E9, ?E10, ?E11, ?E12, ?E13, ?E14, ?E15; done.
Qed.

Lemma init_filters_ready d info :
  configurable d → tab_fits info →
  ∃ d', dfs_init_radar_filters (Some info) d = Some (DFS_STATUS_SUCCESS, d') ∧ tables_ready info d d' ∧ dfs_radarq d' = [].
Proof.
  intros Hc Hfit. pose proof Hfit as (Hdom & Hlen & Hent & _). unfold dfs_init_radar_filters. rewrite (proj2 (Z.eqb_neq _ _) Hdom).
  change (dfs_hw_bd_id (d <| ath_dfs_isdfsregdomain := 0 |>)) with (dfs_hw_bd_id d). set (ext := negb (dfs_hw_bd_id d =? _)).
  fold (cleared info d). destruct (add_pulse_types_spec ext (cleared info d) (tab_radars info) [] (cleared info d) DFS_MAX_RSSI_VALUE 0)
    as (d1 & m & M & E & Hset); [by apply cleared_set_up|done|done|].
  rewrite E. cbn [mbind option_bind negb]. cbn [app] in Hset. pose proof (detectors_ready d info d1 Hc Hfit Hset) as Hr.
  assert (ext = negb (dfs_hw_bd_id d1 =? DFS_HWBD_QCA6174)) as Eext by (rewrite (f_equal dfs_hw_bd_id (su_same _ _ _ Hset)); done).
  rewrite Eext. fold (with_detectors info d1).
  destruct (init_resets _ (tr_ok _ _ _ Hr)) as (d2 & d3 & E1 & E2 & Hg & Eri).
  assert (dfs_hw_bd_id d2 = dfs_hw_bd_id d1) as Eb.
  { destruct (dfs_reset_alldelaylines_total _ DFS_80P80_SEG0 (tr_ok _ _ _ Hr)) as (d2' & E1' & Hg'). rewrite E1 in E1'. injection E1' as <-.
    exact (f_equal dfs_hw_bd_id (eg_static _ _ _ Hg')). }
  change (dfs_reset_alldelaylines _ DFS_80P80_SEG0) with (dfs_reset_alldelaylines (with_detectors info d1) DFS_80P80_SEG0).
  rewrite E1. cbn [mbind option_bind]. rewrite <- Eb, E2. cbn [mbind option_bind]. eexists. split; [reflexivity|]. split; [|done].
  pose proof (ready_grown info d _ _ Hg Eri Hr) as Hr3. apply (ready_ext info d (dfs_reset_radarq d3)); try done. exact (ok_radar _ (tr_ok _ _ _ Hr3)).
Qed.

Lemma getchanstate_length c d : length (dfs_radar (dfs_getchanstate c d).2) = length (dfs_radar d).
Proof.
  unfold dfs_getchanstate. destruct (list_find _ _) as [[i x]|]; [done|]. destruct (list_find _ _) as [[i x]|]; [|done]. cbn. apply length_zset.
Qed.
Lemma ready_getchanstate info d d1 c :
  tables_ready info d d1 → tables_ready info d (dfs_getchanstate c d1).2 ∧ dfs_radarq (dfs_getchanstate c d1).2 = dfs_radarq d1.
Proof.
  intros Hr. pose proof (getchanstate_length c d1) as Hl. rewrite (ok_radar _ (tr_ok _ _ _ Hr)) in Hl.
  split; [apply (ready_ext info d d1); [done|exact Hl|..]|]; unfold dfs_getchanstate;
    (destruct (list_find _ _) as [[i x]|]; [done|]; by destruct (list_find _ _) as [[i x]|]).
Qed.

Lemma radar_enable_ready info hostap ext_ch d :
  configurable d → tab_fits info →
  ∃ d', dfs_radar_enable info hostap ext_ch d = Some (DFS_STATUS_SUCCESS, d') ∧ tables_ready info d d' ∧ dfs_radarq d' = [].
Proof.
  intros Hc Hfit. destruct (init_filters_ready d info Hc Hfit) as (d1 & E & Hr & Hq). unfold dfs_radar_enable. rewrite E. cbn [mbind option_bind].
  change (DFS_STATUS_SUCCESS =? DFS_STATUS_FAIL) with false. cbv iota zeta. destruct (hostap && _); [|by exists d1].
  assert (Hreset : ∀ d2, tables_ready info d d2 → dfs_radarq d2 = [] →
    ∃ d3, (d2 ← dfs_reset_alldelaylines d2 DFS_80P80_SEG0;
           if ic_80p80_both_dfs (ic_curchan d1) then dfs_reset_alldelaylines d2 DFS_80P80_SEG1 else Some d2) = Some d3 ∧
      tables_ready info d d3 ∧ dfs_radarq d3 = []).
  { intros d2 Hr2 Hq2. destruct (ready_reset info d d2 DFS_80P80_SEG0 Hr2 Hq2) as (d3 & -> & Hr3 & Hq3). cbn [mbind option_bind].
    destruct (ic_80p80_both_dfs _); [by apply ready_reset|by exists d3]. }
  set (d2 := d1 <| dfs_proc_phyerr ::= _ |>).
  destruct (Hreset d2) as (d3 & -> & Hr3 & Hq3); [apply (ready_ext info d d1); try done; apply (tr_ok _ _ _ Hr)|done|]. cbn [mbind option_bind].
  pose proof (ready_getchanstate info d d3 (ic_curchan d1) Hr3) as [Hr4 Hq4].
  destruct (dfs_getchanstate (ic_curchan d1) d3) as [rs_pri d4]. cbn [snd] in Hr4, Hq4. rewrite Hq3 in Hq4. cbv iota beta.
  set (ext := if IS_CHAN_HT40 _ then ext_ch else None). clearbody ext.
  assert (∃ rs_ext d5, match ext with Some c => dfs_getchanstate c d4 | None => (None, d4) end = (rs_ext, d5) ∧
    tables_ready info d d5 ∧ dfs_radarq d5 = []) as (rs_ext & d5 & -> & Hr5 & Hq5).
  { destruct ext as [c|]; [|by exists None, d4]. destruct (ready_getchanstate info d d4 c Hr4) as [H1 H2].
    destruct (dfs_getchanstate c d4) as [rs_ext d5]. exists rs_ext, d5. split; [done|]. split; [done|]. cbn in H2; congruence. }
  destruct rs_pri as [index_pri|]; [|by exists d5]. destruct (match ext, rs_ext with Some _, None => false | _, _ => true end); [|by exists d5].
  assert (∃ d6, (if negb (index_pri =? dfs_curchan_radindex d5)
      then d2 ← dfs_reset_alldelaylines d5 DFS_80P80_SEG0;
           if ic_80p80_both_dfs (ic_curchan d1) then dfs_reset_alldelaylines d2 DFS_80P80_SEG1 else Some d2
      else Some d5) = Some d6 ∧ tables_ready info d d6 ∧ dfs_radarq d6 = [])
    as (d6 & -> & Hr6 & Hq6) by (destruct (negb _); [by apply Hreset|by exists d5]).
  cbn [mbind option_bind]. eexists. split; [reflexivity|].
  split; [apply (ready_ext info d d6); destruct rs_ext; try done; apply (tr_ok _ _ _ Hr6)|by destruct rs_ext].
Qed.

(** ** The tables of the regions *)
Definition dfs_regions : list Z := [DFS_FCC_DOMAIN; DFS_ETSI_DOMAIN; DFS_MKK_DOMAIN; DFS_CN_DOMAIN; DFS_KR_DOMAIN].

#[local] Instance entry_fits_dec rp : Decision (entry_fits rp).
Proof. unfold entry_fits. apply _. Defined.

(** The periods of a pulse train of the entry [rp], in microseconds, are inside
    the window of its filter. *)
Definition covers (rp : dfs_pulse) : Prop :=
  rf_minpri (filter_for rp) <= 1000000 / rp_max_pulsefreq rp ∧ 1000000 / rp_pulsefreq rp <= rf_maxpri (filter_for rp).
#[local] Instance covers_dec rp : Decision (covers rp).
Proof. unfold covers. apply _. Defined.

Lemma region_tab_fits domain pri_multiplier :
  domain ∈ dfs_regions → let info := radar_tab domain pri_multiplier in
  tab_dfsdomain info = domain ∧ tab_fits info ∧ (∀ rp, rp ∈ tab_radars info → covers rp) ∧
  length (tab_b5pulses info) = (if bool_decide (domain ∈ [DFS_FCC_DOMAIN; DFS_MKK_DOMAIN]) then 1%nat else 0%nat).
Proof.
  intros Hd info. unfold info. clear info.
  assert (Hc : ∀ rps, bool_decide (Forall entry_fits rps) = true → bool_decide (Forall covers rps) = true →
    Forall entry_fits rps ∧ ∀ rp, rp ∈ rps → covers rp).
  { intros rps H1%bool_decide_eq_true_1 H2%bool_decide_eq_true_1. split; [done|]. by rewrite Forall_forall in H2. }
  repeat (apply elem_of_cons in Hd as [->|Hd];
    [match goal with |- context [radar_tab ?x _] => destruct (Hc (tab_radars (radar_tab x 0))) as [H1 H2]; [vm_compute; reflexivity..|] end;
     split; [reflexivity|]; split; [split; [discriminate|]; split; [cbn; lia|]; split; [exact H1|cbn; lia]|]; split; [exact H2|reflexivity]|]).
  by apply not_elem_of_nil in Hd.
Qed.

(** C37: the radar tables of every region fit.  Configuring any device whose arrays
    have their sizes, whatever its channel, mode and earlier region, for a region
    that the code knows succeeds and stays inside the arrays of types, filters and
    durations.  The device that it leaves is one that the radar task needs and that
    can be configured again; it has the chirp detectors of the region and, for
    every pulse of the region's table, a filter of the pulse's parameters whose
    type is entered for each of the pulse's durations and whose window has the
    pulse's periods; no event object is lost and none is queued. *)
Theorem radar_tables_fit domain pri_multiplier hostap ext_ch d :
  domain ∈ dfs_regions → configurable d →
  ∃ d', wma_dfs_configure domain pri_multiplier hostap ext_ch d = Some (DFS_STATUS_SUCCESS, d') ∧
    dfs_ok d' ∧ configurable d' ∧ dfsdomain d' = domain ∧
    rn_numbin5radars (dfs_rinfo d') = (if bool_decide (domain ∈ [DFS_FCC_DOMAIN; DFS_MKK_DOMAIN]) then 1 else 0) ∧
    rn_numradars (dfs_rinfo d') <= DFS_MAX_RADAR_TYPES ∧
    (∀ rp, rp ∈ tab_radars (radar_tab domain pri_multiplier) → listens_for d' rp ∧ covers rp) ∧
    dfs_radarq d' = [] ∧ num_events d' = num_events d.
Proof.
  intros Hd Hc. destruct (region_tab_fits domain pri_multiplier Hd) as (Hdom & Hfit & Hcov & Hb5).
  destruct (radar_enable_ready (radar_tab domain pri_multiplier) hostap ext_ch d Hc Hfit) as (d' & E & Hr & Hq).
  exists d'. split; [exact E|]. pose proof Hr as []. split; [done|]. split.
  { apply dfs_ok_configurable; [done|]. rewrite tr_chan0, tr_board0. apply Hc. }
  split; [congruence|]. split; [rewrite tr_b6, Hb5; by destruct (bool_decide _)|]. split; [lia|]. split; [|done].
  intros rp Hrp. split; [by apply tr_listens0|by apply Hcov].
Qed.
