(* ===== verification/DfsDemo.v ===== *)
(** Witnesses for the theorems of the radar detection: a device attached on channel
    100 and configured with the tables of the FCC. *)
From S2P Require Import Prelude Arrays DfsTypes DfsLine DfsBin DfsCheck DfsEvent DfsInit DfsSafe DfsQuiet DfsTrain DfsSetup.

(** ** Deciding the invariants *)
#[local] Instance ring_shape_dec {A} size (r : ring A) : Decision (ring_shape size r).
Proof. unfold ring_shape. apply _. Defined.
#[local] Instance ring_wf_dec {A} size (r : ring A) : Decision (ring_wf size r).
Proof. unfold ring_wf. apply _. Defined.
#[local] Instance filter_shape_dec rf : Decision (filter_shape rf).
Proof. unfold filter_shape. apply _. Defined.
#[local] Instance type_ok_dec ft : Decision (type_ok ft).
Proof. unfold type_ok. apply _. Defined.
#[local] Instance dur_row_ok_dec row : Decision (dur_row_ok row).
Proof. unfold dur_row_ok. apply _. Defined.
#[local] Instance b5_list_ok_dec n l : Decision (b5_list_ok n l).
Proof. unfold b5_list_ok. apply _. Defined.
#[local] Instance event_ok_dec re : Decision (event_ok re).
Proof. unfold event_ok. apply _. Defined.
#[local] Instance filter_quiet_dec k rf : Decision (filter_quiet k rf).
Proof. unfold filter_quiet. apply _. Defined.
#[local] Instance type_quiet_dec k ft : Decision (type_quiet k ft).
Proof. unfold type_quiet. apply _. Defined.
#[local] Instance b5_quiet_dec k br : Decision (b5_quiet k br).
Proof. unfold b5_quiet. apply _. Defined.

#[local] Hint Opaque ring_shape ring_wf filter_shape type_ok dur_row_ok b5_list_ok event_ok filter_quiet type_quiet b5_quiet : typeclass_instances.

(** Evaluate a decidable goal. *)
Ltac evaluate :=
  match goal with |- ?P =>
    let D := constr:(_ : Decision P) in apply (@bool_decide_eq_true_1 P D); vm_compute; reflexivity
  end.

(** ** The device *)

(** Channel 100 of 20 MHz, a DFS channel, and a channel of 80 + 80 MHz. *)
Definition demo_channel : dfs_ieee80211_channel := mk_ch 5500 0x10140 2 100 0 0 0 false 0.
Definition demo_80p80 : dfs_ieee80211_channel := mk_ch 5500 0x1000100 2 100 106 122 30 true 0.

(** A device of an access point that is attached and configured. *)
Definition configured (domain board : Z) (chan : dfs_ieee80211_channel) : option (Z * ath_dfs) :=
  '(_, d) ← dfs_attach chan board (replicate 16 (-1));
  wma_dfs_configure domain 2 true None d.

(** Whether a device satisfies the invariant, field by field. *)
Definition dfs_okb (d : ath_dfs) : bool :=
  bool_decide (length (dfs_radar d) = 64%nat) && bool_decide (length (dfs_radarf d) = 32%nat) &&
  bool_decide (Forall type_ok (dfs_radarf d)) && bool_decide (length (dfs_radartable d) = 256%nat) &&
  bool_decide (Forall dur_row_ok (dfs_radartable d)) && bool_decide (ring_shape DFS_MAX_PULSE_BUFFER_SIZE (pulses d)) &&
  match pulses_ext_seg d with
  | Some pl => bool_decide (ring_shape DFS_MAX_PULSE_BUFFER_SIZE pl)
  | None => negb (ic_80p80_both_dfs (ic_curchan d))
  end &&
  bool_decide (0 <= rn_numbin5radars (dfs_rinfo d) <= 1) &&
  match dfs_b5radars d with
  | Some l => bool_decide (b5_list_ok (rn_numbin5radars (dfs_rinfo d)) l)
  | None => rn_numbin5radars (dfs_rinfo d) =? 0
  end &&
  match dfs_b5radars_ext_seg d with
  | Some l => bool_decide (b5_list_ok (rn_numbin5radars (dfs_rinfo d)) l)
  | None => negb (ic_80p80_both_dfs (ic_curchan d)) || (rn_numbin5radars (dfs_rinfo d) =? 0)
  end &&
  bool_decide (0 <= dfs_last_bin5_dur (dfs_rinfo d) < 256) && bool_decide (0 <= dfs_last_bin5_dur_ext_seg (dfs_rinfo d) < 256) &&
  bool_decide (Forall event_ok (dfs_radarq d)).

Lemma dfs_okb_ok d : dfs_okb d = true → dfs_ok d.
Proof.
  unfold dfs_okb. intros H. bool_hyps. split; try done.
  - destruct (pulses_ext_seg d); [by eapply bool_decide_eq_true_1|by apply negb_true_iff].
  - destruct (dfs_b5radars d); [by eapply bool_decide_eq_true_1|by apply Z.eqb_eq].
  - destruct (dfs_b5radars_ext_seg d); [by eapply bool_decide_eq_true_1|]. intros E. rewrite E in *. by apply Z.eqb_eq.
Qed.

(** ** Witnesses *)
Definition demo : ath_dfs := match configured DFS_FCC_DOMAIN 2 demo_channel with Some (_, d) => d | None => attached demo_channel 2 [] end.

(** Pulses of one microsecond every 2857 microseconds. *)
Definition demo_pulse (i : Z) : dfs_event := mk_ev (100000 + 2857 * i) (100000 + 2857 * i) 30 1 0 0 1 0 1.
Definition queued (evs : list dfs_event) (d : ath_dfs) : ath_dfs := d <| dfs_radarq := evs |>.
Definition demo_train : ath_dfs := queued (map demo_pulse [0; 1; 2; 3; 4]) demo.
Definition demo_ft : dfs_filtertype := default zero_type (aget (dfs_radarf demo_train) 0).
Definition demo_rf : dfs_filter := default zero_filter (aget (ft_filters demo_ft) 1).

Lemma demo_train_ok : dfs_ok demo_train.
Proof. apply dfs_okb_ok. vm_compute. reflexivity. Qed.

(** An attached device of 80 + 80 MHz is configured for the FCC's region and, in
    another mode, for ETSI's. *)
Definition demo_attached : ath_dfs :=
  match dfs_attach demo_80p80 2 (replicate 16 7) with Some (_, d) => d | None => attached demo_80p80 2 [] end.
Lemma demo_configurable : configurable demo_attached.
Proof.
  assert (configurable (attached demo_80p80 2 (replicate 16 7))) as H by (apply attached_configurable; [reflexivity|discriminate]).
  destruct H. split; done.
Qed.

Lemma radar_tables_fit_witness :
  ∃ d1 d2, wma_dfs_configure DFS_FCC_DOMAIN 2 true None demo_attached = Some (DFS_STATUS_SUCCESS, d1) ∧
    rn_numbin5radars (dfs_rinfo d1) = 1 ∧ wma_dfs_configure DFS_ETSI_DOMAIN 3 false (Some demo_channel) d1 = Some (DFS_STATUS_SUCCESS, d2) ∧
    dfs_ok d2 ∧ rn_numbin5radars (dfs_rinfo d2) = 0 ∧ listens_for d2 (mk_rp 20 30 2000 4000 0 24 6 19 33 24 0 0 0 36).
Proof.
  destruct (radar_tables_fit DFS_FCC_DOMAIN 2 true None demo_attached) as (d1 & E1 & _ & H1 & _ & B1 & _); [by left|exact demo_configurable|].
  destruct (radar_tables_fit DFS_ETSI_DOMAIN 3 false (Some demo_channel) d1) as (d2 & E2 & H2 & _ & _ & B2 & _ & L2 & _); [by right; left|exact H1|].
  exists d1, d2. split; [exact E1|]. split; [exact B1|]. split; [exact E2|]. split; [exact H2|]. split; [exact B2|].
  apply (L2 (mk_rp 20 30 2000 4000 0 24 6 19 33 24 0 0 0 36)). by do 8 right; left.
Defined.

(** For an unknown region the filters are not set up and the detection is disabled,
    but then enabled again for an access point on a DFS channel. *)
Example unknown_region_enabled :
  (dfs_proc_phyerr ∘ snd) <$> dfs_init_radar_filters (Some (radar_tab 9 2)) demo_attached = Some 0 ∧
  (λ '(status, d), (status, Z.land (dfs_proc_phyerr d) DFS_RADAR_EN)) <$> wma_dfs_configure 9 2 true None demo_attached =
    Some (DFS_STATUS_SUCCESS, DFS_RADAR_EN).
Proof. by vm_compute. Qed.

Lemma radar_task_safe_witness :
  ∃ f d', dfs_task demo_train = Some (f, d') ∧ dfs_ok d' ∧ num_events d' = num_events demo_train ∧ ath_radar_tasksched d' = false ∧
    num_radar_detects d' = (if f : bool then u32 (num_radar_detects demo_train + 1) else num_radar_detects demo_train) ∧
    (f = true → dfs_radarq d' = []).
Proof. apply (radar_task_safe demo_train demo_train_ok). intros E. vm_compute in E. discriminate E. Defined.

Lemma b5_quietb k (o : option (list dfs_bin5radars)) :
  match o with Some l => bool_decide (Forall (b5_quiet k) l) | None => true end = true → ∀ l, o = Some l → Forall (b5_quiet k) l.
Proof. intros H l ->. exact (bool_decide_eq_true_1 _ H). Qed.
Lemma b5_shortb x (o : option (list dfs_bin5radars)) :
  match o with Some l => bool_decide (Forall (λ br, x < b5_mindur (br_pulse br)) l) | None => true end = true →
  ∀ l br, o = Some l → br ∈ l → x < b5_mindur (br_pulse br).
Proof. intros H l br -> Hbr. apply bool_decide_eq_true_1 in H. rewrite Forall_forall in H. by apply H. Qed.

(** Two pulses are too few for every filter of the region. *)
Lemma no_radar_without_pulses_witness : ∃ d', dfs_task (queued (map demo_pulse [0; 1]) demo) = Some (false, d').
Proof.
  apply no_radar_without_pulses.
  - apply dfs_okb_ok. vm_compute. reflexivity.
  - vm_compute. reflexivity.
  - split; [evaluate|apply b5_quietb; vm_compute; reflexivity..].
Defined.

Lemma demo_listens : listens demo_train 0 1 2852 2860 demo_ft demo_rf.
Proof.
  split; [vm_compute; reflexivity..| | |evaluate|evaluate].
  - split; [vm_compute; reflexivity|evaluate].
  - split; [vm_compute; reflexivity|vm_compute; reflexivity|evaluate|lia|]. intros _. evaluate.
Qed.

Lemma demo_event i : i ∈ [0; 1; 2; 3; 4] → train_event demo_train 0 demo_ft demo_rf (demo_pulse i).
Proof.
  intros Hi. assert (0 <= i <= 4) as Hr by (repeat (apply elem_of_cons in Hi as [->|Hi]; [lia|]); by apply elem_of_nil in Hi).
  split.
  - exists demo_channel. split; [vm_compute; reflexivity|reflexivity].
  - change (re_dur (demo_pulse i)) with 1. evaluate.
  - right. cbn. lia.
  - by cbn.
  - unfold is_u32. cbn. lia.
  - change (re_dur (demo_pulse i)) with 1. apply b5_shortb. vm_compute. reflexivity.
  - exists (default [] (aget (dfs_radartable demo_train) 1)), 0. change (re_dur (demo_pulse i)) with 1.
    split; [vm_compute; reflexivity|]. split; [lia|]. split; [vm_compute; reflexivity|]. intros j Hj. lia.
Qed.

Lemma demo_quiet : quiet_before demo_train demo_ft demo_rf 2860 (event_time (dfs_rinfo demo_train) (demo_pulse 0)).1.
Proof. split; evaluate. Qed.

Lemma regular_train_detected_witness : ∃ d', dfs_task demo_train = Some (true, d').
Proof.
  apply (regular_train_detected demo_train 0 1 2852 2860 1 demo_ft demo_rf (demo_pulse 0) (map demo_pulse [1; 2; 3; 4])).
  - exact demo_train_ok.
  - exact demo_listens.
  - lia.
  - split; [exists 0; vm_compute; reflexivity|unfold is_u64; evaluate].
  - vm_compute. reflexivity.
  - vm_compute. reflexivity.
  - right. evaluate.
  - reflexivity.
  - evaluate.
  - change (demo_pulse 0 :: map demo_pulse [1; 2; 3; 4]) with (map demo_pulse [0; 1; 2; 3; 4]). apply Forall_map, Forall_forall. apply demo_event.
  - repeat (apply Forall_cons; split; [cbn; lia|]). apply Forall_nil_2.
  - repeat (split; [unfold gap_ok; cbn; lia|]). done.
  - exact demo_quiet.
Defined.

(** Pulses that fill a window, one of them too old for it. *)
Definition demo_pulses : list (dfs_event * Z * Z) :=
  [(demo_pulse 0, 0, 100); (demo_pulse 1, 2857, 2957); (demo_pulse 2, 2857, 5814); (demo_pulse 3, 2857, 8671)].
Definition demo_chirps : list (dfs_event * Z) := [(demo_pulse 0, 1000); (demo_pulse 1, 2500); (demo_pulse 2, 3000); (demo_pulse 3, 903000)].

Lemma pulse_windows_witness :
  let dl := mk_ring (replicate 64 zero_delay) 5 3 9 in let br := mk_ring (replicate 128 zero_b5elem) 7 1 2 in
  let h := reverse (map pulse_elem demo_pulses) in let a := b5_accepted (reverse (map b5_elem demo_chirps)) in
  (reverse (ring_list DFS_MAX_DL_MASK (add_pulses 6000 demo_pulses (ring_reset zero_delay DFS_MAX_DL_MASK dl))) =
     take 64 (recent de_ts 6000 (latest de_ts h) h) ∧
   reverse (ring_list DFS_MAX_B5_MASK (offer_pulses 12000000 demo_chirps (ring_reset zero_b5elem DFS_MAX_B5_MASK br))) =
     take 128 (recent be_ts 12000000 (latest be_ts a) a)) ∧
  map de_ts (recent de_ts 6000 (latest de_ts h) h) = [8671; 5814; 2957] ∧ map be_ts a = [903000; 2500; 1000].
Proof.
  intros dl br h a. split; [|split; vm_compute; reflexivity].
  apply (pulse_windows 6000 12000000 dl br demo_pulses demo_chirps); [lia|lia|reflexivity|reflexivity| |].
  - split; [repeat constructor; vm_compute; discriminate|]. intros x y Hx Hy.
    repeat (apply elem_of_cons in Hx as [->|Hx]; [repeat (apply elem_of_cons in Hy as [->|Hy]; [vm_compute; reflexivity|]); by apply elem_of_nil in Hy|]).
    by apply elem_of_nil in Hx.
  - split; [repeat constructor; vm_compute; discriminate|]. intros x y Hx Hy.
    repeat (apply elem_of_cons in Hx as [->|Hx]; [repeat (apply elem_of_cons in Hy as [->|Hy]; [vm_compute; reflexivity|]); by apply elem_of_nil in Hy|]).
    by apply elem_of_nil in Hx.
Defined.
